(* ===== verification/_CoqProject ===== *)
-Q . S2P
Prelude.v
StrictJson.v
Identifiers.v
Grouping.v
SlaPolicy.v
SlaInput.v
IndividualSla.v
JsonText.v
JsonSorted.v
Calendar.v
CohortKey.v
CohortState.v
Jobs.v
JobsExample.v
JobsSpec.v
JobsRefine.v
JobsProps.v
JobsRecovery.v
SlaWarnings.v
AuditLedger.v
Tables.v
CommandBoundary.v
CommandReplay.v
CommandAudit.v
CommandDomain.v
ObjectiveTables.v
Regroup.v
RegroupSweep.v
RegroupSound.v
RegroupProps.v
ObjectiveStore.v
ObjectiveAggregate.v
RegroupStore.v
RegroupManual.v
RegroupContracts.v
RegroupCommands.v
RegroupDecisions.v
RegroupSamples.v
ObjectiveAggregateProps.v
RegroupLife.v
RegroupAccept.v
RegroupAccepted.v
RegroupHistory.v
RegroupLimits.v
TaskFold.v
TaskStore.v
TaskAuthority.v
TaskPreviews.v
TaskContracts.v
TaskExecution.v
TaskCorrection.v
TaskLife.v
TaskAgree.v
TaskHistory.v
TaskRuns.v
TaskReviewed.v
TaskProps.v
TicketTables.v
RfcIdentity.v
RfcHierarchy.v
TicketLinks.v
RfcImports.v
TicketForest.v
TicketEffects.v
TicketRuns.v
TicketReads.v
TicketReviewed.v
TicketProps.v
CascadeScope.v
RfcProjection.v
CascadeReview.v
CascadeCommands.v
CascadeLife.v
CascadeRuns.v
CascadeProps.v
RfcAccepted.v
CascadeSamples.v
ImportLogical.v
ImportFrames.v
ImportVariants.v
