(* ===== verification/Prelude.v ===== *)
(** * A verification library for soma-beta

    soma-beta keeps tickets, their service levels and an inventory in one
    SQLite database.  Every command runs in one unit of work, is recorded in a
    ledger and can be replayed; long work runs as durable jobs; imported
    workbooks are reduced to a logical fingerprint; service levels are computed
    exactly from recorded evidence.  This library models that core as
    executable definitions, translated from [src/src/soma/], and proves what
    makes it correct.

    ** Conventions

    Fallible code returns a [result]: a value, or an exception that is either a
    [SomaError] of the program or a language error by name.  Code that reads
    and writes tables is a state transformer [stM]; [in_uow] is
    [UnitOfWork.__exit__] (commit on return, rollback on error).  Tables are
    [gmap]s by primary key or lists in row order, with the constraints of the
    migrations ([UNIQUE], [CHECK], [FOREIGN KEY]) raised where an insert or
    update violates them.  Integers are unbounded, as in the source; text is
    its UTF-8 bytes, so byte order is code point order.  Exact durations are
    rationals in lowest terms.  Clock readings, fresh identities, SHA-256, the
    text of floats and the IANA zone data are parameters.

    ** Files

    Foundation ([foundation/]):
    - [Prelude]: results, the state monad, orders, sorting, grouping, tactics;
    - [Tables]: the statements over tables, tokens and closed objects the
      packets share;
    - [StrictJson], [JsonText], [JsonSorted]: [strict_json.py]; canonical text,
      strict parser, bounds, object contracts; the parser reads canonical text
      back, keys in order;
    - [Identifiers]: [identifiers.py] and the digest checks;
    - [AuditLedger]: [audit/writer.py], [audit/registry.py], the ledger tables;
    - [CommandBoundary], [CommandReplay], [CommandAudit], [CommandDomain]:
      [application/command_boundary.py] and [command_receipts.py]; a command is
      all or nothing, is audited, is replayed exactly and its identity cannot
      be reused; what a packet's command does to its own tables is what its
      apply callback does, or nothing;
    - [Jobs], [JobsExample], [JobsSpec], [JobsRefine], [JobsProps],
      [JobsRecovery]: [jobs/coordinator.py]; [JobsSpec] is the abstract state
      machine of jobs and attempts, [JobsRefine] proves every operation of
      [Jobs] performs only its transitions, and the rest follows by induction
      on [star transition].

    Service levels ([product_line_sla/], [tickets/service_request_sla_input.py]):
    - [SlaPolicy]: [domain/policy.py], [algorithms/policy_validation.py];
    - [SlaInput]: the evidence a calculation stands on and its paged listing;
    - [IndividualSla]: [algorithms/individual_sla.py] with its read cache;
    - [Calendar], [CohortKey], [CohortState]: [algorithms/cohort_state.py],
      month bounds, opaque keys, cohorts; cohort states are proved against all
      ways the open members may still end;
    - [SlaWarnings]: [algorithms/warnings.py].

    Tickets and objectives:
    - [ImportLogical], [ImportFrames], [ImportVariants]:
      [ticket_import/reconciliation/engine.py]; frames determine the content
      they encode, the partition into variants is exact, the fingerprint
      ignores the order of rows;
    - [Grouping]: [objectives_tasks/domain/grouping.py], overlap sweeps;
    - [ObjectiveTables], [ObjectiveStore]: the tables of
      [migrations/0006_objectives_tasks.sql] and the statements over them, with
      their constraints and triggers;
    - [Regroup], [RegroupManual]: the snapshot of the eligible work, the regroup
      candidates and the manual merge of
      [objectives_tasks/services/grouping.py]; [RegroupSweep] and
      [RegroupProps] prove the single sweep finds every component's Objectives,
      [RegroupSound] that a candidate changes eligible work only, towards one
      survivor;
    - [ObjectiveAggregate], [ObjectiveAggregateProps]:
      [repositories/objectives.py], the state of an Objective derived from its
      members and its guarded rebuild;
    - [RegroupStore]: [repositories/grouping.py]; [RegroupContracts]:
      [objectives_tasks/jobs/__init__.py] and the grouping actions of
      [objectives_tasks/audit_registry.py];
    - [RegroupCommands]: the recompute command and
      [jobs/grouping_recompute.py]; [RegroupDecisions]: accept, reject and
      reconsider; [RegroupSamples]: a sample database;
    - [RegroupAccept]: what an acceptance writes, table by table, and that it
      keeps the Objectives consistent when no member of a superseded Objective
      is left behind; [RegroupAccepted]: the same for the whole command, from the
      reviewed proposal, as an equivalence;
    - [RegroupLife], [RegroupHistory]: the commands and the worker as steps,
      what holds along every history, and that a locked member of a superseded
      Objective is left behind for good; [RegroupLimits]: how large a recompute
      and an acceptance may be.

    Task execution ([objectives_tasks/], services/task_execution.py,
    services/task_review.py, queries/execution_review.py):
    - [TaskFold]: the fold of the immutable execution history and its meaning;
    - [TaskStore]: the statements with their triggers, [repositories/tasks.py];
    - [TaskAuthority]: the authority a command stands on; [TaskPreviews]: the
      exact previews of corrections and reviews, with their own readers;
    - [TaskContracts]: the audit contracts, and the readers of
      committed mutations in [contracts/objectives_tasks.py];
    - [TaskExecution], [TaskCorrection]: the seven commands;
    - [TaskLife]: what each command writes; [TaskHistory]: the life of one task
      as a small machine over its history and outcome; [TaskRuns]: every
      sequence of commands refines it, and what none can do;
    - [TaskAgree]: the three readers of an execution (commands,
      previews, the Objective's aggregate) agree; [TaskReviewed]: a correction
      does what its preview showed, a start of several tasks starts exactly
      those; [TaskProps]: a sample history.

    Tickets ([tickets/], [migrations/0003_tickets_core.sql]):
    - [TicketTables]: the ticket tables with their triggers and partial indexes;
    - [RfcIdentity]: [queries/rfcs.py], [queries/rfc_branches.py], details,
      cursors, pages, fingerprints and committed responses; the identity
      commands of [rfcs.py];
    - [RfcHierarchy]: [rfc_hierarchy.py] with the
      previews of [queries/relationship_previews.py];
      [TicketLinks]: [relationships.py]; [RfcImports]:
      [rfc_import_mutations.py], [rfc_import_reader.py];
    - [TicketForest]: the abstract hierarchy, a forest of two levels with
      linked roots, and its steps; [TicketEffects]: what the
      statements and the commands do to it, histories that are only appended
      and revisions that only grow; [TicketRuns]: every
      sequence of commands refines the forest;
    - [TicketReads]: a branch read is exact and its pages cover the branch;
      [TicketReviewed]: the committed response fits and reads back, a reparent
      does what was reviewed; [TicketProps]:
      a sample history, and the subordinates of different
      Customers a root without one can collect.

    The end of an RFC ([tickets/], the same tables):
    - [CascadeScope]: the tables of the source projection and of the
      cascades; what a cascade covers, its fingerprint and its capture
      ([_rfc_terminal_cascade_state.py], [rfc_terminal_scope.py]);
    - [RfcProjection]: [rfc_source_projection.py], [queries/rfc_lifecycle.py],
      [rfc_wfm_provisional.py], and the acceptance in
      [rfc_import_mutations.py]: which fields change, the epoch of the end, the
      reviewed reversal, the captured cascade;
    - [CascadeReview]: [queries/rfc_terminal_cascade.py],
      [rfc_terminal_review.py]: the pending proposal and its preview across the
      packets; [CascadeCommands]: refresh and the deliberate execution
      ([_rfc_terminal_cascade_execution.py]) with their audit contracts;
    - [CascadeLife]: what a stored proposal holds, and the life of a cascade
      as a small machine: an RFC ends in an epoch, its cascade is refreshed,
      executed or reversed; [CascadeRuns]: what each operation does to the
      tables; [CascadeProps]: every sequence of operations refines the
      machine, a pending proposal always reads, a ready preview is accepted by
      the execution and an execution executes what was reviewed;
    - [RfcAccepted]: accepted fields are exactly those of the deltas,
      accepting again changes nothing, and the rules of the status;
      [CascadeSamples]: a sample life.

    The components meet where the code makes them meet: [IndividualSla] reads
    [SlaInput] and policies, [CohortState] calls [IndividualSla] for each
    request of a month with one shared cache, [SlaWarnings] calls both; the
    regroup, task and ticket commands are callbacks of [CommandBoundary] and write
    events through [AuditLedger]; the regroup and task commands rebuild the
    aggregate of the Objective they touch; an accepted source field that ends an
    RFC captures a cascade over the hierarchy, in the unit of work of the import,
    and the tasks and communications of the cascade take part through an
    interface ([RfcTerminalTaskParticipant], [execution_participant]);
    the recompute enqueues through [Jobs]; the ledger, the jobs and every
    fingerprint print through [StrictJson].

    ** Fuel

    The JSON parser and [_measure] run on fuel that is the length of the text
    and the number of pending nodes; [measure_stack_correct] and
    [canonical_json_roundtrip] show it suffices.  The month calculation pages
    with one unit of fuel per row of the projection table;
    [calculate_month_terminates] shows it never runs out.  The walk along the
    corrections of an outcome has one unit more than there are events;
    [load_outcome_authority_terminates] shows it suffices.  Reading all pages of a
    branch has one unit more than it has subordinates; [branch_pages_cover]
    shows it suffices.

    ** Not modelled

    The interpreter's recursion limit and memory; SQLite itself (locking,
    [json_valid]; the readings of [PRAGMA data_version] are inputs, and that
    equal readings mean an unchanged database is a hypothesis); files, sockets,
    processes and the workbook reader; HTTP routes and composition.  Callbacks
    of commands and jobs are arbitrary state transformers, restricted where a
    theorem says so.  The other command handlers of the packets (Service
    Requests, notes and archives of tickets, planning and Objectives,
    inventory, reference, SLA services), their read queries and the report
    writer are not modelled yet.  What protects the history of an RFC is decided
    by a provider the code only calls, a parameter; so are the provider of accepted
    evidence, the proof of a deliberate action and the participants of a cascade
    in the task and communication packets, of which the runs assume that they
    leave the tickets and the cascades aside.  A cancelled process
    between two units of work is covered by the job recovery theorems only. *)
From stdpp Require Export base tactics gmap strings list sorting.
From Stdlib Require Export ZArith Lia.

#[export] Set Warnings "-clear-no-such-hyp".
#[global] Open Scope string_scope.
#[global] Open Scope list_scope.
#[global] Open Scope Z_scope.

(** * Errors

    [foundation/errors.py] gives every application error a transport-safe
    code, a message and a retryable flag.  A callback may also raise an
    exception of the language ([ValueError], [TypeError], ...): [PyExn]. *)
Record SomaError := MkSomaError {
  code : string;
  message : string;
  retryable : bool
}.

Definition ValidationError (m : string) : SomaError :=
  MkSomaError "VALIDATION_FAILED" m false.
Definition IdempotencyConflict : SomaError :=
  MkSomaError "IDEMPOTENCY_CONFLICT"
    "command replay does not match committed receipt" false.
Definition IdempotencyResultUnavailable : SomaError :=
  MkSomaError "IDEMPOTENCY_RESULT_UNAVAILABLE"
    "exact result for the committed legacy command is unavailable" false.
Definition IntegrityFailure (m : string) : SomaError :=
  MkSomaError "INTEGRITY_FAILURE" m false.
Definition JobClaimConflict : SomaError :=
  MkSomaError "JOB_CLAIM_CONFLICT"
    "durable job claim no longer matches current attempt" true.
Definition PersistenceFailure (m : string) : SomaError :=
  MkSomaError "PERSISTENCE_FAILURE" m false.

Inductive exn :=
| Soma (e : SomaError)
| PyExn (kind : string).

#[export] Instance SomaError_eq_dec : EqDecision SomaError.
Proof. solve_decision. Defined.
#[export] Instance exn_eq_dec : EqDecision exn.
Proof. solve_decision. Defined.

(** * The error monad: a Python call returns a value or raises. *)
Inductive result (A : Type) :=
| Ok (a : A)
| Raise (e : exn).
Arguments Ok {A} a.
Arguments Raise {A} e.

#[export] Instance result_ret : MRet result := fun A a => Ok a.
#[export] Instance result_bind : MBind result := fun A B f m =>
  match m with Ok a => f a | Raise e => Raise e end.
#[export] Instance result_fmap : FMap result := fun A B f m =>
  match m with Ok a => Ok (f a) | Raise e => Raise e end.

Definition raise {A} (e : SomaError) : result A := Raise (Soma e).
(** [if bad: raise e]. *)
Definition forbid (bad : bool) (e : SomaError) : result unit :=
  if bad then raise e else Ok tt.
Definition isOk {A} (r : result A) : bool :=
  match r with Ok _ => true | Raise _ => false end.
(** [try: r except SomaError as exc: raise h(exc)]. *)
Definition rethrow {A} (h : exn -> exn) (r : result A) : result A :=
  match r with Ok a => Ok a | Raise e => Raise (h e) end.

(** [tuple(f(x) for x in l)]: left to right, the first raise wins. *)
Fixpoint traverse {A B} (f : A -> result B) (l : list A) : result (list B) :=
  match l with
  | [] => Ok []
  | x :: l => y ← f x; ys ← traverse f l; Ok (y :: ys)
  end.
(** A loop threading a state: [for x in l: s = f(s, x)]. *)
Fixpoint foldM {A S} (f : S -> A -> result S) (s : S) (l : list A) : result S :=
  match l with
  | [] => Ok s
  | x :: l => s' ← f s x; foldM f s' l
  end.

(** * Stateful calls: the state a call leaves is kept when it raises. *)
Definition stM (S A : Type) : Type := S -> S * result A.
#[export] Instance stM_ret S : MRet (stM S) := fun A a s => (s, Ok a).
#[export] Instance stM_bind S : MBind (stM S) := fun A B f m s =>
  match m s with
  | (s', Ok a) => f a s'
  | (s', Raise e) => (s', Raise e)
  end.
Definition lift {S A} (r : result A) : stM S A := fun s => (s, r).
(** [with UnitOfWork(...)]: commit, or roll back and raise. *)
Definition in_uow {S A} (m : stM S A) : stM S A := fun s =>
  match m s with (s', Ok a) => (s', Ok a) | (_, Raise e) => (s, Raise e) end.
Definition read_st {S} : stM S S := fun s => (s, Ok s).
Definition modify_st {S} (f : S -> S) : stM S unit := fun s => (f s, Ok tt).
(** [for x in l: f(x)]. *)
Fixpoint each {S A} (f : A -> stM S unit) (l : list A) : stM S unit :=
  match l with
  | [] => mret tt
  | x :: l => _ ← f x; each f l
  end.

(** A loop threading a value: [for x in l: b = f(b, x)]. *)
Fixpoint foldS {S A B} (f : B -> A -> stM S B) (b : B) (l : list A) : stM S B :=
  match l with
  | [] => mret b
  | x :: l => b' ← f b x; foldS f b' l
  end.

Lemma bind_ok {A B} (m : result A) (f : A -> result B) b :
  m ≫= f = Ok b <-> exists a, m = Ok a /\ f a = Ok b.
Proof.
  destruct m as [a|e]; split; [eauto| |done|].
  - by intros (a' & [= ->] & ?).
  - by intros (? & ? & ?).
Qed.
Lemma forbid_ok b e u : forbid b e = Ok u <-> b = false.
Proof. destruct b, u; simpl; split; congruence || done. Qed.
Lemma rethrow_ok {A} h (r : result A) a : rethrow h r = Ok a <-> r = Ok a.
Proof. destruct r; simpl; split; congruence || done. Qed.

Lemma traverse_ok {A B} (f : A -> result B) l l' :
  traverse f l = Ok l' <-> Forall2 (fun x y => f x = Ok y) l l'.
Proof.
  revert l'; induction l as [|x l IH]; intros l'; simpl.
  - split; [by intros [= <-]|by inversion 1].
  - rewrite bind_ok. setoid_rewrite bind_ok. split.
    + intros (y & Hy & ys & Hys & [= <-]). constructor; [done|by apply IH].
    + inversion 1 as [|? y ? ys]; simplify_eq.
      exists y; split; [done|]. exists ys. by rewrite IH.
Qed.
Lemma traverse_perm {A B} (f : A -> result B) l l' ys :
  l ≡ₚ l' -> traverse f l = Ok ys -> exists ys', traverse f l' = Ok ys' /\ ys ≡ₚ ys'.
Proof.
  setoid_rewrite traverse_ok. intros Hp Hf.
  destruct (Permutation_Forall2 Hp Hf) as (ys' & ? & ?). by exists ys'.
Qed.
Lemma traverse_length {A B} (f : A -> result B) l l' :
  traverse f l = Ok l' -> length l' = length l.
Proof. intros H%traverse_ok. symmetry. by eapply Forall2_length. Qed.
Lemma traverse_elem_of {A B} (f : A -> result B) l l' y :
  traverse f l = Ok l' -> y ∈ l' -> exists x, x ∈ l /\ f x = Ok y.
Proof.
  intros H%traverse_ok. induction H as [|x z l l' Hx _ IH]; [set_solver|].
  intros [->|Hy]%elem_of_cons; [set_solver|].
  destruct (IH Hy) as (x' & ? & ?). exists x'. set_solver.
Qed.
Lemma traverse_elem_of_l {A B} (f : A -> result B) l l' x :
  traverse f l = Ok l' -> x ∈ l -> exists y, y ∈ l' /\ f x = Ok y.
Proof.
  intros H%traverse_ok. induction H as [|x' z l l' Hx _ IH]; [set_solver|].
  intros [->|Hy]%elem_of_cons; [set_solver|].
  destruct (IH Hy) as (x1 & ? & ?). exists x1. set_solver.
Qed.
Lemma traverse_app {A B} (f : A -> result B) l1 l2 r1 r2 :
  traverse f l1 = Ok r1 -> traverse f l2 = Ok r2 -> traverse f (l1 ++ l2) = Ok (r1 ++ r2).
Proof. rewrite !traverse_ok. apply Forall2_app. Qed.
Lemma foldS_app {S A B} (f : B -> A -> stM S B) b l1 l2 s :
  foldS f b (l1 ++ l2) s = (foldS f b l1 ≫= fun b' => foldS f b' l2) s.
Proof.
  revert b s. induction l1 as [|x l1 IH]; intros b s; simpl; [done|].
  unfold mbind, stM_bind in *. destruct (f b x s) as [s1 [b1|e]]; [apply IH|done].
Qed.
Lemma foldM_app {A S} (f : S -> A -> result S) s l1 l2 :
  foldM f s (l1 ++ l2) = s' ← foldM f s l1; foldM f s' l2.
Proof.
  revert s; induction l1 as [|x l1 IH]; intros s; [done|]. simpl.
  destruct (f s x); simpl; [apply IH|done].
Qed.
Lemma foldM_inv {A S} (P : S -> Prop) (f : S -> A -> result S) s l s' :
  (forall s x s', P s -> x ∈ l -> f s x = Ok s' -> P s') ->
  P s -> foldM f s l = Ok s' -> P s'.
Proof.
  revert s; induction l as [|x l IH]; intros s Hf Hs; simpl.
  { by intros [= <-]. }
  rewrite bind_ok. intros (s1 & Hx & Hl).
  eapply (IH s1); [|by eapply Hf; [..|exact Hx]; [|set_solver]|done].
  intros; eapply Hf; [| |done]; [done|set_solver].
Qed.

(** ** Which exceptions a computation may raise *)
Definition raises_only {A} (P : exn -> Prop) (r : result A) : Prop :=
  forall e, r = Raise e -> P e.
Definition is_validation (e : exn) : Prop := exists m, e = Soma (ValidationError m).

Lemma raises_ok {A} P (a : A) : raises_only P (Ok a).
Proof. by intros e. Qed.
Lemma raises_raise {A} (P : exn -> Prop) e : P e -> raises_only P (Raise e : result A).
Proof. by intros ? ? [= <-]. Qed.
Lemma raises_forbid (P : exn -> Prop) b e : P (Soma e) -> raises_only P (forbid b e).
Proof. destruct b; [by apply raises_raise|intros; apply raises_ok]. Qed.
Lemma raises_bind {A B} P (m : result A) (f : A -> result B) :
  raises_only P m -> (forall a, m = Ok a -> raises_only P (f a)) -> raises_only P (m ≫= f).
Proof. destruct m as [a|e]; intros Hm Hf; [by apply Hf|]. by intros ? [= <-]; apply Hm. Qed.
Lemma raises_traverse {A B} P (f : A -> result B) l :
  (forall x, x ∈ l -> raises_only P (f x)) -> raises_only P (traverse f l).
Proof.
  induction l as [|x l IH]; intros Hf; simpl; [apply raises_ok|].
  apply raises_bind; [apply Hf; set_solver|]. intros y _.
  apply raises_bind; [apply IH; intros; apply Hf; rewrite elem_of_cons; auto|].
  intros; apply raises_ok.
Qed.
Lemma raises_foldM {A S} P (f : S -> A -> result S) s l :
  (forall s x, x ∈ l -> raises_only P (f s x)) -> raises_only P (foldM f s l).
Proof.
  revert s. induction l as [|x l IH]; intros s Hf; simpl; [apply raises_ok|].
  apply raises_bind; [apply Hf; set_solver|]. intros s' _.
  apply IH. intros; apply Hf. rewrite elem_of_cons; auto.
Qed.
Lemma raises_validation {A} m : raises_only is_validation (raise (ValidationError m) : result A).
Proof. apply raises_raise. by exists m. Qed.
Create HintDb raises discriminated.
#[export] Hint Resolve raises_ok raises_validation : raises.

(** Walks a computation, leaving the calls it cannot decide. *)
Ltac raises :=
  repeat lazymatch goal with
  | |- raises_only _ (mbind _ _) => apply raises_bind
  | |- raises_only _ (forbid _ _) => apply raises_forbid; by eexists
  | |- raises_only _ (Ok _) => apply raises_ok
  | |- raises_only _ (raise (ValidationError _)) => apply raises_validation
  | |- raises_only _ (traverse _ _) => fail
  | |- raises_only _ (match _ with _ => _ end) => case_match
  | |- raises_only _ _ => solve [auto with raises nocore]
  | |- forall _, _ => intro
  end.

Lemma raises_weaken {A} (P Q : exn -> Prop) (r : result A) :
  (forall e, P e -> Q e) -> raises_only P r -> raises_only Q r.
Proof. unfold raises_only. eauto. Qed.

(** ** Fuel

    A loop of the program that is not structural runs on fuel here; running out
    of it is an error the program does not have. *)
Definition out_of_fuel {A} : result A := Raise (PyExn "fuel").
Definition has_fuel (e : exn) : Prop := e <> PyExn "fuel".
Lemma raises_has_fuel {A} e : raises_only has_fuel (raise e : result A).
Proof. by apply raises_raise. Qed.
Lemma validation_has_fuel e : is_validation e -> has_fuel e.
Proof. by intros [? ->]. Qed.
(** The same of a stateful call, from any state. *)
Definition st_raises_only {S A} (P : exn -> Prop) (m : stM S A) : Prop :=
  forall s, raises_only P (snd (m s)).
Lemma st_raises_lift {S A} P (r : result A) : raises_only P r -> st_raises_only P (@lift S A r).
Proof. intros Hr s. exact Hr. Qed.
Lemma st_raises_bind {S A B} P (m : stM S A) (f : A -> stM S B) :
  st_raises_only P m -> (forall a, st_raises_only P (f a)) -> st_raises_only P (m ≫= f).
Proof.
  intros Hm Hf s. specialize (Hm s). unfold mbind, stM_bind.
  destruct (m s) as [s' [a|e]]; [apply Hf|]. intros e' [= <-]. by apply Hm.
Qed.
Lemma st_raises_foldS {S A B} P (f : B -> A -> stM S B) b l :
  (forall b x, st_raises_only P (f b x)) -> st_raises_only P (foldS f b l).
Proof.
  intros Hf. revert b. induction l as [|x l IH]; intros b; simpl; [intros s; apply raises_ok|].
  apply st_raises_bind; auto.
Qed.
Create HintDb fuel discriminated.
#[export] Hint Resolve raises_ok raises_has_fuel : fuel.
(** Shows that a computation does not run out of fuel. *)
Ltac has_fuel :=
  repeat lazymatch goal with
  | |- forall _, _ => intro
  | |- st_raises_only _ (mbind _ _) => apply st_raises_bind
  | |- st_raises_only _ (lift _) => apply st_raises_lift
  | |- st_raises_only _ (mret _) => intros ?; apply raises_ok
  | |- st_raises_only _ (let '(_, _) := ?p in _) => destruct p
  | |- st_raises_only _ (match _ with _ => _ end) => case_match
  | |- st_raises_only _ _ => solve [auto with fuel nocore]
  | |- raises_only _ (mbind _ _) => apply raises_bind
  | |- raises_only _ (forbid _ _) => by apply raises_forbid
  | |- raises_only _ (traverse _ _) => apply raises_traverse; intros ? _
  | |- raises_only _ (match _ with _ => _ end) => case_match
  | |- raises_only _ (Raise _) => by apply raises_raise
  | |- raises_only _ _ => solve [auto with fuel nocore]
  end.

(** [inv_ok H] turns [H : (x ← m; k) = Ok r] into the successful steps. *)
Ltac inv_ok1 H :=
  lazymatch type of H with
  | mbind _ _ = Ok _ =>
      let a := fresh "a" in let H1 := fresh H in
      apply bind_ok in H; destruct H as (a & H1 & H); inv_ok1 H1; inv_ok1 H
  | forbid _ _ = Ok ?u => apply forbid_ok in H
  | rethrow _ _ = Ok _ => apply rethrow_ok in H; inv_ok1 H
  | Ok _ = Ok _ => injection H as H; subst
  | mret _ = Ok _ => injection H as H; subst
  | raise _ = Ok _ => discriminate H
  | Raise _ = Ok _ => discriminate H
  | (if ?b then _ else _) = Ok _ =>
      let E := fresh "E" in destruct b eqn:E; inv_ok1 H
  | (match ?b with Some _ => _ | None => _ end) = Ok _ =>
      let E := fresh "E" in destruct b eqn:E; inv_ok1 H
  | _ => idtac
  end.
Ltac inv_ok H := cbv zeta in H; inv_ok1 H.
(** [inv_st H] does the same for [H : m s = (s', Ok r)] in [stM]. *)
Lemma stm_bind_ok {S A B} (m : stM S A) (f : A -> stM S B) s s'' b :
  (m ≫= f) s = (s'', Ok b) <-> exists s' a, m s = (s', Ok a) /\ f a s' = (s'', Ok b).
Proof.
  unfold mbind, stM_bind. destruct (m s) as [s' [a|e]]; naive_solver.
Qed.
Lemma stm_bind_raise {S A B} (m : stM S A) (f : A -> stM S B) s s'' e :
  (m ≫= f) s = (s'', Raise e) <->
  m s = (s'', Raise e) \/ exists s' a, m s = (s', Ok a) /\ f a s' = (s'', Raise e).
Proof.
  unfold mbind, stM_bind. destruct (m s) as [s' [a|e']]; naive_solver.
Qed.
Lemma lift_ok {S A} (r : result A) (s s' : S) a :
  lift r s = (s', Ok a) <-> s' = s /\ r = Ok a.
Proof. unfold lift. naive_solver. Qed.
(** A fallible computation that only reads, then [f]. *)
Lemma lift_bind_any {S A B} (r : result A) (f : A -> stM S B) s s' res :
  (lift r ≫= f) s = (s', res) -> (exists a, r = Ok a /\ f a s = (s', res)) \/ s' = s.
Proof. destruct r as [a|]; [left; by exists a|]. intros [= <- _]. by right. Qed.
Lemma lift_fails {S A B} (r : result A) (f : A -> stM S B) s :
  (forall a, r = Ok a -> exists e, f a s = (s, Raise e)) -> exists e, (lift r ≫= f) s = (s, Raise e).
Proof. intros Hf. unfold mbind, stM_bind, lift. destruct r as [a|e]; [by apply Hf|by exists e]. Qed.
Lemma in_uow_ok {S A} (m : stM S A) s s' res :
  in_uow m s = (s', res) ->
  (exists a, res = Ok a /\ m s = (s', Ok a)) \/ (exists e, res = Raise e /\ s' = s).
Proof.
  unfold in_uow. destruct (m s) as [s1 [a|e]]; intros [= <- <-]; [left|right]; eauto.
Qed.
Ltac inv_st1 H :=
  lazymatch type of H with
  | mbind _ _ _ = (_, Ok _) =>
      let s := fresh "s" in let a := fresh "a" in let H1 := fresh H in
      apply stm_bind_ok in H; destruct H as (s & a & H1 & H); inv_st1 H1; inv_st1 H
  | lift _ _ = (_, Ok _) =>
      let E := fresh "E" in apply lift_ok in H; destruct H as [E H]; subst; inv_ok1 H
  | mret _ _ = (_, Ok _) => injection H as H; subst
  | (if ?b then _ else _) _ = (_, Ok _) =>
      let E := fresh "E" in destruct b eqn:E; inv_st1 H
  | (match ?b with Some _ => _ | None => _ end) _ = (_, Ok _) =>
      let E := fresh "E" in destruct b eqn:E; inv_st1 H
  | _ => idtac
  end.
Ltac inv_st H := cbv zeta in H; inv_st1 H.
(** Boolean guards to propositions. *)
Ltac bool_hyps :=
  repeat match goal with
  | H : (_ || _)%bool = false |- _ => apply orb_false_iff in H; destruct H
  | H : (_ && _)%bool = true |- _ => apply andb_true_iff in H; destruct H
  | H : negb _ = false |- _ => apply negb_false_iff in H
  | H : negb _ = true |- _ => apply negb_true_iff in H
  | H : bool_decide _ = true |- _ => apply bool_decide_eq_true in H
  | H : bool_decide _ = false |- _ => apply bool_decide_eq_false in H
  | H : (_ =? _)%Z = true |- _ => apply Z.eqb_eq in H
  | H : (_ =? _)%Z = false |- _ => apply Z.eqb_neq in H
  | H : (_ <? _)%Z = true |- _ => apply Z.ltb_lt in H
  | H : (_ <? _)%Z = false |- _ => apply Z.ltb_ge in H
  | H : (_ <=? _)%Z = true |- _ => apply Z.leb_le in H
  | H : (_ <=? _)%Z = false |- _ => apply Z.leb_gt in H
  | H : String.eqb _ _ = true |- _ => apply String.eqb_eq in H
  | H : String.eqb _ _ = false |- _ => apply String.eqb_neq in H
  end.

(** * Orders

    Keys the program sorts by are integers, text (by code point, which is the
    byte order of the UTF-8 text) and tuples of these (lexicographic). *)
Class Ord (A : Type) := {
  cmp : A -> A -> comparison;
  cmp_eq : forall x y, cmp x y = Eq <-> x = y;
  cmp_anti : forall x y, cmp y x = CompOpp (cmp x y);
  cmp_trans : forall x y z, cmp x y = Lt -> cmp y z = Lt -> cmp x z = Lt
}.

Definition leb {A} `{Ord A} (x y : A) : bool :=
  match cmp x y with Gt => false | _ => true end.
Definition ltb {A} `{Ord A} (x y : A) : bool :=
  match cmp x y with Lt => true | _ => false end.

Section ord_facts.
Context {A} `{Ord A}.
Implicit Types x y z : A.

Lemma cmp_refl x : cmp x x = Eq.
Proof. by apply cmp_eq. Qed.
Lemma leb_refl x : leb x x = true.
Proof. unfold leb. by rewrite cmp_refl. Qed.
Lemma leb_total x y : leb x y = true \/ leb y x = true.
Proof. unfold leb. rewrite (cmp_anti x y). destruct (cmp x y); auto. Qed.
Lemma leb_antisym x y : leb x y = true -> leb y x = true -> x = y.
Proof.
  unfold leb. rewrite (cmp_anti x y).
  destruct (cmp x y) eqn:E; try done. intros _ _. by apply cmp_eq.
Qed.
Lemma leb_lt_or_eq x y : leb x y = true <-> cmp x y = Lt \/ x = y.
Proof. unfold leb. rewrite <-cmp_eq. destruct (cmp x y); naive_solver. Qed.
Lemma leb_trans x y z : leb x y = true -> leb y z = true -> leb x z = true.
Proof. rewrite !leb_lt_or_eq. naive_solver eauto using cmp_trans. Qed.
Lemma leb_false x y : leb x y = false -> leb y x = true.
Proof. destruct (leb_total x y); congruence. Qed.
Lemma ltb_leb x y : ltb x y = negb (leb y x).
Proof. unfold ltb, leb. rewrite (cmp_anti x y). by destruct (cmp x y). Qed.
End ord_facts.

#[local] Obligation Tactic := idtac.

#[export] Program Instance Z_ord : Ord Z := {| cmp := Z.compare |}.
Next Obligation. intros. apply Z.compare_eq_iff. Qed.
Next Obligation. intros. apply Z.compare_antisym. Qed.
Next Obligation. intros x y z. rewrite !Z.compare_lt_iff. lia. Qed.

#[export] Program Instance nat_ord : Ord nat := {| cmp := Nat.compare |}.
Next Obligation. intros. apply Nat.compare_eq_iff. Qed.
Next Obligation. intros. apply Nat.compare_antisym. Qed.
Next Obligation. intros x y z. rewrite !Nat.compare_lt_iff. lia. Qed.

Lemma ascii_compare_trans a b c :
  Ascii.compare a b = Lt -> Ascii.compare b c = Lt -> Ascii.compare a c = Lt.
Proof. unfold Ascii.compare. rewrite !N.compare_lt_iff. lia. Qed.
Lemma ascii_compare_refl a : Ascii.compare a a = Eq.
Proof. unfold Ascii.compare. by apply N.compare_refl. Qed.

#[export] Program Instance string_ord : Ord string := {| cmp := String.compare |}.
Next Obligation.
  intros x y. split; [apply String.compare_eq_iff|intros ->].
  induction y as [|a y IH]; simpl; [done|]. by rewrite ascii_compare_refl.
Qed.
Next Obligation. intros. apply String.compare_antisym. Qed.
Next Obligation.
  intros x. induction x as [|a x IH]; intros [|b y] [|c z]; simpl; try done.
  destruct (Ascii.compare a b) eqn:Eab; try done.
  - apply Ascii.compare_eq_iff in Eab as ->.
    destruct (Ascii.compare b c); try done. apply IH.
  - destruct (Ascii.compare b c) eqn:Ebc; try done.
    + apply Ascii.compare_eq_iff in Ebc as ->. by rewrite Eab.
    + by rewrite (ascii_compare_trans _ _ _ Eab Ebc).
Qed.

Section prod_ord.
Context {A B} `{Ord A, Ord B}.
Definition prod_cmp (p q : A * B) : comparison :=
  match cmp p.1 q.1 with Eq => cmp p.2 q.2 | c => c end.

Lemma prod_cmp_eq p q : prod_cmp p q = Eq <-> p = q.
Proof.
  destruct p as [a b], q as [a' b']; unfold prod_cmp; simpl.
  destruct (cmp a a') eqn:E.
  - apply cmp_eq in E as ->. rewrite cmp_eq. naive_solver.
  - split; [done|]. intros [= <- <-]. by rewrite cmp_refl in E.
  - split; [done|]. intros [= <- <-]. by rewrite cmp_refl in E.
Qed.
Lemma prod_cmp_anti p q : prod_cmp q p = CompOpp (prod_cmp p q).
Proof.
  unfold prod_cmp. rewrite (cmp_anti p.1 q.1).
  destruct (cmp p.1 q.1); simpl; [apply cmp_anti|done|done].
Qed.
Lemma prod_cmp_trans p q r :
  prod_cmp p q = Lt -> prod_cmp q r = Lt -> prod_cmp p r = Lt.
Proof.
  unfold prod_cmp. destruct (cmp p.1 q.1) eqn:E1, (cmp q.1 r.1) eqn:E2; try done.
  - apply cmp_eq in E1 as ->. rewrite E2. apply cmp_trans.
  - apply cmp_eq in E1 as ->. by rewrite E2.
  - apply cmp_eq in E2 as <-. by rewrite E1.
  - by rewrite (cmp_trans _ _ _ E1 E2).
Qed.
#[export] Instance prod_ord : Ord (A * B) :=
  {| cmp := prod_cmp; cmp_eq := prod_cmp_eq;
     cmp_anti := prod_cmp_anti; cmp_trans := prod_cmp_trans |}.
End prod_ord.

(** * [sorted(xs, key=...)]: a stable sort by a key. *)
Section sorting.
Context {A K} `{Ord K} (key : A -> K).

Fixpoint insert_by (x : A) (l : list A) : list A :=
  match l with
  | [] => [x]
  | y :: l' => if leb (key x) (key y) then x :: l else y :: insert_by x l'
  end.
Definition py_sorted (l : list A) : list A := foldr insert_by [] l.

Definition le_key (x y : A) : Prop := leb (key x) (key y) = true.
#[export] Instance le_key_trans : Transitive le_key.
Proof. intros x y z. apply leb_trans. Qed.

Lemma insert_by_perm x l : insert_by x l ≡ₚ x :: l.
Proof.
  induction l as [|y l IH]; simpl; [done|]. case_match; [done|].
  rewrite IH. constructor.
Qed.
Lemma py_sorted_perm l : py_sorted l ≡ₚ l.
Proof. induction l as [|x l IH]; simpl; [done|]. by rewrite insert_by_perm, IH. Qed.
Lemma elem_of_py_sorted x l : x ∈ py_sorted l <-> x ∈ l.
Proof. by rewrite py_sorted_perm. Qed.
Lemma py_sorted_length l : length (py_sorted l) = length l.
Proof. by rewrite py_sorted_perm. Qed.

Lemma insert_by_sorted x l :
  StronglySorted le_key l -> StronglySorted le_key (insert_by x l).
Proof.
  induction 1 as [|y l Hl IH Hy]; simpl; [repeat constructor|].
  destruct (leb (key x) (key y)) eqn:E.
  - constructor; [by constructor|]. constructor; [done|].
    eapply Forall_impl; [done|]. intros z. by apply leb_trans.
  - constructor; [done|]. rewrite insert_by_perm. constructor; [|done].
    by apply leb_false.
Qed.
Lemma py_sorted_sorted l : StronglySorted le_key (py_sorted l).
Proof. induction l; simpl; [constructor|by apply insert_by_sorted]. Qed.

Lemma insert_by_id x l :
  Forall (le_key x) l -> insert_by x l = x :: l.
Proof. destruct 1 as [|y l Hy]; simpl; [done|]. by rewrite Hy. Qed.
Lemma py_sorted_id l : StronglySorted le_key l -> py_sorted l = l.
Proof. induction 1 as [|x l _ IH Hx]; simpl; [done|]. by rewrite IH, insert_by_id. Qed.

Lemma py_sorted_NoDup l : NoDup l -> NoDup (py_sorted l).
Proof. by rewrite py_sorted_perm. Qed.

(** The result does not depend on the input order when equal keys mean
    equal elements. *)
Lemma py_sorted_canonical l1 l2 :
  (forall x y, x ∈ l1 -> y ∈ l1 -> key x = key y -> x = y) ->
  l1 ≡ₚ l2 -> py_sorted l1 = py_sorted l2.
Proof.
  intros Hinj Hp. apply (StronglySorted_unique_strong le_key).
  - intros x y Hx Hy Hxy Hyx. apply Hinj.
    + by rewrite elem_of_py_sorted in Hx.
    + rewrite elem_of_py_sorted in Hy. by rewrite Hp.
    + by apply leb_antisym.
  - apply py_sorted_sorted.
  - apply py_sorted_sorted.
  - by rewrite !py_sorted_perm.
Qed.
End sorting.

Lemma py_sorted_fmap {A B K K'} `{Ord K, Ord K'} (f : A -> B)
    (key : A -> K) (key' : B -> K') l :
  (forall x y, x ∈ l -> y ∈ l -> leb (key x) (key y) = leb (key' (f x)) (key' (f y))) ->
  f <$> py_sorted key l = py_sorted key' (f <$> l).
Proof.
  assert (forall x l, (forall y, y ∈ l -> leb (key x) (key y) = leb (key' (f x)) (key' (f y))) ->
    f <$> insert_by key x l = insert_by key' (f x) (f <$> l)) as Hins.
  { intros x l'. induction l' as [|y l' IH]; intros Hl; csimpl; [done|].
    rewrite <-Hl by (rewrite elem_of_cons; auto).
    destruct (leb (key x) (key y)); csimpl; [done|].
    rewrite IH; [done|]. intros; apply Hl; rewrite elem_of_cons; auto. }
  induction l as [|x l IH]; intros Hl; csimpl; [done|].
  rewrite Hins, IH; [done| |].
  - intros; apply Hl; rewrite elem_of_cons; auto.
  - intros y Hy. rewrite elem_of_py_sorted in Hy.
    apply Hl; rewrite elem_of_cons; auto.
Qed.

Lemma StronglySorted_related {A} (R : A -> A -> Prop) l x y :
  StronglySorted R l -> x ∈ l -> y ∈ l -> x = y \/ R x y \/ R y x.
Proof.
  induction 1 as [|z l _ IH Hz]; [set_solver|]. rewrite Forall_forall in Hz.
  rewrite !elem_of_cons. naive_solver.
Qed.

Lemma filter_all {A} (P : A -> Prop) `{forall x, Decision (P x)} (l : list A) :
  (forall x, x ∈ l -> P x) -> filter P l = l.
Proof.
  induction l as [|x l IH]; intros Hl; [done|].
  rewrite filter_cons_True, IH; [done| |]; intros; apply Hl; set_solver.
Qed.
Lemma filter_none {A} (P : A -> Prop) `{forall x, Decision (P x)} (l : list A) :
  (forall x, x ∈ l -> ~ P x) -> filter P l = [].
Proof.
  induction l as [|x l IH]; intros Hl; [done|].
  rewrite filter_cons_False, IH; [done| |]; intros; apply Hl; set_solver.
Qed.

Lemma NoDup_fmap_filter {A B} (f : A -> B) (P : A -> Prop) `{forall x, Decision (P x)} (l : list A) :
  NoDup (f <$> l) -> NoDup (f <$> filter P l).
Proof.
  induction l as [|x l IH]; [done|]. csimpl. intros [Hx Hn]%NoDup_cons.
  rewrite filter_cons. case_decide; csimpl; [|by apply IH]. constructor; [|by apply IH].
  intros Hin. apply Hx. apply list_elem_of_fmap in Hin as (y & -> & Hy).
  apply list_elem_of_filter in Hy as [_ Hy]. by apply list_elem_of_fmap_2.
Qed.

(** Text order, for keyset paging: what a strictly ascending list holds after
    one of its elements. *)
Lemma filter_after {A} `{Ord A} (pre post : list A) c :
  StronglySorted (le_key (fun x => x)) (pre ++ c :: post) -> NoDup (pre ++ c :: post) ->
  filter (fun x => ltb c x = true) (pre ++ c :: post) = post.
Proof.
  intros Hs Hn. rewrite filter_app, filter_cons.
  assert (forall x, x ∈ pre -> ltb c x = false) as Hpre.
  { intros x Hx. rewrite ltb_leb, negb_false_iff.
    apply (StronglySorted_app_1_elem_of (le_key (fun x => x)) _ _ _ _ Hs); [done|by left]. }
  assert (forall x, x ∈ post -> ltb c x = true) as Hpost.
  { intros x Hx. rewrite ltb_leb, negb_true_iff. apply not_true_iff_false. intros Hle.
    apply NoDup_app in Hn as (_ & _ & [Hc _]%NoDup_cons). apply Hc.
    replace c with x; [done|]. apply leb_antisym; [done|].
    apply StronglySorted_app_1_r in Hs. apply StronglySorted_inv in Hs as [_ Hs].
    rewrite Forall_forall in Hs. by apply Hs. }
  rewrite decide_False by (by rewrite ltb_leb, leb_refl).
  rewrite (filter_all _ post), (filter_none _ pre); [done| |done].
  intros x Hx. by rewrite Hpre.
Qed.

(** Sorting and filtering related lists. *)
Lemma Forall2_insert_by {A B K} `{Ord K} (f : A -> K) (g : B -> K) (R : A -> B -> Prop) x y l k :
  (forall a b, R a b -> f a = g b) -> R x y -> Forall2 R l k ->
  Forall2 R (insert_by f x l) (insert_by g y k).
Proof.
  intros Hk Hxy. induction 1 as [|a b l k Hab Hl IH]; simpl; [by repeat constructor|].
  rewrite (Hk _ _ Hxy), (Hk _ _ Hab). case_match; repeat constructor; done.
Qed.
Lemma Forall2_py_sorted {A B K} `{Ord K} (f : A -> K) (g : B -> K) (R : A -> B -> Prop) l k :
  (forall a b, R a b -> f a = g b) -> Forall2 R l k -> Forall2 R (py_sorted f l) (py_sorted g k).
Proof. intros Hk. induction 1; simpl; [constructor|]. by apply Forall2_insert_by. Qed.
Lemma Forall2_filter_related {A B} (R : A -> B -> Prop) (P : A -> Prop) (Q : B -> Prop)
    `{forall x, Decision (P x)} `{forall x, Decision (Q x)} (l : list A) (k : list B) :
  (forall a b, R a b -> P a <-> Q b) -> Forall2 R l k -> Forall2 R (filter P l) (filter Q k).
Proof.
  intros Hpq. induction 1 as [|a b l k Hab Hl IH]; [constructor|].
  rewrite !filter_cons. specialize (Hpq _ _ Hab).
  repeat case_decide; solve [constructor; done|naive_solver].
Qed.
Lemma Forall2_mjoin {A B} (R : A -> B -> Prop) (l : list (list A)) (k : list (list B)) :
  Forall2 (Forall2 R) l k -> Forall2 R (mjoin l) (mjoin k).
Proof. induction 1; simpl; [constructor|]. by apply Forall2_app. Qed.

(** [min(xs, key=...)]: the first element with the least key. *)
Definition py_min {A K} `{Ord K} (key : A -> K) (x : A) (l : list A) : A :=
  foldl (fun m y => if ltb (key y) (key m) then y else m) x l.

Lemma py_min_spec {A K} `{Ord K} (key : A -> K) x l :
  py_min key x l ∈ x :: l /\
  forall y, y ∈ x :: l -> leb (key (py_min key x l)) (key y) = true.
Proof.
  unfold py_min. revert x; induction l as [|a l IH]; intros x; simpl.
  { split; [set_solver|]. intros y ->%list_elem_of_singleton. apply leb_refl. }
  destruct (ltb (key a) (key x)) eqn:E; rewrite ltb_leb in E.
  - apply negb_true_iff in E. destruct (IH a) as [Hin Hle].
    split; [set_solver|]. intros y [->|Hy]%elem_of_cons; [|by apply Hle].
    eapply (leb_trans _ (key a)); [apply Hle; set_solver|]. by apply leb_false.
  - apply negb_false_iff in E. destruct (IH x) as [Hin Hle].
    split; [set_solver|]. intros y Hy.
    assert (y = a \/ y ∈ x :: l) as [->|Hy'] by set_solver; [|by apply Hle].
    eapply (leb_trans _ (key x)); [apply Hle; set_solver|done].
Qed.

(** * Insertion-ordered dictionaries

    A [dict] whose iteration order the program observes.  [dset] overwrites in
    place and otherwise appends, as Python's assignment does. *)
Section dict.
Context {K V : Type} `{EqDecision K}.
Implicit Types d : list (K * V).

Fixpoint dget (k : K) d : option V :=
  match d with
  | [] => None
  | (k', v) :: d => if bool_decide (k' = k) then Some v else dget k d
  end.
Fixpoint dset (k : K) (v : V) d : list (K * V) :=
  match d with
  | [] => [(k, v)]
  | (k', v') :: d' =>
      if bool_decide (k' = k) then (k', v) :: d' else (k', v') :: dset k v d'
  end.

Lemma dget_dset k k' v d :
  dget k' (dset k v d) = if bool_decide (k = k') then Some v else dget k' d.
Proof.
  induction d as [|[k1 v1] d IH]; simpl; [done|].
  destruct (bool_decide_reflect (k1 = k)) as [->|Hne]; simpl.
  - by destruct (bool_decide_reflect (k = k')).
  - rewrite IH. destruct (bool_decide_reflect (k1 = k')) as [->|]; [|done].
    by rewrite bool_decide_eq_false_2.
Qed.
Lemma dget_None k d : dget k d = None <-> k ∉ d.*1.
Proof.
  induction d as [|[k1 v1] d IH]; simpl; [set_solver|].
  destruct (bool_decide_reflect (k1 = k)); set_solver.
Qed.
Lemma dget_elem_of k v d : NoDup d.*1 -> dget k d = Some v <-> (k, v) ∈ d.
Proof.
  induction d as [|[k1 v1] d IH]; simpl; [set_solver|].
  intros [Hk1 Hd]%NoDup_cons. rewrite elem_of_cons.
  destruct (bool_decide_reflect (k1 = k)) as [->|Hne]; [|rewrite IH by done; naive_solver].
  split; [naive_solver|]. intros [[= ->]|Hin]; [done|].
  destruct Hk1. by apply (list_elem_of_fmap_2' fst d (k, v)).
Qed.
Lemma elem_of_dset_keys k v d k' : k' ∈ (dset k v d).*1 <-> k' = k \/ k' ∈ d.*1.
Proof.
  induction d as [|[k1 v1] d IH]; simpl; [set_solver|].
  destruct (bool_decide_reflect (k1 = k)) as [->|]; set_solver.
Qed.
Lemma NoDup_dset k v d : NoDup d.*1 -> NoDup (dset k v d).*1.
Proof.
  induction d as [|[k1 v1] d IH]; simpl; [intros; apply NoDup_singleton|].
  intros [Hk1 Hd]%NoDup_cons.
  destruct (bool_decide_reflect (k1 = k)) as [->|Hne]; simpl; [by constructor|].
  constructor; [|by apply IH]. rewrite elem_of_dset_keys. naive_solver.
Qed.
End dict.

(** [for x in l: d.setdefault(f(x), []).append(x)]. *)
Section group_by.
Context {K A : Type} `{EqDecision K} (f : A -> K).

Definition group_add (d : list (K * list A)) (x : A) : list (K * list A) :=
  dset (f x) (default [] (dget (f x) d) ++ [x]) d.
Definition group_by (l : list A) : list (K * list A) := foldl group_add [] l.

Lemma group_by_snoc l x : group_by (l ++ [x]) = group_add (group_by l) x.
Proof. unfold group_by. by rewrite foldl_app. Qed.
Lemma group_by_keys_NoDup l : NoDup (group_by l).*1.
Proof.
  induction l as [|x l IH] using rev_ind; [constructor|].
  rewrite group_by_snoc. by apply NoDup_dset.
Qed.
(** Each group holds exactly the elements with its key, in input order. *)
Lemma dget_group_by k l :
  dget k (group_by l) =
  match filter (fun x => f x = k) l with [] => None | g => Some g end.
Proof.
  induction l as [|x l IH] using rev_ind; [done|].
  rewrite group_by_snoc, filter_app. unfold group_add. rewrite dget_dset.
  destruct (bool_decide_reflect (f x = k)) as [<-|Hne].
  - rewrite IH, filter_cons_True by done.
    by destruct (filter _ l).
  - rewrite IH, filter_cons_False by done. by rewrite app_nil_r.
Qed.
Lemma elem_of_group_by k g l :
  (k, g) ∈ group_by l <-> g = filter (fun x => f x = k) l /\ g <> [].
Proof.
  rewrite <-dget_elem_of by apply group_by_keys_NoDup. rewrite dget_group_by.
  destruct (filter _ l); naive_solver.
Qed.
Lemma dset_concat_perm k x (d : list (K * list A)) :
  mjoin (dset k (default [] (dget k d) ++ [x]) d).*2 ≡ₚ x :: mjoin d.*2.
Proof.
  induction d as [|[k1 v1] d IH]; simpl; [done|].
  destruct (bool_decide_reflect (k1 = k)) as [->|]; simpl.
  - rewrite <-app_assoc. simpl. by rewrite <-Permutation_middle.
  - rewrite IH. by rewrite Permutation_middle.
Qed.
(** Grouping loses and duplicates nothing. *)
Lemma group_by_partition l : mjoin (group_by l).*2 ≡ₚ l.
Proof.
  induction l as [|x l IH] using rev_ind; [done|].
  rewrite group_by_snoc. unfold group_add. rewrite dset_concat_perm, IH.
  by rewrite Permutation_app_comm.
Qed.
End group_by.

(** * Reachability of a step relation. *)
Inductive star {S} (step : S -> S -> Prop) : S -> S -> Prop :=
| star_refl s : star step s s
| star_step s1 s2 s3 : step s1 s2 -> star step s2 s3 -> star step s1 s3.

Lemma star_inv {S} (step : S -> S -> Prop) (I : S -> Prop) s s' :
  (forall a b, I a -> step a b -> I b) -> I s -> star step s s' -> I s'.
Proof. intros Hstep Hs. induction 1; eauto. Qed.
Lemma star_one {S} (step : S -> S -> Prop) s s' : step s s' -> star step s s'.
Proof. intros. eapply star_step; [done|apply star_refl]. Qed.
Lemma star_trans {S} (step : S -> S -> Prop) s1 s2 s3 :
  star step s1 s2 -> star step s2 s3 -> star step s1 s3.
Proof. induction 1; eauto using star_step. Qed.
