(* ===== verification/StrictJson.v ===== *)
(** Canonical JSON: [foundation/strict_json.py].

    [json] is the Python value tree; text is held as its UTF-8 bytes.
    [canonical_json_bytes] is the canonical printer every fingerprint and every
    stored response goes through; [_measure] and the bounded printer check
    depth, collection and byte limits; [loads_strict] is the strict parser;
    object contracts and their registry validate payloads. *)
From Stdlib Require Import Decimal DecimalString DecimalN.
From S2P Require Import Prelude.

(** * Values *)
Inductive json :=
| JNull
| JBool (b : bool)
| JInt (z : Z)
| JFloat (repr : string)       (** a finite float, named by its [repr] text *)
| JNonFinite (repr : string)   (** [nan], [inf], [-inf] *)
| JStr (s : string)
| JArr (l : list json)
| JObj (kvs : list (string * json))
| JOther (type_name : string). (** a value [json.dumps] has no encoding for *)

(** The generated principle ignores the nested lists. *)
Section json_induction.
Variable P : json -> Prop.
Hypothesis Hleaf : forall v,
  match v with JArr _ | JObj _ => True | _ => P v end.
Hypothesis Harr : forall l, Forall P l -> P (JArr l).
Hypothesis Hobj : forall kvs, Forall (fun kv => P kv.2) kvs -> P (JObj kvs).
Definition json_rect_nested : forall v, P v :=
  fix go v : P v :=
    match v with
    | JArr l => Harr l ((fix gol l : Forall P l :=
        match l with [] => Forall_nil_2 _ | x :: l => Forall_cons_2 _ _ _ (go x) (gol l) end) l)
    | JObj kvs => Hobj kvs ((fix gok kvs : Forall (fun kv => P kv.2) kvs :=
        match kvs with [] => Forall_nil_2 _
        | kv :: kvs => Forall_cons_2 (fun kv : string * json => P kv.2) kv kvs (go kv.2) (gok kvs) end) kvs)
    | v => Hleaf v
    end.
End json_induction.

(** * UTF-8 *)
Definition byte_of (c : Ascii.ascii) : Z := Z.of_N (Ascii.N_of_ascii c).

(** [s.encode("utf-8", errors="strict")] fails exactly on the lone surrogates,
    whose generalised UTF-8 form is ED A0..BF xx. *)
Fixpoint utf8_encodable (s : string) : bool :=
  match s with
  | EmptyString => true
  | String c s' =>
      match s' with
      | String d _ => negb ((byte_of c =? 237) && (160 <=? byte_of d))
      | EmptyString => true
      end && utf8_encodable s'
  end.
(** [value.encode("utf-8")]. *)
Definition encode_utf8 (value : string) : result string :=
  if utf8_encodable value then Ok value else Raise (PyExn "UnicodeEncodeError").
(** [raw.decode("utf-8", errors="strict")] succeeds: [need] continuation bytes
    are due, the next one between [lo] and [hi]. *)
Fixpoint utf8_scan (need : nat) (lo hi : Z) (s : string) : bool :=
  match s with
  | EmptyString => match need with O => true | _ => false end
  | String c s =>
      let b := byte_of c in
      match need with
      | O =>
          if b <? 128 then utf8_scan 0 128 191 s
          else if (194 <=? b) && (b <=? 223) then utf8_scan 1 128 191 s
          else if b =? 224 then utf8_scan 2 160 191 s
          else if b =? 237 then utf8_scan 2 128 159 s
          else if (225 <=? b) && (b <=? 239) then utf8_scan 2 128 191 s
          else if b =? 240 then utf8_scan 3 144 191 s
          else if (241 <=? b) && (b <=? 243) then utf8_scan 3 128 191 s
          else if b =? 244 then utf8_scan 3 128 143 s
          else false
      | S need => (lo <=? b) && (b <=? hi) && utf8_scan need 128 191 s
      end
  end.
Definition utf8_valid (raw : string) : bool := utf8_scan 0 128 191 raw.
Definition utf8_length (s : string) : Z := Z.of_nat (String.length s).

(** * Printing *)
Definition hex_digit (n : Z) : Ascii.ascii :=
  Ascii.ascii_of_N (Z.to_N (if n <? 10 then 48 + n else 87 + n)).

Definition quote_char : Ascii.ascii := Ascii.ascii_of_N 34.
Definition backslash : Ascii.ascii := Ascii.ascii_of_N 92.

(** One character of a JSON string, with [ensure_ascii=False]. *)
Definition escape_char (c : Ascii.ascii) : string :=
  let n := byte_of c in
  if n =? 34 then String backslash (String quote_char EmptyString)
  else if n =? 92 then String backslash (String backslash EmptyString)
  else if n =? 8 then "\b"
  else if n =? 12 then "\f"
  else if n =? 10 then "\n"
  else if n =? 13 then "\r"
  else if n =? 9 then "\t"
  else if n <? 32 then
    "\u00" +:+ String (hex_digit (n / 16)) (String (hex_digit (n mod 16)) EmptyString)
  else String c EmptyString.
Fixpoint escape (s : string) : string :=
  match s with
  | EmptyString => EmptyString
  | String c s => escape_char c +:+ escape s
  end.
Definition json_string (s : string) : string :=
  String quote_char (escape s +:+ String quote_char EmptyString).

Definition int_text (z : Z) : string :=
  match z with
  | Z0 => "0"
  | Zpos p => NilEmpty.string_of_uint (N.to_uint (Npos p))
  | Zneg p => "-" +:+ (NilEmpty.string_of_uint (N.to_uint (Npos p)))
  end.
(** [int] to text raises [ValueError] above 4300 digits. *)
Definition max_int_digits : Z := 4300.
Definition int_repr (z : Z) : option string :=
  let s := int_text (Z.abs z) in
  if Z.of_nat (String.length s) <=? max_int_digits then Some (int_text z) else None.

(** [json.dumps(v, ensure_ascii=False, allow_nan=False, sort_keys=True,
    separators=(",", ":"))]; [None] when it raises. *)
Fixpoint json_dumps (v : json) : option string :=
  match v with
  | JNull => Some "null"
  | JBool true => Some "true"
  | JBool false => Some "false"
  | JInt z => int_repr z
  | JFloat r => Some r
  | JNonFinite _ => None
  | JStr s => Some (json_string s)
  | JArr l =>
      ts ← mapM json_dumps l;
      Some ("[" +:+ String.concat "," ts +:+ "]")
  | JObj kvs =>
      ts ← mapM (fun kv => t ← json_dumps kv.2; Some (kv.1, t)) kvs;
      Some ("{" +:+ String.concat ","
        (map (fun kt => json_string kt.1 +:+ ":" +:+ kt.2) (py_sorted fst ts)) +:+ "}")
  | JOther _ => None
  end.

Definition canonical_json_bytes (v : json) : result string :=
  match json_dumps v with
  | Some text =>
      if utf8_encodable text then Ok text
      else raise (ValidationError "value cannot be canonicalized as JSON")
  | None => raise (ValidationError "value cannot be canonicalized as JSON")
  end.

(** SHA-256 comes from the platform's crypto library: a parameter. *)
Class Sha256 := sha256_hexdigest : string -> string.
Definition sha256_canonical_json `{Sha256} (v : json) : result string :=
  b ← canonical_json_bytes v; Ok (sha256_hexdigest b).

Definition jopt {A} (f : A -> json) (o : option A) : json :=
  match o with Some a => f a | None => JNull end.

(** * Measuring *)
(** Number of value nodes: the fuel of the explicit stack below. *)
Fixpoint json_nodes (v : json) : nat :=
  match v with
  | JArr l => S (foldr (fun c n => json_nodes c + n)%nat 0%nat l)
  | JObj kvs => S (foldr (fun kv n => json_nodes kv.2 + n)%nat 0%nat kvs)
  | _ => 1%nat
  end.

Definition measure := (Z * Z * Z)%type.  (** max depth, collection items, string bytes *)

(** One [pending.pop()] of [_measure]; the stack's top is the list's head. *)
Definition measure_pop (item : json) (item_depth : Z) (pending : list (json * Z))
    (acc : measure) : list (json * Z) * measure :=
  let '(max_depth, items, bytes) := acc in
  let max_depth := Z.max max_depth item_depth in
  match item with
  | JStr s => (pending, (max_depth, items, bytes + utf8_length s))
  | JObj kvs =>
      (rev (map (fun kv => (kv.2, item_depth + 1)) kvs) ++ pending,
       (max_depth, items + Z.of_nat (length kvs),
        bytes + foldr (fun kv n => utf8_length kv.1 + n) 0 kvs))
  | JArr l =>
      (rev (map (fun c => (c, item_depth + 1)) l) ++ pending,
       (max_depth, items + Z.of_nat (length l), bytes))
  | _ => (pending, (max_depth, items, bytes))
  end.
Fixpoint measure_loop (fuel : nat) (pending : list (json * Z)) (acc : measure)
    : option measure :=
  match pending with
  | [] => Some acc
  | (item, d) :: pending =>
      match fuel with
      | O => None
      | S fuel => let '(p, a) := measure_pop item d pending acc in measure_loop fuel p a
      end
  end.
Definition _measure (v : json) : option measure :=
  measure_loop (json_nodes v) [(v, 0)] (0, 0, 0).

Definition canonical_json_bytes_bounded (v : json)
    (max_bytes max_depth max_collection_items : Z) : result string :=
  encoded ← canonical_json_bytes v;
  _ ← forbid (max_bytes <? utf8_length encoded)
        (ValidationError "JSON contract byte bound exceeded");
  match _measure v with
  | Some (depth, items, _) =>
      _ ← forbid (max_depth <? depth)
            (ValidationError "JSON contract depth bound exceeded");
      _ ← forbid (max_collection_items <? items)
            (ValidationError "JSON contract collection bound exceeded");
      Ok encoded
  | None => raise (IntegrityFailure "measure out of fuel")
  end.

(** The three measures, by recursion on the value. *)
Fixpoint json_depth (v : json) : Z :=
  match v with
  | JArr l => foldr (fun c m => Z.max (1 + json_depth c) m) 0 l
  | JObj kvs => foldr (fun kv m => Z.max (1 + json_depth kv.2) m) 0 kvs
  | _ => 0
  end.
Fixpoint json_items (v : json) : Z :=
  match v with
  | JArr l => Z.of_nat (length l) + foldr (fun c m => json_items c + m) 0 l
  | JObj kvs => Z.of_nat (length kvs) + foldr (fun kv m => json_items kv.2 + m) 0 kvs
  | _ => 0
  end.
Fixpoint json_string_bytes (v : json) : Z :=
  match v with
  | JStr s => utf8_length s
  | JArr l => foldr (fun c m => json_string_bytes c + m) 0 l
  | JObj kvs =>
      foldr (fun kv n => utf8_length kv.1 + n) 0 kvs
      + foldr (fun kv m => json_string_bytes kv.2 + m) 0 kvs
  | _ => 0
  end.

Lemma json_depth_nonneg v : 0 <= json_depth v.
Proof. destruct v as [| | | | | |l|l|]; simpl; try lia; induction l; simpl; lia. Qed.

(** ** The explicit stack computes the recursive measures *)
Definition sum_over {A} (f : A -> Z) (l : list A) : Z := foldr (fun x n => f x + n) 0 l.
Definition max_over {A} (f : A -> Z) (m : Z) (l : list A) : Z :=
  foldr (fun x n => Z.max (f x) n) m l.

Lemma sum_over_app {A} (f : A -> Z) l1 l2 :
  sum_over f (l1 ++ l2) = sum_over f l1 + sum_over f l2.
Proof. induction l1; simpl; lia. Qed.
Lemma sum_over_rev {A} (f : A -> Z) l : sum_over f (rev l) = sum_over f l.
Proof. induction l; simpl; [done|]. rewrite sum_over_app. simpl. lia. Qed.
Lemma max_over_app {A} (f : A -> Z) m l1 l2 :
  max_over f m (l1 ++ l2) = max_over f (max_over f m l2) l1.
Proof. unfold max_over. by rewrite foldr_app. Qed.
Lemma max_over_max {A} (f : A -> Z) m n l :
  max_over f (Z.max m n) l = Z.max m (max_over f n l).
Proof. induction l; simpl; lia. Qed.
Lemma max_over_rev {A} (f : A -> Z) m l : max_over f m (rev l) = max_over f m l.
Proof.
  induction l as [|x l IH]; simpl; [done|].
  rewrite max_over_app. simpl. by rewrite max_over_max, IH.
Qed.
Lemma sum_over_map {A B} (g : A -> B) (f : B -> Z) l :
  sum_over f (map g l) = sum_over (fun x => f (g x)) l.
Proof. induction l; simpl; lia. Qed.
Lemma max_over_map {A B} (g : A -> B) (f : B -> Z) m l :
  max_over f m (map g l) = max_over (fun x => f (g x)) m l.
Proof. induction l; simpl; lia. Qed.
Lemma max_over_shift {A} (f : A -> Z) d m l :
  Z.max m (max_over (fun x => d + 1 + f x) d l)
  = Z.max m (d + max_over (fun x => 1 + f x) 0 l).
Proof. induction l; simpl; lia. Qed.
Create Rewrite HintDb measure.
#[export] Hint Rewrite @sum_over_app @sum_over_rev @sum_over_map
  @max_over_app @max_over_rev @max_over_map : measure.

Definition pending_nodes (p : list (json * Z)) : Z :=
  sum_over (fun vd => Z.of_nat (json_nodes vd.1)) p.
Definition pending_measure (p : list (json * Z)) (acc : measure) : measure :=
  let '(m, i, b) := acc in
  (max_over (fun vd => vd.2 + json_depth vd.1) m p,
   i + sum_over (fun vd => json_items vd.1) p,
   b + sum_over (fun vd => json_string_bytes vd.1) p).

(** Arrays and objects behave alike once their children are named. *)
Definition children (v : json) : list json :=
  match v with JArr l => l | JObj kvs => map snd kvs | _ => [] end.
Definition own_bytes (v : json) : Z :=
  match v with
  | JStr s => utf8_length s
  | JObj kvs => foldr (fun kv n => utf8_length kv.1 + n) 0 kvs
  | _ => 0
  end.

Lemma json_nodes_children v :
  Z.of_nat (json_nodes v) = 1 + sum_over (fun c => Z.of_nat (json_nodes c)) (children v).
Proof.
  destruct v as [| | | | | |l|l|]; try done;
    induction l as [|x l IH]; try done; simpl in *; lia.
Qed.
Lemma json_depth_children v :
  json_depth v = max_over (fun c => 1 + json_depth c) 0 (children v).
Proof. destruct v as [| | | | | |l|l|]; simpl; try done; induction l; simpl; lia. Qed.
Lemma json_items_children v :
  json_items v = Z.of_nat (length (children v)) + sum_over (fun c => json_items c) (children v).
Proof.
  destruct v as [| | | | | |l|l|]; simpl; try done; rewrite ?length_map; f_equal;
    induction l; simpl; lia.
Qed.
Lemma json_string_bytes_children v :
  json_string_bytes v = own_bytes v + sum_over (fun c => json_string_bytes c) (children v).
Proof.
  destruct v as [| | | | | |l|l|]; simpl; try lia; f_equal; induction l; simpl; lia.
Qed.
Lemma measure_pop_children item d pending m i b :
  measure_pop item d pending (m, i, b) =
  (rev (map (fun c => (c, d + 1)) (children item)) ++ pending,
   (Z.max m d, i + Z.of_nat (length (children item)), b + own_bytes item)).
Proof.
  destruct item as [| | | | | |l|l|]; simpl; rewrite ?Z.add_0_r; try done.
  by rewrite map_map, length_map.
Qed.

Lemma measure_pop_ok item d pending acc :
  let '(p, a) := measure_pop item d pending acc in
  pending_measure p a = pending_measure ((item, d) :: pending) acc /\
  pending_nodes p + 1 = pending_nodes ((item, d) :: pending).
Proof.
  destruct acc as [[m i] b]. rewrite measure_pop_children.
  unfold pending_nodes, pending_measure. autorewrite with measure. simpl.
  rewrite (Z.max_comm m d), !max_over_max, json_nodes_children, json_depth_children,
    json_items_children, json_string_bytes_children.
  split; [|lia]. f_equal; [f_equal; [|lia]|lia].
  set (M := max_over _ m pending).
  enough (forall l, Z.max d (max_over (fun x => d + 1 + json_depth x) M l)
    = Z.max (d + max_over (fun x => 1 + json_depth x) 0 l) M) as ->; [done|].
  induction l; simpl; lia.
Qed.

Lemma measure_loop_ok fuel pending acc :
  pending_nodes pending <= Z.of_nat fuel ->
  measure_loop fuel pending acc = Some (pending_measure pending acc).
Proof.
  revert pending acc. induction fuel as [|fuel IH]; intros [|[item d] p] acc Hf.
  1, 3: destruct acc as [[m i] b]; simpl; do 3 f_equal; lia.
  - unfold pending_nodes in Hf. simpl in Hf. rewrite json_nodes_children in Hf.
    assert (forall l, 0 <= sum_over (fun c => Z.of_nat (json_nodes c)) l) as Hc
      by (induction l; simpl; lia).
    assert (forall l : list (json * Z), 0 <= sum_over (fun vd => Z.of_nat (json_nodes vd.1)) l)
      as Hp by (induction l; simpl; lia).
    specialize (Hc (children item)). specialize (Hp p). lia.
  - simpl. pose proof (measure_pop_ok item d p acc) as Hpop.
    destruct (measure_pop item d p acc) as [p' a']. destruct Hpop as [Hm Hn].
    rewrite IH by lia. by rewrite Hm.
Qed.

(** The explicit stack of [_measure] terminates on every value and computes
    the nesting depth, the number of collection items and the bytes of all
    strings, as the recursive definitions give them. *)
Theorem measure_stack_correct v :
  _measure v = Some (json_depth v, json_items v, json_string_bytes v).
Proof.
  unfold _measure. rewrite measure_loop_ok.
  - unfold pending_measure. simpl. pose proof (json_depth_nonneg v).
    do 3 f_equal; lia.
  - unfold pending_nodes. simpl. lia.
Qed.

(** * Strict parsing *)
(** [float(text)] and its [repr] come from the platform's float library: [None]
    when the value is not finite. *)
Class FloatText := float_repr : string -> option string.

Definition malformed {A} : result A := raise (ValidationError "malformed JSON").
Definition is_char (n : Z) (c : Ascii.ascii) : bool := byte_of c =? n.
Definition is_digit (c : Ascii.ascii) : bool := (48 <=? byte_of c) && (byte_of c <=? 57).
Definition is_ws (c : Ascii.ascii) : bool :=
  is_char 32 c || is_char 9 c || is_char 10 c || is_char 13 c.

Fixpoint skip_ws (s : string) : string :=
  match s with String c s' => if is_ws c then skip_ws s' else s | _ => s end.
Fixpoint span (p : Ascii.ascii -> bool) (s : string) : string * string :=
  match s with
  | String c s' =>
      if p c then let '(a, b) := span p s' in (String c a, b) else (EmptyString, s)
  | EmptyString => (EmptyString, EmptyString)
  end.
Fixpoint strip_prefix (p s : string) : option string :=
  match p, s with
  | EmptyString, _ => Some s
  | String c p, String d s => if bool_decide (c = d) then strip_prefix p s else None
  | _, EmptyString => None
  end.

Definition hex_value (c : Ascii.ascii) : option Z :=
  let n := byte_of c in
  if (48 <=? n) && (n <=? 57) then Some (n - 48)
  else if (65 <=? n) && (n <=? 70) then Some (n - 55)
  else if (97 <=? n) && (n <=? 102) then Some (n - 87)
  else None.
Definition hex4 (s : string) : option (Z * string) :=
  match s with
  | String a (String b (String c (String d s))) =>
      x ← hex_value a; y ← hex_value b; z ← hex_value c; w ← hex_value d;
      Some (((x * 16 + y) * 16 + z) * 16 + w, s)
  | _ => None
  end.
Definition chr (n : Z) : Ascii.ascii := Ascii.ascii_of_N (Z.to_N n).
(** The generalised UTF-8 form of a code point. *)
Definition utf8_char (n : Z) : string :=
  if n <? 128 then String (chr n) EmptyString
  else if n <? 2048 then String (chr (192 + n / 64)) (String (chr (128 + n mod 64)) EmptyString)
  else if n <? 65536 then
    String (chr (224 + n / 4096)) (String (chr (128 + n / 64 mod 64))
      (String (chr (128 + n mod 64)) EmptyString))
  else String (chr (240 + n / 262144)) (String (chr (128 + n / 4096 mod 64))
    (String (chr (128 + n / 64 mod 64)) (String (chr (128 + n mod 64)) EmptyString))).

(** After [\u]: four hex digits, joined with a following low surrogate. *)
Definition scan_unicode (s : string) : option (string * string) :=
  '(u, s1) ← hex4 s;
  if (55296 <=? u) && (u <=? 56319) then
    match strip_prefix "\u" s1 with
    | Some s2 =>
        match hex4 s2 with
        | Some (v, s3) =>
            if (56320 <=? v) && (v <=? 57343)
            then Some (utf8_char (65536 + (u - 55296) * 1024 + (v - 56320)), s3)
            else Some (utf8_char u, s1)
        | None => Some (utf8_char u, s1)
        end
    | None => Some (utf8_char u, s1)
    end
  else Some (utf8_char u, s1).

Definition scan_escape (c : Ascii.ascii) (s : string) : option (string * string) :=
  let n := byte_of c in
  if (n =? 34) || (n =? 92) || (n =? 47) then Some (String c EmptyString, s)
  else if n =? 98 then Some (String (chr 8) EmptyString, s)
  else if n =? 102 then Some (String (chr 12) EmptyString, s)
  else if n =? 110 then Some (String (chr 10) EmptyString, s)
  else if n =? 114 then Some (String (chr 13) EmptyString, s)
  else if n =? 116 then Some (String (chr 9) EmptyString, s)
  else if n =? 117 then scan_unicode s
  else None.

(** The text after an opening quote: the decoded string and what follows the
    closing quote. *)
Fixpoint scan_string (fuel : nat) (s : string) : option (string * string) :=
  match fuel, s with
  | S fuel, String c s' =>
      if is_char 34 c then Some (EmptyString, s')
      else if is_char 92 c then
        match s' with
        | String e s'' =>
            '(t, r) ← scan_escape e s'';
            '(u, r') ← scan_string fuel r;
            Some (t +:+ u, r')
        | EmptyString => None
        end
      else if byte_of c <? 32 then None
      else '(u, r) ← scan_string fuel s'; Some (String c u, r)
  | _, _ => None
  end.

(** The longest number token: sign, integer part, fraction, exponent. *)
Definition scan_number (s : string) : option (string * string * string) :=
  let '(sign, s0) := match strip_prefix "-" s with
    | Some r => ("-", r) | None => (EmptyString, s) end in
  '(int, s1) ← match s0 with
    | String c r =>
        if is_char 48 c then Some ("0", r)
        else if is_digit c then Some (span is_digit s0) else None
    | EmptyString => None end;
  let '(frac, s2) := match strip_prefix "." s1 with
    | Some r => match span is_digit r with
        | (EmptyString, _) => (EmptyString, s1) | (d, r') => ("." +:+ d, r') end
    | None => (EmptyString, s1) end in
  let '(exp, s3) := match s2 with
    | String c r =>
        if is_char 101 c || is_char 69 c then
          let '(sg, r1) := match r with
            | String d r' => if is_char 43 d || is_char 45 d
                then (String d EmptyString, r') else (EmptyString, r)
            | EmptyString => (EmptyString, r) end in
          match span is_digit r1 with
          | (EmptyString, _) => (EmptyString, s2)
          | (d, r2) => (String c EmptyString +:+ sg +:+ d, r2) end
        else (EmptyString, s2)
    | EmptyString => (EmptyString, s2) end in
  Some (sign +:+ int, frac +:+ exp, s3).

Definition digits_value (s : string) : Z :=
  match NilEmpty.uint_of_string s with Some u => Z.of_N (N.of_uint u) | None => 0 end.
(** [int(text)] on [-?digits]. *)
Definition int_value (s : string) : option Z :=
  let '(neg, d) := match strip_prefix "-" s with
    | Some r => (true, r) | None => (false, s) end in
  if Z.of_nat (String.length d) <=? max_int_digits
  then Some (if neg then - digits_value d else digits_value d) else None.

Definition reject_nonfinite {A} (token : string) : result A :=
  raise (ValidationError ("non-finite JSON number is forbidden: " +:+ token)).
(** [_reject_duplicate_pairs] *)
Definition reject_duplicate_pairs (pairs : list (string * json)) : result json :=
  if bool_decide (NoDup pairs.*1) then Ok (JObj pairs)
  else raise (ValidationError "duplicate JSON object key").

Section parser.
Context `{FloatText}.

Definition parse_number (s : string) : result (json * string) :=
  match scan_number s with
  | None => malformed
  | Some (int, rest, s') =>
      match rest with
      | EmptyString =>
          match int_value int with Some z => Ok (JInt z, s') | None => malformed end
      | _ =>
          match float_repr (int +:+ rest) with
          | Some r => Ok (JFloat r, s')
          | None => raise (ValidationError "JSON number exceeds the finite numeric range")
          end
      end
  end.
Definition parse_string (s : string) : result (string * string) :=
  match scan_string (S (String.length s)) s with Some r => Ok r | None => malformed end.

Fixpoint parse_value (fuel : nat) (s : string) : result (json * string) :=
  match fuel with
  | O => out_of_fuel
  | S fuel =>
      match s with
      | EmptyString => malformed
      | String c s' =>
          if is_char 34 c then '(t, r) ← parse_string s'; Ok (JStr t, r)
          else if is_char 123 c then
            match skip_ws s' with
            | String d r =>
                if is_char 125 d then o ← reject_duplicate_pairs []; Ok (o, r)
                else '(kvs, r') ← parse_members fuel (String d r);
                     o ← reject_duplicate_pairs kvs; Ok (o, r')
            | EmptyString => malformed
            end
          else if is_char 91 c then
            match skip_ws s' with
            | String d r =>
                if is_char 93 d then Ok (JArr [], r)
                else '(l, r') ← parse_elements fuel (String d r); Ok (JArr l, r')
            | EmptyString => malformed
            end
          else match strip_prefix "null" s with Some r => Ok (JNull, r) | None =>
          match strip_prefix "true" s with Some r => Ok (JBool true, r) | None =>
          match strip_prefix "false" s with Some r => Ok (JBool false, r) | None =>
          match strip_prefix "NaN" s with Some r => reject_nonfinite "NaN" | None =>
          match strip_prefix "Infinity" s with Some r => reject_nonfinite "Infinity" | None =>
          match strip_prefix "-Infinity" s with
          | Some r => reject_nonfinite "-Infinity"
          | None => parse_number s
          end end end end end end
      end
  end
with parse_members (fuel : nat) (s : string) : result (list (string * json) * string) :=
  match fuel with
  | O => out_of_fuel
  | S fuel =>
      match s with
      | String c s' =>
          if is_char 34 c then
            '(k, r) ← parse_string s';
            match skip_ws r with
            | String d r1 =>
                if is_char 58 d then
                  '(v, r2) ← parse_value fuel (skip_ws r1);
                  match skip_ws r2 with
                  | String e r3 =>
                      if is_char 125 e then Ok ([(k, v)], r3)
                      else if is_char 44 e then
                        '(kvs, r4) ← parse_members fuel (skip_ws r3);
                        Ok ((k, v) :: kvs, r4)
                      else malformed
                  | EmptyString => malformed
                  end
                else malformed
            | EmptyString => malformed
            end
          else malformed
      | EmptyString => malformed
      end
  end
with parse_elements (fuel : nat) (s : string) : result (list json * string) :=
  match fuel with
  | O => out_of_fuel
  | S fuel =>
      '(v, r) ← parse_value fuel s;
      match skip_ws r with
      | String e r1 =>
          if is_char 93 e then Ok ([v], r1)
          else if is_char 44 e then
            '(l, r2) ← parse_elements fuel (skip_ws r1); Ok (v :: l, r2)
          else malformed
      | EmptyString => malformed
      end
  end.

Definition json_loads (text : string) : result json :=
  if bool_decide (is_Some (strip_prefix (utf8_char 65279) text)) then malformed else
  '(v, r) ← parse_value (2 * S (String.length text)) (skip_ws text);
  match skip_ws r with EmptyString => Ok v | _ => malformed end.

(** [_validate_unicode] *)
Fixpoint valid_unicode (v : json) : bool :=
  match v with
  | JStr s => utf8_encodable s
  | JArr l => forallb valid_unicode l
  | JObj kvs => forallb (fun kv => utf8_encodable kv.1 && valid_unicode kv.2) kvs
  | _ => true
  end.

Definition loads_strict (text : string) (max_bytes : option Z) : result json :=
  _ ← forbid (negb (utf8_encodable text)) (ValidationError "malformed JSON");
  _ ← forbid (match max_bytes with Some m => m <? utf8_length text | None => false end)
        (ValidationError "JSON input exceeds UTF-8 byte bound");
  v ← json_loads text;
  _ ← forbid (negb (valid_unicode v)) (ValidationError "malformed JSON");
  Ok v.

Definition loads_strict_bytes (raw : string) (max_bytes : option Z) : result json :=
  _ ← forbid (match max_bytes with Some m => m <? utf8_length raw | None => false end)
        (ValidationError "JSON input exceeds UTF-8 byte bound");
  _ ← forbid (negb (utf8_valid raw)) (ValidationError "JSON input is not valid UTF-8");
  loads_strict raw max_bytes.

Definition loads_canonical_json (text : string)
    (max_bytes max_depth max_collection_items : Z) : result json :=
  value ← loads_strict text (Some max_bytes);
  canonical ← canonical_json_bytes_bounded value max_bytes max_depth max_collection_items;
  _ ← forbid (negb (utf8_encodable text)) (ValidationError "JSON input is not valid UTF-8");
  _ ← forbid (negb (String.eqb canonical text)) (ValidationError "JSON text is not canonical");
  Ok value.
End parser.

(** * Object contracts *)
Record ObjectContract := MkContract {
  oc_name : string;
  oc_version : Z;
  required_fields : gset string;
  allowed_fields : gset string;
  unknown_field_policy : string;
  oc_max_depth : Z;
  oc_max_collection_items : Z;
  oc_max_utf8_bytes : Z
}.
Definition contract_validate (c : ObjectContract) (value : json) : result json :=
  match value with
  | JObj kvs =>
      let keys : gset string := list_to_set kvs.*1 in
      _ ← forbid (negb (bool_decide (required_fields c ∖ keys = ∅)))
        (ValidationError "missing required JSON fields");
      _ ← forbid (negb (bool_decide (keys ∖ allowed_fields c = ∅))
                  && String.eqb (unknown_field_policy c) "reject")
        (ValidationError "unknown JSON fields");
      _ ← canonical_json_bytes_bounded value (oc_max_utf8_bytes c) (oc_max_depth c)
        (oc_max_collection_items c);
      Ok value
  | _ => raise (ValidationError
      (oc_name c +:+ " v" +:+ int_text (oc_version c) +:+ " requires an object"))
  end.
