(* ===== verification/Identifiers.v ===== *)
(** Identities and scalar checks: [foundation/identifiers.py]. *)
From S2P Require Import Prelude StrictJson.

Definition is_hex_lower (c : Ascii.ascii) : bool :=
  is_digit c || ((97 <=? byte_of c) && (byte_of c <=? 102)).

(** A template character: [x] any lowercase hex digit, [y] a variant digit,
    anything else itself. *)
Definition template_char (t c : Ascii.ascii) : bool :=
  if is_char 120 t then is_hex_lower c
  else if is_char 121 t then
    is_char 56 c || is_char 57 c || is_char 97 c || is_char 98 c
  else bool_decide (t = c).
Fixpoint matches_template (t s : string) : bool :=
  match t, s with
  | EmptyString, EmptyString => true
  | String a t, String b s => template_char a b && matches_template t s
  | _, _ => false
  end.

(** The texts [str(UUID)] of version-4 RFC 4122 identities. *)
Definition is_uuid4 (value : string) : bool :=
  matches_template "xxxxxxxx-xxxx-4xxx-yxxx-xxxxxxxxxxxx" value.

Definition require_uuid4 (value : string) : result string :=
  if is_uuid4 value then Ok value
  else raise (ValidationError "expected canonical lowercase UUIDv4").

Lemma require_uuid4_ok v v' : require_uuid4 v = Ok v' <-> v' = v /\ is_uuid4 v = true.
Proof. unfold require_uuid4. destruct (is_uuid4 v); naive_solver. Qed.
Lemma require_uuid4_raises v : raises_only is_validation (require_uuid4 v).
Proof. unfold require_uuid4. raises. Qed.
#[export] Hint Resolve require_uuid4_raises : raises.

(** Lowercase SHA-256 text: 64 characters of [0-9a-f]. *)
Fixpoint all_chars (p : Ascii.ascii -> bool) (s : string) : bool :=
  match s with EmptyString => true | String c s => p c && all_chars p s end.
Definition is_sha256 (value : string) : bool :=
  (Z.of_nat (String.length value) =? 64) && all_chars is_hex_lower value.
