(* ===== verification/Grouping.v ===== *)
(** Objective grouping: the overlap algorithms of
    [objectives_tasks/domain/grouping.py].

    Data: the task and objective authorities the grouping service reads, the
    changes and candidates it builds.  Algorithms: the sweep that finds the
    strict-overlap components of a set of planned tasks and the sweep that
    finds the tasks competing inside one activity lineage.  Both are compared
    with the pairwise relation they are meant to compute. *)
From S2P Require Import Prelude.

(** * Data *)
Record GroupingTaskAuthority := MkTask {
  task_id : string;
  task_revision : Z;
  plan_revision_id : string;
  plan_revision : Z;
  start_utc : Z;
  end_utc : Z;
  membership_objective_id : option string;
  membership_plan_revision_id : option string;
  membership_revision : option Z;
  membership_locked : bool;
  execution_state : string;
  objective_id : option string;
  objective_revision : option Z;
  objective_envelope_revision : option Z;
  objective_execution_state : option string
}.
#[export] Instance GroupingTaskAuthority_eq_dec : EqDecision GroupingTaskAuthority.
Proof. solve_decision. Defined.

Record GroupingObjectiveAuthority := MkObjective {
  o_objective_id : string;
  o_tracking_sequence : Z;
  o_revision : Z;
  o_envelope_revision : Z;
  o_start_utc : Z;
  o_end_utc : Z;
  o_execution_state : string;
  o_creation_origin : string
}.
#[export] Instance GroupingObjectiveAuthority_eq_dec :
  EqDecision GroupingObjectiveAuthority.
Proof. solve_decision. Defined.

Record GroupingTaskChange := MkTaskChange {
  tc_task_id : string;
  tc_from_objective_id : option string;
  tc_to_objective_id : option string;
  tc_expected_task_revision : Z;
  tc_expected_current_plan_revision_id : string;
  tc_expected_membership_revision : option Z;
  tc_change_kind : string
}.

Record GroupingObjectiveChange := MkObjectiveChange {
  oc_objective_id : option string;
  oc_action : string;
  oc_expected_objective_revision : option Z;
  oc_expected_envelope_revision : option Z
}.

Record RegroupCandidate := MkCandidate {
  proposal_kind : string;
  origin : string;
  risk_tier : string;
  survivor_objective_id : option string;
  task_changes : list GroupingTaskChange;
  objective_changes : list GroupingObjectiveChange;
  material_tasks : list GroupingTaskAuthority;
  material_objectives : list GroupingObjectiveAuthority;
  component_start_utc : Z;
  component_end_utc : Z;
  manual_scope_objective_ids : option (list string)
}.

(** One reviewed-lineage interval: (task_id, activity_lineage_id, start, end). *)
Record Interval := MkInterval {
  iv_task_id : string;
  iv_lineage_id : string;
  iv_start : Z;
  iv_end : Z
}.
#[export] Instance Interval_eq_dec : EqDecision Interval.
Proof. solve_decision. Defined.

(** * Strict-overlap components *)
Definition task_key (t : GroupingTaskAuthority) : Z * Z * string :=
  (start_utc t, end_utc t, task_id t).

(** The loop state: closed components, the open one, its latest end. *)
Definition component_step
    (s : list (list GroupingTaskAuthority) * list GroupingTaskAuthority * Z)
    (item : GroupingTaskAuthority) :=
  let '(components, current, max_end) := s in
  if start_utc item <? max_end
  then (components, current ++ [item], Z.max max_end (end_utc item))
  else (components ++ [current], [item], end_utc item).

Definition strict_overlap_components (tasks : list GroupingTaskAuthority)
    : list (list GroupingTaskAuthority) :=
  match py_sorted task_key tasks with
  | [] => []
  | first :: rest =>
      let '(components, current, _) :=
        foldl component_step ([], [first], end_utc first) rest in
      components ++ [current]
  end.

(** * Competing members of one lineage *)
Definition interval_key (i : Interval) : Z * Z * string :=
  (iv_start i, iv_end i, iv_task_id i).

(** The loop state: competing ids, latest end, the task that has it. *)
Definition member_step (s : gset string * Z * string) (i : Interval) :=
  let '(competing, max_end, max_end_task_id) := s in
  let competing :=
    if iv_start i <? max_end
    then {[max_end_task_id]} ∪ {[iv_task_id i]} ∪ competing else competing in
  if max_end <? iv_end i
  then (competing, iv_end i, iv_task_id i)
  else (competing, max_end, max_end_task_id).

Definition lineage_sweep (competing : gset string) (members : list Interval)
    : gset string :=
  match py_sorted interval_key members with
  | [] => competing
  | first :: rest =>
      (foldl member_step (competing, iv_end first, iv_task_id first) rest).1.1
  end.

Definition strict_overlap_member_ids (intervals : list Interval) : gset string :=
  foldl (fun c g => lineage_sweep c g.2) ∅ (group_by iv_lineage_id intervals).

(** * The relation the sweeps compute *)
Definition overlap (a b : GroupingTaskAuthority) : Prop :=
  start_utc a < end_utc b /\ start_utc b < end_utc a.
Definition touches_within (ts : list GroupingTaskAuthority) (a b : GroupingTaskAuthority) :=
  a ∈ ts /\ b ∈ ts /\ overlap a b.
(** Linked by a chain of strict overlaps between tasks of [ts]. *)
Definition linked (ts : list GroupingTaskAuthority) := rtc (touches_within ts).
Definition positive (t : GroupingTaskAuthority) : Prop := start_utc t < end_utc t.
(** Every task of [c1] has ended when any task of [c2] starts. *)
Definition before (c1 c2 : list GroupingTaskAuthority) : Prop :=
  forall a b, a ∈ c1 -> b ∈ c2 -> end_utc a <= start_utc b.

#[export] Instance overlap_sym : Symmetric overlap.
Proof. intros a b []; by split. Qed.
Lemma linked_sym ts : Symmetric (linked ts).
Proof.
  intros a b. induction 1 as [a|a b c (? & ? & ?) _ IH]; [apply rtc_refl|].
  eapply rtc_r; [exact IH|]. by split_and!.
Qed.
Lemma linked_mono ts ts' a b : ts ⊆ ts' -> linked ts a b -> linked ts' a b.
Proof. intros Hs. apply rtc_subrel. intros x y (? & ? & ?). split_and!; auto. Qed.

Lemma sorted_task_start t ts :
  StronglySorted (le_key task_key) (t :: ts) ->
  forall u, u ∈ ts -> start_utc t <= start_utc u.
Proof.
  intros [Hall _]%StronglySorted_cons u Hu.
  rewrite Forall_forall in Hall. specialize (Hall u Hu).
  apply leb_lt_or_eq in Hall as [Hlt|Heq]; [|by injection Heq; lia].
  simpl in Hlt. unfold prod_cmp in Hlt. simpl in Hlt.
  unfold prod_cmp in Hlt. simpl in Hlt.
  destruct (Z.compare_spec (start_utc t) (start_utc u)); lia || done.
Qed.

Lemma sorted_app_start p t ts :
  StronglySorted (le_key task_key) (p ++ t :: ts) ->
  forall u, u ∈ p -> start_utc u <= start_utc t.
Proof.
  induction p as [|x p IH]; simpl; [set_solver|]. intros Hs u [->|Hu]%elem_of_cons.
  - eapply sorted_task_start; [done|]. set_solver.
  - apply IH; [|done]. by apply StronglySorted_cons in Hs as [].
Qed.

(** The loop invariant after the prefix [p] of the sorted tasks. *)
Record sweep_inv (p : list GroupingTaskAuthority)
    (s : list (list GroupingTaskAuthority) * list GroupingTaskAuthority * Z) : Prop := {
  si_join : mjoin s.1.1 ++ s.1.2 = p;
  si_nonempty : Forall (fun c => c <> []) (s.1.1 ++ [s.1.2]);
  si_max_in : exists h, h ∈ s.1.2 /\ end_utc h = s.2;
  si_max : forall t, t ∈ s.1.2 -> end_utc t <= s.2;
  si_linked : Forall (fun c => forall a b, a ∈ c -> b ∈ c -> linked c a b)
                (s.1.1 ++ [s.1.2]);
  si_before : StronglySorted before (s.1.1 ++ [s.1.2])
}.

Lemma linked_snoc c t h :
  h ∈ c -> overlap h t -> (forall a b, a ∈ c -> b ∈ c -> linked c a b) ->
  forall a b, a ∈ c ++ [t] -> b ∈ c ++ [t] -> linked (c ++ [t]) a b.
Proof.
  intros Hh Ho Hc.
  assert (forall a, a ∈ c -> linked (c ++ [t]) a t) as Hat.
  { intros a Ha. eapply rtc_r; [eapply linked_mono, (Hc a h Ha Hh); set_solver|].
    split_and!; [set_solver|set_solver|done]. }
  intros a b Ha Hb. rewrite !elem_of_app, !list_elem_of_singleton in Ha, Hb.
  destruct Ha as [Ha| ->], Hb as [Hb| ->].
  - eapply linked_mono, Hc; set_solver.
  - by apply Hat.
  - by apply linked_sym, Hat.
  - apply rtc_refl.
Qed.

Lemma sweep_inv_step p s t :
  positive t -> (forall u, u ∈ p -> start_utc u <= start_utc t) ->
  sweep_inv p s -> sweep_inv (p ++ [t]) (component_step s t).
Proof.
  intros Hpos Hle [Hj Hne Hin Hmax Hl Hb]. destruct s as [[cs cur] m]; simpl in *.
  rewrite Forall_app, Forall_singleton in Hne, Hl.
  destruct Hne as [Hne1 Hne2], Hl as [Hl1 Hl2], Hin as (h & Hh & Hhm).
  apply StronglySorted_app in Hb as (Hb1 & Hb2 & _).
  assert (forall c u, c ∈ cs -> u ∈ c -> end_utc u <= start_utc t) as Hold.
  { intros c u Hc Hu. transitivity (start_utc h); [|apply Hle; set_solver].
    eapply (Hb1 c cur); set_solver. }
  destruct (Z.ltb_spec (start_utc t) m) as [Hlt|Hge]; split; simpl.
  - by rewrite app_assoc, Hj.
  - rewrite Forall_app, Forall_singleton. split; [done|]. by destruct cur.
  - destruct (Z.le_gt_cases (end_utc t) m).
    + exists h. split; [set_solver|lia].
    + exists t. split; [set_solver|lia].
  - intros u [Hu| ->%list_elem_of_singleton]%elem_of_app; [specialize (Hmax u Hu)|]; lia.
  - rewrite Forall_app, Forall_singleton. split; [done|].
    apply (linked_snoc _ _ h); [done| |done].
    assert (h ∈ p) as Hhp by (subst p; set_solver).
    specialize (Hle h Hhp). unfold overlap, positive in *. lia.
  - apply StronglySorted_app. split_and!; [|done|by repeat constructor].
    intros c d Hc ->%list_elem_of_singleton a b Ha
      [Hb| ->%list_elem_of_singleton]%elem_of_app; [|by eapply Hold].
    eapply (Hb1 c cur); set_solver.
  - rewrite join_app, <-Hj; simpl. by rewrite app_nil_r.
  - rewrite !Forall_app, !Forall_singleton. done.
  - exists t. set_solver.
  - intros u ->%list_elem_of_singleton. done.
  - rewrite !Forall_app, !Forall_singleton. split_and!; [done|done|].
    intros a b ->%list_elem_of_singleton ->%list_elem_of_singleton. apply rtc_refl.
  - apply StronglySorted_app. split_and!; [| |by repeat constructor].
    + intros c d [Hc| ->%list_elem_of_singleton]%elem_of_app
        ->%list_elem_of_singleton a b Ha ->%list_elem_of_singleton.
      * by eapply Hold.
      * specialize (Hmax a Ha). lia.
    + apply StronglySorted_app. split_and!; [done|done|by repeat constructor].
Qed.

Lemma sweep_inv_fold ts p s :
  Forall positive ts -> StronglySorted (le_key task_key) (p ++ ts) ->
  sweep_inv p s -> sweep_inv (p ++ ts) (foldl component_step s ts).
Proof.
  revert p s. induction ts as [|t ts IH]; intros p s Hpos Hs Hinv; simpl.
  { by rewrite app_nil_r. }
  apply Forall_cons in Hpos as [Ht Hpos].
  assert (p ++ t :: ts = (p ++ [t]) ++ ts) as Heq by by rewrite <-app_assoc.
  rewrite Heq. apply IH; [done|by rewrite <-Heq|].
  apply sweep_inv_step; [done| |done]. by eapply sorted_app_start.
Qed.

(** What the sweep guarantees about its result. *)
Record components_ok (tasks : list GroupingTaskAuthority)
    (cs : list (list GroupingTaskAuthority)) : Prop := {
  co_join : mjoin cs = py_sorted task_key tasks;
  co_nonempty : Forall (fun c => c <> []) cs;
  co_linked : Forall (fun c => forall a b, a ∈ c -> b ∈ c -> linked c a b) cs;
  co_before : StronglySorted before cs
}.

Lemma strict_overlap_components_ok tasks :
  Forall positive tasks -> components_ok tasks (strict_overlap_components tasks).
Proof.
  intros Hpos. unfold strict_overlap_components.
  pose proof (py_sorted_sorted task_key tasks) as Hs.
  assert (Forall positive (py_sorted task_key tasks)) as Hpos'
    by by rewrite py_sorted_perm.
  destruct (py_sorted task_key tasks) as [|t ts] eqn:E.
  { split; [by rewrite E|constructor|constructor|constructor]. }
  apply Forall_cons in Hpos' as [Ht Hpos'].
  assert (sweep_inv [t] ([], [t], end_utc t)) as Hinit.
  { split; simpl; [done|by repeat constructor|exists t; set_solver|set_solver| |].
    - constructor; [|done]. intros a b ->%list_elem_of_singleton
        ->%list_elem_of_singleton. apply rtc_refl.
    - repeat constructor. }
  pose proof (sweep_inv_fold ts [t] _ Hpos' Hs Hinit) as [Hj Hne _ _ Hl Hb].
  destruct (foldl component_step _ ts) as [[cs cur] m]; simpl in *.
  split; [|done|done|done]. rewrite E, join_app. simpl. by rewrite app_nil_r.
Qed.

Lemma components_ok_closed tasks cs c a b :
  components_ok tasks cs -> c ∈ cs -> a ∈ c -> linked tasks a b -> b ∈ c.
Proof.
  intros [Hj _ _ Hb] Hc Ha Hl. revert Ha.
  induction Hl as [|a x b (_ & Hx & Ho) _ IH]; intros Ha; [done|]. apply IH.
  rewrite <-(elem_of_py_sorted task_key), <-Hj, list_elem_of_join in Hx.
  destruct Hx as (c' & Hx & Hc'). destruct Ho.
  destruct (StronglySorted_related before cs c c') as [->|[Hcc|Hcc]]; [done..|done| |].
  - specialize (Hcc a x Ha Hx). lia.
  - specialize (Hcc x a Hx Ha). lia.
Qed.

(** The sweep of [strict_overlap_components] computes exactly the connected
    components of the strict-overlap graph of the tasks: every task is in one
    component, a task belongs to the component of another one iff a chain of
    strict overlaps links them (tasks that only touch are not linked), no
    component is empty, and each component ends before the next starts. *)
Theorem strict_overlap_components_connected tasks :
  Forall positive tasks ->
  mjoin (strict_overlap_components tasks) ≡ₚ tasks /\
  (forall c a b, c ∈ strict_overlap_components tasks -> a ∈ c -> b ∈ tasks ->
     b ∈ c <-> linked tasks a b) /\
  Forall (fun c => c <> []) (strict_overlap_components tasks) /\
  StronglySorted before (strict_overlap_components tasks).
Proof.
  intros Hpos. pose proof (strict_overlap_components_ok tasks Hpos) as Hok.
  pose proof Hok as [Hj Hne Hl Hb].
  split_and!; [by rewrite Hj, py_sorted_perm| |done|done].
  intros c a b Hc Ha _. split; [|by apply (components_ok_closed tasks _ c a b Hok)].
  intros Hbc. rewrite Forall_forall in Hl. eapply linked_mono, (Hl c Hc a b Ha Hbc).
  intros x Hx. rewrite <-(elem_of_py_sorted task_key), <-Hj, list_elem_of_join. eauto.
Qed.

(** * Correctness of the lineage sweep *)
Definition iv_overlap (a b : Interval) : Prop :=
  iv_start a < iv_end b /\ iv_start b < iv_end a.
Definition iv_positive (i : Interval) : Prop := iv_start i < iv_end i.
(** [x] names one of two distinct entries of [l] that strictly overlap. *)
Definition overlaps_in (l : list Interval) (x : string) : Prop :=
  exists a b rest, l ≡ₚ a :: b :: rest /\ iv_overlap a b /\ iv_task_id a = x.

#[export] Instance iv_overlap_sym : Symmetric iv_overlap.
Proof. intros a b []; by split. Qed.

Lemma overlaps_in_snoc p t x :
  overlaps_in (p ++ [t]) x <->
  overlaps_in p x \/
  exists a rest, p ≡ₚ a :: rest /\ iv_overlap a t /\
    (iv_task_id a = x \/ iv_task_id t = x).
Proof.
  assert (p ++ [t] ≡ₚ t :: p) as Hpt by by rewrite Permutation_app_comm.
  unfold overlaps_in. setoid_rewrite Hpt. split.
  - intros (a & b & rest & Hp & Ho & Hx).
    assert (t ∈ a :: b :: rest) as Ht by (rewrite <-Hp; set_solver).
    apply elem_of_cons in Ht as [->|Ht].
    { right. exists b, rest. apply Permutation_cons_inv in Hp.
      split_and!; [done|by symmetry|by right]. }
    apply elem_of_cons in Ht as [->|[rest' Hr]%elem_of_Permutation].
    { right. rewrite (Permutation_swap b a) in Hp. apply Permutation_cons_inv in Hp.
      exists a, rest. split_and!; [done|done|by left]. }
    left. exists a, b, rest'. split; [|done].
    apply (Permutation_cons_inv (a := t)). rewrite Hp, Hr.
    by rewrite (Permutation_swap a t), (Permutation_swap b t).
  - intros [(a & b & rest & Hp & Ho & Hx)|(a & rest & Hp & Ho & [Hx|Hx])].
    + exists a, b, (t :: rest). split; [|done]. rewrite Hp.
      by rewrite (Permutation_swap a t), (Permutation_swap b t).
    + exists a, t, rest. split; [|done]. by rewrite Hp, Permutation_swap.
    + exists t, a, rest. split; [by rewrite Hp|]. split; [by symmetry|done].
Qed.

(** After the prefix [p]: the set is exact, [h] is the entry holding the latest
    end, and every other entry is already competing or ended too early to
    overlap what follows. *)
Record member_inv (C0 : gset string) (p : list Interval)
    (s : gset string * Z * string) : Prop := {
  mi_exact : forall x, x ∈ s.1.1 <-> x ∈ C0 \/ overlaps_in p x;
  mi_holder : exists h, h ∈ p /\ iv_end h = s.1.2 /\ iv_task_id h = s.2 /\
    forall a, a ∈ p -> iv_end a <= s.1.2 /\
      (overlaps_in p (iv_task_id a) \/ iv_task_id a = iv_task_id h \/
       exists m, m ∈ p /\ iv_end a <= iv_start m)
}.

Lemma overlaps_in_new p t a :
  a ∈ p -> iv_overlap a t ->
  overlaps_in (p ++ [t]) (iv_task_id a) /\ overlaps_in (p ++ [t]) (iv_task_id t).
Proof.
  intros [rest Hp]%elem_of_Permutation Ho. rewrite !overlaps_in_snoc.
  split; right; exists a, rest; naive_solver.
Qed.

Lemma member_inv_step C0 p s t :
  iv_positive t -> (forall u, u ∈ p -> iv_start u <= iv_start t) ->
  member_inv C0 p s -> member_inv C0 (p ++ [t]) (member_step s t).
Proof.
  intros Hpos Hle [Hex (h & Hh & Hhm & Hhid & Hall)].
  destruct s as [[C m] hid]; simpl in *; subst m hid.
  assert (forall x, overlaps_in p x -> overlaps_in (p ++ [t]) x) as Hmono
    by (intros x; rewrite overlaps_in_snoc; by left).
  assert (iv_start t < iv_end h -> iv_overlap h t) as Hht.
  { specialize (Hle h Hh). unfold iv_overlap, iv_positive in *. lia. }
  set (C' := if iv_start t <? iv_end h
    then {[iv_task_id h]} ∪ {[iv_task_id t]} ∪ C else C).
  assert (forall x, x ∈ C' <-> x ∈ C0 \/ overlaps_in (p ++ [t]) x) as HC'.
  { intros x. unfold C'. destruct (Z.ltb_spec (iv_start t) (iv_end h)) as [Hlt|Hge].
    - destruct (overlaps_in_new p t h Hh (Hht Hlt)) as [Hnh Hnt].
      rewrite !elem_of_union, !elem_of_singleton, Hex. split; [naive_solver|].
      intros [?|Hx]; [by auto|]. apply overlaps_in_snoc in Hx as
        [?|(a & rest & Hp & Ho & [Hx|Hx])]; [by auto| |by auto].
      assert (a ∈ p) as Ha by (rewrite Hp; set_solver).
      destruct (Hall a Ha) as [_ [Hov|[Heq|(u & Hu & Hau)]]].
      + subst x. auto.
      + left; left. congruence.
      + specialize (Hle u Hu). destruct Ho. lia.
    - rewrite Hex. split; [naive_solver|]. intros [?|Hx]; [by auto|].
      apply overlaps_in_snoc in Hx as [?|(a & rest & Hp & [_ Ho] & _)]; [by auto|].
      assert (a ∈ p) as Ha by (rewrite Hp; set_solver).
      destruct (Hall a Ha) as [? _]. lia. }
  destruct (Z.ltb_spec (iv_end h) (iv_end t)) as [Hgt|Hle'].
  - split; simpl; [done|]. exists t. split_and!; [set_solver|done|done|].
    intros a [Ha| ->%list_elem_of_singleton]%elem_of_app; [|split; [lia|by auto]].
    destruct (Hall a Ha) as [Hea Hcase]. split; [lia|].
    destruct Hcase as [Hov|[Heq|(u & Hu & Hau)]].
    + left. by apply Hmono.
    + destruct (Z.lt_ge_cases (iv_start t) (iv_end h)) as [Hlt|Hge].
      * left. rewrite Heq. by destruct (overlaps_in_new p t h Hh (Hht Hlt)).
      * right; right. exists t. split; [set_solver|lia].
    + right; right. exists u. split; [set_solver|done].
  - split; simpl; [done|]. exists h. split_and!; [set_solver|done|done|].
    intros a [Ha| ->%list_elem_of_singleton]%elem_of_app.
    + destruct (Hall a Ha) as [Hea Hcase]. split; [done|].
      destruct Hcase as [Hov|[Heq|(u & Hu & Hau)]];
        [left; by apply Hmono|by auto|]. right; right. exists u. set_solver.
    + split; [done|]. left. apply (overlaps_in_new p t h Hh), Hht.
      unfold iv_positive in Hpos. lia.
Qed.

Lemma sorted_interval_start p t ts :
  StronglySorted (le_key interval_key) (p ++ t :: ts) ->
  forall u, u ∈ p -> iv_start u <= iv_start t.
Proof.
  intros Hs u Hu. assert (le_key interval_key u t) as Hle.
  { eapply (StronglySorted_app_1_elem_of _ p (t :: ts)); [done|done|set_solver]. }
  unfold le_key in Hle. apply leb_lt_or_eq in Hle as [Hlt|Heq]; [|injection Heq; lia].
  simpl in Hlt. unfold prod_cmp in Hlt. simpl in Hlt. unfold prod_cmp in Hlt.
  simpl in Hlt. destruct (Z.compare_spec (iv_start u) (iv_start t)); lia || done.
Qed.

Lemma member_inv_fold C0 ts p s :
  Forall iv_positive ts -> StronglySorted (le_key interval_key) (p ++ ts) ->
  member_inv C0 p s -> member_inv C0 (p ++ ts) (foldl member_step s ts).
Proof.
  revert p s. induction ts as [|t ts IH]; intros p s Hpos Hs Hinv; simpl.
  { by rewrite app_nil_r. }
  apply Forall_cons in Hpos as [Ht Hpos].
  assert (p ++ t :: ts = (p ++ [t]) ++ ts) as Heq by by rewrite <-app_assoc.
  rewrite Heq. apply IH; [done|by rewrite <-Heq|].
  apply member_inv_step; [done| |done]. by eapply sorted_interval_start.
Qed.

#[export] Instance overlaps_in_proper :
  Proper ((≡ₚ) ==> (=) ==> iff) overlaps_in.
Proof. intros l1 l2 Hl x ? <-. unfold overlaps_in. by setoid_rewrite Hl. Qed.

Lemma overlaps_in_nil x : ~ overlaps_in [] x.
Proof. intros (a & b & rest & Hp & _). by apply Permutation_nil_cons in Hp. Qed.
Lemma overlaps_in_singleton t x : ~ overlaps_in [t] x.
Proof.
  intros (a & b & rest & Hp & _). apply Permutation_length in Hp. simpl in Hp. lia.
Qed.

Lemma lineage_sweep_spec C0 members :
  Forall iv_positive members ->
  forall x, x ∈ lineage_sweep C0 members <-> x ∈ C0 \/ overlaps_in members x.
Proof.
  intros Hpos x. unfold lineage_sweep.
  pose proof (py_sorted_perm interval_key members) as Hp.
  pose proof (py_sorted_sorted interval_key members) as Hs.
  rewrite <-Hp in Hpos. rewrite <-(overlaps_in_proper _ _ Hp x x eq_refl).
  clear Hp. destruct (py_sorted interval_key members) as [|t ts].
  { pose proof (overlaps_in_nil x). naive_solver. }
  apply Forall_cons in Hpos as [Ht Hpos].
  assert (member_inv C0 [t] (C0, iv_end t, iv_task_id t)) as Hinit.
  { split; simpl; [|exists t; set_solver].
    intros y. pose proof (overlaps_in_singleton t y). naive_solver. }
  by apply (member_inv_fold C0 ts [t] _ Hpos Hs Hinit).
Qed.

Lemma Permutation_filter_pair (P : Interval -> Prop) `{forall x, Decision (P x)} l a b rest :
  l ≡ₚ a :: b :: rest -> P a -> P b -> filter P l ≡ₚ a :: b :: filter P rest.
Proof. intros ->. intros. by rewrite !filter_cons_True. Qed.

(** [strict_overlap_member_ids] returns exactly the ids of the tasks that
    strictly overlap another entry of their own activity lineage: the sweep,
    which never enumerates pairs, misses none and adds none.  Touching
    intervals and intervals of different lineages do not compete. *)
Theorem strict_overlap_member_ids_exact intervals :
  Forall iv_positive intervals ->
  forall x, x ∈ strict_overlap_member_ids intervals <->
    exists a b rest, intervals ≡ₚ a :: b :: rest /\
      iv_lineage_id a = iv_lineage_id b /\ iv_overlap a b /\ iv_task_id a = x.
Proof.
  intros Hpos x. unfold strict_overlap_member_ids.
  assert (forall gs C, Forall (fun g => Forall iv_positive g.2) gs ->
    x ∈ foldl (fun c g => lineage_sweep c g.2) C gs <->
    x ∈ C \/ exists g : string * list Interval, g ∈ gs /\ overlaps_in g.2 x) as Hfold.
  { induction gs as [|g gs IH]; intros C Hgs; simpl; [set_solver|].
    apply Forall_cons in Hgs as [Hg Hgs].
    rewrite IH, lineage_sweep_spec by done. set_solver. }
  rewrite Hfold.
  - transitivity (exists k, overlaps_in (filter (fun i => iv_lineage_id i = k) intervals) x).
    { split.
      - intros [?|([k g] & [-> _]%elem_of_group_by & Ho)]; [set_solver|by exists k].
      - intros (k & Ho). right.
        exists (k, filter (fun i => iv_lineage_id i = k) intervals).
        split; [|done]. apply elem_of_group_by. split; [done|].
        intros Hnil. simpl in Ho. rewrite Hnil in Ho. by apply overlaps_in_nil in Ho. }
    split.
    + intros (k & a & b & rest & Hp & Ho & Hx).
      assert (forall i, i ∈ a :: b :: rest -> iv_lineage_id i = k) as Hk.
      { intros i. rewrite <-Hp, list_elem_of_filter. naive_solver. }
      exists a, b, (rest ++ filter (fun i => iv_lineage_id i <> k) intervals).
      split_and!; [|by rewrite !Hk by set_solver|done|done].
      rewrite <-(filter_app_complement (fun i => iv_lineage_id i = k) intervals) at 1.
      by rewrite Hp.
    + intros (a & b & rest & Hp & Hl & Ho & Hx). exists (iv_lineage_id a), a, b,
        (filter (fun i => iv_lineage_id i = iv_lineage_id a) rest).
      split; [|done]. by apply Permutation_filter_pair.
  - apply Forall_forall. intros [k g] [-> _]%elem_of_group_by. simpl.
    rewrite Forall_forall in Hpos |- *.
    intros i [_ Hi]%list_elem_of_filter. by apply Hpos.
Qed.

Definition demo_task (id : string) (s e : Z) : GroupingTaskAuthority :=
  MkTask id 1 "plan" 1 s e None None None false "not_started" None None None None.

Lemma strict_overlap_components_connected_witness :
  let ts := [demo_task "c" 20 30; demo_task "a" 0 10; demo_task "d" 5 20] in
  Forall positive ts /\
  strict_overlap_components ts =
    [[demo_task "a" 0 10; demo_task "d" 5 20]; [demo_task "c" 20 30]] /\
  (mjoin (strict_overlap_components ts) ≡ₚ ts).
Proof.
  intros ts. assert (Forall positive ts) as Hpos by by repeat constructor.
  split; [done|]. split; [by vm_compute|].
  exact (proj1 (strict_overlap_components_connected ts Hpos)).
Defined.

Lemma strict_overlap_member_ids_exact_witness :
  let l := [MkInterval "a" "L" 0 10; MkInterval "b" "L" 10 20;
            MkInterval "c" "L" 15 16; MkInterval "d" "M" 0 50] in
  Forall iv_positive l /\ "c" ∈ strict_overlap_member_ids l.
Proof.
  intros l. assert (Forall iv_positive l) as Hpos by by repeat constructor.
  split; [done|]. apply (strict_overlap_member_ids_exact l Hpos).
  exists (MkInterval "c" "L" 15 16), (MkInterval "b" "L" 10 20),
    [MkInterval "a" "L" 0 10; MkInterval "d" "M" 0 50].
  split_and!; [|done|by split; vm_compute|done].
  unfold l. set (a := MkInterval "a" _ _ _). set (b := MkInterval "b" _ _ _).
  set (c := MkInterval "c" _ _ _). set (d := MkInterval "d" _ _ _).
  by rewrite (Permutation_swap c b), (Permutation_swap c a), (Permutation_swap b a).
Defined.
