(* ===== verification/SlaPolicy.v ===== *)
(** SLA policy definition and validation:
    [product_line_sla/domain/policy.py] and
    [product_line_sla/algorithms/policy_validation.py].

    Python's [Fraction] is the canonical rational [Qc]: numerator and
    denominator are those of the reduced form. *)
From Stdlib Require Import QArith Qcanon.
From S2P Require Import Prelude StrictJson.
#[local] Open Scope Z_scope.

(** * [fractions.Fraction] *)
Definition Fraction := Qc.
Definition frac (n : Z) (d : positive) : Fraction := Q2Qc (n # d).
Definition numerator (f : Fraction) : Z := Qnum f.
Definition denominator (f : Fraction) : Z := Zpos (Qden f).

#[export] Program Instance Qc_ord : Ord Qc := {| cmp := Qccompare |}.
Next Obligation.
  intros x y. unfold Qccompare. rewrite <-Qeq_alt.
  split; [apply Qc_is_canon|by intros ->].
Qed.
Next Obligation. intros x y. symmetry. apply Qcompare_antisym. Qed.
Next Obligation.
  intros x y z. unfold Qccompare. rewrite <-!Qlt_alt. apply Qlt_trans.
Qed.

Lemma Qc_leb_le (x y : Qc) : leb x y = true <-> Qcle x y.
Proof.
  unfold leb. rewrite Qcle_alt. change (cmp x y) with (Qccompare x y).
  destruct (Qccompare x y); split; congruence || done.
Qed.
Lemma Qc_mul_cancel (x y z : Qc) : z <> Q2Qc 0 -> Qcmult x z = Qcmult y z -> x = y.
Proof.
  intros Hz Heq. rewrite <-(Qcmult_1_r x), <-(Qcmult_1_r y), <-(Qcmult_inv_r z Hz).
  by rewrite !Qcmult_assoc, Heq.
Qed.

(** * [ExactDuration] *)
Definition _MAX_DURATION_NUMERATOR : Z := 9223372036854775807.
Definition _MAX_DURATION_DENOMINATOR : Z := 1000000000.

Record ExactDuration := MkDuration { numerator_seconds : Z; duration_denominator : Z }.
#[export] Instance ExactDuration_eq_dec : EqDecision ExactDuration.
Proof. solve_decision. Defined.

(** [ExactDuration.__post_init__] *)
Definition exact_duration (n d : Z) : result ExactDuration :=
  _ ← forbid ((n <=? 0) || (d <=? 0))
        (ValidationError "SLA duration must be a positive rational number of seconds");
  _ ← forbid (negb (Z.gcd n d =? 1)) (ValidationError "SLA duration rational must be reduced");
  _ ← forbid (_MAX_DURATION_NUMERATOR <? n)
        (ValidationError "SLA duration numerator exceeds the accepted bound");
  _ ← forbid (_MAX_DURATION_DENOMINATOR <? d)
        (ValidationError "SLA duration denominator exceeds the accepted bound");
  Ok (MkDuration n d).

(** [ExactDuration.fraction] *)
Definition duration_fraction (e : ExactDuration) : Fraction :=
  frac (numerator_seconds e) (Z.to_pos (duration_denominator e)).

Definition duration_from_fraction (value : Fraction) : result ExactDuration :=
  _ ← forbid (leb value (frac 0 1)) (ValidationError "SLA duration must be positive");
  exact_duration (numerator value) (denominator value).

(** [ExactDuration.multiplied] *)
Definition multiplied (e : ExactDuration) (n d : Z) : result ExactDuration :=
  _ ← forbid ((n <=? 0) || (d <=? 0))
        (ValidationError "SLA duration multiplier must be a positive rational");
  duration_from_fraction (Qcmult (duration_fraction e) (frac n (Z.to_pos d))).

Definition duration_fingerprint (e : ExactDuration) : json :=
  JObj [("numerator_seconds", JInt (numerator_seconds e));
        ("denominator", JInt (duration_denominator e))].

(** * Policy values *)
Record PolicyTierInput := MkTierInput {
  required_percentage : string;
  maximum_duration_text : string;
  duration_unit : string
}.

Record ValidatedPolicyTier := MkTier {
  severity : string;
  tier_ordinal : Z;
  required_percentage_millionths : Z;
  maximum_duration : ExactDuration;
  derived_from_minor_ordinal : option Z;
  derivation_num : option Z;
  derivation_den : option Z
}.

Definition tier_fingerprint (t : ValidatedPolicyTier) : json :=
  JObj [("severity", JStr (severity t));
        ("tier_ordinal", JInt (tier_ordinal t));
        ("required_percentage_millionths", JInt (required_percentage_millionths t));
        ("maximum_duration", duration_fingerprint (maximum_duration t));
        ("derived_from_minor_ordinal", jopt JInt (derived_from_minor_ordinal t));
        ("derivation_num", jopt JInt (derivation_num t));
        ("derivation_den", jopt JInt (derivation_den t))].

Record ValidatedPolicy := MkPolicy {
  template_source : option string;
  tiers : list ValidatedPolicyTier;
  content_fingerprint : string
}.

Definition _BASE_SEVERITIES : list string := ["critical"; "major"; "minor"].
Definition _DERIVED_SEVERITY : string := "non_fault_inquiry".
Definition _SUPPORTED_SEVERITIES : list string :=
  ["critical"; "major"; "minor"; "non_fault_inquiry"].
Definition _MAX_PERCENTAGE_MILLIONTHS : Z := 100000000.
Definition _MAX_POLICY_TIERS : Z := 128.

(** [ValidatedPolicy.tiers_for] *)
Definition tiers_for (p : ValidatedPolicy) (s : string) : result (list ValidatedPolicyTier) :=
  _ ← forbid (negb (bool_decide (s ∈ _SUPPORTED_SEVERITIES)))
        (ValidationError "unsupported SLA severity");
  Ok (filter (fun t => severity t = s) (tiers p)).

(** * Parsing decimals *)
(** [_DECIMAL_RE]: whole digits without a leading zero, an optional point with
    at least one digit, an optional percent sign; gives the whole digits and
    the fraction digits. *)
Definition match_decimal (value : string) : option (string * option string) :=
  '(whole, rest) ← match value with
    | String c r =>
        if is_char 48 c then Some ("0", r)
        else if is_digit c then Some (span is_digit value) else None
    | EmptyString => None end;
  '(fraction, tail) ← match strip_prefix "." rest with
    | Some r => match span is_digit r with
        | (EmptyString, _) => None | (d, r') => Some (Some d, r') end
    | None => Some (None, rest) end;
  match tail with
  | EmptyString => Some (whole, fraction)
  | _ => if String.eqb tail "%" then Some (whole, fraction) else None
  end.

(** [int(text)] raises [ValueError] beyond the interpreter's digit limit. *)
Definition int_of_digits (digits : string) : result Z :=
  match int_value digits with Some z => Ok z | None => Raise (PyExn "ValueError") end.

Definition _decimal_fraction (value label : string) (max_scale : option Z) : result Fraction :=
  match match_decimal value with
  | None => raise (ValidationError (label +:+ " must be canonical finite decimal text"))
  | Some (whole_text, fractional_text) =>
      let fraction_digits := default EmptyString fractional_text in
      let scale := Z.of_nat (String.length fraction_digits) in
      _ ← forbid (match max_scale with Some m => m <? scale | None => false end)
            (ValidationError (label +:+ " exceeds the accepted decimal scale"));
      let denominator := Z.to_pos (10 ^ scale) in
      whole ← int_of_digits whole_text;
      fractional ← match fractional_text with
        | Some d => int_of_digits d | None => Ok 0 end;
      Ok (frac (whole * Zpos denominator + fractional) denominator)
  end.

Definition _percentage_millionths (value : string) : result Z :=
  percentage ← _decimal_fraction value "required percentage" (Some 6);
  let scaled := Qcmult percentage (frac 1000000 1) in
  _ ← forbid (negb (denominator scaled =? 1))
        (ValidationError "required percentage cannot be represented exactly in millionths");
  let millionths := numerator scaled in
  _ ← forbid (negb ((1 <=? millionths) && (millionths <=? _MAX_PERCENTAGE_MILLIONTHS)))
        (ValidationError "required percentage must be greater than zero and at most 100%");
  Ok millionths.

Definition _DURATION_UNITS (unit : string) : option Z :=
  if String.eqb unit "seconds" then Some 1
  else if String.eqb unit "hours" then Some 3600
  else if String.eqb unit "days" then Some 86400
  else None.

Definition _duration (value unit : string) : result ExactDuration :=
  match _DURATION_UNITS unit with
  | None => raise (ValidationError "SLA duration unit must be seconds, hours, or days")
  | Some u =>
      decimal ← _decimal_fraction value "maximum duration" None;
      duration_from_fraction (Qcmult decimal (frac u 1))
  end.

(** * Policy validation *)
Definition tier_inputs := list (string * list PolicyTierInput).

Definition required_tiers (tiers_by_severity : tier_inputs) (s : string)
    : result (string * list PolicyTierInput) :=
  match dget s tiers_by_severity with
  | None | Some [] =>
      raise (ValidationError ("SLA policy must define at least one " +:+ s +:+ " tier"))
  | Some raw => Ok (s, raw)
  end.

Definition _canonical_input (tiers_by_severity : tier_inputs) : result tier_inputs :=
  let unknown := filter (fun s => s ∉ _BASE_SEVERITIES) tiers_by_severity.*1 in
  _ ← forbid (bool_decide (_DERIVED_SEVERITY ∈ unknown))
        (ValidationError "Non-fault inquiry tiers are derived and cannot be supplied explicitly");
  _ ← forbid (negb (bool_decide (unknown = [])))
        (ValidationError "SLA policy contains an unsupported severity");
  traverse (required_tiers tiers_by_severity) _BASE_SEVERITIES.

Definition _TEMPLATE_INPUTS (template : string) : option tier_inputs :=
  if String.eqb template "IT_DEFAULT_V1" then Some
    [("critical", [MkTierInput "100" "7" "days"]);
     ("major", [MkTierInput "85" "15" "days"; MkTierInput "100" "30" "days"]);
     ("minor", [MkTierInput "85" "45" "days"; MkTierInput "100" "60" "days"])]
  else if String.eqb template "NFV_DEFAULT_V1" then Some
    [("critical", [MkTierInput "100" "3" "days"]);
     ("major", [MkTierInput "100" "15" "days"]);
     ("minor", [MkTierInput "100" "90" "days"])]
  else None.
Definition _template_inputs (template : string) : result tier_inputs :=
  match _TEMPLATE_INPUTS template with
  | Some t => Ok t
  | None => raise (ValidationError "unknown SLA policy template")
  end.

(** One input tier, parsed: (duration, percentage, input ordinal). *)
Definition material_tier := (ExactDuration * Z * Z)%type.
Definition tier_identity (m : material_tier) : Z * Z * Z :=
  let '(d, p, _) := m in (p, numerator_seconds d, duration_denominator d).
Definition tier_sort_key (m : material_tier) : Fraction * Z * Z :=
  let '(d, p, i) := m in (duration_fraction d, p, i).

Definition add_material (s : string) (material : list material_tier)
    (item : PolicyTierInput) : result (list material_tier) :=
  percentage ← _percentage_millionths (required_percentage item);
  duration ← _duration (maximum_duration_text item) (duration_unit item);
  let m := (duration, percentage, Z.of_nat (length material)) in
  _ ← forbid (bool_decide (tier_identity m ∈ map tier_identity material))
        (ValidationError ("SLA policy repeats an exact " +:+ s +:+ " tier"));
  Ok (material ++ [m]).

Definition numbered_tier (s : string) (ordinal : nat) (m : material_tier)
    : ValidatedPolicyTier :=
  let '(d, p, _) := m in MkTier s (Z.of_nat ordinal + 1) p d None None None.

Definition severity_tiers (s : string) (inputs : list PolicyTierInput)
    : result (list ValidatedPolicyTier) :=
  material ← foldM (add_material s) [] inputs;
  Ok (imap (numbered_tier s) (py_sorted tier_sort_key material)).

Definition _base_tiers (canonical : tier_inputs) : result (list ValidatedPolicyTier) :=
  ts ← traverse (fun s => severity_tiers s (default [] (dget s canonical))) _BASE_SEVERITIES;
  Ok (concat ts).

Definition derive_tier (minor : ValidatedPolicyTier) : result ValidatedPolicyTier :=
  d ← multiplied (maximum_duration minor) 3 2;
  Ok (MkTier _DERIVED_SEVERITY (tier_ordinal minor)
        (required_percentage_millionths minor) d
        (Some (tier_ordinal minor)) (Some 3) (Some 2)).

Definition _with_derived_non_fault (base : list ValidatedPolicyTier)
    : result (list ValidatedPolicyTier) :=
  derived ← traverse derive_tier (filter (fun t => severity t = "minor") base);
  let tiers := base ++ derived in
  _ ← forbid (_MAX_POLICY_TIERS <? Z.of_nat (length tiers))
        (ValidationError "SLA policy exceeds the accepted tier-count bound");
  Ok tiers.

Definition policy_fingerprint_value (source : option string)
    (tiers : list ValidatedPolicyTier) : json :=
  JObj [("schema", JStr "SOMA_SLA_POLICY_CONTENT_V1");
        ("template_source", jopt JStr source);
        ("tiers", JArr (map tier_fingerprint tiers))].

Definition validate_sla_policy `{Sha256} (template_source : option string)
    (explicit_tiers : option tier_inputs) : result ValidatedPolicy :=
  '(canonical, source) ← match template_source, explicit_tiers with
    | Some t, None => c ← _template_inputs t; Ok (c, Some t)
    | None, Some e => c ← _canonical_input e; Ok (c, None)
    | _, _ => raise (ValidationError
        "SLA policy must supply exactly one template or explicit tier definition")
    end;
  base ← _base_tiers canonical;
  tiers ← _with_derived_non_fault base;
  fingerprint ← sha256_canonical_json (policy_fingerprint_value source tiers);
  Ok (MkPolicy source tiers fingerprint).

(** * Facts about durations *)
Definition duration_ok (e : ExactDuration) : Prop :=
  0 < numerator_seconds e <= _MAX_DURATION_NUMERATOR /\
  0 < duration_denominator e <= _MAX_DURATION_DENOMINATOR /\
  Z.gcd (numerator_seconds e) (duration_denominator e) = 1.

Lemma exact_duration_ok n d e :
  exact_duration n d = Ok e <-> e = MkDuration n d /\ duration_ok e.
Proof.
  unfold exact_duration, duration_ok. split.
  - intros H. inv_ok H. bool_hyps. simpl. split; [done|lia].
  - intros [-> (Hn & Hd & Hg)]; simpl in *.
    rewrite (proj2 (Z.leb_gt _ _)), (proj2 (Z.leb_gt _ _)), Hg by lia. simpl.
    rewrite (proj2 (Z.ltb_ge _ _)), (proj2 (Z.ltb_ge _ _)) by lia. done.
Qed.

(** A reduced pair is the numerator and denominator of its fraction. *)
Lemma frac_reduced n d :
  0 < d -> Z.gcd n d = 1 ->
  numerator (frac n (Z.to_pos d)) = n /\ denominator (frac n (Z.to_pos d)) = d.
Proof.
  intros Hd Hg. unfold numerator, denominator, frac, Q2Qc; simpl.
  pose proof (Qred_identity (n # Z.to_pos d)) as Hid. simpl in Hid.
  rewrite Z2Pos.id in Hid by done. rewrite Hid by done. simpl.
  by rewrite Z2Pos.id.
Qed.
Lemma duration_fraction_inj e e' :
  duration_ok e -> duration_ok e' -> duration_fraction e = duration_fraction e' -> e = e'.
Proof.
  intros (_ & ? & ?) (_ & ? & ?) Heq. destruct e as [n d], e' as [n' d']; simpl in *.
  unfold duration_fraction in Heq; simpl in Heq.
  destruct (frac_reduced n d) as [E1 E2]; [lia|done|].
  destruct (frac_reduced n' d') as [E1' E2']; [lia|done|].
  rewrite Heq in E1, E2. congruence.
Qed.
Lemma duration_from_fraction_ok f e :
  duration_from_fraction f = Ok e -> duration_ok e /\ duration_fraction e = f.
Proof.
  unfold duration_from_fraction. intros H. inv_ok H.
  apply exact_duration_ok in H as [-> Hok]. split; [done|].
  unfold duration_fraction, numerator, denominator, frac; simpl.
  apply Qc_is_canon. simpl. rewrite Qred_correct. by destruct f as [[n d] Hc].
Qed.
(** [multiplied] is exact rational multiplication, or the result is out of the
    accepted bounds. *)
Lemma multiplied_ok e n d e' :
  0 < d -> multiplied e n d = Ok e' ->
  duration_ok e' /\
  duration_fraction e' = Qcmult (duration_fraction e) (frac n (Z.to_pos d)).
Proof. unfold multiplied. intros Hd H. inv_ok H. by apply duration_from_fraction_ok. Qed.
Lemma duration_ok_of_text v u e : _duration v u = Ok e -> duration_ok e.
Proof.
  unfold _duration. intros H. inv_ok H. by apply duration_from_fraction_ok in H as [].
Qed.
Lemma percentage_bounds v m :
  _percentage_millionths v = Ok m -> 1 <= m <= _MAX_PERCENTAGE_MILLIONTHS.
Proof. unfold _percentage_millionths. intros H. inv_ok H. bool_hyps. lia. Qed.

(** * The tiers of one severity, declaratively *)
Definition parse_tier (item : PolicyTierInput) : result (ExactDuration * Z) :=
  p ← _percentage_millionths (required_percentage item);
  d ← _duration (maximum_duration_text item) (duration_unit item);
  Ok (d, p).
Definition tier_order (t : ExactDuration * Z) : Fraction * Z := (duration_fraction t.1, t.2).
Definition make_tier (s : string) (ordinal : nat) (t : ExactDuration * Z)
    : ValidatedPolicyTier :=
  MkTier s (Z.of_nat ordinal + 1) t.2 t.1 None None None.

Lemma parse_tier_ok item t :
  parse_tier item = Ok t -> duration_ok t.1 /\ 1 <= t.2 <= _MAX_PERCENTAGE_MILLIONTHS.
Proof.
  unfold parse_tier. intros H. inv_ok H. simpl.
  eauto using duration_ok_of_text, percentage_bounds.
Qed.
Lemma tier_order_inj t t' :
  duration_ok t.1 -> duration_ok t'.1 -> tier_order t = tier_order t' -> t = t'.
Proof.
  intros H1 H2 Heq. apply pair_equal_spec in Heq as [Hf Hp].
  apply duration_fraction_inj in Hf; [|done|done].
  destruct t, t'; simpl in *. congruence.
Qed.
Lemma tier_identity_fst (m m' : material_tier) :
  tier_identity m = tier_identity m' <-> m.1 = m'.1.
Proof. destruct m as [[[n d] p] i], m' as [[[n' d'] p'] i']; simpl. naive_solver. Qed.

Lemma add_material_ok s ms item ms' :
  add_material s ms item = Ok ms' <->
  exists t, parse_tier item = Ok t /\ (t ∉ ms.*1) /\
    ms' = ms ++ [(t, Z.of_nat (length ms))].
Proof.
  assert (forall t i, tier_identity (t, i) ∈ map tier_identity ms <-> t ∈ ms.*1) as Hin.
  { intros t i. change (map tier_identity ms) with (tier_identity <$> ms).
    rewrite !list_elem_of_fmap. setoid_rewrite tier_identity_fst. naive_solver. }
  unfold add_material, parse_tier. split.
  - intros H. inv_ok H. rewrite H0. simpl. rewrite H1. simpl. bool_hyps.
    exists (a0, a). split_and!; [done| |done].
    by rewrite <-(Hin (a0, a) (Z.of_nat (length ms))).
  - intros (t & Hp & Hnin & ->). inv_ok Hp. rewrite Hp0. simpl. rewrite Hp1. simpl.
    rewrite bool_decide_eq_false_2; [done|].
    intros Hin'. by apply Hnin, (Hin (a0, a) (Z.of_nat (length ms))).
Qed.

Lemma material_fold s inputs ms ms' :
  NoDup ms.*1 ->
  foldM (add_material s) ms inputs = Ok ms' <->
  exists ts, traverse parse_tier inputs = Ok ts /\ NoDup (ms.*1 ++ ts) /\
    ms' = ms ++ imap (fun i t => (t, Z.of_nat (length ms + i))) ts.
Proof.
  revert ms. induction inputs as [|item inputs IH]; intros ms Hnd; simpl.
  { split.
    - intros [= <-]. exists []. simpl. by rewrite !app_nil_r.
    - intros (ts & [= <-] & _ & ->). simpl. by rewrite app_nil_r. }
  assert (forall t, t ∉ ms.*1 -> NoDup (ms ++ [(t, Z.of_nat (length ms))]).*1) as Hnd'.
  { intros t Ht. rewrite fmap_app. simpl. apply NoDup_app.
    split_and!; [done| |apply NoDup_singleton].
    intros x Hx ->%list_elem_of_singleton. done. }
  assert (forall t ts, imap (fun i u => (u, Z.of_nat (length (ms ++ [(t, Z.of_nat (length ms))]) + i))) ts
    = imap (fun i (u : ExactDuration * Z) => (u, Z.of_nat (length ms + S i))) ts) as Himap.
  { intros t ts. apply imap_ext. intros i u _. rewrite length_app. simpl. do 2 f_equal. lia. }
  rewrite bind_ok. setoid_rewrite add_material_ok. split.
  - intros (ms1 & (t & Ht & Hnin & ->) & Hf). apply IH in Hf as (ts & Hts & Hnd2 & ->); [|by auto].
    exists (t :: ts). rewrite Ht. simpl. rewrite Hts. split; [done|].
    rewrite fmap_app, <-app_assoc in Hnd2. split; [done|].
    rewrite <-app_assoc, Himap. simpl. by rewrite Nat.add_0_r.
  - intros (ts & Hts & Hnd2 & ->). inv_ok Hts. rename a into t, a0 into ts.
    assert (t ∉ ms.*1) as Hnin.
    { apply NoDup_app in Hnd2 as (_ & Hd & _). intros Hin. apply (Hd t Hin). set_solver. }
    eexists; split; [by exists t|]. apply IH; [by auto|]. exists ts.
    rewrite fmap_app, <-!app_assoc, Himap. simpl.
    split_and!; [done|done|]. by rewrite Nat.add_0_r.
Qed.

Lemma sorted_material ts :
  Forall (fun t => duration_ok t.1) ts -> NoDup ts ->
  (py_sorted tier_sort_key (imap (fun i t => (t, Z.of_nat i)) ts)).*1
  = py_sorted tier_order ts.
Proof.
  intros Hok Hnd. set (ms := imap _ ts).
  assert (ms.*1 = ts) as Hfst.
  { unfold ms. rewrite fmap_imap.
    by rewrite (imap_const (fun t : ExactDuration * Z => t)), list_fmap_id. }
  rewrite (py_sorted_fmap fst tier_sort_key tier_order), Hfst; [done|].
  intros x y Hx Hy.
  assert (forall m, m ∈ ms -> tier_sort_key m = (tier_order m.1, m.2)) as Hkey
    by (by intros [[d p] i] _).
  rewrite !Hkey by done. unfold leb at 1. cbn [cmp prod_ord]. unfold prod_cmp at 1.
  cbn [fst snd]. destruct (cmp (tier_order x.1) (tier_order y.1)) eqn:E;
    unfold leb; rewrite ?E; [|done|done].
  apply cmp_eq in E. apply tier_order_inj in E.
  - enough (x = y) as -> by by rewrite cmp_refl.
    apply list_elem_of_lookup in Hx as [i Hi], Hy as [j Hj].
    assert (i = j) as ->; [|congruence].
    apply (NoDup_lookup ts i j x.1); [done| |];
      rewrite <-Hfst, list_lookup_fmap, ?Hi, ?Hj; simpl; congruence.
  - rewrite Forall_forall in Hok. apply Hok. rewrite <-Hfst. set_solver.
  - rewrite Forall_forall in Hok. apply Hok. rewrite <-Hfst. set_solver.
Qed.

Lemma traverse_parse_ok inputs ts :
  traverse parse_tier inputs = Ok ts ->
  Forall (fun t => duration_ok t.1 /\ 1 <= t.2 <= _MAX_PERCENTAGE_MILLIONTHS) ts.
Proof.
  intros H. apply Forall_forall. intros t Ht.
  destruct (traverse_elem_of _ _ _ _ H Ht) as (item & _ & Hp). by eapply parse_tier_ok.
Qed.

Lemma severity_tiers_ok s inputs out :
  severity_tiers s inputs = Ok out <->
  exists ts, traverse parse_tier inputs = Ok ts /\ NoDup ts /\
    out = imap (make_tier s) (py_sorted tier_order ts).
Proof.
  assert (forall ts, traverse parse_tier inputs = Ok ts -> NoDup ts ->
    imap (numbered_tier s)
      (py_sorted tier_sort_key (imap (fun i t => (t, Z.of_nat (0 + i))) ts))
    = imap (make_tier s) (py_sorted tier_order ts)) as Heq.
  { intros ts Hts Hnd. rewrite <-sorted_material; [|eapply Forall_impl;
      [by eapply traverse_parse_ok|by intros ? []]|done].
    rewrite imap_fmap. by apply imap_ext; intros i [[d p] ?] _. }
  unfold severity_tiers. rewrite bind_ok. setoid_rewrite material_fold; [|constructor].
  simpl. split.
  - intros (ms & (ts & Hts & Hnd & ->) & [= <-]). exists ts. by rewrite Heq.
  - intros (ts & Hts & Hnd & ->). eexists; split; [by exists ts|]. by rewrite Heq.
Qed.

(** * What a validated policy guarantees *)
Definition tier_value (t : ValidatedPolicyTier) : ExactDuration * Z :=
  (maximum_duration t, required_percentage_millionths t).
Definition tier_fraction (t : ValidatedPolicyTier) : Fraction :=
  duration_fraction (maximum_duration t).

(** The tiers of one severity: at least one, numbered from 1 in order of
    duration, in bounds, and no tier given twice. *)
Record tier_list_ok (s : string) (ts : list ValidatedPolicyTier) : Prop := {
  tl_nonempty : ts <> [];
  tl_severity : Forall (fun t => severity t = s) ts;
  tl_ordinals : map tier_ordinal ts = map (fun i => Z.of_nat i + 1) (seq 0 (length ts));
  tl_sorted : StronglySorted (fun x y => leb x y = true) (map tier_fraction ts);
  tl_bounds : Forall (fun t => duration_ok (maximum_duration t) /\
      1 <= required_percentage_millionths t <= _MAX_PERCENTAGE_MILLIONTHS) ts;
  tl_distinct : NoDup (map tier_value ts)
}.

(** A derived tier allows one and a half times the minor tier's duration. *)
Definition derived_from (m n : ValidatedPolicyTier) : Prop :=
  tier_ordinal n = tier_ordinal m /\
  required_percentage_millionths n = required_percentage_millionths m /\
  tier_fraction n = Qcmult (tier_fraction m) (frac 3 2) /\
  derived_from_minor_ordinal n = Some (tier_ordinal m).

Record policy_ok (p : ValidatedPolicy) : Prop := {
  po_count : Z.of_nat (length (tiers p)) <= _MAX_POLICY_TIERS;
  po_severities : forall s, s ∈ _SUPPORTED_SEVERITIES ->
    exists ts, tiers_for p s = Ok ts /\ tier_list_ok s ts;
  po_only : Forall (fun t => severity t ∈ _SUPPORTED_SEVERITIES) (tiers p);
  po_derived : exists ms ns, tiers_for p "minor" = Ok ms /\
    tiers_for p _DERIVED_SEVERITY = Ok ns /\ Forall2 derived_from ms ns
}.

Lemma map_make_tier_ordinals s ts :
  map tier_ordinal (imap (make_tier s) ts) = map (fun i => Z.of_nat i + 1) (seq 0 (length ts)).
Proof.
  apply list_eq. intros i.
  change (map tier_ordinal (imap (make_tier s) ts)) with (tier_ordinal <$> imap (make_tier s) ts).
  change (map (fun i => Z.of_nat i + 1) (seq 0 (length ts)))
    with ((fun i => Z.of_nat i + 1) <$> seq 0 (length ts)).
  rewrite !list_lookup_fmap, list_lookup_imap.
  destruct (ts !! i) as [t|] eqn:Hi; simpl.
  - rewrite lookup_seq_lt; [done|]. by eapply lookup_lt_Some.
  - rewrite lookup_seq_ge; [done|]. by apply lookup_ge_None.
Qed.
Lemma map_make_tier_value s ts : map tier_value (imap (make_tier s) ts) = ts.
Proof.
  change (tier_value <$> imap (make_tier s) ts = ts). rewrite fmap_imap.
  transitivity (imap (fun _ t => t) ts); [by apply imap_ext; intros ? [] _|].
  by rewrite (imap_const (fun t : ExactDuration * Z => t)), list_fmap_id.
Qed.

Lemma map_tier_fraction ts :
  map tier_fraction ts = map (fun v : ExactDuration * Z => duration_fraction v.1) (map tier_value ts).
Proof. by rewrite map_map. Qed.

Lemma Forall_tier_value (P : ExactDuration * Z -> Prop) ts :
  Forall (fun t => P (tier_value t)) ts <-> Forall P (map tier_value ts).
Proof. symmetry. apply (Forall_fmap tier_value). Qed.

Lemma severity_tiers_list_ok s inputs out :
  inputs <> [] -> severity_tiers s inputs = Ok out -> tier_list_ok s out.
Proof.
  intros Hne (ts & Hts & Hnd & ->)%severity_tiers_ok.
  pose proof (traverse_parse_ok _ _ Hts) as Hok.
  assert (map tier_value (imap (make_tier s) (py_sorted tier_order ts))
    = py_sorted tier_order ts) as Hval by apply map_make_tier_value.
  split.
  - intros Hnil. apply (f_equal length) in Hnil.
    rewrite length_imap, py_sorted_length, (traverse_length _ _ _ Hts) in Hnil.
    by destruct inputs.
  - apply Forall_lookup. intros i t. rewrite list_lookup_imap.
    intros (u & _ & ->)%fmap_Some. done.
  - by rewrite map_make_tier_ordinals, length_imap.
  - rewrite map_tier_fraction, Hval.
    apply (StronglySorted_fmap (fun v : ExactDuration * Z => duration_fraction v.1) (le_key tier_order));
      [|apply py_sorted_sorted].
    intros [x px] [y py]. unfold le_key, tier_order, leb. cbn [cmp prod_ord].
    unfold prod_cmp; cbn [fst snd]. by destruct (cmp (duration_fraction x) _).
  - apply (Forall_tier_value (fun v => duration_ok v.1 /\ 1 <= v.2 <= _)).
    by rewrite Hval, py_sorted_perm.
  - rewrite Hval. by apply py_sorted_NoDup.
Qed.

Lemma derive_tiers_ok ms ns :
  tier_list_ok "minor" ms -> traverse derive_tier ms = Ok ns ->
  Forall2 derived_from ms ns /\ tier_list_ok _DERIVED_SEVERITY ns.
Proof.
  intros Hms H%traverse_ok.
  assert (Forall2 (fun m n => derived_from m n /\ severity n = _DERIVED_SEVERITY /\
    duration_ok (maximum_duration n)) ms ns) as Hd.
  { eapply Forall2_impl; [exact H|]. intros m n Hmn. unfold derive_tier in Hmn.
    inv_ok Hmn. apply multiplied_ok in Hmn0 as [? ?]; [|done]. unfold derived_from. by split_and!. }
  split; [eapply Forall2_impl; [exact Hd|by intros ?? []]|].
  destruct Hms as [Hne _ Hord Hsort Hb Hdis].
  pose proof (Forall2_length _ _ _ Hd) as Hlen. split.
  - intros ->. by destruct ms.
  - clear -Hd. induction Hd as [|m n ms ns (_ & ? & _)]; by constructor.
  - rewrite <-Hlen, <-Hord. clear -Hd. induction Hd as [|m n ms ns [[Ho _] _] _ IH]; simpl; congruence.
  - assert (map tier_fraction ns = (fun f => Qcmult f (frac 3 2)) <$> map tier_fraction ms) as ->.
    { clear -Hd. induction Hd as [|m n ms ns [(_ & _ & Hf & _) _] _ IH]; cbn [map]; rewrite ?fmap_cons, ?Hf, ?IH; done. }
    eapply StronglySorted_fmap; [|exact Hsort]. intros x y Hxy.
    apply Qc_leb_le. apply Qcmult_le_compat_r; [by apply Qc_leb_le|done].
  - clear -Hd Hb. induction Hd as [|m n ms ns [(_ & Hp & _) [_ Hok]] _ IH]; constructor.
    + split; [done|]. rewrite Hp. by apply Forall_cons in Hb as [[_ ?] _].
    + apply IH. by apply Forall_cons in Hb as [_ ?].
  - clear -Hd Hb Hdis. induction Hd as [|m n ms ns [(_ & Hp & Hf & _) [_ Hok]] Hd IH]; simpl in *;
      [constructor|].
    apply NoDup_cons in Hdis as [Hnin Hdis]. apply Forall_cons in Hb as [[Hm _] Hb].
    constructor; [|by apply IH]. intros Hin. apply Hnin. clear -Hd Hb Hp Hf Hok Hm Hin.
    induction Hd as [|m' n' ms ns [(_ & Hp' & Hf' & _) [_ Hok']] Hd IH]; simpl in *; [set_solver|].
    apply Forall_cons in Hb as [[Hm' _] Hb].
    apply elem_of_cons in Hin as [Heq|Hin]; apply elem_of_cons; [left|right; by apply IH].
    unfold tier_value in *. injection Heq as Hd1 Hp1. f_equal; [|congruence].
    apply duration_fraction_inj; [done|done|]. unfold tier_fraction in *.
    rewrite Hd1, Hf' in Hf. by apply Qc_mul_cancel in Hf.
Qed.

Lemma filter_severity_same s ts :
  Forall (fun t => severity t = s) ts -> filter (fun t => severity t = s) ts = ts.
Proof.
  induction 1 as [|t ts Ht _ IH]; [done|]. by rewrite filter_cons_True, IH.
Qed.
Lemma filter_severity_other s s' ts :
  s <> s' -> Forall (fun t => severity t = s') ts -> filter (fun t => severity t = s) ts = [].
Proof.
  intros Hne. induction 1 as [|t ts Ht _ IH]; [done|].
  rewrite filter_cons_False; [done|]. congruence.
Qed.
(** Every accepted input, explicit or template, names one non-empty tier list
    per base severity. *)
Definition canonical_ok (c : tier_inputs) : Prop :=
  forall s, s ∈ _BASE_SEVERITIES -> default [] (dget s c) <> [].

Lemma canonical_input_ok e c : _canonical_input e = Ok c -> canonical_ok c.
Proof.
  unfold _canonical_input. intros H. inv_ok H. simpl in H. unfold required_tiers in H.
  destruct (dget "critical" e) as [[|]|] eqn:Ec; try discriminate.
  destruct (dget "major" e) as [[|]|] eqn:Em; try discriminate.
  destruct (dget "minor" e) as [[|]|] eqn:Ei; try discriminate.
  injection H as <-. intros s Hs. unfold _BASE_SEVERITIES in Hs.
  by repeat (apply elem_of_cons in Hs as [->|Hs]); [..|set_solver].
Qed.
Lemma template_inputs_ok t c : _template_inputs t = Ok c -> canonical_ok c.
Proof.
  unfold _template_inputs, _TEMPLATE_INPUTS. intros H.
  repeat case_match; simplify_eq; intros s Hs; unfold _BASE_SEVERITIES in Hs;
    by repeat (apply elem_of_cons in Hs as [->|Hs]); [..|set_solver].
Qed.

Lemma base_tiers_ok c base :
  canonical_ok c -> _base_tiers c = Ok base ->
  exists t1 t2 t3, base = t1 ++ t2 ++ t3 /\ tier_list_ok "critical" t1 /\
    tier_list_ok "major" t2 /\ tier_list_ok "minor" t3.
Proof.
  intros Hc H. unfold _base_tiers in H. inv_ok H. simpl in H0. inv_ok H0. simplify_eq.
  eexists _, _, _. split; [simpl; by rewrite app_nil_r|].
  split_and!; (eapply severity_tiers_list_ok; [|done]); apply Hc; set_solver.
Qed.

Lemma derived_policy_ok c base ts src fp :
  canonical_ok c -> _base_tiers c = Ok base -> _with_derived_non_fault base = Ok ts ->
  policy_ok (MkPolicy src ts fp).
Proof.
  intros Hc Hb Hd. destruct (base_tiers_ok c base Hc Hb) as (t1 & t2 & t3 & -> & H1 & H2 & H3).
  unfold _with_derived_non_fault in Hd. inv_ok Hd. bool_hyps.
  rewrite !filter_app, (filter_severity_other "minor" "critical" t1),
    (filter_severity_other "minor" "major" t2), (filter_severity_same "minor" t3)
    in Hd0 by (done || by eapply tl_severity).
  simpl in Hd0. destruct (derive_tiers_ok t3 a H3 Hd0) as [Hder H4].
  assert (forall s ts, s ∈ _SUPPORTED_SEVERITIES ->
    filter (fun t => severity t = s) ((t1 ++ t2 ++ t3) ++ a) = ts ->
    tiers_for (MkPolicy src ((t1 ++ t2 ++ t3) ++ a) fp) s = Ok ts) as Hfor.
  { intros s ts Hs <-. unfold tiers_for. by rewrite bool_decide_eq_true_2. }
  assert (forall s (x y z w : list ValidatedPolicyTier),
    filter (fun t => severity t = s) ((x ++ y ++ z) ++ w) =
    (filter (fun t => severity t = s) x ++ filter (fun t => severity t = s) y ++
     filter (fun t => severity t = s) z) ++ filter (fun t => severity t = s) w) as Hsplit
    by (intros; by rewrite !filter_app).
  assert (forall s r, tier_list_ok s r -> forall s', s' <> s ->
    filter (fun t => severity t = s') r = []) as Hoth
    by (intros s r Hr s' Hne; eapply filter_severity_other; [done|by eapply tl_severity]).
  assert (forall s r, tier_list_ok s r -> filter (fun t => severity t = s) r = r) as Hsame
    by (intros s r Hr; apply filter_severity_same; by eapply tl_severity).
  assert (tiers_for (MkPolicy src ((t1 ++ t2 ++ t3) ++ a) fp) "minor" = Ok t3) as Hminor.
  { apply Hfor; [set_solver|]. rewrite Hsplit, (Hoth _ _ H1), (Hoth _ _ H2), (Hoth _ _ H4),
      (Hsame _ _ H3) by done. simpl. by rewrite app_nil_r. }
  assert (tiers_for (MkPolicy src ((t1 ++ t2 ++ t3) ++ a) fp) _DERIVED_SEVERITY = Ok a) as Hnf.
  { apply Hfor; [set_solver|]. by rewrite Hsplit, (Hoth _ _ H1), (Hoth _ _ H2), (Hoth _ _ H3),
      (Hsame _ _ H4) by done. }
  split; simpl; [done| | |by exists t3, a].
  - intros s Hs. unfold _SUPPORTED_SEVERITIES in Hs.
    repeat (apply elem_of_cons in Hs as [->|Hs]); [..|set_solver].
    + exists t1. split; [|done]. apply Hfor; [set_solver|].
      rewrite Hsplit, (Hoth _ _ H2), (Hoth _ _ H3), (Hoth _ _ H4), (Hsame _ _ H1) by done.
      simpl. by rewrite !app_nil_r.
    + exists t2. split; [|done]. apply Hfor; [set_solver|].
      rewrite Hsplit, (Hoth _ _ H1), (Hoth _ _ H3), (Hoth _ _ H4), (Hsame _ _ H2) by done.
      simpl. by rewrite !app_nil_r.
    + by exists t3.
    + by exists a.
  - assert (forall s r, tier_list_ok s r -> s ∈ _SUPPORTED_SEVERITIES ->
      Forall (fun t => severity t ∈ _SUPPORTED_SEVERITIES) r) as Hsup.
    { intros s r Hr Hs. eapply Forall_impl; [by eapply tl_severity|]. by intros t ->. }
    rewrite !Forall_app. split_and!; eapply Hsup; (done || set_solver).
Qed.

(** C29.  Every policy [validate_sla_policy] accepts is well formed: at most
    128 tiers; for each of the four severities a non-empty list numbered from
    1 by non-decreasing duration, with durations reduced, positive and within
    the 63-bit and 10^9 bounds, percentages in (0, 100%] and no tier given
    twice; and the non-fault tiers are the minor tiers with exactly 3/2 of
    their duration. *)
Theorem validate_sla_policy_well_formed `{Sha256} source explicit p :
  validate_sla_policy source explicit = Ok p -> policy_ok p.
Proof.
  unfold validate_sla_policy. intros ([c src] & Hc & Hv)%bind_ok. inv_ok Hv.
  eapply derived_policy_ok; [|done..].
  destruct source, explicit; try discriminate; inv_ok Hc; simplify_eq;
    eauto using template_inputs_ok, canonical_input_ok.
Qed.

(** ** Independence of the input order *)
Lemma severity_tiers_perm s inputs inputs' out :
  inputs ≡ₚ inputs' -> severity_tiers s inputs = Ok out -> severity_tiers s inputs' = Ok out.
Proof.
  intros Hp (ts & Hts & Hnd & ->)%severity_tiers_ok. apply severity_tiers_ok.
  destruct (traverse_perm _ _ _ _ Hp Hts) as (ts' & Hts' & Hpt).
  exists ts'. split_and!; [done|by rewrite <-Hpt|].
  f_equal. apply py_sorted_canonical; [|done].
  pose proof (traverse_parse_ok _ _ Hts) as Hok. rewrite Forall_forall in Hok.
  intros x y Hx Hy. apply tier_order_inj; by apply Hok.
Qed.

Definition same_tiers (e e' : tier_inputs) : Prop :=
  forall s, default [] (dget s e) ≡ₚ default [] (dget s e').

Lemma base_tiers_perm c c' base :
  same_tiers c c' -> _base_tiers c = Ok base -> _base_tiers c' = Ok base.
Proof.
  unfold _base_tiers. simpl. intros Hc H. inv_ok H.
  erewrite (severity_tiers_perm "critical") by (apply Hc || done). simpl.
  erewrite (severity_tiers_perm "major") by (apply Hc || done). simpl.
  erewrite (severity_tiers_perm "minor") by (apply Hc || done). done.
Qed.

Lemma required_tiers_same e e' s r :
  same_tiers e e' -> required_tiers e s = Ok r ->
  exists raw', required_tiers e' s = Ok (s, raw') /\ r.1 = s /\ r.2 ≡ₚ raw'.
Proof.
  intros Hs. specialize (Hs s). unfold required_tiers.
  destruct (dget s e) as [[|x raw]|]; [done| |done]. intros [= <-]. simpl in *.
  destruct (dget s e') as [[|y raw']|]; simpl in *; [|by eauto|];
    by apply Permutation_nil_r in Hs.
Qed.

Lemma canonical_input_same e e' c :
  e.*1 = e'.*1 -> same_tiers e e' -> _canonical_input e = Ok c ->
  exists c', _canonical_input e' = Ok c' /\ same_tiers c c'.
Proof.
  unfold _canonical_input. intros Hk Hs H. rewrite Hk in H. simpl in H. inv_ok H.
  repeat match goal with H : ?b = false |- context [?b] => rewrite H end. simpl.
  repeat match goal with H : required_tiers e _ = Ok _ |- _ =>
    destruct (required_tiers_same _ _ _ _ Hs H) as (? & -> & ? & ?); clear H end.
  simpl. eexists; split; [done|]. intros s.
  repeat match goal with r : (string * list PolicyTierInput)%type |- _ => destruct r end.
  simplify_eq/=. repeat case_bool_decide; done.
Qed.

(** The order in which a caller lists the tiers of a severity never
    matters: from an accepted explicit input, any input with the same
    severities and, per severity, the same tiers in another order gives the
    same policy, fingerprint included. *)
Theorem validate_sla_policy_order_independent `{Sha256} e e' p :
  e.*1 = e'.*1 -> same_tiers e e' ->
  validate_sla_policy None (Some e) = Ok p ->
  validate_sla_policy None (Some e') = Ok p.
Proof.
  unfold validate_sla_policy. intros Hk Hs ([c src] & Hc & Hv)%bind_ok.
  inv_ok Hc. simplify_eq. inv_ok Hv.
  destruct (canonical_input_same e e' _ Hk Hs Hc0) as (c' & -> & Hcc).
  simpl. rewrite (base_tiers_perm _ _ _ Hcc Hv0). simpl. rewrite Hv1. simpl.
  by rewrite Hv2.
Qed.

(** * Errors *)
Lemma canonical_json_raises v : raises_only is_validation (canonical_json_bytes v).
Proof. unfold canonical_json_bytes. raises. Qed.
Lemma sha256_canonical_json_raises `{Sha256} v :
  raises_only is_validation (sha256_canonical_json v).
Proof. apply raises_bind; [apply canonical_json_raises|intros; apply raises_ok]. Qed.
Lemma exact_duration_raises n d : raises_only is_validation (exact_duration n d).
Proof. unfold exact_duration. raises. Qed.
Lemma duration_from_fraction_raises f : raises_only is_validation (duration_from_fraction f).
Proof. unfold duration_from_fraction. raises. all: apply exact_duration_raises. Qed.
#[export] Hint Resolve canonical_json_raises sha256_canonical_json_raises
  exact_duration_raises duration_from_fraction_raises : raises.

Lemma span_length p s :
  (String.length (span p s).1 + String.length (span p s).2)%nat = String.length s.
Proof.
  induction s as [|c s IH]; simpl; [done|]. destruct (p c); simpl; [|done].
  destruct (span p s); simpl in *. lia.
Qed.
Lemma strip_prefix_length p s r :
  strip_prefix p s = Some r -> String.length s = (String.length p + String.length r)%nat.
Proof.
  revert s. induction p as [|c p IH]; intros [|d s]; simpl; try congruence; try by intros [= <-].
  case_bool_decide; [|done]. intros H'. by rewrite (IH s H').
Qed.
Lemma match_decimal_length v w f :
  match_decimal v = Some (w, f) ->
  (String.length w <= String.length v)%nat /\
  (String.length (default EmptyString f) <= String.length v)%nat.
Proof.
  unfold match_decimal. destruct v as [|c v]; [done|]. intros H.
  assert (exists r, (if is_char 48 c then Some ("0", v)
    else if is_digit c then Some (span is_digit (String c v)) else None) = Some (w, r) /\
    (String.length (default EmptyString f) <= String.length r)%nat) as (r & Hw & Hf).
  { destruct (if is_char 48 c then _ else _) as [[w' r]|]; [|done].
    cbn [mbind option_bind] in H.
    destruct (strip_prefix "." r) as [r1|] eqn:Er; cbn [mbind option_bind] in H.
    - apply strip_prefix_length in Er. simpl in Er. pose proof (span_length is_digit r1).
      destruct (span is_digit r1) as [[|d ds] t]; cbn [mbind option_bind] in H; [done|].
      simpl in *.
      exists r. repeat case_match; simplify_eq/=; split; done || lia.
    - exists r. repeat case_match; simplify_eq/=; split; done || lia. }
  destruct (is_char 48 c); [simplify_eq/=; lia|]. destruct (is_digit c); [|done].
  pose proof (span_length is_digit (String c v)) as Hs.
  assert (span is_digit (String c v) = (w, r)) as Hwr by congruence.
  rewrite Hwr in Hs. simpl in *. lia.
Qed.

Definition short (s : string) : Prop := Z.of_nat (String.length s) <= max_int_digits.
Lemma int_of_digits_raises d : short d -> raises_only is_validation (int_of_digits d).
Proof.
  intros Hd. unfold int_of_digits, int_value.
  destruct (strip_prefix "-" d) as [r|] eqn:E.
  - apply strip_prefix_length in E. simpl in E. unfold short in Hd.
    rewrite (proj2 (Z.leb_le _ _)) by lia. apply raises_ok.
  - unfold short in Hd. rewrite (proj2 (Z.leb_le _ _)) by done. apply raises_ok.
Qed.
Lemma decimal_raises v label m :
  short v -> raises_only is_validation (_decimal_fraction v label m).
Proof.
  intros Hv. unfold _decimal_fraction.
  destruct (match_decimal v) as [[w f]|] eqn:E; [|apply raises_validation].
  apply match_decimal_length in E as [Hw Hf]. unfold short in Hv.
  apply raises_bind; [apply raises_forbid; by eexists|intros _ _].
  apply raises_bind; [apply int_of_digits_raises; unfold short; lia|intros a _].
  apply raises_bind; [|intros; apply raises_ok].
  destruct f; simpl in Hf; [apply int_of_digits_raises; unfold short; lia|apply raises_ok].
Qed.

(** The texts of every tier fit the interpreter's integer-digit limit. *)
Definition texts_short (e : tier_inputs) : Prop :=
  forall s item, item ∈ default [] (dget s e) ->
    short (required_percentage item) /\ short (maximum_duration_text item).

Lemma severity_tiers_raises s inputs :
  (forall item, item ∈ inputs ->
     short (required_percentage item) /\ short (maximum_duration_text item)) ->
  raises_only is_validation (severity_tiers s inputs).
Proof.
  intros Hs. unfold severity_tiers. apply raises_bind; [|raises].
  apply raises_foldM. intros ms item [Hp Hd]%Hs. unfold add_material.
  apply raises_bind.
  { unfold _percentage_millionths. apply raises_bind; [by apply decimal_raises|]. raises. }
  intros p _. apply raises_bind; [|raises].
  unfold _duration. case_match; [|apply raises_validation].
  apply raises_bind; [by apply decimal_raises|]. raises.
Qed.

(** On an explicit input whose texts have at most 4300 characters,
    whatever its content, [validate_sla_policy] either accepts or raises
    [ValidationError]: no other exception reaches the caller. *)
Theorem validate_sla_policy_errors `{Sha256} e x :
  texts_short e -> validate_sla_policy None (Some e) = Raise x -> is_validation x.
Proof.
  intros Hs. revert x.
  change (raises_only is_validation (validate_sla_policy None (Some e))).
  unfold validate_sla_policy. apply raises_bind.
  { apply raises_bind; [|raises]. unfold _canonical_input. raises.
    apply raises_traverse. intros s _. unfold required_tiers. raises. }
  intros [c src] Hc. inv_ok Hc. simplify_eq.
  assert (forall s, s ∈ _BASE_SEVERITIES -> dget s c = dget s e) as Hce.
  { unfold _canonical_input in Hc0. inv_ok Hc0. simpl in Hc0. unfold required_tiers in Hc0.
    destruct (dget "critical" e) as [[|]|] eqn:Ec; try discriminate.
    destruct (dget "major" e) as [[|]|] eqn:Em; try discriminate.
    destruct (dget "minor" e) as [[|]|] eqn:Ei; try discriminate.
    injection Hc0 as <-. intros s Hs'. unfold _BASE_SEVERITIES in Hs'.
    by repeat (apply elem_of_cons in Hs' as [->|Hs']); [..|set_solver]. }
  apply raises_bind.
  { unfold _base_tiers. apply raises_bind; [|raises].
    apply raises_traverse. intros s Hs'. apply severity_tiers_raises.
    intros item. rewrite Hce by done. apply Hs. }
  intros base _. apply raises_bind; [|raises].
  unfold _with_derived_non_fault. apply raises_bind; [|raises].
  apply raises_traverse. intros m _. unfold derive_tier, multiplied. raises.
Qed.

(** A text of [n] copies of the digit 1. *)
Fixpoint ones (n : nat) : string :=
  match n with O => EmptyString | S n => "1" +:+ ones n end.
Definition tiers_with (percentage : string) : tier_inputs :=
  [("critical", [MkTierInput percentage "7" "days"]);
   ("major", [MkTierInput "85" "30" "days"; MkTierInput "90" "15" "days"]);
   ("minor", [MkTierInput "100%" "1.5" "hours"])].

(** The bound on the text length is needed: a percentage of 4301
    digits escapes as the interpreter's [ValueError] from [int], which the
    application's error handling does not know. *)
Theorem oversized_percentage_escapes `{Sha256} :
  validate_sla_policy None (Some (tiers_with (ones 4301))) = Raise (PyExn "ValueError").
Proof. vm_compute. reflexivity. Qed.

Definition identity_sha : Sha256 := fun s => s.

Lemma validate_sla_policy_well_formed_witness :
  exists p, validate_sla_policy (H := identity_sha) (Some "IT_DEFAULT_V1") None = Ok p /\
    length (tiers p) = 7%nat /\ policy_ok p.
Proof.
  eexists. split; [vm_compute; reflexivity|]. split; [reflexivity|].
  apply (@validate_sla_policy_well_formed identity_sha (Some "IT_DEFAULT_V1") None).
  vm_compute. reflexivity.
Defined.

Lemma validate_sla_policy_order_independent_witness :
  let e := tiers_with "99.5" in
  let e' := [("critical", [MkTierInput "99.5" "7" "days"]);
   ("major", [MkTierInput "90" "15" "days"; MkTierInput "85" "30" "days"]);
   ("minor", [MkTierInput "100%" "1.5" "hours"])] in
  exists p, validate_sla_policy (H := identity_sha) None (Some e) = Ok p /\
    validate_sla_policy (H := identity_sha) None (Some e') = Ok p.
Proof.
  intros e e'. eexists. split; [vm_compute; reflexivity|].
  apply (@validate_sla_policy_order_independent identity_sha e e');
    [reflexivity| |vm_compute; reflexivity].
  intros s. unfold e, e'. simpl. repeat case_bool_decide; simpl; try done.
  apply Permutation_swap.
Defined.

Lemma validate_sla_policy_errors_witness :
  texts_short [] /\ is_validation
    (Soma (ValidationError "SLA policy must define at least one critical tier")).
Proof.
  assert (texts_short []) as Hs by by intros s item Hin%elem_of_nil.
  split; [done|].
  apply (@validate_sla_policy_errors identity_sha [] _ Hs). reflexivity.
Defined.
