(* ===== verification/SlaInput.v ===== *)
(** The accepted Service Request SLA input: [tickets/service_request_sla_input.py].

    [TicketDb] holds the tables the reader queries, one record per row; each
    SQL statement is a function of the tables.  [get] assembles the typed
    input, [list_report_date_month] pages through the requests of one month. *)
From S2P Require Import Prelude StrictJson Identifiers.

(** * Tables *)
Record RelationshipRow := MkRelationship {
  sr_customer_relationship_id : string;
  rel_service_request_id : string;
  rel_customer_org_id : string;
  relationship_state : string
}.
(** [sr_current_source_projection]: pointers to accepted observations. *)
Record ProjectionRow := MkProjection {
  report_date_observation_id : option string;
  customer_severity_observation_id : option string;
  status_observation_id : option string;
  suspend_planned_end_observation_id : option string;
  suspension_duration_observation_id : option string;
  projection_revision : Z
}.
(** [sr_source_field_observations], keyed by its id. *)
Record ObservationRow := MkObservation {
  obs_service_request_id : string;
  obs_source_field_id : string;
  obs_field_key : string;
  obs_value_state : string;
  obs_value_kind : string;
  obs_text_value : option string;
  obs_integer_value : option Z;
  obs_source_chronology_utc : option Z;
  obs_precedence_basis : string
}.
Record TicketDb := MkTicketDb {
  service_requests : gmap string (option string);  (** official_sr_no *)
  sr_customer_relationships : list RelationshipRow;
  sr_current_source_projection : gmap string ProjectionRow;
  sr_source_field_observations : gmap string ObservationRow
}.

(** * Values *)
Inductive EvidenceValue := TextValue (s : string) | IntValue (z : Z).
Record SlaEvidenceValue := MkEvidence {
  ev_sr_source_field_observation_id : string;
  ev_source_observation_field_id : string;
  ev_value : EvidenceValue;
  ev_source_chronology_utc : option Z;
  ev_precedence_basis : string
}.
Record ServiceRequestSlaInput := MkSlaInput {
  in_service_request_id : string;
  in_official_sr_no : option string;
  in_customer_org_id : option string;
  in_customer_relationship_id : option string;
  in_source_projection_revision : Z;
  in_report_date_utc : option Z;
  in_report_date_evidence_id : option string;
  in_severity : option string;
  in_severity_evidence_id : option string;
  in_status_token : option string;
  in_status_class : string;
  in_status_evidence_id : option string;
  in_first_resolved_closed_endpoint_utc : option Z;
  in_endpoint_status_evidence_id : option string;
  in_suspension_numerator_seconds : Z;
  in_suspension_denominator : Z;
  in_suspension_evidence_id : option string;
  in_suspend_planned_end_utc : option Z;
  in_suspend_planned_end_evidence_id : option string;
  in_input_token : string
}.
Record SlaInputPage := MkPage {
  page_items : list ServiceRequestSlaInput;
  page_next_cursor : option string;
  page_exact_count : Z
}.

(** [str(x)] and [int(x)] of an evidence value. *)
Definition ev_text (v : EvidenceValue) : string :=
  match v with TextValue s => s | IntValue z => int_text z end.
Definition ev_int (v : EvidenceValue) : Z :=
  match v with IntValue z => z | TextValue _ => 0 end.
(** [str(column)] of a nullable text column. *)
Definition str_col (o : option string) : string := default "None" o.

Definition _STATUS_CLASSES (token : string) : option string :=
  if String.eqb token "Closed" then Some "closed"
  else if String.eqb token "Resolved" then Some "resolved"
  else if String.eqb token "Cancelled" then Some "cancelled"
  else if String.eqb token "Customer Agreed Suspend" then Some "active"
  else None.
Definition _SEVERITY_CLASSES (token : string) : option string :=
  if String.eqb token "Critical" then Some "critical"
  else if String.eqb token "Major" then Some "major"
  else if String.eqb token "Minor" then Some "minor"
  else if String.eqb token "Non-fault inquiry" then Some "non_fault_inquiry"
  else None.

(** * Reading *)
Definition active_relationships (db : TicketDb) (sr : string) : list RelationshipRow :=
  filter (fun r => rel_service_request_id r = sr /\ relationship_state r = "active")
    (sr_customer_relationships db).

Definition _current_relationship (db : TicketDb) (sr : string)
    : result (option string * option string) :=
  match active_relationships db sr with
  | [] => Ok (None, None)
  | [r] =>
      rid ← require_uuid4 (sr_customer_relationship_id r);
      cid ← require_uuid4 (rel_customer_org_id r);
      Ok (Some rid, Some cid)
  | _ => raise (IntegrityFailure "Service Request has multiple active Customer relationships")
  end.

Definition is_text_kind (kind : string) : bool :=
  String.eqb kind "text" || String.eqb kind "controlled".

Definition _field (db : TicketDb) (sr : string) (observation_id : option string)
    (expected_field expected_kind : string) : result (option SlaEvidenceValue) :=
  match observation_id with
  | None => Ok None
  | Some oid =>
      canonical ← require_uuid4 oid;
      match sr_source_field_observations db !! canonical with
      | None => raise (IntegrityFailure
          "Service Request SLA projection points to missing accepted evidence")
      | Some row =>
          _ ← forbid (negb (String.eqb (obs_service_request_id row) sr)) (IntegrityFailure
            "Service Request SLA projection points to missing accepted evidence");
          _ ← forbid (negb (String.eqb (obs_field_key row) expected_field)
                      || negb (String.eqb (obs_value_state row) "usable")) (IntegrityFailure
            "Service Request SLA projection points to mismatched accepted evidence");
          _ ← forbid (negb (String.eqb (obs_value_kind row) expected_kind)) (IntegrityFailure
            "Service Request SLA projection value kind is invalid");
          source_evidence_id ← require_uuid4 (obs_source_field_id row);
          value ← (if is_text_kind expected_kind
            then match obs_text_value row with
              | Some s => Ok (TextValue s)
              | None => raise (IntegrityFailure
                  "Service Request SLA text evidence has no usable value") end
            else match obs_integer_value row with
              | Some z => if z <? 0 then raise (IntegrityFailure
                  "Service Request SLA integer evidence has no usable value")
                  else Ok (IntValue z)
              | None => raise (IntegrityFailure
                  "Service Request SLA integer evidence has no usable value") end);
          let chronology := obs_source_chronology_utc row in
          _ ← forbid (match chronology with Some c => c <? 0 | None => false end)
            (IntegrityFailure "Service Request SLA source chronology is invalid");
          let precedence := obs_precedence_basis row in
          _ ← forbid (negb (String.eqb precedence "source_chronology"
                            || String.eqb precedence "reviewed_correction"))
            (IntegrityFailure "Service Request SLA evidence precedence is invalid");
          Ok (Some (MkEvidence canonical source_evidence_id value chronology precedence))
      end
  end.

(** ** The terminal endpoint *)
Record StatusRow := MkStatusRow {
  st_source_field_id : string;
  st_token : string;
  st_chronology : Z;
  st_obs_id : string
}.
(** The usable, dated, controlled status observations of [sr] up to [limit],
    by (chronology, observation id). *)
Definition status_rows (db : TicketDb) (sr : string) (limit : Z) : list StatusRow :=
  py_sorted (fun r => (st_chronology r, st_obs_id r))
    (omap (fun '(oid, o) =>
       match obs_source_chronology_utc o with
       | Some c =>
           if String.eqb (obs_service_request_id o) sr && String.eqb (obs_field_key o) "status"
              && String.eqb (obs_value_state o) "usable"
              && String.eqb (obs_value_kind o) "controlled" && (c <=? limit)
           then Some (MkStatusRow (obs_source_field_id o) (str_col (obs_text_value o)) c oid)
           else None
       | None => None
       end) (map_to_list (sr_source_field_observations db))).

Definition is_reopening (token : string) : bool :=
  String.eqb token "Customer Agreed Suspend" || String.eqb token "Cancelled".
Definition is_terminal_token (token : string) : bool :=
  String.eqb token "Resolved" || String.eqb token "Closed".

Definition endpoint_boundary (rows : list StatusRow) : Z :=
  foldl (fun b r => if is_reopening (st_token r) then Z.max b (st_chronology r) else b) (-1) rows.

Definition endpoint_candidates (rows : list StatusRow) : result (list (Z * string)) :=
  let boundary := endpoint_boundary rows in
  traverse (fun r => i ← require_uuid4 (st_source_field_id r); Ok (st_chronology r, i))
    (filter (fun r => is_terminal_token (st_token r) = true /\ boundary < st_chronology r) rows).

Definition _terminal_endpoint (db : TicketDb) (sr : string) (current_status : SlaEvidenceValue)
    : result (option Z * option string) :=
  if negb (match ev_value current_status with
           | TextValue t => is_terminal_token t | IntValue _ => false end)
  then Ok (None, None)
  else match ev_source_chronology_utc current_status with
  | None => Ok (None, None)
  | Some current_chronology =>
      candidates ← endpoint_candidates (status_rows db sr current_chronology);
      match py_sorted (fun c => c) candidates with
      | [] => Ok (None, None)
      | (t, i) :: _ => Ok (Some t, Some i)
      end
  end.

(** ** Assembling one input *)
Record SlaFields := MkFields {
  f_source_revision : Z;
  f_report_date : option SlaEvidenceValue;
  f_severity : option SlaEvidenceValue;
  f_status : option SlaEvidenceValue;
  f_planned_end : option SlaEvidenceValue;
  f_suspension : option SlaEvidenceValue
}.
Definition load_fields (db : TicketDb) (sr : string) : result SlaFields :=
  match sr_current_source_projection db !! sr with
  | None => Ok (MkFields 0 None None None None None)
  | Some p =>
      _ ← forbid (projection_revision p <=? 0)
        (IntegrityFailure "Service Request source projection revision is invalid");
      report_date ← _field db sr (report_date_observation_id p) "report_date" "instant";
      severity ← _field db sr (customer_severity_observation_id p) "customer_severity" "controlled";
      status ← _field db sr (status_observation_id p) "status" "controlled";
      planned_end ← _field db sr (suspend_planned_end_observation_id p)
        "suspend_planned_end" "instant";
      suspension ← _field db sr (suspension_duration_observation_id p)
        "suspension_duration" "duration_seconds";
      Ok (MkFields (projection_revision p) report_date severity status planned_end suspension)
  end.

Definition severity_of (severity : option SlaEvidenceValue) : result (option string) :=
  match severity with
  | None => Ok None
  | Some e => match _SEVERITY_CLASSES (ev_text (ev_value e)) with
      | Some s => Ok (Some s)
      | None => raise (IntegrityFailure
          "accepted current Service Request severity is outside its closed vocabulary") end
  end.
Definition status_class_of (status : option SlaEvidenceValue) : result string :=
  match status with
  | None => Ok "active"
  | Some e => match _STATUS_CLASSES (ev_text (ev_value e)) with
      | Some s => Ok s
      | None => raise (IntegrityFailure
          "accepted current Service Request status is outside its closed vocabulary") end
  end.
Definition is_terminal_class (c : string) : bool :=
  String.eqb c "resolved" || String.eqb c "closed".

Section reader.
Context `{Sha256}.

(** The value the input token is the fingerprint of. *)
Definition input_token_value (sr : string) (official : option string)
    (rel org : option string) (f : SlaFields) (severity status_token : option string)
    (status_class : string) (endpoint : option Z) (endpoint_id : option string) : json :=
  let ev (o : option SlaEvidenceValue) (rest : SlaEvidenceValue -> list (string * json)) :=
    jopt (fun e => JObj (("evidence_id", JStr (ev_source_observation_field_id e)) :: rest e)) o in
  JObj [
    ("schema", JStr "SOMA_SERVICE_REQUEST_SLA_INPUT_V1");
    ("service_request_id", JStr sr);
    ("official_sr_no", jopt JStr official);
    ("customer_relationship_id", jopt JStr rel);
    ("customer_org_id", jopt JStr org);
    ("source_projection_revision", JInt (f_source_revision f));
    ("report_date", ev (f_report_date f) (fun e => [("value", JInt (ev_int (ev_value e)))]));
    ("severity", ev (f_severity f) (fun _ => [("value", jopt JStr severity)]));
    ("status", ev (f_status f) (fun e => [
       ("token", jopt JStr status_token); ("class", JStr status_class);
       ("source_chronology_utc", jopt JInt (ev_source_chronology_utc e))]));
    ("first_resolved_closed_endpoint", jopt (fun t => JObj [
       ("evidence_id", jopt JStr endpoint_id); ("value", JInt t)]) endpoint);
    ("suspension", ev (f_suspension f) (fun e => [
       ("numerator_seconds", JInt (ev_int (ev_value e))); ("denominator", JInt 1)]));
    ("suspend_planned_end", ev (f_planned_end f) (fun e => [
       ("value", JInt (ev_int (ev_value e)))]))].

Definition get (db : TicketDb) (sr_id : string) : result ServiceRequestSlaInput :=
  service_request_id ← require_uuid4 sr_id;
  match service_requests db !! service_request_id with
  | None => raise (ValidationError "Service Request does not exist")
  | Some official_sr_no =>
      '(relationship_id, customer_org_id) ← _current_relationship db service_request_id;
      f ← load_fields db service_request_id;
      severity_token ← severity_of (f_severity f);
      let status_token := (fun e => ev_text (ev_value e)) <$> f_status f in
      status_class ← status_class_of (f_status f);
      '(endpoint_utc, endpoint_evidence_id) ← match f_status f with
        | Some status => if is_terminal_class status_class
            then _terminal_endpoint db service_request_id status else Ok (None, None)
        | None => Ok (None, None) end;
      let suspension_seconds :=
        match f_suspension f with Some e => ev_int (ev_value e) | None => 0 end in
      token ← sha256_canonical_json
        (input_token_value service_request_id official_sr_no relationship_id customer_org_id f
           severity_token status_token status_class endpoint_utc endpoint_evidence_id);
      Ok (MkSlaInput service_request_id official_sr_no customer_org_id relationship_id
        (f_source_revision f)
        ((fun e => ev_int (ev_value e)) <$> f_report_date f)
        (ev_source_observation_field_id <$> f_report_date f)
        severity_token (ev_source_observation_field_id <$> f_severity f)
        status_token status_class (ev_source_observation_field_id <$> f_status f)
        endpoint_utc endpoint_evidence_id suspension_seconds 1
        (ev_source_observation_field_id <$> f_suspension f)
        ((fun e => ev_int (ev_value e)) <$> f_planned_end f)
        (ev_source_observation_field_id <$> f_planned_end f) token)
  end.

(** ** Paging through one month *)
(** The joined rows of one projection: none unless its report-date observation
    is usable and inside the month, else one per active relationship of its
    request, or one with no customer when there is none. *)
Definition projection_rows (db : TicketDb) (month_start month_end : Z)
    (sr : string) (p : ProjectionRow) : list (string * option string) :=
  match report_date_observation_id p ≫= fun o => sr_source_field_observations db !! o with
  | Some o =>
      match obs_integer_value o with
      | Some v =>
          if String.eqb (obs_field_key o) "report_date"
             && String.eqb (obs_value_state o) "usable"
             && (month_start <=? v) && (v <? month_end)
          then match active_relationships db sr with
               | [] => [(sr, None)]
               | rels => map (fun r => (sr, Some (rel_customer_org_id r))) rels
               end
          else []
      | None => []
      end
  | None => []
  end.
Definition month_join (db : TicketDb) (month_start month_end : Z)
    : list (string * option string) :=
  flat_map (fun '(sr, p) => projection_rows db month_start month_end sr p)
    (map_to_list (sr_current_source_projection db)).
Definition in_scope (scope : option string) (row : string * option string) : bool :=
  match scope with Some c => bool_decide (row.2 = Some c) | None => true end.
(** The ids of all joined rows of the month in scope, in order. *)
Definition month_rows (db : TicketDb) (month_start month_end : Z) (scope : option string)
    : list string :=
  py_sorted (fun s => s)
    (map fst (filter (fun r => in_scope scope r = true) (month_join db month_start month_end))).

Definition optional_uuid (o : option string) : result (option string) :=
  match o with None => Ok None | Some v => u ← require_uuid4 v; Ok (Some u) end.

Definition list_report_date_month (db : TicketDb) (month_start month_end : Z)
    (customer_scope cursor : option string) (limit : Z) : result SlaInputPage :=
  _ ← forbid ((month_start <? 0) || (month_end <=? month_start))
    (ValidationError "report-date month bounds are invalid");
  _ ← forbid ((limit <? 1) || (500 <? limit))
    (ValidationError "SLA input page limit must be between 1 and 500");
  customer_id ← optional_uuid customer_scope;
  cursor_id ← optional_uuid cursor;
  let all := month_rows db month_start month_end customer_id in
  let after := filter (fun s =>
    match cursor_id with Some c => ltb c s | None => true end = true) all in
  let rows := take (Z.to_nat (limit + 1)) after in
  let has_more := limit <? Z.of_nat (length rows) in
  let selected := take (Z.to_nat limit) rows in
  items ← traverse (get db) selected;
  Ok (MkPage items (if has_more then last selected else None) (Z.of_nat (length all))).
End reader.

(** * The terminal endpoint is the first resolution after the last reopening *)
(** At time [c] the observation [oid] gave [sr] the status [token]. *)
Definition status_observed (db : TicketDb) (sr token : string) (c : Z) (oid fid : string) : Prop :=
  exists o, sr_source_field_observations db !! oid = Some o /\
    obs_service_request_id o = sr /\ obs_field_key o = "status" /\
    obs_value_state o = "usable" /\ obs_value_kind o = "controlled" /\
    obs_source_chronology_utc o = Some c /\ str_col (obs_text_value o) = token /\
    obs_source_field_id o = fid.

Lemma elem_of_status_rows db sr limit r :
  r ∈ status_rows db sr limit <->
  status_observed db sr (st_token r) (st_chronology r) (st_obs_id r) (st_source_field_id r) /\
  st_chronology r <= limit.
Proof.
  unfold status_rows. rewrite elem_of_py_sorted, list_elem_of_omap. split.
  - intros ([oid o] & Hin & Hr). apply elem_of_map_to_list in Hin.
    destruct (obs_source_chronology_utc o) as [c|] eqn:Ec; [|done].
    case_match eqn:Eb; [|done]. simplify_eq/=. bool_hyps. split; [|done].
    by exists o.
  - intros [(o & Ho & Hsr & Hk & Hu & Hc & Ht & Htok & Hf) Hle].
    exists (st_obs_id r, o). rewrite elem_of_map_to_list. split; [done|]. simpl.
    rewrite Ht, Hsr, Hk, Hu, Hc, String.eqb_refl, (proj2 (Z.leb_le _ _)) by done. simpl.
    destruct r; simpl in *. congruence.
Qed.

Lemma endpoint_boundary_spec rows c :
  endpoint_boundary rows < c <->
  -1 < c /\ forall r, r ∈ rows -> is_reopening (st_token r) = true -> st_chronology r < c.
Proof.
  unfold endpoint_boundary. generalize (-1). induction rows as [|x rows IH]; intros b; simpl.
  { set_solver. }
  rewrite IH. setoid_rewrite elem_of_cons. destruct (is_reopening (st_token x)) eqn:E.
  - split.
    + intros [Hb Hall]. split; [lia|]. intros r [->|Hr]; [lia|by apply Hall].
    + intros [Hb Hall]. split; [specialize (Hall x (or_introl eq_refl) E); lia|].
      intros r Hr. apply Hall. by right.
  - split; intros [Hb Hall]; (split; [done|]); intros r; [intros [->|Hr]|intros Hr]; try congruence; auto.
Qed.

(** [t] is the time of a resolution of [sr], of evidence [i], known at [cur]
    and later than every reopening known at [cur]. *)
Definition resolution_after_reopening (db : TicketDb) (sr : string) (cur t : Z) (i : string) : Prop :=
  (exists token oid, status_observed db sr token t oid i /\ is_terminal_token token = true) /\
  -1 < t <= cur /\
  forall token c oid fid, status_observed db sr token c oid fid ->
    is_reopening token = true -> c <= cur -> c < t.

Lemma endpoint_candidates_exact db sr cur l :
  endpoint_candidates (status_rows db sr cur) = Ok l ->
  forall t i, (t, i) ∈ l <-> resolution_after_reopening db sr cur t i.
Proof.
  unfold endpoint_candidates. intros Hl t i. split.
  - intros Hin. destruct (traverse_elem_of _ _ _ _ Hl Hin) as (r & Hr & Hf). inv_ok Hf. apply require_uuid4_ok in Hf0 as [-> _].
    apply list_elem_of_filter in Hr as [[Htok Hb] Hr].
    apply endpoint_boundary_spec in Hb as [Hpos Hb]. rewrite elem_of_status_rows in Hr.
    destruct Hr as [Hobs Hle].
    split; [by do 2 eexists|]. split; [lia|]. intros token c oid fid Ho Hre Hc.
    apply (Hb (MkStatusRow fid token c oid)); [|done]. by rewrite elem_of_status_rows.
  - intros ((token & oid & Hobs & Htok) & Hle & Hre).
    set (r := MkStatusRow i token t oid).
    assert (r ∈ status_rows db sr cur) as Hr by (rewrite elem_of_status_rows; split; [done|simpl; lia]).
    assert (r ∈ filter (fun r => is_terminal_token (st_token r) = true /\
      endpoint_boundary (status_rows db sr cur) < st_chronology r) (status_rows db sr cur)) as Hf.
    { rewrite list_elem_of_filter. split; [|done]. split; [done|].
      apply endpoint_boundary_spec. split; [simpl; lia|]. intros r' [Ho' Hc']%elem_of_status_rows Hre'.
      by eapply Hre. }
    destruct (traverse_elem_of_l _ _ _ r Hl Hf) as (y & Hy & Hfy). inv_ok Hfy.
    by apply require_uuid4_ok in Hfy0 as [-> _].
Qed.

(** For a request whose accepted status is Resolved or Closed,
    the computed endpoint is the earliest (time, evidence) resolution that no
    suspension or cancellation up to the current status follows or coincides
    with, and there is none exactly when no such resolution was observed. *)
Theorem terminal_endpoint_exact (db : TicketDb) (sr token : string) (status : SlaEvidenceValue)
    (cur : Z) (endpoint : option Z) (evidence : option string) :
  ev_value status = TextValue token -> is_terminal_token token = true ->
  ev_source_chronology_utc status = Some cur ->
  _terminal_endpoint db sr status = Ok (endpoint, evidence) ->
  match endpoint, evidence with
  | Some t, Some i => resolution_after_reopening db sr cur t i /\
      forall t' i', resolution_after_reopening db sr cur t' i' -> leb (t, i) (t', i') = true
  | None, None => forall t i, ~ resolution_after_reopening db sr cur t i
  | _, _ => False
  end.
Proof.
  intros Hv Htok Hcur He. unfold _terminal_endpoint in He. rewrite Hv, Htok, Hcur in He.
  simpl in He. inv_ok He. pose proof (endpoint_candidates_exact _ _ _ _ He0) as Hex.
  assert (forall t i, (t, i) ∈ py_sorted (fun c => c) a <->
    resolution_after_reopening db sr cur t i) as Hexs.
  { intros. by rewrite elem_of_py_sorted. }
  pose proof (py_sorted_sorted (fun c : Z * string => c) a) as Hs.
  destruct (py_sorted (fun c => c) a) as [|[t i] l]; injection He as <- <-.
  { intros t i Hr. by apply Hexs, elem_of_nil in Hr. }
  split; [apply Hexs; by left|]. apply StronglySorted_inv in Hs as [_ Hs].
  rewrite Forall_forall in Hs.
  intros t' i' [[= <- <-]|Hin]%Hexs%elem_of_cons; [apply leb_refl|]. by apply (Hs (t', i')).
Qed.

Module Examples.
Definition uuid_a : string := "aaaaaaaa-aaaa-4aaa-8aaa-aaaaaaaaaaaa".
Definition uuid_b : string := "bbbbbbbb-bbbb-4bbb-8bbb-bbbbbbbbbbbb".
Definition uuid_c : string := "cccccccc-cccc-4ccc-8ccc-cccccccccccc".
Definition uuid_d : string := "dddddddd-dddd-4ddd-8ddd-dddddddddddd".
Definition status_obs (fid token : string) (c : Z) : ObservationRow :=
  MkObservation uuid_a fid "status" "usable" "controlled" (Some token) None (Some c)
    "source_chronology".
(** Resolved at 10, suspended at 20, resolved at 30, closed at 40. *)
Definition reopened : TicketDb := MkTicketDb {[ uuid_a := None ]} [] ∅
  (list_to_map [ (uuid_a, status_obs uuid_a "Resolved" 10);
    (uuid_b, status_obs uuid_b "Customer Agreed Suspend" 20);
    (uuid_c, status_obs uuid_c "Resolved" 30); (uuid_d, status_obs uuid_d "Closed" 40)]).
Definition closed_status : SlaEvidenceValue :=
  MkEvidence uuid_d uuid_d (TextValue "Closed") (Some 40) "source_chronology".
End Examples.

Lemma terminal_endpoint_exact_witness :
  _terminal_endpoint Examples.reopened Examples.uuid_a Examples.closed_status
    = Ok (Some 30, Some Examples.uuid_c) /\
  resolution_after_reopening Examples.reopened Examples.uuid_a 40 30 Examples.uuid_c.
Proof.
  assert (_terminal_endpoint Examples.reopened Examples.uuid_a Examples.closed_status
    = Ok (Some 30, Some Examples.uuid_c)) as H by (vm_compute; reflexivity).
  split; [exact H|].
  exact (proj1 (terminal_endpoint_exact Examples.reopened Examples.uuid_a "Closed" Examples.closed_status
    40 (Some 30) (Some Examples.uuid_c) eq_refl eq_refl eq_refl H)).
Defined.
