(* ===== verification/IndividualSla.v ===== *)
(** The SLA state of one Service Request:
    [product_line_sla/algorithms/individual_sla.py].

    [SlaDb] holds the tables the calculation reads.  The optional read cache
    is a state: what a call has read stays cached when it raises. *)
From Stdlib Require Import QArith Qcanon Qminmax.
From S2P Require Import Prelude StrictJson Identifiers SlaPolicy SlaInput.
#[local] Open Scope Z_scope.

(** * Tables *)
Record ClassificationRow := MkClassificationRow {
  cur_contract_product_line_id : string;
  cur_classification_event_id : string;
  cur_revision : Z
}.
Record ContractProductLineRow := MkCpl {
  cpl_contract_id : string;
  current_policy_revision_id : option string
}.
Record TierRow := MkTierRow {
  tier_policy_revision_id : string;
  tier_severity : string;
  row_tier_ordinal : Z;
  row_required_percentage_millionths : Z;
  row_maximum_duration_numerator_seconds : Z;
  row_maximum_duration_denominator : Z
}.
Record SlaDb := MkSlaDb {
  tickets : TicketDb;
  sr_classification_current : gmap string ClassificationRow;
  contract_product_lines : gmap string ContractProductLineRow;
  contracts : gmap string string;  (** customer_org_id *)
  sla_policy_revisions : gmap string string;  (** contract_product_line_id *)
  sla_policy_tiers : gmap string TierRow
}.

(** * Values *)
Record IndividualTierResult := MkTierResult {
  r_policy_tier_id : string;
  r_tier_ordinal : Z;
  r_required_percentage_millionths : Z;
  r_maximum_duration_numerator_seconds : Z;
  r_maximum_duration_denominator : Z;
  individual_state : string;
  inclusive_boundary_met : bool
}.
Record IndividualSlaResult := MkIndividual {
  i_service_request_id : string;
  i_as_of_utc : Z;
  i_classification_state : string;
  i_customer_org_id : option string;
  i_contract_id : option string;
  i_contract_product_line_id : option string;
  i_classification_event_id : option string;
  i_policy_revision_id : option string;
  i_severity : option string;
  i_report_date_utc : option Z;
  i_endpoint_kind : string;
  i_endpoint_utc : option Z;
  i_suspension_numerator_seconds : Z;
  i_suspension_denominator : Z;
  i_effective_elapsed_numerator_seconds : option Z;
  i_effective_elapsed_denominator : option Z;
  i_calculation_state : string;
  i_status_class : string;
  i_tier_results : list IndividualTierResult;
  i_sla_input_token : string;
  i_input_fingerprint : string;
  i_source_report_date_evidence_id : option string;
  i_source_status_evidence_id : option string;
  i_source_suspension_evidence_id : option string
}.
Record _ClassificationAuthority := MkAuthority {
  a_contract_product_line_id : string;
  a_classification_event_id : string;
  a_classification_revision : Z;
  a_contract_id : string;
  a_contract_customer_org_id : string;
  a_current_policy_revision_id : option string
}.

(** [SELECT ... FROM sla_policy_tiers WHERE policy_revision_id=? AND
    severity=? ORDER BY tier_ordinal, policy_tier_id]. *)
Definition tier_rows (db : SlaDb) (revision severity : string) : list (string * TierRow) :=
  py_sorted (fun r => (row_tier_ordinal r.2, r.1))
    (filter (fun r => tier_policy_revision_id r.2 = revision /\ tier_severity r.2 = severity)
      (map_to_list (sla_policy_tiers db))).

Definition _classification (db : SlaDb) (sr : string) : result (option _ClassificationAuthority) :=
  match sr_classification_current db !! sr with
  | None => Ok None
  | Some cur =>
      match contract_product_lines db !! cur_contract_product_line_id cur with
      | None => Ok None
      | Some cpl =>
          match contracts db !! cpl_contract_id cpl with
          | None => Ok None
          | Some customer =>
              line ← require_uuid4 (cur_contract_product_line_id cur);
              event ← require_uuid4 (cur_classification_event_id cur);
              contract ← require_uuid4 (cpl_contract_id cpl);
              org ← require_uuid4 customer;
              policy ← optional_uuid (current_policy_revision_id cpl);
              Ok (Some (MkAuthority line event (cur_revision cur) contract org policy))
          end
      end
  end.

(** [fractions.Fraction(n, d)]. *)
Definition py_fraction (n d : Z) : result Fraction :=
  match d with
  | Z0 => Raise (PyExn "ZeroDivisionError")
  | Zpos p => Ok (frac n p)
  | Zneg p => Ok (frac (- n) p)
  end.
Definition frac_max (x y : Fraction) : Fraction := if leb y x then x else y.

(** * The read cache *)
Record IndividualSlaReadCache := MkCache {
  policy_owner_by_revision : gmap string (option string);
  policy_tiers_by_revision_severity : gmap (string * string) (list (string * TierRow))
}.
Definition empty_cache : IndividualSlaReadCache := MkCache ∅ ∅.
Definition cached : Type -> Type := stM (option IndividualSlaReadCache).

(** Reads through the cache; without one, reads the tables. *)
Definition policy_owner (db : SlaDb) (revision : string) : cached (option string) := fun rc =>
  match rc ≫= fun c => policy_owner_by_revision c !! revision with
  | Some owner => (rc, Ok owner)
  | None =>
      let owner := sla_policy_revisions db !! revision in
      ((fun c => MkCache (<[revision := owner]> (policy_owner_by_revision c))
          (policy_tiers_by_revision_severity c)) <$> rc, Ok owner)
  end.
Definition policy_tier_rows (db : SlaDb) (revision severity : string)
    : cached (list (string * TierRow)) := fun rc =>
  match rc ≫= fun c => policy_tiers_by_revision_severity c !! (revision, severity) with
  | Some rows => (rc, Ok rows)
  | None =>
      let rows := tier_rows db revision severity in
      ((fun c => MkCache (policy_owner_by_revision c)
          (<[(revision, severity) := rows]> (policy_tiers_by_revision_severity c))) <$> rc, Ok rows)
  end.

Definition Indeterminate (m : string) : SomaError := MkSomaError "SLA_INPUT_INDETERMINATE" m false.

Definition tier_state (terminal within : bool) : string :=
  if terminal && within then "terminal_met"
  else if terminal then "terminal_exceeded"
  else if within then "active_within"
  else "active_exceeded".

Definition tier_result (terminal : bool) (elapsed : Fraction) (row : string * TierRow)
    : result IndividualTierResult :=
  policy_tier_id ← require_uuid4 row.1;
  maximum ← py_fraction (row_maximum_duration_numerator_seconds row.2)
    (row_maximum_duration_denominator row.2);
  let within := leb elapsed maximum in
  Ok (MkTierResult policy_tier_id (row_tier_ordinal row.2)
    (row_required_percentage_millionths row.2) (numerator maximum) (denominator maximum)
    (tier_state terminal within) within).

(** [max(endpoint - report_date - suspension, 0)]. *)
Definition effective_elapsed (i : ServiceRequestSlaInput) (endpoint report_date : Z)
    : result Fraction :=
  suspension ← py_fraction (in_suspension_numerator_seconds i) (in_suspension_denominator i);
  Ok (frac_max (Qcminus (frac (endpoint - report_date) 1) suspension) (frac 0 1)).

(** The endpoint, its kind and whether it is final. *)
Definition endpoint_of (i : ServiceRequestSlaInput) (as_of_utc : Z) : result (Z * string * bool) :=
  if is_terminal_class (in_status_class i) then
    match in_first_resolved_closed_endpoint_utc i with
    | None => raise (Indeterminate
        "terminal Service Request lacks an accepted effective Resolved/Closed endpoint")
    | Some endpoint_utc =>
        _ ← forbid (as_of_utc <? endpoint_utc) (Indeterminate
          "terminal Service Request endpoint is later than the requested as-of instant");
        Ok (endpoint_utc, "first_resolved_closed", true)
    end
  else Ok (as_of_utc, "current", false).

Section calculator.
Context `{Sha256}.

Definition _empty_result (i : ServiceRequestSlaInput) (as_of_utc : Z)
    (classification_state calculation_state : string)
    (classification : option _ClassificationAuthority) (endpoint_kind : string)
    : result IndividualSlaResult :=
  let policy := classification ≫= a_current_policy_revision_id in
  fingerprint ← sha256_canonical_json (JObj [
    ("schema", JStr "SOMA_INDIVIDUAL_SLA_INPUT_V1");
    ("service_request_id", JStr (in_service_request_id i));
    ("sla_input_token", JStr (in_input_token i));
    ("classification_state", JStr classification_state);
    ("classification_event_id", jopt JStr (a_classification_event_id <$> classification));
    ("contract_product_line_id", jopt JStr (a_contract_product_line_id <$> classification));
    ("policy_revision_id", jopt JStr policy);
    ("as_of_utc", JInt as_of_utc);
    ("calculation_state", JStr calculation_state)]);
  Ok (MkIndividual (in_service_request_id i) as_of_utc classification_state
    (in_customer_org_id i) (a_contract_id <$> classification)
    (a_contract_product_line_id <$> classification)
    (a_classification_event_id <$> classification) policy (in_severity i)
    (in_report_date_utc i) endpoint_kind None (in_suspension_numerator_seconds i)
    (in_suspension_denominator i) None None calculation_state (in_status_class i) []
    (in_input_token i) fingerprint (in_report_date_evidence_id i) (in_status_evidence_id i)
    (in_suspension_evidence_id i)).

Definition calculable_fingerprint (sr : string) (i : ServiceRequestSlaInput) (c : _ClassificationAuthority)
    (policy severity : string) (as_of_utc endpoint_utc : Z) (endpoint_kind : string)
    (results : list IndividualTierResult) : json :=
  JObj [
    ("schema", JStr "SOMA_INDIVIDUAL_SLA_INPUT_V1");
    ("service_request_id", JStr sr);
    ("sla_input_token", JStr (in_input_token i));
    ("classification_event_id", JStr (a_classification_event_id c));
    ("classification_revision", JInt (a_classification_revision c));
    ("contract_id", JStr (a_contract_id c));
    ("contract_product_line_id", JStr (a_contract_product_line_id c));
    ("policy_revision_id", JStr policy);
    ("severity", JStr severity);
    ("as_of_utc", JInt as_of_utc);
    ("endpoint_kind", JStr endpoint_kind);
    ("endpoint_utc", JInt endpoint_utc);
    ("endpoint_status_evidence_id", jopt JStr (in_endpoint_status_evidence_id i));
    ("suspension", JObj [
       ("numerator_seconds", JInt (in_suspension_numerator_seconds i));
       ("denominator", JInt (in_suspension_denominator i));
       ("evidence_id", jopt JStr (in_suspension_evidence_id i))]);
    ("tiers", JArr (map (fun r => JStr (r_policy_tier_id r)) results))].

(** The calculation once customer, policy, date and severity are known. *)
Definition calculate_tiers (db : SlaDb) (sr : string) (i : ServiceRequestSlaInput)
    (c : _ClassificationAuthority) (policy : string) (report_date : Z) (severity : string)
    (as_of_utc : Z) : cached IndividualSlaResult :=
  '(endpoint_utc, endpoint_kind, terminal) ← lift (endpoint_of i as_of_utc);
  elapsed ← lift (effective_elapsed i endpoint_utc report_date);
  rows ← policy_tier_rows db policy severity;
  _ ← lift (forbid (bool_decide (rows = [])) (Indeterminate
    "current SLA policy has no tier for the accepted Service Request severity"));
  results ← lift (traverse (tier_result terminal elapsed) rows);
  fingerprint ← lift (sha256_canonical_json
    (calculable_fingerprint sr i c policy severity as_of_utc endpoint_utc endpoint_kind results));
  mret (MkIndividual sr as_of_utc "classified" (in_customer_org_id i)
    (Some (a_contract_id c)) (Some (a_contract_product_line_id c))
    (Some (a_classification_event_id c)) (Some policy) (Some severity) (Some report_date)
    endpoint_kind (Some endpoint_utc) (in_suspension_numerator_seconds i)
    (in_suspension_denominator i) (Some (numerator elapsed)) (Some (denominator elapsed))
    "calculable" (in_status_class i) results (in_input_token i) fingerprint
    (in_report_date_evidence_id i) (in_status_evidence_id i) (in_suspension_evidence_id i)).

Definition supplied_input (db : SlaDb) (sr : string) (sla_input : option ServiceRequestSlaInput)
    : result ServiceRequestSlaInput :=
  match sla_input with
  | None => get (tickets db) sr
  | Some i =>
      _ ← forbid (negb (String.eqb (in_service_request_id i) sr))
        (ValidationError "supplied SLA input belongs to a different Service Request");
      Ok i
  end.

Definition calculate (db : SlaDb) (sr_id : string) (as_of_utc : Z)
    (sla_input : option ServiceRequestSlaInput) : cached IndividualSlaResult :=
  service_request_id ← lift (require_uuid4 sr_id);
  _ ← lift (forbid (as_of_utc <? 0)
    (ValidationError "as_of_utc must be a nonnegative whole-second UTC instant"));
  i ← lift (supplied_input db service_request_id sla_input);
  classification ← lift (_classification db service_request_id);
  match classification with
  | None => lift (_empty_result i as_of_utc "unclassified" "unclassified" None "missing")
  | Some c =>
      if negb (bool_decide (in_customer_org_id i = Some (a_contract_customer_org_id c)))
      then lift (_empty_result i as_of_utc "incompatible" "unclassified" (Some c) "missing")
      else match a_current_policy_revision_id c with
      | None => lift (_empty_result i as_of_utc "classified" "policy_missing" (Some c) "missing")
      | Some policy =>
          owner ← policy_owner db policy;
          _ ← lift (forbid (negb (bool_decide (owner = Some (a_contract_product_line_id c))))
            (Indeterminate "current SLA policy does not belong to the classified Contract Product Line"));
          if String.eqb (in_status_class i) "cancelled" then
            lift (_empty_result i as_of_utc "classified" "cancelled_excluded" (Some c) "cancelled")
          else match in_report_date_utc i with
          | None => lift (_empty_result i as_of_utc "classified" "missing_report_date" (Some c) "missing")
          | Some report_date =>
              match in_severity i with
              | None => lift (_empty_result i as_of_utc "classified" "severity_unresolved"
                  (Some c) "missing")
              | Some severity => calculate_tiers db service_request_id i c policy
                  report_date severity as_of_utc
              end
          end
      end
  end.
End calculator.

(** * The read cache changes no result *)
Definition cache_coherent (db : SlaDb) (c : IndividualSlaReadCache) : Prop :=
  (forall revision owner, policy_owner_by_revision c !! revision = Some owner ->
     owner = sla_policy_revisions db !! revision) /\
  (forall revision severity rows,
     policy_tiers_by_revision_severity c !! (revision, severity) = Some rows ->
     rows = tier_rows db revision severity).

(** [m] answers with a coherent cache as it does with none, and leaves the
    cache coherent. *)
Definition transparent (db : SlaDb) {A} (m : cached A) : Prop :=
  fst (m None) = None /\
  forall c, cache_coherent db c ->
    exists c', m (Some c) = (Some c', snd (m None)) /\ cache_coherent db c'.

Section transparency.
Context (db : SlaDb).

Lemma transparent_lift {A} (r : result A) : transparent db (lift r).
Proof. split; [done|]. intros c Hc. by exists c. Qed.
Lemma transparent_bind {A B} (m : cached A) (f : A -> cached B) :
  transparent db m -> (forall a, transparent db (f a)) -> transparent db (m ≫= f).
Proof.
  intros [Hn Hm] Hf. unfold transparent, mbind, stM_bind in *.
  destruct (m None) as [s [a|e]]; simpl in *; subst s.
  - destruct (Hf a) as [Hfn Hfa]. split; [done|]. intros c Hc.
    destruct (Hm c Hc) as (c' & -> & Hc'). by apply Hfa.
  - split; [done|]. intros c Hc. destruct (Hm c Hc) as (c' & -> & Hc'). by exists c'.
Qed.
Lemma transparent_owner revision : transparent db (policy_owner db revision).
Proof.
  split; [done|]. intros c Hc. unfold policy_owner. simpl.
  destruct (policy_owner_by_revision c !! revision) as [o|] eqn:E.
  - exists c. by rewrite (proj1 Hc _ _ E).
  - eexists; split; [done|]. split; [|apply Hc]. intros r o; simpl.
    rewrite lookup_insert_Some. intros [[-> <-]|[_ Ho]]; [done|by apply Hc].
Qed.
Lemma transparent_tiers revision severity : transparent db (policy_tier_rows db revision severity).
Proof.
  split; [done|]. intros c Hc. unfold policy_tier_rows. simpl.
  destruct (policy_tiers_by_revision_severity c !! (revision, severity)) as [o|] eqn:E.
  - exists c. by rewrite (proj2 Hc _ _ _ E).
  - eexists; split; [done|]. split; [apply Hc|]. intros r s o; simpl.
    rewrite lookup_insert_Some. intros [[[= -> ->] <-]|[_ Ho]]; [done|by eapply Hc].
Qed.
End transparency.
Create HintDb sla discriminated.
#[export] Hint Resolve transparent_lift transparent_owner transparent_tiers : sla.
Ltac transparent :=
  repeat lazymatch goal with
  | |- transparent _ (mbind _ _) => apply transparent_bind; [|intros]
  | |- transparent _ (let '(_, _) := ?p in _) => destruct p
  | |- transparent _ (match _ with _ => _ end) => case_match
  | |- transparent _ (mret ?x) => apply (transparent_lift _ (Ok x))
  | |- transparent _ _ => auto with sla nocore
  end.

Lemma calculate_transparent `{Sha256} (db : SlaDb) sr_id as_of_utc sla_input :
  transparent db (calculate db sr_id as_of_utc sla_input).
Proof. unfold calculate, calculate_tiers. transparent. Qed.

(** A calculation that shares a coherent read cache returns what the
    same calculation without a cache returns, errors included, and leaves the
    cache coherent. *)
Theorem read_cache_transparent `{Sha256} (db : SlaDb) (sr_id : string) (as_of_utc : Z)
    (sla_input : option ServiceRequestSlaInput) (cache : IndividualSlaReadCache) :
  cache_coherent db cache ->
  exists cache', calculate db sr_id as_of_utc sla_input (Some cache)
      = (Some cache', snd (calculate db sr_id as_of_utc sla_input None)) /\
    cache_coherent db cache'.
Proof.
  intros Hc. by apply (calculate_transparent db sr_id as_of_utc sla_input).
Qed.

(** * What a calculable result says *)
(** The authority and input a calculable result stands on. *)
Record calculable_basis `{Sha256} (db : SlaDb) (sr : string) (as_of : Z)
    (sla_input : option ServiceRequestSlaInput) (i : ServiceRequestSlaInput)
    (c : _ClassificationAuthority) (policy severity : string) (report endpoint : Z)
    (terminal : bool) (elapsed : Fraction) (r : IndividualSlaResult) : Prop := {
  basis_input : supplied_input db sr sla_input = Ok i;
  basis_classification : _classification db sr = Ok (Some c);
  basis_customer : in_customer_org_id i = Some (a_contract_customer_org_id c);
  basis_policy : a_current_policy_revision_id c = Some policy;
  basis_owner : sla_policy_revisions db !! policy = Some (a_contract_product_line_id c);
  basis_not_cancelled : in_status_class i <> "cancelled";
  basis_report : in_report_date_utc i = Some report;
  basis_severity : in_severity i = Some severity;
  basis_endpoint : exists kind, endpoint_of i as_of = Ok (endpoint, kind, terminal);
  basis_elapsed : effective_elapsed i endpoint report = Ok elapsed;
  basis_tiers : tier_rows db policy severity <> [];
  basis_results : traverse (tier_result terminal elapsed) (tier_rows db policy severity)
    = Ok (i_tier_results r);
  basis_id : i_service_request_id r = sr;
  basis_line : i_customer_org_id r = in_customer_org_id i /\
    i_contract_id r = Some (a_contract_id c) /\
    i_contract_product_line_id r = Some (a_contract_product_line_id c) /\
    i_policy_revision_id r = Some policy /\ i_severity r = Some severity /\
    i_report_date_utc r = Some report /\ i_endpoint_utc r = Some endpoint;
  basis_status : i_status_class r = in_status_class i
}.

Lemma empty_result_state `{Sha256} i t cs ks c ek r :
  _empty_result i t cs ks c ek = Ok r -> i_calculation_state r = ks /\ i_tier_results r = [].
Proof. unfold _empty_result. intros Hr. by inv_ok Hr. Qed.

Lemma calculate_calculable `{Sha256} db sr as_of sla_input rc r :
  calculate db sr as_of sla_input None = (rc, Ok r) ->
  i_calculation_state r = "calculable" ->
  exists i c policy severity report endpoint terminal elapsed,
    calculable_basis db sr as_of sla_input i c policy severity report endpoint terminal elapsed r.
Proof.
  unfold calculate. intros Hr Hs. inv_st Hr;
    try (match goal with H : _empty_result _ _ _ _ _ _ = Ok _ |- _ =>
      apply empty_result_state in H as [H _]; congruence end).
  unfold calculate_tiers in Hr. inv_st Hr. destruct a2 as [[endpoint kind] terminal].
  inv_st Hr. unfold policy_owner in Hr4; simpl in Hr4. injection Hr4 as <- <-.
  unfold policy_tier_rows in Hr8; simpl in Hr8. injection Hr8 as <- <-.
  apply require_uuid4_ok in Hr0 as [-> _]. bool_hyps.
  eexists _, _, _, _, _, _, _, _. split; eauto.
  by repeat split.
Qed.

Definition ratio (n d : Z) : Q := (inject_Z n / inject_Z d)%Q.

Lemma py_fraction_spec n d q : py_fraction n d = Ok q -> (this q == ratio n d)%Q.
Proof.
  unfold py_fraction, ratio, frac.
  destruct d as [|p|p]; [done| |]; injection 1 as <-; simpl;
    rewrite Qred_correct; unfold Qdiv, Qinv, Qeq, Qmult; simpl; lia.
Qed.
Lemma frac_max_spec (x y : Fraction) : (this (frac_max x y) == Qmax x y)%Q.
Proof.
  unfold frac_max. destruct (leb y x) eqn:E.
  - apply Qc_leb_le in E. by rewrite Q.max_l.
  - apply leb_false, Qc_leb_le in E. by rewrite Q.max_r.
Qed.
Lemma effective_elapsed_spec i endpoint report q :
  effective_elapsed i endpoint report = Ok q ->
  (this q == Qmax (inject_Z (endpoint - report)
     - ratio (in_suspension_numerator_seconds i) (in_suspension_denominator i)) 0)%Q.
Proof.
  unfold effective_elapsed. intros Hq. inv_ok Hq. apply py_fraction_spec in Hq0.
  rewrite frac_max_spec. simpl. rewrite !Qred_correct. unfold Qminus.
  by rewrite Hq0.
Qed.
Lemma endpoint_of_spec i as_of endpoint kind terminal :
  endpoint_of i as_of = Ok (endpoint, kind, terminal) ->
  terminal = is_terminal_class (in_status_class i) /\ endpoint <= as_of /\
  if terminal then in_first_resolved_closed_endpoint_utc i = Some endpoint
  else endpoint = as_of.
Proof.
  unfold endpoint_of. destruct (is_terminal_class _); [|by intros [= <- <- <-]].
  intros He. inv_ok He. by bool_hyps.
Qed.

(** The result of one tier against the row it was computed from. *)
Definition tier_exact (terminal : bool) (elapsed : Fraction) (row : string * TierRow)
    (t : IndividualTierResult) : Prop :=
  r_policy_tier_id t = row.1 /\
  r_tier_ordinal t = row_tier_ordinal row.2 /\
  r_required_percentage_millionths t = row_required_percentage_millionths row.2 /\
  (ratio (r_maximum_duration_numerator_seconds t) (r_maximum_duration_denominator t)
    == ratio (row_maximum_duration_numerator_seconds row.2)
         (row_maximum_duration_denominator row.2))%Q /\
  (inclusive_boundary_met t = true <->
    (elapsed <= ratio (row_maximum_duration_numerator_seconds row.2)
                  (row_maximum_duration_denominator row.2))%Q) /\
  individual_state t = tier_state terminal (inclusive_boundary_met t).

Lemma ratio_numerator (q : Fraction) : (ratio (numerator q) (denominator q) == q)%Q.
Proof.
  unfold ratio, numerator, denominator, Qdiv, Qinv, Qeq, Qmult; simpl. lia.
Qed.
Lemma tier_result_exact terminal elapsed row t :
  tier_result terminal elapsed row = Ok t -> tier_exact terminal elapsed row t.
Proof.
  unfold tier_result. intros Ht. inv_ok Ht. apply require_uuid4_ok in Ht0 as [-> _].
  apply py_fraction_spec in Ht1. unfold tier_exact. simpl. rewrite ratio_numerator, <-Ht1.
  rewrite Qc_leb_le. done.
Qed.

(** C28.  A calculable result rests on a classification whose contract
    belongs to the request's customer and on that line's current policy; its
    endpoint is the first resolution of a resolved or closed request and the
    as-of instant otherwise, never later than the as-of instant; the effective
    elapsed time is max(endpoint - report date - suspension, 0) exactly; and
    each tier of the policy and severity, in order, is within its boundary
    exactly when elapsed <= maximum (equality included), with the state that
    follows. *)
Theorem individual_states_exact `{Sha256} (db : SlaDb) (sr : string) (as_of : Z)
    (sla_input : option ServiceRequestSlaInput) rc (r : IndividualSlaResult) :
  calculate db sr as_of sla_input None = (rc, Ok r) ->
  i_calculation_state r = "calculable" ->
  exists i c policy severity report endpoint terminal elapsed,
    calculable_basis db sr as_of sla_input i c policy severity report endpoint terminal elapsed r /\
    terminal = is_terminal_class (in_status_class i) /\
    endpoint <= as_of /\
    (if terminal then in_first_resolved_closed_endpoint_utc i = Some endpoint
     else endpoint = as_of) /\
    (this elapsed == Qmax (inject_Z (endpoint - report)
       - ratio (in_suspension_numerator_seconds i) (in_suspension_denominator i)) 0)%Q /\
    i_tier_results r <> [] /\
    Forall2 (tier_exact terminal elapsed) (tier_rows db policy severity) (i_tier_results r).
Proof.
  intros Hr Hs.
  destruct (calculate_calculable _ _ _ _ _ _ Hr Hs)
    as (i & c & policy & severity & report & endpoint & terminal & elapsed & B).
  exists i, c, policy, severity, report, endpoint, terminal, elapsed.
  destruct (basis_endpoint _ _ _ _ _ _ _ _ _ _ _ _ _ B) as (kind & He).
  pose proof (basis_results _ _ _ _ _ _ _ _ _ _ _ _ _ B) as Ht.
  destruct (endpoint_of_spec _ _ _ _ _ He) as (Hterm & Hle & Hend).
  repeat (split; [done|]). split; [by eapply effective_elapsed_spec, B|].
  pose proof (traverse_length _ _ _ Ht) as Hlen. split.
  - intros Hn. rewrite Hn in Hlen. symmetry in Hlen. apply nil_length_inv in Hlen.
    by destruct B.
  - apply traverse_ok in Ht. eapply Forall2_impl; [exact Ht|]. intros; by apply tier_result_exact.
Qed.

(** * The passing of time *)
(** A tier's later state, no evidence having changed. *)
Definition ages (s s' : string) : Prop :=
  s = s' \/ (s = "active_within" /\ s' = "active_exceeded").
Definition tier_ages (t t' : IndividualTierResult) : Prop :=
  r_policy_tier_id t = r_policy_tier_id t' /\
  r_required_percentage_millionths t = r_required_percentage_millionths t' /\
  r_maximum_duration_numerator_seconds t = r_maximum_duration_numerator_seconds t' /\
  r_maximum_duration_denominator t = r_maximum_duration_denominator t' /\
  ages (individual_state t) (individual_state t').

Lemma Qc_of_Q_le (x y : Fraction) : (x <= y)%Q -> leb x y = true.
Proof. intros. by apply Qc_leb_le. Qed.
Lemma tier_result_ages terminal q q' row t t' :
  (this q <= this q')%Q -> (terminal = true -> q = q') ->
  tier_result terminal q row = Ok t -> tier_result terminal q' row = Ok t' -> tier_ages t t'.
Proof.
  unfold tier_result. intros Hq Heq Ht Ht'. inv_ok Ht. inv_ok Ht'.
  assert (a1 = a) as -> by congruence. assert (a2 = a0) as -> by congruence.
  unfold tier_ages, ages. simpl. repeat (split; [done|]).
  destruct terminal; [rewrite Heq by done; by left|].
  unfold Fraction in *. destruct (leb q' a0) eqn:E'; [|destruct (leb q a0); auto].
  left. replace (leb q a0) with true; [done|]. symmetry.
  by apply (leb_trans q q' a0); [apply Qc_of_Q_le|].
Qed.
Lemma effective_elapsed_mono i e e' report q q' :
  e <= e' -> effective_elapsed i e report = Ok q -> effective_elapsed i e' report = Ok q' ->
  (this q <= this q')%Q.
Proof.
  intros He Hq%effective_elapsed_spec Hq'%effective_elapsed_spec. rewrite Hq, Hq'.
  apply Q.max_le_compat_r. unfold Qminus. apply Qplus_le_l. rewrite <-Zle_Qle. lia.
Qed.

Lemma calculate_ages `{Sha256} (db : SlaDb) (sr : string) (as_of as_of' : Z)
    (sla_input : option ServiceRequestSlaInput) rc rc' (r r' : IndividualSlaResult) :
  as_of <= as_of' ->
  calculate db sr as_of sla_input None = (rc, Ok r) -> i_calculation_state r = "calculable" ->
  calculate db sr as_of' sla_input None = (rc', Ok r') -> i_calculation_state r' = "calculable" ->
  i_service_request_id r = i_service_request_id r' /\
  i_customer_org_id r = i_customer_org_id r' /\ i_contract_id r = i_contract_id r' /\
  i_contract_product_line_id r = i_contract_product_line_id r' /\
  i_policy_revision_id r = i_policy_revision_id r' /\ i_severity r = i_severity r' /\
  i_report_date_utc r = i_report_date_utc r' /\ i_status_class r = i_status_class r' /\
  Forall2 tier_ages (i_tier_results r) (i_tier_results r').
Proof.
  intros Hle Hr Hs Hr' Hs'.
  destruct (calculate_calculable _ _ _ _ _ _ Hr Hs)
    as (i & c & policy & severity & report & endpoint & terminal & elapsed & [? ? ? ? ? ? ? ? [k He] Hel ? Ht ? Hln ?]).
  destruct (calculate_calculable _ _ _ _ _ _ Hr' Hs')
    as (i' & c' & policy' & severity' & report' & endpoint' & terminal' & elapsed' & [? ? ? ? ? ? ? ? [k' He'] Hel' ? Ht' ? Hln' ?]).
  assert (i' = i) as -> by congruence. assert (c' = c) as -> by congruence.
  assert (policy' = policy) as -> by congruence. assert (severity' = severity) as -> by congruence.
  assert (report' = report) as -> by congruence.
  destruct (endpoint_of_spec _ _ _ _ _ He) as (-> & _ & Hend).
  destruct (endpoint_of_spec _ _ _ _ _ He') as (-> & _ & Hend').
  destruct Hln as (? & ? & ? & ? & ? & ? & ?), Hln' as (? & ? & ? & ? & ? & ? & ?).
  repeat (split; [congruence|]).
  assert (endpoint <= endpoint') as Hee by (destruct (is_terminal_class _); [simplify_eq; lia|lia]).
  apply traverse_ok in Ht. apply traverse_ok in Ht'.
  apply Forall2_flip in Ht.
  refine (Forall2_trans _ _ _ _ _ _ _ Ht Ht'). simpl.
  intros t row t' Hrow Hrow'. eapply tier_result_ages; [| |exact Hrow|exact Hrow'].
  - by eapply effective_elapsed_mono.
  - intros Hterm. rewrite Hterm in Hend, Hend'. congruence.
Qed.

Lemma basis_still_calculable `{Sha256} db sr as_of as_of' sla_input i c policy severity report
    endpoint terminal elapsed r rc' r' :
  calculable_basis db sr as_of sla_input i c policy severity report endpoint terminal elapsed r ->
  calculate db sr as_of' sla_input None = (rc', Ok r') -> i_calculation_state r' = "calculable".
Proof.
  intros [Hi Hc Hcu Hp Ho Hnc Hre Hse _ _ _ _ _ _ _] Hr. unfold calculate in Hr.
  inv_st Hr; apply require_uuid4_ok in Hr0 as [-> _]; simplify_eq; bool_hyps; try congruence.
  unfold calculate_tiers in Hr. inv_st Hr. destruct a as [[e k] t]. by inv_st Hr.
Qed.

(** With no evidence changed, a calculation made later differs only
    by active tiers that were within their boundary and no longer are: final
    states and exceeded states stay as they are. *)
Theorem individual_states_age `{Sha256} (db : SlaDb) (sr : string) (as_of as_of' : Z)
    (sla_input : option ServiceRequestSlaInput) rc rc' (r r' : IndividualSlaResult) :
  as_of <= as_of' ->
  calculate db sr as_of sla_input None = (rc, Ok r) -> i_calculation_state r = "calculable" ->
  calculate db sr as_of' sla_input None = (rc', Ok r') -> i_calculation_state r' = "calculable" ->
  Forall2 tier_ages (i_tier_results r) (i_tier_results r').
Proof. intros Hle Hr Hs Hr' Hs'. by eapply (calculate_ages db sr as_of as_of'). Qed.

Module SlaExamples.
Import SlaInput.Examples.
#[export] Instance sha : Sha256 := fun s => s.
Definition obs (fid field kind : string) (text : option string) (int : option Z) (c : Z) :=
  MkObservation uuid_a fid field "usable" kind text int (Some c) "source_chronology".
(** A critical request of 1,000 s, still active, whose policy allows 100 s
    for 95%, in the month of instant 5. *)
Definition obs_date : string := "00000000-0000-4000-8000-000000000001".
Definition obs_severity : string := "00000000-0000-4000-8000-000000000002".
Definition relationship : RelationshipRow := MkRelationship uuid_b uuid_a uuid_c "active".
Definition ticket_db : TicketDb := MkTicketDb {[ uuid_a := Some "SR-1" ]} [relationship]
  {[ uuid_a := MkProjection (Some obs_date) (Some obs_severity) None None None 1 ]}
  (list_to_map [ (obs_date, obs uuid_d "report_date" "instant" None (Some 18005) 18005);
                 (obs_severity, obs uuid_d "customer_severity" "controlled"
                    (Some "Critical") None 18005)]).
Definition policy_id : string := "00000000-0000-4000-8000-00000000000a".
Definition tier_id : string := "00000000-0000-4000-8000-00000000000b".
Definition line_id : string := "00000000-0000-4000-8000-00000000000c".
Definition contract_id : string := "00000000-0000-4000-8000-00000000000d".
Definition db : SlaDb := MkSlaDb ticket_db
  {[ uuid_a := MkClassificationRow line_id uuid_d 1 ]}
  {[ line_id := MkCpl contract_id (Some policy_id) ]}
  {[ contract_id := uuid_c ]} {[ policy_id := line_id ]}
  {[ tier_id := MkTierRow policy_id "critical" 1 95000000 100 1 ]}.
Definition calculated (as_of : Z) : result IndividualSlaResult :=
  snd (calculate db uuid_a as_of None None).
Definition the_result (as_of : Z) : IndividualSlaResult :=
  match calculated as_of with
  | Ok r => r
  | Raise _ => MkIndividual "" 0 "" None None None None None None None "" None 0 0 None None ""
      "" [] "" "" None None None
  end.
Lemma calculate_the_result as_of :
  as_of = 18105 \/ as_of = 18106 ->
  calculate db uuid_a as_of None None = (None, Ok (the_result as_of)) /\
  i_calculation_state (the_result as_of) = "calculable".
Proof. intros [-> | ->]; vm_compute; auto. Qed.
End SlaExamples.
Import SlaExamples.

(** At exactly the maximum duration the tier is met; a second later it is not. *)
Lemma individual_states_age_witness :
  map individual_state (i_tier_results (SlaExamples.the_result 18105)) = ["active_within"] /\
  map individual_state (i_tier_results (SlaExamples.the_result 18106)) = ["active_exceeded"] /\
  Forall2 tier_ages (i_tier_results (SlaExamples.the_result 18105))
    (i_tier_results (SlaExamples.the_result 18106)).
Proof.
  split; [vm_compute; reflexivity|]. split; [vm_compute; reflexivity|].
  destruct (SlaExamples.calculate_the_result 18105 (or_introl eq_refl)) as [H1 S1].
  destruct (SlaExamples.calculate_the_result 18106 (or_intror eq_refl)) as [H2 S2].
  refine (individual_states_age _ _ 18105 18106 _ _ _ _ _ _ H1 S1 H2 S2). lia.
Defined.

Lemma individual_states_exact_witness :
  exists i c policy severity report endpoint terminal elapsed,
    calculable_basis SlaExamples.db SlaInput.Examples.uuid_a 18105 None i c policy severity report
      endpoint terminal elapsed (SlaExamples.the_result 18105) /\ endpoint = 18105.
Proof.
  destruct (SlaExamples.calculate_the_result 18105 (or_introl eq_refl)) as [H1 S1].
  destruct (individual_states_exact _ _ _ _ _ _ H1 S1)
    as (i & c & policy & severity & report & endpoint & terminal & elapsed & B & Ht & _ & He & _).
  exists i, c, policy, severity, report, endpoint, terminal, elapsed. split; [exact B|].
  assert (in_status_class i = "active") as Ha.
  { rewrite <-(basis_status _ _ _ _ _ _ _ _ _ _ _ _ _ B). vm_compute. reflexivity. }
  rewrite Ha in Ht. subst terminal. exact He.
Defined.

Lemma read_cache_transparent_witness :
  let first := calculate SlaExamples.db SlaInput.Examples.uuid_a 18105 None (Some empty_cache) in
  cache_coherent SlaExamples.db empty_cache /\
  exists cache', first = (Some cache', snd (calculate SlaExamples.db SlaInput.Examples.uuid_a
      18105 None None)) /\ cache_coherent SlaExamples.db cache'.
Proof.
  assert (cache_coherent SlaExamples.db empty_cache) as Hc by (split; intros *; discriminate).
  split; [exact Hc|]. exact (read_cache_transparent _ _ _ _ _ Hc).
Defined.
