(* ===== verification/JsonText.v ===== *)
(** Printing and parsing of canonical JSON are inverse:
    [foundation/strict_json.py].

    A value is canonical when its objects have distinct keys in ascending
    order, it holds no float and its text is Unicode; the canonical printer
    writes such a value, and the strict parser reads exactly that value back. *)
From Stdlib Require Import Decimal DecimalString DecimalN DecimalFacts.
From S2P Require Import Prelude StrictJson.

(** * Characters *)
Lemma byte_of_range c : 0 <= byte_of c < 256.
Proof. unfold byte_of. pose proof (Ascii.N_ascii_bounded c). lia. Qed.
Lemma byte_of_chr n : 0 <= n < 256 -> byte_of (chr n) = n.
Proof. intros. unfold byte_of, chr. rewrite Ascii.N_ascii_embedding; lia. Qed.
Lemma chr_byte_of c : chr (byte_of c) = c.
Proof. unfold chr, byte_of. by rewrite N2Z.id, Ascii.ascii_N_embedding. Qed.
Lemma byte_of_inj c d : byte_of c = byte_of d -> c = d.
Proof. intros H. by rewrite <-(chr_byte_of c), H, chr_byte_of. Qed.

Lemma sapp_cons c (a b : string) : String c a +:+ b = String c (a +:+ b).
Proof. done. Qed.
Lemma sapp_nil (b : string) : EmptyString +:+ b = b.
Proof. done. Qed.
Lemma sapp_assoc (a b c : string) : (a +:+ b) +:+ c = a +:+ (b +:+ c).
Proof. induction a as [|x a IH]; [done|]. by rewrite !sapp_cons, IH. Qed.
Lemma sapp_length (a b : string) : String.length (a +:+ b) = (String.length a + String.length b)%nat.
Proof. induction a as [|x a IH]; [done|]. rewrite sapp_cons. simpl. by rewrite IH. Qed.
Lemma sapp_nil_r (a : string) : a +:+ EmptyString = a.
Proof. induction a as [|x a IH]; [done|]. by rewrite sapp_cons, IH. Qed.
Create Rewrite HintDb text.
#[export] Hint Rewrite sapp_cons sapp_nil sapp_assoc sapp_nil_r : text.
Ltac text := autorewrite with text.

Lemma hex_value_digit n : 0 <= n < 16 -> hex_value (hex_digit n) = Some n.
Proof.
  intros Hn. replace n with (Z.of_nat (Z.to_nat n)) by lia.
  assert (Z.to_nat n < 16)%nat as Hlt by lia. revert Hlt. generalize (Z.to_nat n).
  clear. intros k Hk. do 16 (destruct k as [|k]; [reflexivity|]). lia.
Qed.

(** * Strings *)
Lemma scan_control c s :
  byte_of c < 32 ->
  scan_unicode (String (chr 48) (String (chr 48) (String (hex_digit (byte_of c / 16))
    (String (hex_digit (byte_of c mod 16)) s)))) = Some (String c EmptyString, s).
Proof.
  intros Hlt. pose proof (byte_of_range c). unfold scan_unicode, hex4.
  change (hex_value (chr 48)) with (Some 0).
  rewrite !hex_value_digit by (Z.div_mod_to_equations; lia). cbn [mbind option_bind].
  replace (((0 * 16 + 0) * 16 + byte_of c / 16) * 16 + byte_of c mod 16) with (byte_of c)
    by (Z.div_mod_to_equations; lia).
  replace ((55296 <=? byte_of c) && (byte_of c <=? 56319)) with false by lia.
  unfold utf8_char. replace (byte_of c <? 128) with true by lia. by rewrite chr_byte_of.
Qed.
(** What one character is printed as is read back as that character. *)
Lemma scan_escaped_char c s fuel u r :
  scan_string fuel s = Some (u, r) ->
  scan_string (S fuel) (escape_char c +:+ s) = Some (String c u, r).
Proof.
  intros Hs. pose proof (byte_of_range c) as Hr. rewrite <-(chr_byte_of c) at 2.
  unfold escape_char.
  destruct (Z.eqb_spec (byte_of c) 34) as [->|]; [by text; simpl; rewrite Hs|].
  destruct (Z.eqb_spec (byte_of c) 92) as [->|]; [by text; simpl; rewrite Hs|].
  destruct (Z.eqb_spec (byte_of c) 8) as [->|]; [by text; simpl; rewrite Hs|].
  destruct (Z.eqb_spec (byte_of c) 12) as [->|]; [by text; simpl; rewrite Hs|].
  destruct (Z.eqb_spec (byte_of c) 10) as [->|]; [by text; simpl; rewrite Hs|].
  destruct (Z.eqb_spec (byte_of c) 13) as [->|]; [by text; simpl; rewrite Hs|].
  destruct (Z.eqb_spec (byte_of c) 9) as [->|]; [by text; simpl; rewrite Hs|].
  destruct (Z.ltb_spec (byte_of c) 32) as [Hlt|Hge].
  - text. simpl.
    match goal with |- context [scan_escape ?a ?t] =>
      change (scan_escape a t) with (scan_unicode t) end.
    rewrite scan_control by lia. simpl. by rewrite Hs, chr_byte_of.
  - text. cbn [scan_string]. unfold is_char. rewrite (proj2 (Z.eqb_neq _ 34)), (proj2 (Z.eqb_neq _ 92)) by done.
    replace (byte_of c <? 32) with false by lia. simpl. rewrite Hs. simpl. by rewrite chr_byte_of.
Qed.
Lemma escape_char_nonempty c : (1 <= String.length (escape_char c))%nat.
Proof. unfold escape_char. repeat case_match; simpl; lia. Qed.
Lemma scan_string_mono fuel fuel' s x :
  (fuel <= fuel')%nat -> scan_string fuel s = Some x -> scan_string fuel' s = Some x.
Proof.
  revert fuel' s x. induction fuel as [|fuel IH]; intros [|fuel'] [|c s] x Hle Hs; try done; [lia|].
  cbn [scan_string] in *. case_match; [done|]. case_match.
  - destruct s as [|e s]; [done|]. destruct (scan_escape e s) as [[t r]|]; [|done]. simpl in *.
    destruct (scan_string fuel r) as [[u r']|] eqn:E; [|done].
    by rewrite (IH fuel' _ _ ltac:(lia) E).
  - case_match; [done|]. destruct (scan_string fuel s) as [[u r']|] eqn:E; [|done].
    by rewrite (IH fuel' _ _ ltac:(lia) E).
Qed.
Lemma scan_escape_string s rest :
  scan_string (S (String.length s)) (escape s +:+ String quote_char rest) = Some (s, rest).
Proof.
  induction s as [|c s IH]; [done|]. cbn [escape String.length]. rewrite sapp_assoc.
  by apply scan_escaped_char.
Qed.
Lemma escape_length s : (String.length s <= String.length (escape s))%nat.
Proof.
  induction s as [|c s IH]; [done|]. cbn [escape]. rewrite sapp_length. simpl.
  pose proof (escape_char_nonempty c). lia.
Qed.
Lemma parse_string_json `{FloatText} s rest :
  parse_string (escape s +:+ String quote_char rest) = Ok (s, rest).
Proof.
  unfold parse_string.
  erewrite scan_string_mono; [done| |apply scan_escape_string].
  rewrite sapp_length. pose proof (escape_length s). simpl. lia.
Qed.

(** * Integers *)
(** What may follow a number: not a digit, a point or an exponent. *)
Definition number_stop (rest : string) : Prop :=
  match rest with
  | EmptyString => True
  | String c _ => is_digit c = false /\ byte_of c <> 46 /\ byte_of c <> 101 /\ byte_of c <> 69
  end.

Lemma span_digits d rest :
  match rest with String c _ => is_digit c = false | _ => True end ->
  span is_digit (NilEmpty.string_of_uint d +:+ rest) = (NilEmpty.string_of_uint d, rest).
Proof.
  intros Hr. induction d as [|d IH|d IH|d IH|d IH|d IH|d IH|d IH|d IH|d IH|d IH].
  { destruct rest as [|c rest]; [done|]. rewrite sapp_nil. cbn [span]. by rewrite Hr. }
  all: cbn [NilEmpty.string_of_uint]; rewrite sapp_cons; cbn [span]; by rewrite IH.
Qed.
(** The digits of a positive number do not start with zero. *)
Lemma positive_digits p :
  exists c d, NilEmpty.string_of_uint (N.to_uint (Npos p)) = String c d /\
    is_digit c = true /\ byte_of c <> 48.
Proof.
  pose proof (DecimalN.Unsigned.to_of (N.to_uint (Npos p))) as Hn.
  rewrite DecimalN.Unsigned.of_to in Hn. unfold unorm in Hn.
  destruct (nzhead (N.to_uint (Npos p))) eqn:E.
  - exfalso. assert (N.of_uint (N.to_uint (Npos p)) = N.of_uint zero) as Hz by congruence.
    rewrite DecimalN.Unsigned.of_to in Hz. done.
  - exfalso. by apply (nzhead_nonzero (N.to_uint (Npos p)) u).
  - rewrite Hn. by do 2 eexists.
  - rewrite Hn. by do 2 eexists.
  - rewrite Hn. by do 2 eexists.
  - rewrite Hn. by do 2 eexists.
  - rewrite Hn. by do 2 eexists.
  - rewrite Hn. by do 2 eexists.
  - rewrite Hn. by do 2 eexists.
  - rewrite Hn. by do 2 eexists.
  - rewrite Hn. by do 2 eexists.
Qed.
Lemma digits_value_uint n : digits_value (NilEmpty.string_of_uint (N.to_uint n)) = Z.of_N n.
Proof. unfold digits_value. by rewrite NilEmpty.usu, DecimalN.Unsigned.of_to. Qed.
Lemma strip_prefix_app p s : strip_prefix p (p +:+ s) = Some s.
Proof.
  induction p as [|c p IH]; [done|]. rewrite sapp_cons. cbn [strip_prefix].
  by rewrite bool_decide_eq_true_2.
Qed.
Lemma is_digit_byte c : is_digit c = true -> 48 <= byte_of c <= 57.
Proof. unfold is_digit. intros. bool_hyps. lia. Qed.
Lemma strip_prefix_head a p c s : byte_of a <> byte_of c -> strip_prefix (String a p) (String c s) = None.
Proof. intros Hne. cbn [strip_prefix]. rewrite bool_decide_eq_false_2; congruence. Qed.

Lemma not_char n c : byte_of c <> n -> is_char n c = false.
Proof. unfold is_char. apply Z.eqb_neq. Qed.
Lemma strip_minus_digit p c s :
  is_digit c = true -> strip_prefix (String (Ascii.Ascii true false true true false true false false) p) (String c s) = None.
Proof.
  intros Hc. cbn [strip_prefix]. rewrite bool_decide_eq_false_2; [done|]. by intros <-.
Qed.

(** The scan after the integer part stops at once. *)
Lemma number_rest sign int rest :
  number_stop rest ->
  (let '(frac, s2) := match strip_prefix "." rest with
    | Some r => match span is_digit r with
        | (EmptyString, _) => (EmptyString, rest) | (d, r') => ("." +:+ d, r') end
    | None => (EmptyString, rest) end in
  let '(exp, s3) := match s2 with
    | String c r =>
        if is_char 101 c || is_char 69 c then
          let '(sg, r1) := match r with
            | String d r' => if is_char 43 d || is_char 45 d
                then (String d EmptyString, r') else (EmptyString, r)
            | EmptyString => (EmptyString, r) end in
          match span is_digit r1 with
          | (EmptyString, _) => (EmptyString, s2)
          | (d, r2) => (String c EmptyString +:+ sg +:+ d, r2) end
        else (EmptyString, s2)
    | EmptyString => (EmptyString, s2) end in
  Some (sign +:+ int, frac +:+ exp, s3)) = Some (sign +:+ int, EmptyString, rest).
Proof.
  destruct rest as [|c rest]; [done|]. intros (Hd & H46 & H101 & H69).
  rewrite strip_prefix_head by (by apply not_eq_sym). unfold is_char.
  by rewrite (proj2 (Z.eqb_neq _ 101)), (proj2 (Z.eqb_neq _ 69)).
Qed.
Lemma scan_number_int z rest :
  number_stop rest -> scan_number (int_text z +:+ rest) = Some (int_text z, EmptyString, rest).
Proof.
  intros Hs. unfold scan_number.
  assert (match rest with String c _ => is_digit c = false | _ => True end) as Hr
    by (destruct rest; [done|apply Hs]).
  destruct z as [|p|p]; cbn [int_text].
  - change (strip_prefix "-" ("0" +:+ rest)) with (@None string). cbn [mbind option_bind].
    exact (number_rest EmptyString "0" rest Hs).
  - destruct (positive_digits p) as (c & d & Ed & Hc & Hz).
    pose proof (span_digits (N.to_uint (Npos p)) rest Hr) as Hspan. rewrite Ed in *.
    rewrite sapp_cons in *. rewrite strip_minus_digit by done.
    rewrite (not_char 48), Hc, Hspan by done.
    exact (number_rest EmptyString _ rest Hs).
  - destruct (positive_digits p) as (c & d & Ed & Hc & Hz).
    pose proof (span_digits (N.to_uint (Npos p)) rest Hr) as Hspan. rewrite Ed in *.
    rewrite sapp_assoc, strip_prefix_app. rewrite sapp_cons in *.
    rewrite (not_char 48), Hc, Hspan by done.
    exact (number_rest "-" _ rest Hs).
Qed.
Lemma int_value_text z s : int_repr z = Some s -> s = int_text z /\ int_value s = Some z.
Proof.
  unfold int_repr. case_match eqn:El; [|done]. intros [= <-]. split; [done|].
  unfold int_value. destruct z as [|p|p]; [done| |].
  - change (int_text (Z.abs (Zpos p))) with (NilEmpty.string_of_uint (N.to_uint (Npos p))) in El.
    change (int_text (Zpos p)) with (NilEmpty.string_of_uint (N.to_uint (Npos p))).
    pose proof (digits_value_uint (Npos p)) as Hv.
    destruct (positive_digits p) as (c & d & Ed & Hc & Hz). rewrite Ed in *.
    rewrite strip_minus_digit by done. by rewrite El, Hv.
  - change (int_text (Z.abs (Zneg p))) with (NilEmpty.string_of_uint (N.to_uint (Npos p))) in El.
    change (int_text (Zneg p)) with ("-" +:+ (NilEmpty.string_of_uint (N.to_uint (Npos p)))).
    by rewrite strip_prefix_app, El, digits_value_uint.
Qed.

(** * Canonical values *)
Fixpoint ascending (keys : list string) : bool :=
  match keys with
  | a :: (b :: _) as rest => ltb a b && ascending rest
  | _ => true
  end.
Fixpoint canonical (v : json) : bool :=
  match v with
  | JNull | JBool _ | JInt _ => true
  | JStr s => utf8_encodable s
  | JArr l => forallb canonical l
  | JObj kvs => ascending kvs.*1 && forallb (fun kv => utf8_encodable kv.1 && canonical kv.2) kvs
  | JFloat _ | JNonFinite _ | JOther _ => false
  end.

Lemma ascending_lt a keys : ascending (a :: keys) = true -> Forall (fun b => cmp a b = Lt) keys.
Proof.
  revert a. induction keys as [|b keys IH]; intros a Ha; [constructor|].
  cbn [ascending] in Ha. bool_hyps. unfold ltb in *. destruct (cmp a b) eqn:E; try done.
  constructor; [done|]. eapply Forall_impl; [by apply IH|]. intros c Hc. by eapply cmp_trans.
Qed.
Lemma ascending_tail a keys : ascending (a :: keys) = true -> ascending keys = true.
Proof. destruct keys; [done|]. cbn [ascending]. intros. by bool_hyps. Qed.
Lemma ascending_NoDup keys : ascending keys = true -> NoDup keys.
Proof.
  induction keys as [|a keys IH]; intros Ha; [constructor|].
  pose proof (ascending_lt _ _ Ha) as Hlt. constructor; [|by apply IH, (ascending_tail a)].
  intros Hin. rewrite Forall_forall in Hlt. apply Hlt in Hin. by rewrite cmp_refl in Hin.
Qed.
Lemma ascending_sorted {V} (kvs : list (string * V)) :
  ascending kvs.*1 = true -> py_sorted fst kvs = kvs.
Proof.
  intros Ha. apply py_sorted_id. induction kvs as [|[a x] kvs IH]; [constructor|].
  cbn [fmap list_fmap] in Ha. pose proof (ascending_lt _ _ Ha) as Hlt. constructor.
  - by apply IH, (ascending_tail a).
  - rewrite Forall_fmap in Hlt. eapply Forall_impl; [exact Hlt|]. intros kv Hk.
    unfold le_key, leb. simpl in *. by rewrite Hk.
Qed.

(** * The text of a value *)
Lemma digits_head z : exists c t, int_text z = String c t /\ (is_digit c = true \/ byte_of c = 45).
Proof.
  destruct z as [|p|p]; [by exists (chr 48), EmptyString; split; [|left]| |].
  - destruct (positive_digits p) as (c & d & Ed & Hc & _). exists c, d. auto.
  - cbn [int_text]. by exists (chr 45), (NilEmpty.string_of_uint (N.to_uint (Npos p))); split; [|right].
Qed.
Lemma printed_head v t :
  canonical v = true -> json_dumps v = Some t ->
  exists c t', t = String c t' /\ is_ws c = false /\ byte_of c <> 93 /\ byte_of c <> 125.
Proof.
  intros Hc Ht. destruct v as [|[]|z| | |s|l|kvs| ]; try done; cbn [json_dumps] in Ht.
  1-3: injection Ht as <-; by do 2 eexists.
  - apply int_value_text in Ht as [-> _]. destruct (digits_head z) as (c & t' & -> & Hd).
    exists c, t'. split; [done|]. unfold is_ws, is_char.
    assert (48 <= byte_of c <= 57 \/ byte_of c = 45) by (destruct Hd; [left; by apply is_digit_byte|auto]).
    repeat match goal with |- context [?x =? ?y] => destruct (Z.eqb_spec x y) end; simpl; lia.
  - injection Ht as <-. by do 2 eexists.
  - apply bind_Some in Ht as (ts & _ & [= <-]). by do 2 eexists.
  - apply bind_Some in Ht as (ts & _ & [= <-]). by do 2 eexists.
Qed.
Lemma skip_ws_id c s : is_ws c = false -> skip_ws (String c s) = String c s.
Proof. intros Hc. cbn [skip_ws]. by rewrite Hc. Qed.
Lemma concat_cons2 sep (x y : string) l :
  String.concat sep (x :: y :: l) = x +:+ (sep +:+ String.concat sep (y :: l)).
Proof. done. Qed.
Lemma number_stop_comma s : number_stop (String (chr 44) s).
Proof. by repeat split. Qed.
Lemma number_stop_bracket s : number_stop (String (chr 93) s).
Proof. by repeat split. Qed.
Lemma number_stop_brace s : number_stop (String (chr 125) s).
Proof. by repeat split. Qed.
#[export] Hint Resolve number_stop_comma number_stop_bracket number_stop_brace : core.

Section parsing.
Context `{FloatText}.

(** [v], printed as [t], is read back from any text it starts. *)
Definition reads_back (v : json) (t : string) : Prop :=
  forall fuel rest, number_stop rest -> (2 * String.length t <= fuel)%nat ->
    parse_value fuel (t +:+ rest) = Ok (v, rest).

Lemma reads_int z t : json_dumps (JInt z) = Some t -> reads_back (JInt z) t.
Proof.
  intros (-> & Hv)%int_value_text fuel rest Hs Hf.
  destruct (digits_head z) as (c & t' & Et & Hd).
  assert (48 <= byte_of c <= 57 \/ byte_of c = 45) as Hb
    by (destruct Hd; [left; by apply is_digit_byte|auto]).
  pose proof (scan_number_int z rest Hs) as Hn. unfold number_stop in Hs.
  destruct fuel as [|fuel]; [rewrite Et in Hf; simpl in Hf; lia|].
  assert (strip_prefix "-Infinity" (int_text z +:+ rest) = None) as Hinf.
  { destruct z as [|p|p]; [done| |].
    - rewrite Et, sapp_cons. apply strip_minus_digit. destruct Hd as [Hd|Hd]; [done|].
      destruct (positive_digits p) as (c' & d & Ed & Hc & _). cbn [int_text] in Et.
      rewrite Ed in Et. by injection Et as <- <-.
    - cbn [int_text]. destruct (positive_digits p) as (c' & d & -> & Hc & _).
      rewrite sapp_assoc, !sapp_cons. apply is_digit_byte in Hc.
      cbn [strip_prefix]. rewrite bool_decide_eq_true_2 by done. rewrite sapp_nil.
      rewrite bool_decide_eq_false_2; [done|]. intros <-. destruct Hc as [_ Hc]. by apply Hc. }
  assert (forall a p, byte_of a <> 45 -> ~ (48 <= byte_of a <= 57) ->
    strip_prefix (String a p) (int_text z +:+ rest) = None) as Hother.
  { intros a p H1 H2. rewrite Et, sapp_cons. apply strip_prefix_head. intros Heq. rewrite Heq in *. lia. }
  rewrite Et, sapp_cons. cbn [parse_value]. rewrite !not_char by lia. rewrite <-sapp_cons, <-Et.
  rewrite Hinf. rewrite !Hother by (vm_compute; intuition congruence).
  unfold parse_number. by rewrite Hn, Hv.
Qed.
Lemma reads_string s : reads_back (JStr s) (json_string s).
Proof.
  intros fuel rest _ Hf. unfold json_string in *.
  destruct fuel as [|fuel]; [simpl in Hf; lia|]. rewrite sapp_cons.
  cbn [parse_value]. change (is_char 34 quote_char) with true. cbn match.
  rewrite sapp_assoc, sapp_cons, sapp_nil, parse_string_json. done.
Qed.

(** A value and its text inside a collection. *)
Definition item_reads (v : json) (t : string) : Prop :=
  reads_back v t /\ exists c t', t = String c t' /\ is_ws c = false /\
    byte_of c <> 93 /\ byte_of c <> 125.

Lemma skip_ws_item v t rest : item_reads v t -> skip_ws (t +:+ rest) = t +:+ rest.
Proof. intros (_ & c & t' & -> & Hc & _). rewrite sapp_cons. by apply skip_ws_id. Qed.

Lemma reads_elements l ts fuel rest :
  Forall2 item_reads l ts -> l <> [] ->
  (2 * String.length (String.concat "," ts) + 1 <= fuel)%nat ->
  parse_elements fuel (String.concat "," ts +:+ String (chr 93) rest) = Ok (l, rest).
Proof.
  intros Hl. revert fuel. induction Hl as [|v t l ts [Hv Hh] Hl IH]; intros fuel Hne Hf; [done|].
  destruct fuel as [|fuel]; [lia|]. destruct Hl as [|v' t' l ts Hv' Hl].
  - cbn [String.concat] in *. cbn [parse_elements]. rewrite Hv by (auto || lia).
    cbn [mbind result_bind]. rewrite skip_ws_id by done. done.
  - rewrite concat_cons2, !sapp_length in Hf. change (String.length ",") with 1%nat in Hf.
    rewrite concat_cons2, !sapp_assoc.
    cbn [parse_elements]. rewrite Hv; [|rewrite sapp_cons; apply number_stop_comma|lia].
    cbn [mbind result_bind]. rewrite !sapp_cons, sapp_nil, skip_ws_id by done.
    change (is_char 93 _) with false. change (is_char 44 _) with true. cbn match.
    assert (skip_ws (String.concat "," (t' :: ts) +:+ String (chr 93) rest)
      = String.concat "," (t' :: ts) +:+ String (chr 93) rest) as ->.
    { destruct ts; [|rewrite concat_cons2, sapp_assoc]; by eapply skip_ws_item. }
    rewrite IH; [done|done|lia].
Qed.

(** A member and its text. *)
Definition member_reads (kv : string * json) (t : string) : Prop :=
  exists u, t = json_string kv.1 +:+ ":" +:+ u /\ item_reads kv.2 u.

Lemma reads_members kvs ts fuel rest :
  Forall2 member_reads kvs ts -> kvs <> [] ->
  (2 * String.length (String.concat "," ts) + 1 <= fuel)%nat ->
  parse_members fuel (String.concat "," ts +:+ String (chr 125) rest) = Ok (kvs, rest).
Proof.
  intros Hl. revert fuel. induction Hl as [|[k v] t kvs ts (u & -> & Hi) Hl IH];
    intros fuel Hne Hf; [done|]. pose proof (skip_ws_item _ _ (String (chr 125) rest) Hi) as Hsk.
  destruct fuel as [|fuel]; [lia|]. destruct Hi as [Hv Hh]. simpl in Hv.
  assert (forall w, number_stop w ->
    (2 * String.length u <= fuel)%nat ->
    parse_members (S fuel) ((json_string k +:+ ":" +:+ u) +:+ w) =
      match skip_ws w with
      | String e r3 =>
          if is_char 125 e then Ok ([(k, v)], r3)
          else if is_char 44 e then
            '(kvs, r4) ← parse_members fuel (skip_ws r3); Ok ((k, v) :: kvs, r4)
          else malformed
      | EmptyString => malformed
      end) as Hone.
  { intros w Hw Hfu. unfold json_string. text. cbn [parse_members].
    change (is_char 34 quote_char) with true. cbn match.
    rewrite parse_string_json. cbn [mbind result_bind].
    rewrite skip_ws_id by done. change (is_char 58 _) with true. cbn match.
    destruct Hh as (c & u' & Eu & Hc & _). rewrite Eu, sapp_cons, skip_ws_id by done.
    rewrite <-sapp_cons, <-Eu, Hv by done. done. }
  assert (String.length (json_string k +:+ ":" +:+ u) =
    String.length (json_string k) + S (String.length u))%nat as Hlen
    by (by rewrite !sapp_length).
  destruct Hl as [|kv' t' kvs ts Hkv' Hl].
  - cbn [String.concat fst] in *. rewrite Hlen in Hf. rewrite Hone by (auto || lia). done.
  - cbn [fst] in *. rewrite concat_cons2, !sapp_length in Hf.
    change (String.length ",") with 1%nat in Hf. change (String.length ":") with 1%nat in Hf.
    rewrite concat_cons2, sapp_assoc.
    rewrite Hone; [|rewrite sapp_assoc, sapp_cons; apply number_stop_comma|lia].
    rewrite !sapp_assoc, !sapp_cons, sapp_nil, skip_ws_id by done.
    change (is_char 125 _) with false. change (is_char 44 _) with true. cbn match.
    assert (skip_ws (String.concat "," (t' :: ts) +:+ String (chr 125) rest)
      = String.concat "," (t' :: ts) +:+ String (chr 125) rest) as ->.
    { destruct Hkv' as (u' & -> & _). destruct ts; [|rewrite concat_cons2];
        unfold json_string; cbn [String.concat]; text; by apply skip_ws_id. }
    rewrite IH; [done|done|lia].
Qed.
Lemma reads_back_literal v t :
  v = JNull \/ (exists b, v = JBool b) -> json_dumps v = Some t -> reads_back v t.
Proof.
  intros Hv Ht [|fuel] rest _ Hf; destruct Hv as [->|[[] ->]]; injection Ht as <-;
    simpl in Hf; done || lia.
Qed.

Lemma mapM_items l ts :
  Forall (fun v => canonical v = true -> forall t, json_dumps v = Some t -> reads_back v t) l ->
  forallb canonical l = true -> mapM json_dumps l = Some ts -> Forall2 item_reads l ts.
Proof.
  intros IH Hc Hts%mapM_Some. revert IH Hc.
  induction Hts as [|v t l ts Hvt _ IHl]; intros IH Hc; [constructor|].
  cbn [forallb] in Hc. bool_hyps. apply Forall_cons in IH as [Hv Hl].
  constructor; [|by apply IHl]. split; [by apply Hv|by eapply printed_head].
Qed.
Lemma mapM_members (kvs : list (string * json)) (ts : list (string * string)) :
  Forall (fun kv => canonical kv.2 = true -> forall t, json_dumps kv.2 = Some t -> reads_back kv.2 t) kvs ->
  forallb (fun kv => utf8_encodable kv.1 && canonical kv.2) kvs = true ->
  mapM (fun kv => t ← json_dumps kv.2; Some (kv.1, t)) kvs = Some ts ->
  ts.*1 = kvs.*1 /\ Forall2 member_reads kvs (map (fun kt => json_string kt.1 +:+ ":" +:+ kt.2) ts).
Proof.
  intros IH Hc Hts%mapM_Some. revert IH Hc.
  induction Hts as [|kv kt kvs ts Hvt _ IHl]; intros IH Hc; [by split; [|constructor]|].
  cbn [forallb] in Hc. bool_hyps. apply Forall_cons in IH as [Hv Hl].
  destruct (IHl Hl) as [Hk Hm]; [done|]. apply bind_Some in Hvt as (t & Ht & [= <-]).
  split; [csimpl; by rewrite Hk|]. constructor; [|done]. exists t. split; [done|].
  split; [by apply Hv|by eapply printed_head].
Qed.

Lemma nonempty_skip c s s' : is_ws c = false -> s = String c s' -> skip_ws s = String c s'.
Proof. intros Hc ->. by apply skip_ws_id. Qed.

Lemma canonical_reads_back v :
  canonical v = true -> forall t, json_dumps v = Some t -> reads_back v t.
Proof.
  pattern v; apply json_rect_nested; clear v; [intros v|intros l IH Hc t Ht|intros kvs IH Hc t Ht].
  - destruct v as [|b|z| | |s| | | ]; try done; intros Hc t Ht.
    + apply reads_back_literal; auto.
    + apply reads_back_literal; eauto.
    + by apply reads_int.
    + injection Ht as <-. apply reads_string.
  - cbn [json_dumps] in Ht. apply bind_Some in Ht as (ts & Hts & [= <-]).
    cbn [canonical] in Hc. pose proof (mapM_items _ _ IH Hc Hts) as Hi.
    intros [|fuel] rest Hr Hf; [simpl in Hf; lia|]. rewrite !sapp_cons, sapp_nil.
    cbn [parse_value]. change (is_char 34 _) with false. change (is_char 123 _) with false.
    change (is_char 91 _) with true. cbn match.
    rewrite !sapp_length in Hf. cbn [String.length] in Hf.
    destruct Hi as [|v u l ts Hv Hi]; [done|].
    assert (exists c s, skip_ws ((String.concat "," (u :: ts) +:+ "]") +:+ rest) = String c s /\
      String c s = String.concat "," (u :: ts) +:+ String (chr 93) rest /\ byte_of c <> 93)
      as (c & s & -> & Es & Hne).
    { destruct Hv as (_ & c & u' & -> & Hw & Hne & _).
      rewrite sapp_assoc. change ("]" +:+ rest) with (String (chr 93) rest).
      exists c. destruct ts; [|rewrite concat_cons2]; cbn [String.concat]; text;
        (eexists; split; [by apply skip_ws_id|done]). }
    rewrite not_char by done. rewrite Es, (reads_elements (v :: l)); [done|by constructor|done|lia].
  - cbn [json_dumps] in Ht. apply bind_Some in Ht as (ts & Hts & [= <-]).
    cbn [canonical] in Hc. apply andb_true_iff in Hc as [Hk Hc].
    destruct (mapM_members _ _ IH Hc Hts) as [Hkeys Hi].
    rewrite ascending_sorted by (by rewrite Hkeys).
    intros [|fuel] rest Hr Hf; [simpl in Hf; lia|]. rewrite !sapp_cons, sapp_nil.
    cbn [parse_value]. change (is_char 34 _) with false. change (is_char 123 _) with true. cbn match.
    rewrite !sapp_length in Hf. cbn [String.length] in Hf.
    set (us := map _ ts) in *.
    assert (reject_duplicate_pairs kvs = Ok (JObj kvs)) as Hdup.
    { unfold reject_duplicate_pairs. by rewrite bool_decide_eq_true_2 by (by apply ascending_NoDup). }
    clearbody us. destruct Hi as [|kv u kvs us Hv Hi]; [done|].
    assert (exists c s, skip_ws ((String.concat "," (u :: us) +:+ "}") +:+ rest) = String c s /\
      String c s = String.concat "," (u :: us) +:+ String (chr 125) rest /\ byte_of c <> 125)
      as (c & s & -> & Es & Hne).
    { destruct Hv as (u' & -> & _).
      rewrite sapp_assoc. change ("}" +:+ rest) with (String (chr 125) rest).
      exists quote_char. unfold json_string.
      destruct us; [|rewrite concat_cons2]; cbn [String.concat]; text;
        (eexists; split; [by apply skip_ws_id|done]). }
    rewrite not_char by done. rewrite Es, (reads_members (kv :: kvs)); [|by constructor|done|lia].
    cbn [mbind result_bind]. by rewrite Hdup.
Qed.

Lemma canonical_unicode v : canonical v = true -> valid_unicode v = true.
Proof.
  pattern v; apply json_rect_nested; clear v; [by intros []|intros l IH|intros kvs IH].
  - cbn. intros Hc. apply forallb_forall. intros x Hx. rewrite forallb_forall in Hc.
    rewrite List.Forall_forall in IH. by apply IH, Hc.
  - cbn. intros [_ Hc]%andb_true_iff. apply forallb_forall. intros x Hx.
    rewrite forallb_forall in Hc. rewrite List.Forall_forall in IH.
    specialize (Hc x Hx). bool_hyps. apply andb_true_iff. split; [done|]. by apply IH.
Qed.
Lemma no_byte_order_mark v t :
  canonical v = true -> json_dumps v = Some t -> strip_prefix (utf8_char 65279) t = None.
Proof.
  intros Hc Ht. destruct v as [|[]|z| | |s|l|kvs| ]; try done; cbn [json_dumps] in Ht.
  1-3: by injection Ht as <-.
  - apply int_value_text in Ht as [-> _]. destruct (digits_head z) as (c & t' & -> & Hd).
    change (utf8_char 65279) with (String (chr 239) (String (chr 187) (String (chr 191) EmptyString))).
    apply strip_prefix_head. rewrite byte_of_chr by lia.
    destruct Hd as [Hd|Hd]; [apply is_digit_byte in Hd|]; lia.
  - by injection Ht as <-.
  - by apply bind_Some in Ht as (ts & _ & [= <-]).
  - by apply bind_Some in Ht as (ts & _ & [= <-]).
Qed.
Lemma json_loads_printed v t : canonical v = true -> json_dumps v = Some t -> json_loads t = Ok v.
Proof.
  intros Hc Ht. unfold json_loads. rewrite (no_byte_order_mark v) by done.
  rewrite bool_decide_eq_false_2 by (by intros []).
  destruct (printed_head v t Hc Ht) as (c & t' & Et & Hw & _).
  rewrite (nonempty_skip c t t') by done. rewrite <-Et.
  pose proof (canonical_reads_back v Hc t Ht (2 * S (String.length t))%nat EmptyString I ltac:(lia)) as Hr.
  rewrite sapp_nil_r in Hr. by rewrite Hr.
Qed.
End parsing.

(** The strict parser reads the canonical text of a canonical
    value back as that value, whatever the byte bound it fits in. *)
Theorem canonical_json_roundtrip `{FloatText} (v : json) (text : string) (max_bytes : option Z) :
  canonical v = true -> canonical_json_bytes v = Ok text ->
  match max_bytes with Some m => utf8_length text <= m | None => True end ->
  loads_strict text max_bytes = Ok v.
Proof.
  intros Hc Ht Hm. unfold canonical_json_bytes in Ht.
  destruct (json_dumps v) as [t|] eqn:Et; [|done]. destruct (utf8_encodable t) eqn:Eu; [|done].
  injection Ht as ->. unfold loads_strict. rewrite Eu. cbn [negb forbid mbind result_bind].
  replace (match max_bytes with Some m => m <? utf8_length text | None => false end) with false
    by (destruct max_bytes; lia).
  cbn [forbid mbind result_bind]. rewrite (json_loads_printed v text) by done.
  cbn [mbind result_bind]. by rewrite canonical_unicode.
Qed.

(** Two canonical values with the same canonical text are the
    same value: a fingerprint is taken of a text that determines its value. *)
Theorem canonical_json_injective (v w : json) (text : string) :
  canonical v = true -> canonical w = true ->
  canonical_json_bytes v = Ok text -> canonical_json_bytes w = Ok text -> v = w.
Proof.
  intros Hv Hw Htv Htw. set (no_float := (fun _ => None) : FloatText).
  pose proof (canonical_json_roundtrip v text None Hv Htv I).
  pose proof (canonical_json_roundtrip w text None Hw Htw I). congruence.
Qed.

Module JsonExamples.
Definition sample : json := JObj [
  ("a", JArr [JInt (-12); JNull; JBool true]);
  ("text", JStr (String quote_char (String (chr 10) "x")))].
End JsonExamples.

Lemma canonical_json_roundtrip_witness :
  let no_float : FloatText := fun _ => None in
  exists text, canonical_json_bytes JsonExamples.sample = Ok text /\
    loads_strict text (Some 1000) = Ok JsonExamples.sample.
Proof.
  intros no_float.
  destruct (canonical_json_bytes JsonExamples.sample) as [text|e] eqn:E; [|vm_compute in E; discriminate].
  exists text. split; [reflexivity|].
  refine (canonical_json_roundtrip JsonExamples.sample text (Some 1000) eq_refl E _).
  vm_compute in E. injection E as <-. vm_compute. discriminate.
Defined.

Lemma canonical_json_injective_witness :
  exists text, canonical_json_bytes JsonExamples.sample = Ok text /\
    forall z, canonical_json_bytes (JInt z) = Ok text -> JsonExamples.sample = JInt z.
Proof.
  destruct (canonical_json_bytes JsonExamples.sample) as [text|e] eqn:E; [|vm_compute in E; discriminate].
  exists text. split; [reflexivity|]. intros z Hz.
  exact (canonical_json_injective JsonExamples.sample (JInt z) text eq_refl eq_refl E Hz).
Defined.
