(* ===== verification/JsonSorted.v ===== *)
(** Values in any key order: what the canonical text of a value reads back as,
    and what its encoding says about its strings. *)
From S2P Require Import Prelude StrictJson Identifiers JsonText.
#[local] Arguments String.append : simpl never.

(** * Encodable texts *)
Definition starts_ascii (s : string) : Prop := match s with EmptyString => True | String c _ => byte_of c < 160 end.
Lemma encodable_app a b : starts_ascii b -> utf8_encodable (a +:+ b) = utf8_encodable a && utf8_encodable b.
Proof.
  intros Hb. induction a as [|c a IH]; [done|]. rewrite sapp_cons. simpl. rewrite IH, andb_assoc. f_equal. destruct a as [|d a]; simpl.
  - rewrite sapp_nil. destruct b as [|d b]; [done|]. simpl in Hb. replace (160 <=? byte_of d) with false by lia.
    by rewrite andb_false_r.
  - done.
Qed.
Lemma encodable_ascii c s : byte_of c < 128 -> utf8_encodable (String c s) = utf8_encodable s.
Proof. intros Hc. simpl. replace (byte_of c =? 237) with false by lia. by destruct s. Qed.
Lemma concat_encodable ts :
  Forall starts_ascii ts -> utf8_encodable (String.concat "," ts) = forallb utf8_encodable ts.
Proof.
  induction 1 as [|t ts Ht Hts IH]; [done|]. destruct ts as [|t' ts]; [simpl; by rewrite andb_true_r|].
  rewrite concat_cons2, encodable_app by done. simpl forallb. f_equal. rewrite sapp_cons, sapp_nil.
  by rewrite encodable_ascii, IH.
Qed.
Lemma encodable_prefix p t : all_chars (fun c => byte_of c <? 128) p = true -> utf8_encodable (p +:+ t) = utf8_encodable t.
Proof.
  induction p as [|c p IH]; [by rewrite sapp_nil|]. intros [Hc Hp]%andb_true_iff. rewrite sapp_cons, encodable_ascii by lia.
  by apply IH.
Qed.
Lemma dumps_object kvs :
  json_dumps (JObj kvs) = ts ← mapM (fun kv : string * json => t ← json_dumps kv.2; Some (kv.1, t)) kvs;
    Some ("{" +:+ String.concat "," (map (fun kt => json_string kt.1 +:+ ":" +:+ kt.2) (py_sorted fst ts)) +:+ "}").
Proof. done. Qed.
Lemma dumps_array l : json_dumps (JArr l) = ts ← mapM json_dumps l; Some ("[" +:+ String.concat "," ts +:+ "]").
Proof. done. Qed.

(** * Sorted values *)
Fixpoint sorted_json (v : json) : json :=
  match v with
  | JArr l => JArr (map sorted_json l)
  | JObj kvs => JObj (py_sorted fst (map (fun kv => (kv.1, sorted_json kv.2)) kvs))
  | _ => v
  end.
(** No floats, and the keys of an object differ, as in every Python [dict]. *)
Fixpoint plain (v : json) : bool :=
  match v with
  | JNull | JBool _ | JInt _ | JStr _ => true
  | JArr l => forallb plain l
  | JObj kvs => bool_decide (NoDup (map fst kvs)) && forallb (fun kv => plain kv.2) kvs
  | JFloat _ | JNonFinite _ | JOther _ => false
  end.
Definition dump_member (kv : string * json) : option (string * string) := t ← json_dumps kv.2; Some (kv.1, t).
Lemma dumps_members kvs :
  json_dumps (JObj kvs) = ts ← mapM dump_member kvs;
    Some ("{" +:+ String.concat "," (map (fun kt => json_string kt.1 +:+ ":" +:+ kt.2) (py_sorted fst ts)) +:+ "}").
Proof. done. Qed.
Lemma dump_member_key kv kt : dump_member kv = Some kt -> kv.1 = kt.1.
Proof. unfold dump_member. by intros (t & _ & [= <-])%bind_Some. Qed.
Lemma mapM_sorted kvs : mapM dump_member (py_sorted fst kvs) = py_sorted fst <$> mapM dump_member kvs.
Proof.
  destruct (mapM dump_member kvs) as [ts|] eqn:E; simpl.
  - apply mapM_Some in E. apply mapM_Some. apply Forall2_py_sorted; [|done]. intros a b. apply dump_member_key.
  - apply mapM_None in E as Hx. apply mapM_None. by rewrite py_sorted_perm.
Qed.
Lemma mapM_map {A B C} (f : B -> option C) (g : A -> B) l : mapM f (map g l) = mapM (fun x => f (g x)) l.
Proof. induction l as [|x l IH]; [done|]. cbn [mapM map]. by rewrite IH. Qed.
Lemma mapM_same {A B} (f g : A -> option B) l : Forall (fun x => f x = g x) l -> mapM f l = mapM g l.
Proof. induction 1 as [|x l Hx _ IH]; [done|]. cbn [mapM]. by rewrite Hx, IH. Qed.
Lemma sorted_twice {V} (l : list (string * V)) : py_sorted fst (py_sorted fst l) = py_sorted fst l.
Proof. apply py_sorted_id, py_sorted_sorted. Qed.
Lemma dumps_sorted v : json_dumps (sorted_json v) = json_dumps v.
Proof.
  apply (json_rect_nested (fun v => json_dumps (sorted_json v) = json_dumps v)); clear v; [by intros []|intros l IH|intros kvs IH].
  - cbn [sorted_json]. rewrite !dumps_array, mapM_map. by rewrite (mapM_same _ json_dumps).
  - cbn [sorted_json]. rewrite !dumps_members, mapM_sorted, mapM_map.
    rewrite (mapM_same _ dump_member) by (eapply Forall_impl; [exact IH|]; intros [k v] Hk; unfold dump_member; simpl in *; by rewrite Hk).
    destruct (mapM dump_member kvs) as [ts|]; [|done]. simpl. by rewrite sorted_twice.
Qed.

(** ** The strings of an encodable text are encodable *)
Definition ascii_text (s : string) : bool := all_chars (fun c => byte_of c <? 128) s.
Lemma escape_char_text c :
  ((byte_of c <? 128) && ascii_text (escape_char c) && negb (String.eqb (escape_char c) EmptyString)
   || (128 <=? byte_of c) && String.eqb (escape_char c) (String c EmptyString)) = true.
Proof. destruct c as [[] [] [] [] [] [] [] []]; vm_compute; reflexivity. Qed.
Lemma escape_char_cases c :
  byte_of c < 128 /\ ascii_text (escape_char c) = true /\ escape_char c <> EmptyString \/
  128 <= byte_of c /\ escape_char c = String c EmptyString.
Proof. pose proof (escape_char_text c) as Hc. apply orb_true_iff in Hc as [Hc|Hc]; bool_hyps; [left|right]; split_and!; auto. Qed.
Lemma escape_encodable s : utf8_encodable (escape s) = utf8_encodable s.
Proof.
  induction s as [|c s IH]; [done|]. cbn [escape].
  destruct (escape_char_cases c) as [(Hc & Ha & _)|(Hc & ->)]; [by rewrite encodable_prefix, encodable_ascii by done|].
  rewrite sapp_cons, sapp_nil. cbn [utf8_encodable]. rewrite IH. f_equal. destruct s as [|d s]; [done|]. cbn [escape].
  destruct (escape_char_cases d) as [(Hd & Ha & Hn)|(Hd & ->)]; [|by rewrite sapp_cons].
  destruct (escape_char d) as [|x t]; [done|]. rewrite sapp_cons. apply andb_true_iff in Ha as [Hx _].
  replace (160 <=? byte_of d) with false by lia. by replace (160 <=? byte_of x) with false by lia.
Qed.
Lemma json_string_encodable s : utf8_encodable (json_string s) = utf8_encodable s.
Proof.
  unfold json_string. rewrite encodable_ascii, encodable_app, escape_encodable by (vm_compute; reflexivity). apply andb_true_r.
Qed.
Lemma json_string_starts s : starts_ascii (json_string s).
Proof. vm_compute. reflexivity. Qed.
Lemma int_text_starts z : starts_ascii (int_text z).
Proof.
  destruct (digits_head z) as (c & t & -> & [Hd%is_digit_byte|Hd]); simpl; lia.
Qed.
Lemma dumps_starts v t : plain v = true -> json_dumps v = Some t -> starts_ascii t.
Proof.
  destruct v as [|[]|z| | |s|l|kvs|]; try done; intros _.
  - by intros [= <-].
  - by intros [= <-].
  - by intros [= <-].
  - simpl. unfold int_repr. destruct (_ <=? _); [|done]. intros [= <-]. apply int_text_starts.
  - intros [= <-]. apply json_string_starts.
  - rewrite dumps_array. by intros (ts & _ & [= <-])%bind_Some.
  - rewrite dumps_members. by intros (ts & _ & [= <-])%bind_Some.
Qed.
Definition member_text (kt : string * string) : string := json_string kt.1 +:+ ":" +:+ kt.2.
Lemma member_encodable kt : starts_ascii kt.2 -> utf8_encodable (member_text kt) = utf8_encodable kt.1 && utf8_encodable kt.2.
Proof.
  intros Ht. unfold member_text. rewrite encodable_app by (vm_compute; reflexivity).
  by rewrite json_string_encodable, encodable_prefix by (vm_compute; reflexivity).
Qed.
Lemma wrapped_encodable (l r s : string) :
  ascii_text l = true -> ascii_text r = true -> starts_ascii r -> utf8_encodable (l +:+ s +:+ r) = utf8_encodable s.
Proof.
  intros Hl Hr Hs. rewrite encodable_prefix, encodable_app by done. rewrite <-(sapp_nil_r r), encodable_prefix by done.
  apply andb_true_r.
Qed.
Lemma forallb_perm {A} (p : A -> bool) l k : l ≡ₚ k -> forallb p l = forallb p k.
Proof. induction 1; simpl; [done|congruence| |congruence]. by rewrite !andb_assoc, (andb_comm (p _)). Qed.
Lemma forallb_compose {A B} (p : B -> bool) (f : A -> B) l : forallb p (map f l) = forallb (fun x => p (f x)) l.
Proof. induction l as [|x l IH]; [done|]. cbn [map forallb]. by rewrite IH. Qed.
Lemma printed_unicode v t : plain v = true -> json_dumps v = Some t -> utf8_encodable t = true -> valid_unicode v = true.
Proof.
  revert v t. apply (json_rect_nested (fun v => forall t, plain v = true -> json_dumps v = Some t -> utf8_encodable t = true -> valid_unicode v = true)).
  - intros [| | | | |s| | |]; try done. intros t _ [= <-]. by rewrite json_string_encodable.
  - intros l IH t Hp. rewrite dumps_array. intros (ts & Hts & [= <-])%bind_Some. apply mapM_Some in Hts.
    cbn [plain] in Hp. rewrite wrapped_encodable, concat_encodable by (try done; clear IH; induction Hts; cbn [forallb] in Hp;
      bool_hyps; constructor; eauto using dumps_starts).
    intros Hu. cbn [valid_unicode]. induction Hts as [|v s l ts Hs Hts IH2]; [done|]. inversion IH as [|? ? Hv Hl]; subst.
    cbn [forallb] in *. apply andb_true_iff in Hp as [Hpv Hpl]. apply andb_true_iff in Hu as [Hus Huts].
    rewrite (Hv s), IH2; auto.
  - intros kvs IH t. cbn [plain]. intros [_ Hp]%andb_true_iff. rewrite dumps_members. intros (ts & Hts & [= <-])%bind_Some.
    apply mapM_Some in Hts. fold member_text.
    assert (Forall (fun kt : string * string => starts_ascii kt.2) ts) as Hst.
    { clear IH. induction Hts as [|[k v] kt kvs ts Hk _ IH2]; [constructor|]. cbn [forallb] in Hp. apply andb_true_iff in Hp as [Hpv Hp].
      apply bind_Some in Hk as (s & Hs & [= <-]). constructor; [by eapply dumps_starts|by apply IH2]. }
    assert (Forall starts_ascii (map member_text (py_sorted fst ts))) as Hsm.
    { apply Forall_fmap, Forall_forall. intros kt _. vm_compute. reflexivity. }
    rewrite wrapped_encodable, concat_encodable by done.
    assert (forallb utf8_encodable (map member_text (py_sorted fst ts)) = forallb (fun kt => utf8_encodable (member_text kt)) ts) as ->.
    { rewrite <-(forallb_perm _ _ _ (py_sorted_perm fst ts)). apply forallb_compose. }
    intros Hu. cbn [valid_unicode]. clear Hsm. induction Hts as [|[k v] kt kvs ts Hk Hts IH2]; [done|].
    inversion IH as [|? ? Hv Hl]; subst. inversion Hst as [|? ? Hs1 Hs2]; subst. cbn [forallb] in *.
    apply andb_true_iff in Hp as [Hpv Hpl]. apply andb_true_iff in Hu as [Hus Huts].
    apply bind_Some in Hk as (s & Hs & [= <-]). rewrite member_encodable in Hus by done. apply andb_true_iff in Hus as [Huk Hus].
    simpl in *. rewrite Huk, (Hv s), IH2; auto.
Qed.
(** ** Sorting makes a value canonical *)
Lemma sorted_ascending {V} (kvs : list (string * V)) : NoDup (map fst kvs) -> ascending (map fst (py_sorted fst kvs)) = true.
Proof.
  intros Hnd. assert (NoDup (map fst (py_sorted fst kvs))) as Hn by by rewrite (py_sorted_perm fst kvs).
  pose proof (py_sorted_sorted fst kvs) as Hs. induction Hs as [|[k v] l Hs IH Hk]; [done|]. cbn [map] in *.
  apply NoDup_cons in Hn as [Hnew Hn]. destruct l as [|[k' v'] l]; [done|]. cbn [map ascending] in *.
  rewrite IH by done. rewrite andb_true_r. apply Forall_inv in Hk. unfold le_key in Hk. simpl in *.
  apply leb_lt_or_eq in Hk as [Hlt|Heq]; [unfold ltb; by rewrite Hlt|]. destruct Hnew. rewrite Heq. left.
Qed.
Lemma sorted_canonical v : plain v = true -> valid_unicode v = true -> canonical (sorted_json v) = true.
Proof.
  revert v. apply (json_rect_nested (fun v => plain v = true -> valid_unicode v = true -> canonical (sorted_json v) = true)).
  - by intros [].
  - intros l IH. cbn [plain valid_unicode sorted_json canonical]. induction IH as [|v l Hv _ IH2]; [done|]. cbn [forallb map].
    intros [Hp1 Hp2]%andb_true_iff [Hu1 Hu2]%andb_true_iff. by rewrite Hv, IH2.
  - intros kvs IH. cbn [plain valid_unicode sorted_json canonical].
    intros [Hnd%bool_decide_eq_true Hp]%andb_true_iff Hu. apply andb_true_iff. split.
    + apply sorted_ascending. rewrite map_map. exact Hnd.
    + rewrite (forallb_perm _ _ _ (py_sorted_perm fst _)). clear Hnd. induction IH as [|[k v] kvs Hv _ IH2]; [done|].
      cbn [forallb map fst snd] in *. apply andb_true_iff in Hp as [Hp1 Hp2]. apply andb_true_iff in Hu as [Hu1 Hu2].
      apply andb_true_iff in Hu1 as [-> Hu1]. by rewrite Hv, IH2.
Qed.
(** What the strict parser reads back from the canonical text of a value. *)
Lemma reads_sorted `{FloatText} v text max_bytes :
  plain v = true -> canonical_json_bytes v = Ok text ->
  match max_bytes with Some m => utf8_length text <= m | None => True end ->
  canonical (sorted_json v) = true /\ canonical_json_bytes (sorted_json v) = Ok text /\
  loads_strict text max_bytes = Ok (sorted_json v).
Proof.
  intros Hp Ht Hm. assert (canonical (sorted_json v) = true) as Hc.
  { unfold canonical_json_bytes in Ht. destruct (json_dumps v) as [t|] eqn:Et; [|done]. destruct (utf8_encodable t) eqn:Eu; [|done].
    apply sorted_canonical; [done|]. by eapply printed_unicode. }
  assert (canonical_json_bytes (sorted_json v) = Ok text) as Hs by (unfold canonical_json_bytes in *; by rewrite dumps_sorted).
  split_and!; [done|done|]. by apply canonical_json_roundtrip.
Qed.

(** ** The measures do not depend on the key order *)
Lemma sum_over_perm {A} (f : A -> Z) l k : l ≡ₚ k -> sum_over f l = sum_over f k.
Proof. induction 1; simpl in *; lia. Qed.
Lemma max_over_perm {A} (f : A -> Z) m l k : l ≡ₚ k -> max_over f m l = max_over f m k.
Proof. induction 1; simpl in *; lia. Qed.
Lemma sum_over_same {A} (f g : A -> Z) l : Forall (fun x => f x = g x) l -> sum_over f l = sum_over g l.
Proof. induction 1; simpl; lia. Qed.
Lemma max_over_same {A} (f g : A -> Z) m l : Forall (fun x => f x = g x) l -> max_over f m l = max_over g m l.
Proof. induction 1; simpl; lia. Qed.
Lemma children_sorted v : children (sorted_json v) ≡ₚ map sorted_json (children v).
Proof. destruct v as [| | | | | |l|kvs|]; try done. simpl. by rewrite (py_sorted_perm fst), !map_map. Qed.
Lemma children_induction (P : json -> Prop) : (forall v, Forall P (children v) -> P v) -> forall v, P v.
Proof.
  intros Hstep. apply json_rect_nested; [intros v; destruct v; try done; intros; by apply Hstep|intros l IH; by apply Hstep|].
  intros kvs IH. apply Hstep. simpl. by apply Forall_fmap.
Qed.
Lemma sorted_depth v : json_depth (sorted_json v) = json_depth v.
Proof.
  revert v. apply children_induction. intros v IH. rewrite !json_depth_children, (max_over_perm _ _ _ _ (children_sorted v)).
  rewrite max_over_map. apply max_over_same. eapply Forall_impl; [exact IH|]. intros w Hw. by rewrite Hw.
Qed.
Lemma sorted_items v : json_items (sorted_json v) = json_items v.
Proof.
  revert v. apply children_induction. intros v IH. rewrite !json_items_children, (sum_over_perm _ _ _ (children_sorted v)).
  rewrite sum_over_map. rewrite (children_sorted v), length_map. f_equal. apply sum_over_same. exact IH.
Qed.
Lemma bounded_ok v b d i text :
  canonical_json_bytes_bounded v b d i = Ok text <->
  canonical_json_bytes v = Ok text /\ utf8_length text <= b /\ json_depth v <= d /\ json_items v <= i.
Proof.
  unfold canonical_json_bytes_bounded. rewrite measure_stack_correct. split.
  - intros (t & Ht & Hr)%bind_ok. apply bind_ok in Hr as (? & Hb%forbid_ok & Hr). apply bind_ok in Hr as (? & Hd%forbid_ok & Hr).
    apply bind_ok in Hr as (? & Hi%forbid_ok & [= <-]). split_and!; [done|lia..].
  - intros (-> & Hb & Hd & Hi). cbn [mbind result_bind]. replace (b <? utf8_length text) with false by lia.
    replace (d <? json_depth v) with false by lia. by replace (i <? json_items v) with false by lia.
Qed.
(** The canonical loader accepts what the bounded printer prints. *)
Lemma loads_bounded `{FloatText} v b d i text :
  plain v = true -> canonical_json_bytes_bounded v b d i = Ok text -> loads_canonical_json text b d i = Ok (sorted_json v).
Proof.
  intros Hp (Ht & Hb & Hd & Hi)%bounded_ok. destruct (reads_sorted v text (Some b) Hp Ht Hb) as (_ & Hs & Hl).
  unfold loads_canonical_json. rewrite Hl. cbn [mbind result_bind].
  assert (canonical_json_bytes_bounded (sorted_json v) b d i = Ok text) as ->.
  { apply bounded_ok. by rewrite sorted_depth, sorted_items. }
  cbn [mbind result_bind]. rewrite String.eqb_refl.
  assert (utf8_encodable text = true) as ->; [|done].
  unfold canonical_json_bytes in Ht. destruct (json_dumps v) as [t|]; [|done]. destruct (utf8_encodable t) eqn:Eu; [|done]. congruence.
Qed.
(** C32.  Every value without floats whose keys differ reads back, from
    the canonical text the bounded printer gives it, as the same value with its
    keys in order: the canonical loader accepts that text within the same
    bounds. *)
Theorem canonical_text_reads_back `{FloatText} (v : json) (max_bytes max_depth max_items : Z) (text : string) :
  plain v = true -> canonical_json_bytes_bounded v max_bytes max_depth max_items = Ok text ->
  loads_canonical_json text max_bytes max_depth max_items = Ok (sorted_json v).
Proof. apply loads_bounded. Qed.
Definition unordered : json := JObj [("text", JStr (String quote_char (String (chr 10) "x"))); ("a", JArr [JInt (-12); JNull; JBool true])].
Lemma canonical_text_reads_back_witness :
  let no_float : FloatText := fun _ => None in
  sorted_json unordered = JsonExamples.sample /\
  exists text, canonical_json_bytes_bounded unordered 40 2 5 = Ok text /\
    loads_canonical_json text 40 2 5 = Ok JsonExamples.sample.
Proof.
  intros no_float. split; [reflexivity|].
  destruct (canonical_json_bytes_bounded unordered 40 2 5) as [text|e] eqn:E; [|vm_compute in E; discriminate].
  exists text. split; [reflexivity|]. exact (canonical_text_reads_back unordered 40 2 5 text eq_refl E).
Defined.
