(* ===== verification/Calendar.v ===== *)
(** Calendar months of the SLA cohorts: [canonical_month_bounds] and the zone
    lookup of [product_line_sla/algorithms/cohort_state.py].

    Dates are counted as the language's [datetime] does, from the proleptic
    Gregorian ordinal.  The IANA zone data is a parameter: [None] when the
    host has none, else the offset in seconds of each local midnight. *)
From S2P Require Import Prelude StrictJson Identifiers.

(** * [datetime.date] *)
Definition is_leap (year : Z) : bool :=
  (year mod 4 =? 0) && (negb (year mod 100 =? 0) || (year mod 400 =? 0)).
Definition days_before_year (year : Z) : Z :=
  let y := year - 1 in y * 365 + y / 4 - y / 100 + y / 400.
Definition days_in_month (year month : Z) : Z :=
  if month =? 2 then (if is_leap year then 29 else 28)
  else if (month =? 4) || (month =? 6) || (month =? 9) || (month =? 11) then 30 else 31.
(** Sum of the lengths of the months before [month]. *)
Definition days_before_month (year month : Z) : Z :=
  foldr (fun m n => days_in_month year m + n) 0 (filter (fun m => m < month) [1;2;3;4;5;6;7;8;9;10;11;12]).
(** Ordinal of 1970-01-01. *)
Definition epoch_ordinal : Z := 719163.
(** Seconds from 1970-01-01T00:00 to the first midnight of a month, both local. *)
Definition month_start_local (year month : Z) : Z :=
  (days_before_year year + days_before_month year month + 1 - epoch_ordinal) * 86400.

Definition next_month (year month : Z) : Z * Z :=
  if month =? 12 then (year + 1, 1) else (year, month + 1).

(** * [_MONTH_RE]: four digits, a dash, 01 to 12. *)
Definition digit (c : Ascii.ascii) : option Z :=
  if is_digit c then Some (byte_of c - 48) else None.
Definition parse_month (s : string) : option (Z * Z) :=
  match s with
  | String a (String b (String c (String d (String e (String f (String g EmptyString)))))) =>
      if is_char 45 e then
        a ← digit a; b ← digit b; c ← digit c; d ← digit d; f ← digit f; g ← digit g;
        let month := 10 * f + g in
        if (1 <=? month) && (month <=? 12)
        then Some (1000 * a + 100 * b + 10 * c + d, month) else None
      else None
  | _ => None
  end.

(** * The zone *)
Definition zone_data : Type := option (Z -> Z).
Class Zone := zone_info : zone_data.

(** The offset of a local midnight of [year]: the zone data's, else UTC-5. *)
Definition _guayaquil_timezone `{Zone} (year local : Z) : result Z :=
  match zone_info with
  | Some offset => Ok (offset local)
  | None =>
      if year <? 1993
      then raise (ValidationError "America/Guayaquil historical timezone data is unavailable")
      else Ok (-18000)
  end.

Definition canonical_month_bounds `{Zone} (calendar_month : string) : result (Z * Z) :=
  match parse_month calendar_month with
  | None => raise (ValidationError "calendar month must use YYYY-MM")
  | Some (year, month) =>
      _ ← forbid ((year <? 1970) || (9999 <=? year))
        (ValidationError "calendar month is outside the supported UTC epoch range");
      let start_local := month_start_local year month in
      let '(end_year, end_month) := next_month year month in
      let end_local := month_start_local end_year end_month in
      start_zone ← _guayaquil_timezone year start_local;
      end_zone ← _guayaquil_timezone end_year end_local;
      let start_utc := start_local - start_zone in
      let end_utc := end_local - end_zone in
      _ ← forbid ((start_utc <? 0) || (end_utc <=? start_utc))
        (ValidationError "calendar month produced invalid UTC bounds");
      Ok (start_utc, end_utc)
  end.

(** * Month lengths *)
Lemma month_cases m : 1 <= m <= 12 ->
  m ∈ [1; 2; 3; 4; 5; 6; 7; 8; 9; 10; 11; 12].
Proof. intros. set_unfold. lia. Qed.

Lemma days_before_year_succ y :
  days_before_year (y + 1) = days_before_year y + if is_leap y then 366 else 365.
Proof.
  unfold days_before_year, is_leap. replace (y + 1 - 1) with (y - 1 + 1) by lia.
  set (x := y - 1). replace y with (x + 1) by lia. clearbody x.
  assert (forall k, 0 < k -> (x + 1) / k = x / k + if (x + 1) mod k =? 0 then 1 else 0) as Hk.
  { intros k Hk. pose proof (Z.div_mod x k). pose proof (Z.mod_pos_bound x k Hk).
    pose proof (Z.div_mod (x + 1) k). pose proof (Z.mod_pos_bound (x + 1) k Hk).
    destruct (Z.eqb_spec ((x + 1) mod k) 0); nia. }
  rewrite !Hk by lia.
  assert ((x + 1) mod 4 = ((x + 1) mod 400) mod 4) as ->
    by (rewrite Z.mod_mod_divide; [done|by exists 100]).
  assert ((x + 1) mod 100 = ((x + 1) mod 400) mod 100) as ->
    by (rewrite Z.mod_mod_divide; [done|by exists 4]).
  set (r := (x + 1) mod 400).
  assert (r = 0 -> r mod 100 = 0) by (intros ->; done).
  assert (r mod 100 = 0 -> r mod 4 = 0) by (intros; Z.div_mod_to_equations; lia).
  destruct (Z.eqb_spec (r mod 4) 0), (Z.eqb_spec (r mod 100) 0), (Z.eqb_spec r 0); simpl; lia.
Qed.

Lemma month_start_next y m :
  1 <= m <= 12 ->
  month_start_local (next_month y m).1 (next_month y m).2
  = month_start_local y m + days_in_month y m * 86400.
Proof.
  intros Hm. unfold next_month, month_start_local.
  destruct (Z.eqb_spec m 12) as [->|Hne]; simpl.
  - rewrite days_before_year_succ.
    change (days_before_month (y + 1) 1) with 0.
    replace (days_before_month y 12) with (334 + if is_leap y then 1 else 0).
    + change (days_in_month y 12) with 31. destruct (is_leap y); lia.
    + unfold days_before_month; simpl. unfold days_in_month; simpl. destruct (is_leap y); lia.
  - assert (m ∈ [1; 2; 3; 4; 5; 6; 7; 8; 9; 10; 11]) as Hin by (set_unfold; lia).
    set_unfold in Hin.
    repeat destruct Hin as [->|Hin]; try done;
      unfold days_before_month; simpl; unfold days_in_month; simpl; destruct (is_leap y); lia.
Qed.

Lemma days_in_month_bounds y m : 28 <= days_in_month y m <= 31.
Proof. unfold days_in_month. repeat case_match; lia. Qed.

(** Months counted from year 0. *)
Definition month_index (y m : Z) : Z := 12 * y + (m - 1).
Definition start_of (k : Z) : Z := month_start_local (k / 12) (k mod 12 + 1).
Lemma start_of_index y m : 1 <= m <= 12 -> start_of (month_index y m) = month_start_local y m.
Proof.
  intros. unfold start_of, month_index.
  rewrite <-(Z.div_unique_pos (12 * y + (m - 1)) 12 y (m - 1)) by lia.
  rewrite <-(Z.mod_unique_pos (12 * y + (m - 1)) 12 y (m - 1)) by lia.
  by replace (m - 1 + 1) with m by lia.
Qed.
Lemma month_index_next y m :
  month_index (next_month y m).1 (next_month y m).2 = month_index y m + 1.
Proof. unfold next_month, month_index. destruct (Z.eqb_spec m 12); simpl; lia. Qed.
Lemma next_month_range y m : 1 <= m <= 12 -> 1 <= (next_month y m).2 <= 12.
Proof. unfold next_month. destruct (Z.eqb_spec m 12); simpl; lia. Qed.
Lemma start_of_succ k : start_of k + 28 * 86400 <= start_of (k + 1).
Proof.
  assert (exists y m, 1 <= m <= 12 /\ k = month_index y m) as (y & m & Hm & ->).
  { exists (k / 12), (k mod 12 + 1). unfold month_index.
    pose proof (Z.mod_pos_bound k 12). pose proof (Z.div_mod k 12). lia. }
  rewrite <-month_index_next, !start_of_index by (try apply next_month_range; lia).
  rewrite month_start_next by lia. pose proof (days_in_month_bounds y m). lia.
Qed.
Lemma start_of_mono k k' : k < k' -> start_of k + 28 * 86400 <= start_of k'.
Proof.
  intros Hlt. replace k' with (k + 1 + Z.of_nat (Z.to_nat (k' - k - 1))) by lia.
  induction (Z.to_nat (k' - k - 1)) as [|n IH].
  - rewrite Z.add_0_r. apply start_of_succ.
  - pose proof (start_of_succ (k + 1 + Z.of_nat n)).
    replace (k + 1 + Z.of_nat (S n)) with (k + 1 + Z.of_nat n + 1) by lia. lia.
Qed.

Lemma digit_some c x : digit c = Some x -> 0 <= x <= 9 /\ c = Ascii.ascii_of_N (Z.to_N (48 + x)).
Proof.
  unfold digit, is_digit. case_match; [|done]. intros [= <-]. bool_hyps. split; [lia|].
  replace (48 + (byte_of c - 48)) with (byte_of c) by lia.
  unfold byte_of. by rewrite N2Z.id, Ascii.ascii_N_embedding.
Qed.
(** The text of a month. *)
Lemma parse_month_some s y m :
  parse_month s = Some (y, m) ->
  1 <= m <= 12 /\ exists a b c d f g, 0 <= a <= 9 /\ 0 <= b <= 9 /\ 0 <= c <= 9 /\ 0 <= d <= 9 /\
    0 <= f <= 9 /\ 0 <= g <= 9 /\ y = 1000 * a + 100 * b + 10 * c + d /\ m = 10 * f + g /\
    s = foldr (fun x s => String (Ascii.ascii_of_N (Z.to_N x)) s) EmptyString
          [48 + a; 48 + b; 48 + c; 48 + d; 45; 48 + f; 48 + g].
Proof.
  destruct s as [|a [|b [|c [|d [|e [|f [|g [|]]]]]]]]; try done. cbn [parse_month].
  destruct (is_char 45 e) eqn:He; [|done]. unfold is_char in He. bool_hyps.
  intros Hp. simplify_option_eq.
  match type of Hp with (if ?b then _ else _) = _ => destruct b eqn:Eb end; [|done].
  injection Hp as <- <-. bool_hyps. split; [lia|].
  repeat match goal with H : digit _ = Some _ |- _ => apply digit_some in H as [? ->] end.
  assert (e = Ascii.ascii_of_N (Z.to_N 45)) as ->.
  { rewrite <-(Ascii.ascii_N_embedding e), <-(N2Z.id (Ascii.N_of_ascii e)). by do 2 f_equal. }
  lazymatch goal with
  | H : 1 <= 10 * ?f + ?g |- context [1000 * ?a + 100 * ?b + 10 * ?c + ?d] =>
      by exists a, b, c, d, f, g
  end.
Qed.
Lemma parse_month_inj s s' p : parse_month s = Some p -> parse_month s' = Some p -> s = s'.
Proof.
  destruct p as [y m].
  intros (_ & a & b & c & d & f & g & ? & ? & ? & ? & ? & ? & ? & ? & ->)%parse_month_some.
  intros (_ & a' & b' & c' & d' & f' & g' & ? & ? & ? & ? & ? & ? & ? & ? & ->)%parse_month_some.
  assert (a = a' /\ b = b' /\ c = c' /\ d = d' /\ f = f' /\ g = g') as (-> & -> & -> & -> & -> & ->) by lia.
  done.
Qed.

(** * Bounds of months *)
(** Offsets are strictly between -24 h and 24 h ([datetime.tzinfo.utcoffset]). *)
Definition zone_ok (z : zone_data) : Prop :=
  match z with Some offset => forall t, -86400 < offset t < 86400 | None => True end.

Section bounds.
Context `{Zone}.

Lemma guayaquil_offset_bound year local o :
  zone_ok zone_info -> _guayaquil_timezone year local = Ok o -> -86400 < o < 86400.
Proof.
  unfold zone_ok, _guayaquil_timezone. intros Hz Ho. destruct zone_info as [f|].
  - by injection Ho as <-.
  - inv_ok Ho. lia.
Qed.
Lemma guayaquil_offset_same year year' local o o' :
  _guayaquil_timezone year local = Ok o -> _guayaquil_timezone year' local = Ok o' -> o = o'.
Proof.
  unfold _guayaquil_timezone. intros Ho Ho'. destruct zone_info as [f|]; [congruence|].
  inv_ok Ho. by inv_ok Ho'.
Qed.

Lemma month_bounds_ok s a b :
  canonical_month_bounds s = Ok (a, b) ->
  exists y m o o' y', parse_month s = Some (y, m) /\ 1 <= m <= 12 /\ 0 <= a < b /\
    let k := month_index y m in
    _guayaquil_timezone y (start_of k) = Ok o /\ a = start_of k - o /\
    _guayaquil_timezone y' (start_of (k + 1)) = Ok o' /\ b = start_of (k + 1) - o'.
Proof.
  unfold canonical_month_bounds. intros Hb. destruct (parse_month s) as [[y m]|] eqn:Ep; [|done].
  destruct (next_month y m) as [y' m'] eqn:En. inv_ok Hb. bool_hyps.
  pose proof (parse_month_some _ _ _ Ep) as [Hm _].
  exists y, m, a1, a2, y'. rewrite <-month_index_next, En. simpl.
  rewrite !start_of_index by (try done; pose proof (next_month_range y m Hm); by rewrite En in *).
  repeat split; done || lia.
Qed.
End bounds.

(** The UTC intervals of the calendar months never overlap and
    adjoin: an instant lies in the bounds of at most one month text, and each
    month ends where the next one starts. *)
Theorem month_bounds_tile `{Zone} (s s' : string) (a b a' b' : Z) :
  zone_ok zone_info ->
  canonical_month_bounds s = Ok (a, b) -> canonical_month_bounds s' = Ok (a', b') ->
  0 <= a < b /\
  (forall t, a <= t < b -> a' <= t < b' -> s = s') /\
  (forall y m, parse_month s = Some (y, m) -> parse_month s' = Some (next_month y m) -> b = a').
Proof.
  intros Hz (y & m & o & o1 & y1 & Hp & Hm & Hab & Ho & Ha & Ho1 & Hb)%month_bounds_ok
    (y' & m' & o' & o1' & y1' & Hp' & Hm' & Hab' & Ho' & Ha' & Ho1' & Hb')%month_bounds_ok.
  pose proof (guayaquil_offset_bound _ _ _ Hz Ho). pose proof (guayaquil_offset_bound _ _ _ Hz Ho1).
  pose proof (guayaquil_offset_bound _ _ _ Hz Ho'). pose proof (guayaquil_offset_bound _ _ _ Hz Ho1').
  assert (forall k k' z z' p q, _guayaquil_timezone z (start_of (k + 1)) = Ok p ->
    _guayaquil_timezone z' (start_of k') = Ok q -> -86400 < p < 86400 -> -86400 < q < 86400 ->
    k < k' -> start_of (k + 1) - p <= start_of k' - q) as Hsep.
  { intros k k' z z' p q Hp1 Hq1 ? ? Hlt. destruct (decide (k' = k + 1)) as [->|Hne].
    - by rewrite (guayaquil_offset_same _ _ _ _ _ Hp1 Hq1).
    - pose proof (start_of_mono (k + 1) k'). lia. }
  split; [done|]. split.
  - intros t Ht Ht'. apply (parse_month_inj s s' (y, m)); [done|].
    destruct (Z.lt_trichotomy (month_index y m) (month_index y' m')) as [Hlt|[Heq|Hlt]].
    + pose proof (Hsep _ _ _ _ _ _ Ho1 Ho' ltac:(lia) ltac:(lia) Hlt). lia.
    + unfold month_index in Heq. rewrite Hp'. f_equal. f_equal; lia.
    + pose proof (Hsep _ _ _ _ _ _ Ho1' Ho ltac:(lia) ltac:(lia) Hlt). lia.
  - intros y0 m0 Hy Hy'. rewrite Hp in Hy. injection Hy as <- <-.
    rewrite Hp' in Hy'. injection Hy' as Hn.
    assert (month_index y' m' = month_index y m + 1) as Hi by (by rewrite <-month_index_next, <-Hn).
    rewrite Hi in *. subst. f_equal. by eapply guayaquil_offset_same.
Qed.

(** Without zone data, December 2025 ends at 2026-01-01T05:00Z. *)
Lemma month_bounds_tile_witness :
  let no_zone : Zone := None in
  canonical_month_bounds "2025-12" = Ok (1764565200, 1767243600) /\
  canonical_month_bounds "2026-01" = Ok (1767243600, 1769922000) /\
  (forall t, 1764565200 <= t < 1767243600 -> 1767243600 <= t < 1769922000 -> "2025-12" = "2026-01").
Proof.
  intros no_zone.
  assert (canonical_month_bounds "2025-12" = Ok (1764565200, 1767243600)) as H1 by (vm_compute; reflexivity).
  assert (canonical_month_bounds "2026-01" = Ok (1767243600, 1769922000)) as H2 by (vm_compute; reflexivity).
  split; [exact H1|]. split; [exact H2|].
  exact (proj1 (proj2 (month_bounds_tile _ _ _ _ _ _ I H1 H2))).
Defined.
