(* ===== verification/CohortKey.v ===== *)
(** The opaque cohort keys of [product_line_sla/algorithms/cohort_state.py]:
    [CohortKeyParts], [encode_cohort_key] and [decode_cohort_key], with the
    URL-safe base64 codec they use. *)
From S2P Require Import Prelude StrictJson Identifiers JsonText Calendar.

(** * [base64] *)
Definition b64_char (n : Z) : Ascii.ascii :=
  chr (if n <? 26 then 65 + n else if n <? 52 then 71 + n else if n <? 62 then n - 4
       else if n =? 62 then 45 else 95).
Definition pad_char : Ascii.ascii := Ascii.ascii_of_N 61.

(** [base64.urlsafe_b64encode]. *)
Fixpoint urlsafe_b64encode (s : string) : string :=
  match s with
  | EmptyString => EmptyString
  | String a EmptyString =>
      let a := byte_of a in
      String (b64_char (a / 4)) (String (b64_char (a mod 4 * 16))
        (String pad_char (String pad_char EmptyString)))
  | String a (String b EmptyString) =>
      let a := byte_of a in let b := byte_of b in
      String (b64_char (a / 4)) (String (b64_char (a mod 4 * 16 + b / 16))
        (String (b64_char (b mod 16 * 4)) (String pad_char EmptyString)))
  | String a (String b (String c r)) =>
      let a := byte_of a in let b := byte_of b in let c := byte_of c in
      String (b64_char (a / 4)) (String (b64_char (a mod 4 * 16 + b / 16))
        (String (b64_char (b mod 16 * 4 + c / 64)) (String (b64_char (c mod 64))
          (urlsafe_b64encode r))))
  end.

(** The value of a base64 digit, both the URL-safe and the plain alphabet. *)
Definition b64_value (c : Ascii.ascii) : option Z :=
  let n := byte_of c in
  if (65 <=? n) && (n <=? 90) then Some (n - 65)
  else if (97 <=? n) && (n <=? 122) then Some (n - 71)
  else if (48 <=? n) && (n <=? 57) then Some (n + 4)
  else if (n =? 45) || (n =? 43) then Some 62
  else if (n =? 95) || (n =? 47) then Some 63
  else None.

(** [base64.b64decode(s, altchars=b"-_", validate=True)]; [None] when it
    raises.  Padding is accepted in the last group only. *)
Fixpoint b64decode (s : string) : option string :=
  match s with
  | EmptyString => Some EmptyString
  | String a (String b (String c (String d r))) =>
      x ← b64_value a; y ← b64_value b;
      match b64_value c, b64_value d with
      | Some z, Some w =>
          t ← b64decode r;
          Some (String (chr (x * 4 + y / 16)) (String (chr (y mod 16 * 16 + z / 4))
            (String (chr (z mod 4 * 64 + w)) t)))
      | Some z, None =>
          if bool_decide (d = pad_char /\ r = EmptyString)
          then Some (String (chr (x * 4 + y / 16))
                 (String (chr (y mod 16 * 16 + z / 4)) EmptyString))
          else None
      | None, _ =>
          if bool_decide (c = pad_char /\ d = pad_char /\ r = EmptyString)
          then Some (String (chr (x * 4 + y / 16)) EmptyString) else None
      end
  | _ => None
  end.

(** [s.rstrip("=")]. *)
Fixpoint rstrip_pad (s : string) : string :=
  match s with
  | EmptyString => EmptyString
  | String c s =>
      match rstrip_pad s with
      | EmptyString => if bool_decide (c = pad_char) then EmptyString else String c EmptyString
      | r => String c r
      end
  end.
Fixpoint repeat_pad (n : nat) : string :=
  match n with O => EmptyString | S n => String pad_char (repeat_pad n) end.
(** ["=" * ((4 - len(s) % 4) % 4)]. *)
Definition padding_of (s : string) : string :=
  repeat_pad (Z.to_nat ((4 - utf8_length s mod 4) mod 4)).

(** Decided by the 64 cases. *)
Lemma b64_value_char n : 0 <= n < 64 -> b64_value (b64_char n) = Some n.
Proof.
  intros Hn. replace n with (Z.of_nat (Z.to_nat n)) by lia.
  assert (Z.to_nat n < 64)%nat as Hlt by lia. revert Hlt. generalize (Z.to_nat n).
  clear. intros k Hk. do 64 (destruct k as [|k]; [reflexivity|]). lia.
Qed.
Lemma b64_value_pad : b64_value pad_char = None.
Proof. done. Qed.
Lemma b64_char_not_pad n : 0 <= n < 64 -> b64_char n <> pad_char.
Proof. intros Hn Hp. pose proof (b64_value_char n Hn) as Hv. by rewrite Hp in Hv. Qed.

Lemma string_ind3 (P : string -> Prop) :
  P EmptyString -> (forall a, P (String a EmptyString)) ->
  (forall a b, P (String a (String b EmptyString))) ->
  (forall a b c s, P s -> P (String a (String b (String c s)))) -> forall s, P s.
Proof.
  intros H0 H1 H2 H3. fix IH 1. intros [|a [|b [|c s]]]; [done|apply H1|apply H2|apply H3, IH].
Qed.

Lemma b64decode_encode s : b64decode (urlsafe_b64encode s) = Some s.
Proof.
  induction s as [|a|a b|a b c s IH] using string_ind3; [done|..].
  all: pose proof (byte_of_range a); try pose proof (byte_of_range b); try pose proof (byte_of_range c).
  all: cbn [urlsafe_b64encode b64decode].
  all: rewrite !b64_value_char, ?b64_value_pad by (Z.div_mod_to_equations; lia); simpl.
  3: rewrite IH; simpl.
  all: try (rewrite bool_decide_eq_true_2 by done).
  all: repeat f_equal; rewrite <-chr_byte_of; f_equal; Z.div_mod_to_equations; lia.
Qed.

Lemma rstrip_pad_cons c s : c <> pad_char -> rstrip_pad (String c s) = String c (rstrip_pad s).
Proof.
  intros Hc. cbn [rstrip_pad]. destruct (rstrip_pad s); [|done]. by rewrite bool_decide_eq_false_2.
Qed.
(** Stripping the padding loses nothing: its length follows from the text's. *)
Lemma padding_restored s :
  let token := rstrip_pad (urlsafe_b64encode s) in
  token +:+ padding_of token = urlsafe_b64encode s.
Proof.
  induction s as [|a|a b|a b c s IH] using string_ind3; [done|..]; cbv zeta in *; cbn [urlsafe_b64encode].
  all: pose proof (byte_of_range a); try pose proof (byte_of_range b); try pose proof (byte_of_range c).
  all: rewrite !rstrip_pad_cons by (apply b64_char_not_pad; Z.div_mod_to_equations; lia).
  1-2: simpl; repeat rewrite bool_decide_eq_true_2 by done; by text.
  text. do 4 f_equal. set (r := rstrip_pad _) in *.
  transitivity (r +:+ padding_of r); [|exact IH]. f_equal. unfold padding_of, utf8_length.
  do 3 f_equal. cbn [String.length]. rewrite !Nat2Z.inj_succ.
  set (n := Z.of_nat _). replace (Z.succ (Z.succ (Z.succ (Z.succ n)))) with (n + 1 * 4) by lia.
  by rewrite Z.mod_add.
Qed.

(** * Cohort keys *)
Record CohortKeyParts := MkKey {
  k_calendar_month : string;
  k_customer_org_id : string;
  k_contract_id : string;
  k_contract_product_line_id : string;
  k_severity : string;
  k_policy_tier_id : string
}.
#[export] Instance CohortKeyParts_eq_dec : EqDecision CohortKeyParts.
Proof. solve_decision. Defined.

Definition cohort_severity (s : string) : bool :=
  existsb (String.eqb s) ["critical"; "major"; "minor"; "non_fault_inquiry"].

Definition cohort_key_payload (month customer contract line severity tier : string) : json :=
  JObj [
    ("schema", JStr "SOMA_SLA_COHORT_KEY_V1");
    ("calendar_month", JStr month);
    ("customer_org_id", JStr customer);
    ("contract_id", JStr contract);
    ("contract_product_line_id", JStr line);
    ("severity", JStr severity);
    ("policy_tier_id", JStr tier)].

Section keys.
Context `{Zone, FloatText}.

Definition encode_cohort_key (parts : CohortKeyParts) : result string :=
  customer ← require_uuid4 (k_customer_org_id parts);
  contract ← require_uuid4 (k_contract_id parts);
  line ← require_uuid4 (k_contract_product_line_id parts);
  tier ← require_uuid4 (k_policy_tier_id parts);
  let payload := cohort_key_payload (k_calendar_month parts) customer contract line
    (k_severity parts) tier in
  _ ← forbid (negb (cohort_severity (k_severity parts)))
    (ValidationError "cohort key severity is invalid");
  _ ← canonical_month_bounds (k_calendar_month parts);
  bytes ← canonical_json_bytes payload;
  Ok ("v1." +:+ rstrip_pad (urlsafe_b64encode bytes)).

Definition text_field (kvs : list (string * json)) (key : string) : option string :=
  match dget key kvs with Some (JStr s) => Some s | _ => None end.

Definition cohort_key_fields : list string :=
  ["schema"; "calendar_month"; "customer_org_id"; "contract_id"; "contract_product_line_id";
   "severity"; "policy_tier_id"].

(** [Ok] of the parsed members, all of them text but the schema. *)
Definition decode_parts (payload : json) : result CohortKeyParts :=
  match payload with
  | JObj kvs =>
      _ ← forbid (negb (bool_decide
            ((list_to_set kvs.*1 : gset string) = list_to_set cohort_key_fields)))
        (ValidationError "cohort key shape is invalid");
      _ ← forbid (negb (bool_decide (text_field kvs "schema" = Some "SOMA_SLA_COHORT_KEY_V1")))
        (ValidationError "cohort key schema is invalid");
      match text_field kvs "calendar_month", text_field kvs "customer_org_id",
        text_field kvs "contract_id", text_field kvs "contract_product_line_id",
        text_field kvs "severity", text_field kvs "policy_tier_id" with
      | Some month, Some customer, Some contract, Some line, Some severity, Some tier =>
          customer ← require_uuid4 customer;
          contract ← require_uuid4 contract;
          line ← require_uuid4 line;
          tier ← require_uuid4 tier;
          Ok (MkKey month customer contract line severity tier)
      | _, _, _, _, _, _ => raise (ValidationError "cohort key field type is invalid")
      end
  | _ => raise (ValidationError "cohort key shape is invalid")
  end.

(** A text with a character outside ASCII is rejected as invalid before or
    after its length is taken, so its length is counted in bytes. *)
Definition decode_cohort_key (value : string) : result CohortKeyParts :=
  match strip_prefix "v1." value with
  | None => raise (ValidationError "cohort key is invalid")
  | Some encoded =>
      _ ← forbid (2048 <? utf8_length value) (ValidationError "cohort key is invalid");
      _ ← forbid (String.eqb encoded EmptyString) (ValidationError "cohort key is invalid");
      match b64decode (encoded +:+ padding_of encoded) with
      | None => raise (ValidationError "cohort key is invalid")
      | Some raw =>
          payload ← loads_strict_bytes raw (Some 1536);
          parts ← decode_parts payload;
          _ ← forbid (negb (cohort_severity (k_severity parts)))
            (ValidationError "cohort key severity is invalid");
          _ ← canonical_month_bounds (k_calendar_month parts);
          again ← encode_cohort_key parts;
          _ ← forbid (negb (String.eqb again value)) (ValidationError "cohort key is not canonical");
          Ok parts
      end
  end.
End keys.

(** * Keys decode to the parts they encode *)
(** Printable ASCII that JSON prints as it is. *)
Definition plain (c : Ascii.ascii) : bool :=
  (32 <=? byte_of c) && (byte_of c <? 127) && negb (byte_of c =? 34) && negb (byte_of c =? 92).
Definition ascii (c : Ascii.ascii) : bool := byte_of c <? 128.

Lemma plain_range c : 32 <= byte_of c < 127 -> byte_of c <> 34 -> byte_of c <> 92 -> plain c = true.
Proof.
  unfold plain. intros. rewrite !(proj2 (Z.eqb_neq _ _)) by done. simpl.
  rewrite !andb_true_r. lia.
Qed.
Lemma plain_ascii c : plain c = true -> ascii c = true.
Proof. unfold plain, ascii. intros. bool_hyps. lia. Qed.
Lemma all_chars_impl (p q : Ascii.ascii -> bool) s :
  (forall c, p c = true -> q c = true) -> all_chars p s = true -> all_chars q s = true.
Proof.
  intros Hpq. induction s as [|c s IH]; [done|]. cbn [all_chars]. intros. bool_hyps.
  by rewrite Hpq, IH.
Qed.
Lemma all_chars_app p a b : all_chars p (a +:+ b) = all_chars p a && all_chars p b.
Proof.
  induction a as [|c a IH]; [done|]. rewrite sapp_cons. cbn [all_chars]. by rewrite IH, andb_assoc.
Qed.
Lemma escape_plain s : all_chars plain s = true -> escape s = s.
Proof.
  induction s as [|c s IH]; [done|]. cbn [all_chars escape]. intros. bool_hyps. rewrite IH by done.
  assert (escape_char c = String c EmptyString) as ->; [|by text].
  unfold plain in *. bool_hyps. unfold escape_char.
  repeat match goal with |- context [?x =? ?y] => destruct (Z.eqb_spec x y); [lia|] end.
  by replace (byte_of c <? 32) with false by lia.
Qed.
Lemma json_string_plain s :
  all_chars plain s = true ->
  all_chars ascii (json_string s) = true /\ utf8_length (json_string s) = utf8_length s + 2.
Proof.
  intros Hs. unfold json_string. rewrite escape_plain by done. split.
  - cbn [all_chars]. rewrite all_chars_app. change (ascii quote_char) with true.
    cbn [andb all_chars]. by rewrite (all_chars_impl plain ascii) by (done || apply plain_ascii).
  - unfold utf8_length. cbn [String.length]. rewrite sapp_length. simpl. lia.
Qed.
Lemma ascii_encodable s : all_chars ascii s = true -> utf8_encodable s = true.
Proof.
  unfold ascii. induction s as [|c s IH]; [done|]. cbn [all_chars utf8_encodable].
  intros Hc. bool_hyps. rewrite IH by done. replace (byte_of c =? 237) with false by lia.
  by destruct s.
Qed.
Lemma ascii_valid s : all_chars ascii s = true -> utf8_valid s = true.
Proof.
  unfold utf8_valid, ascii. induction s as [|c s IH]; [done|]. cbn [all_chars utf8_scan].
  intros Hc. bool_hyps. replace (byte_of c <? 128) with true by lia. by apply IH.
Qed.
Lemma utf8_length_app a b : utf8_length (a +:+ b) = utf8_length a + utf8_length b.
Proof. unfold utf8_length. rewrite sapp_length. lia. Qed.

Lemma template_plain t s :
  all_chars plain t = true -> matches_template t s = true ->
  all_chars plain s = true /\ utf8_length s = utf8_length t.
Proof.
  revert s. induction t as [|a t IH]; intros [|c s]; try done. cbn [all_chars matches_template].
  intros Ht Hm. bool_hyps. destruct (IH s) as [Hp Hl]; [done|done|]. split.
  - rewrite Hp, andb_true_r. unfold template_char in *.
    destruct (is_char 120 a); [|destruct (is_char 121 a)].
    + match goal with H : is_hex_lower c = true |- _ =>
        unfold is_hex_lower, is_digit in H; apply orb_true_iff in H as [H|H]; bool_hyps end;
        apply plain_range; lia.
    + match goal with H : _ = true |- plain c = true =>
        unfold is_char in H; rewrite !orb_true_iff, !Z.eqb_eq in H end. apply plain_range; lia.
    + bool_hyps. by subst.
  - unfold utf8_length in *. cbn [String.length]. lia.
Qed.
Lemma uuid_plain v u :
  require_uuid4 v = Ok u -> u = v /\ all_chars plain v = true /\ utf8_length v = 36.
Proof.
  intros [-> Hv]%require_uuid4_ok. split; [done|]. unfold is_uuid4 in Hv.
  by apply template_plain in Hv.
Qed.
Lemma month_plain s p : parse_month s = Some p -> all_chars plain s = true /\ utf8_length s = 7.
Proof.
  destruct p as [y m]. intros (_ & a & b & c & d & f & g & ? & ? & ? & ? & ? & ? & _ & _ & ->)%parse_month_some.
  assert (forall x, 0 <= x <= 9 -> plain (Ascii.ascii_of_N (Z.to_N (48 + x))) = true) as Hd.
  { intros x Hx. change (Ascii.ascii_of_N (Z.to_N (48 + x))) with (chr (48 + x)).
    apply plain_range; rewrite byte_of_chr by lia; lia. }
  split; [|done]. cbn [foldr all_chars]. rewrite !Hd by done. done.
Qed.
Lemma severity_plain s :
  cohort_severity s = true -> all_chars plain s = true /\ utf8_length s <= 17.
Proof.
  unfold cohort_severity. rewrite existsb_exists. intros (x & Hx & He). bool_hyps. subst.
  simpl in Hx. by destruct Hx as [<-|[<-|[<-|[<-|[]]]]].
Qed.

(** The payload as its text orders it. *)
Definition sorted_payload (p : CohortKeyParts) : json :=
  JObj [
    ("calendar_month", JStr (k_calendar_month p));
    ("contract_id", JStr (k_contract_id p));
    ("contract_product_line_id", JStr (k_contract_product_line_id p));
    ("customer_org_id", JStr (k_customer_org_id p));
    ("policy_tier_id", JStr (k_policy_tier_id p));
    ("schema", JStr "SOMA_SLA_COHORT_KEY_V1");
    ("severity", JStr (k_severity p))].

(** The parts [encode_cohort_key] accepts are plain text of known length. *)
Record plain_parts (p : CohortKeyParts) : Prop := {
  plain_month : all_chars plain (k_calendar_month p) = true /\ utf8_length (k_calendar_month p) = 7;
  plain_customer : all_chars plain (k_customer_org_id p) = true /\ utf8_length (k_customer_org_id p) = 36;
  plain_contract : all_chars plain (k_contract_id p) = true /\ utf8_length (k_contract_id p) = 36;
  plain_line : all_chars plain (k_contract_product_line_id p) = true /\
    utf8_length (k_contract_product_line_id p) = 36;
  plain_severity : all_chars plain (k_severity p) = true /\ utf8_length (k_severity p) <= 17;
  plain_tier : all_chars plain (k_policy_tier_id p) = true /\ utf8_length (k_policy_tier_id p) = 36
}.

Lemma payload_text p bytes :
  canonical_json_bytes (cohort_key_payload (k_calendar_month p) (k_customer_org_id p)
    (k_contract_id p) (k_contract_product_line_id p) (k_severity p) (k_policy_tier_id p)) = Ok bytes ->
  canonical_json_bytes (sorted_payload p) = Ok bytes.
Proof. intros <-. reflexivity. Qed.

Lemma sorted_payload_bytes p bytes :
  plain_parts p -> canonical_json_bytes (sorted_payload p) = Ok bytes ->
  canonical (sorted_payload p) = true /\ all_chars ascii bytes = true /\
  0 < utf8_length bytes <= 600.
Proof.
  intros [[M ML] [C CL] [K KL] [L LL] [S SL] [T TL]] Hb.
  assert (forall s, all_chars plain s = true -> utf8_encodable s = true) as Henc.
  { intros s Hs. apply ascii_encodable. by apply (all_chars_impl plain); [apply plain_ascii|]. }
  split.
  { unfold sorted_payload. cbn -[ascending utf8_encodable]. rewrite !Henc by done. done. }
  unfold canonical_json_bytes in Hb.
  change (json_dumps (sorted_payload p)) with (Some ("{" +:+
    ((json_string "calendar_month" +:+ ":" +:+ json_string (k_calendar_month p)) +:+ "," +:+
    ((json_string "contract_id" +:+ ":" +:+ json_string (k_contract_id p)) +:+ "," +:+
    ((json_string "contract_product_line_id" +:+ ":" +:+ json_string (k_contract_product_line_id p)) +:+ "," +:+
    ((json_string "customer_org_id" +:+ ":" +:+ json_string (k_customer_org_id p)) +:+ "," +:+
    ((json_string "policy_tier_id" +:+ ":" +:+ json_string (k_policy_tier_id p)) +:+ "," +:+
    ((json_string "schema" +:+ ":" +:+ json_string "SOMA_SLA_COHORT_KEY_V1") +:+ "," +:+
    (json_string "severity" +:+ ":" +:+ json_string (k_severity p)))))))) +:+ "}")) in Hb.
  cbn match in Hb. case_match; [|done]. injection Hb as <-.
  destruct (json_string_plain _ M) as [M1 M2]. destruct (json_string_plain _ C) as [C1 C2].
  destruct (json_string_plain _ K) as [K1 K2]. destruct (json_string_plain _ L) as [L1 L2].
  destruct (json_string_plain _ S) as [S1 S2]. destruct (json_string_plain _ T) as [T1 T2].
  split.
  - rewrite !all_chars_app, M1, C1, K1, L1, S1, T1. vm_compute. reflexivity.
  - rewrite !utf8_length_app, M2, C2, K2, L2, S2, T2, ML, CL, KL, LL, TL.
    repeat match goal with |- context [utf8_length (json_string ?s)] =>
      let n := eval vm_compute in (utf8_length (json_string s)) in
      change (utf8_length (json_string s)) with n end.
    repeat match goal with |- context [utf8_length (String ?c ?s)] =>
      let n := eval vm_compute in (utf8_length (String c s)) in
      change (utf8_length (String c s)) with n end.
    assert (0 <= utf8_length (k_severity p)) by (unfold utf8_length; lia). lia.
Qed.

Lemma rstrip_pad_length s : utf8_length (rstrip_pad s) <= utf8_length s.
Proof.
  unfold utf8_length. induction s as [|c s IH]; [done|]. cbn [rstrip_pad].
  destruct (rstrip_pad s); [case_match|]; cbn [String.length] in *; lia.
Qed.
Lemma b64_length s : 3 * utf8_length (urlsafe_b64encode s) <= 4 * utf8_length s + 8.
Proof.
  unfold utf8_length. induction s as [|a|a b|a b c s IH] using string_ind3;
    cbn [urlsafe_b64encode String.length]; lia.
Qed.

Section roundtrip.
Context `{Zone, FloatText}.

Lemma encode_ok p key :
  encode_cohort_key p = Ok key ->
  plain_parts p /\ cohort_severity (k_severity p) = true /\
  (exists b, canonical_month_bounds (k_calendar_month p) = Ok b) /\
  require_uuid4 (k_customer_org_id p) = Ok (k_customer_org_id p) /\
  require_uuid4 (k_contract_id p) = Ok (k_contract_id p) /\
  require_uuid4 (k_contract_product_line_id p) = Ok (k_contract_product_line_id p) /\
  require_uuid4 (k_policy_tier_id p) = Ok (k_policy_tier_id p) /\
  exists bytes, canonical_json_bytes (sorted_payload p) = Ok bytes /\
    key = "v1." +:+ rstrip_pad (urlsafe_b64encode bytes).
Proof.
  unfold encode_cohort_key. intros Hk. inv_ok Hk. bool_hyps. destruct a4 as [m1 m2].
  destruct (month_bounds_ok _ _ _ Hk5) as (y & m & _ & _ & _ & Hm & _).
  destruct (uuid_plain _ _ Hk0) as [-> ?]. destruct (uuid_plain _ _ Hk1) as [-> ?].
  destruct (uuid_plain _ _ Hk2) as [-> ?]. destruct (uuid_plain _ _ Hk3) as [-> ?].
  split; [split; try done; [by eapply month_plain|by apply severity_plain]|].
  split; [done|]. split; [by eexists|]. repeat (split; [done|]).
  eexists. split; [by apply payload_text|done].
Qed.

Lemma decode_sorted_payload p :
  require_uuid4 (k_customer_org_id p) = Ok (k_customer_org_id p) ->
  require_uuid4 (k_contract_id p) = Ok (k_contract_id p) ->
  require_uuid4 (k_contract_product_line_id p) = Ok (k_contract_product_line_id p) ->
  require_uuid4 (k_policy_tier_id p) = Ok (k_policy_tier_id p) ->
  decode_parts (sorted_payload p) = Ok p.
Proof.
  intros H1 H2 H3 H4. unfold decode_parts, sorted_payload.
  match goal with |- context [bool_decide ?P] =>
    assert (bool_decide P = true) as -> by (vm_compute; reflexivity) end.
  change (text_field _ "schema") with (Some "SOMA_SLA_COHORT_KEY_V1").
  change (text_field _ "calendar_month") with (Some (k_calendar_month p)).
  change (text_field _ "customer_org_id") with (Some (k_customer_org_id p)).
  change (text_field _ "contract_id") with (Some (k_contract_id p)).
  change (text_field _ "contract_product_line_id") with (Some (k_contract_product_line_id p)).
  change (text_field _ "severity") with (Some (k_severity p)).
  change (text_field _ "policy_tier_id") with (Some (k_policy_tier_id p)).
  rewrite bool_decide_eq_true_2 by done. cbn [negb forbid mbind result_bind].
  rewrite H1, H2, H3, H4. by destruct p.
Qed.
End roundtrip.

(** C33.  Every cohort key that can be encoded decodes, within the
    decoder's length bounds, to exactly the parts it was made of; so keys of
    different cohorts differ. *)
Theorem cohort_key_roundtrip `{Zone, FloatText} (p : CohortKeyParts) (key : string) :
  encode_cohort_key p = Ok key -> decode_cohort_key key = Ok p.
Proof.
  intros He. destruct (encode_ok p key He)
    as (Hp & Hs & (b & Hb) & H1 & H2 & H3 & H4 & bytes & Hbytes & Hkey).
  destruct (sorted_payload_bytes p bytes Hp Hbytes) as (Hc & Ha & Hlen).
  unfold decode_cohort_key. set (token := rstrip_pad (urlsafe_b64encode bytes)) in *.
  assert (b64decode (token +:+ padding_of token) = Some bytes) as Hdec
    by (unfold token; by rewrite padding_restored, b64decode_encode).
  assert (utf8_length key <= 2048) as Hkl.
  { pose proof (rstrip_pad_length (urlsafe_b64encode bytes)). pose proof (b64_length bytes).
    rewrite Hkey, utf8_length_app. change (utf8_length "v1.") with 3. fold token in H5. lia. }
  replace (strip_prefix "v1." key) with (Some token) by (rewrite Hkey; symmetry; apply strip_prefix_app).
  replace (2048 <? utf8_length key) with false by lia. cbn [forbid mbind result_bind].
  assert (String.eqb token EmptyString = false) as ->.
  { apply String.eqb_neq. intros Hempty. rewrite Hempty in Hdec. injection Hdec as <-.
    change (utf8_length EmptyString) with 0 in Hlen. lia. }
  cbn [forbid mbind result_bind]. rewrite Hdec. unfold loads_strict_bytes.
  replace (1536 <? utf8_length bytes) with false by lia. rewrite ascii_valid by done.
  cbn [negb forbid mbind result_bind].
  rewrite (canonical_json_roundtrip (sorted_payload p)) by (done || lia).
  cbn [mbind result_bind]. rewrite decode_sorted_payload by done.
  cbn [mbind result_bind]. rewrite Hs, Hb, He. cbn [negb forbid mbind result_bind].
  by rewrite String.eqb_refl.
Qed.

Module KeyExamples.
Definition parts : CohortKeyParts := MkKey "2026-01"
  "00000000-0000-4000-8000-000000000001" "00000000-0000-4000-8000-000000000002"
  "00000000-0000-4000-8000-000000000003" "critical" "00000000-0000-4000-8000-000000000004".
End KeyExamples.

Lemma cohort_key_roundtrip_witness :
  let no_zone : Zone := None in let no_float : FloatText := fun _ => None in
  exists key, encode_cohort_key KeyExamples.parts = Ok key /\
    decode_cohort_key key = Ok KeyExamples.parts.
Proof.
  intros no_zone no_float.
  destruct (encode_cohort_key KeyExamples.parts) as [key|e] eqn:E; [|vm_compute in E; discriminate].
  exists key. split; [reflexivity|]. exact (cohort_key_roundtrip KeyExamples.parts key E).
Defined.
