(* ===== verification/CohortState.v ===== *)
(** Monthly SLA cohorts: [CanonicalCohortCalculator] of
    [product_line_sla/algorithms/cohort_state.py].

    [calculate_month] pages through the requests of a month, groups the tier
    results of the calculable ones by cohort key and classifies each cohort.
    The paging loop runs on fuel; one page per row of the month is enough. *)
From Stdlib Require Import QArith Qcanon.
From S2P Require Import Prelude StrictJson Identifiers SlaPolicy SlaInput IndividualSla Calendar CohortKey.
#[local] Open Scope Z_scope.

Definition _SLA_TIMEZONE : string := "America/Guayaquil".
Definition _PERCENT_SCALE : Z := 100000000.
Definition page_limit : Z := 500.

Record CanonicalCohortMember := MkMember {
  m_cohort_key : CohortKeyParts;
  m_service_request_id : string;
  m_policy_revision_id : string;
  m_tier_result : IndividualTierResult;
  m_individual_result : IndividualSlaResult
}.
Record CohortProjection := MkCohort {
  c_cohort_key : string;
  c_calendar_month : string;
  c_timezone : string;
  c_customer_org_id : string;
  c_contract_id : string;
  c_contract_product_line_id : string;
  c_policy_revision_id : string;
  c_policy_tier_id : string;
  c_severity : string;
  c_required_percentage_millionths : Z;
  c_maximum_duration_numerator_seconds : Z;
  c_maximum_duration_denominator : Z;
  c_denominator : Z;
  c_terminal_met_count : Z;
  c_terminal_exceeded_count : Z;
  c_active_within_count : Z;
  c_active_exceeded_count : Z;
  c_lower_bound_met_count : Z;
  c_best_possible_met_count : Z;
  c_lower_bound_percentage_numerator : Z;
  c_lower_bound_percentage_denominator : Z;
  c_best_possible_percentage_numerator : Z;
  c_best_possible_percentage_denominator : Z;
  c_state : string;
  c_is_final : bool;
  c_member_exact_count : Z;
  c_input_fingerprint : string
}.
Record CohortMonthProjection := MkMonth {
  mp_calendar_month : string;
  mp_timezone : string;
  mp_month_start_utc : Z;
  mp_month_end_utc : Z;
  mp_as_of_utc : Z;
  mp_cohorts : list CohortProjection;
  mp_members : list CanonicalCohortMember
}.

Definition _passes_percentage (met_count denominator required : Z) : bool :=
  required * denominator <=? met_count * _PERCENT_SCALE.
Definition _percentage_fraction (met_count denominator : Z) : result Fraction :=
  py_fraction (met_count * 100) denominator.
Definition _cohort_sort_key (k : CohortKeyParts) : string * string * string * string * string * string :=
  (k_calendar_month k, k_customer_org_id k, k_contract_id k, k_contract_product_line_id k,
   k_severity k, k_policy_tier_id k).

(** Number of members in a state. *)
Definition count_state (s : string) (members : list CanonicalCohortMember) : Z :=
  Z.of_nat (length (filter (fun m => individual_state (m_tier_result m) = s) members)).
Definition known_state (s : string) : bool :=
  existsb (String.eqb s) ["terminal_met"; "terminal_exceeded"; "active_within"; "active_exceeded"].

Definition cohort_state (is_final lower_passes best_passes : bool) (exceeded : Z) : string :=
  if is_final && lower_passes then "final_met"
  else if negb best_passes then "breached"
  else if lower_passes then "currently_met"
  else if 0 <? exceeded then "at_risk"
  else "pending".

(** A later member agrees with the first one on the tier. *)
Definition same_authority (first m : CanonicalCohortMember) : bool :=
  String.eqb (m_policy_revision_id m) (m_policy_revision_id first) &&
  (r_required_percentage_millionths (m_tier_result m)
     =? r_required_percentage_millionths (m_tier_result first)) &&
  (r_maximum_duration_numerator_seconds (m_tier_result m)
     =? r_maximum_duration_numerator_seconds (m_tier_result first)) &&
  (r_maximum_duration_denominator (m_tier_result m)
     =? r_maximum_duration_denominator (m_tier_result first)).

Definition groups_t := list (CohortKeyParts * list CanonicalCohortMember).

Section calculator.
Context `{Sha256, Zone, FloatText}.

Definition cohort_fingerprint (opaque_key : string) (as_of_utc : Z)
    (first : CanonicalCohortMember) (members : list CanonicalCohortMember) : json :=
  JObj [
    ("schema", JStr "SOMA_COHORT_INPUT_V1");
    ("cohort_key", JStr opaque_key);
    ("as_of_utc", JInt as_of_utc);
    ("policy_revision_id", JStr (m_policy_revision_id first));
    ("required_percentage_millionths", JInt (r_required_percentage_millionths (m_tier_result first)));
    ("maximum_duration", JObj [
       ("numerator_seconds", JInt (r_maximum_duration_numerator_seconds (m_tier_result first)));
       ("denominator", JInt (r_maximum_duration_denominator (m_tier_result first)))]);
    ("members", JArr (map (fun m => JObj [
       ("service_request_id", JStr (m_service_request_id m));
       ("individual_input_fingerprint", JStr (i_input_fingerprint (m_individual_result m)));
       ("individual_state", JStr (individual_state (m_tier_result m)))]) members))].

(** One cohort: the loop body over the sorted keys, for a group with members. *)
Definition project_cohort (calendar_month : string) (as_of_utc : Z) (month_closed : bool)
    (key : CohortKeyParts) (first : CanonicalCohortMember) (rest : list CanonicalCohortMember)
    : result CohortProjection :=
  let members := first :: rest in
  let required := r_required_percentage_millionths (m_tier_result first) in
  _ ← forbid (negb (forallb (same_authority first) rest))
    (IntegrityFailure "one canonical cohort key resolved conflicting policy-tier authority");
  _ ← forbid (negb (forallb (fun m => known_state (individual_state (m_tier_result m))) members))
    (IntegrityFailure "individual SLA returned unknown cohort state");
  let denominator := Z.of_nat (length members) in
  let terminal_met := count_state "terminal_met" members in
  let terminal_exceeded := count_state "terminal_exceeded" members in
  let active_within := count_state "active_within" members in
  let active_exceeded := count_state "active_exceeded" members in
  let lower := terminal_met in
  let best := terminal_met + active_within in
  let lower_passes := _passes_percentage lower denominator required in
  let best_passes := _passes_percentage best denominator required in
  let is_final := month_closed && (active_within =? 0) && (active_exceeded =? 0) in
  let state := cohort_state is_final lower_passes best_passes (terminal_exceeded + active_exceeded) in
  lower_fraction ← _percentage_fraction lower denominator;
  best_fraction ← _percentage_fraction best denominator;
  opaque_key ← encode_cohort_key key;
  input_fingerprint ← sha256_canonical_json (cohort_fingerprint opaque_key as_of_utc first members);
  Ok (MkCohort opaque_key calendar_month _SLA_TIMEZONE (k_customer_org_id key) (k_contract_id key)
    (k_contract_product_line_id key) (m_policy_revision_id first) (k_policy_tier_id key)
    (k_severity key) required (r_maximum_duration_numerator_seconds (m_tier_result first))
    (r_maximum_duration_denominator (m_tier_result first)) denominator terminal_met
    terminal_exceeded active_within active_exceeded lower best
    (numerator lower_fraction) (SlaPolicy.denominator lower_fraction)
    (numerator best_fraction) (SlaPolicy.denominator best_fraction)
    state is_final denominator input_fingerprint).

(** The members of a group, sorted, with their cohort; a group is never empty. *)
Definition project_group (calendar_month : string) (as_of_utc : Z) (month_closed : bool)
    (group : CohortKeyParts * list CanonicalCohortMember)
    : result (option CohortProjection * list CanonicalCohortMember) :=
  match py_sorted m_service_request_id group.2 with
  | [] => Ok (None, [])
  | first :: rest =>
      c ← project_cohort calendar_month as_of_utc month_closed group.1 first rest;
      Ok (Some c, first :: rest)
  end.

(** The cohort member a tier result makes. *)
Definition cohort_member (calendar_month customer contract line policy severity : string)
    (r : IndividualSlaResult) (t : IndividualTierResult) : CanonicalCohortMember :=
  MkMember (MkKey calendar_month customer contract line severity (r_policy_tier_id t))
    (i_service_request_id r) policy t r.

(** The members one individual result contributes. *)
Definition result_members (calendar_month : string) (month_start month_end : Z)
    (r : IndividualSlaResult) : result (list CanonicalCohortMember) :=
  if negb (String.eqb (i_calculation_state r) "calculable") then Ok []
  else if String.eqb (i_status_class r) "cancelled" then Ok []
  else match i_customer_org_id r, i_contract_id r, i_contract_product_line_id r,
         i_policy_revision_id r, i_severity r, i_report_date_utc r with
  | Some customer, Some contract, Some line, Some policy, Some severity, Some report_date =>
      _ ← forbid (negb ((month_start <=? report_date) && (report_date <? month_end)))
        (IntegrityFailure "SLA month candidate changed Report Date inside one stable read");
      Ok (map (cohort_member calendar_month customer contract line policy severity r)
        (i_tier_results r))
  | _, _, _, _, _, _ => raise (IntegrityFailure
      "calculable individual SLA lacks canonical cohort authority")
  end.

Definition add_input (db : SlaDb) (calendar_month : string) (month_start month_end as_of_utc : Z)
    (groups : groups_t) (i : ServiceRequestSlaInput) : cached groups_t :=
  individual ← calculate db (in_service_request_id i) as_of_utc (Some i);
  members ← lift (result_members calendar_month month_start month_end individual);
  mret (foldl (group_add m_cohort_key) groups members).

(** The paging loop. *)
Fixpoint month_pages (fuel : nat) (db : SlaDb) (calendar_month : string)
    (month_start month_end as_of_utc : Z) (customer_scope cursor : option string)
    (groups : groups_t) : cached groups_t :=
  match fuel with
  | O => lift out_of_fuel
  | S fuel =>
      page ← lift (list_report_date_month (tickets db) month_start month_end customer_scope
        cursor page_limit);
      groups' ← foldS (add_input db calendar_month month_start month_end as_of_utc) groups
        (page_items page);
      match page_next_cursor page with
      | None => mret groups'
      | Some c => month_pages fuel db calendar_month month_start month_end as_of_utc
          customer_scope (Some c) groups'
      end
  end.

(** One page more than the month has rows. *)
Definition month_fuel (db : SlaDb) (month_start month_end : Z) (customer_scope : option string) : nat :=
  S (length (month_rows (tickets db) month_start month_end customer_scope)).

Definition project_month (calendar_month : string) (month_start month_end as_of_utc : Z)
    (groups : groups_t) : result CohortMonthProjection :=
  projected ← traverse (project_group calendar_month as_of_utc (month_end <=? as_of_utc))
    (py_sorted (fun g => _cohort_sort_key g.1) groups);
  Ok (MkMonth calendar_month _SLA_TIMEZONE month_start month_end as_of_utc
    (omap fst projected)
    (py_sorted (fun m => (_cohort_sort_key (m_cohort_key m), m_service_request_id m))
      (mjoin projected.*2))).

(** [calculate_month] on the cache it was given or made. *)
Definition calculate_month_cached (db : SlaDb) (calendar_month : string) (as_of_utc : Z)
    (customer_scope : option string) : cached CohortMonthProjection :=
  '(month_start, month_end) ← lift (canonical_month_bounds calendar_month);
  groups ← month_pages (month_fuel db month_start month_end customer_scope) db calendar_month
    month_start month_end as_of_utc customer_scope None [];
  lift (project_month calendar_month month_start month_end as_of_utc groups).

Definition calculate_month (db : SlaDb) (calendar_month : string) (as_of_utc : Z)
    (customer_scope : option string) : cached CohortMonthProjection := fun read_cache =>
  if as_of_utc <? 0
  then (read_cache, raise (ValidationError "as_of_utc must be a nonnegative whole-second UTC instant"))
  else match read_cache with
  | Some _ => calculate_month_cached db calendar_month as_of_utc customer_scope read_cache
  | None => (None,
      snd (calculate_month_cached db calendar_month as_of_utc customer_scope (Some empty_cache)))
  end.
End calculator.

(** * Paging visits every row of the month once *)
(** The schema's partial unique index [uq_sr_customer_active]: one active
    customer relationship per request. *)
Definition relationships_ok (db : TicketDb) : Prop :=
  forall sr, (length (active_relationships db sr) <= 1)%nat.

Definition rows_after (rows : list string) (cursor : option string) : list string :=
  filter (fun s => match cursor with Some c => ltb c s | None => true end = true) rows.

Lemma projection_rows_sr db ms me sr p x : x ∈ (projection_rows db ms me sr p).*1 -> x = sr.
Proof.
  unfold projection_rows. repeat case_match; try (csimpl; set_solver).
Qed.
Lemma projection_rows_NoDup db ms me sr p :
  relationships_ok db -> NoDup (projection_rows db ms me sr p).*1.
Proof.
  intros Hr. specialize (Hr sr). unfold projection_rows.
  destruct (active_relationships db sr) as [|r [|]]; simpl in Hr; [| |lia];
    repeat case_match; csimpl; repeat constructor; set_solver.
Qed.
Lemma month_join_NoDup db ms me :
  relationships_ok db -> NoDup (month_join db ms me).*1.
Proof.
  intros Hr. unfold month_join.
  pose proof (NoDup_fst_map_to_list (sr_current_source_projection db)) as Hn.
  induction (map_to_list (sr_current_source_projection db)) as [|[sr p] l IH]; [constructor|].
  csimpl. rewrite fmap_app. apply NoDup_cons in Hn as [Hsr Hn].
  apply NoDup_app. split; [by apply projection_rows_NoDup|]. split; [|by apply IH].
  intros x ->%projection_rows_sr Hin. apply Hsr. clear IH Hn Hsr.
  induction l as [|[sr' p'] l IH]; csimpl in *; [set_solver|].
  rewrite fmap_app in Hin. apply elem_of_app in Hin as [->%projection_rows_sr|Hin]; set_solver.
Qed.
Lemma month_rows_ascending db ms me scope :
  relationships_ok db ->
  NoDup (month_rows db ms me scope) /\ StronglySorted (le_key (fun x => x)) (month_rows db ms me scope).
Proof.
  intros Hr. split; [|apply py_sorted_sorted]. unfold month_rows. apply py_sorted_NoDup.
  by apply NoDup_fmap_filter, month_join_NoDup.
Qed.

Lemma rows_after_ascending rows cursor :
  NoDup rows -> StronglySorted (le_key (fun x => x)) rows ->
  NoDup (rows_after rows cursor) /\ StronglySorted (le_key (fun x => x)) (rows_after rows cursor).
Proof.
  intros Hn Hs. split; [by apply NoDup_filter|]. unfold rows_after.
  induction Hs as [|x l Hs IH Hx]; [constructor|]. apply NoDup_cons in Hn as [_ Hn].
  rewrite filter_cons. case_decide; [|by apply IH]. constructor; [by apply IH|].
  rewrite Forall_forall in *. intros y [_ Hy]%list_elem_of_filter. by apply Hx.
Qed.
Lemma rows_after_later rows cursor c :
  c ∈ rows_after rows cursor -> rows_after rows (Some c) = rows_after (rows_after rows cursor) (Some c).
Proof.
  unfold rows_after. intros [Hc _]%list_elem_of_filter.
  induction rows as [|x rows IH]; [done|]. rewrite !filter_cons.
  destruct (decide (ltb c x = true)) as [Hx|Hx].
  - rewrite decide_True.
    + rewrite filter_cons_True by done. by rewrite IH.
    + destruct cursor as [c0|]; [|done]. rewrite !ltb_leb, !negb_true_iff in *.
      apply not_true_iff_false. intros Hle. apply not_true_iff_false in Hx. apply Hx.
      destruct (leb_total x c) as [|Hcx]; [done|].
      apply not_true_iff_false in Hc. destruct Hc. by eapply leb_trans.
  - case_decide; [|done]. by rewrite filter_cons_False.
Qed.
Lemma optional_uuid_ok o o' : optional_uuid o = Ok o' -> o' = o.
Proof.
  unfold optional_uuid. destruct o as [v|]; intros Ho; inv_ok Ho; [|done].
  by apply require_uuid4_ok in Ho0 as [-> _].
Qed.

Section paging.
Context `{Sha256}.

(** One page: the next [limit] rows, and a cursor exactly when more follow. *)
Lemma page_step db ms me scope cursor limit page :
  relationships_ok db ->
  list_report_date_month db ms me scope cursor limit = Ok page ->
  let rows := rows_after (month_rows db ms me scope) cursor in
  (0 < Z.to_nat limit)%nat /\
  traverse (get db) (take (Z.to_nat limit) rows) = Ok (page_items page) /\
  match page_next_cursor page with
  | None => (length rows <= Z.to_nat limit)%nat
  | Some c => (Z.to_nat limit < length rows)%nat /\
      rows_after (month_rows db ms me scope) (Some c) = drop (Z.to_nat limit) rows
  end.
Proof.
  intros Hr Hp rows. unfold list_report_date_month in Hp. inv_ok Hp. bool_hyps.
  apply optional_uuid_ok in Hp2 as ->. apply optional_uuid_ok in Hp3 as ->.
  set (n := Z.to_nat limit) in *. fold (rows_after (month_rows db ms me scope) cursor) in *.
  assert (Z.of_nat n = limit) as Hlim by (unfold n; lia).
  fold rows in Hp4 |- *. replace (Z.to_nat (limit + 1)) with (S n) in * by lia.
  rewrite take_take, Nat.min_l in Hp4 |- * by lia. split; [lia|]. split; [done|].
  destruct (month_rows_ascending db ms me scope Hr) as [Hn Hs].
  destruct (rows_after_ascending _ cursor Hn Hs) as [Hn' Hs']. fold rows in Hn', Hs'.
  rewrite length_take. destruct (Z.ltb_spec limit (Z.of_nat (S n `min` length rows))) as [Hlt|Hge]; cbn [page_next_cursor]; [|lia].
  destruct (last (take n rows)) as [c|] eqn:El.
  - split; [lia|]. apply last_Some in El as [pre Epre].
    assert (rows = pre ++ c :: drop n rows) as Erows.
    { rewrite <-(take_drop n rows) at 1. rewrite Epre. by rewrite <-app_assoc. }
    rewrite (rows_after_later _ cursor); fold rows.
    + rewrite Erows in Hs', Hn'. rewrite Erows at 1. unfold rows_after. by apply filter_after.
    + rewrite Erows. set_solver.
  - apply last_None in El. apply (f_equal length) in El. rewrite length_take in El. simpl in El. lia.
Qed.
(** The loop gathers what one pass over all rows in order gathers. *)
Lemma month_pages_ok `{Zone, FloatText} fuel db month ms me as_of scope cursor groups s s' g :
  relationships_ok (tickets db) ->
  month_pages fuel db month ms me as_of scope cursor groups s = (s', Ok g) ->
  exists inputs,
    traverse (get (tickets db)) (rows_after (month_rows (tickets db) ms me scope) cursor) = Ok inputs /\
    foldS (add_input db month ms me as_of) groups inputs s = (s', Ok g).
Proof.
  intros Hr. revert cursor groups s. induction fuel as [|fuel IH]; intros cursor groups s Hg; [done|].
  cbn [month_pages] in Hg. apply stm_bind_ok in Hg as (s1 & page & Hpage & Hg).
  apply lift_ok in Hpage as [-> Hpage]. apply stm_bind_ok in Hg as (s2 & groups' & Hfold & Hg).
  destruct (page_step _ _ _ _ _ _ _ Hr Hpage) as (_ & Hitems & Hnext).
  set (rows := rows_after _ cursor) in *. set (n := Z.to_nat page_limit) in *.
  destruct (page_next_cursor page) as [c|].
  - destruct Hnext as [_ Hnext]. destruct (IH _ _ _ Hg) as (inputs & Hin & Hf).
    rewrite Hnext in Hin. exists (page_items page ++ inputs). split.
    + rewrite <-(take_drop n rows). by apply traverse_app.
    + rewrite foldS_app. apply stm_bind_ok. by exists s2, groups'.
  - rewrite take_ge in Hitems by done. exists (page_items page). split; [done|].
    unfold mret, stM_ret in Hg. by injection Hg as <- <-.
Qed.
End paging.

(** * The projection of a month *)
Section projection.
Context `{Sha256, Zone, FloatText}.

(** An input whose calculation without a cache contributes [members]. *)
Definition contributes (db : SlaDb) (month : string) (ms me as_of : Z)
    (i : ServiceRequestSlaInput) (members : list CanonicalCohortMember) : Prop :=
  exists r rc, calculate db (in_service_request_id i) as_of (Some i) None = (rc, Ok r) /\
    result_members month ms me r = Ok members.

Lemma inputs_fold db month ms me as_of groups inputs c s' g :
  cache_coherent db c ->
  foldS (add_input db month ms me as_of) groups inputs (Some c) = (s', Ok g) ->
  exists mss, Forall2 (contributes db month ms me as_of) inputs mss /\
    g = foldl (group_add m_cohort_key) groups (mjoin mss).
Proof.
  revert groups c. induction inputs as [|i inputs IH]; intros groups c Hc Hg; simpl in Hg.
  { injection Hg as <- <-. exists []. by split. }
  apply stm_bind_ok in Hg as (s1 & g1 & Hone & Hg). unfold add_input in Hone.
  apply stm_bind_ok in Hone as (s2 & r & Hr & Hone).
  destruct (calculate_transparent db (in_service_request_id i) as_of (Some i)) as [_ Ht].
  destruct (Ht c Hc) as (c' & Hcalc & Hc'). rewrite Hcalc in Hr. injection Hr as <- Hr.
  apply stm_bind_ok in Hone as (s3 & ms1 & Hms & Hone). apply lift_ok in Hms as [-> Hms].
  injection Hone as <- <-. destruct (IH _ _ Hc' Hg) as (mss & Hmss & ->).
  exists (ms1 :: mss). split.
  - constructor; [|done]. exists r, (fst (calculate db (in_service_request_id i) as_of (Some i) None)).
    split; [|done]. by rewrite <-Hr; destruct (calculate _ _ _ _ None).
  - simpl. by rewrite foldl_app.
Qed.

(** The cohort [c] is that of the members with key [k]. *)
Definition cohort_of (month : string) (as_of : Z) (closed : bool)
    (members : list CanonicalCohortMember) (k : CohortKeyParts) (c : CohortProjection) : Prop :=
  exists first rest,
    py_sorted m_service_request_id (filter (fun m => m_cohort_key m = k) members) = first :: rest /\
    project_cohort month as_of closed k first rest = Ok c.

Lemma project_groups_ok month as_of closed members gs projected :
  Forall (fun g => g.2 = filter (fun m => m_cohort_key m = g.1) members /\ g.2 <> []) gs ->
  traverse (project_group month as_of closed) gs = Ok projected ->
  Forall2 (cohort_of month as_of closed members) gs.*1 (omap fst projected) /\
  mjoin projected.*2 ≡ₚ mjoin gs.*2.
Proof.
  intros Hgs Hp%traverse_ok. revert Hgs.
  induction Hp as [|[k g] [oc l] gs projected Hone _ IH]; intros Hgs; [by split|].
  apply Forall_cons in Hgs as [[Hg Hne] Hgs]. destruct (IH Hgs) as [Hc Hm]. simpl in Hg, Hne.
  unfold project_group in Hone. simpl in Hone.
  pose proof (py_sorted_perm m_service_request_id g) as Hperm.
  destruct (py_sorted m_service_request_id g) as [|first rest] eqn:Es.
  { apply Permutation_length in Hperm. by destruct g. }
  inv_ok Hone. split; csimpl.
  - constructor; [|done]. exists first, rest. done.
  - by rewrite Hm, <-Hperm.
Qed.
Lemma mjoin_perm {A} (l l' : list (list A)) : l ≡ₚ l' -> mjoin l ≡ₚ mjoin l'.
Proof.
  induction 1; simpl; [done|by f_equiv| |by etrans]. rewrite !app_assoc. f_equiv. apply Permutation_app_comm.
Qed.
Lemma project_month_ok month ms me as_of members p :
  project_month month ms me as_of (group_by m_cohort_key members) = Ok p ->
  mp_members p ≡ₚ members /\
  exists keys, NoDup keys /\ (forall k, k ∈ keys <-> exists m, m ∈ members /\ m_cohort_key m = k) /\
    Forall2 (cohort_of month as_of (me <=? as_of) members) keys (mp_cohorts p).
Proof.
  unfold project_month. intros Hp. inv_ok Hp. simpl.
  set (gs := py_sorted _ (group_by m_cohort_key members)) in *.
  assert (gs ≡ₚ group_by m_cohort_key members) as Hgs by apply py_sorted_perm.
  assert (Forall (fun g => g.2 = filter (fun m => m_cohort_key m = g.1) members /\ g.2 <> []) gs) as Hall.
  { rewrite Hgs. apply Forall_forall. intros [k g] Hin. by apply elem_of_group_by. }
  destruct (project_groups_ok _ _ _ _ _ _ Hall Hp0) as [Hc Hm]. split.
  - rewrite py_sorted_perm, Hm. rewrite <-(group_by_partition m_cohort_key members).
    apply mjoin_perm. by rewrite Hgs.
  - exists gs.*1. split; [rewrite Hgs; apply group_by_keys_NoDup|]. split; [|done].
    intros k. rewrite list_elem_of_fmap. setoid_rewrite Hgs. split.
    + intros ([k' g] & -> & [-> Hne]%elem_of_group_by). simpl.
      destruct (filter _ members) as [|m g] eqn:E; [done|].
      assert (m ∈ filter (fun m => m_cohort_key m = k') members) as Hin by (rewrite E; left).
      apply list_elem_of_filter in Hin as [? ?]. by exists m.
    + intros (m & Hm1 & <-). exists (m_cohort_key m, filter (fun m' => m_cohort_key m' = m_cohort_key m) members).
      split; [done|]. apply elem_of_group_by. split; [done|]. intros Hn.
      assert (m ∈ filter (fun m' => m_cohort_key m' = m_cohort_key m) members) as Hin
        by (by apply list_elem_of_filter). rewrite Hn in Hin. by apply elem_of_nil in Hin.
Qed.
End projection.

(** * What a cohort's state promises *)
(** How a member may end, its target met or not: final states stay, an
    exceeded active request cannot meet its target any more. *)
Inductive may_end : string -> bool -> Prop :=
| end_met : may_end "terminal_met" true
| end_exceeded : may_end "terminal_exceeded" false
| end_within b : may_end "active_within" b
| end_late : may_end "active_exceeded" false.

Definition state_of (m : CanonicalCohortMember) : string := individual_state (m_tier_result m).
(** One way all members may end. *)
Definition outcome (members : list CanonicalCohortMember) (os : list bool) : Prop :=
  Forall2 (fun m b => may_end (state_of m) b) members os.
Definition met_count (os : list bool) : Z := Z.of_nat (length (filter (fun b => b = true) os)).
(** The required share of the members met its target. *)
Definition target_met (required : Z) (os : list bool) : Prop :=
  required * Z.of_nat (length os) <= met_count os * _PERCENT_SCALE.

Lemma count_state_cons s m ms :
  count_state s (m :: ms) = (if decide (state_of m = s) then 1 else 0) + count_state s ms.
Proof.
  unfold count_state, state_of. rewrite filter_cons. case_decide; simpl; lia.
Qed.
Lemma count_state_nonneg s ms : 0 <= count_state s ms.
Proof. unfold count_state. lia. Qed.
Lemma known_state_cases s :
  known_state s = true ->
  s = "terminal_met" \/ s = "terminal_exceeded" \/ s = "active_within" \/ s = "active_exceeded".
Proof.
  unfold known_state. rewrite existsb_exists. intros (x & Hx & He). bool_hyps. subst x.
  simpl in Hx. naive_solver.
Qed.
Definition all_known (ms : list CanonicalCohortMember) : Prop :=
  Forall (fun m => known_state (state_of m) = true) ms.

Lemma counts_total ms :
  all_known ms ->
  count_state "terminal_met" ms + count_state "terminal_exceeded" ms
    + count_state "active_within" ms + count_state "active_exceeded" ms = Z.of_nat (length ms).
Proof.
  induction 1 as [|m ms Hm _ IH]; [done|]. rewrite !count_state_cons.
  apply known_state_cases in Hm. cbn [length].
  destruct Hm as [Hm|[Hm|[Hm|Hm]]]; rewrite Hm; simpl; lia.
Qed.
Lemma met_count_cons b os : met_count (b :: os) = (if b then 1 else 0) + met_count os.
Proof. unfold met_count. rewrite filter_cons. destruct b; simpl; lia. Qed.
Lemma outcome_bounds ms os :
  outcome ms os ->
  length os = length ms /\
  count_state "terminal_met" ms <= met_count os
    <= count_state "terminal_met" ms + count_state "active_within" ms.
Proof.
  induction 1 as [|m b ms os Hm _ [IHl IH]]; [done|]. rewrite met_count_cons, !count_state_cons.
  split; [simpl; lia|]. destruct Hm as [| |[]|]; simpl; lia.
Qed.
(** The outcome in which every undecided member ends as [b]. *)
Definition end_all (b : bool) (ms : list CanonicalCohortMember) : list bool :=
  map (fun m => String.eqb (state_of m) "terminal_met" ||
                (b && String.eqb (state_of m) "active_within")) ms.
Lemma outcome_end_all b ms :
  all_known ms ->
  outcome ms (end_all b ms) /\
  met_count (end_all b ms) = count_state "terminal_met" ms
    + if b then count_state "active_within" ms else 0.
Proof.
  unfold outcome, end_all. induction 1 as [|m ms Hm _ [IHo IHc]].
  { split; [constructor|by destruct b]. }
  cbn [map]. rewrite met_count_cons, IHc, !count_state_cons. apply known_state_cases in Hm.
  split; [constructor; [|done]|];
    (destruct Hm as [Hm|[Hm|[Hm|Hm]]]; rewrite Hm; destruct b; simpl; try constructor; lia).
Qed.
Lemma passes_percentage_le k n required :
  _passes_percentage k n required = true <-> required * n <= k * _PERCENT_SCALE.
Proof. unfold _passes_percentage. apply Z.leb_le. Qed.
Lemma Z_scale_mono a b : a <= b -> a * _PERCENT_SCALE <= b * _PERCENT_SCALE.
Proof. unfold _PERCENT_SCALE. lia. Qed.

(** Every outcome meets the target exactly when the lower bound passes, some
    outcome does exactly when the best possible one passes. *)
Lemma outcomes_by_bounds ms required :
  all_known ms ->
  let n := Z.of_nat (length ms) in
  let lower := count_state "terminal_met" ms in
  let best := lower + count_state "active_within" ms in
  ((forall os, outcome ms os -> target_met required os) <-> _passes_percentage lower n required = true) /\
  ((forall os, outcome ms os -> ~ target_met required os) <-> _passes_percentage best n required = false).
Proof.
  intros Hk n lower best. rewrite <-not_true_iff_false, !passes_percentage_le. unfold target_met.
  split; split.
  - intros Hall. destruct (outcome_end_all false ms Hk) as [Ho Hc].
    specialize (Hall _ Ho). destruct (outcome_bounds _ _ Ho) as [Hl _].
    rewrite Hl, Hc, Z.add_0_r in Hall. done.
  - intros Hle os Ho. destruct (outcome_bounds _ _ Ho) as [Hl [Hb _]]. rewrite Hl.
    pose proof (Z_scale_mono _ _ Hb). unfold lower, n. lia.
  - intros Hall Hle. destruct (outcome_end_all true ms Hk) as [Ho Hc].
    apply (Hall _ Ho). destruct (outcome_bounds _ _ Ho) as [Hl _]. by rewrite Hl, Hc.
  - intros Hno os Ho Hle. apply Hno. destruct (outcome_bounds _ _ Ho) as [Hl [_ Hb]].
    rewrite Hl in Hle. pose proof (Z_scale_mono _ _ Hb). unfold lower, best, n. lia.
Qed.

Section states.
Context `{Sha256, Zone, FloatText}.

(** What [project_cohort] computes from its members. *)
Record cohort_counts (closed : bool) (k : CohortKeyParts) (ms : list CanonicalCohortMember)
    (c : CohortProjection) : Prop := {
  counts_known : all_known ms;
  counts_key : encode_cohort_key k = Ok (c_cohort_key c);
  counts_denominator : c_denominator c = Z.of_nat (length ms);
  counts_met : c_terminal_met_count c = count_state "terminal_met" ms;
  counts_exceeded : c_terminal_exceeded_count c = count_state "terminal_exceeded" ms;
  counts_within : c_active_within_count c = count_state "active_within" ms;
  counts_late : c_active_exceeded_count c = count_state "active_exceeded" ms;
  counts_required : Forall (fun m => r_required_percentage_millionths (m_tier_result m)
    = c_required_percentage_millionths c) ms;
  counts_final : c_is_final c = closed && (count_state "active_within" ms =? 0)
    && (count_state "active_exceeded" ms =? 0);
  counts_state : c_state c = cohort_state (c_is_final c)
    (_passes_percentage (c_terminal_met_count c) (c_denominator c) (c_required_percentage_millionths c))
    (_passes_percentage (c_terminal_met_count c + c_active_within_count c) (c_denominator c)
       (c_required_percentage_millionths c))
    (c_terminal_exceeded_count c + c_active_exceeded_count c)
}.
Lemma project_cohort_ok month as_of closed k first rest c :
  project_cohort month as_of closed k first rest = Ok c -> cohort_counts closed k (first :: rest) c.
Proof.
  unfold project_cohort. intros Hc. inv_ok Hc. apply negb_false_iff in Hc0, Hc1.
  split; try done.
  - apply Forall_forall. intros m Hm. rewrite forallb_forall in Hc1. apply Hc1.
    by apply list_elem_of_In.
  - constructor; [done|]. apply Forall_forall. intros m Hm. rewrite forallb_forall in Hc0.
    apply list_elem_of_In, Hc0 in Hm. unfold same_authority in Hm. bool_hyps. done.
Qed.

(** C27.  A cohort is breached exactly when no way its open members may
    still end meets the required percentage, currently or finally met exactly
    when every way does, and finally met only when the month is over and no
    member is open; at risk and pending cohorts can still go either way. *)
Theorem cohort_state_exact (month : string) (as_of : Z) (closed : bool) (k : CohortKeyParts)
    (first : CanonicalCohortMember) (rest : list CanonicalCohortMember) (c : CohortProjection) :
  project_cohort month as_of closed k first rest = Ok c ->
  let members := first :: rest in
  let meets := target_met (c_required_percentage_millionths c) in
  (c_state c = "breached" <-> forall os, outcome members os -> ~ meets os) /\
  (c_state c = "currently_met" \/ c_state c = "final_met" <-> forall os, outcome members os -> meets os) /\
  (c_state c = "final_met" -> closed = true /\
     Forall (fun m => state_of m = "terminal_met" \/ state_of m = "terminal_exceeded") members) /\
  (c_state c = "at_risk" \/ c_state c = "pending" ->
     (exists os, outcome members os /\ meets os) /\ (exists os, outcome members os /\ ~ meets os)).
Proof.
  intros Hc%project_cohort_ok members meets. destruct Hc as [Hk _ Hd Hm _ Hw _ _ Hf Hs].
  fold members in Hk, Hd, Hm, Hw, Hf. rewrite Hm, Hw, Hd in Hs.
  destruct (outcomes_by_bounds members (c_required_percentage_millionths c) Hk) as [Hall Hnone].
  destruct (outcome_end_all true members Hk) as [Ho1 _].
  destruct (outcome_end_all false members Hk) as [Ho0 Hc0].
  set (lower := _passes_percentage _ _ _) in Hs, Hall.
  set (best := _passes_percentage _ _ _) in Hs, Hnone.
  assert (lower = true -> best = true) as Hlb.
  { intros Hl. apply not_false_iff_true. intros Hb. apply (proj2 Hnone Hb _ Ho0).
    by apply (proj2 Hall Hl). }
  unfold cohort_state in Hs.
  assert (forall os, outcome members os -> length os = length members) as Hlen
    by (intros os Ho; by apply outcome_bounds).
  split; [|split; [|split]].
  - unfold meets. rewrite Hnone, Hs. destruct lower, best, (c_is_final c); simpl; repeat case_match; naive_solver.
  - unfold meets. rewrite Hall, Hs. destruct lower, best, (c_is_final c); simpl; repeat case_match; naive_solver.
  - intros Hfin. assert (c_is_final c = true) as Hf1.
    { rewrite Hs in Hfin. destruct (c_is_final c); [done|]. simpl in Hfin. repeat case_match; done. }
    rewrite Hf in Hf1. assert (closed = true /\ count_state "active_within" members = 0 /\
      count_state "active_exceeded" members = 0) as (Hclosed & Hw0 & Hl0) by (by bool_hyps).
    split; [done|]. clear -Hk Hw0 Hl0. revert Hw0 Hl0. unfold all_known in Hk. induction Hk as [|m ms Hm _ IH]; [constructor|].
    rewrite !count_state_cons. pose proof (count_state_nonneg "active_within" ms).
    pose proof (count_state_nonneg "active_exceeded" ms). intros H1 H2.
    constructor; [|apply IH; repeat case_decide; lia].
    apply known_state_cases in Hm. destruct Hm as [Hm|[Hm|[Hm|Hm]]]; auto;
      rewrite Hm in *; simpl in *; lia.
  - intros Hopen.
    assert (lower = false /\ best = true) as [Hl Hb].
    { rewrite Hs in Hopen. destruct lower, best, (c_is_final c); simpl in Hopen; naive_solver. }
    unfold meets, target_met. split; [exists (end_all true members)|exists (end_all false members)].
    + split; [done|]. unfold best, _passes_percentage in Hb. apply Z.leb_le in Hb.
      rewrite (Hlen _ Ho1). destruct (outcome_end_all true members Hk) as [_ ->]. done.
    + split; [done|]. unfold lower, _passes_percentage in Hl. apply Z.leb_gt in Hl.
      rewrite (Hlen _ Ho0), Hc0. lia.
Qed.
End states.

(** * A whole month *)
Section month.
Context `{Sha256, Zone, FloatText}.

Definition coherent_or_none (db : SlaDb) (rc : option IndividualSlaReadCache) : Prop :=
  match rc with Some c => cache_coherent db c | None => True end.

(** The inputs of the month and the members each contributes. *)
Record month_basis (db : SlaDb) (month : string) (as_of : Z) (scope : option string)
    (p : CohortMonthProjection) (inputs : list ServiceRequestSlaInput)
    (contributions : list (list CanonicalCohortMember)) : Prop := {
  mb_bounds : canonical_month_bounds month = Ok (mp_month_start_utc p, mp_month_end_utc p);
  mb_inputs : Forall2 (fun sr i => get (tickets db) sr = Ok i)
    (month_rows (tickets db) (mp_month_start_utc p) (mp_month_end_utc p) scope) inputs;
  mb_members : Forall2 (contributes db month (mp_month_start_utc p) (mp_month_end_utc p) as_of)
    inputs contributions;
  mb_all : mp_members p ≡ₚ mjoin contributions;
  mb_cohorts : exists keys, NoDup keys /\
    (forall k, k ∈ keys <-> exists m, m ∈ mjoin contributions /\ m_cohort_key m = k) /\
    Forall2 (cohort_of month as_of (mp_month_end_utc p <=? as_of) (mjoin contributions)) keys
      (mp_cohorts p)
}.

Lemma empty_cache_coherent db : cache_coherent db empty_cache.
Proof. split; intros *; discriminate. Qed.

Lemma calculate_month_ok db month as_of scope rc rc' p :
  relationships_ok (tickets db) -> coherent_or_none db rc ->
  calculate_month db month as_of scope rc = (rc', Ok p) ->
  exists inputs contributions, month_basis db month as_of scope p inputs contributions.
Proof.
  intros Hrel Hrc Hp. unfold calculate_month in Hp. destruct (as_of <? 0) eqn:Ea; [done|].
  assert (exists c c', cache_coherent db c /\
    calculate_month_cached db month as_of scope (Some c) = (c', Ok p)) as (c & c' & Hc & Hm).
  { destruct rc as [c|]; [by exists c, rc'|]. exists empty_cache.
    destruct (calculate_month_cached _ _ _ _ (Some empty_cache)) as [c' r]. simpl in Hp.
    injection Hp as _ ->. exists c'. split; [apply empty_cache_coherent|done]. }
  unfold calculate_month_cached in Hm. apply stm_bind_ok in Hm as (s1 & [ms me] & Hb & Hm).
  apply lift_ok in Hb as [-> Hb]. apply stm_bind_ok in Hm as (s2 & g & Hg & Hm).
  apply lift_ok in Hm as [-> Hproj].
  apply month_pages_ok in Hg as (inputs & Hin & Hfold); [|done].
  destruct (inputs_fold _ _ _ _ _ _ _ _ _ _ Hc Hfold) as (mss & Hmss & ->).
  destruct (project_month_ok _ _ _ _ _ _ Hproj) as (Hmem & Hcoh).
  assert (mp_month_start_utc p = ms /\ mp_month_end_utc p = me) as [<- <-]
    by (unfold project_month in Hproj; inv_ok Hproj; done).
  exists inputs, mss. split; try done.
  apply traverse_ok in Hin. unfold rows_after in Hin. by rewrite filter_all in Hin.
Qed.

Lemma sum_filter_keys (keys : list CohortKeyParts) (members : list CanonicalCohortMember) :
  NoDup keys -> (forall k, k ∈ keys <-> exists m, m ∈ members /\ m_cohort_key m = k) ->
  foldr (fun k n => Z.of_nat (length (filter (fun m => m_cohort_key m = k) members)) + n) 0 keys
  = Z.of_nat (length members).
Proof.
  intros Hn Hk. assert (forall m, m ∈ members -> m_cohort_key m ∈ keys) as Hin
    by (intros m Hm; apply Hk; eauto).
  clear Hk. revert members Hin. induction keys as [|k keys IH]; intros members Hin; simpl.
  { destruct members as [|m]; [done|]. exfalso. by eapply not_elem_of_nil, (Hin m); left. }
  apply NoDup_cons in Hn as [Hnk Hn].
  rewrite <-(filter_app_complement (fun m => m_cohort_key m = k) members) at 2.
  rewrite length_app, Nat2Z.inj_add. f_equal. rewrite <-(IH Hn (filter (fun m => ~ m_cohort_key m = k) members)).
  - clear -Hnk. induction keys as [|k' keys IH]; [done|]. simpl. rewrite IH by set_solver.
    f_equal. rewrite list_filter_filter. do 2 f_equal. apply list_filter_iff. set_solver.
  - intros m [Hne Hm]%list_elem_of_filter. specialize (Hin m Hm). set_solver.
Qed.
End month.

(** * The paging loop ends *)
Section termination.
Context `{Sha256, Zone, FloatText}.

Lemma require_uuid4_fuel v : raises_only has_fuel (require_uuid4 v).
Proof. unfold require_uuid4. has_fuel. Qed.
Lemma canonical_json_fuel v : raises_only has_fuel (canonical_json_bytes v).
Proof. unfold canonical_json_bytes. has_fuel. Qed.
Hint Resolve require_uuid4_fuel canonical_json_fuel : fuel.
Lemma sha256_fuel v : raises_only has_fuel (sha256_canonical_json v).
Proof. unfold sha256_canonical_json. has_fuel. Qed.
Hint Resolve sha256_fuel : fuel.
Lemma optional_uuid_fuel o : raises_only has_fuel (optional_uuid o).
Proof. unfold optional_uuid. has_fuel. Qed.
Lemma relationship_fuel db sr : raises_only has_fuel (_current_relationship db sr).
Proof. unfold _current_relationship. has_fuel. Qed.
Lemma field_fuel db sr o f k : raises_only has_fuel (_field db sr o f k).
Proof. unfold _field. has_fuel. Qed.
Hint Resolve optional_uuid_fuel relationship_fuel field_fuel : fuel.
Lemma load_fields_fuel db sr : raises_only has_fuel (load_fields db sr).
Proof. unfold load_fields. has_fuel. Qed.
Lemma severity_fuel s : raises_only has_fuel (severity_of s).
Proof. unfold severity_of. has_fuel. Qed.
Lemma status_fuel s : raises_only has_fuel (status_class_of s).
Proof. unfold status_class_of. has_fuel. Qed.
Lemma endpoint_fuel db sr s : raises_only has_fuel (_terminal_endpoint db sr s).
Proof. unfold _terminal_endpoint, endpoint_candidates. has_fuel. Qed.
Hint Resolve load_fields_fuel severity_fuel status_fuel endpoint_fuel : fuel.
Lemma get_fuel db sr : raises_only has_fuel (get db sr).
Proof. unfold get. has_fuel. Qed.
Hint Resolve get_fuel : fuel.
Lemma list_fuel db ms me scope cursor limit :
  raises_only has_fuel (list_report_date_month db ms me scope cursor limit).
Proof. unfold list_report_date_month. has_fuel. Qed.
Lemma classification_fuel db sr : raises_only has_fuel (_classification db sr).
Proof. unfold _classification. has_fuel. Qed.
Lemma py_fraction_fuel n d : raises_only has_fuel (py_fraction n d).
Proof. unfold py_fraction. has_fuel. Qed.
Hint Resolve list_fuel classification_fuel py_fraction_fuel : fuel.
Lemma empty_result_fuel i t cs ks c ek : raises_only has_fuel (_empty_result i t cs ks c ek).
Proof. unfold _empty_result. has_fuel. Qed.
Lemma endpoint_of_fuel i t : raises_only has_fuel (endpoint_of i t).
Proof. unfold endpoint_of. has_fuel. Qed.
Lemma elapsed_fuel i e r : raises_only has_fuel (effective_elapsed i e r).
Proof. unfold effective_elapsed. has_fuel. Qed.
Lemma tier_result_fuel t e r : raises_only has_fuel (tier_result t e r).
Proof. unfold tier_result. has_fuel. Qed.
Lemma supplied_fuel db sr i : raises_only has_fuel (supplied_input db sr i).
Proof. unfold supplied_input. has_fuel. Qed.
Lemma policy_owner_fuel db r : st_raises_only has_fuel (policy_owner db r).
Proof. intros s. unfold policy_owner. case_match; apply raises_ok. Qed.
Lemma policy_tiers_fuel db r v : st_raises_only has_fuel (policy_tier_rows db r v).
Proof. intros s. unfold policy_tier_rows. case_match; apply raises_ok. Qed.
Hint Resolve empty_result_fuel endpoint_of_fuel elapsed_fuel tier_result_fuel supplied_fuel
  policy_owner_fuel policy_tiers_fuel : fuel.
Lemma calculate_fuel db sr t i : st_raises_only has_fuel (calculate db sr t i).
Proof. unfold calculate, calculate_tiers. has_fuel. Qed.
Lemma result_members_fuel month ms me r : raises_only has_fuel (result_members month ms me r).
Proof. unfold result_members. has_fuel. Qed.
Hint Resolve calculate_fuel result_members_fuel : fuel.
Lemma add_input_fuel db month ms me t g i : st_raises_only has_fuel (add_input db month ms me t g i).
Proof. unfold add_input. has_fuel. Qed.
Lemma bounds_fuel month : raises_only has_fuel (canonical_month_bounds month).
Proof. unfold canonical_month_bounds, _guayaquil_timezone. has_fuel. Qed.
Hint Resolve bounds_fuel : fuel.
Lemma encode_fuel k : raises_only has_fuel (encode_cohort_key k).
Proof. unfold encode_cohort_key. has_fuel. Qed.
Hint Resolve encode_fuel : fuel.
Lemma project_month_fuel month ms me t g : raises_only has_fuel (project_month month ms me t g).
Proof. unfold project_month, project_group, project_cohort, _percentage_fraction. has_fuel. Qed.
Hint Resolve project_month_fuel : fuel.

Lemma month_pages_fuel fuel db month ms me as_of scope cursor groups s :
  relationships_ok (tickets db) ->
  (length (rows_after (month_rows (tickets db) ms me scope) cursor) < fuel)%nat ->
  raises_only has_fuel (snd (month_pages fuel db month ms me as_of scope cursor groups s)).
Proof.
  intros Hr. revert cursor groups s. induction fuel as [|fuel IH]; intros cursor groups s Hf; [lia|].
  cbn [month_pages]. unfold mbind at 1, stM_bind, lift.
  destruct (list_report_date_month (tickets db) ms me scope cursor page_limit) as [page|e] eqn:Ep;
    [|intros e' [= <-]; by apply (list_fuel (tickets db) ms me scope cursor page_limit)].
  destruct (page_step _ _ _ _ _ _ _ Hr Ep) as (Hpos & _ & Hnext).
  unfold mbind, stM_bind.
  pose proof (st_raises_foldS has_fuel (add_input db month ms me as_of) groups (page_items page)
    (fun b x => add_input_fuel db month ms me as_of b x) s) as Hfold.
  destruct (foldS _ groups (page_items page) s) as [s1 [g1|e]]; [|intros e' [= <-]; by apply Hfold].
  destruct (page_next_cursor page) as [c|]; [|apply raises_ok].
  apply IH. destruct Hnext as [Hlt Hdrop]. rewrite Hdrop, length_drop. lia.
Qed.

(** C34.  The paging loop ends: for a database that respects the unique
    active relationship index, the month calculation always returns a
    projection or one of the program's own errors within one page per row. *)
Theorem calculate_month_terminates (db : SlaDb) (month : string) (as_of : Z)
    (scope : option string) (rc : option IndividualSlaReadCache) :
  relationships_ok (tickets db) ->
  snd (calculate_month db month as_of scope rc) <> out_of_fuel.
Proof.
  intros Hr.
  assert (forall rc, raises_only has_fuel (snd (calculate_month_cached db month as_of scope rc))) as Hc.
  { intros s. unfold calculate_month_cached, mbind, stM_bind, lift.
    pose proof (bounds_fuel month) as Hb.
    destruct (canonical_month_bounds month) as [[ms me]|e]; [|intros e' [= <-]; by apply Hb].
    pose proof (month_pages_fuel (month_fuel db ms me scope) db month ms me as_of scope None [] s Hr) as Hp.
    destruct (month_pages _ _ _ _ _ _ _ _ _ s) as [s1 [g|e]]; [apply project_month_fuel|].
    intros e' [= <-]. apply Hp; [|done]. unfold month_fuel, rows_after. rewrite filter_all by done. lia. }
  unfold calculate_month. destruct (as_of <? 0); [done|].
  intros He. destruct rc as [c|]; [specialize (Hc (Some c))|specialize (Hc (Some empty_cache))];
    simpl in He; rewrite He in Hc; exact (Hc _ eq_refl eq_refl).
Qed.
End termination.

(** A month's projection stands on every request whose usable report
    date lies in the month and the scope, each read once: its members are,
    up to order, exactly the tier results those requests contribute, each in
    the one cohort of its key, and the cohorts' denominators add up to the
    number of members.  A coherent shared cache changes none of it. *)
Theorem month_covers_requests `{Sha256, Zone, FloatText} (db : SlaDb) (month : string) (as_of : Z)
    (scope : option string) (rc rc' : option IndividualSlaReadCache) (p : CohortMonthProjection) :
  relationships_ok (tickets db) -> coherent_or_none db rc ->
  calculate_month db month as_of scope rc = (rc', Ok p) ->
  (exists inputs contributions, month_basis db month as_of scope p inputs contributions) /\
  foldr (fun c n => c_denominator c + n) 0 (mp_cohorts p) = Z.of_nat (length (mp_members p)).
Proof.
  intros Hrel Hrc Hp. destruct (calculate_month_ok _ _ _ _ _ _ _ Hrel Hrc Hp) as (inputs & mss & B).
  split; [by exists inputs, mss|]. destruct B as [_ _ _ Hall (keys & Hn & Hk & Hc)].
  rewrite Hall, <-(sum_filter_keys keys (mjoin mss) Hn Hk). clear Hn Hk.
  induction Hc as [|k c keys cs (first & rest & Hs & Hproj) Hc IH]; [done|]. simpl. rewrite IH.
  f_equal. apply project_cohort_ok in Hproj. rewrite (counts_denominator _ _ _ _ Hproj), <-Hs.
  by rewrite py_sorted_length.
Qed.

(** * Breached stays breached *)
Section ageing.
Context `{Sha256, Zone, FloatText}.

Definition member_ages (m m' : CanonicalCohortMember) : Prop :=
  m_cohort_key m = m_cohort_key m' /\ m_service_request_id m = m_service_request_id m' /\
  tier_ages (m_tier_result m) (m_tier_result m').

Lemma contributes_ages db month ms me as_of as_of' i l l' :
  as_of <= as_of' ->
  contributes db month ms me as_of i l -> contributes db month ms me as_of' i l' ->
  Forall2 member_ages l l'.
Proof.
  intros Hle (r & rc & Hr & Hl) (r' & rc' & Hr' & Hl'). unfold result_members in Hl, Hl'.
  destruct (String.eqb (i_calculation_state r) "calculable") eqn:Es; simpl in Hl.
  - apply String.eqb_eq in Es.
    destruct (calculate_calculable _ _ _ _ _ _ Hr Es) as (? & ? & ? & ? & ? & ? & ? & ? & B).
    pose proof (basis_still_calculable _ _ _ _ _ _ _ _ _ _ _ _ _ _ _ _ B Hr') as Es'.
    rewrite Es' in Hl'. simpl in Hl'.
    destruct (calculate_ages _ _ _ _ _ _ _ _ _ Hle Hr Es Hr' Es')
      as (Eid & Ec & Ek & El & Ep & Ev & Ed & Est & Ht).
    rewrite <-Est, <-Ec, <-Ek, <-El, <-Ep, <-Ev, <-Ed in Hl'.
    destruct (String.eqb (i_status_class r) "cancelled"); [by injection Hl as <-; injection Hl' as <-|].
    inv_ok Hl. inv_ok Hl'. clear -Ht Eid. induction Ht as [|t t' ts ts' Ht _ IH]; [constructor|].
    constructor; [|done]. destruct Ht as [Hid Ht]. unfold member_ages, cohort_member. simpl.
    split; [by rewrite Hid|]. split; [done|]. by split.
  - injection Hl as <-. destruct (String.eqb (i_calculation_state r') "calculable") eqn:Es'.
    + apply String.eqb_eq in Es'.
      destruct (calculate_calculable _ _ _ _ _ _ Hr' Es') as (? & ? & ? & ? & ? & ? & ? & ? & B).
      apply (basis_still_calculable _ _ _ as_of _ _ _ _ _ _ _ _ _ _ _ _ B) in Hr.
      by rewrite Hr in Es.
    + simpl in Hl'. by injection Hl' as <-.
Qed.

Lemma contributions_age db month ms me as_of as_of' inputs mss mss' :
  as_of <= as_of' ->
  Forall2 (contributes db month ms me as_of) inputs mss ->
  Forall2 (contributes db month ms me as_of') inputs mss' ->
  Forall2 member_ages (mjoin mss) (mjoin mss').
Proof.
  intros Hle H2 H2'. apply Forall2_mjoin. apply Forall2_flip in H2.
  refine (Forall2_trans _ _ _ _ _ _ _ H2 H2'). intros l i l' Hl Hl'. by eapply contributes_ages.
Qed.

(** Ageing moves members from within to late only. *)
Lemma counts_age ms ms' :
  Forall2 member_ages ms ms' ->
  length ms = length ms' /\
  count_state "terminal_met" ms = count_state "terminal_met" ms' /\
  count_state "terminal_exceeded" ms = count_state "terminal_exceeded" ms' /\
  count_state "active_within" ms' <= count_state "active_within" ms /\
  count_state "active_within" ms + count_state "active_exceeded" ms
    = count_state "active_within" ms' + count_state "active_exceeded" ms'.
Proof.
  induction 1 as [|m m' ms ms' (_ & _ & _ & _ & _ & _ & Ha) _ IH]; [done|].
  rewrite !count_state_cons. unfold state_of. cbn [length]. destruct IH as (-> & -> & -> & ? & ?).
  destruct Ha as [->|[-> ->]]; simpl; [repeat case_decide; lia|lia].
Qed.
Lemma cohort_ages month as_of as_of' me members members' k c c' :
  as_of <= as_of' -> Forall2 member_ages members members' ->
  cohort_of month as_of (me <=? as_of) members k c ->
  cohort_of month as_of' (me <=? as_of') members' k c' ->
  c_cohort_key c = c_cohort_key c' /\ c_denominator c = c_denominator c' /\
  (c_state c = "breached" -> c_state c' = "breached") /\
  (c_state c = "final_met" -> c_state c' = "final_met").
Proof.
  intros Hle Hm (first & rest & Hs & Hp) (first' & rest' & Hs' & Hp').
  assert (Forall2 member_ages (first :: rest) (first' :: rest')) as Hl.
  { rewrite <-Hs, <-Hs'. apply Forall2_py_sorted; [by intros ? ? (_ & ? & _)|].
    apply Forall2_filter_related; [|done]. intros ? ? (-> & _). done. }
  apply project_cohort_ok in Hp as [_ Hk Hd Hme He Hw Ha Hrq Hf Hst].
  apply project_cohort_ok in Hp' as [_ Hk' Hd' Hme' He' Hw' Ha' Hrq' Hf' Hst'].
  assert (c_required_percentage_millionths c = c_required_percentage_millionths c') as Hreq.
  { apply Forall2_cons in Hl as [(_ & _ & _ & Hreq & _) _].
    apply Forall_cons in Hrq as [<- _]. apply Forall_cons in Hrq' as [<- _]. done. }
  destruct (counts_age _ _ Hl) as (Hlen & Hc1 & Hc2 & Hc3 & Hc4).
  split; [congruence|]. split; [congruence|].
  pose proof (count_state_nonneg "active_within" (first' :: rest')).
  pose proof (count_state_nonneg "active_exceeded" (first' :: rest')).
  rewrite <-Hreq, Hme', Hd', <-Hlen, <-Hc1, <-Hme, <-Hd in Hst'.
  set (low := _passes_percentage (c_terminal_met_count c) _ _) in *.
  split; intros Hold.
  - assert (_passes_percentage (c_terminal_met_count c + c_active_within_count c) (c_denominator c)
      (c_required_percentage_millionths c) = false /\ low = false) as [Hb Hlo].
    { rewrite Hst in Hold. unfold cohort_state in Hold.
      destruct (_passes_percentage (_ + _) _ _) eqn:Eb.
      { destruct (c_is_final c && low); [done|]. simpl in Hold. by repeat case_match. }
      split; [done|]. unfold low, _passes_percentage in *. apply Z.leb_gt in Eb. apply Z.leb_gt.
      pose proof (count_state_nonneg "active_within" (first :: rest)). unfold _PERCENT_SCALE in *. lia. }
    rewrite Hst'. unfold cohort_state. rewrite Hlo, andb_false_r.
    replace (_passes_percentage (_ + _) _ _) with false; [done|]. symmetry.
    unfold _passes_percentage in *. apply Z.leb_gt in Hb. apply Z.leb_gt. unfold _PERCENT_SCALE in *. lia.
  - assert (c_is_final c = true /\ low = true) as [Hfi Hlo].
    { rewrite Hst in Hold. unfold cohort_state in Hold. destruct (c_is_final c), low; try done;
        simpl in Hold; by repeat case_match. }
    rewrite Hf in Hfi. rewrite Hst'. unfold cohort_state. rewrite Hlo, Hf'.
    replace (me <=? as_of') with true by (bool_hyps; lia).
    replace (count_state "active_within" (first' :: rest') =? 0) with true by (bool_hyps; lia).
    by replace (count_state "active_exceeded" (first' :: rest') =? 0) with true by (bool_hyps; lia).
Qed.
End ageing.

(** As time passes without new evidence, the cohorts of a month
    stay the same, a breached one stays breached and a finally met one stays
    finally met. *)
Theorem month_states_age `{Sha256, Zone, FloatText} (db : SlaDb) (month : string) (as_of as_of' : Z)
    (scope : option string) rc rc' (p p' : CohortMonthProjection) :
  relationships_ok (tickets db) -> as_of <= as_of' ->
  calculate_month db month as_of scope None = (rc, Ok p) ->
  calculate_month db month as_of' scope None = (rc', Ok p') ->
  forall c, c ∈ mp_cohorts p ->
  exists c', c' ∈ mp_cohorts p' /\ c_cohort_key c' = c_cohort_key c /\
    c_denominator c' = c_denominator c /\
    (c_state c = "breached" -> c_state c' = "breached") /\
    (c_state c = "final_met" -> c_state c' = "final_met").
Proof.
  intros Hrel Hle Hp Hp' c Hc.
  destruct (calculate_month_ok _ _ _ _ None _ _ Hrel I Hp) as (inputs & mss & [Hb Hin Hms _ (keys & Hn & Hk & Hcs)]).
  destruct (calculate_month_ok _ _ _ _ None _ _ Hrel I Hp') as (inputs' & mss' & [Hb' Hin' Hms' _ (keys' & Hn' & Hk' & Hcs')]).
  rewrite Hb in Hb'. injection Hb' as Es Ee. rewrite <-Es, <-Ee in *.
  assert (inputs' = inputs) as ->.
  { apply traverse_ok in Hin. apply traverse_ok in Hin'. congruence. }
  pose proof (contributions_age _ _ _ _ _ _ _ _ _ Hle Hms Hms') as Hages.
  apply list_elem_of_lookup in Hc as [n Hn1].
  destruct (Forall2_lookup_r _ _ _ _ _ Hcs Hn1) as (k & Hkn & Hof).
  assert (k ∈ keys') as Hk1.
  { apply Hk'. apply list_elem_of_lookup_2, Hk in Hkn as (m & Hm & <-).
    apply list_elem_of_lookup in Hm as [j Hj].
    destruct (Forall2_lookup_l _ _ _ _ _ Hages Hj) as (m' & Hj' & (E & _)).
    exists m'. split; [by eapply list_elem_of_lookup_2|done]. }
  apply list_elem_of_lookup in Hk1 as [j Hj].
  destruct (Forall2_lookup_l _ _ _ _ _ Hcs' Hj) as (c' & Hj' & Hof').
  destruct (cohort_ages _ _ _ _ _ _ _ _ _ Hle Hages Hof Hof') as (E1 & E2 & E3).
  exists c'. split; [by eapply list_elem_of_lookup_2|]. done.
Qed.

(** * A concrete month *)
Module CohortExamples.
Import SlaExamples.
#[export] Instance zone : Zone := Some (fun _ => -18000).
#[export] Instance no_float : FloatText := fun _ => None.
Definition month_at (as_of : Z) : CohortMonthProjection :=
  match snd (calculate_month db "1970-01" as_of None None) with
  | Ok p => p
  | Raise _ => MkMonth "" "" 0 0 0 [] []
  end.
Definition members_at (as_of : Z) : list CanonicalCohortMember := mp_members (month_at as_of).
Lemma month_at_ok as_of :
  as_of = 18105 \/ as_of = 18106 ->
  calculate_month db "1970-01" as_of None None = (None, Ok (month_at as_of)).
Proof. intros [-> | ->]; vm_compute; reflexivity. Qed.
Lemma db_relationships : relationships_ok (tickets db).
Proof.
  intros sr. unfold active_relationships. simpl. rewrite filter_cons. case_decide; simpl; lia.
Qed.
End CohortExamples.
Import SlaExamples CohortExamples.

(** The pending cohort of 18105 is breached one second later. *)
Lemma month_states_age_witness :
  map c_state (mp_cohorts (month_at 18105)) = ["pending"] /\
  map c_state (mp_cohorts (month_at 18106)) = ["breached"] /\
  forall c, c ∈ mp_cohorts (month_at 18105) ->
    exists c', c' ∈ mp_cohorts (month_at 18106) /\ c_cohort_key c' = c_cohort_key c.
Proof.
  split; [vm_compute; reflexivity|]. split; [vm_compute; reflexivity|].
  intros c Hc.
  destruct (month_states_age db "1970-01" 18105 18106 None None None _ _ db_relationships
    ltac:(lia) (month_at_ok 18105 (or_introl eq_refl)) (month_at_ok 18106 (or_intror eq_refl)) c Hc)
    as (c' & Hin & Hk & _).
  exists c'. split; [exact Hin|exact Hk].
Defined.
Lemma month_covers_requests_witness :
  length (mp_members (month_at 18105)) = 1%nat /\
  foldr (fun c n => c_denominator c + n) 0 (mp_cohorts (month_at 18105)) = 1.
Proof.
  split; [vm_compute; reflexivity|].
  exact (proj2 (month_covers_requests db "1970-01" 18105 None None None _ db_relationships I
    (month_at_ok 18105 (or_introl eq_refl)))).
Defined.
Lemma calculate_month_terminates_witness :
  relationships_ok (tickets db) /\ snd (calculate_month db "1970-01" 18105 None None) <> out_of_fuel.
Proof.
  split; [exact db_relationships|]. exact (calculate_month_terminates db "1970-01" 18105 None None db_relationships).
Defined.
Lemma cohort_state_exact_witness :
  exists k first c, project_cohort "1970-01" 18106 false k first [] = Ok c /\ c_state c = "breached" /\
    forall os, outcome [first] os -> ~ target_met (c_required_percentage_millionths c) os.
Proof.
  destruct (members_at 18106) as [|first rest] eqn:Em; [vm_compute in Em; discriminate|].
  destruct (project_cohort "1970-01" 18106 false (m_cohort_key first) first []) as [c|e] eqn:Ec;
    [|vm_compute in Em; injection Em as <- <-; vm_compute in Ec; discriminate].
  exists (m_cohort_key first), first, c. split; [exact Ec|].
  assert (c_state c = "breached") as Hs.
  { vm_compute in Em. injection Em as <- <-. vm_compute in Ec. injection Ec as <-. reflexivity. }
  split; [exact Hs|]. exact (proj1 (proj1 (cohort_state_exact _ _ _ _ _ _ _ Ec)) Hs).
Defined.
