(* ===== verification/Jobs.v ===== *)
(** The durable job coordinator: [foundation/jobs/coordinator.py].

    [JobsDb] holds the tables [durable_jobs] and [job_attempts] of the
    migrations 0001 and 0008; [insert_job], [update_job] and [insert_row]
    are the statements, each refused by the tables' CHECK, UNIQUE and foreign
    key constraints ([json_valid] apart: only canonical JSON is written).
    Methods that open a unit of work roll back when they raise ([in_uow]); the
    others run in the caller's.  The clock reading and the new ids are inputs.

    A job type's callbacks are parameters, pure as their contract demands. *)
From S2P Require Import Prelude StrictJson Identifiers.

(** * Tables *)
Record JobRow := MkJob {
  job_type : string;
  contract_version : Z;
  state : string;
  created_at_utc : Z;
  updated_at_utc : Z;
  attempt_count : Z;
  next_attempt_at_utc : option Z;
  claimed_run_id : option string;
  claim_started_at_utc : option Z;
  payload_json : string;
  checkpoint_json : option string;
  last_error_code : option string;
  dedupe_sha256 : option string
}.
Record AttemptRow := MkAttempt {
  attempt_id : string;
  at_job_id : string;
  ordinal : Z;
  run_id : string;
  started_at_utc : Z;
  finished_at_utc : Z;
  outcome : string;
  error_code : option string
}.
Record JobsDb := MkJobsDb {
  durable_jobs : gmap string JobRow;
  job_attempts : list AttemptRow
}.
#[export] Instance JobRow_eq_dec : EqDecision JobRow.
Proof. solve_decision. Defined.
#[export] Instance AttemptRow_eq_dec : EqDecision AttemptRow.
Proof. solve_decision. Defined.

Definition in_states (states : list string) (s : string) : bool := existsb (String.eqb s) states.
Definition _NONTERMINAL_STATES : list string := ["queued"; "running"; "waiting_review"; "retry_wait"].
Definition terminal_states : list string := ["completed"; "failed"; "cancelled"].
Definition _COALESCIBLE_STATES : list string := _NONTERMINAL_STATES ++ ["completed"].
Definition _RECOVERY_STATES : list string := ["queued"; "retry_wait"; "waiting_review"; "failed"].
Definition is_active (r : JobRow) : bool := in_states _NONTERMINAL_STATES (state r).

(** ** Constraints *)
(** The CHECK constraints of [durable_jobs]. *)
Definition job_row_ok (r : JobRow) : bool :=
  (0 <? contract_version r) && in_states (_NONTERMINAL_STATES ++ terminal_states) (state r)
  && (0 <=? created_at_utc r) && (created_at_utc r <=? updated_at_utc r) && (0 <=? attempt_count r)
  && (if String.eqb (state r) "running"
      then bool_decide (is_Some (claimed_run_id r)) && bool_decide (is_Some (claim_started_at_utc r))
      else bool_decide (claimed_run_id r = None) && bool_decide (claim_started_at_utc r = None))
  && match dedupe_sha256 r with Some h => is_sha256 h | None => true end.
(** [uq_jobs_active_dedupe]: the identity two active jobs may not share. *)
Definition active_identity (r : JobRow) : option (string * Z * string) :=
  if is_active r then
    match dedupe_sha256 r with Some h => Some (job_type r, contract_version r, h) | None => None end
  else None.
Definition identity_free (db : JobsDb) (job_id : string) (r : JobRow) : bool :=
  match active_identity r with
  | None => true
  | Some i => bool_decide (map_Forall
      (fun j r' => j = job_id \/ active_identity r' <> Some i) (durable_jobs db))
  end.
(** The constraints of [job_attempts]. *)
Definition attempt_row_ok (db : JobsDb) (a : AttemptRow) : bool :=
  bool_decide (is_Some (durable_jobs db !! at_job_id a)) && (0 <? ordinal a)
  && (0 <=? started_at_utc a) && (started_at_utc a <=? finished_at_utc a)
  && in_states ["completed"; "failed"; "cancelled"; "interrupted"] (outcome a)
  && bool_decide (Forall (fun b => attempt_id b <> attempt_id a /\
       ~ (at_job_id b = at_job_id a /\ ordinal b = ordinal a)) (job_attempts db)).

(** ** Statements *)
Definition jobsM : Type -> Type := stM JobsDb.
Definition sql_error {A} : jobsM A := lift (Raise (PyExn "IntegrityError")).

Definition insert_job (job_id : string) (r : JobRow) : jobsM unit := fun db =>
  match durable_jobs db !! job_id with
  | Some _ => sql_error db
  | None =>
      if job_row_ok r && identity_free db job_id r
      then (MkJobsDb (<[job_id := r]> (durable_jobs db)) (job_attempts db), Ok tt)
      else sql_error db
  end.
(** [UPDATE durable_jobs SET ... WHERE job_id=? AND ...]; the number of rows
    changed. *)
Definition update_job (job_id : string) (where_ : JobRow -> bool) (set : JobRow -> JobRow)
    : jobsM Z := fun db =>
  match durable_jobs db !! job_id with
  | Some r =>
      if where_ r then
        if job_row_ok (set r) && identity_free db job_id (set r)
        then (MkJobsDb (<[job_id := set r]> (durable_jobs db)) (job_attempts db), Ok 1)
        else sql_error db
      else (db, Ok 0)
  | None => (db, Ok 0)
  end.
Definition insert_row (a : AttemptRow) : jobsM unit := fun db =>
  if attempt_row_ok db a
  then (MkJobsDb (durable_jobs db) (job_attempts db ++ [a]), Ok tt)
  else sql_error db.
Definition attempt_of (db : JobsDb) (job_id : string) (n : Z) : option AttemptRow :=
  head (filter (fun a => at_job_id a = job_id /\ ordinal a = n) (job_attempts db)).

(** * Contracts *)
Record StaleRecoveryDisposition := MkDisposition {
  d_state : string;
  d_next_attempt_at_utc : option Z;
  d_error_code : option string
}.
Record JobTypeContract (context : Type) := MkJobContract {
  jc_job_type : string;
  jc_contract_version : Z;
  validate_payload : json -> result unit;
  validate_checkpoint : json -> result unit;
  derive_dedupe_key : json -> result string;
  coalesce_states : list string;
  validate_failure : string -> Z -> Z -> option Z -> result unit;
  validate_cancellation : context -> string -> result unit;
  recover_stale : json -> option json -> Z -> Z -> result StaleRecoveryDisposition
}.
Arguments jc_job_type {_}. Arguments jc_contract_version {_}. Arguments validate_payload {_}.
Arguments validate_checkpoint {_}. Arguments derive_dedupe_key {_}. Arguments coalesce_states {_}.
Arguments validate_failure {_}. Arguments validate_cancellation {_}. Arguments recover_stale {_}.

Record DurableJobClaim := MkClaim {
  cl_job_id : string;
  cl_job_type : string;
  cl_contract_version : Z;
  cl_run_id : string;
  cl_attempt_ordinal : Z;
  cl_claim_started_at_utc : Z;
  cl_dedupe_sha256 : string;
  cl_payload_json : string;
  cl_checkpoint_json : option string
}.
Record DurableJobRecoverySummary := MkSummary {
  examined_count : Z;
  interrupted_count : Z;
  queued_count : Z;
  retry_wait_count : Z;
  waiting_review_count : Z;
  failed_count : Z;
  skipped_count : Z
}.
Record RestoreJobReconciliation := MkReconciliation {
  examined_nonterminal_count : Z;
  cancelled_count : Z;
  interrupted_attempt_count : Z;
  unchanged_terminal_count : Z
}.
Record DurableJobCancellationResult := MkCancellation {
  x_outcome : string;
  x_job_id : string;
  x_prior_state : string;
  x_resulting_state : string;
  claim_revoked : bool;
  cancelled_attempt_ordinal : option Z
}.

(** * Validation *)
Definition _MAX_JOB_TYPE_BYTES : Z := 256.
Definition _MAX_DEDUPE_KEY_BYTES : Z := 65536.
Definition _MAX_JOB_JSON_BYTES : Z := 65536.
Definition _MAX_JSON_DEPTH : Z := 8.
Definition _MAX_COLLECTION_ITEMS : Z := 512.
Definition _MAX_DEDUPE_ENVELOPE_BYTES : Z := _MAX_DEDUPE_KEY_BYTES * 6 + 2048.

Definition _validate_job_type (value : string) : result unit :=
  _ ← forbid (String.eqb value EmptyString)
    (ValidationError "durable job_type must be a nonempty string");
  forbid (_MAX_JOB_TYPE_BYTES <? utf8_length value) (ValidationError "durable job_type exceeds bound").
Definition _validate_dedupe_key (value : string) : result unit :=
  _ ← forbid (String.eqb value EmptyString)
    (ValidationError "durable job dedupe_key must be a nonempty string");
  _ ← forbid (negb (utf8_encodable value))
    (ValidationError "durable job dedupe_key must be valid UTF-8");
  forbid (_MAX_DEDUPE_KEY_BYTES <? utf8_length value)
    (ValidationError "durable job dedupe_key exceeds bound").
(** [^[A-Z][A-Z0-9_]{0,63}$] *)
Definition is_upper (c : Ascii.ascii) : bool := (65 <=? byte_of c) && (byte_of c <=? 90).
Definition _ERROR_CODE (value : string) : bool :=
  match value with
  | String c rest => is_upper c
      && all_chars (fun c => is_upper c || is_digit c || is_char 95 c) rest
      && (utf8_length rest <=? 63)
  | EmptyString => false
  end.
Definition _validate_error_code (value : string) : result unit :=
  forbid (negb (_ERROR_CODE value))
    (ValidationError "durable job error_code must be stable uppercase token <=64 chars").
Definition _validate_time (value : Z) (name : string) : result unit :=
  forbid (value <? 0) (ValidationError (name +:+ " must be a nonnegative whole-second UTC epoch")).
Definition _now (clock : Z) : result Z :=
  _ ← _validate_time clock "server time"; Ok clock.

(** [except SomaError: raise; except Exception: raise error]. *)
Definition wrap_exceptions {A} (error : SomaError) (r : result A) : result A :=
  match r with Raise (PyExn _) => raise error | r => r end.
(** [except Exception: raise IntegrityFailure(m)]. *)
Definition to_integrity {A} (m : string) (r : result A) : result A :=
  rethrow (fun _ => Soma (IntegrityFailure m)) r.
(** [except Exception as exc: if isinstance(exc, IntegrityFailure): raise;
    raise IntegrityFailure(m)]. *)
Definition is_integrity (e : exn) : bool :=
  match e with Soma e => String.eqb (code e) "INTEGRITY_FAILURE" | PyExn _ => false end.
Definition keep_integrity {A} (m : string) (r : result A) : result A :=
  rethrow (fun e => if is_integrity e then e else Soma (IntegrityFailure m)) r.
Definition persisted_error (persisted : bool) (m : string) : SomaError :=
  if persisted then IntegrityFailure m else ValidationError m.
Definition _require_uuid_persisted (value label : string) : result string :=
  match require_uuid4 value with
  | Ok v => Ok v
  | Raise _ => raise (IntegrityFailure ("persisted " +:+ label +:+ " is not canonical UUIDv4"))
  end.

Definition canonical_text (v : json) : result string :=
  canonical_json_bytes_bounded v _MAX_JOB_JSON_BYTES _MAX_JSON_DEPTH _MAX_COLLECTION_ITEMS.

Section contracts.
Context `{Sha256, FloatText} {context : Type}.

Definition JobTypeRegistry := list ((string * Z) * JobTypeContract context).

Definition _validated_contract (c : JobTypeContract context) : result (JobTypeContract context) :=
  _ ← _validate_job_type (jc_job_type c);
  _ ← forbid (jc_contract_version c <? 1)
    (ValidationError "durable job contract_version must be int>=1");
  _ ← forbid (negb (forallb (in_states (coalesce_states c)) _NONTERMINAL_STATES)
              || negb (forallb (in_states _COALESCIBLE_STATES) (coalesce_states c)))
    (ValidationError "durable job coalesce_states must include every active state and may additionally include completed");
  Ok c.
Definition register (registry : JobTypeRegistry) (c : JobTypeContract context)
    : result JobTypeRegistry :=
  c ← _validated_contract c;
  let key := (jc_job_type c, jc_contract_version c) in
  _ ← forbid (bool_decide (is_Some (dget key registry)))
    (ValidationError "duplicate durable job type/version registration");
  Ok (dset key c registry).
(** [JobTypeRegistry(contracts)]. *)
Definition make_registry (contracts : list (JobTypeContract context)) : result JobTypeRegistry :=
  foldM register [] contracts.
Definition registry_get (registry : JobTypeRegistry) (type_ : string) (version : Z)
    : option (JobTypeContract context) := dget (type_, version) registry.
Definition registry_require (registry : JobTypeRegistry) (type_ : string) (version : Z)
    : result (JobTypeContract context) :=
  match registry_get registry type_ version with
  | Some c => Ok c
  | None => raise (ValidationError "unknown durable job type/version")
  end.

Definition _canonical_payload (c : JobTypeContract context) (payload : json) (persisted : bool)
    : result string :=
  wrap_exceptions (persisted_error persisted "durable job payload violates registered contract")
    (_ ← validate_payload c payload; canonical_text payload).
Definition _canonical_checkpoint (c : JobTypeContract context) (checkpoint : json) (persisted : bool)
    : result string :=
  wrap_exceptions (persisted_error persisted "durable job checkpoint violates registered contract")
    (_ ← validate_checkpoint c checkpoint; canonical_text checkpoint).
Definition _parse_canonical_json (text label : string) : result json :=
  '(value, encoded) ← to_integrity ("persisted durable job " +:+ label +:+ " is invalid canonical JSON")
    (value ← loads_canonical_json text _MAX_JOB_JSON_BYTES _MAX_JSON_DEPTH _MAX_COLLECTION_ITEMS;
     encoded ← canonical_text value; Ok (value, encoded));
  _ ← forbid (negb (String.eqb encoded text))
    (IntegrityFailure ("persisted durable job " +:+ label +:+ " is noncanonical"));
  Ok value.
(** The value a pure callback leaves is the value it was given. *)
Definition _require_callback_did_not_mutate (value : json) (text label : string) : result unit :=
  after ← to_integrity ("durable job " +:+ label +:+ " mutated contract data unsafely")
    (canonical_text value);
  forbid (negb (String.eqb after text))
    (IntegrityFailure ("durable job " +:+ label +:+ " mutated contract data")).
Definition _derive_dedupe_key (c : JobTypeContract context) (payload : json) (persisted : bool)
    : result string :=
  match (key ← derive_dedupe_key c payload; _ ← _validate_dedupe_key key; Ok key) with
  | Ok key => Ok key
  | Raise (Soma e) => if persisted
      then raise (IntegrityFailure "persisted durable job cannot reproduce semantic dedupe key")
      else raise e
  | Raise (PyExn _) => raise (persisted_error persisted
      "durable job semantic dedupe key derivation failed")
  end.
Definition _load_registered_payload (c : JobTypeContract context) (text : string) : result json :=
  payload ← _parse_canonical_json text "payload";
  canonical ← keep_integrity "persisted durable job payload is not exact canonical contract data"
    (_canonical_payload c payload true);
  _ ← forbid (negb (String.eqb canonical text))
    (IntegrityFailure "persisted durable job payload is noncanonical");
  Ok payload.
Definition _load_registered_checkpoint (c : JobTypeContract context) (text : option string)
    : result (option json) :=
  match text with
  | None => Ok None
  | Some text =>
      checkpoint ← _parse_canonical_json text "checkpoint";
      canonical ← keep_integrity "persisted durable job checkpoint is invalid"
        (_canonical_checkpoint c checkpoint true);
      _ ← forbid (negb (String.eqb canonical text))
        (IntegrityFailure "persisted durable job checkpoint is noncanonical");
      Ok (Some checkpoint)
  end.
Definition _validate_persisted_checkpoint (c : JobTypeContract context) (text : option string)
    : result (option string) :=
  _ ← _load_registered_checkpoint c text; Ok text.

Definition _dedupe_sha256 (type_ : string) (version : Z) (key : string) : result string :=
  encoded ← canonical_json_bytes_bounded (JObj [
      ("schema", JStr "SOMA_DURABLE_JOB_DEDUPE_V1");
      ("job_type", JStr type_);
      ("contract_version", JInt version);
      ("dedupe_key", JStr key)]) _MAX_DEDUPE_ENVELOPE_BYTES 4 16;
  Ok (sha256_hexdigest encoded).

Definition _validate_failure_policy (c : JobTypeContract context) (code : string)
    (attempt_ordinal now : Z) (retry_at : option Z) : result unit :=
  wrap_exceptions (ValidationError "durable job failure request violates registered retry policy")
    (validate_failure c code attempt_ordinal now retry_at).
Definition _validate_cancellation_policy (c : JobTypeContract context) (command_context : context)
    (state : string) : result unit :=
  wrap_exceptions (ValidationError "durable job cancellation violates registered packet policy")
    (validate_cancellation c command_context state).
Definition _validate_recovery_disposition (d : StaleRecoveryDisposition) (now : Z) : result unit :=
  _ ← forbid (negb (in_states _RECOVERY_STATES (d_state d)))
    (IntegrityFailure "registered durable job crash policy returned invalid state");
  if String.eqb (d_state d) "retry_wait" then
    match d_next_attempt_at_utc d with
    | None => raise (IntegrityFailure "retry_wait recovery requires next_attempt_at_utc")
    | Some next =>
        _ ← _validate_time next "next_attempt_at_utc";
        forbid (next <? now) (IntegrityFailure "recovery retry time precedes recovery time")
    end
  else forbid (bool_decide (is_Some (d_next_attempt_at_utc d)))
    (IntegrityFailure "non-retry recovery state cannot carry next_attempt_at_utc").
End contracts.

(** * Statement helpers *)
(** [if _changes(connection) != 1: raise IntegrityFailure(m)]. *)
Definition require_one (m : string) (changed : Z) : jobsM unit :=
  lift (forbid (negb (changed =? 1)) (IntegrityFailure m)).
Definition query {A} (f : JobsDb -> A) : jobsM A := fun db => (db, Ok (f db)).

Definition _require_attempt_absent (job_id : string) (n : Z) : jobsM unit :=
  existing ← query (fun db => attempt_of db job_id n);
  lift (forbid (bool_decide (is_Some existing))
    (IntegrityFailure "durable job attempt ordinal already has terminal history")).
Definition _insert_attempt (new_id job_id : string) (n : Z) (run : string)
    (started finished : Z) (outcome_ : string) (error : option string) : jobsM unit :=
  _ ← lift (forbid (finished <? started)
    (IntegrityFailure "durable job attempt finish precedes claim start"));
  _ ← lift (match error with Some e => _validate_error_code e | None => Ok tt end);
  insert_row (MkAttempt new_id job_id n run started finished outcome_ error).
Definition same_interruption (a : AttemptRow) (run : string) (started : Z) (error : string) : bool :=
  String.eqb (run_id a) run && (started_at_utc a =? started)
  && String.eqb (outcome a) "interrupted"
  && String.eqb (default "None" (error_code a)) error.
Definition _insert_interrupted_if_absent (new_id job_id : string) (n : Z) (run : string)
    (started finished : Z) (error : string) : jobsM bool :=
  existing ← query (fun db => attempt_of db job_id n);
  match existing with
  | Some a =>
      if same_interruption a run started error then mret false
      else lift (raise (IntegrityFailure "durable job recovery found conflicting attempt history"))
  | None =>
      _ ← _insert_attempt new_id job_id n run started (Z.max finished started) "interrupted" (Some error);
      mret true
  end.

(** [SET state=?, claimed_run_id=NULL, claim_started_at_utc=NULL,
    next_attempt_at_utc=?, last_error_code=?, updated_at_utc=?]. *)
Definition release_row (s : string) (next : option Z) (error : option string) (now : Z) (r : JobRow)
    : JobRow :=
  MkJob (job_type r) (contract_version r) s (created_at_utc r) now (attempt_count r) next None None
    (payload_json r) (checkpoint_json r) error (dedupe_sha256 r).

(** [try: INSERT; except Exception: raise IntegrityFailure]. *)
Definition insert_or_integrity (job_id : string) (r : JobRow) : jobsM unit := fun db =>
  match insert_job job_id r db with
  | (db', Ok a) => (db', Ok a)
  | (db', Raise _) => (db', raise (IntegrityFailure
      "durable job enqueue violated persistence invariants"))
  end.

Section coordinator.
Context `{Sha256, FloatText} {context : Type} (registry : @JobTypeRegistry context).

(** ** Enqueueing *)
Definition enqueue_matches (type_ : string) (version : Z) (hash : string) (states : list string)
    (db : JobsDb) : list (string * JobRow) :=
  take 2 (py_sorted fst (filter (fun jr =>
    job_type jr.2 = type_ /\ contract_version jr.2 = version /\ dedupe_sha256 jr.2 = Some hash /\
    in_states states (state jr.2) = true) (map_to_list (durable_jobs db)))).

Definition enqueue_or_coalesce (clock : Z) (new_id : string) (type_ : string) (version : Z)
    (payload : json) (dedupe_key : string) : jobsM string :=
  c ← lift (registry_require registry type_ version);
  text ← lift (_canonical_payload c payload false);
  exact_payload ← lift (_parse_canonical_json text "payload");
  semantic_key ← lift (_derive_dedupe_key c exact_payload false);
  _ ← lift (_require_callback_did_not_mutate exact_payload text "dedupe key derivation");
  _ ← lift (_validate_dedupe_key dedupe_key);
  _ ← lift (forbid (negb (String.eqb semantic_key dedupe_key))
    (ValidationError "durable job dedupe_key disagrees with registered payload contract"));
  hash ← lift (_dedupe_sha256 type_ version dedupe_key);
  rows ← query (enqueue_matches type_ version hash (coalesce_states c));
  match rows with
  | _ :: _ :: _ => lift (raise (IntegrityFailure
      "multiple durable jobs match one semantic coalescing identity"))
  | [(job_id, row)] =>
      _ ← lift (forbid (negb (bool_decide (dedupe_sha256 row = Some hash)))
        (IntegrityFailure "durable job dedupe identity changed during indexed lookup"));
      persisted_payload ← lift (_load_registered_payload c (payload_json row));
      persisted_key ← lift (_derive_dedupe_key c persisted_payload true);
      _ ← lift (_require_callback_did_not_mutate persisted_payload (payload_json row)
        "persisted dedupe key derivation");
      _ ← lift (forbid (negb (String.eqb persisted_key dedupe_key))
        (IntegrityFailure "durable job dedupe hash collision or payload/key disagreement"));
      _ ← lift (_require_uuid_persisted job_id "durable job_id");
      mret job_id
  | [] =>
      now ← lift (_now clock);
      _ ← insert_or_integrity new_id (MkJob type_ version "queued" now now 0 None None None
        text None None (Some hash));
      mret new_id
  end.

(** ** Claiming *)
Definition claimable (now : Z) (r : JobRow) : bool :=
  String.eqb (state r) "queued" ||
  (String.eqb (state r) "retry_wait" &&
   match next_attempt_at_utc r with Some t => t <=? now | None => false end).
(** [ORDER BY CASE WHEN next IS NULL THEN 0 ELSE 1 END, next, created, job_id]. *)
Definition claim_key (jr : string * JobRow) : Z * Z * Z * string :=
  (match next_attempt_at_utc jr.2 with None => 0 | Some _ => 1 end,
   default 0 (next_attempt_at_utc jr.2), created_at_utc jr.2, jr.1).
Definition claim_candidates (now : Z) (db : JobsDb) : list (string * JobRow) :=
  py_sorted claim_key (filter (fun jr => claimable now jr.2 = true) (map_to_list (durable_jobs db))).

Definition _fail_unclaimable (job_id : string) (now : Z) (error : string) : jobsM unit :=
  _ ← lift (_validate_error_code error);
  changed ← update_job job_id (fun r => in_states ["queued"; "retry_wait"] (state r))
    (fun r => release_row "failed" None (Some error) (Z.max (updated_at_utc r) now) r);
  require_one "unclaimable durable job disposition lost revalidation" changed.

(** The row an update of [claim_next] expects to find, and what it sets. *)
Definition claim_where (r0 r : JobRow) : bool :=
  String.eqb (state r) (state r0) && (attempt_count r =? attempt_count r0)
  && (updated_at_utc r =? updated_at_utc r0) && bool_decide (claimed_run_id r = None)
  && bool_decide (claim_started_at_utc r = None).
Definition claimed_row (run : string) (now n : Z) (r : JobRow) : JobRow :=
  MkJob (job_type r) (contract_version r) "running" (created_at_utc r) now n None (Some run)
    (Some now) (payload_json r) (checkpoint_json r) (last_error_code r) (dedupe_sha256 r).

(** The checks and the update on the selected row. *)
Definition claim_row (run : string) (now : Z) (job_id : string) (r : JobRow)
    : jobsM (option DurableJobClaim) :=
  _ ← lift (forbid (String.eqb (state r) "queued" && bool_decide (is_Some (next_attempt_at_utc r)))
    (IntegrityFailure "queued durable job carries unexpected retry timestamp"));
  _ ← lift (forbid (String.eqb (state r) "retry_wait" &&
      match next_attempt_at_utc r with None => true | Some t => now <? t end)
    (IntegrityFailure "durable retry_wait job was selected before it became due"));
  _ ← lift (forbid ((now <? created_at_utc r) || (now <? updated_at_utc r))
    (IntegrityFailure "durable job claim clock regressed"));
  match registry_get registry (job_type r) (contract_version r) with
  | None => _ ← _fail_unclaimable job_id now "JOB_CONTRACT_UNAVAILABLE"; mret None
  | Some c =>
      hash ← lift (match dedupe_sha256 r with
        | Some h => if is_sha256 h then Ok h
            else raise (IntegrityFailure "claimable durable job lacks valid migration-8 dedupe identity")
        | None => raise (IntegrityFailure
            "claimable durable job lacks valid migration-8 dedupe identity") end);
      payload ← lift (_load_registered_payload c (payload_json r));
      expected_key ← lift (_derive_dedupe_key c payload true);
      _ ← lift (_require_callback_did_not_mutate payload (payload_json r) "claim dedupe key derivation");
      expected_hash ← lift (_dedupe_sha256 (job_type r) (contract_version r) expected_key);
      _ ← lift (forbid (negb (String.eqb expected_hash hash))
        (IntegrityFailure "claimable durable job payload disagrees with dedupe identity"));
      checkpoint ← lift (_validate_persisted_checkpoint c (checkpoint_json r));
      _ ← lift (_require_uuid_persisted job_id "durable job_id");
      _ ← lift (forbid (attempt_count r <? 0)
        (IntegrityFailure "durable job attempt_count is invalid"));
      let n := attempt_count r + 1 in
      changed ← update_job job_id (claim_where r) (claimed_row run now n);
      _ ← require_one "durable job claim lost authoritative revalidation" changed;
      mret (Some (MkClaim job_id (job_type r) (contract_version r) run n now hash (payload_json r)
        checkpoint))
  end.
Definition claim_next (run : string) (now : Z) : jobsM (option DurableJobClaim) :=
  _ ← lift (require_uuid4 run);
  _ ← lift (_validate_time now "now");
  in_uow (
    candidates ← query (claim_candidates now);
    match candidates with
    | [] => mret None
    | (job_id, r) :: _ => claim_row run now job_id r
    end).

(** ** Working a claim *)
Definition _require_claim_contract (c : DurableJobClaim) : result (JobTypeContract context) :=
  _ ← require_uuid4 (cl_job_id c);
  _ ← require_uuid4 (cl_run_id c);
  _ ← forbid (cl_attempt_ordinal c <? 1)
    (ValidationError "durable job claim attempt_ordinal must be >=1");
  _ ← _validate_time (cl_claim_started_at_utc c) "claim_started_at_utc";
  _ ← forbid (negb (is_sha256 (cl_dedupe_sha256 c)))
    (ValidationError "durable job claim dedupe_sha256 is invalid");
  registry_require registry (cl_job_type c) (cl_contract_version c).

(** The row the claim names, still running under it. *)
Definition claim_matches (c : DurableJobClaim) (r : JobRow) : bool :=
  String.eqb (job_type r) (cl_job_type c) && (contract_version r =? cl_contract_version c)
  && String.eqb (state r) "running" && bool_decide (claimed_run_id r = Some (cl_run_id c))
  && (attempt_count r =? cl_attempt_ordinal c)
  && bool_decide (claim_started_at_utc r = Some (cl_claim_started_at_utc c)).
Definition claimed (c : DurableJobClaim) (db : JobsDb) : option JobRow :=
  r ← durable_jobs db !! cl_job_id c; if claim_matches c r then Some r else None.

Definition _verify_claim (c : DurableJobClaim) : jobsM JobRow :=
  row ← query (claimed c);
  lift (match row with
  | None => raise JobClaimConflict
  | Some r =>
      hash ← match dedupe_sha256 r with
        | Some h => if is_sha256 h then Ok h else raise (IntegrityFailure
            "durable job claim has invalid persisted dedupe identity")
        | None => raise (IntegrityFailure "durable job claim has invalid persisted dedupe identity")
        end;
      _ ← forbid (negb (String.eqb hash (cl_dedupe_sha256 c))
                  || negb (String.eqb (payload_json r) (cl_payload_json c)))
        (IntegrityFailure "durable job claim immutable identity changed");
      contract ← match registry_get registry (cl_job_type c) (cl_contract_version c) with
        | Some contract => Ok contract
        | None => raise (IntegrityFailure "durable job claim contract is unavailable") end;
      payload ← _load_registered_payload contract (payload_json r);
      semantic_key ← _derive_dedupe_key contract payload true;
      _ ← _require_callback_did_not_mutate payload (payload_json r) "claim dedupe key derivation";
      expected_hash ← _dedupe_sha256 (cl_job_type c) (cl_contract_version c) semantic_key;
      _ ← forbid (negb (String.eqb expected_hash hash))
        (IntegrityFailure "durable job claim payload disagrees with dedupe identity");
      _ ← _validate_persisted_checkpoint contract (checkpoint_json r);
      Ok r
  end).
Definition _require_nonregressing_now (now updated : Z) (c : DurableJobClaim) : result unit :=
  forbid ((now <? updated) || (now <? cl_claim_started_at_utc c))
    (IntegrityFailure "durable job coordinator clock regressed").

Definition assert_claim_current (c : DurableJobClaim) : jobsM (option string) :=
  _ ← lift (match _require_claim_contract c with
    | Ok contract => Ok contract
    | Raise (Soma e) => if String.eqb (code e) "VALIDATION_FAILED"
        then raise (IntegrityFailure "durable job claim contract is unavailable or invalid")
        else Raise (Soma e)
    | Raise e => Raise e end);
  row ← _verify_claim c;
  mret (checkpoint_json row).

Definition set_checkpoint (text : string) (now : Z) (r : JobRow) : JobRow :=
  MkJob (job_type r) (contract_version r) (state r) (created_at_utc r) now (attempt_count r)
    (next_attempt_at_utc r) (claimed_run_id r) (claim_started_at_utc r) (payload_json r) (Some text)
    (last_error_code r) (dedupe_sha256 r).
Definition checkpoint_in_uow (clock : Z) (c : DurableJobClaim) (checkpoint_ : json) : jobsM string :=
  contract ← lift (_require_claim_contract c);
  now ← lift (_now clock);
  row ← _verify_claim c;
  _ ← lift (_require_nonregressing_now now (updated_at_utc row) c);
  text ← lift (_canonical_checkpoint contract checkpoint_ false);
  _ ← update_job (cl_job_id c) (fun _ => true) (set_checkpoint text now);
  mret text.
Definition checkpoint (clock : Z) (c : DurableJobClaim) (checkpoint_ : json) : jobsM unit :=
  in_uow (_ ← checkpoint_in_uow clock c checkpoint_; mret tt).

Definition complete (clock : Z) (new_id : string) (c : DurableJobClaim) : jobsM unit :=
  _ ← lift (_require_claim_contract c);
  now ← lift (_now clock);
  in_uow (
    row ← _verify_claim c;
    _ ← lift (_require_nonregressing_now now (updated_at_utc row) c);
    _ ← _require_attempt_absent (cl_job_id c) (cl_attempt_ordinal c);
    _ ← _insert_attempt new_id (cl_job_id c) (cl_attempt_ordinal c) (cl_run_id c)
      (cl_claim_started_at_utc c) now "completed" None;
    _ ← update_job (cl_job_id c) (fun _ => true) (release_row "completed" None None now);
    mret tt).

Definition fail (clock : Z) (new_id : string) (c : DurableJobClaim) (error : string)
    (retry_at : option Z) : jobsM unit :=
  contract ← lift (_require_claim_contract c);
  now ← lift (_now clock);
  in_uow (
    row ← _verify_claim c;
    _ ← lift (_require_nonregressing_now now (updated_at_utc row) c);
    _ ← lift (_validate_error_code error);
    _ ← lift (match retry_at with
      | None => Ok tt
      | Some t =>
          _ ← _validate_time t "retry_at";
          forbid (t <? now) (ValidationError "durable job retry_at must not precede failure time")
      end);
    _ ← lift (_validate_failure_policy contract error (cl_attempt_ordinal c) now retry_at);
    _ ← _require_attempt_absent (cl_job_id c) (cl_attempt_ordinal c);
    _ ← _insert_attempt new_id (cl_job_id c) (cl_attempt_ordinal c) (cl_run_id c)
      (cl_claim_started_at_utc c) now "failed" (Some error);
    _ ← update_job (cl_job_id c) (fun _ => true)
      (release_row (match retry_at with Some _ => "retry_wait" | None => "failed" end) retry_at
        (Some error) now);
    mret tt).

(** ** Cancelling *)
(** The cancelled attempt of a running job. *)
Definition cancel_attempt (new_id : string) (now : Z) (job_id : string) (r : JobRow)
    : jobsM (option Z) :=
  if String.eqb (state r) "running" then
    match claimed_run_id r, claim_started_at_utc r with
    | Some run, Some started =>
        _ ← lift (forbid (attempt_count r <? 1)
          (IntegrityFailure "running durable job has incomplete claim evidence"));
        _ ← _require_attempt_absent job_id (attempt_count r);
        _ ← _insert_attempt new_id job_id (attempt_count r) run started now "cancelled" None;
        mret (Some (attempt_count r))
    | _, _ => lift (raise (IntegrityFailure "running durable job has incomplete claim evidence"))
    end
  else mret None.
Definition cancel (clock : Z) (new_id : string) (job_id : string) (expected_type : string)
    (expected_version : Z) (command_context : context) : jobsM DurableJobCancellationResult :=
  _ ← lift (require_uuid4 job_id);
  c ← lift (registry_require registry expected_type expected_version);
  row ← query (fun db => durable_jobs db !! job_id);
  match row with
  | None => lift (raise (ValidationError "durable job does not exist"))
  | Some r =>
      _ ← lift (forbid (negb (String.eqb (job_type r) (jc_job_type c))
                        || negb (contract_version r =? jc_contract_version c))
        (IntegrityFailure "durable job identity disagrees with cancellation expectation"));
      let prior := state r in
      _ ← lift (forbid (negb (in_states (_NONTERMINAL_STATES ++ terminal_states) prior))
        (IntegrityFailure "durable job has unknown persisted state"));
      if String.eqb prior "cancelled" then
        mret (MkCancellation "ALREADY_CANCELLED" job_id "cancelled" "cancelled" false None)
      else if in_states ["completed"; "failed"] prior then
        mret (MkCancellation "TERMINAL_UNCHANGED" job_id prior prior false None)
      else
        _ ← lift (_validate_cancellation_policy c command_context prior);
        now ← lift (_now clock);
        _ ← lift (forbid ((now <? created_at_utc r) || (now <? updated_at_utc r))
          (IntegrityFailure "durable job cancellation clock regressed"));
        cancelled ← cancel_attempt new_id now job_id r;
        _ ← update_job job_id (fun _ => true)
          (fun r => release_row "cancelled" None (last_error_code r) now r);
        mret (MkCancellation "CANCELLED" job_id prior "cancelled" (String.eqb prior "running") cancelled)
  end.

(** ** Recovery of stale claims *)
Definition zero_summary : DurableJobRecoverySummary := MkSummary 0 0 0 0 0 0 0.
(** [counts["x_count"] += n]. *)
Definition bump (what : string) (n : Z) (s : DurableJobRecoverySummary) : DurableJobRecoverySummary :=
  let add (w : string) (k : Z) := if String.eqb w what then k + n else k in
  MkSummary (add "examined" (examined_count s)) (add "interrupted" (interrupted_count s))
    (add "queued" (queued_count s)) (add "retry_wait" (retry_wait_count s))
    (add "waiting_review" (waiting_review_count s)) (add "failed" (failed_count s))
    (add "skipped" (skipped_count s)).

(** Sorted ids of the rows that satisfy [p]. *)
Definition list_job_ids (p : JobRow -> bool) (db : JobsDb) : list string :=
  py_sorted (fun j => j)
    (map fst (filter (fun jr => p jr.2 = true) (map_to_list (durable_jobs db)))).

Definition legacy_active (r : JobRow) : bool := bool_decide (dedupe_sha256 r = None) && is_active r.
(** The interrupted attempt of a running job without a dedupe identity. *)
Definition interrupt_legacy (ids : string -> string) (now : Z) (s : DurableJobRecoverySummary)
    (job_id : string) (r : JobRow) : jobsM DurableJobRecoverySummary :=
  if String.eqb (state r) "running" then
    match claimed_run_id r, claim_started_at_utc r with
    | Some run, Some started =>
        _ ← lift (forbid (attempt_count r <? 1)
          (IntegrityFailure "legacy running job has incomplete claim evidence"));
        inserted ← _insert_interrupted_if_absent (ids job_id) job_id (attempt_count r) run started now
          "LEGACY_JOB_DEDUPE_UNAVAILABLE";
        mret (bump "interrupted" (if (inserted : bool) then 1 else 0) s)
    | _, _ => lift (raise (IntegrityFailure "legacy running job has incomplete claim evidence"))
    end
  else mret s.
(** One iteration of the loop over jobs without a dedupe identity. *)
Definition recover_legacy (ids : string -> string) (now : Z) (s : DurableJobRecoverySummary)
    (job_id : string) : jobsM DurableJobRecoverySummary :=
  let s := bump "examined" 1 s in
  in_uow (
    row ← query (fun db => durable_jobs db !! job_id);
    match row with
    | Some r =>
        if legacy_active r then
          s ← interrupt_legacy ids now s job_id r;
          changed ← update_job job_id legacy_active
            (fun r => release_row "failed" None (Some "LEGACY_JOB_DEDUPE_UNAVAILABLE")
              (Z.max (updated_at_utc r) now) r);
          _ ← require_one "legacy durable job recovery lost revalidation" changed;
          mret (bump "failed" 1 s)
        else mret (bump "skipped" 1 s)
    | None => mret (bump "skipped" 1 s)
    end).

(** The row a stale recovery expects to find. *)
Definition stale_where (run : string) (n started : Z) (r : JobRow) : bool :=
  String.eqb (state r) "running" && bool_decide (claimed_run_id r = Some run)
  && (attempt_count r =? n) && bool_decide (claim_started_at_utc r = Some started).
Definition stale_claim (current_run_id : string) (r : JobRow) : bool :=
  String.eqb (state r) "running" && bool_decide (is_Some (dedupe_sha256 r)) &&
  match claimed_run_id r with Some run => negb (String.eqb run current_run_id) | None => false end.

(** What the registered contract decides for an interrupted job. *)
Definition stale_disposition (c : JobTypeContract context) (now : Z) (r : JobRow)
    : result (StaleRecoveryDisposition * string) :=
  hash ← (match dedupe_sha256 r with
    | Some h => if is_sha256 h then Ok h
        else raise (IntegrityFailure "stale durable job has invalid dedupe identity")
    | None => raise (IntegrityFailure "stale durable job has invalid dedupe identity") end);
  payload ← _load_registered_payload c (payload_json r);
  checkpoint ← _load_registered_checkpoint c (checkpoint_json r);
  key ← _derive_dedupe_key c payload true;
  _ ← _require_callback_did_not_mutate payload (payload_json r) "recovery dedupe key derivation";
  expected_hash ← _dedupe_sha256 (job_type r) (contract_version r) key;
  _ ← forbid (negb (String.eqb expected_hash hash))
    (IntegrityFailure "stale durable job payload disagrees with dedupe identity");
  d ← to_integrity "registered durable job crash policy failed"
    (recover_stale c payload checkpoint (attempt_count r) now);
  _ ← _require_callback_did_not_mutate payload (payload_json r) "crash recovery policy";
  _ ← (match checkpoint, checkpoint_json r with
    | Some v, Some text => _require_callback_did_not_mutate v text "crash recovery checkpoint policy"
    | _, _ => Ok tt end);
  _ ← _validate_recovery_disposition d now;
  let error := match d_error_code d with
    | Some e => if String.eqb e EmptyString then "JOB_INTERRUPTED" else e
    | None => "JOB_INTERRUPTED" end in
  _ ← _validate_error_code error;
  Ok (d, error).

Definition recover_stale_job (ids : string -> string) (current_run_id : string) (now : Z)
    (s : DurableJobRecoverySummary) (job_id : string) : jobsM DurableJobRecoverySummary :=
  let s := bump "examined" 1 s in
  in_uow (
    row ← query (fun db => durable_jobs db !! job_id);
    match row with
    | None => mret (bump "skipped" 1 s)
    | Some r =>
        match (if String.eqb (state r) "running" then claimed_run_id r else None) with
        | None => mret (bump "skipped" 1 s)
        | Some run =>
            if String.eqb run current_run_id then mret (bump "skipped" 1 s) else
            started ← lift (match claim_started_at_utc r with
              | Some t => if attempt_count r <? 1
                  then raise (IntegrityFailure "stale durable job has incomplete claim evidence")
                  else Ok t
              | None => raise (IntegrityFailure "stale durable job has incomplete claim evidence") end);
            inserted ← _insert_interrupted_if_absent (ids job_id) job_id (attempt_count r) run
              started now "JOB_INTERRUPTED";
            let s := bump "interrupted" (if (inserted : bool) then 1 else 0) s in
            let where_ := stale_where run (attempt_count r) started in
            match registry_get registry (job_type r) (contract_version r) with
            | None =>
                changed ← update_job job_id where_
                  (fun r => release_row "failed" None (Some "JOB_CONTRACT_UNAVAILABLE")
                    (Z.max (updated_at_utc r) now) r);
                _ ← require_one "unknown-contract stale recovery lost revalidation" changed;
                mret (bump "failed" 1 s)
            | Some c =>
                '(d, error) ← lift (stale_disposition c now r);
                changed ← update_job job_id where_
                  (fun r => release_row (d_state d) (d_next_attempt_at_utc d) (Some error)
                    (Z.max (updated_at_utc r) now) r);
                _ ← require_one "stale durable job recovery lost revalidation" changed;
                mret (bump (d_state d) 1 s)
            end
        end
    end).

Definition recover_stale_claims (ids : string -> string) (current_run_id : string) (now : Z)
    : jobsM DurableJobRecoverySummary :=
  _ ← lift (require_uuid4 current_run_id);
  _ ← lift (_validate_time now "now");
  legacy ← query (list_job_ids legacy_active);
  s ← foldS (recover_legacy ids now) zero_summary legacy;
  stale ← query (list_job_ids (stale_claim current_run_id));
  foldS (recover_stale_job ids current_run_id now) s stale.

(** ** Reconciliation after a restore *)
Definition restore_code : string := "RESTORE_SNAPSHOT_JOB_INVALIDATED".
Definition reconcile_attempt (ids : string -> string) (now : Z) (interrupted : Z)
    (job_id : string) (r : JobRow) : jobsM Z :=
  if String.eqb (state r) "running" then
    match claimed_run_id r, claim_started_at_utc r with
    | Some run, Some started =>
        _ ← lift (forbid (attempt_count r <? 1)
          (IntegrityFailure "restored running job has incomplete claim evidence"));
        inserted ← _insert_interrupted_if_absent (ids job_id) job_id (attempt_count r) run started
          (Z.max now (updated_at_utc r)) restore_code;
        mret (interrupted + (if (inserted : bool) then 1 else 0))
    | _, _ => lift (raise (IntegrityFailure "restored running job has incomplete claim evidence"))
    end
  else mret interrupted.
Definition reconcile_job (ids : string -> string) (now : Z) (interrupted : Z)
    (jr : string * JobRow) : jobsM Z :=
  let '(job_id, r) := jr in
  interrupted ← reconcile_attempt ids now interrupted job_id r;
  changed ← update_job job_id is_active
    (fun r => release_row "cancelled" None (Some restore_code) (Z.max (updated_at_utc r) now) r);
  _ ← require_one "restore durable job reconciliation lost revalidation" changed;
  mret interrupted.
Definition active_jobs (db : JobsDb) : list (string * JobRow) :=
  py_sorted fst (filter (fun jr => is_active jr.2 = true) (map_to_list (durable_jobs db))).
Definition reconcile_restored_jobs (clock : Z) (ids : string -> string)
    : jobsM RestoreJobReconciliation :=
  rows ← query active_jobs;
  now ← lift (_now clock);
  interrupted ← foldS (reconcile_job ids now) 0 rows;
  terminal_count ← query (fun db => Z.of_nat (length (filter (fun jr =>
    in_states terminal_states (state jr.2) = true) (map_to_list (durable_jobs db)))));
  let n := Z.of_nat (length rows) in
  mret (MkReconciliation n n interrupted (terminal_count - n)).
End coordinator.
