(* ===== verification/JobsExample.v ===== *)
(** A concrete job type, for evaluating the coordinator on sample tables. *)
From S2P Require Import Prelude StrictJson Identifiers Jobs.

Module Sample.
(** A 32-bit checksum printed like a SHA-256. *)
Fixpoint checksum (acc : Z) (s : string) : Z :=
  match s with
  | EmptyString => acc
  | String c s => checksum ((acc * 257 + byte_of c + 1) mod 4294967291) s
  end.
Fixpoint hex_digits (n : nat) (z : Z) : string :=
  match n with
  | O => EmptyString
  | S n => String (nth (Z.to_nat (z mod 16)) (String.list_ascii_of_string "0123456789abcdef") Ascii.zero)
      (hex_digits n (z / 16))
  end.
(** Identities: a kind and a number. *)
Definition uid (kind n : Z) : string :=
  hex_digits 4 kind +:+ hex_digits 4 n +:+ "-0000-4000-8000-000000000000".
Definition fp : string := hex_digits 64 0.
(** A fresh identity for each call list string of each call. *)
Definition fresh (call : Z) (s : list string) : string :=
  let h := hex_digits 16 (checksum call (String.concat "/" s)) in
  String.substring 0 8 h +:+ "-" +:+ String.substring 8 4 h +:+ "-4000-8000-000000000000".
#[export] Instance sha : Sha256 := fun s => hex_digits 64 (checksum 7 s).
#[export] Instance no_floats : FloatText := fun _ => None.

Definition payload_key (v : json) : result string :=
  match v with
  | JObj [(k, JStr s)] => if String.eqb k "key" then Ok s else raise (ValidationError "unexpected payload")
  | _ => raise (ValidationError "unexpected payload")
  end.
Definition refresh : JobTypeContract unit :=
  MkJobContract unit "REFRESH" 1 (fun v => _ ← payload_key v; Ok tt) (fun _ => Ok tt) payload_key
    _NONTERMINAL_STATES (fun _ _ _ _ => Ok tt) (fun _ _ => Ok tt)
    (fun _ _ _ _ => Ok (MkDisposition "queued" None None)).
Definition registry : @JobTypeRegistry unit :=
  match make_registry [refresh] with Ok r => r | Raise _ => [] end.

Definition payload : json := JObj [("key", JStr "sla")].
Definition job_a : string := "aaaaaaaa-aaaa-4aaa-8aaa-aaaaaaaaaaaa".
Definition job_b : string := "bbbbbbbb-bbbb-4bbb-8bbb-bbbbbbbbbbbb".
Definition run_1 : string := "11111111-1111-4111-8111-111111111111".
Definition run_2 : string := "22222222-2222-4222-8222-222222222222".
Definition attempt_1 : string := "cccccccc-cccc-4ccc-8ccc-cccccccccccc".

Definition empty : JobsDb := MkJobsDb ∅ [].
Definition row (state_ : string) (now n : Z) (run : option string) : JobRow :=
  MkJob "REFRESH" 1 state_ 10 now n None run (match run with Some _ => Some now | None => None end)
    (match canonical_text payload with Ok t => t | Raise _ => EmptyString end) None None
    (match _dedupe_sha256 "REFRESH" 1 "sla" with Ok h => Some h | Raise _ => None end).
(** One job, queued, running or completed. *)
Definition with_job (r : JobRow) (attempts : list AttemptRow) : JobsDb := MkJobsDb {[job_a := r]} attempts.
Definition queued : JobsDb := with_job (row "queued" 10 0 None) [].
Definition running : JobsDb := with_job (row "running" 20 1 (Some run_1)) [].
Definition completed : JobsDb := with_job (row "completed" 30 1 None)
  [MkAttempt attempt_1 job_a 1 run_1 20 30 "completed" None].
Definition claim : DurableJobClaim :=
  MkClaim job_a "REFRESH" 1 run_1 1 20 (default EmptyString (dedupe_sha256 (row "queued" 10 0 None)))
    (payload_json (row "queued" 10 0 None)) None.

Example enqueue_empty :
  enqueue_or_coalesce registry 10 job_a "REFRESH" 1 payload "sla" empty = (queued, Ok job_a).
Proof. vm_compute. reflexivity. Qed.
Example claim_queued : claim_next registry run_1 20 queued = (running, Ok (Some claim)).
Proof. vm_compute. reflexivity. Qed.
Example complete_running : complete registry 30 attempt_1 claim running = (completed, Ok tt).
Proof. vm_compute. reflexivity. Qed.
Example enqueue_again :
  enqueue_or_coalesce registry 25 job_b "REFRESH" 1 payload "sla" running = (running, Ok job_a).
Proof. vm_compute. reflexivity. Qed.
End Sample.
