(* ===== verification/JobsSpec.v ===== *)
(** What the durable job coordinator promises: the job state machine.

    [transition] is the abstract machine: enqueue, claim, checkpoint, finish
    (a running job leaves with one attempt on record) and drop (a waiting job
    is failed or cancelled).  The invariants are proved by induction over it,
    and every operation of [Jobs.v] is shown to perform only its transitions. *)
From S2P Require Import Prelude StrictJson Identifiers Jobs.

Lemma in_states_elem l s : in_states l s = true <-> s ∈ l.
Proof.
  unfold in_states. rewrite existsb_exists. setoid_rewrite <-list_elem_of_In. split.
  - intros (x & Hx & He). by apply String.eqb_eq in He as ->.
  - intros Hs. exists s. by rewrite String.eqb_refl.
Qed.
Definition is_terminal (r : JobRow) : bool := in_states terminal_states (state r).

Lemma terminal_not_active r : is_terminal r = true -> is_active r = false.
Proof.
  unfold is_terminal, is_active. rewrite in_states_elem. intros Hs. apply not_true_iff_false.
  rewrite in_states_elem. unfold terminal_states, _NONTERMINAL_STATES in *.
  set_unfold. intuition congruence.
Qed.

(** The tables after a row changed and attempts were added. *)
Definition with_row (db : JobsDb) (job_id : string) (r : JobRow) (new : list AttemptRow) : JobsDb :=
  MkJobsDb (<[job_id := r]> (durable_jobs db)) (job_attempts db ++ new).

Inductive transition (db : JobsDb) : JobsDb -> Prop :=
| t_enqueue job_id r :
    durable_jobs db !! job_id = None -> state r = "queued" -> attempt_count r = 0 ->
    job_row_ok r = true -> identity_free db job_id r = true ->
    transition db (with_row db job_id r [])
| t_claim job_id r run now :
    durable_jobs db !! job_id = Some r -> state r = "queued" \/ state r = "retry_wait" ->
    let r' := claimed_row run now (attempt_count r + 1) r in
    job_row_ok r' = true -> identity_free db job_id r' = true ->
    transition db (with_row db job_id r' [])
| t_checkpoint job_id r text now :
    durable_jobs db !! job_id = Some r -> state r = "running" ->
    let r' := set_checkpoint text now r in
    job_row_ok r' = true -> identity_free db job_id r' = true ->
    transition db (with_row db job_id r' [])
| t_finish job_id r s next error now a :
    durable_jobs db !! job_id = Some r -> state r = "running" -> s <> "running" ->
    at_job_id a = job_id -> ordinal a = attempt_count r -> Some (run_id a) = claimed_run_id r ->
    Some (started_at_utc a) = claim_started_at_utc r -> attempt_row_ok db a = true ->
    let r' := release_row s next error now r in
    job_row_ok r' = true -> identity_free db job_id r' = true ->
    transition db (with_row db job_id r' [a])
| t_drop job_id r s error now :
    durable_jobs db !! job_id = Some r -> is_active r = true -> state r <> "running" ->
    s = "failed" \/ s = "cancelled" ->
    let r' := release_row s None error now r in
    job_row_ok r' = true -> identity_free db job_id r' = true ->
    transition db (with_row db job_id r' []).

(** * Invariants *)
Record jobs_ok (db : JobsDb) : Prop := {
  ok_rows : map_Forall (fun _ r => job_row_ok r = true) (durable_jobs db);
  ok_identities : forall j j' r r' i,
    durable_jobs db !! j = Some r -> durable_jobs db !! j' = Some r' ->
    active_identity r = Some i -> active_identity r' = Some i -> j = j';
  ok_ordinals : NoDup ((fun a => (at_job_id a, ordinal a)) <$> job_attempts db);
  ok_attempts : forall a, a ∈ job_attempts db ->
    exists r, durable_jobs db !! at_job_id a = Some r /\
      0 < ordinal a <= attempt_count r /\ started_at_utc a <= finished_at_utc a /\
      (state r = "running" -> ordinal a < attempt_count r)
}.

Lemma empty_jobs_ok : jobs_ok (MkJobsDb ∅ []).
Proof.
  split; simpl; [apply map_Forall_empty| |constructor|].
  - intros *. by rewrite lookup_empty.
  - intros a Ha. by apply elem_of_nil in Ha.
Qed.

Lemma identity_free_spec db job_id r i :
  identity_free db job_id r = true -> active_identity r = Some i ->
  forall j r', durable_jobs db !! j = Some r' -> active_identity r' = Some i -> j = job_id.
Proof.
  unfold identity_free. intros Hf Hi j r' Hj Hr'. rewrite Hi in Hf.
  apply bool_decide_eq_true in Hf. destruct (Hf j r' Hj); [done|contradiction].
Qed.

(** The row [r] of [job_id] replaced by [r'], with new attempts at [r]'s ordinal. *)
Lemma with_row_ok db job_id r' new :
  jobs_ok db -> job_row_ok r' = true -> identity_free db job_id r' = true ->
  (match durable_jobs db !! job_id with
   | Some r => attempt_count r <= attempt_count r' /\
       (state r' = "running" -> attempt_count r < attempt_count r' \/ state r = "running")
   | None => True end) ->
  (new = [] \/ exists a, new = [a] /\ at_job_id a = job_id /\ ordinal a = attempt_count r' /\
     state r' <> "running" /\ attempt_row_ok db a = true) ->
  jobs_ok (with_row db job_id r' new).
Proof.
  intros [Hrows Hids Hords Hatt] Hr' Hf Hcount Hnew. split; simpl.
  - by apply map_Forall_insert_2.
  - intros j j' r1 r2 i Hj Hj' H1 H2. rewrite lookup_insert_Some in Hj, Hj'.
    destruct Hj as [[<- <-]|[Hne Hj]], Hj' as [[<- <-]|[Hne' Hj']]; [done| | |by eapply Hids].
    + symmetry. by eapply identity_free_spec.
    + by eapply identity_free_spec.
  - rewrite fmap_app. destruct Hnew as [->|(a & -> & Hid & Ho & Hs & Ha)]; [by rewrite app_nil_r|].
    unfold attempt_row_ok in Ha. bool_hyps. apply NoDup_app. split; [done|]. split; [|apply NoDup_singleton].
    intros x (b & -> & Hb)%list_elem_of_fmap Hx%list_elem_of_singleton. injection Hx as E1 E2.
    match goal with H : Forall _ _ |- _ => rewrite Forall_forall in H; destruct (H b Hb) as [_ Hn] end.
    by apply Hn.
  - intros b [Hb|Hb]%elem_of_app.
    + destruct (Hatt b Hb) as (r & Hr & Ho & Ht & Hrun).
      destruct (decide (at_job_id b = job_id)) as [<-|Hne].
      * exists r'. rewrite lookup_insert_eq. rewrite Hr in Hcount. destruct Hcount as [Hle Hlt].
        split; [done|]. split; [lia|]. split; [done|]. intros Hs. destruct (Hlt Hs); [lia|].
        specialize (Hrun H). lia.
      * exists r. by rewrite lookup_insert_ne by done.
    + destruct Hnew as [->|(a & -> & Hid & Ho & Hs & Ha)]; [by apply elem_of_nil in Hb|].
      apply list_elem_of_singleton in Hb as ->. exists r'. rewrite Hid, lookup_insert_eq.
      unfold attempt_row_ok in Ha. bool_hyps. split; [done|]. split; [lia|]. split; [done|]. done.
Qed.

Lemma transition_ok db db' : jobs_ok db -> transition db db' -> jobs_ok db'.
Proof.
  intros Hok. destruct 1 as [j r Hj Hs Hc Hr Hf|j r run now Hj Hs r' Hr Hf|j r text now Hj Hs r' Hr Hf
    |j r s next error now a Hj Hs Hne Hid Ho _ _ Ha r' Hr Hf|j r s error now Hj Hact Hs Hs' r' Hr Hf];
    apply with_row_ok; auto; try rewrite Hj; simpl; auto.
  - split; [lia|]. left. lia.
  - split; [lia|auto].
  - split; [lia|done].
  - right. by exists a.
  - split; [lia|]. by destruct Hs' as [-> | ->].
Qed.

(** ** What no transition undoes *)
(** A job in a terminal state. *)
Lemma transition_terminal db db' job_id r :
  transition db db' -> durable_jobs db !! job_id = Some r -> is_terminal r = true ->
  durable_jobs db' !! job_id = Some r.
Proof.
  intros Ht Hr Hter. unfold is_terminal in Hter.
  destruct Ht as [j r0 Hj Hs Hc|j r0 run now Hj Hs r'|j r0 text now Hj Hs r'
    |j r0 s next error now a Hj Hs|j r0 s error now Hj Hact Hs Hs']; simpl;
    (destruct (decide (j = job_id)) as [->|Hne]; [|by rewrite lookup_insert_ne]);
    exfalso; simplify_eq.
  - by destruct Hs as [Hs|Hs]; rewrite Hs in Hter.
  - by rewrite Hs in Hter.
  - by rewrite Hs in Hter.
  - by rewrite (terminal_not_active _ Hter) in Hact.
Qed.
(** An attempt on record. *)
Lemma transition_attempt db db' a : transition db db' -> a ∈ job_attempts db -> a ∈ job_attempts db'.
Proof. intros Ht Ha. destruct Ht; simpl; set_solver. Qed.

(** A claim whose attempt is over: another attempt started, or none runs. *)
Definition claim_over (job_id : string) (n : Z) (db : JobsDb) : Prop :=
  exists r, durable_jobs db !! job_id = Some r /\
    (n < attempt_count r \/ (n = attempt_count r /\ state r <> "running")).
Lemma transition_claim_over db db' job_id n :
  transition db db' -> claim_over job_id n db -> claim_over job_id n db'.
Proof.
  intros Ht (r & Hr & Hover). unfold claim_over.
  destruct Ht as [j r0 Hj Hs Hc|j r0 run now Hj Hs r'|j r0 text now Hj Hs r'
    |j r0 s next error now a Hj Hs Hne|j r0 s error now Hj Hact Hs Hs']; simpl;
    (destruct (decide (j = job_id)) as [->|Hneq]; [|exists r; by rewrite lookup_insert_ne]);
    simplify_eq; eexists; (split; [apply lookup_insert_eq|]); simpl; try lia.
  - destruct Hover as [|[? Hn]]; [by left|congruence].
  - destruct Hover as [|[? Hn]]; [by left|congruence].
  - destruct Hover as [|[? Hn]]; [by left|right]. split; [done|]. by destruct Hs' as [-> | ->].
Qed.
Lemma claim_over_stale c db :
  claim_over (cl_job_id c) (cl_attempt_ordinal c) db -> claimed c db = None.
Proof.
  intros (r & Hr & Hover). unfold claimed. rewrite Hr. simpl.
  destruct (claim_matches c r) eqn:Em; [|done]. unfold claim_matches in Em. bool_hyps.
  destruct Hover as [|[_ Hn]]; [lia|done].
Qed.
