(* ===== verification/JobsRefine.v ===== *)
(** The coordinator's operations perform transitions of the job state machine:
    [Jobs.v] refines [JobsSpec.v]. *)
From S2P Require Import Prelude StrictJson Identifiers Jobs JobsSpec.

(** * Statements *)
Lemma with_row_nil db job_id r :
  with_row db job_id r [] = MkJobsDb (<[job_id := r]> (durable_jobs db)) (job_attempts db).
Proof. unfold with_row. by rewrite app_nil_r. Qed.
Lemma query_ok {A} (f : JobsDb -> A) db db' a : query f db = (db', Ok a) <-> db' = db /\ a = f db.
Proof. unfold query. naive_solver. Qed.
Lemma update_job_ok job_id w f db db' n :
  update_job job_id w f db = (db', Ok n) ->
  (exists r, n = 1 /\ durable_jobs db !! job_id = Some r /\ w r = true /\ job_row_ok (f r) = true /\
     identity_free db job_id (f r) = true /\
     db' = MkJobsDb (<[job_id := f r]> (durable_jobs db)) (job_attempts db)) \/
  (n = 0 /\ db' = db /\ forall r, durable_jobs db !! job_id = Some r -> w r = false).
Proof.
  unfold update_job. destruct (durable_jobs db !! job_id) as [r|].
  - destruct (w r) eqn:Ew.
    + destruct (job_row_ok (f r) && _) eqn:E; [|done]. intros [= <- <-]. bool_hyps. left. by exists r.
    + intros [= <- <-]. right. naive_solver.
  - intros [= <- <-]. right. naive_solver.
Qed.
Lemma update_one_ok job_id w f m db db' n u s :
  update_job job_id w f db = (db', Ok n) -> require_one m n db' = (s, Ok u) ->
  s = db' /\ exists r, durable_jobs db !! job_id = Some r /\ w r = true /\ job_row_ok (f r) = true /\
     identity_free db job_id (f r) = true /\
     db' = MkJobsDb (<[job_id := f r]> (durable_jobs db)) (job_attempts db).
Proof.
  intros [(r & -> & H)|(-> & -> & H)]%update_job_ok Ho.
  - unfold require_one in Ho. apply lift_ok in Ho as [-> _]. split; [done|]. by exists r.
  - unfold require_one in Ho. by apply lift_ok in Ho as [_ Ho].
Qed.
Lemma insert_attempt_ok new_id job_id n run started finished out err db db' u :
  _insert_attempt new_id job_id n run started finished out err db = (db', Ok u) ->
  let a := MkAttempt new_id job_id n run started finished out err in
  attempt_row_ok db a = true /\ db' = MkJobsDb (durable_jobs db) (job_attempts db ++ [a]).
Proof.
  unfold _insert_attempt. intros Hi. inv_st Hi; unfold insert_row in Hi;
    (destruct (attempt_row_ok db _) eqn:Ea; [|done]); by injection Hi as <-.
Qed.
Lemma require_absent_ok job_id n db db' u :
  _require_attempt_absent job_id n db = (db', Ok u) -> db' = db.
Proof.
  unfold _require_attempt_absent. intros Hi. apply stm_bind_ok in Hi as (s & e & Hq & Hi).
  apply query_ok in Hq as [-> ->]. by apply lift_ok in Hi as [-> _].
Qed.
(** A running job has no attempt at its current ordinal. *)
Lemma running_attempt_absent db job_id r :
  jobs_ok db -> durable_jobs db !! job_id = Some r -> state r = "running" ->
  attempt_of db job_id (attempt_count r) = None.
Proof.
  intros Hok Hr Hs. unfold attempt_of.
  rewrite filter_none; [done|]. intros a Ha [Hid Ho].
  destruct (ok_attempts _ Hok a Ha) as (r' & Hr' & _ & _ & Hlt). rewrite Hid, Hr in Hr'.
  injection Hr' as <-. specialize (Hlt Hs). lia.
Qed.
Lemma interrupted_ok new_id job_id r run started finished err db db' b :
  jobs_ok db -> durable_jobs db !! job_id = Some r -> state r = "running" ->
  _insert_interrupted_if_absent new_id job_id (attempt_count r) run started finished err db = (db', Ok b) ->
  let a := MkAttempt new_id job_id (attempt_count r) run started (Z.max finished started)
    "interrupted" (Some err) in
  b = true /\ attempt_row_ok db a = true /\ db' = MkJobsDb (durable_jobs db) (job_attempts db ++ [a]).
Proof.
  intros Hok Hr Hs Hi. unfold _insert_interrupted_if_absent in Hi.
  apply stm_bind_ok in Hi as (s & e & Hq & Hi). apply query_ok in Hq as [-> ->].
  rewrite (running_attempt_absent _ _ _ Hok Hr Hs) in Hi.
  apply stm_bind_ok in Hi as (s1 & u & Hins & Hi). injection Hi as <- <-.
  apply insert_attempt_ok in Hins as [Ha ->]. done.
Qed.

(** * Operations as transitions *)
(** [m] run from a sound store performs transitions, whatever it returns. *)
Definition refines {A} (m : jobsM A) : Prop :=
  forall db db' res, jobs_ok db -> m db = (db', res) -> star transition db db'.
(** ... when it returns. *)
Definition refines_ok {A} (m : jobsM A) : Prop :=
  forall db db' a, jobs_ok db -> m db = (db', Ok a) -> star transition db db'.

Lemma star_ok db db' : jobs_ok db -> star transition db db' -> jobs_ok db'.
Proof. apply (star_inv transition jobs_ok). apply transition_ok. Qed.

Lemma refines_in_uow {A} (m : jobsM A) : refines_ok m -> refines (in_uow m).
Proof.
  intros Hm db db' res Hok [(a & _ & Hr)|(e & _ & ->)]%in_uow_ok; [by eapply Hm|apply star_refl].
Qed.
Lemma refines_lift {A} (r : result A) : refines (lift r).
Proof. intros db db' res _ [= <- _]. apply star_refl. Qed.
Lemma refines_query {A} (f : JobsDb -> A) : refines (query f).
Proof. intros db db' res _ [= <- _]. apply star_refl. Qed.
Lemma refines_bind {A B} (m : jobsM A) (f : A -> jobsM B) :
  refines m -> (forall a, refines (f a)) -> refines (m ≫= f).
Proof.
  intros Hm Hf db db' res Hok. unfold mbind, stM_bind.
  destruct (m db) as [s [a|e]] eqn:E; intros Hr.
  - pose proof (Hm _ _ _ Hok E) as H1. eapply star_trans; [exact H1|].
    eapply Hf; [|exact Hr]. by eapply star_ok.
  - injection Hr as <- _. by eapply Hm.
Qed.
Lemma refines_foldS {A B} (f : B -> A -> jobsM B) b l :
  (forall b x, refines (f b x)) -> refines (foldS f b l).
Proof.
  intros Hf. revert b. induction l as [|x l IH]; intros b; [apply (refines_lift (Ok b))|].
  simpl. apply refines_bind; [apply Hf|apply IH].
Qed.
Lemma refines_weaken {A} (m : jobsM A) : refines m -> refines_ok m.
Proof. intros Hm db db' a. apply Hm. Qed.

(** Leaving the running state with an attempt on record. *)
Lemma finish_transition db job_id r s next error now a :
  durable_jobs db !! job_id = Some r -> state r = "running" -> s <> "running" ->
  at_job_id a = job_id -> ordinal a = attempt_count r -> Some (run_id a) = claimed_run_id r ->
  Some (started_at_utc a) = claim_started_at_utc r -> attempt_row_ok db a = true ->
  job_row_ok (release_row s next error now r) = true ->
  identity_free db job_id (release_row s next error now r) = true ->
  transition db (MkJobsDb (<[job_id := release_row s next error now r]> (durable_jobs db))
    (job_attempts db ++ [a])).
Proof. intros. by apply (t_finish db job_id r s next error now a). Qed.

Section operations.
Context `{Sha256, FloatText} {context : Type} (registry : @JobTypeRegistry context).

Lemma verify_claim_ok c db db' r :
  _verify_claim registry c db = (db', Ok r) -> db' = db /\ claimed c db = Some r.
Proof.
  unfold _verify_claim. intros Hv. apply stm_bind_ok in Hv as (s & row & Hq & Hv).
  apply query_ok in Hq as [-> ->]. apply lift_ok in Hv as [-> Hv]. split; [done|].
  destruct (claimed c db) as [r'|]; [|done]. by inv_ok Hv.
Qed.
Lemma claimed_ok c db r :
  claimed c db = Some r ->
  durable_jobs db !! cl_job_id c = Some r /\ state r = "running" /\
  claimed_run_id r = Some (cl_run_id c) /\ attempt_count r = cl_attempt_ordinal c /\
  claim_started_at_utc r = Some (cl_claim_started_at_utc c).
Proof.
  unfold claimed. intros Hc. apply bind_Some in Hc as (r' & Hr & Hc).
  destruct (claim_matches c r') eqn:Em; [|done]. injection Hc as ->.
  unfold claim_matches in Em. by bool_hyps.
Qed.

Lemma enqueue_refines clock new_id type_ version payload key :
  refines (enqueue_or_coalesce registry clock new_id type_ version payload key).
Proof.
  unfold enqueue_or_coalesce.
  repeat (apply refines_bind; [apply refines_lift || apply refines_query|intros ?]).
  destruct a7 as [|[job_id row] [|]]; [| |apply refines_lift].
  - apply refines_bind; [apply refines_lift|intros now].
    apply refines_bind; [|intros; apply (refines_lift (Ok _))].
    intros db db' res Hok. unfold insert_or_integrity, insert_job.
    destruct (durable_jobs db !! new_id) eqn:Hn; [by intros [= <- _]; apply star_refl|].
    set (r := MkJob _ _ _ _ _ _ _ _ _ _ _ _ _).
    destruct (job_row_ok r && identity_free db new_id r) eqn:E; intros [= <- _]; [|apply star_refl].
    bool_hyps. rewrite <-with_row_nil. apply star_one. by apply t_enqueue.
  - repeat (apply refines_bind; [apply refines_lift|intros ?]). apply (refines_lift (Ok job_id)).
Qed.

Lemma fail_unclaimable_refines job_id now error db db' u r :
  durable_jobs db !! job_id = Some r -> state r = "queued" \/ state r = "retry_wait" ->
  _fail_unclaimable job_id now error db = (db', Ok u) -> transition db db'.
Proof.
  intros Hr Hs Hf. unfold _fail_unclaimable in Hf. inv_st Hf.
  destruct (update_one_ok _ _ _ _ _ _ _ _ _ Hf1 Hf) as [-> (r' & Hr' & _ & Hrow & Hid & ->)].
  rewrite Hr in Hr'. injection Hr' as <-. rewrite <-with_row_nil.
  apply (t_drop db job_id r); auto.
  - unfold is_active. by destruct Hs as [-> | ->].
  - by destruct Hs as [-> | ->].
Qed.
Lemma claimable_state now r : claimable now r = true -> state r = "queued" \/ state r = "retry_wait".
Proof. unfold claimable. intros [Hs|Hs]%orb_true_iff; bool_hyps; auto. Qed.
Lemma claim_candidates_elem now db jr :
  jr ∈ claim_candidates now db <-> durable_jobs db !! jr.1 = Some jr.2 /\ claimable now jr.2 = true.
Proof.
  unfold claim_candidates. rewrite elem_of_py_sorted, list_elem_of_filter.
  destruct jr as [j r]. rewrite elem_of_map_to_list. simpl. tauto.
Qed.
Lemma claim_row_ok run now job_id r db db' res :
  durable_jobs db !! job_id = Some r -> claimable now r = true ->
  claim_row registry run now job_id r db = (db', Ok res) ->
  match res with
  | None => transition db db'
  | Some c =>
      db' = with_row db job_id (claimed_row run now (attempt_count r + 1) r) [] /\
      transition db db' /\ registry_get registry (job_type r) (contract_version r) <> None /\
      cl_job_id c = job_id /\ cl_job_type c = job_type r /\ cl_contract_version c = contract_version r /\
      cl_run_id c = run /\ cl_attempt_ordinal c = attempt_count r + 1 /\
      cl_claim_started_at_utc c = now /\ dedupe_sha256 r = Some (cl_dedupe_sha256 c) /\
      cl_payload_json c = payload_json r
  end.
Proof.
  intros Hr Hc Hres. pose proof (claimable_state _ _ Hc) as Hs. unfold claim_row in Hres.
  do 3 (apply stm_bind_ok in Hres as (? & ? & Hx & Hres); apply lift_ok in Hx as [-> _]).
  destruct (registry_get registry _ _) as [c|] eqn:Ec.
  - inv_st Hres.
    match goal with Hu : update_job _ _ _ _ = _, Ho : require_one _ _ _ = _ |- _ =>
      destruct (update_one_ok _ _ _ _ _ _ _ _ _ Hu Ho) as [-> (r' & Hr' & _ & Hrow & Hid & ->)] end.
    rewrite Hr in Hr'. injection Hr' as <-. rewrite <-with_row_nil.
    repeat split; try done. by apply t_claim.
  - inv_st Hres. by eapply fail_unclaimable_refines.
Qed.
Lemma claim_next_refines run now : refines (claim_next registry run now).
Proof.
  unfold claim_next. do 2 (apply refines_bind; [apply refines_lift|intros ?]).
  apply refines_in_uow. intros db db' res Hok Hr.
  apply stm_bind_ok in Hr as (s & l & Hq & Hr). apply query_ok in Hq as [-> ->].
  destruct (claim_candidates now db) as [|[job_id r] l] eqn:El.
  { injection Hr as <- _. apply star_refl. }
  assert ((job_id, r) ∈ claim_candidates now db) as Hin by (rewrite El; by left).
  apply claim_candidates_elem in Hin as [Hj Hc]. apply star_one.
  pose proof (claim_row_ok _ _ _ _ _ _ _ Hj Hc Hr) as Hres. destruct res; [apply Hres|done].
Qed.

Lemma checkpoint_refines clock c v : refines_ok (checkpoint_in_uow registry clock c v).
Proof.
  intros db db' text Hok Hr. unfold checkpoint_in_uow in Hr. inv_st Hr.
  apply verify_claim_ok in Hr2 as [-> Hc]. apply claimed_ok in Hc as (Hj & Hs & _).
  apply update_job_ok in Hr5 as [(r & _ & Hr & _ & Hrow & Hid & ->)|(_ & -> & _)]; [|apply star_refl].
  rewrite <-with_row_nil. apply star_one. rewrite Hj in Hr. injection Hr as <-. by apply t_checkpoint.
Qed.

(** Shared by [complete] and [fail]: insert the attempt, release the row. *)
Lemma release_refines c r db db1 db' new_id now out err s next last u n :
  claimed c db = Some r -> s <> "running" ->
  _insert_attempt new_id (cl_job_id c) (cl_attempt_ordinal c) (cl_run_id c)
    (cl_claim_started_at_utc c) now out err db = (db1, Ok u) ->
  update_job (cl_job_id c) (fun _ => true) (release_row s next last now) db1 = (db', Ok n) ->
  transition db db' /\ exists a, db' = with_row db (cl_job_id c) (release_row s next last now r) [a].
Proof.
  intros Hc Hs Hins Hup. apply claimed_ok in Hc as (Hj & Hrun & Hid & Hcount & Hst).
  apply insert_attempt_ok in Hins as [Ha ->].
  apply update_job_ok in Hup as [(r' & _ & Hr' & _ & Hrow & Hf & ->)|(_ & -> & Hw)]; simpl in *.
  - rewrite Hj in Hr'. injection Hr' as <-. split; [|by eexists].
    by apply finish_transition.
  - specialize (Hw r Hj). done.
Qed.

Lemma complete_refines clock new_id c : refines (complete registry clock new_id c).
Proof.
  unfold complete. do 2 (apply refines_bind; [apply refines_lift|intros ?]).
  apply refines_in_uow. intros db db' u Hok Hr. inv_st Hr.
  apply verify_claim_ok in Hr0 as [-> Hc]. apply require_absent_ok in Hr2 as ->.
  apply star_one. edestruct release_refines as [Ht _]; [exact Hc| |exact Hr3|exact Hr4|exact Ht]. done.
Qed.
Lemma fail_refines clock new_id c error retry_at : refines (fail registry clock new_id c error retry_at).
Proof.
  unfold fail. do 2 (apply refines_bind; [apply refines_lift|intros ?]).
  apply refines_in_uow. intros db db' u Hok Hr.
  apply stm_bind_ok in Hr as (s1 & row & Hv & Hr). apply verify_claim_ok in Hv as [-> Hc].
  do 4 (apply stm_bind_ok in Hr as (? & ? & Hx & Hr); apply lift_ok in Hx as [-> _]).
  apply stm_bind_ok in Hr as (? & ? & Hx & Hr). apply require_absent_ok in Hx as ->.
  apply stm_bind_ok in Hr as (? & ? & Hins & Hr). apply stm_bind_ok in Hr as (? & ? & Hup & Hr).
  injection Hr as <- _. apply star_one.
  edestruct release_refines as [Ht _]; [exact Hc| |exact Hins|exact Hup|exact Ht]. by destruct retry_at.
Qed.

Lemma cancel_refines clock new_id job_id type_ version ctx :
  refines_ok (cancel registry clock new_id job_id type_ version ctx).
Proof.
  intros db db' res Hok Hr. unfold cancel in Hr.
  do 2 (apply stm_bind_ok in Hr as (? & ? & Hx & Hr); apply lift_ok in Hx as [-> _]).
  apply stm_bind_ok in Hr as (? & row & Hx & Hr). apply query_ok in Hx as [-> ->].
  destruct (durable_jobs db !! job_id) as [r|] eqn:Hj; [|by apply lift_ok in Hr as [_ Hr]].
  apply stm_bind_ok in Hr as (? & ? & Hx & Hr). apply lift_ok in Hx as [-> _].
  apply stm_bind_ok in Hr as (? & ? & Hx & Hr). apply lift_ok in Hx as [-> Hst].
  apply forbid_ok, negb_false_iff, in_states_elem in Hst.
  destruct (String.eqb (state r) "cancelled") eqn:Ecan; [injection Hr as <- _; apply star_refl|].
  destruct (in_states ["completed"; "failed"] (state r)) eqn:Eter; [injection Hr as <- _; apply star_refl|].
  do 3 (apply stm_bind_ok in Hr as (? & ? & Hy & Hr); apply lift_ok in Hy as [-> _]).
  apply stm_bind_ok in Hr as (s1 & n & Hatt & Hr). apply stm_bind_ok in Hr as (s2 & k & Hup & Hr).
  injection Hr as <- _. apply star_one. unfold cancel_attempt in Hatt.
  destruct (String.eqb (state r) "running") eqn:Erun.
  - apply String.eqb_eq in Erun.
    destruct (claimed_run_id r) as [run|] eqn:Eid; [|by apply lift_ok in Hatt as [_ Hatt]].
    destruct (claim_started_at_utc r) as [started|] eqn:Estart; [|by apply lift_ok in Hatt as [_ Hatt]].
    apply stm_bind_ok in Hatt as (? & ? & Hy & Hatt). apply lift_ok in Hy as [-> _].
    apply stm_bind_ok in Hatt as (? & ? & Hy & Hatt). apply require_absent_ok in Hy as ->.
    apply stm_bind_ok in Hatt as (? & ? & Hins & Hatt). injection Hatt as <- _.
    apply insert_attempt_ok in Hins as [Ha ->].
    apply update_job_ok in Hup as [(r' & _ & Hr' & _ & Hrow & Hf & ->)|(_ & -> & Hw)]; simpl in *.
    + rewrite Hj in Hr'. injection Hr' as <-. by apply finish_transition.
    + by specialize (Hw r Hj).
  - injection Hatt as <- _. apply String.eqb_neq in Erun, Ecan.
    apply update_job_ok in Hup as [(r' & _ & Hr' & _ & Hrow & Hf & ->)|(_ & -> & Hw)].
    + rewrite Hj in Hr'. injection Hr' as <-. rewrite <-with_row_nil. apply t_drop; auto.
      unfold is_active. apply in_states_elem. apply not_true_iff_false in Eter.
      rewrite in_states_elem in Eter. unfold _NONTERMINAL_STATES, terminal_states in *. set_unfold. naive_solver.
    + by specialize (Hw r Hj).
Qed.

Lemma interrupt_then_release job_id r run started new_id finished err db db1 db2 b w f s next last now n u m :
  _insert_interrupted_if_absent new_id job_id (attempt_count r) run started finished err db = (db1, Ok b) ->
  update_job job_id w f db1 = (db2, Ok n) -> require_one m n db2 = (db2, Ok u) ->
  f r = release_row s next last now r ->
  jobs_ok db -> durable_jobs db !! job_id = Some r -> state r = "running" ->
  claimed_run_id r = Some run -> claim_started_at_utc r = Some started -> s <> "running" ->
  transition db db2.
Proof.
  intros Hins Hup Hone Hf Hok Hj Hs Hid Hst Hne.
  apply interrupted_ok in Hins as (_ & Ha & ->); [|done..].
  destruct (update_one_ok _ _ _ _ _ _ _ _ _ Hup Hone) as [_ (r' & Hr' & _ & Hrow & Hfree & ->)].
  simpl in *. rewrite Hj in Hr'. injection Hr' as <-. rewrite Hf in *.
  by apply finish_transition.
Qed.
Lemma drop_waiting job_id r db db2 w f s last now n u m :
  update_job job_id w f db = (db2, Ok n) -> require_one m n db2 = (db2, Ok u) ->
  f r = release_row s None last now r -> s = "failed" \/ s = "cancelled" ->
  durable_jobs db !! job_id = Some r -> is_active r = true -> state r <> "running" ->
  transition db db2.
Proof.
  intros Hup Hone Hf Hs' Hj Ha Hs.
  destruct (update_one_ok _ _ _ _ _ _ _ _ _ Hup Hone) as [_ (r' & Hr' & _ & Hrow & Hfree & ->)].
  rewrite Hj in Hr'. injection Hr' as <-. rewrite Hf in *. rewrite <-with_row_nil. by apply t_drop.
Qed.

Lemma require_one_state m n db s u : require_one m n db = (s, Ok u) -> s = db.
Proof. unfold require_one. by intros [-> _]%lift_ok. Qed.

Lemma recover_legacy_refines ids now s job_id : refines (recover_legacy ids now s job_id).
Proof.
  unfold recover_legacy. apply refines_in_uow. intros db db' res Hok Hr.
  apply stm_bind_ok in Hr as (? & row & Hx & Hr). apply query_ok in Hx as [-> ->].
  destruct (durable_jobs db !! job_id) as [r|] eqn:Hj; [|injection Hr as <- _; apply star_refl].
  destruct (legacy_active r) eqn:El; [|injection Hr as <- _; apply star_refl].
  unfold legacy_active in El. bool_hyps.
  apply stm_bind_ok in Hr as (db1 & s1 & Hint & Hr). apply stm_bind_ok in Hr as (db2 & n & Hup & Hr).
  apply stm_bind_ok in Hr as (db3 & u & Hone & Hr). injection Hr as <- _.
  pose proof (require_one_state _ _ _ _ _ Hone) as ->. apply star_one.
  unfold interrupt_legacy in Hint. destruct (String.eqb (state r) "running") eqn:Erun.
  - apply String.eqb_eq in Erun.
    destruct (claimed_run_id r) as [run|] eqn:Eid; [|by apply lift_ok in Hint as [_ Hint]].
    destruct (claim_started_at_utc r) as [started|] eqn:Est; [|by apply lift_ok in Hint as [_ Hint]].
    apply stm_bind_ok in Hint as (? & ? & Hx & Hint). apply lift_ok in Hx as [-> _].
    apply stm_bind_ok in Hint as (? & ? & Hins & Hint). injection Hint as <- _.
    by eapply (interrupt_then_release job_id r run started); [exact Hins|exact Hup|exact Hone|reflexivity|..].
  - injection Hint as <- _. apply String.eqb_neq in Erun.
    by eapply (drop_waiting job_id r); [exact Hup|exact Hone|reflexivity|left|..].
Qed.

Lemma disposition_state (c : JobTypeContract context) now r d e :
  stale_disposition c now r = Ok (d, e) -> d_state d <> "running".
Proof.
  unfold stale_disposition. intros Hd. apply bind_ok in Hd as (hash & _ & Hd).
  do 9 (apply bind_ok in Hd as (? & _ & Hd)). apply bind_ok in Hd as (? & Hv & Hd).
  apply bind_ok in Hd as (? & _ & Hd). injection Hd as <- _. unfold _validate_recovery_disposition in Hv.
  apply bind_ok in Hv as (? & Hs%forbid_ok & _). apply negb_false_iff, in_states_elem in Hs.
  intros E. rewrite E in Hs. unfold _RECOVERY_STATES in Hs. set_unfold. intuition congruence.
Qed.
Lemma recover_stale_refines ids current now s job_id :
  refines (recover_stale_job registry ids current now s job_id).
Proof.
  unfold recover_stale_job. apply refines_in_uow. intros db db' res Hok Hr.
  apply stm_bind_ok in Hr as (? & row & Hx & Hr). apply query_ok in Hx as [-> ->].
  destruct (durable_jobs db !! job_id) as [r|] eqn:Hj; [|injection Hr as <- _; apply star_refl].
  destruct (String.eqb (state r) "running") eqn:Erun; [|injection Hr as <- _; apply star_refl].
  apply String.eqb_eq in Erun.
  destruct (claimed_run_id r) as [run|] eqn:Eid; [|injection Hr as <- _; apply star_refl].
  destruct (String.eqb run current); [injection Hr as <- _; apply star_refl|].
  apply stm_bind_ok in Hr as (? & started & Hx & Hr). apply lift_ok in Hx as [-> Hst].
  assert (claim_started_at_utc r = Some started) as Est.
  { destruct (claim_started_at_utc r); [|done]. by inv_ok Hst. }
  apply stm_bind_ok in Hr as (db1 & b & Hins & Hr). apply star_one.
  destruct (registry_get registry (job_type r) (contract_version r)) as [c|].
  - apply stm_bind_ok in Hr as (? & [d e] & Hx & Hr). apply lift_ok in Hx as [-> Hd].
    apply stm_bind_ok in Hr as (db2 & n & Hup & Hr). apply stm_bind_ok in Hr as (db3 & u & Hone & Hr).
    injection Hr as <- _. pose proof (require_one_state _ _ _ _ _ Hone) as ->.
    eapply (interrupt_then_release job_id r run started);
      [exact Hins|exact Hup|exact Hone|reflexivity|done..|by eapply disposition_state].
  - apply stm_bind_ok in Hr as (db2 & n & Hup & Hr). apply stm_bind_ok in Hr as (db3 & u & Hone & Hr).
    injection Hr as <- _. pose proof (require_one_state _ _ _ _ _ Hone) as ->.
    by eapply (interrupt_then_release job_id r run started); [exact Hins|exact Hup|exact Hone|reflexivity|..].
Qed.
Lemma recover_refines ids current now : refines (recover_stale_claims registry ids current now).
Proof.
  unfold recover_stale_claims. do 2 (apply refines_bind; [apply refines_lift|intros ?]).
  apply refines_bind; [apply refines_query|intros ?].
  apply refines_bind; [apply refines_foldS; intros; apply recover_legacy_refines|intros ?].
  apply refines_bind; [apply refines_query|intros ?].
  apply refines_foldS; intros; apply recover_stale_refines.
Qed.

(** Restored rows are read before any is changed: each is still as it was read
    when its turn comes, since every update touches one row. *)
Lemma reconcile_job_ok ids now n jr db db' n' :
  jobs_ok db -> durable_jobs db !! jr.1 = Some jr.2 -> is_active jr.2 = true ->
  reconcile_job ids now n jr db = (db', Ok n') ->
  transition db db' /\ exists new,
    db' = with_row db jr.1 (release_row "cancelled" None (Some restore_code)
      (Z.max (updated_at_utc jr.2) now) jr.2) new /\
    n' = n + Z.of_nat (length new) /\
    (length new = if String.eqb (state jr.2) "running" then 1 else 0)%nat.
Proof.
  destruct jr as [j r]. simpl. intros Hok Hj Ha Hr. unfold reconcile_job in Hr.
  apply stm_bind_ok in Hr as (db1 & n1 & Hint & Hr). apply stm_bind_ok in Hr as (db2 & k & Hup & Hr).
  apply stm_bind_ok in Hr as (db3 & u & Hone & Hr). injection Hr as <- <-.
  pose proof (require_one_state _ _ _ _ _ Hone) as ->.
  destruct (update_one_ok _ _ _ _ _ _ _ _ _ Hup Hone) as [_ (r' & Hr' & _ & Hrow & Hf & Hdb)].
  unfold reconcile_attempt in Hint. destruct (String.eqb (state r) "running") eqn:Erun.
  - apply String.eqb_eq in Erun.
    destruct (claimed_run_id r) as [run|] eqn:Eid; [|by apply lift_ok in Hint as [_ Hint]].
    destruct (claim_started_at_utc r) as [started|] eqn:Est; [|by apply lift_ok in Hint as [_ Hint]].
    apply stm_bind_ok in Hint as (? & ? & Hx & Hint). apply lift_ok in Hx as [-> _].
    apply stm_bind_ok in Hint as (? & b & Hins & Hint). injection Hint as <- <-.
    split; [by eapply (interrupt_then_release j r run started); [exact Hins|exact Hup|exact Hone|reflexivity|..]|].
    apply interrupted_ok in Hins as (-> & _ & ->); [|done..]. simpl in *.
    rewrite Hj in Hr'. injection Hr' as <-. subst. by eexists [_].
  - injection Hint as <- <-. apply String.eqb_neq in Erun. rewrite Hj in Hr'. injection Hr' as <-.
    split.
    + by eapply (drop_waiting j r); [exact Hup|exact Hone|reflexivity|right|..].
    + exists []. subst. rewrite with_row_nil. split; [done|]. split; [simpl; lia|done].
Qed.
Lemma reconcile_jobs_ok ids now n rows db db' n' :
  jobs_ok db -> NoDup rows.*1 ->
  Forall (fun jr => durable_jobs db !! jr.1 = Some jr.2 /\ is_active jr.2 = true) rows ->
  foldS (reconcile_job ids now) n rows db = (db', Ok n') ->
  star transition db db' /\
  n' = n + Z.of_nat (length (filter (fun jr => state jr.2 = "running") rows)) /\
  (forall j, durable_jobs db' !! j =
     match dget j rows with
     | Some r => Some (release_row "cancelled" None (Some restore_code) (Z.max (updated_at_utc r) now) r)
     | None => durable_jobs db !! j end).
Proof.
  revert n db. induction rows as [|[j r] rows IH]; intros n db Hok Hn Hall Hr.
  { simpl in Hr. injection Hr as <- <-. split; [apply star_refl|]. split; [simpl; lia|done]. }
  simpl in Hr. apply stm_bind_ok in Hr as (db1 & n1 & Hone & Hr).
  apply NoDup_cons in Hn as [Hj Hn]. apply Forall_cons in Hall as [[Hjr Ha] Hall].
  destruct (reconcile_job_ok _ _ _ _ _ _ _ Hok Hjr Ha Hone) as (Ht & new & -> & -> & Hlen).
  simpl in *. pose proof (transition_ok _ _ Hok Ht) as Hok1.
  assert (Forall (fun jr => durable_jobs (with_row db j
    (release_row "cancelled" None (Some restore_code) (Z.max (updated_at_utc r) now) r) new) !! jr.1
      = Some jr.2 /\ is_active jr.2 = true) rows) as Hrows.
  { rewrite Forall_forall in *. intros [j' r'] Hin. destruct (Hall _ Hin) as [Hl Hact].
    split; [|done]. simpl in *. rewrite lookup_insert_ne; [done|]. intros ->. apply Hj.
    by apply (list_elem_of_fmap_2' fst rows (j', r')). }
  destruct (IH _ _ Hok1 Hn Hrows Hr) as (Hst & -> & Hlook).
  split; [by eapply star_step|]. split.
  - rewrite filter_cons. simpl. rewrite Hlen.
    destruct (String.eqb_spec (state r) "running"); case_decide; try done; simpl; lia.
  - intros j'. rewrite Hlook. simpl. destruct (bool_decide_reflect (j = j')) as [->|Hne].
    + apply dget_None in Hj. rewrite Hj. apply lookup_insert_eq.
    + by rewrite lookup_insert_ne.
Qed.
Lemma active_jobs_ok db :
  NoDup (active_jobs db).*1 /\
  Forall (fun jr => durable_jobs db !! jr.1 = Some jr.2 /\ is_active jr.2 = true) (active_jobs db).
Proof.
  unfold active_jobs. split.
  - rewrite py_sorted_perm. apply NoDup_fmap_filter, NoDup_fst_map_to_list.
  - apply Forall_forall. intros [j r]. rewrite elem_of_py_sorted, list_elem_of_filter, elem_of_map_to_list.
    simpl. tauto.
Qed.
End operations.
