(* ===== verification/JobsProps.v ===== *)
(** The properties of the durable job coordinator: what every sequence of its
    operations keeps, and what each operation does to the tables. *)
From S2P Require Import Prelude StrictJson Identifiers Jobs JobsExample JobsSpec JobsRefine.

(** * Sequences of operations *)
(** The public operations.  [enqueue_or_coalesce], [cancel], [checkpoint_in_uow]
    and [reconcile_restored_jobs] run inside a unit of work of their caller. *)
Inductive op (context : Type) :=
| OpEnqueue (clock : Z) (new_id type_ : string) (version : Z) (payload : json) (dedupe_key : string)
| OpClaim (run : string) (now : Z)
| OpAssert (c : DurableJobClaim)
| OpCheckpoint (clock : Z) (c : DurableJobClaim) (v : json)
| OpComplete (clock : Z) (new_id : string) (c : DurableJobClaim)
| OpFail (clock : Z) (new_id : string) (c : DurableJobClaim) (error : string) (retry_at : option Z)
| OpCancel (clock : Z) (new_id job_id type_ : string) (version : Z) (command_context : context)
| OpRecover (ids : string -> string) (current_run_id : string) (now : Z)
| OpReconcile (clock : Z) (ids : string -> string).
Arguments OpEnqueue {_}. Arguments OpClaim {_}. Arguments OpAssert {_}. Arguments OpCheckpoint {_}.
Arguments OpComplete {_}. Arguments OpFail {_}. Arguments OpCancel {_}. Arguments OpRecover {_}.
Arguments OpReconcile {_}.

Section sequences.
Context `{Sha256, FloatText} {context : Type} (registry : @JobTypeRegistry context).

(** The tables an operation leaves, whether it returns or raises. *)
Definition exec (db : JobsDb) (o : op context) : JobsDb :=
  match o with
  | OpEnqueue clock new_id t v p k => (in_uow (enqueue_or_coalesce registry clock new_id t v p k) db).1
  | OpClaim run now => (claim_next registry run now db).1
  | OpAssert c => (assert_claim_current registry c db).1
  | OpCheckpoint clock c v => (checkpoint registry clock c v db).1
  | OpComplete clock new_id c => (complete registry clock new_id c db).1
  | OpFail clock new_id c e t => (fail registry clock new_id c e t db).1
  | OpCancel clock new_id j t v ctx => (in_uow (cancel registry clock new_id j t v ctx) db).1
  | OpRecover ids run now => (recover_stale_claims registry ids run now db).1
  | OpReconcile clock ids => (in_uow (reconcile_restored_jobs clock ids) db).1
  end.
Definition exec_all (db : JobsDb) (ops : list (op context)) : JobsDb := foldl exec db ops.

Lemma refines_fst {A} (m : jobsM A) db : refines m -> jobs_ok db -> star transition db (m db).1.
Proof. intros Hm Hok. destruct (m db) as [db' res] eqn:E. by eapply Hm. Qed.
Lemma refines_reconcile clock ids : refines_ok (reconcile_restored_jobs clock ids).
Proof.
  intros db db' res Hok Hr. unfold reconcile_restored_jobs in Hr.
  apply stm_bind_ok in Hr as (? & rows & Hx & Hr). apply query_ok in Hx as [-> ->].
  apply stm_bind_ok in Hr as (? & now & Hx & Hr). apply lift_ok in Hx as [-> _].
  apply stm_bind_ok in Hr as (db1 & n & Hf & Hr). apply stm_bind_ok in Hr as (? & t & Hx & Hr).
  apply query_ok in Hx as [-> ->]. injection Hr as <- _. destruct (active_jobs_ok db) as [Hn Ha].
  by destruct (reconcile_jobs_ok _ _ _ _ _ _ _ Hok Hn Ha Hf).
Qed.
Lemma exec_refines db o : jobs_ok db -> star transition db (exec db o).
Proof.
  intros Hok. destruct o; simpl; apply refines_fst; try done.
  - apply refines_in_uow, refines_weaken, enqueue_refines.
  - apply claim_next_refines.
  - unfold assert_claim_current, _verify_claim.
    repeat (apply refines_bind; [|intros ?]);
      solve [apply refines_lift|apply refines_query|apply (refines_lift (Ok _))].
  - apply refines_in_uow. intros db0 db' u Hok' Hr. apply stm_bind_ok in Hr as (s & text & Hr & Hx).
    injection Hx as <- _. by eapply checkpoint_refines.
  - apply complete_refines.
  - apply fail_refines.
  - apply refines_in_uow, cancel_refines.
  - apply recover_refines.
  - apply refines_in_uow, refines_reconcile.
Qed.
Lemma exec_all_refines db ops : jobs_ok db -> star transition db (exec_all db ops).
Proof.
  revert db. induction ops as [|o ops IH]; intros db Hok; simpl; [apply star_refl|].
  pose proof (exec_refines db o Hok) as Ho. eapply star_trans; [exact Ho|]. apply IH. by eapply star_ok.
Qed.

(** ** The attempt history *)
(** Each attempt started so far is on record, except the running one. *)
Definition history_ok (db : JobsDb) : Prop := forall j r n,
  durable_jobs db !! j = Some r -> 0 < n <= attempt_count r ->
  (state r = "running" -> n < attempt_count r) -> attempt_of db j n <> None.
Lemma attempt_of_elem db j n :
  attempt_of db j n <> None <-> exists a, a ∈ job_attempts db /\ at_job_id a = j /\ ordinal a = n.
Proof.
  unfold attempt_of. split.
  - intros Hn. destruct (filter _ _) as [|a l] eqn:E; [done|]. exists a.
    assert (a ∈ filter (fun a => at_job_id a = j /\ ordinal a = n) (job_attempts db)) as Ha
      by (rewrite E; left).
    apply list_elem_of_filter in Ha. tauto.
  - intros (a & Ha & Hj & Ho).
    assert (a ∈ filter (fun a => at_job_id a = j /\ ordinal a = n) (job_attempts db)) as Hin
      by (by apply list_elem_of_filter).
    destruct (filter _ _); [by apply elem_of_nil in Hin|done].
Qed.
Lemma transition_history db db' : transition db db' -> history_ok db -> history_ok db'.
Proof.
  intros Ht Hh j0 r0 n Hj Hn Hrun. apply attempt_of_elem.
  assert ((exists r, durable_jobs db !! j0 = Some r /\ 0 < n <= attempt_count r /\
    (state r = "running" -> n < attempt_count r)) \/
    (exists a, a ∈ job_attempts db' /\ at_job_id a = j0 /\ ordinal a = n)) as [(r & Hr & Hb & Hs)|Hnew];
    [|pose proof (Hh _ _ _ Hr Hb Hs) as (a & Ha & ?)%attempt_of_elem; exists a; split; [|done];
      by eapply transition_attempt|done].
  destruct Ht as [j r Hf Hs Hc|j r run now Hr Hs r'|j r text now Hr Hs r'
    |j r s next error now a Hr Hs Hne Hid Ho|j r s error now Hr Hact Hs Hs']; simpl in *;
    (apply lookup_insert_Some in Hj as [[<- <-]|[Hneq Hj]]; [|by eauto]); simpl in *.
  - lia.
  - left. exists r. specialize (Hrun eq_refl). split; [done|]. split; [lia|]. by destruct Hs as [-> | ->].
  - left. exists r. auto.
  - destruct (decide (n = attempt_count r)) as [->|Hneq].
    + right. exists a. set_solver.
    + left. exists r. split; [done|]. split; [done|]. lia.
  - left. by exists r.
Qed.

(** C24.  Whatever operations run, in whatever order and with whatever
    arguments, from empty tables: the coordinator only performs transitions of
    the job state machine, the tables satisfy its invariant (well-formed rows,
    at most one active job per dedupe identity, attempts with distinct ordinals
    that name an existing job), and the history is complete: the attempts on
    record are exactly the ordinals started, the running one excepted. *)
Theorem jobs_reachable_sound (ops : list (op context)) :
  let db := exec_all (MkJobsDb ∅ []) ops in
  star transition (MkJobsDb ∅ []) db /\ jobs_ok db /\
  (forall j r n, durable_jobs db !! j = Some r ->
     (attempt_of db j n <> None <->
      0 < n <= attempt_count r /\ (state r = "running" -> n < attempt_count r))).
Proof.
  intros db. pose proof (exec_all_refines _ ops empty_jobs_ok) as Hst.
  pose proof (star_ok _ _ empty_jobs_ok Hst) as Hok. split; [done|]. split; [done|].
  assert (history_ok db) as Hh.
  { refine (star_inv transition history_ok _ _ _ _ Hst).
    - intros s s' H1 H2. by apply (transition_history s).
    - intros j r n Hj. simpl in Hj. by rewrite lookup_empty in Hj. }
  intros j r n Hj. split.
  - intros (a & Ha & <- & <-)%attempt_of_elem.
    destruct (ok_attempts _ Hok a Ha) as (r' & Hr' & Hn & _ & Hs). fold db in Hr'.
    rewrite Hj in Hr'. by injection Hr' as <-.
  - intros [Hn Hs]. by apply (Hh j r).
Qed.

(** ** Finished jobs, spent claims *)
(** A completed, failed or cancelled job is final: no sequence of
    operations changes its row, and no attempt on record is ever removed or
    changed. *)
Theorem finished_job_frozen (db : JobsDb) (ops : list (op context)) (Hok : jobs_ok db) :
  let db' := exec_all db ops in
  (forall j r, durable_jobs db !! j = Some r -> is_terminal r = true -> durable_jobs db' !! j = Some r) /\
  (forall a, a ∈ job_attempts db -> a ∈ job_attempts db').
Proof.
  intros db'. pose proof (exec_all_refines db ops Hok) as Hst. split.
  - intros j r Hj Hr. refine (star_inv transition (fun s => durable_jobs s !! j = Some r) _ _ _ Hj Hst).
    intros s s' Hs Ht. by eapply transition_terminal.
  - intros a Ha. refine (star_inv transition (fun s => a ∈ job_attempts s) _ _ _ Ha Hst).
    intros s s' Hs Ht. by eapply transition_attempt.
Qed.

Lemma claim_over_forever db ops job_id n :
  jobs_ok db -> claim_over job_id n db -> claim_over job_id n (exec_all db ops).
Proof.
  intros Hok Ho. refine (star_inv transition _ _ _ _ Ho (exec_all_refines db ops Hok)).
  intros s s' Hs Ht. by eapply transition_claim_over.
Qed.
(** A claim that is current stays so until its attempt is over. *)
Lemma transition_claimed db db' c :
  transition db db' -> claimed c db <> None ->
  claimed c db' <> None \/ claim_over (cl_job_id c) (cl_attempt_ordinal c) db'.
Proof.
  intros Ht Hc. destruct (claimed c db) as [r|] eqn:Er; [|done]. clear Hc.
  unfold claimed in Er. apply bind_Some in Er as (r' & Hj & Er).
  destruct (claim_matches c r') eqn:Em; [|done]. injection Er as ->.
  unfold claimed, claim_over. destruct Ht as [j r0 Hf Hs|j r0 run now Hr Hs r'|j r0 text now Hr Hs r'
    |j r0 s next error now a Hr Hs Hne|j r0 s error now Hr Hact Hs Hs']; simpl;
    (destruct (decide (j = cl_job_id c)) as [->|Hneq];
      [rewrite lookup_insert_eq|rewrite lookup_insert_ne by done; left; rewrite Hj; simpl; by rewrite Em]);
    simplify_eq; pose proof Em as Em'; unfold claim_matches in Em'; bool_hyps.
  - destruct Hs; congruence.
  - left. simpl. enough (claim_matches c r' = true) as -> by done. exact Em.
  - right. eexists. split; [done|]. right. simpl. split; [lia|done].
  - done.
Qed.
Lemma released_stale db c r s next last now new :
  claimed c db = Some r -> s <> "running" ->
  claimed c (with_row db (cl_job_id c) (release_row s next last now r) new) = None.
Proof.
  intros (Hj & Hs & _ & Hn & _)%claimed_ok Hne. apply claim_over_stale.
  eexists. split; [apply lookup_insert_eq|]. right. by simpl.
Qed.
Lemma complete_effect clock new_id c db db' u :
  complete registry clock new_id c db = (db', Ok u) ->
  exists r contract, _require_claim_contract registry c = Ok contract /\ claimed c db = Some r /\
    db' = with_row db (cl_job_id c) (release_row "completed" None None clock r)
      [MkAttempt new_id (cl_job_id c) (cl_attempt_ordinal c) (cl_run_id c)
        (cl_claim_started_at_utc c) clock "completed" None].
Proof.
  unfold complete. intros Hr. apply stm_bind_ok in Hr as (? & contract & Hx & Hr).
  apply lift_ok in Hx as [-> Hc]. apply stm_bind_ok in Hr as (? & now & Hx & Hr).
  apply lift_ok in Hx as [-> Hnow]. unfold _now in Hnow. inv_ok Hnow.
  apply in_uow_ok in Hr as [(? & _ & Hr)|(? & ? & _)]; [|done]. inv_st Hr.
  apply verify_claim_ok in Hr0 as [-> Hcl]. exists a0, contract. split; [done|]. split; [done|].
  apply require_absent_ok in Hr2 as ->. apply insert_attempt_ok in Hr3 as [_ ->].
  apply claimed_ok in Hcl as (Hj & _).
  apply update_job_ok in Hr4 as [(r' & _ & Hr' & _ & _ & _ & ->)|(_ & _ & Hw)]; simpl in *; simplify_eq.
  - done.
  - by specialize (Hw _ Hj).
Qed.
Lemma verify_claim_conflict c db :
  claimed c db = None -> _verify_claim registry c db = (db, raise JobClaimConflict).
Proof.
  intros Hc. unfold _verify_claim, mbind, stM_bind, query, lift. by rewrite Hc.
Qed.

(** Every use of a claim that is not current raises, and changes nothing. *)
Lemma not_current_conflicts c db clock new_id error retry_at v contract :
  _require_claim_contract registry c = Ok contract -> 0 <= clock -> claimed c db = None ->
  complete registry clock new_id c db = (db, raise JobClaimConflict) /\
  fail registry clock new_id c error retry_at db = (db, raise JobClaimConflict) /\
  checkpoint registry clock c v db = (db, raise JobClaimConflict) /\
  assert_claim_current registry c db = (db, raise JobClaimConflict).
Proof.
  intros Hc Hclock Hn. pose proof (verify_claim_conflict c db Hn) as Hv.
  assert (_now clock = Ok clock) as Hnow.
  { unfold _now, _validate_time. by rewrite (proj2 (Z.ltb_ge _ _) Hclock). }
  unfold complete, fail, checkpoint, checkpoint_in_uow, assert_claim_current, in_uow.
  unfold mbind, stM_bind, lift. rewrite Hc, Hnow. unfold stM_bind. by rewrite Hv.
Qed.

(** C26.  A claim never comes back.  Once a claim that was current is not
    (its attempt was completed, failed, cancelled, recovered or reconciled,
    by whatever operations), then after any further operations every use of it
    (completing, failing, checkpointing, asserting) raises JobClaimConflict
    and changes nothing. *)
Theorem spent_claim_conflicts (db : JobsDb) (ops ops' : list (op context)) (c : DurableJobClaim)
    (contract : JobTypeContract context) (clock : Z) (new_id error : string) (retry_at : option Z)
    (v : json) (Hok : jobs_ok db) (Hcurrent : claimed c db <> None)
    (Hc : _require_claim_contract registry c = Ok contract) (Hclock : 0 <= clock)
    (Hspent : claimed c (exec_all db ops) = None) :
  let db' := exec_all (exec_all db ops) ops' in
  complete registry clock new_id c db' = (db', raise JobClaimConflict) /\
  fail registry clock new_id c error retry_at db' = (db', raise JobClaimConflict) /\
  checkpoint registry clock c v db' = (db', raise JobClaimConflict) /\
  assert_claim_current registry c db' = (db', raise JobClaimConflict).
Proof.
  intros db'. apply (not_current_conflicts c db' clock new_id error retry_at v contract Hc Hclock).
  apply claim_over_stale. pose proof (exec_all_refines db ops Hok) as Hst.
  apply claim_over_forever; [by eapply star_ok|].
  assert (claimed c (exec_all db ops) <> None \/
    claim_over (cl_job_id c) (cl_attempt_ordinal c) (exec_all db ops)) as [Hn|Ho]; [|congruence|done].
  refine (star_inv transition (fun s => claimed c s <> None \/
    claim_over (cl_job_id c) (cl_attempt_ordinal c) s) _ _ _ (or_introl Hcurrent) Hst).
  intros s1 s2 [Hs|Hs] Ht; [by eapply transition_claimed|]. right. by eapply transition_claim_over.
Qed.

(** The attempt that completing a claim records. *)
Definition completed_attempt (new_id : string) (clock : Z) (c : DurableJobClaim) : AttemptRow :=
  MkAttempt new_id (cl_job_id c) (cl_attempt_ordinal c) (cl_run_id c) (cl_claim_started_at_utc c) clock
    "completed" None.

(** Completing a claim is exact: the job's row becomes completed
    with the claim released and nothing else changed, one completed attempt at
    the claim's ordinal joins the history, and the claim is no longer current;
    when it raises, nothing changes. *)
Theorem complete_exact (clock : Z) (new_id : string) (c : DurableJobClaim) (db : JobsDb) :
  match complete registry clock new_id c db with
  | (db', Ok _) => exists r, claimed c db = Some r /\
      db' = with_row db (cl_job_id c) (release_row "completed" None None clock r)
        [completed_attempt new_id clock c] /\
      claimed c db' = None
  | (db', Raise _) => db' = db
  end.
Proof.
  destruct (complete registry clock new_id c db) as [db' [u|e]] eqn:Hr.
  - apply complete_effect in Hr as (r & contract & _ & Hc & ->). exists r.
    split; [done|]. split; [done|]. by apply released_stale.
  - unfold complete in Hr. apply stm_bind_raise in Hr as [Hr|(? & ? & [-> _]%lift_ok & Hr)];
      [by injection Hr as <-|].
    apply stm_bind_raise in Hr as [Hr|(? & ? & [-> _]%lift_ok & Hr)]; [by injection Hr as <-|].
    apply in_uow_ok in Hr as [(? & ? & _)|(? & _ & ->)]; done.
Qed.

(** ** Enqueueing *)
Lemma enqueue_matches_elem type_ version hash states db j r :
  enqueue_matches type_ version hash states db = [(j, r)] ->
  (forall j' r', durable_jobs db !! j' = Some r' -> job_type r' = type_ -> contract_version r' = version ->
     dedupe_sha256 r' = Some hash -> in_states states (state r') = true -> j' = j) /\
  durable_jobs db !! j = Some r /\ job_type r = type_ /\ contract_version r = version /\
  dedupe_sha256 r = Some hash /\ in_states states (state r) = true.
Proof.
  unfold enqueue_matches. intros E.
  assert (forall jr, jr ∈ [(j, r)] <-> durable_jobs db !! jr.1 = Some jr.2 /\ job_type jr.2 = type_ /\
    contract_version jr.2 = version /\ dedupe_sha256 jr.2 = Some hash /\
    in_states states (state jr.2) = true) as Hall.
  { intros [j' r']. rewrite <-E, firstn_all2.
    - rewrite elem_of_py_sorted, list_elem_of_filter, elem_of_map_to_list. simpl. tauto.
    - apply (f_equal length) in E. rewrite length_take in E. change (length [(j, r)]) with 1%nat in E. lia. }
  split; [|by apply (Hall (j, r)), list_elem_of_singleton].
  intros j' r' H1 H2 H3 H4 H5. specialize (proj2 (Hall (j', r'))). simpl. intros Hin.
  specialize (Hin ltac:(done)). apply list_elem_of_singleton in Hin. by injection Hin.
Qed.
Lemma enqueue_matches_nil type_ version hash states db :
  enqueue_matches type_ version hash states db = [] ->
  forall j r, durable_jobs db !! j = Some r -> job_type r = type_ -> contract_version r = version ->
     dedupe_sha256 r = Some hash -> in_states states (state r) = false.
Proof.
  unfold enqueue_matches. intros E j r H1 H2 H3 H4. apply not_true_iff_false. intros H5.
  assert ((j, r) ∈ py_sorted fst (filter (fun jr => job_type jr.2 = type_ /\
    contract_version jr.2 = version /\ dedupe_sha256 jr.2 = Some hash /\
    in_states states (state jr.2) = true) (map_to_list (durable_jobs db)))) as Hin.
  { rewrite elem_of_py_sorted, list_elem_of_filter, elem_of_map_to_list. done. }
  destruct (py_sorted _ _) as [|x [|y l]]; [by apply elem_of_nil in Hin|done..].
Qed.

Lemma enqueue_effect clock new_id type_ version payload key db db' id :
  enqueue_or_coalesce registry clock new_id type_ version payload key db = (db', Ok id) ->
  exists c text hash, registry_require registry type_ version = Ok c /\
    _canonical_payload c payload false = Ok text /\ _dedupe_sha256 type_ version key = Ok hash /\
    ((id = new_id /\ enqueue_matches type_ version hash (coalesce_states c) db = [] /\
      durable_jobs db !! new_id = None /\
      db' = with_row db new_id (MkJob type_ version "queued" clock clock 0 None None None text None None
        (Some hash)) []) \/
     (db' = db /\ exists r, enqueue_matches type_ version hash (coalesce_states c) db = [(id, r)])).
Proof.
  unfold enqueue_or_coalesce. intros Hr.
  apply stm_bind_ok in Hr as (? & c & Hx & Hr). apply lift_ok in Hx as [-> Hc].
  apply stm_bind_ok in Hr as (? & text & Hx & Hr). apply lift_ok in Hx as [-> Htext].
  do 5 (apply stm_bind_ok in Hr as (? & ? & Hx & Hr); apply lift_ok in Hx as [-> _]).
  apply stm_bind_ok in Hr as (? & hash & Hx & Hr). apply lift_ok in Hx as [-> Hh].
  apply stm_bind_ok in Hr as (? & rows & Hx & Hr). apply query_ok in Hx as [-> ->].
  exists c, text, hash. split; [done|]. split; [done|]. split; [done|].
  destruct (enqueue_matches _ _ _ _ db) as [|[j r] [|]] eqn:Em; [left|right|].
  - apply stm_bind_ok in Hr as (? & now & Hx & Hr). apply lift_ok in Hx as [-> Hnow].
    unfold _now in Hnow. inv_ok Hnow. apply stm_bind_ok in Hr as (? & ? & Hins & Hr). injection Hr as <- <-.
    unfold insert_or_integrity, insert_job in Hins. destruct (durable_jobs db !! new_id) eqn:Hn; [done|].
    destruct (job_row_ok _ && _); [|done]. injection Hins as <-.
    rewrite <-with_row_nil. done.
  - do 6 (apply stm_bind_ok in Hr as (? & ? & Hx & Hr); apply lift_ok in Hx as [-> _]).
    injection Hr as <- <-. split; [done|]. by exists r.
  - by apply lift_ok in Hr as [_ Hr].
Qed.

(** The columns no operation changes. *)
Definition identity_of (r : JobRow) : string * Z * option string * string * Z :=
  (job_type r, contract_version r, dedupe_sha256 r, payload_json r, created_at_utc r).
Lemma transition_identity db db' j i :
  transition db db' -> identity_of <$> durable_jobs db !! j = Some i ->
  identity_of <$> durable_jobs db' !! j = Some i.
Proof.
  intros Ht Hj. destruct Ht as [j0 r0 Hf Hs|j0 r0 run now Hr Hs r'|j0 r0 text now Hr Hs r'
    |j0 r0 s next error now a Hr Hs Hne|j0 r0 s error now Hr Hact Hs Hs']; simpl;
    (destruct (decide (j0 = j)) as [->|Hneq]; [rewrite lookup_insert_eq|by rewrite lookup_insert_ne]);
    rewrite ?Hf, ?Hr in Hj; done.
Qed.
Lemma exec_all_identity db ops j r :
  jobs_ok db -> durable_jobs db !! j = Some r ->
  exists r', durable_jobs (exec_all db ops) !! j = Some r' /\ identity_of r' = identity_of r.
Proof.
  intros Hok Hj.
  enough (identity_of <$> durable_jobs (exec_all db ops) !! j = Some (identity_of r))
    as (r' & ? & ?)%fmap_Some by (by exists r').
  refine (star_inv transition (fun s => identity_of <$> durable_jobs s !! j = Some (identity_of r))
    _ _ _ _ (exec_all_refines db ops Hok)).
  - intros s s' Hs Ht. by eapply transition_identity.
  - by rewrite Hj.
Qed.

(** Enqueueing is idempotent: after a successful enqueue and any
    further operations, a request of the same type, version and dedupe key that
    succeeds while the first job is in a state the contract coalesces (every
    active state is one) returns the first job's id and changes nothing. *)
Theorem enqueue_coalesces (clock clock' : Z) (new_id new_id' type_ : string) (version : Z)
    (payload payload' : json) (key : string) (db db1 db3 : JobsDb) (id id' : string)
    (ops : list (op context)) (c : JobTypeContract context) (r : JobRow)
    (Hok : jobs_ok db)
    (Hfirst : enqueue_or_coalesce registry clock new_id type_ version payload key db = (db1, Ok id))
    (Hc : registry_require registry type_ version = Ok c)
    (Hrow : durable_jobs (exec_all db1 ops) !! id = Some r)
    (Hstate : in_states (coalesce_states c) (state r) = true)
    (Hsecond : enqueue_or_coalesce registry clock' new_id' type_ version payload' key
      (exec_all db1 ops) = (db3, Ok id')) :
  id' = id /\ db3 = exec_all db1 ops.
Proof.
  pose proof (enqueue_refines registry _ _ _ _ _ _ _ _ _ Hok Hfirst) as Hst. apply star_ok in Hst; [|done].
  apply enqueue_effect in Hfirst as (c1 & text & hash & Hc1 & _ & Hh & Hcase).
  rewrite Hc in Hc1. injection Hc1 as <-.
  assert (exists r1, durable_jobs db1 !! id = Some r1 /\ job_type r1 = type_ /\
    contract_version r1 = version /\ dedupe_sha256 r1 = Some hash) as (r1 & Hr1 & Ht & Hv & Hd).
  { destruct Hcase as [(-> & _ & _ & ->)|(-> & r1 & Hm)].
    - eexists. split; [apply lookup_insert_eq|done].
    - apply enqueue_matches_elem in Hm as (_ & ? & ? & ? & ? & _). by exists r1. }
  destruct (exec_all_identity db1 ops id r1 Hst Hr1) as (r' & Hr' & Hi).
  rewrite Hrow in Hr'. injection Hr' as <-. unfold identity_of in Hi. injection Hi as Et Ev Ed _ _.
  apply enqueue_effect in Hsecond as (c2 & text' & hash' & Hc2 & _ & Hh' & Hcase').
  rewrite Hc in Hc2. injection Hc2 as <-. rewrite Hh in Hh'. injection Hh' as <-.
  destruct Hcase' as [(_ & Hm & _)|(-> & r2 & Hm)].
  - eapply enqueue_matches_nil in Hm; [|exact Hrow|congruence..]. congruence.
  - split; [|done]. symmetry. apply enqueue_matches_elem in Hm as (Hu & _).
    apply (Hu id r); congruence.
Qed.

(** ** Claiming *)
Lemma lift_step {A B} (r : result A) (f : A -> jobsM B) db db' b :
  (lift r ≫= f) db = (db', Ok b) <-> exists a, r = Ok a /\ f a db = (db', Ok b).
Proof. rewrite stm_bind_ok. setoid_rewrite lift_ok. naive_solver. Qed.

(** What [claim_row] has checked of a row it hands out. *)
Lemma claim_row_checked run now job_id r c db db' :
  claim_row registry run now job_id r db = (db', Ok (Some c)) ->
  created_at_utc r <= now /\ updated_at_utc r <= now /\ 0 <= attempt_count r /\
  (exists u, require_uuid4 job_id = Ok u) /\ is_sha256 (cl_dedupe_sha256 c) = true /\
  cl_checkpoint_json c = checkpoint_json r /\
  exists contract payload key,
    registry_get registry (job_type r) (contract_version r) = Some contract /\
    _load_registered_payload contract (payload_json r) = Ok payload /\
    _derive_dedupe_key contract payload true = Ok key /\
    _require_callback_did_not_mutate payload (payload_json r) "claim dedupe key derivation" = Ok tt /\
    _dedupe_sha256 (job_type r) (contract_version r) key = Ok (cl_dedupe_sha256 c) /\
    _validate_persisted_checkpoint contract (checkpoint_json r) = Ok (checkpoint_json r).
Proof.
  unfold claim_row. intros Hr. apply lift_step in Hr as (? & _ & Hr). apply lift_step in Hr as (? & _ & Hr).
  apply lift_step in Hr as (? & Hclock%forbid_ok & Hr). bool_hyps.
  destruct (registry_get registry _ _) as [contract|]; [|inv_st Hr; done].
  apply lift_step in Hr as (hash & Hh & Hr). apply lift_step in Hr as (payload & Hp & Hr).
  apply lift_step in Hr as (key & Hk & Hr). apply lift_step in Hr as ([] & Hm & Hr).
  apply lift_step in Hr as (hash' & Hh' & Hr). apply lift_step in Hr as (? & He%forbid_ok & Hr).
  apply lift_step in Hr as (cp & Hcp & Hr). apply lift_step in Hr as (? & Hu & Hr).
  apply lift_step in Hr as (? & Hn%forbid_ok & Hr). inv_st Hr. simpl. bool_hyps.
  assert (cp = checkpoint_json r) as ->.
  { unfold _validate_persisted_checkpoint in Hcp. by inv_ok Hcp. }
  assert (is_sha256 hash = true) as Hsha.
  { destruct (dedupe_sha256 r) as [h|]; [|done]. destruct (is_sha256 h) eqn:E; [|done]. by injection Hh as <-. }
  repeat split; try done; try lia.
  - unfold _require_uuid_persisted in Hu. destruct (require_uuid4 job_id); [by eexists|done].
  - exists contract, payload, key. by subst.
Qed.

Lemma claim_next_row run now db db' c :
  claim_next registry run now db = (db', Ok (Some c)) ->
  is_uuid4 run = true /\ 0 <= now /\ exists job_id r l,
    claim_candidates now db = (job_id, r) :: l /\ durable_jobs db !! job_id = Some r /\
    claimable now r = true /\ claim_row registry run now job_id r db = (db', Ok (Some c)).
Proof.
  unfold claim_next. intros Hr. apply lift_step in Hr as (? & [_ Hu]%require_uuid4_ok & Hr).
  apply lift_step in Hr as (? & Ht%forbid_ok & Hr). bool_hyps.
  apply in_uow_ok in Hr as [(? & [= <-] & Hr)|(? & ? & _)]; [|done].
  apply stm_bind_ok in Hr as (? & l & Hx & Hr). apply query_ok in Hx as [-> ->].
  destruct (claim_candidates now db) as [|[job_id r] l] eqn:El; [by injection Hr|].
  split; [done|]. split; [done|]. exists job_id, r, l. split; [done|].
  assert ((job_id, r) ∈ claim_candidates now db) as Hin by (rewrite El; by left).
  by apply claim_candidates_elem in Hin as [? ?].
Qed.

(** No claimable job comes before [j] in the scheduling order. *)
Definition scheduled_first (now : Z) (db : JobsDb) (j : string) (r : JobRow) : Prop :=
  forall j' r', durable_jobs db !! j' = Some r' -> claimable now r' = true ->
    leb (claim_key (j, r)) (claim_key (j', r')) = true.

(** Claiming hands out the claimable job that comes first in the
    scheduling order (jobs without a retry time first, then the earliest retry,
    creation and id), marks exactly its row running under the caller's run with
    the next attempt ordinal, and is exclusive: the claim returned is current
    and is the only claim of that job that is. *)
Theorem claim_next_exact (run : string) (now : Z) (c : DurableJobClaim) (db db' : JobsDb)
    (Hclaim : claim_next registry run now db = (db', Ok (Some c))) :
  exists r, durable_jobs db !! cl_job_id c = Some r /\ claimable now r = true /\
    scheduled_first now db (cl_job_id c) r /\
    db' = with_row db (cl_job_id c) (claimed_row run now (attempt_count r + 1) r) [] /\
    claimed c db' = Some (claimed_row run now (attempt_count r + 1) r) /\
    (forall c', cl_job_id c' = cl_job_id c -> claimed c' db' <> None ->
       cl_run_id c' = cl_run_id c /\ cl_attempt_ordinal c' = cl_attempt_ordinal c /\
       cl_claim_started_at_utc c' = cl_claim_started_at_utc c).
Proof.
  apply claim_next_row in Hclaim as (_ & _ & j & r & l & El & Hj & Hcl & Hrow).
  pose proof (claim_row_ok _ _ _ _ _ _ _ _ Hj Hcl Hrow)
    as (-> & _ & _ & Ej & Et & Ev & Er & En & Es & _ & _). exists r. rewrite Ej.
  split; [done|]. split; [done|]. split; [|split; [done|split]].
  - intros j' r' Hj' Hc'. assert ((j', r') ∈ claim_candidates now db) as Hin
      by (by apply claim_candidates_elem).
    pose proof (py_sorted_sorted claim_key
      (filter (fun jr => claimable now jr.2 = true) (map_to_list (durable_jobs db)))) as Hs.
    fold (claim_candidates now db) in Hs. rewrite El in Hs, Hin.
    apply StronglySorted_inv in Hs as [_ Hs].
    apply elem_of_cons in Hin as [[= -> ->]|Hin]; [apply leb_refl|].
    rewrite Forall_forall in Hs. by apply (Hs (j', r')).
  - unfold claimed. simpl. rewrite Ej, lookup_insert_eq. simpl. unfold claim_matches. simpl.
    rewrite Et, Ev, Er, En, Es. by rewrite String.eqb_refl, !Z.eqb_refl, !bool_decide_eq_true_2.
  - intros c' Hc' Hcur. destruct (claimed c' _) as [r'|] eqn:E; [|done].
    apply claimed_ok in E as (Hl & _ & H1 & H2 & H3). rewrite Hc' in Hl. simpl in Hl.
    rewrite lookup_insert_eq in Hl. injection Hl as <-. simpl in *. split; [congruence|]. split; congruence.
Qed.

(** A claim just handed out verifies. *)
Lemma claimed_verifies run now c db db' :
  claim_next registry run now db = (db', Ok (Some c)) ->
  exists r contract, durable_jobs db !! cl_job_id c = Some r /\ attempt_count r + 1 = cl_attempt_ordinal c /\
    created_at_utc r <= now /\ 0 <= now /\ 0 <= attempt_count r /\ cl_claim_started_at_utc c = now /\
    _require_claim_contract registry c = Ok contract /\
    db' = with_row db (cl_job_id c) (claimed_row run now (attempt_count r + 1) r) [] /\
    claimed c db' = Some (claimed_row run now (attempt_count r + 1) r) /\
    _verify_claim registry c db' = (db', Ok (claimed_row run now (attempt_count r + 1) r)).
Proof.
  intros Hclaim. apply claim_next_row in Hclaim as (Hu & Hnow & j & r & l & _ & Hj & Hcl & Hrow).
  pose proof (claim_row_checked _ _ _ _ _ _ _ Hrow) as (Hc & _ & Hn & (? & [_ Huj]%require_uuid4_ok) & Hsha
    & Hcp & contract & payload & key & Hreg & Hp & Hk & Hm & Hh & Hv).
  pose proof (claim_row_ok _ _ _ _ _ _ _ _ Hj Hcl Hrow)
    as (-> & _ & _ & Ej & Et & Ev & Er & En & Es & Ed & Epay). exists r, contract.
  assert (claimed c (with_row db j (claimed_row run now (attempt_count r + 1) r) []) =
    Some (claimed_row run now (attempt_count r + 1) r)) as Hcur.
  { unfold claimed. simpl. rewrite Ej, lookup_insert_eq. simpl. unfold claim_matches. simpl.
    rewrite Et, Ev, Er, En, Es. by rewrite String.eqb_refl, !Z.eqb_refl, !bool_decide_eq_true_2. }
  rewrite Ej, En, Es. do 6 (split; [done|]). split; [|split; [done|split; [done|]]].
  - unfold _require_claim_contract, require_uuid4, _validate_time, registry_require.
    rewrite Ej, Er, En, Es, Et, Ev, Huj, Hu, Hsha, Hreg. simpl.
    by rewrite (proj2 (Z.ltb_ge _ _) Hnow), (proj2 (Z.ltb_ge (attempt_count r + 1) 1) ltac:(lia)).
  - unfold _verify_claim, mbind, stM_bind, query. rewrite Hcur. unfold lift. simpl.
    rewrite Ed, Et, Ev, Hsha, Hreg, Epay. simpl. rewrite !String.eqb_refl. simpl.
    rewrite Hp. simpl. rewrite Hk. simpl. rewrite Hm. simpl. rewrite Hh. simpl.
    rewrite String.eqb_refl. simpl. by rewrite Hv.
Qed.

Lemma lift_bind_ok {A B} (r : result A) (f : A -> jobsM B) db a :
  r = Ok a -> (lift r ≫= f) db = f a db.
Proof. by intros ->. Qed.
Lemma stm_bind_eq {A B} (m : jobsM A) (f : A -> jobsM B) db db' a :
  m db = (db', Ok a) -> (m ≫= f) db = f a db'.
Proof. unfold mbind, stM_bind. by intros ->. Qed.

Definition unused_attempt_id (new_id : string) (db : JobsDb) : Prop :=
  Forall (fun a => attempt_id a <> new_id) (job_attempts db).

(** C25.  A claim can be completed: right after it was handed out, with any
    clock not behind the claim and any unused attempt id, [complete] succeeds
    and leaves the job completed with its attempt recorded. *)
Theorem claim_then_complete (run new_id : string) (now clock : Z) (c : DurableJobClaim)
    (db db' : JobsDb) (Hok : jobs_ok db)
    (Hclaim : claim_next registry run now db = (db', Ok (Some c))) (Hclock : now <= clock)
    (Hfresh : unused_attempt_id new_id db) :
  exists db2 r, complete registry clock new_id c db' = (db2, Ok tt) /\
    durable_jobs db2 !! cl_job_id c = Some r /\ state r = "completed" /\
    attempt_of db2 (cl_job_id c) (cl_attempt_ordinal c) <> None.
Proof.
  pose proof (claim_next_refines registry run now _ _ _ Hok Hclaim) as Hst.
  pose proof (star_ok _ _ Hok Hst) as Hok'.
  apply claimed_verifies in Hclaim as (r & contract & Hj & Hn & Hcr & Hnow & Hcount & Hs & Hc & Hdb & Hcur & Hv).
  pose proof (claimed_ok _ _ _ Hcur) as (Hj' & _ & _ & Hn' & _).
  pose proof (running_attempt_absent _ _ _ Hok' Hj' eq_refl) as Habs. rewrite Hn' in Habs.
  set (r1 := claimed_row run now (attempt_count r + 1) r) in *.
  set (a := MkAttempt new_id (cl_job_id c) (cl_attempt_ordinal c) (cl_run_id c)
    (cl_claim_started_at_utc c) clock "completed" None).
  assert (attempt_row_ok db' a = true) as Ha.
  { unfold attempt_row_ok. simpl. rewrite Hj', bool_decide_eq_true_2 by done. rewrite Hs.
    rewrite (proj2 (Z.ltb_lt _ _)), !(proj2 (Z.leb_le _ _)) by lia. simpl.
    apply bool_decide_eq_true, Forall_forall. intros b Hb. split.
    - unfold unused_attempt_id in Hfresh; rewrite Forall_forall in Hfresh. apply Hfresh. subst. simpl in Hb. by rewrite app_nil_r in Hb.
    - intros [H1 H2]. apply (proj2 (attempt_of_elem db' (cl_job_id c) (cl_attempt_ordinal c))); [|done].
      by exists b. }
  assert (job_row_ok (release_row "completed" None None clock r1) = true) as Hrow.
  { pose proof (ok_rows _ Hok' _ _ Hj') as Hr. unfold job_row_ok in *. simpl in *. bool_hyps.
    rewrite (proj2 (Z.ltb_lt _ _)), !(proj2 (Z.leb_le _ _)) by lia. simpl. done. }
  exists (with_row db' (cl_job_id c) (release_row "completed" None None clock r1) [a]),
    (release_row "completed" None None clock r1).
  split; [|split; [apply lookup_insert_eq|split; [done|]]].
  - unfold complete. rewrite (lift_bind_ok _ _ _ _ Hc).
    rewrite (lift_bind_ok _ _ _ clock) by (unfold _now, _validate_time;
      by rewrite (proj2 (Z.ltb_ge clock 0)) by lia).
    unfold in_uow. rewrite (stm_bind_eq _ _ _ _ _ Hv).
    rewrite (lift_bind_ok _ _ _ tt).
    2: { unfold _require_nonregressing_now. simpl. rewrite Hs, (proj2 (Z.ltb_ge _ _) Hclock). done. }
    rewrite (stm_bind_eq _ _ _ db' tt) by (unfold _require_attempt_absent, mbind, stM_bind, query, lift;
      by rewrite Habs).
    rewrite (stm_bind_eq _ _ _ (MkJobsDb (durable_jobs db') (job_attempts db' ++ [a])) tt).
    2: { unfold _insert_attempt. rewrite (lift_bind_ok _ _ _ tt) by (rewrite Hs;
           by rewrite (proj2 (Z.ltb_ge _ _) Hclock)).
         rewrite (lift_bind_ok _ _ _ tt) by done. unfold insert_row. fold a. by rewrite Ha. }
    unfold update_job, mbind, stM_bind. simpl. rewrite Hj', Hrow. done.
  - apply attempt_of_elem. exists a. split; [|done]. simpl. set_solver.
Qed.
End sequences.

(** * Witnesses *)
Module JobsSamples.
Import Sample.
Lemma queued_ok : jobs_ok queued.
Proof.
  refine (star_ok _ _ empty_jobs_ok (enqueue_refines registry _ _ _ _ _ _ _ _ _ empty_jobs_ok enqueue_empty)).
Qed.
Lemma running_ok : jobs_ok running.
Proof. refine (star_ok _ _ queued_ok (claim_next_refines registry _ _ _ _ _ queued_ok claim_queued)). Qed.
Lemma completed_ok : jobs_ok completed.
Proof. refine (star_ok _ _ running_ok (complete_refines registry _ _ _ _ _ _ running_ok complete_running)). Qed.
Definition finish_ops : list (op unit) := [OpComplete 30 attempt_1 claim].
Definition later_ops : list (op unit) :=
  [OpClaim run_2 40; OpCancel 50 attempt_1 job_a "REFRESH" 1 tt; OpRecover (fun j => j) run_2 60].

Lemma finished_job_frozen_witness :
  is_terminal (row "completed" 30 1 None) = true /\
  durable_jobs (exec_all registry completed later_ops) !! job_a = Some (row "completed" 30 1 None).
Proof.
  split; [vm_compute; reflexivity|].
  apply (proj1 (finished_job_frozen registry completed later_ops completed_ok));
    vm_compute; reflexivity.
Defined.
Lemma spent_claim_conflicts_witness :
  let db' := exec_all registry (exec_all registry running finish_ops) later_ops in
  complete registry 70 job_b claim db' = (db', raise JobClaimConflict) /\
  fail registry 70 job_b claim "TIMEOUT" None db' = (db', raise JobClaimConflict) /\
  checkpoint registry 70 claim payload db' = (db', raise JobClaimConflict) /\
  assert_claim_current registry claim db' = (db', raise JobClaimConflict).
Proof.
  apply (spent_claim_conflicts registry running finish_ops later_ops claim refresh 70 job_b "TIMEOUT"
    None payload running_ok).
  - vm_compute. discriminate.
  - vm_compute. reflexivity.
  - lia.
  - vm_compute. reflexivity.
Defined.
Lemma enqueue_coalesces_witness :
  job_a = job_a /\ exec_all registry queued [OpClaim run_1 20] =
    exec_all registry queued [OpClaim run_1 20].
Proof.
  apply (enqueue_coalesces registry 10 25 job_a job_b "REFRESH" 1 payload payload "sla" empty queued
    _ job_a job_a [OpClaim run_1 20] refresh (row "running" 20 1 (Some run_1)) empty_jobs_ok enqueue_empty);
    vm_compute; reflexivity.
Defined.
Lemma claim_next_exact_witness :
  exists r, durable_jobs queued !! job_a = Some r /\ claimable 20 r = true /\ claimed claim running <> None.
Proof.
  destruct (claim_next_exact registry run_1 20 claim queued running claim_queued)
    as (r & Hr & Hc & _ & _ & Hcl & _).
  exists r. split; [exact Hr|]. split; [exact Hc|]. rewrite Hcl. discriminate.
Defined.
Lemma claim_then_complete_witness :
  exists db2 r, complete registry 30 attempt_1 claim running = (db2, Ok tt) /\
    durable_jobs db2 !! job_a = Some r /\ state r = "completed" /\ attempt_of db2 job_a 1 <> None.
Proof.
  apply (claim_then_complete registry run_1 attempt_1 20 30 claim queued running queued_ok claim_queued).
  - lia.
  - constructor.
Defined.
End JobsSamples.
