(* ===== verification/JobsRecovery.v ===== *)
(** What the coordinator promises after a crash and after a restore:
    [recover_stale_claims] and [reconcile_restored_jobs]. *)
From S2P Require Import Prelude StrictJson Identifiers Jobs JobsExample JobsSpec JobsRefine JobsProps.

(** * Recovery after a crash *)
(** A loop that handles one job per iteration. *)
Lemma foldS_each_job {S} (f : S -> string -> jobsM S) (settled : JobRow -> Prop) l s db db' s' :
  (forall s j db db' s', f s j db = (db', Ok s') ->
     (forall j', j' <> j -> durable_jobs db' !! j' = durable_jobs db !! j') /\
     (forall r, durable_jobs db' !! j = Some r -> settled r)) ->
  foldS f s l db = (db', Ok s') ->
  (forall j, j ∉ l -> durable_jobs db' !! j = durable_jobs db !! j) /\
  (forall j r, j ∈ l -> durable_jobs db' !! j = Some r -> settled r).
Proof.
  intros Hf. revert s db. induction l as [|j l IH]; intros s db Hr.
  { injection Hr as <- _. split; [done|]. intros j r Hj. by apply elem_of_nil in Hj. }
  simpl in Hr. apply stm_bind_ok in Hr as (db1 & s1 & H1 & Hr). apply Hf in H1 as [Hsame Hset].
  apply IH in Hr as [Hsame' Hset']. split.
  - intros j' [Hne Hl]%not_elem_of_cons. by rewrite Hsame', Hsame.
  - intros j' r Hj' Hr'. destruct (decide (j' ∈ l)) as [Hl|Hl]; [by eapply Hset'|].
    apply elem_of_cons in Hj' as [->|]; [|done]. apply Hset. by rewrite <-Hsame'.
Qed.
Lemma foldS_inv {S A} (f : S -> A -> jobsM S) (I : S -> Prop) l s db db' s' :
  (forall s x db db' s', I s -> f s x db = (db', Ok s') -> I s') ->
  I s -> foldS f s l db = (db', Ok s') -> I s'.
Proof.
  intros Hf. revert s db. induction l as [|x l IH]; intros s db Hs Hr; simpl in Hr.
  - by injection Hr as _ <-.
  - apply stm_bind_ok in Hr as (db1 & s1 & H1 & Hr). eauto.
Qed.

(** Every examined job has one disposition. *)
Definition dispositions (s : DurableJobRecoverySummary) : Z :=
  queued_count s + retry_wait_count s + waiting_review_count s + failed_count s + skipped_count s.
Definition balanced (s : DurableJobRecoverySummary) : Prop := examined_count s = dispositions s.
Lemma bump_balanced s n what :
  balanced s -> what ∈ "skipped" :: _RECOVERY_STATES ->
  balanced (bump what 1 (bump "interrupted" n (bump "examined" 1 s))).
Proof.
  unfold balanced, dispositions, _RECOVERY_STATES. intros Hs Hw.
  repeat (apply elem_of_cons in Hw as [->|Hw]; [simpl; lia|]). by apply elem_of_nil in Hw.
Qed.
Lemma bump_zero s : bump "interrupted" 0 s = s.
Proof. destruct s. unfold bump. simpl. by rewrite Z.add_0_r. Qed.

Section recovery.
Context `{Sha256, FloatText} {context : Type} (registry : @JobTypeRegistry context).

(** What one iteration does: nothing, or release its job's row. *)
Definition iteration (db db' : JobsDb) (job_id : string) (skip : JobRow -> bool) : Prop :=
  (db' = db /\ forall r, durable_jobs db !! job_id = Some r -> skip r = true) \/
  exists r s next error now, durable_jobs db !! job_id = Some r /\ s <> "running" /\
    durable_jobs db' = <[job_id := release_row s next error now r]> (durable_jobs db).
Lemma iteration_other db db' job_id skip j :
  iteration db db' job_id skip -> j <> job_id -> durable_jobs db' !! j = durable_jobs db !! j.
Proof.
  intros [[-> _]|(? & ? & ? & ? & ? & _ & _ & ->)] Hne; [done|]. by rewrite lookup_insert_ne.
Qed.
Lemma interrupted_table new_id job_id n run started finished err db db' b :
  _insert_interrupted_if_absent new_id job_id n run started finished err db = (db', Ok b) ->
  durable_jobs db' = durable_jobs db.
Proof.
  unfold _insert_interrupted_if_absent. intros Hi.
  apply stm_bind_ok in Hi as (? & e & Hq & Hi). apply query_ok in Hq as [-> ->].
  destruct (attempt_of db job_id n) as [a|].
  - destruct (same_interruption _ _ _ _); [by injection Hi as <-|by apply lift_ok in Hi as [_ Hi]].
  - apply stm_bind_ok in Hi as (? & u & Hins & Hi). injection Hi as <- _.
    by apply insert_attempt_ok in Hins as [_ ->].
Qed.
Lemma released_iteration db db1 db2 db3 job_id r w f s next error now skip n m u :
  durable_jobs db !! job_id = Some r -> durable_jobs db1 = durable_jobs db ->
  update_job job_id w f db1 = (db2, Ok n) -> require_one m n db2 = (db3, Ok u) ->
  f r = release_row s next error now r -> s <> "running" -> iteration db db3 job_id skip.
Proof.
  intros Hj Hd Hup Hone Hf Hs. destruct (update_one_ok _ _ _ _ _ _ _ _ _ Hup Hone)
    as [-> (r' & Hr' & _ & _ & _ & ->)]. rewrite Hd in Hr'. rewrite Hj in Hr'. injection Hr' as <-.
  right. exists r, s, next, error, now. simpl. by rewrite Hf, Hd.
Qed.

Lemma recover_legacy_effect ids now s job_id db db' s' :
  recover_legacy ids now s job_id db = (db', Ok s') ->
  iteration db db' job_id (fun r => negb (legacy_active r)) /\
  (forall r, durable_jobs db' !! job_id = Some r -> legacy_active r = false) /\
  (balanced s -> balanced s').
Proof.
  unfold recover_legacy. intros [(? & [= <-] & Hr)|(? & ? & _)]%in_uow_ok; [|done].
  apply stm_bind_ok in Hr as (? & row & Hx & Hr). apply query_ok in Hx as [-> ->].
  destruct (durable_jobs db !! job_id) as [r|] eqn:Hj.
  2: { injection Hr as <- <-. split; [left; split; [done|congruence]|]. split; [congruence|].
       intros Hs. rewrite <-(bump_zero (bump "examined" 1 s)). apply bump_balanced; [done|by left]. }
  destruct (legacy_active r) eqn:El.
  2: { injection Hr as <- <-. split; [|split].
       - left. split; [done|]. intros r' Hr'. simplify_eq. by rewrite El.
       - intros r' Hr'. by simplify_eq.
       - intros Hs. rewrite <-(bump_zero (bump "examined" 1 s)). apply bump_balanced; [done|by left]. }
  apply stm_bind_ok in Hr as (db1 & s1 & Hint & Hr). apply stm_bind_ok in Hr as (db2 & n & Hup & Hr).
  apply stm_bind_ok in Hr as (db3 & u & Hone & Hr). injection Hr as <- <-.
  assert (durable_jobs db1 = durable_jobs db /\ exists k, s1 = bump "interrupted" k (bump "examined" 1 s))
    as [Hd (k & ->)].
  { unfold interrupt_legacy in Hint. destruct (String.eqb (state r) "running").
    - destruct (claimed_run_id r), (claim_started_at_utc r); try by apply lift_ok in Hint as [_ Hint].
      apply stm_bind_ok in Hint as (? & ? & Hx & Hint). apply lift_ok in Hx as [-> _].
      apply stm_bind_ok in Hint as (? & b & Hx & Hint). injection Hint as <- <-.
      split; [by eapply interrupted_table|]. by eexists.
    - injection Hint as <- <-. split; [done|]. exists 0. by rewrite bump_zero. }
  pose proof (released_iteration _ _ _ _ _ _ _ _ "failed" _ _ _ (fun r => negb (legacy_active r)) _ _ _
    Hj Hd Hup Hone eq_refl ltac:(done)) as Hit. split; [done|]. split.
  - intros r' Hr'. destruct (update_one_ok _ _ _ _ _ _ _ _ _ Hup Hone)
      as [-> (r0 & _ & _ & _ & _ & ->)]. simpl in Hr'. rewrite lookup_insert_eq in Hr'. injection Hr' as <-.
    unfold legacy_active. by rewrite andb_false_r.
  - intros Hs. apply bump_balanced; [done|]. unfold _RECOVERY_STATES. set_solver.
Qed.

Lemma disposition_states (c : JobTypeContract context) now r d e :
  stale_disposition c now r = Ok (d, e) -> d_state d ∈ _RECOVERY_STATES.
Proof.
  unfold stale_disposition. intros Hd. apply bind_ok in Hd as (hash & _ & Hd).
  do 9 (apply bind_ok in Hd as (? & _ & Hd)). apply bind_ok in Hd as (? & Hv & Hd).
  apply bind_ok in Hd as (? & _ & Hd). injection Hd as <- _. unfold _validate_recovery_disposition in Hv.
  apply bind_ok in Hv as (? & Hs%forbid_ok & _). by apply negb_false_iff, in_states_elem in Hs.
Qed.
Lemma not_running_settled current db db' job_id skip :
  iteration db db' job_id skip ->
  (forall r, skip r = true -> stale_claim current r = false) ->
  forall r, durable_jobs db' !! job_id = Some r -> stale_claim current r = false.
Proof.
  intros [[-> Hs]|(r0 & s & next & error & now & _ & Hs & ->)] Hskip r Hr; [by apply Hskip, Hs|].
  rewrite lookup_insert_eq in Hr. injection Hr as <-. unfold stale_claim. simpl.
  by apply String.eqb_neq in Hs as ->.
Qed.
Lemma recover_stale_effect ids current now s job_id db db' s' :
  recover_stale_job registry ids current now s job_id db = (db', Ok s') ->
  iteration db db' job_id (fun r => negb (stale_claim current r)) /\ (balanced s -> balanced s').
Proof.
  unfold recover_stale_job. intros [(? & [= <-] & Hr)|(? & ? & _)]%in_uow_ok; [|done].
  assert (forall s, balanced s -> balanced (bump "skipped" 1 (bump "examined" 1 s))) as Hskip.
  { intros s0 Hs. rewrite <-(bump_zero (bump "examined" 1 s0)). apply bump_balanced; [done|by left]. }
  apply stm_bind_ok in Hr as (? & row & Hx & Hr). apply query_ok in Hx as [-> ->].
  destruct (durable_jobs db !! job_id) as [r|] eqn:Hj.
  2: { injection Hr as <- <-. split; [left; split; [done|congruence]|auto]. }
  assert (stale_claim current r = false -> iteration db db job_id (fun r => negb (stale_claim current r)))
    as Hnone.
  { intros Hs. left. split; [done|]. intros r' Hr'. simplify_eq. by rewrite Hs. }
  unfold stale_claim in Hnone. destruct (String.eqb (state r) "running");
    [|injection Hr as <- <-; split; [by apply Hnone|auto]].
  destruct (claimed_run_id r) as [run|];
    [|injection Hr as <- <-; split; [apply Hnone; by rewrite andb_false_r|auto]].
  destruct (String.eqb run current);
    [injection Hr as <- <-; split; [apply Hnone; by rewrite andb_false_r|auto]|].
  apply lift_step in Hr as (started & _ & Hr). apply stm_bind_ok in Hr as (db1 & b & Hins & Hr).
  apply interrupted_table in Hins as Hd.
  destruct (registry_get registry (job_type r) (contract_version r)) as [c|].
  - apply lift_step in Hr as ([d e] & Hdis & Hr).
    apply stm_bind_ok in Hr as (db2 & n & Hup & Hr). apply stm_bind_ok in Hr as (db3 & u & Hone & Hr).
    injection Hr as <- <-. pose proof (disposition_state _ _ _ _ _ Hdis) as Hne. split.
    + by eapply (released_iteration _ _ _ _ _ _ _ _ (d_state d)); [exact Hj|exact Hd|exact Hup|exact Hone| |].
    + intros Hs. apply bump_balanced; [done|]. right. by eapply disposition_states.
  - apply stm_bind_ok in Hr as (db2 & n & Hup & Hr). apply stm_bind_ok in Hr as (db3 & u & Hone & Hr).
    injection Hr as <- <-. split.
    + by eapply (released_iteration _ _ _ _ _ _ _ _ "failed"); [exact Hj|exact Hd|exact Hup|exact Hone| |].
    + intros Hs. apply bump_balanced; [done|]. unfold _RECOVERY_STATES. set_solver.
Qed.

Lemma list_job_ids_elem p j db :
  j ∈ list_job_ids p db <-> exists r, durable_jobs db !! j = Some r /\ p r = true.
Proof.
  unfold list_job_ids. rewrite elem_of_py_sorted, list_elem_of_fmap. split.
  - intros ([j' r] & -> & [Hp Hin]%list_elem_of_filter). apply elem_of_map_to_list in Hin. by exists r.
  - intros (r & Hr & Hp). exists (j, r). split; [done|]. by rewrite list_elem_of_filter, elem_of_map_to_list.
Qed.

Lemma settled_running current r :
  job_row_ok r = true -> state r = "running" -> legacy_active r = false -> stale_claim current r = false ->
  claimed_run_id r = Some current /\ dedupe_sha256 r <> None.
Proof.
  unfold job_row_ok, legacy_active, stale_claim, is_active. intros Hr Hrun Hl Hs.
  rewrite Hrun in *. simpl in *. bool_hyps. split; [|by rewrite andb_true_r in Hl; bool_hyps].
  rewrite andb_true_r in Hl. bool_hyps. assert (is_Some (claimed_run_id r)) as [run Erun] by done.
  rewrite Erun in *. destruct (dedupe_sha256 r); [|done]. simpl in Hs.
  apply negb_false_iff, String.eqb_eq in Hs. by subst.
Qed.
Lemma stale_loop_legacy ids current now s db db' s' :
  jobs_ok db ->
  foldS (recover_stale_job registry ids current now) s (list_job_ids (stale_claim current) db) db
    = (db', Ok s') ->
  (forall j, j ∉ list_job_ids (stale_claim current) db -> durable_jobs db' !! j = durable_jobs db !! j) ->
  (forall j r, durable_jobs db !! j = Some r -> legacy_active r = false) ->
  forall j r, durable_jobs db' !! j = Some r -> legacy_active r = false.
Proof.
  intros Hok Hr Hsame Hleg j r Hj.
  destruct (decide (j ∈ list_job_ids (stale_claim current) db)) as [Hin|Hout];
    [|apply (Hleg j); by rewrite <-Hsame].
  apply list_job_ids_elem in Hin as (r0 & Hr0 & Hs). unfold stale_claim in Hs. bool_hyps.
  assert (refines (foldS (recover_stale_job registry ids current now) s
    (list_job_ids (stale_claim current) db))) as Href
    by (apply refines_foldS; intros; apply recover_stale_refines).
  assert (identity_of <$> durable_jobs db' !! j = Some (identity_of r0)) as Hi.
  { refine (star_inv transition (fun s => identity_of <$> durable_jobs s !! j = Some (identity_of r0))
      _ _ _ _ (Href _ _ _ Hok Hr)); [|by rewrite Hr0].
    intros s1 s2 Hs1 Ht. by eapply transition_identity. }
  rewrite Hj in Hi. injection Hi as _ _ Hd _ _. unfold legacy_active.
  by rewrite Hd, bool_decide_eq_false_2 by (by intros E; rewrite E in *; eapply is_Some_None).
Qed.

(** Recovery after a crash clears every stale claim: when it returns,
    each job still running has a dedupe identity and is claimed by the current
    run, each job without a dedupe identity is terminal, the jobs that were
    neither are untouched, and the summary accounts for every job examined:
    examined = queued + retried + to review + failed + skipped. *)
Theorem recover_clears_stale (ids : string -> string) (current : string) (now : Z)
    (db db' : JobsDb) (s : DurableJobRecoverySummary) (Hok : jobs_ok db)
    (Hr : recover_stale_claims registry ids current now db = (db', Ok s)) :
  (forall j r, durable_jobs db' !! j = Some r -> state r = "running" ->
     claimed_run_id r = Some current /\ dedupe_sha256 r <> None) /\
  (forall j r, durable_jobs db' !! j = Some r -> dedupe_sha256 r = None -> is_active r = false) /\
  (forall j r, durable_jobs db !! j = Some r -> legacy_active r = false -> stale_claim current r = false ->
     durable_jobs db' !! j = Some r) /\
  balanced s.
Proof.
  pose proof (recover_refines registry ids current now _ _ _ Hok Hr) as Hst.
  pose proof (ok_rows _ (star_ok _ _ Hok Hst)) as Hrows. clear Hst.
  unfold recover_stale_claims in Hr. apply lift_step in Hr as (? & _ & Hr). apply lift_step in Hr as (? & _ & Hr).
  apply stm_bind_ok in Hr as (? & legacy & Hx & Hr). apply query_ok in Hx as [-> ->].
  apply stm_bind_ok in Hr as (db1 & s1 & H1 & Hr). apply stm_bind_ok in Hr as (? & stale & Hx & H2).
  apply query_ok in Hx as [-> ->].
  assert (jobs_ok db1) as Hok1.
  { refine (star_ok _ _ Hok (refines_foldS _ _ _ _ _ _ _ Hok H1)). intros. apply recover_legacy_refines. }
  pose proof (foldS_each_job _ (fun r => legacy_active r = false) _ _ _ _ _ (fun s j db0 db2 s' Hs =>
    conj (fun j' => iteration_other _ _ _ _ j' (proj1 (recover_legacy_effect ids now s j db0 db2 s' Hs)))
         (proj1 (proj2 (recover_legacy_effect ids now s j db0 db2 s' Hs)))) H1) as [Hsame1 Hset1].
  pose proof (foldS_each_job _ (fun r => stale_claim current r = false) _ _ _ _ _ (fun s j db0 db2 s' Hs =>
    let Hit := proj1 (recover_stale_effect ids current now s j db0 db2 s' Hs) in
    conj (fun j' => iteration_other _ _ _ _ j' Hit)
         (not_running_settled current _ _ _ _ Hit (fun r => proj1 (negb_true_iff _)))) H2) as [Hsame2 Hset2].
  assert (forall j r, durable_jobs db1 !! j = Some r -> legacy_active r = false) as Hleg1.
  { intros j r Hj. destruct (decide (j ∈ list_job_ids legacy_active db)) as [Hin|Hout]; [by eapply Hset1|].
    apply not_true_iff_false. intros Hl. apply Hout, list_job_ids_elem. exists r. by rewrite <-Hsame1. }
  assert (forall j r, durable_jobs db' !! j = Some r -> stale_claim current r = false) as Hst2.
  { intros j r Hj. destruct (decide (j ∈ list_job_ids (stale_claim current) db1)) as [Hin|Hout];
      [by eapply Hset2|].
    apply not_true_iff_false. intros Hl. apply Hout, list_job_ids_elem. exists r. by rewrite <-Hsame2. }
  assert (forall j r, durable_jobs db' !! j = Some r -> legacy_active r = false) as Hleg2
    by (by eapply stale_loop_legacy).
  split; [|split; [|split]].
  - intros j r Hj Hrun. apply settled_running; eauto.
  - intros j r Hj Hd. specialize (Hleg2 j r Hj). unfold legacy_active in Hleg2.
    rewrite Hd, bool_decide_eq_true_2 in Hleg2 by done. done.
  - intros j r Hj Hl Hs. rewrite Hsame2, Hsame1; [done| |].
    + intros (r' & Hr' & Hp)%list_job_ids_elem. congruence.
    + intros (r' & Hr' & Hp)%list_job_ids_elem. rewrite Hsame1 in Hr'; [congruence|].
      intros (r'' & Hr'' & Hp')%list_job_ids_elem. congruence.
  - refine (foldS_inv _ balanced _ _ _ _ _ _ _ H2).
    + intros ? ? ? ? ? Hb Hs. by apply (recover_stale_effect _ _ _ _ _ _ _ _ Hs).
    + refine (foldS_inv _ balanced _ _ _ _ _ _ _ H1); [|done].
      intros ? ? ? ? ? Hb Hs. by apply (recover_legacy_effect _ _ _ _ _ _ _ Hs).
Qed.
End recovery.

(** * Reconciliation after a restore *)
(** The row of a job that was active in the restored snapshot. *)
Definition restored (now : Z) (r : JobRow) : JobRow :=
  if is_active r then release_row "cancelled" None (Some restore_code) (Z.max (updated_at_utc r) now) r else r.
Definition count_jobs (p : JobRow -> bool) (db : JobsDb) : Z :=
  Z.of_nat (length (filter (fun jr => p jr.2 = true) (map_to_list (durable_jobs db)))).

Lemma row_states r : job_row_ok r = true -> is_terminal r = negb (is_active r).
Proof.
  unfold job_row_ok. intros Hr. bool_hyps.
  match goal with H : in_states _ (state r) = true |- _ => apply in_states_elem in H; rename H into Hs end.
  unfold is_terminal, is_active. apply elem_of_app in Hs. unfold _NONTERMINAL_STATES, terminal_states in *.
  destruct Hs as [Hs|Hs]; repeat (apply elem_of_cons in Hs as [->|Hs]; [done|]);
    by apply elem_of_nil in Hs.
Qed.
Lemma count_complement p db :
  count_jobs p db + count_jobs (fun r => negb (p r)) db = Z.of_nat (size (durable_jobs db)).
Proof.
  unfold count_jobs. rewrite <-length_map_to_list. induction (map_to_list (durable_jobs db)) as [|[j r] l IH]; [done|].
  rewrite !filter_cons. destruct (p r) eqn:E; simpl; rewrite ?E; simpl; lia.
Qed.
Lemma count_ext p q db :
  map_Forall (fun _ r => p r = q r) (durable_jobs db) -> count_jobs p db = count_jobs q db.
Proof.
  intros Hpq. unfold count_jobs. do 2 f_equal.
  assert (Forall (fun jr => p jr.2 = q jr.2) (map_to_list (durable_jobs db))) as Hall.
  { apply Forall_forall. intros [j r] Hin%elem_of_map_to_list. by apply (Hpq j r). }
  induction Hall as [|jr l E _ IH]; [done|]. rewrite !filter_cons, E. destruct (q jr.2); simpl; congruence.
Qed.

Lemma count_all p db :
  map_Forall (fun _ r => p r = true) (durable_jobs db) -> count_jobs p db = Z.of_nat (size (durable_jobs db)).
Proof.
  intros Hp. unfold count_jobs. rewrite filter_all, length_map_to_list; [done|].
  intros [j r] Hin%elem_of_map_to_list. by apply (Hp j r).
Qed.
Lemma count_running db :
  Z.of_nat (length (filter (fun jr => state jr.2 = "running") (active_jobs db))) =
  count_jobs (fun r => String.eqb (state r) "running") db.
Proof.
  unfold active_jobs, count_jobs. f_equal. rewrite py_sorted_perm.
  induction (map_to_list (durable_jobs db)) as [|[j r] l IH]; [done|].
  rewrite !filter_cons. simpl. destruct (String.eqb_spec (state r) "running") as [E|E].
  - assert (is_active r = true) as -> by (unfold is_active; by rewrite E).
    rewrite !decide_True by done. rewrite filter_cons, decide_True by done. simpl. by f_equal.
  - rewrite (decide_False (P := false = true)) by done. destruct (is_active r); simpl; [|done].
    by rewrite filter_cons, decide_False.
Qed.

(** Reconciling the jobs of a restored snapshot is exact: every job
    that was active is cancelled with the restore code and its claim released,
    every terminal row is untouched, no attempt on record is lost, and the
    counts are those of the snapshot (active, cancelled, running, terminal). *)
Theorem reconcile_restored_exact (clock : Z) (ids : string -> string) (db db' : JobsDb)
    (res : RestoreJobReconciliation) (Hok : jobs_ok db)
    (Hr : reconcile_restored_jobs clock ids db = (db', Ok res)) :
  durable_jobs db' = restored clock <$> durable_jobs db /\
  map_Forall (fun _ r => is_terminal r = true) (durable_jobs db') /\
  (forall a, a ∈ job_attempts db -> a ∈ job_attempts db') /\
  res = MkReconciliation (count_jobs is_active db) (count_jobs is_active db)
    (count_jobs (fun r => String.eqb (state r) "running") db) (count_jobs is_terminal db).
Proof.
  unfold reconcile_restored_jobs in Hr.
  apply stm_bind_ok in Hr as (? & rows & Hx & Hr). apply query_ok in Hx as [-> ->].
  apply lift_step in Hr as (now & Hnow & Hr). unfold _now in Hnow. inv_ok Hnow.
  apply stm_bind_ok in Hr as (db1 & n & Hf & Hr). apply stm_bind_ok in Hr as (? & t & Hx & Hr).
  apply query_ok in Hx as [-> ->]. injection Hr as <- <-. destruct (active_jobs_ok db) as [Hn Ha].
  destruct (reconcile_jobs_ok _ _ _ _ _ _ _ Hok Hn Ha Hf) as (Hst & -> & Hlook).
  assert (durable_jobs db1 = restored now <$> durable_jobs db) as Hmap.
  { apply map_eq. intros j. rewrite Hlook, lookup_fmap. unfold restored.
    destruct (dget j (active_jobs db)) as [r|] eqn:Ed.
    - apply dget_elem_of in Ed; [|done]. rewrite Forall_forall in Ha.
      destruct (Ha _ Ed) as [Hj Hact]. simpl in *. rewrite Hj. simpl. by rewrite Hact.
    - apply dget_None in Ed. destruct (durable_jobs db !! j) as [r|] eqn:Hj; [|done]. simpl.
      destruct (is_active r) eqn:Hact; [|done]. destruct Ed. apply list_elem_of_fmap. exists (j, r).
      split; [done|]. unfold active_jobs. by rewrite elem_of_py_sorted, list_elem_of_filter, elem_of_map_to_list. }
  assert (map_Forall (fun _ r => is_terminal r = true) (durable_jobs db1)) as Hter.
  { rewrite Hmap. intros j r (r0 & <- & Hj)%lookup_fmap_Some. unfold restored.
    destruct (is_active r0) eqn:E; [done|]. rewrite row_states; [by rewrite E|].
    by apply (ok_rows _ Hok j). }
  split; [done|]. split; [done|]. split.
  { intros at' Hat. refine (star_inv transition (fun s => at' ∈ job_attempts s) _ _ _ Hat Hst).
    intros s s' Hs Ht. by eapply transition_attempt. }
  assert (Z.of_nat (length (active_jobs db)) = count_jobs is_active db) as Hact
    by (unfold active_jobs; by rewrite py_sorted_length).
  assert (Z.of_nat (size (durable_jobs db1)) = count_jobs is_active db + count_jobs is_terminal db) as Hsize.
  { rewrite Hmap, map_size_fmap, <-(count_complement is_active). f_equal. apply count_ext.
    intros j r Hj. symmetry. apply row_states. by apply (ok_rows _ Hok j). }
  rewrite Hact, count_running.
  change (Z.of_nat (length (filter _ (map_to_list (durable_jobs db1))))) with (count_jobs is_terminal db1). rewrite (count_all _ _ Hter), Hsize.
  f_equal; lia.
Qed.

(** * Witnesses *)
Module RecoverySamples.
Import Sample JobsSamples.
Definition recovered : JobsDb := exec registry running (OpRecover (fun j => attempt_1) run_2 60).
Lemma recover_clears_stale_witness :
  let s := MkSummary 1 1 1 0 0 0 0 in
  recover_stale_claims registry (fun j => attempt_1) run_2 60 running = (recovered, Ok s) /\
  (forall j r, durable_jobs recovered !! j = Some r -> state r = "running" -> claimed_run_id r = Some run_2) /\
  balanced s.
Proof.
  assert (recover_stale_claims registry (fun j => attempt_1) run_2 60 running =
    (recovered, Ok (MkSummary 1 1 1 0 0 0 0))) as Hr by (vm_compute; reflexivity).
  split; [exact Hr|].
  destruct (recover_clears_stale registry (fun j => attempt_1) run_2 60 running recovered
    (MkSummary 1 1 1 0 0 0 0) running_ok Hr) as (Hrun & _ & _ & Hb).
  split; [|exact Hb]. intros j r Hj Hs. apply (Hrun j r Hj Hs).
Defined.
Lemma reconcile_restored_exact_witness :
  exists db', reconcile_restored_jobs 60 (fun j => attempt_1) running = (db', Ok (MkReconciliation 1 1 1 0)) /\
    map_Forall (fun _ r => is_terminal r = true) (durable_jobs db').
Proof.
  exists (exec registry running (OpReconcile 60 (fun j => attempt_1))).
  assert (reconcile_restored_jobs 60 (fun j => attempt_1) running =
    (exec registry running (OpReconcile 60 (fun j => attempt_1)), Ok (MkReconciliation 1 1 1 0))) as Hr
    by (vm_compute; reflexivity).
  split; [exact Hr|].
  apply (reconcile_restored_exact 60 (fun j => attempt_1) running _ _ running_ok Hr).
Defined.
End RecoverySamples.
