(* ===== verification/SlaWarnings.v ===== *)
(** The live SLA warnings: [product_line_sla/algorithms/warnings.py]. *)
From Stdlib Require Import QArith.
From S2P Require Import Prelude StrictJson Identifiers SlaPolicy SlaInput IndividualSla CohortState.
#[local] Open Scope Z_scope.

Record SlaWarning := MkWarning {
  warning_key : string;
  warning_kind : string;
  target_type : string;
  target_id : string;
  w_policy_tier_id : option string;
  condition_fingerprint : string
}.

(** [{**d, **e}]. *)
Definition dict_update {V} (d e : list (string * V)) : list (string * V) :=
  foldl (fun d kv => dset kv.1 kv.2 d) d e.

Section warnings.
Context `{Sha256}.

Definition warning_identity (kind target target_id_ : string) (tier : option string)
    : list (string * json) :=
  [("schema", JStr "SOMA_SLA_WARNING_KEY_V1"); ("warning_kind", JStr kind);
   ("target_type", JStr target); ("target_id", JStr target_id_);
   ("policy_tier_id", jopt JStr tier)].
Definition warning_condition (kind target target_id_ : string) (tier : option string)
    (condition : list (string * json)) : list (string * json) :=
  dset "condition" (JObj condition)
    (dict_update [("schema", JStr "SOMA_SLA_WARNING_CONDITION_V1")]
       (warning_identity kind target target_id_ tier)).
Definition _warning (kind target target_id_ : string) (tier : option string)
    (condition : list (string * json)) : result SlaWarning :=
  key ← sha256_canonical_json (JObj (warning_identity kind target target_id_ tier));
  fingerprint ← sha256_canonical_json
    (JObj (warning_condition kind target target_id_ tier condition));
  Ok (MkWarning key kind target target_id_ tier fingerprint).

(** [if cond: warnings.append(...)]. *)
Definition warn_if (cond : bool) (w : result SlaWarning) : result (list SlaWarning) :=
  if cond then w ← w; Ok [w] else Ok [].

Definition unclassified_warning (r : IndividualSlaResult) : result (list SlaWarning) :=
  warn_if (String.eqb (i_classification_state r) "unclassified"
           || String.eqb (i_classification_state r) "incompatible")
    (_warning "sla_unclassified" "service_request" (i_service_request_id r) None
       [("classification_state", JStr (i_classification_state r));
        ("sla_input_token", JStr (i_sla_input_token r))]).
Definition report_date_warning (r : IndividualSlaResult) : result (list SlaWarning) :=
  warn_if (String.eqb (i_calculation_state r) "missing_report_date")
    (_warning "sla_uncalculable_missing_report_date" "service_request" (i_service_request_id r) None
       [("classification_event_id", jopt JStr (i_classification_event_id r));
        ("sla_input_token", JStr (i_sla_input_token r))]).
Definition exceeded (t : IndividualTierResult) : bool := String.eqb (individual_state t) "active_exceeded".
Definition tier_warnings (r : IndividualSlaResult) : result (list SlaWarning) :=
  if String.eqb (i_status_class r) "active" then
    traverse (fun t =>
      _warning "individual_tier_exceeded" "service_request" (i_service_request_id r)
        (Some (r_policy_tier_id t))
        [("individual_input_fingerprint", JStr (i_input_fingerprint r));
         ("individual_state", JStr (individual_state t))])
      (filter (fun t => exceeded t = true) (i_tier_results r))
  else Ok [].
Definition suspension_over (i : ServiceRequestSlaInput) (as_of_utc : Z) : bool :=
  match in_suspend_planned_end_utc i with None => true | Some e => e <=? as_of_utc end.
Definition ending_soon (i : ServiceRequestSlaInput) (as_of_utc : Z) (threshold : option Z) : bool :=
  match in_suspend_planned_end_utc i, threshold with
  | Some e, Some t => (as_of_utc <? e) && (e - as_of_utc <=? t)
  | _, _ => false
  end.
Definition suspension_warning (i : ServiceRequestSlaInput) (r : IndividualSlaResult) (as_of_utc : Z)
    (threshold : option Z) : result (list SlaWarning) :=
  if bool_decide (in_status_token i = Some "Customer Agreed Suspend") then
    let planned := ("planned_end_utc", jopt JInt (in_suspend_planned_end_utc i)) in
    let evidence :=
      [("planned_end_evidence_id", jopt JStr (in_suspend_planned_end_evidence_id i));
       ("status_evidence_id", jopt JStr (in_status_evidence_id i))] in
    if suspension_over i as_of_utc then
      warn_if true (_warning "suspension_end_missing_or_expired" "service_request"
        (i_service_request_id r) None (("as_of_utc", JInt as_of_utc) :: planned :: evidence))
    else warn_if (ending_soon i as_of_utc threshold)
      (_warning "suspension_ending_soon" "service_request" (i_service_request_id r) None
         (("as_of_utc", JInt as_of_utc) :: planned
          :: ("threshold_seconds", jopt JInt threshold) :: evidence))
  else Ok [].

Definition warning_sort_key (w : SlaWarning) : string * string * string * string :=
  (warning_kind w, target_type w, target_id w, default EmptyString (w_policy_tier_id w)).

Definition individual (db : SlaDb) (service_request_id : string) (as_of_utc : Z)
    (threshold : option Z) : cached (list SlaWarning) :=
  _ ← lift (forbid (as_of_utc <? 0)
    (ValidationError "as_of_utc must be a nonnegative whole-second UTC instant"));
  _ ← lift (forbid (match threshold with Some t => t <? 0 | None => false end)
    (ValidationError "suspension ending-soon threshold must be a nonnegative whole-second duration"));
  i ← lift (get (tickets db) service_request_id);
  r ← calculate db service_request_id as_of_utc (Some i);
  w1 ← lift (unclassified_warning r);
  w2 ← lift (report_date_warning r);
  w3 ← lift (tier_warnings r);
  w4 ← lift (suspension_warning i r as_of_utc threshold);
  mret (py_sorted warning_sort_key (w1 ++ w2 ++ w3 ++ w4)).

Definition cohort (c : CohortProjection) : result (list SlaWarning) :=
  if negb (String.eqb (c_state c) "at_risk" || String.eqb (c_state c) "breached") then Ok [] else
  let kind := if String.eqb (c_state c) "at_risk" then "cohort_at_risk" else "cohort_breached" in
  w ← _warning kind "sla_cohort" (c_cohort_key c) (Some (c_policy_tier_id c))
    [("input_fingerprint", JStr (c_input_fingerprint c)); ("state", JStr (c_state c));
     ("denominator", JInt (c_denominator c));
     ("lower_bound_met_count", JInt (c_lower_bound_met_count c));
     ("best_possible_met_count", JInt (c_best_possible_met_count c))];
  Ok [w].
End warnings.

(** * Which warnings are given *)
Section facts.
Context `{Sha256}.

Lemma warning_ok kind target tid tier condition w :
  _warning kind target tid tier condition = Ok w ->
  warning_kind w = kind /\ target_type w = target /\ target_id w = tid /\ w_policy_tier_id w = tier /\
  sha256_canonical_json (JObj (warning_identity kind target tid tier)) = Ok (warning_key w).
Proof. unfold _warning. intros Hw. by inv_ok Hw. Qed.

(** The warnings of the code's conditions. *)
Inductive warned (i : ServiceRequestSlaInput) (r : IndividualSlaResult) (as_of : Z) (threshold : option Z)
    : string -> option string -> Prop :=
| warned_unclassified :
    i_classification_state r = "unclassified" \/ i_classification_state r = "incompatible" ->
    warned i r as_of threshold "sla_unclassified" None
| warned_report_date : i_calculation_state r = "missing_report_date" ->
    warned i r as_of threshold "sla_uncalculable_missing_report_date" None
| warned_exceeded t : i_status_class r = "active" -> t ∈ i_tier_results r ->
    individual_state t = "active_exceeded" ->
    warned i r as_of threshold "individual_tier_exceeded" (Some (r_policy_tier_id t))
| warned_suspension_over : in_status_token i = Some "Customer Agreed Suspend" ->
    (forall e, in_suspend_planned_end_utc i = Some e -> e <= as_of) ->
    warned i r as_of threshold "suspension_end_missing_or_expired" None
| warned_ending_soon e t : in_status_token i = Some "Customer Agreed Suspend" ->
    in_suspend_planned_end_utc i = Some e -> threshold = Some t -> as_of < e -> e - as_of <= t ->
    warned i r as_of threshold "suspension_ending_soon" None.

(** A warning of the list [ws] with this kind and tier. *)
Definition has_warning (ws : list SlaWarning) (kind : string) (tier : option string) : Prop :=
  exists w, w ∈ ws /\ warning_kind w = kind /\ w_policy_tier_id w = tier.
Definition about (sr : string) (w : SlaWarning) : Prop :=
  target_type w = "service_request" /\ target_id w = sr /\
  sha256_canonical_json (JObj (warning_identity (warning_kind w) "service_request" sr (w_policy_tier_id w)))
    = Ok (warning_key w).

Lemma warn_if_spec cond kind sr tier condition ws :
  warn_if cond (_warning kind "service_request" sr tier condition) = Ok ws ->
  Forall (about sr) ws /\
  forall k t, has_warning ws k t <-> cond = true /\ k = kind /\ t = tier.
Proof.
  unfold warn_if, has_warning, about. intros Hw. destruct cond.
  - apply bind_ok in Hw as (w & Hw & [= <-]). apply warning_ok in Hw as (<- & Ht & <- & <- & Hk).
    split; [by repeat constructor|]. intros k t. split.
    + intros (w' & ->%list_elem_of_singleton & <- & <-). done.
    + intros (_ & -> & ->). exists w. split; [by left|done].
  - injection Hw as <-. split; [constructor|]. intros k t. split; [|by intros [? _]].
    intros (w & Hw & _). by apply elem_of_nil in Hw.
Qed.
Lemma tier_warnings_spec r ws :
  tier_warnings r = Ok ws ->
  Forall (about (i_service_request_id r)) ws /\
  forall k tier, has_warning ws k tier <-> i_status_class r = "active" /\ k = "individual_tier_exceeded" /\
    exists t, t ∈ i_tier_results r /\ individual_state t = "active_exceeded" /\
      tier = Some (r_policy_tier_id t).
Proof.
  unfold tier_warnings, has_warning. destruct (String.eqb_spec (i_status_class r) "active") as [E|E].
  2: { intros [= <-]. split; [constructor|]. intros k tier.
       split; [intros (w & Hw & _); by apply elem_of_nil in Hw|by intros [? _]]. }
  intros Ht%traverse_ok. split.
  - apply Forall_forall. intros w Hw. apply list_elem_of_lookup in Hw as [n Hn].
    destruct (Forall2_lookup_r _ _ _ _ _ Ht Hn) as (t & _ & Hw). unfold about.
    by apply warning_ok in Hw as (-> & -> & -> & -> & ->).
  - intros k tier. split.
    + intros (w & Hw & <- & <-). apply list_elem_of_lookup in Hw as [n Hn].
      destruct (Forall2_lookup_r _ _ _ _ _ Ht Hn) as (t & Hin%list_elem_of_lookup_2 & Hw).
      apply warning_ok in Hw as (-> & _ & _ & -> & _). split; [done|]. split; [done|]. exists t.
      apply list_elem_of_filter in Hin as [Hx Hin]. unfold exceeded in Hx. by apply String.eqb_eq in Hx.
    + intros (_ & -> & t & Hin & Hs & ->).
      assert (t ∈ filter (fun t => exceeded t = true) (i_tier_results r)) as Hf.
      { apply list_elem_of_filter. split; [|done]. unfold exceeded. by rewrite Hs. }
      apply list_elem_of_lookup in Hf as [n Hn]. destruct (Forall2_lookup_l _ _ _ _ _ Ht Hn) as (w & Hl & Hw).
      exists w. apply warning_ok in Hw as (-> & _ & _ & -> & _). split; [|done].
      by eapply list_elem_of_lookup_2.
Qed.
Lemma suspension_over_iff i as_of :
  suspension_over i as_of = true <-> forall e, in_suspend_planned_end_utc i = Some e -> e <= as_of.
Proof.
  unfold suspension_over. destruct (in_suspend_planned_end_utc i) as [e|].
  - rewrite Z.leb_le. split; [by intros ? ? [= <-]|auto].
  - done.
Qed.
Lemma ending_soon_iff i as_of threshold :
  ending_soon i as_of threshold = true <-> exists e t, in_suspend_planned_end_utc i = Some e /\
    threshold = Some t /\ as_of < e /\ e - as_of <= t.
Proof.
  unfold ending_soon. destruct (in_suspend_planned_end_utc i) as [e|], threshold as [t|];
    rewrite ?andb_true_iff, ?Z.ltb_lt, ?Z.leb_le; naive_solver.
Qed.
Lemma suspension_warning_spec i r as_of threshold ws :
  suspension_warning i r as_of threshold = Ok ws ->
  Forall (about (i_service_request_id r)) ws /\
  forall k tier, has_warning ws k tier <-> in_status_token i = Some "Customer Agreed Suspend" /\
    tier = None /\
    ((k = "suspension_end_missing_or_expired" /\ suspension_over i as_of = true) \/
     (k = "suspension_ending_soon" /\ suspension_over i as_of = false /\ ending_soon i as_of threshold = true)).
Proof.
  unfold suspension_warning. case_bool_decide as Ht.
  - destruct (suspension_over i as_of); intros [Ha Hw]%warn_if_spec; (split; [done|]);
      intros k tier; rewrite Hw; naive_solver.
  - intros [= <-]. split; [constructor|]. intros k tier. split; [|by intros [? _]].
    intros (w & Hw & _). by apply elem_of_nil in Hw.
Qed.
Lemma has_warning_app ws ws' k t :
  has_warning (ws ++ ws') k t <-> has_warning ws k t \/ has_warning ws' k t.
Proof. unfold has_warning. setoid_rewrite elem_of_app. naive_solver. Qed.
Lemma has_warning_perm ws ws' k t : ws ≡ₚ ws' -> has_warning ws k t <-> has_warning ws' k t.
Proof. unfold has_warning. intros Hp. by setoid_rewrite Hp. Qed.

Lemma individual_ok db sr as_of threshold rc ws :
  individual db sr as_of threshold None = (rc, Ok ws) ->
  exists i r, get (tickets db) sr = Ok i /\ calculate db sr as_of (Some i) None = (rc, Ok r) /\
    StronglySorted (le_key warning_sort_key) ws /\ Forall (about (i_service_request_id r)) ws /\
    forall k tier, has_warning ws k tier <-> warned i r as_of threshold k tier.
Proof.
  unfold individual. intros Hr. inv_st Hr. exists a1, a2.
  match goal with Hu : unclassified_warning _ = _ |- _ => unfold unclassified_warning in Hu;
    apply warn_if_spec in Hu as [A1 W1] end.
  match goal with Hu : report_date_warning _ = _ |- _ => unfold report_date_warning in Hu;
    apply warn_if_spec in Hu as [A2 W2] end.
  match goal with Hu : tier_warnings _ = _ |- _ => apply tier_warnings_spec in Hu as [A3 W3] end.
  match goal with Hu : suspension_warning _ _ _ _ = _ |- _ => apply suspension_warning_spec in Hu as [A4 W4] end.
  split; [done|]. split; [done|]. split; [apply py_sorted_sorted|]. split.
  { rewrite py_sorted_perm. repeat apply Forall_app_2; done. }
  intros k tier. rewrite (has_warning_perm _ _ _ _ (py_sorted_perm _ _)), !has_warning_app, W1, W2, W3, W4.
  rewrite orb_true_iff, !String.eqb_eq. split.
  - intros [(Hc & -> & ->)|[(Hc & -> & ->)|[(Ha & -> & t & Hin & Hs & ->)|(Htok & -> & Hk)]]].
    + by constructor.
    + by constructor.
    + by apply (warned_exceeded _ _ _ _ t).
    + destruct Hk as [[-> Ho]|(-> & _ & Hs)].
      * apply warned_suspension_over; [done|by apply suspension_over_iff].
      * apply ending_soon_iff in Hs as (e & t & ? & ? & ? & ?). by apply (warned_ending_soon _ _ _ _ e t).
  - intros [Hc|Hc|t Ha Hin Hs|Htok Ho|e t Htok He Hth Hlt Hle]; [by left|by right; left|..].
    + right. right. left. split; [done|]. split; [done|]. by exists t.
    + do 3 right. split; [done|]. split; [done|]. left. split; [done|by apply suspension_over_iff].
    + do 3 right. split; [done|]. split; [done|]. right. split; [done|]. split.
      * apply not_true_iff_false. rewrite suspension_over_iff. intros Ho. specialize (Ho e He). lia.
      * apply ending_soon_iff. by exists e, t.
Qed.
End facts.

(** The live warnings of a Service Request are exactly those its
    current SLA result calls for: one per condition that holds (unclassified or
    incompatible, no report date, a tier exceeded while active, a suspension
    whose planned end is missing, past or within the threshold), all of them
    about the request and ordered by kind, target and tier. *)
Theorem individual_warnings_exact `{Sha256} (db : SlaDb) (sr : string) (as_of : Z)
    (threshold : option Z) rc (ws : list SlaWarning)
    (Hw : individual db sr as_of threshold None = (rc, Ok ws)) :
  exists i r, get (tickets db) sr = Ok i /\ calculate db sr as_of (Some i) None = (rc, Ok r) /\
    StronglySorted (le_key warning_sort_key) ws /\
    Forall (fun w => target_type w = "service_request" /\ target_id w = i_service_request_id r) ws /\
    forall kind tier, has_warning ws kind tier <-> warned i r as_of threshold kind tier.
Proof.
  apply individual_ok in Hw as (i & r & Hi & Hr & Hs & Ha & Hk). exists i, r.
  do 3 (split; [done|]). split; [|done]. eapply Forall_impl; [exact Ha|]. by intros w (? & ? & _).
Qed.

Lemma tiers_calculable `{Sha256} db sr as_of i rc r :
  calculate db sr as_of i None = (rc, Ok r) -> i_tier_results r <> [] ->
  i_calculation_state r = "calculable".
Proof.
  unfold calculate. intros Hr Hn. inv_st Hr;
    try (match goal with H : _empty_result _ _ _ _ _ _ = Ok _ |- _ =>
      apply empty_result_state in H as [_ H]; congruence end).
  unfold calculate_tiers in Hr. inv_st Hr. destruct a2 as [[e k] t]. by inv_st Hr.
Qed.

(** An exceeded-tier warning stays: while no evidence changes, a
    later evaluation that returns gives a warning with the same key, so the
    identity under which a user acknowledges it does not drift with time. *)
Theorem exceeded_warning_persists `{Sha256} (db : SlaDb) (sr : string) (as_of as_of' : Z)
    (threshold threshold' : option Z) rc rc' (ws ws' : list SlaWarning) (w : SlaWarning)
    (Hle : as_of <= as_of')
    (Hws : individual db sr as_of threshold None = (rc, Ok ws))
    (Hws' : individual db sr as_of' threshold' None = (rc', Ok ws'))
    (Hw : w ∈ ws) (Hkind : warning_kind w = "individual_tier_exceeded") :
  exists w', w' ∈ ws' /\ warning_key w' = warning_key w /\
    warning_kind w' = warning_kind w /\ w_policy_tier_id w' = w_policy_tier_id w.
Proof.
  apply individual_ok in Hws as (i & r & Hi & Hr & _ & Ha & Hk).
  apply individual_ok in Hws' as (i' & r' & Hi' & Hr' & _ & Ha' & Hk').
  rewrite Hi in Hi'. injection Hi' as <-.
  assert (has_warning ws "individual_tier_exceeded" (w_policy_tier_id w)) as Hh by (by exists w).
  apply Hk in Hh. assert (exists t, i_status_class r = "active" /\ t ∈ i_tier_results r /\
    individual_state t = "active_exceeded" /\ w_policy_tier_id w = Some (r_policy_tier_id t))
    as (t & Hact & Hin & Hs & Et0) by (inversion Hh; subst; eauto).
  pose proof (tiers_calculable _ _ _ _ _ _ Hr ltac:(by intros E; rewrite E in Hin; apply elem_of_nil in Hin)) as Hc.
  destruct (calculate_calculable _ _ _ _ _ _ Hr Hc) as (? & ? & ? & ? & ? & ? & ? & ? & B).
  pose proof (basis_still_calculable _ _ _ _ _ _ _ _ _ _ _ _ _ _ _ _ B Hr') as Hc'.
  destruct (calculate_ages _ _ _ _ _ _ _ _ _ Hle Hr Hc Hr' Hc') as (Eid & _ & _ & _ & _ & _ & _ & Est & Hall).
  apply list_elem_of_lookup in Hin as [n Hn].
  destruct (Forall2_lookup_l _ _ _ _ _ Hall Hn) as (t' & Hn' & (Etier & _ & _ & _ & Hage)).
  assert (individual_state t' = "active_exceeded") as Hs' by (destruct Hage as [|[? ?]]; congruence).
  assert (has_warning ws' "individual_tier_exceeded" (Some (r_policy_tier_id t'))) as (w' & Hw' & Ek & Et).
  { apply Hk', warned_exceeded; [congruence| |done]. by eapply list_elem_of_lookup_2. }
  exists w'. split; [done|]. rewrite Forall_forall in Ha, Ha'.
  destruct (Ha w Hw) as (_ & _ & Hkey), (Ha' w' Hw') as (_ & _ & Hkey').
  rewrite Ek, Et, <-Etier, <-Eid in Hkey'. rewrite Hkind, Et0, Hkey' in Hkey.
  injection Hkey as ->. split; [done|]. split; congruence.
Qed.

(** The condition a warning's fingerprint covers carries the key
    schema: unpacking the identity into the dict overwrites the
    SOMA_SLA_WARNING_CONDITION_V1 label, which no fingerprint ever contains. *)
Theorem condition_schema_overwritten (kind target tid : string) (tier : option string)
    (condition : list (string * json)) :
  dget "schema" (warning_condition kind target tid tier condition)
    = Some (JStr "SOMA_SLA_WARNING_KEY_V1").
Proof. reflexivity. Qed.

Module WarningExamples.
Import SlaInput.Examples SlaExamples.
Definition warnings_at (as_of : Z) : list SlaWarning :=
  match snd (individual db uuid_a as_of None None) with Ok ws => ws | Raise _ => [] end.
Lemma warnings_run as_of :
  as_of = 18106 \/ as_of = 18200 ->
  individual db uuid_a as_of None None = (None, Ok (warnings_at as_of)).
Proof. intros [-> | ->]; vm_compute; reflexivity. Qed.
Definition the_warning : SlaWarning :=
  match warnings_at 18106 with w :: _ => w | [] => MkWarning "" "" "" "" None "" end.
End WarningExamples.
Import SlaExamples WarningExamples.

Lemma individual_warnings_exact_witness :
  has_warning (warnings_at 18106) "individual_tier_exceeded" (Some SlaExamples.tier_id) /\
  exists i r, get (tickets SlaExamples.db) SlaInput.Examples.uuid_a = Ok i /\
    forall kind tier, has_warning (warnings_at 18106) kind tier <-> warned i r 18106 None kind tier.
Proof.
  split.
  - exists the_warning. split; [|split; vm_compute; reflexivity].
    unfold the_warning. vm_compute. left.
  - destruct (individual_warnings_exact SlaExamples.db SlaInput.Examples.uuid_a 18106 None None
      (warnings_at 18106) (warnings_run 18106 (or_introl eq_refl))) as (i & r & Hi & _ & _ & _ & Hk).
    exists i, r. split; [exact Hi|exact Hk].
Defined.
Lemma exceeded_warning_persists_witness :
  exists w', w' ∈ warnings_at 18200 /\ warning_key w' = warning_key the_warning.
Proof.
  destruct (exceeded_warning_persists SlaExamples.db SlaInput.Examples.uuid_a 18106 18200 None None
    None None (warnings_at 18106) (warnings_at 18200) the_warning) as (w' & Hin & Hk & _).
  - lia.
  - apply warnings_run. left. reflexivity.
  - apply warnings_run. right. reflexivity.
  - vm_compute. left.
  - vm_compute. reflexivity.
  - exists w'. split; [exact Hin|exact Hk].
Defined.
