(* ===== verification/AuditLedger.v ===== *)
(** The ledger tables and the audit writer: [foundation/audit/registry.py],
    [foundation/audit/writer.py] and the tables [command_receipts],
    [command_receipt_results], [audit_events] and [audit_event_results] of the
    migrations, with their constraints ([json_valid] apart).  The rest of the
    database is an arbitrary [domain]. *)
From S2P Require Import Prelude StrictJson Identifiers.

(** * Tables *)
Record AuditResultRef := MkResultRef { ref_result_type : string; ref_result_id : string }.
Record AuditEventInput := MkAuditEvent {
  audit_event_id : string;
  action_type : string;
  action_version : Z;
  actor_kind : string;
  ae_target_type : string;
  ae_command_id : string;
  payload_schema : string;
  payload_version : Z;
  payload : json;
  actor_id : option string;
  ae_target_id : option string;
  reason_category : option string;
  ae_correlation_id : option string;
  ae_job_id : option string;
  import_run_id : option string;
  proposal_id : option string;
  batch_id : option string;
  resulting_event_refs : list AuditResultRef
}.
Record AuditRow := MkAuditRow {
  ar_event : AuditEventInput;
  recorded_at_utc : Z;
  audit_payload_json : string
}.
Record AuditResultRow := MkAuditResult {
  are_audit_event_id : string;
  are_ordinal : Z;
  are_ref : AuditResultRef
}.
Record CommandReceipt := MkReceipt {
  rc_command_id : string;
  rc_command_type : string;
  rc_request_hash : string;
  rc_target_type : string;
  rc_target_id : option string;
  committed_at_utc : Z;
  rc_result_type : option string;
  rc_result_id : option string
}.
Record CommittedCommandResult := MkCommitted {
  cr_command_id : string;
  cr_response_schema : string;
  cr_response_version : Z;
  cr_response_json : string;
  cr_response_sha256 : string
}.
#[export] Instance AuditResultRef_eq_dec : EqDecision AuditResultRef.
Proof. solve_decision. Defined.
#[export] Instance AuditResultRow_eq_dec : EqDecision AuditResultRow.
Proof. solve_decision. Defined.

Record LedgerDb (domain : Type) := MkLedger {
  command_receipts : gmap string CommandReceipt;
  command_receipt_results : gmap string CommittedCommandResult;
  audit_events : gmap string AuditRow;
  audit_event_results : list AuditResultRow;
  domain_state : domain
}.
Arguments MkLedger {_}. Arguments command_receipts {_}. Arguments command_receipt_results {_}.
Arguments audit_events {_}. Arguments audit_event_results {_}. Arguments domain_state {_}.

Definition sql_unique : exn := PyExn "UNIQUE constraint failed".
Definition sql_check : exn := PyExn "CHECK constraint failed".
Definition sql_foreign_key : exn := PyExn "FOREIGN KEY constraint failed".

(** * The audit registry *)
Record AuditActionContract := MkActionContract {
  ac_action_type : string;
  ac_action_version : Z;
  ac_payload_schema : string;
  ac_payload_version : Z;
  payload_contract : ObjectContract;
  allowed_reason_categories : option (list (option string));
  sensitivity_validator : option (json -> result unit)
}.
Definition AuditRegistry := list ((string * Z) * AuditActionContract).
Definition audit_error (code_ m : string) : SomaError := MkSomaError code_ m false.
Definition resolve (registry : AuditRegistry) (action : string) (version : Z)
    : result AuditActionContract :=
  match dget (action, version) registry with
  | Some c => Ok c
  | None => raise (audit_error "AUDIT_ACTION_UNKNOWN"
      ("unknown audit action: " +:+ action +:+ " v" +:+ int_text version))
  end.

(** Registering a contract; the key prints as Python's tuple of a plain text
    and an integer. *)
Definition register (registry : AuditRegistry) (c : AuditActionContract) : result AuditRegistry :=
  let key := (ac_action_type c, ac_action_version c) in
  _ ← forbid (bool_decide (is_Some (dget key registry))) (audit_error "AUDIT_ACTION_DUPLICATE"
    ("audit action already registered: ('" +:+ key.1 +:+ "', " +:+ int_text key.2 +:+ ")"));
  _ ← forbid (negb (String.eqb (oc_name (payload_contract c)) (ac_payload_schema c))
      || negb (oc_version (payload_contract c) =? ac_payload_version c))
    (audit_error "AUDIT_ACTION_INVALID" "audit payload contract name/version mismatch");
  Ok (dset key c registry).
(** In deterministic identity order. *)
Definition contracts (registry : AuditRegistry) : list AuditActionContract :=
  map snd (py_sorted (fun kc : (string * Z) * AuditActionContract => kc.1) registry).
Definition extend (registry other : AuditRegistry) : result AuditRegistry :=
  foldM register registry (contracts other).

(** * The audit writer *)
Definition allocation := (string * Z * string * Z)%type.
Definition _DEFAULT_AUDIT_PAYLOAD_BYTES : Z := 16384.
Definition _DEFAULT_AUDIT_RESULT_REFS : Z := 128.
Definition _AUDIT_PAYLOAD_BYTE_ALLOCATIONS : list (allocation * Z) :=
  [(("ticket.working_note.edited", 1, "WorkingNoteAuditV1", 1), 524288);
   (("ticket.working_note.removed", 1, "WorkingNoteAuditV1", 1), 524288);
   (("sla.service_request.batch_classification_applied", 1, "BatchClassificationAuditV1", 1), 32768);
   (("inventory.bulk.accepted", 1, "InventoryBulkAuditV1", 1), 262144)].
Definition _AUDIT_RESULT_REF_ALLOCATIONS : list (allocation * Z) :=
  [(("sla.service_request.batch_classification_applied", 1, "BatchClassificationAuditV1", 1), 500)].
Definition allocation_key (e : AuditEventInput) : allocation :=
  (action_type e, action_version e, payload_schema e, payload_version e).
Definition foundation_payload_ceiling (e : AuditEventInput) : Z :=
  default _DEFAULT_AUDIT_PAYLOAD_BYTES (dget (allocation_key e) _AUDIT_PAYLOAD_BYTE_ALLOCATIONS).
Definition max_payload_bytes (c : AuditActionContract) (e : AuditEventInput) : Z :=
  Z.min (oc_max_utf8_bytes (payload_contract c)) (foundation_payload_ceiling e).
Definition max_result_refs (e : AuditEventInput) : Z :=
  default _DEFAULT_AUDIT_RESULT_REFS (dget (allocation_key e) _AUDIT_RESULT_REF_ALLOCATIONS).

(** The checks of [write] and the payload text it stores. *)
Definition audit_payload_text (registry : AuditRegistry) (e : AuditEventInput) : result string :=
  c ← resolve registry (action_type e) (action_version e);
  _ ← forbid (negb (String.eqb (ac_payload_schema c) (payload_schema e))
              || negb (ac_payload_version c =? payload_version e))
    (audit_error "AUDIT_PAYLOAD_INVALID" "audit payload schema/version mismatch");
  _ ← forbid (match allowed_reason_categories c with
              | Some allowed => bool_decide (reason_category e ∉ allowed)
              | None => false end)
    (audit_error "AUDIT_PAYLOAD_INVALID" "audit reason category is not allowed");
  _ ← forbid (max_result_refs e <? Z.of_nat (length (resulting_event_refs e)))
    (audit_error "AUDIT_PAYLOAD_INVALID" "audit result reference count exceeds its action allocation");
  value ← contract_validate (payload_contract c) (payload e);
  _ ← match sensitivity_validator c with Some v => v value | None => Ok tt end;
  text ← match json_dumps value with
    | Some text => Ok text
    | None => raise (audit_error "AUDIT_PAYLOAD_INVALID" "audit payload cannot be serialized") end;
  encoded ← encode_utf8 text;
  _ ← forbid (max_payload_bytes c e <? utf8_length encoded)
    (audit_error "AUDIT_PAYLOAD_INVALID" ("audit payload exceeds its "
      +:+ int_text (max_payload_bytes c e) +:+ "-byte action contract"));
  Ok text.

Section writer.
Context {domain : Type}.
Definition ledgerM : Type -> Type := stM (LedgerDb domain).

Definition insert_audit_event (e : AuditEventInput) (now : Z) (text : string) : ledgerM unit := fun db =>
  match audit_events db !! audit_event_id e with
  | Some _ => (db, Raise sql_unique)
  | None =>
      if negb ((0 <? action_version e) && (0 <=? now) && (0 <? payload_version e)) then (db, Raise sql_check)
      else if negb (bool_decide (is_Some (command_receipts db !! ae_command_id e)))
      then (db, Raise sql_foreign_key)
      else (MkLedger (command_receipts db) (command_receipt_results db)
              (<[audit_event_id e := MkAuditRow e now text]> (audit_events db))
              (audit_event_results db) (domain_state db), Ok tt)
  end.
(** [UNIQUE(audit_event_id, result_type, result_id)]; the ordinals are fresh. *)
Definition insert_audit_result (row : AuditResultRow) : ledgerM unit := fun db =>
  if existsb (fun r => String.eqb (are_audit_event_id r) (are_audit_event_id row)
      && ((are_ordinal r =? are_ordinal row) || bool_decide (are_ref r = are_ref row)))
    (audit_event_results db)
  then (db, Raise sql_unique)
  else (MkLedger (command_receipts db) (command_receipt_results db) (audit_events db)
          (audit_event_results db ++ [row]) (domain_state db), Ok tt).

(** [except SomaError: raise; except BaseException: ...]. *)
Definition audit_persistence {A} (m : ledgerM A) : ledgerM A := fun db =>
  match m db with
  | (db', Raise (PyExn text)) => (db', raise (if String.eqb text "UNIQUE constraint failed"
      then audit_error "AUDIT_DUPLICATE_ID" "audit identity already exists"
      else audit_error "AUDIT_PERSISTENCE_FAILURE" "audit persistence failed"))
  | r => r
  end.
Definition ref_key (r : AuditResultRef) : string * string := (ref_result_type r, ref_result_id r).
Definition result_rows (e : AuditEventInput) : list AuditResultRow :=
  imap (fun n r => MkAuditResult (audit_event_id e) (Z.of_nat n) r)
    (py_sorted ref_key (resulting_event_refs e)).
Definition write (registry : AuditRegistry) (now : Z) (e : AuditEventInput) : ledgerM unit :=
  text ← lift (audit_payload_text registry e);
  audit_persistence (_ ← insert_audit_event e now text; each insert_audit_result (result_rows e)).
End writer.
