(* ===== verification/Tables.v ===== *)
(** What the packets share: SQL statements under their constraints, the tables
    of a packet inside the ledger database, and the field checks of their audit
    contracts. *)
From S2P Require Import Prelude StrictJson Identifiers AuditLedger.

Definition set_token (tokens : list string) (s : string) : bool := existsb (String.eqb s) tokens.
(** [is not None]. *)
Definition present_opt {A} (o : option A) : bool := match o with Some _ => true | None => false end.
Definition integrity (b : bool) (m : string) : result unit := forbid b (IntegrityFailure m).
Lemma integrity_ok b m u : integrity b m = Ok u <-> b = false.
Proof. apply forbid_ok. Qed.

(** * Statements

    A statement that violates a constraint raises; an [UPDATE ... WHERE] reports
    the number of rows changed.  Foreign keys to [command_receipts] hold because
    the boundary inserts the receipt first. *)
(** Violated constraints and [RAISE(ABORT, ...)] are [sqlite3.IntegrityError]. *)
Definition sql_violation : exn := PyExn "IntegrityError".
Definition query {S A} (f : S -> A) : stM S A := fun db => (db, Ok (f db)).
(** A statement allowed under a condition. *)
Definition statement {S} (ok : S -> bool) (f : S -> S) : stM S unit := fun db =>
  if ok db then (f db, Ok tt) else (db, Raise sql_violation).
Definition known {A} (table : gmap string A) (id : string) : bool := bool_decide (is_Some (table !! id)).
Definition known_opt {A} (table : gmap string A) (id : option string) : bool :=
  match id with None => true | Some id => known table id end.
Definition nonneg_opt (n : option Z) : bool := match n with None => true | Some n => 0 <=? n end.
Definition token_opt (tokens : list string) (s : option string) : bool :=
  match s with None => true | Some s => set_token tokens s end.

Lemma statement_ok {S} ok f (d d' : S) u : statement ok f d = (d', Ok u) -> ok d = true /\ d' = f d.
Proof. unfold statement. destruct (ok d); [|done]. by intros [= <- _]. Qed.
Lemma known_spec {A} (table : gmap string A) id : known table id = true <-> is_Some (table !! id).
Proof. unfold known. apply bool_decide_eq_true. Qed.
Lemma unknown_spec {A} (table : gmap string A) id : negb (known table id) = true <-> table !! id = None.
Proof. unfold known. rewrite negb_true_iff, bool_decide_eq_false. by rewrite eq_None_not_Some. Qed.

(** * Inverting a run that succeeds *)
Ltac inv_db1 H :=
  lazymatch type of H with
  | mbind _ _ _ = (_, Ok _) =>
      let s := fresh "d" in let a := fresh "a" in let H1 := fresh H in
      apply stm_bind_ok in H; destruct H as (s & a & H1 & H); inv_db1 H1; inv_db1 H
  | lift _ _ = (_, Ok _) =>
      let E := fresh "E" in apply lift_ok in H; destruct H as [E H]; subst; inv_ok1 H
  | mret _ _ = (_, Ok _) => injection H as H; subst
  | read_st _ = (_, Ok _) => injection H as H; subst
  | modify_st _ _ = (_, Ok _) => injection H as H; subst
  | (let '(_, _) := ?p in _) _ = (_, Ok _) => let x := fresh "x" in let y := fresh "y" in destruct p as [x y]; inv_db1 H
  | (if ?b then _ else _) _ = (_, Ok _) =>
      let E := fresh "E" in destruct b eqn:E; inv_db1 H
  | (match ?b with Some _ => _ | None => _ end) _ = (_, Ok _) =>
      let E := fresh "E" in destruct b eqn:E; inv_db1 H
  | _ => idtac
  end.
Ltac inv_db H := cbv zeta in H; inv_db1 H; cbn beta in *.

(** * The tables of a packet *)
Definition with_domain {domain} (db : LedgerDb domain) (d : domain) : LedgerDb domain :=
  MkLedger (command_receipts db) (command_receipt_results db) (audit_events db) (audit_event_results db) d.
Definition on_domain {domain A} (m : stM domain A) : ledgerM (domain := domain) A := fun db =>
  let '(d, r) := m (domain_state db) in (with_domain db d, r).
Lemma on_domain_ok {domain A} (m : stM domain A) db db' (a : A) :
  on_domain m db = (db', Ok a) -> exists d, m (domain_state db) = (d, Ok a) /\ db' = with_domain db d.
Proof. unfold on_domain. destruct (m (domain_state db)) as [d r]. intros [= <- ->]. by exists d. Qed.

(** * Fields of payloads and responses *)
Record actor := MkActor { act_kind : string; act_id : option string }.
Definition jfield (k : string) (v : json) : option json :=
  match v with JObj fields => dget k fields | _ => None end.
Definition one_line (s : string) : bool :=
  negb (existsb (fun c => is_char 0 c || is_char 13 c || is_char 10 c) (String.list_ascii_of_string s)).
Definition bounded_line (s : string) : bool :=
  negb (String.eqb s EmptyString) && (utf8_length s <=? 128) && one_line s.
(** [value in {...}]; an array or object is unhashable. *)
Definition one_of (tokens : list string) (value : json) (e : SomaError) : result string :=
  match value with
  | JStr s => _ ← forbid (negb (set_token tokens s)) e; Ok s
  | JArr _ | JObj _ => Raise (PyExn "TypeError")
  | _ => raise e
  end.
(** [set(value) == {...}] of an object's keys. *)
Definition exact_fields (fields : list (string * json)) (names : list string) : bool :=
  bool_decide (list_to_set (map fst fields) = (list_to_set names : gset string)).
