(* ===== verification/CommandBoundary.v ===== *)
(** The command boundary: [foundation/application/command_boundary.py] and
    [command_receipts.py].

    A command runs in one unit of work: a receipt, the owner's mutation, its
    audit events and the exact response commit together.  The callbacks of a
    command (prepare, apply, after_audit, response_factory) are state
    transformers on the whole database.  The clock readings are inputs. *)
From S2P Require Import Prelude StrictJson Identifiers AuditLedger.

Definition _MAX_RESPONSE_JSON_BYTES : Z := 524288.
Definition _MAX_RESPONSE_DEPTH : Z := 8.
Definition _MAX_RESPONSE_COLLECTION_ITEMS : Z := 512.
Definition _RFC_BRANCH_RESPONSE_JSON_BYTES : Z := 33554432.
Definition _RFC_BRANCH_RESPONSE_COLLECTION_ITEMS : Z := 8192.
Definition _INVENTORY_MUTATION_RESPONSE_COLLECTION_ITEMS : Z := 8192.
Record _ResponseBounds := MkBounds { max_bytes : Z; max_depth : Z; max_collection_items : Z }.
Definition _DEFAULT_RESPONSE_BOUNDS : _ResponseBounds :=
  MkBounds _MAX_RESPONSE_JSON_BYTES _MAX_RESPONSE_DEPTH _MAX_RESPONSE_COLLECTION_ITEMS.
Definition _RESPONSE_BOUND_ALLOCATIONS : list ((string * Z) * _ResponseBounds) :=
  [(("RfcBranchV1", 1), MkBounds _RFC_BRANCH_RESPONSE_JSON_BYTES _MAX_RESPONSE_DEPTH
      _RFC_BRANCH_RESPONSE_COLLECTION_ITEMS);
   (("InventoryMutationResultV1", 1), MkBounds _MAX_RESPONSE_JSON_BYTES _MAX_RESPONSE_DEPTH
      _INVENTORY_MUTATION_RESPONSE_COLLECTION_ITEMS)].
Definition _ALLOCATED_RESPONSE_SCHEMAS : list string :=
  map (fun a => a.1.1) _RESPONSE_BOUND_ALLOCATIONS.
Definition _response_bounds (schema : string) (version : Z) : result _ResponseBounds :=
  match dget (schema, version) _RESPONSE_BOUND_ALLOCATIONS with
  | Some bounds => Ok bounds
  | None =>
      _ ← forbid (existsb (String.eqb schema) _ALLOCATED_RESPONSE_SCHEMAS) (ValidationError
        "unsupported command response schema/version for reviewed allocation");
      Ok _DEFAULT_RESPONSE_BOUNDS
  end.

(** * Envelopes *)
Record CommandEnvelope := MkEnvelope {
  command_id : string;
  command_type : string;
  target_type : string;
  target_id : option string;
  semantic_payload : list (string * json);
  base_revisions : list (string * Z);
  authorizing_fingerprints : list (string * string);
  correlation_id : option string
}.
Definition envelope_validate (e : CommandEnvelope) : result unit :=
  _ ← require_uuid4 (command_id e);
  _ ← forbid (String.eqb (command_type e) EmptyString || String.eqb (target_type e) EmptyString)
    (ValidationError "command_type and target_type are required");
  _ ← forbid (existsb (fun kr => String.eqb kr.1 EmptyString || (kr.2 <=? 0)) (base_revisions e))
    (ValidationError "base revisions must be positive integers");
  forbid (existsb (fun kf => String.eqb kf.1 EmptyString || negb (is_sha256 kf.2))
      (authorizing_fingerprints e))
    (ValidationError "authorizing fingerprints must be SHA-256 hex strings").
Definition request_object (e : CommandEnvelope) : json :=
  JObj [("command_type", JStr (command_type e));
        ("target", JObj [("type", JStr (target_type e)); ("id", jopt JStr (target_id e))]);
        ("semantic_payload", JObj (semantic_payload e));
        ("base_revisions", JObj (map (fun kr => (kr.1, JInt kr.2)) (base_revisions e)));
        ("authorizing_fingerprints",
           JObj (map (fun kf => (kf.1, JStr kf.2)) (authorizing_fingerprints e)))].

Section boundary.
Context `{Sha256, FloatText} {domain : Type}.

Definition request_hash (e : CommandEnvelope) : result string :=
  _ ← envelope_validate e; sha256_canonical_json (request_object e).

(** * Prepared mutations *)
(** [apply] returns no emission, or a tuple of events (one event alone is the
    tuple of it); [response] is absent for the default sentinel. *)
Record PreparedMutation := MkPrepared {
  no_change : bool;
  result_type : option string;
  result_id : option string;
  apply_ : option (ledgerM (domain := domain) (option (list AuditEventInput)));
  response_schema : string;
  response_version : Z;
  response : option json;
  response_factory : option (ledgerM (domain := domain) json);
  after_audit : option (ledgerM (domain := domain) unit)
}.
Definition present {A} (o : option A) : bool := match o with Some _ => true | None => false end.
Definition prepared_validate (p : PreparedMutation) : result unit :=
  _ ← (if no_change p then
    _ ← forbid (present (apply_ p) || present (after_audit p))
      (ValidationError "NO_CHANGE command cannot contain a mutation callback");
    forbid (negb (bool_decide (result_type p = None \/ result_type p = Some "NO_CHANGE"))
            || present (result_id p))
      (ValidationError "NO_CHANGE result identity is invalid")
  else forbid (negb (present (apply_ p)))
    (ValidationError "material command requires a mutation callback"));
  _ ← forbid (String.eqb (response_schema p) EmptyString)
    (ValidationError "command response schema must be declared explicitly");
  _ ← forbid (response_version p <=? 0)
    (ValidationError "command response version must be a positive integer");
  _ ← forbid (present (response_factory p) && present (response p)) (ValidationError
    "command response must use either a value or a response factory, not both");
  forbid (negb (present (response_factory p)) && negb (present (response p))) (ValidationError
    "command must declare an exact response value or same-UoW response factory").

Record CommandExecutionResult := MkExecution {
  x_result_type : option string;
  x_result_id : option string;
  replayed : bool;
  x_no_change : bool;
  x_response_schema : string;
  x_response_version : Z;
  x_response : json
}.

(** ** Audit emissions *)
Fixpoint check_events (command : string) (seen : gset string) (events : list AuditEventInput) : result unit :=
  match events with
  | [] => Ok tt
  | e :: events =>
      _ ← forbid (negb (String.eqb (ae_command_id e) command)) (PersistenceFailure
        "audit event command_id does not match authoritative command");
      _ ← forbid (bool_decide (audit_event_id e ∈ seen)) (PersistenceFailure
        "authoritative command emitted duplicate audit event identities");
      check_events command ({[audit_event_id e]} ∪ seen) events
  end.
Definition _normalize_audit_emission (emission : option (list AuditEventInput)) (command : string)
    : result (list AuditEventInput) :=
  match emission with
  | None => raise (PersistenceFailure
      "material authoritative command did not produce required owner audit")
  | Some [] => raise (PersistenceFailure
      "material authoritative command produced an invalid audit emission")
  | Some events => _ ← check_events command ∅ events; Ok events
  end.

(** ** Responses *)
Definition _encode_response (value : json) (schema : string) (version : Z)
    : result (string * string * json) :=
  bounds ← _response_bounds schema version;
  encoded ← canonical_json_bytes_bounded value (max_bytes bounds) (max_depth bounds)
    (max_collection_items bounds);
  normalized ← loads_canonical_json encoded (max_bytes bounds) (max_depth bounds)
    (max_collection_items bounds);
  Ok (encoded, sha256_hexdigest encoded, normalized).
Definition validation_to (e' : SomaError) (e : exn) : exn :=
  match e with
  | Soma e => if String.eqb (code e) "VALIDATION_FAILED" then Soma e' else Soma e
  | PyExn k => PyExn k
  end.
Definition _decode_stored_response (r : CommittedCommandResult) : result json :=
  _ ← forbid (String.eqb (cr_response_schema r) EmptyString || (cr_response_version r <=? 0)
              || negb (is_sha256 (cr_response_sha256 r)))
    (IntegrityFailure "committed command result metadata failed integrity validation");
  bounds ← rethrow (validation_to (IntegrityFailure
      "committed command result response contract is unsupported"))
    (_response_bounds (cr_response_schema r) (cr_response_version r));
  value ← rethrow (validation_to (IntegrityFailure
      "committed command result JSON failed integrity validation"))
    (value ← loads_canonical_json (cr_response_json r) (max_bytes bounds) (max_depth bounds)
       (max_collection_items bounds);
     _ ← forbid (negb (utf8_encodable (cr_response_json r))) (ValidationError "UnicodeError");
     Ok value);
  _ ← forbid (negb (String.eqb (sha256_hexdigest (cr_response_json r)) (cr_response_sha256 r)))
    (IntegrityFailure "committed command result hash failed integrity validation");
  Ok value.

(** * Receipts *)
Definition receipt_get (command : string) : ledgerM (domain := domain) (option CommandReceipt) := fun db =>
  (db, Ok (command_receipts db !! command)).
Definition get_exact_result (command : string)
    : ledgerM (domain := domain) (option CommittedCommandResult) := fun db =>
  (db, Ok (command_receipt_results db !! command)).
Definition receipt_insert (r : CommandReceipt) : ledgerM (domain := domain) unit := fun db =>
  match command_receipts db !! rc_command_id r with
  | Some _ => (db, Raise sql_unique)
  | None =>
      if negb ((utf8_length (rc_request_hash r) =? 64) && (0 <=? committed_at_utc r))
      then (db, Raise sql_check)
      else (MkLedger (<[rc_command_id r := r]> (command_receipts db)) (command_receipt_results db)
              (audit_events db) (audit_event_results db) (domain_state db), Ok tt)
  end.
Definition insert_exact_result (r : CommittedCommandResult) : ledgerM (domain := domain) unit := fun db =>
  match command_receipt_results db !! cr_command_id r with
  | Some _ => (db, Raise sql_unique)
  | None =>
      if negb ((0 <? cr_response_version r) && (utf8_length (cr_response_sha256 r) =? 64))
      then (db, Raise sql_check)
      else if negb (bool_decide (is_Some (command_receipts db !! cr_command_id r)))
      then (db, Raise sql_foreign_key)
      else (MkLedger (command_receipts db) (<[cr_command_id r := r]> (command_receipt_results db))
              (audit_events db) (audit_event_results db) (domain_state db), Ok tt)
  end.

(** * Execution *)
Definition _assert_replay_match (r : CommandReceipt) (e : CommandEnvelope) (hash : string) : result unit :=
  forbid (negb (String.eqb (rc_command_type r) (command_type e)) || negb (String.eqb (rc_request_hash r) hash)
          || negb (String.eqb (rc_target_type r) (target_type e))
          || negb (bool_decide (rc_target_id r = target_id e))) IdempotencyConflict.
Definition replay (e : CommandEnvelope) (hash : string) (existing : CommandReceipt)
    : ledgerM (domain := domain) CommandExecutionResult :=
  _ ← lift (_assert_replay_match existing e hash);
  exact_result ← get_exact_result (command_id e);
  match exact_result with
  | None => lift (raise IdempotencyResultUnavailable)
  | Some r =>
      value ← lift (_decode_stored_response r);
      mret (MkExecution (rc_result_type existing) (rc_result_id existing) true
        (bool_decide (rc_result_type existing = Some "NO_CHANGE")) (cr_response_schema r)
        (cr_response_version r) value)
  end.
(** The mutation of a material command, then its audit events. *)
Definition mutate (registry : AuditRegistry) (audit_clock : string -> Z) (e : CommandEnvelope)
    (p : PreparedMutation) : ledgerM (domain := domain) unit :=
  match no_change p, apply_ p with
  | true, _ => mret tt
  | false, None => lift (Raise (PyExn "AssertionError"))
  | false, Some apply =>
      emission ← apply;
      events ← lift (_normalize_audit_emission emission (command_id e));
      _ ← each (fun ev => write registry (audit_clock (audit_event_id ev)) ev) events;
      match after_audit p with Some m => m | None => mret tt end
  end.
Definition semantic_response (p : PreparedMutation) : ledgerM (domain := domain) json :=
  match response_factory p, response p with
  | Some factory, _ => factory
  | None, Some value => mret value
  | None, None => lift (raise (PersistenceFailure
      "validated command response snapshot unexpectedly disappeared"))
  end.
Definition perform (registry : AuditRegistry) (clock : Z) (audit_clock : string -> Z)
    (e : CommandEnvelope) (hash : string) (prepare : ledgerM (domain := domain) PreparedMutation)
    : ledgerM (domain := domain) CommandExecutionResult :=
  p ← prepare;
  _ ← lift (prepared_validate p);
  let stored_type := if no_change p then Some "NO_CHANGE" else result_type p in
  _ ← receipt_insert (MkReceipt (command_id e) (command_type e) hash (target_type e) (target_id e)
    clock stored_type (result_id p));
  _ ← mutate registry audit_clock e p;
  value ← semantic_response p;
  '(response_json, response_sha256, normalized) ← lift
    (_encode_response value (response_schema p) (response_version p));
  _ ← insert_exact_result (MkCommitted (command_id e) (response_schema p) (response_version p)
    response_json response_sha256);
  mret (MkExecution stored_type (result_id p) false (no_change p) (response_schema p)
    (response_version p) normalized).
Definition execute (registry : AuditRegistry) (clock : Z) (audit_clock : string -> Z)
    (e : CommandEnvelope) (prepare : ledgerM (domain := domain) PreparedMutation)
    : ledgerM (domain := domain) CommandExecutionResult :=
  hash ← lift (request_hash e);
  in_uow (
    existing ← receipt_get (command_id e);
    match existing with
    | Some receipt => replay e hash receipt
    | None => perform registry clock audit_clock e hash prepare
    end).
End boundary.
Arguments PreparedMutation : clear implicits.
