(* ===== verification/CommandReplay.v ===== *)
(** What the command boundary promises: all or nothing, one audit trail per
    material command, and exact replays. *)
From S2P Require Import Prelude StrictJson Identifiers AuditLedger CommandBoundary.

(** * Callbacks *)
Section callbacks.
Context {domain : Type}.
Implicit Types db : LedgerDb domain.

(** The ledger only grows: the receipts and results are append-only for their
    owner, the audit tables by trigger. *)
Definition grows db db' : Prop :=
  command_receipts db = command_receipts db' /\
  command_receipt_results db = command_receipt_results db' /\ audit_events db ⊆ audit_events db'.
(** A callback writes neither the receipts nor their results, and removes or
    changes no audit event. *)
Definition keeps {A} (m : ledgerM (domain := domain) A) : Prop :=
  forall db db' res, m db = (db', res) -> grows db db'.

Lemma grows_refl db : grows db db.
Proof. by unfold grows. Qed.
Lemma grows_trans db1 db2 db3 : grows db1 db2 -> grows db2 db3 -> grows db1 db3.
Proof.
  intros (H1 & H2 & H3) (K1 & K2 & K3). split; [congruence|]. split; [congruence|]. by etrans.
Qed.
Lemma keeps_lift {A} (r : result A) : keeps (lift r).
Proof. intros db db' res [= <- _]. apply grows_refl. Qed.
Lemma keeps_bind {A B} (m : ledgerM A) (f : A -> ledgerM B) :
  keeps m -> (forall a, keeps (f a)) -> keeps (m ≫= f).
Proof.
  intros Hm Hf db db' res. unfold mbind, stM_bind. destruct (m db) as [s [a|e]] eqn:E; intros Hr.
  - eapply grows_trans; [by eapply Hm|by eapply Hf].
  - injection Hr as <- _. by eapply Hm.
Qed.
Lemma keeps_each {A} (f : A -> ledgerM unit) l : (forall x, keeps (f x)) -> keeps (each f l).
Proof.
  intros Hf. induction l as [|x l IH]; [apply (keeps_lift (Ok tt))|]. simpl. apply keeps_bind; auto.
Qed.
Lemma keeps_insert_event e now text : keeps (insert_audit_event (domain := domain) e now text).
Proof.
  intros db db' res. unfold insert_audit_event.
  destruct (audit_events db !! audit_event_id e) eqn:E; [intros [= <- _]; apply grows_refl|].
  repeat case_match; intros [= <- _]; try apply grows_refl.
  split; [done|]. split; [done|]. simpl. by apply insert_subseteq.
Qed.
Lemma keeps_insert_result row : keeps (insert_audit_result (domain := domain) row).
Proof. intros db db' res. unfold insert_audit_result. case_match; by intros [= <- _]. Qed.
Lemma keeps_persistence {A} (m : ledgerM A) : keeps m -> keeps (audit_persistence m).
Proof.
  intros Hm db db' res. unfold audit_persistence. destruct (m db) as [s [a|[e|k]]] eqn:E;
    intros [= <- _]; by eapply Hm.
Qed.
Lemma keeps_write registry now e : keeps (write (domain := domain) registry now e).
Proof.
  unfold write. apply keeps_bind; [apply keeps_lift|intros text]. apply keeps_persistence, keeps_bind.
  - apply keeps_insert_event.
  - intros _. apply keeps_each. intros row. apply keeps_insert_result.
Qed.
End callbacks.

Lemma lift_bind {S A B} (r : result A) (f : A -> stM S B) s a : r = Ok a -> (lift r ≫= f) s = f a s.
Proof. by intros ->. Qed.

Section execution.
Context `{Sha256, FloatText} {domain : Type} (registry : AuditRegistry).
Implicit Types db : LedgerDb domain.

(** The callbacks of a command respect the ledger. *)
Definition well_behaved (prepare : ledgerM (domain := domain) (PreparedMutation domain)) : Prop :=
  keeps prepare /\ forall db db' p, prepare db = (db', Ok p) ->
    (forall m, apply_ p = Some m -> keeps m) /\ (forall m, after_audit p = Some m -> keeps m) /\
    (forall m, response_factory p = Some m -> keeps m).

Lemma keeps_mutate audit_clock e p :
  (forall m, apply_ p = Some m -> keeps m) -> (forall m, after_audit p = Some m -> keeps m) ->
  keeps (mutate (domain := domain) registry audit_clock e p).
Proof.
  intros Ha Hf. unfold mutate. destruct (no_change p); [apply (keeps_lift (Ok tt))|].
  destruct (apply_ p) as [m|]; [|apply keeps_lift]. apply keeps_bind; [by apply Ha|intros emission].
  apply keeps_bind; [apply keeps_lift|intros events].
  apply keeps_bind; [apply keeps_each; intros; apply keeps_write|intros _].
  destruct (after_audit p) as [m'|]; [by apply Hf|apply (keeps_lift (Ok tt))].
Qed.
Lemma keeps_response p :
  (forall m, response_factory p = Some m -> keeps m) -> keeps (semantic_response (domain := domain) p).
Proof.
  intros Hf. unfold semantic_response. destruct (response_factory p) as [m|]; [by apply Hf|].
  destruct (response p) as [v|]; [apply (keeps_lift (Ok v))|apply keeps_lift].
Qed.

(** The rows a fresh command leaves. *)
Definition new_receipt (clock : Z) (e : CommandEnvelope) (hash : string) (r : CommandExecutionResult)
    : CommandReceipt :=
  MkReceipt (command_id e) (command_type e) hash (target_type e) (target_id e) clock
    (x_result_type r) (x_result_id r).
Definition stores (r : CommandExecutionResult) (c : CommittedCommandResult) : Prop :=
  cr_response_schema c = x_response_schema r /\ cr_response_version c = x_response_version r /\
  cr_response_schema c <> EmptyString /\ 0 < cr_response_version c /\
  cr_response_sha256 c = sha256_hexdigest (cr_response_json c) /\
  exists bounds, _response_bounds (x_response_schema r) (x_response_version r) = Ok bounds /\
    loads_canonical_json (cr_response_json c) (max_bytes bounds) (max_depth bounds)
      (max_collection_items bounds) = Ok (x_response r).

Lemma receipt_insert_ok r db db' u :
  receipt_insert r db = (db', Ok u) ->
  command_receipts db !! rc_command_id r = None /\
  command_receipts db' = <[rc_command_id r := r]> (command_receipts db) /\
  command_receipt_results db' = command_receipt_results db /\ audit_events db' = audit_events db.
Proof.
  unfold receipt_insert. destruct (command_receipts db !! _) eqn:E; [done|]. case_match; [done|].
  by intros [= <-].
Qed.
Lemma insert_result_ok c db db' u :
  insert_exact_result c db = (db', Ok u) ->
  command_receipt_results db !! cr_command_id c = None /\
  command_receipts db' = command_receipts db /\
  command_receipt_results db' = <[cr_command_id c := c]> (command_receipt_results db) /\
  audit_events db' = audit_events db.
Proof.
  unfold insert_exact_result. destruct (command_receipt_results db !! _) eqn:E; [done|].
  repeat case_match; try done. by intros [= <-].
Qed.
Lemma prepared_validate_ok (p : PreparedMutation domain) u :
  prepared_validate p = Ok u -> response_schema p <> EmptyString /\ 0 < response_version p /\
    (no_change p = true -> result_type p = None \/ result_type p = Some "NO_CHANGE").
Proof.
  unfold prepared_validate. intros Hv. apply bind_ok in Hv as (? & Hn & Hv).
  apply bind_ok in Hv as (? & Hs%forbid_ok & Hv). apply bind_ok in Hv as (? & Hver%forbid_ok & _).
  split; [|split].
  - by apply String.eqb_neq.
  - by apply Z.leb_gt.
  - intros Hc. rewrite Hc in Hn. apply bind_ok in Hn as (? & _ & Hn%forbid_ok). by bool_hyps.
Qed.
Lemma encode_response_ok v schema version text sha normalized :
  _encode_response v schema version = Ok (text, sha, normalized) ->
  sha = sha256_hexdigest text /\ exists bounds, _response_bounds schema version = Ok bounds /\
    loads_canonical_json text (max_bytes bounds) (max_depth bounds) (max_collection_items bounds)
      = Ok normalized.
Proof.
  unfold _encode_response. intros (bounds & Hb & (enc & _ & (n & Hl & [= <- <- <-])%bind_ok)%bind_ok)%bind_ok.
  split; [done|]. by exists bounds.
Qed.

Lemma perform_ok clock ac e hash prepare db db' r :
  well_behaved prepare -> perform registry clock ac e hash prepare db = (db', Ok r) ->
  command_receipts db !! command_id e = None /\ replayed r = false /\
  command_receipts db' = <[command_id e := new_receipt clock e hash r]> (command_receipts db) /\
  (exists c, cr_command_id c = command_id e /\ stores r c /\
     command_receipt_results db' = <[command_id e := c]> (command_receipt_results db)) /\
  audit_events db ⊆ audit_events db'.
Proof.
  intros [Hprep Hp] Hr. unfold perform in Hr.
  apply stm_bind_ok in Hr as (db1 & p & H1 & Hr). destruct (Hp _ _ _ H1) as (Ha & Hf & Hfac).
  apply Hprep in H1 as (R1 & S1 & A1).
  apply stm_bind_ok in Hr as (? & u & Hx & Hr). apply lift_ok in Hx as [-> Hval].
  apply prepared_validate_ok in Hval as (Hschema & Hversion & _).
  apply stm_bind_ok in Hr as (db2 & u2 & H2 & Hr). apply receipt_insert_ok in H2 as (N2 & R2 & S2 & A2).
  apply stm_bind_ok in Hr as (db3 & u3 & H3 & Hr). apply keeps_mutate in H3 as (R3 & S3 & A3); [|done..].
  apply stm_bind_ok in Hr as (db4 & v & H4 & Hr). apply keeps_response in H4 as (R4 & S4 & A4); [|done].
  apply stm_bind_ok in Hr as (? & [[text sha] n] & Hx & Hr). apply lift_ok in Hx as [-> Henc].
  apply encode_response_ok in Henc as (-> & bounds & Hb & Hl).
  apply stm_bind_ok in Hr as (db5 & u5 & H5 & Hr). apply insert_result_ok in H5 as (N5 & R5 & S5 & A5).
  injection Hr as <- <-. simpl in *. rewrite <-R1 in N2. split; [done|]. split; [done|]. split.
  { rewrite R5, <-R4, <-R3, R2, <-R1. done. }
  split.
  - eexists. split; [|split; [|rewrite S5, <-S4, <-S3, S2, <-S1; done]]; [done|].
    unfold stores. simpl. repeat (split; [done|]). by exists bounds.
  - rewrite A5. etrans; [exact A1|]. rewrite <-A2. by etrans.
Qed.

(** ** Committed commands *)
(** The receipt and the exact result of a command are on record. *)
Definition on_record db (id : string) (receipt : CommandReceipt) (c : CommittedCommandResult) : Prop :=
  command_receipts db !! id = Some receipt /\ command_receipt_results db !! id = Some c.

Lemma replay_ok e hash receipt db db' r :
  replay (domain := domain) e hash receipt db = (db', Ok r) ->
  db' = db /\ _assert_replay_match receipt e hash = Ok tt /\
  exists c v, command_receipt_results db !! command_id e = Some c /\ _decode_stored_response c = Ok v /\
    r = MkExecution (rc_result_type receipt) (rc_result_id receipt) true
      (bool_decide (rc_result_type receipt = Some "NO_CHANGE")) (cr_response_schema c)
      (cr_response_version c) v.
Proof.
  unfold replay. intros Hr. apply stm_bind_ok in Hr as (? & [] & Hx & Hr). apply lift_ok in Hx as [-> Hm].
  apply stm_bind_ok in Hr as (? & o & Hx & Hr). injection Hx as <- <-.
  destruct (command_receipt_results db !! command_id e) as [c|]; [|by apply lift_ok in Hr as [_ Hr]].
  apply stm_bind_ok in Hr as (? & v & Hx & Hr). apply lift_ok in Hx as [-> Hd]. injection Hr as <- <-.
  split; [done|]. split; [done|]. by exists c, v.
Qed.
Lemma replay_again e hash receipt c v db :
  _assert_replay_match receipt e hash = Ok tt -> command_receipt_results db !! command_id e = Some c ->
  _decode_stored_response c = Ok v ->
  replay (domain := domain) e hash receipt db = (db, Ok (MkExecution (rc_result_type receipt)
    (rc_result_id receipt) true (bool_decide (rc_result_type receipt = Some "NO_CHANGE"))
    (cr_response_schema c) (cr_response_version c) v)).
Proof.
  intros Hm Hc Hd. unfold replay, mbind, stM_bind, lift, get_exact_result. by rewrite Hm, Hc, Hd.
Qed.
Lemma replay_state e hash receipt db db' res :
  replay (domain := domain) e hash receipt db = (db', res) -> db' = db.
Proof.
  unfold replay, mbind, stM_bind, lift, get_exact_result. destruct (_assert_replay_match _ _ _); [|by intros [= <- _]].
  destruct (command_receipt_results db !! command_id e) as [c|]; [|by intros [= <- _]].
  destruct (_decode_stored_response c); by intros [= <- _].
Qed.
Lemma stored_decodes r c :
  (forall s, is_sha256 (sha256_hexdigest s) = true) -> stores r c ->
  _decode_stored_response c = Ok (x_response r).
Proof.
  intros Hhex (Es & Ev & Hs & Hv & Hh & bounds & Hb & Hl). unfold _decode_stored_response.
  rewrite (proj2 (String.eqb_neq _ _) Hs), (proj2 (Z.leb_gt _ _) Hv), Hh, Hhex, Es, Ev, Hb. simpl.
  rewrite Hl. simpl. unfold loads_canonical_json in Hl. inv_ok Hl. bool_hyps.
  match goal with Hu : utf8_encodable _ = true |- _ => rewrite Hu end. simpl. by rewrite String.eqb_refl.
Qed.

Lemma execute_step clock ac e prepare db db' res :
  execute registry clock ac e prepare db = (db', res) ->
  (db' = db /\ isOk res = false) \/
  (exists hash receipt r, request_hash e = Ok hash /\ command_receipts db !! command_id e = Some receipt /\
     res = Ok r /\ replay e hash receipt db = (db', Ok r)) \/
  (exists hash r, request_hash e = Ok hash /\ command_receipts db !! command_id e = None /\ res = Ok r /\
     perform registry clock ac e hash prepare db = (db', Ok r)).
Proof.
  unfold execute. intros Hr. destruct (request_hash e) as [hash|ex]; [|left; by injection Hr as <- <-].
  change (in_uow (existing ← receipt_get (command_id e); match existing with
    | Some receipt => replay e hash receipt
    | None => perform registry clock ac e hash prepare end) db = (db', res)) in Hr.
  apply in_uow_ok in Hr as [(r & -> & Hr)|(ex & -> & ->)]; [|by left]. right.
  change (match command_receipts db !! command_id e with
    | Some receipt => replay e hash receipt
    | None => perform registry clock ac e hash prepare end db = (db', Ok r)) in Hr.
  destruct (command_receipts db !! command_id e) as [receipt|]; [left|right].
  - by exists hash, receipt, r.
  - by exists hash, r.
Qed.
Lemma execute_records clock ac e prepare db db' res id receipt c :
  well_behaved prepare -> execute registry clock ac e prepare db = (db', res) ->
  on_record db id receipt c -> on_record db' id receipt c.
Proof.
  intros Hw Hr [H1 H2].
  destruct (execute_step _ _ _ _ _ _ _ Hr) as [[-> _]|[(hash & rc & r & _ & _ & _ & Hp)|(hash & r & _ & Hn & _ & Hp)]].
  - done.
  - by apply replay_state in Hp as ->.
  - apply perform_ok in Hp as (_ & _ & R & (c' & _ & _ & S) & _); [|done].
    unfold on_record. rewrite R, S. assert (id <> command_id e) by congruence. by rewrite !lookup_insert_ne.
Qed.

(** Any later commands. *)
Record command := MkCommand {
  k_clock : Z;
  k_audit_clock : string -> Z;
  k_envelope : CommandEnvelope;
  k_prepare : ledgerM (domain := domain) (PreparedMutation domain)
}.
Definition run_command db (k : command) : LedgerDb domain :=
  (execute registry (k_clock k) (k_audit_clock k) (k_envelope k) (k_prepare k) db).1.
Definition run_commands db (ks : list command) : LedgerDb domain := foldl run_command db ks.
Lemma run_commands_records db ks id receipt c :
  Forall (fun k => well_behaved (k_prepare k)) ks -> on_record db id receipt c ->
  on_record (run_commands db ks) id receipt c.
Proof.
  intros Hks. revert db. induction Hks as [|k ks Hk _ IH]; intros db Hon; [done|]. apply IH.
  unfold run_command. destruct (execute _ _ _ _ _ db) as [db' res] eqn:E. by eapply execute_records.
Qed.

(** What a command that returned has left. *)
Lemma execute_recorded clock ac e prepare db db' r :
  (forall s, is_sha256 (sha256_hexdigest s) = true) -> well_behaved prepare ->
  execute registry clock ac e prepare db = (db', Ok r) ->
  exists hash receipt c, request_hash e = Ok hash /\ on_record db' (command_id e) receipt c /\
    _assert_replay_match receipt e hash = Ok tt /\ _decode_stored_response c = Ok (x_response r) /\
    rc_result_type receipt = x_result_type r /\ rc_result_id receipt = x_result_id r /\
    cr_response_schema c = x_response_schema r /\ cr_response_version c = x_response_version r.
Proof.
  intros Hhex Hw Hr. destruct (execute_step _ _ _ _ _ _ _ Hr)
    as [[_ Hf]|[(hash & rc & r' & Hh & Hrc & [= <-] & Hp)|(hash & r' & Hh & Hn & [= <-] & Hp)]]; [done| |].
  - apply replay_ok in Hp as (-> & Hm & c & v & Hc & Hd & ->). by exists hash, rc, c.
  - apply perform_ok in Hp as (_ & _ & R & (c & Hid & Hst & S) & _); [|done].
    exists hash, (new_receipt clock e hash r), c. split; [done|]. split.
    { unfold on_record. by rewrite R, S, !lookup_insert_eq. }
    split.
    { unfold _assert_replay_match, new_receipt. simpl.
      by rewrite !String.eqb_refl, bool_decide_eq_true_2. }
    split; [by apply stored_decodes|]. destruct Hst as (? & ? & _). done.
Qed.

(** C1.  A committed command is executed once and replayed exactly: after
    it returned, and after any further commands whose callbacks respect the
    ledger, executing the same envelope again, with any callbacks, runs none of
    them, changes nothing and returns the stored response with the same result
    identity and schema, marked as replayed. *)
Theorem command_replays_exactly (clock clock' : Z) (ac ac' : string -> Z) (e : CommandEnvelope)
    (prepare prepare' : ledgerM (domain := domain) (PreparedMutation domain))
    (ks : list command) (db db1 : LedgerDb domain) (r : CommandExecutionResult)
    (Hhex : forall s, is_sha256 (sha256_hexdigest s) = true)
    (Hw : well_behaved prepare) (Hks : Forall (fun k => well_behaved (k_prepare k)) ks)
    (Hr : execute registry clock ac e prepare db = (db1, Ok r)) :
  let db2 := run_commands db1 ks in
  execute registry clock' ac' e prepare' db2 = (db2, Ok (MkExecution (x_result_type r) (x_result_id r) true
    (bool_decide (x_result_type r = Some "NO_CHANGE")) (x_response_schema r) (x_response_version r)
    (x_response r))).
Proof.
  intros db2. destruct (execute_recorded _ _ _ _ _ _ _ Hhex Hw Hr)
    as (hash & receipt & c & Hh & Hon & Hm & Hd & <- & <- & <- & <-).
  pose proof (run_commands_records db1 ks _ _ _ Hks Hon) as [H1 H2]. fold db2 in H1, H2.
  unfold execute, in_uow. rewrite (lift_bind _ _ _ _ Hh). unfold receipt_get, mbind, stM_bind. rewrite H1.
  by rewrite (replay_again _ _ _ _ _ _ Hm H2 Hd).
Qed.
End execution.
