(* ===== verification/CommandAudit.v ===== *)
(** What a command leaves in the ledger: exact audit rows, all or nothing, and
    conflicts for a reused identity; with a concrete command to evaluate. *)
From S2P Require Import Prelude StrictJson Identifiers AuditLedger CommandBoundary CommandReplay JobsExample.

(** * The audit writer *)
Section writer_facts.
Context {domain : Type}.
Implicit Types db : LedgerDb domain.

Lemma insert_event_ok e now text db db' u :
  insert_audit_event e now text db = (db', Ok u) ->
  audit_events db !! audit_event_id e = None /\ is_Some (command_receipts db !! ae_command_id e) /\
  db' = MkLedger (command_receipts db) (command_receipt_results db)
    (<[audit_event_id e := MkAuditRow e now text]> (audit_events db)) (audit_event_results db) (domain_state db).
Proof.
  unfold insert_audit_event. destruct (audit_events db !! audit_event_id e); [done|].
  destruct (negb (_ && _)); [done|]. destruct (negb (bool_decide _)) eqn:E; [done|]. bool_hyps.
  intros [= <-]. by split.
Qed.

(** Rows that [insert_audit_result] accepts one after the other. *)
Definition clash (r row : AuditResultRow) : Prop :=
  are_audit_event_id r = are_audit_event_id row /\ (are_ordinal r = are_ordinal row \/ are_ref r = are_ref row).
Definition add_results db rows : LedgerDb domain :=
  MkLedger (command_receipts db) (command_receipt_results db) (audit_events db)
    (audit_event_results db ++ rows) (domain_state db).
Lemma insert_result_row_ok row db db' u :
  insert_audit_result row db = (db', Ok u) ->
  db' = add_results db [row] /\ forall r, r ∈ audit_event_results db -> ~ clash r row.
Proof.
  unfold insert_audit_result. destruct (existsb _ _) eqn:E; [done|]. intros [= <-]. split; [done|].
  intros r Hr [Hid Hc]. apply not_true_iff_false in E. apply E, existsb_exists. exists r.
  split; [by apply list_elem_of_In|]. rewrite Hid, String.eqb_refl. simpl. apply orb_true_iff.
  destruct Hc as [->| ->]; [left; apply Z.eqb_refl|right; by apply bool_decide_eq_true].
Qed.
Lemma each_results_ok rows db db' u :
  each insert_audit_result rows db = (db', Ok u) ->
  db' = add_results db rows /\
  forall r i row, rows !! i = Some row -> (r ∈ audit_event_results db \/ exists j, (j < i)%nat /\ rows !! j = Some r) ->
    ~ clash r row.
Proof.
  revert db. induction rows as [|row rows IH]; intros db Hr; simpl in Hr.
  { injection Hr as <- _. split; [|done]. unfold add_results. rewrite app_nil_r. by destruct db. }
  apply stm_bind_ok in Hr as (db1 & v & H1 & Hr). apply insert_result_row_ok in H1 as [-> Hrow].
  apply IH in Hr as [-> Hrows]. split.
  { unfold add_results. simpl. by rewrite <-app_assoc. }
  intros r [|i] row' Hi Hin; simpl in Hi.
  - injection Hi as <-. destruct Hin as [Hin|(j & Hj & _)]; [by apply Hrow|lia].
  - apply (Hrows r i row' Hi). simpl. destruct Hin as [Hin|([|j] & Hj & Hin)].
    + left. set_solver.
    + injection Hin as <-. left. set_solver.
    + right. exists j. split; [lia|done].
Qed.

Lemma persistence_ok {A} (m : ledgerM (domain := domain) A) db db' a :
  audit_persistence m db = (db', Ok a) -> m db = (db', Ok a).
Proof. unfold audit_persistence. destruct (m db) as [s [x|[e|k]]]; naive_solver. Qed.

(** The row of an event. *)
Definition row_of (audit_clock : string -> Z) (e : AuditEventInput) (text : string) : AuditRow :=
  MkAuditRow e (audit_clock (audit_event_id e)) text.

Lemma result_rows_lookup e i row :
  result_rows e !! i = Some row <->
  exists r, py_sorted ref_key (resulting_event_refs e) !! i = Some r /\
    row = MkAuditResult (audit_event_id e) (Z.of_nat i) r.
Proof. unfold result_rows. by rewrite list_lookup_imap_Some. Qed.

(** A write that returns. *)
Lemma write_ok registry now e db db' u :
  write registry now e db = (db', Ok u) ->
  exists text, audit_payload_text registry e = Ok text /\
    audit_events db !! audit_event_id e = None /\ is_Some (command_receipts db !! ae_command_id e) /\
    NoDup (resulting_event_refs e) /\
    db' = MkLedger (command_receipts db) (command_receipt_results db)
      (<[audit_event_id e := MkAuditRow e now text]> (audit_events db))
      (audit_event_results db ++ result_rows e) (domain_state db).
Proof.
  unfold write. intros Hr. apply stm_bind_ok in Hr as (? & text & Hx & Hr). apply lift_ok in Hx as [-> Htext].
  apply persistence_ok in Hr. apply stm_bind_ok in Hr as (db1 & v & H1 & Hr).
  apply insert_event_ok in H1 as (Hfresh & Hrc & ->). apply each_results_ok in Hr as [-> Hrows].
  exists text. split; [done|]. split; [done|]. split; [done|]. split; [|done].
  assert (no_clash : forall i j r, (i < j)%nat -> py_sorted ref_key (resulting_event_refs e) !! i = Some r ->
    py_sorted ref_key (resulting_event_refs e) !! j = Some r -> False).
  { intros i j r Hlt Hi Hj.
    refine (Hrows (MkAuditResult (audit_event_id e) (Z.of_nat i) r) j (MkAuditResult (audit_event_id e) (Z.of_nat j) r) _ _ _).
    - apply result_rows_lookup. by exists r.
    - right. exists i. split; [done|]. apply result_rows_lookup. by exists r.
    - split; [done|by right]. }
  rewrite <-(py_sorted_perm ref_key). apply NoDup_alt. intros i j r Hi Hj.
  destruct (Nat.lt_trichotomy i j) as [Hlt|[->|Hlt]]; [|done|]; exfalso.
  - by eapply (no_clash i j).
  - by eapply (no_clash j i).
Qed.
Lemma result_rows_refs e : are_ref <$> result_rows e = py_sorted ref_key (resulting_event_refs e).
Proof.
  unfold result_rows. rewrite fmap_imap. etrans; [apply (imap_const id)|]. by rewrite list_fmap_id.
Qed.
Lemma StronglySorted_fmap_inv {A B} (f : A -> B) (R : B -> B -> Prop) (l : list A) :
  StronglySorted R (f <$> l) -> StronglySorted (fun x y => R (f x) (f y)) l.
Proof.
  induction l as [|x l IH]; intros Hs; [constructor|]. apply StronglySorted_inv in Hs as [Hs Hx].
  constructor; [by apply IH|exact (proj1 (Forall_fmap _ _ _) Hx)].
Qed.
Lemma foundation_ceiling_max e : foundation_payload_ceiling e <= 524288.
Proof.
  unfold foundation_payload_ceiling, _AUDIT_PAYLOAD_BYTE_ALLOCATIONS, _DEFAULT_AUDIT_PAYLOAD_BYTES. simpl.
  repeat case_match; simplify_eq/=; lia.
Qed.
Lemma max_refs_bound e : max_result_refs e <= 500.
Proof.
  unfold max_result_refs, _AUDIT_RESULT_REF_ALLOCATIONS, _DEFAULT_AUDIT_RESULT_REFS. simpl.
  repeat case_match; simplify_eq/=; lia.
Qed.
Lemma forbid_bind_ok {A} b e (r : result A) a : (_ ← forbid b e; r) = Ok a -> b = false /\ r = Ok a.
Proof. by destruct b. Qed.
Lemma payload_text_ok registry e text :
  audit_payload_text registry e = Ok text ->
  exists c, resolve registry (action_type e) (action_version e) = Ok c /\
    ac_payload_schema c = payload_schema e /\ ac_payload_version c = payload_version e /\
    Z.of_nat (length (resulting_event_refs e)) <= max_result_refs e /\
    json_dumps (payload e) = Some text /\ utf8_length text <= max_payload_bytes c e.
Proof.
  unfold audit_payload_text. intros Hr. apply bind_ok in Hr as (c & Hc & Hr).
  apply forbid_bind_ok in Hr as [Hs Hr]. apply forbid_bind_ok in Hr as [_ Hr].
  apply forbid_bind_ok in Hr as [Hn Hr]. apply bind_ok in Hr as (v & Hv & Hr).
  apply bind_ok in Hr as ([] & _ & Hr). apply bind_ok in Hr as (t & Ht & Hr).
  apply bind_ok in Hr as (t' & Ht' & Hr). apply forbid_bind_ok in Hr as [Hl [= <-]].
  unfold encode_utf8 in Ht'. destruct (utf8_encodable t); [injection Ht' as <-|done].
  assert (v = payload e) as ->.
  { unfold contract_validate in Hv. destruct (payload e); try done. inv_ok Hv. done. }
  destruct (json_dumps (payload e)); [injection Ht as ->|done]. apply orb_false_iff in Hs as [Hs1 Hs2].
  exists c. bool_hyps. split_and!; done || lia.
Qed.

(** A write that returns inserts exactly one event under a fresh
    identity for a recorded command, and one result row per reference, numbered
    from 0 in the sorted order of the references, each reference once; the
    payload is stored as its canonical text within the ceiling reviewed for its
    action.  Nothing else of the database changes. *)
Theorem audit_write_exact (registry : AuditRegistry) (now : Z) (e : AuditEventInput) (db db' : LedgerDb domain)
    (Hr : write registry now e db = (db', Ok tt)) :
  exists text rows,
    db' = MkLedger (command_receipts db) (command_receipt_results db)
      (<[audit_event_id e := MkAuditRow e now text]> (audit_events db))
      (audit_event_results db ++ rows) (domain_state db) /\
    audit_events db !! audit_event_id e = None /\ is_Some (command_receipts db !! ae_command_id e) /\
    json_dumps (payload e) = Some text /\ utf8_length text <= foundation_payload_ceiling e <= 524288 /\
    StronglySorted (fun r r' => leb (ref_key (are_ref r)) (ref_key (are_ref r')) = true) rows /\
    NoDup (are_ref <$> rows) /\ are_ref <$> rows ≡ₚ resulting_event_refs e /\
    (forall i row, rows !! i = Some row -> are_ordinal row = Z.of_nat i /\ are_audit_event_id row = audit_event_id e) /\
    Z.of_nat (length rows) <= 500.
Proof.
  apply write_ok in Hr as (text & Htext & Hfresh & Hrc & Hnd & ->).
  apply payload_text_ok in Htext as (c & _ & _ & _ & Hn & Hd & Hlen).
  pose proof (result_rows_refs e) as Hrefs. exists text, (result_rows e).
  split_and!; try done.
  - unfold max_payload_bytes in Hlen. lia.
  - apply foundation_ceiling_max.
  - apply (StronglySorted_fmap_inv are_ref (le_key ref_key)). rewrite Hrefs. apply py_sorted_sorted.
  - rewrite Hrefs. by apply py_sorted_NoDup.
  - rewrite Hrefs. apply py_sorted_perm.
  - intros i row (r & _ & ->)%result_rows_lookup. done.
  - rewrite <-(length_fmap are_ref), Hrefs, py_sorted_length. pose proof (max_refs_bound e). lia.
Qed.
End writer_facts.

(** * Commands *)
Section commands.
Context `{Sha256, FloatText} {domain : Type} (registry : AuditRegistry).
Implicit Types db : LedgerDb domain.

(** The event is on the ledger with its exact payload text. *)
Definition recorded (audit_clock : string -> Z) db (ev : AuditEventInput) : Prop :=
  exists text, audit_payload_text registry ev = Ok text /\
    audit_events db !! audit_event_id ev = Some (row_of audit_clock ev text).

Lemma recorded_grows ac db db' ev : grows db db' -> recorded ac db ev -> recorded ac db' ev.
Proof. intros (_ & _ & Hsub) (text & Ht & Hl). exists text. split; [done|]. by eapply lookup_weaken. Qed.
Lemma keeps_writes ac events :
  keeps (each (fun ev => write (domain := domain) registry (ac (audit_event_id ev)) ev) events).
Proof. apply keeps_each. intros ev. apply keeps_write. Qed.
Lemma writes_ok ac events db db' u :
  each (fun ev => write registry (ac (audit_event_id ev)) ev) events db = (db', Ok u) ->
  Forall (fun ev => audit_events db !! audit_event_id ev = None /\ recorded ac db' ev) events.
Proof.
  revert db. induction events as [|ev events IH]; intros db Hr; [constructor|]. simpl in Hr.
  apply stm_bind_ok in Hr as (db1 & v & H1 & Hr). pose proof (keeps_writes _ _ _ _ _ Hr) as Hg.
  pose proof (keeps_write _ _ _ _ _ _ H1) as (_ & _ & Hsub).
  apply write_ok in H1 as (text & Htext & Hfresh & _ & _ & ->). constructor.
  - split; [done|]. eapply recorded_grows; [done|]. exists text. split; [done|]. simpl. apply lookup_insert_eq.
  - eapply Forall_impl; [by apply IH|]. intros ev' [Hn Hrec]. split; [|done].
    by eapply lookup_weaken_None.
Qed.

Lemma check_events_ok command seen events u :
  check_events command seen events = Ok u ->
  Forall (fun ev => ae_command_id ev = command /\ audit_event_id ev ∉ seen) events /\
  NoDup (audit_event_id <$> events).
Proof.
  revert seen. induction events as [|ev events IH]; intros seen Hr; [by repeat constructor|]. simpl in Hr.
  apply forbid_bind_ok in Hr as [Hc Hr]. apply forbid_bind_ok in Hr as [Hs Hr]. bool_hyps.
  apply IH in Hr as [Hall Hnd]. split; [constructor; [done|]|].
  - eapply Forall_impl; [done|]. set_solver.
  - simpl. constructor; [|done]. rewrite list_elem_of_fmap. intros (ev' & He & Hin).
    rewrite Forall_forall in Hall. apply Hall in Hin as [_ Hin]. set_solver.
Qed.
Lemma normalize_ok emission command events :
  _normalize_audit_emission emission command = Ok events ->
  events <> [] /\ Forall (fun ev => ae_command_id ev = command) events /\ NoDup (audit_event_id <$> events).
Proof.
  unfold _normalize_audit_emission. destruct emission as [[|ev l]|]; [done| |done]. intros Hr.
  apply bind_ok in Hr as (u & Hr & [= <-]). apply check_events_ok in Hr as [Hall Hnd].
  split; [done|]. split; [|done]. eapply Forall_impl; [done|]. naive_solver.
Qed.

(** The audit trail of a material command. *)
Definition audited ac (e : CommandEnvelope) db db' : Prop :=
  exists events, events <> [] /\ NoDup (audit_event_id <$> events) /\
    Forall (fun ev => ae_command_id ev = command_id e /\ audit_events db !! audit_event_id ev = None /\
      recorded ac db' ev) events.
Lemma audited_grows ac e db0 db db' db1 :
  grows db0 db -> grows db' db1 -> audited ac e db db' -> audited ac e db0 db1.
Proof.
  intros (_ & _ & Hsub) H1 (events & Hne & Hnd & Hall). exists events. split; [done|]. split; [done|].
  eapply Forall_impl; [done|]. intros ev (Hc & Hn & Hrec). split; [done|]. split.
  - by eapply lookup_weaken_None.
  - by eapply recorded_grows.
Qed.
Lemma mutate_audited ac e p db db' u :
  (forall m, apply_ p = Some m -> keeps m) -> (forall m, after_audit p = Some m -> keeps m) ->
  no_change p = false -> mutate registry ac e p db = (db', Ok u) -> audited ac e db db'.
Proof.
  intros Ha Hf Hn. unfold mutate. rewrite Hn. destruct (apply_ p) as [m|]; [|done]. intros Hr.
  apply stm_bind_ok in Hr as (db1 & emission & H1 & Hr). apply (Ha _ eq_refl) in H1.
  apply stm_bind_ok in Hr as (? & events & Hx & Hr). apply lift_ok in Hx as [-> Hev].
  apply normalize_ok in Hev as (Hne & Hall & Hnd).
  apply stm_bind_ok in Hr as (db2 & v & H2 & Hr). apply writes_ok in H2.
  assert (grows db2 db') as H3.
  { destruct (after_audit p) as [m'|]; [by eapply (Hf _ eq_refl)|]. injection Hr as <- _. apply grows_refl. }
  eapply audited_grows; [done..|]. exists events. split; [done|]. split; [done|].
  apply Forall_and. split; [done|]. done.
Qed.
Lemma perform_audited clock ac e hash prepare db db' r :
  well_behaved prepare -> perform registry clock ac e hash prepare db = (db', Ok r) ->
  x_no_change r = false -> audited ac e db db'.
Proof.
  intros [Hprep Hp] Hr Hn. unfold perform in Hr.
  apply stm_bind_ok in Hr as (db1 & p & H1 & Hr). destruct (Hp _ _ _ H1) as (Ha & Hf & Hfac).
  apply Hprep in H1.
  apply stm_bind_ok in Hr as (? & u & Hx & Hr). apply lift_ok in Hx as [-> _].
  apply stm_bind_ok in Hr as (db2 & u2 & H2 & Hr). apply receipt_insert_ok in H2 as (_ & _ & _ & H2).
  apply stm_bind_ok in Hr as (db3 & u3 & H3 & Hr).
  apply stm_bind_ok in Hr as (db4 & v & H4 & Hr). apply keeps_response in H4; [|done].
  apply stm_bind_ok in Hr as (? & [[text sha] n] & Hx & Hr). apply lift_ok in Hx as [-> _].
  apply stm_bind_ok in Hr as (db5 & u5 & H5 & Hr). apply insert_result_ok in H5 as (_ & _ & _ & H5).
  injection Hr as <- <-. apply mutate_audited in H3; [|done..].
  destruct H1 as (_ & _ & H1), H4 as (_ & _ & H4), H3 as (events & Hne & Hnd & Hall).
  exists events. split; [done|]. split; [done|]. eapply Forall_impl; [done|].
  intros ev (Hc & Hfresh & text' & Ht & Hl). rewrite H2 in Hfresh. split_and!; [done| |].
  - by eapply lookup_weaken_None.
  - exists text'. split; [done|]. rewrite H5. by eapply lookup_weaken.
Qed.

(** C2.  A command is all or nothing, as long as its callbacks respect the
    ledger: they write no receipt and no exact result, and remove or change no
    audit event.  When it raises, nothing of the
    database changes.  When it returns a replay, nothing changes either.
    Otherwise it adds exactly its own receipt and its own exact result, and a
    material command leaves an audit trail: at least one event of this command,
    with distinct fresh identities, recorded with its exact payload. *)
Theorem command_atomic (clock : Z) (ac : string -> Z) (e : CommandEnvelope)
    (prepare : ledgerM (domain := domain) (PreparedMutation domain)) (db db' : LedgerDb domain)
    (res : result CommandExecutionResult)
    (Hw : well_behaved prepare) (Hr : execute registry clock ac e prepare db = (db', res)) :
  match res with
  | Raise _ => db' = db
  | Ok r =>
      if replayed r then db' = db
      else exists hash c, request_hash e = Ok hash /\ command_receipts db !! command_id e = None /\
        command_receipts db' = <[command_id e := new_receipt clock e hash r]> (command_receipts db) /\
        command_receipt_results db' = <[command_id e := c]> (command_receipt_results db) /\
        stores r c /\ audit_events db ⊆ audit_events db' /\ (x_no_change r = false -> audited ac e db db')
  end.
Proof.
  destruct (execute_step registry _ _ _ _ _ _ _ Hr)
    as [[-> Hf]|[(hash & rc & r & Hh & Hrc & -> & Hp)|(hash & r & Hh & Hn & -> & Hp)]].
  - by destruct res.
  - apply replay_ok in Hp as (-> & _ & c & v & _ & _ & ->). done.
  - pose proof (perform_audited _ _ _ _ _ _ _ _ Hw Hp) as Ha.
    apply perform_ok in Hp as (_ & -> & HR & (c & _ & Hst & HS) & Hsub); [|done]. by exists hash, c.
Qed.

(** The identity of a committed command cannot be reused: after it
    returned, and after any further commands, another envelope with the same
    command identity but a different type, target or request is refused as a
    conflict and changes nothing. *)
Theorem reused_identity_conflicts (clock clock' : Z) (ac ac' : string -> Z) (e e' : CommandEnvelope)
    (prepare prepare' : ledgerM (domain := domain) (PreparedMutation domain))
    (ks : list (command (domain := domain))) (db db1 : LedgerDb domain) (r : CommandExecutionResult)
    (hash hash' : string)
    (Hhex : forall s, is_sha256 (sha256_hexdigest s) = true)
    (Hw : well_behaved prepare) (Hks : Forall (fun k => well_behaved (k_prepare k)) ks)
    (Hr : execute registry clock ac e prepare db = (db1, Ok r))
    (Hid : command_id e' = command_id e)
    (Hh : request_hash e = Ok hash) (Hh' : request_hash e' = Ok hash')
    (Hdiff : command_type e' <> command_type e \/ target_type e' <> target_type e \/
             target_id e' <> target_id e \/ hash' <> hash) :
  let db2 := run_commands registry db1 ks in
  execute registry clock' ac' e' prepare' db2 = (db2, raise IdempotencyConflict).
Proof.
  intros db2. destruct (execute_recorded _ _ _ _ _ _ _ _ Hhex Hw Hr) as (h & receipt & c & Hh0 & Hon & Hm & _).
  pose proof (run_commands_records registry db1 ks _ _ _ Hks Hon) as [H1 _]. fold db2 in H1.
  rewrite Hh in Hh0. injection Hh0 as <-. apply forbid_ok in Hm.
  repeat (apply orb_false_iff in Hm as [Hm ?]). bool_hyps.
  assert (_assert_replay_match receipt e' hash' = raise IdempotencyConflict) as Hx.
  { unfold _assert_replay_match, forbid. case_match eqn:E; [done|].
    repeat (apply orb_false_iff in E as [E ?]). bool_hyps. destruct Hdiff as [?|[?|[?|?]]]; congruence. }
  unfold execute, in_uow. rewrite (lift_bind _ _ _ _ Hh'). unfold receipt_get, mbind, stM_bind.
  rewrite Hid, H1. unfold replay, mbind, stM_bind, lift. by rewrite Hx.
Qed.
End commands.

(** * A sample command *)
Module LedgerSamples.
#[local] Existing Instance Sample.sha.
#[local] Existing Instance Sample.no_floats.
Lemma hex_digits_sha n z : all_chars is_hex_lower (Sample.hex_digits n z) = true.
Proof.
  revert z. induction n as [|n IH]; intros z; [done|]. simpl. rewrite IH, andb_true_r.
  pose proof (Z.mod_pos_bound z 16 ltac:(lia)) as Hb.
  remember (z mod 16) as d. clear Heqd. assert (exists n, d = Z.of_nat n /\ (n < 16)%nat) as (m & -> & Hm).
  { exists (Z.to_nat d). lia. }
  rewrite Nat2Z.id. do 16 (destruct m as [|m]; [done|]). lia.
Qed.
Lemma hex_digits_length n z : String.length (Sample.hex_digits n z) = n.
Proof. revert z. induction n; intros z; simpl; auto. Qed.
Lemma sha_hex s : is_sha256 (sha256_hexdigest s) = true.
Proof.
  unfold is_sha256, sha256_hexdigest, Sample.sha. by rewrite hex_digits_length, hex_digits_sha.
Qed.

Definition rename_id : string := "dddddddd-dddd-4ddd-8ddd-dddddddddddd".
Definition other_id : string := "eeeeeeee-eeee-4eee-8eee-eeeeeeeeeeee".
Definition event_of (id n : string) : AuditEventInput :=
  MkAuditEvent n "unit.renamed" 1 "user" "unit" id "UnitV1" 1 (JObj [("name", JStr "b")]) None (Some "u1")
    None None None None None None [MkResultRef "unit" "u2"; MkResultRef "unit" "u1"].
Definition registry : AuditRegistry :=
  [(("unit.renamed", 1), MkActionContract "unit.renamed" 1 "UnitV1" 1
     (MkContract "UnitV1" 1 {["name"]} {["name"]} "reject" 4 16 1024) None None)].
(** Renames a unit: the domain is its name. *)
Definition rename (id n : string) : ledgerM (domain := string) (PreparedMutation string) :=
  mret (MkPrepared false (Some "unit") (Some "u1")
    (Some (fun db => (MkLedger (command_receipts db) (command_receipt_results db) (audit_events db)
        (audit_event_results db) "b", Ok (Some [event_of id n]))))
    "UnitRenamedV1" 1 (Some (JObj [("renamed", JBool true)])) None None).
Definition envelope (id name : string) : CommandEnvelope :=
  MkEnvelope id "RENAME_UNIT" "unit" (Some "u1") [("name", JStr name)] [] [] None.
Definition empty : LedgerDb string := MkLedger ∅ ∅ ∅ [] "a".
Definition rename_result (flag : bool) : CommandExecutionResult :=
  MkExecution (Some "unit") (Some "u1") flag false "UnitRenamedV1" 1 (JObj [("renamed", JBool true)]).
Definition renamed : LedgerDb string :=
  (execute registry 5 (fun _ => 6) (envelope rename_id "b") (rename rename_id "ev1") empty).1.
Definition later : command := MkCommand 7 (fun _ => 8) (envelope other_id "c") (rename other_id "ev2").

Lemma rename_behaves id n : well_behaved (rename id n).
Proof.
  split; [apply (keeps_lift (Ok _))|]. intros db db' p [= <- <-]. split_and!; simpl.
  - intros m [= <-] db1 db2 res [= <- _]. split_and!; done.
  - done.
  - done.
Qed.
Lemma rename_executes :
  execute registry 5 (fun _ => 6) (envelope rename_id "b") (rename rename_id "ev1") empty
    = (renamed, Ok (rename_result false)).
Proof. vm_compute. reflexivity. Qed.
Lemma event_writes :
  exists db, write registry 6 (event_of rename_id "ev2") renamed = (db, Ok tt).
Proof. eexists. vm_compute. reflexivity. Qed.

Lemma command_replays_exactly_witness :
  Forall (fun k => well_behaved (k_prepare k)) [later] /\
  let db2 := run_commands registry renamed [later] in
  execute registry 9 (fun _ => 9) (envelope rename_id "b") (rename rename_id "ev3") db2
    = (db2, Ok (rename_result true)).
Proof.
  assert (Forall (fun k => well_behaved (k_prepare k)) [later]) as Hks.
  { apply Forall_singleton, rename_behaves. }
  split; [done|].
  exact (command_replays_exactly registry 5 9 (fun _ => 6) (fun _ => 9) (envelope rename_id "b")
    (rename rename_id "ev1") (rename rename_id "ev3") [later] empty renamed _ sha_hex (rename_behaves _ _) Hks
    rename_executes).
Defined.
Lemma reused_identity_conflicts_witness :
  let db2 := run_commands registry renamed [later] in
  execute registry 9 (fun _ => 9) (envelope rename_id "c") (rename rename_id "ev3") db2
    = (db2, raise IdempotencyConflict).
Proof.
  assert (Forall (fun k => well_behaved (k_prepare k)) [later]) as Hks.
  { apply Forall_singleton, rename_behaves. }
  eapply (reused_identity_conflicts registry 5 9 (fun _ => 6) (fun _ => 9) (envelope rename_id "b")
    (envelope rename_id "c") (rename rename_id "ev1") (rename rename_id "ev3") [later] empty renamed _ _ _
    sha_hex (rename_behaves _ _) Hks rename_executes).
  - reflexivity.
  - vm_compute. reflexivity.
  - vm_compute. reflexivity.
  - right. right. right. vm_compute. discriminate.
Defined.
Lemma command_atomic_witness : audited registry (fun _ => 6) (envelope rename_id "b") empty renamed.
Proof.
  pose proof (command_atomic registry 5 (fun _ => 6) (envelope rename_id "b") (rename rename_id "ev1") empty
    renamed _ (rename_behaves _ _) rename_executes) as (hash & c & _ & _ & _ & _ & _ & _ & Ha).
  by apply Ha.
Defined.
Lemma audit_write_exact_witness : exists (db : LedgerDb string) text rows,
  audit_events db = <["ev2" := MkAuditRow (event_of rename_id "ev2") 6 text]> (audit_events renamed) /\
  audit_event_results db = audit_event_results renamed ++ rows /\ length rows = 2%nat.
Proof.
  destruct event_writes as [db Hdb]. exists db.
  pose proof (audit_write_exact registry 6 (event_of rename_id "ev2") renamed db Hdb)
    as (text & rows & -> & _ & _ & _ & _ & _ & _ & Hp & _).
  exists text, rows. split; [done|]. split; [done|]. apply Permutation_length in Hp.
  by rewrite length_fmap in Hp.
Defined.
End LedgerSamples.
