(* ===== verification/CommandDomain.v ===== *)
(** What a command does to the tables of its packet: nothing when it fails, is
    replayed or changes nothing, and otherwise exactly what its apply callback
    does once the receipt is there. *)
From S2P Require Import Prelude StrictJson Identifiers AuditLedger CommandBoundary CommandReplay CommandAudit.

Section domain.
Context `{Sha256, FloatText} {domain : Type} (registry : AuditRegistry).
Implicit Types db : LedgerDb domain.

(** A callback that leaves the packet's tables alone. *)
Definition pure_domain {A} (m : ledgerM (domain := domain) A) : Prop :=
  forall db, domain_state (m db).1 = domain_state db.
(** A mutation with no [after_audit] callback and a response that only reads. *)
Definition simple_mutation (p : PreparedMutation domain) : Prop :=
  after_audit p = None /\ forall m, response_factory p = Some m -> pure_domain m.
Definition simple_prepare (prepare : ledgerM (domain := domain) (PreparedMutation domain)) : Prop :=
  forall db db' p, prepare db = (db', Ok p) -> db' = db /\ simple_mutation p.

Lemma writes_domain ac events db db' u :
  each (fun ev => write registry (ac (audit_event_id ev)) ev) events db = (db', Ok u) -> domain_state db' = domain_state db.
Proof.
  revert db. induction events as [|ev events IH]; intros db Hr; simpl in Hr; [by injection Hr as <- _|].
  apply stm_bind_ok in Hr as (db1 & v & H1 & Hr). apply IH in Hr as ->.
  by apply write_ok in H1 as (text & _ & _ & _ & _ & ->).
Qed.
Lemma receipt_insert_domain r db db' u :
  receipt_insert r db = (db', Ok u) -> domain_state db' = domain_state db.
Proof. unfold receipt_insert. repeat case_match; try done. by intros [= <-]. Qed.
Lemma insert_result_domain c db db' u :
  insert_exact_result c db = (db', Ok u) -> domain_state db' = domain_state db.
Proof. unfold insert_exact_result. repeat case_match; try done. by intros [= <-]. Qed.

(** The apply callback of a material command ran from [db] to [db'] and emitted
    these events, each accepted by the audit writer. *)
Definition applied (e : CommandEnvelope) (p : PreparedMutation domain) db db' : Prop :=
  exists apply events, apply_ p = Some apply /\ apply db = (db', Ok (Some events)) /\
    Forall (fun ev => exists text, audit_payload_text registry ev = Ok text) events.

Lemma mutate_domain ac e p db db' u :
  after_audit p = None -> mutate registry ac e p db = (db', Ok u) ->
  no_change p = true /\ domain_state db' = domain_state db \/
  no_change p = false /\ exists db1, applied e p db db1 /\ domain_state db' = domain_state db1.
Proof.
  unfold mutate. intros -> Hr. destruct (no_change p); [left; by injection Hr as <-|right]. split; [done|].
  destruct (apply_ p) as [apply|] eqn:Ea; [|by apply lift_ok in Hr as [_ Hr]].
  apply stm_bind_ok in Hr as (db1 & emission & H1 & Hr).
  apply stm_bind_ok in Hr as (? & events & H2 & Hr). apply lift_ok in H2 as [-> Hn].
  apply stm_bind_ok in Hr as (db2 & v & H2 & Hr). injection Hr as <- _.
  exists db1. split; [|by eapply writes_domain]. apply writes_ok in H2. exists apply, events. split; [done|].
  split; [|eapply Forall_impl; [exact H2|]; intros ev (_ & text & Ht & _); by exists text].
  unfold _normalize_audit_emission in Hn. destruct emission as [[|ev evs]|]; try done. by inv_ok Hn.
Qed.
(** The response of a material command fits the bounds of its schema. *)
Definition encoded (p : PreparedMutation domain) : Prop := exists db db' value,
  semantic_response p db = (db', Ok value) /\
  exists r, _encode_response value (response_schema p) (response_version p) = Ok r.
(** What a command not seen before did. *)
Lemma execute_fresh clock ac e prepare db db' x :
  simple_prepare prepare -> command_receipts db !! command_id e = None ->
  execute registry clock ac e prepare db = (db', Ok x) ->
  exists p, prepare db = (db, Ok p) /\
  (no_change p = true /\ domain_state db' = domain_state db \/
   no_change p = false /\ exists db1 db2, domain_state db1 = domain_state db /\
    (exists r, command_receipts db1 = <[command_id e := r]> (command_receipts db) /\
       rc_command_type r = command_type e /\ rc_target_type r = target_type e /\ rc_target_id r = target_id e) /\
    applied e p db1 db2 /\ domain_state db' = domain_state db2 /\ encoded p).
Proof.
  intros Hsimple Enew. unfold execute. intros Hr. apply stm_bind_ok in Hr as (? & hash & Hh & Hr).
  apply lift_ok in Hh as [-> Hh]. apply in_uow_ok in Hr as [(y & Hy & Hr)|(er & Hy & _)]; [|done].
  apply stm_bind_ok in Hr as (? & existing & Hx & Hr). injection Hx as <- <-. rewrite Enew in Hr.
  unfold perform in Hr. apply stm_bind_ok in Hr as (db1 & p & H1 & Hr). destruct (Hsimple _ _ _ H1) as [-> [Haf Hfac]].
  exists p. split; [done|].
  apply stm_bind_ok in Hr as (? & u & Hx & Hr). apply lift_ok in Hx as [-> _].
  apply stm_bind_ok in Hr as (db2 & u2 & H2 & Hr).
  pose proof (receipt_insert_domain _ _ _ _ H2) as D2. apply receipt_insert_ok in H2 as (_ & R2 & _ & _).
  apply stm_bind_ok in Hr as (db3 & u3 & H3 & Hr). apply mutate_domain in H3; [|done].
  apply stm_bind_ok in Hr as (db4 & v & H4 & Hr).
  assert (domain_state db4 = domain_state db3) as D4.
  { unfold semantic_response in H4. destruct (response_factory p) as [m|] eqn:Em.
    - specialize (Hfac m eq_refl db3). by rewrite H4 in Hfac.
    - destruct (response p); [by injection H4 as <-|by apply lift_ok in H4 as [_ H4]]. }
  apply stm_bind_ok in Hr as (? & [[text sha] n] & Hx & Hr). apply lift_ok in Hx as [-> Henc].
  apply stm_bind_ok in Hr as (db5 & u5 & H5 & Hr). apply insert_result_domain in H5. injection Hr as <- _.
  destruct H3 as [[Hn D3]|(Hn & db6 & Ha & D3)]; [left; split; [done|congruence]|right].
  split; [done|]. exists db2, db6. split; [done|].
  split; [eexists; split; [exact R2|done]|]. split; [done|]. split; [congruence|].
  exists db3, db4, v. split; [exact H4|by eexists].
Qed.
Lemma execute_encoded clock ac e prepare db db' x :
  simple_prepare prepare -> execute registry clock ac e prepare db = (db', Ok x) ->
  domain_state db' = domain_state db \/
  exists p db1 db2, command_receipts db !! command_id e = None /\ prepare db = (db, Ok p) /\ no_change p = false /\
    domain_state db1 = domain_state db /\
    (exists r, command_receipts db1 = <[command_id e := r]> (command_receipts db) /\
       rc_command_type r = command_type e /\ rc_target_type r = target_type e /\ rc_target_id r = target_id e) /\
    applied e p db1 db2 /\ domain_state db' = domain_state db2 /\ encoded p.
Proof.
  intros Hsimple Hr. destruct (command_receipts db !! command_id e) as [receipt|] eqn:Enew.
  - unfold execute in Hr. apply stm_bind_ok in Hr as (? & hash & Hh & Hr).
    apply lift_ok in Hh as [-> Hh]. apply in_uow_ok in Hr as [(y & Hy & Hr)|(er & Hy & _)]; [|done].
    apply stm_bind_ok in Hr as (? & existing & Hx & Hr). injection Hx as <- <-. rewrite Enew in Hr.
    apply replay_state in Hr as ->. by left.
  - destruct (execute_fresh _ _ _ _ _ _ _ Hsimple Enew Hr) as (p & Hp & [[_ E]|(Hn & db1 & db2 & Hm)]); [by left|right].
    exists p, db1, db2. split_and!; try done; apply Hm.
Qed.
Lemma execute_domain clock ac e prepare db db' x :
  simple_prepare prepare -> execute registry clock ac e prepare db = (db', Ok x) ->
  domain_state db' = domain_state db \/
  exists p db1 db2, command_receipts db !! command_id e = None /\ prepare db = (db, Ok p) /\ no_change p = false /\
    domain_state db1 = domain_state db /\
    (exists r, command_receipts db1 = <[command_id e := r]> (command_receipts db) /\
       rc_command_type r = command_type e /\ rc_target_type r = target_type e /\ rc_target_id r = target_id e) /\
    applied e p db1 db2 /\ domain_state db' = domain_state db2.
Proof.
  intros Hs Hr. destruct (execute_encoded _ _ _ _ _ _ _ Hs Hr) as [E|(p & db1 & db2 & A & B & C & D & E & F & G & _)];
    [by left|right]. by exists p, db1, db2.
Qed.
Lemma execute_raise clock ac e prepare db db' er :
  execute (domain := domain) registry clock ac e prepare db = (db', Raise er) -> db' = db.
Proof.
  unfold execute. intros Hr. apply stm_bind_raise in Hr as [Hr|(s & a & Ha & Hr)]; [by injection Hr|].
  apply lift_ok in Ha as [-> _]. apply in_uow_ok in Hr as [(y & Hy & _)|(er' & _ & ->)]; done.
Qed.
(** What a command not seen before did, when its preparation may write too: its
    own writes, then those of the apply callback. *)
Lemma execute_prepared clock ac e prepare db db' x :
  (forall db1 p, prepare db = (db1, Ok p) -> simple_mutation p) ->
  execute registry clock ac e prepare db = (db', Ok x) ->
  is_Some (command_receipts db !! command_id e) /\ domain_state db' = domain_state db \/
  exists db1 p, prepare db = (db1, Ok p) /\
  (no_change p = true /\ domain_state db' = domain_state db1 \/
   no_change p = false /\ exists db2 db3, domain_state db2 = domain_state db1 /\ applied e p db2 db3 /\
     domain_state db' = domain_state db3).
Proof.
  intros Hsimple. unfold execute. intros Hr. apply stm_bind_ok in Hr as (? & hash & Hh & Hr).
  apply lift_ok in Hh as [-> Hh]. apply in_uow_ok in Hr as [(y & [= <-] & Hr)|(er & Hy & _)]; [|done].
  apply stm_bind_ok in Hr as (? & existing & Hx & Hr). injection Hx as <- <-.
  destruct (command_receipts db !! command_id e) as [receipt|]; [left; split; [by eexists|by apply replay_state in Hr as ->]|right].
  unfold perform in Hr. apply stm_bind_ok in Hr as (db1 & p & H1 & Hr). destruct (Hsimple _ _ H1) as [Haf Hfac].
  exists db1, p. split; [done|].
  apply stm_bind_ok in Hr as (? & u & Hx & Hr). apply lift_ok in Hx as [-> _].
  apply stm_bind_ok in Hr as (db2 & u2 & D2%receipt_insert_domain & Hr).
  apply stm_bind_ok in Hr as (db3 & u3 & H3%mutate_domain & Hr); [|done].
  apply stm_bind_ok in Hr as (db4 & v & H4 & Hr).
  assert (domain_state db4 = domain_state db3) as D4.
  { unfold semantic_response in H4. destruct (response_factory p) as [m|] eqn:Em.
    - specialize (Hfac m eq_refl db3). by rewrite H4 in Hfac.
    - destruct (response p); [by injection H4 as <-|by apply lift_ok in H4 as [_ H4]]. }
  apply stm_bind_ok in Hr as (? & [[text sha] n] & Hx & Hr). apply lift_ok in Hx as [-> _].
  apply stm_bind_ok in Hr as (db5 & u5 & H5%insert_result_domain & Hr). injection Hr as <- _.
  destruct H3 as [[Hn D3]|(Hn & db6 & Ha & D3)]; [left; split; [done|congruence]|right].
  split; [done|]. exists db2, db6. split_and!; [done|done|congruence].
Qed.
Lemma execute_through {B} (R : domain -> domain -> Prop) (k : CommandExecutionResult -> ledgerM B) clock ac e prepare
    db db' res :
  (forall d, R d d) -> (forall d1 d2 d3, R d1 d2 -> R d2 d3 -> R d1 d3) ->
  (forall db1 p, prepare db = (db1, Ok p) -> simple_mutation p /\ R (domain_state db) (domain_state db1) /\
     forall db2 db3, no_change p = false -> domain_state db2 = domain_state db1 -> applied e p db2 db3 ->
       R (domain_state db2) (domain_state db3)) ->
  (forall x s, (k x s).1 = s) ->
  (x ← execute registry clock ac e prepare; k x) db = (db', res) -> R (domain_state db) (domain_state db').
Proof.
  intros Hrefl Htrans Hp Hk Hr. unfold mbind, stM_bind in Hr.
  destruct (execute registry clock ac e prepare db) as [db1 [x|er]] eqn:E.
  - specialize (Hk x db1). rewrite Hr in Hk. simpl in Hk. subst db1.
    apply execute_prepared in E as [[_ E]|(db1 & p & Hprep & E)].
    + rewrite E. apply Hrefl.
    + destruct (Hp _ _ Hprep) as (_ & HR & Hact). destruct E as [[_ E]|(Hn & db2 & db3 & E2 & Ha & E)]; [by rewrite E|].
      rewrite E. specialize (Hact db2 db3 Hn E2 Ha). rewrite E2 in Hact. by eapply Htrans.
    + intros db1 p Hprep. by destruct (Hp _ _ Hprep).
  - injection Hr as <- _. apply execute_raise in E as ->. apply Hrefl.
Qed.
(** The answer of a command not seen before: what its response read in the state
    it committed, normalized within the bounds of its schema. *)
Lemma execute_response clock ac e prepare db db' x :
  simple_prepare prepare -> command_receipts db !! command_id e = None ->
  execute registry clock ac e prepare db = (db', Ok x) ->
  exists p db1 db2 value text sha, prepare db = (db, Ok p) /\ semantic_response p db1 = (db2, Ok value) /\
    domain_state db1 = domain_state db' /\ x_response_schema x = response_schema p /\
    x_response_version x = response_version p /\ x_no_change x = no_change p /\
    _encode_response value (response_schema p) (response_version p) = Ok (text, sha, x_response x).
Proof.
  intros Hsimple Enew. unfold execute. intros Hr. apply stm_bind_ok in Hr as (? & hash & Hh & Hr).
  apply lift_ok in Hh as [-> Hh]. apply in_uow_ok in Hr as [(y & [= <-] & Hr)|(er & Hy & _)]; [|done].
  apply stm_bind_ok in Hr as (? & existing & Hx & Hr). injection Hx as <- <-. rewrite Enew in Hr.
  unfold perform in Hr. apply stm_bind_ok in Hr as (db1 & p & H1 & Hr). destruct (Hsimple _ _ _ H1) as [-> [Haf Hfac]].
  apply stm_bind_ok in Hr as (? & u & Hx & Hr). apply lift_ok in Hx as [-> _].
  apply stm_bind_ok in Hr as (db2 & u2 & _ & Hr). apply stm_bind_ok in Hr as (db3 & u3 & _ & Hr).
  apply stm_bind_ok in Hr as (db4 & v & H4 & Hr).
  assert (domain_state db4 = domain_state db3) as D4.
  { unfold semantic_response in H4. destruct (response_factory p) as [m|] eqn:Em.
    - specialize (Hfac m eq_refl db3). by rewrite H4 in Hfac.
    - destruct (response p); [by injection H4 as <-|by apply lift_ok in H4 as [_ H4]]. }
  apply stm_bind_ok in Hr as (? & [[text sha] n] & Hx & Hr). apply lift_ok in Hx as [-> Henc].
  apply stm_bind_ok in Hr as (db5 & u5 & H5 & Hr). apply insert_result_domain in H5. injection Hr as <- <-.
  exists p, db3, db4, v, text, sha. split_and!; try done. congruence.
Qed.
Lemma execute_replayed clock ac e prepare db db' r x :
  command_receipts db !! command_id e = Some r -> execute (domain := domain) registry clock ac e prepare db = (db', Ok x) -> db' = db.
Proof.
  intros Er Hr. unfold execute in Hr. apply stm_bind_ok in Hr as (? & hash & Hh & Hr).
  apply lift_ok in Hh as [-> Hh]. apply in_uow_ok in Hr as [(y & Hy & Hr)|(er & Hy & _)]; [|done].
  apply stm_bind_ok in Hr as (? & existing & Hx & Hr). injection Hx as <- <-. rewrite Er in Hr. by apply replay_state in Hr.
Qed.
(** A relation every apply callback keeps holds across the whole command,
    whatever its outcome and whatever is read from its result. *)
Lemma execute_relates {B} (R : domain -> domain -> Prop) (k : CommandExecutionResult -> ledgerM B) clock ac e prepare
    db db' res :
  (forall d, R d d) -> simple_prepare prepare ->
  (forall p db1 db2, prepare db = (db, Ok p) -> no_change p = false -> domain_state db1 = domain_state db ->
     applied e p db1 db2 -> R (domain_state db1) (domain_state db2)) ->
  (forall x s, (k x s).1 = s) ->
  (x ← execute registry clock ac e prepare; k x) db = (db', res) -> R (domain_state db) (domain_state db').
Proof.
  intros Hrefl Hs Hp Hk Hr. unfold mbind, stM_bind in Hr.
  destruct (execute registry clock ac e prepare db) as [db1 [x|er]] eqn:E.
  - specialize (Hk x db1). rewrite Hr in Hk. simpl in Hk. subst db1.
    apply execute_domain in E as [E|(p & db1 & db2 & _ & Hprep & Hc & E1 & _ & Ha & E2)]; [rewrite E; apply Hrefl| |done].
    rewrite E2, <-E1. by apply (Hp p).
  - injection Hr as <- _. apply execute_raise in E as ->. apply Hrefl.
Qed.
End domain.
