(* ===== verification/ObjectiveTables.v ===== *)
(** The tables of the objectives packet: [migrations/0006_objectives_tasks.sql],
    with the columns the modelled code reads or writes, keyed by primary key. *)
From S2P Require Import Prelude StrictJson Identifiers Grouping Jobs.

(** * Tasks *)
Record PlanRow := MkPlanRow { pl_task_id : string; pl_start_utc : Z; pl_end_utc : Z }.
Record PlanCurrentRow := MkPlanCurrentRow { pc_plan_revision_id : string; pc_revision : Z }.
Record ExecutionEventRow := MkExecutionEventRow {
  ee_task_id : string;
  ee_execution_revision : Z;
  ee_event_kind : string;
  ee_effective_at_utc : option Z;
  ee_target_event_id : option string;
  ee_correction_action : option string;
  ee_reason_code : option string;
  ee_recorded_at_utc : Z;
  ee_command_id : string
}.
Record ExecutionRow := MkExecutionRow {
  ex_execution_state : string;
  ex_actual_start_utc : option Z;
  ex_actual_end_utc : option Z;
  ex_effective_termination_utc : option Z;
  ex_termination_reason : option string;
  ex_revision : Z;
  ex_last_event_id : string
}.
Record OutcomeEventRow := MkOutcomeEventRow {
  oe_task_id : string;
  oe_accepted_outcome : string;
  oe_correction_of_event_id : option string;
  oe_reason_code : option string;
  oe_reviewed_at_utc : Z;
  oe_command_id : string
}.
Record OutcomeRow := MkOutcomeRow {
  ou_outcome_event_id : string;
  ou_accepted_outcome : string;
  ou_reviewed_at_utc : Z;
  ou_revision : Z;
  ou_last_command_id : string
}.
Record CountEventRow := MkCountEventRow { ce_task_id : string; ce_included : Z }.
Record CountRow := MkCountRow { cc_included : Z; cc_revision : Z; cc_last_event_id : string }.

(** * Objectives *)
Record ObjectiveRow := MkObjectiveRow {
  ob_tracking_sequence : Z;
  ob_tracking_id : string;
  ob_creation_origin : string;
  ob_superseded_by_objective_id : option string;
  ob_revision : Z;
  ob_created_at_utc : Z;
  ob_created_command_id : string
}.
Record MembershipEventRow := MkMembershipEventRow {
  me_task_id : string;
  me_event_kind : string;
  me_from_objective_id : option string;
  me_to_objective_id : option string;
  me_accepted_plan_revision_id : string;
  me_grouping_proposal_id : option string;
  me_recorded_at_utc : Z;
  me_command_id : string
}.
Record MembershipRow := MkMembershipRow {
  ms_objective_id : string;
  ms_accepted_plan_revision_id : string;
  ms_membership_revision : Z;
  ms_last_event_id : string;
  ms_last_command_id : string
}.
Record EnvelopeRow := MkEnvelopeRow {
  en_start_utc : Z;
  en_end_utc : Z;
  en_member_count : Z;
  en_membership_input_fingerprint : string;
  en_revision : Z;
  en_last_command_id : string
}.
Record AggregateRow := MkAggregateRow {
  ag_execution_state : string;
  ag_aggregate_outcome : option string;
  ag_actual_start_utc : option Z;
  ag_actual_end_utc : option Z;
  ag_attention_reason : option string;
  ag_included_task_count : Z;
  ag_excluded_task_count : Z;
  ag_aggregate_input_fingerprint : string;
  ag_revision : Z;
  ag_last_command_id : string
}.
Record ReviewRow := MkReviewRow {
  rv_objective_id : string;
  rv_review_fingerprint : string;
  rv_derived_outcome : string;
  rv_reviewed_at_utc : Z
}.
#[export] Instance MembershipRow_eq_dec : EqDecision MembershipRow.
Proof. solve_decision. Defined.
#[export] Instance MembershipEventRow_eq_dec : EqDecision MembershipEventRow.
Proof. solve_decision. Defined.

(** * Regroup proposals *)
Record ProposalRow := MkProposalRow {
  pr_proposal_kind : string;
  pr_origin : string;
  pr_risk_tier : string;
  pr_input_fingerprint : string;
  pr_state : string;
  pr_survivor_objective_id : option string;
  pr_revision : Z;
  pr_created_at_utc : Z;
  pr_last_command_id : option string
}.
Record TaskChangeRow := MkTaskChangeRow {
  tr_change_id : string; tr_proposal_id : string; tr_change : GroupingTaskChange
}.
Record ObjectiveChangeRow := MkObjectiveChangeRow {
  or_change_id : string; or_proposal_id : string; or_change : GroupingObjectiveChange
}.
Record RejectionRow := MkRejectionRow {
  rj_proposal_id : string;
  rj_input_fingerprint : string;
  rj_reason_code : string;
  rj_reconsidered_at_utc : option Z;
  rj_recorded_at_utc : Z;
  rj_command_id : string
}.

(** * The database of the packet *)
Record ObjDb := MkObjDb {
  tasks : gmap string Z;
  task_plan_revisions : gmap string PlanRow;
  task_plan_current : gmap string PlanCurrentRow;
  task_execution_events : gmap string ExecutionEventRow;
  task_execution_projection : gmap string ExecutionRow;
  task_outcome_events : gmap string OutcomeEventRow;
  task_outcome_current : gmap string OutcomeRow;
  task_lock_projection : gmap string Z;
  task_activity_lineage_current : gmap string string;
  task_operational_count_events : gmap string CountEventRow;
  task_operational_count_current : gmap string CountRow;
  wfm_source_projection_cache : gmap string string;
  objective_tracking_allocator : option (Z * Z);
  objectives : gmap string ObjectiveRow;
  objective_membership_events : gmap string MembershipEventRow;
  objective_task_membership_current : gmap string MembershipRow;
  objective_envelope_projection : gmap string EnvelopeRow;
  objective_aggregate_projection : gmap string AggregateRow;
  objective_review_events : gmap string ReviewRow;
  objective_archive_projection : gmap string (Z * Z);
  regroup_proposals : gmap string ProposalRow;
  regroup_proposal_task_changes : list TaskChangeRow;
  regroup_proposal_objective_changes : list ObjectiveChangeRow;
  regroup_rejection_events : gmap string RejectionRow;
  durable : JobsDb
}.

(** An update of one table. *)
Definition set_tasks v (db : ObjDb) : ObjDb :=
  MkObjDb v (task_plan_revisions db) (task_plan_current db) (task_execution_events db)
    (task_execution_projection db) (task_outcome_events db) (task_outcome_current db)
    (task_lock_projection db) (task_activity_lineage_current db)
    (task_operational_count_events db) (task_operational_count_current db)
    (wfm_source_projection_cache db) (objective_tracking_allocator db) (objectives db)
    (objective_membership_events db) (objective_task_membership_current db)
    (objective_envelope_projection db) (objective_aggregate_projection db)
    (objective_review_events db) (objective_archive_projection db) (regroup_proposals db)
    (regroup_proposal_task_changes db) (regroup_proposal_objective_changes db)
    (regroup_rejection_events db) (durable db).
Definition set_execution_events v (db : ObjDb) : ObjDb :=
  MkObjDb (tasks db) (task_plan_revisions db) (task_plan_current db) v (task_execution_projection db)
    (task_outcome_events db) (task_outcome_current db) (task_lock_projection db)
    (task_activity_lineage_current db) (task_operational_count_events db)
    (task_operational_count_current db) (wfm_source_projection_cache db)
    (objective_tracking_allocator db) (objectives db) (objective_membership_events db)
    (objective_task_membership_current db) (objective_envelope_projection db)
    (objective_aggregate_projection db) (objective_review_events db)
    (objective_archive_projection db) (regroup_proposals db) (regroup_proposal_task_changes db)
    (regroup_proposal_objective_changes db) (regroup_rejection_events db) (durable db).
Definition set_executions v (db : ObjDb) : ObjDb :=
  MkObjDb (tasks db) (task_plan_revisions db) (task_plan_current db) (task_execution_events db) v
    (task_outcome_events db) (task_outcome_current db) (task_lock_projection db)
    (task_activity_lineage_current db) (task_operational_count_events db)
    (task_operational_count_current db) (wfm_source_projection_cache db)
    (objective_tracking_allocator db) (objectives db) (objective_membership_events db)
    (objective_task_membership_current db) (objective_envelope_projection db)
    (objective_aggregate_projection db) (objective_review_events db)
    (objective_archive_projection db) (regroup_proposals db) (regroup_proposal_task_changes db)
    (regroup_proposal_objective_changes db) (regroup_rejection_events db) (durable db).
Definition set_outcome_events v (db : ObjDb) : ObjDb :=
  MkObjDb (tasks db) (task_plan_revisions db) (task_plan_current db) (task_execution_events db)
    (task_execution_projection db) v (task_outcome_current db) (task_lock_projection db)
    (task_activity_lineage_current db) (task_operational_count_events db)
    (task_operational_count_current db) (wfm_source_projection_cache db)
    (objective_tracking_allocator db) (objectives db) (objective_membership_events db)
    (objective_task_membership_current db) (objective_envelope_projection db)
    (objective_aggregate_projection db) (objective_review_events db)
    (objective_archive_projection db) (regroup_proposals db) (regroup_proposal_task_changes db)
    (regroup_proposal_objective_changes db) (regroup_rejection_events db) (durable db).
Definition set_outcomes v (db : ObjDb) : ObjDb :=
  MkObjDb (tasks db) (task_plan_revisions db) (task_plan_current db) (task_execution_events db)
    (task_execution_projection db) (task_outcome_events db) v (task_lock_projection db)
    (task_activity_lineage_current db) (task_operational_count_events db)
    (task_operational_count_current db) (wfm_source_projection_cache db)
    (objective_tracking_allocator db) (objectives db) (objective_membership_events db)
    (objective_task_membership_current db) (objective_envelope_projection db)
    (objective_aggregate_projection db) (objective_review_events db)
    (objective_archive_projection db) (regroup_proposals db) (regroup_proposal_task_changes db)
    (regroup_proposal_objective_changes db) (regroup_rejection_events db) (durable db).
Definition set_allocator a (db : ObjDb) : ObjDb :=
  MkObjDb (tasks db) (task_plan_revisions db) (task_plan_current db) (task_execution_events db)
    (task_execution_projection db) (task_outcome_events db) (task_outcome_current db)
    (task_lock_projection db) (task_activity_lineage_current db) (task_operational_count_events db)
    (task_operational_count_current db) (wfm_source_projection_cache db) a (objectives db)
    (objective_membership_events db) (objective_task_membership_current db)
    (objective_envelope_projection db) (objective_aggregate_projection db) (objective_review_events db)
    (objective_archive_projection db) (regroup_proposals db) (regroup_proposal_task_changes db)
    (regroup_proposal_objective_changes db) (regroup_rejection_events db) (durable db).
Definition set_objectives v (db : ObjDb) : ObjDb :=
  MkObjDb (tasks db) (task_plan_revisions db) (task_plan_current db) (task_execution_events db)
    (task_execution_projection db) (task_outcome_events db) (task_outcome_current db)
    (task_lock_projection db) (task_activity_lineage_current db) (task_operational_count_events db)
    (task_operational_count_current db) (wfm_source_projection_cache db)
    (objective_tracking_allocator db) v (objective_membership_events db)
    (objective_task_membership_current db) (objective_envelope_projection db)
    (objective_aggregate_projection db) (objective_review_events db) (objective_archive_projection
    db) (regroup_proposals db) (regroup_proposal_task_changes db)
    (regroup_proposal_objective_changes db) (regroup_rejection_events db) (durable db).
Definition set_membership_events v (db : ObjDb) : ObjDb :=
  MkObjDb (tasks db) (task_plan_revisions db) (task_plan_current db) (task_execution_events db)
    (task_execution_projection db) (task_outcome_events db) (task_outcome_current db)
    (task_lock_projection db) (task_activity_lineage_current db) (task_operational_count_events db)
    (task_operational_count_current db) (wfm_source_projection_cache db)
    (objective_tracking_allocator db) (objectives db) v (objective_task_membership_current db)
    (objective_envelope_projection db) (objective_aggregate_projection db) (objective_review_events
    db) (objective_archive_projection db) (regroup_proposals db) (regroup_proposal_task_changes db)
    (regroup_proposal_objective_changes db) (regroup_rejection_events db) (durable db).
Definition set_memberships v (db : ObjDb) : ObjDb :=
  MkObjDb (tasks db) (task_plan_revisions db) (task_plan_current db) (task_execution_events db)
    (task_execution_projection db) (task_outcome_events db) (task_outcome_current db)
    (task_lock_projection db) (task_activity_lineage_current db) (task_operational_count_events db)
    (task_operational_count_current db) (wfm_source_projection_cache db)
    (objective_tracking_allocator db) (objectives db) (objective_membership_events db) v
    (objective_envelope_projection db) (objective_aggregate_projection db) (objective_review_events
    db) (objective_archive_projection db) (regroup_proposals db) (regroup_proposal_task_changes db)
    (regroup_proposal_objective_changes db) (regroup_rejection_events db) (durable db).
Definition set_envelopes v (db : ObjDb) : ObjDb :=
  MkObjDb (tasks db) (task_plan_revisions db) (task_plan_current db) (task_execution_events db)
    (task_execution_projection db) (task_outcome_events db) (task_outcome_current db)
    (task_lock_projection db) (task_activity_lineage_current db) (task_operational_count_events db)
    (task_operational_count_current db) (wfm_source_projection_cache db)
    (objective_tracking_allocator db) (objectives db) (objective_membership_events db)
    (objective_task_membership_current db) v (objective_aggregate_projection db)
    (objective_review_events db) (objective_archive_projection db) (regroup_proposals db)
    (regroup_proposal_task_changes db) (regroup_proposal_objective_changes db)
    (regroup_rejection_events db) (durable db).
Definition set_aggregates v (db : ObjDb) : ObjDb :=
  MkObjDb (tasks db) (task_plan_revisions db) (task_plan_current db) (task_execution_events db)
    (task_execution_projection db) (task_outcome_events db) (task_outcome_current db)
    (task_lock_projection db) (task_activity_lineage_current db) (task_operational_count_events db)
    (task_operational_count_current db) (wfm_source_projection_cache db)
    (objective_tracking_allocator db) (objectives db) (objective_membership_events db)
    (objective_task_membership_current db) (objective_envelope_projection db) v
    (objective_review_events db) (objective_archive_projection db) (regroup_proposals db)
    (regroup_proposal_task_changes db) (regroup_proposal_objective_changes db)
    (regroup_rejection_events db) (durable db).
Definition set_archives v (db : ObjDb) : ObjDb :=
  MkObjDb (tasks db) (task_plan_revisions db) (task_plan_current db) (task_execution_events db)
    (task_execution_projection db) (task_outcome_events db) (task_outcome_current db)
    (task_lock_projection db) (task_activity_lineage_current db) (task_operational_count_events db)
    (task_operational_count_current db) (wfm_source_projection_cache db)
    (objective_tracking_allocator db) (objectives db) (objective_membership_events db)
    (objective_task_membership_current db) (objective_envelope_projection db)
    (objective_aggregate_projection db) (objective_review_events db) v (regroup_proposals db)
    (regroup_proposal_task_changes db) (regroup_proposal_objective_changes db)
    (regroup_rejection_events db) (durable db).
Definition set_proposals v (db : ObjDb) : ObjDb :=
  MkObjDb (tasks db) (task_plan_revisions db) (task_plan_current db) (task_execution_events db)
    (task_execution_projection db) (task_outcome_events db) (task_outcome_current db)
    (task_lock_projection db) (task_activity_lineage_current db) (task_operational_count_events db)
    (task_operational_count_current db) (wfm_source_projection_cache db)
    (objective_tracking_allocator db) (objectives db) (objective_membership_events db)
    (objective_task_membership_current db) (objective_envelope_projection db)
    (objective_aggregate_projection db) (objective_review_events db) (objective_archive_projection
    db) v (regroup_proposal_task_changes db) (regroup_proposal_objective_changes db)
    (regroup_rejection_events db) (durable db).
Definition set_task_changes v (db : ObjDb) : ObjDb :=
  MkObjDb (tasks db) (task_plan_revisions db) (task_plan_current db) (task_execution_events db)
    (task_execution_projection db) (task_outcome_events db) (task_outcome_current db)
    (task_lock_projection db) (task_activity_lineage_current db) (task_operational_count_events db)
    (task_operational_count_current db) (wfm_source_projection_cache db)
    (objective_tracking_allocator db) (objectives db) (objective_membership_events db)
    (objective_task_membership_current db) (objective_envelope_projection db)
    (objective_aggregate_projection db) (objective_review_events db) (objective_archive_projection
    db) (regroup_proposals db) v (regroup_proposal_objective_changes db) (regroup_rejection_events
    db) (durable db).
Definition set_objective_changes v (db : ObjDb) : ObjDb :=
  MkObjDb (tasks db) (task_plan_revisions db) (task_plan_current db) (task_execution_events db)
    (task_execution_projection db) (task_outcome_events db) (task_outcome_current db)
    (task_lock_projection db) (task_activity_lineage_current db) (task_operational_count_events db)
    (task_operational_count_current db) (wfm_source_projection_cache db)
    (objective_tracking_allocator db) (objectives db) (objective_membership_events db)
    (objective_task_membership_current db) (objective_envelope_projection db)
    (objective_aggregate_projection db) (objective_review_events db) (objective_archive_projection
    db) (regroup_proposals db) (regroup_proposal_task_changes db) v (regroup_rejection_events db)
    (durable db).
Definition set_rejections v (db : ObjDb) : ObjDb :=
  MkObjDb (tasks db) (task_plan_revisions db) (task_plan_current db) (task_execution_events db)
    (task_execution_projection db) (task_outcome_events db) (task_outcome_current db)
    (task_lock_projection db) (task_activity_lineage_current db) (task_operational_count_events db)
    (task_operational_count_current db) (wfm_source_projection_cache db)
    (objective_tracking_allocator db) (objectives db) (objective_membership_events db)
    (objective_task_membership_current db) (objective_envelope_projection db)
    (objective_aggregate_projection db) (objective_review_events db) (objective_archive_projection
    db) (regroup_proposals db) (regroup_proposal_task_changes db)
    (regroup_proposal_objective_changes db) v (durable db).
Definition set_durable v (db : ObjDb) : ObjDb :=
  MkObjDb (tasks db) (task_plan_revisions db) (task_plan_current db) (task_execution_events db)
    (task_execution_projection db) (task_outcome_events db) (task_outcome_current db)
    (task_lock_projection db) (task_activity_lineage_current db) (task_operational_count_events db)
    (task_operational_count_current db) (wfm_source_projection_cache db)
    (objective_tracking_allocator db) (objectives db) (objective_membership_events db)
    (objective_task_membership_current db) (objective_envelope_projection db)
    (objective_aggregate_projection db) (objective_review_events db) (objective_archive_projection
    db) (regroup_proposals db) (regroup_proposal_task_changes db)
    (regroup_proposal_objective_changes db) (regroup_rejection_events db) v.
