(* ===== verification/Regroup.v ===== *)
(** The regroup algorithm of [objectives_tasks/services/grouping.py]: the
    snapshot of the eligible work, the sweep over its intervals, the plans of
    its components and the candidates with their fingerprints. *)
From S2P Require Import Prelude StrictJson Identifiers Grouping Jobs Tables ObjectiveTables.

Definition key_error : exn := PyExn "KeyError".
Definition regroup_error (code_ m : string) : SomaError := MkSomaError code_ m false.
Definition indeterminate (m : string) : SomaError := regroup_error "GROUPING_INDETERMINATE" m.

(** * Fingerprints *)
Definition task_fingerprint_value (t : GroupingTaskAuthority) : json := JObj [
  ("task_id", JStr (task_id t));
  ("task_revision", JInt (task_revision t));
  ("plan_revision_id", JStr (plan_revision_id t));
  ("plan_revision", JInt (plan_revision t));
  ("interval", JArr [JInt (start_utc t); JInt (end_utc t)]);
  ("membership_objective_id", jopt JStr (membership_objective_id t));
  ("membership_plan_revision_id", jopt JStr (membership_plan_revision_id t));
  ("membership_revision", jopt JInt (membership_revision t));
  ("membership_locked", JBool (membership_locked t));
  ("execution_state", JStr (execution_state t));
  ("objective_id", jopt JStr (objective_id t));
  ("objective_revision", jopt JInt (objective_revision t));
  ("objective_envelope_revision", jopt JInt (objective_envelope_revision t));
  ("objective_execution_state", jopt JStr (objective_execution_state t))].
Definition objective_fingerprint_value (o : GroupingObjectiveAuthority) : json := JObj [
  ("objective_id", JStr (o_objective_id o));
  ("tracking_sequence", JInt (o_tracking_sequence o));
  ("revision", JInt (o_revision o));
  ("envelope_revision", JInt (o_envelope_revision o));
  ("interval", JArr [JInt (o_start_utc o); JInt (o_end_utc o)]);
  ("execution_state", JStr (o_execution_state o));
  ("creation_origin", JStr (o_creation_origin o))].
Definition task_change_value (c : GroupingTaskChange) : json := JObj [
  ("task_id", JStr (tc_task_id c));
  ("from_objective_id", jopt JStr (tc_from_objective_id c));
  ("to_objective_id", jopt JStr (tc_to_objective_id c));
  ("expected_task_revision", JInt (tc_expected_task_revision c));
  ("expected_current_plan_revision_id", JStr (tc_expected_current_plan_revision_id c));
  ("expected_membership_revision", jopt JInt (tc_expected_membership_revision c));
  ("change_kind", JStr (tc_change_kind c))].
Definition objective_change_value (c : GroupingObjectiveChange) : json := JObj [
  ("objective_id", jopt JStr (oc_objective_id c));
  ("action", JStr (oc_action c));
  ("expected_objective_revision", jopt JInt (oc_expected_objective_revision c));
  ("expected_envelope_revision", jopt JInt (oc_expected_envelope_revision c))].
Definition candidate_material (c : RegroupCandidate) : json := JObj (
  [("schema", JStr "SOMA_REGROUP_INPUT_V1");
   ("proposal_kind", JStr (proposal_kind c));
   ("origin", JStr (origin c));
   ("risk_tier", JStr (risk_tier c));
   ("survivor_objective_id", jopt JStr (survivor_objective_id c));
   ("component", JArr [JInt (component_start_utc c); JInt (component_end_utc c)]);
   ("tasks", JArr (map task_fingerprint_value (material_tasks c)));
   ("objectives", JArr (map objective_fingerprint_value (material_objectives c)));
   ("task_changes", JArr (map task_change_value (task_changes c)));
   ("objective_changes", JArr (map objective_change_value (objective_changes c)))]
  ++ match manual_scope_objective_ids c with
     | Some ids => [("manual_scope_objective_ids", JArr (map JStr ids))]
     | None => []
     end).

(** * The snapshot *)
(** A task with its current plan, as the joins select it. *)
Definition planned_tasks (db : ObjDb) : list (string * Z * PlanCurrentRow * PlanRow) :=
  omap (fun kv : string * Z =>
    pc ← task_plan_current db !! kv.1;
    p ← task_plan_revisions db !! pc_plan_revision_id pc;
    Some (kv, pc, p)) (map_to_list (tasks db)).
Definition coalesced_state (db : ObjDb) (t : string) : string :=
  match task_execution_projection db !! t with Some x => ex_execution_state x | None => "not_started" end.
Definition provider_final (db : ObjDb) (t : string) : bool :=
  match wfm_source_projection_cache db !! t with
  | Some class => set_token ["complete"; "plan_cancel"] class | None => false end.
Definition membership_lock (db : ObjDb) (t : string) : Z := default 0 (task_lock_projection db !! t).

Definition lineage_rows (db : ObjDb) : list Interval :=
  py_sorted (fun i => (iv_lineage_id i, iv_start i, iv_end i, iv_task_id i))
    (omap (fun kv : string * string =>
      pc ← task_plan_current db !! kv.1;
      p ← task_plan_revisions db !! pc_plan_revision_id pc;
      if String.eqb (pl_task_id p) kv.1
         && negb (bool_decide (is_Some (task_outcome_current db !! kv.1)))
         && negb (set_token ["ended"; "terminated"] (coalesced_state db kv.1))
         && negb (provider_final db kv.1)
      then Some (MkInterval kv.1 kv.2 (pl_start_utc p) (pl_end_utc p)) else None)
      (map_to_list (task_activity_lineage_current db))).
Definition _competing_task_ids (db : ObjDb) : gset string := strict_overlap_member_ids (lineage_rows db).

Definition objective_authority (db : ObjDb) (id : string) (o : ObjectiveRow)
    : option GroupingObjectiveAuthority :=
  match ob_superseded_by_objective_id o with
  | Some _ => None
  | None =>
      e ← objective_envelope_projection db !! id;
      a ← objective_aggregate_projection db !! id;
      Some (MkObjective id (ob_tracking_sequence o) (ob_revision o) (en_revision e) (en_start_utc e)
        (en_end_utc e) (ag_execution_state a) (ob_creation_origin o))
  end.
Record _GroupingSnapshot := MkSnapshot {
  s_tasks : list GroupingTaskAuthority;
  s_objectives : gmap string GroupingObjectiveAuthority
}.
Definition current_objectives (db : ObjDb) : gmap string GroupingObjectiveAuthority :=
  map_imap (objective_authority db) (objectives db).
Definition closed_states : list string := ["reviewed"; "superseded"; "historical_structure"].
Definition closed_objective (o : GroupingObjectiveAuthority) : bool :=
  String.eqb (o_creation_origin o) "historical_provider_complete"
  || set_token closed_states (o_execution_state o).

(** The loop body: the task, or nothing when it is skipped. *)
Definition snapshot_task (db : ObjDb) (competing : gset string)
    (objectives : gmap string GroupingObjectiveAuthority) (row : string * Z * PlanCurrentRow * PlanRow)
    : result (option GroupingTaskAuthority) :=
  let '(t, revision, pc, p) := row in
  let execution := coalesced_state db t in
  if bool_decide (is_Some (task_outcome_current db !! t)) || negb (String.eqb execution "not_started")
     || provider_final db t || bool_decide (t ∈ competing)
  then Ok None
  else
    let m := objective_task_membership_current db !! t in
    let objective := m ≫= fun m => objectives !! ms_objective_id m in
    _ ← forbid (bool_decide (is_Some m) && negb (bool_decide (is_Some objective)))
      (IntegrityFailure "Task membership points to missing current Objective");
    if match objective with Some o => closed_objective o | None => false end then Ok None
    else if membership_lock db t =? 1 then Ok None
    else Ok (Some (MkTask t revision (pc_plan_revision_id pc) (pc_revision pc) (pl_start_utc p) (pl_end_utc p)
      (ms_objective_id <$> m) (ms_accepted_plan_revision_id <$> m) (ms_membership_revision <$> m)
      (negb (membership_lock db t =? 0)) execution (ms_objective_id <$> m) (o_revision <$> objective)
      (o_envelope_revision <$> objective) (o_execution_state <$> objective))).
Definition row_key (row : string * Z * PlanCurrentRow * PlanRow) : Z * Z * string :=
  let '(t, _, _, p) := row in (pl_start_utc p, pl_end_utc p, t).
Definition _load_snapshot (db : ObjDb) : result _GroupingSnapshot :=
  let competing := _competing_task_ids db in
  let objectives := current_objectives db in
  items ← traverse (snapshot_task db competing objectives) (py_sorted row_key (planned_tasks db));
  Ok (MkSnapshot (omap id items) objectives).

Definition _eligible_workset_count (db : ObjDb) : result Z :=
  let broken (m : MembershipRow) := match objectives db !! ms_objective_id m with
    | None => true
    | Some o => bool_decide (is_Some (ob_superseded_by_objective_id o))
        || negb (bool_decide (is_Some (objective_envelope_projection db !! ms_objective_id m)))
        || negb (bool_decide (is_Some (objective_aggregate_projection db !! ms_objective_id m)))
    end in
  _ ← forbid (existsb (fun kv => broken kv.2) (map_to_list (objective_task_membership_current db)))
    (IntegrityFailure "Task membership points to missing or noncurrent Objective authority");
  let competing := _competing_task_ids db in
  let eligible (row : string * Z * PlanCurrentRow * PlanRow) := let '(t, _, _, _) := row in
    negb (bool_decide (is_Some (task_outcome_current db !! t)))
    && String.eqb (coalesced_state db t) "not_started" && negb (provider_final db t)
    && (membership_lock db t =? 0)
    && match objective_task_membership_current db !! t with
       | None => true
       | Some m => match objectives db !! ms_objective_id m, objective_aggregate_projection db !! ms_objective_id m with
           | Some o, Some a => negb (bool_decide (is_Some (ob_superseded_by_objective_id o)))
               && negb (String.eqb (ob_creation_origin o) "historical_provider_complete")
               && negb (set_token closed_states (ag_execution_state a))
           | _, _ => false
           end
       end
    && negb (bool_decide (t ∈ competing)) in
  Ok (Z.of_nat (length (filter (fun row => eligible row = true) (planned_tasks db)))).

Definition objective_order (o : GroupingObjectiveAuthority) : Z * string :=
  (o_tracking_sequence o, o_objective_id o).
Definition sweep_order (o : GroupingObjectiveAuthority) : Z * Z * Z * string :=
  (o_start_utc o, o_end_utc o, o_tracking_sequence o, o_objective_id o).

(** Objectives whose members lie in several components. *)
Definition component_members (component : list GroupingTaskAuthority) : gset string :=
  list_to_set (omap membership_objective_id component).
Definition _split_objectives (components : list (list GroupingTaskAuthority)) : gset string :=
  list_to_set (filter (fun id =>
      1 < Z.of_nat (length (filter (fun c => id ∈ component_members c) components)))
    (mjoin (map (omap membership_objective_id) components))).

(** ** The sweep over the ordered objectives *)
Fixpoint advance_cursor (start : Z) (ordered : list GroupingObjectiveAuthority)
    : list GroupingObjectiveAuthority :=
  match ordered with
  | o :: rest => if o_end_utc o <=? start then advance_cursor start rest else ordered
  | [] => []
  end.
Fixpoint scan_overlapping (start end_ : Z) (ordered : list GroupingObjectiveAuthority)
    : list GroupingObjectiveAuthority :=
  match ordered with
  | o :: rest =>
      if o_start_utc o <? end_
      then (if start <? o_end_utc o then [o] else []) ++ scan_overlapping start end_ rest
      else []
  | [] => []
  end.

Definition component_start (component : list GroupingTaskAuthority) : Z :=
  match map start_utc component with [] => 0 | x :: l => foldl Z.min x l end.
Definition component_end (component : list GroupingTaskAuthority) : Z :=
  match map end_utc component with [] => 0 | x :: l => foldl Z.max x l end.

Definition affected_objectives (objectives : gmap string GroupingObjectiveAuthority)
    (component : list GroupingTaskAuthority) (cursor : list GroupingObjectiveAuthority)
    : list GroupingObjectiveAuthority :=
  let scanned := scan_overlapping (component_start component) (component_end component) cursor in
  py_sorted objective_order (omap (fun id => objectives !! id)
    (elements (component_members component ∪ list_to_set (map o_objective_id scanned)))).

(** ** The changes of a component *)
Definition change_to (from to : option string) (revision : option Z) (kind : string)
    (t : GroupingTaskAuthority) : GroupingTaskChange :=
  MkTaskChange (task_id t) from to (task_revision t) (plan_revision_id t) revision kind.
Definition join_kind (survivor : string) (t : GroupingTaskAuthority) : option string :=
  match membership_objective_id t with
  | None => Some "add"
  | Some id =>
      if String.eqb id survivor then
        if bool_decide (membership_plan_revision_id t = Some (plan_revision_id t)) then None
        else Some "repin"
      else Some "move"
  end.
(** What an Objective in progress accepts: planned work inside its envelope. *)
Definition restructure_limit (o : GroupingObjectiveAuthority) (kind : string) (t : GroupingTaskAuthority) : bool :=
  negb (set_token ["add"; "repin"] kind) || negb (String.eqb (execution_state t) "not_started")
  || (start_utc t <? o_start_utc o) || (o_end_utc o <? end_utc t).
Fixpoint single_changes (o : GroupingObjectiveAuthority) (high_risk : bool) (changes : list GroupingTaskChange)
    (component : list GroupingTaskAuthority) : list GroupingTaskChange :=
  match component with
  | [] => changes
  | t :: rest =>
      match join_kind (o_objective_id o) t with
      | None => single_changes o high_risk changes rest
      | Some kind =>
          if high_risk && restructure_limit o kind t then []
          else single_changes o high_risk (changes ++
            [change_to (membership_objective_id t) (Some (o_objective_id o)) (membership_revision t) kind t]) rest
      end
  end.
Definition consolidate_kind (survivor : string) (t : GroupingTaskAuthority) : string :=
  match membership_objective_id t with
  | None => "add"
  | Some id =>
      if negb (String.eqb id survivor) then "move"
      else if negb (bool_decide (membership_plan_revision_id t = Some (plan_revision_id t))) then "repin"
      else "unchanged_context"
  end.
Definition retain_or_supersede (survivor : string) (o : GroupingObjectiveAuthority) : GroupingObjectiveChange :=
  MkObjectiveChange (Some (o_objective_id o))
    (if String.eqb (o_objective_id o) survivor then "retain" else "supersede")
    (Some (o_revision o)) (Some (o_envelope_revision o)).

(** The plan of a component: kind, survivor, risk, changes. *)
Record plan := MkPlan {
  plan_kind : string;
  plan_survivor : option string;
  plan_risk : string;
  plan_tasks : list GroupingTaskChange;
  plan_objectives : list GroupingObjectiveChange
}.
Definition create_plan (component : list GroupingTaskAuthority) : plan :=
  MkPlan "create" None "normal"
    (map (change_to None None None "add") (py_sorted task_id component))
    [MkObjectiveChange None "create" None None].
Definition single_plan (o : GroupingObjectiveAuthority) (component : list GroupingTaskAuthority) : option plan :=
  let high_risk := String.eqb (o_execution_state o) "in_progress" in
  match single_changes o high_risk [] (py_sorted task_id component) with
  | [] => None
  | changes =>
      Some (MkPlan
        (if existsb (fun c => String.eqb (tc_change_kind c) "add") changes then "join"
         else if forallb (fun c => String.eqb (tc_change_kind c) "repin") changes then "repin" else "move")
        (Some (o_objective_id o)) (if high_risk then "high" else "normal") changes
        [MkObjectiveChange (Some (o_objective_id o)) "envelope_change" (Some (o_revision o))
           (Some (o_envelope_revision o))])
  end.
Definition consolidate_plan (snapshot : list GroupingTaskAuthority) (first : GroupingObjectiveAuthority)
    (affected : list GroupingObjectiveAuthority) (component : list GroupingTaskAuthority) : option plan :=
  if existsb (fun o => negb (String.eqb (o_execution_state o) "planned")) affected then None
  else
    let survivor := o_objective_id (py_min objective_order first (tail affected)) in
    let affected_ids : gset string := list_to_set (map o_objective_id affected) in
    let all_members := mjoin (map (fun id => filter (fun t => membership_objective_id t = Some id) snapshot)
      (elements affected_ids)) in
    if negb (bool_decide ((list_to_set (omap membership_objective_id all_members) : gset string) = affected_ids))
    then None
    else
      let desired := foldl (fun d t => dset (task_id t) t d) [] (component ++ all_members) in
      Some (MkPlan "consolidate" (Some survivor) "normal"
        (map (fun t => change_to (membership_objective_id t) (Some survivor) (membership_revision t)
                (consolidate_kind survivor t) t) (py_sorted task_id desired.*2))
        (map (retain_or_supersede survivor) affected)).

Definition component_plan (snapshot : list GroupingTaskAuthority) (split : gset string)
    (affected : list GroupingObjectiveAuthority) (component : list GroupingTaskAuthority) : option plan :=
  if existsb (fun o => bool_decide (o_objective_id o ∈ split)) affected then None
  else if existsb closed_objective affected then None
  else match affected with
       | [] => Some (create_plan component)
       | [o] => single_plan o component
       | first :: _ => consolidate_plan snapshot first affected component
       end.

Definition material_of (task_by_id : list (string * GroupingTaskAuthority)) (changes : list GroupingTaskChange)
    : result (list GroupingTaskAuthority) :=
  traverse (fun id => match dget id task_by_id with Some t => Ok t | None => Raise key_error end)
    (py_sorted id (elements (list_to_set (map tc_task_id changes) : gset string))).

Definition candidate_step (snapshot : _GroupingSnapshot) (split : gset string) (origin_ : string)
    (s : list GroupingObjectiveAuthority * list RegroupCandidate) (component : list GroupingTaskAuthority)
    : result (list GroupingObjectiveAuthority * list RegroupCandidate) :=
  let start := component_start component in
  let cursor := advance_cursor start s.1 in
  let affected := affected_objectives (s_objectives snapshot) component cursor in
  match component_plan (s_tasks snapshot) split affected component with
  | None => Ok (cursor, s.2)
  | Some p =>
      material ← material_of (foldl (fun d t => dset (task_id t) t d) [] (s_tasks snapshot)) (plan_tasks p);
      Ok (cursor, s.2 ++ [MkCandidate (plan_kind p) origin_ (plan_risk p) (plan_survivor p) (plan_tasks p)
        (plan_objectives p) material affected start (component_end component) None])
  end.

Section candidates.
Context `{Sha256, FloatText}.

Definition input_fingerprint (c : RegroupCandidate) : result string :=
  sha256_canonical_json (candidate_material c).
Definition unsorted_candidates (snapshot : _GroupingSnapshot) (origin_ : string) : result (list RegroupCandidate) :=
  let components := strict_overlap_components (s_tasks snapshot) in
  s ← foldM (candidate_step snapshot (_split_objectives components) origin_)
    (py_sorted sweep_order (map_to_list (s_objectives snapshot)).*2, []) components;
  Ok s.2.
Definition candidate_key (cf : RegroupCandidate * string) : Z * Z * string * string :=
  (component_start_utc cf.1, component_end_utc cf.1, proposal_kind cf.1, cf.2).
Definition sort_candidates (l : list RegroupCandidate) : result (list RegroupCandidate) :=
  keyed ← traverse (fun c => f ← input_fingerprint c; Ok (c, f)) l;
  Ok (py_sorted candidate_key keyed).*1.
Definition _candidates (db : ObjDb) (origin_ : string) : result (list RegroupCandidate) :=
  snapshot ← _load_snapshot db;
  candidates ← unsorted_candidates snapshot origin_;
  sort_candidates candidates.
End candidates.
