(* ===== verification/RegroupSweep.v ===== *)
(** The candidate sweep finds, for every component, exactly the Objectives that
    overlap it or hold its members: the cursor and the early exits of the scan
    lose none. *)
From S2P Require Import Prelude StrictJson Identifiers Grouping Jobs Tables ObjectiveTables Regroup.

(** Every plan ends after it starts ([CHECK(end_utc > start_utc)]). *)
Definition plans_ok (db : ObjDb) : Prop :=
  map_Forall (fun _ p => pl_start_utc p < pl_end_utc p) (task_plan_revisions db).

(** * What the snapshot holds *)
Definition row_id (row : string * Z * PlanCurrentRow * PlanRow) : string := row.1.1.1.
(** The snapshot task of a row, when the row is eligible. *)
Record snapshot_of (db : ObjDb) (t : GroupingTaskAuthority) : Prop := {
  so_revision : tasks db !! task_id t = Some (task_revision t);
  so_plan : task_plan_current db !! task_id t = Some (MkPlanCurrentRow (plan_revision_id t) (plan_revision t));
  so_interval : exists p, task_plan_revisions db !! plan_revision_id t = Some p /\
    start_utc t = pl_start_utc p /\ end_utc t = pl_end_utc p;
  so_membership : membership_objective_id t
      = ms_objective_id <$> (objective_task_membership_current db !! task_id t) /\
    membership_plan_revision_id t
      = ms_accepted_plan_revision_id <$> (objective_task_membership_current db !! task_id t) /\
    membership_revision t = ms_membership_revision <$> (objective_task_membership_current db !! task_id t);
  so_open : task_outcome_current db !! task_id t = None /\ coalesced_state db (task_id t) = "not_started" /\
    provider_final db (task_id t) = false /\ (task_id t ∉ _competing_task_ids db) /\
    membership_lock db (task_id t) <> 1;
  so_execution : execution_state t = "not_started";
  so_objective : forall id, membership_objective_id t = Some id ->
    exists o, current_objectives db !! id = Some o /\ closed_objective o = false
}.

Lemma planned_tasks_elem db row :
  row ∈ planned_tasks db <->
  let '(t, n, pc, p) := row in tasks db !! t = Some n /\ task_plan_current db !! t = Some pc /\
    task_plan_revisions db !! pc_plan_revision_id pc = Some p.
Proof.
  unfold planned_tasks. rewrite list_elem_of_omap. destruct row as [[[t n] pc] p]. split.
  - intros ([t' n'] & Hin & Hb). apply elem_of_map_to_list in Hin. simpl in Hb.
    apply bind_Some in Hb as (pc' & Hpc & Hb). apply bind_Some in Hb as (p' & Hp & [= -> -> -> ->]). done.
  - intros (Ht & Hpc & Hp). exists (t, n). split; [by apply elem_of_map_to_list|]. simpl.
    rewrite Hpc. simpl. by rewrite Hp.
Qed.
Lemma planned_tasks_NoDup db : NoDup (row_id <$> planned_tasks db).
Proof.
  eapply sublist_NoDup; [apply (NoDup_fst_map_to_list (tasks db))|]. unfold planned_tasks.
  induction (map_to_list (tasks db)) as [|[t n] l IH]; [constructor|]. simpl.
  destruct (task_plan_current db !! t) as [pc|]; simpl; [|by constructor].
  destruct (task_plan_revisions db !! _); simpl; [|by constructor]. by constructor.
Qed.

Lemma snapshot_task_ok db objs row o :
  snapshot_task db (_competing_task_ids db) objs row = Ok o ->
  match o with
  | None => True
  | Some t => objs = current_objectives db -> row ∈ planned_tasks db -> task_id t = row_id row /\ snapshot_of db t
  end.
Proof.
  destruct row as [[[t n] pc] p]. unfold snapshot_task. destruct (_ || _) eqn:Eskip; [by intros [= <-]|].
  intros (u & Hm & Hr)%bind_ok. destruct (match _ with Some o => closed_objective o | None => false end) eqn:Ecl;
    [by injection Hr as <-|].
  destruct (membership_lock db t =? 1) eqn:El; [by injection Hr as <-|]. injection Hr as <-.
  intros -> (Ht & Hpc & Hp)%planned_tasks_elem. bool_hyps. apply forbid_ok in Hm. split; [done|].
  split; simpl; try done.
  - by destruct pc.
  - by exists p.
  - split_and!; [by apply eq_None_not_Some|done|done|done|done].
  - intros id (m & Hms & ->)%fmap_Some. rewrite Hms in Hm, Ecl. simpl in *.
    bool_hyps.
    destruct Hm as [ob Hob]. rewrite Hob in Ecl. by exists ob.
Qed.
Lemma current_objectives_id db id o : current_objectives db !! id = Some o -> o_objective_id o = id.
Proof.
  unfold current_objectives. rewrite map_lookup_imap. intros (r & _ & Hr)%bind_Some.
  unfold objective_authority in Hr. destruct (ob_superseded_by_objective_id r); [done|].
  by apply bind_Some in Hr as (e & _ & (a & _ & [= <-])%bind_Some).
Qed.

Record snapshot_ok (db : ObjDb) (s : _GroupingSnapshot) : Prop := {
  sn_objectives : s_objectives s = current_objectives db;
  sn_ids : NoDup (map task_id (s_tasks s));
  sn_tasks : forall t, t ∈ s_tasks s -> snapshot_of db t
}.
Lemma Forall2_ids db (rows : list (string * Z * PlanCurrentRow * PlanRow)) items :
  Forall2 (fun row o => forall t, o = Some t -> task_id t = row_id row /\ snapshot_of db t) rows items ->
  sublist (map task_id (omap id items)) (row_id <$> rows) /\ forall t, t ∈ omap id items -> snapshot_of db t.
Proof.
  induction 1 as [|row o rows items Ho _ [IHs IHt]]; [split; [constructor|set_solver]|].
  destruct o as [t|]; simpl.
  - destruct (Ho t eq_refl) as [<- Hs]. split; [by constructor|]. set_solver.
  - split; [by constructor|done].
Qed.
Lemma load_snapshot_ok db s : _load_snapshot db = Ok s -> snapshot_ok db s.
Proof.
  unfold _load_snapshot. intros (items & Hi & [= <-])%bind_ok.
  assert (Forall2 (fun row o => forall t, o = Some t -> task_id t = row_id row /\ snapshot_of db t)
    (py_sorted row_key (planned_tasks db)) items) as Hall.
  { apply traverse_ok in Hi. apply Forall2_same_length_lookup in Hi as [Hlen Hi].
    apply Forall2_same_length_lookup. split; [done|]. intros i row o Hrow Ho t ->.
    specialize (Hi _ _ _ Hrow Ho). apply snapshot_task_ok in Hi. apply Hi; [done|].
    apply list_elem_of_lookup_2 in Hrow. by rewrite elem_of_py_sorted in Hrow. }
  apply Forall2_ids in Hall as [Hsub Ht]. split; simpl; [done| |done].
  eapply sublist_NoDup; [|exact Hsub]. rewrite py_sorted_perm. apply planned_tasks_NoDup.
Qed.
Lemma snapshot_positive db s : plans_ok db -> snapshot_ok db s -> Forall positive (s_tasks s).
Proof.
  intros Hp Hs. apply Forall_forall. intros t Ht. destruct (sn_tasks _ _ Hs t Ht) as [_ _ (p & Hl & E1 & E2) _ _ _ _].
  unfold positive. rewrite E1, E2. by apply (Hp _ _ Hl).
Qed.

(** * The sweep *)
(** An Objective concerns a component when it overlaps it strictly or holds one
    of its tasks. *)
Definition overlaps_component (o : GroupingObjectiveAuthority) (component : list GroupingTaskAuthority) : bool :=
  (o_start_utc o <? component_end component) && (component_start component <? o_end_utc o).
Definition concerns (o : GroupingObjectiveAuthority) (component : list GroupingTaskAuthority) : bool :=
  overlaps_component o component || bool_decide (o_objective_id o ∈ component_members component).
(** The reference: filter all the Objectives, for every component. *)
Definition concerned (objectives : gmap string GroupingObjectiveAuthority)
    (component : list GroupingTaskAuthority) : list GroupingObjectiveAuthority :=
  py_sorted objective_order (filter (fun o => concerns o component = true) (map_to_list objectives).*2).

Lemma sweep_order_start o l :
  StronglySorted (le_key sweep_order) (o :: l) -> forall o', o' ∈ l -> o_start_utc o <= o_start_utc o'.
Proof.
  intros [Hall _]%StronglySorted_cons o' Ho. rewrite Forall_forall in Hall. specialize (Hall o' Ho).
  apply leb_lt_or_eq in Hall as [Hlt|Heq]; [|unfold sweep_order in Heq; congruence || (injection Heq; lia)].
  unfold sweep_order in Hlt. simpl in Hlt. unfold prod_cmp in Hlt. simpl in Hlt.
  unfold prod_cmp in Hlt. simpl in Hlt. unfold prod_cmp in Hlt. simpl in Hlt.
  destruct (Z.compare_spec (o_start_utc o) (o_start_utc o')); lia || done.
Qed.
Lemma advance_cursor_spec start l :
  exists dropped, l = dropped ++ advance_cursor start l /\ Forall (fun o => o_end_utc o <= start) dropped.
Proof.
  induction l as [|o l (d & E & Hd)]; [by exists []|]. simpl.
  destruct (Z.leb_spec (o_end_utc o) start) as [Hle|]; [|by exists []].
  exists (o :: d). simpl. split; [by f_equal|by constructor].
Qed.
Lemma scan_overlapping_elem start end_ l o :
  StronglySorted (le_key sweep_order) l ->
  o ∈ scan_overlapping start end_ l <-> o ∈ l /\ o_start_utc o < end_ /\ start < o_end_utc o.
Proof.
  induction l as [|o' l IH]; simpl; intros Hs; [set_solver|].
  pose proof (sweep_order_start _ _ Hs) as Hstart. apply StronglySorted_cons in Hs as [_ Hs].
  destruct (Z.ltb_spec (o_start_utc o') end_) as [Hlt|Hge].
  - rewrite elem_of_app, IH by done. destruct (Z.ltb_spec start (o_end_utc o')); set_solver by lia.
  - split; [set_solver|]. intros ([->|Ho]%elem_of_cons & H1 & H2); [lia|]. specialize (Hstart o Ho). lia.
Qed.

Lemma objective_order_inj o o' : objective_order o = objective_order o' -> o_objective_id o = o_objective_id o'.
Proof. unfold objective_order. congruence. Qed.

Section sweep.
Context (objectives : gmap string GroupingObjectiveAuthority).
Context (Hid : forall id o, objectives !! id = Some o -> o_objective_id o = id).

Lemma objectives_elem o : o ∈ (map_to_list objectives).*2 <-> objectives !! o_objective_id o = Some o.
Proof.
  rewrite list_elem_of_fmap. split.
  - intros ([id o'] & -> & Hin%elem_of_map_to_list). simpl. by rewrite (Hid _ _ Hin).
  - intros Hl. exists (o_objective_id o, o). split; [done|]. by apply elem_of_map_to_list.
Qed.
Lemma objectives_NoDup : NoDup (map_to_list objectives).*2.
Proof.
  apply (NoDup_fmap_1 o_objective_id). rewrite <-list_fmap_compose.
  erewrite list_fmap_ext; [apply (NoDup_fst_map_to_list objectives)|].
  intros i [id o] Hi%list_elem_of_lookup_2%elem_of_map_to_list. simpl. by apply Hid.
Qed.
Lemma lookup_ids_NoDup ids :
  NoDup ids -> NoDup (omap (fun id => objectives !! id) ids).
Proof.
  induction 1 as [|id ids Hn _ IH]; [constructor|]. simpl. destruct (objectives !! id) as [o|] eqn:E; [|done].
  constructor; [|done]. rewrite list_elem_of_omap. intros (id' & Hin & Hl).
  apply Hid in E as <-. apply Hid in Hl as <-. done.
Qed.

(** With a cursor that has only passed Objectives ending before the component,
    the affected Objectives are the concerned ones. *)
Lemma affected_concerned component passed cursor :
  py_sorted sweep_order (map_to_list objectives).*2 = passed ++ cursor ->
  Forall (fun o => o_end_utc o <= component_start component) passed ->
  affected_objectives objectives component cursor = concerned objectives component.
Proof.
  intros E Hp. unfold affected_objectives, concerned.
  assert (StronglySorted (le_key sweep_order) cursor) as Hs.
  { pose proof (py_sorted_sorted sweep_order (map_to_list objectives).*2) as Hs. rewrite E in Hs.
    by apply StronglySorted_app in Hs as (_ & _ & Hs). }
  assert (forall o, o ∈ cursor \/ o ∈ passed <-> objectives !! o_objective_id o = Some o) as Hall.
  { intros o. rewrite <-objectives_elem, <-(elem_of_py_sorted sweep_order o (map_to_list objectives).*2), E. set_solver. }
  apply py_sorted_canonical.
  - intros o o' Ho Ho' Hk%objective_order_inj. rewrite list_elem_of_omap in Ho, Ho'.
    destruct Ho as (i & _ & Hi), Ho' as (j & _ & Hj). apply Hid in Hi as Ei. apply Hid in Hj as Ej. congruence.
  - apply NoDup_Permutation.
    + apply lookup_ids_NoDup, NoDup_elements.
    + apply NoDup_filter, objectives_NoDup.
    + intros o. rewrite list_elem_of_omap, list_elem_of_filter, objectives_elem. unfold concerns, overlaps_component.
      rewrite orb_true_iff, andb_true_iff, !Z.ltb_lt, bool_decide_eq_true. split.
      * intros (id & Hin & Hl). pose proof (Hid _ _ Hl) as <-. split; [|done].
        rewrite elem_of_elements, elem_of_union in Hin. destruct Hin as [Hin|Hin]; [by right|left].
        apply elem_of_list_to_set, list_elem_of_fmap in Hin as (o' & Eo & Hin).
        apply scan_overlapping_elem in Hin as (Hin & H1 & H2); [|done].
        assert (objectives !! o_objective_id o' = Some o') as Ho' by (apply Hall; by left).
        rewrite <-Eo, Hl in Ho'. injection Ho' as ->. done.
      * intros [Hc Hl]. exists (o_objective_id o). split; [|done]. rewrite elem_of_elements, elem_of_union.
        destruct Hc as [[H1 H2]|Hm]; [right|by left]. apply elem_of_list_to_set, list_elem_of_fmap. exists o.
        split; [done|]. apply scan_overlapping_elem; [done|]. split; [|done].
        apply Hall in Hl as [Hl|Hl]; [done|]. rewrite Forall_forall in Hp. specialize (Hp o Hl). lia.
Qed.
End sweep.
