(* ===== verification/RegroupSound.v ===== *)
(** What the regroup candidates promise: the candidates are the plans of the
    components, each plan changes only eligible work, towards one survivor. *)
From S2P Require Import Prelude StrictJson Identifiers Grouping Jobs Tables ObjectiveTables Regroup.
From S2P Require Import RegroupSweep.

(** * The tasks by identity *)
Definition task_dict (d : list (string * GroupingTaskAuthority)) (ts : list GroupingTaskAuthority) :=
  foldl (fun d t => dset (task_id t) t d) d ts.
Lemma task_dict_lookup id t d ts :
  NoDup (map task_id ts) ->
  dget id (task_dict d ts) = Some t <-> (t ∈ ts /\ task_id t = id) \/ ((id ∉ map task_id ts) /\ dget id d = Some t).
Proof.
  revert d. induction ts as [|u ts IH]; intros d Hnd; simpl; [set_solver|].
  apply NoDup_cons in Hnd as [Hu Hnd]. rewrite IH by done. rewrite dget_dset.
  case_bool_decide as E; [subst id|].
  - split.
    + intros [[Ht E]|[_ [= ->]]]; [|left; set_solver]. left. set_solver.
    + intros [[[->|Ht]%elem_of_cons E]|[Hn _]]; [by right|by left|set_solver].
  - split.
    + intros [[Ht E']|[Hn Hd]]; [left; set_solver|right; set_solver].
    + intros [[[->|Ht]%elem_of_cons E']|[Hn Hd]]; [done|by left|right; set_solver].
Qed.
Lemma task_id_unique ts t t' :
  NoDup (map task_id ts) -> t ∈ ts -> t' ∈ ts -> task_id t = task_id t' -> t = t'.
Proof.
  intros Hnd Ht Ht' E. assert (dget (task_id t) (task_dict [] ts) = Some t) as H1
    by (apply task_dict_lookup; [done|by left]).
  assert (dget (task_id t) (task_dict [] ts) = Some t') as H2 by (apply task_dict_lookup; [done|by left]).
  congruence.
Qed.

(** With tasks of [ts], repeated or not, the dictionary has each one once. *)
Lemma task_dict_inv ts seen l d :
  NoDup (map task_id ts) -> (forall t, t ∈ seen ++ l -> t ∈ ts) -> NoDup d.*1 ->
  (forall i t, dget i d = Some t <-> t ∈ seen /\ task_id t = i) ->
  NoDup (task_dict d l).*1 /\ forall i t, dget i (task_dict d l) = Some t <-> t ∈ seen ++ l /\ task_id t = i.
Proof.
  intros Hts. revert seen d. induction l as [|u l IH]; intros seen d Hin Hd Hg; simpl; [by rewrite app_nil_r|].
  replace (seen ++ u :: l) with ((seen ++ [u]) ++ l) in * by (by rewrite <-app_assoc).
  apply IH; [done|by apply NoDup_dset|]. intros i t. rewrite dget_dset. case_bool_decide as E.
  - split; [intros [= <-]; set_solver|]. intros [Ht Ei]. f_equal. subst i.
    eapply task_id_unique; [exact Hts|apply Hin; set_solver|apply Hin; set_solver|done].
  - rewrite Hg. set_solver.
Qed.
Lemma task_dict_values ts l :
  NoDup (map task_id ts) -> (forall t, t ∈ l -> t ∈ ts) ->
  NoDup (map task_id (task_dict [] l).*2) /\ forall t, t ∈ (task_dict [] l).*2 <-> t ∈ l.
Proof.
  intros Hts Hin. destruct (task_dict_inv ts [] l [] Hts Hin) as [Hd Hg]; [constructor|set_solver|].
  assert (forall it, it ∈ task_dict [] l <-> it.2 ∈ l /\ task_id it.2 = it.1) as Hel.
  { intros [i t]. rewrite <-dget_elem_of by done. apply Hg. }
  split.
  - assert (map task_id (task_dict [] l).*2 = (task_dict [] l).*1) as ->; [|done]. clear Hd Hg.
    assert (forall it, it ∈ task_dict [] l -> task_id it.2 = it.1) as He by (intros it Hit; by apply Hel).
    clear Hel. induction (task_dict [] l) as [|it d IH]; [done|]. simpl. rewrite He by (by left). f_equal. apply IH.
    intros it' Hit'. apply He. by right.
  - intros t. rewrite list_elem_of_fmap. split.
    + by intros (it & -> & [Ht _]%Hel).
    + intros Ht. exists (task_id t, t). split; [done|]. by apply Hel.
Qed.

(** The changed tasks, in order of identity. *)
Definition changed_tasks (ts : list GroupingTaskAuthority) (changes : list GroupingTaskChange) :=
  py_sorted task_id (filter (fun t => task_id t ∈ map tc_task_id changes) ts).
Lemma string_leb_antisym (x y : string) : leb x y = true -> leb y x = true -> x = y.
Proof. apply leb_antisym. Qed.
Lemma sorted_by_id (l : list GroupingTaskAuthority) :
  StronglySorted (le_key (fun s : string => s)) (map task_id l) -> StronglySorted (le_key task_id) l.
Proof.
  induction l as [|t l IH]; intros Hs; [constructor|]. apply StronglySorted_inv in Hs as [Hs Hall].
  constructor; [by apply IH|exact (proj1 (Forall_fmap _ _ _) Hall)].
Qed.
Lemma material_of_ok ts changes :
  NoDup (map task_id ts) -> (forall c, c ∈ changes -> tc_task_id c ∈ map task_id ts) ->
  material_of (task_dict [] ts) changes = Ok (changed_tasks ts changes).
Proof.
  intros Hnd Hin. unfold material_of. set (ids := py_sorted id (elements _)).
  assert (forall i, i ∈ ids <-> i ∈ map tc_task_id changes) as Hids.
  { intros i. unfold ids. by rewrite elem_of_py_sorted, elem_of_elements, elem_of_list_to_set. }
  assert (exists m, traverse (fun i => match dget i (task_dict [] ts) with Some t => Ok t | None => Raise key_error end)
    ids = Ok m /\ map task_id m = ids /\ forall t, t ∈ m <-> t ∈ ts /\ task_id t ∈ ids) as (m & -> & Em & Hm).
  { assert (forall i, i ∈ ids -> i ∈ map task_id ts) as Hsub.
    { intros i (c & -> & Hc)%Hids%list_elem_of_fmap. by apply Hin. }
    clearbody ids. clear Hids. induction ids as [|i ids IH]; [exists []; set_solver|].
    destruct IH as (m & Hm & Em & Hel); [set_solver|].
    destruct (proj1 (list_elem_of_fmap _ _ _) (Hsub i ltac:(set_solver))) as (t & -> & Ht).
    assert (dget (task_id t) (task_dict [] ts) = Some t) as Hd by (apply task_dict_lookup; [done|by left]).
    exists (t :: m). simpl. rewrite Hd. simpl. rewrite Hm. simpl. split; [done|]. split; [by f_equal|].
    intros u. rewrite !elem_of_cons, Hel. split.
    - intros [->|[Hu Hi]]; [auto|auto].
    - intros [Hu [E|Hi]]; [left; by eapply task_id_unique|by right]. }
  f_equal. unfold changed_tasks. assert (NoDup m) as Hndm.
  { apply (NoDup_fmap_1 task_id). change (NoDup (map task_id m)). rewrite Em. unfold ids.
    apply py_sorted_NoDup, NoDup_elements. }
  rewrite <-(py_sorted_id task_id m).
  - apply py_sorted_canonical.
    + intros x y Hx Hy E. apply Hm in Hx as [Hx _], Hy as [Hy _]. by eapply task_id_unique.
    + apply NoDup_Permutation; [done|by apply NoDup_filter, (NoDup_fmap_1 task_id)|].
      intros t. rewrite Hm, Hids, list_elem_of_filter. tauto.
  - apply sorted_by_id. rewrite Em. apply (py_sorted_sorted (fun s : string => s)).
Qed.

(** * Plans *)
(** What a survivor means for a task, from its membership alone. *)
Definition expected_kind (survivor : option string) (t : GroupingTaskAuthority) : string :=
  match membership_objective_id t with
  | None => "add"
  | Some id =>
      if bool_decide (survivor = Some id) then
        if bool_decide (membership_plan_revision_id t = Some (plan_revision_id t)) then "unchanged_context"
        else "repin"
      else "move"
  end.
Definition expected_change (survivor : option string) (t : GroupingTaskAuthority) : GroupingTaskChange :=
  change_to (membership_objective_id t) survivor (membership_revision t) (expected_kind survivor t) t.

Definition limited (o : GroupingObjectiveAuthority) (high_risk : bool) (t : GroupingTaskAuthority) : bool :=
  match join_kind (o_objective_id o) t with
  | Some kind => high_risk && restructure_limit o kind t | None => false end.
Definition single_change (o : GroupingObjectiveAuthority) (t : GroupingTaskAuthority) : option GroupingTaskChange :=
  kind ← join_kind (o_objective_id o) t;
  Some (change_to (membership_objective_id t) (Some (o_objective_id o)) (membership_revision t) kind t).
Lemma single_changes_eq o high_risk acc ts :
  single_changes o high_risk acc ts
  = if existsb (limited o high_risk) ts then [] else acc ++ omap (single_change o) ts.
Proof.
  revert acc. induction ts as [|t ts IH]; intros acc; simpl; [by rewrite app_nil_r|].
  destruct (join_kind (o_objective_id o) t) as [kind|] eqn:Ek.
  - unfold limited at 1. replace (single_change o t) with (Some (change_to (membership_objective_id t)
      (Some (o_objective_id o)) (membership_revision t) kind t)) by (unfold single_change; by rewrite Ek).
    rewrite Ek. destruct (high_risk && restructure_limit o kind t); simpl; [done|]. rewrite IH.
    destruct (existsb _ ts); [done|]. by rewrite <-app_assoc.
  - rewrite IH. unfold limited at 2. replace (single_change o t) with (@None GroupingTaskChange)
      by (unfold single_change; by rewrite Ek). by rewrite Ek.
Qed.
Lemma join_kind_expected id t kind :
  join_kind id t = Some kind ->
  kind = expected_kind (Some id) t /\ kind <> "unchanged_context" /\
  (kind = "move" -> exists id', membership_objective_id t = Some id' /\ id' <> id).
Proof.
  unfold join_kind, expected_kind. destruct (membership_objective_id t) as [id'|]; [|by intros [= <-]].
  destruct (String.eqb_spec id' id) as [->|Hne].
  - rewrite (bool_decide_eq_true_2 (Some id = Some id)) by done. case_bool_decide; [done|]. by intros [= <-].
  - rewrite bool_decide_eq_false_2 by congruence. intros [= <-]. eauto.
Qed.
Lemma join_kind_None id t : join_kind id t = None -> expected_kind (Some id) t = "unchanged_context".
Proof.
  unfold join_kind, expected_kind. destruct (membership_objective_id t) as [id'|]; [|done].
  destruct (String.eqb_spec id' id) as [->|Hne]; [|done].
  rewrite (bool_decide_eq_true_2 (Some id = Some id)) by done. by case_bool_decide.
Qed.
Lemma consolidate_kind_expected id t : consolidate_kind id t = expected_kind (Some id) t.
Proof.
  unfold consolidate_kind, expected_kind. destruct (membership_objective_id t) as [id'|]; [|done].
  destruct (String.eqb_spec id' id) as [->|Hne]; simpl.
  - rewrite (bool_decide_eq_true_2 (Some id = Some id)) by done. by case_bool_decide.
  - by rewrite bool_decide_eq_false_2 by congruence.
Qed.

(** A change of planned work inside an Objective in progress. *)
Definition inside (o : GroupingObjectiveAuthority) (t : GroupingTaskAuthority) : Prop :=
  o_start_utc o <= start_utc t /\ end_utc t <= o_end_utc o.
Definition eligible_members (ts component : list GroupingTaskAuthority)
    (affected : list GroupingObjectiveAuthority) (t : GroupingTaskAuthority) : Prop :=
  t ∈ ts /\ (t ∈ component \/ exists o, o ∈ affected /\ membership_objective_id t = Some (o_objective_id o)).

Record plan_ok (ts component : list GroupingTaskAuthority) (affected : list GroupingObjectiveAuthority)
    (p : plan) : Prop := {
  po_changes : forall c, c ∈ plan_tasks p ->
    exists t, eligible_members ts component affected t /\ c = expected_change (plan_survivor p) t;
  po_ids : NoDup (map tc_task_id (plan_tasks p));
  po_nonempty : plan_tasks p <> [];
  po_covers : forall t, t ∈ component ->
    expected_change (plan_survivor p) t ∈ plan_tasks p \/
    expected_kind (plan_survivor p) t = "unchanged_context";
  po_survivor : match plan_survivor p with
    | None => plan_kind p = "create" /\ affected = []
    | Some id => plan_kind p <> "create" /\ exists o, o ∈ affected /\ o_objective_id o = id /\
        forall o', o' ∈ affected -> leb (objective_order o) (objective_order o') = true
    end;
  po_supersede : forall o, o ∈ affected -> plan_survivor p <> Some (o_objective_id o) ->
    o_execution_state o = "planned" /\
    retain_or_supersede (default EmptyString (plan_survivor p)) o ∈ plan_objectives p /\
    forall t, t ∈ ts -> membership_objective_id t = Some (o_objective_id o) ->
      expected_change (plan_survivor p) t ∈ plan_tasks p /\ expected_kind (plan_survivor p) t = "move";
  po_risk : plan_risk p = "normal" \/ plan_risk p = "high" /\ exists o, affected = [o] /\
    o_execution_state o = "in_progress" /\ forall c, c ∈ plan_tasks p -> tc_change_kind c ∈ ["add"; "repin"] /\
      exists t, t ∈ component /\ task_id t = tc_task_id c /\ inside o t;
  po_kind : plan_kind p ∈ ["create"; "join"; "repin"; "consolidate"];
  po_actions : forall c id, c ∈ plan_objectives p -> oc_objective_id c = Some id ->
    (oc_action c = "supersede" /\ plan_survivor p <> Some id /\ exists o, o ∈ affected /\ o_objective_id o = id) \/
    (oc_action c <> "supersede" /\ plan_survivor p = Some id)
}.

Section plans.
Context (ts component : list GroupingTaskAuthority) (affected : list GroupingObjectiveAuthority).
Context (Hsub : forall t, t ∈ component -> t ∈ ts) (Hnd : NoDup (map task_id ts)).
Context (Hndc : NoDup (map task_id component)) (Hne : component <> []).
Context (Hrev : forall t, t ∈ ts -> membership_objective_id t = None -> membership_revision t = None).
(** Every component task with a membership has its Objective affected. *)
Context (Hmem : forall t id, t ∈ component -> membership_objective_id t = Some id ->
  exists o, o ∈ affected /\ o_objective_id o = id).

Lemma changes_ids survivor l :
  map tc_task_id (map (expected_change survivor) l) = map task_id l.
Proof. induction l; simpl; [done|]. by f_equal. Qed.

Lemma create_plan_ok : affected = [] -> plan_ok ts component affected (create_plan component).
Proof.
  intros Ha. assert (forall t, t ∈ component -> membership_objective_id t = None) as Hnone.
  { intros t Ht. destruct (membership_objective_id t) as [id|] eqn:E; [|done].
    destruct (Hmem t id Ht E) as (o & Ho & _). subst affected. set_solver. }
  assert (forall t, t ∈ component -> change_to None None None "add" t = expected_change None t) as Heq.
  { intros t Ht. unfold expected_change, expected_kind. by rewrite Hnone, Hrev by auto. }
  assert (plan_tasks (create_plan component) = map (expected_change None) (py_sorted task_id component)) as Et.
  { simpl. apply map_ext_in. intros t Ht%list_elem_of_In. apply Heq. by rewrite elem_of_py_sorted in Ht. }
  split; rewrite ?Et; simpl.
  - intros c (t & -> & Ht)%list_elem_of_fmap. rewrite elem_of_py_sorted in Ht. exists t.
    split; [|done]. split; [by apply Hsub|by left].
  - rewrite changes_ids. change (NoDup (task_id <$> py_sorted task_id component)). by rewrite py_sorted_perm.
  - intros E%map_eq_nil. apply Hne. apply Permutation_nil. by rewrite <-E, py_sorted_perm.
  - intros t Ht. left. apply list_elem_of_fmap. exists t. by rewrite elem_of_py_sorted.
  - done.
  - intros o Ho. subst affected. set_solver.
  - by left.
  - set_solver.
  - intros c id ->%list_elem_of_singleton. done.
Qed.

Lemma single_plan_ok o p : affected = [o] -> single_plan o component = Some p -> plan_ok ts component affected p.
Proof.
  intros Ha. unfold single_plan. set (hr := String.eqb (o_execution_state o) "in_progress").
  rewrite single_changes_eq. destruct (existsb _ _) eqn:Ex; [done|]. simpl.
  set (changes := omap (single_change o) (py_sorted task_id component)).
  assert (forall c, c ∈ changes <-> exists t, t ∈ component /\ expected_kind (Some (o_objective_id o)) t <> "unchanged_context"
    /\ c = expected_change (Some (o_objective_id o)) t) as Hel.
  { intros c. unfold changes. rewrite list_elem_of_omap. split.
    - intros (t & Ht & (kind & Hk & [= <-])%bind_Some). rewrite elem_of_py_sorted in Ht.
      apply join_kind_expected in Hk as (-> & Hu & _). by exists t.
    - intros (t & Ht & Hu & ->). exists t. rewrite elem_of_py_sorted. split; [done|]. unfold single_change.
      destruct (join_kind _ t) as [kind|] eqn:Hk; [|by apply join_kind_None in Hk].
      by apply join_kind_expected in Hk as (-> & _ & _). }
  assert (forall t, t ∈ component -> expected_kind (Some (o_objective_id o)) t <> "move") as Hmove.
  { intros t Ht. unfold expected_kind. destruct (membership_objective_id t) as [id|] eqn:E; [|done].
    destruct (Hmem t id Ht E) as (o' & Ho' & <-). subst affected. apply list_elem_of_singleton in Ho' as ->.
    rewrite bool_decide_eq_true_2 by done. by case_bool_decide. }
  assert (sublist (map tc_task_id changes) (map task_id (py_sorted task_id component))) as Hids.
  { unfold changes. clear. induction (py_sorted task_id component) as [|t l IH]; simpl; [constructor|].
    unfold single_change at 1. destruct (join_kind _ t); simpl; by constructor. }
  assert ((if existsb (fun c => String.eqb (tc_change_kind c) "add") changes then "join"
    else if forallb (fun c => String.eqb (tc_change_kind c) "repin") changes then "repin" else "move")
    ∈ ["create"; "join"; "repin"; "consolidate"]) as Hkinds.
  { assert (existsb (fun c => String.eqb (tc_change_kind c) "add") changes = false ->
      forallb (fun c => String.eqb (tc_change_kind c) "repin") changes = true) as Hrep.
    { intros Hadd. apply forallb_forall. intros c Hc%list_elem_of_In. apply not_true_iff_false in Hadd.
      pose proof Hc as Hin. apply Hel in Hc as (t & Ht & Hu & ->). simpl. specialize (Hmove t Ht).
      unfold expected_kind in *. destruct (membership_objective_id t) as [id|] eqn:E.
      - case_bool_decide; [|done]. by case_bool_decide.
      - exfalso. apply Hadd, existsb_exists. eexists. split; [by apply list_elem_of_In|]. simpl.
        unfold expected_kind. by rewrite E. }
    apply list_elem_of_In. destruct (existsb _ changes); [simpl; auto|]. rewrite Hrep by done. simpl. auto. }
  destruct changes as [|c0 cs] eqn:Ec; [done|]. rewrite <-Ec in *. intros [= <-]. split; simpl.
  - intros c Hc. apply Hel in Hc as (t & Ht & _ & ->). exists t. split; [|done]. split; [by apply Hsub|by left].
  - eapply sublist_NoDup; [|exact Hids]. change (NoDup (task_id <$> py_sorted task_id component)).
    by rewrite py_sorted_perm.
  - congruence.
  - intros t Ht. destruct (decide (expected_kind (Some (o_objective_id o)) t = "unchanged_context")) as [->|Hu];
      [by right|]. left. apply Hel. by exists t.
  - split.
    + repeat case_match; done.
    + exists o. subst affected. split; [set_solver|]. split; [done|].
      intros o' ->%list_elem_of_singleton. apply leb_refl.
  - intros o' Ho' Hn. subst affected. apply list_elem_of_singleton in Ho' as ->. done.
  - destruct hr eqn:Ehr; [right|by left]. split; [done|]. exists o. split; [done|].
    split; [by apply String.eqb_eq|]. intros c Hc. apply Hel in Hc as (t & Ht & Hu & ->).
    assert (limited o hr t = false) as Hl.
    { apply not_true_iff_false. intros Hl. apply not_true_iff_false in Ex. apply Ex, existsb_exists. exists t.
      split; [apply list_elem_of_In; rewrite elem_of_py_sorted; done|rewrite Ehr in Hl; exact Hl]. }
    unfold limited in Hl. destruct (join_kind _ t) as [kind|] eqn:Hk; [|by apply join_kind_None in Hk].
    rewrite Ehr in Hl. unfold restructure_limit in Hl. simpl in Hl. bool_hyps. split.
    + simpl. unfold expected_kind in *. specialize (Hmove t Ht). unfold expected_kind in Hmove.
      apply list_elem_of_In. simpl. destruct (membership_objective_id t); [|by left].
      case_bool_decide; [|done]. case_bool_decide; [done|]. auto.
    + exists t. split; [done|]. split; [done|]. unfold inside. lia.
  - rewrite Ec in Hkinds. exact Hkinds.
  - intros c id ->%list_elem_of_singleton [= <-]. by right.
Qed.

Lemma consolidate_plan_ok o1 o2 rest p :
  affected = o1 :: o2 :: rest ->
  (forall o o', o ∈ affected -> o' ∈ affected -> o_objective_id o = o_objective_id o' -> o = o') ->
  consolidate_plan ts o1 affected component = Some p -> plan_ok ts component affected p.
Proof.
  intros Ha Hinj. unfold consolidate_plan. destruct (existsb _ affected) eqn:Ex; [done|].
  set (first := py_min objective_order o1 (tail affected)). set (sid := o_objective_id first).
  set (all_members := mjoin _). destruct (negb _); [done|]. intros [= <-].
  assert (forall o, o ∈ affected -> o_execution_state o = "planned") as Hplanned.
  { intros o Ho. apply not_true_iff_false in Ex.
    destruct (String.eqb_spec (o_execution_state o) "planned") as [|Hno]; [done|]. exfalso. apply Ex, existsb_exists.
    exists o. split; [by apply list_elem_of_In|]. by rewrite (proj2 (String.eqb_neq _ _) Hno). }
  assert (forall t, t ∈ all_members <-> t ∈ ts /\ exists o, o ∈ affected /\ membership_objective_id t = Some (o_objective_id o)) as Hall.
  { intros t. unfold all_members. rewrite list_elem_of_join. split.
    - intros (l & Hl & (id & -> & Hid)%list_elem_of_fmap). apply list_elem_of_filter in Hl as [Hm Ht]. split; [done|].
      apply elem_of_elements, elem_of_list_to_set, list_elem_of_fmap in Hid as (o & -> & Ho). by exists o.
    - intros (Ht & o & Ho & Hm). exists (filter (fun t => membership_objective_id t = Some (o_objective_id o)) ts).
      split; [by apply list_elem_of_filter|]. apply list_elem_of_fmap. exists (o_objective_id o). split; [done|].
      apply elem_of_elements, elem_of_list_to_set, list_elem_of_fmap. by exists o. }
  destruct (task_dict_values ts (component ++ all_members) Hnd) as [Hids Hval].
  { intros t [Ht|Ht]%elem_of_app; [by apply Hsub|by apply Hall]. }
  change (foldl (fun d t => dset (task_id t) t d) [] (component ++ all_members))
    with (task_dict [] (component ++ all_members)) in *.
  set (desired := py_sorted task_id (task_dict [] (component ++ all_members)).*2) in *.
  assert (forall t, t ∈ desired <-> t ∈ component \/ t ∈ all_members) as Hdes.
  { intros t. unfold desired. by rewrite elem_of_py_sorted, Hval, elem_of_app. }
  assert (map (fun t => change_to (membership_objective_id t) (Some sid) (membership_revision t)
    (consolidate_kind sid t) t) desired = map (expected_change (Some sid)) desired) as ->.
  { apply map_ext. intros t. unfold expected_change. by rewrite consolidate_kind_expected. }
  destruct (py_min_spec objective_order o1 (tail affected)) as [Hmin Hle]. fold first in Hmin, Hle.
  assert (o1 :: tail affected = affected) as Ecs by (by rewrite Ha). rewrite Ecs in Hmin, Hle.
  split; simpl.
  - intros c (t & -> & Ht)%list_elem_of_fmap. exists t. split; [|done]. apply Hdes in Ht as [Ht|Ht].
    + split; [by apply Hsub|by left].
    + apply Hall in Ht as [Ht He]. split; [done|by right].
  - rewrite changes_ids. unfold desired. change (NoDup (task_id <$> py_sorted task_id (task_dict [] (component ++ all_members)).*2)).
    by rewrite py_sorted_perm.
  - intros E%map_eq_nil. destruct component as [|t c]; [done|].
    assert (t ∈ desired) as Ht by (apply Hdes; left; left). rewrite E in Ht. by apply not_elem_of_nil in Ht.
  - intros t Ht. left. apply list_elem_of_fmap. exists t. split; [done|]. apply Hdes. by left.
  - split; [done|]. exists first. done.
  - intros o Ho Hn. split; [by apply Hplanned|]. split; [apply list_elem_of_fmap; by exists o|].
    intros t Ht Hm. split.
    + apply list_elem_of_fmap. exists t. split; [done|]. apply Hdes. right. apply Hall. split; [done|]. by exists o.
    + unfold expected_kind. rewrite Hm. rewrite bool_decide_eq_false_2; [done|]. congruence.
  - by left.
  - apply list_elem_of_In. simpl. auto.
  - intros c id (o & -> & Ho)%list_elem_of_fmap [= <-]. unfold retain_or_supersede. simpl.
    destruct (String.eqb_spec (o_objective_id o) sid) as [->|Hns]; [by right|left].
    split; [done|]. split; [congruence|by exists o].
Qed.

Lemma component_plan_ok split p :
  (forall o o', o ∈ affected -> o' ∈ affected -> o_objective_id o = o_objective_id o' -> o = o') ->
  component_plan ts split affected component = Some p -> plan_ok ts component affected p.
Proof.
  intros Hinj. unfold component_plan. destruct (existsb _ affected); [done|].
  destruct (existsb closed_objective affected); [done|].
  assert (affected = [] \/ (exists o, affected = [o]) \/ exists o1 o2 rest, affected = o1 :: o2 :: rest) as Hcases.
  { clear. destruct affected as [|o1 [|o2 rest]]; [by left|right; left; by exists o1|right; right; by exists o1, o2, rest]. }
  destruct Hcases as [Ea|[(o & Ea)|(o1 & o2 & rest & Ea)]]; intros Hp.
  - apply create_plan_ok in Ea as Hok. rewrite Ea in Hp. by injection Hp as <-.
  - apply (single_plan_ok o); [done|]. by rewrite Ea in Hp.
  - apply (consolidate_plan_ok o1 o2 rest); [done..|]. rewrite Ea in Hp at 1. done.
Qed.
End plans.
