(* ===== verification/RegroupProps.v ===== *)
(** The regroup candidates against their reference: one plan per component,
    computed from the Objectives that concern it.

    The properties of the regroup candidates, and a sample database. *)
From S2P Require Import Prelude StrictJson Identifiers Grouping Jobs JobsExample Tables ObjectiveTables Regroup.
From S2P Require Import RegroupSweep RegroupSound.

(** * Component bounds *)
Lemma foldl_min l x : (forall y, y ∈ x :: l -> foldl Z.min x l <= y) /\ foldl Z.min x l ∈ x :: l.
Proof.
  revert x. induction l as [|z l IH]; intros x; simpl.
  { split; [|left]. intros y ->%list_elem_of_singleton. lia. }
  destruct (IH (Z.min x z)) as [Hle Hin]. split.
  - specialize (Hle (Z.min x z) ltac:(left)) as Hm.
    intros y [->|[->|Hy]%elem_of_cons]%elem_of_cons; [lia|lia|]. apply Hle. by right.
  - apply elem_of_cons in Hin as [->|Hin]; [|by right; right].
    destruct (Z.min_spec x z) as [[_ ->]|[_ ->]]; [left|right; left].
Qed.
Lemma foldl_max l x : (forall y, y ∈ x :: l -> y <= foldl Z.max x l) /\ foldl Z.max x l ∈ x :: l.
Proof.
  revert x. induction l as [|z l IH]; intros x; simpl.
  { split; [|left]. intros y ->%list_elem_of_singleton. lia. }
  destruct (IH (Z.max x z)) as [Hle Hin]. split.
  - specialize (Hle (Z.max x z) ltac:(left)) as Hm.
    intros y [->|[->|Hy]%elem_of_cons]%elem_of_cons; [lia|lia|]. apply Hle. by right.
  - apply elem_of_cons in Hin as [->|Hin]; [|by right; right].
    destruct (Z.max_spec x z) as [[_ ->]|[_ ->]]; [right; left|left].
Qed.
Lemma component_start_spec c :
  c <> [] -> (forall t, t ∈ c -> component_start c <= start_utc t) /\ exists t, t ∈ c /\ component_start c = start_utc t.
Proof.
  unfold component_start. destruct c as [|t c]; [done|]. intros _. simpl.
  destruct (foldl_min (map start_utc c) (start_utc t)) as [Hle Hin].
  change (start_utc t :: map start_utc c) with (map start_utc (t :: c)) in *. split.
  - intros u Hu. apply Hle, list_elem_of_fmap. by exists u.
  - apply list_elem_of_fmap in Hin as (u & E & Hu). by exists u.
Qed.
Lemma component_end_spec c :
  c <> [] -> (forall t, t ∈ c -> end_utc t <= component_end c) /\ exists t, t ∈ c /\ component_end c = end_utc t.
Proof.
  unfold component_end. destruct c as [|t c]; [done|]. intros _. simpl.
  destruct (foldl_max (map end_utc c) (end_utc t)) as [Hle Hin].
  change (end_utc t :: map end_utc c) with (map end_utc (t :: c)) in *. split.
  - intros u Hu. apply Hle, list_elem_of_fmap. by exists u.
  - apply list_elem_of_fmap in Hin as (u & E & Hu). by exists u.
Qed.

(** * The reference *)
Definition reference_candidate (s : _GroupingSnapshot) (split : gset string) (origin_ : string)
    (component : list GroupingTaskAuthority) : option RegroupCandidate :=
  let affected := concerned (s_objectives s) component in
  p ← component_plan (s_tasks s) split affected component;
  Some (MkCandidate (plan_kind p) origin_ (plan_risk p) (plan_survivor p) (plan_tasks p) (plan_objectives p)
    (changed_tasks (s_tasks s) (plan_tasks p)) affected (component_start component) (component_end component) None).

Section exact.
Context (db : ObjDb) (s : _GroupingSnapshot) (Hs : snapshot_ok db s) (Hplans : plans_ok db).

Lemma snapshot_objectives_id id o : s_objectives s !! id = Some o -> o_objective_id o = id.
Proof. rewrite (sn_objectives _ _ Hs). apply current_objectives_id. Qed.
Lemma concerned_elem component o :
  o ∈ concerned (s_objectives s) component <->
  s_objectives s !! o_objective_id o = Some o /\ concerns o component = true.
Proof.
  unfold concerned. rewrite elem_of_py_sorted, list_elem_of_filter, objectives_elem by apply snapshot_objectives_id.
  tauto.
Qed.

(** A component of the snapshot. *)
Record component_of (c : list GroupingTaskAuthority) : Prop := {
  cp_sub : forall t, t ∈ c -> t ∈ s_tasks s;
  cp_ids : NoDup (map task_id c);
  cp_nonempty : c <> []
}.
Lemma component_concerned c t id :
  component_of c -> t ∈ c -> membership_objective_id t = Some id ->
  exists o, o ∈ concerned (s_objectives s) c /\ o_objective_id o = id.
Proof.
  intros Hc Ht Hm. destruct (so_objective _ _ (sn_tasks _ _ Hs t (cp_sub _ Hc t Ht)) id Hm) as (o & Ho & _).
  pose proof (current_objectives_id _ _ _ Ho) as Hid. exists o. split; [|done]. apply concerned_elem.
  rewrite (sn_objectives _ _ Hs), Hid. split; [done|]. unfold concerns. apply orb_true_iff. right.
  apply bool_decide_eq_true. unfold component_members. rewrite elem_of_list_to_set, list_elem_of_omap.
  exists t. split; [done|congruence].
Qed.
Lemma concerned_inj c o o' :
  o ∈ concerned (s_objectives s) c -> o' ∈ concerned (s_objectives s) c ->
  o_objective_id o = o_objective_id o' -> o = o'.
Proof. intros [H1 _]%concerned_elem [H2 _]%concerned_elem E. rewrite E in H1. congruence. Qed.
Lemma member_revision t :
  t ∈ s_tasks s -> membership_objective_id t = None -> membership_revision t = None.
Proof.
  intros Ht. destruct (so_membership _ _ (sn_tasks _ _ Hs t Ht)) as (-> & _ & ->).
  by destruct (objective_task_membership_current db !! task_id t).
Qed.
Lemma component_plan_sound c split p :
  component_of c -> component_plan (s_tasks s) split (concerned (s_objectives s) c) c = Some p ->
  plan_ok (s_tasks s) c (concerned (s_objectives s) c) p.
Proof.
  intros Hc. apply component_plan_ok.
  - apply Hc.
  - apply (sn_ids _ _ Hs).
  - apply Hc.
  - apply Hc.
  - apply member_revision.
  - intros t id. by apply component_concerned.
  - apply concerned_inj.
Qed.
Lemma plan_material c split p :
  component_of c -> component_plan (s_tasks s) split (concerned (s_objectives s) c) c = Some p ->
  material_of (task_dict [] (s_tasks s)) (plan_tasks p) = Ok (changed_tasks (s_tasks s) (plan_tasks p)).
Proof.
  intros Hc Hp. apply material_of_ok; [apply (sn_ids _ _ Hs)|]. intros ch Hch.
  apply (component_plan_sound _ _ _ Hc Hp) in Hch as (t & [Ht _] & ->). simpl.
  apply list_elem_of_fmap. by exists t.
Qed.

Lemma sweep_exact split origin_ comps passed cursor acc r :
  Forall component_of comps -> StronglySorted before comps -> Forall (Forall positive) comps ->
  py_sorted sweep_order (map_to_list (s_objectives s)).*2 = passed ++ cursor ->
  (forall c, c ∈ comps -> Forall (fun o => o_end_utc o <= component_start c) passed) ->
  foldM (candidate_step s split origin_) (cursor, acc) comps = Ok r ->
  r.2 = acc ++ omap (reference_candidate s split origin_) comps.
Proof.
  intros Hcomps. revert passed cursor acc. induction Hcomps as [|c comps Hc Hcomps IH];
    intros passed cursor acc Hbefore Hpos E Hpassed; simpl.
  { intros [= <-]. by rewrite app_nil_r. }
  apply StronglySorted_inv in Hbefore as [Hsorted Hbefore]. apply Forall_cons in Hpos as [Hposc Hpos].
  destruct (advance_cursor_spec (component_start c) cursor) as (dropped & Ed & Hdropped).
  assert (py_sorted sweep_order (map_to_list (s_objectives s)).*2
    = (passed ++ dropped) ++ advance_cursor (component_start c) cursor) as E'.
  { by rewrite <-app_assoc, <-Ed. }
  assert (Forall (fun o => o_end_utc o <= component_start c) (passed ++ dropped)) as Hnow.
  { apply Forall_app. split; [apply Hpassed; by left|done]. }
  assert (forall c', c' ∈ comps -> Forall (fun o => o_end_utc o <= component_start c') (passed ++ dropped)) as Hlater.
  { intros c' Hc'. eapply Forall_impl; [exact Hnow|]. intros o Ho. simpl in *.
    rewrite Forall_forall in Hcomps, Hbefore. specialize (Hbefore c' Hc').
    destruct (component_start_spec c (cp_nonempty _ Hc)) as [_ (a & Ha & Ea)].
    destruct (component_start_spec c' (cp_nonempty _ (Hcomps c' Hc'))) as [_ (b & Hb & Eb)].
    specialize (Hbefore a b Ha Hb). rewrite Forall_forall in Hposc. specialize (Hposc a Ha).
    unfold positive in Hposc. lia. }
  intros (st & Hstep & Hfold)%bind_ok. unfold candidate_step in Hstep. simpl in Hstep.
  rewrite (affected_concerned _ snapshot_objectives_id c _ _ E' Hnow) in Hstep. unfold reference_candidate at 1.
  change (foldl (fun d t => dset (task_id t) t d) [] (s_tasks s)) with (task_dict [] (s_tasks s)) in Hstep.
  destruct (component_plan _ _ _ c) as [p|] eqn:Hp; simpl.
  - rewrite (plan_material c split p Hc Hp) in Hstep. simpl in Hstep. injection Hstep as <-.
    rewrite (IH _ _ _ Hsorted Hpos E' Hlater Hfold). simpl. by rewrite <-app_assoc.
  - injection Hstep as <-. by rewrite (IH _ _ _ Hsorted Hpos E' Hlater Hfold).
Qed.

Lemma components_of_snapshot : Forall component_of (strict_overlap_components (s_tasks s)).
Proof.
  pose proof (strict_overlap_components_ok _ (snapshot_positive _ _ Hplans Hs)) as [Hj Hne _ _].
  apply Forall_forall. intros c Hc. split.
  - intros t Ht. rewrite <-(elem_of_py_sorted task_key), <-Hj, list_elem_of_join. by exists c.
  - assert (NoDup (task_id <$> mjoin (strict_overlap_components (s_tasks s)))) as Hnd.
    { rewrite Hj, py_sorted_perm. apply (sn_ids _ _ Hs). }
    apply list_elem_of_split in Hc as (l1 & l2 & E). rewrite E, join_app in Hnd. simpl in Hnd.
    rewrite !fmap_app in Hnd. apply NoDup_app in Hnd as (_ & _ & Hnd). by apply NoDup_app in Hnd as (Hnd & _).
  - rewrite Forall_forall in Hne. by apply Hne.
Qed.
Lemma unsorted_candidates_exact origin_ cs :
  unsorted_candidates s origin_ = Ok cs ->
  cs = omap (reference_candidate s (_split_objectives (strict_overlap_components (s_tasks s))) origin_)
    (strict_overlap_components (s_tasks s)).
Proof.
  unfold unsorted_candidates. intros (r & Hr & [= <-])%bind_ok.
  pose proof (snapshot_positive _ _ Hplans Hs) as Hpos.
  pose proof (strict_overlap_components_ok _ Hpos) as [_ _ _ Hb].
  apply (sweep_exact _ _ _ [] _ []) in Hr; [done|apply components_of_snapshot|done| |done|].
  - apply Forall_forall. intros c Hc. apply Forall_forall. intros t Ht. rewrite Forall_forall in Hpos. apply Hpos.
    pose proof components_of_snapshot as Hall. rewrite Forall_forall in Hall. by apply (Hall c Hc).
  - intros c _. constructor.
Qed.
End exact.

Section properties.
Context `{Sha256, FloatText}.

Lemma sort_candidates_perm l l' : sort_candidates l = Ok l' -> l' ≡ₚ l.
Proof.
  unfold sort_candidates. intros (keyed & Hk & [= <-])%bind_ok. rewrite (py_sorted_perm candidate_key).
  apply traverse_ok in Hk. induction Hk as [|c cf l keyed Hc _ IH]; [done|]. simpl.
  apply bind_ok in Hc as (f & _ & [= <-]). simpl. by constructor.
Qed.

(** The candidates of the components of a snapshot, each computed on its own. *)
Definition reference_candidates (s : _GroupingSnapshot) (origin_ : string) : list RegroupCandidate :=
  let components := strict_overlap_components (s_tasks s) in
  omap (reference_candidate s (_split_objectives components) origin_) components.

(** C35.  The regroup candidates are exact: the single sweep over the
    Objectives, with its cursor and early exits, gives up to order exactly one
    candidate for each connected component of the eligible tasks that has a
    plan, where the plan is computed from all the current Objectives that
    overlap the component strictly or hold one of its tasks. *)
Theorem candidates_exact (db : ObjDb) (origin_ : string) (cs : list RegroupCandidate) (Hplans : plans_ok db)
    (Hcs : _candidates db origin_ = Ok cs) :
  exists s, _load_snapshot db = Ok s /\ cs ≡ₚ reference_candidates s origin_.
Proof.
  unfold _candidates in Hcs. apply bind_ok in Hcs as (s & Hs & (l & Hl & Hcs)%bind_ok).
  exists s. split; [done|]. simpl. etrans; [by apply (sort_candidates_perm l cs)|].
  by rewrite (unsorted_candidates_exact db s (load_snapshot_ok _ _ Hs) Hplans _ _ Hl).
Qed.

(** The tasks a candidate may touch: those of a snapshot of the database. *)
Definition eligible (db : ObjDb) (t : GroupingTaskAuthority) : Prop :=
  exists s, _load_snapshot db = Ok s /\ t ∈ s_tasks s.

Lemma candidate_plan db origin_ cs c :
  plans_ok db -> _candidates db origin_ = Ok cs -> c ∈ cs ->
  exists s component p, _load_snapshot db = Ok s /\ component_of s component /\
    component_plan (s_tasks s) (_split_objectives (strict_overlap_components (s_tasks s)))
      (concerned (s_objectives s) component) component = Some p /\
    plan_ok (s_tasks s) component (concerned (s_objectives s) component) p /\
    c = MkCandidate (plan_kind p) origin_ (plan_risk p) (plan_survivor p) (plan_tasks p) (plan_objectives p)
      (changed_tasks (s_tasks s) (plan_tasks p)) (concerned (s_objectives s) component)
      (component_start component) (component_end component) None.
Proof.
  intros Hplans Hcs Hin. unfold _candidates in Hcs. apply bind_ok in Hcs as (s & Hs & (l & Hl & Hcs)%bind_ok).
  rewrite (sort_candidates_perm _ _ Hcs) in Hin. pose proof (load_snapshot_ok _ _ Hs) as Hok.
  rewrite (unsorted_candidates_exact db s Hok Hplans _ _ Hl) in Hin.
  apply list_elem_of_omap in Hin as (component & Hc & (p & Hp & [= <-])%bind_Some).
  pose proof (components_of_snapshot db s Hok Hplans) as Hall. rewrite Forall_forall in Hall.
  exists s, component, p. split_and!; try done; [by apply Hall|]. eapply component_plan_sound; [done|by apply Hall|done].
Qed.
Lemma component_plan_open ts split affected component p o :
  component_plan ts split affected component = Some p -> o ∈ affected -> closed_objective o = false.
Proof.
  unfold component_plan. destruct (existsb _ affected); [done|]. destruct (existsb closed_objective affected) eqn:E; [done|].
  intros _ Ho. apply not_true_iff_false. intros Hc. apply not_true_iff_false in E. apply E, existsb_exists.
  exists o. split; [by apply list_elem_of_In|done].
Qed.

(** A regroup candidate is sound.  It changes only eligible tasks
    (planned, not started, not locked, not competing), each at most once, from
    exactly its current membership to the one survivor; a survivor is the
    affected Objective with the lowest tracking sequence, and there is none
    only for a new Objective.  No affected Objective is closed.  An Objective
    other than the survivor is affected only when all are planned, and then all
    its eligible members move.  A high-risk candidate adds or re-pins work
    inside the envelope of the one Objective in progress. *)
Theorem candidates_sound (db : ObjDb) (origin_ : string) (cs : list RegroupCandidate) (c : RegroupCandidate)
    (Hplans : plans_ok db) (Hcs : _candidates db origin_ = Ok cs) (Hin : c ∈ cs) :
  (forall ch, ch ∈ task_changes c -> exists t, eligible db t /\ snapshot_of db t /\
     ch = expected_change (survivor_objective_id c) t) /\
  NoDup (map tc_task_id (task_changes c)) /\ task_changes c <> [] /\
  (forall o, o ∈ material_objectives c ->
     current_objectives db !! o_objective_id o = Some o /\ closed_objective o = false) /\
  match survivor_objective_id c with
  | None => proposal_kind c = "create" /\ material_objectives c = []
  | Some id => exists o, o ∈ material_objectives c /\ o_objective_id o = id /\
      forall o', o' ∈ material_objectives c -> leb (objective_order o) (objective_order o') = true
  end /\
  (forall o, o ∈ material_objectives c -> survivor_objective_id c <> Some (o_objective_id o) ->
     o_execution_state o = "planned" /\
     forall t, eligible db t -> membership_objective_id t = Some (o_objective_id o) ->
       expected_change (survivor_objective_id c) t ∈ task_changes c /\
       expected_kind (survivor_objective_id c) t = "move") /\
  (risk_tier c <> "normal" -> risk_tier c = "high" /\ exists o, material_objectives c = [o] /\
     o_execution_state o = "in_progress" /\
     forall ch, ch ∈ task_changes c -> tc_change_kind ch ∈ ["add"; "repin"] /\
       exists t, eligible db t /\ task_id t = tc_task_id ch /\ inside o t).
Proof.
  destruct (candidate_plan _ _ _ _ Hplans Hcs Hin) as (s & comp & p & Hs & Hc & Hp & Hok & ->).
  pose proof (load_snapshot_ok _ _ Hs) as Hsn. simpl.
  assert (forall t, eligible db t -> t ∈ s_tasks s) as Helig.
  { intros t (s' & Hs' & Ht). congruence. }
  destruct Hok as [Hch Hids Hne Hcov Hsurv Hsup Hrisk _ _]. split_and!.
  - intros ch (t & [Ht _] & ->)%Hch. exists t. split; [by exists s|]. split; [by apply (sn_tasks _ _ Hsn)|done].
  - done.
  - done.
  - intros o Ho. split; [|by eapply component_plan_open]. rewrite <-(sn_objectives _ _ Hsn).
    by apply (concerned_elem db s Hsn) in Ho as [Ho _].
  - destruct (plan_survivor p); [|done]. by destruct Hsurv as [_ Hsurv].
  - intros o Ho Hno. destruct (Hsup o Ho Hno) as (Hpl & _ & Hall). split; [done|]. auto.
  - intros Hnormal. destruct Hrisk as [|(Hhigh & o & Ho & Hst & Hall)]; [done|]. split; [done|].
    exists o. split; [done|]. split; [done|]. intros ch Hchin. destruct (Hall ch Hchin) as (Hk & t & Ht & Hid & Hin').
    split; [done|]. exists t. split; [exists s; split; [done|by apply (cp_sub _ _ Hc)]|done].
Qed.
End properties.

(** * A sample: new work, two planned Objectives that a longer plan joins, and
      an Objective in progress that a task moves into *)
Module RegroupSample.
Import Sample.
Definition plan_of (t : string) : string := (t ++ "-plan")%string.
Definition member (t o : string) (revision : Z) : string * MembershipRow :=
  (t, MkMembershipRow o (plan_of t) revision (t ++ "-event")%string "command").
Definition objective (id : string) (n s e : Z) (state_ : string) :=
  (id, MkObjectiveRow n ("OBJ-" ++ id)%string "automatic_grouping" None 1 0 "command", MkEnvelopeRow s e 1 "" 1 "command",
    MkAggregateRow state_ None None None None 1 0 "" 1 "command").
Definition intervals : list (string * Z * Z) :=
  [("t1", 0, 10); ("t2", 5, 20); ("t3", 30, 50); ("t4", 40, 60); ("t5", 100, 110)].
Definition objective_rows := [objective "o1" 2 30 35 "planned"; objective "o2" 1 40 60 "planned";
  objective "o3" 3 90 120 "in_progress"].
Definition sample : ObjDb := MkObjDb
  (list_to_map (map (fun i : string * Z * Z => (i.1.1, 1)) intervals))
  (list_to_map (map (fun i : string * Z * Z => (plan_of i.1.1, MkPlanRow i.1.1 i.1.2 i.2)) intervals))
  (list_to_map (map (fun i : string * Z * Z => (i.1.1, MkPlanCurrentRow (plan_of i.1.1) 1)) intervals))
  ∅ ∅ ∅ ∅ ∅ ∅ ∅ ∅ ∅ (Some (4, 1))
  (list_to_map (map (fun r => (r.1.1.1, r.1.1.2)) objective_rows)) ∅
  (list_to_map [member "t3" "o1" 1; member "t4" "o2" 1])
  (list_to_map (map (fun r => (r.1.1.1, r.1.2)) objective_rows))
  (list_to_map (map (fun r => (r.1.1.1, r.2)) objective_rows))
  ∅ ∅ ∅ [] [] ∅ Sample.empty.
Definition sample_candidates : list RegroupCandidate :=
  match _candidates sample "automatic" with Ok cs => cs | Raise _ => [] end.

Example sample_kinds : map (fun c => (proposal_kind c, survivor_objective_id c, risk_tier c,
    map (fun ch => (tc_task_id ch, tc_change_kind ch)) (task_changes c))) sample_candidates =
  [("create", None, "normal", [("t1", "add"); ("t2", "add")]);
   ("consolidate", Some "o2", "normal", [("t3", "move"); ("t4", "unchanged_context")]);
   ("join", Some "o3", "high", [("t5", "add")])].
Proof. vm_compute. reflexivity. Qed.
Lemma sample_candidates_ok : _candidates sample "automatic" = Ok sample_candidates.
Proof. vm_compute. reflexivity. Qed.
Lemma sample_plans : plans_ok sample.
Proof. apply (bool_decide_eq_true_1 (plans_ok sample)). vm_compute. reflexivity. Qed.

Lemma candidates_exact_witness :
  length sample_candidates = 3%nat /\ exists s, _load_snapshot sample = Ok s /\
    sample_candidates ≡ₚ reference_candidates s "automatic".
Proof. split; [by vm_compute|]. exact (candidates_exact sample "automatic" _ sample_plans sample_candidates_ok). Defined.

(** The candidate that moves work into the Objective in progress. *)
Definition high_risk : RegroupCandidate := List.nth 2 sample_candidates
  (MkCandidate "" "" "" None [] [] [] [] 0 0 None).
Lemma candidates_sound_witness :
  risk_tier high_risk <> "normal" /\ exists o, material_objectives high_risk = [o] /\
    o_execution_state o = "in_progress" /\ forall ch, ch ∈ task_changes high_risk -> tc_change_kind ch ∈ ["add"; "repin"].
Proof.
  assert (high_risk ∈ sample_candidates) as Hin by (apply list_elem_of_In; vm_compute; auto).
  assert (risk_tier high_risk <> "normal") as Hr by (vm_compute; done). split; [done|].
  destruct (candidates_sound sample "automatic" _ high_risk sample_plans sample_candidates_ok Hin)
    as (_ & _ & _ & _ & _ & _ & H). destruct (H Hr) as (_ & o & Ho & Hs & Hch).
  exists o. split; [done|]. split; [done|]. intros ch Hc. by apply Hch.
Defined.
End RegroupSample.
