(* ===== verification/ObjectiveStore.v ===== *)
(** The statements of the objectives packet, with the constraints, guards and
    triggers of [migrations/0006_objectives_tasks.sql].

    Foreign keys to [command_receipts] hold because the boundary inserts the
    receipt first. *)
From S2P Require Import Prelude StrictJson Identifiers Grouping Jobs Tables ObjectiveTables Regroup.

Definition objM : Type -> Type := stM ObjDb.

(** * Membership *)
Definition insert_membership_event (id : string) (e : MembershipEventRow) : objM unit :=
  statement (fun db => negb (known (objective_membership_events db) id) && known (tasks db) (me_task_id e)
      && known_opt (objectives db) (me_from_objective_id e) && known_opt (objectives db) (me_to_objective_id e)
      && known (task_plan_revisions db) (me_accepted_plan_revision_id e) && (0 <=? me_recorded_at_utc e)
      && set_token ["add"; "move"; "remove"; "repin_plan"; "historical_add"] (me_event_kind e)
      && negb (bool_decide (me_from_objective_id e = None /\ me_to_objective_id e = None)))
    (fun db => set_membership_events (<[id := e]> (objective_membership_events db)) db).
(** [objective_membership_current_insert_guard] and [..._update_guard]. *)
Definition membership_bound (db : ObjDb) (t : string) (m : MembershipRow) : bool :=
  match task_plan_revisions db !! ms_accepted_plan_revision_id m, objective_membership_events db !! ms_last_event_id m with
  | Some p, Some e => String.eqb (pl_task_id p) t && String.eqb (me_task_id e) t
      && bool_decide (me_to_objective_id e = Some (ms_objective_id m))
      && String.eqb (me_accepted_plan_revision_id e) (ms_accepted_plan_revision_id m)
  | _, _ => false
  end.
Definition insert_membership (t : string) (m : MembershipRow) : objM unit :=
  statement (fun db => negb (known (objective_task_membership_current db) t) && known (tasks db) t
      && known (objectives db) (ms_objective_id m) && (0 <? ms_membership_revision m) && membership_bound db t m)
    (fun db => set_memberships (<[t := m]> (objective_task_membership_current db)) db).

(** [objective_membership_nonempty_move_guard]: a current Objective may not
    lose its last member, unless the regroup being accepted supersedes it. *)
Definition has_members (db : ObjDb) (o : string) : bool :=
  existsb (fun kv => String.eqb (ms_objective_id kv.2) o) (map_to_list (objective_task_membership_current db)).
Definition is_current (db : ObjDb) (o : string) : bool :=
  match objectives db !! o with
  | Some r => bool_decide (ob_superseded_by_objective_id r = None) | None => false end.
Definition superseding (db : ObjDb) (accepting : gset string) (o : string) : bool :=
  existsb (fun c => bool_decide (or_proposal_id c ∈ accepting)
      && match regroup_proposals db !! or_proposal_id c with
         | Some p => String.eqb (pr_state p) "pending" | None => false end
      && bool_decide (oc_objective_id (or_change c) = Some o) && String.eqb (oc_action (or_change c)) "supersede")
    (regroup_proposal_objective_changes db).
Definition move_membership (accepting : gset string) (t from : string) (revision : Z) (m : MembershipRow)
    : objM Z := fun db =>
  match objective_task_membership_current db !! t with
  | Some r =>
      if String.eqb (ms_objective_id r) from && (ms_membership_revision r =? revision) then
        if negb (known (objectives db) (ms_objective_id m)
                 && (ms_membership_revision m =? ms_membership_revision r + 1) && membership_bound db t m)
        then (db, Raise sql_violation)
        else
          let db' := set_memberships (<[t := m]> (objective_task_membership_current db)) db in
          if negb (String.eqb (ms_objective_id m) (ms_objective_id r)) && is_current db (ms_objective_id r)
             && negb (has_members db' (ms_objective_id r)) && negb (superseding db accepting (ms_objective_id r))
          then (db, Raise sql_violation)
          else (db', Ok 1)
      else (db, Ok 0)
  | None => (db, Ok 0)
  end.

(** * Objectives *)
Definition tracking_id_ok (s : string) : bool :=
  (Z.of_nat (String.length s) =? 11) && String.prefix "MW-" s && all_chars is_digit (String.substring 3 8 s).
Definition insert_objective (id : string) (o : ObjectiveRow) : objM unit :=
  statement (fun db => negb (known (objectives db) id) && (1 <=? ob_tracking_sequence o)
      && (ob_tracking_sequence o <=? 99999999) && (0 <? ob_revision o) && (0 <=? ob_created_at_utc o)
      && tracking_id_ok (ob_tracking_id o)
      && set_token ["manual"; "automatic_grouping"; "historical_provider_complete"] (ob_creation_origin o)
      && forallb (fun kv => negb (ob_tracking_sequence kv.2 =? ob_tracking_sequence o)
           && negb (String.eqb (ob_tracking_id kv.2) (ob_tracking_id o))) (map_to_list (objectives db)))
    (fun db => set_objectives (<[id := o]> (objectives db)) db).
Definition insert_archive (id : string) : objM unit :=
  statement (fun db => negb (known (objective_archive_projection db) id) && known (objectives db) id)
    (fun db => set_archives (<[id := (0, 1)]> (objective_archive_projection db)) db).
(** [UPDATE objectives SET superseded_by_objective_id=?,revision=revision+1]. *)
Definition supersede_objective (id by_ : string) (revision : Z) : objM Z := fun db =>
  match objectives db !! id with
  | Some o =>
      if (ob_revision o =? revision) && bool_decide (ob_superseded_by_objective_id o = None) then
        if String.eqb by_ id || negb (known (objectives db) by_)
        then (db, Raise sql_violation)
        else (set_objectives (<[id := MkObjectiveRow (ob_tracking_sequence o) (ob_tracking_id o)
                (ob_creation_origin o) (Some by_) (ob_revision o + 1) (ob_created_at_utc o)
                (ob_created_command_id o)]> (objectives db)) db, Ok 1)
      else (db, Ok 0)
  | None => (db, Ok 0)
  end.
(** [UPDATE objective_tracking_allocator ... WHERE next_sequence=? AND revision=?]. *)
Definition advance_allocator (sequence revision : Z) : objM Z := fun db =>
  match objective_tracking_allocator db with
  | Some (n, r) =>
      if (n =? sequence) && (r =? revision) then
        if sequence + 1 <=? 100000000
        then (set_allocator (Some (sequence + 1, r + 1)) db, Ok 1)
        else (db, Raise sql_violation)
      else (db, Ok 0)
  | None => (db, Ok 0)
  end.

(** * Envelopes: current Objectives never overlap strictly *)
Definition overlapping_current (db : ObjDb) (id : string) (start end_ : Z) : list (Z * string) :=
  omap (fun kv : string * EnvelopeRow =>
      if negb (String.eqb kv.1 id) && is_current db kv.1 && (en_start_utc kv.2 <? end_) && (start <? en_end_utc kv.2)
      then Some (en_start_utc kv.2, kv.1) else None)
    (map_to_list (objective_envelope_projection db)).
Definition envelope_row_ok (db : ObjDb) (id : string) (e : EnvelopeRow) : bool :=
  known (objectives db) id && (0 <=? en_start_utc e) && (en_start_utc e <? en_end_utc e) && (0 <? en_member_count e)
  && (Z.of_nat (String.length (en_membership_input_fingerprint e)) =? 64) && (0 <? en_revision e)
  && negb (is_current db id && bool_decide (overlapping_current db id (en_start_utc e) (en_end_utc e) <> [])).
Definition insert_envelope (id : string) (e : EnvelopeRow) : objM unit :=
  statement (fun db => negb (known (objective_envelope_projection db) id) && envelope_row_ok db id e)
    (fun db => set_envelopes (<[id := e]> (objective_envelope_projection db)) db).
Definition update_envelope (id : string) (revision : Z) (e : EnvelopeRow) : objM Z := fun db =>
  match objective_envelope_projection db !! id with
  | Some r =>
      if en_revision r =? revision then
        if (en_revision e =? en_revision r + 1) && envelope_row_ok db id e
        then (set_envelopes (<[id := e]> (objective_envelope_projection db)) db, Ok 1)
        else (db, Raise sql_violation)
      else (db, Ok 0)
  | None => (db, Ok 0)
  end.

(** * Aggregates *)
Definition aggregate_row_ok (db : ObjDb) (id : string) (a : AggregateRow) : bool :=
  known (objectives db) id
  && set_token ["planned"; "historical_structure"; "in_progress"; "awaiting_review"; "reviewed"; "superseded"]
       (ag_execution_state a)
  && match ag_aggregate_outcome a with
     | None => true
     | Some o => set_token ["completed"; "incomplete"; "cancelled"; "mixed"; "excluded_from_operational_counts"] o
     end
  && match ag_actual_start_utc a with None => true | Some t => 0 <=? t end
  && match ag_actual_end_utc a with None => true | Some t => 0 <=? t end
  && match ag_attention_reason a with
     | None => true
     | Some r => set_token ["due_unreviewed"; "lost_last_executable"; "mixed_outcomes"; "plan_membership_mismatch";
         "source_terminal_conflict"] r
     end
  && (0 <=? ag_included_task_count a) && (0 <=? ag_excluded_task_count a)
  && (0 <? ag_revision a) && (Z.of_nat (String.length (ag_aggregate_input_fingerprint a)) =? 64).
Definition insert_aggregate (id : string) (a : AggregateRow) : objM unit :=
  statement (fun db => negb (known (objective_aggregate_projection db) id) && aggregate_row_ok db id a)
    (fun db => set_aggregates (<[id := a]> (objective_aggregate_projection db)) db).
Definition update_aggregate (id : string) (revision : Z) (a : AggregateRow) : objM Z := fun db =>
  match objective_aggregate_projection db !! id with
  | Some r =>
      if ag_revision r =? revision then
        if (ag_revision a =? ag_revision r + 1) && aggregate_row_ok db id a
        then (set_aggregates (<[id := a]> (objective_aggregate_projection db)) db, Ok 1)
        else (db, Raise sql_violation)
      else (db, Ok 0)
  | None => (db, Ok 0)
  end.

Lemma update_aggregate_ok id n a d d' k :
  update_aggregate id n a d = (d', Ok k) -> k = 1 ->
  d' = set_aggregates (<[id := a]> (objective_aggregate_projection d)) d.
Proof.
  unfold update_aggregate. destruct (_ !! id) as [r|]; [|by intros [= <- <-]].
  destruct (_ =? n); [|by intros [= <- <-]]. destruct (_ && _); [|done]. by intros [= <- _].
Qed.
