(* ===== verification/ObjectiveAggregate.v ===== *)
(** The aggregate of an Objective:
    [objectives_tasks/repositories/objectives.py].  It is rebuilt from the
    members' pinned plans, executions, accepted outcomes and counts, each
    checked against its immutable history. *)
From S2P Require Import Prelude StrictJson Identifiers Grouping Jobs Tables ObjectiveTables Regroup.
From S2P Require Import ObjectiveStore.

Definition _EXECUTION_STATES : list string := ["not_started"; "in_progress"; "ended"; "terminated"].
Definition _OUTCOMES : list string := ["completed"; "incomplete"; "cancelled_without_execution"].
Definition _OBJECTIVE_STATES : list string :=
  ["planned"; "historical_structure"; "in_progress"; "awaiting_review"; "reviewed"; "superseded"].
Definition _AGGREGATE_OUTCOMES : list string :=
  ["completed"; "incomplete"; "cancelled"; "mixed"; "excluded_from_operational_counts"].
Definition _ATTENTION_REASONS : list string := ["lost_last_executable"; "mixed_outcomes"; "plan_membership_mismatch"].

Definition _stored_uuid (value label : string) : result string :=
  if is_uuid4 value then Ok value
  else raise (IntegrityFailure ("stored " +:+ label +:+ " is not canonical UUIDv4")).
Definition _positive (value : Z) (label : string) : result Z :=
  _ ← integrity (value <=? 0) ("stored " +:+ label +:+ " is not a positive integer"); Ok value.
Definition _optional_nonnegative (value : option Z) (label : string) : result (option Z) :=
  _ ← integrity (match value with Some v => v <? 0 | None => false end) ("stored " +:+ label +:+ " is invalid");
  Ok value.

(** * Members *)
Record _MemberAuthority := MkMember {
  mb_task_id : string;
  mb_membership_revision : Z;
  mb_accepted_plan_revision_id : string;
  mb_accepted_plan_start_utc : Z;
  mb_accepted_plan_end_utc : Z;
  mb_current_plan_revision : Z;
  mb_current_plan_revision_id : string;
  mb_execution_revision : Z;
  mb_execution_state : string;
  mb_actual_start_utc : option Z;
  mb_actual_end_utc : option Z;
  mb_effective_termination_utc : option Z;
  mb_outcome_revision : Z;
  mb_outcome_event_id : option string;
  mb_accepted_outcome : option string;
  mb_operational_count_revision : Z;
  mb_included : bool
}.
Definition aggregate_object (m : _MemberAuthority) : json := JObj [
  ("task_id", JStr (mb_task_id m));
  ("membership_revision", JInt (mb_membership_revision m));
  ("accepted_plan", JObj [
    ("plan_revision_id", JStr (mb_accepted_plan_revision_id m));
    ("start_utc", JInt (mb_accepted_plan_start_utc m));
    ("end_utc", JInt (mb_accepted_plan_end_utc m))]);
  ("current_plan", JObj [
    ("revision", JInt (mb_current_plan_revision m));
    ("plan_revision_id", JStr (mb_current_plan_revision_id m))]);
  ("execution", JObj [
    ("revision", JInt (mb_execution_revision m));
    ("state", JStr (mb_execution_state m));
    ("actual_start_utc", jopt JInt (mb_actual_start_utc m));
    ("actual_end_utc", jopt JInt (mb_actual_end_utc m));
    ("effective_termination_utc", jopt JInt (mb_effective_termination_utc m))]);
  ("outcome", JObj [
    ("revision", JInt (mb_outcome_revision m));
    ("outcome_event_id", jopt JStr (mb_outcome_event_id m));
    ("accepted_outcome", jopt JStr (mb_accepted_outcome m))]);
  ("operational_count", JObj [
    ("revision", JInt (mb_operational_count_revision m));
    ("included", JBool (mb_included m))])].
Definition review_object (m : _MemberAuthority) : json := JObj [
  ("task_id", JStr (mb_task_id m));
  ("membership_revision", JInt (mb_membership_revision m));
  ("accepted_plan_revision_id", JStr (mb_accepted_plan_revision_id m));
  ("execution_revision", JInt (mb_execution_revision m));
  ("outcome_event_id", jopt JStr (mb_outcome_event_id m));
  ("outcome_revision", JInt (mb_outcome_revision m));
  ("operational_count_revision", JInt (mb_operational_count_revision m));
  ("included", JBool (mb_included m))].
Definition has_started (m : _MemberAuthority) : bool := bool_decide (mb_actual_start_utc m <> None).
Definition locally_executable (m : _MemberAuthority) : bool :=
  String.eqb (mb_execution_state m) "not_started" && bool_decide (mb_accepted_outcome m = None).

(** ** The checks of one member row *)
Definition _validate_execution_shape (state : string) (start end_ termination : option Z) : result unit :=
  let none {A} (o : option A) := negb (present_opt o) in
  _ ← integrity (String.eqb state "not_started" && (present_opt start || present_opt end_ || present_opt termination))
    "not-started execution projection contains actual evidence";
  _ ← integrity (String.eqb state "in_progress" && (none start || present_opt end_ || present_opt termination))
    "in-progress execution projection is invalid";
  _ ← integrity (String.eqb state "ended" && (none start || none end_
      || (default 0 end_ <? default 0 start) || present_opt termination))
    "ended execution projection is invalid";
  integrity (String.eqb state "terminated" && present_opt end_) "terminated execution projection fabricates actual end".
Definition _outcome_matches_execution (outcome state : string) (start end_ : option Z) : result bool :=
  if String.eqb outcome "completed" then
    Ok (String.eqb state "ended" && present_opt start && present_opt end_)
  else if String.eqb outcome "incomplete" then
    Ok (set_token ["ended"; "terminated"] state && present_opt start)
  else if String.eqb outcome "cancelled_without_execution" then
    Ok (String.eqb state "terminated" && negb (present_opt start))
  else raise (IntegrityFailure "Task outcome token is invalid").

Definition member_plan (db : ObjDb) (t : string) (m : MembershipRow) (p : PlanRow) : result unit :=
  _ ← _stored_uuid t "Objective member Task identity";
  _ ← _positive (ms_membership_revision m) "Objective membership revision";
  _ ← _stored_uuid (ms_accepted_plan_revision_id m) "Objective membership pinned plan identity";
  _ ← _stored_uuid (ms_last_event_id m) "Objective membership event identity";
  owner ← _stored_uuid (pl_task_id p) "Objective pinned plan owner identity";
  _ ← integrity (negb (String.eqb owner t)) "Objective membership pins another Task's plan";
  _ ← _optional_nonnegative (Some (pl_start_utc p)) "Objective pinned plan start";
  _ ← _optional_nonnegative (Some (pl_end_utc p)) "Objective pinned plan end";
  integrity (pl_end_utc p <=? pl_start_utc p) "Objective membership pins an invalid Task interval".
Definition member_current_plan (db : ObjDb) (t : string) : result (Z * string) :=
  match task_plan_current db !! t with
  | None => raise (IntegrityFailure "current Objective member is missing current Task plan authority")
  | Some pc =>
      match task_plan_revisions db !! pc_plan_revision_id pc with
      | None => raise (IntegrityFailure "current Objective member is missing current Task plan authority")
      | Some cp =>
          revision ← _positive (pc_revision pc) "current Task plan revision";
          id ← _stored_uuid (pc_plan_revision_id pc) "current Task plan identity";
          owner ← _stored_uuid (pl_task_id cp) "current Task plan owner identity";
          _ ← integrity (negb (String.eqb owner t)) "current Task plan belongs to another Task";
          Ok (revision, id)
      end
  end.
(** The execution events of a task, the latest first. *)
Definition execution_history (db : ObjDb) (t : string) : list (Z * string) :=
  py_sorted (fun rv : Z * string => - rv.1)
    (map (fun kv : string * ExecutionEventRow => (ee_execution_revision kv.2, kv.1))
      (filter (fun kv => ee_task_id kv.2 = t) (map_to_list (task_execution_events db)))).
Record execution_authority := MkExecutionAuthority {
  xa_revision : Z; xa_state : string; xa_start : option Z; xa_end : option Z; xa_termination : option Z
}.
Definition member_execution (db : ObjDb) (t : string) : result execution_authority :=
  let history := execution_history db t in
  let count := Z.of_nat (length history) in
  _ ← integrity (match history with (n, _) :: _ => negb (n =? count) | [] => false end)
    "Task execution history revision sequence is not contiguous";
  latest ← match history with
    | (_, id) :: _ => id ← _stored_uuid id "latest Task execution event identity"; Ok (Some id)
    | [] => Ok None end;
  match task_execution_projection db !! t with
  | Some x =>
      revision ← _positive (ex_revision x) "Task execution revision";
      event ← match task_execution_events db !! ex_last_event_id x with
        | Some e => if set_token _EXECUTION_STATES (ex_execution_state x) then Ok e
                    else raise (IntegrityFailure "Task execution projection is incomplete")
        | None => raise (IntegrityFailure "Task execution projection is incomplete") end;
      _ ← integrity (negb (revision =? count)) "Task execution projection revision does not equal immutable event count";
      owner ← _stored_uuid (ee_task_id event) "Task execution last-event owner identity";
      _ ← integrity (negb (String.eqb owner t)) "Task execution projection points to another Task's event";
      last ← _stored_uuid (ex_last_event_id x) "Task execution projection last event identity";
      _ ← integrity (negb (bool_decide (latest = Some last)))
        "Task execution projection does not point to final immutable revision history";
      start ← _optional_nonnegative (ex_actual_start_utc x) "Task actual start";
      end_ ← _optional_nonnegative (ex_actual_end_utc x) "Task actual end";
      termination ← _optional_nonnegative (ex_effective_termination_utc x) "Task termination instant";
      _ ← _validate_execution_shape (ex_execution_state x) start end_ termination;
      Ok (MkExecutionAuthority revision (ex_execution_state x) start end_ termination)
  | None =>
      _ ← integrity (negb (count =? 0)) "Task execution events exist without current projection";
      Ok (MkExecutionAuthority 0 "not_started" None None None)
  end.
(** Revision, event and outcome; the outcome counts only while it matches the
    execution. *)
Definition member_outcome (db : ObjDb) (t : string) (x : execution_authority)
    : result (Z * option string * option string) :=
  match task_outcome_current db !! t with
  | None => Ok (0, None, None)
  | Some o =>
      revision ← _positive (ou_revision o) "Task outcome revision";
      id ← _stored_uuid (ou_outcome_event_id o) "Task outcome event identity";
      event ← match task_outcome_events db !! ou_outcome_event_id o with
        | Some e => if set_token _OUTCOMES (ou_accepted_outcome o) then Ok e
                    else raise (IntegrityFailure "Task outcome projection is incomplete")
        | None => raise (IntegrityFailure "Task outcome projection is incomplete") end;
      owner ← _stored_uuid (oe_task_id event) "Task outcome event owner identity";
      _ ← integrity (negb (String.eqb owner t) || negb (String.eqb (oe_accepted_outcome event) (ou_accepted_outcome o)))
        "Task outcome projection disagrees with immutable history";
      matches ← _outcome_matches_execution (ou_accepted_outcome o) (xa_state x) (xa_start x) (xa_end x);
      Ok (revision, Some id, if matches : bool then Some (ou_accepted_outcome o) else None)
  end.
Definition member_count (db : ObjDb) (t : string) : result (Z * bool) :=
  match task_operational_count_current db !! t with
  | None => Ok (0, true)
  | Some c =>
      revision ← _positive (cc_revision c) "operational-count revision";
      event ← match task_operational_count_events db !! cc_last_event_id c with
        | Some e => if (cc_included c =? 0) || (cc_included c =? 1) then Ok e
                    else raise (IntegrityFailure "operational-count projection is incomplete")
        | None => raise (IntegrityFailure "operational-count projection is incomplete") end;
      owner ← _stored_uuid (ce_task_id event) "operational-count event owner identity";
      _ ← integrity (negb (String.eqb owner t)) "operational-count projection points to another Task";
      _ ← integrity (negb (ce_included event =? cc_included c))
        "operational-count projection disagrees with immutable history";
      Ok (revision, cc_included c =? 1)
  end.
Definition member_history (db : ObjDb) (objective t : string) (m : MembershipRow) : result unit :=
  match objective_membership_events db !! ms_last_event_id m with
  | Some e =>
      match me_to_objective_id e with
      | None => raise (IntegrityFailure "Objective membership current authority is not bound to immutable history")
      | Some to =>
          task ← _stored_uuid (me_task_id e) "Objective membership history Task identity";
          _ ← integrity (negb (String.eqb task t)) "Objective membership current authority disagrees with immutable history";
          to ← _stored_uuid to "Objective membership history Objective identity";
          _ ← integrity (negb (String.eqb to objective))
            "Objective membership current authority disagrees with immutable history";
          plan ← _stored_uuid (me_accepted_plan_revision_id e) "Objective membership history plan identity";
          integrity (negb (String.eqb plan (ms_accepted_plan_revision_id m)))
            "Objective membership current authority disagrees with immutable history"
      end
  | None => raise (IntegrityFailure "Objective membership current authority is not bound to immutable history")
  end.
Definition load_member (db : ObjDb) (objective : string) (row : string * MembershipRow * PlanRow)
    : result _MemberAuthority :=
  let '(t, m, p) := row in
  _ ← member_plan db t m p;
  '(plan_revision, plan_id) ← member_current_plan db t;
  x ← member_execution db t;
  '(outcome_revision, outcome_event, outcome) ← member_outcome db t x;
  '(count_revision, included) ← member_count db t;
  _ ← member_history db objective t m;
  Ok (MkMember t (ms_membership_revision m) (ms_accepted_plan_revision_id m) (pl_start_utc p) (pl_end_utc p)
    plan_revision plan_id (xa_revision x) (xa_state x) (xa_start x) (xa_end x) (xa_termination x)
    outcome_revision outcome_event outcome count_revision included).
(** The members with their pinned plans, in task order. *)
Definition member_rows (db : ObjDb) (objective : string) : list (string * MembershipRow * PlanRow) :=
  py_sorted (fun r : string * MembershipRow * PlanRow => r.1.1)
    (omap (fun kv : string * MembershipRow =>
        if String.eqb (ms_objective_id kv.2) objective then
          p ← task_plan_revisions db !! ms_accepted_plan_revision_id kv.2; Some (kv, p)
        else None)
      (map_to_list (objective_task_membership_current db))).
Definition _load_members (db : ObjDb) (objective : string) : result (list _MemberAuthority) :=
  traverse (load_member db objective) (member_rows db objective).

(** * Material state *)
Definition _derive_outcome (members : list _MemberAuthority) : option string :=
  let included := filter (fun m => mb_included m = true) members in
  match included with
  | [] => match members with [] => None | _ => Some "excluded_from_operational_counts" end
  | _ =>
      if existsb (fun m => negb (present_opt (mb_accepted_outcome m))) included then None
      else
        let outcomes : gset string := list_to_set (omap mb_accepted_outcome included) in
        if bool_decide (outcomes = {["completed"]}) then Some "completed"
        else if bool_decide (outcomes = {["incomplete"]}) then Some "incomplete"
        else if bool_decide (outcomes = {["cancelled_without_execution"]})
                && forallb (fun m => negb (has_started m)) members then Some "cancelled"
        else if 1 <? Z.of_nat (size outcomes) then Some "mixed" else None
  end.
Record material_state := MkMaterial {
  mt_state : string;
  mt_outcome : option string;
  mt_start : option Z;
  mt_end : option Z;
  mt_attention : option string;
  mt_included : Z;
  mt_excluded : Z
}.
#[export] Instance material_state_eq_dec : EqDecision material_state.
Proof. solve_decision. Defined.
Definition min_of (l : list Z) : option Z := match l with [] => None | x :: l => Some (foldl Z.min x l) end.
Definition max_of (l : list Z) : option Z := match l with [] => None | x :: l => Some (foldl Z.max x l) end.
Definition in_progress (m : _MemberAuthority) : bool := String.eqb (mb_execution_state m) "in_progress".
(** When the started work ended: known only when all of it has. *)
Definition actual_end_of (members : list _MemberAuthority) : option Z :=
  let starts := omap mb_actual_start_utc members in
  let ended := filter (fun m => has_started m && negb (in_progress m) = true) members in
  let times := map (fun m => match mb_actual_end_utc m with Some e => Some e
    | None => mb_effective_termination_utc m end) ended in
  if negb (bool_decide (starts = [])) && negb (existsb in_progress members) then
    if bool_decide (length ended = length starts) && negb (bool_decide (times = [])) && forallb present_opt times
    then max_of (omap id times) else None
  else None.
Definition _derive_material_state (origin : string) (superseded_by : option string)
    (members : list _MemberAuthority) (current_review : option string) : material_state :=
  let included := Z.of_nat (length (filter (fun m => mb_included m = true) members)) in
  let starts := omap mb_actual_start_utc members in
  let outcome := _derive_outcome members in
  let mismatch := existsb (fun m =>
    negb (String.eqb (mb_current_plan_revision_id m) (mb_accepted_plan_revision_id m))) members in
  let '(state, outcome, attention) :=
    if present_opt superseded_by then ("superseded", outcome, None)
    else if String.eqb origin "historical_provider_complete" && bool_decide (starts = [])
    then ("historical_structure", outcome, None)
    else if existsb in_progress members then ("in_progress", None, None)
    else if negb (bool_decide (members = [])) && forallb (fun m => present_opt (mb_accepted_outcome m)) members then
      ((if present_opt current_review then "reviewed" else "awaiting_review"), outcome,
       (if bool_decide (outcome = Some "mixed") then Some "mixed_outcomes" else None))
    else if negb (bool_decide (starts = [])) && negb (existsb locally_executable members)
    then ("awaiting_review", None, Some "lost_last_executable")
    else ("planned", None, None) in
  let attention := match attention with
    | Some a => Some a | None => if mismatch then Some "plan_membership_mismatch" else None end in
  MkMaterial state outcome (min_of starts) (actual_end_of members) attention included
    (Z.of_nat (length members) - included).

(** * Rebuilding *)
Definition _load_objective (db : ObjDb) (id : string) : result (Z * string * option string) :=
  match objectives db !! id with
  | None => raise (IntegrityFailure "Objective aggregate rebuild target does not exist")
  | Some o =>
      revision ← _positive (ob_revision o) "Objective revision";
      _ ← integrity (negb (set_token ["manual"; "automatic_grouping"; "historical_provider_complete"]
          (ob_creation_origin o))) "Objective creation origin is invalid";
      superseded ← match ob_superseded_by_objective_id o with
        | Some s => s ← _stored_uuid s "superseding Objective identity"; Ok (Some s)
        | None => Ok None end;
      Ok (revision, ob_creation_origin o, superseded)
  end.
Definition _validate_envelope (db : ObjDb) (id : string) (members : list _MemberAuthority) : result unit :=
  match objective_envelope_projection db !! id with
  | None => raise (IntegrityFailure "current Objective is missing envelope projection")
  | Some e =>
      _ ← integrity (bool_decide (members = [])) "current Objective has no members";
      integrity (negb (bool_decide (min_of (map mb_accepted_plan_start_utc members) = Some (en_start_utc e)
          /\ max_of (map mb_accepted_plan_end_utc members) = Some (en_end_utc e)
          /\ en_member_count e = Z.of_nat (length members))))
        "Objective envelope projection disagrees with membership-pinned plans"
  end.
(** The checks [aggregate] makes on a stored row. *)
Definition aggregate (db : ObjDb) (id : string) : result (option AggregateRow) :=
  match objective_aggregate_projection db !! id with
  | None => Ok None
  | Some a =>
      _ ← _stored_uuid id "Objective aggregate identity";
      _ ← integrity (negb (set_token _OBJECTIVE_STATES (ag_execution_state a)))
        "Objective aggregate has invalid execution state";
      _ ← integrity (match ag_aggregate_outcome a with
          Some o => negb (set_token _AGGREGATE_OUTCOMES o) | None => false end) "Objective aggregate has invalid outcome";
      _ ← integrity (match ag_attention_reason a with
          Some r => negb (set_token _ATTENTION_REASONS r) | None => false end)
        "Objective aggregate has non-material attention authority";
      _ ← integrity (negb (is_sha256 (ag_aggregate_input_fingerprint a))) "Objective aggregate fingerprint is invalid";
      _ ← integrity ((ag_included_task_count a <? 0) || (ag_excluded_task_count a <? 0))
        "Objective aggregate member counts are invalid";
      _ ← _stored_uuid (ag_last_command_id a) "Objective aggregate command identity";
      _ ← _optional_nonnegative (ag_actual_start_utc a) "Objective actual start";
      _ ← _optional_nonnegative (ag_actual_end_utc a) "Objective actual end";
      _ ← _positive (ag_revision a) "Objective aggregate revision";
      Ok (Some a)
  end.
Definition material_of_row (a : AggregateRow) : material_state :=
  MkMaterial (ag_execution_state a) (ag_aggregate_outcome a) (ag_actual_start_utc a) (ag_actual_end_utc a)
    (ag_attention_reason a) (ag_included_task_count a) (ag_excluded_task_count a).
Definition aggregate_row (m : material_state) (fingerprint : string) (revision : Z) (command : string) : AggregateRow :=
  MkAggregateRow (mt_state m) (mt_outcome m) (mt_start m) (mt_end m) (mt_attention m) (mt_included m)
    (mt_excluded m) fingerprint revision command.

Section rebuild.
Context `{Sha256, FloatText}.

Definition _review_fingerprint (id : string) (revision : Z) (superseded : option string)
    (members : list _MemberAuthority) : result string :=
  sha256_canonical_json (JObj [
    ("schema", JStr "OBJECTIVE_REVIEW_INPUT_V1");
    ("objective_id", JStr id);
    ("objective_revision", JInt revision);
    ("superseded_by_objective_id", jopt JStr superseded);
    ("members", JArr (map review_object members))]).
(** The latest review of exactly this input: event, fingerprint, outcome. *)
Definition _current_review (db : ObjDb) (id fingerprint : string) : result (option (string * string * string)) :=
  match py_sorted (fun r : Z * string * ReviewRow => (r.1.1, r.1.2))
    (map (fun kv : string * ReviewRow => (rv_reviewed_at_utc kv.2, kv.1, kv.2))
      (filter (fun kv => rv_objective_id kv.2 = id /\ rv_review_fingerprint kv.2 = fingerprint)
        (map_to_list (objective_review_events db)))) with
  | [] => Ok None
  | r :: rows =>
      let '(_, event, row) := List.last rows r in
      event ← _stored_uuid event "Objective review event identity";
      _ ← integrity (negb (String.eqb (rv_review_fingerprint row) fingerprint)
          || negb (set_token _AGGREGATE_OUTCOMES (rv_derived_outcome row)))
        "Objective current review authority is invalid";
      Ok (Some (event, fingerprint, rv_derived_outcome row))
  end.
Definition review_value (r : string * string * string) : json := JObj [
  ("objective_review_event_id", JStr r.1.1); ("review_fingerprint", JStr r.1.2); ("derived_outcome", JStr r.2)].
Definition aggregate_fingerprint (id : string) (revision : Z) (origin : string) (superseded : option string)
    (members : list _MemberAuthority) (review : option (string * string * string)) : result string :=
  sha256_canonical_json (JObj [
    ("schema", JStr "SOMA_OBJECTIVE_AGGREGATE_INPUT_V1");
    ("objective", JObj [
      ("objective_id", JStr id);
      ("revision", JInt revision);
      ("creation_origin", JStr origin);
      ("superseded_by_objective_id", jopt JStr superseded)]);
    ("members", JArr (map aggregate_object members));
    ("current_review", jopt review_value review)]).
(** The material state of an Objective and its fingerprint, from the tables. *)
Definition derive_aggregate (db : ObjDb) (id : string) : result (material_state * string) :=
  '(revision, origin, superseded) ← _load_objective db id;
  members ← _load_members db id;
  _ ← match superseded with None => _validate_envelope db id members | Some _ => Ok tt end;
  review_fp ← _review_fingerprint id revision superseded members;
  review ← _current_review db id review_fp;
  let material := _derive_material_state origin superseded members (snd <$> review) in
  _ ← integrity (match review with
      Some r => negb (bool_decide (mt_outcome material = Some r.2)) | None => false end)
    "Objective current review outcome disagrees with current material authority";
  fingerprint ← aggregate_fingerprint id revision origin superseded members review;
  Ok (material, fingerprint).
Definition rebuild_aggregate (id command : string) : objM AggregateRow :=
  id ← lift (_stored_uuid id "Objective rebuild identity");
  command ← lift (_stored_uuid command "Objective rebuild command identity");
  db ← read_st;
  '(material, fingerprint) ← lift (derive_aggregate db id);
  existing ← lift (aggregate db id);
  let publish :=
    db ← read_st;
    rebuilt ← lift (aggregate db id);
    match rebuilt with
    | Some a => mret a
    | None => lift (raise (IntegrityFailure "Objective aggregate rebuild did not publish a projection"))
    end in
  match existing with
  | Some a =>
      if String.eqb (ag_aggregate_input_fingerprint a) fingerprint then
        if bool_decide (material_of_row a = material) then mret a
        else lift (raise (IntegrityFailure "Objective aggregate fingerprint agrees while material fields disagree"))
      else
        changed ← update_aggregate id (ag_revision a) (aggregate_row material fingerprint (ag_revision a + 1) command);
        _ ← lift (integrity (negb (changed =? 1)) "Objective aggregate changed during guarded rebuild");
        publish
  | None =>
      _ ← insert_aggregate id (aggregate_row material fingerprint 1 command);
      publish
  end.
End rebuild.
