(* ===== verification/RegroupStore.v ===== *)
(** The stored regroup proposals: [objectives_tasks/repositories/grouping.py].

    Fresh identities and clock readings are inputs: [fresh] and [clock] give
    the value drawn at a call site, named by its path. *)
From S2P Require Import Prelude StrictJson Identifiers Grouping Jobs Tables ObjectiveTables Regroup.
From S2P Require Import ObjectiveStore.

Definition site : Type := list string.
Definition proposal_kinds : list string :=
  ["create"; "join"; "move"; "repin"; "consolidate"; "manual_merge"; "manual_split"].
Definition GROUPING_ORIGINS : list string :=
  ["task_created"; "task_plan_changed"; "source_plan_adopted"; "manual_request"; "retry_created"; "objective_edit"].
Definition positive_opt (n : option Z) : bool := match n with None => true | Some n => 0 <? n end.
#[export] Instance GroupingTaskChange_eq_dec : EqDecision GroupingTaskChange.
Proof. solve_decision. Defined.
#[export] Instance GroupingObjectiveChange_eq_dec : EqDecision GroupingObjectiveChange.
Proof. solve_decision. Defined.

Module RegroupProposalRepository.
(** * Reads *)
Definition get (db : ObjDb) (id : string) : option ProposalRow := regroup_proposals db !! id.
Definition pending_rows (db : ObjDb) (fingerprint : string) : list (Z * string) :=
  omap (fun kv : string * ProposalRow =>
      if String.eqb (pr_state kv.2) "pending" && String.eqb (pr_input_fingerprint kv.2) fingerprint
      then Some (pr_created_at_utc kv.2, kv.1) else None)
    (map_to_list (regroup_proposals db)).
Definition exact_pending_by_fingerprint (db : ObjDb) (fingerprint : string) : option string :=
  snd <$> head (py_sorted id (pending_rows db fingerprint)).
Definition rejection_suppressed (db : ObjDb) (fingerprint : string) : bool :=
  existsb (fun kv : string * RejectionRow => String.eqb (rj_input_fingerprint kv.2) fingerprint
      && bool_decide (rj_reconsidered_at_utc kv.2 = None))
    (map_to_list (regroup_rejection_events db)).
Definition task_changes (db : ObjDb) (id : string) : list TaskChangeRow :=
  py_sorted (fun r => (tc_task_id (tr_change r), tr_change_id r))
    (filter (fun r => tr_proposal_id r = id) (regroup_proposal_task_changes db)).
Definition objective_changes (db : ObjDb) (id : string) : list ObjectiveChangeRow :=
  py_sorted (fun r => (default EmptyString (oc_objective_id (or_change r)), or_change_id r))
    (filter (fun r => or_proposal_id r = id) (regroup_proposal_objective_changes db)).

(** * Inserts *)
Definition insert_proposal (id : string) (p : ProposalRow) : objM unit :=
  statement (fun db => negb (known (regroup_proposals db) id) && set_token proposal_kinds (pr_proposal_kind p)
      && set_token GROUPING_ORIGINS (pr_origin p) && set_token ["normal"; "high"] (pr_risk_tier p)
      && (Z.of_nat (String.length (pr_input_fingerprint p)) =? 64)
      && set_token ["pending"; "accepted"; "rejected"; "superseded"] (pr_state p)
      && known_opt (objectives db) (pr_survivor_objective_id p) && (0 <? pr_revision p) && (0 <=? pr_created_at_utc p))
    (fun db => set_proposals (<[id := p]> (regroup_proposals db)) db).
Definition insert_task_change (r : TaskChangeRow) : objM unit :=
  let c := tr_change r in
  statement (fun db =>
      forallb (fun r' => negb (String.eqb (tr_change_id r') (tr_change_id r))
        && negb (String.eqb (tr_proposal_id r') (tr_proposal_id r)
                 && String.eqb (tc_task_id (tr_change r')) (tc_task_id c))) (regroup_proposal_task_changes db)
      && known (regroup_proposals db) (tr_proposal_id r) && known (tasks db) (tc_task_id c)
      && known_opt (objectives db) (tc_from_objective_id c) && known_opt (objectives db) (tc_to_objective_id c)
      && (0 <? tc_expected_task_revision c)
      && known (task_plan_revisions db) (tc_expected_current_plan_revision_id c)
      && positive_opt (tc_expected_membership_revision c)
      && set_token ["add"; "move"; "remove"; "repin"; "unchanged_context"] (tc_change_kind c))
    (fun db => set_task_changes (regroup_proposal_task_changes db ++ [r]) db).
Definition insert_objective_change (r : ObjectiveChangeRow) : objM unit :=
  let c := or_change r in
  statement (fun db =>
      forallb (fun r' => negb (String.eqb (or_change_id r') (or_change_id r))) (regroup_proposal_objective_changes db)
      && known (regroup_proposals db) (or_proposal_id r) && known_opt (objectives db) (oc_objective_id c)
      && set_token ["create"; "retain"; "supersede"; "envelope_change"] (oc_action c)
      && positive_opt (oc_expected_objective_revision c) && positive_opt (oc_expected_envelope_revision c))
    (fun db => set_objective_changes (regroup_proposal_objective_changes db ++ [r]) db).
Definition candidate_row (c : RegroupCandidate) (fingerprint command : string) (now : Z) : ProposalRow :=
  MkProposalRow (proposal_kind c) (origin c) (risk_tier c) fingerprint "pending" (survivor_objective_id c) 1 now
    (Some command).
Definition indexed {A} (l : list A) : list (string * A) := imap (fun n a => (int_text (Z.of_nat n), a)) l.

Section repository.
Context (fresh : site -> string) (clock : site -> Z).

(** The statements [insert_candidate] and the synchronous recompute share. *)
Definition publish_candidate (id command : string) (c : RegroupCandidate) (fingerprint : string) : objM unit :=
  _ ← insert_proposal id (candidate_row c fingerprint command (clock ["proposal"; id]));
  _ ← each (fun nc : string * GroupingTaskChange =>
      insert_task_change (MkTaskChangeRow (fresh ["task_change"; id; nc.1]) id nc.2))
    (indexed (Grouping.task_changes c));
  each (fun nc : string * GroupingObjectiveChange =>
      insert_objective_change (MkObjectiveChangeRow (fresh ["objective_change"; id; nc.1]) id nc.2))
    (indexed (Grouping.objective_changes c)).
Definition insert_candidate (c : RegroupCandidate) (fingerprint command : string) (at_ : site) : objM string :=
  let id := fresh ("proposal" :: at_) in
  _ ← publish_candidate id command c fingerprint;
  mret id.

(** * Decisions *)
Definition stale {A} (m : string) : objM A := lift (raise (regroup_error "GROUPING_PROPOSAL_STALE" m)).
Definition transition (id : string) (revision : Z) (fingerprint new_state command : string) : objM Z :=
  _ ← lift (forbid (negb (set_token ["accepted"; "rejected"; "superseded"] new_state))
    (IntegrityFailure "invalid regroup proposal transition"));
  db ← read_st;
  match regroup_proposals db !! id with
  | Some p =>
      if String.eqb (pr_state p) "pending" && (pr_revision p =? revision)
         && String.eqb (pr_input_fingerprint p) fingerprint
      then
        _ ← modify_st (set_proposals (<[id := MkProposalRow (pr_proposal_kind p) (pr_origin p) (pr_risk_tier p)
          (pr_input_fingerprint p) new_state (pr_survivor_objective_id p) (pr_revision p + 1) (pr_created_at_utc p)
          (Some command)]> (regroup_proposals db)));
        mret (revision + 1)
      else stale "regroup proposal changed"
  | None => stale "regroup proposal changed"
  end.
Definition insert_rejection (id : string) (r : RejectionRow) : objM unit :=
  statement (fun db => negb (known (regroup_rejection_events db) id) && known (regroup_proposals db) (rj_proposal_id r)
      && (Z.of_nat (String.length (rj_input_fingerprint r)) =? 64) && positive_opt (Z.succ <$> rj_reconsidered_at_utc r)
      && (0 <=? rj_recorded_at_utc r))
    (fun db => set_rejections (<[id := r]> (regroup_rejection_events db)) db).
Definition reject (id : string) (revision : Z) (fingerprint reason command : string) : objM (string * Z) :=
  let rejection := fresh ["rejection"; id] in
  next_revision ← transition id revision fingerprint "rejected" command;
  _ ← insert_rejection rejection
    (MkRejectionRow id fingerprint reason None (clock ["rejection"; id]) command);
  mret (rejection, next_revision).
Definition equivalent_rejection {A} (m : string) : objM A :=
  lift (raise (regroup_error "GROUPING_EQUIVALENT_REJECTION" m)).
Definition reconsider_rejection (id rejection fingerprint : string) : objM string :=
  db ← read_st;
  match regroup_rejection_events db !! rejection with
  | Some r =>
      if String.eqb (rj_proposal_id r) id && String.eqb (rj_input_fingerprint r) fingerprint
         && bool_decide (rj_reconsidered_at_utc r = None)
      then
        let now := clock ["reconsider"; rejection] in
        if now <? 0 then lift (Raise sql_violation)
        else
          _ ← modify_st (set_rejections (<[rejection := MkRejectionRow (rj_proposal_id r) (rj_input_fingerprint r)
            (rj_reason_code r) (Some now) (rj_recorded_at_utc r) (rj_command_id r)]> (regroup_rejection_events db)));
          mret rejection
      else equivalent_rejection "exact regroup rejection is absent or already reconsidered"
  | None => equivalent_rejection "exact regroup rejection is absent or already reconsidered"
  end.
End repository.
End RegroupProposalRepository.
