(* ===== verification/RegroupManual.v ===== *)
(** The manual merge of two Objectives that touch exactly:
    [GroupingService._normalize_trigger_scope] and
    [_manual_exact_touch_candidate]. *)
From S2P Require Import Prelude StrictJson Identifiers Grouping Jobs Tables ObjectiveTables Regroup.

Definition require_uuid4_value (v : json) : result string :=
  match v with JStr s => require_uuid4 s | _ => raise (ValidationError "expected canonical lowercase UUIDv4") end.

(** The scope as the two selected ids in order, or none. *)
Definition _normalize_trigger_scope (origin_ : string) (scope : option json) : result (option (string * string)) :=
  match scope with
  | None => Ok None
  | Some value =>
      _ ← forbid (negb (String.eqb origin_ "manual_request"))
        (ValidationError "grouping trigger_scope is allowed only for origin=manual_request");
      _ ← forbid (match value with
          | JObj fields => negb (bool_decide ((list_to_set fields.*1 : gset string) = {["kind"; "objective_ids"]}))
          | _ => true end)
        (ValidationError "grouping trigger_scope must contain exactly kind and objective_ids");
      _ ← forbid (match jfield "kind" value with
          Some (JStr k) => negb (String.eqb k "manual_exact_touch_merge") | _ => true end)
        (ValidationError "grouping trigger_scope kind is invalid");
      match jfield "objective_ids" value with
      | Some (JArr [a; b]) =>
          ids ← traverse require_uuid4_value [a; b];
          match py_sorted id ids with
          | [x; y] =>
              _ ← forbid (String.eqb x y)
                (ValidationError "manual_exact_touch_merge requires two unique Objective ids");
              Ok (Some (x, y))
          | _ => Ok None
          end
      | _ => raise (ValidationError "manual_exact_touch_merge requires exactly two Objective ids")
      end
  end.

Definition current_objective (db : ObjDb) (id : string) : option GroupingObjectiveAuthority :=
  objectives db !! id ≫= objective_authority db id.
(** The current Objectives of the selection, in tracking order. *)
Definition selected_objectives (db : ObjDb) (ids : list string) : list GroupingObjectiveAuthority :=
  py_sorted objective_order (omap (current_objective db) (elements (list_to_set ids : gset string))).
Definition envelope_order (o : GroupingObjectiveAuthority) : Z * Z * string :=
  (o_start_utc o, o_end_utc o, o_objective_id o).
(** A third current Objective in the union of the selected envelopes. *)
Definition neighbor (db : ObjDb) (ids : list string) (start end_ : Z) : bool :=
  existsb (fun kv : string * EnvelopeRow =>
      negb (set_token ids kv.1)
      && match objectives db !! kv.1 with
         | Some o => bool_decide (ob_superseded_by_objective_id o = None) | None => false end
      && (en_start_utc kv.2 <? end_) && (start <? en_end_utc kv.2))
    (map_to_list (objective_envelope_projection db)).
Definition memberships_of (db : ObjDb) (ids : list string) : list (string * MembershipRow) :=
  filter (fun kv => set_token ids (ms_objective_id kv.2) = true) (map_to_list (objective_task_membership_current db)).

Definition merge_row : Type := string * Z * PlanCurrentRow * PlanRow * MembershipRow.
(** The members with a current plan of their own. *)
Definition merge_member_rows (db : ObjDb) (ids : list string) : list merge_row :=
  py_sorted (fun r : merge_row => (ms_objective_id r.2, r.1.1.1.1))
    (omap (fun kv : string * MembershipRow =>
        revision ← tasks db !! kv.1;
        pc ← task_plan_current db !! kv.1;
        p ← task_plan_revisions db !! pc_plan_revision_id pc;
        if String.eqb (pl_task_id p) kv.1 then Some (kv.1, revision, pc, p, kv.2) else None)
      (memberships_of db ids)).
Definition merge_member (db : ObjDb) (competing : gset string) (objectives : list GroupingObjectiveAuthority)
    (r : merge_row) : result GroupingTaskAuthority :=
  let '(t, revision, pc, p, m) := r in
  _ ← forbid (negb (membership_lock db t =? 0) || negb (String.eqb (coalesced_state db t) "not_started")
      || bool_decide (is_Some (task_outcome_current db !! t)) || provider_final db t || bool_decide (t ∈ competing)
      || negb (String.eqb (ms_accepted_plan_revision_id m) (pc_plan_revision_id pc)))
    (indeterminate "manual merge member is not ordinary grouping eligible");
  match head (filter (fun o => o_objective_id o = ms_objective_id m) objectives) with
  | None => raise (IntegrityFailure "manual merge membership Objective is missing")
  | Some o => Ok (MkTask t revision (pc_plan_revision_id pc) (pc_revision pc) (pl_start_utc p) (pl_end_utc p)
      (Some (ms_objective_id m)) (Some (ms_accepted_plan_revision_id m)) (Some (ms_membership_revision m)) false
      "not_started" (Some (ms_objective_id m)) (Some (o_revision o)) (Some (o_envelope_revision o))
      (Some (o_execution_state o)))
  end.
Definition merge_change (survivor : string) (t : GroupingTaskAuthority) : GroupingTaskChange :=
  change_to (membership_objective_id t) (Some survivor) (membership_revision t)
    (if bool_decide (membership_objective_id t = Some survivor) then "unchanged_context" else "move") t.

Definition _manual_exact_touch_candidate (db : ObjDb) (objective_ids : string * string) (origin_ : string)
    : result RegroupCandidate :=
  _ ← forbid (negb (String.eqb origin_ "manual_request"))
    (ValidationError "manual exact-touch merge requires origin=manual_request");
  let ids := py_sorted id [objective_ids.1; objective_ids.2] in
  match selected_objectives db ids with
  | [first; second] =>
      let objectives := [first; second] in
      _ ← forbid (existsb (fun o => negb (String.eqb (o_execution_state o) "planned")
          || String.eqb (o_creation_origin o) "historical_provider_complete") objectives)
        (indeterminate "manual merge requires ordinary planned Objectives");
      _ ← forbid (match py_sorted envelope_order objectives with
          | [before_; after_] => negb (o_end_utc before_ =? o_start_utc after_) | _ => true end)
        (indeterminate "manual merge requires exactly touching Objective envelopes");
      let union_start := Z.min (o_start_utc first) (o_start_utc second) in
      let union_end := Z.max (o_end_utc first) (o_end_utc second) in
      _ ← forbid (neighbor db ids union_start union_end)
        (indeterminate "manual merge union overlaps a third current Objective");
      _ ← forbid (existsb (fun o => bool_decide (memberships_of db [o_objective_id o] = [])) objectives)
        (IntegrityFailure "current Objective has no material membership");
      let rows := merge_member_rows db ids in
      _ ← forbid (negb (bool_decide (length rows = length (memberships_of db ids))))
        (indeterminate "manual merge member plan authority is incomplete");
      tasks_ ← traverse (merge_member db (_competing_task_ids db) objectives) rows;
      let material := py_sorted task_id tasks_ in
      let survivor := py_min objective_order first [second] in
      Ok (MkCandidate "manual_merge" origin_ "normal" (Some (o_objective_id survivor))
        (map (merge_change (o_objective_id survivor)) material)
        (map (retain_or_supersede (o_objective_id survivor)) objectives)
        material objectives union_start union_end (Some ids))
  | _ => raise (indeterminate "manual merge requires two current nonsuperseded Objectives")
  end.
