(* ===== verification/RegroupContracts.v ===== *)
(** The durable job contract of the regroup recompute:
    [objectives_tasks/jobs/__init__.py].

    The audit contracts of the regroup commands:
    [objectives_tasks/audit_registry.py], the three grouping actions. *)
From S2P Require Import Prelude StrictJson Identifiers Grouping Jobs AuditLedger Tables ObjectiveTables Regroup.
From S2P Require Import ObjectiveStore RegroupStore RegroupManual.

Definition GROUPING_RECOMPUTE_JOB_TYPE : string := "OBJECTIVE_GROUPING_RECOMPUTE_V1".
Definition GROUPING_RECOMPUTE_JOB_CONTRACT_VERSION : Z := 1.
Definition _ACTIVE_STATES : list string := ["queued"; "running"; "waiting_review"; "retry_wait"].
Definition _PHASES : list string := ["queued"; "scanning"; "publishing"].
Definition _RETRYABLE : list string := ["JOB_INTERRUPTED"; "PERSISTENCE_BUSY"; "JOB_CLAIM_CONFLICT"].
Definition _RETRY_DELAY_BY_ATTEMPT (n : Z) : option Z :=
  if n =? 1 then Some 5 else if n =? 2 then Some 30 else if n =? 3 then Some 120 else None.

Definition invalid {A} (m : string) : result A := raise (ValidationError m).
(** The fields of a value that is an object with exactly these keys. *)
Definition _exact_dict (value : json) (keys : list string) (label : string) : result (list (string * json)) :=
  match value with
  | JObj fields =>
      if bool_decide ((list_to_set fields.*1 : gset string) = list_to_set keys) then Ok fields
      else invalid (label +:+ " must contain exactly the registered fields")
  | _ => invalid (label +:+ " must contain exactly the registered fields")
  end.
Definition _uuid (value : option json) (label : string) : result string :=
  match value with
  | Some (JStr s) => if is_uuid4 s then Ok s else invalid (label +:+ " must be canonical UUIDv4 text")
  | _ => invalid (label +:+ " must be canonical UUIDv4 text")
  end.
Definition validate_grouping_recompute_payload (value : json) : result unit :=
  payload ← _exact_dict value ["origin"; "requested_by_command_id"] "grouping recompute job payload";
  _ ← match dget "origin" payload with
    | Some (JStr o) => forbid (negb (set_token GROUPING_ORIGINS o))
        (ValidationError "grouping recompute job origin is invalid")
    | Some (JArr _) | Some (JObj _) => Raise (PyExn "TypeError")
    | _ => invalid "grouping recompute job origin is invalid" end;
  _ ← _uuid (dget "requested_by_command_id" payload) "requested_by_command_id";
  Ok tt.
Definition validate_grouping_recompute_checkpoint (value : json) : result unit :=
  checkpoint ← _exact_dict value ["phase"; "published_proposal_count"] "grouping recompute checkpoint";
  _ ← match dget "phase" checkpoint with
    | Some (JStr p) => forbid (negb (set_token _PHASES p))
        (ValidationError "grouping recompute checkpoint phase is invalid")
    | Some (JArr _) | Some (JObj _) => Raise (PyExn "TypeError")
    | _ => invalid "grouping recompute checkpoint phase is invalid" end;
  match dget "published_proposal_count" checkpoint with
  | Some (JInt n) => forbid (n <? 0) (ValidationError "published_proposal_count must be int>=0")
  | _ => invalid "published_proposal_count must be int>=0"
  end.
Definition derive_grouping_recompute_dedupe_key (payload : json) : result string :=
  _ ← validate_grouping_recompute_payload payload;
  match jfield "origin" payload with
  | Some (JStr o) => Ok (GROUPING_RECOMPUTE_JOB_TYPE +:+ ":" +:+ o)
  | _ => Raise key_error
  end.
Definition _validate_grouping_recompute_failure (error_code : string) (attempt_ordinal now : Z)
    (retry_at : option Z) : result unit :=
  _ ← forbid (negb (_ERROR_CODE error_code)) (ValidationError "grouping durable failure code is invalid");
  _ ← forbid (attempt_ordinal <? 1) (ValidationError "grouping durable attempt_ordinal must be int>=1");
  _ ← forbid (now <? 0) (ValidationError "grouping durable failure time is invalid");
  match (if set_token _RETRYABLE error_code then _RETRY_DELAY_BY_ATTEMPT attempt_ordinal else None) with
  | Some delay => forbid (negb (bool_decide (retry_at = Some (now + delay))))
      (ValidationError "retryable grouping failure uses wrong retry_at")
  | None => forbid (negb (bool_decide (retry_at = None)))
      (ValidationError "terminal grouping failure requires retry_at=null")
  end.
Definition _validate_grouping_recompute_cancellation (context : json) (state_ : string) : result unit :=
  context ← _exact_dict context ["command_id"] "grouping recompute cancellation context";
  _ ← _uuid (dget "command_id" context) "grouping cancellation command_id";
  Ok tt.
Definition _recover_grouping_recompute_stale (payload : json) (checkpoint : option json) (attempt_ordinal now : Z)
    : result StaleRecoveryDisposition :=
  _ ← validate_grouping_recompute_payload payload;
  _ ← match checkpoint with Some c => validate_grouping_recompute_checkpoint c | None => Ok tt end;
  _ ← forbid (attempt_ordinal <? 1) (ValidationError "grouping recovery attempt_ordinal must be int>=1");
  _ ← forbid (now <? 0) (ValidationError "grouping recovery time is invalid");
  if attempt_ordinal <=? 3 then Ok (MkDisposition "retry_wait" (Some now) (Some "JOB_INTERRUPTED"))
  else Ok (MkDisposition "failed" None (Some "JOB_INTERRUPTED")).
Definition GROUPING_RECOMPUTE_JOB_CONTRACT : JobTypeContract json :=
  MkJobContract json GROUPING_RECOMPUTE_JOB_TYPE GROUPING_RECOMPUTE_JOB_CONTRACT_VERSION
    validate_grouping_recompute_payload validate_grouping_recompute_checkpoint derive_grouping_recompute_dedupe_key
    _ACTIVE_STATES _validate_grouping_recompute_failure _validate_grouping_recompute_cancellation
    _recover_grouping_recompute_stale.
Definition OBJECTIVES_TASKS_JOB_CONTRACTS : list (JobTypeContract json) := [GROUPING_RECOMPUTE_JOB_CONTRACT].

Definition audit_invalid (b : bool) (m : string) : result unit := forbid b (audit_error "AUDIT_PAYLOAD_INVALID" m).
(** [value in {...}] for a payload field; an array or object is unhashable. *)
Definition field_token (tokens : list string) (value : option json) (m : string) : result unit :=
  match value with
  | Some (JStr s) => audit_invalid (negb (set_token tokens s)) m
  | Some (JArr _) | Some (JObj _) => Raise (PyExn "TypeError")
  | _ => audit_invalid true m
  end.
Definition uuid_field (value : option json) (m : string) : result unit :=
  audit_invalid (match value with Some (JStr s) => negb (is_uuid4 s) | _ => true end) m.
Definition _validate_bounded_reason (reason : option json) (required : bool) (label : string) : result unit :=
  match reason with
  | None | Some JNull => audit_invalid required (label +:+ " reason must be text")
  | Some (JStr s) =>
      _ ← audit_invalid (negb (utf8_encodable s)) (label +:+ " reason is invalid Unicode");
      audit_invalid (negb (bounded_line s)) (label +:+ " reason violates its bound")
  | _ => audit_invalid true (label +:+ " reason must be text")
  end.

Definition _GROUPING_EVENTS : list string := ["RECOMPUTED"; "ACCEPTED"; "REJECTED"; "RECONSIDERED"].
Definition _validate_grouping_recompute_deferred (p : json) : result unit :=
  _ ← uuid_field (jfield "job_id" p) "grouping deferred job identity is invalid";
  _ ← field_token GROUPING_ORIGINS (jfield "origin" p) "grouping deferred origin is invalid";
  _ ← audit_invalid (match jfield "workset_exact_count" p with Some (JInt n) => n <=? 100000 | _ => true end)
    "grouping deferred workset must exceed the soft threshold";
  _ ← audit_invalid (match jfield "soft_threshold" p with Some (JInt n) => negb (n =? 100000) | _ => true end)
    "grouping deferred threshold is invalid";
  audit_invalid (match jfield "execution_mode" p with Some (JStr s) => negb (String.eqb s "durable_job") | _ => true end)
    "grouping deferred execution mode is invalid".
Definition _validate_grouping_audit (p : json) : result unit :=
  let count k := match jfield k p with Some (JInt n) => n <? 0 | _ => true end in
  _ ← uuid_field (jfield "proposal_id" p) "grouping proposal identity is invalid";
  _ ← field_token _GROUPING_EVENTS (jfield "event_kind" p) "grouping event_kind is invalid";
  _ ← field_token proposal_kinds (jfield "proposal_kind" p) "grouping proposal_kind is invalid";
  _ ← field_token ["normal"; "high"] (jfield "risk_tier" p) "grouping risk_tier is invalid";
  _ ← audit_invalid (match jfield "input_fingerprint" p with Some (JStr s) => negb (is_sha256 s) | _ => true end)
    "grouping fingerprint is invalid";
  _ ← audit_invalid (count "task_change_count" || count "objective_change_count") "grouping count is invalid";
  _validate_bounded_reason (jfield "reason_category" p)
    (match jfield "event_kind" p with Some (JStr s) => set_token ["REJECTED"; "RECONSIDERED"] s | _ => false end)
    "Grouping".

Definition _contract (name : string) (fields : list string) (max_items : Z) : ObjectContract :=
  MkContract name 1 (list_to_set fields) (list_to_set fields) "reject" 4 max_items 16384.
Definition grouping_recompute_deferred_fields : list string :=
  ["job_id"; "origin"; "workset_exact_count"; "soft_threshold"; "execution_mode"].
Definition grouping_fields : list string :=
  ["proposal_id"; "event_kind"; "proposal_kind"; "risk_tier"; "input_fingerprint"; "task_change_count";
   "objective_change_count"; "reason_category"].
Definition grouping_contract (action : string) : AuditActionContract :=
  MkActionContract action 1 "GroupingAuditV1" 1 (_contract "GroupingAuditV1" grouping_fields 16) None
    (Some _validate_grouping_audit).
Definition deferred_contract : AuditActionContract :=
  MkActionContract "grouping.recompute_deferred" 1 "GroupingRecomputeDeferredAuditV1" 1
    (_contract "GroupingRecomputeDeferredAuditV1" grouping_recompute_deferred_fields 12) None
    (Some _validate_grouping_recompute_deferred).
(** The grouping part of [build_objectives_tasks_audit_registry]. *)
Definition grouping_audit_registry : AuditRegistry :=
  map (fun c => ((ac_action_type c, ac_action_version c), c))
    [deferred_contract; grouping_contract "grouping.proposal_recomputed"; grouping_contract "grouping.proposal_decided"].

(** * Events *)
Definition grouping_payload (id event kind risk fingerprint : string) (tasks_ objectives_ : Z)
    (reason : option string) : json := JObj [
  ("proposal_id", JStr id); ("event_kind", JStr event); ("proposal_kind", JStr kind); ("risk_tier", JStr risk);
  ("input_fingerprint", JStr fingerprint); ("task_change_count", JInt tasks_);
  ("objective_change_count", JInt objectives_); ("reason_category", jopt JStr reason)].
(** An event on one proposal. *)
Definition grouping_event (audit_id action command id : string) (a : actor) (job reason : option string)
    (payload_ : json) (refs : list AuditResultRef) : AuditEventInput :=
  MkAuditEvent audit_id action 1 (act_kind a) "grouping_proposal" command "GroupingAuditV1" 1 payload_ (act_id a)
    (Some id) reason None job None None None refs.
Definition proposal_ref (id : string) : AuditResultRef := MkResultRef "grouping_proposal" id.
Definition deferred_event (audit_id command job origin_ : string) (count : Z) (a : actor) : AuditEventInput :=
  MkAuditEvent audit_id "grouping.recompute_deferred" 1 (act_kind a) "grouping" command
    "GroupingRecomputeDeferredAuditV1" 1
    (JObj [("job_id", JStr job); ("origin", JStr origin_); ("workset_exact_count", JInt count);
           ("soft_threshold", JInt 100000); ("execution_mode", JStr "durable_job")])
    (act_id a) None None None (Some job) None None None [MkResultRef "durable_job" job].
