(* ===== verification/RegroupCommands.v ===== *)
(** The regroup recompute: [GroupingService.recompute_grouping_proposals] and
    the durable worker of [objectives_tasks/jobs/grouping_recompute.py].

    The recompute reads twice before it writes: [probe] and [snapshot] are the
    databases its two read snapshots see; the state is the one its unit of work
    locks.  What a callback keeps for a later one ([apply_deferred.job_id],
    [apply_sync.items]) is the value it computed. *)
From S2P Require Import Prelude StrictJson Identifiers Grouping Jobs AuditLedger Tables CommandBoundary.
From S2P Require Import ObjectiveTables Regroup ObjectiveStore RegroupStore RegroupManual RegroupContracts.

Definition _GROUPING_WORKSET_SOFT_THRESHOLD : Z := 100000.
Definition regroupM : Type -> Type := ledgerM (domain := ObjDb).
Definition on_durable {A} (m : jobsM A) : objM A := fun db =>
  let '(d, r) := m (durable db) in (set_durable d db, r).
Definition grouping_job_registry : @JobTypeRegistry json :=
  match make_registry OBJECTIVES_TASKS_JOB_CONTRACTS with Ok r => r | Raise _ => [] end.

Definition _receipt_count (db : LedgerDb ObjDb) : Z := Z.of_nat (size (command_receipts db)).
Definition _recompute_response (mode : string) (job : option string) (items : list json) : json := JObj [
  ("execution_mode", JStr mode); ("job_id", jopt JStr job);
  ("proposals", JObj [("items", JArr items); ("continuation", JNull);
     ("exact_total", JInt (Z.of_nat (length items)))])].
Definition scope_value (s : string * string) : json := JObj [
  ("kind", JStr "manual_exact_touch_merge"); ("objective_ids", JArr [JStr s.1; JStr s.2])].
Definition recompute_envelope (command origin_ : string) (scope : option (string * string)) : CommandEnvelope :=
  MkEnvelope command "RecomputeGroupingProposals" "grouping" None
    (("origin", JStr origin_) :: match scope with Some s => [("trigger_scope", scope_value s)] | None => [] end)
    [] [] None.

(** What the planning snapshot gives. *)
Record recompute_plan := MkRecomputePlan {
  rp_scoped_ids : option (string * string);
  rp_workset_count : option Z;
  rp_snapshot_receipt_count : option Z;
  rp_candidates : list RegroupCandidate
}.
Definition recompute_prepared (kind : option string) (id : option string)
    (apply : option (regroupM (option (list AuditEventInput)))) (response_ : option json)
    (factory : option (regroupM json)) : PreparedMutation ObjDb :=
  MkPrepared (match apply with None => true | Some _ => false end) kind id apply "GroupingRecomputeResultV1" 1
    response_ factory None.

Section recompute.
Context `{Sha256, FloatText} (fresh : site -> string) (clock : site -> Z).

Definition _probe_replay (e : CommandEnvelope) (db : LedgerDb ObjDb) : result (option json) :=
  hash ← request_hash e;
  match command_receipts db !! command_id e with
  | None => Ok None
  | Some existing =>
      _ ← _assert_replay_match existing e hash;
      match command_receipt_results db !! command_id e with
      | None => raise IdempotencyResultUnavailable
      | Some exact =>
          value ← _decode_stored_response exact;
          match value with
          | JObj _ => Ok (Some value)
          | _ => raise (IntegrityFailure "grouping recompute replay result is not an object")
          end
      end
  end.

Definition plan_recompute (db : LedgerDb ObjDb) (origin_ : string) (scope : option (string * string))
    : result recompute_plan :=
  match scope with
  | Some ids =>
      c ← _manual_exact_touch_candidate (domain_state db) ids origin_;
      Ok (MkRecomputePlan (Some ids) None None [c])
  | None =>
      count ← _eligible_workset_count (domain_state db);
      if _GROUPING_WORKSET_SOFT_THRESHOLD <? count then Ok (MkRecomputePlan None (Some count) None [])
      else
        cs ← _candidates (domain_state db) origin_;
        Ok (MkRecomputePlan None (Some count) (Some (_receipt_count db)) cs)
  end.

(** ** Deferring to a durable job *)
Definition deferred_payload (origin_ command : string) : json :=
  JObj [("origin", JStr origin_); ("requested_by_command_id", JStr command)].
Definition apply_deferred (command origin_ : string) (count : Z) (a : actor)
    : regroupM (option (list AuditEventInput)) :=
  let payload_ := deferred_payload origin_ command in
  key ← lift (derive_grouping_recompute_dedupe_key payload_);
  job ← on_domain (on_durable (enqueue_or_coalesce grouping_job_registry (clock ["job"]) (fresh ["job"])
    GROUPING_RECOMPUTE_JOB_TYPE GROUPING_RECOMPUTE_JOB_CONTRACT_VERSION payload_ key));
  mret (Some [deferred_event (fresh ["audit"; "deferred"]) command job origin_ count a]).
(** The job identity is that of the event just written. *)
Definition deferred_response : regroupM json := fun db =>
  (db, Ok (_recompute_response "durable_job"
    (audit_events db !! fresh ["audit"; "deferred"] ≫= fun r => ae_job_id (ar_event r)) [])).

(** ** Publishing proposals *)
Definition proposal_item (id : string) (c : RegroupCandidate) (fingerprint : string) : json := JObj [
  ("proposal_id", JStr id); ("revision", JInt 1); ("input_fingerprint", JStr fingerprint); ("state", JStr "pending");
  ("diff", JObj [("proposal_kind", JStr (proposal_kind c)); ("risk_tier", JStr (risk_tier c));
     ("task_change_count", JInt (Z.of_nat (length (Grouping.task_changes c))));
     ("objective_change_count", JInt (Z.of_nat (length (Grouping.objective_changes c))))])].
Definition recomputed_event (command id : string) (c : RegroupCandidate) (fingerprint : string) (a : actor)
    (job : option string) : AuditEventInput :=
  grouping_event (fresh ["audit"; id]) "grouping.proposal_recomputed" command id a job None
    (grouping_payload id "RECOMPUTED" (proposal_kind c) (risk_tier c) fingerprint
       (Z.of_nat (length (Grouping.task_changes c))) (Z.of_nat (length (Grouping.objective_changes c))) None)
    [proposal_ref id].
(** Neither pending already nor rejected and not reconsidered. *)
Definition publishable (db : ObjDb) (fingerprint : string) : bool :=
  bool_decide (RegroupProposalRepository.exact_pending_by_fingerprint db fingerprint = None)
  && negb (RegroupProposalRepository.rejection_suppressed db fingerprint).
Definition with_fingerprint (c : RegroupCandidate) : result (RegroupCandidate * string) :=
  f ← input_fingerprint c; Ok (c, f).
Definition material_candidates (db : ObjDb) (cs : list RegroupCandidate) : result (list (RegroupCandidate * string)) :=
  keyed ← traverse with_fingerprint cs;
  Ok (filter (fun cf => publishable db cf.2 = true) keyed).
Definition with_ids (material : list (RegroupCandidate * string)) : list (string * (RegroupCandidate * string)) :=
  map (fun nc => (fresh ["proposal"; nc.1], nc.2)) (RegroupProposalRepository.indexed material).
Definition apply_sync (command : string) (a : actor) (material : list (string * (RegroupCandidate * string)))
    : regroupM (option (list AuditEventInput)) :=
  _ ← on_domain (each (fun icf : string * (RegroupCandidate * string) =>
    RegroupProposalRepository.publish_candidate fresh clock icf.1 command icf.2.1 icf.2.2) material);
  mret (Some (map (fun icf => recomputed_event command icf.1 icf.2.1 icf.2.2 a None) material)).

Definition prepare_sync (command : string) (a : actor) (db : LedgerDb ObjDb) (p : recompute_plan)
    : regroupM (PreparedMutation ObjDb) :=
  material ← lift (material_candidates (domain_state db) (rp_candidates p));
  match with_ids material with
  | [] => mret (recompute_prepared None None None (Some (_recompute_response "synchronous" None [])) None)
  | (first_id, cf) :: rest =>
      let material := (first_id, cf) :: rest in
      mret (recompute_prepared (Some "grouping_proposal") (Some first_id) (Some (apply_sync command a material)) None
        (Some (mret (_recompute_response "synchronous" None
          (map (fun icf => proposal_item icf.1 icf.2.1 icf.2.2) material)))))
  end.
Definition prepare_recompute (command origin_ : string) (a : actor) (p : recompute_plan)
    : regroupM (PreparedMutation ObjDb) :=
  db ← read_st;
  current_count ← lift (match rp_scoped_ids p with
    | Some ids =>
        current ← _manual_exact_touch_candidate (domain_state db) ids origin_;
        same ← match rp_candidates p with
          | [planned] => f ← input_fingerprint current; f' ← input_fingerprint planned; Ok (String.eqb f f')
          | _ => Ok false end;
        _ ← forbid (negb same) (indeterminate "manual merge authority changed after the stable read Snapshot");
        Ok None
    | None => count ← _eligible_workset_count (domain_state db); Ok (Some count)
    end);
  match rp_workset_count p, current_count with
  | Some workset, Some count =>
      if _GROUPING_WORKSET_SOFT_THRESHOLD <? workset then
        _ ← lift (forbid (count <=? _GROUPING_WORKSET_SOFT_THRESHOLD)
          (indeterminate "grouping workset crossed the durable threshold; recompute must retry"));
        mret (recompute_prepared (Some "durable_job") None (Some (apply_deferred command origin_ count a)) None
          (Some deferred_response))
      else
        _ ← lift (forbid (negb (count =? workset)
            || negb (bool_decide (rp_snapshot_receipt_count p = Some (_receipt_count db))))
          (indeterminate "grouping authority changed after the stable read Snapshot"));
        prepare_sync command a db p
  | _, _ => prepare_sync command a db p
  end.
Definition recompute_grouping_proposals (audit : AuditRegistry) (audit_clock : string -> Z) (command origin_ : string)
    (trigger_scope : option json) (a : actor) (probe snapshot : LedgerDb ObjDb) : regroupM json :=
  _ ← lift (forbid (negb (set_token GROUPING_ORIGINS origin_)) (ValidationError "grouping origin is invalid"));
  scope ← lift (_normalize_trigger_scope origin_ trigger_scope);
  let e := recompute_envelope command origin_ scope in
  replayed_ ← lift (_probe_replay e probe);
  match replayed_ with
  | Some response_ => mret response_
  | None =>
      p ← lift (plan_recompute snapshot origin_ scope);
      x ← execute audit (clock ["receipt"]) audit_clock e (prepare_recompute command origin_ a p);
      mret (x_response x)
  end.

(** * The durable worker *)
Definition _JOB_JSON_BYTES : Z := 65536.
Record GroupingRecomputeJobRunResult := MkJobRun {
  jr_job_id : string; jr_origin : string; jr_candidate_exact_count : Z; jr_published_proposal_count : Z
}.
Definition _payload (c : DurableJobClaim) : result (string * string) :=
  _ ← forbid (negb (String.eqb (cl_job_type c) GROUPING_RECOMPUTE_JOB_TYPE)
      || negb (cl_contract_version c =? GROUPING_RECOMPUTE_JOB_CONTRACT_VERSION))
    (ValidationError "claim is not OBJECTIVE_GROUPING_RECOMPUTE_V1");
  value ← loads_canonical_json (cl_payload_json c) _JOB_JSON_BYTES 3 8;
  match value with
  | JObj _ =>
      _ ← rethrow (validation_to
          (IntegrityFailure "persisted grouping recompute payload violates its registered contract"))
        (validate_grouping_recompute_payload value);
      match jfield "origin" value, jfield "requested_by_command_id" value with
      | Some (JStr o), Some (JStr command) => Ok (o, command)
      | _, _ => Raise key_error
      end
  | _ => raise (IntegrityFailure "persisted grouping recompute payload must be an object")
  end.
Definition phase (name : string) (published : Z) : json :=
  JObj [("phase", JStr name); ("published_proposal_count", JInt published)].
(** The unit of work of one candidate: whether it was published. *)
Definition publish_step (audit : AuditRegistry) (audit_clock : string -> Z) (c : DurableJobClaim) (command : string)
    (a : actor) (published : Z) (n : string) (candidate : RegroupCandidate) : regroupM bool :=
  in_uow (
    _ ← on_domain (on_durable (assert_claim_current grouping_job_registry c));
    f ← lift (input_fingerprint candidate);
    db ← read_st;
    if publishable (domain_state db) f then
      id ← on_domain (RegroupProposalRepository.insert_candidate fresh clock candidate f command [n]);
      let event := recomputed_event command id candidate f a (Some (cl_job_id c)) in
      _ ← write audit (audit_clock (audit_event_id event)) event;
      _ ← on_domain (on_durable (checkpoint_in_uow grouping_job_registry (clock ["checkpoint"; n]) c
        (phase "publishing" (published + 1))));
      mret true
    else mret false).
(** Other writers may commit between two units of work of a run: [others]. *)
Definition others_commit (others : LedgerDb ObjDb -> LedgerDb ObjDb) : regroupM unit := modify_st others.
Definition run (audit : AuditRegistry) (audit_clock : string -> Z) (others : string -> LedgerDb ObjDb -> LedgerDb ObjDb)
    (c : DurableJobClaim) (a : actor) : regroupM GroupingRecomputeJobRunResult :=
  '(origin_, command) ← lift (_payload c);
  _ ← on_domain (on_durable (checkpoint grouping_job_registry (clock ["scanning"]) c (phase "scanning" 0)));
  _ ← others_commit (others "snapshot");
  db ← read_st;
  candidates ← lift (_candidates (domain_state db) origin_);
  _ ← others_commit (others "publishing");
  _ ← on_domain (on_durable (checkpoint grouping_job_registry (clock ["publishing"]) c (phase "publishing" 0)));
  published ← foldS (fun published (nc : string * RegroupCandidate) =>
      _ ← others_commit (others nc.1);
      done_ ← publish_step audit audit_clock c command a published nc.1 nc.2;
      mret (if done_ : bool then published + 1 else published)) 0 (RegroupProposalRepository.indexed candidates);
  _ ← others_commit (others "complete");
  _ ← on_domain (on_durable (complete grouping_job_registry (clock ["complete"]) (fresh ["attempt"]) c));
  mret (MkJobRun (cl_job_id c) origin_ (Z.of_nat (length candidates)) published).
End recompute.
