(* ===== verification/RegroupDecisions.v ===== *)
(** Accepting, rejecting and reconsidering regroup proposals:
    [GroupingService.accept_regroup_proposal] and its helpers,
    [reject_regroup_proposal], [reconsider_regroup_inputs], with the allocator,
    envelope and overlap helpers of [objectives_tasks/services/objectives.py]. *)
From S2P Require Import Prelude StrictJson Identifiers Grouping Jobs AuditLedger Tables CommandBoundary.
From S2P Require Import ObjectiveTables Regroup ObjectiveStore ObjectiveAggregate RegroupStore RegroupManual.
From S2P Require Import RegroupContracts RegroupCommands.

Definition _fingerprint (value : string) : result string :=
  _ ← forbid (negb (is_sha256 value)) (ValidationError "input_fingerprint must be lowercase SHA-256"); Ok value.
Definition validate_task_reason_category (value : string) : result string :=
  _ ← forbid (negb (utf8_encodable value)) (ValidationError "reason_category must be valid Unicode");
  _ ← forbid (negb (bounded_line value))
    (ValidationError "reason_category violates its bounded one-line contract");
  Ok value.
Definition not_found : SomaError := regroup_error "GROUPING_PROPOSAL_NOT_FOUND" "grouping proposal does not exist".
Definition stale_error (m : string) : SomaError := regroup_error "GROUPING_PROPOSAL_STALE" m.
Definition _proposal_response (id : string) (p : ProposalRow) (state_ : string) (revision tasks_ objectives_ : Z) : json :=
  JObj [("proposal_id", JStr id); ("revision", JInt revision); ("input_fingerprint", JStr (pr_input_fingerprint p));
    ("state", JStr state_);
    ("diff", JObj [("proposal_kind", JStr (pr_proposal_kind p)); ("origin", JStr (pr_origin p));
       ("risk_tier", JStr (pr_risk_tier p)); ("task_change_count", JInt tasks_);
       ("objective_change_count", JInt objectives_)])].
Definition _persisted_changes (db : ObjDb) (id : string) : list TaskChangeRow * list ObjectiveChangeRow :=
  (RegroupProposalRepository.task_changes db id, RegroupProposalRepository.objective_changes db id).
Definition proposal_envelope (command command_type_ id : string) (payload_ : list (string * json))
    (revision : option Z) (fingerprint : string) : CommandEnvelope :=
  MkEnvelope command command_type_ "grouping_proposal" (Some id) payload_
    match revision with Some r => [("grouping_proposal:" +:+ id, r)] | None => [] end
    [("input_fingerprint", fingerprint)] None.

(** * Reviewing against the current authority *)
Definition task_change_key (c : GroupingTaskChange) : string * string * string * string :=
  (tc_task_id c, default EmptyString (tc_from_objective_id c), default EmptyString (tc_to_objective_id c),
   tc_change_kind c).
Definition objective_change_key (c : GroupingObjectiveChange) : string * string :=
  (default EmptyString (oc_objective_id c), oc_action c).
Definition _assert_persisted_diff (c : RegroupCandidate) (task_rows : list TaskChangeRow)
    (objective_rows : list ObjectiveChangeRow) : result unit :=
  forbid (negb (bool_decide (py_sorted task_change_key (map tr_change task_rows)
        = py_sorted task_change_key (Grouping.task_changes c)))
      || negb (bool_decide (py_sorted objective_change_key (map or_change objective_rows)
        = py_sorted objective_change_key (Grouping.objective_changes c))))
    (stale_error "persisted regroup diff disagrees with current material input").

(** * Objectives *)
Definition _tracking_allocator (db : ObjDb) : result (Z * Z) :=
  match objective_tracking_allocator db with
  | None => raise (IntegrityFailure "Objective tracking allocator is missing")
  | Some (sequence, revision) =>
      _ ← forbid (100000000 <=? sequence)
        (regroup_error "OBJECTIVE_TRACKING_ID_EXHAUSTED" "Objective tracking identity is exhausted");
      Ok (sequence, revision)
  end.
Definition _advance_tracking_allocator (sequence revision : Z) : objM unit :=
  changed ← advance_allocator sequence revision;
  lift (forbid (negb (changed =? 1)) (regroup_error "OBJECTIVE_STALE" "Objective tracking allocator changed")).
(** [f"MW-{sequence:08d}"]. *)
Fixpoint zeros (n : nat) : string := match n with O => EmptyString | S n => String (Ascii.ascii_of_N 48) (zeros n) end.
Definition tracking_text (sequence : Z) : string :=
  "MW-" +:+ zeros (8 - String.length (int_text sequence)) +:+ int_text sequence.
(** The members of an Objective with their pinned intervals, in task order. *)
Definition envelope_material (members : list (string * MembershipRow * PlanRow)) : list (string * string * Z * Z) :=
  map (fun r : string * MembershipRow * PlanRow =>
    let '(t, m, p) := r in (t, ms_accepted_plan_revision_id m, pl_start_utc p, pl_end_utc p)) members.
Definition material_start (members : list (string * string * Z * Z)) : Z :=
  default 0 (min_of (map (fun r => r.1.2) members)).
Definition material_end (members : list (string * string * Z * Z)) : Z := default 0 (max_of (map snd members)).
Definition material_value (r : string * string * Z * Z) : json :=
  let '(t, plan, s, e) := r in JObj [("task_id", JStr t); ("plan_revision_id", JStr plan); ("start_utc", JInt s);
    ("end_utc", JInt e)].
Definition _assert_no_overlap (id : string) : objM unit :=
  db ← read_st;
  match objective_envelope_projection db !! id with
  | None => lift (raise (IntegrityFailure "Objective envelope disappeared before overlap guard"))
  | Some e => lift (forbid (negb (bool_decide (overlapping_current db id (en_start_utc e) (en_end_utc e) = [])))
      (regroup_error "OBJECTIVE_OVERLAP" "Objective would overlap current accepted Objective authority"))
  end.

Section decisions.
Context `{Sha256, FloatText} (fresh : site -> string) (clock : site -> Z).

Definition _candidate_for_proposal (db : ObjDb) (id : string) (p : ProposalRow) : result RegroupCandidate :=
  if String.eqb (pr_proposal_kind p) "manual_merge" then
    let ids := py_sorted (fun s => s) (omap (fun r =>
        if set_token ["retain"; "supersede"] (oc_action (or_change r)) then oc_objective_id (or_change r) else None)
      (RegroupProposalRepository.objective_changes db id)) in
    match ids with
    | [a; b] =>
        _ ← forbid (String.eqb a b) (stale_error "manual merge proposal scope is incomplete");
        let drifted := stale_error "current manual merge authority no longer reproduces reviewed proposal" in
        c ← rethrow (fun e => match e with Soma _ => Soma drifted | PyExn k => PyExn k end)
          (_manual_exact_touch_candidate db (a, b) (pr_origin p));
        f ← input_fingerprint c;
        _ ← forbid (negb (String.eqb f (pr_input_fingerprint p))) drifted;
        Ok c
    | _ => raise (stale_error "manual merge proposal scope is incomplete")
    end
  else
    cs ← _candidates db (pr_origin p);
    keyed ← traverse with_fingerprint cs;
    match filter (fun cf => cf.2 = pr_input_fingerprint p /\ proposal_kind cf.1 = pr_proposal_kind p) keyed with
    | [(c, _)] => Ok c
    | _ => raise (stale_error "current grouping authority no longer reproduces reviewed proposal")
    end.

Definition membership_fingerprint (members : list (string * string * Z * Z)) : result string :=
  sha256_canonical_json (JObj [("schema", JStr "OBJECTIVE_MEMBERSHIP_INPUT_V1");
    ("members", JArr (map material_value members))]).
Definition envelope_row (members : list (string * string * Z * Z)) (fingerprint : string) (revision : Z)
    (command : string) : EnvelopeRow :=
  MkEnvelopeRow (material_start members) (material_end members) (Z.of_nat (length members)) fingerprint revision command.
Definition _insert_envelope (id : string) (members : list (string * string * Z * Z)) (command : string) : objM string :=
  _ ← lift (forbid (bool_decide (members = [])) (IntegrityFailure "Objective cannot publish an empty envelope"));
  fingerprint ← lift (membership_fingerprint (py_sorted (fun r => r) members));
  _ ← insert_envelope id (envelope_row members fingerprint 1 command);
  mret fingerprint.
Definition _rebuild_survivor_envelope (id : string) (expected : Z) (command : string) : objM Z :=
  db ← read_st;
  let members := envelope_material (member_rows db id) in
  _ ← lift (forbid (bool_decide (members = []))
    (IntegrityFailure "accepted regroup would leave survivor Objective empty"));
  fingerprint ← lift (membership_fingerprint members);
  changed ← update_envelope id expected (envelope_row members fingerprint (expected + 1) command);
  _ ← lift (forbid (negb (changed =? 1)) (stale_error "survivor Objective envelope changed"));
  mret (expected + 1).

(** * Applying a membership change *)
Definition membership_event_kind (current : option MembershipRow) (kind : string) : string :=
  match current with None => "add" | Some _ => if String.eqb kind "repin" then "repin_plan" else "move" end.
Definition _apply_membership_change (accepting : gset string) (proposal : string) (row : TaskChangeRow)
    (survivor command : string) : objM (option string) :=
  let c := tr_change row in
  let t := tc_task_id c in
  let plan := tc_expected_current_plan_revision_id c in
  db ← read_st;
  let current := objective_task_membership_current db !! t in
  if String.eqb (tc_change_kind c) "unchanged_context" then
    _ ← lift (forbid (match current with
        | None => true
        | Some m => negb (String.eqb (ms_objective_id m) survivor)
            || negb (String.eqb (ms_accepted_plan_revision_id m) plan)
            || negb (bool_decide (Some (ms_membership_revision m) = tc_expected_membership_revision c)) end)
      (stale_error "unchanged regroup context drifted"));
    mret None
  else
    let event := fresh ["membership_event"; proposal; t] in
    _ ← insert_membership_event event (MkMembershipEventRow t (membership_event_kind current (tc_change_kind c))
      (tc_from_objective_id c) (Some survivor) plan (Some proposal) (clock ["membership_event"; proposal; t]) command);
    match current with
    | None =>
        _ ← lift (forbid (negb (bool_decide (tc_expected_membership_revision c = None))
            || negb (bool_decide (tc_from_objective_id c = None)))
          (stale_error "add regroup membership precondition drifted"));
        _ ← insert_membership t (MkMembershipRow survivor plan 1 event command);
        mret (Some event)
    | Some m =>
        _ ← lift (forbid (negb (bool_decide (tc_from_objective_id c = Some (ms_objective_id m)))
            || negb (bool_decide (tc_expected_membership_revision c = Some (ms_membership_revision m))))
          (stale_error "regroup membership precondition drifted"));
        changed ← move_membership accepting t (ms_objective_id m) (ms_membership_revision m)
          (MkMembershipRow survivor plan (ms_membership_revision m + 1) event command);
        _ ← lift (forbid (negb (changed =? 1)) (stale_error "regroup membership changed"));
        mret (Some event)
    end.

(** * Accepting *)
(** The new Objective of a [create] proposal: its row and its archive state. *)
Definition create_objective (survivor : string) (sequence revision : Z) (command : string) : objM unit :=
  _ ← _advance_tracking_allocator sequence revision;
  _ ← insert_objective survivor (MkObjectiveRow sequence (tracking_text sequence) "automatic_grouping" None 1
    (clock ["objective"; survivor]) command);
  insert_archive survivor.
Definition apply_memberships (accepting : gset string) (proposal survivor command : string)
    (rows : list TaskChangeRow) : objM (list string) :=
  foldS (fun events row =>
    event ← _apply_membership_change accepting proposal row survivor command;
    mret (events ++ match event with Some e => [e] | None => [] end)) [] rows.
Definition py_int (n : option Z) : result Z := match n with Some n => Ok n | None => Raise (PyExn "TypeError") end.
(** The Objectives of the diff: superseded ones are closed, the survivor must
    be the one reviewed. *)
Definition apply_objective_change (survivor : string) (c : GroupingObjectiveChange) : objM (option string) :=
  match oc_objective_id c with
  | None => mret None
  | Some id =>
      revision ← lift (py_int (oc_expected_objective_revision c));
      _ ← (if String.eqb (oc_action c) "supersede" then
        changed ← supersede_objective id survivor revision;
        lift (forbid (negb (changed =? 1)) (stale_error "affected Objective revision changed"))
      else if String.eqb id survivor then
        db ← read_st;
        lift (forbid (match objectives db !! id with
            | Some o => negb (ob_revision o =? revision) || negb (bool_decide (ob_superseded_by_objective_id o = None))
            | None => true end) (stale_error "survivor Objective revision changed"))
      else mret tt);
      mret (Some id)
  end.
Definition apply_objectives (survivor : string) (rows : list ObjectiveChangeRow) : objM (list string) :=
  foldS (fun affected row =>
    id ← apply_objective_change survivor (or_change row);
    mret (affected ++ match id with Some id => [id] | None => [] end)) [] rows.
Definition survivor_envelope (new_objective : bool) (survivor : string) (rows : list ObjectiveChangeRow)
    (command : string) : objM unit :=
  if new_objective then
    db ← read_st;
    _ ← _insert_envelope survivor (envelope_material (member_rows db survivor)) command;
    mret tt
  else
    match head (filter (fun r => oc_objective_id (or_change r) = Some survivor) rows) with
    | None => lift (raise (IntegrityFailure "regroup survivor envelope revision is absent"))
    | Some r =>
        expected ← lift (py_int (oc_expected_envelope_revision (or_change r)));
        _ ← _rebuild_survivor_envelope survivor expected command;
        mret tt
    end.
Definition rebuild_affected (survivor command : string) (affected : list string) : objM unit :=
  _ ← rebuild_aggregate survivor command;
  each (fun id => if String.eqb id survivor then mret tt else _ ← rebuild_aggregate id command; mret tt)
    (py_sorted (fun s => s) (elements (list_to_set affected : gset string))).
Record accept_plan := MkAcceptPlan {
  ap_task_rows : list TaskChangeRow;
  ap_objective_rows : list ObjectiveChangeRow;
  ap_survivor : string;
  ap_new : option (Z * Z)
}.
Definition changed_rows (rows : list TaskChangeRow) : list TaskChangeRow :=
  filter (fun r => String.eqb (tc_change_kind (tr_change r)) "unchanged_context" = false) rows.
(** The writes of an acceptance; the membership events written. *)
Definition apply_accept (accepting : gset string) (id : string) (revision : Z) (fingerprint command : string)
    (p : accept_plan) : objM (list string) :=
  let survivor := ap_survivor p in
  _ ← match ap_new p with
    | Some (sequence, allocator_revision) => create_objective survivor sequence allocator_revision command
    | None => mret tt end;
  events ← apply_memberships accepting id survivor command (ap_task_rows p);
  _ ← lift (forbid (negb (bool_decide (length events = length (changed_rows (ap_task_rows p)))))
    (IntegrityFailure "regroup membership event cardinality drifted"));
  affected ← apply_objectives survivor (ap_objective_rows p);
  _ ← survivor_envelope (bool_decide (is_Some (ap_new p))) survivor (ap_objective_rows p) command;
  _ ← _assert_no_overlap survivor;
  _ ← rebuild_affected survivor command affected;
  _ ← RegroupProposalRepository.transition id revision fingerprint "accepted" command;
  mret events.
Definition accepted_event (command id : string) (p : ProposalRow) (fingerprint : string) (plan_ : accept_plan)
    (events : list string) (a : actor) : AuditEventInput :=
  grouping_event (fresh ["audit"; id]) "grouping.proposal_decided" command id a None None
    (grouping_payload id "ACCEPTED" (pr_proposal_kind p) (pr_risk_tier p) fingerprint
       (Z.of_nat (length (ap_task_rows plan_))) (Z.of_nat (length (ap_objective_rows plan_))) None)
    (proposal_ref id :: MkResultRef "objective" (ap_survivor plan_) ::
     map (MkResultRef "objective_membership") events).
(** The proposals whose acceptance has a receipt. *)
Definition accept_targets (db : LedgerDb ObjDb) : gset string :=
  list_to_set (omap (fun kr : string * CommandReceipt =>
      if String.eqb (rc_command_type kr.2) "AcceptRegroupProposal"
         && String.eqb (rc_target_type kr.2) "grouping_proposal"
      then rc_target_id kr.2 else None) (map_to_list (command_receipts db))).
Definition reviewed_proposal (db : ObjDb) (id : string) (revision : Z) (fingerprint : string)
    (accept_high_risk : bool) : result ProposalRow :=
  match RegroupProposalRepository.get db id with
  | None => raise not_found
  | Some p =>
      _ ← forbid (negb (String.eqb (pr_state p) "pending") || negb (pr_revision p =? revision)
          || negb (String.eqb (pr_input_fingerprint p) fingerprint)) (stale_error "grouping proposal changed");
      _ ← forbid (String.eqb (pr_risk_tier p) "high" && negb accept_high_risk)
        (regroup_error "OBJECTIVE_IN_PROGRESS_RESTRUCTURE_LIMIT"
           "high-risk in-progress regroup requires explicit acceptance");
      Ok p
  end.
(** The planning snapshot: the candidate the proposal stands for. *)
Definition plan_accept (db : ObjDb) (id : string) (revision : Z) (fingerprint : string) (accept_high_risk : bool)
    : result RegroupCandidate :=
  p ← reviewed_proposal db id revision fingerprint accept_high_risk;
  c ← _candidate_for_proposal db id p;
  let '(task_rows, objective_rows) := _persisted_changes db id in
  _ ← _assert_persisted_diff c task_rows objective_rows;
  Ok c.
Definition accept_plan_of (db : ObjDb) (id : string) (p : ProposalRow) (c : RegroupCandidate) : result accept_plan :=
  let '(task_rows, objective_rows) := _persisted_changes db id in
  _ ← _assert_persisted_diff c task_rows objective_rows;
  if String.eqb (proposal_kind c) "create" then
    new ← _tracking_allocator db;
    Ok (MkAcceptPlan task_rows objective_rows (fresh ["survivor"; id]) (Some new))
  else
    match pr_survivor_objective_id p with
    | Some survivor => Ok (MkAcceptPlan task_rows objective_rows survivor None)
    | None => raise (IntegrityFailure "regroup proposal lacks survivor Objective authority")
    end.
Definition decided (id : string) (apply : regroupM (option (list AuditEventInput))) (response_ : json)
    : PreparedMutation ObjDb :=
  MkPrepared false (Some "grouping_proposal") (Some id) (Some apply) "GroupingProposalV1" 1 None
    (Some (mret response_)) None.
Definition prepare_accept (command id : string) (revision : Z) (fingerprint : string) (accept_high_risk : bool)
    (a : actor) (planned_version locked_version : Z) (c : RegroupCandidate) : regroupM (PreparedMutation ObjDb) :=
  db ← read_st;
  p ← lift (reviewed_proposal (domain_state db) id revision fingerprint accept_high_risk);
  _ ← lift (forbid (negb (locked_version =? planned_version))
    (stale_error "grouping authority changed between planning snapshot and writer lock"));
  plan_ ← lift (accept_plan_of (domain_state db) id p c);
  mret (decided id
    (db ← read_st;
     events ← on_domain (apply_accept (accept_targets db) id revision fingerprint command plan_);
     mret (Some [accepted_event command id p fingerprint plan_ events a]))
    (_proposal_response id p "accepted" (revision + 1) (Z.of_nat (length (ap_task_rows plan_)))
       (Z.of_nat (length (ap_objective_rows plan_))))).
(** [before], [planned] and [locked] are the readings of [PRAGMA data_version]
    on the observer: before and after the planning snapshot and under the
    writer lock. *)
Definition accept_regroup_proposal (audit : AuditRegistry) (audit_clock : string -> Z) (command id : string)
    (revision : Z) (input_fingerprint_ : string) (accept_high_risk : bool) (a : actor)
    (probe snapshot : LedgerDb ObjDb) (before planned locked : Z) : regroupM json :=
  id ← lift (require_uuid4 id);
  _ ← lift (forbid (revision <=? 0) (ValidationError "proposal_revision must be positive"));
  fingerprint ← lift (_fingerprint input_fingerprint_);
  let e := proposal_envelope command "AcceptRegroupProposal" id [("accept_high_risk", JBool accept_high_risk)]
    (Some revision) fingerprint in
  replayed_ ← lift (_probe_replay e probe);
  match replayed_ with
  | Some response_ => mret response_
  | None =>
      c ← lift (plan_accept (domain_state snapshot) id revision fingerprint accept_high_risk);
      _ ← lift (forbid (negb (planned =? before))
        (stale_error "grouping authority changed during planning snapshot"));
      x ← execute audit (clock ["receipt"]) audit_clock e
        (prepare_accept command id revision fingerprint accept_high_risk a planned locked c);
      mret (x_response x)
  end.

(** * Rejecting and reconsidering *)
Definition decision_event (command id event : string) (p : ProposalRow) (fingerprint reason : string)
    (tasks_ objectives_ : Z) (a : actor) : AuditEventInput :=
  grouping_event (fresh ["audit"; id]) "grouping.proposal_decided" command id a None (Some reason)
    (grouping_payload id event (pr_proposal_kind p) (pr_risk_tier p) fingerprint tasks_ objectives_ (Some reason))
    [proposal_ref id].
Definition prepare_reject (command id : string) (revision : Z) (fingerprint reason : string) (a : actor)
    : regroupM (PreparedMutation ObjDb) :=
  db ← read_st;
  match RegroupProposalRepository.get (domain_state db) id with
  | None => lift (raise not_found)
  | Some p =>
      _ ← lift (forbid (negb (String.eqb (pr_state p) "pending") || negb (pr_revision p =? revision)
          || negb (String.eqb (pr_input_fingerprint p) fingerprint)) (stale_error "grouping proposal changed"));
      let '(task_rows, objective_rows) := _persisted_changes (domain_state db) id in
      let tasks_ := Z.of_nat (length task_rows) in
      let objectives_ := Z.of_nat (length objective_rows) in
      mret (decided id
        ('(_, next_revision) ← on_domain (RegroupProposalRepository.reject fresh clock id revision fingerprint reason command);
         mret (Some [decision_event command id "REJECTED" p fingerprint reason tasks_ objectives_ a]))
        (_proposal_response id p "rejected" (revision + 1) tasks_ objectives_))
  end.
Definition reject_regroup_proposal (audit : AuditRegistry) (audit_clock : string -> Z) (command id : string)
    (revision : Z) (input_fingerprint_ reason_category_ : string) (a : actor) : regroupM json :=
  id ← lift (require_uuid4 id);
  _ ← lift (forbid (revision <=? 0) (ValidationError "proposal_revision must be positive"));
  fingerprint ← lift (_fingerprint input_fingerprint_);
  reason ← lift (validate_task_reason_category reason_category_);
  x ← execute audit (clock ["receipt"]) audit_clock
    (proposal_envelope command "RejectRegroupProposal" id [("reason_category", JStr reason)] (Some revision) fingerprint)
    (prepare_reject command id revision fingerprint reason a);
  mret (x_response x).
Definition prepare_reconsider (command id rejection fingerprint reason : string) (a : actor)
    : regroupM (PreparedMutation ObjDb) :=
  db ← read_st;
  match RegroupProposalRepository.get (domain_state db) id with
  | None => lift (raise not_found)
  | Some p =>
      _ ← lift (forbid (negb (String.eqb (pr_state p) "rejected")
          || negb (String.eqb (pr_input_fingerprint p) fingerprint))
        (regroup_error "GROUPING_EQUIVALENT_REJECTION" "proposal does not own the exact rejected regroup input"));
      let '(task_rows, objective_rows) := _persisted_changes (domain_state db) id in
      let tasks_ := Z.of_nat (length task_rows) in
      let objectives_ := Z.of_nat (length objective_rows) in
      mret (MkPrepared false (Some "grouping_proposal") (Some id)
        (Some (_ ← on_domain (RegroupProposalRepository.reconsider_rejection clock id rejection fingerprint);
               mret (Some [decision_event command id "RECONSIDERED" p fingerprint reason tasks_ objectives_ a])))
        "GroupingProposalV1" 1 (Some (_proposal_response id p "rejected" (pr_revision p) tasks_ objectives_)) None None)
  end.
Definition reconsider_regroup_inputs (audit : AuditRegistry) (audit_clock : string -> Z)
    (command id rejection_event_id input_fingerprint_ reason_category_ : string) (a : actor) : regroupM json :=
  id ← lift (require_uuid4 id);
  rejection ← lift (require_uuid4 rejection_event_id);
  fingerprint ← lift (_fingerprint input_fingerprint_);
  reason ← lift (validate_task_reason_category reason_category_);
  x ← execute audit (clock ["receipt"]) audit_clock
    (proposal_envelope command "ReconsiderRegroupInputs" id [("rejection_event_id", JStr rejection);
      ("input_fingerprint", JStr fingerprint); ("reason_category", JStr reason)] None fingerprint)
    (prepare_reconsider command id rejection fingerprint reason a);
  mret (x_response x).
End decisions.
