(* ===== verification/RegroupSamples.v ===== *)
(** A sample database: two planned Objectives whose work a longer plan joins,
    and a member that is locked to the one that will be superseded. *)
From S2P Require Import Prelude StrictJson Identifiers Grouping Jobs JobsExample AuditLedger Tables.
From S2P Require Import CommandBoundary ObjectiveTables Regroup ObjectiveStore ObjectiveAggregate RegroupStore.
From S2P Require Import RegroupManual RegroupContracts RegroupCommands RegroupDecisions.

Module RegroupSamples.
Import Sample.
Definition task_uid := uid 1.
Definition plan_uid := uid 2.
Definition objective_uid := uid 3.
Definition event_uid := uid 4.
Definition command_uid := uid 5.
Definition clock (s : site) : Z := 1000.

Record sample_task := MkSampleTask {
  sm_n : Z; sm_start : Z; sm_end : Z; sm_objective : option Z; sm_accepted : Z * Z * Z; sm_lock : Z
}.
Definition plans_of (t : sample_task) : list (string * PlanRow) :=
  [(plan_uid (sm_n t), MkPlanRow (task_uid (sm_n t)) (sm_start t) (sm_end t));
   (plan_uid (sm_accepted t).1.1, MkPlanRow (task_uid (sm_n t)) (sm_accepted t).1.2 (sm_accepted t).2)].
Definition memberships (t : sample_task) : list (string * MembershipRow) :=
  match sm_objective t with
  | Some o => [(task_uid (sm_n t), MkMembershipRow (objective_uid o) (plan_uid (sm_accepted t).1.1) 1
      (event_uid (sm_n t)) (command_uid 0))]
  | None => [] end.
Definition events (t : sample_task) : list (string * MembershipEventRow) :=
  match sm_objective t with
  | Some o => [(event_uid (sm_n t), MkMembershipEventRow (task_uid (sm_n t)) "add" None (Some (objective_uid o))
      (plan_uid (sm_accepted t).1.1) None 0 (command_uid 0))]
  | None => [] end.
Definition objective (n tracking s e members : Z) :=
  (objective_uid n, MkObjectiveRow tracking (tracking_text tracking) "automatic_grouping" None 1 0 (command_uid 0),
   MkEnvelopeRow s e members fp 1 (command_uid 0),
   MkAggregateRow "planned" None None None None members 0 fp 1 (command_uid 0)).
Definition table {A B} (f : A -> list (string * B)) (l : list A) : gmap string B := list_to_map (mjoin (map f l)).
Definition database (ts : list sample_task) (os : list (string * ObjectiveRow * EnvelopeRow * AggregateRow)) : ObjDb :=
  MkObjDb (table (fun t => [(task_uid (sm_n t), 1)]) ts) (table plans_of ts)
    (table (fun t => [(task_uid (sm_n t), MkPlanCurrentRow (plan_uid (sm_n t)) 1)]) ts)
    ∅ ∅ ∅ ∅ (table (fun t => [(task_uid (sm_n t), sm_lock t)]) ts) ∅ ∅ ∅ ∅ (Some (10, 1))
    (table (fun r => [(r.1.1.1, r.1.1.2)]) os) (table events ts) (table memberships ts)
    (table (fun r => [(r.1.1.1, r.1.2)]) os) (table (fun r => [(r.1.1.1, r.2)]) os) ∅
    (table (fun r => [(r.1.1.1, (0, 1))]) os) ∅ [] [] ∅ Sample.empty.
(** Task 3 was planned 30-35 in Objective 1 and now takes 30-50, into the
    envelope of Objective 2; task 6 stays locked to Objective 1. *)
Definition tasks_ (lock : Z) : list sample_task :=
  [MkSampleTask 3 30 50 (Some 1) (103, 30, 35) 0; MkSampleTask 4 40 60 (Some 2) (4, 40, 60) 0;
   MkSampleTask 6 30 33 (Some 1) (6, 30, 33) lock; MkSampleTask 7 100 110 None (7, 100, 110) 0].
Definition before (lock : Z) : LedgerDb ObjDb :=
  MkLedger {[command_uid 0 := MkReceipt (command_uid 0) "Setup" fp "setup" None 0 None None]} ∅ ∅ []
    (database (tasks_ lock) [objective 1 2 30 35 2; objective 2 1 40 60 1]).
Definition me : actor := MkActor "local_user" None.

Definition recompute (db : LedgerDb ObjDb) : LedgerDb ObjDb * result json :=
  recompute_grouping_proposals (fresh 1) clock grouping_audit_registry (fun _ => 1000) (command_uid 1) "manual_request"
    None me db db db.
Definition recomputed (lock : Z) : LedgerDb ObjDb := (recompute (before lock)).1.
Definition proposals (db : ObjDb) := map (fun kv : string * ProposalRow =>
  (kv.1, pr_proposal_kind kv.2, pr_state kv.2)) (map_to_list (regroup_proposals db)).
Definition consolidation (db : ObjDb) : option (string * ProposalRow) :=
  head (filter (fun kv => pr_proposal_kind kv.2 = "consolidate") (map_to_list (regroup_proposals db))).
Definition accept (db : LedgerDb ObjDb) : LedgerDb ObjDb * result json :=
  match consolidation (domain_state db) with
  | Some (id, p) => accept_regroup_proposal (fresh 2) clock grouping_audit_registry (fun _ => 1000) (command_uid 2) id
      (pr_revision p) (pr_input_fingerprint p) false me db db 1 1 1 db
  | None => (db, Raise key_error)
  end.
Definition accepted (lock : Z) : LedgerDb ObjDb := (accept (recomputed lock)).1.
End RegroupSamples.
