(* ===== verification/ObjectiveAggregateProps.v ===== *)
(** Rebuilding an aggregate: the projection is the one derived from the
    tables, and rebuilding again changes nothing. *)
From S2P Require Import Prelude StrictJson Identifiers Grouping Jobs JobsExample AuditLedger Tables.
From S2P Require Import CommandBoundary ObjectiveTables Regroup RegroupSweep RegroupSound RegroupProps.
From S2P Require Import ObjectiveStore ObjectiveAggregate RegroupSamples.

Lemma stored_uuid_ok v label v' : _stored_uuid v label = Ok v' <-> v' = v /\ is_uuid4 v = true.
Proof. unfold _stored_uuid. destruct (is_uuid4 v); naive_solver. Qed.
Lemma aggregate_lookup d id o : aggregate d id = Ok o -> objective_aggregate_projection d !! id = o.
Proof.
  unfold aggregate. destruct (objective_aggregate_projection d !! id) as [a|]; [|by intros [= <-]].
  intros H. inv_ok H. done.
Qed.
Lemma set_aggregates_id d id a :
  objective_aggregate_projection d !! id = Some a ->
  d = set_aggregates (<[id := a]> (objective_aggregate_projection d)) d.
Proof. intros Ha. rewrite insert_id by done. by destruct d. Qed.
Section rebuild.
Context `{Sha256, FloatText}.

(** The row a rebuild leaves: kept, updated or inserted. *)
Definition rebuilt_revision (existing : option AggregateRow) (fingerprint : string) : Z :=
  match existing with
  | None => 1
  | Some a => if String.eqb (ag_aggregate_input_fingerprint a) fingerprint then ag_revision a else ag_revision a + 1
  end.

Lemma rebuild_aggregate_ok id command d d' row :
  rebuild_aggregate id command d = (d', Ok row) ->
  is_uuid4 id = true /\ aggregate d' id = Ok (Some row) /\
  exists material fingerprint, derive_aggregate d id = Ok (material, fingerprint) /\
    material_of_row row = material /\ ag_aggregate_input_fingerprint row = fingerprint /\
    ag_revision row = rebuilt_revision (objective_aggregate_projection d !! id) fingerprint /\
    d' = set_aggregates (<[id := row]> (objective_aggregate_projection d)) d.
Proof.
  unfold rebuild_aggregate. intros H1. inv_db H1; apply stored_uuid_ok in H2 as [-> Hid];
    (split; [done|split; [done|]]); eexists _, _; (split; [done|]); unfold rebuilt_revision.
  - apply aggregate_lookup in H5. bool_hyps. rewrite H5, E0, String.eqb_refl. split_and!; try done.
    by apply set_aggregates_id.
  - apply forbid_ok in H7. bool_hyps. apply update_aggregate_ok in H6; [|done]. subst d'.
    apply aggregate_lookup in H5. rewrite H5. apply aggregate_lookup in H8. simpl in H8.
    rewrite lookup_insert_eq in H8. injection H8 as <-. rewrite (proj2 (String.eqb_neq _ _) E0). by destruct x.
  - unfold insert_aggregate in H6. apply statement_ok in H6 as [_ ->]. apply aggregate_lookup in H5. rewrite H5.
    apply aggregate_lookup in H7. simpl in H7. rewrite lookup_insert_eq in H7. injection H7 as <-. by destruct x.
Qed.
Lemma derive_aggregate_frame ags d id : derive_aggregate (set_aggregates ags d) id = derive_aggregate d id.
Proof. reflexivity. Qed.
Lemma rebuild_again id command d row material fingerprint :
  is_uuid4 id = true -> is_uuid4 command = true -> aggregate d id = Ok (Some row) ->
  derive_aggregate d id = Ok (material, fingerprint) -> material_of_row row = material ->
  ag_aggregate_input_fingerprint row = fingerprint -> rebuild_aggregate id command d = (d, Ok row).
Proof.
  intros Hid Hc Ha Hd <- <-. unfold rebuild_aggregate, mbind, stM_bind, lift, read_st.
  rewrite (proj2 (stored_uuid_ok id _ id) (conj eq_refl Hid)), (proj2 (stored_uuid_ok command _ command) (conj eq_refl Hc)).
  rewrite Hd, Ha, String.eqb_refl. by rewrite bool_decide_eq_true_2.
Qed.

(** C39.  Rebuilding an aggregate publishes the material state and the
    fingerprint that the tables determine, touches nothing but that row, gives
    it a new revision exactly when the fingerprint changed, and any later
    rebuild over the same tables returns the same row and changes nothing. *)
Theorem rebuild_aggregate_exact (id command again : string) (d d' : ObjDb) (row : AggregateRow)
    (Hrun : rebuild_aggregate id command d = (d', Ok row)) (Hagain : is_uuid4 again = true) :
  exists material fingerprint, derive_aggregate d id = Ok (material, fingerprint) /\
    material_of_row row = material /\ ag_aggregate_input_fingerprint row = fingerprint /\
    ag_revision row = rebuilt_revision (objective_aggregate_projection d !! id) fingerprint /\
    d' = set_aggregates (<[id := row]> (objective_aggregate_projection d)) d /\
    rebuild_aggregate id again d' = (d', Ok row).
Proof.
  apply rebuild_aggregate_ok in Hrun as (Hid & Ha & m & f & Hd & Hm & Hf & Hr & Ed).
  exists m, f. split_and!; [done..|]. apply (rebuild_again _ _ _ _ m f); try done. by rewrite Ed, derive_aggregate_frame.
Qed.
End rebuild.

(** * What the material state means *)
Lemma set_token_elem tokens s : set_token tokens s = true <-> s ∈ tokens.
Proof.
  unfold set_token. rewrite existsb_exists. split.
  - intros (x & Hx%list_elem_of_In & ->%String.eqb_eq). done.
  - intros Hs. exists s. by rewrite <-list_elem_of_In, String.eqb_refl.
Qed.
Lemma optional_nonnegative_ok v label v' : _optional_nonnegative v label = Ok v' -> v' = v.
Proof. unfold _optional_nonnegative. intros H. inv_ok H. done. Qed.
(** The evidence of an execution has the shape of its state. *)
Definition execution_ok (state : string) (start end_ : option Z) : Prop :=
  (state = "not_started" -> start = None /\ end_ = None) /\
  (state = "in_progress" -> is_Some start /\ end_ = None) /\
  (state = "ended" -> exists s e, start = Some s /\ end_ = Some e /\ s <= e) /\
  (state = "terminated" -> end_ = None) /\ state ∈ _EXECUTION_STATES.
Lemma validate_execution_shape_ok state start end_ termination u :
  _validate_execution_shape state start end_ termination = Ok u -> state ∈ _EXECUTION_STATES ->
  execution_ok state start end_.
Proof.
  unfold _validate_execution_shape. intros H Hs. inv_ok H. unfold integrity in *.
  repeat match goal with H : forbid _ _ = Ok _ |- _ => apply forbid_ok in H end.
  unfold execution_ok. split_and!; try done; intros ->; simpl in *; destruct start, end_, termination; simpl in *;
    try done; bool_hyps; eauto.
Qed.
Lemma member_execution_ok db t x :
  member_execution db t = Ok x -> execution_ok (xa_state x) (xa_start x) (xa_end x).
Proof.
  unfold member_execution. intros H. inv_ok H; simpl.
  - apply optional_nonnegative_ok in H8, H9. subst. eapply validate_execution_shape_ok; [done|].
    by apply set_token_elem.
  - unfold execution_ok. split_and!; try done. apply list_elem_of_In. simpl. auto.
Qed.
Lemma member_outcome_ok db t x r e o :
  member_outcome db t x = Ok (r, e, Some o) -> xa_state x = "ended" \/ xa_state x = "terminated".
Proof.
  unfold member_outcome. intros H. inv_ok H; [|done]. destruct a4; [|done]. clear -H4.
  unfold _outcome_matches_execution in H4. destruct (String.eqb _ "completed"); [|destruct (String.eqb _ "incomplete");
    [|destruct (String.eqb _ "cancelled_without_execution")]]; try done; injection H4 as H4; bool_hyps; auto.
  rewrite orb_false_r, orb_true_iff, !String.eqb_eq in H. done.
Qed.
Record member_ok (m : _MemberAuthority) : Prop := {
  mo_execution : execution_ok (mb_execution_state m) (mb_actual_start_utc m) (mb_actual_end_utc m);
  mo_outcome : is_Some (mb_accepted_outcome m) -> mb_execution_state m = "ended" \/ mb_execution_state m = "terminated"
}.
Lemma load_member_ok db objective row m : load_member db objective row = Ok m -> member_ok m.
Proof.
  destruct row as [[t ms] p]. unfold load_member. intros H.
  apply bind_ok in H as (? & _ & ([n plan] & _ & (x & Hx & ([[r e] o] & Ho & ([k inc] & _ & (? & _ & [= <-])%bind_ok)%bind_ok)%bind_ok)%bind_ok)%bind_ok).
  split; simpl; [by apply member_execution_ok in Hx|]. intros [o' ->]. by apply member_outcome_ok in Ho.
Qed.
Lemma load_members_ok db objective members : _load_members db objective = Ok members -> Forall member_ok members.
Proof.
  intros Hl. apply Forall_forall. intros m Hm. unfold _load_members in Hl.
  destruct (traverse_elem_of _ _ _ m Hl Hm) as (row & _ & Hr). by apply load_member_ok in Hr.
Qed.

Lemma min_of_spec l n : min_of l = Some n <-> n ∈ l /\ forall x, x ∈ l -> n <= x.
Proof.
  destruct l as [|x l]; simpl; [set_solver|]. destruct (foldl_min l x) as [Hle Hin]. split.
  - intros [= <-]. done.
  - intros [Hn Hall]. f_equal. specialize (Hle _ Hn). specialize (Hall _ Hin). lia.
Qed.
Lemma max_of_spec l n : max_of l = Some n <-> n ∈ l /\ forall x, x ∈ l -> x <= n.
Proof.
  destruct l as [|x l]; simpl; [set_solver|]. destruct (foldl_max l x) as [Hle Hin]. split.
  - intros [= <-]. done.
  - intros [Hn Hall]. f_equal. specialize (Hle _ Hn). specialize (Hall _ Hin). lia.
Qed.

(** When a started member stopped: its actual end, or its termination. *)
Definition stopped_at (m : _MemberAuthority) : option Z :=
  match mb_actual_end_utc m with Some e => Some e | None => mb_effective_termination_utc m end.
Definition started (ms : list _MemberAuthority) : list _MemberAuthority := filter (fun m => has_started m = true) ms.
Definition all_stopped (ms : list _MemberAuthority) : Prop :=
  started ms <> [] /\ forall m, m ∈ ms -> has_started m = true -> in_progress m = false /\ is_Some (stopped_at m).

Lemma starts_length ms : length (omap mb_actual_start_utc ms) = length (started ms).
Proof.
  unfold started. induction ms as [|m ms IH]; [done|]. rewrite filter_cons. simpl.
  destruct (decide _) as [Hs|Hs]; unfold has_started in Hs; destruct (mb_actual_start_utc m) as [z|]; simpl.
  - by f_equal.
  - by apply bool_decide_eq_true in Hs.
  - by destruct Hs.
  - done.
Qed.
Lemma starts_nil ms : omap mb_actual_start_utc ms = [] <-> started ms = [].
Proof. rewrite <-!length_zero_iff_nil. by rewrite starts_length. Qed.
Lemma actual_end_exact ms e :
  Forall member_ok ms -> actual_end_of ms = Some e <->
  all_stopped ms /\ (exists m, m ∈ ms /\ has_started m = true /\ stopped_at m = Some e) /\
  forall m t, m ∈ ms -> has_started m = true -> stopped_at m = Some t -> t <= e.
Proof.
  intros Hok. unfold actual_end_of, all_stopped.
  assert (map (fun m => match mb_actual_end_utc m with Some e => Some e | None => mb_effective_termination_utc m end)
    (filter (fun m => has_started m && negb (in_progress m) = true) ms)
    = map stopped_at (filter (fun m => has_started m && negb (in_progress m) = true) ms)) as -> by done.
  set (ended := filter _ ms).
  destruct (existsb in_progress ms) eqn:Ep.
  { rewrite andb_false_r. split; [done|]. intros ((_ & Hall) & _). exfalso.
    apply existsb_exists in Ep as (m & Hm%list_elem_of_In & Hp). rewrite Forall_forall in Hok.
    destruct (mo_execution _ (Hok m Hm)) as (_ & Hin & _). destruct Hin as [Hs _]; [by apply String.eqb_eq|].
    destruct (Hall m Hm) as [Hn _]; [|congruence]. apply bool_decide_eq_true. by destruct Hs as [? ->]. }
  assert (forall m, m ∈ ms -> in_progress m = false) as Hnp.
  { intros m Hm. apply not_true_iff_false in Ep. apply not_true_iff_false. intros Hp. apply Ep, existsb_exists.
    exists m. by rewrite <-list_elem_of_In. }
  assert (ended = started ms) as Ee.
  { unfold ended, started. clear -Hnp. induction ms as [|m ms IH]; [done|]. rewrite !filter_cons.
    rewrite IH by (intros m' Hm'; apply Hnp; by right). specialize (Hnp m ltac:(by left)).
    destruct (decide _) as [H1|H1], (decide _) as [H2|H2]; try done; rewrite Hnp in H1; simpl in H1;
      rewrite andb_true_r in H1; done. }
  rewrite Ee, starts_length, (bool_decide_eq_true_2 (length (started ms) = length (started ms))) by done. simpl. rewrite andb_true_r.
  assert (forall m, m ∈ started ms <-> m ∈ ms /\ has_started m = true) as Hst.
  { intros m. unfold started. rewrite list_elem_of_filter. tauto. }
  destruct (decide (started ms = [])) as [Es|Es].
  { rewrite bool_decide_eq_true_2 by (by apply starts_nil). simpl. split; [done|]. by intros ((H & _) & _). }
  rewrite bool_decide_eq_false_2 by (by rewrite starts_nil). simpl.
  rewrite bool_decide_eq_false_2 by (by intros H%map_eq_nil). simpl.
  destruct (forallb present_opt _) eqn:Ef.
  - rewrite max_of_spec. rewrite forallb_forall in Ef.
    assert (forall t, t ∈ omap id (map stopped_at (started ms)) <-> exists m, m ∈ ms /\ has_started m = true /\ stopped_at m = Some t) as Ht.
    { intros t. rewrite list_elem_of_omap. split.
      - intros (o & (m & -> & Hm)%list_elem_of_fmap & Ho). apply Hst in Hm as [Hm Hs]. by exists m.
      - intros (m & Hm & Hs & Ho). exists (Some t). split; [|done]. apply list_elem_of_fmap. exists m.
        split; [done|]. by apply Hst. }
    rewrite Ht. split.
    + intros [He Hle]. split; [split; [done|]|split; [done|]].
      * intros m Hm Hs. split; [by apply Hnp|]. assert (present_opt (stopped_at m) = true) as Hp.
        { apply Ef, list_elem_of_In, list_elem_of_fmap. exists m. split; [done|]. by apply Hst. }
        destruct (stopped_at m); [done|discriminate].
      * intros m t Hm Hs Ho. apply Hle, Ht. by exists m.
    + intros (_ & He & Hle). split; [done|]. intros t (m & Hm & Hs & Ho)%Ht. by apply (Hle m t).
  - split; [done|]. intros ((_ & Hall) & _). exfalso. apply not_true_iff_false in Ef. apply Ef, forallb_forall.
    intros o (m & -> & Hm)%list_elem_of_In%list_elem_of_fmap. apply Hst in Hm as [Hm Hs].
    destruct (Hall m Hm Hs) as [_ [t ->]]. done.
Qed.

(** The state of a current Objective is exactly what its members'
    evidence says.  Every member is counted once.  The actual start is the
    earliest start of a member; the actual end is known exactly when some
    member started and all that did have stopped, and is then the latest stop.
    It is in progress exactly when a member is; reviewed exactly when every
    member has an accepted outcome and this very input was reviewed; and it
    asks for review only when no member runs or can still be executed. *)
Theorem material_state_exact (db : ObjDb) (id origin_ : string) (members : list _MemberAuthority)
    (review : option string) (Hmembers : _load_members db id = Ok members)
    (Horigin : origin_ <> "historical_provider_complete") :
  let m := _derive_material_state origin_ None members review in
  mt_included m + mt_excluded m = Z.of_nat (length members) /\ 0 <= mt_included m /\ 0 <= mt_excluded m /\
  (forall s, mt_start m = Some s <-> (exists x, x ∈ members /\ mb_actual_start_utc x = Some s) /\
     forall x t, x ∈ members -> mb_actual_start_utc x = Some t -> s <= t) /\
  (forall e, mt_end m = Some e <-> all_stopped members /\
     (exists x, x ∈ members /\ has_started x = true /\ stopped_at x = Some e) /\
     forall x t, x ∈ members -> has_started x = true -> stopped_at x = Some t -> t <= e) /\
  (mt_state m = "in_progress" <-> exists x, x ∈ members /\ in_progress x = true) /\
  (mt_state m = "reviewed" <-> members <> [] /\ is_Some review /\
     forall x, x ∈ members -> is_Some (mb_accepted_outcome x)) /\
  (mt_state m = "awaiting_review" \/ mt_state m = "reviewed" ->
     forall x, x ∈ members -> in_progress x = false /\ locally_executable x = false).
Proof.
  apply load_members_ok in Hmembers as Hok.
  assert (forall x, x ∈ members -> is_Some (mb_accepted_outcome x) -> in_progress x = false /\ locally_executable x = false) as Hacc.
  { intros x Hx Ho. rewrite Forall_forall in Hok. pose proof (mo_outcome _ (Hok x Hx) Ho) as Hs.
    unfold in_progress, locally_executable. destruct Hs as [-> | ->]; done. }
  assert (forallb (fun x => present_opt (mb_accepted_outcome x)) members = true <->
    forall x, x ∈ members -> is_Some (mb_accepted_outcome x)) as Hall.
  { rewrite forallb_forall. split.
    - intros Ha x Hx%list_elem_of_In. specialize (Ha x Hx). by destruct (mb_accepted_outcome x).
    - intros Ha x Hx%list_elem_of_In. by destruct (Ha x Hx) as [? ->]. }
  assert (existsb in_progress members = true <-> exists x, x ∈ members /\ in_progress x = true) as Hin.
  { rewrite existsb_exists. by setoid_rewrite list_elem_of_In. }
  assert (existsb locally_executable members = false <-> forall x, x ∈ members -> locally_executable x = false) as Hex.
  { rewrite <-not_true_iff_false, existsb_exists. setoid_rewrite <-list_elem_of_In. setoid_rewrite <-not_true_iff_false.
    naive_solver. }
  assert (existsb in_progress members = false -> forall x, x ∈ members -> in_progress x = false) as Hnone.
  { intros Hf x Hx. apply not_true_iff_false in Hf. apply not_true_iff_false. intros Hp. apply Hf, Hin. by exists x. }
  cbv zeta. unfold _derive_material_state. simpl. rewrite (proj2 (String.eqb_neq _ _) Horigin). simpl.
  pose proof (length_filter (fun x => mb_included x = true) members) as Hlen.
  set (starts := omap mb_actual_start_utc members) in *.
  set (outcome := _derive_outcome members).
  assert ((forall s, min_of starts = Some s <-> (exists x, x ∈ members /\ mb_actual_start_utc x = Some s) /\
     forall x t, x ∈ members -> mb_actual_start_utc x = Some t -> s <= t)) as Hstart.
  { intros s. rewrite min_of_spec. unfold starts. rewrite list_elem_of_omap. setoid_rewrite list_elem_of_omap. naive_solver. }
  destruct (existsb in_progress members) eqn:Ep; simpl.
  - split; [lia|]. split; [lia|]. split; [lia|]. split; [done|]. split; [by intros; apply actual_end_exact|].
    split; [tauto|]. split; [split; [done|]|by intros [?|?]]. intros (_ & _ & Ha). exfalso.
    destruct (proj1 Hin eq_refl) as (x & Hx & Hp). destruct (Hacc x Hx (Ha x Hx)). congruence.
  - specialize (Hnone eq_refl).
    assert (forall P : Prop, ((exists x, x ∈ members /\ in_progress x = true) -> P)) as Hno.
    { intros P (x & Hx & Hp). rewrite Hnone in Hp by done. done. }
    destruct (decide (members = [])) as [En|En]; [|destruct (forallb _ members) eqn:Ea].
    + rewrite (bool_decide_eq_true_2 (members = [])) by done. simpl.
      assert (starts = []) as Es by (unfold starts; by rewrite En). rewrite (bool_decide_eq_true_2 (starts = [])) by done. simpl.
      split; [lia|]. split; [lia|]. split; [lia|]. split; [done|]. split; [by intros; apply actual_end_exact|].
      split; [split; [done|apply Hno]|]. split; [split; [done|by intros [? _]]|by intros [?|?]].
    + rewrite bool_decide_eq_false_2 by done. simpl. split; [lia|]. split; [lia|]. split; [lia|]. split; [done|].
      split; [by intros; apply actual_end_exact|]. destruct review as [r|]; simpl.
      * split; [split; [done|apply Hno]|]. split; [|intros _ x Hx; apply Hacc; [done|by apply Hall]].
        split; [intros _; split; [done|]; split; [by eexists|by apply Hall]|done].
      * split; [split; [done|apply Hno]|]. split; [|intros _ x Hx; apply Hacc; [done|by apply Hall]].
        split; [done|]. by intros (_ & [? ?] & _).
    + rewrite andb_false_r.
      assert (~ forall x, x ∈ members -> is_Some (mb_accepted_outcome x)) as Hnot by (rewrite <-Hall; congruence).
      destruct (negb (bool_decide (starts = [])) && negb (existsb locally_executable members)) eqn:El; simpl;
        (split; [lia|]; split; [lia|]; split; [lia|]; split; [done|]; split; [by intros; apply actual_end_exact|];
         split; [split; [done|apply Hno]|]; split; [split; [done|tauto]|]).
      * intros _ x Hx. split; [by apply Hnone|]. bool_hyps. by apply Hex.
      * by intros [?|?].
Qed.

(** * On the sample database, where one task of Objective 1 has ended *)
Module AggregateSamples.
Import Sample RegroupSamples.
Definition execution_uid : string := uid 6 3.
Definition ended (d : ObjDb) : ObjDb :=
  MkObjDb (tasks d) (task_plan_revisions d) (task_plan_current d)
    {[execution_uid := MkExecutionEventRow (task_uid 3) 1 "end" (Some 45) None None None 46 (uid 1 3)]}
    {[task_uid 3 := MkExecutionRow "ended" (Some 31) (Some 45) None None 1 execution_uid]} (task_outcome_events d)
    (task_outcome_current d) (task_lock_projection d) (task_activity_lineage_current d) (task_operational_count_events d)
    (task_operational_count_current d) (wfm_source_projection_cache d) (objective_tracking_allocator d) (objectives d)
    (objective_membership_events d) (objective_task_membership_current d) (objective_envelope_projection d)
    (objective_aggregate_projection d) (objective_review_events d) (objective_archive_projection d)
    (regroup_proposals d) (regroup_proposal_task_changes d) (regroup_proposal_objective_changes d)
    (regroup_rejection_events d) (durable d).
Definition sample : ObjDb := ended (domain_state (before 0)).
Definition sample_members : list _MemberAuthority :=
  match _load_members sample (objective_uid 1) with Ok ms => ms | Raise _ => [] end.
Definition rebuilt : ObjDb * result AggregateRow := rebuild_aggregate (objective_uid 1) (command_uid 7) sample.
Definition rebuilt_row : AggregateRow :=
  match rebuilt.2 with Ok r => r | Raise _ => MkAggregateRow "" None None None None 0 0 "" 0 "" end.
Example rebuilt_state : (ag_execution_state rebuilt_row, ag_actual_start_utc rebuilt_row, ag_actual_end_utc rebuilt_row,
  ag_revision rebuilt_row) = ("planned", Some 31, Some 45, 2).
Proof. vm_compute. reflexivity. Qed.
Lemma rebuilt_ok : rebuild_aggregate (objective_uid 1) (command_uid 7) sample = (rebuilt.1, Ok rebuilt_row).
Proof.
  assert (match rebuilt.2 with Ok _ => true | Raise _ => false end = true) as Hok by (vm_compute; reflexivity).
  unfold rebuilt_row. unfold rebuilt in *. destruct (rebuild_aggregate _ _ _) as [d [r|]]; [reflexivity|discriminate].
Qed.
Lemma rebuild_aggregate_exact_witness :
  rebuild_aggregate (objective_uid 1) (command_uid 8) rebuilt.1 = (rebuilt.1, Ok rebuilt_row).
Proof.
  destruct (rebuild_aggregate_exact (objective_uid 1) (command_uid 7) (command_uid 8) sample rebuilt.1 rebuilt_row
    rebuilt_ok eq_refl) as (m & f & _ & _ & _ & _ & _ & E). exact E.
Defined.
Lemma members_loaded : _load_members sample (objective_uid 1) = Ok sample_members.
Proof. vm_compute. reflexivity. Qed.
Lemma material_state_exact_witness :
  let m := _derive_material_state "manual" None sample_members None in
  length sample_members = 2%nat /\ mt_included m + mt_excluded m = 2.
Proof.
  split; [vm_compute; reflexivity|].
  exact (proj1 (material_state_exact sample (objective_uid 1) "manual" sample_members None members_loaded
    ltac:(discriminate))).
Defined.
End AggregateSamples.
