(* ===== verification/RegroupLife.v ===== *)
(** The life of regroup proposals: at most one pending proposal per input, none
    for an input rejected and not reconsidered, and decisions are final. *)
From S2P Require Import Prelude StrictJson Identifiers Grouping Jobs AuditLedger Tables CommandBoundary.
From S2P Require Import CommandReplay CommandDomain ObjectiveTables Regroup RegroupSweep RegroupSound.
From S2P Require Import RegroupProps ObjectiveStore ObjectiveAggregate RegroupStore RegroupManual.
From S2P Require Import RegroupContracts RegroupCommands RegroupDecisions.
Import RegroupProposalRepository.

Definition pending (d : ObjDb) (id : string) (p : ProposalRow) : Prop :=
  regroup_proposals d !! id = Some p /\ pr_state p = "pending".
Record proposals_ok (d : ObjDb) : Prop := {
  pk_unique : forall i j p q, pending d i p -> pending d j q -> pr_input_fingerprint p = pr_input_fingerprint q -> i = j;
  pk_open : forall i p, pending d i p -> rejection_suppressed d (pr_input_fingerprint p) = false
}.
(** A proposal keeps its identity; once decided it never changes. *)
Definition same_proposal (p p' : ProposalRow) : Prop :=
  pr_proposal_kind p' = pr_proposal_kind p /\ pr_origin p' = pr_origin p /\ pr_risk_tier p' = pr_risk_tier p /\
  pr_input_fingerprint p' = pr_input_fingerprint p /\ pr_survivor_objective_id p' = pr_survivor_objective_id p /\
  pr_created_at_utc p' = pr_created_at_utc p /\ pr_revision p <= pr_revision p'.
Definition proposals_advance (d d' : ObjDb) : Prop :=
  forall id p, regroup_proposals d !! id = Some p ->
    exists p', regroup_proposals d' !! id = Some p' /\ same_proposal p p' /\ (pr_state p <> "pending" -> p' = p).
Definition lives (d d' : ObjDb) : Prop := (proposals_ok d -> proposals_ok d') /\ proposals_advance d d'.

Lemma same_proposal_refl p : same_proposal p p.
Proof. repeat split; lia. Qed.
Lemma lives_frame d d' :
  regroup_proposals d' = regroup_proposals d -> regroup_rejection_events d' = regroup_rejection_events d -> lives d d'.
Proof.
  intros Hp Hr. split.
  - intros [Hu Ho]. split; unfold pending, rejection_suppressed in *; rewrite ?Hp, ?Hr; assumption.
  - intros id p Hl. exists p. rewrite Hp. split; [done|]. split; [apply same_proposal_refl|done].
Qed.
Lemma lives_refl d : lives d d.
Proof. by apply lives_frame. Qed.
Lemma lives_trans d1 d2 d3 : lives d1 d2 -> lives d2 d3 -> lives d1 d3.
Proof.
  intros [H1 A1] [H2 A2]. split; [auto|]. intros id p Hp. destruct (A1 id p Hp) as (p' & Hp' & S1 & F1).
  destruct (A2 id p' Hp') as (p2 & Hp2 & S2 & F2). exists p2. split; [done|]. split.
  - unfold same_proposal in *. destruct S1 as (? & ? & ? & ? & ? & ? & ?), S2 as (? & ? & ? & ? & ? & ? & ?).
    split_and!; congruence || lia.
  - intros Hs. specialize (F1 Hs). subst p'. auto.
Qed.

(** * Publishing *)
Lemma each_frame {S A B} (g : S -> B) (f : A -> stM S unit) l s s' u :
  (forall x s s' u, f x s = (s', Ok u) -> g s' = g s) -> each f l s = (s', Ok u) -> g s' = g s.
Proof.
  intros Hf. revert s u. induction l as [|x l IH]; intros s u; simpl; [by intros [= <-]|].
  intros (s1 & v & H1 & H2)%stm_bind_ok. apply Hf in H1. apply IH in H2. congruence.
Qed.
Lemma publish_candidate_ok fresh clock id command c f d d' u :
  publish_candidate fresh clock id command c f d = (d', Ok u) ->
  regroup_proposals d !! id = None /\
  regroup_proposals d' = <[id := candidate_row c f command (clock ["proposal"; id])]> (regroup_proposals d) /\
  regroup_rejection_events d' = regroup_rejection_events d.
Proof.
  unfold publish_candidate. intros (d1 & v & H1 & (d2 & w & H2 & H3)%stm_bind_ok)%stm_bind_ok.
  unfold insert_proposal in H1. apply statement_ok in H1 as [Hok ->].
  apply (each_frame (fun d => (regroup_proposals d, regroup_rejection_events d))) in H2, H3; cycle 1.
  { intros x s s' w'. unfold insert_objective_change. by intros [_ ->]%statement_ok. }
  { intros x s s' w'. unfold insert_task_change. by intros [_ ->]%statement_ok. }
  rewrite H2 in H3. injection H3 as Hp Hr. split; [|split; [exact Hp|exact Hr]].
  bool_hyps. unfold known in *. bool_hyps. by apply eq_None_not_Some.
Qed.
Lemma publishable_spec d f :
  publishable d f = true <->
  (forall i p, pending d i p -> pr_input_fingerprint p <> f) /\ rejection_suppressed d f = false.
Proof.
  unfold publishable, exact_pending_by_fingerprint. rewrite andb_true_iff, bool_decide_eq_true, negb_true_iff.
  apply and_iff_compat_r. rewrite fmap_None.
  assert (head (py_sorted id (pending_rows d f)) = None <-> pending_rows d f = []) as ->.
  { split; [|by intros ->]. intros Hh. pose proof (py_sorted_perm id (pending_rows d f)) as Hperm.
    destruct (py_sorted id (pending_rows d f)); [by apply Permutation_nil|done]. }
  unfold pending_rows. split.
  - intros Hn i p [Hp Hs] Hf. assert ((pr_created_at_utc p, i) ∈ ([] : list (Z * string))) as Hin; [|by apply not_elem_of_nil in Hin].
    rewrite <-Hn. apply list_elem_of_omap. exists (i, p). split; [by apply elem_of_map_to_list|].
    simpl. by rewrite Hs, Hf, !String.eqb_refl.
  - intros Hall. apply elem_of_nil_inv. intros [n i] ([j p] & Hin & Hx)%list_elem_of_omap. simpl in Hx.
    destruct (_ && _) eqn:E; [|done]. bool_hyps. apply elem_of_map_to_list in Hin. by apply (Hall j p).
Qed.
(** A new pending proposal whose input is publishable. *)
Lemma lives_insert d d' id row :
  regroup_proposals d !! id = None -> regroup_proposals d' = <[id := row]> (regroup_proposals d) ->
  regroup_rejection_events d' = regroup_rejection_events d -> publishable d (pr_input_fingerprint row) = true -> lives d d'.
Proof.
  intros Hn Hp Hr [Hfree Hopen]%publishable_spec.
  assert (forall i p, pending d' i p -> i = id /\ p = row \/ i <> id /\ pending d i p) as Hcases.
  { intros i p [Hl Hs]. rewrite Hp in Hl. destruct (decide (i = id)) as [->|Hne].
    - rewrite lookup_insert_eq in Hl. left. by injection Hl.
    - rewrite lookup_insert_ne in Hl by done. by right. }
  split.
  - intros [Hu Ho]. split.
    + intros i j p q [[-> ->]|[_ Hi]]%Hcases [[-> ->]|[_ Hj]]%Hcases E; [done|..].
      * by destruct (Hfree j q Hj).
      * by destruct (Hfree i p Hi).
      * by apply (Hu i j p q).
    + intros i p Hi. unfold rejection_suppressed in *. rewrite Hr.
      apply Hcases in Hi as [[-> ->]|[_ Hi]]; [done|by apply (Ho i)].
  - intros i p Hl. exists p. rewrite Hp, lookup_insert_ne by congruence.
    split; [done|]. split; [apply same_proposal_refl|done].
Qed.
Lemma publish_all_lives fresh clock command material d d' u :
  NoDup (map (fun icf : string * (RegroupCandidate * string) => icf.2.2) material) ->
  Forall (fun icf => publishable d icf.2.2 = true) material ->
  each (fun icf : string * (RegroupCandidate * string) =>
    publish_candidate fresh clock icf.1 command icf.2.1 icf.2.2) material d = (d', Ok u) -> lives d d'.
Proof.
  revert d. induction material as [|[i [c f]] material IH]; intros d Hnd Hall; simpl; [intros [= <- _]; apply lives_refl|].
  intros (d1 & v & H1 & H2)%stm_bind_ok. simpl in *. apply NoDup_cons in Hnd as [Hf Hnd].
  apply Forall_cons in Hall as [Hpub Hall]. apply publish_candidate_ok in H1 as (Hn & Hp & Hr).
  apply lives_trans with d1; [by eapply lives_insert|]. apply (IH d1); [done| |done].
  apply Forall_forall. intros [j [c' f']] Hin. rewrite Forall_forall in Hall. specialize (Hall _ Hin). simpl in *.
  apply publishable_spec in Hall as [Hfree Hopen]. apply publishable_spec. unfold rejection_suppressed in *.
  rewrite Hr. split; [|done]. intros k p [Hl Hs]. rewrite Hp in Hl. destruct (decide (k = i)) as [->|Hne].
  - rewrite lookup_insert_eq in Hl. injection Hl as <-. simpl. intros ->. apply Hf, list_elem_of_fmap.
    by exists (j, (c', f')).
  - rewrite lookup_insert_ne in Hl by done. by apply (Hfree k).
Qed.

(** * Decisions *)
Lemma proposal_transition_ok id n f s command d d' r :
  transition id n f s command d = (d', Ok r) ->
  r = n + 1 /\ s <> "pending" /\ exists p, pending d id p /\ pr_revision p = n /\ pr_input_fingerprint p = f /\
    d' = set_proposals (<[id := MkProposalRow (pr_proposal_kind p) (pr_origin p) (pr_risk_tier p)
      (pr_input_fingerprint p) s (pr_survivor_objective_id p) (pr_revision p + 1) (pr_created_at_utc p)
      (Some command)]> (regroup_proposals d)) d.
Proof.
  unfold transition. intros Hr. inv_db Hr; try done. bool_hyps.
  split; [done|]. split; [intros ->; done|]. exists p. by repeat split.
Qed.
Lemma lives_transition id n f s command d d' r :
  transition id n f s command d = (d', Ok r) -> lives d d'.
Proof.
  intros (_ & Hs & p & [Hp Hst] & _ & _ & ->)%proposal_transition_ok. set (row := MkProposalRow _ _ _ _ _ _ _ _ _).
  assert (forall i q, pending (set_proposals (<[id := row]> (regroup_proposals d)) d) i q -> i <> id /\ pending d i q) as Hcases.
  { intros i q [Hl Hq]. simpl in Hl. destruct (decide (i = id)) as [->|Hne].
    - rewrite lookup_insert_eq in Hl. injection Hl as <-. done.
    - rewrite lookup_insert_ne in Hl by done. by split. }
  split.
  - intros [Hu Ho]. split; [|by intros i q [_ Hi]%Hcases; apply (Ho i)].
    intros i j q1 q2 [_ Hi]%Hcases [_ Hj]%Hcases. by apply Hu.
  - intros i q Hq. simpl. destruct (decide (i = id)) as [->|Hne].
    + rewrite lookup_insert_eq. exists row. split; [done|]. assert (q = p) as -> by congruence.
      split; [|congruence]. unfold row. repeat split; simpl; lia.
    + rewrite lookup_insert_ne by done. exists q. split; [done|]. split; [apply same_proposal_refl|done].
Qed.
Lemma suppressed_spec d f :
  rejection_suppressed d f = true <->
  exists i r, regroup_rejection_events d !! i = Some r /\ rj_input_fingerprint r = f /\ rj_reconsidered_at_utc r = None.
Proof.
  unfold rejection_suppressed. rewrite existsb_exists. split.
  - intros ([i r] & Hin%list_elem_of_In & Hx). bool_hyps. simpl in *. exists i, r.
    split; [by apply elem_of_map_to_list|done].
  - intros (i & r & Hl & <- & Hn). exists (i, r). split; [by apply list_elem_of_In, elem_of_map_to_list|].
    simpl. by rewrite String.eqb_refl, bool_decide_eq_true_2.
Qed.
Lemma lives_reject fresh clock id n f reason command d d' r :
  reject fresh clock id n f reason command d = (d', Ok r) -> lives d d'.
Proof.
  unfold reject. cbv zeta. intros (d1 & r1 & H1 & (d2 & u & H2 & [= <- _])%stm_bind_ok)%stm_bind_ok.
  pose proof (lives_transition _ _ _ _ _ _ _ _ H1) as [Hok Hadv].
  apply proposal_transition_ok in H1 as (_ & _ & p & [Hp Hst] & _ & Hf & ->). unfold insert_rejection in H2.
  apply statement_ok in H2 as [Hfresh ->]. bool_hyps. unfold known in *. bool_hyps.
  split; [|exact Hadv]. intros Hd. pose proof (Hok Hd) as [Hu Ho]. destruct Hd as [Hu0 _]. split; [exact Hu|].
  intros i q Hi. apply not_true_iff_false. intros (j & x & Hl & Hx & Hn)%suppressed_spec. simpl in Hl.
  destruct (decide (j = fresh ["rejection"; id])) as [->|Hne].
  - rewrite lookup_insert_eq in Hl. injection Hl as <-. simpl in Hx. destruct Hi as [Hi Hs]. simpl in Hi.
    destruct (decide (i = id)) as [->|Hne]; [rewrite lookup_insert_eq in Hi; by injection Hi as <-|].
    rewrite lookup_insert_ne in Hi by done. apply Hne, (Hu0 i id q p); [by split|by split|congruence].
  - rewrite lookup_insert_ne in Hl by done. specialize (Ho i q Hi). apply not_true_iff_false in Ho.
    apply Ho, suppressed_spec. by exists j, x.
Qed.
Lemma lives_reconsider clock id rejection f d d' r :
  reconsider_rejection clock id rejection f d = (d', Ok r) -> lives d d'.
Proof.
  unfold reconsider_rejection. intros Hr. inv_db Hr; try done. split.
  - intros [Hu Ho]. split; [exact Hu|]. intros i p Hi. specialize (Ho i p Hi). apply not_true_iff_false in Ho.
    apply not_true_iff_false. intros (j & x & Hl & Hx & Hn)%suppressed_spec. simpl in Hl.
    destruct (decide (j = r)) as [->|Hne]; [rewrite lookup_insert_eq in Hl; by injection Hl as <-|].
    rewrite lookup_insert_ne in Hl by done. apply Ho, suppressed_spec. by exists j, x.
  - intros i p Hi. exists p. split; [done|]. split; [apply same_proposal_refl|done].
Qed.
