(* ===== verification/RegroupAccept.v ===== *)
(** The writes of an acceptance, one table at a time.

    Accepting a proposal keeps the Objectives consistent when its changes leave
    nothing behind in the Objectives they supersede. *)
From S2P Require Import Prelude StrictJson Identifiers Grouping Jobs AuditLedger Tables CommandBoundary.
From S2P Require Import ObjectiveTables Regroup RegroupSweep RegroupSound RegroupProps ObjectiveStore.
From S2P Require Import ObjectiveAggregate RegroupStore RegroupManual RegroupContracts RegroupCommands.
From S2P Require Import RegroupDecisions ObjectiveAggregateProps RegroupLife.

(** * Memberships *)
Definition unchanged (r : TaskChangeRow) : Prop := tc_change_kind (tr_change r) = "unchanged_context".
#[export] Instance unchanged_dec r : Decision (unchanged r).
Proof. unfold unchanged. apply _. Defined.
Definition row_task (r : TaskChangeRow) : string := tc_task_id (tr_change r).

Section apply.
Context `{Sha256, FloatText} (fresh : site -> string) (clock : site -> Z).

(** The membership a changed row leaves, over the one it found. *)
Definition moved (proposal survivor command : string) (r : TaskChangeRow) (old : option MembershipRow) : MembershipRow :=
  MkMembershipRow survivor (tc_expected_current_plan_revision_id (tr_change r))
    (match old with Some m => ms_membership_revision m + 1 | None => 1 end)
    (fresh ["membership_event"; proposal; row_task r]) command.
(** The precondition of a row: it describes the membership as it is. *)
Definition row_found (survivor : string) (r : TaskChangeRow) (old : option MembershipRow) : Prop :=
  let c := tr_change r in
  if decide (unchanged r) then exists m, old = Some m /\ ms_objective_id m = survivor /\
    ms_accepted_plan_revision_id m = tc_expected_current_plan_revision_id c /\
    tc_expected_membership_revision c = Some (ms_membership_revision m)
  else tc_from_objective_id c = ms_objective_id <$> old /\
    tc_expected_membership_revision c = ms_membership_revision <$> old.
Definition membership_event_of (proposal survivor command : string) (r : TaskChangeRow) (old : option MembershipRow)
    : MembershipEventRow :=
  MkMembershipEventRow (row_task r) (membership_event_kind old (tc_change_kind (tr_change r)))
    (tc_from_objective_id (tr_change r)) (Some survivor) (tc_expected_current_plan_revision_id (tr_change r))
    (Some proposal) (clock ["membership_event"; proposal; row_task r]) command.

Lemma insert_membership_event_ok id e d d' u :
  insert_membership_event id e d = (d', Ok u) ->
  d' = set_membership_events (<[id := e]> (objective_membership_events d)) d /\
  objective_membership_events d !! id = None.
Proof.
  unfold insert_membership_event. intros [Hok ->]%statement_ok. split; [done|]. bool_hyps. unfold known in *. bool_hyps.
  by apply eq_None_not_Some.
Qed.
Lemma membership_bound_plan d t m :
  membership_bound d t m = true ->
  exists p, task_plan_revisions d !! ms_accepted_plan_revision_id m = Some p /\ pl_task_id p = t.
Proof.
  unfold membership_bound. destruct (task_plan_revisions d !! _) as [p|]; [|done].
  destruct (objective_membership_events d !! _); [|done]. intros Hb. bool_hyps. by exists p.
Qed.
Lemma move_membership_ok accepting t from n m d d' k :
  move_membership accepting t from n m d = (d', Ok k) -> k = 1 ->
  membership_bound d t m = true /\ d' = set_memberships (<[t := m]> (objective_task_membership_current d)) d.
Proof.
  unfold move_membership. destruct (_ !! t) as [r|]; [|by intros [= <- <-]]. destruct (_ && _); [|by intros [= <- <-]].
  cbv zeta. destruct (negb (_ && _ && _)) eqn:E; [done|]. apply negb_false_iff in E. bool_hyps.
  match goal with |- context [if ?b then _ else _] => destruct b end; [done|]. by intros [= <- _] _.
Qed.
Lemma apply_membership_ok accepting proposal r survivor command d d' ev :
  _apply_membership_change fresh clock accepting proposal r survivor command d = (d', Ok ev) ->
  let old := objective_task_membership_current d !! row_task r in
  row_found survivor r old /\
  if decide (unchanged r) then d' = d /\ ev = None
  else ev = Some (fresh ["membership_event"; proposal; row_task r]) /\
    d' = set_memberships (<[row_task r := moved proposal survivor command r old]> (objective_task_membership_current d))
      (set_membership_events (<[fresh ["membership_event"; proposal; row_task r] :=
         membership_event_of proposal survivor command r old]> (objective_membership_events d)) d) /\
    exists p, task_plan_revisions d !! tc_expected_current_plan_revision_id (tr_change r) = Some p /\
      pl_task_id p = row_task r.
Proof.
  unfold _apply_membership_change. cbv zeta. fold (row_task r). unfold row_found.
  intros (d1 & db & [= <- <-] & Hr)%stm_bind_ok.
  destruct (decide (unchanged r)) as [Hu|Hu].
  - unfold unchanged in Hu. rewrite Hu in Hr. simpl in Hr. inv_st Hr.
    destruct (objective_task_membership_current _ !! row_task r) as [m|]; [|discriminate]. bool_hyps. split; [|done].
    exists m. split; [done|]. split; [done|]. split; [done|]. by symmetry.
  - rewrite (proj2 (String.eqb_neq _ _) Hu) in Hr.
    apply stm_bind_ok in Hr as (d1 & v & H1 & Hr). apply insert_membership_event_ok in H1 as [-> _].
    destruct (objective_task_membership_current d !! row_task r) as [m|] eqn:Em.
    + inv_db Hr. bool_hyps. apply move_membership_ok in Hr1 as [Hb ->]; [|done].
      split; [by split|]. split; [done|]. split; [done|]. by apply membership_bound_plan in Hb.
    + inv_db Hr. bool_hyps. unfold insert_membership in Hr1. apply statement_ok in Hr1 as [Hok ->]. bool_hyps.
      split; [by split|]. split; [done|]. split; [done|]. by apply (membership_bound_plan _ _ _ H4).
Qed.

(** A run over all rows: the memberships change row by row, the rest of the
    tables is as it was. *)
Definition rows_tasks (rows : list TaskChangeRow) : list string := map row_task rows.
Lemma apply_memberships_ok accepting proposal survivor command rows d d' evs0 evs :
  NoDup (rows_tasks rows) ->
  foldS (fun events row =>
    event ← _apply_membership_change fresh clock accepting proposal row survivor command;
    mret (events ++ match event with Some e => [e] | None => [] end)) evs0 rows d = (d', Ok evs) ->
  exists ms es, d' = set_memberships ms (set_membership_events es d) /\
    (forall t, t ∉ rows_tasks rows -> ms !! t = objective_task_membership_current d !! t) /\
    (forall r, r ∈ rows -> let old := objective_task_membership_current d !! row_task r in
       row_found survivor r old /\
       ms !! row_task r = if decide (unchanged r) then old else Some (moved proposal survivor command r old)) /\
    (forall r, r ∈ rows -> ~ unchanged r -> exists p,
       task_plan_revisions d !! tc_expected_current_plan_revision_id (tr_change r) = Some p /\ pl_task_id p = row_task r).
Proof.
  revert d evs0. induction rows as [|r rows IH]; intros d evs0 Hnd; simpl.
  { intros [= <- <-]. exists (objective_task_membership_current d), (objective_membership_events d).
    split; [by destruct d|]. split; [done|]. split; intros r Hr; by apply not_elem_of_nil in Hr. }
  apply NoDup_cons in Hnd as [Hr Hnd].
  intros (d1 & evs1 & (d2 & ev & H1 & [= <- <-])%stm_bind_ok & H2)%stm_bind_ok.
  apply apply_membership_ok in H1 as [Hfound H1]. apply IH in H2 as (ms & es & -> & Hother & Hrows & Hplans); [|done].
  assert (forall r', r' ∈ rows -> row_task r' <> row_task r) as Hne.
  { intros r' Hr' E. apply Hr, list_elem_of_fmap. by exists r'. }
  destruct (decide (unchanged r)) as [Hu|Hu].
  - destruct H1 as [-> _]. exists ms, es. split; [done|]. split; [intros t Ht; apply Hother; set_solver|]. split.
    + intros r' [->|Hr']%elem_of_cons; [|by apply Hrows]. split; [done|]. rewrite decide_True by done. by apply Hother.
    + intros r' [->|Hr']%elem_of_cons; [done|by apply Hplans].
  - destruct H1 as (_ & -> & Hplan). exists ms, es. split; [done|]. simpl in *. split; [|split].
    + intros t Ht. rewrite Hother by set_solver. apply lookup_insert_ne. set_solver.
    + intros r' [->|Hr']%elem_of_cons.
      * split; [done|]. rewrite Hother by done. rewrite lookup_insert_eq. by rewrite decide_False.
      * specialize (Hrows r' Hr'). rewrite lookup_insert_ne in Hrows by (symmetry; by apply Hne). exact Hrows.
    + intros r' [->|Hr']%elem_of_cons; [done|by apply Hplans].
Qed.
End apply.

(** * Objectives *)
Definition superseded_ids (rows : list ObjectiveChangeRow) : list string :=
  omap (fun r => if String.eqb (oc_action (or_change r)) "supersede" then oc_objective_id (or_change r) else None) rows.
Definition superseded_row (survivor : string) (o : ObjectiveRow) : ObjectiveRow :=
  MkObjectiveRow (ob_tracking_sequence o) (ob_tracking_id o) (ob_creation_origin o) (Some survivor) (ob_revision o + 1)
    (ob_created_at_utc o) (ob_created_command_id o).
Lemma is_current_spec d id :
  is_current d id = true <-> exists o, objectives d !! id = Some o /\ ob_superseded_by_objective_id o = None.
Proof.
  unfold is_current. destruct (objectives d !! id) as [o|]; [|split; [done|by intros (? & ? & _)]].
  rewrite bool_decide_eq_true. naive_solver.
Qed.
Lemma supersede_objective_ok id survivor n d d' k :
  supersede_objective id survivor n d = (d', Ok k) -> k = 1 ->
  id <> survivor /\ is_current d id = true /\
  d' = set_objectives (alter (superseded_row survivor) id (objectives d)) d.
Proof.
  unfold supersede_objective. destruct (objectives d !! id) as [o|] eqn:Eo; [|by intros [= <- <-]].
  destruct (_ && _) eqn:E; [|by intros [= <- <-]]. destruct (_ || _) eqn:E2; [done|]. intros [= <- _] _. bool_hyps.
  split; [congruence|]. split; [apply is_current_spec; by exists o|].
  f_equal. apply map_eq. intros i. destruct (decide (i = id)) as [->|Hne].
  - rewrite lookup_insert_eq, lookup_alter_eq, Eo. done.
  - by rewrite lookup_insert_ne, lookup_alter_ne by done.
Qed.
Record objectives_applied (survivor : string) (rows : list ObjectiveChangeRow) (d : ObjDb)
    (os : gmap string ObjectiveRow) (affected : list string) : Prop := {
  oa_rows : forall id, os !! id = if decide (id ∈ superseded_ids rows)
    then superseded_row survivor <$> objectives d !! id else objectives d !! id;
  oa_current : forall id, id ∈ superseded_ids rows -> is_current d id = true;
  oa_survivor : survivor ∉ superseded_ids rows;
  oa_retained : forall r, r ∈ rows -> oc_objective_id (or_change r) = Some survivor -> is_current d survivor = true;
  oa_affected : affected = omap (fun r => oc_objective_id (or_change r)) rows
}.
Lemma apply_objective_change_ok survivor r d d' id :
  apply_objective_change survivor (or_change r) d = (d', Ok id) ->
  exists os, d' = set_objectives os d /\ id = oc_objective_id (or_change r) /\
    objectives_applied survivor [r] d os (match id with Some i => [i] | None => [] end).
Proof.
  unfold apply_objective_change. destruct (oc_objective_id (or_change r)) as [i|] eqn:Ei.
  2: { intros [= <- <-]. exists (objectives d). split; [by destruct d|]. split; [done|].
       assert (superseded_ids [r] = []) as Es by (unfold superseded_ids; simpl; rewrite Ei; by destruct (_ =? _)%string).
       split; rewrite ?Es; [by intros; rewrite decide_False by set_solver|set_solver|set_solver| |simpl; by rewrite Ei].
       intros r' ->%list_elem_of_singleton. congruence. }
  intros Hr. apply stm_bind_ok in Hr as (d0 & n & H1 & Hr). apply lift_ok in H1 as [-> _].
  apply stm_bind_ok in Hr as (d1 & u & H1 & [= <- <-]).
  destruct (String.eqb_spec (oc_action (or_change r)) "supersede") as [Ea|Ea].
  - apply stm_bind_ok in H1 as (d2 & k & H1 & H2). apply lift_ok in H2 as [-> H2]. apply forbid_ok in H2. bool_hyps.
    apply supersede_objective_ok in H1 as (Hne & Hc & ->); [|done]. eexists. split; [done|]. split; [done|].
    assert (superseded_ids [r] = [i]) as Es by (unfold superseded_ids; simpl; by rewrite Ea, Ei).
    split; rewrite ?Es.
    + intros j. case_decide as Hj; [apply list_elem_of_singleton in Hj as ->; by rewrite lookup_alter_eq|].
      rewrite lookup_alter_ne; [done|set_solver].
    + by intros j ->%list_elem_of_singleton.
    + set_solver.
    + intros r' ->%list_elem_of_singleton. congruence.
    + simpl. by rewrite Ei.
  - assert (superseded_ids [r] = []) as Es by (unfold superseded_ids; simpl; by rewrite (proj2 (String.eqb_neq _ _) Ea)).
    assert (d1 = d /\ (i = survivor -> is_current d survivor = true)) as [-> Hc].
    { destruct (String.eqb_spec i survivor) as [->|]; [|by injection H1 as <-].
      apply stm_bind_ok in H1 as (d2 & db & [= <- <-] & H1). apply lift_ok in H1 as [-> H1%forbid_ok].
      split; [done|]. intros _. unfold is_current. destruct (objectives d !! survivor); [|discriminate].
      bool_hyps. by apply bool_decide_eq_true. }
    exists (objectives d). split; [by destruct d|]. split; [done|]. split; rewrite ?Es; [by intros; rewrite decide_False by set_solver|set_solver|set_solver| |].
    + intros r' ->%list_elem_of_singleton E. apply Hc. congruence.
    + simpl. by rewrite Ei.
Qed.
Lemma apply_objectives_ok survivor rows d d' affected0 affected :
  foldS (fun affected row =>
    id ← apply_objective_change survivor (or_change row);
    mret (affected ++ match id with Some id => [id] | None => [] end)) affected0 rows d = (d', Ok affected) ->
  exists os more, d' = set_objectives os d /\ affected = affected0 ++ more /\ objectives_applied survivor rows d os more.
Proof.
  revert d affected0. induction rows as [|r rows IH]; intros d affected0; simpl.
  { intros [= <- <-]. exists (objectives d), []. rewrite app_nil_r. split; [by destruct d|]. split; [done|].
    split; simpl; intros; set_solver. }
  intros (d1 & a1 & (d2 & id & H1 & [= <- <-])%stm_bind_ok & H2)%stm_bind_ok.
  apply apply_objective_change_ok in H1 as (os1 & -> & -> & [R1 C1 S1 T1 _]).
  apply IH in H2 as (os & more & -> & -> & [R2 C2 S2 T2 A2]).
  assert (superseded_ids (r :: rows) = superseded_ids [r] ++ superseded_ids rows) as Es.
  { unfold superseded_ids. simpl. destruct (_ =? _)%string; [|done]. by destruct (oc_objective_id _). }
  assert (forall i, is_current (set_objectives os1 d) i = true -> (i ∉ superseded_ids [r]) /\ is_current d i = true) as Hcur.
  { intros i (o & Ho & Hn)%is_current_spec. simpl in Ho. rewrite R1 in Ho. case_decide as Hi.
    - apply fmap_Some in Ho as (o' & _ & ->). done.
    - split; [done|]. apply is_current_spec. by exists o. }
  exists os, (match oc_objective_id (or_change r) with Some i => [i] | None => [] end ++ more).
  split; [done|]. split; [by rewrite app_assoc|]. split; rewrite ?Es.
  - intros i. rewrite R2. simpl. rewrite R1. destruct (decide (i ∈ superseded_ids rows)) as [Hi|Hi].
    + destruct (Hcur i (C2 i Hi)) as [Hn _]. rewrite (decide_False (P := i ∈ superseded_ids [r])) by done.
      rewrite decide_True by set_solver. done.
    + destruct (decide (i ∈ superseded_ids [r])); [rewrite decide_True by set_solver|rewrite decide_False by set_solver]; done.
  - intros i [Hi|Hi]%elem_of_app; [by apply C1|]. by apply Hcur, C2.
  - rewrite elem_of_app. tauto.
  - intros r' [->|Hr]%elem_of_cons Ei; [apply (T1 r); [set_solver|done]|]. by eapply Hcur, T2.
  - simpl. rewrite A2. by destruct (oc_objective_id (or_change r)).
Qed.

(** The members of an Objective with their pinned plans. *)
Definition members (d : ObjDb) (o : string) : list (string * string * Z * Z) := envelope_material (member_rows d o).
Definition overlapping (e e' : EnvelopeRow) : Prop := en_start_utc e < en_end_utc e' /\ en_start_utc e' < en_end_utc e.
(** A member belongs to a current Objective and is pinned to a plan of its
    own; a current Objective has members, its envelope spans their plans, and
    no two envelopes overlap. *)
Record structure_ok (d : ObjDb) : Prop := {
  so_members : forall t m, objective_task_membership_current d !! t = Some m ->
    is_current d (ms_objective_id m) = true /\
    exists p, task_plan_revisions d !! ms_accepted_plan_revision_id m = Some p /\ pl_task_id p = t;
  so_envelopes : forall o, is_current d o = true -> exists e, objective_envelope_projection d !! o = Some e /\
    members d o <> [] /\ en_start_utc e = material_start (members d o) /\ en_end_utc e = material_end (members d o) /\
    en_member_count e = Z.of_nat (length (members d o));
  so_disjoint : forall o o' e e', is_current d o = true -> is_current d o' = true -> o <> o' ->
    objective_envelope_projection d !! o = Some e -> objective_envelope_projection d !! o' = Some e' -> ~ overlapping e e'
}.
(** The tables the structure is about. *)
Definition same_structure (d d' : ObjDb) : Prop :=
  task_plan_revisions d' = task_plan_revisions d /\ objectives d' = objectives d /\
  objective_task_membership_current d' = objective_task_membership_current d /\
  objective_envelope_projection d' = objective_envelope_projection d.
Lemma structure_frame d d' : same_structure d d' -> structure_ok d -> structure_ok d'.
Proof.
  intros (Hp & Ho & Hm & He) [M E D].
  assert (forall o, is_current d' o = is_current d o) as Hc by (intros; unfold is_current; by rewrite Ho).
  assert (forall o, members d' o = members d o) as Hms by (intros; unfold members, member_rows; by rewrite Hm, Hp).
  split.
  - intros t m. rewrite Hm, Hc, Hp. apply M.
  - intros o. rewrite Hc, He, Hms. apply E.
  - intros o o' e e'. rewrite !Hc, He. apply D.
Qed.
Lemma same_structure_trans d1 d2 d3 : same_structure d1 d2 -> same_structure d2 d3 -> same_structure d1 d3.
Proof. intros (? & ? & ? & ?) (? & ? & ? & ?). repeat split; congruence. Qed.

Definition raw_rows (d : ObjDb) (o : string) : list (string * MembershipRow * PlanRow) :=
  omap (fun kv : string * MembershipRow =>
      if String.eqb (ms_objective_id kv.2) o then
        p ← task_plan_revisions d !! ms_accepted_plan_revision_id kv.2; Some (kv, p)
      else None)
    (map_to_list (objective_task_membership_current d)).
Lemma raw_rows_elem d o t m p :
  (t, m, p) ∈ raw_rows d o <->
  objective_task_membership_current d !! t = Some m /\ ms_objective_id m = o /\
  task_plan_revisions d !! ms_accepted_plan_revision_id m = Some p.
Proof.
  unfold raw_rows. rewrite list_elem_of_omap. split.
  - intros ([t' m'] & Hin%elem_of_map_to_list & Hx). simpl in Hx.
    destruct (String.eqb_spec (ms_objective_id m') o); [|done]. by apply bind_Some in Hx as (p' & Hp & [= -> -> ->]).
  - intros (Hm & <- & Hp). exists (t, m). split; [by apply elem_of_map_to_list|]. simpl. by rewrite String.eqb_refl, Hp.
Qed.
Lemma raw_rows_NoDup d o : NoDup (map (fun r : string * MembershipRow * PlanRow => r.1.1) (raw_rows d o)).
Proof.
  eapply sublist_NoDup; [apply (NoDup_fst_map_to_list (objective_task_membership_current d))|]. unfold raw_rows.
  induction (map_to_list _) as [|[t m] l IH]; simpl; [constructor|].
  destruct (_ =? _)%string; simpl; [|by constructor]. destruct (task_plan_revisions d !! _); simpl; by constructor.
Qed.
Lemma member_rows_elem d o r : r ∈ member_rows d o <-> r ∈ raw_rows d o.
Proof. apply elem_of_py_sorted. Qed.
(** The members of an Objective depend only on the rows that point to it. *)
Lemma members_frame d d' o :
  task_plan_revisions d' = task_plan_revisions d ->
  (forall t m, ms_objective_id m = o ->
     objective_task_membership_current d' !! t = Some m <-> objective_task_membership_current d !! t = Some m) ->
  members d' o = members d o.
Proof.
  intros Hp Hm. unfold members. f_equal.
  change (py_sorted (fun r : string * MembershipRow * PlanRow => r.1.1) (raw_rows d' o)
    = py_sorted (fun r : string * MembershipRow * PlanRow => r.1.1) (raw_rows d o)).
  assert (forall t m p, (t, m, p) ∈ raw_rows d' o <-> (t, m, p) ∈ raw_rows d o) as Hel.
  { intros t m p. rewrite !raw_rows_elem, Hp. split; intros (H1 & H2 & H3); split_and!; auto; by apply Hm. }
  apply py_sorted_canonical.
  - intros [[t m] p] [[t' m'] p'] Hx Hy Hk. simpl in Hk. subst t'. apply raw_rows_elem in Hx as (? & ? & ?), Hy as (? & ? & ?).
    congruence.
  - apply NoDup_Permutation; [eapply NoDup_fmap_1, raw_rows_NoDup..|]. intros [[t m] p]. apply Hel.
Qed.
Lemma members_nil d o :
  members d o = [] -> forall t m p, objective_task_membership_current d !! t = Some m -> ms_objective_id m = o ->
  task_plan_revisions d !! ms_accepted_plan_revision_id m = Some p -> False.
Proof.
  unfold members. intros E%map_eq_nil t m p Ht Hm Hp. assert ((t, m, p) ∈ member_rows d o) as Hin.
  { by apply member_rows_elem, raw_rows_elem. }
  rewrite E in Hin. by apply not_elem_of_nil in Hin.
Qed.

(** * The envelope of the survivor *)
Section accept.
Context `{Sha256, FloatText} (fresh : site -> string) (clock : site -> Z).

Record envelope_written (survivor : string) (d : ObjDb) (e : EnvelopeRow) : Prop := {
  ew_nonempty : members d survivor <> [];
  ew_start : en_start_utc e = material_start (members d survivor);
  ew_end : en_end_utc e = material_end (members d survivor);
  ew_count : en_member_count e = Z.of_nat (length (members d survivor));
  ew_free : is_current d survivor = true -> overlapping_current d survivor (en_start_utc e) (en_end_utc e) = []
}.
Lemma envelope_row_free d id e :
  envelope_row_ok d id e = true -> is_current d id = true -> overlapping_current d id (en_start_utc e) (en_end_utc e) = [].
Proof.
  unfold envelope_row_ok. intros [_ Hok%negb_true_iff]%andb_true_iff Hc. apply andb_false_iff in Hok as [?|Hb]; [congruence|].
  apply bool_decide_eq_false in Hb. destruct (decide (overlapping_current d id (en_start_utc e) (en_end_utc e) = [])); [done|]. by destruct Hb.
Qed.
Lemma survivor_envelope_ok new survivor rows command d d' u :
  survivor_envelope new survivor rows command d = (d', Ok u) ->
  exists e, d' = set_envelopes (<[survivor := e]> (objective_envelope_projection d)) d /\
    envelope_written survivor d e /\
    (new = false -> exists r, r ∈ rows /\ oc_objective_id (or_change r) = Some survivor).
Proof.
  unfold survivor_envelope. destruct new.
  - intros (d1 & db & [= <- <-] & (d2 & f & Hr & [= <- _])%stm_bind_ok)%stm_bind_ok.
    unfold _insert_envelope in Hr. fold (members d survivor) in Hr.
    apply stm_bind_ok in Hr as (d3 & v & [-> Hn%forbid_ok]%lift_ok & Hr).
    apply stm_bind_ok in Hr as (d3 & f' & [-> Hf]%lift_ok & (d4 & w & Hi & [= <- <-])%stm_bind_ok).
    unfold insert_envelope in Hi. apply statement_ok in Hi as [Hok ->]. bool_hyps. eexists. split; [done|].
    split; [|done]. split; [done|done|done|done|]. by apply envelope_row_free.
  - destruct (head _) as [r|] eqn:Eh; [|by intros [? ?]%lift_ok].
    intros (d1 & n & [-> Hn]%lift_ok & (d2 & f & Hr & [= <- _])%stm_bind_ok)%stm_bind_ok.
    unfold _rebuild_survivor_envelope in Hr. apply stm_bind_ok in Hr as (d3 & db & [= <- <-] & Hr).
    cbv zeta in Hr. fold (members d survivor) in Hr.
    apply stm_bind_ok in Hr as (d4 & v & [-> He%forbid_ok]%lift_ok & Hr).
    apply stm_bind_ok in Hr as (d4 & f' & [-> Hf]%lift_ok & Hr).
    apply stm_bind_ok in Hr as (d4 & k & Hk & (d5 & w & [-> Hw%forbid_ok]%lift_ok & [= <- _])%stm_bind_ok).
    bool_hyps. unfold update_envelope in Hk. destruct (_ !! survivor) as [e0|]; [|injection Hk as _ Hk; lia].
    destruct (_ =? n); [|injection Hk as _ Hk; lia]. destruct (_ && _) eqn:E; [|done]. injection Hk as <- _. bool_hyps.
    eexists. split; [done|]. split.
    + split; [done|done|done|done|]. by apply envelope_row_free.
    + intros _. apply head_Some_elem_of in Eh. apply list_elem_of_filter in Eh as [Eh Hr]. by exists r.
Qed.
Lemma rebuild_structure id command d d' row : rebuild_aggregate id command d = (d', Ok row) -> same_structure d d'.
Proof. intros (_ & _ & m & f & _ & _ & _ & _ & ->)%rebuild_aggregate_ok. done. Qed.
Lemma rebuild_affected_structure survivor command affected d d' u :
  rebuild_affected survivor command affected d = (d', Ok u) -> same_structure d d'.
Proof.
  unfold rebuild_affected. intros (d1 & row & H1%rebuild_structure & H2)%stm_bind_ok. revert H1 H2.
  generalize (py_sorted (fun s : string => s) (elements (list_to_set affected : gset string))) as l. intros l.
  revert d1. induction l as [|i l IH]; intros d1 H1; simpl; [by intros [= <- _]|].
  intros (d2 & v & Hv & H2)%stm_bind_ok. apply (IH d2); [|done]. eapply same_structure_trans; [exact H1|].
  destruct (_ =? _)%string; [injection Hv as <- _; by repeat split|].
  apply stm_bind_ok in Hv as (d3 & row' & Hv%rebuild_structure & [= <- _]). done.
Qed.

(** * All the writes *)
Lemma create_objective_ok survivor sequence revision command d d' u :
  create_objective clock survivor sequence revision command d = (d', Ok u) ->
  objectives d !! survivor = None /\ exists a archives o, ob_superseded_by_objective_id o = None /\
    d' = set_archives archives (set_objectives (<[survivor := o]> (objectives d)) (set_allocator a d)).
Proof.
  unfold create_objective, _advance_tracking_allocator.
  intros (d1 & v & (d2 & k & Hk & [-> Hc%forbid_ok]%lift_ok)%stm_bind_ok & (d3 & w & Hi & Ha)%stm_bind_ok)%stm_bind_ok.
  bool_hyps. unfold advance_allocator in Hk. destruct (objective_tracking_allocator d) as [[n r]|]; [|injection Hk; lia].
  destruct (_ && _); [|injection Hk; lia]. destruct (_ <=? _); [|done]. injection Hk as <- _.
  unfold insert_objective in Hi. apply statement_ok in Hi as [Hok ->]. unfold insert_archive in Ha.
  apply statement_ok in Ha as [_ ->]. bool_hyps. unfold known in *. bool_hyps. simpl in *.
  split; [by apply eq_None_not_Some|]. eexists _, _, _. split; [|done]. done.
Qed.
Definition is_new (p : accept_plan) : bool := bool_decide (is_Some (ap_new p)).
(** What an acceptance does to the structure. *)
Record accept_effect (id command : string) (p : accept_plan) (d d' : ObjDb) : Prop := {
  ae_plans : task_plan_revisions d' = task_plan_revisions d;
  ae_current : forall o, is_current d' o = true <->
    o = ap_survivor p \/ (is_current d o = true /\ o ∉ superseded_ids (ap_objective_rows p));
  ae_superseded : forall o, o ∈ superseded_ids (ap_objective_rows p) ->
    exists r, objectives d !! o = Some r /\ objectives d' !! o = Some (superseded_row (ap_survivor p) r);
  ae_kept : forall o r, o ∉ superseded_ids (ap_objective_rows p) -> objectives d !! o = Some r ->
    objectives d' !! o = Some r;
  ae_survivor : if is_new p then objectives d !! ap_survivor p = None
    else is_current d (ap_survivor p) = true /\
      exists r, r ∈ ap_objective_rows p /\ oc_objective_id (or_change r) = Some (ap_survivor p);
  ae_apart : ap_survivor p ∉ superseded_ids (ap_objective_rows p);
  ae_others : forall t, t ∉ rows_tasks (ap_task_rows p) ->
    objective_task_membership_current d' !! t = objective_task_membership_current d !! t;
  ae_rows : forall r, r ∈ ap_task_rows p -> let old := objective_task_membership_current d !! row_task r in
    row_found (ap_survivor p) r old /\ objective_task_membership_current d' !! row_task r =
      if decide (unchanged r) then old else Some (moved fresh id (ap_survivor p) command r old);
  ae_row_plans : forall r, r ∈ ap_task_rows p -> ~ unchanged r -> exists q,
    task_plan_revisions d !! tc_expected_current_plan_revision_id (tr_change r) = Some q /\ pl_task_id q = row_task r;
  ae_envelope : exists e, objective_envelope_projection d' = <[ap_survivor p := e]> (objective_envelope_projection d) /\
    members d' (ap_survivor p) <> [] /\ en_start_utc e = material_start (members d' (ap_survivor p)) /\
    en_end_utc e = material_end (members d' (ap_survivor p)) /\
    en_member_count e = Z.of_nat (length (members d' (ap_survivor p))) /\
    forall o e', o <> ap_survivor p -> is_current d' o = true -> objective_envelope_projection d !! o = Some e' ->
      ~ overlapping e e'
}.
Lemma overlapping_nil d id start end_ o e :
  overlapping_current d id start end_ = [] -> o <> id -> is_current d o = true ->
  objective_envelope_projection d !! o = Some e -> ~ (en_start_utc e < end_ /\ start < en_end_utc e).
Proof.
  intros E Hne Hc He [H1 H2]. assert ((en_start_utc e, o) ∈ overlapping_current d id start end_) as Hin.
  { unfold overlapping_current. apply list_elem_of_omap. exists (o, e). split; [by apply elem_of_map_to_list|]. simpl.
    rewrite (proj2 (String.eqb_neq _ _) Hne), Hc. apply Z.ltb_lt in H1, H2. by rewrite H1, H2. }
  rewrite E in Hin. by apply not_elem_of_nil in Hin.
Qed.
Lemma assert_no_overlap_state id d d' u : _assert_no_overlap id d = (d', Ok u) -> d' = d.
Proof.
  unfold _assert_no_overlap. intros (d1 & db & [= <- <-] & Hr)%stm_bind_ok.
  by destruct (objective_envelope_projection d !! id); apply lift_ok in Hr as [-> _].
Qed.
(** The tables before the memberships change: with the new Objective, if any. *)
Lemma create_step p command d d' u :
  match ap_new p with
  | Some (sequence, revision) => create_objective clock (ap_survivor p) sequence revision command
  | None => mret tt end d = (d', Ok u) ->
  task_plan_revisions d' = task_plan_revisions d /\
  objective_task_membership_current d' = objective_task_membership_current d /\
  objective_envelope_projection d' = objective_envelope_projection d /\
  if is_new p then objectives d !! ap_survivor p = None /\ exists o, ob_superseded_by_objective_id o = None /\
    objectives d' = <[ap_survivor p := o]> (objectives d)
  else d' = d.
Proof.
  unfold is_new. destruct (ap_new p) as [[n r]|]; [|by intros [= <- _]].
  intros (Hn & a & ar & o & Ho & ->)%create_objective_ok. rewrite bool_decide_eq_true_2 by (by eexists).
  split_and!; try done. by exists o.
Qed.

Lemma current_after os survivor rows d more :
  objectives_applied survivor rows d os more ->
  forall o, is_current (set_objectives os d) o = true <-> is_current d o = true /\ o ∉ superseded_ids rows.
Proof.
  intros [R C S T A] o. rewrite !is_current_spec. simpl. rewrite R. case_decide as Ho.
  - split; [|by intros [_ ?]]. intros (r & Hr & Hn). apply fmap_Some in Hr as (r' & _ & ->). done.
  - naive_solver.
Qed.
Lemma apply_accept_ok accepting id revision fingerprint command p d d' events :
  NoDup (rows_tasks (ap_task_rows p)) ->
  apply_accept fresh clock accepting id revision fingerprint command p d = (d', Ok events) ->
  accept_effect id command p d d'.
Proof.
  intros Hnd. unfold apply_accept. cbv zeta.
  intros (d1 & u1 & (Hp1 & Hm1 & He1 & Ho1)%create_step & Hr)%stm_bind_ok.
  apply stm_bind_ok in Hr as (d2 & evs & H2 & Hr).
  unfold apply_memberships in H2. apply apply_memberships_ok in H2 as (ms & es & -> & Hother & Hrows & Hplans); [|done].
  apply stm_bind_ok in Hr as (d3 & u3 & [-> _]%lift_ok & Hr).
  apply stm_bind_ok in Hr as (d3 & affected & H3 & Hr).
  unfold apply_objectives in H3. apply apply_objectives_ok in H3 as (os & more & -> & _ & Hos).
  apply stm_bind_ok in Hr as (d4 & u4 & (e & -> & [N S E C F] & Hret)%survivor_envelope_ok & Hr).
  apply stm_bind_ok in Hr as (d5 & u5 & ->%assert_no_overlap_state & Hr).
  apply stm_bind_ok in Hr as (d6 & u6 & H6%rebuild_affected_structure & Hr).
  apply stm_bind_ok in Hr as (d7 & n & (_ & _ & q & _ & _ & _ & ->)%proposal_transition_ok & [= <- _]).
  set (d3 := set_objectives os _) in *.
  assert (forall o, is_current d3 o = true <-> is_current d1 o = true /\ o ∉ superseded_ids (ap_objective_rows p)) as Hcur.
  { exact (current_after _ _ _ _ _ Hos). }
  destruct H6 as (Hp6 & Ho6 & Hm6 & He6). simpl in Hp6, Ho6, Hm6, He6.
  set (s := ap_survivor p) in *.
  assert (is_current d1 s = true /\ (s ∉ superseded_ids (ap_objective_rows p))) as [Hcs Hs].
  { split; [|apply Hos]. fold (is_new p) in Hret. destruct (is_new p).
    - destruct Ho1 as (_ & o & Hn & Ho). apply is_current_spec. exists o. by rewrite Ho, lookup_insert_eq.
    - subst d1. destruct (Hret eq_refl) as (r & Hr & Er). by apply (oa_retained _ _ _ _ _ Hos r Hr Er). }
  assert (forall o, is_current d6 o = is_current d3 o) as Hc6 by (intros; unfold is_current; by rewrite Ho6).
  assert (forall o, is_current d1 o = true <-> o = s \/ is_current d o = true) as Hc1.
  { intros o. destruct (is_new p).
    - destruct Ho1 as (Hnone & r & Hn & Ho). rewrite !is_current_spec, Ho. destruct (decide (o = s)) as [->|Hne].
      + rewrite lookup_insert_eq. naive_solver.
      + rewrite lookup_insert_ne by done. naive_solver.
    - subst d1. naive_solver. }
  assert (members d6 s = members d3 s) as Hms.
  { unfold members, member_rows. by rewrite Hm6, Hp6. }
  assert (forall v, members (set_proposals v d6) s = members d3 s) as Hms' by exact (fun _ => Hms).
  split.
  - simpl. by rewrite Hp6.
  - intros o. change (is_current d6 o = true <-> o = s \/ (is_current d o = true /\ o ∉ superseded_ids (ap_objective_rows p))).
    rewrite Hc6, Hcur, Hc1. split; [tauto|]. intros [->|?]; tauto.
  - intros o Ho. assert (o <> s) as Hne by (intros ->; done).
    simpl. destruct (proj1 (is_current_spec _ _) (oa_current _ _ _ _ _ Hos o Ho)) as (r & Hr & _). simpl in Hr.
    exists r. rewrite Ho6, (oa_rows _ _ _ _ _ Hos), decide_True by done. simpl. rewrite Hr. split; [|done].
    destruct (is_new p); [|by subst d1]. destruct Ho1 as (_ & r' & _ & Ho1). rewrite Ho1, lookup_insert_ne in Hr by done. done.
  - intros o r Ho Hr. simpl. rewrite Ho6, (oa_rows _ _ _ _ _ Hos), decide_False by done.
    change (objectives d1 !! o = Some r). destruct (is_new p); [|by subst d1].
    destruct Ho1 as (Hnone & r' & _ & ->). by rewrite lookup_insert_ne by congruence.
  - fold (is_new p) in Hret. destruct (is_new p); [by destruct Ho1|]. subst d1. split; [done|]. by apply Hret.
  - done.
  - intros t Ht. simpl. rewrite Hm6, Hother, Hm1 by done. done.
  - intros r Hr. simpl. rewrite Hm6. specialize (Hrows r Hr). rewrite Hm1 in Hrows. exact Hrows.
  - intros r Hr Hu. specialize (Hplans r Hr Hu). by rewrite Hp1 in Hplans.
  - exists e. simpl objective_envelope_projection. rewrite He6, He1. split; [done|].
    fold s. rewrite !(Hms' _). split_and!; [done..|]. intros o e' Hne Ho He'. change (is_current d6 o = true) in Ho. rewrite Hc6 in Ho.
    assert (is_current d3 s = true) as Hs3 by (by apply Hcur). specialize (F Hs3).
    intros [H1 H2]. apply (overlapping_nil _ _ _ _ o e' F); [done..| |done]. simpl. by rewrite He1.
Qed.

(** * The structure is kept *)
(** A plan that takes its tasks from the survivor or from superseded
    Objectives, and leaves nothing behind in these. *)
Record plan_closed (d : ObjDb) (p : accept_plan) : Prop := {
  pc_tasks : NoDup (rows_tasks (ap_task_rows p));
  pc_from : forall r o, r ∈ ap_task_rows p -> ~ unchanged r -> tc_from_objective_id (tr_change r) = Some o ->
    o = ap_survivor p \/ o ∈ superseded_ids (ap_objective_rows p);
  pc_moved : forall t m, objective_task_membership_current d !! t = Some m ->
    ms_objective_id m ∈ superseded_ids (ap_objective_rows p) ->
    exists r, r ∈ ap_task_rows p /\ row_task r = t /\ ~ unchanged r
}.
(** The Objective of a membership after the acceptance. *)
Lemma accepted_member id command p d d' t m :
  accept_effect id command p d d' -> objective_task_membership_current d' !! t = Some m ->
  ms_objective_id m = ap_survivor p /\ (exists r, r ∈ ap_task_rows p /\ row_task r = t) \/
  (t ∉ rows_tasks (ap_task_rows p)) /\ objective_task_membership_current d !! t = Some m.
Proof.
  intros He Hm. destruct (decide (t ∈ rows_tasks (ap_task_rows p))) as [Ht|Ht].
  - left. apply list_elem_of_fmap in Ht as (r & -> & Hr). destruct (ae_rows _ _ _ _ _ He r Hr) as [Hf Hnew].
    rewrite Hm in Hnew. unfold row_found in Hf. split; [|by exists r]. destruct (decide (unchanged r)).
    + destruct Hf as (m' & Hm' & Ho & _). congruence.
    + injection Hnew as ->. done.
  - right. split; [done|]. by rewrite <-(ae_others _ _ _ _ _ He t Ht).
Qed.
Lemma accept_structure id command p d d' :
  accept_effect id command p d d' -> plan_closed d p -> structure_ok d -> structure_ok d'.
Proof.
  intros He [_ Hfrom Hmoved] [Hmem Henv Hdis]. pose proof (ae_current _ _ _ _ _ He) as Hcur.
  destruct (ae_envelope _ _ _ _ _ He) as (e & Ee & Hne & Hst & Hen & Hct & Hfree).
  assert (forall o, is_current d' o = true -> o <> ap_survivor p -> is_current d o = true /\
    members d' o = members d o) as Hold.
  { intros o Ho Hn. apply Hcur in Ho as [->|[Ho Hs]]; [done|]. split; [done|].
    apply members_frame; [by apply (ae_plans _ _ _ _ _ He)|]. intros t m Hmo. split; intros Hm.
    - by destruct (accepted_member _ _ _ _ _ _ _ He Hm) as [[E _]|[_ ?]]; [congruence|].
    - destruct (decide (t ∈ rows_tasks (ap_task_rows p))) as [Ht|Ht];
        [|by rewrite (ae_others _ _ _ _ _ He)].
      apply list_elem_of_fmap in Ht as (r & -> & Hr). destruct (ae_rows _ _ _ _ _ He r Hr) as [Hf _].
      rewrite Hm in Hf. unfold row_found in Hf. destruct (decide (unchanged r)) as [Hu|Hu].
      + destruct Hf as (m' & [= <-] & E & _). congruence.
      + destruct Hf as [Hf _]. simpl in Hf. destruct (Hfrom r _ Hr Hu Hf); congruence. }
  split.
  - intros t m Hm. rewrite (ae_plans _ _ _ _ _ He).
    destruct (accepted_member _ _ _ _ _ _ _ He Hm) as [[Eo (r & Hr & <-)]|[Ht Hm0]].
    + split; [apply Hcur; by left|]. destruct (ae_rows _ _ _ _ _ He r Hr) as [_ Hnew]. rewrite Hm in Hnew.
      destruct (decide (unchanged r)) as [Hu|Hu]; [by apply Hmem|]. injection Hnew as ->. by apply (ae_row_plans _ _ _ _ _ He).
    + destruct (Hmem t m Hm0) as [Hc Hp]. split; [|done]. apply Hcur. right. split; [done|]. intros Hs.
      destruct (Hmoved t m Hm0 Hs) as (r & Hr & <- & _). apply Ht, list_elem_of_fmap. by exists r.
  - intros o Ho. rewrite Ee. destruct (decide (o = ap_survivor p)) as [->|Hn].
    + rewrite lookup_insert_eq. by exists e.
    + rewrite lookup_insert_ne by done. destruct (Hold o Ho Hn) as [Hc ->]. by apply Henv.
  - intros o o' x x' Ho Ho' Hn. rewrite Ee.
    destruct (decide (o = ap_survivor p)) as [->|H1]; [rewrite lookup_insert_eq|rewrite lookup_insert_ne by done];
      (destruct (decide (o' = ap_survivor p)) as [->|H2]; [rewrite lookup_insert_eq|rewrite lookup_insert_ne by done]);
      intros Hx Hx'; try done.
    + injection Hx as <-. by apply (Hfree o').
    + injection Hx' as <-. intros [A B]. by apply (Hfree o x); [| |done|split].
    + apply (Hdis o o'); [by apply Hold|by apply Hold|done..].
Qed.
End accept.
