(* ===== verification/RegroupAccepted.v ===== *)
(** From a reviewed proposal to its plan: what the candidate behind a proposal
    changes, against the memberships as they are.

    The acceptance command as a whole keeps the Objectives consistent exactly
    when it leaves no member of a superseded Objective behind. *)
From S2P Require Import Prelude StrictJson Identifiers Grouping Jobs JobsExample AuditLedger Tables.
From S2P Require Import CommandBoundary CommandReplay CommandDomain ObjectiveTables Regroup RegroupSweep.
From S2P Require Import RegroupSound RegroupProps ObjectiveStore ObjectiveAggregate RegroupStore RegroupManual.
From S2P Require Import RegroupContracts RegroupCommands RegroupDecisions RegroupSamples.
From S2P Require Import ObjectiveAggregateProps RegroupLife RegroupAccept.

Definition supersedes (c : RegroupCandidate) (o : string) : Prop :=
  exists oc, oc ∈ Grouping.objective_changes c /\ oc_action oc = "supersede" /\ oc_objective_id oc = Some o.
(** The changes of a candidate: each task at most once, none of them locked, all
    taken from current Objectives, from the survivor or superseded ones. *)
Record change_set_ok (d : ObjDb) (c : RegroupCandidate) : Prop := {
  cs_ids : NoDup (map tc_task_id (Grouping.task_changes c));
  cs_from : forall ch o, ch ∈ Grouping.task_changes c -> tc_from_objective_id ch = Some o ->
    survivor_objective_id c = Some o \/ supersedes c o;
  cs_unlocked : forall ch, ch ∈ Grouping.task_changes c -> membership_lock d (tc_task_id ch) <> 1;
  cs_current : forall ch m, ch ∈ Grouping.task_changes c ->
    objective_task_membership_current d !! tc_task_id ch = Some m -> is_current d (ms_objective_id m) = true;
  cs_actions : forall oc o, oc ∈ Grouping.objective_changes c -> oc_objective_id oc = Some o ->
    oc_action oc <> "supersede" -> survivor_objective_id c = Some o;
  cs_create : proposal_kind c = "create" -> survivor_objective_id c = None
}.

Section review.
Context `{Sha256, FloatText}.
(** No member of a superseded Objective is kept out of the regroup. *)
Definition all_eligible (d : ObjDb) (superseded : string -> Prop) : Prop :=
  forall t m, objective_task_membership_current d !! t = Some m -> superseded (ms_objective_id m) ->
    exists a, eligible d a /\ task_id a = t.

(** Every member of a superseded Objective is moved. *)
Definition moves_members (d : ObjDb) (c : RegroupCandidate) : Prop :=
  forall o t m, supersedes c o -> objective_task_membership_current d !! t = Some m -> ms_objective_id m = o ->
    exists ch, ch ∈ Grouping.task_changes c /\ tc_task_id ch = t /\ tc_change_kind ch <> "unchanged_context".
Lemma authority_current d id o : current_objectives d !! id = Some o -> is_current d id = true.
Proof.
  unfold current_objectives. rewrite map_lookup_imap. intros (r & Hr & Ho)%bind_Some. apply is_current_spec.
  exists r. split; [done|]. unfold objective_authority in Ho. by destruct (ob_superseded_by_objective_id r).
Qed.
(** The task of a component's change is open, and its Objective current. *)
Lemma snapshot_current d s a m :
  snapshot_ok d s -> a ∈ s_tasks s -> objective_task_membership_current d !! task_id a = Some m ->
  is_current d (ms_objective_id m) = true.
Proof.
  intros Hsn Ha Hm. destruct (sn_tasks _ _ Hsn a Ha) as [_ _ _ (Em & _) _ _ Ho]. rewrite Hm in Em. simpl in Em.
  destruct (Ho _ Em) as (o & Hcur & _). by eapply authority_current.
Qed.
Lemma component_change_set d origin_ cs c :
  plans_ok d -> _candidates d origin_ = Ok cs -> c ∈ cs -> change_set_ok d c.
Proof.
  intros Hplans Hcs Hin. destruct (candidate_plan _ _ _ _ Hplans Hcs Hin) as (s & comp & p & Hs & Hc & Hp & Hok & ->).
  pose proof (load_snapshot_ok _ _ Hs) as Hsn. destruct Hok as [Hch Hids _ _ Hsurv Hsup _ _ Hact].
  assert (forall o, o ∈ concerned (s_objectives s) comp -> plan_survivor p = Some (o_objective_id o) \/
    exists oc, oc ∈ plan_objectives p /\ oc_action oc = "supersede" /\ oc_objective_id oc = Some (o_objective_id o)) as Hcases.
  { intros o Ho. destruct (plan_survivor p) as [x|] eqn:Ex.
    - destruct (decide (x = o_objective_id o)) as [->|Hne]; [by left|right].
      destruct (Hsup o Ho ltac:(congruence)) as (_ & Hr & _). eexists. split; [exact Hr|]. simpl.
      rewrite (proj2 (String.eqb_neq _ _)); [done|congruence].
    - destruct Hsurv as [_ E]. rewrite E in Ho. by apply not_elem_of_nil in Ho. }
  split; simpl.
  - done.
  - intros ch o Hin' Hf. apply Hch in Hin' as (t & [Ht Hm] & ->). simpl in Hf.
    assert (exists o', o' ∈ concerned (s_objectives s) comp /\ o_objective_id o' = o) as (o' & Ho' & <-).
    { destruct Hm as [Hm|(o' & Ho' & E)]; [by eapply component_concerned|]. exists o'. split; [done|congruence]. }
    by apply Hcases.
  - intros ch (t & [Ht _] & ->)%Hch. simpl. by apply (so_open _ _ (sn_tasks _ _ Hsn t Ht)).
  - intros ch m (t & [Ht _] & ->)%Hch. simpl. by apply (snapshot_current d s).
  - intros oc o Hoc Hid Hn. by destruct (Hact oc o Hoc Hid) as [[? _]|[_ ?]].
  - intros E. destruct (plan_survivor p); [|done]. by destruct Hsurv.
Qed.
Lemma component_moves d origin_ cs c :
  plans_ok d -> _candidates d origin_ = Ok cs -> c ∈ cs -> all_eligible d (supersedes c) -> moves_members d c.
Proof.
  intros Hplans Hcs Hin. destruct (candidate_plan _ _ _ _ Hplans Hcs Hin) as (s & comp & p & Hs & Hc & Hp & Hok & ->).
  pose proof (load_snapshot_ok _ _ Hs) as Hsn. intros Hall. destruct Hok as [_ _ _ _ _ Hsup _ _ Hact].
  intros o t m Hsu Hm Ho. destruct (Hall t m Hm) as (a & (s' & Hs' & Ha) & <-); [by rewrite Ho|].
  destruct Hsu as (oc & Hoc & Ha1 & Hid). simpl in Hoc.
  destruct (Hact oc o Hoc Hid) as [(_ & Hns & o' & Ho' & <-)|[? _]]; [|done].
  assert (s' = s) as -> by congruence. destruct (Hsup o' Ho' Hns) as (_ & _ & Hmv).
  destruct (so_membership _ _ (sn_tasks _ _ Hsn a Ha)) as (Hmo & _). rewrite Hm in Hmo. simpl in Hmo.
  destruct (Hmv a Ha) as [H1 H2]; [congruence|]. eexists. split; [exact H1|]. split; [done|]. simpl. by rewrite H2.
Qed.

(** ** The manual merge *)
Lemma selected_ids d ids o :
  o ∈ selected_objectives d ids -> o_objective_id o ∈ ids /\ is_current d (o_objective_id o) = true.
Proof.
  unfold selected_objectives. rewrite elem_of_py_sorted, list_elem_of_omap.
  intros (id & Hid%elem_of_elements%elem_of_list_to_set & (r & Hl & Hr)%bind_Some).
  unfold objective_authority in Hr. destruct (ob_superseded_by_objective_id r) eqn:Es; [done|].
  apply bind_Some in Hr as (e & _ & (a & _ & [= <-])%bind_Some). split; [done|]. apply is_current_spec. by exists r.
Qed.
Definition merge_row_of (d : ObjDb) (kv : string * MembershipRow) : option merge_row :=
  revision ← tasks d !! kv.1;
  pc ← task_plan_current d !! kv.1;
  p ← task_plan_revisions d !! pc_plan_revision_id pc;
  if String.eqb (pl_task_id p) kv.1 then Some (kv.1, revision, pc, p, kv.2) else None.
Definition row_membership (r : merge_row) : string * MembershipRow := (r.1.1.1.1, r.2).
Lemma merge_row_of_ok d kv r : merge_row_of d kv = Some r -> row_membership r = kv.
Proof.
  unfold merge_row_of. intros (n & _ & (pc & _ & (p & _ & Hr)%bind_Some)%bind_Some)%bind_Some.
  destruct (_ =? _)%string; [|done]. injection Hr as <-. by destruct kv.
Qed.
Lemma omap_complete {A B} (f : A -> option B) l : length (omap f l) = length l -> forall x, x ∈ l -> is_Some (f x).
Proof.
  assert (forall l, length (omap f l) <= length l)%nat as Hle.
  { intros k. induction k as [|z k IH]; [apply le_n|]. simpl. destruct (f z); simpl; [by apply le_n_S|by apply le_S]. }
  induction l as [|y l IH]; intros Hlen x Hx; [by apply not_elem_of_nil in Hx|]. specialize (Hle l). simpl in Hlen.
  destruct (f y) as [b|] eqn:E; simpl in Hlen; [|change (length (omap f l) = S (length l)) in Hlen; rewrite Hlen in Hle; lia].
  apply elem_of_cons in Hx as [->|Hx]; [by eexists|]. apply IH; [by injection Hlen|done].
Qed.
Lemma omap_memberships d l : sublist (map row_membership (omap (merge_row_of d) l)) l.
Proof.
  induction l as [|kv l IH]; simpl; [constructor|]. destruct (merge_row_of d kv) as [r|] eqn:E; simpl; [|by constructor].
  rewrite (merge_row_of_ok _ _ _ E). by constructor.
Qed.
(** The rows of a complete selection are its memberships. *)
Lemma merge_rows_complete d ids :
  length (merge_member_rows d ids) = length (memberships_of d ids) ->
  NoDup (map (fun r => (row_membership r).1) (merge_member_rows d ids)) /\
  forall kv, kv ∈ memberships_of d ids <-> exists r, r ∈ merge_member_rows d ids /\ row_membership r = kv.
Proof.
  unfold merge_member_rows. rewrite py_sorted_length. fold (merge_row_of d). intros Hlen.
  change (omap _ (memberships_of d ids)) with (omap (merge_row_of d) (memberships_of d ids)) in *. split.
  - change (NoDup ((fun r => (row_membership r).1) <$> py_sorted
      (fun r : merge_row => (ms_objective_id r.2, r.1.1.1.1)) (omap (merge_row_of d) (memberships_of d ids)))).
    rewrite py_sorted_perm. rewrite (list_fmap_compose row_membership fst).
    eapply sublist_NoDup; [|apply fmap_sublist, omap_memberships]. unfold memberships_of.
    eapply sublist_NoDup; [apply (NoDup_fst_map_to_list (objective_task_membership_current d))|].
    apply fmap_sublist, sublist_filter.
  - intros kv. split.
    + intros Hin. destruct (omap_complete _ _ Hlen kv Hin) as [r Hr]. exists r. split; [|by eapply merge_row_of_ok].
      apply elem_of_py_sorted, list_elem_of_omap. by exists kv.
    + intros (r & Hr & <-). apply elem_of_py_sorted, list_elem_of_omap in Hr as (kv & Hkv & Hr).
      by rewrite (merge_row_of_ok _ _ _ Hr).
Qed.

Lemma merge_member_ok d competing os r t :
  merge_member d competing os r = Ok t ->
  task_id t = (row_membership r).1 /\ membership_objective_id t = Some (ms_objective_id (row_membership r).2) /\
  membership_lock d (task_id t) = 0 /\
  exists o, o ∈ os /\ o_objective_id o = ms_objective_id (row_membership r).2.
Proof.
  destruct r as [[[[t' n] pc] p] m]. unfold merge_member, row_membership. simpl. intros (v & Hv%forbid_ok & Hr)%bind_ok.
  destruct (head _) as [o|] eqn:E; [|done]. injection Hr as <-. split; [done|]. split; [done|].
  split; [by bool_hyps|]. apply head_Some_elem_of, list_elem_of_filter in E as [E Ho]. by exists o.
Qed.
Lemma traverse_members d competing os rows ts :
  traverse (merge_member d competing os) rows = Ok ts ->
  map task_id ts = map (fun r => (row_membership r).1) rows /\
  (forall t, t ∈ ts -> exists r, r ∈ rows /\ merge_member d competing os r = Ok t) /\
  (forall r, r ∈ rows -> exists t, t ∈ ts /\ merge_member d competing os r = Ok t).
Proof.
  intros Ht%traverse_ok. induction Ht as [|r t rows ts Hrt _ (IH1 & IH2 & IH3)]; [by repeat split; intros; set_solver|].
  apply merge_member_ok in Hrt as Hok. simpl. split; [f_equal; [by destruct Hok|done]|]. split.
  - intros t' [->|Ht]%elem_of_cons; [exists r; set_solver|]. destruct (IH2 t' Ht) as (r' & ? & ?). exists r'. set_solver.
  - intros r' [->|Hr]%elem_of_cons; [exists t; set_solver|]. destruct (IH3 r' Hr) as (t' & ? & ?). exists t'. set_solver.
Qed.
(** A manual merge: its Objectives are current, and its tasks are exactly their
    members. *)
Definition merge_of (d : ObjDb) (os : list GroupingObjectiveAuthority) (s : string)
    (ts : list GroupingTaskAuthority) (c : RegroupCandidate) : Prop :=
  proposal_kind c = "manual_merge" /\ survivor_objective_id c = Some s /\
  Grouping.task_changes c = map (merge_change s) (py_sorted task_id ts) /\
  Grouping.objective_changes c = map (retain_or_supersede s) os /\
  (forall o, o ∈ os -> is_current d (o_objective_id o) = true) /\ NoDup (map task_id ts) /\
  (forall a, a ∈ ts -> membership_lock d (task_id a) = 0 /\ exists o m, o ∈ os /\
     membership_objective_id a = Some (o_objective_id o) /\
     objective_task_membership_current d !! task_id a = Some m /\ ms_objective_id m = o_objective_id o) /\
  (forall t m o, o ∈ os -> objective_task_membership_current d !! t = Some m -> ms_objective_id m = o_objective_id o ->
     exists a, a ∈ ts /\ task_id a = t /\ membership_objective_id a = Some (o_objective_id o)).
Lemma merge_candidate_ok d ids origin_ c :
  _manual_exact_touch_candidate d ids origin_ = Ok c -> exists os s ts, merge_of d os s ts c.
Proof.
  unfold _manual_exact_touch_candidate. set (sel := py_sorted id [ids.1; ids.2]). intros (u & _ & Hr)%bind_ok.
  destruct (selected_objectives d sel) as [|first [|second [|]]] eqn:Es; try done.
  apply bind_ok in Hr as (u1 & _ & Hr). apply bind_ok in Hr as (u2 & _ & Hr). cbv zeta in Hr.
  apply bind_ok in Hr as (u3 & _ & Hr). apply bind_ok in Hr as (u4 & _ & Hr).
  apply bind_ok in Hr as (u5 & Hlen%forbid_ok & (ts & Hts & [= <-])%bind_ok). bool_hyps.
  apply merge_rows_complete in Hlen as [Hnd Hrows]. apply traverse_members in Hts as (Eids & Hts & Hall).
  assert (forall o, o ∈ [first; second] -> o_objective_id o ∈ sel /\ is_current d (o_objective_id o) = true) as Hsel
    by (intros o; rewrite <-Es; apply selected_ids).
  eexists [first; second], _, ts. split; [done|]. split; [done|]. split; [done|]. split; [done|].
  split; [intros o Ho; by apply Hsel|]. split; [by rewrite Eids|]. split.
  - intros a Ha. destruct (Hts a Ha) as (r & Hr & (Ea & Em & Hl & x & Hx & Ex)%merge_member_ok). split; [done|].
    exists x, (row_membership r).2. split; [done|]. split; [by rewrite Ex|]. split; [|done].
    assert (row_membership r ∈ memberships_of d sel) as Hin by (apply Hrows; by exists r).
    apply list_elem_of_filter in Hin as [_ Hin]. rewrite Ea. apply elem_of_map_to_list. by destruct (row_membership r).
  - intros t m o Ho Hm Eo. assert ((t, m) ∈ memberships_of d sel) as Hin.
    { apply list_elem_of_filter. split; [|by apply elem_of_map_to_list]. simpl. apply set_token_elem. rewrite Eo. by apply Hsel. }
    apply Hrows in Hin as (r & Hr & Er). destruct (Hall r Hr) as (a & Ha & (E1 & E2 & _)%merge_member_ok).
    rewrite Er in E1, E2. simpl in E1, E2. exists a. split; [done|]. split; [done|]. by rewrite E2, Eo.
Qed.
Lemma merge_change_set d ids origin_ c : _manual_exact_touch_candidate d ids origin_ = Ok c -> change_set_ok d c.
Proof.
  intros (os & s & ts & Hkind & Hs & Ht & Ho & Hcur & Hnd & Hts & _)%merge_candidate_ok.
  assert (forall o, o ∈ os -> o_objective_id o <> s -> retain_or_supersede s o ∈ map (retain_or_supersede s) os /\
    oc_action (retain_or_supersede s o) = "supersede") as Hsup.
  { intros o Hin Hn. split; [by apply list_elem_of_fmap_2|]. simpl. by rewrite (proj2 (String.eqb_neq _ _) Hn). }
  assert (forall ch, ch ∈ Grouping.task_changes c -> exists a, a ∈ ts /\ ch = merge_change s a) as Hch.
  { rewrite Ht. intros ch (a & -> & Ha)%list_elem_of_fmap. exists a. by rewrite elem_of_py_sorted in Ha. }
  split.
  - rewrite Ht, map_map. simpl. change (NoDup (task_id <$> py_sorted task_id ts)). by rewrite py_sorted_perm.
  - intros ch o (a & Ha & ->)%Hch Hf. simpl in Hf. destruct (Hts a Ha) as (_ & x & m & Hx & Ex & _).
    assert (o_objective_id x = o) as <- by congruence. rewrite Hs.
    destruct (decide (o_objective_id x = s)) as [->|Hn]; [by left|right]. destruct (Hsup x Hx Hn).
    exists (retain_or_supersede s x). by rewrite Ho.
  - intros ch (a & Ha & ->)%Hch. simpl. destruct (Hts a Ha) as [E _]. lia.
  - intros ch m (a & Ha & ->)%Hch. simpl. destruct (Hts a Ha) as (_ & x & m' & Hx & _ & -> & E). intros [= <-].
    rewrite E. by apply Hcur.
  - rewrite Ho. intros oc o (x & -> & Hx)%list_elem_of_fmap Hid Hn. simpl in Hn, Hid. rewrite Hs.
    destruct (String.eqb_spec (o_objective_id x) s) as [E|]; [|done]. injection Hid as <-. by f_equal.
  - congruence.
Qed.
Lemma merge_moves d ids origin_ c : _manual_exact_touch_candidate d ids origin_ = Ok c -> moves_members d c.
Proof.
  intros (os & s & ts & _ & _ & Ht & Ho & _ & _ & _ & Hall)%merge_candidate_ok o t m (oc & Hoc & Ha & Hid) Hm Eo.
  rewrite Ho in Hoc. apply list_elem_of_fmap in Hoc as (x & -> & Hx). simpl in Ha, Hid.
  destruct (String.eqb_spec (o_objective_id x) s) as [|Hn]; [done|]. injection Hid as <-.
  destruct (Hall t m x Hx Hm Eo) as (a & Hin & <- & Ea). exists (merge_change s a). rewrite Ht. split; [|split; [done|]].
  - apply list_elem_of_fmap_2. by apply elem_of_py_sorted.
  - simpl. rewrite bool_decide_eq_false_2; [done|]. rewrite Ea. congruence.
Qed.
End review.

Import RegroupProposalRepository.

Section accepted.
Context `{Sha256, FloatText} (fresh : site -> string) (clock : site -> Z).

Lemma assert_diff_ok c trs ors u :
  _assert_persisted_diff c trs ors = Ok u ->
  map tr_change trs ≡ₚ Grouping.task_changes c /\ map or_change ors ≡ₚ Grouping.objective_changes c.
Proof.
  unfold _assert_persisted_diff. intros Hf%forbid_ok. bool_hyps. split.
  - rewrite <-(py_sorted_perm task_change_key (map tr_change trs)), H1. apply py_sorted_perm.
  - rewrite <-(py_sorted_perm objective_change_key (map or_change ors)), H2. apply py_sorted_perm.
Qed.
(** The candidate behind a proposal: a manual merge of the Objectives reviewed,
    or a candidate of the sweep. *)
Lemma candidate_source d id p c :
  _candidate_for_proposal d id p = Ok c ->
  pr_proposal_kind p = "manual_merge" /\ (exists ids, _manual_exact_touch_candidate d ids (pr_origin p) = Ok c) \/
  pr_proposal_kind p <> "manual_merge" /\ exists cs, _candidates d (pr_origin p) = Ok cs /\ c ∈ cs.
Proof.
  unfold _candidate_for_proposal. destruct (String.eqb_spec (pr_proposal_kind p) "manual_merge") as [E|E].
  - cbv zeta. destruct (py_sorted _ _) as [|x [|y [|]]]; try done. intros Hc. left. split; [done|].
    inv_ok Hc. by eexists.
  - intros (cs & Hcs & (keyed & Hk & Hc)%bind_ok)%bind_ok. right. split; [done|]. exists cs. split; [done|].
    destruct (filter _ keyed) as [|[c' f] [|]] eqn:Ef; try done. injection Hc as ->.
    assert ((c, f) ∈ keyed) as Hin.
    { assert ((c, f) ∈ [(c, f)]) as Hin by set_solver. rewrite <-Ef in Hin. by apply list_elem_of_filter in Hin as [_ Hin]. }
    apply traverse_ok in Hk. apply list_elem_of_lookup in Hin as [i Hi].
    destruct (Forall2_lookup_r _ _ _ _ _ Hk Hi) as (c0 & Hc0 & E1).
    unfold with_fingerprint in E1. apply bind_ok in E1 as (f0 & _ & [= -> _]). by eapply list_elem_of_lookup_2.
Qed.
Lemma candidate_change_set d id p c : plans_ok d -> _candidate_for_proposal d id p = Ok c -> change_set_ok d c.
Proof.
  intros Hplans [[_ [ids Hc]]|(_ & cs & Hcs & Hc)]%candidate_source; [by eapply merge_change_set|by eapply component_change_set].
Qed.
Lemma candidate_moves d id p c :
  plans_ok d -> _candidate_for_proposal d id p = Ok c ->
  pr_proposal_kind p = "manual_merge" \/ all_eligible d (supersedes c) -> moves_members d c.
Proof.
  intros Hplans [[_ [ids Hc]]|(Hn & cs & Hcs & Hc)]%candidate_source Hall; [by eapply merge_moves|].
  destruct Hall; [done|]. by eapply component_moves.
Qed.
Lemma rows_supersede ors c o :
  map or_change ors ≡ₚ Grouping.objective_changes c -> supersedes c o <-> o ∈ superseded_ids ors.
Proof.
  intros Hp. unfold superseded_ids, supersedes. rewrite list_elem_of_omap. split.
  - intros (oc & Hoc & Ha & Hid). rewrite <-Hp in Hoc. apply list_elem_of_fmap in Hoc as (r & -> & Hr).
    exists r. split; [done|]. by rewrite Ha.
  - intros (r & Hr & Hx). destruct (String.eqb_spec (oc_action (or_change r)) "supersede"); [|done].
    exists (or_change r). split; [|done]. rewrite <-Hp. by apply list_elem_of_fmap_2.
Qed.

(** Every member of a superseded Objective has a row that moves it. *)
Definition moves_rows (d : ObjDb) (p : accept_plan) : Prop :=
  forall t m, objective_task_membership_current d !! t = Some m ->
    ms_objective_id m ∈ superseded_ids (ap_objective_rows p) ->
    exists r, r ∈ ap_task_rows p /\ row_task r = t /\ ~ unchanged r.
Lemma moves_members_rows d c p :
  map tr_change (ap_task_rows p) ≡ₚ Grouping.task_changes c ->
  map or_change (ap_objective_rows p) ≡ₚ Grouping.objective_changes c -> moves_members d c -> moves_rows d p.
Proof.
  intros Ht Ho Hmoved t m Hm Hs. rewrite <-(rows_supersede _ c _ Ho) in Hs.
  destruct (Hmoved _ t m Hs Hm eq_refl) as (ch & Hch & <- & Hk). rewrite <-Ht in Hch.
  apply list_elem_of_fmap in Hch as (r & -> & Hr). by exists r.
Qed.
(** A structure that holds after an acceptance shows that all were moved. *)
Lemma structure_moves id command p d d' :
  accept_effect fresh id command p d d' -> structure_ok d' -> moves_rows d p.
Proof.
  intros He [Hmem _ _] t m Hm Hs. pose proof (ae_apart _ _ _ _ _ _ He) as Hap.
  destruct (decide (t ∈ rows_tasks (ap_task_rows p))) as [Ht|Ht].
  - apply list_elem_of_fmap in Ht as (r & -> & Hr). exists r. split; [done|]. split; [done|]. intros Hu.
    destruct (ae_rows _ _ _ _ _ _ He r Hr) as [Hf _]. unfold row_found in Hf. rewrite decide_True in Hf by done.
    destruct Hf as (m' & Hm' & E & _). congruence.
  - rewrite <-(ae_others _ _ _ _ _ _ He t Ht) in Hm. destruct (Hmem t m Hm) as [[E|[_ Hn]]%(ae_current _ _ _ _ _ _ He) _]; congruence.
Qed.

(** The plan of an acceptance closes over what it supersedes, once it is known
    that the survivor it names is a reviewed one. *)
Lemma change_set_plan d c p :
  change_set_ok d c -> moves_rows d p -> map tr_change (ap_task_rows p) ≡ₚ Grouping.task_changes c ->
  map or_change (ap_objective_rows p) ≡ₚ Grouping.objective_changes c ->
  (is_new p = true -> proposal_kind c = "create") ->
  (is_new p = false -> (ap_survivor p ∉ superseded_ids (ap_objective_rows p)) /\
     exists r, r ∈ ap_objective_rows p /\ oc_objective_id (or_change r) = Some (ap_survivor p)) ->
  plan_closed d p.
Proof.
  intros [Hids Hfrom _ _ Hact Hcreate] Hmoved Ht Ho Hnew Hold. split.
  - unfold rows_tasks. unfold row_task. change (NoDup ((fun r => tc_task_id (tr_change r)) <$> ap_task_rows p)).
    rewrite (list_fmap_compose tr_change tc_task_id). change (NoDup (tc_task_id <$> map tr_change (ap_task_rows p))).
    rewrite Ht. exact Hids.
  - intros r o Hr Hu Hf. destruct (Hfrom (tr_change r) o) as [Hs|Hs]; [|done| |].
    + rewrite <-Ht. by apply list_elem_of_fmap_2.
    + left. destruct (is_new p) eqn:En; [rewrite Hcreate in Hs by auto; done|].
      destruct (Hold eq_refl) as [Hap (x & Hx & Ex)].
      assert (survivor_objective_id c = Some (ap_survivor p)) as E; [|congruence].
      apply (Hact (or_change x)); [|done|].
      * rewrite <-Ho. by apply list_elem_of_fmap_2.
      * intros Ea. apply Hap. apply list_elem_of_omap. exists x. split; [done|]. by rewrite Ea.
    + right. by rewrite <-(rows_supersede _ _ _ Ho).
  - done.
Qed.
Lemma accept_plan_of_ok d id p c q :
  accept_plan_of fresh d id p c = Ok q ->
  ap_task_rows q = task_changes d id /\ ap_objective_rows q = RegroupProposalRepository.objective_changes d id /\
  map tr_change (ap_task_rows q) ≡ₚ Grouping.task_changes c /\
  map or_change (ap_objective_rows q) ≡ₚ Grouping.objective_changes c /\
  (is_new q = true -> proposal_kind c = "create").
Proof.
  unfold accept_plan_of, _persisted_changes. intros (u & Hd & Hq)%bind_ok. apply assert_diff_ok in Hd as [Ht Ho].
  destruct (String.eqb_spec (proposal_kind c) "create").
  - apply bind_ok in Hq as (new & _ & [= <-]). done.
  - destruct (pr_survivor_objective_id p); [|done]. injection Hq as <-. done.
Qed.
(** The tables after an acceptance. *)
Lemma accept_run accepting id revision fingerprint command d d' c q events :
  change_set_ok d c -> map tr_change (ap_task_rows q) ≡ₚ Grouping.task_changes c ->
  apply_accept fresh clock accepting id revision fingerprint command q d = (d', Ok events) ->
  accept_effect fresh id command q d d'.
Proof.
  intros Hcs Ht Hrun. assert (NoDup (rows_tasks (ap_task_rows q))) as Hnd.
  { unfold rows_tasks, row_task. change (NoDup ((fun r => tc_task_id (tr_change r)) <$> ap_task_rows q)).
    rewrite (list_fmap_compose tr_change tc_task_id). change (NoDup (tc_task_id <$> map tr_change (ap_task_rows q))).
    rewrite Ht. apply Hcs. }
  by eapply apply_accept_ok.
Qed.
Lemma accept_structure_iff id command d d' c q :
  change_set_ok d c -> map tr_change (ap_task_rows q) ≡ₚ Grouping.task_changes c ->
  map or_change (ap_objective_rows q) ≡ₚ Grouping.objective_changes c -> (is_new q = true -> proposal_kind c = "create") ->
  accept_effect fresh id command q d d' -> structure_ok d -> structure_ok d' <-> moves_rows d q.
Proof.
  intros Hcs Ht Ho Hnew He Hok. split; [by apply (structure_moves _ _ _ _ _ He)|]. intros Hm.
  eapply accept_structure; [done| |done]. eapply change_set_plan; [done..|]. intros En.
  split; [apply (ae_apart _ _ _ _ _ _ He)|]. pose proof (ae_survivor _ _ _ _ _ _ He) as Hs. rewrite En in Hs. by destruct Hs.
Qed.

(** ** The command *)
Lemma decided_simple id apply response_ : simple_mutation (decided id apply response_).
Proof. split; [done|]. by intros m [= <-]. Qed.
Lemma prepare_accept_ok command id revision fingerprint high a planned locked c db db' m :
  prepare_accept fresh clock command id revision fingerprint high a planned locked c db = (db', Ok m) ->
  db' = db /\ locked = planned /\ exists p q response_,
    reviewed_proposal (domain_state db) id revision fingerprint high = Ok p /\
    accept_plan_of fresh (domain_state db) id p c = Ok q /\
    m = decided id (db ← read_st;
      events ← on_domain (apply_accept fresh clock (accept_targets db) id revision fingerprint command q);
      mret (Some [accepted_event fresh command id p fingerprint q events a])) response_.
Proof.
  unfold prepare_accept. intros (d1 & d & [= <- <-] & Hr)%stm_bind_ok.
  apply stm_bind_ok in Hr as (d1 & p & [-> Hp]%lift_ok & Hr).
  apply stm_bind_ok in Hr as (d1 & u & [-> Hv%forbid_ok]%lift_ok & Hr). bool_hyps.
  apply stm_bind_ok in Hr as (d1 & q & [-> Hq]%lift_ok & [= <- <-]).
  split; [done|]. split; [done|]. exists p, q. by eexists.
Qed.
Lemma reviewed_proposal_ok d id revision fingerprint high p :
  reviewed_proposal d id revision fingerprint high = Ok p ->
  pending d id p /\ pr_revision p = revision /\ pr_input_fingerprint p = fingerprint.
Proof.
  unfold reviewed_proposal, get. destruct (regroup_proposals d !! id) as [p'|] eqn:Ep; [|done].
  intros (u & Hf%forbid_ok & (v & _ & [= <-])%bind_ok)%bind_ok. bool_hyps. by repeat split.
Qed.
Lemma plan_accept_ok d id revision fingerprint high c :
  plan_accept d id revision fingerprint high = Ok c ->
  exists p, reviewed_proposal d id revision fingerprint high = Ok p /\ _candidate_for_proposal d id p = Ok c.
Proof.
  unfold plan_accept, _persisted_changes. intros (p & Hp & (c' & Hc & (u & _ & [= <-])%bind_ok)%bind_ok)%bind_ok. by exists p.
Qed.

(** What an acceptance does: nothing when it fails or is replayed; otherwise
    the writes of the stored changes, which the candidate behind the proposal
    still has. *)
Lemma accept_outcome (audit : AuditRegistry) (audit_clock : string -> Z) (command id : string)
    (revision : Z) (fingerprint : string) (high : bool) (a : actor) (probe snapshot : LedgerDb ObjDb)
    (before planned locked : Z) (db db' : LedgerDb ObjDb) (res : result json) :
  (before = planned -> planned = locked -> domain_state snapshot = domain_state db) ->
  accept_regroup_proposal fresh clock audit audit_clock command id revision fingerprint high a probe
     snapshot before planned locked db = (db', res) ->
  domain_state db' = domain_state db \/
  exists p q c events accepting reviewed, regroup_proposals (domain_state db) !! id = Some p /\
    _candidate_for_proposal (domain_state db) id p = Ok c /\ accept_plan_of fresh (domain_state db) id p c = Ok q /\
    apply_accept fresh clock accepting id revision reviewed command q (domain_state db) = (domain_state db', Ok events).
Proof.
  intros Hversion Hrun. unfold accept_regroup_proposal in Hrun.
  apply lift_bind_any in Hrun as [(id' & [-> _]%require_uuid4_ok & Hrun)| ->]; [|by left].
  apply lift_bind_any in Hrun as [(u & _ & Hrun)| ->]; [|by left].
  apply lift_bind_any in Hrun as [(f & Hf & Hrun)| ->]; [|by left]. cbv zeta in Hrun.
  apply lift_bind_any in Hrun as [(r & _ & Hrun)| ->]; [|by left].
  destruct r as [r|]; [injection Hrun as <- _; by left|].
  apply lift_bind_any in Hrun as [(c & Hc & Hrun)| ->]; [|by left].
  apply lift_bind_any in Hrun as [(u1 & Hv%forbid_ok & Hrun)| ->]; [|by left]. bool_hyps.
  unfold mbind, stM_bind in Hrun. destruct (execute _ _ _ _ _ db) as [db1 [x|er]] eqn:Hx.
  2: { injection Hrun as <- _. apply execute_raise in Hx as ->. by left. }
  injection Hrun as <- _. apply execute_domain in Hx.
  2: { intros d d1 m (-> & _ & p & q & resp & _ & _ & ->)%prepare_accept_ok. split; [done|]. apply decided_simple. }
  destruct Hx as [E|(m & db2 & db3 & _ & Hm & _ & E1 & _ & Ha & E2)]; [by left|right].
  apply prepare_accept_ok in Hm as (_ & Hl & p & q & resp & Hp & Hq & ->).
  apply plan_accept_ok in Hc as (p' & Hp' & Hc). rewrite (Hversion ltac:(congruence) ltac:(congruence)) in Hp', Hc.
  assert (p' = p) as -> by congruence. destruct Ha as (apply & events & [= <-] & Ha & _).
  apply stm_bind_ok in Ha as (d1 & d2 & [= <- <-] & Ha).
  apply stm_bind_ok in Ha as (d3 & evs & (d4 & Hacc & ->)%on_domain_ok & [= <- _]).
  rewrite E1 in Hacc. simpl in E2. rewrite E2. exists p, q, c, evs, (accept_targets db2), f.
  split; [by apply reviewed_proposal_ok in Hp as [(? & _) _]|]. split; [exact Hc|]. split; [exact Hq|]. exact Hacc.
Qed.

(** The effect of an acceptance is that of the stored changes of its proposal. *)
Definition reviewed_effect (command id : string) (d d' : ObjDb) : Prop := exists q,
  ap_task_rows q = task_changes d id /\ ap_objective_rows q = RegroupProposalRepository.objective_changes d id /\
  accept_effect fresh id command q d d'.
(** The stored changes move every member of the Objectives they supersede. *)
Definition moves_all (d : ObjDb) (id : string) : Prop :=
  forall t m, objective_task_membership_current d !! t = Some m ->
    ms_objective_id m ∈ superseded_ids (RegroupProposalRepository.objective_changes d id) ->
    exists r, r ∈ task_changes d id /\ row_task r = t /\ ~ unchanged r.

(** C3.  What the acceptance command does to the Objectives.  When every plan
    ends after it starts, every member is pinned to a plan of its own in a
    current Objective, every current Objective has members and the envelope they
    span, no two envelopes overlap, and equal data versions mean that the
    planning snapshot is what the writer lock finds, then a successful [accept_regroup_proposal] either changes nothing
    (a replay) or has exactly the reviewed effect: the reviewed rows move to the
    survivor from exactly where they were reviewed, all other members stay, the
    superseded Objectives point to the survivor and no other changes, only the
    survivor's envelope is written.  After it the structure holds exactly when
    the reviewed rows move every member of every superseded Objective, which
    they do for a manual merge and whenever all these members are eligible. *)
Theorem accept_keeps_structure (audit : AuditRegistry) (audit_clock : string -> Z) (command id : string)
    (revision : Z) (fingerprint : string) (high : bool) (a : actor) (probe snapshot : LedgerDb ObjDb)
    (before planned locked : Z) (db db' : LedgerDb ObjDb) (response_ : json)
    (Hok : structure_ok (domain_state db)) (Hplans : plans_ok (domain_state db))
    (Hversion : before = planned -> planned = locked -> domain_state snapshot = domain_state db)
    (Hrun : accept_regroup_proposal fresh clock audit audit_clock command id revision fingerprint high a probe
       snapshot before planned locked db = (db', Ok response_)) :
  domain_state db' = domain_state db \/
  reviewed_effect command id (domain_state db) (domain_state db') /\
  (structure_ok (domain_state db') <-> moves_all (domain_state db) id) /\
  ((exists p, regroup_proposals (domain_state db) !! id = Some p /\ pr_proposal_kind p = "manual_merge") \/
   all_eligible (domain_state db) (fun o =>
     o ∈ superseded_ids (RegroupProposalRepository.objective_changes (domain_state db) id)) ->
   moves_all (domain_state db) id).
Proof.
  destruct (accept_outcome _ _ _ _ _ _ _ _ _ _ _ _ _ _ _ _ Hversion Hrun) as [E|(p & q & c & evs & acc & f & Hp & Hc & Hq & Ha)];
    [by left|right].
  apply accept_plan_of_ok in Hq as (Etr & Eor & Ht & Ho & Hnew).
  pose proof (candidate_change_set _ _ _ _ Hplans Hc) as Hcs.
  pose proof (accept_run _ _ _ _ _ _ _ _ _ _ Hcs Ht Ha) as He.
  pose proof (accept_structure_iff _ _ _ _ _ _ Hcs Ht Ho Hnew He Hok) as Hiff.
  pose proof (moves_members_rows (domain_state db) _ _ Ht Ho) as Hmv. unfold moves_rows in Hiff, Hmv. rewrite Etr, Eor in Hiff, Hmv.
  split; [by exists q|]. split; [exact Hiff|]. intros Hcase. refine (Hmv _).
  apply (candidate_moves _ _ _ _ Hplans Hc).
  destruct Hcase as [(p' & Hp' & Hk)|Hall]; [left; congruence|right]. intros t m Hm Hs. apply (Hall t m Hm).
  rewrite <-Eor. by apply (rows_supersede _ _ _ Ho).
Qed.
End accepted.

(** * On the sample database *)
Module Accepted.
Import Sample RegroupSamples.
(** A decision procedure for the structure. *)
Definition member_check (d : ObjDb) (kv : string * MembershipRow) : bool :=
  is_current d (ms_objective_id kv.2)
  && match task_plan_revisions d !! ms_accepted_plan_revision_id kv.2 with
     | Some p => String.eqb (pl_task_id p) kv.1 | None => false end.
Definition envelope_check (d : ObjDb) (o : string) : bool :=
  negb (is_current d o) || match objective_envelope_projection d !! o with
    | Some e => negb (bool_decide (members d o = [])) && (en_start_utc e =? material_start (members d o))
        && (en_end_utc e =? material_end (members d o)) && (en_member_count e =? Z.of_nat (length (members d o)))
    | None => false end.
Definition apart_check (d : ObjDb) (x y : string * EnvelopeRow) : bool :=
  negb (is_current d x.1) || negb (is_current d y.1) || String.eqb x.1 y.1
  || negb ((en_start_utc x.2 <? en_end_utc y.2) && (en_start_utc y.2 <? en_end_utc x.2)).
Definition structure_check (d : ObjDb) : bool :=
  let envelopes := map_to_list (objective_envelope_projection d) in
  forallb (member_check d) (map_to_list (objective_task_membership_current d))
  && forallb (fun kv : string * ObjectiveRow => envelope_check d kv.1) (map_to_list (objectives d))
  && forallb (fun x => forallb (apart_check d x) envelopes) envelopes.
Lemma forallb_table {A} (f : string * A -> bool) (m : gmap string A) k v :
  forallb f (map_to_list m) = true -> m !! k = Some v -> f (k, v) = true.
Proof. rewrite forallb_forall. intros Hf Hl. by apply Hf, list_elem_of_In, elem_of_map_to_list. Qed.
Lemma structure_check_ok d : structure_check d = true -> structure_ok d.
Proof.
  unfold structure_check. intros [[Hm Ho]%andb_true_iff He]%andb_true_iff. split.
  - intros t m Hl. pose proof (forallb_table _ _ _ _ Hm Hl) as Hc. unfold member_check in Hc. simpl in Hc.
    destruct (task_plan_revisions d !! _) as [p|]; bool_hyps; [|done]. split; [done|]. by exists p.
  - intros o (r & Hl & Hn)%is_current_spec. pose proof (forallb_table _ _ _ _ Ho Hl) as Hc. unfold envelope_check in Hc.
    simpl in Hc. rewrite (proj2 (is_current_spec d o)) in Hc by (by exists r). simpl in Hc.
    destruct (objective_envelope_projection d !! o) as [e|]; [|done]. bool_hyps. by exists e.
  - intros o o' e e' Hc Hc' Hn Hl Hl' [A B]. pose proof (forallb_table _ _ _ _ He Hl) as Hx. simpl in Hx.
    pose proof (forallb_table _ _ _ _ Hx Hl') as Hy. unfold apart_check in Hy. simpl in Hy.
    rewrite Hc, Hc', (proj2 (String.eqb_neq _ _) Hn) in Hy. simpl in Hy. apply Z.ltb_lt in A, B. by rewrite A, B in Hy.
Qed.
Definition eligible_check (d : ObjDb) (superseded : list string) : bool :=
  match _load_snapshot d with
  | Ok s => forallb (fun kv : string * MembershipRow => negb (bool_decide (ms_objective_id kv.2 ∈ superseded))
      || existsb (fun a => String.eqb (task_id a) kv.1) (s_tasks s)) (map_to_list (objective_task_membership_current d))
  | Raise _ => false end.
Lemma eligible_check_ok d l : eligible_check d l = true -> all_eligible d (fun o => o ∈ l).
Proof.
  unfold eligible_check. destruct (_load_snapshot d) as [s|] eqn:Es; [|done]. intros Hc t m Hl Hin.
  pose proof (forallb_table _ _ _ _ Hc Hl) as Hx. simpl in Hx. rewrite bool_decide_eq_true_2 in Hx by done. simpl in Hx.
  apply existsb_exists in Hx as (a & Ha%list_elem_of_In & E). bool_hyps. exists a. split; [by exists s|done].
Qed.
(** An acceptance that succeeds, and whose Objectives have eligible members. *)
Definition accept_check (n : Z) (eligible : bool) : bool :=
  let d := domain_state (recomputed n) in
  structure_check d && bool_decide (plans_ok d)
  && match consolidation d, (accept (recomputed n)).2 with
     | Some (id, _), Ok _ => Bool.eqb eligible
         (eligible_check d (superseded_ids (RegroupProposalRepository.objective_changes d id)))
     | _, _ => false end.
Lemma accept_check_ok n eligible :
  accept_check n eligible = true ->
  let d := domain_state (recomputed n) in structure_ok d /\ plans_ok d /\ exists id p r,
    consolidation d = Some (id, p) /\
    (eligible = true -> all_eligible d (fun o => o ∈ superseded_ids (RegroupProposalRepository.objective_changes d id))) /\
    accept_regroup_proposal (fresh 2) clock grouping_audit_registry (fun _ => 1000) (command_uid 2) id
      (pr_revision p) (pr_input_fingerprint p) false me (recomputed n) (recomputed n) 1 1 1 (recomputed n)
    = (accepted n, Ok r).
Proof.
  unfold accept_check, accepted, accept. cbv zeta. generalize (recomputed n) as db. intros db.
  intros [[Hs Hp]%andb_true_iff Hc]%andb_true_iff.
  split; [by apply structure_check_ok|]. split; [by apply bool_decide_eq_true in Hp|].
  destruct (consolidation _) as [[id p]|]; [|discriminate].
  destruct (accept_regroup_proposal _ _ _ _ _ _ _ _ _ _ _ _ _ _ _ _) as [db' [r|]] eqn:E; [|discriminate].
  exists id, p, r. split; [reflexivity|]. split; [|exact E]. intros ->. simpl in Hc. apply eligible_check_ok.
  by destruct (eligible_check _ _).
Qed.
Lemma accepts : accept_check 0 true = true.
Proof. vm_compute. reflexivity. Qed.
Definition events_of (db : LedgerDb ObjDb) : nat := size (objective_membership_events (domain_state db)).
Definition changes_check (n : Z) : bool := negb (Nat.eqb (events_of (accepted n)) (events_of (recomputed n))).
Lemma changes_check_ok n : changes_check n = true -> domain_state (accepted n) <> domain_state (recomputed n).
Proof.
  unfold changes_check, events_of. generalize (accepted n) (recomputed n). intros x y Hc E. by rewrite E, Nat.eqb_refl in Hc.
Qed.
Lemma accepts_changes : changes_check 0 = true.
Proof. vm_compute. reflexivity. Qed.
Lemma accept_keeps_structure_witness :
  structure_ok (domain_state (recomputed 0)) /\ structure_ok (domain_state (accepted 0)).
Proof.
  destruct (accept_check_ok 0 true accepts) as (Hs & Hp & id & p & r & _ & He & Hr). split; [exact Hs|].
  destruct (accept_keeps_structure (fresh 2) clock grouping_audit_registry (fun _ => 1000) (command_uid 2) id
    (pr_revision p) (pr_input_fingerprint p) false me (recomputed 0) (recomputed 0) 1 1 1 (recomputed 0) (accepted 0) r
    Hs Hp (fun _ _ => eq_refl) Hr) as [E|(_ & Hiff & Hall)].
  - exfalso. exact (changes_check_ok 0 accepts_changes E).
  - exact (proj2 Hiff (Hall (or_intror (He eq_refl)))).
Defined.
End Accepted.
