(* ===== verification/RegroupHistory.v ===== *)
(** The history of regroup proposals: every command and every unit of work of
    the durable worker as a step, and what no history can do: change a decided
    proposal, or bring back a locked member that an acceptance left behind. *)
From S2P Require Import Prelude StrictJson Identifiers Grouping Jobs JobsExample AuditLedger Tables.
From S2P Require Import CommandBoundary CommandReplay CommandAudit CommandDomain ObjectiveTables Regroup.
From S2P Require Import RegroupSweep RegroupSound RegroupProps ObjectiveStore ObjectiveAggregate RegroupStore.
From S2P Require Import RegroupManual RegroupContracts RegroupCommands RegroupDecisions RegroupSamples.
From S2P Require Import ObjectiveAggregateProps RegroupLife RegroupAccept RegroupAccepted.
Import RegroupProposalRepository.

(** * Frames *)
Definition proposals_frame (d d' : ObjDb) : Prop :=
  regroup_proposals d' = regroup_proposals d /\ regroup_rejection_events d' = regroup_rejection_events d.
Lemma proposals_frame_trans d1 d2 d3 : proposals_frame d1 d2 -> proposals_frame d2 d3 -> proposals_frame d1 d3.
Proof. intros [? ?] [? ?]. split; congruence. Qed.
Lemma frame_lives d d' : proposals_frame d d' -> lives d d'.
Proof. intros [? ?]. by apply lives_frame. Qed.
Lemma foldS_proposals {A B} (f : B -> A -> objM B) b l d d' b' :
  (forall b x d d' b', f b x d = (d', Ok b') -> proposals_frame d d') -> foldS f b l d = (d', Ok b') -> proposals_frame d d'.
Proof.
  intros Hf. revert b d. induction l as [|x l IH]; intros b d; simpl; [by intros [= <- _]|].
  intros (d1 & b1 & H1%Hf & H2%IH)%stm_bind_ok. by eapply proposals_frame_trans.
Qed.
Definition ledger_lives (db db' : LedgerDb ObjDb) : Prop := lives (domain_state db) (domain_state db').
Lemma ledger_lives_refl db : ledger_lives db db.
Proof. apply lives_refl. Qed.
(** The Objectives and the memberships are as they were. *)
Definition kept (d d' : ObjDb) : Prop :=
  objectives d' = objectives d /\ objective_task_membership_current d' = objective_task_membership_current d.
Lemma kept_refl d : kept d d.
Proof. done. Qed.
Lemma kept_trans d1 d2 d3 : kept d1 d2 -> kept d2 d3 -> kept d1 d3.
Proof. intros [? ?] [? ?]. split; congruence. Qed.
Definition ledger_kept (db db' : LedgerDb ObjDb) : Prop := kept (domain_state db) (domain_state db').
Lemma ledger_kept_refl db : ledger_kept db db.
Proof. done. Qed.
Ltac nothing_changed := first [by apply ledger_lives_refl|by apply ledger_kept_refl].
(** Skip a fallible read: when it fails, nothing has changed. *)
Ltac read_only Hr :=
  let a := fresh "a" in let E := fresh "E" in
  apply lift_bind_any in Hr as [(a & E & Hr)| ->]; [|nothing_changed].
(** A replay changes nothing. *)
Ltac replayed Hr := lazymatch type of Hr with
  | match ?o with Some _ => _ | None => _ end _ = _ => destruct o; [by injection Hr as <- _; nothing_changed|]
  end.

Section history.
Context `{Sha256, FloatText} (fresh : site -> string) (clock : site -> Z).

Lemma rebuild_proposals id command d d' row : rebuild_aggregate id command d = (d', Ok row) -> proposals_frame d d'.
Proof. by intros (_ & _ & m & f & _ & _ & _ & _ & ->)%rebuild_aggregate_ok. Qed.
Lemma rebuild_affected_proposals survivor command affected d d' u :
  rebuild_affected survivor command affected d = (d', Ok u) -> proposals_frame d d'.
Proof.
  unfold rebuild_affected. intros (d1 & row & H1%rebuild_proposals & H2)%stm_bind_ok.
  eapply proposals_frame_trans; [exact H1|]. clear H1. revert d1 H2.
  generalize (py_sorted (fun s : string => s) (elements (list_to_set affected : gset string))) as l. intros l.
  induction l as [|i l IH]; intros d1; simpl; [by intros [= <- _]|].
  intros (d2 & v & Hv & H2%IH)%stm_bind_ok. eapply proposals_frame_trans; [|exact H2].
  destruct (_ =? _)%string; [by injection Hv as <- _|].
  by apply stm_bind_ok in Hv as (d3 & row' & Hv%rebuild_proposals & [= <- _]).
Qed.
Lemma apply_memberships_proposals accepting proposal survivor command rows d d' events :
  apply_memberships fresh clock accepting proposal survivor command rows d = (d', Ok events) -> proposals_frame d d'.
Proof.
  apply foldS_proposals. clear. intros b x d d' b' (d0 & ev & Hx & [= <- _])%stm_bind_ok.
  apply apply_membership_ok in Hx as [_ Hx]. destruct (decide (unchanged x)); [by destruct Hx as [-> _]|].
  by destruct Hx as (_ & -> & _).
Qed.
Lemma lives_accept accepting id revision fingerprint command p d d' events :
  apply_accept fresh clock accepting id revision fingerprint command p d = (d', Ok events) -> lives d d'.
Proof.
  unfold apply_accept. cbv zeta. intros (d1 & u1 & H1 & Hr)%stm_bind_ok.
  assert (proposals_frame d d1) as F1.
  { destruct (ap_new p) as [[n r]|]; [|by injection H1 as <- _].
    by apply create_objective_ok in H1 as (_ & a & ar & o & _ & ->). }
  apply stm_bind_ok in Hr as (d2 & evs & H2 & Hr).
  apply apply_memberships_proposals in H2 as F2.
  apply stm_bind_ok in Hr as (d3 & u3 & [-> _]%lift_ok & Hr).
  apply stm_bind_ok in Hr as (d3 & affected & H3 & Hr).
  apply apply_objectives_ok in H3 as (os & more & -> & _ & _).
  apply stm_bind_ok in Hr as (d4 & u4 & (e & -> & _ & _)%survivor_envelope_ok & Hr).
  apply stm_bind_ok in Hr as (d5 & u5 & ->%assert_no_overlap_state & Hr).
  apply stm_bind_ok in Hr as (d6 & u6 & F6%rebuild_affected_proposals & Hr).
  apply stm_bind_ok in Hr as (d7 & n & H7%lives_transition & [= <- _]).
  eapply lives_trans; [|exact H7]. apply frame_lives. eapply proposals_frame_trans; [exact F1|].
  by eapply proposals_frame_trans.
Qed.

(** * The commands *)
(** The commands of a decided proposal apply one domain operation. *)
Lemma execute_map_kept audit receipt_clock ac e prepare (f : CommandExecutionResult -> json) db db' res :
  simple_prepare prepare ->
  (forall p db1 db2, prepare db = (db, Ok p) -> domain_state db1 = domain_state db -> applied audit e p db1 db2 ->
     ledger_kept db1 db2) ->
  (x ← execute audit receipt_clock ac e prepare; mret (f x)) db = (db', res) -> ledger_kept db db'.
Proof.
  intros Hs Hp. apply (execute_relates audit kept); [apply kept_refl|done| |done]. intros p db1 db2 Hprep _. by apply (Hp p).
Qed.
Lemma execute_map_lives audit receipt_clock ac e prepare (f : CommandExecutionResult -> json) db db' res :
  simple_prepare prepare ->
  (forall p db1 db2, prepare db = (db, Ok p) -> domain_state db1 = domain_state db -> applied audit e p db1 db2 ->
     ledger_lives db1 db2) ->
  (x ← execute audit receipt_clock ac e prepare; mret (f x)) db = (db', res) -> ledger_lives db db'.
Proof.
  intros Hs Hp. apply (execute_relates audit lives); [apply lives_refl|done| |done]. intros p db1 db2 Hprep _. by apply (Hp p).
Qed.

Lemma lives_accept_command audit ac command id revision fingerprint high a probe snapshot before_ planned locked db db' res :
  accept_regroup_proposal fresh clock audit ac command id revision fingerprint high a probe snapshot before_ planned
    locked db = (db', res) -> ledger_lives db db'.
Proof.
  unfold accept_regroup_proposal. intros Hr. do 4 read_only Hr. replayed Hr. do 2 read_only Hr. revert Hr.
  apply execute_map_lives.
  - intros d d1 m (-> & _ & p & q & resp & _ & _ & ->)%prepare_accept_ok. split; [done|]. apply decided_simple.
  - intros m db1 db2 (_ & _ & p & q & resp & _ & _ & ->)%prepare_accept_ok _ (apply & events & [= <-] & Ha & _).
    apply stm_bind_ok in Ha as (d1 & d2 & [= <- <-] & Ha).
    apply stm_bind_ok in Ha as (d3 & evs & (d4 & Hacc & ->)%on_domain_ok & [= <- _]). by apply lives_accept in Hacc.
Qed.

Lemma prepare_reject_ok command id revision fingerprint reason a db db' m :
  prepare_reject fresh clock command id revision fingerprint reason a db = (db', Ok m) ->
  db' = db /\ exists p tasks_ objectives_ response_, m = decided id
    ('(_, next_revision) ← on_domain (reject fresh clock id revision fingerprint reason command);
     mret (Some [decision_event fresh command id "REJECTED" p fingerprint reason tasks_ objectives_ a])) response_.
Proof.
  unfold prepare_reject. intros (d1 & d & [= <- <-] & Hr)%stm_bind_ok.
  destruct (get (domain_state db) id) as [p|]; [|by apply lift_ok in Hr as [_ ?]].
  apply stm_bind_ok in Hr as (d2 & u & [-> _]%lift_ok & Hr). unfold _persisted_changes in Hr.
  injection Hr as <- <-. split; [done|]. exists p. by eexists _, _, _.
Qed.
Lemma lives_reject_command audit ac command id revision fingerprint reason a db db' res :
  reject_regroup_proposal fresh clock audit ac command id revision fingerprint reason a db = (db', res) ->
  ledger_lives db db'.
Proof.
  unfold reject_regroup_proposal. intros Hr. do 4 read_only Hr. revert Hr. apply execute_map_lives.
  - intros d d1 m (-> & p & tk & ob & resp & ->)%prepare_reject_ok. split; [done|]. apply decided_simple.
  - intros m db1 db2 (_ & p & tk & ob & resp & ->)%prepare_reject_ok _ (apply & events & [= <-] & Ha & _).
    apply stm_bind_ok in Ha as (d3 & [rej n] & (d4 & Hacc & ->)%on_domain_ok & [= <- _]). by apply lives_reject in Hacc.
Qed.
Lemma transition_kept id n f st command d d' r : transition id n f st command d = (d', Ok r) -> kept d d'.
Proof. by intros (_ & _ & p & _ & _ & _ & ->)%proposal_transition_ok. Qed.
Lemma kept_reject_command audit ac command id revision fingerprint reason a db db' res :
  reject_regroup_proposal fresh clock audit ac command id revision fingerprint reason a db = (db', res) ->
  ledger_kept db db'.
Proof.
  unfold reject_regroup_proposal. intros Hr. do 4 read_only Hr. revert Hr. apply execute_map_kept.
  - intros d d1 m (-> & p & tk & ob & resp & ->)%prepare_reject_ok. split; [done|]. apply decided_simple.
  - intros m db1 db2 (_ & p & tk & ob & resp & ->)%prepare_reject_ok _ (apply & events & [= <-] & Ha & _).
    apply stm_bind_ok in Ha as (d3 & [rej n] & (d4 & Hacc & ->)%on_domain_ok & [= <- _]).
    unfold reject in Hacc. apply stm_bind_ok in Hacc as (d5 & n' & Ht%transition_kept & Hacc).
    apply stm_bind_ok in Hacc as (d6 & u & Hi & [= <- _]). unfold insert_rejection in Hi. by apply statement_ok in Hi as [_ ->].
Qed.
Lemma prepare_reconsider_ok command id rejection fingerprint reason a db db' m :
  prepare_reconsider fresh clock command id rejection fingerprint reason a db = (db', Ok m) ->
  db' = db /\ simple_mutation m /\ exists p tasks_ objectives_, apply_ m = Some
    (_ ← on_domain (reconsider_rejection clock id rejection fingerprint);
     mret (Some [decision_event fresh command id "RECONSIDERED" p fingerprint reason tasks_ objectives_ a])).
Proof.
  unfold prepare_reconsider. intros (d1 & d & [= <- <-] & Hr)%stm_bind_ok.
  destruct (get (domain_state db) id) as [p|]; [|by apply lift_ok in Hr as [_ ?]].
  apply stm_bind_ok in Hr as (d2 & u & [-> _]%lift_ok & Hr). unfold _persisted_changes in Hr.
  injection Hr as <- <-. split; [done|]. split; [done|]. exists p. by eexists _, _.
Qed.
Lemma lives_reconsider_command audit ac command id rejection fingerprint reason a db db' res :
  reconsider_regroup_inputs fresh clock audit ac command id rejection fingerprint reason a db = (db', res) ->
  ledger_lives db db'.
Proof.
  unfold reconsider_regroup_inputs. intros Hr. do 4 read_only Hr. revert Hr. apply execute_map_lives.
  - intros d d1 m (-> & Hm & _)%prepare_reconsider_ok. done.
  - intros m db1 db2 (_ & _ & p & tk & ob & Em)%prepare_reconsider_ok _ (apply & events & Ea & Ha & _).
    rewrite Em in Ea. injection Ea as <-.
    apply stm_bind_ok in Ha as (d3 & r & (d4 & Hacc & ->)%on_domain_ok & [= <- _]). by apply lives_reconsider in Hacc.
Qed.

Lemma kept_reconsider_command audit ac command id rejection fingerprint reason a db db' res :
  reconsider_regroup_inputs fresh clock audit ac command id rejection fingerprint reason a db = (db', res) ->
  ledger_kept db db'.
Proof.
  unfold reconsider_regroup_inputs. intros Hr. do 4 read_only Hr. revert Hr. apply execute_map_kept.
  - intros d d1 m (-> & Hm & _)%prepare_reconsider_ok. done.
  - intros m db1 db2 (_ & _ & p & tk & ob & Em)%prepare_reconsider_ok _ (apply & events & Ea & Ha & _).
    rewrite Em in Ea. injection Ea as <-. apply stm_bind_ok in Ha as (d3 & r & (d4 & Hacc & ->)%on_domain_ok & [= <- _]).
    unfold reconsider_rejection in Hacc. by inv_db Hacc.
Qed.

(** * The recompute *)
(** SHA-256 tells the candidates of one scan apart. *)
Definition no_collision (d : ObjDb) (origin_ : string) : Prop := forall cs c c' f,
  _candidates d origin_ = Ok cs -> c ∈ cs -> c' ∈ cs -> input_fingerprint c = Ok f -> input_fingerprint c' = Ok f ->
  candidate_material c = candidate_material c'.
Lemma before_start s d (Hs : snapshot_ok d s) c c' :
  plans_ok d -> component_of s c -> component_of s c' -> before c c' -> component_start c < component_start c'.
Proof.
  intros Hp Hc Hc' Hb. pose proof (snapshot_positive _ _ Hp Hs) as Hpos. rewrite Forall_forall in Hpos.
  destruct (component_start_spec c (cp_nonempty _ _ Hc)) as [_ (a & Ha & Ea)].
  destruct (component_start_spec c' (cp_nonempty _ _ Hc')) as [_ (b & Hb' & Eb)].
  specialize (Hb a b Ha Hb'). specialize (Hpos a (cp_sub _ _ Hc a Ha)). unfold positive in Hpos. lia.
Qed.
Lemma candidate_starts d origin_ cs :
  plans_ok d -> _candidates d origin_ = Ok cs -> NoDup (map component_start_utc cs).
Proof.
  intros Hp Hcs. unfold _candidates in Hcs. apply bind_ok in Hcs as (s & Hs%load_snapshot_ok & (l & Hl & Hcs)%bind_ok).
  change (NoDup (component_start_utc <$> cs)). rewrite (sort_candidates_perm _ _ Hcs).
  apply (unsorted_candidates_exact _ _ Hs Hp) in Hl as ->.
  pose proof (components_of_snapshot _ _ Hs Hp) as Hall.
  pose proof (strict_overlap_components_ok _ (snapshot_positive _ _ Hp Hs)) as [_ _ _ Hb].
  clear Hcs. generalize (_split_objectives (strict_overlap_components (s_tasks s))) as split. intros split.
  induction (strict_overlap_components (s_tasks s)) as [|c comps IH]; [constructor|].
  apply Forall_cons in Hall as [Hc Hall]. apply StronglySorted_inv in Hb as [Hb Hbefore]. simpl.
  destruct (reference_candidate s split origin_ c) as [x|] eqn:Ex; [|exact (IH Hall Hb)]. simpl. constructor; [|exact (IH Hall Hb)].
  intros (y & Ey & (c' & Hc' & Hy)%list_elem_of_omap)%list_elem_of_fmap.
  unfold reference_candidate in Ex, Hy. apply bind_Some in Ex as (p & _ & [= <-]). apply bind_Some in Hy as (q & _ & [= <-]).
  simpl in Ey. rewrite Forall_forall in Hall, Hbefore.
  pose proof (before_start s d Hs c c' Hp Hc (Hall c' Hc') (Hbefore c' Hc')). lia.
Qed.
Lemma material_start_utc c c' : candidate_material c = candidate_material c' -> component_start_utc c = component_start_utc c'.
Proof. unfold candidate_material. simpl. intros E. injection E. by intros. Qed.
Lemma keyed_fingerprints cs keyed :
  NoDup (map component_start_utc cs) ->
  (forall c c' f, c ∈ cs -> c' ∈ cs -> input_fingerprint c = Ok f -> input_fingerprint c' = Ok f ->
     candidate_material c = candidate_material c') ->
  traverse with_fingerprint cs = Ok keyed -> NoDup (map snd keyed).
Proof.
  intros Hnd Hcol Hk%traverse_ok. induction Hk as [|c [c' f] cs keyed Hc Hk IH]; [constructor|]. simpl in *.
  apply NoDup_cons in Hnd as [Hn Hnd]. unfold with_fingerprint in Hc. apply bind_ok in Hc as (f' & Hf & [= <- <-]).
  constructor.
  - intros ([x g] & Eg & Hx)%list_elem_of_fmap. simpl in Eg. subst g. apply list_elem_of_lookup in Hx as [i Hi].
    destruct (Forall2_lookup_r _ _ _ _ _ Hk Hi) as (y & Hy & Ey). unfold with_fingerprint in Ey.
    apply bind_ok in Ey as (f & Hf2 & [= -> ->]). apply list_elem_of_lookup_2 in Hy.
    apply Hn, list_elem_of_fmap. exists x. split; [|done]. apply material_start_utc, (Hcol c x f'); set_solver.
  - apply IH; [done|]. intros. eapply Hcol; set_solver.
Qed.
Lemma plan_fingerprints db origin_ scope p keyed :
  plans_ok (domain_state db) -> no_collision (domain_state db) origin_ -> plan_recompute db origin_ scope = Ok p ->
  traverse with_fingerprint (rp_candidates p) = Ok keyed -> NoDup (map snd keyed).
Proof.
  intros Hp Hcol. unfold plan_recompute. destruct scope as [ids|].
  - intros (c & _ & [= <-])%bind_ok. simpl. intros (y & _ & [= <-])%bind_ok.
    simpl. apply NoDup_singleton.
  - intros (n & _ & Hr)%bind_ok. destruct (_ <? n); [injection Hr as <-; intros [= <-]; constructor|].
    apply bind_ok in Hr as (cs & Hcs & [= <-]). simpl. apply keyed_fingerprints.
    + by eapply candidate_starts.
    + intros c c' f Hc Hc'. by apply (Hcol cs c c' f).
Qed.
Lemma indexed_values {A} (l : list A) : map snd (indexed l) = l.
Proof.
  unfold indexed. change (snd <$> imap (fun n a => (int_text (Z.of_nat n), a)) l = l). rewrite fmap_imap.
  etrans; [apply (imap_const (fun a : A => a))|apply list_fmap_id].
Qed.
Lemma lives_sync command a db0 cs material db db' res :
  material_candidates (domain_state db0) cs = Ok material -> domain_state db = domain_state db0 ->
  (forall keyed, traverse with_fingerprint cs = Ok keyed -> NoDup (map snd keyed)) ->
  apply_sync fresh clock command a (with_ids fresh material) db = (db', Ok res) -> ledger_lives db db'.
Proof.
  intros Hm Ed Hnd. unfold apply_sync. intros (d1 & u & (d2 & H1 & ->)%on_domain_ok & [= <- _])%stm_bind_ok.
  unfold material_candidates in Hm. apply bind_ok in Hm as (keyed & Hk & [= <-]). unfold ledger_lives. simpl.
  assert (map (fun icf : string * (RegroupCandidate * string) => icf.2) (with_ids fresh
    (filter (fun cf => publishable (domain_state db0) cf.2 = true) keyed))
    = filter (fun cf => publishable (domain_state db0) cf.2 = true) keyed) as E2.
  { unfold with_ids. rewrite map_map. simpl. apply indexed_values. }
  eapply publish_all_lives; [| |exact H1].
  - rewrite <-(map_map (fun icf : string * (RegroupCandidate * string) => icf.2) snd), E2.
    apply NoDup_fmap_filter. by apply Hnd.
  - rewrite Ed. apply Forall_forall. intros icf Hin.
    apply (list_elem_of_fmap_2 (fun icf : string * (RegroupCandidate * string) => icf.2)) in Hin.
    change (icf.2 ∈ map (fun icf : string * (RegroupCandidate * string) => icf.2) (with_ids fresh
      (filter (fun cf => publishable (domain_state db0) cf.2 = true) keyed))) in Hin.
    rewrite E2 in Hin. by apply list_elem_of_filter in Hin as [Hf _].
Qed.

(** What a recompute prepares: nothing, the proposals, or a durable job. *)
Definition recompute_apply (command origin_ : string) (a : actor) (db : LedgerDb ObjDb) (p : recompute_plan)
    (apply : regroupM (option (list AuditEventInput))) : Prop :=
  (exists material, material_candidates (domain_state db) (rp_candidates p) = Ok material /\
     apply = apply_sync fresh clock command a (with_ids fresh material)) \/
  exists count, apply = apply_deferred fresh clock command origin_ count a.
Lemma prepare_sync_ok command origin_ a db p db1 db2 m :
  prepare_sync fresh clock command a db p db1 = (db2, Ok m) ->
  db2 = db1 /\ simple_mutation m /\ forall apply, apply_ m = Some apply -> recompute_apply command origin_ a db p apply.
Proof.
  unfold prepare_sync. intros (d1 & material & [-> Hm]%lift_ok & Hr)%stm_bind_ok.
  destruct (with_ids fresh material) as [|[i cf] rest] eqn:E; injection Hr as <- <-; (split; [done|]).
  - split; [split; [done|by intros ? [= <-]]|]. by intros apply.
  - split; [split; [done|by intros ? [= <-]]|]. intros apply [= <-]. left. exists material. by rewrite E.
Qed.
Lemma prepare_recompute_ok command origin_ a p db db' m :
  prepare_recompute fresh clock command origin_ a p db = (db', Ok m) ->
  db' = db /\ simple_mutation m /\ forall apply, apply_ m = Some apply -> recompute_apply command origin_ a db p apply.
Proof.
  unfold prepare_recompute. intros (d1 & d2 & [= <- <-] & Hr)%stm_bind_ok.
  apply stm_bind_ok in Hr as (d1 & cnt & [-> _]%lift_ok & Hr).
  destruct (rp_workset_count p) as [w|]; [|by eapply prepare_sync_ok]. destruct cnt as [n|]; [|by eapply prepare_sync_ok].
  destruct (_ <? w).
  - apply stm_bind_ok in Hr as (d1 & u & [-> _]%lift_ok & [= <- <-]). split; [done|].
    split; [split; [done|by intros ? [= <-]]|]. intros apply [= <-]. right. by exists n.
  - apply stm_bind_ok in Hr as (d1 & u & [-> _]%lift_ok & Hr). by eapply prepare_sync_ok.
Qed.
Lemma on_durable_frame {A} (m : jobsM A) d d' (r : result A) : on_durable m d = (d', r) -> proposals_frame d d'.
Proof. unfold on_durable. destruct (m (durable d)) as [j x]. by intros [= <- _]. Qed.
Lemma on_durable_kept {A} (m : jobsM A) d d' (r : result A) : on_durable m d = (d', r) -> kept d d'.
Proof. unfold on_durable. destruct (m (durable d)) as [j x]. by intros [= <- _]. Qed.
Lemma publish_candidate_kept id command c f d d' u : publish_candidate fresh clock id command c f d = (d', Ok u) -> kept d d'.
Proof.
  unfold publish_candidate. intros (d1 & v & H1 & (d2 & w & H2 & H3)%stm_bind_ok)%stm_bind_ok.
  unfold insert_proposal in H1. apply statement_ok in H1 as [_ ->].
  apply (each_frame (fun d => (objectives d, objective_task_membership_current d))) in H2, H3; cycle 1.
  { intros x st st' w'. unfold insert_objective_change. by intros [_ ->]%statement_ok. }
  { intros x st st' w'. unfold insert_task_change. by intros [_ ->]%statement_ok. }
  rewrite H2 in H3. by injection H3.
Qed.
Lemma sync_kept command a material db db' res :
  apply_sync fresh clock command a material db = (db', Ok res) -> ledger_kept db db'.
Proof.
  unfold apply_sync. intros (d1 & u & (d2 & H1 & ->)%on_domain_ok & [= <- _])%stm_bind_ok. unfold ledger_kept. simpl.
  apply (each_frame (fun d => (objectives d, objective_task_membership_current d))) in H1; [by injection H1|].
  intros x st st' w [E1 E2]%publish_candidate_kept. congruence.
Qed.
Lemma kept_recompute audit ac command origin_ scope a probe snapshot db db' res :
  recompute_grouping_proposals fresh clock audit ac command origin_ scope a probe snapshot db = (db', res) ->
  ledger_kept db db'.
Proof.
  unfold recompute_grouping_proposals. intros Hr. do 3 read_only Hr. replayed Hr. read_only Hr. revert Hr.
  apply execute_map_kept.
  - intros d d1 m (-> & Hm & _)%prepare_recompute_ok. done.
  - intros m db1 db2 (_ & _ & Hap)%prepare_recompute_ok _ (apply & events & Ea & Ha & _).
    destruct (Hap apply Ea) as [(material & _ & ->)|(n & ->)]; [by eapply sync_kept|].
    unfold apply_deferred in Ha. apply stm_bind_ok in Ha as (d1 & key & [-> _]%lift_ok & Ha).
    by apply stm_bind_ok in Ha as (d2 & job & (d3 & Hj%on_durable_kept & ->)%on_domain_ok & [= <- _]).
Qed.
Lemma lives_recompute audit ac command origin_ scope a probe snapshot db db' res :
  plans_ok (domain_state snapshot) -> no_collision (domain_state snapshot) origin_ ->
  recompute_grouping_proposals fresh clock audit ac command origin_ scope a probe snapshot db = (db', res) ->
  ledger_lives db db'.
Proof.
  intros Hp Hcol. unfold recompute_grouping_proposals. intros Hr. do 3 read_only Hr. replayed Hr.
  apply lift_bind_any in Hr as [(p & Hplan & Hr)| ->]; [|apply ledger_lives_refl]. revert Hr. apply execute_map_lives.
  - intros d d1 m (-> & Hm & _)%prepare_recompute_ok. done.
  - intros m db1 db2 (_ & _ & Hap)%prepare_recompute_ok Edb (apply & events & Ea & Ha & _).
    destruct (Hap apply Ea) as [(material & Hm & ->)|(n & ->)].
    + eapply lives_sync; [exact Hm|exact Edb| |exact Ha]. intros keyed. by eapply plan_fingerprints.
    + unfold apply_deferred in Ha. apply stm_bind_ok in Ha as (d1 & key & [-> _]%lift_ok & Ha).
      apply stm_bind_ok in Ha as (d2 & job & (d3 & Hj%on_durable_frame & ->)%on_domain_ok & [= <- _]).
      by apply frame_lives in Hj.
Qed.

(** * The durable worker *)
Lemma insert_candidate_ok c f command at_ d d' id :
  insert_candidate fresh clock c f command at_ d = (d', Ok id) ->
  id = fresh ("proposal" :: at_) /\ exists u, publish_candidate fresh clock id command c f d = (d', Ok u).
Proof. unfold insert_candidate. intros (d1 & u & Hp & [= <- <-])%stm_bind_ok. split; [done|]. by exists u. Qed.
Lemma lives_publish_step audit ac claim command a published n c db db' res :
  publish_step fresh clock audit ac claim command a published n c db = (db', res) -> ledger_lives db db'.
Proof.
  unfold publish_step. intros [(b & _ & Hr)|(e & _ & ->)]%in_uow_ok; [|apply ledger_lives_refl].
  apply stm_bind_ok in Hr as (d1 & u & (j1 & Hj1%on_durable_frame & ->)%on_domain_ok & Hr).
  apply stm_bind_ok in Hr as (d1 & f & [-> Hf]%lift_ok & Hr).
  apply stm_bind_ok in Hr as (d1 & d2 & [= <- <-] & Hr). apply frame_lives in Hj1. unfold ledger_lives in *.
  destruct (publishable _ f) eqn:Ep; [|by injection Hr as <- _].
  apply stm_bind_ok in Hr as (d3 & id & (j2 & Hid & ->)%on_domain_ok & Hr).
  apply insert_candidate_ok in Hid as (_ & u1 & (Hn & Hrow & Hrej)%publish_candidate_ok). cbv zeta in Hr.
  apply stm_bind_ok in Hr as (d4 & u2 & (text & _ & _ & _ & _ & ->)%write_ok & Hr).
  apply stm_bind_ok in Hr as (d5 & u3 & (j3 & Hj3%on_durable_frame & ->)%on_domain_ok & [= <- _]).
  simpl in *. apply frame_lives in Hj3. eapply lives_trans; [exact Hj1|]. eapply lives_trans; [|exact Hj3].
  by eapply lives_insert.
Qed.
Lemma kept_publish_step audit ac claim command a published n c db db' res :
  publish_step fresh clock audit ac claim command a published n c db = (db', res) -> ledger_kept db db'.
Proof.
  unfold publish_step. intros [(b & _ & Hr)|(e & _ & ->)]%in_uow_ok; [|apply ledger_kept_refl].
  apply stm_bind_ok in Hr as (d1 & u & (j1 & Hj1%on_durable_kept & ->)%on_domain_ok & Hr).
  apply stm_bind_ok in Hr as (d1 & f & [-> Hf]%lift_ok & Hr).
  apply stm_bind_ok in Hr as (d1 & d2 & [= <- <-] & Hr). unfold ledger_kept.
  destruct (publishable _ f); [|by injection Hr as <- _].
  apply stm_bind_ok in Hr as (d3 & id & (j2 & Hid & ->)%on_domain_ok & Hr).
  apply insert_candidate_ok in Hid as (_ & u1 & Hk%publish_candidate_kept). cbv zeta in Hr.
  apply stm_bind_ok in Hr as (d4 & u2 & (text & _ & _ & _ & _ & ->)%write_ok & Hr).
  apply stm_bind_ok in Hr as (d5 & u3 & (j3 & Hj3%on_durable_kept & ->)%on_domain_ok & [= <- _]).
  simpl in *. eapply kept_trans; [exact Hj1|]. by eapply kept_trans.
Qed.
End history.

(** * Histories *)
Section histories.
Context `{Sha256, FloatText}.
(** One transaction: a command, a unit of work of the durable worker (whatever
    its outcome), or anything that leaves the proposals alone. *)
Inductive regroup_step (db db' : LedgerDb ObjDb) : Prop :=
| recompute_step fresh clock audit ac command origin_ scope a probe snapshot res :
    plans_ok (domain_state snapshot) -> no_collision (domain_state snapshot) origin_ ->
    recompute_grouping_proposals fresh clock audit ac command origin_ scope a probe snapshot db = (db', res) ->
    regroup_step db db'
| publish_step_ fresh clock audit ac claim command a published n c res :
    publish_step fresh clock audit ac claim command a published n c db = (db', res) -> regroup_step db db'
| accept_step fresh clock audit ac command id revision fingerprint high a probe snapshot before_ planned locked res :
    accept_regroup_proposal fresh clock audit ac command id revision fingerprint high a probe snapshot before_ planned
      locked db = (db', res) -> regroup_step db db'
| reject_step fresh clock audit ac command id revision fingerprint reason a res :
    reject_regroup_proposal fresh clock audit ac command id revision fingerprint reason a db = (db', res) ->
    regroup_step db db'
| reconsider_step fresh clock audit ac command id rejection fingerprint reason a res :
    reconsider_regroup_inputs fresh clock audit ac command id rejection fingerprint reason a db = (db', res) ->
    regroup_step db db'
| other_step : proposals_frame (domain_state db) (domain_state db') -> regroup_step db db'.
Lemma step_lives db db' : regroup_step db db' -> ledger_lives db db'.
Proof.
  intros [].
  - by eapply lives_recompute.
  - by eapply lives_publish_step.
  - by eapply lives_accept_command.
  - by eapply lives_reject_command.
  - by eapply lives_reconsider_command.
  - by apply frame_lives.
Qed.

(** C4.  The life of regroup proposals.  Along every interleaving of
    recomputes, publications of the durable worker, acceptances, rejections,
    reconsiderations and other transactions, successful or not, no two pending
    proposals stand for the same input, no pending proposal stands for an input
    that is rejected and not reconsidered, no proposal disappears or changes
    what it stands for, and a decided one never changes again. *)
Theorem proposals_history (db db' : LedgerDb ObjDb) (Hsteps : rtc regroup_step db db')
    (Hok : proposals_ok (domain_state db)) :
  proposals_ok (domain_state db') /\ proposals_advance (domain_state db) (domain_state db').
Proof.
  assert (ledger_lives db db') as [Hkeep Hadv]; [|by split; [apply Hkeep|]].
  induction Hsteps as [db|db db1 db' Hstep _ IH]; [apply ledger_lives_refl|].
  eapply lives_trans; [by apply step_lives|]. apply IH. by apply (step_lives _ _ Hstep).
Qed.

Lemma no_collision_ok d origin_ cs :
  _candidates d origin_ = Ok cs ->
  NoDup (map (fun c => match input_fingerprint c with Ok f => f | Raise _ => EmptyString end) cs) ->
  no_collision d origin_.
Proof.
  intros Hcs Hnd cs' c c' f Hcs' [i Hi]%list_elem_of_lookup [j Hj]%list_elem_of_lookup Hf Hf'.
  assert (cs' = cs) as -> by congruence. assert (i = j) as ->; [|by rewrite Hi in Hj; injection Hj as ->].
  set (key := fun c => match input_fingerprint c with Ok f => f | Raise _ => EmptyString end) in *.
  apply (NoDup_lookup (key <$> cs) i j (key c)); [done|by rewrite list_lookup_fmap, Hi|].
  rewrite list_lookup_fmap, Hj. unfold key. simpl. by rewrite Hf, Hf'.
Qed.
End histories.

(** * A member left behind *)
Definition no_objective {A} : result A := raise (IntegrityFailure "Task membership points to missing current Objective").
Definition broken_authority {A} : result A :=
  raise (IntegrityFailure "Task membership points to missing or noncurrent Objective authority").

Section stranded.
Context `{Sha256, FloatText}.
(** The membership points to a superseded Objective. *)
Definition stranded (d : ObjDb) (t : string) (m : MembershipRow) : Prop :=
  objective_task_membership_current d !! t = Some m /\
  exists o, objectives d !! ms_objective_id m = Some o /\ ob_superseded_by_objective_id o <> None.
(** The task is still to be done: planned, not started, not closed, and alone in
    its activity lineage. *)
Definition waiting (d : ObjDb) (t : string) : Prop :=
  (exists row, row ∈ planned_tasks d /\ row_id row = t) /\ task_outcome_current d !! t = None /\
  coalesced_state d t = "not_started" /\ provider_final d t = false /\ t ∉ _competing_task_ids d.

Lemma stranded_closed d t m : stranded d t m -> is_current d (ms_objective_id m) = false.
Proof.
  intros (_ & o & Ho & Hn). apply not_true_iff_false. intros (o' & Ho' & E)%is_current_spec. congruence.
Qed.
Lemma stranded_broken d t m : stranded d t m -> ~ structure_ok d.
Proof. intros Hs [Hmem _ _]. destruct (Hmem t m (proj1 Hs)) as [Hc _]. by rewrite (stranded_closed _ _ _ Hs) in Hc. Qed.
Lemma stranded_workset d t m : stranded d t m -> _eligible_workset_count d = broken_authority.
Proof.
  intros (Hm & o & Ho & Hn). unfold _eligible_workset_count. cbv zeta.
  match goal with |- context [existsb ?f ?l] => assert (existsb f l = true) as -> end; [|done].
  apply existsb_exists. exists (t, m). split; [by apply list_elem_of_In, elem_of_map_to_list|]. simpl. rewrite Ho.
  rewrite bool_decide_eq_true_2; [done|]. by apply not_eq_None_Some.
Qed.
Lemma traverse_only_error {A B} (f : A -> result B) e l :
  (forall x e', x ∈ l -> f x = Raise e' -> e' = e) -> (exists x, x ∈ l /\ f x = Raise e) -> traverse f l = Raise e.
Proof.
  induction l as [|x l IH]; intros Hone [y [Hy Ey]]; [by apply not_elem_of_nil in Hy|]. simpl.
  destruct (f x) as [b|e'] eqn:Ex; [|by rewrite (Hone x e' ltac:(by left) Ex)].
  apply elem_of_cons in Hy as [->|Hy]; [congruence|]. simpl.
  rewrite IH; [done|intros z e' Hz; apply Hone; by right|by exists y].
Qed.
Lemma snapshot_task_error d competing os row e :
  snapshot_task d competing os row = Raise e -> (@Raise unit e) = no_objective.
Proof.
  destruct row as [[[t n] pc] p]. unfold snapshot_task. destruct (_ || _); [done|]. cbv zeta.
  unfold forbid. destruct (_ && _); simpl; [by intros [= <-]|]. destruct (match _ with Some _ => _ | None => _ end); [done|].
  by destruct (_ =? 1).
Qed.
(** No grouping snapshot can be taken while a stranded task waits. *)
Lemma stranded_snapshot d t m : stranded d t m -> waiting d t -> _load_snapshot d = no_objective.
Proof.
  intros Hs ((row & Hrow & <-) & Hout & Hst & Hfin & Hcomp). unfold _load_snapshot. cbv zeta.
  erewrite traverse_only_error; [done| |].
  - intros x e' _ Hx. apply snapshot_task_error in Hx. by injection Hx.
  - exists row. split; [by rewrite elem_of_py_sorted|]. destruct row as [[[t n] pc] p]. unfold row_id in *. simpl in *.
    rewrite Hout, Hst, Hfin, (bool_decide_eq_false_2 (t ∈ _)) by done. simpl.
    rewrite (proj1 Hs). simpl. destruct (current_objectives d !! ms_objective_id m) as [o|] eqn:Eo; [|done].
    apply authority_current in Eo. by rewrite (stranded_closed _ _ _ Hs) in Eo.
Qed.
Lemma stranded_kept d d' t m : kept d d' -> stranded d t m -> stranded d' t m.
Proof. intros [Eo Em] (Hm & o & Ho & Hn). split; [congruence|]. exists o. by rewrite Eo. Qed.
(** Not even another acceptance moves it: no candidate holds its task. *)
Lemma stranded_accepted fresh id command p c d d' t m :
  change_set_ok d c -> map tr_change (ap_task_rows p) ≡ₚ Grouping.task_changes c ->
  accept_effect fresh id command p d d' -> stranded d t m -> stranded d' t m.
Proof.
  intros Hcs Hrows He Hs. pose proof (stranded_closed _ _ _ Hs) as Hcl. destruct Hs as (Hm & o & Ho & Hn). split.
  - rewrite (ae_others _ _ _ _ _ _ He); [done|]. intros (r & -> & Hr)%list_elem_of_fmap.
    enough (is_current d (ms_objective_id m) = true) by congruence. apply (cs_current _ _ Hcs (tr_change r)); [|done].
    rewrite <-Hrows. by apply list_elem_of_fmap_2.
  - destruct (decide (ms_objective_id m ∈ superseded_ids (ap_objective_rows p))) as [Hin|Hin].
    + destruct (ae_superseded _ _ _ _ _ _ He _ Hin) as (r & _ & Hr). eexists. by split.
    + exists o. split; [by apply (ae_kept _ _ _ _ _ _ He)|done].
Qed.

(** What fails: every recompute without a scope, and every acceptance of a
    proposal that is not a manual merge while the task waits. *)
Lemma probe_unseen e probe r : command_receipts probe !! command_id e = None -> _probe_replay e probe = Ok r -> r = None.
Proof. intros E. unfold _probe_replay. rewrite E. by intros (h & _ & [= <-])%bind_ok. Qed.
Lemma stranded_recompute fresh clock audit ac command origin_ a probe snapshot db t m :
  stranded (domain_state snapshot) t m -> command_receipts probe !! command = None ->
  exists e, recompute_grouping_proposals fresh clock audit ac command origin_ None a probe snapshot db = (db, Raise e).
Proof.
  intros Hs Hnew. unfold recompute_grouping_proposals. apply lift_fails. intros _ _.
  apply lift_fails. intros scope [= <-]. cbv zeta. apply lift_fails. intros r ->%probe_unseen; [|done].
  apply lift_fails. intros p Hp. unfold plan_recompute in Hp. by rewrite (stranded_workset _ _ _ Hs) in Hp.
Qed.
Lemma stranded_accept fresh clock audit ac command id p revision fingerprint high a probe snapshot before planned locked db t m :
  stranded (domain_state snapshot) t m -> waiting (domain_state snapshot) t ->
  regroup_proposals (domain_state snapshot) !! id = Some p -> pr_proposal_kind p <> "manual_merge" ->
  command_receipts probe !! command = None ->
  exists e, accept_regroup_proposal fresh clock audit ac command id revision fingerprint high a probe snapshot
    before planned locked db = (db, Raise e).
Proof.
  intros Hs Hw Hp Hkind Hnew. unfold accept_regroup_proposal. apply lift_fails. intros id' [-> _]%require_uuid4_ok.
  apply lift_fails. intros _ _. apply lift_fails. intros f _. cbv zeta. apply lift_fails. intros r ->%probe_unseen; [|done].
  apply lift_fails. intros c (p' & ((Hp' & _) & _)%reviewed_proposal_ok & Hc)%plan_accept_ok.
  assert (p' = p) as -> by congruence. apply candidate_source in Hc as [[? _]|(_ & cs & Hcs & _)]; [done|].
  unfold _candidates in Hcs. by rewrite (stranded_snapshot _ _ _ Hs Hw) in Hcs.
Qed.

(** One transaction of the grouping, whatever its arguments and its outcome, or
    any other that removes and changes no Objective and no membership.  An
    acceptance runs on valid plan intervals, and reads in its planning snapshot
    what it finds under the writer lock when the data version is the same. *)
Inductive authority_step (db db' : LedgerDb ObjDb) : Prop :=
| authority_recompute fresh clock audit ac command origin_ scope a probe snapshot res :
    recompute_grouping_proposals fresh clock audit ac command origin_ scope a probe snapshot db = (db', res) ->
    authority_step db db'
| authority_publish fresh clock audit ac claim command a published n c res :
    publish_step fresh clock audit ac claim command a published n c db = (db', res) -> authority_step db db'
| authority_accept fresh clock audit ac command id revision fingerprint high a probe snapshot before_ planned locked res :
    plans_ok (domain_state db) ->
    (before_ = planned -> planned = locked -> domain_state snapshot = domain_state db) ->
    accept_regroup_proposal fresh clock audit ac command id revision fingerprint high a probe snapshot before_ planned
      locked db = (db', res) -> authority_step db db'
| authority_reject fresh clock audit ac command id revision fingerprint reason a res :
    reject_regroup_proposal fresh clock audit ac command id revision fingerprint reason a db = (db', res) ->
    authority_step db db'
| authority_reconsider fresh clock audit ac command id rejection fingerprint reason a res :
    reconsider_regroup_inputs fresh clock audit ac command id rejection fingerprint reason a db = (db', res) ->
    authority_step db db'
| authority_other :
    objectives (domain_state db) ⊆ objectives (domain_state db') ->
    objective_task_membership_current (domain_state db) ⊆ objective_task_membership_current (domain_state db') ->
    authority_step db db'.
Lemma step_stranded db db' t m :
  authority_step db db' -> stranded (domain_state db) t m -> stranded (domain_state db') t m.
Proof.
  intros [] Hs.
  - eapply stranded_kept; [by eapply kept_recompute|done].
  - eapply stranded_kept; [by eapply kept_publish_step|done].
  - match goal with Hv : _ -> _ -> domain_state _ = _, Hr : accept_regroup_proposal _ _ _ _ _ _ _ _ _ _ _ _ _ _ _ _ = _ |- _ =>
      destruct (accept_outcome _ _ _ _ _ _ _ _ _ _ _ _ _ _ _ _ _ _ Hv Hr) as [E|(p & q & c & evs & acc & f & _ & Hc & Hq & Ha)] end;
      [by rewrite E|].
    apply accept_plan_of_ok in Hq as (_ & _ & Ht & _). apply candidate_change_set in Hc as Hcs; [|done].
    eapply stranded_accepted; [exact Hcs|exact Ht| |exact Hs]. by eapply accept_run.
  - eapply stranded_kept; [by eapply kept_reject_command|done].
  - eapply stranded_kept; [by eapply kept_reconsider_command|done].
  - destruct Hs as (Hm & o & Ho & Hn). split; [by eapply lookup_weaken|]. exists o. split; [by eapply lookup_weaken|done].
Qed.
(** A locked member of a superseded Objective is left behind. *)
Lemma locked_left_behind fresh id command p c d d' t m :
  change_set_ok d c -> map tr_change (ap_task_rows p) ≡ₚ Grouping.task_changes c ->
  accept_effect fresh id command p d d' -> objective_task_membership_current d !! t = Some m ->
  ms_objective_id m ∈ superseded_ids (ap_objective_rows p) -> membership_lock d t = 1 -> stranded d' t m.
Proof.
  intros Hcs Hrows He Hm Hin Hlock. split.
  - rewrite (ae_others _ _ _ _ _ _ He); [done|]. intros (r & -> & Hr)%list_elem_of_fmap.
    apply (cs_unlocked _ _ Hcs (tr_change r)); [|done]. rewrite <-Hrows. by apply list_elem_of_fmap_2.
  - destruct (ae_superseded _ _ _ _ _ _ He _ Hin) as (r & _ & Hr). eexists. by split.
Qed.

(** C38.  A locked member is left behind for good.  When an acceptance succeeds
    and is not a replay, and it supersedes an Objective with a member the user
    has locked, that member keeps its membership in the superseded Objective.
    From then on, after any sequence of recomputes, publications, acceptances,
    rejections, reconsiderations and other transactions that remove and change no
    Objective and no membership, it is still there, the Objectives are
    inconsistent, and every new recompute without a scope fails; and as long as
    its task waits to be started, no grouping snapshot can be taken and every new
    acceptance of a proposal that is not a manual merge fails.  Every acceptance
    here runs on plans that end after they start, and with equal data versions it
    plans on what it finds under the writer lock. *)
Theorem locked_member_stranded fresh clock (audit : AuditRegistry) (ac : string -> Z) (command id : string) (revision : Z)
    (fingerprint : string) (high : bool) (a : actor) (probe snapshot : LedgerDb ObjDb) (before planned locked : Z)
    (db db' db2 : LedgerDb ObjDb) (response_ : json) (t : string) (m : MembershipRow)
    (Hplans : plans_ok (domain_state db))
    (Hversion : before = planned -> planned = locked -> domain_state snapshot = domain_state db)
    (Hrun : accept_regroup_proposal fresh clock audit ac command id revision fingerprint high a probe
       snapshot before planned locked db = (db', Ok response_))
    (Hchanged : domain_state db' <> domain_state db)
    (Hmember : objective_task_membership_current (domain_state db) !! t = Some m)
    (Hsuperseded : ms_objective_id m ∈ superseded_ids (RegroupProposalRepository.objective_changes (domain_state db) id))
    (Hlock : membership_lock (domain_state db) t = 1)
    (Hsteps : rtc authority_step db' db2) :
  stranded (domain_state db2) t m /\ ~ structure_ok (domain_state db2) /\
  (forall fresh2 clock2 audit2 ac2 command2 origin2 a2 probe2 db3, command_receipts probe2 !! command2 = None ->
     exists e, recompute_grouping_proposals fresh2 clock2 audit2 ac2 command2 origin2 None a2 probe2 db2 db3 = (db3, Raise e)) /\
  (waiting (domain_state db2) t -> _load_snapshot (domain_state db2) = no_objective /\
   forall fresh2 clock2 audit2 ac2 command2 id2 p2 revision2 fingerprint2 high2 a2 probe2 before2 planned2 locked2 db3,
     regroup_proposals (domain_state db2) !! id2 = Some p2 -> pr_proposal_kind p2 <> "manual_merge" ->
     command_receipts probe2 !! command2 = None ->
     exists e, accept_regroup_proposal fresh2 clock2 audit2 ac2 command2 id2 revision2 fingerprint2 high2 a2 probe2 db2
       before2 planned2 locked2 db3 = (db3, Raise e)).
Proof.
  assert (stranded (domain_state db2) t m) as Hs.
  { assert (stranded (domain_state db') t m) as Hs.
    { destruct (accept_outcome _ _ _ _ _ _ _ _ _ _ _ _ _ _ _ _ _ _ Hversion Hrun)
        as [E|(p & q & c & evs & acc & f & _ & Hc & Hq & Ha)]; [done|].
      apply accept_plan_of_ok in Hq as (_ & Eor & Ht & _). apply candidate_change_set in Hc as Hcs; [|done].
      eapply (locked_left_behind _ _ _ _ _ _ _ _ _ Hcs Ht); [by eapply accept_run|done| |done]. by rewrite Eor. }
    clear -Hsteps Hs. induction Hsteps; [done|]. by eauto using step_stranded. }
  split; [done|]. split; [by eapply stranded_broken|]. split.
  - intros. by eapply stranded_recompute.
  - intros Hw. split; [by eapply stranded_snapshot|]. intros. by eapply stranded_accept.
Qed.
End stranded.

Module History.
Import Sample RegroupSamples Accepted.
Definition distinct (d : ObjDb) (origin_ : string) : bool :=
  match _candidates d origin_ with
  | Ok cs => bool_decide (NoDup (map (fun c => match input_fingerprint c with Ok f => f | Raise _ => EmptyString end) cs))
  | Raise _ => false end.
Lemma distinct_ok d origin_ : distinct d origin_ = true -> no_collision d origin_.
Proof.
  unfold distinct. destruct (_candidates d origin_) as [cs|] eqn:E; [|discriminate].
  intros Hd%bool_decide_eq_true. by eapply no_collision_ok.
Qed.
Lemma before_plans : bool_decide (plans_ok (domain_state (before 0))) && distinct (domain_state (before 0)) "manual_request" = true.
Proof. vm_compute. reflexivity. Qed.
Lemma no_proposals : proposals_ok (domain_state (before 0)).
Proof. split; unfold pending; simpl; intros; destruct_and?; by rewrite lookup_empty in *. Qed.
Lemma sample_history : rtc regroup_step (before 0) (accepted 0).
Proof.
  destruct (proj1 (andb_true_iff _ _) before_plans) as [Hp Hc].
  apply (rtc_l _ _ (recomputed 0)).
  - unfold recomputed, recompute. destruct (recompute_grouping_proposals _ _ _ _ _ _ _ _ _ _ _) as [db r] eqn:E.
    refine (recompute_step _ _ _ _ _ _ _ _ _ _ _ _ _ _ _ E); [by apply bool_decide_eq_true in Hp|by apply distinct_ok].
  - destruct (accept_check_ok 0 true accepts) as (_ & _ & id & p & r & _ & _ & Hr).
    apply rtc_once. exact (accept_step _ _ _ _ _ _ _ _ _ _ _ _ _ _ _ _ _ _ Hr).
Qed.
Lemma proposals_history_witness :
  proposals_ok (domain_state (accepted 0)) /\ proposals_advance (domain_state (before 0)) (domain_state (accepted 0)).
Proof. exact (proposals_history (before 0) (accepted 0) sample_history no_proposals). Defined.

(** A locked member on the sample: task 6, in the first Objective. *)
Definition left_behind (d : ObjDb) (t : string) : bool :=
  match objective_task_membership_current d !! t, consolidation d with
  | Some m, Some (id, _) => bool_decide (ms_objective_id m ∈ superseded_ids (RegroupProposalRepository.objective_changes d id))
      && (membership_lock d t =? 1)
  | _, _ => false end.
Lemma left_behind_ok d t id p :
  left_behind d t = true -> consolidation d = Some (id, p) -> exists m, objective_task_membership_current d !! t = Some m /\
    ms_objective_id m ∈ superseded_ids (RegroupProposalRepository.objective_changes d id) /\ membership_lock d t = 1.
Proof.
  unfold left_behind. destruct (_ !! t) as [m|]; [|discriminate]. intros Hb E. rewrite E in Hb.
  apply andb_true_iff in Hb as [Hb Hl]. exists m. split; [reflexivity|]. split; [by apply bool_decide_eq_true in Hb|by apply Z.eqb_eq].
Qed.
Definition is_waiting (d : ObjDb) (t : string) : bool :=
  existsb (fun row => String.eqb (row_id row) t) (planned_tasks d)
  && negb (known (task_outcome_current d) t) && String.eqb (coalesced_state d t) "not_started"
  && negb (provider_final d t) && negb (bool_decide (t ∈ _competing_task_ids d)).
Lemma is_waiting_ok d t : is_waiting d t = true -> waiting d t.
Proof.
  unfold is_waiting, waiting. intros Hw. repeat (apply andb_true_iff in Hw as [Hw ?]). bool_hyps.
  split; [|split_and!; [by apply unknown_spec, negb_true_iff|done..]].
  apply existsb_exists in Hw as (row & Hin%list_elem_of_In & E). exists row. by bool_hyps.
Qed.
Lemma locked_sample : accept_check 1 false && changes_check 1 && left_behind (domain_state (recomputed 1)) (task_uid 6)
  && is_waiting (domain_state (accepted 1)) (task_uid 6) = true.
Proof. vm_compute. reflexivity. Qed.
Lemma locked_member_stranded_witness :
  ~ structure_ok (domain_state (accepted 1)) /\ _load_snapshot (domain_state (accepted 1)) = no_objective.
Proof.
  destruct (proj1 (andb_true_iff _ _) locked_sample) as [Hall Hw].
  destruct (proj1 (andb_true_iff _ _) Hall) as [Hall2 Hl]. destruct (proj1 (andb_true_iff _ _) Hall2) as [Hc Hch].
  destruct (accept_check_ok 1 false Hc) as (_ & Hp & id & p & r & Hi & _ & Hr).
  destruct (left_behind_ok _ _ id p Hl Hi) as (m & Hm & Hin & Hlock).
  destruct (locked_member_stranded (fresh 2) clock grouping_audit_registry (fun _ => 1000) (command_uid 2) id
    (pr_revision p) (pr_input_fingerprint p) false me (recomputed 1) (recomputed 1) 1 1 1 (recomputed 1) (accepted 1)
    (accepted 1) r (task_uid 6) m Hp (fun _ _ => eq_refl) Hr (changes_check_ok 1 Hch) Hm Hin Hlock (rtc_refl _ _))
    as (_ & Hs & _ & Hsnap).
  split; [exact Hs|]. exact (proj1 (Hsnap (is_waiting_ok _ _ Hw))).
Defined.
End History.
