(* ===== verification/RegroupLimits.v ===== *)
(** How large a regroup may get: the response of a recompute and the audit
    event of an acceptance bound them. *)
From S2P Require Import Prelude StrictJson Identifiers Grouping Jobs JobsExample AuditLedger Tables.
From S2P Require Import CommandBoundary CommandReplay CommandAudit CommandDomain ObjectiveTables Regroup.
From S2P Require Import RegroupSweep RegroupSound RegroupProps ObjectiveStore ObjectiveAggregate RegroupStore.
From S2P Require Import RegroupManual RegroupContracts RegroupCommands RegroupDecisions RegroupSamples.
From S2P Require Import ObjectiveAggregateProps RegroupLife RegroupAccept RegroupAccepted RegroupHistory.
Import RegroupProposalRepository.

Section limits.
Context `{Sha256, FloatText}.

(** * The response of a recompute *)
Lemma proposal_item_items id c f : json_items (proposal_item id c f) = 9.
Proof. reflexivity. Qed.
Lemma response_items mode job items :
  (forall i, i ∈ items -> json_items i = 9) ->
  json_items (_recompute_response mode job items) = 6 + 10 * Z.of_nat (length items).
Proof.
  intros Hall. assert (json_items (JArr items) = 10 * Z.of_nat (length items)) as E.
  { induction items as [|i items IH]; [done|]. specialize (IH ltac:(intros; apply Hall; by right)).
    simpl in *. rewrite (Hall i) by (by left). lia. }
  unfold _recompute_response. transitivity (6 + json_items (JArr items)); [|lia].
  destruct job; simpl; lia.
Qed.
Lemma encoded_items value r :
  _encode_response value "GroupingRecomputeResultV1" 1 = Ok r -> json_items value <= 512.
Proof.
  unfold _encode_response. intros (b & Hb & (e & He & _)%bind_ok)%bind_ok.
  assert (b = _DEFAULT_RESPONSE_BOUNDS) as -> by (by injection Hb as <-).
  unfold canonical_json_bytes_bounded in He. apply bind_ok in He as (c & _ & He). apply bind_ok in He as (u & _ & He).
  rewrite measure_stack_correct in He. apply bind_ok in He as (u1 & _ & He). apply bind_ok in He as (u2 & Hf%forbid_ok & _).
  apply Z.ltb_ge in Hf. exact Hf.
Qed.

(** Each published candidate is one new proposal. *)
Lemma publish_all_size fresh clock command material d d' u :
  each (fun icf : string * (RegroupCandidate * string) =>
    publish_candidate fresh clock icf.1 command icf.2.1 icf.2.2) material d = (d', Ok u) ->
  size (regroup_proposals d') = (length material + size (regroup_proposals d))%nat.
Proof.
  revert d. induction material as [|[i [c f]] material IH]; intros d; simpl; [by intros [= <- _]|].
  intros (d1 & v & (Hn & Hp & _)%publish_candidate_ok & H2)%stm_bind_ok. rewrite (IH d1 H2), Hp.
  rewrite map_size_insert_None by done. lia.
Qed.
Lemma with_ids_length fresh (material : list (RegroupCandidate * string)) : length (with_ids fresh material) = length material.
Proof. unfold with_ids, indexed. rewrite length_map. apply length_imap. Qed.
(** What a recompute prepares to answer: one item for each proposal it publishes. *)
Definition answers (fresh : site -> string) (clock : site -> Z) (command : string) (a : actor)
    (m : PreparedMutation ObjDb) (apply : regroupM (option (list AuditEventInput))) : Prop :=
  exists material, apply = apply_sync fresh clock command a (with_ids fresh material) /\
    response_factory m = Some (mret (_recompute_response "synchronous" None
      (map (fun icf => proposal_item icf.1 icf.2.1 icf.2.2) (with_ids fresh material)))) /\
    response_schema m = "GroupingRecomputeResultV1" /\ response_version m = 1.
Lemma prepare_sync_answers fresh clock command a db p db1 db2 m apply :
  prepare_sync fresh clock command a db p db1 = (db2, Ok m) -> apply_ m = Some apply -> answers fresh clock command a m apply.
Proof.
  unfold prepare_sync. intros (d1 & material & [-> Hm]%lift_ok & Hr)%stm_bind_ok.
  destruct (with_ids fresh material) as [|[i cf] rest] eqn:E; injection Hr as <- <-; [done|].
  intros [= <-]. exists material. rewrite E. done.
Qed.
Lemma prepare_recompute_answers fresh clock command origin_ a p db db' m apply :
  prepare_recompute fresh clock command origin_ a p db = (db', Ok m) -> apply_ m = Some apply ->
  answers fresh clock command a m apply \/ exists count, apply = apply_deferred fresh clock command origin_ count a.
Proof.
  unfold prepare_recompute. intros (d1 & d2 & [= <- <-] & Hr)%stm_bind_ok Ha.
  apply stm_bind_ok in Hr as (d1 & cnt & [-> _]%lift_ok & Hr).
  destruct (rp_workset_count p) as [w|]; [|left; by eapply prepare_sync_answers].
  destruct cnt as [n|]; [|left; by eapply prepare_sync_answers]. destruct (_ <? w).
  - apply stm_bind_ok in Hr as (d1 & u & [-> _]%lift_ok & [= <- <-]). injection Ha as <-. right. by exists n.
  - apply stm_bind_ok in Hr as (d1 & u & [-> _]%lift_ok & Hr). left. by eapply prepare_sync_answers.
Qed.
Lemma encoded_published fresh clock command a m apply :
  answers fresh clock command a m apply -> encoded m -> exists material,
    apply = apply_sync fresh clock command a (with_ids fresh material) /\ Z.of_nat (length material) <= 50.
Proof.
  intros (material & -> & Hf & Hs & Hv) (db & db' & value & Hr & r & He). exists material. split; [done|].
  unfold semantic_response in Hr. rewrite Hf in Hr. injection Hr as _ <-. rewrite Hs, Hv in He. apply encoded_items in He.
  rewrite response_items in He.
  - rewrite length_map, with_ids_length in He. lia.
  - intros i (x & -> & _)%list_elem_of_fmap. apply proposal_item_items.
Qed.

Definition proposal_count (db : LedgerDb ObjDb) : Z := Z.of_nat (size (regroup_proposals (domain_state db))).

(** C40.  A synchronous recompute publishes at most fifty proposals: its
    response must fit 512 collection items, six of its own and ten for each
    proposal.  With more than fifty publishable candidates, and a workset far
    below the 100,000 that defers to a durable job, the command fails, at every
    retry. *)
Theorem recompute_at_most_fifty (fresh : site -> string) (clock : site -> Z) (audit : AuditRegistry)
    (audit_clock : string -> Z) (command origin_ : string) (scope : option json) (a : actor)
    (probe snapshot db db' : LedgerDb ObjDb) (response_ : json)
    (Hrun : recompute_grouping_proposals fresh clock audit audit_clock command origin_ scope a probe snapshot db
       = (db', Ok response_)) :
  proposal_count db' <= proposal_count db + 50.
Proof.
  unfold proposal_count. unfold recompute_grouping_proposals in Hrun.
  apply stm_bind_ok in Hrun as (s1 & u & [-> _]%lift_ok & Hrun).
  apply stm_bind_ok in Hrun as (s1 & sc & [-> _]%lift_ok & Hrun). cbv zeta in Hrun.
  apply stm_bind_ok in Hrun as (s1 & r & [-> _]%lift_ok & Hrun).
  destruct r as [r|]; [injection Hrun as <- _; lia|].
  apply stm_bind_ok in Hrun as (s1 & p & [-> _]%lift_ok & Hrun).
  apply stm_bind_ok in Hrun as (s1 & x & Hx & [= <- _]).
  apply execute_encoded in Hx; [|by intros d d1 m (-> & Hm & _)%prepare_recompute_ok].
  destruct Hx as [->|(m & db1 & db2 & _ & Hm & _ & E1 & _ & (apply & events & Ea & Ha & _) & E2 & Henc)]; [lia|].
  rewrite E2. destruct (prepare_recompute_answers _ _ _ _ _ _ _ _ _ _ Hm Ea) as [Hans|(n & ->)].
  - destruct (encoded_published _ _ _ _ _ _ Hans Henc) as (material & -> & Hle).
    unfold apply_sync in Ha. apply stm_bind_ok in Ha as (d1 & u1 & (d2 & Hp & ->)%on_domain_ok & [= <- _]). simpl.
    rewrite (publish_all_size _ _ _ _ _ _ _ Hp), with_ids_length, E1. lia.
  - unfold apply_deferred in Ha. apply stm_bind_ok in Ha as (d1 & key & [-> _]%lift_ok & Ha).
    apply stm_bind_ok in Ha as (d2 & job & (d3 & [Hj _]%on_durable_frame & ->)%on_domain_ok & [= <- _]).
    simpl. rewrite Hj, E1. lia.
Qed.

(** * The audit event of an acceptance *)
Lemma apply_accept_events fresh clock accepting id revision fingerprint command p d d' events :
  apply_accept fresh clock accepting id revision fingerprint command p d = (d', Ok events) ->
  length events = length (changed_rows (ap_task_rows p)).
Proof.
  unfold apply_accept. cbv zeta. intros (d1 & u1 & _ & Hr)%stm_bind_ok.
  apply stm_bind_ok in Hr as (d2 & evs & _ & Hr).
  apply stm_bind_ok in Hr as (d3 & u3 & [-> Hl%forbid_ok]%lift_ok & Hr). bool_hyps.
  apply stm_bind_ok in Hr as (d3 & affected & _ & Hr). apply stm_bind_ok in Hr as (d4 & u4 & _ & Hr).
  apply stm_bind_ok in Hr as (d5 & u5 & _ & Hr). apply stm_bind_ok in Hr as (d6 & u6 & _ & Hr).
  by apply stm_bind_ok in Hr as (d7 & n & _ & [= _ <-]).
Qed.
Lemma accepted_refs audit fresh command id p fingerprint q events a text :
  audit_payload_text audit (accepted_event fresh command id p fingerprint q events a) = Ok text ->
  Z.of_nat (length events) <= 126.
Proof.
  unfold audit_payload_text. intros (c & _ & Hr)%bind_ok. apply bind_ok in Hr as (u & _ & Hr).
  apply bind_ok in Hr as (u1 & _ & Hr). apply bind_ok in Hr as (u2 & Hf%forbid_ok & _). apply Z.ltb_ge in Hf.
  change (max_result_refs _) with 128 in Hf. simpl in Hf. rewrite length_map in Hf. lia.
Qed.

Definition change_count (db : LedgerDb ObjDb) (id : string) : Z :=
  Z.of_nat (length (changed_rows (task_changes (domain_state db) id))).

(** An acceptance changes at most 126 memberships: its audit event
    names the proposal, the survivor and every membership event, and may carry
    128 references.  A proposal that changes more, and nothing bounds a
    proposal, can never be accepted. *)
Theorem accept_at_most_126 (fresh : site -> string) (clock : site -> Z) (audit : AuditRegistry)
    (audit_clock : string -> Z) (command id : string) (revision : Z) (fingerprint : string) (high : bool) (a : actor)
    (probe snapshot : LedgerDb ObjDb) (before planned locked : Z) (db db' : LedgerDb ObjDb) (response_ : json)
    (Hrun : accept_regroup_proposal fresh clock audit audit_clock command id revision fingerprint high a probe
       snapshot before planned locked db = (db', Ok response_))
    (Haccepted : domain_state db' <> domain_state db) :
  change_count db id <= 126.
Proof.
  unfold change_count. unfold accept_regroup_proposal in Hrun.
  apply stm_bind_ok in Hrun as (s1 & id' & [-> [-> _]%require_uuid4_ok]%lift_ok & Hrun).
  apply stm_bind_ok in Hrun as (s1 & u & [-> _]%lift_ok & Hrun).
  apply stm_bind_ok in Hrun as (s1 & f & [-> Hf]%lift_ok & Hrun). cbv zeta in Hrun.
  apply stm_bind_ok in Hrun as (s1 & r & [-> _]%lift_ok & Hrun).
  destruct r as [r|]; [injection Hrun as <- _; done|].
  apply stm_bind_ok in Hrun as (s1 & c & [-> _]%lift_ok & Hrun).
  apply stm_bind_ok in Hrun as (s1 & u1 & [-> _]%lift_ok & Hrun).
  apply stm_bind_ok in Hrun as (s1 & x & Hx & [= <- _]).
  apply execute_domain in Hx.
  2: { intros d d1 m (-> & _ & p & q & resp & _ & _ & ->)%prepare_accept_ok. split; [done|]. apply decided_simple. }
  destruct Hx as [E|(m & db1 & db2 & _ & Hm & _ & E1 & _ & Ha & E2)]; [done|].
  apply prepare_accept_ok in Hm as (_ & _ & p & q & resp & _ & Hq & ->).
  destruct Ha as (apply & events & [= <-] & Ha & Htext).
  apply stm_bind_ok in Ha as (d1 & d2 & [= <- <-] & Ha).
  apply stm_bind_ok in Ha as (d3 & evs & (d4 & Hacc & ->)%on_domain_ok & [= _ <-]).
  apply Forall_cons in Htext as [(text & Htext) _]. apply accepted_refs in Htext.
  apply accept_plan_of_ok in Hq as (<- & _). by rewrite <-(apply_accept_events _ _ _ _ _ _ _ _ _ _ _ Hacc).
Qed.
End limits.

(** * On the sample database *)
Module Limits.
Import Sample RegroupSamples Accepted.
Lemma recomputes : match (recompute (before 0)).2 with Ok _ => true | Raise _ => false end = true.
Proof. vm_compute. reflexivity. Qed.
Lemma recompute_at_most_fifty_witness :
  proposal_count (recomputed 0) <= proposal_count (before 0) + 50.
Proof.
  unfold recomputed. pose proof recomputes as Hok. destruct (recompute (before 0)) as [db [r|e]] eqn:E; [|discriminate].
  unfold recompute in E. cbn [fst]. exact (recompute_at_most_fifty (fresh 1) clock grouping_audit_registry (fun _ => 1000) (command_uid 1)
    "manual_request" None me (before 0) (before 0) (before 0) db r E).
Defined.
Lemma events_differ d d' : bool_decide (size (objective_membership_events d') =
  size (objective_membership_events d)) = false -> d' <> d.
Proof. intros Hd ->. by apply bool_decide_eq_false in Hd. Qed.
Lemma acceptance_changes : bool_decide (size (objective_membership_events (domain_state (accepted 0))) =
  size (objective_membership_events (domain_state (recomputed 0)))) = false.
Proof. vm_compute. reflexivity. Qed.
Lemma accept_at_most_126_witness : exists id p, consolidation (domain_state (recomputed 0)) = Some (id, p) /\
  change_count (recomputed 0) id <= 126.
Proof.
  destruct (accept_check_ok 0 true accepts) as (_ & _ & id & p & r & Hc & _ & Hr). exists id, p. split; [exact Hc|].
  exact (accept_at_most_126 (fresh 2) clock grouping_audit_registry (fun _ => 1000) (command_uid 2) id (pr_revision p)
    (pr_input_fingerprint p) false me (recomputed 0) (recomputed 0) 1 1 1 (recomputed 0) (accepted 0) r Hr
    (events_differ _ _ acceptance_changes)).
Defined.
End Limits.
