(* ===== verification/TaskFold.v ===== *)
(** The history of a task's execution is immutable; its current state is the
    fold of that history: [_fold_execution_history] of
    [objectives_tasks/services/task_execution.py].

    [reference_fold] says what the fold means: every base event counts with the
    instant its corrections leave it, the withdrawn ones not at all. *)
From S2P Require Import Prelude StrictJson Identifiers Grouping Jobs Tables ObjectiveTables Regroup.
From S2P Require Import ObjectiveStore ObjectiveAggregate ObjectiveAggregateProps.

Definition _TERMINAL_EVENT_KINDS : list string :=
  ["manual_cancel"; "rfc_terminal_terminate"; "source_terminal_consequence"].
Definition _GOVERNED_TERMINAL_EVENT_KINDS : list string := ["rfc_terminal_terminate"; "source_terminal_consequence"].
Definition _stored_time (value : option Z) (label : string) : result (option Z) :=
  _ ← integrity (match value with Some v => v <? 0 | None => false end) ("stored " +:+ label +:+ " is invalid");
  Ok value.
Definition _stored_uuid_opt (value : option string) (label : string) : result (option string) :=
  match value with None => Ok None | Some v => v ← _stored_uuid v label; Ok (Some v) end.

(** * Evidence *)
(** The identity of an item is its key in the dict of evidence. *)
Record _Evidence := MkEvidence {
  ev_event_kind : string; ev_effective_at_utc : option Z; ev_withdrawn : bool
}.
(** State, actual start, actual end, effective termination. *)
Definition folded : Type := string * option Z * option Z * option Z.
Definition history_row : Type := string * ExecutionEventRow.
Record fold_state := MkFold {
  fs_evidence : gmap string _Evidence; fs_ordered_base_ids : list string; fs_seen_event_ids : gset string
}.
Definition is_correction (r : history_row) : bool := String.eqb (ee_event_kind r.2) "correction".
Definition correct_evidence (target : _Evidence) (action : string) (effective_at : option Z) : result _Evidence :=
  if String.eqb action "replace_time" then
    _ ← integrity (negb (present_opt effective_at)) "replace-time execution correction has no replacement instant";
    Ok (MkEvidence (ev_event_kind target) effective_at (ev_withdrawn target))
  else
    _ ← integrity (present_opt effective_at) "withdraw execution correction unexpectedly carries effective time";
    Ok (MkEvidence (ev_event_kind target) (ev_effective_at_utc target) true).
Definition fold_row (s : fold_state) (row : history_row) : result fold_state :=
  let '(id, e) := row in
  event_id ← _stored_uuid id "Task execution event identity";
  _ ← integrity (bool_decide (event_id ∈ fs_seen_event_ids s))
    "Task execution history contains duplicate event identity";
  let seen := {[event_id]} ∪ fs_seen_event_ids s in
  effective_at ← _stored_time (ee_effective_at_utc e) "Task execution effective time";
  target_id ← _stored_uuid_opt (ee_target_event_id e) "Task execution correction target";
  if is_correction row then
    match target_id, ee_correction_action e with
    | Some target_id, Some action =>
        _ ← integrity (negb (set_token ["replace_time"; "withdraw"] action))
          "Task execution correction history is malformed";
        match fs_evidence s !! target_id with
        | None => raise (IntegrityFailure "Task execution correction targets missing or later evidence")
        | Some target =>
            _ ← integrity (ev_withdrawn target) "Task execution correction targets non-current-effective evidence";
            target ← correct_evidence target action effective_at;
            Ok (MkFold (<[target_id := target]> (fs_evidence s)) (fs_ordered_base_ids s) seen)
        end
    | _, _ => raise (IntegrityFailure "Task execution correction history is malformed")
    end
  else
    _ ← integrity (negb (set_token ("start" :: "end" :: _TERMINAL_EVENT_KINDS) (ee_event_kind e)))
      "Task execution history has unknown event kind";
    _ ← integrity (present_opt target_id || present_opt (ee_correction_action e))
      "non-correction execution event carries correction metadata";
    _ ← integrity (set_token ["start"; "end"] (ee_event_kind e) && negb (present_opt effective_at))
      "start/end execution evidence requires an effective instant";
    Ok (MkFold (<[event_id := MkEvidence (ee_event_kind e) effective_at false]> (fs_evidence s))
      (fs_ordered_base_ids s ++ [event_id]) seen).

(** ** The state the effective evidence gives *)
Definition apply_evidence (f : folded) (item : _Evidence) : result folded :=
  let '(state, actual_start, actual_end, termination) := f in
  if ev_withdrawn item then Ok f
  else if String.eqb (ev_event_kind item) "start" then
    match ev_effective_at_utc item with
    | Some t =>
        if String.eqb state "not_started" then Ok ("in_progress", Some t, None, None)
        else raise (IntegrityFailure "Task execution history contains an invalid effective start")
    | None => raise (IntegrityFailure "Task execution history contains an invalid effective start")
    end
  else if String.eqb (ev_event_kind item) "end" then
    match actual_start, ev_effective_at_utc item with
    | Some s, Some t =>
        _ ← integrity (negb (String.eqb state "in_progress"))
          "Task execution history contains an invalid effective end";
        _ ← integrity (t <? s) "Task execution end precedes accepted start";
        Ok ("ended", Some s, Some t, None)
    | _, _ => raise (IntegrityFailure "Task execution history contains an invalid effective end")
    end
  else
    _ ← integrity (String.eqb state "terminated")
      "Task execution history contains multiple effective terminal consequences";
    Ok ("terminated", actual_start, None, ev_effective_at_utc item).
Definition not_started : folded := ("not_started", None, None, None).
Definition empty_fold : fold_state := MkFold ∅ [] ∅.
Definition fold_effective (s : fold_state) : result folded :=
  foldM (fun f id => match fs_evidence s !! id with Some item => apply_evidence f item | None => Raise key_error end)
    not_started (fs_ordered_base_ids s).
Definition _fold_execution_history (rows : list history_row) : result folded :=
  s ← foldM fold_row empty_fold rows;
  fold_effective s.

#[local] Arguments set_token : simpl never.

(** * What the fold means *)
Definition targets (id : string) (r : history_row) : bool :=
  is_correction r && bool_decide (ee_target_event_id r.2 = Some id).
Definition withdraws (id : string) (r : history_row) : bool :=
  targets id r && bool_decide (ee_correction_action r.2 = Some "withdraw").
Definition correct_time (id : string) (t : option Z) (r : history_row) : option Z :=
  if targets id r && bool_decide (ee_correction_action r.2 = Some "replace_time")
  then ee_effective_at_utc r.2 else t.
Definition evidence_of (rows : list history_row) (r : history_row) : _Evidence :=
  MkEvidence (ee_event_kind r.2) (foldl (correct_time r.1) (ee_effective_at_utc r.2) rows)
    (existsb (withdraws r.1) rows).
Definition base_rows (rows : list history_row) : list history_row := filter (fun r => is_correction r = false) rows.
Definition reference_fold (rows : list history_row) : result folded :=
  foldM apply_evidence not_started (map (evidence_of rows) (base_rows rows)).
(** A row may follow the rows before it. *)
Record row_ok (pre : list history_row) (r : history_row) : Prop := {
  ro_uuid : is_uuid4 r.1 = true;
  ro_new : r.1 ∉ map fst pre;
  ro_time : forall t, ee_effective_at_utc r.2 = Some t -> 0 <= t;
  ro_target : forall t, ee_target_event_id r.2 = Some t -> is_uuid4 t = true;
  ro_kind : if is_correction r
    then exists id, ee_target_event_id r.2 = Some id /\ id ∈ map fst (base_rows pre) /\
      existsb (withdraws id) pre = false /\
      (ee_correction_action r.2 = Some "replace_time" /\ is_Some (ee_effective_at_utc r.2) \/
       ee_correction_action r.2 = Some "withdraw" /\ ee_effective_at_utc r.2 = None)
    else ee_event_kind r.2 ∈ "start" :: "end" :: _TERMINAL_EVENT_KINDS /\ ee_target_event_id r.2 = None /\
      ee_correction_action r.2 = None /\
      (ee_event_kind r.2 ∈ ["start"; "end"] -> is_Some (ee_effective_at_utc r.2))
}.
Definition history_ok (rows : list history_row) : Prop :=
  forall pre r post, rows = pre ++ r :: post -> row_ok pre r.

Lemma history_ok_snoc rows r : history_ok (rows ++ [r]) <-> history_ok rows /\ row_ok rows r.
Proof.
  split.
  - intros H. split; [|by apply (H rows r [])]. intros pre x post ->. apply (H pre x (post ++ [r])).
    by rewrite <-app_assoc.
  - intros [H Hr] pre x post E. destruct post as [|y post _] using rev_ind.
    + apply app_inj_tail in E as [-> ->]. done.
    + rewrite app_comm_cons, app_assoc in E. apply app_inj_tail in E as [E _]. by apply (H pre x post).
Qed.
Lemma history_ok_nil : history_ok [].
Proof. intros [|? ?] ? ? ?; discriminate. Qed.
Lemma base_rows_snoc rows r : base_rows (rows ++ [r]) = base_rows rows ++ (if is_correction r then [] else [r]).
Proof.
  unfold base_rows. rewrite filter_app. f_equal. rewrite filter_cons. by destruct (is_correction r).
Qed.
Lemma base_rows_fst rows id : id ∈ map fst (base_rows rows) -> id ∈ map fst rows.
Proof.
  intros (r & -> & Hr)%list_elem_of_fmap. apply list_elem_of_filter in Hr as [_ Hr]. by apply list_elem_of_fmap_2.
Qed.
Lemma not_targeted rows id :
  history_ok rows -> id ∉ map fst rows ->
  existsb (withdraws id) rows = false /\ forall t, foldl (correct_time id) t rows = t.
Proof.
  induction rows as [|r rows IH] using rev_ind; [done|]. intros [Hok Hr]%history_ok_snoc Hid.
  rewrite map_app in Hid. simpl in Hid. assert (id ∉ map fst rows) as Hid' by set_solver.
  destruct (IH Hok Hid') as [Hw Ht].
  assert (targets id r = false) as Hn.
  { unfold targets. destruct (is_correction r) eqn:E; [|done]. apply bool_decide_eq_false. intros Et.
    pose proof (ro_kind _ _ Hr) as Hk. rewrite E in Hk. destruct Hk as (t & Et' & Hin & _).
    rewrite Et in Et'. injection Et' as <-. by apply Hid', base_rows_fst. }
  split.
  - rewrite existsb_app, Hw. simpl. unfold withdraws. by rewrite Hn.
  - intros t. rewrite foldl_app, Ht. simpl. unfold correct_time. by rewrite Hn.
Qed.
Lemma evidence_of_snoc rows r x :
  evidence_of (rows ++ [r]) x =
  MkEvidence (ee_event_kind x.2) (correct_time x.1 (ev_effective_at_utc (evidence_of rows x)) r)
    (ev_withdrawn (evidence_of rows x) || withdraws x.1 r).
Proof. unfold evidence_of. rewrite foldl_app, existsb_app. simpl. by rewrite orb_false_r. Qed.

Lemma history_NoDup rows : history_ok rows -> NoDup (map fst rows).
Proof.
  induction rows as [|r rows IH] using rev_ind; [constructor|]. intros [Hok Hr]%history_ok_snoc.
  rewrite map_app. simpl. apply NoDup_app. split; [by apply IH|]. split; [|apply NoDup_singleton].
  intros x Hx ->%list_elem_of_singleton. by apply (ro_new _ _ Hr).
Qed.

(** * The fold computes its meaning *)
Record fold_inv (rows : list history_row) (s : fold_state) : Prop := {
  fi_ids : fs_ordered_base_ids s = map fst (base_rows rows);
  fi_seen : forall id, id ∈ fs_seen_event_ids s <-> id ∈ map fst rows;
  fi_base : forall r, r ∈ base_rows rows -> fs_evidence s !! r.1 = Some (evidence_of rows r);
  fi_none : forall id, id ∉ map fst (base_rows rows) -> fs_evidence s !! id = None
}.
Lemma stored_uuid_opt_ok v label v' :
  _stored_uuid_opt v label = Ok v' <-> v' = v /\ forall t, v = Some t -> is_uuid4 t = true.
Proof.
  unfold _stored_uuid_opt. destruct v as [v|]; [|naive_solver]. rewrite bind_ok. setoid_rewrite stored_uuid_ok. naive_solver.
Qed.
Lemma stored_time_ok v label v' :
  _stored_time v label = Ok v' <-> v' = v /\ forall t, v = Some t -> 0 <= t.
Proof.
  unfold _stored_time, integrity. rewrite bind_ok. setoid_rewrite forbid_ok. split.
  - intros (_ & Hv & [= <-]). split; [done|]. intros t ->. bool_hyps. lia.
  - intros [-> Hv]. exists tt. split; [|done]. destruct v as [t|]; [|done]. apply Z.ltb_ge. by apply Hv.
Qed.

Lemma fold_row_step rows s r s' :
  history_ok rows -> fold_inv rows s -> fold_row s r = Ok s' <-> row_ok rows r /\ fold_row s r = Ok s'.
Proof.
  intros Hok [Hi Hs Hb Hn]. split; [|tauto]. intros Hr. split; [|done]. unfold fold_row in Hr. destruct r as [id e].
  apply bind_ok in Hr as (? & [-> Hu]%stored_uuid_ok & Hr).
  apply bind_ok in Hr as (? & Hnew%integrity_ok & Hr). apply bool_decide_eq_false in Hnew. rewrite Hs in Hnew.
  apply bind_ok in Hr as (? & [-> Ht]%stored_time_ok & Hr).
  apply bind_ok in Hr as (? & [-> Htg]%stored_uuid_opt_ok & Hr).
  split; [done..|]. simpl. destruct (is_correction (id, e)).
  - destruct (ee_target_event_id e) as [t|]; [|done]. destruct (ee_correction_action e) as [a|]; [|done].
    apply bind_ok in Hr as (? & Ha%integrity_ok & Hr). bool_hyps. apply set_token_elem in Ha.
    destruct (fs_evidence s !! t) as [target|] eqn:Et; [|done].
    apply bind_ok in Hr as (? & Hw%integrity_ok & Hr). exists t. split; [done|].
    destruct (decide (t ∈ map fst (base_rows rows))) as [Hin|Hin]; [|rewrite Hn in Et by done; done].
    split; [done|]. apply list_elem_of_fmap in Hin as (b & -> & Hbr). rewrite (Hb b Hbr) in Et. injection Et as <-.
    split; [exact Hw|]. apply bind_ok in Hr as (target' & Hc & _). unfold correct_evidence in Hc.
    destruct (String.eqb_spec a "replace_time") as [->|Hne].
    + left. split; [done|]. apply bind_ok in Hc as (? & Hc%integrity_ok & _). destruct (ee_effective_at_utc e); [by eexists|done].
    + right. split; [|apply bind_ok in Hc as (? & Hc%integrity_ok & _); by destruct (ee_effective_at_utc e)].
      repeat (apply elem_of_cons in Ha as [->|Ha]; [done|]). by apply not_elem_of_nil in Ha.
  - apply bind_ok in Hr as (? & Hk%integrity_ok & Hr). bool_hyps. apply set_token_elem in Hk.
    apply bind_ok in Hr as (? & Hm%integrity_ok & Hr). bool_hyps.
    apply bind_ok in Hr as (? & Hse%integrity_ok & Hr). split; [done|].
    split; [by destruct (ee_target_event_id e)|]. split; [by destruct (ee_correction_action e)|].
    intros Hin%set_token_elem. rewrite Hin in Hse. simpl in Hse. destruct (ee_effective_at_utc e); [by eexists|done].
Qed.
Lemma fst_unique {A B} (l : list (A * B)) x y : NoDup (map fst l) -> x ∈ l -> y ∈ l -> x.1 = y.1 -> x = y.
Proof.
  induction l as [|z l IH]; [set_solver|]. simpl. intros [Hz Hl]%NoDup_cons.
  assert (forall w, w ∈ l -> w.1 <> z.1) as Hne by (intros w Hw E; apply Hz; rewrite <-E; by apply list_elem_of_fmap_2).
  intros [->|Hx]%elem_of_cons [->|Hy]%elem_of_cons E; [done|by destruct (Hne y)|by destruct (Hne x)|by apply IH].
Qed.
Lemma fold_inv_base rows s r e :
  fold_inv rows s -> history_ok rows -> row_ok rows r -> is_correction r = false ->
  e = MkEvidence (ee_event_kind r.2) (ee_effective_at_utc r.2) false ->
  fold_inv (rows ++ [r]) (MkFold (<[r.1 := e]> (fs_evidence s)) (fs_ordered_base_ids s ++ [r.1])
    ({[r.1]} ∪ fs_seen_event_ids s)).
Proof.
  intros [Hi Hs Hb Hn] Hok Hr E ->. pose proof (ro_new _ _ Hr) as Hnew.
  destruct (not_targeted rows r.1 Hok Hnew) as [Hw Ht]. split; simpl; rewrite ?base_rows_snoc, ?E.
  - by rewrite map_app, Hi.
  - intros id. rewrite map_app, elem_of_union, elem_of_singleton, elem_of_app, Hs. set_solver.
  - intros x [Hx|Hx]%elem_of_app; rewrite evidence_of_snoc; unfold correct_time, withdraws, targets; rewrite E; simpl.
    + rewrite orb_false_r, lookup_insert_ne; [by apply Hb|]. intros Heq. apply Hnew. rewrite Heq.
      apply base_rows_fst. by apply list_elem_of_fmap_2.
    + apply list_elem_of_singleton in Hx as ->. rewrite lookup_insert_eq. simpl. by rewrite Ht, Hw.
  - intros id. rewrite map_app, not_elem_of_app. intros [Hid Hne]. rewrite lookup_insert_ne by set_solver. by apply Hn.
Qed.
Lemma fold_inv_correction rows s r id b t :
  fold_inv rows s -> history_ok rows -> row_ok rows r -> is_correction r = true -> ee_target_event_id r.2 = Some id ->
  b ∈ base_rows rows -> b.1 = id -> t = evidence_of (rows ++ [r]) b ->
  fold_inv (rows ++ [r]) (MkFold (<[id := t]> (fs_evidence s)) (fs_ordered_base_ids s) ({[r.1]} ∪ fs_seen_event_ids s)).
Proof.
  intros [Hi Hs Hb Hn] Hok Hr E Et Hbr <- ->. split; simpl; rewrite ?base_rows_snoc, ?E, ?app_nil_r.
  - done.
  - intros i. rewrite map_app, elem_of_union, elem_of_singleton, elem_of_app, Hs. set_solver.
  - intros x Hx. destruct (decide (x.1 = b.1)) as [Heq|Hne].
    + replace x with b; [by rewrite lookup_insert_eq|]. symmetry.
      apply (fst_unique rows); [by apply history_NoDup|..|done]; by eapply list_elem_of_filter.
    + rewrite lookup_insert_ne by congruence. rewrite (Hb x Hx), evidence_of_snoc.
      assert (targets x.1 r = false) as Hx'.
      { unfold targets. rewrite E, Et. simpl. apply bool_decide_eq_false. congruence. }
      unfold correct_time, withdraws. rewrite Hx'. simpl. by rewrite orb_false_r.
  - intros i Hid. rewrite lookup_insert_ne; [by apply Hn|]. intros <-. apply Hid. by apply list_elem_of_fmap_2.
Qed.
Lemma fold_row_total rows s r :
  history_ok rows -> fold_inv rows s -> row_ok rows r -> exists s', fold_row s r = Ok s' /\ fold_inv (rows ++ [r]) s'.
Proof.
  intros Hok Hinv Hr. pose proof Hinv as [Hi Hs Hb Hn]. destruct r as [id e] eqn:Er. unfold fold_row.
  pose proof (ro_uuid _ _ Hr) as Hu. simpl in Hu.
  rewrite (proj2 (stored_uuid_ok _ _ id) (conj eq_refl Hu)). simpl.
  rewrite bool_decide_eq_false_2 by (rewrite Hs; apply (ro_new _ _ Hr)). simpl.
  rewrite (proj2 (stored_time_ok _ _ _) (conj eq_refl (ro_time _ _ Hr))). simpl.
  rewrite (proj2 (stored_uuid_opt_ok _ _ _) (conj eq_refl (ro_target _ _ Hr))). simpl.
  pose proof (ro_kind _ _ Hr) as Hk. destruct (is_correction (id, e)) eqn:E; simpl in Hk.
  - destruct Hk as (t & Et & Hin & Hw & Hk). apply list_elem_of_fmap in Hin as (b & -> & Hbr).
    assert (targets b.1 (id, e) = true) as Htg.
    { unfold targets. rewrite E. simpl. by rewrite Et, bool_decide_eq_true_2. }
    assert (forall k, k = evidence_of (rows ++ [(id, e)]) b ->
      fold_inv (rows ++ [(id, e)]) (MkFold (<[b.1 := k]> (fs_evidence s)) (fs_ordered_base_ids s) ({[id]} ∪ fs_seen_event_ids s))) as Hnext.
    { intros k Ek. by eapply (fold_inv_correction rows s (id, e) b.1 b k). }
    rewrite Et. destruct Hk as [[Ha [t' Ht']]|[Ha Ht']]; rewrite Ha; simpl; rewrite (Hb b Hbr); simpl;
      rewrite Hw; simpl; unfold correct_evidence; rewrite Ht'; simpl; (eexists; split; [done|]); apply Hnext;
      rewrite evidence_of_snoc; unfold correct_time, withdraws; rewrite Htg; simpl; rewrite Ha; simpl;
      [by rewrite Ht', orb_false_r|by rewrite orb_true_r].
  - destruct Hk as (Hkind & Et & Ha & Hse). rewrite (proj2 (set_token_elem _ _) Hkind). simpl. rewrite Et, Ha. simpl.
    destruct (set_token ["start"; "end"] (ee_event_kind e) && negb (present_opt (ee_effective_at_utc e))) eqn:Es.
    { bool_hyps. destruct Hse as [t Ht]; [by apply set_token_elem|]. by rewrite Ht in H0. }
    simpl. eexists. split; [done|]. by apply (fold_inv_base rows s (id, e)).
Qed.
Lemma fold_rows_exact rows :
  (forall s, foldM fold_row empty_fold rows = Ok s -> history_ok rows /\ fold_inv rows s) /\
  (history_ok rows -> exists s, foldM fold_row empty_fold rows = Ok s).
Proof.
  induction rows as [|r rows [IH1 IH2]] using rev_ind.
  { split; [|by eexists]. intros s [= <-]. split; [apply history_ok_nil|].
    split; simpl; [done|set_solver|set_solver|by intros; apply lookup_empty]. }
  setoid_rewrite foldM_app. split.
  - intros s (s1 & H1 & H2)%bind_ok. simpl in H2. apply bind_ok in H2 as (s2 & H2 & [= <-]).
    destruct (IH1 s1 H1) as [Hok Hinv]. apply (fold_row_step rows) in H2 as [Hr H2]; [|done..].
    destruct (fold_row_total rows s1 r) as (s' & Hs' & Hinv'); [done..|]. rewrite Hs' in H2. injection H2 as <-.
    split; [by apply history_ok_snoc|done].
  - intros [Hok Hr]%history_ok_snoc. destruct (IH2 Hok) as [s Hs]. rewrite Hs. simpl.
    destruct (IH1 s Hs) as [_ Hinv]. destruct (fold_row_total rows s r) as (s' & -> & _); [done..|]. by eexists.
Qed.
Lemma fold_effective_exact rows s : fold_inv rows s -> fold_effective s = reference_fold rows.
Proof.
  intros [Hi _ Hb _]. unfold fold_effective, reference_fold. rewrite Hi.
  assert (forall l f, l ⊆ base_rows rows ->
    foldM (fun f id => match fs_evidence s !! id with Some item => apply_evidence f item | None => Raise key_error end)
      f (map fst l) = foldM apply_evidence f (map (evidence_of rows) l)) as Hl; [|by apply Hl].
  intros l. induction l as [|r l IH]; intros f Hl; [done|]. simpl. rewrite (Hb r) by set_solver.
  destruct (apply_evidence f (evidence_of rows r)); [|done]. apply IH. set_solver.
Qed.
Lemma fold_history_ok rows f :
  _fold_execution_history rows = Ok f <-> history_ok rows /\ reference_fold rows = Ok f.
Proof.
  unfold _fold_execution_history. destruct (fold_rows_exact rows) as [H1 H2]. rewrite bind_ok. split.
  - intros (s & Hs & Hf). destruct (H1 s Hs) as [Hok Hinv]. by rewrite <-(fold_effective_exact rows s).
  - intros [Hok Hf]. destruct (H2 Hok) as [s Hs]. exists s. split; [done|]. destruct (H1 s Hs) as [_ Hinv].
    by rewrite (fold_effective_exact rows s).
Qed.

(** * One more row *)
Lemma base_row_fold rows r f :
  _fold_execution_history rows = Ok f -> row_ok rows r -> is_correction r = false ->
  _fold_execution_history (rows ++ [r]) = apply_evidence f (MkEvidence (ee_event_kind r.2) (ee_effective_at_utc r.2) false).
Proof.
  intros Hf Hr E. unfold _fold_execution_history in *. apply bind_ok in Hf as (s & Hs & Hf).
  destruct (fold_rows_exact rows) as [H1 _]. destruct (H1 s Hs) as [Hok Hinv].
  destruct (fold_row_total rows s r Hok Hinv Hr) as (s' & Hs' & Hinv'). rewrite foldM_app, Hs. simpl. rewrite Hs'. simpl.
  rewrite (fold_effective_exact _ _ Hinv'). unfold reference_fold. rewrite base_rows_snoc, E, map_app, foldM_app.
  rewrite (fold_effective_exact _ _ Hinv) in Hf. unfold reference_fold in Hf.
  assert (map (evidence_of (rows ++ [r])) (base_rows rows) = map (evidence_of rows) (base_rows rows)) as ->.
  { apply map_ext. intros x. rewrite evidence_of_snoc. unfold correct_time, withdraws, targets. rewrite E. simpl.
    by rewrite orb_false_r. }
  rewrite Hf. simpl. rewrite evidence_of_snoc. unfold correct_time, withdraws, targets. rewrite E. simpl.
  destruct (not_targeted rows r.1 Hok (ro_new _ _ Hr)) as [Hw Ht]. unfold evidence_of. simpl. rewrite Ht, Hw.
  by destruct (apply_evidence _ _).
Qed.

(** * The states a fold can give *)
Definition time_ok (t : option Z) : Prop := match t with Some t => 0 <= t | None => True end.
Definition well_shaped (f : folded) : Prop :=
  let '(state, start, end_, termination) := f in
  (time_ok start /\ time_ok end_ /\ time_ok termination) /\
  (state = "not_started" /\ start = None /\ end_ = None /\ termination = None \/
   state = "in_progress" /\ is_Some start /\ end_ = None /\ termination = None \/
   state = "ended" /\ (exists s e, start = Some s /\ end_ = Some e /\ s <= e) /\ termination = None \/
   state = "terminated" /\ end_ = None).
Lemma apply_evidence_shape f item f' :
  well_shaped f -> time_ok (ev_effective_at_utc item) -> apply_evidence f item = Ok f' -> well_shaped f'.
Proof.
  destruct f as [[[state start] end_] term]. unfold apply_evidence. intros Hw Ht Hr.
  pose proof Hw as [(Ts & Te & Tt) Hcases].
  destruct (ev_withdrawn item); [by injection Hr as <-|].
  destruct (ev_event_kind item =? "start")%string.
  - destruct (ev_effective_at_utc item) as [t|]; [|done]. destruct (state =? "not_started")%string; [|done].
    injection Hr as <-. split; [done|]. right. left. by repeat split; eexists.
  - destruct (ev_event_kind item =? "end")%string.
    + destruct start as [s|]; [|done]. destruct (ev_effective_at_utc item) as [t|]; [|done].
      apply bind_ok in Hr as (? & Hs & Hr). apply bind_ok in Hr as (? & Hl%integrity_ok & [= <-]). bool_hyps.
      split; [done|]. right. right. left. split; [done|]. split; [|done]. by exists s, t.
    + apply bind_ok in Hr as (? & _ & [= <-]). split; [done|]. by repeat right.
Qed.
Lemma correct_time_ok rows id t :
  Forall (fun r : history_row => time_ok (ee_effective_at_utc r.2)) rows -> time_ok t ->
  time_ok (foldl (correct_time id) t rows).
Proof.
  intros Hf. revert t. induction Hf as [|r rows Hr _ IH]; intros t Ht; [done|]. simpl. apply IH.
  unfold correct_time. by destruct (_ && _).
Qed.
Lemma history_times rows :
  history_ok rows -> Forall (fun r : history_row => time_ok (ee_effective_at_utc r.2)) rows.
Proof.
  induction rows as [|r rows IH] using rev_ind; [constructor|]. intros [Hok Hr]%history_ok_snoc.
  apply Forall_app. split; [by apply IH|]. constructor; [|constructor].
  pose proof (ro_time _ _ Hr) as Ht. destruct (ee_effective_at_utc r.2); [by apply Ht|done].
Qed.
Lemma fold_well_shaped rows f : _fold_execution_history rows = Ok f -> well_shaped f.
Proof.
  intros [Hok Hf]%fold_history_ok. unfold reference_fold in Hf. pose proof (history_times _ Hok) as Hts.
  refine (foldM_inv well_shaped _ _ _ _ _ _ Hf); [|by split; [|left]]. intros f1 item f2 Hw Hitem Hr.
  apply list_elem_of_fmap in Hitem as (r & -> & Hin). eapply apply_evidence_shape; [done| |done]. simpl.
  apply correct_time_ok; [done|]. rewrite Forall_forall in Hts. apply Hts. by apply list_elem_of_filter in Hin as [_ ?].
Qed.
(** The shape the aggregate of the Objective insists on. *)
Lemma well_shaped_valid state start end_ termination :
  well_shaped (state, start, end_, termination) -> _validate_execution_shape state start end_ termination = Ok tt.
Proof.
  intros [_ [(-> & -> & -> & ->)|[(-> & [s ->] & -> & ->)|[(-> & (s & e & -> & -> & Hse) & ->)|(-> & ->)]]]]; try done.
  unfold _validate_execution_shape. simpl. rewrite (proj2 (Z.ltb_ge e s)) by lia. done.
Qed.
(** C36.  The fold of an execution history accepts exactly the well-formed
    histories and computes its meaning: the base events in order, each with the
    instant of its last correction and without the withdrawn ones. *)
Theorem fold_execution_history_exact rows f :
  _fold_execution_history rows = Ok f <-> history_ok rows /\ reference_fold rows = Ok f.
Proof. apply fold_history_ok. Qed.
