(* ===== verification/TaskStore.v ===== *)
(** The statements of the task commands, with the constraints and triggers of
    [migrations/0006_objectives_tasks.sql], [TaskRepository] and the read of one
    current membership. *)
From S2P Require Import Prelude StrictJson Identifiers Grouping Jobs Tables ObjectiveTables Regroup.
From S2P Require Import ObjectiveStore ObjectiveAggregate TaskFold.

(** * The execution history: append only, numbered from one *)
Definition execution_rows (db : ObjDb) (t : string) : list history_row :=
  filter (fun kv : history_row => ee_task_id kv.2 = t) (map_to_list (task_execution_events db)).
(** [... WHERE task_id=? ORDER BY execution_revision]. *)
Definition history_rows (db : ObjDb) (t : string) : list history_row :=
  py_sorted (fun kv : history_row => ee_execution_revision kv.2) (execution_rows db t).
Definition max_execution_revision (db : ObjDb) (t : string) : Z :=
  default 0 (max_of (map (fun kv : history_row => ee_execution_revision kv.2) (execution_rows db t))).
(** With [task_execution_event_insert_guard]. *)
Definition insert_execution_event (id : string) (e : ExecutionEventRow) : objM unit :=
  statement (fun db => negb (known (task_execution_events db) id) && known (tasks db) (ee_task_id e)
      && (0 <? ee_execution_revision e)
      && set_token ["start"; "end"; "manual_cancel"; "rfc_terminal_terminate"; "source_terminal_consequence"; "correction"]
           (ee_event_kind e)
      && nonneg_opt (ee_effective_at_utc e)
      && known_opt (<[id := e]> (task_execution_events db)) (ee_target_event_id e)
      && token_opt ["replace_time"; "withdraw"] (ee_correction_action e) && (0 <=? ee_recorded_at_utc e)
      && (ee_execution_revision e =? max_execution_revision db (ee_task_id e) + 1))
    (fun db => set_execution_events (<[id := e]> (task_execution_events db)) db).

(** * The execution projection *)
(** [task_execution_projection_insert_guard] and [..._update_guard]. *)
Definition execution_bound (db : ObjDb) (t : string) (x : ExecutionRow) : bool :=
  match task_execution_events db !! ex_last_event_id x with
  | Some e => String.eqb (ee_task_id e) t && (ee_execution_revision e =? ex_revision x)
  | None => false
  end && (Z.of_nat (length (execution_rows db t)) =? ex_revision x).
Definition execution_row_ok (db : ObjDb) (t : string) (x : ExecutionRow) : bool :=
  set_token _EXECUTION_STATES (ex_execution_state x) && nonneg_opt (ex_actual_start_utc x)
  && nonneg_opt (ex_actual_end_utc x) && nonneg_opt (ex_effective_termination_utc x) && (0 <? ex_revision x)
  && execution_bound db t x.
Definition insert_execution (t : string) (x : ExecutionRow) : objM unit :=
  statement (fun db => negb (known (task_execution_projection db) t) && known (tasks db) t && execution_row_ok db t x)
    (fun db => set_executions (<[t := x]> (task_execution_projection db)) db).
(** [UPDATE ... SET ...,revision=revision+1 WHERE task_id=? AND revision=?],
    also [AND last_event_id=?] where given; [new] computes the new row. *)
Definition update_execution (t : string) (revision : Z) (last : option string) (new : ExecutionRow -> ExecutionRow)
    : objM Z := fun db =>
  match task_execution_projection db !! t with
  | Some x =>
      if (ex_revision x =? revision) && match last with None => true | Some l => String.eqb (ex_last_event_id x) l end then
        if (ex_revision (new x) =? ex_revision x + 1) && execution_row_ok db t (new x)
        then (set_executions (<[t := new x]> (task_execution_projection db)) db, Ok 1)
        else (db, Raise sql_violation)
      else (db, Ok 0)
  | None => (db, Ok 0)
  end.

(** * Outcomes *)
Definition insert_outcome_event (id : string) (e : OutcomeEventRow) : objM unit :=
  statement (fun db => negb (known (task_outcome_events db) id) && known (tasks db) (oe_task_id e)
      && set_token _OUTCOMES (oe_accepted_outcome e)
      && known_opt (<[id := e]> (task_outcome_events db)) (oe_correction_of_event_id e) && (0 <=? oe_reviewed_at_utc e))
    (fun db => set_outcome_events (<[id := e]> (task_outcome_events db)) db).
(** [task_outcome_current_insert_guard] and [..._update_guard]; the event is
    current for one task only. *)
Definition outcome_row_ok (db : ObjDb) (t : string) (o : OutcomeRow) : bool :=
  match task_outcome_events db !! ou_outcome_event_id o with
  | Some e => String.eqb (oe_task_id e) t && String.eqb (oe_accepted_outcome e) (ou_accepted_outcome o)
      && (oe_reviewed_at_utc e =? ou_reviewed_at_utc o)
  | None => false
  end
  && set_token _OUTCOMES (ou_accepted_outcome o) && (0 <=? ou_reviewed_at_utc o) && (0 <? ou_revision o)
  && forallb (fun kv : string * OutcomeRow => String.eqb kv.1 t
       || negb (String.eqb (ou_outcome_event_id kv.2) (ou_outcome_event_id o))) (map_to_list (task_outcome_current db)).
Definition insert_outcome (t : string) (o : OutcomeRow) : objM unit :=
  statement (fun db => negb (known (task_outcome_current db) t) && known (tasks db) t && outcome_row_ok db t o)
    (fun db => set_outcomes (<[t := o]> (task_outcome_current db)) db).
Definition update_outcome (t : string) (revision : Z) (event : string) (new : OutcomeRow -> OutcomeRow) : objM Z := fun db =>
  match task_outcome_current db !! t with
  | Some o =>
      if (ou_revision o =? revision) && String.eqb (ou_outcome_event_id o) event then
        if (ou_revision (new o) =? ou_revision o + 1) && negb (String.eqb (ou_outcome_event_id (new o)) (ou_outcome_event_id o))
           && outcome_row_ok db t (new o)
        then (set_outcomes (<[t := new o]> (task_outcome_current db)) db, Ok 1)
        else (db, Raise sql_violation)
      else (db, Ok 0)
  | None => (db, Ok 0)
  end.
(** The rows of one task's outcome history. *)
Definition outcome_rows (db : ObjDb) (t : string) : list (string * OutcomeEventRow) :=
  filter (fun kv : string * OutcomeEventRow => oe_task_id kv.2 = t) (map_to_list (task_outcome_events db)).

(** * Tasks *)
(** Of a task the commands read its revision only. *)
Definition task_get (db : ObjDb) (t : string) : option Z := tasks db !! t.
Definition increment_revision (t : string) (expected : Z) : objM unit :=
  db ← read_st;
  match tasks db !! t with
  | Some n =>
      if n =? expected then modify_st (set_tasks (<[t := n + 1]> (tasks db)))
      else lift (raise (IntegrityFailure "Task revision changed during guarded mutation"))
  | None => lift (raise (IntegrityFailure "Task revision changed during guarded mutation"))
  end.

(** * The Objective of a task *)
Definition current_membership_for_task (db : ObjDb) (t : string) : result (option MembershipRow) :=
  match objective_task_membership_current db !! t with
  | None => Ok None
  | Some m =>
      _ ← _stored_uuid t "Objective membership Task identity";
      _ ← _stored_uuid (ms_objective_id m) "Objective membership identity";
      _ ← _stored_uuid (ms_accepted_plan_revision_id m) "Objective membership plan identity";
      _ ← _positive (ms_membership_revision m) "Objective membership revision";
      _ ← _stored_uuid (ms_last_event_id m) "Objective membership event identity";
      match objective_membership_events db !! ms_last_event_id m with
      | Some e =>
          match me_to_objective_id e with
          | Some to =>
              task ← _stored_uuid (me_task_id e) "Objective membership event Task identity";
              _ ← integrity (negb (String.eqb task t)) "Objective membership current row disagrees with immutable history";
              to ← _stored_uuid to "Objective membership event Objective identity";
              _ ← integrity (negb (String.eqb to (ms_objective_id m)))
                "Objective membership current row disagrees with immutable history";
              plan ← _stored_uuid (me_accepted_plan_revision_id e) "Objective membership event plan identity";
              _ ← integrity (negb (String.eqb plan (ms_accepted_plan_revision_id m)))
                "Objective membership current row disagrees with immutable history";
              Ok (Some m)
          | None => raise (IntegrityFailure "Objective membership current row is not bound to immutable history")
          end
      | None => raise (IntegrityFailure "Objective membership current row is not bound to immutable history")
      end
  end.
Definition rebuild_objective_if_member `{Sha256, FloatText} (t command : string) : objM unit :=
  db ← read_st;
  membership ← lift (current_membership_for_task db t);
  match membership with
  | Some m => _ ← rebuild_aggregate (ms_objective_id m) command; mret tt
  | None => mret tt
  end.

(** * What a successful statement did *)
Lemma insert_execution_event_ok id e d d' u :
  insert_execution_event id e d = (d', Ok u) ->
  d' = set_execution_events (<[id := e]> (task_execution_events d)) d /\ task_execution_events d !! id = None /\
  is_Some (tasks d !! ee_task_id e) /\ ee_execution_revision e = max_execution_revision d (ee_task_id e) + 1 /\
  nonneg_opt (ee_effective_at_utc e) = true.
Proof.
  unfold insert_execution_event. intros [Hok ->]%statement_ok. rewrite !andb_true_iff in Hok.
  destruct Hok as [[[[[[[[H1%unknown_spec H2%known_spec] _] _] H3] _] _] _] H4]. bool_hyps. done.
Qed.
Lemma insert_execution_ok t x d d' u :
  insert_execution t x d = (d', Ok u) ->
  d' = set_executions (<[t := x]> (task_execution_projection d)) d /\ task_execution_projection d !! t = None.
Proof.
  unfold insert_execution. intros [Hok ->]%statement_ok. rewrite !andb_true_iff in Hok.
  by destruct Hok as [[H1%unknown_spec _] _].
Qed.
Lemma update_execution_ok t n last new d d' k :
  update_execution t n last new d = (d', Ok k) -> k = 1 ->
  exists x, task_execution_projection d !! t = Some x /\ ex_revision x = n /\
    d' = set_executions (<[t := new x]> (task_execution_projection d)) d.
Proof.
  unfold update_execution. destruct (_ !! t) as [x|]; [|by intros [= <- <-]].
  destruct ((ex_revision x =? n) && _) eqn:E; [|by intros [= <- <-]].
  destruct (_ && execution_row_ok d t (new x)); [|done]. intros [= <- _] _. bool_hyps. by exists x.
Qed.
Lemma insert_outcome_event_ok id e d d' u :
  insert_outcome_event id e d = (d', Ok u) ->
  d' = set_outcome_events (<[id := e]> (task_outcome_events d)) d /\ task_outcome_events d !! id = None.
Proof.
  unfold insert_outcome_event. intros [Hok ->]%statement_ok. rewrite !andb_true_iff in Hok.
  by destruct Hok as [[[[H1%unknown_spec _] _] _] _].
Qed.
Lemma insert_outcome_ok t o d d' u :
  insert_outcome t o d = (d', Ok u) ->
  d' = set_outcomes (<[t := o]> (task_outcome_current d)) d /\ task_outcome_current d !! t = None /\
  outcome_row_ok d t o = true.
Proof.
  unfold insert_outcome. intros [Hok ->]%statement_ok. rewrite !andb_true_iff in Hok.
  by destruct Hok as [[H1%unknown_spec _] ?].
Qed.
Lemma update_outcome_ok t n event new d d' k :
  update_outcome t n event new d = (d', Ok k) -> k = 1 ->
  exists o, task_outcome_current d !! t = Some o /\ ou_revision o = n /\ ou_outcome_event_id o = event /\
    outcome_row_ok d t (new o) = true /\ d' = set_outcomes (<[t := new o]> (task_outcome_current d)) d.
Proof.
  unfold update_outcome. destruct (_ !! t) as [o|]; [|by intros [= <- <-]].
  destruct ((ou_revision o =? n) && _) eqn:E; [|by intros [= <- <-]].
  destruct (_ && outcome_row_ok d t (new o)) eqn:E2; [|done]. intros [= <- _] _. bool_hyps. by exists o.
Qed.
Lemma increment_revision_ok t n d d' u :
  increment_revision t n d = (d', Ok u) -> tasks d !! t = Some n /\ d' = set_tasks (<[t := n + 1]> (tasks d)) d.
Proof.
  unfold increment_revision. intros (d1 & v & [= <- <-] & Hr)%stm_bind_ok.
  destruct (tasks d !! t) as [m|]; [|by apply lift_ok in Hr as [_ ?]].
  destruct (m =? n) eqn:E; [|by apply lift_ok in Hr as [_ ?]]. bool_hyps. subst m. by injection Hr as <-.
Qed.
