(* ===== verification/TaskAuthority.v ===== *)
(** The authority a task command stands on: [_execution_authority],
    [_has_terminal_outcome] and [_validate_objective_scope] of
    [objectives_tasks/services/task_execution.py].  A projection is trusted only
    while it is the fold of the immutable history. *)
From S2P Require Import Prelude StrictJson Identifiers Grouping Jobs Tables ObjectiveTables Regroup.
From S2P Require Import ObjectiveStore ObjectiveAggregate ObjectiveAggregateProps TaskFold TaskStore.

Record _ExecutionAuthority := MkAuthority {
  au_revision : Z;
  au_state : string;
  au_actual_start_utc : option Z;
  au_actual_end_utc : option Z;
  au_effective_termination_utc : option Z;
  au_last_event_id : option string;
  au_projection_exists : bool
}.
#[export] Instance _ExecutionAuthority_eq_dec : EqDecision _ExecutionAuthority.
Proof. solve_decision. Defined.
(** [for expected_revision, row in enumerate(rows, start=1)]. *)
Definition contiguous (rows : list history_row) : bool :=
  bool_decide (map (fun r : history_row => ee_execution_revision r.2) rows = seqZ 1 (Z.of_nat (length rows))).
Definition no_execution : _ExecutionAuthority := MkAuthority 0 "not_started" None None None None false.
Definition _execution_authority (db : ObjDb) (t : string) : result _ExecutionAuthority :=
  let rows := history_rows db t in
  match task_execution_projection db !! t with
  | None =>
      _ ← integrity (negb (bool_decide (rows = []))) "Task execution history exists without current projection";
      Ok no_execution
  | Some x =>
      match last rows with
      | None => raise (IntegrityFailure "Task execution projection exists without history")
      | Some final =>
          _ ← integrity (ex_revision x <=? 0) "Task execution projection revision is invalid";
          _ ← integrity (negb (Z.of_nat (length rows) =? ex_revision x))
            "Task execution projection revision does not equal immutable event count";
          _ ← integrity (negb (contiguous rows)) "Task execution history revision sequence is not contiguous";
          start ← _stored_time (ex_actual_start_utc x) "Task actual start";
          end_ ← _stored_time (ex_actual_end_utc x) "Task actual end";
          termination ← _stored_time (ex_effective_termination_utc x) "Task termination instant";
          last_event ← _stored_uuid (ex_last_event_id x) "Task execution projection last event";
          final_id ← _stored_uuid final.1 "Task execution final event identity";
          _ ← integrity (negb (String.eqb last_event final_id))
            "Task execution projection does not reference the final immutable revision event";
          folded_ ← _fold_execution_history rows;
          _ ← integrity (negb (bool_decide ((ex_execution_state x, start, end_, termination) = folded_)))
            "Task execution projection disagrees with folded immutable history";
          Ok (MkAuthority (ex_revision x) (ex_execution_state x) start end_ termination (Some last_event) true)
      end
  end.

Definition _has_terminal_outcome (db : ObjDb) (t : string) : result bool :=
  let history_count := Z.of_nat (length (outcome_rows db t)) in
  match task_outcome_current db !! t with
  | None =>
      _ ← integrity (negb (history_count =? 0)) "Task outcome history exists without current projection";
      Ok false
  | Some o =>
      _ ← _stored_uuid (ou_outcome_event_id o) "Task current outcome event identity";
      _ ← integrity (negb (set_token _OUTCOMES (ou_accepted_outcome o))) "Task current outcome token is invalid";
      _ ← integrity (ou_revision o <=? 0) "Task current outcome revision is invalid";
      _ ← integrity (negb (history_count =? ou_revision o))
        "Task outcome projection revision disagrees with immutable history";
      Ok true
  end.

Definition task_error (code_ m : string) : SomaError := MkSomaError code_ m false.
Definition _validate_objective_scope (db : ObjDb) (objective : string) (objective_revision envelope_revision : Z)
    : result unit :=
  match objectives db !! objective with
  | None => raise (task_error "OBJECTIVE_NOT_FOUND" "Objective does not exist")
  | Some o =>
      _ ← integrity (ob_revision o <=? 0) "Objective revision is invalid";
      _ ← forbid (negb (ob_revision o =? objective_revision) || present_opt (ob_superseded_by_objective_id o))
        (task_error "OBJECTIVE_STALE" "Objective revision/currentness changed");
      match objective_envelope_projection db !! objective with
      | None => raise (IntegrityFailure "current Objective is missing envelope projection")
      | Some e =>
          _ ← integrity (en_revision e <=? 0) "Objective envelope revision is invalid";
          forbid (negb (en_revision e =? envelope_revision))
            (task_error "OBJECTIVE_STALE" "Objective envelope revision changed")
      end
  end.

(** * The projection is the fold of the history *)
Definition authority_of (x : ExecutionRow) : _ExecutionAuthority :=
  MkAuthority (ex_revision x) (ex_execution_state x) (ex_actual_start_utc x) (ex_actual_end_utc x)
    (ex_effective_termination_utc x) (Some (ex_last_event_id x)) true.
Definition projection_of (x : ExecutionRow) : folded :=
  (ex_execution_state x, ex_actual_start_utc x, ex_actual_end_utc x, ex_effective_termination_utc x).
Definition revisions (rows : list history_row) : list Z := map (fun r : history_row => ee_execution_revision r.2) rows.
Record projects (rows : list history_row) (x : ExecutionRow) : Prop := {
  pj_revision : ex_revision x = Z.of_nat (length rows);
  pj_numbered : revisions rows = seqZ 1 (Z.of_nat (length rows));
  pj_last : fst <$> last rows = Some (ex_last_event_id x);
  pj_fold : _fold_execution_history rows = Ok (projection_of x)
}.
Lemma last_elem {A} (l : list A) x : last l = Some x -> x ∈ l.
Proof. intros (l' & ->)%last_Some. set_solver. Qed.
Lemma stored_time_id v label : time_ok v -> _stored_time v label = Ok v.
Proof. intros Hv. apply stored_time_ok. split; [done|]. by intros t ->. Qed.
Lemma stored_uuid_id v label : is_uuid4 v = true -> _stored_uuid v label = Ok v.
Proof. intros Hv. by apply stored_uuid_ok. Qed.
Lemma execution_authority_ok db t a :
  _execution_authority db t = Ok a <->
  match task_execution_projection db !! t with
  | None => history_rows db t = [] /\ a = no_execution
  | Some x => projects (history_rows db t) x /\ a = authority_of x
  end.
Proof.
  unfold _execution_authority. destruct (task_execution_projection db !! t) as [x|].
  - split.
    + destruct (last (history_rows db t)) as [[fid fe]|] eqn:El; [|done]. intros Hr.
      apply bind_ok in Hr as (? & Hp%integrity_ok & Hr). apply bind_ok in Hr as (? & Hc%integrity_ok & Hr).
      apply bind_ok in Hr as (? & Hn%integrity_ok & Hr).
      apply bind_ok in Hr as (? & [-> Hs]%stored_time_ok & Hr). apply bind_ok in Hr as (? & [-> He]%stored_time_ok & Hr).
      apply bind_ok in Hr as (? & [-> Ht]%stored_time_ok & Hr). apply bind_ok in Hr as (? & [-> Hl]%stored_uuid_ok & Hr).
      apply bind_ok in Hr as (? & [-> Hf]%stored_uuid_ok & Hr). apply bind_ok in Hr as (? & Hlast%integrity_ok & Hr).
      apply bind_ok in Hr as (f & Hfold & Hr). apply bind_ok in Hr as (? & Heq%integrity_ok & [= <-]).
      unfold contiguous in Hn. bool_hyps. simpl in *. subst. split; [|done].
      split; [lia|done|by rewrite El|done].
    + intros [[Hp Hn Hl Hf] ->]. destruct (last (history_rows db t)) as [[fid fe]|] eqn:El; [|done]. simpl in Hl.
      injection Hl as ->. assert (is_uuid4 (ex_last_event_id x) = true) as Hu.
      { pose proof Hf as [Hok _]%fold_history_ok. apply last_Some in El as (l & El). rewrite El in Hok.
        apply history_ok_snoc in Hok as [_ Hr]. exact (ro_uuid _ _ Hr). }
      pose proof (fold_well_shaped _ _ Hf) as [(Ts & Te & Tt) _].
      assert (history_rows db t <> []) as Hne by (intros E; by rewrite E in El).
      unfold contiguous. rewrite Hp. rewrite (proj2 (Z.leb_gt _ _)) by (destruct (history_rows db t); simpl in *; [done|lia]).
      rewrite Z.eqb_refl, bool_decide_eq_true_2 by exact Hn. simpl.
      rewrite !stored_time_id by done. simpl. rewrite !stored_uuid_id by done. simpl. rewrite String.eqb_refl, Hf. simpl.
      rewrite bool_decide_eq_true_2 by done. simpl. unfold authority_of. by rewrite Hp.
  - destruct (bool_decide_reflect (history_rows db t = [])) as [E|E]; simpl; naive_solver.
Qed.
Lemma has_terminal_outcome_ok db t b :
  _has_terminal_outcome db t = Ok b <->
  match task_outcome_current db !! t with
  | None => outcome_rows db t = [] /\ b = false
  | Some o => is_uuid4 (ou_outcome_event_id o) = true /\ ou_accepted_outcome o ∈ _OUTCOMES /\ 0 < ou_revision o /\
      ou_revision o = Z.of_nat (length (outcome_rows db t)) /\ b = true
  end.
Proof.
  unfold _has_terminal_outcome. destruct (task_outcome_current db !! t) as [o|].
  - rewrite bind_ok. setoid_rewrite stored_uuid_ok. split.
    + intros (? & [-> Hu] & Hr). apply bind_ok in Hr as (? & Ht%integrity_ok & Hr).
      apply bind_ok in Hr as (? & Hp%integrity_ok & Hr). apply bind_ok in Hr as (? & Hc%integrity_ok & [= <-]).
      bool_hyps. apply set_token_elem in Ht. done.
    + intros (Hu & Ht & Hp & Hc & ->). eexists. split; [by split|]. rewrite (proj2 (set_token_elem _ _) Ht). simpl.
      rewrite (proj2 (Z.leb_gt _ _) Hp). simpl. by rewrite Hc, Z.eqb_refl.
  - destruct (outcome_rows db t); simpl; naive_solver.
Qed.

(** * Appending to the history *)
Lemma py_sorted_snoc {A K} `{Ord K} (key : A -> K) l l' x :
  l' ≡ₚ x :: l -> (forall y, y ∈ l -> ltb (key y) (key x) = true) ->
  (forall y z, y ∈ l -> z ∈ l -> key y = key z -> y = z) -> py_sorted key l' = py_sorted key l ++ [x].
Proof.
  intros Hp Hlt Hinj. rewrite (py_sorted_canonical key l' (py_sorted key l ++ [x])).
  - apply py_sorted_id, StronglySorted_app_2; [|apply py_sorted_sorted|repeat constructor].
    intros y z Hy%elem_of_py_sorted ->%list_elem_of_singleton. unfold le_key. specialize (Hlt y Hy).
    unfold ltb, leb in *. by destruct (cmp (key y) (key x)).
  - assert (forall y, y ∈ l -> key y <> key x) as Hne.
    { intros y Hy E. specialize (Hlt y Hy). rewrite E in Hlt. unfold ltb in Hlt. by rewrite cmp_refl in Hlt. }
    intros y z. rewrite Hp, !elem_of_cons. intros [->|Hy] [->|Hz] E; [done|by destruct (Hne z)|by destruct (Hne y)|].
    by apply Hinj.
  - rewrite Hp, py_sorted_perm. by rewrite Permutation_app_comm.
Qed.
Lemma execution_rows_insert d d' id e t :
  task_execution_events d !! id = None -> task_execution_events d' = <[id := e]> (task_execution_events d) ->
  execution_rows d' t ≡ₚ if decide (ee_task_id e = t) then (id, e) :: execution_rows d t else execution_rows d t.
Proof.
  intros Hn E. unfold execution_rows. rewrite E, (map_to_list_insert _ _ _ Hn), filter_cons. simpl. by case_decide.
Qed.
Lemma revisions_NoDup rows n : revisions rows = seqZ 1 n -> NoDup (revisions rows).
Proof. intros ->. apply NoDup_seqZ. Qed.
Lemma revision_inj (l : list history_row) x y :
  NoDup (revisions l) -> x ∈ l -> y ∈ l -> ee_execution_revision x.2 = ee_execution_revision y.2 -> x = y.
Proof.
  intros Hnd Hx Hy E. apply (fst_unique (map (fun r : history_row => (ee_execution_revision r.2, r)) l)
    (_, x) (_, y)) in E as [=]; [done|..].
  - rewrite map_map. exact Hnd.
  - by apply (list_elem_of_fmap_2 (fun r : history_row => (ee_execution_revision r.2, r))).
  - by apply (list_elem_of_fmap_2 (fun r : history_row => (ee_execution_revision r.2, r))).
Qed.
(** A new event of a numbered history goes last. *)
Lemma history_rows_append d d' id e :
  task_execution_events d !! id = None -> task_execution_events d' = <[id := e]> (task_execution_events d) ->
  revisions (history_rows d (ee_task_id e)) = seqZ 1 (Z.of_nat (length (history_rows d (ee_task_id e)))) ->
  ee_execution_revision e = Z.of_nat (length (history_rows d (ee_task_id e))) + 1 ->
  history_rows d' (ee_task_id e) = history_rows d (ee_task_id e) ++ [(id, e)].
Proof.
  intros Hn E Hnum Hrev. unfold history_rows.
  assert (forall x, x ∈ execution_rows d (ee_task_id e) <-> x ∈ history_rows d (ee_task_id e)) as Hel.
  { intros x. symmetry. apply elem_of_py_sorted. }
  apply py_sorted_snoc.
  - rewrite (execution_rows_insert d d' id e) by done. by rewrite decide_True.
  - intros y Hy%Hel. assert (ee_execution_revision y.2 ∈ seqZ 1 (Z.of_nat (length (history_rows d (ee_task_id e))))) as Hin.
    { rewrite <-Hnum. by apply (list_elem_of_fmap_2 (fun r : history_row => ee_execution_revision r.2)). }
    apply elem_of_seqZ in Hin. unfold ltb, cmp. simpl. rewrite (proj2 (Z.compare_lt_iff _ _)); [done|lia].
  - intros y z Hy%Hel Hz%Hel. apply (revision_inj (history_rows d (ee_task_id e))); [|done..]. by eapply revisions_NoDup.
Qed.
Lemma history_rows_other d d' id e t :
  task_execution_events d !! id = None -> task_execution_events d' = <[id := e]> (task_execution_events d) ->
  NoDup (revisions (history_rows d t)) -> ee_task_id e <> t -> history_rows d' t = history_rows d t.
Proof.
  intros Hn E Hnd Ht. unfold history_rows. symmetry. apply py_sorted_canonical.
  - intros x y Hx Hy. apply (revision_inj (history_rows d t)); [done|by apply elem_of_py_sorted..].
  - rewrite (execution_rows_insert d d' id e) by done. by rewrite decide_False.
Qed.

(** ** What an appended event does to the authorities *)
Lemma authority_frame d d' t :
  history_rows d' t = history_rows d t -> task_execution_projection d' !! t = task_execution_projection d !! t ->
  _execution_authority d' t = _execution_authority d t.
Proof. unfold _execution_authority. by intros -> ->. Qed.
Lemma authority_numbered d t a :
  _execution_authority d t = Ok a ->
  revisions (history_rows d t) = seqZ 1 (Z.of_nat (length (history_rows d t))) /\
  au_revision a = Z.of_nat (length (history_rows d t)).
Proof.
  intros Ha%execution_authority_ok. destruct (task_execution_projection d !! t) as [x|].
  - destruct Ha as [[Hp Hn _ _] ->]. by split.
  - by destruct Ha as [-> ->].
Qed.
Definition folded_of (a : _ExecutionAuthority) : folded :=
  (au_state a, au_actual_start_utc a, au_actual_end_utc a, au_effective_termination_utc a).
Lemma authority_fold d t a :
  _execution_authority d t = Ok a -> _fold_execution_history (history_rows d t) = Ok (folded_of a).
Proof.
  intros Ha%execution_authority_ok. destruct (task_execution_projection d !! t) as [x|].
  - by destruct Ha as [[_ _ _ Hf] ->].
  - by destruct Ha as [-> ->].
Qed.
Lemma append_authority d d' t a id e x :
  _execution_authority d t = Ok a -> task_execution_events d !! id = None -> ee_task_id e = t ->
  ee_execution_revision e = au_revision a + 1 ->
  task_execution_events d' = <[id := e]> (task_execution_events d) ->
  task_execution_projection d' !! t = Some x -> ex_revision x = au_revision a + 1 -> ex_last_event_id x = id ->
  _fold_execution_history (history_rows d t ++ [(id, e)]) = Ok (projection_of x) ->
  _execution_authority d' t = Ok (authority_of x) /\ history_rows d' t = history_rows d t ++ [(id, e)].
Proof.
  intros Ha Hn <- Hrev E Hx Hxr Hl Hf. destruct (authority_numbered _ _ _ Ha) as [Hnum Hcount].
  assert (history_rows d' (ee_task_id e) = history_rows d (ee_task_id e) ++ [(id, e)]) as Hrows.
  { apply history_rows_append; [done..|lia]. }
  split; [|done]. apply execution_authority_ok. rewrite Hx. split; [|done]. rewrite Hrows. split.
  - rewrite length_app. simpl. lia.
  - unfold revisions in *. rewrite map_app, Hnum, length_app. simpl.
    rewrite Nat2Z.inj_add, seqZ_app by lia. by rewrite Hrev, Hcount, Z.add_comm.
  - rewrite last_snoc. simpl. by rewrite Hl.
  - exact Hf.
Qed.
Lemma append_authority_other d d' t a id e :
  _execution_authority d t = Ok a -> task_execution_events d !! id = None -> ee_task_id e <> t ->
  task_execution_events d' = <[id := e]> (task_execution_events d) ->
  task_execution_projection d' !! t = task_execution_projection d !! t ->
  _execution_authority d' t = Ok a /\ history_rows d' t = history_rows d t.
Proof.
  intros Ha Hn Ht E Hx. destruct (authority_numbered _ _ _ Ha) as [Hnum _].
  assert (history_rows d' t = history_rows d t) as Hrows.
  { eapply history_rows_other; [done..| |done]. by eapply revisions_NoDup. }
  split; [|done]. rewrite <-Ha. by apply authority_frame.
Qed.
