(* ===== verification/TaskPreviews.v ===== *)
(** The exact previews a reviewer confirms: [objectives_tasks/queries/
    execution_review.py].  The queries read the same tables as the commands with
    their own copy of the history checks. *)
From S2P Require Import Prelude StrictJson Identifiers Grouping Jobs AuditLedger Tables ObjectiveTables Regroup.
From S2P Require Import ObjectiveStore ObjectiveAggregate RegroupStore RegroupManual RegroupContracts TaskFold.
From S2P Require Import TaskStore TaskAuthority.

Module Review.
Definition _BASE_EVENT_KINDS : list string :=
  ["start"; "end"; "manual_cancel"; "rfc_terminal_terminate"; "source_terminal_consequence"].
Definition _GOVERNED_TERMINAL_KINDS : list string := ["rfc_terminal_terminate"; "source_terminal_consequence"].

Record _ExecutionEvent := MkEvent {
  xe_event_id : string;
  xe_revision : Z;
  xe_event_kind : string;
  xe_original_effective_at_utc : option Z;
  xe_target_event_id : option string;
  xe_correction_action : option string;
  xe_reason_code : option string;
  xe_recorded_at_utc : Z;
  xe_command_id : string
}.
Record _ExecutionAuthority := MkReviewAuthority {
  ra_revision : Z;
  ra_state : string;
  ra_actual_start_utc : option Z;
  ra_actual_end_utc : option Z;
  ra_effective_termination_utc : option Z;
  ra_termination_reason : option string;
  ra_last_event_id : option string;
  ra_events : list _ExecutionEvent
}.
Record _EffectiveEvidence := MkEffective {
  ef_event_id : string;
  ef_revision : Z;
  ef_event_kind : string;
  ef_original_effective_at_utc : option Z;
  ef_current_effective_at_utc : option Z;
  ef_withdrawn : bool
}.
Record _OutcomeAuthority := MkOutcomeAuthority {
  oa_revision : Z;
  oa_event_id : option string;
  oa_accepted_outcome : option string;
  oa_reason_category : option string;
  oa_reviewed_at_utc : option Z;
  oa_last_command_id : option string
}.

(** * Inputs *)
Definition _normalize_reason (value : option string) (required : bool) : result (option string) :=
  match value with
  | None => _ ← forbid required (ValidationError "reason_category is required"); Ok None
  | Some s =>
      _ ← forbid (negb (utf8_encodable s)) (ValidationError "reason_category must be valid Unicode");
      _ ← forbid (negb (bounded_line s)) (ValidationError "reason_category violates its bounded one-line contract");
      Ok (Some s)
  end.
Definition _require_positive_revision (value : Z) (label : string) : result Z :=
  _ ← forbid (value <=? 0) (ValidationError (label +:+ " must be a positive integer")); Ok value.

(** * The execution history *)
Definition load_event (nr : Z * history_row) : result _ExecutionEvent :=
  let '(expected, (id, e)) := nr in
  _ ← integrity (negb (ee_execution_revision e =? expected)) "Task execution history revision sequence is not contiguous";
  _ ← integrity (negb (set_token ("correction" :: _BASE_EVENT_KINDS) (ee_event_kind e)))
    "Task execution history contains an invalid event kind";
  target ← _stored_uuid_opt (ee_target_event_id e) "Task execution correction target identity";
  _ ← (if String.eqb (ee_event_kind e) "correction" then
      integrity (negb (present_opt target) || negb (match ee_correction_action e with
        | Some a => set_token ["replace_time"; "withdraw"] a | None => false end))
        "Task execution correction history is malformed"
    else integrity (present_opt target || present_opt (ee_correction_action e))
      "Task execution base event carries correction metadata");
  _ ← integrity (ee_recorded_at_utc e <? 0) "Task execution recorded_at_utc is invalid";
  id ← _stored_uuid id "Task execution event identity";
  effective_at ← _stored_time (ee_effective_at_utc e) "Task execution effective_at_utc";
  command ← _stored_uuid (ee_command_id e) "Task execution command identity";
  Ok (MkEvent id (ee_execution_revision e) (ee_event_kind e) effective_at target (ee_correction_action e)
    (ee_reason_code e) (ee_recorded_at_utc e) command).
Definition numbered {A} (l : list A) : list (Z * A) := imap (fun n a => (Z.of_nat n + 1, a)) l.

Record effective_state := MkEffectiveState {
  es_evidence : gmap string _EffectiveEvidence; es_ordered_base_ids : list string; es_seen_event_ids : gset string
}.
Definition effective_event (s : effective_state) (ev : _ExecutionEvent) : result effective_state :=
  let id := xe_event_id ev in
  _ ← integrity (bool_decide (id ∈ es_seen_event_ids s)) "Task execution history contains duplicate event identity";
  let seen := {[id]} ∪ es_seen_event_ids s in
  if String.eqb (xe_event_kind ev) "correction" then
    match xe_target_event_id ev with
    | None => Raise (PyExn "AssertionError")
    | Some target_id =>
        match es_evidence s !! target_id with
        | None => raise (IntegrityFailure "Task execution correction targets missing or later evidence")
        | Some target =>
            _ ← integrity (ef_withdrawn target) "Task execution correction targets non-current-effective evidence";
            let replaced current withdrawn := Ok (MkEffectiveState (<[target_id := MkEffective (ef_event_id target)
              (ef_revision target) (ef_event_kind target) (ef_original_effective_at_utc target) current withdrawn]>
              (es_evidence s)) (es_ordered_base_ids s) seen) in
            if bool_decide (xe_correction_action ev = Some "replace_time") then
              _ ← integrity (negb (present_opt (xe_original_effective_at_utc ev)))
                "replace-time execution correction has no replacement instant";
              replaced (xe_original_effective_at_utc ev) false
            else if bool_decide (xe_correction_action ev = Some "withdraw") then
              _ ← integrity (present_opt (xe_original_effective_at_utc ev))
                "withdraw execution correction unexpectedly carries effective time";
              replaced (ef_current_effective_at_utc target) true
            else raise (IntegrityFailure "Task execution correction action is invalid")
        end
    end
  else
    _ ← integrity (set_token ["start"; "end"] (xe_event_kind ev) && negb (present_opt (xe_original_effective_at_utc ev)))
      "Task execution start/end evidence requires an effective instant";
    Ok (MkEffectiveState (<[id := MkEffective id (xe_revision ev) (xe_event_kind ev) (xe_original_effective_at_utc ev)
        (xe_original_effective_at_utc ev) false]> (es_evidence s)) (es_ordered_base_ids s ++ [id]) seen).
Definition apply_effective (f : folded) (item : _EffectiveEvidence) : result folded :=
  let '(state, actual_start, actual_end, termination) := f in
  if ef_withdrawn item then Ok f
  else if String.eqb (ef_event_kind item) "start" then
    match ef_current_effective_at_utc item with
    | Some t =>
        if String.eqb state "not_started" then Ok ("in_progress", Some t, None, None)
        else raise (IntegrityFailure "Task execution history contains an invalid effective start")
    | None => raise (IntegrityFailure "Task execution history contains an invalid effective start")
    end
  else if String.eqb (ef_event_kind item) "end" then
    match actual_start, ef_current_effective_at_utc item with
    | Some s, Some t =>
        _ ← integrity (negb (String.eqb state "in_progress"))
          "Task execution history contains an invalid effective end";
        _ ← integrity (t <? s) "Task execution end precedes accepted start";
        Ok ("ended", Some s, Some t, None)
    | _, _ => raise (IntegrityFailure "Task execution history contains an invalid effective end")
    end
  else
    _ ← integrity (String.eqb state "terminated")
      "Task execution history contains multiple effective terminal consequences";
    Ok ("terminated", actual_start, None, ef_current_effective_at_utc item).
Definition empty_effective : effective_state := MkEffectiveState ∅ [] ∅.
Definition _fold_execution (events : list _ExecutionEvent) : result (folded * gmap string _EffectiveEvidence) :=
  s ← foldM effective_event empty_effective events;
  f ← foldM (fun f id => match es_evidence s !! id with
      | Some item => apply_effective f item | None => Raise key_error end) not_started (es_ordered_base_ids s);
  Ok (f, es_evidence s).
Definition no_execution : _ExecutionAuthority := MkReviewAuthority 0 "not_started" None None None None None [].
Definition _load_execution_authority (db : ObjDb) (t : string) : result _ExecutionAuthority :=
  events ← traverse load_event (numbered (history_rows db t));
  match task_execution_projection db !! t with
  | None =>
      _ ← integrity (negb (bool_decide (length events = 0%nat))) "Task execution history exists without current projection";
      Ok no_execution
  | Some x =>
      _ ← integrity ((ex_revision x <=? 0) || negb (ex_revision x =? Z.of_nat (length events)))
        "Task execution projection revision does not equal immutable event count";
      match last events with
      | None => raise (IntegrityFailure "Task execution projection exists without immutable history")
      | Some final =>
          _ ← integrity (negb (set_token _EXECUTION_STATES (ex_execution_state x)))
            "Task execution projection state is invalid";
          last_event ← _stored_uuid (ex_last_event_id x) "Task execution projection last event";
          _ ← integrity (negb (String.eqb last_event (xe_event_id final)))
            "Task execution projection does not reference the final immutable revision event";
          folded_ ← _fold_execution events;
          start ← _stored_time (ex_actual_start_utc x) "Task actual start";
          end_ ← _stored_time (ex_actual_end_utc x) "Task actual end";
          termination ← _stored_time (ex_effective_termination_utc x) "Task termination instant";
          _ ← integrity (negb (bool_decide ((ex_execution_state x, start, end_, termination) = folded_.1)))
            "Task execution projection disagrees with folded immutable history";
          Ok (MkReviewAuthority (ex_revision x) (ex_execution_state x) start end_ termination (ex_termination_reason x)
            (Some last_event) events)
      end
  end.

(** * The outcome history: a chain of corrections *)
Record outcome_state := MkOutcomeState {
  os_events : gmap string OutcomeEventRow; os_child_of : gmap string string; os_genesis : list string
}.
Definition load_outcome_event (s : outcome_state) (row : string * OutcomeEventRow) : result outcome_state :=
  let '(id, e) := row in
  id ← _stored_uuid id "Task outcome event identity";
  _ ← integrity (negb (set_token _OUTCOMES (oe_accepted_outcome e)))
    "Task outcome history contains an invalid outcome token";
  predecessor ← _stored_uuid_opt (oe_correction_of_event_id e) "Task outcome predecessor identity";
  _ ← integrity (oe_reviewed_at_utc e <? 0) "Task outcome history contains an invalid reviewed_at_utc";
  _ ← _stored_uuid (oe_command_id e) "Task outcome command identity";
  _ ← integrity (known (os_events s) id) "Task outcome history contains duplicate event identity";
  let events := <[id := e]> (os_events s) in
  match predecessor with
  | None => Ok (MkOutcomeState events (os_child_of s) (os_genesis s ++ [id]))
  | Some p =>
      _ ← integrity (known (os_child_of s) p) "Task outcome history branches from a prior event";
      Ok (MkOutcomeState events (<[p := id]> (os_child_of s)) (os_genesis s))
  end.
(** [while True]: every turn visits a new event. *)
Fixpoint walk_chain (fuel : nat) (s : outcome_state) (visited : gset string) (cursor : string)
    : result (gset string * string) :=
  match fuel with
  | O => out_of_fuel
  | S fuel =>
      _ ← integrity (bool_decide (cursor ∈ visited) || negb (known (os_events s) cursor))
        "Task outcome history correction chain is invalid";
      let visited := {[cursor]} ∪ visited in
      match os_child_of s !! cursor with
      | None => Ok (visited, cursor)
      | Some next_event => walk_chain fuel s visited next_event
      end
  end.
Definition no_outcome : _OutcomeAuthority := MkOutcomeAuthority 0 None None None None None.
Definition _load_outcome_authority (db : ObjDb) (t : string) : result _OutcomeAuthority :=
  let rows := outcome_rows db t in
  match task_outcome_current db !! t with
  | None =>
      _ ← integrity (negb (bool_decide (rows = []))) "Task outcome history exists without current projection";
      Ok no_outcome
  | Some o =>
      _ ← integrity (bool_decide (length rows = 0%nat)) "Task outcome current projection exists without immutable history";
      _ ← integrity ((ou_revision o <=? 0) || negb (ou_revision o =? Z.of_nat (length rows)))
        "Task outcome current revision does not equal immutable chain length";
      current ← _stored_uuid (ou_outcome_event_id o) "Task outcome current event identity";
      _ ← integrity (negb (set_token _OUTCOMES (ou_accepted_outcome o))) "Task outcome current token is invalid";
      _ ← integrity (ou_reviewed_at_utc o <? 0) "Task outcome current reviewed_at_utc is invalid";
      command ← _stored_uuid (ou_last_command_id o) "Task outcome current command identity";
      s ← foldM load_outcome_event (MkOutcomeState ∅ ∅ []) rows;
      match os_genesis s with
      | [genesis] =>
          '(visited, tip) ← walk_chain (S (size (os_events s))) s ∅ genesis;
          _ ← integrity (negb (Nat.eqb (size visited) (size (os_events s))) || negb (String.eqb tip current))
            "Task outcome current event is not the unique immutable chain tip";
          match os_events s !! current with
          | None => Raise key_error
          | Some e =>
              _ ← integrity (negb (String.eqb (oe_accepted_outcome e) (ou_accepted_outcome o))
                  || negb (oe_reviewed_at_utc e =? ou_reviewed_at_utc o) || negb (String.eqb (oe_command_id e) command))
                "Task outcome current projection disagrees with immutable chain tip";
              Ok (MkOutcomeAuthority (ou_revision o) (Some current) (Some (ou_accepted_outcome o)) (oe_reason_code e)
                (Some (ou_reviewed_at_utc o)) (Some command))
          end
      | _ => raise (IntegrityFailure "Task outcome history must contain exactly one genesis event")
      end
  end.
Definition _outcome_is_valid (outcome state : string) (start end_ : option Z) : bool :=
  if String.eqb outcome "completed" then String.eqb state "ended" && present_opt start && present_opt end_
  else if String.eqb outcome "incomplete" then set_token ["ended"; "terminated"] state && present_opt start
  else String.eqb state "terminated" && negb (present_opt start).

(** * Fingerprinted values *)
Definition _execution_object (a : _ExecutionAuthority) : json := JObj [
  ("revision", JInt (ra_revision a)); ("state", JStr (ra_state a));
  ("actual_start_utc", jopt JInt (ra_actual_start_utc a)); ("actual_end_utc", jopt JInt (ra_actual_end_utc a));
  ("effective_termination_utc", jopt JInt (ra_effective_termination_utc a));
  ("last_event_id", jopt JStr (ra_last_event_id a))].
Definition _outcome_object (a : _OutcomeAuthority) : json :=
  if oa_revision a =? 0 then JNull else JObj [
    ("revision", JInt (oa_revision a)); ("event_id", jopt JStr (oa_event_id a));
    ("accepted_outcome", jopt JStr (oa_accepted_outcome a)); ("reason_category", jopt JStr (oa_reason_category a));
    ("reviewed_at_utc", jopt JInt (oa_reviewed_at_utc a))].
Definition task_object (t : string) (revision : Z) : json := JObj [("task_id", JStr t); ("revision", JInt revision)].

Record TaskExecutionCorrectionPreview := MkCorrectionPreview {
  cp_eligible : bool;
  cp_correction_review_fingerprint : string;
  cp_execution_revision : Z;
  cp_target_execution_event_id : string;
  cp_target_execution_revision : Z;
  cp_target_event_kind : string;
  cp_target_effective_at_utc : option Z;
  cp_resulting_execution_state : string;
  cp_outcome_invalidation_required : bool;
  cp_current_outcome_revision : Z;
  cp_current_outcome_event_id : option string;
  cp_blockers : list string
}.
Record TaskOutcomeReviewPreview := MkOutcomeReviewPreview {
  op_eligible : bool;
  op_outcome_review_fingerprint : string;
  op_current_outcome_revision : Z;
  op_current_outcome_event_id : option string;
  op_semantic_no_change : bool;
  op_blockers : list string
}.
Record TaskOutcomeCorrectionPreview := MkOutcomeCorrectionPreview {
  oc_eligible : bool;
  oc_correction_review_fingerprint : string;
  oc_current_outcome_revision : Z;
  oc_current_outcome_event_id : string;
  oc_semantic_no_change : bool;
  oc_blockers : list string
}.
Definition stale_preview (m : string) : SomaError := task_error "TASK_STALE" m.
(** The task at the expected revision, as every preview requires it. *)
Definition preview_task (db : ObjDb) (t : string) (expected : Z) (m : string) : result Z :=
  match task_get db t with
  | None => raise (task_error "TASK_NOT_FOUND" "Task does not exist in current authority")
  | Some revision => _ ← forbid (negb (revision =? expected)) (stale_preview m); Ok revision
  end.
(** [try: ... except IntegrityFailure: None]. *)
Definition except_integrity {A} (r : result A) : result (option A) :=
  match r with
  | Ok a => Ok (Some a)
  | Raise (Soma e) => if String.eqb (code e) "INTEGRITY_FAILURE" then Ok None else Raise (Soma e)
  | Raise e => Raise e
  end.

(** * Correcting execution evidence *)
Definition correction_target (events : list _ExecutionEvent) (id : string) (revision : Z) : option _ExecutionEvent :=
  head (filter (fun ev => (String.eqb (xe_event_id ev) id && (xe_revision ev =? revision)
    && set_token _BASE_EVENT_KINDS (xe_event_kind ev)) = true) events).
Definition SYNTHETIC_EVENT_ID : string := "00000000-0000-4000-8000-000000000000".
Definition synthetic_correction (revision : Z) (target action : string) (replacement : option Z) (reason : string)
    : _ExecutionEvent :=
  MkEvent SYNTHETIC_EVENT_ID (revision + 1) "correction" replacement (Some target) (Some action) (Some reason) 0
    "00000000-0000-4000-8000-000000000001".
Definition outcome_valid_for (o : _OutcomeAuthority) (state : string) (start end_ : option Z) : bool :=
  match oa_accepted_outcome o with Some outcome => _outcome_is_valid outcome state start end_ | None => false end.
Definition folded_object (f : folded) : json :=
  let '(state, start, end_, termination) := f in JObj [
    ("state", JStr state); ("actual_start_utc", jopt JInt start); ("actual_end_utc", jopt JInt end_);
    ("effective_termination_utc", jopt JInt termination)].
Definition validate_correction_request (action : string) (replacement : option Z) : result unit :=
  _ ← forbid (negb (set_token ["replace_time"; "withdraw"] action))
    (ValidationError "correction_action must be replace_time or withdraw");
  if String.eqb action "replace_time" then
    forbid (match replacement with Some n => n <? 0 | None => true end) (ValidationError
      "replacement_effective_at_utc must be a nonnegative UTC whole second for replace_time")
  else forbid (present_opt replacement) (ValidationError "replacement_effective_at_utc must be null for withdraw").

Section previews.
Context `{Sha256, FloatText}.

Definition evaluate_correction (db : ObjDb) (t : string) (task_revision execution_revision : Z) (target_id : string)
    (target_revision : Z) (action : string) (replacement : option Z) (reason : string)
    : result TaskExecutionCorrectionPreview :=
  t ← require_uuid4 t;
  expected_task ← _require_positive_revision task_revision "task_revision";
  expected_execution ← _require_positive_revision execution_revision "execution_revision";
  target_id ← require_uuid4 target_id;
  expected_target ← _require_positive_revision target_revision "target_execution_revision";
  _ ← validate_correction_request action replacement;
  _ ← _normalize_reason (Some reason) true;
  current ← preview_task db t expected_task "Task revision changed since execution correction preview input";
  execution ← _load_execution_authority db t;
  _ ← forbid (negb (ra_revision execution =? expected_execution))
    (stale_preview "Task execution revision changed since correction preview input");
  _ ← forbid (ra_revision execution =? 0) (stale_preview "Task execution history is absent");
  target ← match correction_target (ra_events execution) target_id expected_target with
    | None => raise (stale_preview "Task execution correction target changed") | Some target => Ok target end;
  folded_ ← _fold_execution (ra_events execution);
  effective_target ← match folded_.2 !! target_id with
    | None => raise (IntegrityFailure "Task execution correction target disappeared from folded evidence")
    | Some e => Ok e end;
  outcome ← _load_outcome_authority db t;
  let governed := String.eqb action "withdraw" && set_token _GOVERNED_TERMINAL_KINDS (xe_event_kind target) in
  let blocked := ef_withdrawn effective_target || governed in
  resulting ← (if blocked then Ok None else
    r ← except_integrity (_fold_execution (ra_events execution ++
      [synthetic_correction (ra_revision execution) target_id action replacement reason]));
    Ok (Some r));
  let resulting_fold : option folded := r ← resulting; fst <$> r in
  let blockers := (if ef_withdrawn effective_target then ["TARGET_NOT_CURRENT_EFFECTIVE"] else [])
    ++ (if governed then ["GOVERNED_TERMINAL_WITHDRAW_FORBIDDEN"] else [])
    ++ (if bool_decide (resulting_fold = None) && negb blocked then ["INVALID_CORRECTED_CHRONOLOGY"] else []) in
  let invalidation := match resulting_fold with
    | Some (state, start, end_, _) =>
        outcome_valid_for outcome (ra_state execution) (ra_actual_start_utc execution) (ra_actual_end_utc execution)
        && negb (outcome_valid_for outcome state start end_)
    | None => false end in
  fingerprint ← sha256_canonical_json (JObj [
    ("schema", JStr "SOMA_TASK_EXECUTION_CORRECTION_REVIEW_V1");
    ("task", task_object t current);
    ("execution", _execution_object execution);
    ("target", JObj [
      ("execution_event_id", JStr (xe_event_id target)); ("execution_revision", JInt (xe_revision target));
      ("event_kind", JStr (xe_event_kind target));
      ("original_effective_at_utc", jopt JInt (xe_original_effective_at_utc target));
      ("current_effective_at_utc", jopt JInt (ef_current_effective_at_utc effective_target));
      ("withdrawn", JBool (ef_withdrawn effective_target))]);
    ("request", JObj [
      ("correction_action", JStr action); ("replacement_effective_at_utc", jopt JInt replacement);
      ("reason_category", JStr reason)]);
    ("current_outcome", _outcome_object outcome);
    ("resulting_execution", jopt folded_object resulting_fold);
    ("outcome_invalidation_required", JBool invalidation)]);
  Ok (MkCorrectionPreview (bool_decide (blockers = [])) fingerprint (ra_revision execution) (xe_event_id target)
    (xe_revision target) (xe_event_kind target) (ef_current_effective_at_utc effective_target)
    (match resulting_fold with Some f => f.1.1.1 | None => ra_state execution end) invalidation
    (oa_revision outcome) (oa_event_id outcome) blockers).

(** * Reviewing an outcome *)
Definition current_exactly (o : _OutcomeAuthority) (x : _ExecutionAuthority) (outcome : string) (reason : option string) : bool :=
  outcome_valid_for o (ra_state x) (ra_actual_start_utc x) (ra_actual_end_utc x)
  && bool_decide (oa_accepted_outcome o = Some outcome) && bool_decide (oa_reason_category o = reason).
Definition unreasoned (outcome : string) (x : _ExecutionAuthority) (reason : option string) : bool :=
  String.eqb outcome "incomplete" && String.eqb (ra_state x) "ended" && negb (present_opt reason).
Definition evaluate_outcome_review (db : ObjDb) (t : string) (task_revision execution_revision outcome_revision : Z)
    (current_event : option string) (outcome : string) (reason : option string) : result TaskOutcomeReviewPreview :=
  t ← require_uuid4 t;
  expected_task ← _require_positive_revision task_revision "task_revision";
  expected_execution ← _require_positive_revision execution_revision "execution_revision";
  _ ← forbid (outcome_revision <? 0) (ValidationError "outcome_revision must be a nonnegative integer");
  event ← (if outcome_revision =? 0 then
      _ ← forbid (present_opt current_event)
        (ValidationError "current_outcome_event_id must be null when outcome_revision is zero"); Ok None
    else match current_event with
      | None => raise (ValidationError "current_outcome_event_id is required for positive outcome_revision")
      | Some e => e ← require_uuid4 e; Ok (Some e) end);
  _ ← forbid (negb (set_token _OUTCOMES outcome))
    (ValidationError "outcome must be completed, incomplete, or cancelled_without_execution");
  reason ← _normalize_reason reason false;
  current ← preview_task db t expected_task "Task revision changed since outcome review preview input";
  execution ← _load_execution_authority db t;
  _ ← forbid (negb (ra_revision execution =? expected_execution))
    (stale_preview "Task execution revision changed since outcome review preview input");
  authority ← _load_outcome_authority db t;
  _ ← forbid (negb (oa_revision authority =? outcome_revision) || negb (bool_decide (oa_event_id authority = event)))
    (stale_preview "Task outcome authority changed since outcome review preview input");
  let requested_valid := _outcome_is_valid outcome (ra_state execution) (ra_actual_start_utc execution)
    (ra_actual_end_utc execution) in
  let exact_same := current_exactly authority execution outcome reason in
  let blockers := (if set_token ["ended"; "terminated"] (ra_state execution) then [] else ["EXECUTION_NOT_TERMINAL"])
    ++ (if negb requested_valid || unreasoned outcome execution reason then ["OUTCOME_INVALID_FOR_EXECUTION"] else [])
    ++ (if present_opt (oa_accepted_outcome authority) && negb exact_same
        then ["CURRENT_OUTCOME_REQUIRES_CORRECTION"] else []) in
  fingerprint ← sha256_canonical_json (JObj [
    ("schema", JStr "SOMA_TASK_OUTCOME_REVIEW_V1");
    ("task", task_object t current);
    ("execution", _execution_object execution);
    ("current_outcome", _outcome_object authority);
    ("request", JObj [("outcome", JStr outcome); ("reason_category", jopt JStr reason)])]);
  Ok (MkOutcomeReviewPreview (bool_decide (blockers = [])) fingerprint (oa_revision authority) (oa_event_id authority)
    (exact_same && bool_decide (blockers = [])) blockers).
Definition evaluate_outcome_correction (db : ObjDb) (t : string) (task_revision execution_revision outcome_revision : Z)
    (current_event replacement : string) (reason : option string) : result TaskOutcomeCorrectionPreview :=
  t ← require_uuid4 t;
  expected_task ← _require_positive_revision task_revision "task_revision";
  expected_execution ← _require_positive_revision execution_revision "execution_revision";
  expected_outcome ← _require_positive_revision outcome_revision "current_outcome_revision";
  event ← require_uuid4 current_event;
  _ ← forbid (negb (set_token _OUTCOMES replacement))
    (ValidationError "replacement_outcome must be completed, incomplete, or cancelled_without_execution");
  reason ← _normalize_reason reason false;
  current ← preview_task db t expected_task "Task revision changed since outcome correction preview input";
  execution ← _load_execution_authority db t;
  _ ← forbid (negb (ra_revision execution =? expected_execution))
    (stale_preview "Task execution revision changed since outcome correction preview input");
  outcome ← _load_outcome_authority db t;
  _ ← forbid (negb (oa_revision outcome =? expected_outcome) || negb (bool_decide (oa_event_id outcome = Some event)))
    (stale_preview "Task current outcome changed since correction preview input");
  match oa_event_id outcome, oa_accepted_outcome outcome with
  | Some event_id, Some accepted =>
      let replacement_valid := _outcome_is_valid replacement (ra_state execution) (ra_actual_start_utc execution)
        (ra_actual_end_utc execution) in
      let blockers := if negb replacement_valid || unreasoned replacement execution reason
        then ["OUTCOME_INVALID_FOR_EXECUTION"] else [] in
      let no_change_ := replacement_valid && String.eqb accepted replacement
        && bool_decide (oa_reason_category outcome = reason) && bool_decide (blockers = []) in
      fingerprint ← sha256_canonical_json (JObj [
        ("schema", JStr "SOMA_TASK_OUTCOME_CORRECTION_REVIEW_V1");
        ("task", task_object t current);
        ("execution", _execution_object execution);
        ("current_outcome", _outcome_object outcome);
        ("request", JObj [("replacement_outcome", JStr replacement); ("reason_category", jopt JStr reason)])]);
      Ok (MkOutcomeCorrectionPreview (bool_decide (blockers = [])) fingerprint (oa_revision outcome) event_id
        no_change_ blockers)
  | _, _ => raise (IntegrityFailure "positive Task outcome authority is unexpectedly absent")
  end.
End previews.
End Review.

(** * Walking the outcome chain returns *)
Lemma walk_chain_fuel fuel s visited cursor :
  visited ⊆ dom (Review.os_events s) -> (size (Review.os_events s) < fuel + size visited)%nat ->
  raises_only has_fuel (Review.walk_chain fuel s visited cursor).
Proof.
  revert visited cursor. induction fuel as [|fuel IH]; intros visited cursor Hsub Hsize.
  { apply subseteq_size in Hsub. rewrite size_dom in Hsub. lia. }
  simpl. destruct (bool_decide_reflect (cursor ∈ visited)) as [|Hnew]; simpl; [apply raises_has_fuel|].
  destruct (known (Review.os_events s) cursor) eqn:Hk; simpl; [|apply raises_has_fuel].
  destruct (Review.os_child_of s !! cursor); [|apply raises_ok].
  apply bool_decide_eq_true in Hk. apply IH.
  - apply union_subseteq. split; [|done]. apply singleton_subseteq_l. by apply elem_of_dom.
  - rewrite size_union, size_singleton by set_solver. lia.
Qed.
Lemma stored_uuid_fuel v label : raises_only has_fuel (_stored_uuid v label).
Proof. unfold _stored_uuid. has_fuel. Qed.
Lemma integrity_fuel b m : raises_only has_fuel (integrity b m).
Proof. unfold integrity. has_fuel. Qed.
#[local] Hint Resolve stored_uuid_fuel integrity_fuel : fuel.
Lemma load_outcome_event_fuel s row : raises_only has_fuel (Review.load_outcome_event s row).
Proof. unfold Review.load_outcome_event, _stored_uuid_opt. destruct row as [id e]. has_fuel. Qed.
Lemma load_outcome_events_fuel l s : raises_only has_fuel (foldM Review.load_outcome_event s l).
Proof. apply raises_foldM. intros. apply load_outcome_event_fuel. Qed.
#[local] Hint Resolve load_outcome_event_fuel load_outcome_events_fuel : fuel.
(** Reading the outcome of a task returns: the walk along the chain of
    corrections visits each event of its history at most once, so the fuel, one
    more than the events, never runs out, also on a history with a cycle. *)
Theorem load_outcome_authority_terminates db t :
  raises_only has_fuel (Review._load_outcome_authority db t).
Proof.
  unfold Review._load_outcome_authority. destruct (task_outcome_current db !! t); has_fuel.
  apply walk_chain_fuel; [set_solver|]. rewrite size_empty. lia.
Qed.
