(* ===== verification/TaskContracts.v ===== *)
(** The audit contracts of the task commands:
    [_build_execution_audit_registry] of [services/task_execution.py] and
    [_build_task_review_audit_registry] of [services/task_review.py].

    What a task command answers: the results of
    [objectives_tasks/contracts/objectives_tasks.py], checked again when they are
    read back from the ledger. *)
From S2P Require Import Prelude StrictJson Identifiers Grouping Jobs AuditLedger Tables CommandBoundary.
From S2P Require Import ObjectiveTables Regroup ObjectiveStore ObjectiveAggregate RegroupStore RegroupManual.
From S2P Require Import RegroupContracts TaskFold.

Definition _MAX_SELECTED_TASKS : Z := 100.
Definition _EXECUTION_AUDIT_FIELDS : list string :=
  ["task_id"; "execution_event_id"; "event_kind"; "effective_at_utc"; "target_event_id"; "resulting_task_revision";
   "resulting_execution_revision"; "reason_category"].
Definition _OUTCOME_AUDIT_FIELDS : list string :=
  ["task_id"; "outcome_event_id"; "accepted_outcome"; "correction_of_event_id"; "resulting_outcome_revision";
   "review_fingerprint"; "reason_category"].
Definition _BATCH_START_AUDIT_FIELDS : list string :=
  ["objective_scope_id"; "selected_task_ids"; "task_execution_event_ids"; "resulting_task_revisions";
   "aggregate_input_fingerprint"; "resulting_objective_projection_revision"].

(** * Payload fields; an absent field reads as [None]. *)
Definition null_field (value : option json) : bool := match value with None | Some JNull => true | _ => false end.
Definition uuid_or_null (value : option json) (m : string) : result unit :=
  if null_field value then Ok tt else uuid_field value m.
Definition time_field (value : option json) : bool := match value with Some (JInt n) => 0 <=? n | _ => false end.
Definition int_from (low : Z) (value : option json) : bool := match value with Some (JInt n) => low <=? n | _ => false end.
Definition sha_field (value : option json) : bool := match value with Some (JStr s) => is_sha256 s | _ => false end.
Definition bounded_reason (value : option json) : bool :=
  match value with Some (JStr s) => utf8_encodable s && bounded_line s | _ => false end.

Definition _validate_execution_audit (p : json) : result unit :=
  let identity := "Task execution audit identity is invalid" in
  _ ← uuid_field (jfield "task_id" p) identity;
  _ ← uuid_field (jfield "execution_event_id" p) identity;
  _ ← uuid_or_null (jfield "target_event_id" p) identity;
  _ ← field_token ["start"; "end"; "manual_cancel"; "correction"] (jfield "event_kind" p)
    "Task execution audit event kind is invalid";
  let effective_at := jfield "effective_at_utc" p in
  let target := jfield "target_event_id" p in
  let reason := jfield "reason_category" p in
  _ ← match jfield "event_kind" p with
    | Some (JStr kind) =>
        if set_token ["start"; "end"] kind then
          _ ← audit_invalid (negb (time_field effective_at)) "Task execution audit effective time is invalid";
          audit_invalid (negb (null_field target) || negb (null_field reason))
            "Task execution start/end audit cannot claim correction/reason authority"
        else if String.eqb kind "manual_cancel" then
          _ ← audit_invalid (negb (time_field effective_at) || negb (null_field target))
            "Task cancellation audit shape is invalid";
          audit_invalid (negb (bounded_reason reason)) "Task cancellation audit reason is invalid"
        else
          _ ← audit_invalid (negb (null_field effective_at) && negb (time_field effective_at))
            "Task correction audit effective time is invalid";
          _ ← audit_invalid (null_field target) "Task correction audit target is required";
          audit_invalid (negb (bounded_reason reason)) "Task correction audit reason is invalid"
    | _ => Ok tt
    end;
  _ ← audit_invalid (negb (int_from 2 (jfield "resulting_task_revision" p)))
    "Task execution audit Task revision is invalid";
  audit_invalid (negb (int_from 1 (jfield "resulting_execution_revision" p)))
    "Task execution audit execution revision is invalid".
Definition _validate_outcome_audit (p : json) : result unit :=
  let identity := "Task outcome audit identity is invalid" in
  _ ← uuid_field (jfield "task_id" p) identity;
  _ ← uuid_field (jfield "outcome_event_id" p) identity;
  _ ← uuid_or_null (jfield "correction_of_event_id" p) identity;
  _ ← field_token _OUTCOMES (jfield "accepted_outcome" p) "Task outcome audit token is invalid";
  _ ← audit_invalid (negb (int_from 1 (jfield "resulting_outcome_revision" p))) "Task outcome audit revision is invalid";
  _ ← audit_invalid (negb (sha_field (jfield "review_fingerprint" p))) "Task outcome audit fingerprint is invalid";
  audit_invalid (negb (null_field (jfield "reason_category" p)) && negb (bounded_reason (jfield "reason_category" p)))
    "Task outcome audit reason is invalid".

(** ** The start of selected tasks *)
Definition uuid_texts (values : list json) (m : string) : result (list string) :=
  traverse (fun v => match v with
    | JStr s => _ ← audit_invalid (negb (is_uuid4 s)) m; Ok s
    | _ => _ ← audit_invalid true m; Ok EmptyString end) values.
Definition batch_revision (revisions : list (string * json)) (t : string) : result unit :=
  match dget t revisions with
  | Some (JObj fields) =>
      _ ← audit_invalid (negb (exact_fields fields ["task_revision"; "execution_revision"]))
        "selected-Task resulting revision entry has wrong shape";
      _ ← audit_invalid (negb (int_from 2 (dget "task_revision" fields)))
        "selected-Task resulting Task revision is invalid";
      audit_invalid (negb (int_from 1 (dget "execution_revision" fields)))
        "selected-Task resulting execution revision is invalid"
  | _ => audit_invalid true "selected-Task resulting revision entry has wrong shape"
  end.
Definition _validate_batch_start_audit (p : json) : result unit :=
  _ ← uuid_field (jfield "objective_scope_id" p) "selected-Task start Objective identity is invalid";
  match jfield "selected_task_ids" p with
  | Some (JArr tasks_) =>
      let count := Z.of_nat (length tasks_) in
      _ ← audit_invalid ((count <? 1) || (_MAX_SELECTED_TASKS <? count)) "selected-Task start Task list is invalid";
      ids ← uuid_texts tasks_ "selected-Task start Task identity is invalid";
      _ ← audit_invalid (negb (bool_decide (ids = py_sorted (fun s => s) ids)) || negb (bool_decide (NoDup ids)))
        "selected-Task start Task identities are not canonical and unique";
      match jfield "task_execution_event_ids" p with
      | Some (JArr events_) =>
          _ ← audit_invalid (negb (bool_decide (length events_ = length ids))) "selected-Task start event list is misaligned";
          events ← uuid_texts events_ "selected-Task start event identity is invalid";
          _ ← audit_invalid (negb (bool_decide (NoDup events)))
            "selected-Task start event identities contain duplicates";
          match jfield "resulting_task_revisions" p with
          | Some (JObj revisions_) =>
              _ ← audit_invalid (negb (exact_fields revisions_ ids)) "selected-Task resulting revisions are not exact";
              _ ← traverse (batch_revision revisions_) ids;
              _ ← audit_invalid (negb (sha_field (jfield "aggregate_input_fingerprint" p)))
                "selected-Task aggregate fingerprint is invalid";
              audit_invalid (negb (int_from 1 (jfield "resulting_objective_projection_revision" p)))
                "selected-Task aggregate revision is invalid"
          | _ => audit_invalid true "selected-Task resulting revisions are not exact"
          end
      | _ => audit_invalid true "selected-Task start event list is misaligned"
      end
  | _ => audit_invalid true "selected-Task start Task list is invalid"
  end.

(** * Contracts *)
Definition task_contract (action schema : string) (fields : list string) (items bytes : Z)
    (validate : json -> result unit) : AuditActionContract :=
  MkActionContract action 1 schema 1
    (MkContract schema 1 (list_to_set fields) (list_to_set fields) "reject" 3 items bytes) None (Some validate).
Definition execution_contract : AuditActionContract :=
  task_contract "task.execution_changed" "TaskExecutionAuditV1" _EXECUTION_AUDIT_FIELDS 8 16384 _validate_execution_audit.
Definition outcome_contract : AuditActionContract :=
  task_contract "task.outcome_reviewed" "TaskOutcomeAuditV1" _OUTCOME_AUDIT_FIELDS 8 16384 _validate_outcome_audit.
Definition batch_start_contract : AuditActionContract :=
  task_contract "task.execution_batch_started" "SelectedTaskStartAuditV1" _BATCH_START_AUDIT_FIELDS 512 65536
    _validate_batch_start_audit.
(** The services add their actions to the packet's registry. *)
Definition _build_execution_audit_registry (packet : AuditRegistry) : result AuditRegistry :=
  foldM AuditLedger.register packet [execution_contract; outcome_contract; batch_start_contract].
Definition _build_task_review_audit_registry (packet : AuditRegistry) : result AuditRegistry :=
  foldM AuditLedger.register packet [outcome_contract].

(** * Events on a task *)
Definition task_event (audit_id action command t schema : string) (a : actor) (reason : option string) (payload_ : json)
    (refs : list AuditResultRef) : AuditEventInput :=
  MkAuditEvent audit_id action 1 (act_kind a) "task" command schema 1 payload_ (act_id a) (Some t) reason None None None
    None None refs.
Definition execution_event (audit_id command t event kind : string) (effective_at : option Z) (target : option string)
    (task_revision execution_revision : Z) (reason : option string) (a : actor) : AuditEventInput :=
  task_event audit_id "task.execution_changed" command t "TaskExecutionAuditV1" a reason (JObj [
    ("task_id", JStr t); ("execution_event_id", JStr event); ("event_kind", JStr kind);
    ("effective_at_utc", jopt JInt effective_at); ("target_event_id", jopt JStr target);
    ("resulting_task_revision", JInt task_revision); ("resulting_execution_revision", JInt execution_revision);
    ("reason_category", jopt JStr reason)]) [MkResultRef "task_execution_event" event].
Definition outcome_event (audit_id command t event outcome : string) (correction_of : option string)
    (outcome_revision : Z) (fingerprint : string) (reason : option string) (a : actor) : AuditEventInput :=
  task_event audit_id "task.outcome_reviewed" command t "TaskOutcomeAuditV1" a reason (JObj [
    ("task_id", JStr t); ("outcome_event_id", JStr event); ("accepted_outcome", JStr outcome);
    ("correction_of_event_id", jopt JStr correction_of); ("resulting_outcome_revision", JInt outcome_revision);
    ("review_fingerprint", JStr fingerprint); ("reason_category", jopt JStr reason)])
    [MkResultRef "task_outcome_event" event].

Record TaskMutationResult := MkTaskResult {
  tm_outcome : string;
  tm_task_id : string;
  tm_revision : Z;
  tm_result_refs : list (string * string);
  tm_replayed : bool
}.
Record ObjectiveMutationResult := MkObjectiveResult {
  om_outcome : string;
  om_objective_id : string;
  om_revision : Z;
  om_result_refs : list (string * string);
  om_replayed : bool
}.
Definition _validate_ref_text (value : option json) (field : string) (max_utf8_bytes : Z) : result string :=
  match value with
  | Some (JStr s) =>
      _ ← integrity (negb (utf8_encodable s)) ("Task mutation " +:+ field +:+ " must be valid Unicode");
      _ ← integrity (String.eqb s EmptyString || (max_utf8_bytes <? utf8_length s) || negb (one_line s))
        ("Task mutation " +:+ field +:+ " violates its bounded one-line contract");
      Ok s
  | _ => raise (IntegrityFailure ("Task mutation " +:+ field +:+ " must be text"))
  end.
Definition parse_ref (seen : list (string * string)) (raw : json) : result (list (string * string)) :=
  match raw with
  | JObj fields =>
      _ ← integrity (negb (exact_fields fields ["type"; "id"])) "Task mutation result ref has the wrong shape";
      t ← _validate_ref_text (dget "type" fields) "result ref type" 128;
      i ← _validate_ref_text (dget "id" fields) "result ref id" 1024;
      _ ← integrity (bool_decide ((t, i) ∈ seen)) "Task mutation result refs contain a duplicate";
      Ok (seen ++ [(t, i)])
  | _ => raise (IntegrityFailure "Task mutation result ref has the wrong shape")
  end.
Definition _parse_result_refs (raw_refs : option json) (max_items : Z) : result (list (string * string)) :=
  match raw_refs with
  | Some (JArr l) =>
      _ ← integrity (max_items <? Z.of_nat (length l)) "Task mutation result refs are invalid";
      foldM parse_ref [] l
  | _ => raise (IntegrityFailure "Task mutation result refs are invalid")
  end.
(** The two readers differ in names and bounds only: [what] is [Task] or
    [Objective], [key] the field of the identity. *)
Definition mutation_result (what key schema : string) (max_refs : Z) (x : CommandExecutionResult)
    : result (string * string * Z * list (string * string)) :=
  let fail m := IntegrityFailure (what +:+ " mutation " +:+ m) in
  match x_response x with
  | JObj fields =>
      _ ← forbid (negb (String.eqb (x_response_schema x) schema) || negb (x_response_version x =? 1)
          || negb (exact_fields fields ["outcome"; key; "revision"; "result_refs"]))
        (fail "replay result has the wrong response contract");
      outcome ← match dget "outcome" fields with
        | Some (JStr o) => if set_token ["APPLIED"; "NO_CHANGE"] o && Bool.eqb (x_no_change x) (String.eqb o "NO_CHANGE")
                           then Ok o else raise (fail "replay result has inconsistent outcome")
        | Some (JArr _) | Some (JObj _) => Raise (PyExn "TypeError")
        | _ => raise (fail "replay result has inconsistent outcome") end;
      id ← match dget key fields with
        | Some (JStr i) => if is_uuid4 i then Ok i
                           else raise (fail ("replay result has invalid " +:+ what +:+ " identity"))
        | _ => raise (fail ("replay result has invalid " +:+ what +:+ " identity")) end;
      revision ← match dget "revision" fields with
        | Some (JInt n) => if 0 <? n then Ok n else raise (fail ("replay result has invalid " +:+ what +:+ " revision"))
        | _ => raise (fail ("replay result has invalid " +:+ what +:+ " revision")) end;
      refs ← _parse_result_refs (dget "result_refs" fields) max_refs;
      _ ← (if String.eqb outcome "NO_CHANGE" then
          forbid (negb (bool_decide (refs = []))) (fail "NO_CHANGE response cannot claim material result refs")
        else match x_result_type x, x_result_id x with
          | Some t, Some i => forbid (negb (bool_decide ((t, i) ∈ refs)))
              (fail "response does not include its material receipt result")
          | _, _ => raise (fail "material receipt is missing result identity") end);
      Ok (outcome, id, revision, refs)
  | _ => raise (fail "replay result has the wrong response contract")
  end.
Definition task_mutation_result_from_execution (x : CommandExecutionResult) : result TaskMutationResult :=
  '(outcome, id, revision, refs) ← mutation_result "Task" "task_id" "TaskMutationResultV1" 64 x;
  Ok (MkTaskResult outcome id revision refs (replayed x)).
Definition objective_mutation_result_from_execution (x : CommandExecutionResult) : result ObjectiveMutationResult :=
  '(outcome, id, revision, refs) ← mutation_result "Objective" "objective_id" "ObjectiveMutationResultV1" 100 x;
  Ok (MkObjectiveResult outcome id revision refs (replayed x)).

(** The response of a command. *)
Definition result_ref (t i : string) : json := JObj [("type", JStr t); ("id", JStr i)].
Definition mutation_response (outcome key id : string) (revision : Z) (refs : list json) : json := JObj [
  ("outcome", JStr outcome); (key, JStr id); ("revision", JInt revision); ("result_refs", JArr refs)].
