(* ===== verification/TaskExecution.v ===== *)
(** The execution commands of a task: [TaskExecutionService] of
    [objectives_tasks/services/task_execution.py].

    A command appends one event to the immutable history of a task, moves the
    projection to the new fold and the task to its next revision, and rebuilds
    the aggregate of the Objective the task is in. *)
From S2P Require Import Prelude StrictJson Identifiers Grouping Jobs AuditLedger Tables CommandBoundary.
From S2P Require Import ObjectiveTables Regroup ObjectiveStore ObjectiveAggregate RegroupStore RegroupManual.
From S2P Require Import RegroupContracts RegroupCommands TaskFold TaskStore TaskAuthority TaskPreviews.
From S2P Require Import TaskContracts.

Definition _CANONICAL_NOW : string := "canonical-now".
Record SelectedTaskExecutionStart := MkSelected {
  sl_task_id : string; sl_task_revision : Z; sl_execution_revision : Z
}.
Record _SelectedStartAuthority := MkSelectedAuthority {
  sa_request : SelectedTaskExecutionStart; sa_execution : _ExecutionAuthority
}.

(** * Inputs *)
Definition _require_revision (value : Z) (label : string) (allow_zero : bool) : result Z :=
  _ ← forbid (value <? (if allow_zero then 0 else 1)) (ValidationError (label +:+ " must be a "
    +:+ (if allow_zero then "nonnegative" else "positive") +:+ " integer"));
  Ok value.
(** [int | str]. *)
Inductive effective_request := AtInstant (n : Z) | AtToken (s : string).
Definition _validate_effective_start (value : effective_request) : result effective_request :=
  match value with
  | AtInstant n =>
      _ ← forbid (n <? 0) (ValidationError "effective_start_utc must be a nonnegative UTC whole second"); Ok value
  | AtToken s =>
      _ ← forbid (negb (String.eqb s _CANONICAL_NOW)) (ValidationError
        "effective_start_utc must be a nonnegative UTC whole second or exact canonical-now token"); Ok value
  end.
Definition request_value (r : effective_request) : json :=
  match r with AtInstant n => JInt n | AtToken s => JStr s end.
Definition accepted_instant (r : effective_request) (recorded_at : Z) : Z :=
  match r with AtInstant n => n | AtToken _ => recorded_at end.
Definition _validate_effective_end (value : Z) : result Z :=
  _ ← forbid (value <? 0) (ValidationError "effective_end_utc must be a nonnegative UTC whole second"); Ok value.
Definition _validate_effective_cancel (value : Z) : result Z :=
  _ ← forbid (value <? 0) (ValidationError "effective_cancel_utc must be a nonnegative UTC whole second"); Ok value.
Definition _validate_reason_category (value : string) : result string :=
  _ ← forbid (negb (utf8_encodable value)) (ValidationError "reason_category must be valid Unicode");
  _ ← forbid (negb (bounded_line value)) (ValidationError "reason_category violates its bounded one-line contract");
  Ok value.
Definition _validate_sha256 (value label : string) : result string :=
  _ ← forbid (negb (is_sha256 value)) (ValidationError (label +:+ " must be lowercase SHA-256 hex")); Ok value.

(** * Writes *)
Definition _insert_or_advance_start_projection (t : string) (a : _ExecutionAuthority) (event : string) (accepted_start : Z)
    : objM unit :=
  if au_projection_exists a then
    updated ← update_execution t (au_revision a) None (fun x =>
      MkExecutionRow "in_progress" (Some accepted_start) None None None (ex_revision x + 1) event);
    lift (integrity (negb (updated =? 1)) "Task execution projection changed during guarded start")
  else insert_execution t (MkExecutionRow "in_progress" (Some accepted_start) None None None 1 event).
Definition _insert_or_advance_cancel_projection (t : string) (a : _ExecutionAuthority) (event : string)
    (accepted_cancel : Z) (reason : string) : objM unit :=
  if au_projection_exists a then
    updated ← update_execution t (au_revision a) None (fun x =>
      MkExecutionRow "terminated" None None (Some accepted_cancel) (Some reason) (ex_revision x + 1) event);
    lift (integrity (negb (updated =? 1)) "Task execution projection changed during guarded cancellation")
  else insert_execution t (MkExecutionRow "terminated" None None (Some accepted_cancel) (Some reason) 1 event).
Definition start_row (t : string) (a : _ExecutionAuthority) (accepted recorded_at : Z) (command : string)
    : ExecutionEventRow :=
  MkExecutionEventRow t (au_revision a + 1) "start" (Some accepted) None None None recorded_at command.
(** The start of one task, without its Objective. *)
Definition start_one (t : string) (a : _ExecutionAuthority) (event : string) (accepted recorded_at : Z)
    (command : string) (task_revision : Z) : objM unit :=
  _ ← insert_execution_event event (start_row t a accepted recorded_at command);
  _ ← _insert_or_advance_start_projection t a event accepted;
  increment_revision t task_revision.
Definition apply_end (t : string) (a : _ExecutionAuthority) (event : string) (accepted_end recorded_at : Z)
    (command : string) (task_revision : Z) : objM unit :=
  _ ← insert_execution_event event
    (MkExecutionEventRow t (au_revision a + 1) "end" (Some accepted_end) None None None recorded_at command);
  updated ← update_execution t (au_revision a) None (fun x =>
    MkExecutionRow "ended" (ex_actual_start_utc x) (Some accepted_end) None None (ex_revision x + 1) event);
  _ ← lift (integrity (negb (updated =? 1)) "Task execution projection changed during guarded end");
  increment_revision t task_revision.
Definition apply_correction (t : string) (a : _ExecutionAuthority) (last_event event target action : string)
    (replacement : option Z) (reason : string) (recorded_at : Z) (command : string) (task_revision : Z) : objM unit :=
  _ ← insert_execution_event event (MkExecutionEventRow t (au_revision a + 1) "correction" replacement (Some target)
    (Some action) (Some reason) recorded_at command);
  db ← read_st;
  '(state, start, end_, termination) ← lift (_fold_execution_history (history_rows db t));
  _ ← lift (integrity (negb (Z.of_nat (length (history_rows db t)) =? au_revision a + 1))
    "Task execution correction did not produce contiguous revision history");
  updated ← update_execution t (au_revision a) (Some last_event) (fun x =>
    MkExecutionRow state start end_ termination (if String.eqb state "terminated" then ex_termination_reason x else None)
      (ex_revision x + 1) event);
  _ ← lift (integrity (negb (updated =? 1)) "Task execution projection changed during guarded correction");
  increment_revision t task_revision.
Definition apply_cancel (t : string) (a : _ExecutionAuthority) (event outcome : string) (accepted_cancel recorded_at : Z)
    (reason command : string) (task_revision : Z) : objM unit :=
  _ ← insert_execution_event event (MkExecutionEventRow t (au_revision a + 1) "manual_cancel" (Some accepted_cancel)
    None None (Some reason) recorded_at command);
  _ ← _insert_or_advance_cancel_projection t a event accepted_cancel reason;
  _ ← insert_outcome_event outcome (MkOutcomeEventRow t "cancelled_without_execution" None (Some reason) recorded_at command);
  _ ← insert_outcome t (MkOutcomeRow outcome "cancelled_without_execution" recorded_at 1 command);
  increment_revision t task_revision.

(** * Reviewing the current authority *)
Definition current_task (db : ObjDb) (t : string) (revision : Z) : result Z :=
  match task_get db t with
  | None => raise (task_error "TASK_NOT_FOUND" "Task does not exist")
  | Some n => _ ← forbid (negb (n =? revision)) (task_error "TASK_STALE" "Task revision changed"); Ok n
  end.
(** A task that may start; messages start with [who]. *)
Definition startable (db : ObjDb) (t : string) (execution_revision : Z) (who : string) : result _ExecutionAuthority :=
  a ← _execution_authority db t;
  _ ← forbid (negb (au_revision a =? execution_revision))
    (task_error "TASK_STALE" (who +:+ " execution revision changed"));
  _ ← forbid (String.eqb (au_state a) "in_progress") (task_error "TASK_EXECUTION_ALREADY_STARTED"
    (who +:+ " already has current accepted start evidence"));
  terminal ← (if set_token ["ended"; "terminated"] (au_state a) then Ok true else _has_terminal_outcome db t);
  _ ← forbid terminal (task_error "TASK_EXECUTION_ALREADY_TERMINAL" (who +:+ " execution/outcome is already terminal"));
  _ ← integrity (negb (String.eqb (au_state a) "not_started"))
    (who +:+ " execution authority has unsupported start state");
  Ok a.
Definition endable (db : ObjDb) (t : string) (execution_revision accepted_end : Z) : result _ExecutionAuthority :=
  a ← _execution_authority db t;
  _ ← forbid (negb (au_revision a =? execution_revision)) (task_error "TASK_STALE" "Task execution revision changed");
  _ ← forbid (String.eqb (au_state a) "not_started")
    (task_error "TASK_EXECUTION_NOT_STARTED" "Task has no current accepted start evidence");
  _ ← forbid (set_token ["ended"; "terminated"] (au_state a))
    (task_error "TASK_EXECUTION_ALREADY_TERMINAL" "Task execution is already terminal");
  match String.eqb (au_state a) "in_progress", au_actual_start_utc a with
  | true, Some start =>
      terminal ← _has_terminal_outcome db t;
      _ ← integrity terminal "Task has a reviewed terminal outcome before execution end";
      _ ← forbid (accepted_end <? start)
        (ValidationError "effective_end_utc cannot precede current accepted actual start");
      Ok a
  | _, _ => raise (IntegrityFailure "Task execution authority has invalid in-progress state")
  end.
Definition after_start (a : _ExecutionAuthority) : bool :=
  String.eqb (au_state a) "in_progress" && present_opt (au_actual_start_utc a).
Definition cancellable (db : ObjDb) (t : string) (task_revision execution_revision : Z)
    : result (Z * _ExecutionAuthority) :=
  match task_get db t with
  | None => raise (task_error "TASK_NOT_FOUND" "Task does not exist")
  | Some n =>
      a ← _execution_authority db t;
      has_outcome ← _has_terminal_outcome db t;
      _ ← (if negb (au_revision a =? execution_revision) then
          _ ← forbid (after_start a) (task_error "TASK_CANCEL_AFTER_START"
            "Task accepted start evidence before cancellation writer revalidation");
          _ ← forbid (set_token ["ended"; "terminated"] (au_state a))
            (task_error "TASK_EXECUTION_ALREADY_TERMINAL" "Task execution is already terminal");
          raise (task_error "TASK_STALE" "Task execution revision changed before cancellation")
        else Ok tt);
      _ ← forbid (after_start a) (task_error "TASK_CANCEL_AFTER_START" "Task already has accepted start evidence");
      _ ← forbid (set_token ["ended"; "terminated"] (au_state a) || has_outcome)
        (task_error "TASK_EXECUTION_ALREADY_TERMINAL" "Task execution/outcome is already terminal");
      _ ← forbid (negb (n =? task_revision)) (task_error "TASK_STALE" "Task revision changed before cancellation");
      _ ← integrity (negb (String.eqb (au_state a) "not_started") || present_opt (au_actual_start_utc a))
        "Task cancellation authority is not current-effective not_started";
      Ok (n, a)
  end.

(** * Prepared commands *)
Definition task_mutation (kind event : string) (apply : regroupM (option (list AuditEventInput))) (t : string) (revision : Z)
    (refs : list json) : PreparedMutation ObjDb :=
  MkPrepared false (Some kind) (Some event) (Some apply) "TaskMutationResultV1" 1
    (Some (mutation_response "APPLIED" "task_id" t revision refs)) None None.
Definition task_envelope (command command_type_ t : string) (payload_ : list (string * json)) (revision : Z)
    (fingerprints : list (string * string)) : CommandEnvelope :=
  MkEnvelope command command_type_ "task" (Some t) payload_ [(t, revision)] fingerprints None.

Section execution.
Context `{Sha256, FloatText} (fresh : site -> string) (clock : site -> Z).
Context (audit : AuditRegistry) (audit_clock : string -> Z).
Definition task_event_id (t : string) : string := fresh ["execution_event"; t].
Definition outcome_event_id (t : string) : string := fresh ["outcome_event"; t].
Definition recorded_at : Z := clock ["recorded"].
Definition run_task (e : CommandEnvelope) (prepare : regroupM (PreparedMutation ObjDb)) : regroupM TaskMutationResult :=
  x ← execute audit (clock ["receipt"]) audit_clock e prepare;
  lift (task_mutation_result_from_execution x).
(** The rebuild and the event of a command on one task. *)
Definition task_apply (t command : string) (writes : objM unit) (events : list AuditEventInput)
    : regroupM (option (list AuditEventInput)) :=
  _ ← on_domain (_ ← writes; rebuild_objective_if_member t command);
  mret (Some events).

(** ** Start *)
Definition prepare_start (command t : string) (task_revision execution_revision : Z) (request : effective_request)
    (a : actor) : regroupM (PreparedMutation ObjDb) :=
  db ← read_st;
  n ← lift (current_task (domain_state db) t task_revision);
  authority ← lift (startable (domain_state db) t execution_revision "Task");
  let accepted := accepted_instant request recorded_at in
  let event := task_event_id t in
  mret (task_mutation "task_execution_event" event
    (task_apply t command (start_one t authority event accepted recorded_at command task_revision)
      [execution_event (fresh ["audit"; t]) command t event "start" (Some accepted) None (n + 1)
         (au_revision authority + 1) None a])
    t (n + 1) [result_ref "task_execution_event" event]).
Definition start_task_execution (command task_id : string) (task_revision execution_revision : Z)
    (effective_start : effective_request) (a : actor) : regroupM TaskMutationResult :=
  t ← lift (require_uuid4 task_id);
  task_revision ← lift (_require_revision task_revision "task_revision" false);
  execution_revision ← lift (_require_revision execution_revision "execution_revision" true);
  request ← lift (_validate_effective_start effective_start);
  run_task (task_envelope command "StartTaskExecution" t [("execution_revision", JInt execution_revision);
      ("effective_start_utc", request_value request)] task_revision [])
    (prepare_start command t task_revision execution_revision request a).

(** ** Start of selected members of an Objective *)
Definition check_selected (s : SelectedTaskExecutionStart) : result SelectedTaskExecutionStart :=
  t ← require_uuid4 (sl_task_id s);
  n ← _require_revision (sl_task_revision s) "selected task_revision" false;
  x ← _require_revision (sl_execution_revision s) "selected execution_revision" true;
  Ok (MkSelected t n x).
Definition selected_value (s : SelectedTaskExecutionStart) : json := JObj [
  ("task_id", JStr (sl_task_id s)); ("task_revision", JInt (sl_task_revision s));
  ("execution_revision", JInt (sl_execution_revision s))].
Definition select_task (db : ObjDb) (objective : string) (s : SelectedTaskExecutionStart)
    : result _SelectedStartAuthority :=
  let t := sl_task_id s in
  membership ← current_membership_for_task db t;
  _ ← forbid (match membership with Some m => negb (String.eqb (ms_objective_id m) objective) | None => true end)
    (task_error "TASK_STALE" "selected Task is no longer a current member of this Objective");
  _ ← forbid (match task_get db t with Some n => negb (n =? sl_task_revision s) | None => true end)
    (task_error "TASK_STALE" "selected Task revision changed");
  a ← startable db t (sl_execution_revision s) "selected Task";
  Ok (MkSelectedAuthority s a).
Definition start_selected (command : string) (accepted : Z) (s : _SelectedStartAuthority) : objM unit :=
  let t := sl_task_id (sa_request s) in
  start_one t (sa_execution s) (task_event_id t) accepted recorded_at command (sl_task_revision (sa_request s)).
Definition selected_revision (s : _SelectedStartAuthority) : string * json :=
  (sl_task_id (sa_request s), JObj [("task_revision", JInt (sl_task_revision (sa_request s) + 1));
    ("execution_revision", JInt (au_revision (sa_execution s) + 1))]).
Definition batch_event (command objective : string) (selected : list _SelectedStartAuthority) (aggregate_ : AggregateRow)
    (a : actor) : AuditEventInput :=
  let events := map (fun s => task_event_id (sl_task_id (sa_request s))) selected in
  MkAuditEvent (fresh ["audit"; objective]) "task.execution_batch_started" 1 (act_kind a) "objective" command
    "SelectedTaskStartAuditV1" 1 (JObj [
      ("objective_scope_id", JStr objective);
      ("selected_task_ids", JArr (map (fun s => JStr (sl_task_id (sa_request s))) selected));
      ("task_execution_event_ids", JArr (map JStr events));
      ("resulting_task_revisions", JObj (map selected_revision selected));
      ("aggregate_input_fingerprint", JStr (ag_aggregate_input_fingerprint aggregate_));
      ("resulting_objective_projection_revision", JInt (ag_revision aggregate_))])
    (act_id a) (Some objective) None None None None None None (map (MkResultRef "task_execution_event") events).
Definition apply_selected (command objective : string) (accepted : Z) (selected : list _SelectedStartAuthority) (a : actor)
    : regroupM (option (list AuditEventInput)) :=
  row ← on_domain (_ ← each (start_selected command accepted) selected; rebuild_aggregate objective command);
  mret (Some [batch_event command objective selected row a]).
Definition prepare_selected (command objective : string) (objective_revision envelope_revision : Z)
    (requests : list SelectedTaskExecutionStart) (request : effective_request) (a : actor)
    : regroupM (PreparedMutation ObjDb) :=
  db ← read_st;
  _ ← lift (_validate_objective_scope (domain_state db) objective objective_revision envelope_revision);
  selected ← lift (traverse (select_task (domain_state db) objective) requests);
  let accepted := accepted_instant request recorded_at in
  let events := map (fun s => task_event_id (sl_task_id (sa_request s))) selected in
  match events with
  | [] => lift (Raise (PyExn "IndexError"))
  | primary :: _ =>
      mret (MkPrepared false (Some "task_execution_event") (Some primary)
        (Some (apply_selected command objective accepted selected a)) "ObjectiveMutationResultV1" 1
        (Some (mutation_response "APPLIED" "objective_id" objective objective_revision
          (map (result_ref "task_execution_event") events))) None None)
  end.
Definition start_selected_objective_tasks (command objective_id : string) (objective_revision envelope_revision : Z)
    (selected_tasks : list SelectedTaskExecutionStart) (effective_start : effective_request) (a : actor)
    : regroupM ObjectiveMutationResult :=
  objective ← lift (require_uuid4 objective_id);
  objective_revision ← lift (_require_revision objective_revision "objective_revision" false);
  envelope_revision ← lift (_require_revision envelope_revision "objective_envelope_revision" false);
  let count := Z.of_nat (length selected_tasks) in
  _ ← lift (forbid ((count <? 1) || (_MAX_SELECTED_TASKS <? count))
    (ValidationError "selected_tasks must contain between 1 and 100 Tasks"));
  checked ← lift (traverse check_selected selected_tasks);
  let requests := py_sorted sl_task_id checked in
  _ ← lift (forbid (negb (bool_decide (NoDup (map sl_task_id requests))))
    (ValidationError "selected_tasks cannot contain duplicate task_id"));
  request ← lift (_validate_effective_start effective_start);
  x ← execute audit (clock ["receipt"]) audit_clock
    (MkEnvelope command "StartSelectedObjectiveTasks" "objective" (Some objective)
      [("objective_envelope_revision", JInt envelope_revision); ("selected_tasks", JArr (map selected_value requests));
       ("effective_start_utc", request_value request)] [(objective, objective_revision)] [] None)
    (prepare_selected command objective objective_revision envelope_revision requests request a);
  r ← lift (objective_mutation_result_from_execution x);
  _ ← lift (integrity (existsb (fun ref : string * string => negb (String.eqb ref.1 "task_execution_event")) (om_result_refs r))
    "selected-Task start result contains unsupported result ref type");
  _ ← lift (integrity (negb (bool_decide (length (om_result_refs r) = length requests)))
    "selected-Task start result count does not match selected Task count");
  mret r.

(** ** End *)
Definition prepare_end (command t : string) (task_revision execution_revision accepted_end : Z) (a : actor)
    : regroupM (PreparedMutation ObjDb) :=
  db ← read_st;
  n ← lift (current_task (domain_state db) t task_revision);
  authority ← lift (endable (domain_state db) t execution_revision accepted_end);
  let event := task_event_id t in
  mret (task_mutation "task_execution_event" event
    (task_apply t command (apply_end t authority event accepted_end recorded_at command task_revision)
      [execution_event (fresh ["audit"; t]) command t event "end" (Some accepted_end) None (n + 1)
         (au_revision authority + 1) None a])
    t (n + 1) [result_ref "task_execution_event" event]).
Definition end_task_execution (command task_id : string) (task_revision execution_revision effective_end : Z) (a : actor)
    : regroupM TaskMutationResult :=
  t ← lift (require_uuid4 task_id);
  task_revision ← lift (_require_revision task_revision "task_revision" false);
  execution_revision ← lift (_require_revision execution_revision "execution_revision" false);
  accepted_end ← lift (_validate_effective_end effective_end);
  run_task (task_envelope command "EndTaskExecution" t [("execution_revision", JInt execution_revision);
      ("effective_end_utc", JInt accepted_end)] task_revision [])
    (prepare_end command t task_revision execution_revision accepted_end a).
End execution.
