(* ===== verification/TaskCorrection.v ===== *)
(** Correcting execution evidence, cancelling without execution
    ([services/task_execution.py]) and reviewing outcomes
    ([TaskReviewService] of [services/task_review.py]). *)
From S2P Require Import Prelude StrictJson Identifiers Grouping Jobs AuditLedger Tables CommandBoundary.
From S2P Require Import ObjectiveTables Regroup ObjectiveStore ObjectiveAggregate RegroupStore RegroupManual.
From S2P Require Import RegroupContracts RegroupCommands TaskFold TaskStore TaskAuthority TaskPreviews.
From S2P Require Import TaskContracts TaskExecution.
Import Review.

Definition review_stale (m : string) : SomaError := task_error "TASK_REVIEW_STALE" m.
Definition invalid_outcome (m : string) : SomaError := task_error "TASK_OUTCOME_INVALID_FOR_EXECUTION" m.
(** [except SomaError as exc: if exc.code == "TASK_STALE": ...]. *)
Definition stale_as_review (m : string) (e : exn) : exn :=
  match e with
  | Soma e => if String.eqb (code e) "TASK_STALE" then Soma (review_stale m) else Soma e
  | PyExn k => PyExn k
  end.

(** * The request of a correction *)
Record correction_request := MkCorrectionRequest {
  cr_task_id : string;
  cr_task_revision : Z;
  cr_execution_revision : Z;
  cr_target_id : string;
  cr_target_revision : Z;
  cr_action : string;
  cr_replacement : option Z;
  cr_reason : string;
  cr_fingerprint : string;
  cr_accept_invalidation : bool
}.
Definition validate_replacement (action : string) (replacement : option Z) : result (option Z) :=
  _ ← forbid (negb (set_token ["replace_time"; "withdraw"] action))
    (ValidationError "correction_action must be replace_time or withdraw");
  if String.eqb action "replace_time" then
    match replacement with
    | Some n => n ← _validate_effective_end n; Ok (Some n)
    | None => raise (ValidationError "effective_end_utc must be a nonnegative UTC whole second")
    end
  else
    _ ← forbid (present_opt replacement) (ValidationError "replacement_effective_at_utc must be null for withdraw");
    Ok None.
Definition check_correction (r : correction_request) : result correction_request :=
  t ← require_uuid4 (cr_task_id r);
  n ← _require_revision (cr_task_revision r) "task_revision" false;
  x ← _require_revision (cr_execution_revision r) "execution_revision" false;
  target ← require_uuid4 (cr_target_id r);
  tr ← _require_revision (cr_target_revision r) "target_execution_revision" false;
  replacement ← validate_replacement (cr_action r) (cr_replacement r);
  reason ← _validate_reason_category (cr_reason r);
  fingerprint ← _validate_sha256 (cr_fingerprint r) "correction_review_fingerprint";
  Ok (MkCorrectionRequest t n x target tr (cr_action r) replacement reason fingerprint (cr_accept_invalidation r)).

Section correction.
Context `{Sha256, FloatText} (fresh : site -> string) (clock : site -> Z).
Context (audit : AuditRegistry) (audit_clock : string -> Z).

(** The preview again, under the writer lock, and what it must say. *)
Definition accepted_preview (db : ObjDb) (r : correction_request) : result TaskExecutionCorrectionPreview :=
  preview ← rethrow (stale_as_review "Task execution correction authority changed after preview")
    (evaluate_correction db (cr_task_id r) (cr_task_revision r) (cr_execution_revision r) (cr_target_id r)
       (cr_target_revision r) (cr_action r) (cr_replacement r) (cr_reason r));
  _ ← forbid (negb (String.eqb (cp_correction_review_fingerprint preview) (cr_fingerprint r)))
    (review_stale "Task execution correction fingerprint changed after preview");
  _ ← forbid (set_token (cp_blockers preview) "TARGET_NOT_CURRENT_EFFECTIVE")
    (review_stale "Task execution correction target is no longer current-effective");
  _ ← forbid (negb (bool_decide (cp_blockers preview = []))) (invalid_outcome
    "Requested Task execution correction is not eligible under current execution authority");
  _ ← forbid (cp_outcome_invalidation_required preview && negb (cr_accept_invalidation r)) (invalid_outcome
    "Task execution correction requires explicit reviewed outcome invalidation acknowledgement");
  Ok preview.
(** The writer's own checks: task revision, authority, last event. *)
Definition correction_authority (db : ObjDb) (r : correction_request)
    : result (Z * TaskAuthority._ExecutionAuthority * string) :=
  let t := cr_task_id r in
  n ← match task_get db t with
    | None => raise (task_error "TASK_NOT_FOUND" "Task does not exist") | Some n => Ok n end;
  _ ← forbid (negb (n =? cr_task_revision r))
    (review_stale "Task execution correction Task revision changed during writer revalidation");
  a ← _execution_authority db t;
  match (au_revision a =? cr_execution_revision r), au_last_event_id a with
  | true, Some last_event =>
      kind ← match task_execution_events db !! cr_target_id r with
        | Some e => if String.eqb (ee_task_id e) t && (ee_execution_revision e =? cr_target_revision r)
                       && negb (String.eqb (ee_event_kind e) "correction")
                    then Ok (ee_event_kind e)
                    else raise (review_stale "Task execution correction target changed during writer revalidation")
        | None => raise (review_stale "Task execution correction target changed during writer revalidation") end;
      _ ← forbid (String.eqb (cr_action r) "withdraw" && set_token _GOVERNED_TERMINAL_EVENT_KINDS kind) (invalid_outcome
        "Governed terminal execution evidence cannot be withdrawn by generic correction");
      Ok (n, a, last_event)
  | _, _ => raise (review_stale "Task execution correction revision changed during writer revalidation")
  end.
Definition prepare_correction (command : string) (r : correction_request) (a : actor)
    : regroupM (PreparedMutation ObjDb) :=
  let t := cr_task_id r in
  db ← read_st;
  _ ← lift (accepted_preview (domain_state db) r);
  '(n, authority, last_event) ← lift (correction_authority (domain_state db) r);
  let event := task_event_id fresh t in
  mret (task_mutation "task_execution_event" event
    (task_apply t command
      (apply_correction t authority last_event event (cr_target_id r) (cr_action r) (cr_replacement r) (cr_reason r)
         (recorded_at clock) command (cr_task_revision r))
      [execution_event (fresh ["audit"; t]) command t event "correction" (cr_replacement r) (Some (cr_target_id r)) (n + 1)
         (au_revision authority + 1) (Some (cr_reason r)) a])
    t (n + 1) [result_ref "task_execution_event" event]).
Definition correction_envelope (command : string) (r : correction_request) : CommandEnvelope :=
  task_envelope command "CorrectTaskExecutionEvidence" (cr_task_id r)
    [("execution_revision", JInt (cr_execution_revision r));
     ("target_execution_event_id", JStr (cr_target_id r));
     ("target_execution_revision", JInt (cr_target_revision r));
     ("correction_action", JStr (cr_action r));
     ("replacement_effective_at_utc", jopt JInt (cr_replacement r));
     ("reason_category", JStr (cr_reason r));
     ("accept_outcome_invalidation", JBool (cr_accept_invalidation r))]
    (cr_task_revision r) [("correction_review_fingerprint", cr_fingerprint r)].
Definition correct_task_execution_evidence (command : string) (r : correction_request) (a : actor)
    : regroupM TaskMutationResult :=
  r ← lift (check_correction r);
  run_task clock audit audit_clock (correction_envelope command r) (prepare_correction command r a).

(** * Cancelling without execution *)
Definition cancel_envelope (command t : string) (task_revision execution_revision accepted_cancel : Z) (reason : string)
    : CommandEnvelope :=
  task_envelope command "CancelTaskWithoutExecution" t
    [("execution_revision", JInt execution_revision); ("outcome_revision", JInt 0);
     ("effective_cancel_utc", JInt accepted_cancel); ("reason_category", JStr reason)] task_revision [].
Definition prepare_cancel (command t : string) (task_revision execution_revision accepted_cancel : Z)
    (reason request_hash_ : string) (a : actor) : regroupM (PreparedMutation ObjDb) :=
  db ← read_st;
  '(n, authority) ← lift (cancellable (domain_state db) t task_revision execution_revision);
  let event := task_event_id fresh t in
  let outcome := outcome_event_id fresh t in
  mret (task_mutation "task_execution_event" event
    (task_apply t command
      (apply_cancel t authority event outcome accepted_cancel (recorded_at clock) reason command task_revision)
      [execution_event (fresh ["audit"; t]) command t event "manual_cancel" (Some accepted_cancel) None (n + 1)
         (au_revision authority + 1) (Some reason) a;
       outcome_event (fresh ["outcome_audit"; t]) command t outcome "cancelled_without_execution" None 1 request_hash_
         (Some reason) a])
    t (n + 1) [result_ref "task_execution_event" event; result_ref "task_outcome_event" outcome]).
Definition cancel_task_without_execution (command task_id : string)
    (task_revision execution_revision outcome_revision effective_cancel : Z) (reason_category_ : string) (a : actor)
    : regroupM TaskMutationResult :=
  t ← lift (require_uuid4 task_id);
  task_revision ← lift (_require_revision task_revision "task_revision" false);
  execution_revision ← lift (_require_revision execution_revision "execution_revision" true);
  _ ← lift (forbid (negb (outcome_revision =? 0))
    (ValidationError "outcome_revision must be exactly zero for cancellation without execution"));
  accepted_cancel ← lift (_validate_effective_cancel effective_cancel);
  reason ← lift (_validate_reason_category reason_category_);
  let e := cancel_envelope command t task_revision execution_revision accepted_cancel reason in
  hash ← lift (request_hash e);
  run_task clock audit audit_clock e
    (prepare_cancel command t task_revision execution_revision accepted_cancel reason hash a).

(** * Reviewing an outcome *)
Definition _require_nonnegative_revision (value : Z) (label : string) : result Z :=
  _ ← forbid (value <? 0) (ValidationError (label +:+ " must be a nonnegative integer")); Ok value.
Definition _validate_outcome (value label : string) : result string :=
  _ ← forbid (negb (set_token _OUTCOMES value))
    (ValidationError (label +:+ " must be completed, incomplete, or cancelled_without_execution"));
  Ok value.
Definition outcome_no_change (t : string) (revision : Z) : PreparedMutation ObjDb :=
  MkPrepared true None None None "TaskMutationResultV1" 1
    (Some (mutation_response "NO_CHANGE" "task_id" t revision [])) None None.
(** The task again, after the preview. *)
Definition revalidated_task (db : ObjDb) (t : string) (revision : Z) (m : string) : result Z :=
  match task_get db t with
  | Some n => _ ← forbid (negb (n =? revision)) (review_stale m); Ok n
  | None => raise (review_stale m)
  end.
Definition apply_review (t event outcome : string) (reason : option string) (reviewed_at : Z) (command : string)
    (task_revision : Z) : objM unit :=
  _ ← insert_outcome_event event (MkOutcomeEventRow t outcome None reason reviewed_at command);
  _ ← insert_outcome t (MkOutcomeRow event outcome reviewed_at 1 command);
  increment_revision t task_revision.
Definition prepare_review (command t : string) (task_revision execution_revision outcome_revision : Z)
    (current_event : option string) (outcome : string) (reason : option string) (fingerprint : string) (a : actor)
    : regroupM (PreparedMutation ObjDb) :=
  db ← read_st;
  preview ← lift (rethrow (stale_as_review "Task outcome review authority changed after preview")
    (evaluate_outcome_review (domain_state db) t task_revision execution_revision outcome_revision current_event outcome
       reason));
  _ ← lift (forbid (negb (String.eqb (op_outcome_review_fingerprint preview) fingerprint))
    (review_stale "Task outcome review fingerprint changed after preview"));
  _ ← lift (forbid (set_token (op_blockers preview) "CURRENT_OUTCOME_REQUIRES_CORRECTION")
    (review_stale "Current reviewed outcome requires CorrectTaskOutcome"));
  _ ← lift (forbid (negb (bool_decide (op_blockers preview = []))) (invalid_outcome
    "Requested Task outcome is not eligible under current execution authority"));
  n ← lift (revalidated_task (domain_state db) t task_revision
    "Task outcome review authority changed during writer revalidation");
  if op_semantic_no_change preview then mret (outcome_no_change t n)
  else
    _ ← lift (forbid (negb (outcome_revision =? 0) || negb (op_current_outcome_revision preview =? 0))
      (review_stale "First Task outcome review no longer targets exact outcome absence"));
    let event := outcome_event_id fresh t in
    mret (task_mutation "task_outcome_event" event
      (task_apply t command (apply_review t event outcome reason (recorded_at clock) command task_revision)
        [outcome_event (fresh ["audit"; t]) command t event outcome None 1 fingerprint reason a])
      t (n + 1) [result_ref "task_outcome_event" event]).
Definition review_task_outcome (command task_id : string) (task_revision execution_revision outcome_revision : Z)
    (current_event : option string) (outcome : string) (reason : option string) (fingerprint : string) (a : actor)
    : regroupM TaskMutationResult :=
  t ← lift (require_uuid4 task_id);
  task_revision ← lift (_require_positive_revision task_revision "task_revision");
  execution_revision ← lift (_require_positive_revision execution_revision "execution_revision");
  outcome_revision ← lift (_require_nonnegative_revision outcome_revision "outcome_revision");
  current_event ← lift (if outcome_revision =? 0 then
      _ ← forbid (present_opt current_event)
        (ValidationError "current_outcome_event_id must be null when outcome_revision is zero"); Ok None
    else match current_event with
      | None => raise (ValidationError "current_outcome_event_id is required for positive outcome_revision")
      | Some e => e ← require_uuid4 e; Ok (Some e) end);
  outcome ← lift (_validate_outcome outcome "outcome");
  reason ← lift (_normalize_reason reason false);
  fingerprint ← lift (_validate_sha256 fingerprint "outcome_review_fingerprint");
  run_task clock audit audit_clock (task_envelope command "ReviewTaskOutcome" t
      [("execution_revision", JInt execution_revision); ("outcome_revision", JInt outcome_revision);
       ("current_outcome_event_id", jopt JStr current_event); ("outcome", JStr outcome);
       ("reason_category", jopt JStr reason)] task_revision [("outcome_review_fingerprint", fingerprint)])
    (prepare_review command t task_revision execution_revision outcome_revision current_event outcome reason fingerprint a).

(** * Correcting an outcome *)
Definition apply_outcome_correction (t event current outcome : string) (outcome_revision : Z) (reason : option string)
    (reviewed_at : Z) (command : string) (task_revision : Z) : objM unit :=
  _ ← insert_outcome_event event (MkOutcomeEventRow t outcome (Some current) reason reviewed_at command);
  updated ← update_outcome t outcome_revision current (fun o =>
    MkOutcomeRow event outcome reviewed_at (ou_revision o + 1) command);
  _ ← lift (forbid (negb (updated =? 1)) (review_stale "Task outcome current tip changed during guarded correction"));
  increment_revision t task_revision.
Definition prepare_outcome_correction (command t : string) (task_revision execution_revision outcome_revision : Z)
    (current outcome : string) (reason : option string) (fingerprint : string) (a : actor)
    : regroupM (PreparedMutation ObjDb) :=
  db ← read_st;
  preview ← lift (rethrow (stale_as_review "Task outcome correction authority changed after preview")
    (evaluate_outcome_correction (domain_state db) t task_revision execution_revision outcome_revision current outcome
       reason));
  _ ← lift (forbid (negb (String.eqb (oc_correction_review_fingerprint preview) fingerprint))
    (review_stale "Task outcome correction fingerprint changed after preview"));
  _ ← lift (forbid (negb (bool_decide (oc_blockers preview = []))) (invalid_outcome
    "Replacement Task outcome is not eligible under current execution authority"));
  n ← lift (revalidated_task (domain_state db) t task_revision
    "Task outcome correction authority changed during writer revalidation");
  if oc_semantic_no_change preview then mret (outcome_no_change t n)
  else
    let event := outcome_event_id fresh t in
    mret (task_mutation "task_outcome_event" event
      (task_apply t command
        (apply_outcome_correction t event current outcome outcome_revision reason (recorded_at clock) command task_revision)
        [outcome_event (fresh ["audit"; t]) command t event outcome (Some current) (outcome_revision + 1) fingerprint
           reason a])
      t (n + 1) [result_ref "task_outcome_event" event]).
Definition correct_task_outcome (command task_id : string) (task_revision execution_revision outcome_revision : Z)
    (current_event replacement : string) (reason : option string) (fingerprint : string) (a : actor)
    : regroupM TaskMutationResult :=
  t ← lift (require_uuid4 task_id);
  task_revision ← lift (_require_positive_revision task_revision "task_revision");
  execution_revision ← lift (_require_positive_revision execution_revision "execution_revision");
  outcome_revision ← lift (_require_positive_revision outcome_revision "current_outcome_revision");
  current ← lift (require_uuid4 current_event);
  outcome ← lift (_validate_outcome replacement "replacement_outcome");
  reason ← lift (_normalize_reason reason false);
  fingerprint ← lift (_validate_sha256 fingerprint "correction_review_fingerprint");
  run_task clock audit audit_clock (task_envelope command "CorrectTaskOutcome" t
      [("execution_revision", JInt execution_revision); ("current_outcome_revision", JInt outcome_revision);
       ("current_outcome_event_id", JStr current); ("replacement_outcome", JStr outcome);
       ("reason_category", jopt JStr reason)] task_revision [("correction_review_fingerprint", fingerprint)])
    (prepare_outcome_correction command t task_revision execution_revision outcome_revision current outcome reason
       fingerprint a).
End correction.
