(* ===== verification/TaskLife.v ===== *)
(** What a task command writes, and that the projections stay the folds of
    their histories. *)
From S2P Require Import Prelude StrictJson Identifiers Grouping Jobs AuditLedger Tables CommandBoundary.
From S2P Require Import CommandReplay CommandAudit CommandDomain ObjectiveTables Regroup ObjectiveStore.
From S2P Require Import ObjectiveAggregate RegroupStore RegroupManual RegroupContracts RegroupCommands.
From S2P Require Import ObjectiveAggregateProps TaskFold TaskStore TaskAuthority TaskPreviews TaskContracts.
From S2P Require Import TaskExecution TaskCorrection.

Definition executions_ok (d : ObjDb) : Prop := forall t, exists a, _execution_authority d t = Ok a.
Definition outcomes_ok (d : ObjDb) : Prop := forall t, exists b, _has_terminal_outcome d t = Ok b.
(** One event appended, the projection moved, the task at its next revision. *)
Definition moved (t event : string) (e : ExecutionEventRow) (x : ExecutionRow) (n : Z) (d : ObjDb) : ObjDb :=
  set_tasks (<[t := n + 1]> (tasks d)) (set_executions (<[t := x]> (task_execution_projection d))
    (set_execution_events (<[event := e]> (task_execution_events d)) d)).
Record move_ok (t event : string) (e : ExecutionEventRow) (x : ExecutionRow) (n : Z) (a : _ExecutionAuthority)
    (d : ObjDb) : Prop := {
  mo_task : tasks d !! t = Some n;
  mo_new : task_execution_events d !! event = None;
  mo_event_task : ee_task_id e = t;
  mo_event_revision : ee_execution_revision e = au_revision a + 1;
  mo_revision : ex_revision x = au_revision a + 1;
  mo_last : ex_last_event_id x = event;
  mo_time : nonneg_opt (ee_effective_at_utc e) = true
}.
Lemma history_new d t id : task_execution_events d !! id = None -> id ∉ map fst (history_rows d t).
Proof.
  intros Hn (r & -> & Hr)%list_elem_of_fmap. apply elem_of_py_sorted in Hr.
  apply list_elem_of_filter in Hr as [_ Hr]. destruct r as [i e]. apply elem_of_map_to_list in Hr. simpl in Hn. congruence.
Qed.
Lemma base_row_ok d t id e :
  is_uuid4 id = true -> task_execution_events d !! id = None -> nonneg_opt (ee_effective_at_utc e) = true ->
  ee_target_event_id e = None -> ee_correction_action e = None ->
  ee_event_kind e ∈ "start" :: "end" :: _TERMINAL_EVENT_KINDS ->
  (ee_event_kind e ∈ ["start"; "end"] -> is_Some (ee_effective_at_utc e)) ->
  is_correction (id, e) = false /\ row_ok (history_rows d t) (id, e).
Proof.
  intros Hu Hn Ht Htg Ha Hk Hse. assert (is_correction (id, e) = false) as Hc.
  { unfold is_correction. simpl. apply String.eqb_neq. intros E. rewrite E in Hk. set_solver. }
  split; [done|]. split; simpl; [done|by apply history_new| | |].
  - intros z Hz. unfold nonneg_opt in Ht. rewrite Hz in Ht. by apply Z.leb_le.
  - intros z Hz. congruence.
  - by rewrite Hc.
Qed.
Lemma moved_authority d t a event e x n :
  _execution_authority d t = Ok a -> move_ok t event e x n a d ->
  _fold_execution_history (history_rows d t ++ [(event, e)]) = Ok (projection_of x) ->
  _execution_authority (moved t event e x n d) t = Ok (authority_of x) /\
  history_rows (moved t event e x n d) t = history_rows d t ++ [(event, e)].
Proof.
  intros Ha [Hn Hnew Ht Hr Hx Hl _] Hf.
  apply (append_authority d (moved t event e x n d) t a event e x); [done|done|done|done|done| |done|done|done].
  simpl. apply lookup_insert_eq.
Qed.
Lemma moved_other d t t' a a' event e x n :
  _execution_authority d t' = Ok a' -> move_ok t event e x n a d -> t' <> t ->
  _execution_authority (moved t event e x n d) t' = Ok a'.
Proof.
  intros Ha [Hn Hnew Ht Hr Hx Hl _] Hne.
  apply (append_authority_other d (moved t event e x n d) t' a' event e); [done|done|congruence|done|].
  simpl. by rewrite lookup_insert_ne.
Qed.
Lemma executions_ok_moved d t a event e x n :
  executions_ok d -> _execution_authority d t = Ok a -> move_ok t event e x n a d ->
  _fold_execution_history (history_rows d t ++ [(event, e)]) = Ok (projection_of x) ->
  executions_ok (moved t event e x n d).
Proof.
  intros Hok Ha Hm Hf t'. destruct (decide (t' = t)) as [->|Hne].
  - eexists. by eapply moved_authority.
  - destruct (Hok t') as [a' Ha']. exists a'. by eapply moved_other.
Qed.

(** * The four kinds of event *)
Lemma not_projected d t a : _execution_authority d t = Ok a -> au_projection_exists a = false -> au_revision a = 0.
Proof.
  intros Ha%execution_authority_ok. destruct (task_execution_projection d !! t); destruct Ha as [_ ->]; done.
Qed.
Lemma not_started_fold d t a :
  _execution_authority d t = Ok a -> au_state a = "not_started" -> folded_of a = not_started.
Proof.
  intros Ha Hs. apply authority_fold, fold_well_shaped in Ha. unfold folded_of in *. rewrite Hs in *.
  destruct Ha as [_ [(_ & -> & -> & ->)|[(? & _)|[(? & _)|(? & _)]]]]; done.
Qed.
Lemma start_one_ok t a event accepted recorded command n d d' u :
  _execution_authority d t = Ok a -> start_one t a event accepted recorded command n d = (d', Ok u) ->
  exists x, projection_of x = ("in_progress", Some accepted, None, None) /\
    move_ok t event (start_row t a accepted recorded command) x n a d /\
    d' = moved t event (start_row t a accepted recorded command) x n d.
Proof.
  intros Ha. unfold start_one. intros (d1 & v & H1 & (d2 & w & H2 & H3)%stm_bind_ok)%stm_bind_ok.
  apply insert_execution_event_ok in H1 as (-> & Hnew & _ & _ & Ht). apply increment_revision_ok in H3 as [Hn ->].
  unfold _insert_or_advance_start_projection in H2. destruct (au_projection_exists a) eqn:Ep.
  - apply stm_bind_ok in H2 as (d3 & k & H2 & [-> Hk%integrity_ok]%lift_ok). bool_hyps.
    apply update_execution_ok in H2 as (x & Hx & Hr & ->); [|done]. simpl in *.
    eexists. split; [|split; [|reflexivity]]; [done|]. split; simpl; try done. by rewrite Hr.
  - apply insert_execution_ok in H2 as [-> _]. simpl in *. eexists. split; [|split; [|reflexivity]]; [done|].
    split; simpl; try done. by rewrite (not_projected _ _ _ Ha Ep).
Qed.
Lemma start_fold d t a event accepted recorded command x n :
  _execution_authority d t = Ok a -> au_state a = "not_started" -> is_uuid4 event = true ->
  move_ok t event (start_row t a accepted recorded command) x n a d ->
  projection_of x = ("in_progress", Some accepted, None, None) ->
  _fold_execution_history (history_rows d t ++ [(event, start_row t a accepted recorded command)]) = Ok (projection_of x).
Proof.
  intros Ha Hs Hu Hm ->. destruct (base_row_ok d t event (start_row t a accepted recorded command)) as [Hc Hr];
    [done|apply (mo_new _ _ _ _ _ _ _ Hm)|apply (mo_time _ _ _ _ _ _ _ Hm)|done|done|set_solver|by eexists|].
  etrans; [exact (base_row_fold _ _ _ (authority_fold _ _ _ Ha) Hr Hc)|]. by rewrite (not_started_fold _ _ _ Ha Hs).
Qed.

Lemma apply_end_ok t a event accepted recorded command n d d' u :
  _execution_authority d t = Ok a -> apply_end t a event accepted recorded command n d = (d', Ok u) ->
  exists x e, projection_of x = ("ended", au_actual_start_utc a, Some accepted, None) /\
    ee_event_kind e = "end" /\ ee_effective_at_utc e = Some accepted /\ ee_target_event_id e = None /\
    ee_correction_action e = None /\ move_ok t event e x n a d /\ d' = moved t event e x n d.
Proof.
  intros Ha. unfold apply_end. intros (d1 & v & H1 & (d2 & k & H2 & (d3 & w & [-> Hk%integrity_ok]%lift_ok & H3)%stm_bind_ok)%stm_bind_ok)%stm_bind_ok.
  apply insert_execution_event_ok in H1 as (-> & Hnew & _ & _ & Ht). apply increment_revision_ok in H3 as [Hn ->]. bool_hyps.
  apply update_execution_ok in H2 as (x & Hx & Hr & ->); [|done]. simpl in *.
  apply execution_authority_ok in Ha. rewrite Hx in Ha. destruct Ha as [_ ->]. simpl.
  eexists _, _. split; [|split; [|split; [|split; [|split; [|split; [|reflexivity]]]]]]; done.
Qed.
Lemma end_fold d t a event e accepted x n start :
  _execution_authority d t = Ok a -> au_state a = "in_progress" -> au_actual_start_utc a = Some start -> start <= accepted ->
  is_uuid4 event = true -> move_ok t event e x n a d -> ee_event_kind e = "end" ->
  ee_effective_at_utc e = Some accepted -> ee_target_event_id e = None -> ee_correction_action e = None ->
  projection_of x = ("ended", au_actual_start_utc a, Some accepted, None) ->
  _fold_execution_history (history_rows d t ++ [(event, e)]) = Ok (projection_of x).
Proof.
  intros Ha Hs Hst Hle Hu Hm Hk He Htg Hac ->. destruct (base_row_ok d t event e) as [Hc Hr];
    [done|apply (mo_new _ _ _ _ _ _ _ Hm)|apply (mo_time _ _ _ _ _ _ _ Hm)|done|done|rewrite Hk; set_solver|by eexists|].
  etrans; [exact (base_row_fold _ _ _ (authority_fold _ _ _ Ha) Hr Hc)|]. unfold folded_of. simpl. rewrite Hk, He, Hs, Hst. simpl.
  by rewrite (proj2 (Z.ltb_ge _ _) Hle).
Qed.

Lemma apply_correction_ok t a last_event event target action replacement reason recorded command n d d' u :
  _execution_authority d t = Ok a ->
  apply_correction t a last_event event target action replacement reason recorded command n d = (d', Ok u) ->
  exists x, let e := MkExecutionEventRow t (au_revision a + 1) "correction" replacement (Some target) (Some action)
      (Some reason) recorded command in
    _fold_execution_history (history_rows d t ++ [(event, e)]) = Ok (projection_of x) /\
    move_ok t event e x n a d /\ d' = moved t event e x n d.
Proof.
  intros Ha. unfold apply_correction. cbv zeta. intros (d1 & v & H1 & Hr)%stm_bind_ok.
  apply insert_execution_event_ok in H1 as (-> & Hnew & _ & _ & Ht).
  apply stm_bind_ok in Hr as (d2 & db & [= <- <-] & Hr).
  apply stm_bind_ok in Hr as (d3 & [[[state start] end_] term] & [-> Hf]%lift_ok & Hr).
  apply stm_bind_ok in Hr as (d3 & w & [-> _]%lift_ok & Hr). apply stm_bind_ok in Hr as (d3 & k & H2 & Hr).
  apply stm_bind_ok in Hr as (d4 & w2 & [-> Hk%integrity_ok]%lift_ok & H3). bool_hyps.
  apply increment_revision_ok in H3 as [Hn ->]. apply update_execution_ok in H2 as (x & Hx & Hrev & ->); [|done]. simpl in *.
  destruct (authority_numbered _ _ _ Ha) as [Hnum Hcount].
  eexists. split; [|split; [|reflexivity]].
  - etrans; [|exact Hf]. f_equal. symmetry.
    refine (history_rows_append d _ event (MkExecutionEventRow t (au_revision a + 1) "correction" replacement (Some target)
      (Some action) (Some reason) recorded command) Hnew _ Hnum _); [reflexivity|]. simpl. lia.
  - split; simpl; try done. by rewrite Hrev.
Qed.

(** The rest of a cancellation: the outcome and its current row. *)
Definition outcome_written (t outcome : string) (e : OutcomeEventRow) (o : OutcomeRow) (d : ObjDb) : ObjDb :=
  set_outcomes (<[t := o]> (task_outcome_current d)) (set_outcome_events (<[outcome := e]> (task_outcome_events d)) d).
Lemma apply_cancel_ok t a event outcome accepted recorded reason command n d d' u :
  _execution_authority d t = Ok a -> apply_cancel t a event outcome accepted recorded reason command n d = (d', Ok u) ->
  exists x e, projection_of x = ("terminated", None, None, Some accepted) /\
    ee_event_kind e = "manual_cancel" /\ ee_effective_at_utc e = Some accepted /\ ee_target_event_id e = None /\
    ee_correction_action e = None /\ move_ok t event e x n a d /\
    task_outcome_events d !! outcome = None /\ task_outcome_current d !! t = None /\
    d' = outcome_written t outcome (MkOutcomeEventRow t "cancelled_without_execution" None (Some reason) recorded command)
      (MkOutcomeRow outcome "cancelled_without_execution" recorded 1 command) (moved t event e x n d).
Proof.
  intros Ha. unfold apply_cancel. intros (d1 & v & H1 & (d2 & w & H2 & (d3 & w3 & H3 & (d4 & w4 & H4 & H5)%stm_bind_ok)%stm_bind_ok)%stm_bind_ok)%stm_bind_ok.
  apply insert_execution_event_ok in H1 as (-> & Hnew & _ & _ & Ht).
  apply insert_outcome_event_ok in H3 as [-> Ho]. apply insert_outcome_ok in H4 as (-> & Hc & _).
  apply increment_revision_ok in H5 as [Hn ->].
  unfold _insert_or_advance_cancel_projection in H2. destruct (au_projection_exists a) eqn:Ep.
  - apply stm_bind_ok in H2 as (d3 & k & H2 & [-> Hk%integrity_ok]%lift_ok). bool_hyps.
    apply update_execution_ok in H2 as (x & Hx & Hr & ->); [|done]. simpl in *.
    eexists _, _. split; [|split; [|split; [|split; [|split; [|split; [|split; [|split; [|reflexivity]]]]]]]]; try done.
    split; simpl; try done. by rewrite Hr.
  - apply insert_execution_ok in H2 as [-> _]. simpl in *.
    eexists _, _. split; [|split; [|split; [|split; [|split; [|split; [|split; [|split; [|reflexivity]]]]]]]]; try done.
    split; simpl; try done. by rewrite (not_projected _ _ _ Ha Ep).
Qed.
Lemma cancel_fold d t a event e accepted x n :
  _execution_authority d t = Ok a -> au_state a = "not_started" -> is_uuid4 event = true -> move_ok t event e x n a d ->
  ee_event_kind e = "manual_cancel" -> ee_effective_at_utc e = Some accepted -> ee_target_event_id e = None ->
  ee_correction_action e = None -> projection_of x = ("terminated", None, None, Some accepted) ->
  _fold_execution_history (history_rows d t ++ [(event, e)]) = Ok (projection_of x).
Proof.
  intros Ha Hs Hu Hm Hk He Htg Hac ->. destruct (base_row_ok d t event e) as [Hc Hr];
    [done|apply (mo_new _ _ _ _ _ _ _ Hm)|apply (mo_time _ _ _ _ _ _ _ Hm)|done|done|rewrite Hk; set_solver|by eexists|].
  etrans; [exact (base_row_fold _ _ _ (authority_fold _ _ _ Ha) Hr Hc)|]. rewrite (not_started_fold _ _ _ Ha Hs).
  unfold apply_evidence. simpl. by rewrite Hk, He.
Qed.
