(* ===== verification/TaskAgree.v ===== *)
(** The previews and the commands agree: [queries/execution_review.py] has its
    own copy of the history checks of [services/task_execution.py].

    The aggregate of an Objective reads its members' executions with a third
    copy of the history checks: [repositories/objectives.py]. *)
From S2P Require Import Prelude StrictJson Identifiers Grouping Jobs AuditLedger Tables ObjectiveTables Regroup.
From S2P Require Import ObjectiveStore ObjectiveAggregate RegroupStore RegroupManual RegroupContracts.
From S2P Require Import ObjectiveAggregateProps TaskFold TaskStore TaskAuthority TaskPreviews.
#[local] Arguments set_token : simpl never.
#[local] Arguments Review.load_event : simpl never.
#[local] Arguments Review._fold_execution : simpl never.

Definition to_evidence (e : Review._EffectiveEvidence) : _Evidence :=
  MkEvidence (Review.ef_event_kind e) (Review.ef_current_effective_at_utc e) (Review.ef_withdrawn e).
Record same_fold (s : fold_state) (es : Review.effective_state) : Prop := {
  sf_ids : Review.es_ordered_base_ids es = fs_ordered_base_ids s;
  sf_seen : Review.es_seen_event_ids es = fs_seen_event_ids s;
  sf_evidence : forall id, fs_evidence s !! id = to_evidence <$> Review.es_evidence es !! id
}.
(** Both succeed, related, or both fail. *)
Definition same_result {A B} (R : A -> B -> Prop) (a : result A) (b : result B) : Prop :=
  match a, b with Ok x, Ok y => R x y | Raise _, Raise _ => True | _, _ => False end.
Lemma same_result_bind {A B C D} (R : A -> B -> Prop) (Q : C -> D -> Prop) a b f g :
  same_result R a b -> (forall x y, R x y -> same_result Q (f x) (g y)) -> same_result Q (a ≫= f) (b ≫= g).
Proof. destruct a, b; simpl; intros; by auto. Qed.
Lemma same_result_forbid {C D} (Q : C -> D -> Prop) b e e' f g :
  (b = false -> same_result Q (f tt) (g tt)) -> same_result Q (forbid b e ≫= f) (forbid b e' ≫= g).
Proof. intros Hf. destruct b; simpl; by auto. Qed.

Lemma apply_effective_same f item : Review.apply_effective f item = apply_evidence f (to_evidence item).
Proof. reflexivity. Qed.
Lemma same_fold_insert s es id e seen :
  same_fold s es -> same_fold (MkFold (<[id := to_evidence e]> (fs_evidence s)) (fs_ordered_base_ids s) seen)
    (Review.MkEffectiveState (<[id := e]> (Review.es_evidence es)) (Review.es_ordered_base_ids es) seen).
Proof.
  intros [Hi Hs He]. split; simpl; [done|done|]. intros i. destruct (decide (i = id)) as [->|Hne].
  - by rewrite !lookup_insert_eq.
  - by rewrite !lookup_insert_ne by done.
Qed.
(** What a loaded event has passed. *)
Lemma load_event_ok n id e ev :
  Review.load_event (n, (id, e)) = Ok ev <->
  ev = Review.MkEvent id n (ee_event_kind e) (ee_effective_at_utc e) (ee_target_event_id e) (ee_correction_action e)
    (ee_reason_code e) (ee_recorded_at_utc e) (ee_command_id e) /\
  ee_execution_revision e = n /\ ee_event_kind e ∈ "correction" :: Review._BASE_EVENT_KINDS /\
  (forall t, ee_target_event_id e = Some t -> is_uuid4 t = true) /\
  (if is_correction (id, e)
   then is_Some (ee_target_event_id e) /\ exists a, ee_correction_action e = Some a /\ a ∈ ["replace_time"; "withdraw"]
   else ee_target_event_id e = None /\ ee_correction_action e = None) /\
  0 <= ee_recorded_at_utc e /\ is_uuid4 id = true /\ (forall t, ee_effective_at_utc e = Some t -> 0 <= t) /\
  is_uuid4 (ee_command_id e) = true.
Proof.
  unfold Review.load_event, is_correction. simpl. split.
  - intros Hr. apply bind_ok in Hr as (? & Hn%integrity_ok & Hr). apply bind_ok in Hr as (? & Hk%integrity_ok & Hr).
    apply bind_ok in Hr as (? & [-> Ht]%stored_uuid_opt_ok & Hr). apply bind_ok in Hr as (? & Hm & Hr).
    apply bind_ok in Hr as (? & Hrec%integrity_ok & Hr). apply bind_ok in Hr as (? & [-> Hu]%stored_uuid_ok & Hr).
    apply bind_ok in Hr as (? & [-> Hef]%stored_time_ok & Hr). apply bind_ok in Hr as (? & [-> Hc]%stored_uuid_ok & [= <-]).
    bool_hyps. apply set_token_elem in Hk. subst n. split_and!; [done..| |lia|done|done|done].
    destruct (ee_event_kind e =? "correction")%string; apply integrity_ok in Hm; bool_hyps.
    + destruct (ee_target_event_id e); [|done]. split; [done|]. destruct (ee_correction_action e) as [a|]; [|done].
      exists a. split; [done|]. by apply set_token_elem.
    + destruct (ee_target_event_id e), (ee_correction_action e); done.
  - intros (-> & <- & Hk & Ht & Hm & Hrec & Hu & Hef & Hc). rewrite Z.eqb_refl. simpl.
    rewrite (proj2 (set_token_elem _ _) Hk). simpl.
    rewrite (proj2 (stored_uuid_opt_ok _ _ _) (conj eq_refl Ht)). simpl.
    rewrite (proj2 (stored_uuid_ok _ _ _) (conj eq_refl Hu)), (proj2 (stored_uuid_ok _ _ _) (conj eq_refl Hc)),
      (proj2 (stored_time_ok _ _ _) (conj eq_refl Hef)), (proj2 (Z.ltb_ge _ _) Hrec).
    destruct (ee_event_kind e =? "correction")%string.
    + destruct Hm as ([t ->] & a & -> & Ha). simpl. by rewrite (proj2 (set_token_elem _ _) Ha).
    + by destruct Hm as [-> ->].
Qed.
Lemma fold_row_same s es n r ev :
  same_fold s es -> Review.load_event (n, r) = Ok ev -> same_result same_fold (fold_row s r) (Review.effective_event es ev).
Proof.
  destruct r as [id e]. intros Hsf (-> & Hn & Hk & Ht & Hm & Hrec & Hu & Hef & Hc)%load_event_ok.
  pose proof Hsf as [Hi Hs He]. unfold fold_row, Review.effective_event. simpl. rewrite Hs.
  rewrite (proj2 (stored_uuid_ok _ _ _) (conj eq_refl Hu)). simpl. apply same_result_forbid. intros Hnew.
  rewrite (proj2 (stored_time_ok _ _ _) (conj eq_refl Hef)). simpl.
  rewrite (proj2 (stored_uuid_opt_ok _ _ _) (conj eq_refl Ht)). simpl. unfold is_correction in *. simpl in *.
  destruct (ee_event_kind e =? "correction")%string eqn:E.
  - destruct Hm as ([t Et] & a & Ea & Ha). rewrite Et, Ea, (proj2 (set_token_elem _ _) Ha), He. simpl.
    destruct (Review.es_evidence es !! t) as [target|]; simpl; [|done]. apply same_result_forbid. intros Hw.
    unfold correct_evidence. apply elem_of_cons in Ha as [->|Ha%list_elem_of_singleton].
    + simpl. destruct (ee_effective_at_utc e) as [z|]; simpl; [|done]. rewrite Hw.
      exact (same_fold_insert s es t (Review.MkEffective _ _ _ _ (Some z) false) _ Hsf).
    + subst a. simpl. destruct (ee_effective_at_utc e) as [z|]; simpl; [done|].
      exact (same_fold_insert s es t (Review.MkEffective _ _ _ _ _ true) _ Hsf).
  - destruct Hm as [-> ->]. apply elem_of_cons in Hk as [Hk|Hk]; [by rewrite Hk in E|].
    change Review._BASE_EVENT_KINDS with ("start" :: "end" :: _TERMINAL_EVENT_KINDS) in Hk.
    rewrite (proj2 (set_token_elem _ _) Hk). simpl. apply same_result_forbid. intros _. simpl.
    split; simpl; [by rewrite Hi|done|]. intros i. destruct (decide (i = id)) as [->|Hne].
    + by rewrite !lookup_insert_eq.
    + by rewrite !lookup_insert_ne by done.
Qed.
Lemma fold_rows_same l events s es :
  same_fold s es -> traverse Review.load_event l = Ok events ->
  same_result same_fold (foldM fold_row s (map snd l)) (foldM Review.effective_event es events).
Proof.
  revert events s es. induction l as [|[n r] l IH]; intros events s es Hsf Hl; simpl in Hl; [by injection Hl as <-|].
  apply bind_ok in Hl as (ev & Hev & Hl). apply bind_ok in Hl as (evs & Hevs & [= <-]). simpl.
  eapply same_result_bind; [by eapply fold_row_same|]. intros s' es' Hsf'. by apply IH.
Qed.
Lemma fold_effective_same s es :
  same_fold s es -> foldM (fun f id => match Review.es_evidence es !! id with
      | Some item => Review.apply_effective f item | None => Raise key_error end) not_started (Review.es_ordered_base_ids es)
    = fold_effective s.
Proof.
  intros [Hi _ He]. unfold fold_effective. rewrite Hi. generalize not_started as f, (fs_ordered_base_ids s) as l.
  intros f l. revert f. induction l as [|i l IH]; intros f; [done|]. simpl. rewrite He.
  destruct (Review.es_evidence es !! i) as [item|]; simpl; [|done]. rewrite apply_effective_same.
  destruct (apply_evidence f (to_evidence item)); [apply IH|done].
Qed.
Lemma empty_same : same_fold empty_fold Review.empty_effective.
Proof. split; simpl; [done|done|]. intros id. by rewrite !lookup_empty. Qed.
(** The two folds of a loaded history. *)
Lemma fold_execution_same l events :
  traverse Review.load_event l = Ok events ->
  same_result (fun f fe => fe.1 = f) (_fold_execution_history (map snd l)) (Review._fold_execution events).
Proof.
  intros Hl. unfold _fold_execution_history, Review._fold_execution.
  eapply same_result_bind; [exact (fold_rows_same _ _ _ _ empty_same Hl)|]. intros s es Hsf.
  rewrite (fold_effective_same s es Hsf). by destruct (fold_effective s).
Qed.

(** * The two authorities *)
Lemma numbered_snd {A} (l : list A) : map snd (Review.numbered l) = l.
Proof.
  unfold Review.numbered. change (fmap snd (imap (fun n a => (Z.of_nat n + 1, a)) l) = l).
  rewrite fmap_imap. simpl. induction l as [|x l IH]; [done|]. simpl. f_equal. by rewrite <-IH at 2.
Qed.
Definition loaded (r : history_row) : Review._ExecutionEvent :=
  let e := r.2 in Review.MkEvent r.1 (ee_execution_revision e) (ee_event_kind e) (ee_effective_at_utc e)
    (ee_target_event_id e) (ee_correction_action e) (ee_reason_code e) (ee_recorded_at_utc e) (ee_command_id e).
(** The columns only the previews check. *)
Definition recorded_ok (r : history_row) : Prop := 0 <= ee_recorded_at_utc r.2 /\ is_uuid4 (ee_command_id r.2) = true.
Lemma loaded_events l events :
  traverse Review.load_event l = Ok events ->
  events = map (fun nr : Z * history_row => loaded nr.2) l /\
  map (fun nr : Z * history_row => ee_execution_revision nr.2.2) l = map fst l /\
  Forall (fun nr : Z * history_row => recorded_ok nr.2) l.
Proof.
  intros H%traverse_ok. induction H as [|[n [id e]] ev l events Hev _ (-> & Hrev & Hrec)]; [done|].
  apply load_event_ok in Hev as (-> & <- & _ & _ & _ & Hr & _ & _ & Hc). simpl. rewrite Hrev.
  split; [done|]. split; [done|]. by constructor.
Qed.
Lemma load_events_total pre l :
  history_ok (pre ++ map snd l) -> map (fun nr : Z * history_row => ee_execution_revision nr.2.2) l = map fst l ->
  Forall (fun nr : Z * history_row => recorded_ok nr.2) l -> exists events, traverse Review.load_event l = Ok events.
Proof.
  revert pre. induction l as [|[n [id e]] l IH]; intros pre Hok Hrev Hrec; [by eexists|]. simpl in *.
  injection Hrev as Hn Hrev. inversion Hrec as [|? ? [Hr Hc] Hrec']; subst. simpl in *.
  destruct (IH (pre ++ [(id, e)])) as [events ->]; [by rewrite <-app_assoc|done|done|].
  specialize (Hok pre (id, e) (map snd l) eq_refl) as [Hu Hnew Htime Htarget Hkind]. simpl in *.
  exists (loaded (id, e) :: events). apply bind_ok. exists (loaded (id, e)). split; [|done].
  apply load_event_ok. split; [done|]. split; [done|].
  unfold is_correction in *. simpl in *. destruct (ee_event_kind e =? "correction")%string eqn:E.
  - destruct Hkind as (t & Et & _ & _ & Ha). apply String.eqb_eq in E. rewrite E. split; [set_solver|].
    split; [done|]. split; [|done]. split; [by eexists|]. destruct Ha as [[-> _]|[-> _]]; eexists; (split; [done|]); set_solver.
  - destruct Hkind as (Hk & Et & Ha & _). split; [by apply elem_of_cons; right|]. done.
Qed.
Lemma numbered_fst {A} (l : list A) : map fst (Review.numbered l) = seqZ 1 (Z.of_nat (length l)).
Proof.
  unfold Review.numbered. change (fmap fst (imap (fun n a => (Z.of_nat n + 1, a)) l) = seqZ 1 (Z.of_nat (length l))).
  rewrite fmap_imap. apply list_eq. intros i. rewrite list_lookup_imap. destruct (l !! i) as [x|] eqn:E; simpl.
  - symmetry. apply lookup_seqZ. apply lookup_lt_Some in E. lia.
  - symmetry. apply lookup_seqZ_ge. apply lookup_ge_None in E. lia.
Qed.
Lemma numbered_revisions (rows : list history_row) :
  map (fun nr : Z * history_row => ee_execution_revision nr.2.2) (Review.numbered rows) = revisions rows.
Proof.
  unfold revisions. rewrite <-(numbered_snd rows) at 2. by rewrite map_map.
Qed.

(** What a preview sees of an authority, as a command sees it. *)
Definition command_view (x : Review._ExecutionAuthority) : _ExecutionAuthority :=
  MkAuthority (Review.ra_revision x) (Review.ra_state x) (Review.ra_actual_start_utc x) (Review.ra_actual_end_utc x)
    (Review.ra_effective_termination_utc x) (Review.ra_last_event_id x) (present_opt (Review.ra_last_event_id x)).
Lemma loaded_numbered rows events :
  traverse Review.load_event (Review.numbered rows) = Ok events ->
  events = map loaded rows /\ revisions rows = seqZ 1 (Z.of_nat (length rows)) /\ Forall recorded_ok rows.
Proof.
  intros (-> & Hrev & Hrec)%loaded_events. rewrite numbered_revisions, numbered_fst in Hrev.
  split; [|split; [done|]].
  - rewrite <-(numbered_snd rows) at 2. by rewrite map_map.
  - rewrite <-(numbered_snd rows). apply Forall_fmap. done.
Qed.
Lemma load_authority_view db t x :
  Review._load_execution_authority db t = Ok x ->
  _execution_authority db t = Ok (command_view x) /\ Review.ra_events x = map loaded (history_rows db t) /\
  Forall recorded_ok (history_rows db t).
Proof.
  unfold Review._load_execution_authority. intros (events & Hev & Hr)%bind_ok.
  destruct (loaded_numbered _ _ Hev) as (Ee & Hnum & Hrec).
  destruct (task_execution_projection db !! t) as [p|] eqn:Ep.
  - apply bind_ok in Hr as (? & Hp%integrity_ok & Hr). bool_hyps.
    destruct (last events) as [final|] eqn:El; [|done].
    apply bind_ok in Hr as (? & Hst%integrity_ok & Hr). apply bind_ok in Hr as (? & [-> Hu]%stored_uuid_ok & Hr).
    apply bind_ok in Hr as (? & Hl%integrity_ok & Hr). apply bind_ok in Hr as (fe & Hf & Hr).
    apply bind_ok in Hr as (? & [-> Hs]%stored_time_ok & Hr). apply bind_ok in Hr as (? & [-> He]%stored_time_ok & Hr).
    apply bind_ok in Hr as (? & [-> Ht]%stored_time_ok & Hr). apply bind_ok in Hr as (? & Heq%integrity_ok & [= <-]).
    bool_hyps. pose proof (fold_execution_same _ _ Hev) as Hsame. rewrite Hf, numbered_snd in Hsame.
    destruct (_fold_execution_history (history_rows db t)) as [f|] eqn:Ef; [|done]. simpl in Hsame.
    split; [|by split]. apply execution_authority_ok. rewrite Ep. split; [|done].
    subst events. rewrite length_map in *. split; [done|done| |rewrite Ef; f_equal; etrans; [exact (eq_sym Hsame)|exact (eq_sym Heq)]].
    change (last (loaded <$> history_rows db t) = Some final) in El. rewrite fmap_last in El.
    destruct (last (history_rows db t)) as [y|]; [|done]. injection El as <-. simpl in *. congruence.
  - apply bind_ok in Hr as (? & Hl%integrity_ok & [= <-]). bool_hyps.
    assert (history_rows db t = []) as Hn.
    { subst events. rewrite length_map in *. by apply nil_length_inv. }
    split; [|by rewrite Hn in *]. apply execution_authority_ok. by rewrite Ep.
Qed.
(** C37.  The previews and the commands read the same execution authority:
    where every event of a task has a recording time and a command, the
    preview's loader succeeds exactly when the command's does, with the same
    revision, state, instants and last event. *)
Theorem load_execution_authority_agrees db t a :
  Forall recorded_ok (history_rows db t) ->
  (exists x, Review._load_execution_authority db t = Ok x /\ command_view x = a) <-> _execution_authority db t = Ok a.
Proof.
  intros Hrec. split; [by intros (x & [Hx _]%load_authority_view & <-)|]. intros Ha.
  destruct (authority_numbered _ _ _ Ha) as [Hnum _]. pose proof (authority_fold _ _ _ Ha) as Hfold.
  destruct (load_events_total [] (Review.numbered (history_rows db t))) as [events Hev].
  { simpl. rewrite numbered_snd. by apply fold_history_ok in Hfold as [? _]. }
  { by rewrite numbered_revisions, numbered_fst. }
  { rewrite <-(numbered_snd (history_rows db t)) in Hrec. by apply (Forall_fmap snd) in Hrec. }
  destruct (loaded_numbered _ _ Hev) as (Ee & _ & _). pose proof (fold_execution_same _ _ Hev) as Hsame.
  rewrite numbered_snd, Hfold in Hsame. unfold Review._load_execution_authority. rewrite Hev. simpl.
  apply execution_authority_ok in Ha. destruct (task_execution_projection db !! t) as [p|].
  - destruct Ha as [[Hp _ Hl Hf] ->].
    destruct (Review._fold_execution events) as [fe|] eqn:Efe; [|done]. simpl in Hsame.
    assert (is_uuid4 (ex_last_event_id p) = true) as Hu.
    { destruct (last (history_rows db t)) as [y|] eqn:El; [|done]. injection Hl as <-.
      apply fold_history_ok in Hf as [Hok _]. apply last_Some in El as (pre & El). rewrite El in Hok.
      apply history_ok_snoc in Hok as [_ Hy]. exact (ro_uuid _ _ Hy). }
    pose proof (fold_well_shaped _ _ Hf) as [(Ts & Te & Tt) Hstates].
    assert (history_rows db t <> []) as Hne by (intros E; by rewrite E in Hl).
    subst events. rewrite length_map, Hp, Z.eqb_refl.
    rewrite (proj2 (Z.leb_gt _ _)) by (destruct (history_rows db t); simpl in *; [done|lia]). simpl.
    change (last (map loaded (history_rows db t))) with (last (loaded <$> history_rows db t)). rewrite fmap_last.
    destruct (last (history_rows db t)) as [y|]; [|done]. injection Hl as Hl. simpl.
    assert (set_token _EXECUTION_STATES (ex_execution_state p) = true) as ->.
    { apply set_token_elem. destruct Hstates as [(-> & _)|[(-> & _)|[(-> & _)|(-> & _)]]]; unfold _EXECUTION_STATES; set_solver. }
    simpl. rewrite stored_uuid_id by done. simpl. rewrite Hl, String.eqb_refl. simpl.
    rewrite !stored_time_id by done. simpl. rewrite bool_decide_eq_true_2 by exact (eq_sym Hsame). simpl.
    eexists. split; [done|]. unfold command_view, authority_of. simpl. by rewrite Hp.
  - destruct Ha as [Hn ->]. subst events. rewrite Hn. simpl. by eexists.
Qed.

#[local] Arguments set_token : simpl never.

Definition latest_first (r : history_row) : Z * string := (ee_execution_revision r.2, r.1).
Lemma latest_first_sorted rows :
  revisions rows = seqZ 1 (Z.of_nat (length rows)) ->
  StronglySorted (le_key (fun rv : Z * string => - rv.1)) (reverse (map latest_first rows)).
Proof.
  induction rows as [|r rows IH] using rev_ind; [constructor|]. unfold revisions. rewrite !map_app, reverse_app, length_app.
  simpl. rewrite Nat2Z.inj_add, seqZ_app by lia. intros [Hn Hr]%app_inj_tail. constructor; [by apply IH|].
  apply Forall_forall. intros y (x & -> & Hx)%elem_of_reverse%list_elem_of_fmap.
  assert (ee_execution_revision x.2 ∈ seqZ 1 (Z.of_nat (length rows))) as Hin.
  { rewrite <-Hn. by apply (list_elem_of_fmap_2 (fun r : history_row => ee_execution_revision r.2)). }
  apply elem_of_seqZ in Hin. unfold le_key, leb, cmp, latest_first. simpl. rewrite Hr.
  destruct (_ ?= _) eqn:E; [done|done|].
  apply Z.compare_gt_iff in E. lia.
Qed.
Lemma execution_history_reversed d t :
  revisions (history_rows d t) = seqZ 1 (Z.of_nat (length (history_rows d t))) ->
  execution_history d t = reverse (map latest_first (history_rows d t)).
Proof.
  intros Hn. unfold execution_history. rewrite <-(py_sorted_id _ _ (latest_first_sorted _ Hn)).
  apply py_sorted_canonical.
  - intros x y Hx Hy E.
    assert (forall z, z ∈ map (fun kv : string * ExecutionEventRow => (ee_execution_revision kv.2, kv.1))
      (filter (fun kv => ee_task_id kv.2 = t) (map_to_list (task_execution_events d))) ->
      exists r, r ∈ history_rows d t /\ z = latest_first r) as Hel.
    { intros z (r & -> & Hr)%list_elem_of_fmap. exists r. split; [|done]. by apply elem_of_py_sorted. }
    destruct (Hel x Hx) as (r & Hr & ->), (Hel y Hy) as (r' & Hr' & ->). unfold latest_first in E. simpl in E.
    by rewrite (revision_inj (history_rows d t) r r' (revisions_NoDup _ _ Hn) Hr Hr' ltac:(lia)).
  - rewrite reverse_Permutation. unfold history_rows. rewrite py_sorted_perm. done.
Qed.
Lemma optional_nonnegative_id v label : time_ok v -> _optional_nonnegative v label = Ok v.
Proof. exact (stored_time_id v label). Qed.
(** An authority as the aggregate reads it. *)
Definition aggregate_view (a : _ExecutionAuthority) : execution_authority :=
  MkExecutionAuthority (au_revision a) (au_state a) (au_actual_start_utc a) (au_actual_end_utc a)
    (au_effective_termination_utc a).
(** The execution a task command trusts is the one the Objective's
    aggregate reads: wherever the command's authority is consistent, the
    aggregate accepts the same revision, state and instants. *)
Theorem member_execution_agrees d t a :
  is_uuid4 t = true -> _execution_authority d t = Ok a ->
  member_execution d t = Ok (aggregate_view a).
Proof.
  unfold aggregate_view.
  intros Hu Ha. destruct (authority_numbered _ _ _ Ha) as [Hnum Hrev]. unfold member_execution.
  rewrite (execution_history_reversed _ _ Hnum), length_reverse, length_map.
  apply execution_authority_ok in Ha. destruct (task_execution_projection d !! t) as [x|] eqn:Ex.
  - destruct Ha as [[Hp _ Hl Hf] ->]. simpl in *. destruct (last (history_rows d t)) as [[id e]|] eqn:El; [|done].
    injection Hl as Hl. pose proof El as (pre & Epre)%last_Some. rewrite Epre in *.
    assert ((id, e) ∈ history_rows d t) as Hin by (rewrite Epre; set_solver).
    apply elem_of_py_sorted, list_elem_of_filter in Hin as [Ht Hin]. apply elem_of_map_to_list in Hin. simpl in Ht, Hin.
    pose proof (fold_well_shaped _ _ Hf) as Hw. pose proof Hw as [(Ts & Te & Tt) Hstates].
    apply fold_history_ok in Hf as [Hok _]. apply history_ok_snoc in Hok as [_ Hrow].
    pose proof (ro_uuid _ _ Hrow) as Huid. simpl in Huid. unfold revisions in Hnum. rewrite map_app, length_app in Hnum.
    simpl in Hnum. rewrite Nat2Z.inj_add, seqZ_app in Hnum by lia. apply app_inj_tail in Hnum as [_ Hlast].
    rewrite length_app in Hrev. simpl in Hrev.
    assert (ee_execution_revision e = Z.of_nat (length pre + 1)) as Hnumber by lia.
    rewrite map_app, reverse_app, length_app. simpl. rewrite Hnumber, Z.eqb_refl. simpl.
    rewrite (stored_uuid_id id) by done. simpl. unfold _positive. rewrite Hrev, <-Hl.
    rewrite (proj2 (Z.leb_gt _ _)) by lia. simpl. rewrite Hin.
    assert (set_token _EXECUTION_STATES (ex_execution_state x) = true) as ->.
    { apply set_token_elem. destruct Hstates as [(-> & _)|[(-> & _)|[(-> & _)|(-> & _)]]]; unfold _EXECUTION_STATES; set_solver. }
    simpl. rewrite Z.eqb_refl. simpl.
    rewrite Ht, !(stored_uuid_id t), !(stored_uuid_id id) by done. simpl. rewrite String.eqb_refl. simpl.
    rewrite bool_decide_eq_true_2 by done. simpl.
    rewrite !optional_nonnegative_id by done. simpl. rewrite (well_shaped_valid _ _ _ _ Hw). simpl.
    unfold authority_of. simpl. done.
  - destruct Ha as [Hn ->]. by rewrite Hn.
Qed.
