(* ===== verification/TaskHistory.v ===== *)
(** The life of a task: every sequence of the task commands refines a small
    machine over one immutable history and one current outcome. *)
From S2P Require Import Prelude StrictJson Identifiers Grouping Jobs AuditLedger Tables CommandBoundary.
From S2P Require Import CommandReplay CommandAudit CommandDomain ObjectiveTables Regroup ObjectiveStore.
From S2P Require Import ObjectiveAggregate RegroupStore RegroupManual RegroupContracts RegroupCommands.
From S2P Require Import ObjectiveAggregateProps TaskFold TaskStore TaskAuthority TaskPreviews TaskContracts.
From S2P Require Import TaskExecution TaskCorrection TaskLife TaskAgree.
#[local] Arguments set_token : simpl never.

(** * The machine *)
Definition task_life : Type := list history_row * option OutcomeRow.
Definition life (d : ObjDb) (t : string) : task_life := (history_rows d t, task_outcome_current d !! t).
(** The outcome is one the execution can have had. *)
Definition fits (o : OutcomeRow) (f : folded) : Prop :=
  let '(state, start, end_, _) := f in Review._outcome_is_valid (ou_accepted_outcome o) state start end_ = true.
Inductive life_step : task_life -> task_life -> Prop :=
| life_started h r s : _fold_execution_history h = Ok not_started -> ee_event_kind r.2 = "start" ->
    _fold_execution_history (h ++ [r]) = Ok ("in_progress", Some s, None, None) -> life_step (h, None) (h ++ [r], None)
| life_ended h r s e : _fold_execution_history h = Ok ("in_progress", Some s, None, None) -> ee_event_kind r.2 = "end" ->
    s <= e -> _fold_execution_history (h ++ [r]) = Ok ("ended", Some s, Some e, None) ->
    life_step (h, None) (h ++ [r], None)
| life_cancelled h r c o : _fold_execution_history h = Ok not_started -> ee_event_kind r.2 = "manual_cancel" ->
    _fold_execution_history (h ++ [r]) = Ok ("terminated", None, None, Some c) ->
    ou_accepted_outcome o = "cancelled_without_execution" -> ou_revision o = 1 -> life_step (h, None) (h ++ [r], Some o)
| life_corrected h r o f : is_correction r = true -> _fold_execution_history (h ++ [r]) = Ok f ->
    life_step (h, o) (h ++ [r], o)
| life_reviewed h o f : _fold_execution_history h = Ok f -> fits o f -> ou_revision o = 1 -> life_step (h, None) (h, Some o)
| life_outcome_corrected h o o' f : _fold_execution_history h = Ok f -> fits o' f -> ou_revision o' = ou_revision o + 1 ->
    life_step (h, Some o) (h, Some o').

(** * One task acted upon *)
Definition tasks_ok (d : ObjDb) : Prop := executions_ok d /\ outcomes_ok d.
Record acted (t : string) (d d' : ObjDb) : Prop := {
  ac_ok : tasks_ok d';
  ac_self : life_step (life d t) (life d' t);
  ac_other : forall t', t' <> t -> life d' t' = life d t'
}.
Definition moves (d d' : ObjDb) : Prop :=
  tasks_ok d -> tasks_ok d' /\ forall t, star life_step (life d t) (life d' t).
Lemma moves_refl d : moves d d.
Proof. intros Hok. split; [done|]. intros t. apply star_refl. Qed.
Lemma moves_trans d1 d2 d3 : moves d1 d2 -> moves d2 d3 -> moves d1 d3.
Proof.
  intros H1 H2 Hok. destruct (H1 Hok) as [Hok2 S1], (H2 Hok2) as [Hok3 S2]. split; [done|]. intros t.
  by eapply star_trans.
Qed.
Lemma acted_moves t d d' : (tasks_ok d -> acted t d d') -> moves d d'.
Proof.
  intros Ha Hok. destruct (Ha Hok) as [Hok' Hs Ho]. split; [done|]. intros t'.
  destruct (decide (t' = t)) as [->|Hne]; [by apply star_one|]. rewrite Ho by done. apply star_refl.
Qed.

Lemma no_outcome d t : _has_terminal_outcome d t = Ok false -> task_outcome_current d !! t = None /\ outcome_rows d t = [].
Proof. intros Hr%has_terminal_outcome_ok. destruct (task_outcome_current d !! t); [by destruct Hr as (_ & _ & _ & _ & ?)|by destruct Hr]. Qed.
Lemma moved_other_rows d t a event e x n t' :
  executions_ok d -> move_ok t event e x n a d -> t' <> t -> history_rows (moved t event e x n d) t' = history_rows d t'.
Proof.
  intros Hx [Hn Hnew Ht Hr Hx' Hl _] Hne. destruct (Hx t') as [a' Ha'].
  apply (append_authority_other d (moved t event e x n d) t' a' event e); [done|done|congruence|done|].
  simpl. by rewrite lookup_insert_ne.
Qed.
Lemma moved_acted d t a event e x n :
  tasks_ok d -> _execution_authority d t = Ok a -> move_ok t event e x n a d ->
  _fold_execution_history (history_rows d t ++ [(event, e)]) = Ok (projection_of x) ->
  life_step (life d t) (history_rows d t ++ [(event, e)], task_outcome_current d !! t) -> acted t d (moved t event e x n d).
Proof.
  intros [Hx Ho] Ha Hm Hf Hs. destruct (moved_authority _ _ _ _ _ _ _ Ha Hm Hf) as [_ Hrows]. split.
  - split; [by eapply executions_ok_moved|exact Ho].
  - unfold life. by rewrite Hrows.
  - intros t' Hne. unfold life. f_equal. by eapply moved_other_rows.
Qed.

(** ** Outcomes *)
Lemma outcome_rows_written d t t' event e o :
  task_outcome_events d !! event = None ->
  length (outcome_rows (outcome_written t event e o d) t')
  = (if decide (oe_task_id e = t') then S (length (outcome_rows d t')) else length (outcome_rows d t'))%nat.
Proof.
  intros Hn. unfold outcome_rows, outcome_written. simpl. rewrite (map_to_list_insert _ _ _ Hn), filter_cons. simpl.
  by case_decide.
Qed.
Lemma outcome_written_ok d t event e o :
  outcomes_ok d -> task_outcome_events d !! event = None -> oe_task_id e = t -> is_uuid4 event = true ->
  ou_outcome_event_id o = event -> ou_accepted_outcome o ∈ _OUTCOMES ->
  ou_revision o = Z.of_nat (length (outcome_rows d t)) + 1 -> outcomes_ok (outcome_written t event e o d).
Proof.
  intros Hok Hn <- Hu Ho Ht Hr t'. destruct (decide (t' = oe_task_id e)) as [->|Hne].
  - exists true. apply has_terminal_outcome_ok. rewrite outcome_rows_written, decide_True by done. simpl.
    rewrite lookup_insert_eq, Ho. split_and!; [done|done|lia|lia|done].
  - destruct (Hok t') as [b Hb]. exists b. apply has_terminal_outcome_ok in Hb. apply has_terminal_outcome_ok.
    rewrite outcome_rows_written, decide_False by done. simpl. rewrite lookup_insert_ne by done.
    destruct (task_outcome_current d !! t'); [done|]. destruct Hb as [Hb ->]. split; [|done].
    apply nil_length_inv. rewrite outcome_rows_written, decide_False by done. by rewrite Hb.
Qed.
Lemma outcome_acted d t event e o n :
  tasks_ok d -> task_outcome_events d !! event = None -> oe_task_id e = t -> is_uuid4 event = true ->
  ou_outcome_event_id o = event -> ou_accepted_outcome o ∈ _OUTCOMES ->
  ou_revision o = Z.of_nat (length (outcome_rows d t)) + 1 -> life_step (life d t) (history_rows d t, Some o) ->
  acted t d (set_tasks (<[t := n]> (tasks d)) (outcome_written t event e o d)).
Proof.
  intros [Hx Hok] Hn Ht Hu Ho Htok Hr Hs. split.
  - split; [exact Hx|]. exact (outcome_written_ok d t event e o Hok Hn Ht Hu Ho Htok Hr).
  - unfold life at 2. simpl. by rewrite lookup_insert_eq.
  - intros t' Hne. unfold life. simpl. by rewrite lookup_insert_ne.
Qed.

(** * What the guards establish *)
Lemma startable_ok d t n who a :
  startable d t n who = Ok a ->
  _execution_authority d t = Ok a /\ au_revision a = n /\ au_state a = "not_started" /\ _has_terminal_outcome d t = Ok false.
Proof.
  unfold startable. intros (a' & Ha & Hr)%bind_ok. apply bind_ok in Hr as (? & Hn%forbid_ok & Hr).
  apply bind_ok in Hr as (? & _ & Hr). apply bind_ok in Hr as (b & Hb & Hr). apply bind_ok in Hr as (? & Hf%forbid_ok & Hr).
  apply bind_ok in Hr as (? & Hs%integrity_ok & [= <-]). bool_hyps. subst b.
  destruct (set_token ["ended"; "terminated"] (au_state a')) eqn:E; [done|done].
Qed.
Lemma endable_ok d t n e a :
  endable d t n e = Ok a ->
  _execution_authority d t = Ok a /\ au_revision a = n /\ au_state a = "in_progress" /\
  (exists s, au_actual_start_utc a = Some s /\ s <= e) /\ _has_terminal_outcome d t = Ok false.
Proof.
  unfold endable. intros (a' & Ha & Hr)%bind_ok. apply bind_ok in Hr as (? & Hn%forbid_ok & Hr).
  apply bind_ok in Hr as (? & _ & Hr). apply bind_ok in Hr as (? & _ & Hr).
  destruct (String.eqb_spec (au_state a') "in_progress") as [Es|]; [|done].
  destruct (au_actual_start_utc a') as [s|] eqn:Est; [|done]. apply bind_ok in Hr as (b & Hb & Hr).
  apply bind_ok in Hr as (? & Hf%integrity_ok & Hr). apply bind_ok in Hr as (? & Hle%forbid_ok & [= <-]). bool_hyps.
  subst b. split_and!; [done|done|done| |done]. exists s. by split; [|lia].
Qed.
Lemma cancellable_ok d t n x m a :
  cancellable d t n x = Ok (m, a) ->
  task_get d t = Some m /\ m = n /\ _execution_authority d t = Ok a /\ au_revision a = x /\ au_state a = "not_started" /\
  _has_terminal_outcome d t = Ok false.
Proof.
  unfold cancellable. destruct (task_get d t) as [k|]; [|done]. intros (a' & Ha & Hr)%bind_ok.
  apply bind_ok in Hr as (b & Hb & Hr). apply bind_ok in Hr as (? & Hrev & Hr). apply bind_ok in Hr as (? & _ & Hr).
  apply bind_ok in Hr as (? & Hf%forbid_ok & Hr). apply bind_ok in Hr as (? & Hn%forbid_ok & Hr).
  apply bind_ok in Hr as (? & Hs%integrity_ok & [= <- <-]). bool_hyps. subst b.
  destruct (au_revision a' =? x) eqn:E; [|by inv_ok Hrev]. bool_hyps.
  by split_and!.
Qed.

(** * The writes of each command *)
Lemma start_acted d t a event accepted recorded command n d' u :
  tasks_ok d -> _execution_authority d t = Ok a -> au_state a = "not_started" -> _has_terminal_outcome d t = Ok false ->
  is_uuid4 event = true -> start_one t a event accepted recorded command n d = (d', Ok u) -> acted t d d'.
Proof.
  intros Hok Ha Hs [Ho _]%no_outcome Hu (x & Hx & Hm & ->)%(start_one_ok _ _ _ _ _ _ _ _ _ _ Ha).
  pose proof (start_fold _ _ _ _ _ _ _ _ _ Ha Hs Hu Hm Hx) as Hf. apply (moved_acted d t a); try done.
  unfold life. rewrite Ho. apply life_started with accepted; [|done|by rewrite Hf, Hx].
  rewrite (authority_fold _ _ _ Ha). by rewrite (not_started_fold _ _ _ Ha Hs).
Qed.
Lemma end_acted d t a event e recorded command n d' u :
  tasks_ok d -> endable d t (au_revision a) e = Ok a -> is_uuid4 event = true ->
  apply_end t a event e recorded command n d = (d', Ok u) -> acted t d d'.
Proof.
  intros Hok (Ha & _ & Hs & (s & Hst & Hle) & [Ho _]%no_outcome)%endable_ok Hu
    (x & row & Hx & Hk & He & Htg & Hac & Hm & ->)%(apply_end_ok _ _ _ _ _ _ _ _ _ _ Ha).
  pose proof (end_fold _ _ _ _ _ _ _ _ _ Ha Hs Hst Hle Hu Hm Hk He Htg Hac Hx) as Hf. apply (moved_acted d t a); try done.
  unfold life. rewrite Ho. apply life_ended with s e; [|done|done|by rewrite Hf, Hx, Hst].
  pose proof (authority_fold _ _ _ Ha) as Hfold. rewrite Hfold. apply fold_well_shaped in Hfold. unfold folded_of in *.
  rewrite Hs, Hst in *. by destruct Hfold as [_ [(? & _)|[(_ & _ & -> & ->)|[(? & _)|(? & _)]]]].
Qed.
Lemma correction_acted d t a last event target action replacement reason recorded command n d' u :
  tasks_ok d -> _execution_authority d t = Ok a ->
  apply_correction t a last event target action replacement reason recorded command n d = (d', Ok u) -> acted t d d'.
Proof.
  intros Hok Ha (x & Hf & Hm & ->)%(apply_correction_ok _ _ _ _ _ _ _ _ _ _ _ _ _ _ Ha).
  apply (moved_acted d t a); try done. by apply life_corrected with (projection_of x).
Qed.
Lemma cancel_acted d t a event outcome c recorded reason command n d' u :
  tasks_ok d -> _execution_authority d t = Ok a -> au_state a = "not_started" -> _has_terminal_outcome d t = Ok false ->
  is_uuid4 event = true -> is_uuid4 outcome = true ->
  apply_cancel t a event outcome c recorded reason command n d = (d', Ok u) -> acted t d d'.
Proof.
  intros Hok Ha Hs [Ho Hrows]%no_outcome Hu Huo
    (x & e & Hx & Hk & He & Htg & Hac & Hm & Hnew & Hcur & ->)%(apply_cancel_ok _ _ _ _ _ _ _ _ _ _ _ _ Ha).
  pose proof (cancel_fold _ _ _ _ _ _ _ _ Ha Hs Hu Hm Hk He Htg Hac Hx) as Hf.
  pose proof (executions_ok_moved d t a event e x n (proj1 Hok) Ha Hm Hf) as Hexec.
  destruct (moved_authority _ _ _ _ _ _ _ Ha Hm Hf) as [_ Hhist]. split.
  - split; [exact Hexec|]. eapply outcome_written_ok; [exact (proj2 Hok)|exact Hnew|done|done|done| |].
    + unfold _OUTCOMES. simpl. set_solver.
    + change (1 = Z.of_nat (length (outcome_rows d t)) + 1). by rewrite Hrows.
  - unfold life. rewrite Ho.
    change (history_rows (outcome_written _ _ _ _ (moved t event e x n d)) t) with (history_rows (moved t event e x n d) t).
    rewrite Hhist. simpl. rewrite lookup_insert_eq.
    apply life_cancelled with c; [|done|by rewrite Hf, Hx|done|done].
    rewrite (authority_fold _ _ _ Ha). by rewrite (not_started_fold _ _ _ Ha Hs).
  - intros t' Hne. unfold life. simpl. rewrite lookup_insert_ne by done. f_equal.
    exact (moved_other_rows _ _ _ _ _ _ _ _ (proj1 Hok) Hm Hne).
Qed.
Lemma apply_review_ok t event outcome reason reviewed_at command n d d' u :
  apply_review t event outcome reason reviewed_at command n d = (d', Ok u) ->
  task_outcome_events d !! event = None /\ task_outcome_current d !! t = None /\
  d' = set_tasks (<[t := n + 1]> (tasks d)) (outcome_written t event (MkOutcomeEventRow t outcome None reason reviewed_at command)
    (MkOutcomeRow event outcome reviewed_at 1 command) d).
Proof.
  unfold apply_review. intros (d1 & v & H1 & (d2 & w & H2 & H3)%stm_bind_ok)%stm_bind_ok.
  apply insert_outcome_event_ok in H1 as [-> Hn]. apply insert_outcome_ok in H2 as (-> & Hc & _).
  by apply increment_revision_ok in H3 as [_ ->].
Qed.
Lemma review_acted d t event outcome reason reviewed_at command n d' u f :
  tasks_ok d -> _fold_execution_history (history_rows d t) = Ok f -> is_uuid4 event = true ->
  fits (MkOutcomeRow event outcome reviewed_at 1 command) f -> outcome ∈ _OUTCOMES ->
  apply_review t event outcome reason reviewed_at command n d = (d', Ok u) -> acted t d d'.
Proof.
  intros Hok Hf Hu Hfits Htok (Hn & Hc & ->)%apply_review_ok. apply outcome_acted; try done.
  - simpl. destruct (proj2 Hok t) as [b Hb%has_terminal_outcome_ok]. rewrite Hc in Hb. destruct Hb as [-> _]. done.
  - unfold life. rewrite Hc. by apply life_reviewed with f.
Qed.
Lemma apply_outcome_correction_ok t event current outcome revision reason reviewed_at command n d d' u :
  apply_outcome_correction t event current outcome revision reason reviewed_at command n d = (d', Ok u) ->
  task_outcome_events d !! event = None /\ exists o, task_outcome_current d !! t = Some o /\ ou_revision o = revision /\
  d' = set_tasks (<[t := n + 1]> (tasks d)) (outcome_written t event
    (MkOutcomeEventRow t outcome (Some current) reason reviewed_at command)
    (MkOutcomeRow event outcome reviewed_at (ou_revision o + 1) command) d).
Proof.
  unfold apply_outcome_correction.
  intros (d1 & v & H1 & (d2 & k & H2 & (d3 & w & [-> Hk%forbid_ok]%lift_ok & H3)%stm_bind_ok)%stm_bind_ok)%stm_bind_ok.
  bool_hyps. apply insert_outcome_event_ok in H1 as [-> Hn]. apply update_outcome_ok in H2 as (o & Hc & Hr & _ & _ & ->); [|done].
  apply increment_revision_ok in H3 as [_ ->]. split; [done|]. by exists o.
Qed.
Lemma outcome_correction_acted d t event current outcome revision reason reviewed_at command n d' u f :
  tasks_ok d -> _fold_execution_history (history_rows d t) = Ok f -> is_uuid4 event = true ->
  fits (MkOutcomeRow event outcome reviewed_at 1 command) f -> outcome ∈ _OUTCOMES ->
  apply_outcome_correction t event current outcome revision reason reviewed_at command n d = (d', Ok u) -> acted t d d'.
Proof.
  intros Hok Hf Hu Hfits Htok (Hn & o & Hc & Hr & ->)%apply_outcome_correction_ok. apply outcome_acted; try done.
  - simpl. destruct (proj2 Hok t) as [b Hb%has_terminal_outcome_ok]. rewrite Hc in Hb. destruct Hb as (_ & _ & _ & -> & _). done.
  - unfold life. rewrite Hc. by apply life_outcome_corrected with f.
Qed.
