(* ===== verification/TaskRuns.v ===== *)
(** The task commands as steps, and what no sequence of them can do. *)
From S2P Require Import Prelude StrictJson Identifiers Grouping Jobs AuditLedger Tables CommandBoundary.
From S2P Require Import CommandReplay CommandAudit CommandDomain ObjectiveTables Regroup ObjectiveStore.
From S2P Require Import ObjectiveAggregate RegroupStore RegroupManual RegroupContracts RegroupCommands.
From S2P Require Import ObjectiveAggregateProps TaskFold TaskStore TaskAuthority TaskPreviews TaskContracts.
From S2P Require Import TaskExecution TaskCorrection TaskLife TaskAgree TaskHistory.
#[local] Arguments set_token : simpl never.

Definition ledger_moves (db db' : LedgerDb ObjDb) : Prop := moves (domain_state db) (domain_state db').
Lemma ledger_moves_refl db : ledger_moves db db.
Proof. apply moves_refl. Qed.
(** Skip a fallible read: when it fails, nothing has changed. *)
Ltac reads Hr :=
  let a := fresh "a" in let E := fresh "E" in
  apply lift_bind_any in Hr as [(a & E & Hr)| ->]; [|by apply ledger_moves_refl].

Section runs.
Context `{Sha256, FloatText} (fresh : site -> string) (clock : site -> Z).
Context (audit : AuditRegistry) (audit_clock : string -> Z).
Hypothesis fresh_uuid : forall s, is_uuid4 (fresh s) = true.

(** * The rebuild of the Objective leaves every life alone *)
Lemma rebuild_moves id command d d' row : rebuild_aggregate id command d = (d', Ok row) -> moves d d'.
Proof. intros (_ & _ & m & f & _ & _ & _ & _ & ->)%rebuild_aggregate_ok. exact (moves_refl d). Qed.
Lemma rebuild_member_moves t command d d' u : rebuild_objective_if_member t command d = (d', Ok u) -> moves d d'.
Proof.
  unfold rebuild_objective_if_member. intros (d1 & db & [= <- <-] & Hr)%stm_bind_ok.
  apply stm_bind_ok in Hr as (d1 & m & [-> _]%lift_ok & Hr). destruct m as [m|]; [|injection Hr as <- _; apply moves_refl].
  by apply stm_bind_ok in Hr as (d2 & row & Hr%rebuild_moves & [= <- _]).
Qed.
Lemma task_apply_moves t command writes events db db' em :
  (forall d u, writes (domain_state db) = (d, Ok u) -> moves (domain_state db) d) ->
  task_apply t command writes events db = (db', Ok em) -> ledger_moves db db'.
Proof.
  intros Hw. unfold task_apply. intros (db1 & u & (d & Hd & ->)%on_domain_ok & [= <- _])%stm_bind_ok.
  apply stm_bind_ok in Hd as (d1 & v & H1%Hw & H2%rebuild_member_moves). by eapply moves_trans.
Qed.

(** * Executing a command *)
Lemma execute_then_moves {B} (k : CommandExecutionResult -> regroupM B) e prepare db db' res :
  simple_prepare prepare ->
  (forall p db1 db2, prepare db = (db, Ok p) -> no_change p = false -> domain_state db1 = domain_state db ->
     applied audit e p db1 db2 -> ledger_moves db1 db2) ->
  (forall x s, (k x s).1 = s) ->
  (x ← execute audit (clock ["receipt"]) audit_clock e prepare; k x) db = (db', res) -> ledger_moves db db'.
Proof. apply (execute_relates audit moves). apply moves_refl. Qed.
(** A preparation that acts on one task. *)
Definition acts (t : string) (prepare : regroupM (PreparedMutation ObjDb)) : Prop := forall db db' p,
  prepare db = (db', Ok p) -> db' = db /\ simple_mutation p /\
  (no_change p = false -> exists command writes events, apply_ p = Some (task_apply t command writes events) /\
    forall d u, tasks_ok (domain_state db) -> writes (domain_state db) = (d, Ok u) -> acted t (domain_state db) d).
Lemma run_task_moves t e prepare db db' res :
  acts t prepare -> run_task clock audit audit_clock e prepare db = (db', res) -> ledger_moves db db'.
Proof.
  intros Ha. unfold run_task. apply execute_then_moves; [by intros ? ? ? (? & ? & _)%Ha| |by intros].
  intros p db1 db2 (_ & _ & Hp)%Ha Hc E (f & events & Ef & Hrun & _).
  destruct (Hp Hc) as (command & writes & evs & Ew & Hacts). rewrite Ew in Ef. injection Ef as <-.
  eapply task_apply_moves; [|exact Hrun]. rewrite E. intros d u Hw. apply (acted_moves t). intros Hok. by eapply Hacts.
Qed.
Lemma task_mutation_simple kind event apply t revision refs :
  simple_mutation (task_mutation kind event apply t revision refs).
Proof. by split. Qed.

Lemma acts_start command t n x request a : acts t (prepare_start fresh clock command t n x request a).
Proof.
  intros db db' p. unfold prepare_start. intros (s & d & [= <- <-] & Hr)%stm_bind_ok.
  apply stm_bind_ok in Hr as (s & m & [-> _]%lift_ok & Hr).
  apply stm_bind_ok in Hr as (s & au & [-> (Ha & _ & Hs & Ho)%startable_ok]%lift_ok & [= <- <-]).
  split; [done|]. split; [apply task_mutation_simple|]. intros _. eexists _, _, _. split; [reflexivity|].
  intros d u Hok Hw. eapply start_acted; [done..| |exact Hw]. apply fresh_uuid.
Qed.
Lemma acts_end command t n x e a : acts t (prepare_end fresh clock command t n x e a).
Proof.
  intros db db' p. unfold prepare_end. intros (s & d & [= <- <-] & Hr)%stm_bind_ok.
  apply stm_bind_ok in Hr as (s & m & [-> _]%lift_ok & Hr).
  apply stm_bind_ok in Hr as (s & au & [-> Hend]%lift_ok & [= <- <-]).
  split; [done|]. split; [apply task_mutation_simple|]. intros _. eexists _, _, _. split; [reflexivity|].
  intros d u Hok Hw. pose proof (endable_ok _ _ _ _ _ Hend) as (_ & Hx & _). rewrite <-Hx in Hend.
  eapply end_acted; [done|exact Hend| |exact Hw]. apply fresh_uuid.
Qed.
Lemma correction_authority_ok db r n a last :
  correction_authority db r = Ok (n, a, last) ->
  task_get db (cr_task_id r) = Some n /\ n = cr_task_revision r /\ _execution_authority db (cr_task_id r) = Ok a /\
  au_revision a = cr_execution_revision r /\ au_last_event_id a = Some last.
Proof.
  unfold correction_authority. intros (m & Hm & Hr)%bind_ok. destruct (task_get db (cr_task_id r)); [|done].
  injection Hm as ->. apply bind_ok in Hr as (? & Hn%forbid_ok & Hr). apply bind_ok in Hr as (a' & Ha & Hr).
  destruct (au_revision a' =? cr_execution_revision r) eqn:E; [|done].
  destruct (au_last_event_id a') as [l|] eqn:El; [|done]. apply bind_ok in Hr as (k & _ & Hr).
  apply bind_ok in Hr as (? & _ & [= <- <- <-]). by bool_hyps.
Qed.
Lemma acts_correction command r a : acts (cr_task_id r) (prepare_correction fresh clock command r a).
Proof.
  intros db db' p. unfold prepare_correction. cbv zeta. intros (s & d & [= <- <-] & Hr)%stm_bind_ok.
  apply stm_bind_ok in Hr as (s & pv & [-> _]%lift_ok & Hr).
  apply stm_bind_ok in Hr as (s & [[m au] last] & [-> (_ & _ & Ha & _)%correction_authority_ok]%lift_ok & [= <- <-]).
  split; [done|]. split; [apply task_mutation_simple|]. intros _. eexists _, _, _. split; [reflexivity|].
  intros d u Hok Hw. by eapply correction_acted.
Qed.
Lemma acts_cancel command t n x c reason hash a : acts t (prepare_cancel fresh clock command t n x c reason hash a).
Proof.
  intros db db' p. unfold prepare_cancel. intros (s & d & [= <- <-] & Hr)%stm_bind_ok.
  apply stm_bind_ok in Hr as (s & [m au] & [-> (_ & _ & Ha & _ & Hs & Ho)%cancellable_ok]%lift_ok & [= <- <-]).
  split; [done|]. split; [apply task_mutation_simple|]. intros _. eexists _, _, _. split; [reflexivity|].
  intros d u Hok Hw. eapply cancel_acted; [done..| | |exact Hw]; apply fresh_uuid.
Qed.

(** ** Reviews *)
Lemma no_blockers (b c : bool) (x y : string) (rest : list string) :
  (if b then [] else [x]) ++ (if c then [y] else []) ++ rest = [] -> c = false.
Proof. destruct b, c; done. Qed.
Lemma loaded_valid db t x outcome o :
  Review._load_execution_authority db t = Ok x ->
  Review._outcome_is_valid outcome (Review.ra_state x) (Review.ra_actual_start_utc x) (Review.ra_actual_end_utc x) = true ->
  ou_accepted_outcome o = outcome ->
  exists f, _fold_execution_history (history_rows db t) = Ok f /\ fits o f.
Proof.
  intros [Ha _]%load_authority_view Hv <-. exists (folded_of (command_view x)). split; [by apply authority_fold|]. exact Hv.
Qed.
Lemma outcome_review_valid db t n x r ev outcome reason p :
  Review.evaluate_outcome_review db t n x r ev outcome reason = Ok p -> Review.op_blockers p = [] ->
  outcome ∈ _OUTCOMES /\ forall o, ou_accepted_outcome o = outcome ->
  exists f, _fold_execution_history (history_rows db t) = Ok f /\ fits o f.
Proof.
  unfold Review.evaluate_outcome_review. cbv zeta. intros (? & [-> _]%require_uuid4_ok & Hr)%bind_ok Hb.
  apply bind_ok in Hr as (? & _ & Hr). apply bind_ok in Hr as (? & _ & Hr). apply bind_ok in Hr as (? & _ & Hr).
  apply bind_ok in Hr as (? & _ & Hr). apply bind_ok in Hr as (? & Htok%forbid_ok & Hr). bool_hyps.
  apply set_token_elem in Htok.
  apply bind_ok in Hr as (? & _ & Hr). apply bind_ok in Hr as (? & _ & Hr). apply bind_ok in Hr as (ex & Hex & Hr).
  apply bind_ok in Hr as (? & _ & Hr). apply bind_ok in Hr as (? & _ & Hr). apply bind_ok in Hr as (? & _ & Hr).
  apply bind_ok in Hr as (? & _ & [= <-]). simpl in Hb. split; [done|]. intros o Ho.
  apply no_blockers in Hb. bool_hyps. by eapply loaded_valid.
Qed.
Lemma outcome_correction_valid db t n x r ev outcome reason p :
  Review.evaluate_outcome_correction db t n x r ev outcome reason = Ok p -> Review.oc_blockers p = [] ->
  outcome ∈ _OUTCOMES /\ forall o, ou_accepted_outcome o = outcome ->
  exists f, _fold_execution_history (history_rows db t) = Ok f /\ fits o f.
Proof.
  unfold Review.evaluate_outcome_correction. cbv zeta. intros (? & [-> _]%require_uuid4_ok & Hr)%bind_ok Hb.
  apply bind_ok in Hr as (? & _ & Hr). apply bind_ok in Hr as (? & _ & Hr). apply bind_ok in Hr as (? & _ & Hr).
  apply bind_ok in Hr as (? & _ & Hr). apply bind_ok in Hr as (? & Htok%forbid_ok & Hr). bool_hyps.
  apply set_token_elem in Htok.
  apply bind_ok in Hr as (? & _ & Hr). apply bind_ok in Hr as (? & _ & Hr). apply bind_ok in Hr as (ex & Hex & Hr).
  apply bind_ok in Hr as (? & _ & Hr). apply bind_ok in Hr as (au & _ & Hr). apply bind_ok in Hr as (? & _ & Hr).
  destruct (Review.oa_event_id au); [|done]. destruct (Review.oa_accepted_outcome au); [|done].
  apply bind_ok in Hr as (? & _ & [= <-]). simpl in Hb. split; [done|]. intros o Ho.
  destruct (negb _ || Review.unreasoned _ _ _) eqn:E; [done|]. bool_hyps. by eapply loaded_valid.
Qed.
Lemma acts_review command t n x r ev outcome reason hash a :
  acts t (prepare_review fresh clock command t n x r ev outcome reason hash a).
Proof.
  intros db db' p. unfold prepare_review. cbv zeta. intros (s & d & [= <- <-] & Hr)%stm_bind_ok.
  apply stm_bind_ok in Hr as (s & pv & [-> Hpv%rethrow_ok]%lift_ok & Hr).
  apply stm_bind_ok in Hr as (s & u1 & [-> _]%lift_ok & Hr). apply stm_bind_ok in Hr as (s & u2 & [-> _]%lift_ok & Hr).
  apply stm_bind_ok in Hr as (s & u3 & [-> Hb%forbid_ok]%lift_ok & Hr). bool_hyps.
  apply stm_bind_ok in Hr as (s & m & [-> _]%lift_ok & Hr).
  destruct (outcome_review_valid _ _ _ _ _ _ _ _ _ Hpv Hb) as [Htok Hvalid].
  destruct (Review.op_semantic_no_change pv); [injection Hr as <- <-; by split; [|split; [by split|]]|].
  apply stm_bind_ok in Hr as (s & u4 & [-> _]%lift_ok & [= <- <-]).
  split; [done|]. split; [apply task_mutation_simple|]. intros _. eexists _, _, _. split; [reflexivity|].
  intros d u Hok Hw. destruct (Hvalid (MkOutcomeRow (outcome_event_id fresh t) outcome (recorded_at clock) 1 command) eq_refl) as (f & Hf & Hfits).
  eapply review_acted; [done|exact Hf| |exact Hfits|done|exact Hw]. apply fresh_uuid.
Qed.
Lemma acts_outcome_correction command t n x r current outcome reason hash a :
  acts t (prepare_outcome_correction fresh clock command t n x r current outcome reason hash a).
Proof.
  intros db db' p. unfold prepare_outcome_correction. cbv zeta. intros (s & d & [= <- <-] & Hr)%stm_bind_ok.
  apply stm_bind_ok in Hr as (s & pv & [-> Hpv%rethrow_ok]%lift_ok & Hr).
  apply stm_bind_ok in Hr as (s & u1 & [-> _]%lift_ok & Hr).
  apply stm_bind_ok in Hr as (s & u3 & [-> Hb%forbid_ok]%lift_ok & Hr). bool_hyps.
  apply stm_bind_ok in Hr as (s & m & [-> _]%lift_ok & Hr).
  destruct (outcome_correction_valid _ _ _ _ _ _ _ _ _ Hpv Hb) as [Htok Hvalid].
  destruct (Review.oc_semantic_no_change pv); [injection Hr as <- <-; by split; [|split; [by split|]]|].
  injection Hr as <- <-.
  split; [done|]. split; [apply task_mutation_simple|]. intros _. eexists _, _, _. split; [reflexivity|].
  intros d u Hok Hw. destruct (Hvalid (MkOutcomeRow (outcome_event_id fresh t) outcome (recorded_at clock) 1 command) eq_refl) as (f & Hf & Hfits).
  eapply outcome_correction_acted; [done|exact Hf| |exact Hfits|done|exact Hw]. apply fresh_uuid.
Qed.

(** ** Starting several tasks *)
Definition ready (d : ObjDb) (s : _SelectedStartAuthority) : Prop :=
  _execution_authority d (sl_task_id (sa_request s)) = Ok (sa_execution s) /\ au_state (sa_execution s) = "not_started" /\
  _has_terminal_outcome d (sl_task_id (sa_request s)) = Ok false.
Lemma start_keeps_ready command accepted s s' d d' u :
  ready d s -> ready d s' -> sl_task_id (sa_request s') <> sl_task_id (sa_request s) ->
  start_selected fresh clock command accepted s d = (d', Ok u) -> ready d' s'.
Proof.
  intros (Ha & _ & _) (Ha' & Hs' & Ho') Hne. unfold start_selected.
  intros (x & _ & Hm & ->)%(start_one_ok _ _ _ _ _ _ _ _ _ _ Ha). split; [by eapply moved_other|]. by split.
Qed.
Lemma starts_moves command accepted selected d d' u :
  Forall (ready d) selected -> NoDup (map (fun s => sl_task_id (sa_request s)) selected) ->
  each (start_selected fresh clock command accepted) selected d = (d', Ok u) -> moves d d'.
Proof.
  revert d. induction selected as [|s selected IH]; intros d Hready Hnd; simpl; [intros [= <- _]; apply moves_refl|].
  intros (d1 & v & H1 & H2)%stm_bind_ok. inversion Hready as [|? ? Hs Hrest]; subst. apply NoDup_cons in Hnd as [Hnew Hnd].
  eapply moves_trans; [|apply (IH d1); [|exact Hnd|exact H2]].
  - apply (acted_moves (sl_task_id (sa_request s))). intros Hok. destruct Hs as (Ha & Hst & Ho).
    eapply start_acted; [done..| |exact H1]. apply fresh_uuid.
  - rewrite Forall_forall in *. intros s' Hs'. eapply start_keeps_ready; [exact Hs|by apply Hrest| |exact H1].
    intros E. apply Hnew. rewrite <-E. by apply (list_elem_of_fmap_2 (fun s => sl_task_id (sa_request s))).
Qed.
Lemma select_task_ok db objective s s' :
  select_task db objective s = Ok s' -> sa_request s' = s /\ ready db s'.
Proof.
  unfold select_task. cbv zeta. intros (m & _ & Hr)%bind_ok. apply bind_ok in Hr as (? & _ & Hr).
  apply bind_ok in Hr as (? & _ & Hr). apply bind_ok in Hr as (a & (Ha & _ & Hs & Ho)%startable_ok & [= <-]). by split.
Qed.
Lemma select_tasks_ok db objective requests selected :
  traverse (select_task db objective) requests = Ok selected -> map sa_request selected = requests /\ Forall (ready db) selected.
Proof.
  intros Hf%traverse_ok. induction Hf as [|s s' l l' [Hs Hr]%select_task_ok _ [IH1 IH2]]; [done|].
  split; [simpl; by rewrite Hs, IH1|by constructor].
Qed.
Lemma prepare_selected_ok command objective n e requests request a db db' p :
  prepare_selected fresh clock command objective n e requests request a db = (db', Ok p) ->
  db' = db /\ simple_mutation p /\ no_change p = false /\
  exists selected, traverse (select_task (domain_state db) objective) requests = Ok selected /\
    apply_ p = Some (apply_selected fresh clock command objective (accepted_instant request (recorded_at clock)) selected a).
Proof.
  unfold prepare_selected. intros (s & d & [= <- <-] & Hr)%stm_bind_ok.
  apply stm_bind_ok in Hr as (s & u & [-> _]%lift_ok & Hr).
  apply stm_bind_ok in Hr as (s & selected & [-> Hsel]%lift_ok & Hr). cbv zeta in Hr.
  destruct (map _ selected) as [|primary l]; [by apply lift_ok in Hr as [_ ?]|]. injection Hr as <- <-.
  split; [done|]. split; [by split|]. split; [done|]. by exists selected.
Qed.
Lemma selected_moves command objective n e requests request a :
  NoDup (map sl_task_id requests) -> forall p db db1 db2 env,
  prepare_selected fresh clock command objective n e requests request a db = (db, Ok p) ->
  domain_state db1 = domain_state db -> applied audit env p db1 db2 -> ledger_moves db1 db2.
Proof.
  intros Hnd p db db1 db2 env (_ & _ & _ & selected & Hsel & Ep)%prepare_selected_ok E (f & events & Ef & Hrun & _).
  rewrite Ep in Ef. injection Ef as <-. unfold apply_selected in Hrun.
  apply stm_bind_ok in Hrun as (db3 & row & (d & Hd & ->)%on_domain_ok & [= <- _]).
  apply stm_bind_ok in Hd as (d1 & v & H1 & H2%rebuild_moves). destruct (select_tasks_ok _ _ _ _ Hsel) as [Er Hready].
  unfold ledger_moves. simpl. eapply moves_trans; [|exact H2]. rewrite E in *. eapply starts_moves; [exact Hready| |exact H1].
  rewrite <-Er, map_map in Hnd. exact Hnd.
Qed.
End runs.

(** * The commands *)
Inductive task_command :=
| StartTask (t : string) (task_revision execution_revision : Z) (request : effective_request)
| StartSelected (objective : string) (objective_revision envelope_revision : Z)
    (selected : list SelectedTaskExecutionStart) (request : effective_request)
| EndTask (t : string) (task_revision execution_revision effective_end : Z)
| CorrectEvidence (r : correction_request)
| CancelTask (t : string) (task_revision execution_revision outcome_revision effective_cancel : Z) (reason : string)
| ReviewOutcome (t : string) (task_revision execution_revision outcome_revision : Z) (current : option string)
    (outcome : string) (reason : option string) (fingerprint : string)
| CorrectOutcome (t : string) (task_revision execution_revision outcome_revision : Z) (current replacement : string)
    (reason : option string) (fingerprint : string).
(** The database a command leaves, also when it raises. *)
Definition after {A} (m : regroupM A) (db : LedgerDb ObjDb) : LedgerDb ObjDb := (m db).1.
Definition run_command `{Sha256, FloatText} (fresh : site -> string) (clock : site -> Z) (audit : AuditRegistry)
    (audit_clock : string -> Z) (command : string) (a : actor) (c : task_command) : LedgerDb ObjDb -> LedgerDb ObjDb :=
  match c with
  | StartTask t n x r => after (start_task_execution fresh clock audit audit_clock command t n x r a)
  | StartSelected o n e l r => after (start_selected_objective_tasks fresh clock audit audit_clock command o n e l r a)
  | EndTask t n x e => after (end_task_execution fresh clock audit audit_clock command t n x e a)
  | CorrectEvidence r => after (correct_task_execution_evidence fresh clock audit audit_clock command r a)
  | CancelTask t n x r c why => after (cancel_task_without_execution fresh clock audit audit_clock command t n x r c why a)
  | ReviewOutcome t n x r ev o why f =>
      after (review_task_outcome fresh clock audit audit_clock command t n x r ev o why f a)
  | CorrectOutcome t n x r ev o why f =>
      after (correct_task_outcome fresh clock audit audit_clock command t n x r ev o why f a)
  end.
Inductive task_run `{Sha256, FloatText} : LedgerDb ObjDb -> LedgerDb ObjDb -> Prop :=
| task_run_intro fresh clock audit audit_clock command a c db :
    (forall s, is_uuid4 (fresh s) = true) -> task_run db (run_command fresh clock audit audit_clock command a c db).
Lemma after_moves {A} (m : regroupM A) db :
  (forall db' res, m db = (db', res) -> ledger_moves db db') -> ledger_moves db (after m db).
Proof. intros Hm. unfold after. destruct (m db) as [db' res] eqn:E. by eapply Hm. Qed.
Lemma task_run_moves `{Sha256, FloatText} db db' : task_run db db' -> ledger_moves db db'.
Proof.
  intros [fresh clock audit audit_clock command a c db0 Hfresh].
  destruct c as [t n x r|o n e l r|t n x e|r|t n x r e why|t n x r ev o why f|t n x r ev o why f]; simpl; apply after_moves;
    intros db1 res Hr.
  - unfold start_task_execution in Hr. do 4 reads Hr. eapply run_task_moves; [|exact Hr]. by apply acts_start.
  - unfold start_selected_objective_tasks in Hr. cbv zeta in Hr. do 7 reads Hr.
    revert Hr. apply execute_then_moves.
    + by intros ? ? ? (? & ? & _)%prepare_selected_ok.
    + intros p d1 d2 Hp _. eapply selected_moves; [done| |exact Hp]. apply forbid_ok in E4. bool_hyps. done.
    + intros y s. destruct (objective_mutation_result_from_execution y) as [m|]; [|done]. unfold mbind, stM_bind, lift.
      destruct (integrity (existsb _ _) _); [|done]. by destruct (integrity (negb _) _).
  - unfold end_task_execution in Hr. do 4 reads Hr. eapply run_task_moves; [|exact Hr]. by apply acts_end.
  - unfold correct_task_execution_evidence in Hr. reads Hr. eapply run_task_moves; [|exact Hr]. by apply acts_correction.
  - unfold cancel_task_without_execution in Hr. cbv zeta in Hr. do 7 reads Hr. eapply run_task_moves; [|exact Hr].
    by apply acts_cancel.
  - unfold review_task_outcome in Hr. do 8 reads Hr. eapply run_task_moves; [|exact Hr]. by apply acts_review.
  - unfold correct_task_outcome in Hr. do 8 reads Hr. eapply run_task_moves; [|exact Hr]. by apply acts_outcome_correction.
Qed.

(** * What no sequence of commands can do *)
Lemma task_runs_move `{Sha256, FloatText} db db' :
  tasks_ok (domain_state db) -> star task_run db db' ->
  tasks_ok (domain_state db') /\ forall t, star life_step (life (domain_state db) t) (life (domain_state db') t).
Proof.
  intros Hok Hrun. revert Hok. change (ledger_moves db db'). induction Hrun as [|a b c Hab%task_run_moves _ IH].
  - apply ledger_moves_refl.
  - by eapply moves_trans.
Qed.
(** C5.  The task commands refine the life of each task: along every sequence
    of them every projection stays the fold of its immutable history, every
    current outcome stays bound to its own, and each task takes only the steps
    of [life_step]. *)
Theorem task_commands_refine `{Sha256, FloatText} db db' :
  tasks_ok (domain_state db) -> star task_run db db' ->
  tasks_ok (domain_state db') /\ forall t, star life_step (life (domain_state db) t) (life (domain_state db') t).
Proof. apply task_runs_move. Qed.
(** A finished execution: ended, or terminated. *)
Definition finished (f : folded) : bool := set_token ["ended"; "terminated"] f.1.1.1.
Definition finishing (item : _Evidence) : bool := negb (ev_withdrawn item) && negb (String.eqb (ev_event_kind item) "start").
Lemma apply_finished f item f' : apply_evidence f item = Ok f' -> finished f' = finished f || finishing item.
Proof.
  destruct f as [[[state start] end_] term]. unfold apply_evidence, finishing. destruct (ev_withdrawn item); simpl.
  { intros [= <-]. by rewrite orb_false_r. }
  destruct (ev_event_kind item =? "start")%string; simpl.
  - destruct (ev_effective_at_utc item); [|done]. destruct (String.eqb_spec state "not_started") as [->|]; [|done].
    by intros [= <-].
  - rewrite orb_true_r. destruct (ev_event_kind item =? "end")%string.
    + destruct start; [|done]. destruct (ev_effective_at_utc item); [|done].
      intros (? & _ & (? & _ & [= <-])%bind_ok)%bind_ok. done.
    + intros (? & _ & [= <-])%bind_ok. done.
Qed.
Lemma fold_finished l f f' : foldM apply_evidence f l = Ok f' -> finished f' = finished f || existsb finishing l.
Proof.
  revert f. induction l as [|item l IH]; intros f; simpl; [intros [= <-]; by rewrite orb_false_r|].
  intros (f1 & H1%apply_finished & H2%IH)%bind_ok. by rewrite H2, H1, orb_assoc.
Qed.
(** A correction finishes nothing. *)
Lemma correction_unfinished h r f f' :
  _fold_execution_history h = Ok f -> _fold_execution_history (h ++ [r]) = Ok f' -> is_correction r = true ->
  finished f = false -> finished f' = false.
Proof.
  intros [_ H1]%fold_history_ok [_ H2]%fold_history_ok Hc.
  apply fold_finished in H1 as ->, H2 as ->. rewrite base_rows_snoc, Hc, app_nil_r. change (finished not_started) with false.
  simpl. generalize (base_rows h) as l. intros l. induction l as [|x l IH]; [done|]. simpl.
  intros [H1 H2]%orb_false_iff. rewrite (IH H2), orb_false_r. rewrite evidence_of_snoc. unfold finishing in *. simpl in *.
  destruct (existsb (withdraws x.1) h), (withdraws x.1 r); simpl in *; try done.
Qed.
Lemma fits_finished o f : fits o f -> finished f = true.
Proof.
  destruct f as [[[state start] end_] term]. unfold fits, finished, Review._outcome_is_valid. simpl.
  destruct (ou_accepted_outcome o =? "completed")%string; [intros [[Hs _]%andb_true_iff _]%andb_true_iff; apply String.eqb_eq in Hs; by subst|].
  destruct (ou_accepted_outcome o =? "incomplete")%string; [by intros [? _]%andb_true_iff|].
  intros [Hs _]%andb_true_iff. apply String.eqb_eq in Hs. by subst.
Qed.
(** C7.  A reviewed task whose finish was corrected away can never finish
    again: once a task has a current outcome and its execution is back to not
    started or in progress, no sequence of commands ends or terminates it, and
    none replaces the outcome. *)
Theorem reviewed_task_never_finishes `{Sha256, FloatText} db db' t o f :
  tasks_ok (domain_state db) -> task_outcome_current (domain_state db) !! t = Some o ->
  _fold_execution_history (history_rows (domain_state db) t) = Ok f -> finished f = false -> star task_run db db' ->
  task_outcome_current (domain_state db') !! t = Some o /\
  exists f', _fold_execution_history (history_rows (domain_state db') t) = Ok f' /\ finished f' = false.
Proof.
  intros Hok Ho Hf Hu Hrun. destruct (task_runs_move db db' Hok Hrun) as [_ Hlife].
  pose (stuck := fun l : task_life => l.2 = Some o /\ exists f, _fold_execution_history l.1 = Ok f /\ finished f = false).
  cut (stuck (life (domain_state db') t)); [done|]. apply (star_inv life_step stuck (life (domain_state db) t)); [|split; [exact Ho|by exists f]|apply Hlife].
  intros l l' [Eo (f1 & Hf1 & Hu1)] Hs. destruct Hs as [| | |h r o1 f2 Hc Hf2| |h o1 o2 f2 Hf2 Hfits _]; try done; simpl in *.
  - split; [done|]. exists f2. split; [done|]. exact (correction_unfinished h r f1 f2 Hf1 Hf2 Hc Hu1).
  - rewrite Hf1 in Hf2. injection Hf2 as <-. apply fits_finished in Hfits. congruence.
Qed.
(** Nothing recorded about a task's execution is ever changed or
    removed: along every sequence of commands its history only grows at the end. *)
Theorem execution_history_append_only `{Sha256, FloatText} db db' t :
  tasks_ok (domain_state db) -> star task_run db db' ->
  history_rows (domain_state db) t `prefix_of` history_rows (domain_state db') t.
Proof.
  intros Hok Hrun. destruct (task_runs_move db db' Hok Hrun) as [_ Hlife].
  refine (star_inv life_step (fun l : task_life => history_rows (domain_state db) t `prefix_of` l.1)
    (life (domain_state db) t) (life (domain_state db') t) _ _ (Hlife t)); [|done].
  intros l l' Hp Hs. destruct Hs; simpl in *; try done; by apply prefix_app_r.
Qed.
