(* ===== verification/TaskReviewed.v ===== *)
(** A correction does what its preview showed, and the start of several tasks
    starts exactly those. *)
From S2P Require Import Prelude StrictJson Identifiers Grouping Jobs AuditLedger Tables CommandBoundary.
From S2P Require Import CommandReplay CommandAudit CommandDomain ObjectiveTables Regroup ObjectiveStore.
From S2P Require Import ObjectiveAggregate RegroupStore RegroupManual RegroupContracts RegroupCommands.
From S2P Require Import ObjectiveAggregateProps TaskFold TaskStore TaskAuthority TaskPreviews TaskContracts.
From S2P Require Import TaskExecution TaskCorrection TaskLife TaskAgree TaskHistory TaskRuns.
#[local] Arguments set_token : simpl never.
#[local] Arguments Review._fold_execution : simpl never.

(** * The preview folds the correction it is about *)
(** Two corrections of the same content. *)
Definition same_correction (r r' : history_row) : Prop :=
  is_correction r = true /\ is_correction r' = true /\ ee_target_event_id r.2 = ee_target_event_id r'.2 /\
  ee_correction_action r.2 = ee_correction_action r'.2 /\ ee_effective_at_utc r.2 = ee_effective_at_utc r'.2.
Lemma same_correction_fold rows r r' f f' :
  same_correction r r' -> _fold_execution_history (rows ++ [r]) = Ok f -> _fold_execution_history (rows ++ [r']) = Ok f' ->
  f = f'.
Proof.
  intros (Hc & Hc' & Ht & Ha & He) [_ H1]%fold_history_ok [_ H2]%fold_history_ok.
  unfold reference_fold in *. rewrite base_rows_snoc, Hc, app_nil_r in H1. rewrite base_rows_snoc, Hc', app_nil_r in H2.
  assert (map (evidence_of (rows ++ [r])) (base_rows rows) = map (evidence_of (rows ++ [r'])) (base_rows rows)) as E.
  { apply map_ext. intros x. rewrite !evidence_of_snoc. unfold correct_time, withdraws, targets.
    by rewrite Hc, Hc', Ht, Ha, He. }
  rewrite E in H1. congruence.
Qed.
(** The row the synthetic event of a preview stands for. *)
Definition synthetic_row (t : string) (revision : Z) (target action : string) (replacement : option Z) (reason : string)
    : history_row :=
  (Review.SYNTHETIC_EVENT_ID, MkExecutionEventRow t (revision + 1) "correction" replacement (Some target) (Some action)
    (Some reason) 0 "00000000-0000-4000-8000-000000000001").
Lemma load_synthetic t n target action replacement reason :
  is_uuid4 target = true -> action ∈ ["replace_time"; "withdraw"] -> (forall z, replacement = Some z -> 0 <= z) ->
  Review.load_event (n + 1, synthetic_row t n target action replacement reason)
  = Ok (Review.synthetic_correction n target action replacement reason).
Proof.
  intros Hu Ha Hz. apply load_event_ok. simpl. split; [done|]. split; [done|].
  split; [set_solver|]. split; [by intros z [= <-]|]. split; [split; [by eexists|by exists action]|].
  split; [lia|]. split; [by vm_compute|]. split; [done|]. by vm_compute.
Qed.
Lemma load_authority_events db t x :
  Review._load_execution_authority db t = Ok x ->
  traverse Review.load_event (Review.numbered (history_rows db t)) = Ok (Review.ra_events x) /\
  Review.ra_revision x = Z.of_nat (length (history_rows db t)).
Proof.
  intros Hx. destruct (load_authority_view _ _ _ Hx) as (Ha & Ev & _). destruct (authority_numbered _ _ _ Ha) as [_ Hn].
  split; [|exact Hn]. unfold Review._load_execution_authority in Hx. apply bind_ok in Hx as (events & He & _).
  destruct (loaded_numbered _ _ He) as (-> & _). by rewrite Ev.
Qed.
Lemma preview_fold db t x target action replacement reason f fe :
  Review._load_execution_authority db t = Ok x ->
  is_uuid4 target = true -> action ∈ ["replace_time"; "withdraw"] -> (forall z, replacement = Some z -> 0 <= z) ->
  Review._fold_execution (Review.ra_events x ++
    [Review.synthetic_correction (Review.ra_revision x) target action replacement reason]) = Ok (f, fe) ->
  _fold_execution_history (history_rows db t ++ [synthetic_row t (Review.ra_revision x) target action replacement reason]) = Ok f.
Proof.
  intros Hx Hu Ha Hz Hf. destruct (load_authority_events _ _ _ Hx) as [He Hn].
  assert (traverse Review.load_event [(Review.ra_revision x + 1, synthetic_row t (Review.ra_revision x) target action replacement reason)]
    = Ok [Review.synthetic_correction (Review.ra_revision x) target action replacement reason]) as Hs.
  { cbn [traverse]. by rewrite load_synthetic. }
  pose proof (fold_execution_same _ _ (traverse_app _ _ _ _ _ He Hs)) as Hsame.
  rewrite Hf, map_app, numbered_snd in Hsame. simpl in Hsame.
  destruct (_fold_execution_history _) as [f'|]; [|done]. simpl in Hsame. by rewrite Hsame.
Qed.
Section reviewed.
Context `{Sha256, FloatText} (fresh : site -> string) (clock : site -> Z).
Context (audit : AuditRegistry) (audit_clock : string -> Z).
Hypothesis fresh_uuid : forall s, is_uuid4 (fresh s) = true.
Lemma no_correction_blockers (a b c : bool) (x y z : string) :
  (if a then [x] else []) ++ (if b then [y] else []) ++ (if c then [z] else []) = [] -> a = false /\ b = false /\ c = false.
Proof. by destruct a, b, c. Qed.
Lemma correction_preview_ok db t n x target tr action replacement reason p :
  Review.evaluate_correction db t n x target tr action replacement reason = Ok p -> Review.cp_blockers p = [] ->
  is_uuid4 target = true /\ action ∈ ["replace_time"; "withdraw"] /\ (forall z, replacement = Some z -> 0 <= z) /\
  exists ex f fe, Review._load_execution_authority db t = Ok ex /\ Review.ra_revision ex = x /\
    Review._fold_execution (Review.ra_events ex ++
      [Review.synthetic_correction (Review.ra_revision ex) target action replacement reason]) = Ok (f, fe) /\
    Review.cp_resulting_execution_state p = f.1.1.1.
Proof.
  unfold Review.evaluate_correction. cbv zeta. intros (? & [-> _]%require_uuid4_ok & Hr)%bind_ok Hb.
  apply bind_ok in Hr as (? & _ & Hr). apply bind_ok in Hr as (n' & Hn' & Hr).
  apply bind_ok in Hr as (? & [-> Hu]%require_uuid4_ok & Hr). apply bind_ok in Hr as (? & _ & Hr).
  apply bind_ok in Hr as (? & Hreq & Hr). apply bind_ok in Hr as (? & _ & Hr). apply bind_ok in Hr as (? & _ & Hr).
  apply bind_ok in Hr as (ex & Hex & Hr). apply bind_ok in Hr as (? & Hrev%forbid_ok & Hr).
  apply bind_ok in Hr as (? & _ & Hr). apply bind_ok in Hr as (tg & _ & Hr). apply bind_ok in Hr as (fld & _ & Hr).
  apply bind_ok in Hr as (et & _ & Hr). apply bind_ok in Hr as (au & _ & Hr).
  apply bind_ok in Hr as (res & Hres & Hr). apply bind_ok in Hr as (? & _ & [= <-]). simpl in *.
  apply no_correction_blockers in Hb as (Hw & Hg & Hc). rewrite Hw, Hg in *. simpl in *.
  rewrite andb_true_r in Hc. apply bool_decide_eq_false in Hc.
  apply bind_ok in Hres as (r & Hr & [= <-]). simpl in *. destruct r as [[f fe]|]; [|done].
  split; [done|]. unfold Review.validate_correction_request in Hreq. apply bind_ok in Hreq as (? & Hact%forbid_ok & Hreq).
  bool_hyps. apply set_token_elem in Hact. split; [done|]. split.
  { intros z ->. destruct (action =? "replace_time")%string; apply forbid_ok in Hreq; [|done]. lia. }
  exists ex, f, fe. split; [done|]. split.
  { unfold Review._require_positive_revision in Hn'. by apply bind_ok in Hn' as (? & _ & [= <-]). }
  split; [|done]. unfold Review.except_integrity in Hr.
  destruct (Review._fold_execution _) as [y|[y|y]]; [by injection Hr as ->| |done].
  by destruct (code y =? "INTEGRITY_FAILURE")%string.
Qed.

(** * Corrections *)
Lemma require_revision_ok v label z v' : _require_revision v label z = Ok v' -> v' = v.
Proof. unfold _require_revision. by intros (? & _ & [= <-])%bind_ok. Qed.
Lemma validate_replacement_ok action v v' : validate_replacement action v = Ok v' -> v' = v.
Proof.
  unfold validate_replacement. intros (? & _ & Hr)%bind_ok. destruct (action =? "replace_time")%string.
  - destruct v as [z|]; [|done]. apply bind_ok in Hr as (z' & Hz & [= <-]). unfold _validate_effective_end in Hz.
    by apply bind_ok in Hz as (? & _ & [= <-]).
  - apply bind_ok in Hr as (? & Hv%forbid_ok & [= <-]). by destruct v.
Qed.
Lemma check_correction_ok r r' : check_correction r = Ok r' -> r' = r.
Proof.
  unfold check_correction. intros (? & [-> _]%require_uuid4_ok & Hr)%bind_ok.
  apply bind_ok in Hr as (? & ->%require_revision_ok & Hr). apply bind_ok in Hr as (? & ->%require_revision_ok & Hr).
  apply bind_ok in Hr as (? & [-> _]%require_uuid4_ok & Hr). apply bind_ok in Hr as (? & ->%require_revision_ok & Hr).
  apply bind_ok in Hr as (? & ->%validate_replacement_ok & Hr). apply bind_ok in Hr as (? & Hw & Hr).
  apply bind_ok in Hr as (? & Hs & [= <-]). unfold _validate_reason_category in Hw.
  apply bind_ok in Hw as (? & _ & Hw). apply bind_ok in Hw as (? & _ & [= <-]). unfold _validate_sha256 in Hs.
  apply bind_ok in Hs as (? & _ & [= <-]). by destruct r.
Qed.
(** The preview the reviewer confirmed: of the same request on the same
    revisions, with the same fingerprint, without a blocker, and with the
    invalidation of the outcome acknowledged where one is needed. *)
Definition confirmed (db : ObjDb) (r : correction_request) (p : Review.TaskExecutionCorrectionPreview) : Prop :=
  Review.evaluate_correction db (cr_task_id r) (cr_task_revision r) (cr_execution_revision r) (cr_target_id r)
    (cr_target_revision r) (cr_action r) (cr_replacement r) (cr_reason r) = Ok p /\
  Review.cp_correction_review_fingerprint p = cr_fingerprint r /\ Review.cp_blockers p = [] /\
  (Review.cp_outcome_invalidation_required p = true -> cr_accept_invalidation r = true).
Lemma accepted_preview_ok db r p : accepted_preview db r = Ok p -> confirmed db r p.
Proof.
  unfold accepted_preview, confirmed. intros (q & Hq%rethrow_ok & Hr)%bind_ok. apply bind_ok in Hr as (? & Hf%forbid_ok & Hr).
  apply bind_ok in Hr as (? & _ & Hr). apply bind_ok in Hr as (? & Hb%forbid_ok & Hr).
  apply bind_ok in Hr as (? & Hi%forbid_ok & [= <-]). bool_hyps. split_and!; [done|done|done|].
  intros E. rewrite E in Hi. by destruct (cr_accept_invalidation r).
Qed.
(** Everything a task command may stand on but its aggregate. *)
Record same_tasks (d d' : ObjDb) : Prop := {
  st_authority : forall t, _execution_authority d' t = _execution_authority d t;
  st_history : forall t, history_rows d' t = history_rows d t;
  st_tasks : tasks d' = tasks d;
  st_outcomes : task_outcome_current d' = task_outcome_current d
}.
Lemma rebuild_same id command d d' row : rebuild_aggregate id command d = (d', Ok row) -> same_tasks d d'.
Proof. by intros (_ & _ & m & f & _ & _ & _ & _ & ->)%rebuild_aggregate_ok. Qed.
Lemma rebuild_member_same t command d d' u : rebuild_objective_if_member t command d = (d', Ok u) -> same_tasks d d'.
Proof.
  unfold rebuild_objective_if_member. intros (d1 & db & [= <- <-] & Hr)%stm_bind_ok.
  apply stm_bind_ok in Hr as (d1 & m & [-> _]%lift_ok & Hr). destruct m as [m|]; [|by injection Hr as <- _].
  by apply stm_bind_ok in Hr as (d2 & row & Hr%rebuild_same & [= <- _]).
Qed.
(** C6.  A correction does what the reviewer confirmed: a command that
    succeeds ran the preview again on the same task and execution revisions, with
    the confirmed fingerprint, no blocker and the outcome invalidation
    acknowledged where one is needed; it appends exactly the requested
    correction and leaves the execution in the state the preview showed. *)
Theorem correction_as_previewed command r a db db' m :
  command_receipts db !! command = None ->
  correct_task_execution_evidence fresh clock audit audit_clock command r a db = (db', Ok m) ->
  exists p x e, let t := cr_task_id r in let d := domain_state db in let d' := domain_state db' in
    confirmed d r p /\
    history_rows d' t = history_rows d t ++ [(task_event_id fresh t, e)] /\
    ee_event_kind e = "correction" /\ ee_target_event_id e = Some (cr_target_id r) /\
    ee_correction_action e = Some (cr_action r) /\ ee_effective_at_utc e = cr_replacement r /\
    _execution_authority d' t = Ok (authority_of x) /\ ex_execution_state x = Review.cp_resulting_execution_state p.
Proof.
  intros Hnew. unfold correct_task_execution_evidence.
  intros (s & r' & [-> ->%check_correction_ok]%lift_ok & Hr)%stm_bind_ok. unfold run_task in Hr.
  apply stm_bind_ok in Hr as (db1 & y & Hr & [-> _]%lift_ok).
  apply execute_fresh in Hr as (p & Hp & Hd); [|by intros ? ? ? (? & ? & _)%(acts_correction fresh clock)|exact Hnew].
  unfold prepare_correction in Hp. cbv zeta in Hp. apply stm_bind_ok in Hp as (s & d & [= <- <-] & Hp).
  apply stm_bind_ok in Hp as (s & pv & [-> Hconf%accepted_preview_ok]%lift_ok & Hp).
  pose proof Hconf as (Hpv & _ & Hb & _).
  apply stm_bind_ok in Hp as (s & [[n au] last] & [-> (_ & _ & Ha & Hrev & _)%correction_authority_ok]%lift_ok & [= <-]).
  destruct Hd as [[? _]|(_ & d1 & d2 & E1 & _ & (f & events & [= <-] & Hrun & _) & E2 & _)]; [done|].
  unfold task_apply in Hrun. apply stm_bind_ok in Hrun as (d3 & u & (d4 & Hd4 & ->)%on_domain_ok & [= <- _]).
  apply stm_bind_ok in Hd4 as (d5 & u' & Hw & Hsame%rebuild_member_same). simpl in E2. rewrite E1 in *.
  apply (apply_correction_ok _ _ _ _ _ _ _ _ _ _ _ _ _ _ Ha) in Hw as (x & Hf & Hm & ->).
  destruct (moved_authority _ _ _ _ _ _ _ Ha Hm Hf) as [Hau Hh].
  destruct (correction_preview_ok _ _ _ _ _ _ _ _ _ _ Hpv Hb) as (Hu & Hact & Hz & ex & f & fe & Hex & Hxr & Hfold & Hst).
  eexists pv, x, _. cbv zeta. rewrite E2, (st_history _ _ Hsame), (st_authority _ _ Hsame), Hh, Hau.
  split_and!; try done. rewrite Hst.
  pose proof (preview_fold _ _ _ _ _ _ _ _ _ Hex Hu Hact Hz Hfold) as Hpf.
  assert (f = projection_of x) as ->; [|done]. eapply same_correction_fold; [|exact Hpf|exact Hf]. done.
Qed.

(** * Starting several tasks *)
Definition untouched (d d' : ObjDb) (t : string) : Prop :=
  history_rows d' t = history_rows d t /\ _execution_authority d' t = _execution_authority d t /\ tasks d' !! t = tasks d !! t.
Definition started (command : string) (accepted : Z) (d d' : ObjDb) (s : _SelectedStartAuthority) : Prop :=
  let t := sl_task_id (sa_request s) in
  tasks d !! t = Some (sl_task_revision (sa_request s)) /\ tasks d' !! t = Some (sl_task_revision (sa_request s) + 1) /\
  history_rows d' t = history_rows d t
    ++ [(task_event_id fresh t, start_row t (sa_execution s) accepted (recorded_at clock) command)] /\
  exists x, _execution_authority d' t = Ok (authority_of x) /\ projection_of x = ("in_progress", Some accepted, None, None).
Lemma untouched_trans d1 d2 d3 t : untouched d1 d2 t -> untouched d2 d3 t -> untouched d1 d3 t.
Proof. intros (? & ? & ?) (? & ? & ?). split_and!; congruence. Qed.
Lemma started_then command accepted d1 d2 d3 s :
  started command accepted d1 d2 s -> untouched d2 d3 (sl_task_id (sa_request s)) -> started command accepted d1 d3 s.
Proof. intros (? & ? & ? & x & ? & ?) (? & ? & ?). split_and!; try congruence. exists x. split; congruence. Qed.
Lemma then_started command accepted d1 d2 d3 s :
  untouched d1 d2 (sl_task_id (sa_request s)) -> started command accepted d2 d3 s -> started command accepted d1 d3 s.
Proof. intros (? & ? & ?) (? & ? & ? & x & ? & ?). split_and!; try congruence. exists x. split; congruence. Qed.
Lemma start_exact command accepted s d d' u :
  executions_ok d -> ready d s -> start_selected fresh clock command accepted s d = (d', Ok u) ->
  executions_ok d' /\ started command accepted d d' s /\
  forall t, t <> sl_task_id (sa_request s) -> untouched d d' t.
Proof.
  intros Hok (Ha & Hs & _). unfold start_selected. intros (x & Hx & Hm & ->)%(start_one_ok _ _ _ _ _ _ _ _ _ _ Ha).
  pose proof (start_fold _ _ _ _ _ _ _ _ _ Ha Hs (fresh_uuid _) Hm Hx) as Hf.
  destruct (moved_authority _ _ _ _ _ _ _ Ha Hm Hf) as [Hau Hh].
  split; [by eapply executions_ok_moved|]. split.
  - split_and!; [exact (mo_task _ _ _ _ _ _ _ Hm)|simpl; by rewrite lookup_insert_eq|exact Hh|by exists x].
  - intros t Hne. split_and!; [by eapply moved_other_rows| |simpl; by rewrite lookup_insert_ne].
    destruct (Hok t) as [a' Ha']. rewrite Ha'. by eapply moved_other.
Qed.
Lemma starts_exact command accepted selected d d' u :
  executions_ok d -> Forall (ready d) selected -> NoDup (map (fun s => sl_task_id (sa_request s)) selected) ->
  each (start_selected fresh clock command accepted) selected d = (d', Ok u) ->
  Forall (started command accepted d d') selected /\
  forall t, t ∉ map (fun s => sl_task_id (sa_request s)) selected -> untouched d d' t.
Proof.
  revert d. induction selected as [|s selected IH]; intros d Hok Hready Hnd; simpl.
  { intros [= <- _]. split; [constructor|]. by intros. }
  intros (d1 & v & H1 & H2)%stm_bind_ok. inversion Hready as [|? ? Hs Hrest]; subst. apply NoDup_cons in Hnd as [Hnew Hnd].
  destruct (start_exact _ _ _ _ _ _ Hok Hs H1) as (Hok1 & Hst & Hun).
  assert (forall s', s' ∈ selected -> sl_task_id (sa_request s') <> sl_task_id (sa_request s)) as Hne.
  { intros s' Hs' E. apply Hnew. rewrite <-E. by apply (list_elem_of_fmap_2 (fun s => sl_task_id (sa_request s))). }
  destruct (IH d1 Hok1) as [IH1 IH2]; [|exact Hnd|exact H2|].
  { rewrite Forall_forall in *. intros s' Hs'. eapply start_keeps_ready; [exact Hs|by apply Hrest|by apply Hne|exact H1]. }
  split.
  - constructor; [eapply started_then; [exact Hst|by apply IH2]|]. rewrite Forall_forall in *. intros s' Hs'.
    eapply then_started; [apply Hun; by apply Hne|by apply IH1].
  - intros t Ht. apply not_elem_of_cons in Ht as [Ht Hrest']. eapply untouched_trans; [by apply Hun|by apply IH2].
Qed.
Lemma check_selected_ok s s' : check_selected s = Ok s' -> s' = s.
Proof.
  unfold check_selected. intros (? & [-> _]%require_uuid4_ok & Hr)%bind_ok.
  apply bind_ok in Hr as (? & ->%require_revision_ok & Hr). apply bind_ok in Hr as (? & ->%require_revision_ok & [= <-]).
  by destruct s.
Qed.
Lemma check_all_selected l l' : traverse check_selected l = Ok l' -> l' = l.
Proof. intros Hf%traverse_ok. induction Hf as [|s s' l l' ->%check_selected_ok _ ->]; done. Qed.
Lemma select_revision db objective s s' :
  select_task db objective s = Ok s' -> au_revision (sa_execution s') = sl_execution_revision (sa_request s').
Proof.
  unfold select_task. cbv zeta. intros (m & _ & Hr)%bind_ok. apply bind_ok in Hr as (? & _ & Hr).
  apply bind_ok in Hr as (? & _ & Hr). by apply bind_ok in Hr as (a & (_ & Hn & _)%startable_ok & [= <-]).
Qed.
(** C8.  Starting selected tasks of an Objective starts exactly those: a
    command that succeeds named between 1 and 100 distinct tasks at their current
    revisions, none of them started or reviewed, and leaves each in progress from
    the same accepted instant, at its next revision with one start event more;
    every other task is untouched. *)
Theorem selected_start_exact command objective n e selected request a db db' m :
  executions_ok (domain_state db) -> command_receipts db !! command = None ->
  start_selected_objective_tasks fresh clock audit audit_clock command objective n e selected request a db = (db', Ok m) ->
  let d := domain_state db in let d' := domain_state db' in
  (1 <= length selected <= 100)%nat /\ NoDup (map sl_task_id selected) /\
  (forall s, s ∈ selected -> exists au, au_revision au = sl_execution_revision s /\ ready d (MkSelectedAuthority s au) /\
     started command (accepted_instant request (recorded_at clock)) d d' (MkSelectedAuthority s au)) /\
  forall t, t ∉ map sl_task_id selected -> untouched d d' t.
Proof.
  intros Hok Hnew. unfold start_selected_objective_tasks. cbv zeta.
  intros (s1 & o & [-> _]%lift_ok & Hr)%stm_bind_ok. apply stm_bind_ok in Hr as (s1 & ? & [-> _]%lift_ok & Hr).
  apply stm_bind_ok in Hr as (s1 & ? & [-> _]%lift_ok & Hr).
  apply stm_bind_ok in Hr as (s1 & ? & [-> Hcount%forbid_ok]%lift_ok & Hr).
  apply stm_bind_ok in Hr as (s1 & ? & [-> ->%check_all_selected]%lift_ok & Hr).
  apply stm_bind_ok in Hr as (s1 & ? & [-> Hnd%forbid_ok]%lift_ok & Hr).
  apply stm_bind_ok in Hr as (s1 & req & [-> Hreq]%lift_ok & Hr). apply stm_bind_ok in Hr as (s1 & y & Hr & Hrest).
  assert (req = request) as ->.
  { unfold _validate_effective_start in Hreq. by destruct request; apply bind_ok in Hreq as (? & _ & [= <-]). }
  assert (db' = s1) as ->.
  { repeat apply stm_bind_ok in Hrest as (? & ? & [-> _]%lift_ok & Hrest). by injection Hrest as <- _. }
  apply execute_fresh in Hr as (p & Hp & Hd); [|by intros ? ? ? (? & ? & _)%prepare_selected_ok|exact Hnew].
  apply prepare_selected_ok in Hp as (_ & _ & Hc & sel & Hsel & Ep). bool_hyps.
  destruct Hd as [[? _]|(_ & d1 & d2 & E1 & _ & (f & events & Ef & Hrun & _) & E2 & _)]; [congruence|].
  rewrite Ep in Ef. injection Ef as <-. unfold apply_selected in Hrun.
  apply stm_bind_ok in Hrun as (d3 & row & (d4 & Hd4 & ->)%on_domain_ok & [= <- _]).
  apply stm_bind_ok in Hd4 as (d5 & v & Hw & Hsame%rebuild_same). simpl in E2. rewrite E1 in *.
  destruct (select_tasks_ok _ _ _ _ Hsel) as [Er Hready].
  assert (Permutation (map sa_request sel) selected) as Hperm by (rewrite Er; apply py_sorted_perm).
  assert (map (fun s => sl_task_id (sa_request s)) sel = map sl_task_id (map sa_request sel)) as Eids by (by rewrite map_map).
  destruct (starts_exact _ _ _ _ _ _ Hok Hready ltac:(rewrite Eids, Er; exact Hnd) Hw) as [Hstarted Hun].
  split; [unfold _MAX_SELECTED_TASKS in *; lia|]. split; [by rewrite <-Hperm, Er|]. rewrite E2. split.
  - intros s Hs. rewrite <-Hperm in Hs. apply list_elem_of_fmap in Hs as (s' & -> & Hs').
    rewrite Forall_forall in Hready, Hstarted. exists (sa_execution s'). destruct s' as [s a'].
    split; [|split; [by apply (Hready _ Hs')|]].
    + destruct (traverse_elem_of _ _ _ _ Hsel Hs') as (s0 & _ & Hs0). by apply select_revision in Hs0.
    + destruct (Hstarted _ Hs') as (T1 & T2 & T3 & xr & T4 & T5). split_and!; [done| | |exists xr; split; [|done]].
      * by rewrite (st_tasks _ _ Hsame).
      * by rewrite (st_history _ _ Hsame).
      * by rewrite (st_authority _ _ Hsame).
  - intros t Ht. rewrite <-Hperm, <-Eids in Ht. destruct (Hun t Ht) as (U1 & U2 & U3). split_and!.
    + by rewrite (st_history _ _ Hsame).
    + by rewrite (st_authority _ _ Hsame).
    + by rewrite (st_tasks _ _ Hsame).
Qed.
End reviewed.
