(* ===== verification/TaskProps.v ===== *)
(** A sample history of one task: started, ended, reviewed and corrected.

    The properties of task execution at a sample history: a task of an
    Objective is started, ended, reviewed and its end withdrawn. *)
From S2P Require Import Prelude StrictJson Identifiers Grouping Jobs JobsExample AuditLedger Tables.
From S2P Require Import CommandBoundary CommandReplay CommandAudit CommandDomain ObjectiveTables Regroup.
From S2P Require Import ObjectiveStore ObjectiveAggregate RegroupStore RegroupManual RegroupContracts.
From S2P Require Import RegroupCommands RegroupDecisions RegroupSamples ObjectiveAggregateProps TaskFold.
From S2P Require Import TaskStore TaskAuthority TaskPreviews TaskContracts TaskExecution TaskCorrection.
From S2P Require Import TaskLife TaskAgree TaskHistory TaskRuns TaskReviewed.

Module TaskSamples.
Import Sample RegroupSamples.
Definition registry : AuditRegistry :=
  match _build_execution_audit_registry grouping_audit_registry with Ok r => r | Raise _ => [] end.
Definition review_registry : AuditRegistry :=
  match _build_task_review_audit_registry grouping_audit_registry with Ok r => r | Raise _ => [] end.
Example registries : (length registry, length review_registry) = (6%nat, 4%nat).
Proof. vm_compute. reflexivity. Qed.
Definition no_clock (s : string) : Z := 2000.
Definition t3 : string := task_uid 3.
Definition event (call : Z) : string := task_event_id (fresh call) t3.

(** Task 3 of Objective 1. *)
Definition start (call task_revision execution_revision at_ : Z) (db : LedgerDb ObjDb) :=
  start_task_execution (fresh call) clock registry no_clock (command_uid call) t3 task_revision execution_revision
    (AtInstant at_) me db.
Definition finish (call task_revision execution_revision at_ : Z) (db : LedgerDb ObjDb) :=
  end_task_execution (fresh call) clock registry no_clock (command_uid call) t3 task_revision execution_revision at_ me db.
Definition review_preview (db : ObjDb) (task_revision execution_revision : Z) :=
  Review.evaluate_outcome_review db t3 task_revision execution_revision 0 None "completed" None.
Definition review (call task_revision execution_revision : Z) (db : LedgerDb ObjDb) :=
  let fingerprint := match review_preview (domain_state db) task_revision execution_revision with
    | Ok p => Review.op_outcome_review_fingerprint p | Raise _ => EmptyString end in
  review_task_outcome (fresh call) clock review_registry no_clock (command_uid call) t3 task_revision execution_revision 0
    None "completed" None fingerprint me db.
Definition request (db : ObjDb) (task_revision execution_revision : Z) (target : string) (target_revision : Z)
    (action : string) (replacement : option Z) (accept : bool) : correction_request :=
  let fingerprint := match Review.evaluate_correction db t3 task_revision execution_revision target target_revision action
      replacement "false_end" with
    | Ok p => Review.cp_correction_review_fingerprint p | Raise _ => EmptyString end in
  MkCorrectionRequest t3 task_revision execution_revision target target_revision action replacement "false_end" fingerprint
    accept.
Definition correct (call task_revision execution_revision : Z) (target : string) (target_revision : Z) (action : string)
    (replacement : option Z) (accept : bool) (db : LedgerDb ObjDb) :=
  correct_task_execution_evidence (fresh call) clock registry no_clock (command_uid call)
    (request (domain_state db) task_revision execution_revision target target_revision action replacement accept) me db.
Definition cancel (call task_revision execution_revision at_ : Z) (db : LedgerDb ObjDb) :=
  cancel_task_without_execution (fresh call) clock registry no_clock (command_uid call) t3 task_revision execution_revision
    0 at_ "customer_request" me db.

Definition planned : LedgerDb ObjDb := before 0.
Definition started : LedgerDb ObjDb := (start 11 1 0 500 planned).1.
Definition ended : LedgerDb ObjDb := (finish 12 2 1 900 started).1.
Definition reviewed : LedgerDb ObjDb := (review 13 3 2 ended).1.
Definition reopened : LedgerDb ObjDb := (correct 14 4 2 (event 12) 2 "withdraw" None true reviewed).1.
Definition status {A} (r : LedgerDb ObjDb * result A) := match r.2 with Ok _ => None | Raise e => Some e end.
Definition projection (db : LedgerDb ObjDb) := task_execution_projection (domain_state db) !! t3.
End TaskSamples.

Module TaskExamples.
Import Sample RegroupSamples TaskSamples.
Lemma hex_digit_ok n : is_hex_lower (nth (Z.to_nat (n mod 16)) (String.list_ascii_of_string "0123456789abcdef") Ascii.zero) = true.
Proof.
  pose proof (Z.mod_pos_bound n 16 ltac:(lia)) as Hn. assert (exists k, n mod 16 = Z.of_nat k /\ (k < 16)%nat) as (k & -> & Hk).
  { exists (Z.to_nat (n mod 16)). lia. }
  rewrite Nat2Z.id. do 16 (destruct k as [|k]; [done|]). lia.
Qed.
Lemma fresh_uuid call s : is_uuid4 (fresh call s) = true.
Proof.
  unfold fresh. generalize (checksum call (String.concat "/" s)) as z. intros z. cbv zeta. unfold is_uuid4.
  simpl. rewrite !andb_true_iff. split_and!; first [reflexivity|exact (hex_digit_ok _)].
Qed.
(** Nothing has been executed yet. *)
Lemma planned_ok : tasks_ok (domain_state planned).
Proof.
  split; intros t.
  - exists no_execution. apply execution_authority_ok. exact (conj eq_refl eq_refl).
  - exists false. apply has_terminal_outcome_ok. exact (conj eq_refl eq_refl).
Qed.
Lemma start_run : task_run planned started.
Proof. exact (task_run_intro (fresh 11) clock registry no_clock (command_uid 11) me (StartTask t3 1 0 (AtInstant 500)) planned (fresh_uuid 11)). Qed.
Lemma end_run : task_run started ended.
Proof. exact (task_run_intro (fresh 12) clock registry no_clock (command_uid 12) me (EndTask t3 2 1 900) started (fresh_uuid 12)). Qed.
Lemma review_run : task_run ended reviewed.
Proof.
  exact (task_run_intro (fresh 13) clock review_registry no_clock (command_uid 13) me (ReviewOutcome t3 3 2 0 None "completed" None
    (match review_preview (domain_state ended) 3 2 with
     | Ok p => Review.op_outcome_review_fingerprint p | Raise _ => EmptyString end)) ended (fresh_uuid 13)).
Qed.
Lemma reopen_run : task_run reviewed reopened.
Proof.
  exact (task_run_intro (fresh 14) clock registry no_clock (command_uid 14) me
    (CorrectEvidence (request (domain_state reviewed) 4 2 (event 12) 2 "withdraw" None true)) reviewed (fresh_uuid 14)).
Qed.
Lemma sample_run : star task_run planned reopened.
Proof.
  eapply star_step; [exact start_run|]. eapply star_step; [exact end_run|]. eapply star_step; [exact review_run|].
  eapply star_step; [exact reopen_run|]. apply star_refl.
Qed.
Lemma reopened_ok : tasks_ok (domain_state reopened).
Proof. exact (proj1 (task_runs_move _ _ planned_ok sample_run)). Qed.
Definition outcome_of (db : LedgerDb ObjDb) : option OutcomeRow := task_outcome_current (domain_state db) !! t3.
Definition fold_of (db : LedgerDb ObjDb) : result folded := _fold_execution_history (history_rows (domain_state db) t3).

(** The end was withdrawn after the review; ending the task again fails. *)
Definition end_again : LedgerDb ObjDb * result TaskMutationResult := finish 15 5 3 950 reopened.
Lemma end_again_run : task_run reopened end_again.1.
Proof. exact (task_run_intro (fresh 15) clock registry no_clock (command_uid 15) me (EndTask t3 5 3 950) reopened (fresh_uuid 15)). Qed.
Definition withdrawal : correction_request := request (domain_state reviewed) 4 2 (event 12) 2 "withdraw" None true.
Definition shown (db : ObjDb) (r : correction_request) : option (string * bool) :=
  match Review.evaluate_correction db (cr_task_id r) (cr_task_revision r) (cr_execution_revision r) (cr_target_id r)
    (cr_target_revision r) (cr_action r) (cr_replacement r) (cr_reason r) with
  | Ok p => Some (Review.cp_resulting_execution_state p, Review.cp_outcome_invalidation_required p)
  | Raise _ => None end.
Definition reopened_authority : _ExecutionAuthority :=
  MkAuthority 3 "in_progress" (Some 500) None None (Some (event 14)) true.
(** The sample history, evaluated once. *)
Record sample_facts : Prop := {
  sm_ended : option_map projection_of (projection ended) = Some ("ended", Some 500, Some 900, None);
  sm_lengths : (length (history_rows (domain_state ended) t3), length (history_rows (domain_state reopened) t3)) = (2, 3)%nat;
  sm_authority : _execution_authority (domain_state reopened) t3 = Ok reopened_authority;
  sm_fold : fold_of reopened = Ok ("in_progress", Some 500, None, None);
  sm_recorded : forallb (fun r : history_row => (0 <=? ee_recorded_at_utc r.2) && is_uuid4 (ee_command_id r.2))
    (history_rows (domain_state reopened) t3) = true;
  sm_outcome : outcome_of reopened = Some (MkOutcomeRow (outcome_event_id (fresh 13) t3) "completed" 1000 1 (command_uid 13));
  sm_again : status end_again = Some (Soma (IntegrityFailure "Task has a reviewed terminal outcome before execution end"));
  sm_new : command_receipts reviewed !! command_uid 14 = None;
  sm_preview : shown (domain_state reviewed) withdrawal = Some ("in_progress", true);
  sm_corrected : (correct 14 4 2 (event 12) 2 "withdraw" None true reviewed).2
    = Ok (MkTaskResult "APPLIED" t3 5 [("task_execution_event", event 14)] false)
}.
Lemma facts_tuple {A B C D E F G H I J} (a a' : A) (b b' : B) (c c' : C) (d d' : D) (e e' : E) (f f' : F) (g g' : G)
    (h h' : H) (i i' : I) (j j' : J) :
  (a, b, c, d, e, f, g, h, i, j) = (a', b', c', d', e', f', g', h', i', j') ->
  a = a' /\ b = b' /\ c = c' /\ d = d' /\ e = e' /\ f = f' /\ g = g' /\ h = h' /\ i = i' /\ j = j'.
Proof. intros [=]. by subst. Qed.
Lemma sample_evaluated : sample_facts.
Proof.
  refine (let x := facts_tuple _ _ _ _ _ _ _ _ _ _ _ _ _ _ _ _ _ _ _ _ _ in
    match x with conj a (conj b (conj c (conj d (conj e (conj f (conj g (conj h (conj i j)))))))) =>
      Build_sample_facts a b c d e f g h i j end).
  vm_compute. reflexivity.
Qed.

(** ** Witnesses *)
Lemma task_commands_refine_witness :
  option_map projection_of (projection ended) = Some ("ended", Some 500, Some 900, None) /\
  _execution_authority (domain_state reopened) t3 = Ok reopened_authority /\
  tasks_ok (domain_state reopened) /\
  forall t, star life_step (life (domain_state planned) t) (life (domain_state reopened) t).
Proof.
  split; [exact (sm_ended sample_evaluated)|]. split; [exact (sm_authority sample_evaluated)|].
  exact (task_commands_refine planned reopened planned_ok sample_run).
Defined.
Lemma reviewed_task_never_finishes_witness :
  status end_again = Some (Soma (IntegrityFailure "Task has a reviewed terminal outcome before execution end")) /\
  outcome_of end_again.1 = Some (MkOutcomeRow (outcome_event_id (fresh 13) t3) "completed" 1000 1 (command_uid 13)) /\
  exists f, fold_of end_again.1 = Ok f /\ finished f = false.
Proof.
  split; [exact (sm_again sample_evaluated)|].
  exact (reviewed_task_never_finishes reopened end_again.1 t3 _ ("in_progress", Some 500, None, None) reopened_ok
    (sm_outcome sample_evaluated) (sm_fold sample_evaluated) eq_refl (star_one _ _ _ end_again_run)).
Defined.
Lemma reopened_recorded : Forall recorded_ok (history_rows (domain_state reopened) t3).
Proof.
  apply Forall_forall. intros r Hr. pose proof (sm_recorded sample_evaluated) as Hall.
  rewrite forallb_forall in Hall. apply list_elem_of_In in Hr. specialize (Hall r Hr). apply andb_true_iff in Hall as [H1 H2].
  split; [by apply Z.leb_le|exact H2].
Qed.
Lemma load_execution_authority_agrees_witness :
  exists x, Review._load_execution_authority (domain_state reopened) t3 = Ok x /\ command_view x = reopened_authority.
Proof.
  exact (proj2 (load_execution_authority_agrees (domain_state reopened) t3 reopened_authority reopened_recorded)
    (sm_authority sample_evaluated)).
Defined.
Lemma t3_uuid : is_uuid4 t3 = true.
Proof. vm_compute. reflexivity. Qed.
Lemma member_execution_agrees_witness :
  member_execution (domain_state reopened) t3 = Ok (MkExecutionAuthority 3 "in_progress" (Some 500) None None).
Proof.
  exact (member_execution_agrees (domain_state reopened) t3 reopened_authority t3_uuid (sm_authority sample_evaluated)).
Defined.
(** The reviewed end withdrawn, as previewed. *)
Lemma ran {A B} (p : A * B) b : p.2 = b -> p = (p.1, b).
Proof. destruct p. simpl. by intros ->. Qed.
Lemma withdrawal_run : correct 14 4 2 (event 12) 2 "withdraw" None true reviewed
  = correct_task_execution_evidence (fresh 14) clock registry no_clock (command_uid 14) withdrawal me reviewed.
Proof. unfold correct, withdrawal. reflexivity. Qed.
Lemma correction_as_previewed_witness :
  exists p x, confirmed (domain_state reviewed) withdrawal p /\
    Review.cp_resulting_execution_state p = "in_progress" /\ Review.cp_outcome_invalidation_required p = true /\
    _execution_authority (domain_state reopened) t3 = Ok (authority_of x) /\
    ex_execution_state x = Review.cp_resulting_execution_state p.
Proof.
  assert (correct 14 4 2 (event 12) 2 "withdraw" None true reviewed
    = (reopened, Ok (MkTaskResult "APPLIED" t3 5 [("task_execution_event", event 14)] false))) as Hr.
  { exact (ran (correct 14 4 2 (event 12) 2 "withdraw" None true reviewed) _ (sm_corrected sample_evaluated)). }
  rewrite withdrawal_run in Hr.
  destruct (correction_as_previewed (fresh 14) clock registry no_clock (command_uid 14) withdrawal me reviewed reopened _
    (sm_new sample_evaluated) Hr) as (p & x & e & Hp & _ & _ & _ & _ & _ & Ha & Hs).
  pose proof (sm_preview sample_evaluated) as Hcase. unfold shown in Hcase.
  rewrite (proj1 Hp) in Hcase. injection Hcase as H1 H2. exists p, x. split_and!; assumption.
Defined.
(** Two members of Objective 1 started together. *)
Definition selection : list SelectedTaskExecutionStart := [MkSelected (task_uid 6) 1 0; MkSelected t3 1 0].
Definition start_both := start_selected_objective_tasks (fresh 21) clock registry no_clock (command_uid 21) (objective_uid 1) 1 1
  selection (AtInstant 700) me planned.
Lemma selection_revisions s : s ∈ selection -> sl_execution_revision s = 0.
Proof. revert s. apply Forall_forall. by repeat constructor. Qed.
Lemma selected_start_exact_witness :
  (forall s, s ∈ selection -> exists au, au_revision au = 0 /\
     TaskReviewed.started (fresh 21) clock (command_uid 21) 700 (domain_state planned) (domain_state start_both.1) (MkSelectedAuthority s au)) /\
  forall t, t ∉ [task_uid 6; t3] -> untouched (domain_state planned) (domain_state start_both.1) t.
Proof.
  assert (start_both = (start_both.1, Ok (MkObjectiveResult "APPLIED" (objective_uid 1) 1
    [("task_execution_event", task_event_id (fresh 21) t3); ("task_execution_event", task_event_id (fresh 21) (task_uid 6))]
    false))) as Hr.
  { refine (ran start_both _ _). vm_compute. reflexivity. }
  destruct (selected_start_exact (fresh 21) clock registry no_clock (fresh_uuid 21) (command_uid 21) (objective_uid 1) 1 1
    selection (AtInstant 700) me planned start_both.1 _ (proj1 planned_ok) ltac:(vm_compute; reflexivity) Hr)
    as (_ & _ & Hstarted & Hrest).
  split; [|exact Hrest]. intros s Hs. destruct (Hstarted s Hs) as (au & Hn & _ & Hst). exists au. split; [|exact Hst].
  rewrite Hn. exact (selection_revisions s Hs).
Defined.
End TaskExamples.
