(* ===== verification/TicketTables.v ===== *)
(** The ticket tables of [migrations/0003_tickets_core.sql] the RFC commands
    read and write, and the statements over them with their constraints,
    partial unique indexes and triggers. *)
From S2P Require Import Prelude Tables StrictJson Identifiers.

(** * Rows *)
Record RfcRow := MkRfc {
  rf_rfc_no : string;
  rf_customer_org_id : option string;
  rf_local_archive_state : string;
  rf_revision : Z;
  rf_created_at_utc : Z;
  rf_updated_at_utc : Z
}.
Record EdgeRow := MkEdge {
  eg_parent_rfc_id : string;
  eg_child_rfc_id : string;
  eg_edge_state : string;
  eg_opened_at_utc : Z;
  eg_closed_at_utc : option Z;
  eg_opened_command_id : string;
  eg_closed_command_id : option string
}.
Record ServiceRequestRow := MkServiceRequest {
  sr_official_sr_no : option string;
  sr_local_sr_no : option string;
  sr_revision : Z;
  sr_created_at_utc : Z;
  sr_updated_at_utc : Z
}.
Record SrRfcLinkRow := MkSrRfcLink {
  lk_service_request_id : string;
  lk_rfc_id : string;
  lk_link_state : string;
  lk_opened_at_utc : Z;
  lk_closed_at_utc : option Z;
  lk_opened_command_id : string;
  lk_closed_command_id : option string;
  lk_reason_category : option string
}.
(** [rfc_device_reference_links] and [sr_device_reference_links]. *)
Record DeviceLinkRow := MkDeviceLink {
  dl_ticket_id : string;
  dl_device_reference_id : string;
  dl_link_state : string;
  dl_opened_at_utc : Z;
  dl_closed_at_utc : option Z;
  dl_opened_command_id : string;
  dl_closed_command_id : option string
}.
(** Of the rows below the RFC commands read these columns only. *)
Record SrCustomerRow := MkSrCustomer {
  sc_service_request_id : string; sc_customer_org_id : string; sc_relationship_state : string
}.
Record CustomerRow := MkCustomer { cu_lifecycle_state : string; cu_revision : Z }.
Record SrProjectionRow := MkSrProjection { sp_status_observation_id : option string; sp_revision : Z }.
Record SrObservationRow := MkSrObservation {
  so_service_request_id : string; so_field_key : string; so_value_state : string; so_text_value : option string;
  so_source_observation_field_id : string
}.
(** A text or instant column next to the evidence it stands on. *)
Record evidenced (A : Type) := MkEvidenced { ev_value : option A; ev_evidence_id : option string }.
Arguments MkEvidenced {A}. Arguments ev_value {A}. Arguments ev_evidence_id {A}.
Record RfcProjectionRow := MkRfcProjection {
  rp_summary : evidenced string;
  rp_external_created_at_utc : evidenced Z;
  rp_creator : evidenced string;
  rp_customer_account_number : evidenced string;
  rp_customer_account_name : evidenced string;
  rp_severity : evidenced string;
  rp_status_text : option string;
  rp_status_class : string;
  rp_status_authority : option string;
  rp_status_evidence_id : option string;
  rp_terminal_epoch_id : option string;
  rp_owner_external_id : evidenced string;
  rp_owner_name : evidenced string;
  rp_l1_handler_name : evidenced string;
  rp_l2_handler_name : evidenced string;
  rp_last_update_utc : evidenced Z;
  rp_revision : Z
}.

Record TicketDb := MkTicketDb {
  rfcs : gmap string RfcRow;
  rfc_hierarchy_edges : gmap string EdgeRow;
  service_requests : gmap string ServiceRequestRow;
  sr_rfc_links : gmap string SrRfcLinkRow;
  rfc_device_reference_links : gmap string DeviceLinkRow;
  sr_device_reference_links : gmap string DeviceLinkRow;
  device_references : gset string;
  customer_organizations : gmap string CustomerRow;
  sr_customer_relationships : gmap string SrCustomerRow;
  sr_current_source_projection : gmap string SrProjectionRow;
  sr_source_field_observations : gmap string SrObservationRow;
  rfc_current_source_projection : gmap string RfcProjectionRow
}.
Definition ticketM : Type -> Type := stM TicketDb.

Definition set_rfcs (t : gmap string RfcRow) (d : TicketDb) : TicketDb :=
  MkTicketDb t (rfc_hierarchy_edges d) (service_requests d) (sr_rfc_links d) (rfc_device_reference_links d)
    (sr_device_reference_links d) (device_references d) (customer_organizations d) (sr_customer_relationships d)
    (sr_current_source_projection d) (sr_source_field_observations d) (rfc_current_source_projection d).
Definition set_edges (t : gmap string EdgeRow) (d : TicketDb) : TicketDb :=
  MkTicketDb (rfcs d) t (service_requests d) (sr_rfc_links d) (rfc_device_reference_links d)
    (sr_device_reference_links d) (device_references d) (customer_organizations d) (sr_customer_relationships d)
    (sr_current_source_projection d) (sr_source_field_observations d) (rfc_current_source_projection d).
Definition set_requests (t : gmap string ServiceRequestRow) (d : TicketDb) : TicketDb :=
  MkTicketDb (rfcs d) (rfc_hierarchy_edges d) t (sr_rfc_links d) (rfc_device_reference_links d)
    (sr_device_reference_links d) (device_references d) (customer_organizations d) (sr_customer_relationships d)
    (sr_current_source_projection d) (sr_source_field_observations d) (rfc_current_source_projection d).
Definition set_links (t : gmap string SrRfcLinkRow) (d : TicketDb) : TicketDb :=
  MkTicketDb (rfcs d) (rfc_hierarchy_edges d) (service_requests d) t (rfc_device_reference_links d)
    (sr_device_reference_links d) (device_references d) (customer_organizations d) (sr_customer_relationships d)
    (sr_current_source_projection d) (sr_source_field_observations d) (rfc_current_source_projection d).
Definition set_rfc_devices (t : gmap string DeviceLinkRow) (d : TicketDb) : TicketDb :=
  MkTicketDb (rfcs d) (rfc_hierarchy_edges d) (service_requests d) (sr_rfc_links d) t
    (sr_device_reference_links d) (device_references d) (customer_organizations d) (sr_customer_relationships d)
    (sr_current_source_projection d) (sr_source_field_observations d) (rfc_current_source_projection d).
Definition set_sr_devices (t : gmap string DeviceLinkRow) (d : TicketDb) : TicketDb :=
  MkTicketDb (rfcs d) (rfc_hierarchy_edges d) (service_requests d) (sr_rfc_links d) (rfc_device_reference_links d)
    t (device_references d) (customer_organizations d) (sr_customer_relationships d)
    (sr_current_source_projection d) (sr_source_field_observations d) (rfc_current_source_projection d).

(** * Reads *)
Definition active_edge (e : EdgeRow) : bool := String.eqb (eg_edge_state e) "active".
Definition active_link (l : SrRfcLinkRow) : bool := String.eqb (lk_link_state l) "active".
Definition active_device (l : DeviceLinkRow) : bool := String.eqb (dl_link_state l) "active".
(** [... WHERE ...], as rows with their keys. *)
Definition rows_where {A} (p : A -> bool) (table : gmap string A) : list (string * A) :=
  filter (fun kv : string * A => p kv.2 = true) (map_to_list table).
(** [... fetchone() is not None]. *)
Definition any_row {A} (rows : list A) : bool := match rows with [] => false | _ => true end.
Definition parent_edges (db : TicketDb) (child : string) : list (string * EdgeRow) :=
  rows_where (fun e => active_edge e && String.eqb (eg_child_rfc_id e) child) (rfc_hierarchy_edges db).
Definition child_edges (db : TicketDb) (parent : string) : list (string * EdgeRow) :=
  rows_where (fun e => active_edge e && String.eqb (eg_parent_rfc_id e) parent) (rfc_hierarchy_edges db).
Definition links_of_rfc (db : TicketDb) (rfc : string) : list (string * SrRfcLinkRow) :=
  rows_where (fun l => active_link l && String.eqb (lk_rfc_id l) rfc) (sr_rfc_links db).
Definition links_between (db : TicketDb) (sr rfc : string) : list (string * SrRfcLinkRow) :=
  rows_where (fun l => active_link l && String.eqb (lk_service_request_id l) sr && String.eqb (lk_rfc_id l) rfc)
    (sr_rfc_links db).
Definition device_links_of (table : gmap string DeviceLinkRow) (ticket : string) : list (string * DeviceLinkRow) :=
  rows_where (fun l => active_device l && String.eqb (dl_ticket_id l) ticket) table.
(** [fetchone]: the edge and the parent. *)
Definition _active_parent (db : TicketDb) (child : string) : option (string * string) :=
  match parent_edges db child with [] => None | (id, e) :: _ => Some (id, eg_parent_rfc_id e) end.
Definition has_parent (db : TicketDb) (rfc : string) : bool := present_opt (_active_parent db rfc).
Definition has_children (db : TicketDb) (rfc : string) : bool := any_row (child_edges db rfc).
Definition directly_linked (db : TicketDb) (rfc : string) : bool := any_row (links_of_rfc db rfc).
(** [rfc_id=? OR rfc_id IN (SELECT child_rfc_id ... WHERE parent_rfc_id=?)]. *)
Definition branch_rows (db : TicketDb) (root : string) : list (string * RfcRow) :=
  filter (fun kv : string * RfcRow =>
      String.eqb kv.1 root || existsb (fun e : string * EdgeRow => String.eqb (eg_child_rfc_id e.2) kv.1) (child_edges db root) = true)
    (py_sorted (fun kv : string * RfcRow => kv.1) (map_to_list (rfcs db))).

(** * Statements *)
Definition is_rfc_no (s : string) : bool :=
  (Z.of_nat (String.length s) =? 16) && String.prefix "NC" s && all_chars is_digit (String.substring 2 14 s).
Definition rfc_row_ok (db : TicketDb) (r : RfcRow) : bool :=
  is_rfc_no (rf_rfc_no r) && known_opt (customer_organizations db) (rf_customer_org_id r)
  && set_token ["active"; "archived"] (rf_local_archive_state r) && (0 <? rf_revision r)
  && (0 <=? rf_created_at_utc r) && (rf_created_at_utc r <=? rf_updated_at_utc r).
Definition rfc_no_row (db : TicketDb) (rfc_no : string) : option (string * RfcRow) :=
  head (rows_where (fun r => String.eqb (rf_rfc_no r) rfc_no) (rfcs db)).
Definition insert_rfc (id : string) (r : RfcRow) : ticketM unit :=
  statement (fun db => negb (known (rfcs db) id) && rfc_row_ok db r && negb (present_opt (rfc_no_row db (rf_rfc_no r))))
    (fun db => set_rfcs (<[id := r]> (rfcs db)) db).
(** [UPDATE ... SET ... WHERE ...]: the rows hit, all or none of them updated. *)
Definition hits {A} (hit : string -> A -> bool) (table : gmap string A) : list (string * A) :=
  filter (fun kv : string * A => hit kv.1 kv.2 = true) (map_to_list table).
Definition updated {A} (hit : string -> A -> bool) (f : A -> A) (table : gmap string A) : gmap string A :=
  map_imap (fun id r => Some (if hit id r then f r else r)) table.
Definition update_rfcs (hit : string -> RfcRow -> bool) (f : RfcRow -> RfcRow) : ticketM Z := fun db =>
  let rows := hits hit (rfcs db) in
  if forallb (fun kv : string * RfcRow => rfc_row_ok db (f kv.2)) rows
  then (set_rfcs (updated hit f (rfcs db)) db, Ok (Z.of_nat (length rows))) else (db, Raise sql_violation).
(** [SET revision=revision+1,updated_at_utc=?]. *)
Definition touch_rfc (now : Z) (r : RfcRow) : RfcRow :=
  MkRfc (rf_rfc_no r) (rf_customer_org_id r) (rf_local_archive_state r) (rf_revision r + 1) (rf_created_at_utc r) now.
Definition touch_rfcs (now : Z) (ids : list string) : ticketM Z :=
  update_rfcs (fun id _ => existsb (String.eqb id) ids) (touch_rfc now).
Definition touch_rfc_at (now : Z) (id : string) (revision : Z) : ticketM Z :=
  update_rfcs (fun id' r => String.eqb id' id && (rf_revision r =? revision)) (touch_rfc now).
Definition set_rfc_customer (now : Z) (id : string) (customer : option string) : ticketM Z :=
  update_rfcs (fun id' _ => String.eqb id' id) (fun r =>
    MkRfc (rf_rfc_no r) customer (rf_local_archive_state r) (rf_revision r + 1) (rf_created_at_utc r) now).
Definition touch_request_at (now : Z) (id : string) (revision : Z) : ticketM Z := fun db =>
  let hit id' r := String.eqb id' id && (sr_revision r =? revision) in
  let f r := MkServiceRequest (sr_official_sr_no r) (sr_local_sr_no r) (sr_revision r + 1) (sr_created_at_utc r) now in
  let rows := hits hit (service_requests db) in
  if forallb (fun kv : string * ServiceRequestRow =>
      (0 <? sr_revision kv.2 + 1) && (sr_created_at_utc kv.2 <=? now)) rows
  then (set_requests (updated hit f (service_requests db)) db, Ok (Z.of_nat (length rows)))
  else (db, Raise sql_violation).

(** The three triggers of an active edge, [uq_rfc_active_parent], [CHECK]. *)
Definition insert_edge (id : string) (e : EdgeRow) : ticketM unit :=
  statement (fun db => negb (known (rfc_hierarchy_edges db) id)
      && known (rfcs db) (eg_parent_rfc_id e) && known (rfcs db) (eg_child_rfc_id e)
      && (0 <=? eg_opened_at_utc e) && negb (String.eqb (eg_parent_rfc_id e) (eg_child_rfc_id e))
      && active_edge e && bool_decide (eg_closed_at_utc e = None /\ eg_closed_command_id e = None)
      && negb (has_parent db (eg_parent_rfc_id e)) && negb (has_children db (eg_child_rfc_id e))
      && negb (directly_linked db (eg_child_rfc_id e)) && negb (has_parent db (eg_child_rfc_id e)))
    (fun db => set_edges (<[id := e]> (rfc_hierarchy_edges db)) db).
Definition closed_edge (now : Z) (command : string) (e : EdgeRow) : EdgeRow :=
  MkEdge (eg_parent_rfc_id e) (eg_child_rfc_id e) "superseded" (eg_opened_at_utc e) (Some now) (eg_opened_command_id e)
    (Some command).
Definition supersede_edge (now : Z) (command id parent child : string) : ticketM Z := fun db =>
  match rfc_hierarchy_edges db !! id with
  | Some e =>
      if String.eqb (eg_parent_rfc_id e) parent && String.eqb (eg_child_rfc_id e) child && active_edge e
      then (set_edges (<[id := closed_edge now command e]> (rfc_hierarchy_edges db)) db, Ok 1) else (db, Ok 0)
  | None => (db, Ok 0)
  end.
(** With [sr_rfc_insert_root_only] and [uq_sr_rfc_active_pair]. *)
Definition insert_sr_link (id : string) (l : SrRfcLinkRow) : ticketM unit :=
  statement (fun db => negb (known (sr_rfc_links db) id) && known (service_requests db) (lk_service_request_id l)
      && known (rfcs db) (lk_rfc_id l) && (0 <=? lk_opened_at_utc l)
      && active_link l && bool_decide (lk_closed_at_utc l = None /\ lk_closed_command_id l = None)
      && negb (has_parent db (lk_rfc_id l))
      && negb (any_row (links_between db (lk_service_request_id l) (lk_rfc_id l))))
    (fun db => set_links (<[id := l]> (sr_rfc_links db)) db).
Definition closed_link (now : Z) (command : string) (l : SrRfcLinkRow) : SrRfcLinkRow :=
  MkSrRfcLink (lk_service_request_id l) (lk_rfc_id l) "unlinked" (lk_opened_at_utc l) (Some now)
    (lk_opened_command_id l) (Some command) (lk_reason_category l).
Definition unlink_sr_link (now : Z) (command id : string) : ticketM Z := fun db =>
  match sr_rfc_links db !! id with
  | Some l =>
      if active_link l then (set_links (<[id := closed_link now command l]> (sr_rfc_links db)) db, Ok 1) else (db, Ok 0)
  | None => (db, Ok 0)
  end.

(** ** The two device link tables *)
Inductive ticket_type := ServiceRequestTicket | RfcTicket.
Definition device_table (t : ticket_type) (db : TicketDb) : gmap string DeviceLinkRow :=
  match t with ServiceRequestTicket => sr_device_reference_links db | RfcTicket => rfc_device_reference_links db end.
Definition set_device_table (t : ticket_type) (table : gmap string DeviceLinkRow) (db : TicketDb) : TicketDb :=
  match t with ServiceRequestTicket => set_sr_devices table db | RfcTicket => set_rfc_devices table db end.
Definition ticket_revision (t : ticket_type) (db : TicketDb) (id : string) : option Z :=
  match t with
  | ServiceRequestTicket => sr_revision <$> service_requests db !! id
  | RfcTicket => rf_revision <$> rfcs db !! id
  end.
Definition device_links_between (table : gmap string DeviceLinkRow) (ticket device : string) : list (string * DeviceLinkRow) :=
  rows_where (fun l => active_device l && String.eqb (dl_ticket_id l) ticket && String.eqb (dl_device_reference_id l) device)
    table.
Definition insert_device_link (t : ticket_type) (id : string) (l : DeviceLinkRow) : ticketM unit :=
  statement (fun db => negb (known (device_table t db) id) && present_opt (ticket_revision t db (dl_ticket_id l))
      && bool_decide (dl_device_reference_id l ∈ device_references db) && (0 <=? dl_opened_at_utc l)
      && active_device l && bool_decide (dl_closed_at_utc l = None /\ dl_closed_command_id l = None)
      && negb (any_row (device_links_between (device_table t db) (dl_ticket_id l) (dl_device_reference_id l))))
    (fun db => set_device_table t (<[id := l]> (device_table t db)) db).
Definition unlink_device_link (t : ticket_type) (now : Z) (command id : string) : ticketM Z := fun db =>
  match device_table t db !! id with
  | Some l =>
      if active_device l then
        (set_device_table t (<[id := MkDeviceLink (dl_ticket_id l) (dl_device_reference_id l) "unlinked"
           (dl_opened_at_utc l) (Some now) (dl_opened_command_id l) (Some command)]> (device_table t db)) db, Ok 1)
      else (db, Ok 0)
  | None => (db, Ok 0)
  end.
