(* ===== verification/RfcIdentity.v ===== *)
(** The RFC projections: [tickets/queries/rfcs.py] and the branch of a root,
    its fingerprint, pages and committed response:
    [tickets/queries/rfc_branches.py].

    The identity commands of an RFC: [RfcService] of [tickets/rfcs.py], with
    [tickets/validation.py], [tickets/results.py] and the RFC actions of
    [tickets/audit_registry.py]. *)
From S2P Require Import Prelude StrictJson Identifiers AuditLedger Tables CommandBoundary TicketTables.

Definition ticket_error (code_ m : string) : SomaError := MkSomaError code_ m false.

(** * RFC details *)
Record RfcDetail := MkDetail {
  dt_rfc_id : string;
  dt_rfc_no : string;
  dt_revision : Z;
  dt_hierarchy_role : string;
  dt_customer_org_id : option string;
  dt_local_archive_state : string;
  dt_source_projection : option (list (string * json));
  dt_direct_service_request_count : Z;
  dt_device_reference_count : Z;
  dt_subordinate_count : Z;
  dt_warnings : list string
}.
Definition _lookup (db : TicketDb) (rfc_id rfc_no : option string) : result (option (string * RfcRow)) :=
  match rfc_id, rfc_no with
  | Some id, None => Ok (pair id <$> rfcs db !! id)
  | None, Some no => Ok (rfc_no_row db no)
  | _, _ => raise (ValidationError "exactly one RFC lookup identity is required")
  end.
(** [SELECT *] of the projection, without [rfc_id]. *)
Definition evidenced_columns {A} (f : A -> json) (column evidence : string) (v : evidenced A) : list (string * json) :=
  [(column, jopt f (ev_value v)); (evidence, jopt JStr (ev_evidence_id v))].
Definition projection_columns (p : RfcProjectionRow) : list (string * json) :=
  evidenced_columns JStr "summary_text" "summary_evidence_id" (rp_summary p)
  ++ evidenced_columns JInt "external_created_at_utc" "external_created_evidence_id" (rp_external_created_at_utc p)
  ++ evidenced_columns JStr "creator_text" "creator_evidence_id" (rp_creator p)
  ++ evidenced_columns JStr "customer_account_number_text" "customer_account_number_evidence_id"
       (rp_customer_account_number p)
  ++ evidenced_columns JStr "customer_account_name_text" "customer_account_name_evidence_id" (rp_customer_account_name p)
  ++ evidenced_columns JStr "severity_text" "severity_evidence_id" (rp_severity p)
  ++ [("status_text", jopt JStr (rp_status_text p)); ("status_class", JStr (rp_status_class p));
      ("status_authority", jopt JStr (rp_status_authority p)); ("status_evidence_id", jopt JStr (rp_status_evidence_id p));
      ("terminal_epoch_id", jopt JStr (rp_terminal_epoch_id p))]
  ++ evidenced_columns JStr "owner_external_id_text" "owner_external_id_evidence_id" (rp_owner_external_id p)
  ++ evidenced_columns JStr "owner_name_text" "owner_name_evidence_id" (rp_owner_name p)
  ++ evidenced_columns JStr "l1_handler_name_text" "l1_handler_name_evidence_id" (rp_l1_handler_name p)
  ++ evidenced_columns JStr "l2_handler_name_text" "l2_handler_name_evidence_id" (rp_l2_handler_name p)
  ++ evidenced_columns JInt "last_update_utc" "last_update_evidence_id" (rp_last_update_utc p)
  ++ [("revision", JInt (rp_revision p))].
Definition _source_projection (db : TicketDb) (rfc_id : string) : option (list (string * json)) :=
  projection_columns <$> rfc_current_source_projection db !! rfc_id.
Definition count {A} (rows : list A) : Z := Z.of_nat (length rows).
Definition customer_warnings (customer state : option string) : list string :=
  match customer with
  | None => ["RFC_CUSTOMER_UNRESOLVED"]
  | Some _ => if bool_decide (state = Some "active") then [] else ["RFC_CUSTOMER_REFERENCE_ARCHIVED"]
  end.
Definition customer_state (db : TicketDb) (customer : option string) : option string :=
  c ← customer; cu_lifecycle_state <$> customer_organizations db !! c.
Definition unresolved_customer (db : TicketDb) (customer : option string) : bool :=
  present_opt customer && negb (present_opt (customer_state db customer)).
Definition detail_of (db : TicketDb) (id : string) (r : RfcRow) (role : string) (subordinates : Z) : RfcDetail :=
  MkDetail id (rf_rfc_no r) (rf_revision r) role (rf_customer_org_id r) (rf_local_archive_state r)
    (_source_projection db id) (count (links_of_rfc db id))
    (count (device_links_of (rfc_device_reference_links db) id)) subordinates
    (customer_warnings (rf_customer_org_id r) (customer_state db (rf_customer_org_id r))).
Definition get_rfc (db : TicketDb) (rfc_id rfc_no : option string) : result RfcDetail :=
  row ← _lookup db rfc_id rfc_no;
  match row with
  | None => raise (ticket_error "NOT_FOUND" "RFC does not exist")
  | Some (id, r) =>
      let subordinates := count (child_edges db id) in
      _ ← forbid (has_parent db id && negb (subordinates =? 0))
        (PersistenceFailure "RFC hierarchy violates the two-level forest invariant");
      _ ← forbid (unresolved_customer db (rf_customer_org_id r))
        (PersistenceFailure "RFC Customer reference does not resolve");
      Ok (detail_of db id r (if has_parent db id then "subordinate"
        else if subordinates =? 0 then "standalone" else "root") subordinates)
  end.

(** One page of subordinates at once. *)
Definition page_rows (db : TicketDb) (ids : list string) : list (string * RfcRow) :=
  filter (fun kv : string * RfcRow => existsb (String.eqb kv.1) ids = true)
    (py_sorted (fun kv : string * RfcRow => kv.1) (map_to_list (rfcs db))).
Definition subordinate_detail (db : TicketDb) (kv : string * RfcRow) : result RfcDetail :=
  let '(id, r) := kv in
  _ ← forbid (negb (count (parent_edges db id) =? 1) || negb (count (child_edges db id) =? 0))
    (PersistenceFailure "RFC branch member violates the two-level forest invariant");
  Ok (detail_of db id r "subordinate" 0).
Definition get_subordinates (db : TicketDb) (ids : list string) : result (list RfcDetail) :=
  match ids with
  | [] => Ok []
  | _ =>
      _ ← forbid ((500 <? count ids) || negb (bool_decide (NoDup ids)))
        (ValidationError "RFC subordinate page identities are invalid");
      _ ← forbid (negb (bool_decide (py_sorted (fun s => s) ids = ids)))
        (ValidationError "RFC subordinate page identities must be ordered");
      let rows := page_rows db ids in
      _ ← forbid (negb (bool_decide (map fst rows = ids)))
        (PersistenceFailure "RFC branch page identities did not resolve exactly");
      _ ← forbid (existsb (fun kv : string * RfcRow => unresolved_customer db (rf_customer_org_id kv.2)) rows)
        (PersistenceFailure "RFC Customer reference does not resolve");
      traverse (subordinate_detail db) rows
  end.

(** * Branches *)
Definition _DEFAULT_LIMIT : Z := 100.
Definition _MAX_LIMIT : Z := 500.
Definition _BRANCH_SCHEMA : string := "SOMA_RFC_BRANCH_FINGERPRINT_V1".
Definition _FILTER_SCHEMA : string := "SOMA_RFC_BRANCH_FILTER_V1".
Definition _QUERY_ID : string := "GetRfcBranch".
Definition _SORT_REGISTRY_ID : string := "RFC_BRANCH_CHILD_ID_ASC_V1".
Definition _NULL_ORDER : string := "not_applicable".

Definition _detail_to_response (d : RfcDetail) : json := JObj [
  ("rfc_id", JStr (dt_rfc_id d));
  ("rfc_no", JStr (dt_rfc_no d));
  ("revision", JInt (dt_revision d));
  ("hierarchy_role", JStr (dt_hierarchy_role d));
  ("customer_org_id", jopt JStr (dt_customer_org_id d));
  ("local_archive_state", JStr (dt_local_archive_state d));
  ("source_projection", jopt JObj (dt_source_projection d));
  ("direct_service_request_count", JInt (dt_direct_service_request_count d));
  ("device_reference_count", JInt (dt_device_reference_count d));
  ("subordinate_count", JInt (dt_subordinate_count d));
  ("warnings", JArr (map JStr (dt_warnings d)))].
Definition detail_fields : list string :=
  ["rfc_id"; "rfc_no"; "revision"; "hierarchy_role"; "customer_org_id"; "local_archive_state"; "source_projection";
   "direct_service_request_count"; "device_reference_count"; "subordinate_count"; "warnings"].
Definition text_field (fields : list (string * json)) (k m : string) : result string :=
  match dget k fields with Some (JStr s) => Ok s | _ => raise (ValidationError m) end.
Definition count_field (fields : list (string * json)) (k : string) : result Z :=
  match dget k fields with
  | Some (JInt n) => _ ← forbid (n <? 0) (ValidationError "RfcDetailV1 count is invalid"); Ok n
  | _ => raise (ValidationError "RfcDetailV1 count is invalid")
  end.
Definition warning_text (v : json) : result string :=
  match v with JStr s => Ok s | _ => raise (ValidationError "RfcDetailV1 warnings are invalid") end.
Definition _detail_from_response (value : json) : result RfcDetail :=
  match value with
  | JObj fields =>
      _ ← forbid (negb (exact_fields fields detail_fields)) (ValidationError "RfcDetailV1 response fields are invalid");
      id ← text_field fields "rfc_id" "RfcDetailV1 identity fields are invalid";
      no ← text_field fields "rfc_no" "RfcDetailV1 identity fields are invalid";
      revision ← match dget "revision" fields with
        | Some (JInt n) => _ ← forbid (n <? 1) (ValidationError "RfcDetailV1 revision is invalid"); Ok n
        | _ => raise (ValidationError "RfcDetailV1 revision is invalid") end;
      role ← one_of ["standalone"; "root"; "subordinate"] (default JNull (dget "hierarchy_role" fields))
        (ValidationError "RfcDetailV1 hierarchy role is invalid");
      customer ← match dget "customer_org_id" fields with
        | Some JNull => Ok None
        | Some (JStr c) => Ok (Some c)
        | _ => raise (ValidationError "RfcDetailV1 Customer identity is invalid") end;
      archive ← one_of ["active"; "archived"] (default JNull (dget "local_archive_state" fields))
        (ValidationError "RfcDetailV1 archive state is invalid");
      projection ← match dget "source_projection" fields with
        | Some JNull => Ok None
        | Some (JObj p) => Ok (Some p)
        | _ => raise (ValidationError "RfcDetailV1 source projection is invalid") end;
      requests ← count_field fields "direct_service_request_count";
      devices ← count_field fields "device_reference_count";
      subordinates ← count_field fields "subordinate_count";
      warnings ← match dget "warnings" fields with
        | Some (JArr l) => traverse warning_text l
        | _ => raise (ValidationError "RfcDetailV1 warnings are invalid") end;
      Ok (MkDetail id no revision role customer archive projection requests devices subordinates warnings)
  | _ => raise (ValidationError "RfcDetailV1 response must be an object")
  end.

Section branches.
Context `{Sha256}.

(** ** Cursors *)
Definition _filter_fingerprint (root : string) : result string :=
  sha256_canonical_json (JObj [("schema", JStr _FILTER_SCHEMA); ("root_rfc_id", JStr root)]).
Definition _cursor_body (root last : string) : result json :=
  fingerprint ← _filter_fingerprint root;
  Ok (JObj [("version", JInt 1); ("query_id", JStr _QUERY_ID); ("sort_registry_id", JStr _SORT_REGISTRY_ID);
    ("last_key_tuple", JArr [JStr last]); ("filter_fingerprint", JStr fingerprint); ("null_order", JStr _NULL_ORDER)]).
Definition cursor_fields : list string :=
  ["version"; "query_id"; "sort_registry_id"; "last_key_tuple"; "filter_fingerprint"; "null_order"].
(** [value == 1], [value == text]. *)
Definition equals_one (v : option json) : bool :=
  match v with
  | Some (JInt n) => n =? 1 | Some (JBool b) => b | Some (JFloat r) => String.eqb r "1.0" | _ => false end.
Definition equals_text (text : string) (v : option json) : bool :=
  match v with Some (JStr s) => String.eqb s text | _ => false end.
(** [None] for no cursor. *)
Definition _validate_cursor (cursor : json) (root : string) : result (option string) :=
  match cursor with
  | JNull => Ok None
  | JObj fields =>
      _ ← forbid (negb (exact_fields fields cursor_fields)) (ValidationError "RFC branch cursor fields are invalid");
      _ ← forbid (negb (equals_one (dget "version" fields)) || negb (equals_text _QUERY_ID (dget "query_id" fields)))
        (ValidationError "RFC branch cursor version/query is invalid");
      _ ← forbid (negb (equals_text _SORT_REGISTRY_ID (dget "sort_registry_id" fields))
          || negb (equals_text _NULL_ORDER (dget "null_order" fields)))
        (ValidationError "RFC branch cursor sort contract is invalid");
      fingerprint ← _filter_fingerprint root;
      _ ← forbid (negb (equals_text fingerprint (dget "filter_fingerprint" fields)))
        (ValidationError "RFC branch cursor filter fingerprint is stale");
      match dget "last_key_tuple" fields with
      | Some (JArr [JStr key]) =>
          _ ← forbid (String.eqb key EmptyString) (ValidationError "RFC branch cursor key tuple is invalid");
          Ok (Some key)
      | _ => raise (ValidationError "RFC branch cursor key tuple is invalid")
      end
  | _ => raise (ValidationError "RFC branch cursor must be an object")
  end.

(** ** The committed response *)
Record RfcBranch := MkBranch {
  br_root : RfcDetail;
  br_subordinates : list RfcDetail;
  br_continuation : option json;
  br_branch_fingerprint : string
}.
Definition to_response (b : RfcBranch) : json := JObj [
  ("root", _detail_to_response (br_root b));
  ("subordinates", JArr (map _detail_to_response (br_subordinates b)));
  ("continuation", default JNull (br_continuation b));
  ("branch_fingerprint", JStr (br_branch_fingerprint b))].
Definition from_response (value : json) : result RfcBranch :=
  match value with
  | JObj fields =>
      _ ← forbid (negb (exact_fields fields ["root"; "subordinates"; "continuation"; "branch_fingerprint"]))
        (ValidationError "RfcBranchV1 response fields are invalid");
      root ← _detail_from_response (default JNull (dget "root" fields));
      children ← match dget "subordinates" fields with
        | Some (JArr l) => _ ← forbid (_MAX_LIMIT <? count l) (ValidationError "RfcBranchV1 subordinate page is invalid");
            Ok l
        | _ => raise (ValidationError "RfcBranchV1 subordinate page is invalid") end;
      parsed ← traverse _detail_from_response children;
      let ids := map dt_rfc_id parsed in
      _ ← forbid (negb (bool_decide (ids = py_sorted (fun s => s) ids)))
        (ValidationError "RfcBranchV1 subordinate order is invalid");
      fingerprint ← match dget "branch_fingerprint" fields with
        | Some (JStr s) => _ ← forbid (negb (is_sha256 s)) (ValidationError "RfcBranchV1 fingerprint is invalid"); Ok s
        | _ => raise (ValidationError "RfcBranchV1 fingerprint is invalid") end;
      let continuation := match dget "continuation" fields with Some JNull | None => None | c => c end in
      _ ← match continuation with
        | Some c =>
            last_ ← _validate_cursor c (dt_rfc_id root);
            forbid (negb (present_opt (last ids)) || negb (bool_decide (last_ = last ids)))
              (ValidationError "RfcBranchV1 continuation does not bind the last returned child")
        | None => Ok tt end;
      Ok (MkBranch root parsed continuation fingerprint)
  | _ => raise (ValidationError "RfcBranchV1 response fields are invalid")
  end.

(** ** Reading a branch *)
Definition _validate_limit (limit : Z) : result Z :=
  _ ← forbid ((limit <? 1) || (_MAX_LIMIT <? limit))
    (ValidationError "RFC branch page size must be an integer from 1 through 500");
  Ok limit.
Definition _root_authority (db : TicketDb) (root : string) : result RfcRow :=
  match rfcs db !! root with
  | None => raise (ticket_error "NOT_FOUND" "RFC does not exist")
  | Some r =>
      _ ← forbid (has_parent db root) (ValidationError "RFC branch root must be parentless");
      Ok r
  end.
Definition root_object (id : string) (r : RfcRow) : json := JObj [
  ("rfc_id", JStr id); ("revision", JInt (rf_revision r)); ("customer_org_id", jopt JStr (rf_customer_org_id r));
  ("local_archive_state", JStr (rf_local_archive_state r))].
Definition child_object (edge id : string) (r : RfcRow) : json := JObj [
  ("rfc_hierarchy_edge_id", JStr edge); ("rfc_id", JStr id); ("revision", JInt (rf_revision r));
  ("customer_org_id", jopt JStr (rf_customer_org_id r)); ("local_archive_state", JStr (rf_local_archive_state r))].
(** The active edges of a root joined with their children, in child order. *)
Definition joined_children (db : TicketDb) (root : string) : list (string * (string * RfcRow)) :=
  py_sorted (fun c : string * (string * RfcRow) => c.2.1) (omap (fun e : string * EdgeRow =>
    r ← rfcs db !! eg_child_rfc_id e.2; Some (e.1, (eg_child_rfc_id e.2, r))) (child_edges db root)).
Definition customers_differ (a b : option string) : bool :=
  match a, b with Some a, Some b => negb (String.eqb a b) | _, _ => false end.
Definition child_bytes (root_customer : option string) (c : string * (string * RfcRow)) : result string :=
  let '(edge, (id, r)) := c in
  _ ← forbid (customers_differ root_customer (rf_customer_org_id r))
    (PersistenceFailure "RFC branch contains a known Customer mismatch");
  canonical_json_bytes (child_object edge id r).
(** The digest is fed piece by piece. *)
Definition branch_fingerprint (db : TicketDb) (root : string) : result string :=
  r ← _root_authority db root;
  head_ ← canonical_json_bytes (root_object root r);
  children_ ← traverse (child_bytes (rf_customer_org_id r)) (joined_children db root);
  Ok (sha256_hexdigest ("{" +:+ json_string "root" +:+ ":" +:+ head_ +:+ "," +:+ json_string "schema" +:+ ":"
    +:+ json_string _BRANCH_SCHEMA +:+ "," +:+ json_string "subordinates" +:+ ":["
    +:+ String.concat "," children_ +:+ "]}")).
Definition child_ids (db : TicketDb) (root : string) : list string :=
  py_sorted (fun s => s) (map (fun e : string * EdgeRow => eg_child_rfc_id e.2) (child_edges db root)).
Definition get_branch (db : TicketDb) (root : string) (cursor : json) (limit : Z) : result RfcBranch :=
  limit ← _validate_limit limit;
  after ← _validate_cursor cursor root;
  _ ← _root_authority db root;
  fingerprint ← branch_fingerprint db root;
  let rows := match after with
    | None => child_ids db root
    | Some c => filter (fun s => ltb c s = true) (child_ids db root) end in
  let child_rows := take (Z.to_nat (limit + 1)) rows in
  let page_ids := take (Z.to_nat limit) child_rows in
  detail ← get_rfc db (Some root) None;
  _ ← forbid (String.eqb (dt_hierarchy_role detail) "subordinate")
    (PersistenceFailure "RFC branch root became subordinate during projection");
  subordinates ← get_subordinates db page_ids;
  continuation ← match limit <? count child_rows, last page_ids with
    | true, Some c => body ← _cursor_body root c; Ok (Some body)
    | _, _ => Ok None end;
  Ok (MkBranch detail subordinates continuation fingerprint).
End branches.

Definition ticketLM : Type -> Type := ledgerM (domain := TicketDb).

(** * Inputs *)
Definition validate_rfc_no (value : string) : result string :=
  _ ← forbid (negb (is_rfc_no value))
    (ticket_error "RFC_ID_INVALID" "RFC identity must be exactly NC followed by fourteen ASCII digits");
  Ok value.
Definition validate_reason_category (value : string) : result string :=
  encoded ← encode_utf8 value;
  _ ← forbid (negb (bounded_line encoded)) (ValidationError "reason_category violates its bounded one-line contract");
  Ok value.
Definition validate_optional_sha256 (value : option string) (field : string) : result (option string) :=
  match value with
  | None => Ok None
  | Some s => _ ← forbid (negb (is_sha256 s)) (ValidationError (field +:+ " must be lowercase SHA-256 hex")); Ok (Some s)
  end.
Definition _CREATION_CONTEXTS : list string := ["manual"; "provisional"; "accepted_source_adoption"].
Definition _validate_creation_context (value : string) : result string :=
  _ ← forbid (negb (set_token _CREATION_CONTEXTS value))
    (ValidationError "creation_context must be manual, provisional, or accepted_source_adoption");
  Ok value.

(** * Audit contracts *)
Definition _DEFAULT_AUDIT_MAX_UTF8_BYTES : Z := 16384.
Definition _payload (name : string) (fields : list string) : ObjectContract :=
  MkContract name 1 (list_to_set fields) (list_to_set fields) "reject" 5 64 _DEFAULT_AUDIT_MAX_UTF8_BYTES.
Definition ticket_contract (action schema : string) (fields : list string) : (string * Z) * AuditActionContract :=
  ((action, 1), MkActionContract action 1 schema 1 (_payload schema fields) None None).
Definition relationship_fields : list string :=
  ["relationship_type"; "relationship_id"; "left_id"; "right_id"; "prior_state"; "new_state"; "reason_category";
   "subordinate_origin_rfc_id"].
(** The actions of the commands modelled here. *)
Definition tickets_audit_registry : AuditRegistry := [
  ticket_contract "ticket.rfc.identity_created_or_adopted" "RfcIdentityAuditV1"
    ["rfc_id"; "rfc_no"; "creation_context"; "customer_org_id"; "resulting_revision"];
  ticket_contract "ticket.rfc.customer_changed" "RfcCustomerAuditV1"
    ["rfc_id"; "prior_customer_org_id"; "new_customer_org_id"; "resulting_revision"; "reason_category";
     "review_fingerprint"];
  ticket_contract "ticket.rfc.hierarchy_changed" "RfcHierarchyAuditV1"
    ["rfc_id"; "relationship_id"; "prior_parent_rfc_id"; "new_parent_rfc_id"; "resulting_revision"; "reason_category";
     "review_fingerprint"];
  ticket_contract "ticket.sr_rfc_relationship.changed" "TicketRelationshipAuditV1" relationship_fields;
  ticket_contract "ticket.device_reference.relationship_changed" "TicketRelationshipAuditV1" relationship_fields].
Definition ticket_event (audit_id action command schema target target_id_ : string) (reason : option string) (a : actor)
    (payload_ : json) (refs : list AuditResultRef) : AuditEventInput :=
  MkAuditEvent audit_id action 1 (act_kind a) target command schema 1 payload_ (act_id a) (Some target_id_) reason
    None None None None None refs.

(** * Results *)
Record TicketMutationResult := MkTicketResult {
  tr_outcome : string; tr_target_id : string; tr_revision : Z; tr_replayed : bool
}.
Definition ticket_mutation_result_from_execution (x : CommandExecutionResult) : result TicketMutationResult :=
  match x_response x with
  | JObj fields =>
      _ ← integrity (negb (String.eqb (x_response_schema x) "TicketMutationResultV1") || negb (x_response_version x =? 1))
        "ticket mutation replay result has the wrong response contract";
      outcome ← one_of ["APPLIED"; "NO_CHANGE"] (default JNull (dget "outcome" fields))
        (IntegrityFailure "ticket mutation replay result has invalid outcome");
      match dget "target_id" fields, dget "revision" fields with
      | Some (JStr id), Some (JInt n) =>
          _ ← integrity (n <=? 0) "ticket mutation replay result has invalid target metadata";
          Ok (MkTicketResult outcome id n (replayed x))
      | _, _ => raise (IntegrityFailure "ticket mutation replay result has invalid target metadata")
      end
  | _ => raise (IntegrityFailure "ticket mutation replay result has the wrong response contract")
  end.
Definition ticket_response (outcome id : string) (revision : Z) : json :=
  JObj [("outcome", JStr outcome); ("target_id", JStr id); ("revision", JInt revision)].
Definition no_change_prepared (schema : string) (value : option json) (factory : option (ticketLM json))
    : PreparedMutation TicketDb :=
  MkPrepared true None None None schema 1 value factory None.
Definition material_prepared (kind id : string) (apply : ticketLM (option (list AuditEventInput))) (schema : string)
    (value : option json) (factory : option (ticketLM json)) : PreparedMutation TicketDb :=
  MkPrepared false (Some kind) (Some id) (Some apply) schema 1 value factory None.
Definition ticket_unchanged (id : string) (revision : Z) : PreparedMutation TicketDb :=
  no_change_prepared "TicketMutationResultV1" (Some (ticket_response "NO_CHANGE" id revision)) None.

Record RfcIdentityResult := MkIdentityResult {
  ir_rfc_id : string; ir_rfc_no : string; ir_customer_org_id : option string; ir_revision : Z;
  ir_created_by_command : bool; ir_replayed : bool; ir_no_change : bool
}.
Definition _identity_result (x : CommandExecutionResult) : result RfcIdentityResult :=
  match x_response x with
  | JObj fields =>
      _ ← integrity (negb (String.eqb (x_response_schema x) "RfcDetailV1") || negb (x_response_version x =? 1))
        "RFC identity replay result has the wrong response contract";
      match dget "rfc_id" fields, dget "rfc_no" fields with
      | Some (JStr id), Some (JStr no) =>
          customer ← match dget "customer_org_id" fields with
            | None | Some JNull => Ok None
            | Some (JStr c) => Ok (Some c)
            | _ => raise (IntegrityFailure "RFC identity replay result has invalid Customer identity") end;
          match dget "revision" fields with
          | Some (JInt n) =>
              _ ← integrity (n <=? 0) "RFC identity replay result has invalid revision";
              Ok (MkIdentityResult id no customer n (negb (x_no_change x)) (replayed x) (x_no_change x))
          | _ => raise (IntegrityFailure "RFC identity replay result has invalid revision")
          end
      | _, _ => raise (IntegrityFailure "RFC identity replay result has invalid identity")
      end
  | _ => raise (IntegrityFailure "RFC identity replay result has the wrong response contract")
  end.

Definition _require_active_customer (db : TicketDb) (customer : string) : result unit :=
  match customer_organizations db !! customer with
  | None => raise (ticket_error "NOT_FOUND" "Customer Organization does not exist")
  | Some c =>
      forbid (negb (String.eqb (cu_lifecycle_state c) "active"))
        (ticket_error "CUSTOMER_ORG_INACTIVE" "Customer Organization is archived")
  end.
Definition require_active_opt (db : TicketDb) (customer : option string) : result unit :=
  match customer with Some c => _require_active_customer db c | None => Ok tt end.

(** Where a fresh identity or a clock reading is taken. *)
Definition place : Type := list string.
(** A response read in the same unit of work. *)
Definition reading (f : TicketDb -> result json) : ticketLM json := fun db => (db, f (domain_state db)).
Definition detail_response (id : string) : ticketLM json :=
  reading (fun d => detail ← get_rfc d (Some id) None; Ok (_detail_to_response detail)).

Section identity.
Context `{Sha256, FloatText} (fresh : place -> string) (clock : place -> Z).
Context (audit : AuditRegistry) (audit_clock : string -> Z).
Definition now : Z := clock ["now"].
Definition ticket_execute (e : CommandEnvelope) (prepare : ticketLM (PreparedMutation TicketDb))
    : ticketLM CommandExecutionResult :=
  execute audit (clock ["receipt"]) audit_clock e prepare.
Definition run_ticket (e : CommandEnvelope) (prepare : ticketLM (PreparedMutation TicketDb))
    : ticketLM TicketMutationResult :=
  x ← ticket_execute e prepare;
  lift (ticket_mutation_result_from_execution x).
(** The writes of a command and its event. *)
Definition emitting (writes : ticketM unit) (event : AuditEventInput) : ticketLM (option (list AuditEventInput)) :=
  _ ← on_domain writes;
  mret (Some [event]).

(** ** Creating or adopting an identity *)
Definition identity_event (command id no context : string) (customer : option string) (a : actor) : AuditEventInput :=
  ticket_event (fresh ["audit"]) "ticket.rfc.identity_created_or_adopted" command "RfcIdentityAuditV1" "rfc" id None a
    (JObj [("rfc_id", JStr id); ("rfc_no", JStr no); ("creation_context", JStr context);
       ("customer_org_id", jopt JStr customer); ("resulting_revision", JInt 1)])
    [MkResultRef "rfc" id].
Definition prepare_create (command no context : string) (customer : option string) (a : actor)
    : ticketLM (PreparedMutation TicketDb) :=
  db ← read_st;
  match rfc_no_row (domain_state db) no with
  | Some (id, _) => mret (no_change_prepared "RfcDetailV1" None (Some (detail_response id)))
  | None =>
      _ ← lift (require_active_opt (domain_state db) customer);
      let id := fresh ["rfc"] in
      mret (material_prepared "rfc" id
        (emitting (insert_rfc id (MkRfc no customer "active" 1 now now)) (identity_event command id no context customer a))
        "RfcDetailV1" None (Some (detail_response id)))
  end.
Definition create_or_adopt_identity (command rfc_no creation_context : string) (customer : option string) (a : actor)
    : ticketLM RfcIdentityResult :=
  no ← lift (validate_rfc_no rfc_no);
  context ← lift (_validate_creation_context creation_context);
  x ← ticket_execute (MkEnvelope command "CreateOrAdoptRfcIdentity" "rfc" None
      [("rfc_no", JStr no); ("creation_context", JStr context); ("customer_org_id", jopt JStr customer)] [] [] None)
    (prepare_create command no context customer a);
  lift (_identity_result x).

(** ** Setting the Customer *)
Definition governing (db : TicketDb) (rfc : string) : string :=
  match _active_parent db rfc with None => rfc | Some (_, parent) => parent end.
(** The other known Customers of the branch stand in the way. *)
Definition branch_conflict (db : TicketDb) (rfc : string) (customer : option string) : bool :=
  existsb (fun kv : string * RfcRow => negb (String.eqb kv.1 rfc)
      && match rf_customer_org_id kv.2 with Some c => negb (bool_decide (customer = Some c)) | None => false end)
    (branch_rows db (governing db rfc)).
Definition customer_event (command id : string) (prior new : option string) (revision : Z) (reason : string)
    (review : option string) (a : actor) : AuditEventInput :=
  ticket_event (fresh ["audit"]) "ticket.rfc.customer_changed" command "RfcCustomerAuditV1" "rfc" id (Some reason) a
    (JObj [("rfc_id", JStr id); ("prior_customer_org_id", jopt JStr prior); ("new_customer_org_id", jopt JStr new);
       ("resulting_revision", JInt (revision + 1)); ("reason_category", JStr reason);
       ("review_fingerprint", jopt JStr review)])
    [MkResultRef "rfc" id].
Definition prepare_customer (command id : string) (base : Z) (customer : option string) (reason : string)
    (review : option string) (a : actor) : ticketLM (PreparedMutation TicketDb) :=
  db ← read_st;
  let d := domain_state db in
  match rfcs d !! id with
  | None => lift (raise (ticket_error "NOT_FOUND" "RFC does not exist"))
  | Some r =>
      _ ← lift (forbid (negb (rf_revision r =? base)) (ticket_error "STALE_REVISION" "RFC revision changed"));
      _ ← lift (require_active_opt d customer);
      if bool_decide (rf_customer_org_id r = customer) then mret (ticket_unchanged id (rf_revision r)) else
      _ ← lift (forbid (branch_conflict d id customer) (ticket_error "RFC_CUSTOMER_MISMATCH"
        "known RFC branch members resolve to a different Customer Organization"));
      mret (material_prepared "rfc" id
        (emitting (_ ← set_rfc_customer now id customer; mret tt)
          (customer_event command id (rf_customer_org_id r) customer base reason review a))
        "TicketMutationResultV1" (Some (ticket_response "APPLIED" id (base + 1))) None)
  end.
Definition review_fingerprints (review : option string) : list (string * string) :=
  match review with None => [] | Some f => [("review", f)] end.
Definition set_customer (command rfc : string) (base : Z) (customer : option string) (reason_category : string)
    (review_fingerprint : option string) (a : actor) : ticketLM TicketMutationResult :=
  reason ← lift (validate_reason_category reason_category);
  review ← lift (validate_optional_sha256 review_fingerprint "review_fingerprint");
  run_ticket (MkEnvelope command "SetRfcCustomer" "rfc" (Some rfc)
      [("customer_org_id", jopt JStr customer); ("reason_category", JStr reason); ("review_fingerprint", jopt JStr review)]
      [("rfc", base)] (review_fingerprints review) None)
    (prepare_customer command rfc base customer reason review a).
End identity.
