(* ===== verification/RfcHierarchy.v ===== *)
(** The exact preview of a hierarchy correction:
    [tickets/queries/relationship_previews.py].

    The provider of the protected history is a protocol the sources only call:
    a parameter that reads the database.

    The hierarchy commands: [RfcHierarchyService] of [tickets/rfc_hierarchy.py]. *)
From S2P Require Import Prelude StrictJson Identifiers AuditLedger Tables CommandBoundary TicketTables.
From S2P Require Import RfcIdentity.

Definition _HISTORY_REVIEW_SCHEMA : string := "SOMA_RFC_HIERARCHY_REVIEW_V1".
Definition _HISTORY_UNAVAILABLE_WARNING : string := "RFC_HISTORY_RISK_PROVIDER_UNAVAILABLE".
Record RfcHierarchyHistoryAuthority := MkHistory {
  hs_status : string;
  hs_risk : option string;
  hs_evidence_exact_count : option Z;
  hs_provider_fingerprint : option string;
  hs_warning_code : option string
}.
(** What a provider may return. *)
Inductive history_value :=
| HistoryRecord (a : RfcHierarchyHistoryAuthority)
| HistoryDict (fields : list (string * json))
| HistoryOther.
Definition RfcHistoryRiskProvider : Type := LedgerDb TicketDb -> string -> result history_value.
Definition _UnavailableRfcHistoryRiskProvider : RfcHistoryRiskProvider := fun _ _ =>
  Ok (HistoryRecord (MkHistory "INDETERMINATE" None None None (Some _HISTORY_UNAVAILABLE_WARNING))).
Definition history_fields (a : RfcHierarchyHistoryAuthority) : list (string * json) :=
  [("status", JStr (hs_status a)); ("risk", jopt JStr (hs_risk a));
   ("evidence_exact_count", jopt JInt (hs_evidence_exact_count a));
   ("provider_fingerprint", jopt JStr (hs_provider_fingerprint a)); ("warning_code", jopt JStr (hs_warning_code a))].

Definition _bounded_warning_code (value : json) : result string :=
  match value with
  | JStr s => _ ← integrity (negb (utf8_encodable s) || negb (bounded_line s))
      "RFC hierarchy history warning code is invalid"; Ok s
  | _ => raise (IntegrityFailure "RFC hierarchy history warning code is invalid")
  end.
Definition null (v : json) : bool := match v with JNull => true | _ => false end.
Definition normalize_history_authority (value : history_value) : result RfcHierarchyHistoryAuthority :=
  raw ← match value with
    | HistoryRecord a => Ok (history_fields a)
    | HistoryDict fields =>
        _ ← integrity (negb (exact_fields fields
            ["status"; "risk"; "evidence_exact_count"; "provider_fingerprint"; "warning_code"]))
          "RFC hierarchy history authority fields are invalid";
        Ok fields
    | HistoryOther => raise (IntegrityFailure "RFC hierarchy history provider returned an invalid authority")
    end;
  let field k := default JNull (dget k raw) in
  if equals_text "READY" (dget "status" raw) then
    let invalid := IntegrityFailure "READY RFC hierarchy history authority is invalid" in
    risk ← one_of ["LOW"; "HIGH"] (field "risk") invalid;
    match field "evidence_exact_count" with
    | JInt n =>
        _ ← forbid ((n <? 0) || negb (null (field "warning_code"))) invalid;
        match field "provider_fingerprint" with
        | JStr f =>
            _ ← integrity (negb (is_sha256 f)) "READY RFC hierarchy history fingerprint is invalid";
            Ok (MkHistory "READY" (Some risk) (Some n) (Some f) None)
        | _ => raise (IntegrityFailure "READY RFC hierarchy history fingerprint is invalid")
        end
    | _ => raise invalid
    end
  else if equals_text "INDETERMINATE" (dget "status" raw) then
    _ ← integrity (negb (null (field "risk") && null (field "evidence_exact_count") && null (field "provider_fingerprint")))
      "INDETERMINATE RFC hierarchy history authority is invalid";
    warning ← _bounded_warning_code (field "warning_code");
    Ok (MkHistory "INDETERMINATE" None None None (Some warning))
  else raise (IntegrityFailure "RFC hierarchy history authority status is invalid").

Record RfcHierarchyMutationPreview := MkHierarchyPreview {
  hp_action : string;
  hp_child_rfc_id : string;
  hp_old_parent_rfc_id : string;
  hp_new_parent_rfc_id : option string;
  hp_old_edge_id : string;
  hp_base_revisions : list (string * Z);
  hp_old_branch_fingerprint : string;
  hp_new_branch_fingerprint : option string;
  hp_history_authority : RfcHierarchyHistoryAuthority;
  hp_blockers : list string;
  hp_warnings : list string;
  hp_review_required : bool;
  hp_review_fingerprint : option string
}.
Definition _load_rfc (db : TicketDb) (id : string) : result (option string * Z) :=
  match rfcs db !! id with
  | None => raise (ticket_error "NOT_FOUND" "RFC does not exist")
  | Some r => Ok (rf_customer_org_id r, rf_revision r)
  end.
Definition _governing_root (db : TicketDb) (id : string) : result string :=
  match _active_parent db id with
  | None => Ok id
  | Some (_, root) =>
      _ ← integrity (has_parent db root) "RFC hierarchy exceeds the accepted two-level invariant"; Ok root
  end.
Definition _append_code (codes : list string) (code_ : string) : list string :=
  if set_token codes code_ then codes else codes ++ [code_].
Definition append_if (b : bool) (code_ : string) (codes : list string) : list string :=
  if b then _append_code codes code_ else codes.
(** The blockers of a reparent, in the order of their checks. *)
Definition reparent_blockers (db : TicketDb) (child old new : string) (child_customer new_customer : option string)
    : list string :=
  append_if (customers_differ child_customer new_customer) "RFC_CUSTOMER_MISMATCH"
  (append_if (directly_linked db child) "RFC_DIRECT_SR_LINK_ON_SUBORDINATE"
  (append_if (has_children db child) "RFC_HIERARCHY_DEPTH"
  (append_if (has_parent db new) "RFC_HIERARCHY_DEPTH"
  (append_if (String.eqb new old) "RFC_PARENT_CONFLICT"
  (append_if (String.eqb new child) "RFC_HIERARCHY_CYCLE" []))))).
Definition reparent_warnings (child_customer new_customer : option string) : list string :=
  if present_opt child_customer && present_opt new_customer then [] else ["RFC_CUSTOMER_UNRESOLVED"].

Section previews.
Context `{Sha256} (history : RfcHistoryRiskProvider).
Definition hierarchy_review_fingerprint (action child old_parent : string) (new_parent : option string)
    (old_edge old_branch : string) (new_branch : option string) (risk : string) (n : Z) (provider : string)
    (blockers warnings : list string) : result string :=
  sha256_canonical_json (JObj [("schema", JStr _HISTORY_REVIEW_SCHEMA); ("action", JStr action);
    ("child_rfc_id", JStr child); ("old_parent_rfc_id", JStr old_parent); ("new_parent_rfc_id", jopt JStr new_parent);
    ("old_edge_id", JStr old_edge); ("old_branch_fingerprint", JStr old_branch);
    ("new_branch_fingerprint", jopt JStr new_branch); ("history_risk", JStr risk);
    ("history_evidence_exact_count", JInt n); ("history_provider_fingerprint", JStr provider);
    ("blockers", JArr (map JStr blockers)); ("warnings", JArr (map JStr warnings))]).
(** What a reparent adds to the preview: the new parent, its revision and
    branch, the blockers and the warnings. *)
Definition reparent_target (db : TicketDb) (child old_parent : string) (child_customer : option string)
    (new_parent : option string) : result (option (string * Z * string) * list string * list string) :=
  match new_parent with
  | None => Ok (None, [], [])
  | Some new =>
      '(customer, revision) ← _load_rfc db new;
      root ← _governing_root db new;
      branch ← branch_fingerprint db root;
      Ok (Some (new, revision, branch), reparent_blockers db child old_parent new child_customer customer,
          reparent_warnings child_customer customer)
  end.
Definition evaluate (reader : LedgerDb TicketDb) (action child_rfc_id : string) (new_parent_rfc_id : option string)
    : result RfcHierarchyMutationPreview :=
  let db := domain_state reader in
  _ ← forbid (negb (set_token ["reparent"; "detach"] action))
    (ValidationError "RFC hierarchy preview action must be reparent or detach");
  child ← require_uuid4 child_rfc_id;
  new_parent ← (if String.eqb action "reparent" then
      match new_parent_rfc_id with
      | None => raise (ValidationError "new_parent_rfc_id is required for RFC reparent preview")
      | Some p => p ← require_uuid4 p; Ok (Some p)
      end
    else
      _ ← forbid (present_opt new_parent_rfc_id)
        (ValidationError "new_parent_rfc_id must be null for RFC detach preview");
      Ok None);
  '(child_customer, child_revision) ← _load_rfc db child;
  match _active_parent db child with
  | None => raise (ticket_error "RFC_PARENT_CONFLICT" "RFC is not currently subordinate")
  | Some (old_edge, old_parent) =>
      '(_, old_parent_revision) ← _load_rfc db old_parent;
      _ ← integrity (has_parent db old_parent) "RFC hierarchy contains a subordinate parent";
      old_branch ← branch_fingerprint db old_parent;
      '(target, blockers, warnings) ← reparent_target db child old_parent child_customer new_parent;
      let base := dset child child_revision [(old_parent, old_parent_revision)] in
      value ← history reader child;
      authority ← normalize_history_authority value;
      let new_branch := (fun t : string * Z * string => t.2) <$> target in
      fingerprint ← match hs_risk authority, hs_evidence_exact_count authority, hs_provider_fingerprint authority with
        | Some risk, Some n, Some provider =>
            if String.eqb (hs_status authority) "READY" then
              f ← hierarchy_review_fingerprint action child old_parent new_parent old_edge old_branch new_branch risk n
                provider blockers warnings;
              Ok (Some f)
            else Ok None
        | _, _, _ => Ok None
        end;
      Ok (MkHierarchyPreview action child old_parent new_parent old_edge
        match target with Some (new, revision, _) => dset new revision base | None => base end
        old_branch new_branch authority blockers warnings
        (String.eqb (hs_status authority) "READY" && bool_decide (hs_risk authority = Some "HIGH")) fingerprint)
  end.
End previews.

(** * Inputs: a closed map from RFC ids to revisions *)
Definition _validate_base_revisions (parent child : string) (base : list (string * Z)) : result (list (string * Z)) :=
  _ ← forbid (negb (bool_decide (list_to_set (map fst base) = ({[parent; child]} : gset string))))
    (ValidationError "base_revisions must contain exactly parent_rfc_id and child_rfc_id");
  _ ← forbid (existsb (fun kv : string * Z => kv.2 <? 1) base)
    (ValidationError "RFC base revisions must be positive integers");
  Ok base.
Definition check_base_revision (kv : string * Z) : result (string * Z) :=
  id ← require_uuid4 kv.1;
  _ ← forbid (kv.2 <? 1) (ValidationError "RFC base revisions must be positive integers");
  Ok (id, kv.2).
Definition _validate_mutation_base_revisions (base : list (string * Z)) (maximum_participants : Z)
    : result (list (string * Z)) :=
  _ ← forbid ((count base <? 1) || (maximum_participants <? count base))
    (ValidationError "base_revisions must be a bounded closed RFC-id to revision map");
  traverse check_base_revision base.
(** [==] of dictionaries. *)
Definition same_revisions (a b : list (string * Z)) : bool :=
  bool_decide ((list_to_map a : gmap string Z) = list_to_map b).

(** * Reviews *)
Definition blocker_message (code_ : string) : string :=
  default "RFC hierarchy mutation is blocked" (dget code_ [
    ("RFC_HIERARCHY_CYCLE", "proposed RFC hierarchy would create a self/cycle relation");
    ("RFC_PARENT_CONFLICT", "RFC is already attached to the proposed parent");
    ("RFC_HIERARCHY_DEPTH", "proposed RFC hierarchy would exceed two levels");
    ("RFC_DIRECT_SR_LINK_ON_SUBORDINATE", "RFC with an active direct SR link cannot be subordinate");
    ("RFC_CUSTOMER_MISMATCH", "known RFC Customers differ across the proposed hierarchy relation")]).
Definition _raise_first_hierarchy_blocker (blockers : list string) : result unit :=
  match blockers with [] => Ok tt | c :: _ => raise (ticket_error c (blocker_message c)) end.
Definition stale (m : string) : SomaError := ticket_error "TICKET_RELATIONSHIP_STALE" m.
Definition _require_current_review (p : RfcHierarchyMutationPreview) (supplied : option string) : result unit :=
  _ ← forbid (negb (String.eqb (hs_status (hp_history_authority p)) "READY") || negb (present_opt (hp_review_fingerprint p)))
    (stale "RFC hierarchy history authority is indeterminate; refresh the hierarchy review");
  _ ← forbid (hp_review_required p && negb (present_opt supplied))
    (ticket_error "RFC_REPARENT_REVIEW_REQUIRED"
      "protected RFC Task/WFM history requires an exact reviewed hierarchy correction");
  forbid (present_opt supplied && negb (bool_decide (supplied = hp_review_fingerprint p)))
    (stale "RFC hierarchy review authority changed since preview").
Definition _require_exact_preview_revisions (supplied current : list (string * Z)) : result unit :=
  forbid (negb (same_revisions supplied current))
    (stale "RFC hierarchy participants or revisions changed since preview").

Section hierarchy.
Context `{Sha256, FloatText} (fresh : place -> string) (clock : place -> Z).
Context (audit : AuditRegistry) (audit_clock : string -> Z) (history : RfcHistoryRiskProvider).
Definition _branch_response_factory (root : string) : ticketLM json :=
  reading (fun d => branch ← get_branch d root JNull 100; Ok (to_response branch)).
Definition edge_id : string := fresh ["edge"].
Definition hierarchy_event (command child edge : string) (prior new : option string) (revision : Z) (reason : string)
    (review : option string) (a : actor) (refs : list AuditResultRef) : AuditEventInput :=
  ticket_event (fresh ["audit"]) "ticket.rfc.hierarchy_changed" command "RfcHierarchyAuditV1" "rfc" child (Some reason) a
    (JObj [("rfc_id", JStr child); ("relationship_id", JStr edge); ("prior_parent_rfc_id", jopt JStr prior);
       ("new_parent_rfc_id", jopt JStr new); ("resulting_revision", JInt revision); ("reason_category", JStr reason);
       ("review_fingerprint", jopt JStr review)]) refs.
Definition rfc_ref (id : string) : AuditResultRef := MkResultRef "rfc" id.
Definition edge_ref (id : string) : AuditResultRef := MkResultRef "rfc_hierarchy_edge" id.
Definition new_edge (command parent child : string) : EdgeRow :=
  MkEdge parent child "active" (now clock) None command None.
Definition run_hierarchy (may_be_unchanged : bool) (what : string) (e : CommandEnvelope)
    (prepare : ticketLM (PreparedMutation TicketDb)) : ticketLM RfcBranch :=
  x ← ticket_execute clock audit audit_clock e prepare;
  _ ← lift (integrity (negb (String.eqb (x_response_schema x) "RfcBranchV1") || negb (x_response_version x =? 1)
      || negb may_be_unchanged && x_no_change x) (what +:+ " committed response contract is invalid"));
  lift (from_response (x_response x)).

(** ** Adding a subordinate *)
Definition add_writes (command parent child : string) : ticketM unit :=
  _ ← insert_edge edge_id (new_edge command parent child);
  _ ← touch_rfcs (now clock) [parent; child];
  mret tt.
Definition prepare_add (command parent child : string) (revisions : list (string * Z)) (reason : string)
    (review : option string) (a : actor) : ticketLM (PreparedMutation TicketDb) :=
  db ← read_st;
  let d := domain_state db in
  '(parent_customer, parent_revision) ← lift (_load_rfc d parent);
  '(child_customer, child_revision) ← lift (_load_rfc d child);
  _ ← lift (forbid (negb (bool_decide (dget parent revisions = Some parent_revision))
      || negb (bool_decide (dget child revisions = Some child_revision)))
    (stale "RFC hierarchy revision context changed"));
  match _active_parent d child with
  | Some (_, current) =>
      if String.eqb current parent
      then mret (no_change_prepared "RfcBranchV1" None (Some (_branch_response_factory parent)))
      else lift (raise (ticket_error "RFC_PARENT_CONFLICT" "RFC already has a different active parent"))
  | None =>
      _ ← lift (forbid (has_parent d parent) (ticket_error "RFC_HIERARCHY_DEPTH" "proposed parent is already subordinate"));
      _ ← lift (forbid (has_children d child)
        (ticket_error "RFC_HIERARCHY_DEPTH" "proposed child already owns subordinates"));
      _ ← lift (forbid (directly_linked d child) (ticket_error "RFC_DIRECT_SR_LINK_ON_SUBORDINATE"
        "RFC with an active direct SR link cannot become subordinate"));
      _ ← lift (forbid (customers_differ parent_customer child_customer)
        (ticket_error "RFC_CUSTOMER_MISMATCH" "known parent and child RFC Customers differ"));
      mret (material_prepared "rfc_hierarchy_edge" edge_id
        (emitting (add_writes command parent child)
          (hierarchy_event command child edge_id None (Some parent) (child_revision + 1) reason review a
            [edge_ref edge_id; rfc_ref parent; rfc_ref child]))
        "RfcBranchV1" None (Some (_branch_response_factory parent)))
  end.
Definition add_subordinate (command parent child : string) (base : list (string * Z)) (reason_category : string)
    (review_fingerprint : option string) (a : actor) : ticketLM RfcBranch :=
  _ ← lift (forbid (String.eqb parent child) (ticket_error "RFC_HIERARCHY_CYCLE" "RFC cannot be its own parent"));
  revisions ← lift (_validate_base_revisions parent child base);
  reason ← lift (validate_reason_category reason_category);
  review ← lift (validate_optional_sha256 review_fingerprint "review_fingerprint");
  run_hierarchy true "RFC hierarchy" (MkEnvelope command "AddRfcSubordinate" "rfc_hierarchy" (Some parent)
      [("parent_rfc_id", JStr parent); ("child_rfc_id", JStr child); ("reason_category", JStr reason);
       ("review_fingerprint", jopt JStr review)] revisions (review_fingerprints review) None)
    (prepare_add command parent child revisions reason review a).

(** ** The reviewed corrections *)
Definition reviewed_preview (action child : string) (new : option string) (revisions : list (string * Z))
    (review : option string) : ticketLM RfcHierarchyMutationPreview :=
  db ← read_st;
  p ← lift (evaluate history db action child new);
  _ ← lift (_require_exact_preview_revisions revisions (hp_base_revisions p));
  _ ← lift (_require_current_review p review);
  _ ← lift (_raise_first_hierarchy_blocker (hp_blockers p));
  mret p.
Definition child_revision (p : RfcHierarchyMutationPreview) : Z :=
  default 0 (dget (hp_child_rfc_id p) (hp_base_revisions p)) + 1.
Definition close_old_edge (command what : string) (p : RfcHierarchyMutationPreview) : ticketM unit :=
  closed ← supersede_edge (now clock) command (hp_old_edge_id p) (hp_old_parent_rfc_id p) (hp_child_rfc_id p);
  lift (integrity (negb (closed =? 1)) ("reviewed RFC hierarchy edge disappeared before " +:+ what)).
Definition touch_participants (what : string) (ids : list string) : ticketM unit :=
  updated ← touch_rfcs (now clock) ids;
  lift (integrity (negb (updated =? count ids))
    ("reviewed RFC " +:+ what +:+ " participant set changed during mutation")).
Definition reparent_writes (command new : string) (p : RfcHierarchyMutationPreview) : ticketM unit :=
  _ ← close_old_edge command "reparent" p;
  _ ← insert_edge edge_id (new_edge command new (hp_child_rfc_id p));
  touch_participants "reparent" [hp_old_parent_rfc_id p; hp_child_rfc_id p; new].
Definition prepare_reparent (command child new : string) (revisions : list (string * Z)) (reason : string)
    (review : option string) (a : actor) : ticketLM (PreparedMutation TicketDb) :=
  p ← reviewed_preview "reparent" child (Some new) revisions review;
  mret (material_prepared "rfc_hierarchy_edge" edge_id
    (emitting (reparent_writes command new p)
      (hierarchy_event command child edge_id (Some (hp_old_parent_rfc_id p)) (Some new) (child_revision p) reason review a
        [edge_ref (hp_old_edge_id p); edge_ref edge_id; rfc_ref (hp_old_parent_rfc_id p); rfc_ref new; rfc_ref child]))
    "RfcBranchV1" None (Some (_branch_response_factory new))).
Definition reparent_subordinate (command child_rfc_id new_parent_rfc_id : string) (base : list (string * Z))
    (reason_category : string) (review_fingerprint : option string) (a : actor) : ticketLM RfcBranch :=
  child ← lift (require_uuid4 child_rfc_id);
  new ← lift (require_uuid4 new_parent_rfc_id);
  revisions ← lift (_validate_mutation_base_revisions base 3);
  reason ← lift (validate_reason_category reason_category);
  review ← lift (validate_optional_sha256 review_fingerprint "review_fingerprint");
  run_hierarchy false "RFC reparent" (MkEnvelope command "ReparentRfc" "rfc_hierarchy" (Some child)
      [("child_rfc_id", JStr child); ("new_parent_rfc_id", JStr new); ("reason_category", JStr reason);
       ("review_fingerprint", jopt JStr review)] revisions (review_fingerprints review) None)
    (prepare_reparent command child new revisions reason review a).
Definition detach_writes (command : string) (p : RfcHierarchyMutationPreview) : ticketM unit :=
  _ ← close_old_edge command "detach" p;
  touch_participants "detach" [hp_old_parent_rfc_id p; hp_child_rfc_id p].
Definition prepare_detach (command child : string) (revisions : list (string * Z)) (reason : string)
    (review : option string) (a : actor) : ticketLM (PreparedMutation TicketDb) :=
  p ← reviewed_preview "detach" child None revisions review;
  mret (material_prepared "rfc_hierarchy_edge" (hp_old_edge_id p)
    (emitting (detach_writes command p)
      (hierarchy_event command child (hp_old_edge_id p) (Some (hp_old_parent_rfc_id p)) None (child_revision p) reason
        review a [edge_ref (hp_old_edge_id p); rfc_ref (hp_old_parent_rfc_id p); rfc_ref child]))
    "RfcBranchV1" None (Some (_branch_response_factory child))).
Definition detach_subordinate (command child_rfc_id : string) (base : list (string * Z)) (reason_category : string)
    (review_fingerprint : option string) (a : actor) : ticketLM RfcBranch :=
  child ← lift (require_uuid4 child_rfc_id);
  revisions ← lift (_validate_mutation_base_revisions base 2);
  reason ← lift (validate_reason_category reason_category);
  review ← lift (validate_optional_sha256 review_fingerprint "review_fingerprint");
  run_hierarchy false "RFC detach" (MkEnvelope command "DetachRfc" "rfc_hierarchy" (Some child)
      [("child_rfc_id", JStr child); ("reason_category", JStr reason); ("review_fingerprint", jopt JStr review)]
      revisions (review_fingerprints review) None)
    (prepare_detach command child revisions reason review a).
End hierarchy.
