(* ===== verification/TicketLinks.v ===== *)
(** The links of tickets: [tickets/relationships.py], Device References and
    the direct relation of a Service Request to a governing root RFC, and its
    preview in [queries/relationship_previews.py]. *)
From S2P Require Import Prelude StrictJson Identifiers AuditLedger Tables CommandBoundary TicketTables.
From S2P Require Import RfcIdentity RfcHierarchy.

(** * Device References *)
Definition type_name (t : ticket_type) : string :=
  match t with ServiceRequestTicket => "service_request" | RfcTicket => "rfc" end.
Definition _target_spec (ticket_type_ : string) : result ticket_type :=
  if String.eqb ticket_type_ "service_request" then Ok ServiceRequestTicket
  else if String.eqb ticket_type_ "rfc" then Ok RfcTicket
  else raise (ValidationError "ticket_type must be service_request or rfc").
Definition _optional_reason (value : option string) : result (option string) :=
  match value with None => Ok None | Some s => s ← validate_reason_category s; Ok (Some s) end.
Definition _load_target_revision (db : TicketDb) (t : ticket_type) (id : string) : result Z :=
  match ticket_revision t db id with
  | None => raise (ticket_error "NOT_FOUND" "Ticket does not exist")
  | Some n => Ok n
  end.
Definition _require_device_reference (db : TicketDb) (id : string) : result unit :=
  forbid (negb (bool_decide (id ∈ device_references db))) (ticket_error "NOT_FOUND" "Device Reference does not exist").
Definition relationship_payload (kind id left_ right_ : string) (prior : option string) (new : string)
    (reason origin : option string) : json := JObj [
  ("relationship_type", JStr kind); ("relationship_id", JStr id); ("left_id", JStr left_); ("right_id", JStr right_);
  ("prior_state", jopt JStr prior); ("new_state", JStr new); ("reason_category", jopt JStr reason);
  ("subordinate_origin_rfc_id", jopt JStr origin)].

Section links.
Context `{Sha256, FloatText} (fresh : place -> string) (clock : place -> Z).
Context (audit : AuditRegistry) (audit_clock : string -> Z).
Definition link_id : string := fresh ["link"].
Definition device_event (command : string) (t : ticket_type) (ticket device id : string) (prior : option string)
    (new : string) (reason : option string) (a : actor) : AuditEventInput :=
  ticket_event (fresh ["audit"]) "ticket.device_reference.relationship_changed" command "TicketRelationshipAuditV1"
    "device_reference" device reason a
    (relationship_payload (type_name t +:+ "_device_reference") id ticket device prior new reason None)
    [MkResultRef "ticket_device_reference_relationship" id].
(** The active link of the pair, if any, once the ticket and the device are known. *)
Definition device_authority (d : TicketDb) (t : ticket_type) (ticket device : string) (base : Z)
    : result (Z * option string) :=
  revision ← _load_target_revision d t ticket;
  _ ← forbid (negb (revision =? base)) (stale "Ticket revision changed");
  _ ← _require_device_reference d device;
  Ok (revision, fst <$> head (device_links_between (device_table t d) ticket device)).
Definition prepare_device_link (command : string) (t : ticket_type) (ticket device : string) (base : Z)
    (reason : option string) (a : actor) : ticketLM (PreparedMutation TicketDb) :=
  db ← read_st;
  '(revision, existing) ← lift (device_authority (domain_state db) t ticket device base);
  match existing with
  | Some _ => mret (ticket_unchanged ticket revision)
  | None =>
      mret (material_prepared "ticket_device_reference_relationship" link_id
        (emitting (insert_device_link t link_id (MkDeviceLink ticket device "active" (now clock) None command None))
          (device_event command t ticket device link_id None "active" reason a))
        "TicketMutationResultV1" (Some (ticket_response "APPLIED" ticket revision)) None)
  end.
Definition prepare_device_unlink (command : string) (t : ticket_type) (ticket device : string) (base : Z)
    (reason : option string) (a : actor) : ticketLM (PreparedMutation TicketDb) :=
  db ← read_st;
  '(revision, existing) ← lift (device_authority (domain_state db) t ticket device base);
  match existing with
  | None => mret (ticket_unchanged ticket revision)
  | Some id =>
      mret (material_prepared "ticket_device_reference_relationship" id
        (emitting (_ ← unlink_device_link t (now clock) command id; mret tt)
          (device_event command t ticket device id (Some "active") "unlinked" reason a))
        "TicketMutationResultV1" (Some (ticket_response "APPLIED" ticket revision)) None)
  end.
Definition device_envelope (command command_type_ : string) (t : ticket_type) (ticket device : string) (base : Z)
    (reason : option string) : CommandEnvelope :=
  MkEnvelope command command_type_ (type_name t) (Some ticket)
    [("ticket_type", JStr (type_name t)); ("ticket_id", JStr ticket); ("device_reference_id", JStr device);
     ("reason_category", jopt JStr reason)] [(type_name t, base)] [] None.
Definition link_device (command ticket_type_ ticket device : string) (base : Z) (reason_category : option string)
    (a : actor) : ticketLM TicketMutationResult :=
  t ← lift (_target_spec ticket_type_);
  reason ← lift (_optional_reason reason_category);
  run_ticket clock audit audit_clock (device_envelope command "LinkDeviceReference" t ticket device base reason)
    (prepare_device_link command t ticket device base reason a).
Definition unlink_device (command ticket_type_ ticket device : string) (base : Z) (reason_category : option string)
    (a : actor) : ticketLM TicketMutationResult :=
  t ← lift (_target_spec ticket_type_);
  reason ← lift (_optional_reason reason_category);
  run_ticket clock audit audit_clock (device_envelope command "UnlinkDeviceReference" t ticket device base reason)
    (prepare_device_unlink command t ticket device base reason a).

(** * Service Requests and governing roots *)
Record SrRfcLinkPreview := MkLinkPreview {
  lp_service_request_id : string;
  lp_requested_rfc_id : string;
  lp_governing_root_rfc_id : string;
  lp_subordinate_origin_rfc_id : option string;
  lp_duplicate_active : bool;
  lp_sr_revision : Z;
  lp_rfc_revision : Z;
  lp_review_required : bool;
  lp_review_fingerprint : string;
  lp_sr_lifecycle : json;
  lp_rfc_lifecycle : json;
  lp_warnings : list string
}.
Definition _load_sr (db : TicketDb) (sr : string) : result Z :=
  match service_requests db !! sr with
  | None => raise (ticket_error "NOT_FOUND" "Service Request does not exist")
  | Some r => Ok (sr_revision r)
  end.
Definition _load_root (db : TicketDb) (rfc : string) : result RfcRow :=
  match rfcs db !! rfc with
  | None => raise (ticket_error "NOT_FOUND" "RFC does not exist")
  | Some r =>
      _ ← forbid (has_parent db rfc) (ticket_error "RFC_DIRECT_SR_LINK_ON_SUBORDINATE"
        "direct Service Request relationship must target the governing root RFC");
      Ok r
  end.
Definition _validate_subordinate_origin (db : TicketDb) (root : string) (origin : option string) : result unit :=
  match origin with
  | None => Ok tt
  | Some o => forbid (negb (bool_decide (snd <$> _active_parent db o = Some root)))
      (stale "subordinate-origin provenance no longer belongs to the reviewed governing root")
  end.
Definition _sr_lifecycle (db : TicketDb) (sr : string) : result (json * bool) :=
  let absent revision := JObj [("projection_revision", revision); ("status_observation_id", JNull); ("status", JNull)] in
  match sr_current_source_projection db !! sr with
  | None => Ok (absent JNull, false)
  | Some p =>
      match sp_status_observation_id p with
      | None => Ok (absent (JInt (sp_revision p)), false)
      | Some o =>
          match sr_source_field_observations db !! o with
          | Some r =>
              _ ← forbid (negb (String.eqb (so_service_request_id r) sr) || negb (String.eqb (so_field_key r) "status"))
                (PersistenceFailure "Service Request status projection is invalid");
              Ok (JObj [("projection_revision", JInt (sp_revision p)); ("status_observation_id", JStr o);
                     ("value_state", JStr (so_value_state r)); ("status", jopt JStr (so_text_value r));
                     ("source_observation_field_id", JStr (so_source_observation_field_id r))],
                  String.eqb (so_value_state r) "usable" && match so_text_value r with
                    | Some s => set_token ["Closed"; "Resolved"; "Cancelled"] s | None => false end)
          | None => raise (PersistenceFailure "Service Request status projection is invalid")
          end
      end
  end.
Definition _rfc_lifecycle (db : TicketDb) (rfc archive : string) : json * bool :=
  let archived := String.eqb archive "archived" in
  match rfc_current_source_projection db !! rfc with
  | None => (JObj [("projection_revision", JNull); ("status_class", JStr "unknown"); ("status_authority", JNull);
      ("status_evidence_id", JNull); ("terminal_epoch_id", JNull); ("local_archive_state", JStr archive)], archived)
  | Some p => (JObj [("projection_revision", JInt (rp_revision p)); ("status_class", JStr (rp_status_class p));
      ("status_authority", jopt JStr (rp_status_authority p)); ("status_evidence_id", jopt JStr (rp_status_evidence_id p));
      ("terminal_epoch_id", jopt JStr (rp_terminal_epoch_id p)); ("local_archive_state", JStr archive)],
      set_token ["terminal_closed"; "terminal_cancelled"] (rp_status_class p) || archived)
  end.
Definition sr_customer (db : TicketDb) (sr : string) : option string :=
  (fun kv : string * SrCustomerRow => sc_customer_org_id kv.2) <$> head (rows_where (fun r =>
    String.eqb (sc_relationship_state r) "active" && String.eqb (sc_service_request_id r) sr) (sr_customer_relationships db)).
Definition known_customers (db : TicketDb) (sr root : string) (root_customer : option string) : gset string :=
  list_to_set (omap (fun c => c) (sr_customer db sr :: root_customer
    :: map (fun kv : string * RfcRow => rf_customer_org_id kv.2) (branch_rows db root))).
Definition _customer_warnings (db : TicketDb) (sr root : string) (root_customer : option string) : result (list string) :=
  _ ← forbid (1 <? Z.of_nat (size (known_customers db sr root root_customer)))
    (ticket_error "RFC_CUSTOMER_MISMATCH" "Service Request and RFC branch resolve to different Customers");
  Ok (if negb (present_opt (sr_customer db sr))
        || existsb (fun kv : string * RfcRow => negb (present_opt (rf_customer_org_id kv.2))) (branch_rows db root)
      then ["RFC_CUSTOMER_UNRESOLVED"] else []).
Definition _preview_with_reader (db : TicketDb) (sr rfc : string) (origin : option string) : result SrRfcLinkPreview :=
  sr_rev ← _load_sr db sr;
  root ← _load_root db rfc;
  _ ← _validate_subordinate_origin db rfc origin;
  let duplicate := any_row (links_between db sr rfc) in
  '(sr_life, sr_review) ← _sr_lifecycle db sr;
  let '(rfc_life, rfc_review) := _rfc_lifecycle db rfc (rf_local_archive_state root) in
  warnings ← _customer_warnings db sr rfc (rf_customer_org_id root);
  fingerprint ← sha256_canonical_json (JObj [("schema", JStr "SR_RFC_LINK_REVIEW_V1"); ("service_request_id", JStr sr);
    ("governing_root_rfc_id", JStr rfc); ("subordinate_origin_rfc_id", jopt JStr origin); ("sr_revision", JInt sr_rev);
    ("rfc_revision", JInt (rf_revision root)); ("duplicate_active", JBool duplicate); ("sr_lifecycle", sr_life);
    ("rfc_lifecycle", rfc_life)]);
  Ok (MkLinkPreview sr rfc rfc origin duplicate sr_rev (rf_revision root)
    (if duplicate then false else sr_review || rfc_review) fingerprint sr_life rfc_life warnings).
(** [SrRfcLinkPreviewQueryService.preview]: a subordinate stands for its root. *)
Definition preview_link (db : TicketDb) (service_request_id rfc_id : string) : result SrRfcLinkPreview :=
  sr ← require_uuid4 service_request_id;
  requested ← require_uuid4 rfc_id;
  '(root, origin) ← match _active_parent db requested with
    | None => Ok (requested, None)
    | Some (_, root) =>
        _ ← integrity (has_parent db root) "RFC hierarchy exceeds the accepted two-level invariant";
        Ok (root, Some requested)
    end;
  p ← _preview_with_reader db sr root origin;
  Ok (MkLinkPreview (lp_service_request_id p) requested (lp_governing_root_rfc_id p) (lp_subordinate_origin_rfc_id p)
    (lp_duplicate_active p) (lp_sr_revision p) (lp_rfc_revision p) (lp_review_required p) (lp_review_fingerprint p)
    (lp_sr_lifecycle p) (lp_rfc_lifecycle p) (lp_warnings p)).

(** ** Linking and unlinking *)
(** [hmac.compare_digest] of texts; only ASCII texts compare. *)
Definition is_ascii (s : string) : bool := all_chars (fun c => byte_of c <? 128) s.
Definition compare_digest (x y : string) : result bool :=
  if is_ascii x && is_ascii y then Ok (String.eqb x y) else Raise (PyExn "TypeError").
Definition _require_link_review (p : SrRfcLinkPreview) (supplied : option string) : result unit :=
  same ← match supplied with Some f => compare_digest f (lp_review_fingerprint p) | None => Ok false end;
  _ ← forbid (present_opt supplied && negb same) (stale "relationship review fingerprint is stale");
  forbid (lp_review_required p && negb same) (stale "fresh terminal/historical relationship review is required").
Definition sr_link_event (command sr rfc id : string) (prior : option string) (new : string)
    (reason origin : option string) (a : actor) : AuditEventInput :=
  ticket_event (fresh ["audit"]) "ticket.sr_rfc_relationship.changed" command "TicketRelationshipAuditV1"
    "service_request" sr reason a (relationship_payload "service_request_rfc" id sr rfc prior new reason origin)
    [MkResultRef "sr_rfc_relationship" id].
(** Both tickets move to their next revision, or the command is stale. *)
Definition touch_both (sr rfc : string) (sr_base rfc_base : Z) (closed : Z) (m : string) : ticketM unit :=
  sr_update ← touch_request_at (now clock) sr sr_base;
  rfc_update ← touch_rfc_at (now clock) rfc rfc_base;
  lift (forbid (negb (closed =? 1) || negb (sr_update =? 1) || negb (rfc_update =? 1)) (stale m)).
Definition link_writes (command sr rfc : string) (sr_base rfc_base : Z) : ticketM unit :=
  _ ← insert_sr_link link_id (MkSrRfcLink sr rfc "active" (now clock) None command None None);
  touch_both sr rfc sr_base rfc_base 1 "Service Request or RFC revision changed".
Definition prepare_link (command sr rfc : string) (sr_base rfc_base : Z) (origin review : option string) (a : actor)
    : ticketLM (PreparedMutation TicketDb) :=
  db ← read_st;
  p ← lift (_preview_with_reader (domain_state db) sr rfc origin);
  _ ← lift (forbid (negb (lp_sr_revision p =? sr_base) || negb (lp_rfc_revision p =? rfc_base))
    (stale "Service Request or RFC revision changed"));
  if lp_duplicate_active p then mret (ticket_unchanged sr (lp_sr_revision p)) else
  _ ← lift (_require_link_review p review);
  mret (material_prepared "sr_rfc_relationship" link_id
    (emitting (link_writes command sr rfc sr_base rfc_base)
      (sr_link_event command sr rfc link_id None "active" None origin a))
    "TicketMutationResultV1" (Some (ticket_response "APPLIED" sr (sr_base + 1))) None).
Definition sr_link_envelope (command command_type_ sr : string) (payload_ : list (string * json)) (sr_base rfc_base : Z)
    : CommandEnvelope :=
  MkEnvelope command command_type_ "service_request" (Some sr) payload_
    [("service_request", sr_base); ("rfc", rfc_base)] [] None.
Definition link_service_request (command sr rfc : string) (sr_base rfc_base : Z) (origin review : option string)
    (a : actor) : ticketLM TicketMutationResult :=
  run_ticket clock audit audit_clock (sr_link_envelope command "LinkServiceRequestToRfc" sr
      [("rfc_id", JStr rfc); ("subordinate_origin_rfc_id", jopt JStr origin); ("review_fingerprint", jopt JStr review)]
      sr_base rfc_base)
    (prepare_link command sr rfc sr_base rfc_base origin review a).
Definition unlink_writes (command sr rfc id : string) (sr_base rfc_base : Z) : ticketM unit :=
  closed ← unlink_sr_link (now clock) command id;
  touch_both sr rfc sr_base rfc_base closed "relationship or ticket revision changed".
Definition prepare_unlink (command sr rfc : string) (sr_base rfc_base : Z) (reason : string) (a : actor)
    : ticketLM (PreparedMutation TicketDb) :=
  db ← read_st;
  let d := domain_state db in
  sr_rev ← lift (_load_sr d sr);
  root ← lift (_load_root d rfc);
  _ ← lift (forbid (negb (sr_rev =? sr_base) || negb (rf_revision root =? rfc_base))
    (stale "Service Request or RFC revision changed"));
  match head (links_between d sr rfc) with
  | None => mret (ticket_unchanged sr sr_rev)
  | Some (id, _) =>
      mret (material_prepared "sr_rfc_relationship" id
        (emitting (unlink_writes command sr rfc id sr_base rfc_base)
          (sr_link_event command sr rfc id (Some "active") "unlinked" (Some reason) None a))
        "TicketMutationResultV1" (Some (ticket_response "APPLIED" sr (sr_base + 1))) None)
  end.
Definition unlink_service_request (command sr rfc : string) (sr_base rfc_base : Z) (reason_category : string)
    (a : actor) : ticketLM TicketMutationResult :=
  reason ← lift (validate_reason_category reason_category);
  run_ticket clock audit audit_clock (sr_link_envelope command "UnlinkServiceRequestFromRfc" sr
      [("root_rfc_id", JStr rfc); ("reason_category", JStr reason)] sr_base rfc_base)
    (prepare_unlink command sr rfc sr_base rfc_base reason a).
End links.
