(* ===== verification/RfcImports.v ===== *)
(** The RFC mutations of an accepted import proposal, inside the unit of work of
    the import: the identity, Customer and Service Request owners of
    [tickets/rfc_import_mutations.py], with the reads of
    [tickets/rfc_import_reader.py] they use. *)
From S2P Require Import Prelude StrictJson Identifiers AuditLedger Tables CommandBoundary TicketTables.
From S2P Require Import RfcIdentity RfcHierarchy TicketLinks.

Definition proposal_stale (m : string) : SomaError := ticket_error "IMPORT_PROPOSAL_STALE" m.
Definition validate_official_sr_no (value : string) : result string :=
  _ ← forbid (negb ((Z.of_nat (String.length value) =? 8) && all_chars is_digit value))
    (ValidationError "official_sr_no must be exactly eight ASCII decimal digits");
  Ok value.
Definition optional_uuid (value : option string) : result (option string) :=
  match value with None => Ok None | Some s => s ← require_uuid4 s; Ok (Some s) end.
(** [if not hmac.compare_digest(current, supplied): raise]. *)
Definition require_token (current supplied m : string) : result unit :=
  same ← compare_digest current supplied; forbid (negb same) (proposal_stale m).

(** * Reads *)
Definition stored_rfc_uuid (value field : string) : result string :=
  if is_uuid4 value then Ok value
  else raise (IntegrityFailure ("stored " +:+ field +:+ " is not canonical UUIDv4")).
Definition parents_of (db : TicketDb) (child : string) : list string :=
  py_sorted (fun s => s) (map (fun e : string * EdgeRow => eg_parent_rfc_id e.2) (parent_edges db child)).
Definition require_rfc (db : TicketDb) (id : string) (e : SomaError) : result unit := forbid (negb (known (rfcs db) id)) e.
Definition no_rfc : SomaError := ticket_error "NOT_FOUND" "RFC does not exist".
Definition governing_root (db : TicketDb) (rfc_id : string) : result string :=
  id ← require_uuid4 rfc_id;
  _ ← require_rfc db id no_rfc;
  match parents_of db id with
  | [] => Ok id
  | [parent] =>
      parent ← stored_rfc_uuid parent "RFC governing parent identity";
      _ ← integrity (String.eqb parent id) "RFC hierarchy contains a self-parent edge";
      _ ← require_rfc db parent (IntegrityFailure "RFC governing parent does not exist");
      _ ← integrity (any_row (parents_of db parent)) "RFC hierarchy exceeds the accepted two-level invariant";
      Ok parent
  | _ => raise (IntegrityFailure "RFC has more than one active governing parent")
  end.
(** The active link, if any. *)
Definition current_link_state (db : TicketDb) (sr_id root_rfc_id : string) : result (option string) :=
  sr ← require_uuid4 sr_id;
  root ← require_uuid4 root_rfc_id;
  _ ← forbid (negb (known (service_requests db) sr)) (ticket_error "NOT_FOUND" "Service Request does not exist");
  _ ← require_rfc db root no_rfc;
  _ ← integrity (any_row (parents_of db root)) "RFC import link-state lookup requires a current governing root";
  match py_sorted (fun s => s) (map fst (links_between db sr root)) with
  | [] => Ok None
  | [id] => id ← stored_rfc_uuid id "Service Request RFC link identity"; Ok (Some id)
  | _ => raise (IntegrityFailure "Service Request and root RFC have duplicate active direct links")
  end.

Section imports.
Context `{Sha256, FloatText} (fresh : place -> string) (clock : place -> Z).

(** * A new identity *)
Definition source_identity_base_token (db : TicketDb) (rfc_no : string) : result string :=
  no ← validate_rfc_no rfc_no;
  sha256_canonical_json (JObj [("schema", JStr "RFC_SOURCE_IDENTITY_BASE_V1"); ("rfc_no", JStr no);
    ("target", jopt (fun kv : string * RfcRow => JObj [("rfc_id", JStr kv.1);
      ("customer_org_id", jopt JStr (rf_customer_org_id kv.2)); ("local_archive_state", JStr (rf_local_archive_state kv.2));
      ("revision", JInt (rf_revision kv.2))]) (rfc_no_row db no))]).
Definition create_or_adopt_from_source (rfc_no token command : string) (a : actor)
    : ticketM (string * list AuditEventInput) :=
  db ← read_st;
  no ← lift (validate_rfc_no rfc_no);
  current ← lift (source_identity_base_token db no);
  _ ← lift (require_token current token "RFC identity base state changed");
  _ ← lift (forbid (present_opt (rfc_no_row db no))
    (proposal_stale "exact RFC identity already exists and no domain creation remains"));
  let id := fresh ["rfc"] in
  _ ← insert_rfc id (MkRfc no None "active" 1 (now clock) (now clock));
  mret (id, [identity_event fresh command id no "accepted_source_adoption" None a]).

(** * A reviewed Customer *)
Definition reconciled_branch (kv : string * RfcRow) : result json :=
  id ← require_uuid4 kv.1;
  customer ← optional_uuid (rf_customer_org_id kv.2);
  Ok (JObj [("rfc_id", JStr id); ("customer_org_id", jopt JStr customer); ("revision", JInt (rf_revision kv.2))]).
Definition customer_reconciliation_base_token (db : TicketDb) (rfc_id target_customer : string) : result string :=
  id ← require_uuid4 rfc_id;
  customer ← require_uuid4 target_customer;
  match rfcs db !! id with
  | None => raise no_rfc
  | Some r =>
      match customer_organizations db !! customer with
      | None => raise (ticket_error "NOT_FOUND" "Customer Organization does not exist")
      | Some c =>
          root ← require_uuid4 (governing db id);
          branch ← traverse reconciled_branch (branch_rows db root);
          current ← optional_uuid (rf_customer_org_id r);
          sha256_canonical_json (JObj [("schema", JStr "RFC_CUSTOMER_RECONCILIATION_BASE_V1"); ("rfc_id", JStr id);
            ("current_customer_org_id", jopt JStr current); ("local_archive_state", JStr (rf_local_archive_state r));
            ("rfc_revision", JInt (rf_revision r)); ("governing_root_rfc_id", JStr root); ("branch", JArr branch);
            ("target_customer", JObj [("customer_org_id", JStr customer); ("lifecycle_state", JStr (cu_lifecycle_state c));
              ("revision", JInt (cu_revision c))])])
      end
  end.
Definition reconcile_member (id customer : string) (_ : unit) (kv : string * RfcRow) : result unit :=
  member ← require_uuid4 kv.1;
  match rf_customer_org_id kv.2 with
  | Some c =>
      if String.eqb member id then Ok tt else
      c ← require_uuid4 c;
      forbid (negb (String.eqb c customer)) (ticket_error "RFC_CUSTOMER_MISMATCH"
        "known RFC branch members resolve to a different Customer Organization")
  | None => Ok tt
  end.
Definition set_rfc_customer_at (id : string) (revision : Z) (customer : string) : ticketM Z :=
  update_rfcs (fun id' r => String.eqb id' id && (rf_revision r =? revision)) (fun r =>
    MkRfc (rf_rfc_no r) (Some customer) (rf_local_archive_state r) (rf_revision r + 1) (rf_created_at_utc r) (now clock)).
Definition set_customer_from_review (rfc_id target_customer : string) (expected_prior : option string)
    (token command : string) (reason review : option string) (a : actor) : ticketM (Z * list AuditEventInput) :=
  db ← read_st;
  id ← lift (require_uuid4 rfc_id);
  customer ← lift (require_uuid4 target_customer);
  current ← lift (customer_reconciliation_base_token db id customer);
  _ ← lift (require_token current token "RFC Customer reconciliation base state changed");
  match rfcs db !! id with
  | None => lift (raise (proposal_stale "RFC target no longer exists"))
  | Some r =>
      prior ← lift (optional_uuid (rf_customer_org_id r));
      expected ← lift (optional_uuid expected_prior);
      _ ← lift (forbid (negb (bool_decide (prior = expected)) || bool_decide (prior = Some customer))
        (proposal_stale "RFC Customer proposal no longer represents a material change"));
      _ ← lift (forbid (negb (bool_decide (customer_state db (Some customer) = Some "active")))
        (proposal_stale "reviewed Customer Organization is no longer active"));
      root ← lift (require_uuid4 (governing db id));
      _ ← lift (foldM (reconcile_member id customer) tt (branch_rows db root));
      updated ← set_rfc_customer_at id (rf_revision r) customer;
      _ ← lift (forbid (negb (updated =? 1)) (proposal_stale "RFC Customer authority changed during acceptance"));
      mret (rf_revision r + 1,
        [ticket_event (fresh ["audit"]) "ticket.rfc.customer_changed" command "RfcCustomerAuditV1" "rfc" id reason a
          (JObj [("rfc_id", JStr id); ("prior_customer_org_id", jopt JStr prior); ("new_customer_org_id", JStr customer);
             ("resulting_revision", JInt (rf_revision r + 1)); ("reason_category", jopt JStr reason);
             ("review_fingerprint", jopt JStr review)]) [rfc_ref id]])
  end.

(** * A reviewed relation to a Service Request *)
Record RfcSrLinkReviewContext := MkLinkContext {
  lx_service_request_id : string;
  lx_requested_rfc_id : string;
  lx_governing_root_rfc_id : string;
  lx_subordinate_origin_rfc_id : option string;
  lx_sr_revision : Z;
  lx_rfc_revision : Z;
  lx_duplicate_active : bool;
  lx_review_required : bool;
  lx_risk_class : string;
  lx_warnings : list string;
  lx_base_state_token : string
}.
(** The lifecycle of a Service Request, its identities checked. *)
Definition checked_sr_lifecycle (db : TicketDb) (sr : string) : result (json * bool) :=
  _ ← match sr_current_source_projection db !! sr with
    | Some (MkSrProjection (Some o) _) =>
        _ ← require_uuid4 o;
        match sr_source_field_observations db !! o with
        | Some r =>
            _ ← forbid (negb (String.eqb (so_service_request_id r) sr) || negb (String.eqb (so_field_key r) "status"))
              (PersistenceFailure "Service Request status projection is invalid");
            _ ← require_uuid4 (so_source_observation_field_id r); Ok tt
        | None => raise (PersistenceFailure "Service Request status projection is invalid")
        end
    | _ => Ok tt
    end;
  _sr_lifecycle db sr.
Definition context_customers (sr_customer_ root_customer : option string) (branch : list (string * RfcRow)) : gset string :=
  list_to_set (omap (fun c => c) (sr_customer_ :: root_customer
    :: map (fun kv : string * RfcRow => rf_customer_org_id kv.2) branch)).
Definition sr_link_candidate_context (db : TicketDb) (service_request_id requested_rfc_id : string)
    : result RfcSrLinkReviewContext :=
  sr ← require_uuid4 service_request_id;
  requested ← require_uuid4 requested_rfc_id;
  '(sr_no_, sr_rev) ← match service_requests db !! sr with
    | Some (MkServiceRequest (Some no) _ n _ _) => no ← validate_official_sr_no no; Ok (no, n)
    | _ => raise (ticket_error "NOT_FOUND" "exact Service Request identity does not exist") end;
  '(requested_no, requested_rev) ← match rfcs db !! requested with
    | Some r => no ← validate_rfc_no (rf_rfc_no r); Ok (no, rf_revision r)
    | None => raise no_rfc end;
  root ← governing_root db requested;
  let origin := if String.eqb root requested then None else Some requested in
  match rfcs db !! root with
  | None => raise (ticket_error "NOT_FOUND" "governing RFC root does not exist")
  | Some r =>
      root_no ← validate_rfc_no (rf_rfc_no r);
      root_customer ← optional_uuid (rf_customer_org_id r);
      active_link_id ← current_link_state db sr root;
      '(sr_life, sr_terminal) ← checked_sr_lifecycle db sr;
      let '(rfc_life, rfc_terminal) := _rfc_lifecycle db root (rf_local_archive_state r) in
      sr_customer_ ← optional_uuid (sr_customer db sr);
      branch ← traverse reconciled_branch (branch_rows db root);
      _ ← forbid (1 <? Z.of_nat (size (context_customers sr_customer_ root_customer (branch_rows db root))))
        (ticket_error "RFC_CUSTOMER_MISMATCH" "Service Request and RFC branch resolve to different Customers");
      let unresolved := negb (present_opt sr_customer_)
        || existsb (fun kv : string * RfcRow => negb (present_opt (rf_customer_org_id kv.2))) (branch_rows db root) in
      let duplicate := present_opt active_link_id in
      let required := if duplicate then false else sr_terminal || rfc_terminal in
      token ← sha256_canonical_json (JObj [("schema", JStr "RFC_SR_LINK_CANDIDATE_BASE_V1");
        ("service_request", JObj [("service_request_id", JStr sr); ("official_sr_no", JStr sr_no_); ("revision", JInt sr_rev);
           ("lifecycle", sr_life); ("customer_org_id", jopt JStr sr_customer_)]);
        ("requested_rfc", JObj [("rfc_id", JStr requested); ("rfc_no", JStr requested_no); ("revision", JInt requested_rev)]);
        ("governing_root_rfc", JObj [("rfc_id", JStr root); ("rfc_no", JStr root_no); ("revision", JInt (rf_revision r));
           ("lifecycle", rfc_life); ("branch", JArr branch)]);
        ("subordinate_origin_rfc_id", jopt JStr origin); ("duplicate_active", JBool duplicate);
        ("active_link_id", jopt JStr active_link_id)]);
      Ok (MkLinkContext sr requested root origin sr_rev (rf_revision r) duplicate required
        (if required then "high" else "medium") (if unresolved then ["RFC_CUSTOMER_UNRESOLVED"] else []) token)
  end.
Definition link_sr_from_review (service_request_id requested_rfc_id token command : string) (reason : option string)
    (a : actor) : ticketM (string * Z * Z * list AuditEventInput) :=
  db ← read_st;
  c ← lift (sr_link_candidate_context db service_request_id requested_rfc_id);
  _ ← lift (require_token (lx_base_state_token c) token "RFC/SR relationship base state changed");
  _ ← lift (forbid (lx_duplicate_active c) (proposal_stale "reviewed RFC/SR relationship is already active"));
  let sr := lx_service_request_id c in
  let root := lx_governing_root_rfc_id c in
  let id := link_id fresh in
  _ ← insert_sr_link id (MkSrRfcLink sr root "active" (now clock) None command None None);
  sr_update ← touch_request_at (now clock) sr (lx_sr_revision c);
  rfc_update ← touch_rfc_at (now clock) root (lx_rfc_revision c);
  _ ← lift (forbid (negb (sr_update =? 1) || negb (rfc_update =? 1))
    (proposal_stale "Service Request or governing RFC changed during acceptance"));
  mret (id, lx_sr_revision c + 1, lx_rfc_revision c + 1,
    [sr_link_event fresh command sr root id None "active" reason (lx_subordinate_origin_rfc_id c) a]).
End imports.
