(* ===== verification/TicketForest.v ===== *)
(** The abstract hierarchy of RFCs and how the ticket tables stand for it.

    Abstractly an RFC has a Customer, or none known, at most one parent, and
    direct links to Service Requests.  [forest_step] is what the commands may
    do to it; [forest_ok] holds whatever they do. *)
From S2P Require Import Prelude StrictJson Identifiers Tables TicketTables RfcIdentity.

(** * The abstract hierarchy *)
Record forest := MkForest {
  fo_customer : gmap string (option string);
  fo_parent : gmap string string;
  fo_links : gset (string * string)   (** Service Request, RFC *)
}.
Definition customer_of (f : forest) (r : string) : option string := mjoin (fo_customer f !! r).
Definition root_of (f : forest) (r : string) : string := default r (fo_parent f !! r).
Definition in_branch (f : forest) (root m : string) : Prop := m = root \/ fo_parent f !! m = Some root.
(** [c] may hang below [p]. *)
Record attachable (f : forest) (p c : string) : Prop := {
  at_distinct : p <> c;
  at_parent : is_Some (fo_customer f !! p);
  at_child : is_Some (fo_customer f !! c);
  at_root : fo_parent f !! p = None;
  at_leaf : forall x, fo_parent f !! x <> Some c;
  at_unlinked : forall s, (s, c) ∉ fo_links f;
  at_customers : customers_differ (customer_of f p) (customer_of f c) = false
}.
Inductive forest_step : forest -> forest -> Prop :=
| step_create f id c : fo_customer f !! id = None ->
    forest_step f (MkForest (<[id := c]> (fo_customer f)) (fo_parent f) (fo_links f))
| step_customer f id c : is_Some (fo_customer f !! id) ->
    (forall m, in_branch f (root_of f id) m -> m <> id -> customer_of f m = None \/ customer_of f m = c) ->
    forest_step f (MkForest (<[id := c]> (fo_customer f)) (fo_parent f) (fo_links f))
| step_attach f p c : fo_parent f !! c = None -> attachable f p c ->
    forest_step f (MkForest (fo_customer f) (<[c := p]> (fo_parent f)) (fo_links f))
| step_move f old p c : fo_parent f !! c = Some old -> p <> old -> attachable f p c ->
    forest_step f (MkForest (fo_customer f) (<[c := p]> (fo_parent f)) (fo_links f))
| step_detach f c p : fo_parent f !! c = Some p ->
    forest_step f (MkForest (fo_customer f) (delete c (fo_parent f)) (fo_links f))
| step_link f s r : is_Some (fo_customer f !! r) -> fo_parent f !! r = None ->
    forest_step f (MkForest (fo_customer f) (fo_parent f) ({[(s, r)]} ∪ fo_links f))
| step_unlink f s r : (s, r) ∈ fo_links f ->
    forest_step f (MkForest (fo_customer f) (fo_parent f) (fo_links f ∖ {[(s, r)]})).
(** Two levels, Service Requests at the roots only, parent and child of the same
    known Customer. *)
Record below (f : forest) (c p : string) : Prop := {
  be_root : fo_parent f !! p = None;
  be_child : is_Some (fo_customer f !! c);
  be_parent : is_Some (fo_customer f !! p);
  be_unlinked : forall s, (s, c) ∉ fo_links f;
  be_customers : customers_differ (customer_of f p) (customer_of f c) = false
}.
Definition forest_ok (f : forest) : Prop := forall c p, fo_parent f !! c = Some p -> below f c p.

Lemma differ_refl c : customers_differ c c = false.
Proof. destruct c; simpl; [|done]. by rewrite String.eqb_refl. Qed.
Lemma differ_none_l c : customers_differ None c = false.
Proof. done. Qed.
Lemma differ_none_r c : customers_differ c None = false.
Proof. by destruct c. Qed.
Lemma differ_known a b x y : customers_differ a b = false -> a = Some x -> b = Some y -> x = y.
Proof. intros Hd -> ->. simpl in Hd. by apply negb_false_iff, String.eqb_eq in Hd. Qed.
Lemma customer_insert f id c p l r :
  customer_of (MkForest (<[id := c]> (fo_customer f)) p l) r = if decide (r = id) then c else customer_of f r.
Proof.
  unfold customer_of. simpl. destruct (decide (r = id)) as [->|Hne]; [by rewrite lookup_insert_eq|].
  by rewrite lookup_insert_ne by congruence.
Qed.
Lemma below_distinct f c p : fo_parent f !! c = Some p -> below f c p -> c <> p.
Proof. intros Hp [Hr _ _ _ _] ->. congruence. Qed.
Lemma customers_ok f id c :
  forest_ok f -> (fo_customer f !! id = None \/ forall m, in_branch f (root_of f id) m -> m <> id ->
    customer_of f m = None \/ customer_of f m = c) ->
  forest_ok (MkForest (<[id := c]> (fo_customer f)) (fo_parent f) (fo_links f)).
Proof.
  intros Hok Hc x p Hp. simpl in Hp. pose proof (Hok x p Hp) as Hb. pose proof (below_distinct _ _ _ Hp Hb) as Hne.
  destruct Hb as [Hr Hx Hpp Hl Hd].
  assert (forall y, is_Some (fo_customer f !! y) -> is_Some (<[id := c]> (fo_customer f) !! y)) as Hdom.
  { intros y Hy. destruct (decide (y = id)) as [->|]; [rewrite lookup_insert_eq; by eexists|by rewrite lookup_insert_ne]. }
  split; simpl; [done|by apply Hdom..|done|]. rewrite !customer_insert.
  destruct Hc as [Hnew|Hc].
  - rewrite !decide_False; [done| |]; intros ->; rewrite Hnew in *; by apply is_Some_None in Hx || apply is_Some_None in Hpp.
  - destruct (decide (p = id)) as [->|Hpi], (decide (x = id)) as [->|Hxi]; [done| | |done].
    + destruct (Hc x) as [->| ->]; [|done|apply differ_none_r|apply differ_refl].
      right. unfold root_of. by rewrite Hr.
    + destruct (Hc p) as [->| ->]; [|done|apply differ_none_l|apply differ_refl].
      left. unfold root_of. by rewrite Hp.
Qed.
Lemma attach_ok f p c :
  forest_ok f -> attachable f p c -> forest_ok (MkForest (fo_customer f) (<[c := p]> (fo_parent f)) (fo_links f)).
Proof.
  intros Hok [Hne Hp Hc Hr Hl Hu Hd] x y Hxy. simpl in Hxy.
  destruct (decide (x = c)) as [->|Hx].
  - rewrite lookup_insert_eq in Hxy. injection Hxy as <-. split; try done. simpl. by rewrite lookup_insert_ne.
  - rewrite lookup_insert_ne in Hxy by done. destruct (Hok x y Hxy) as [Hr' Hx' Hy' Hu' Hd'].
    split; try done. simpl. rewrite lookup_insert_ne; [done|]. intros ->. by apply (Hl x).
Qed.
Lemma forest_step_ok f f' : forest_ok f -> forest_step f f' -> forest_ok f'.
Proof.
  intros Hok Hs. destruct Hs as [f id c Hn|f id c Hi Hc|f p c Hn Ha|f old p c Ho Hne Ha|f c p Hp|f s r Hr Hn|f s r Hl].
  - apply customers_ok; auto.
  - apply customers_ok; auto.
  - by apply attach_ok.
  - by apply attach_ok.
  - intros x y Hxy. simpl in Hxy. apply lookup_delete_Some in Hxy as [Hx Hxy]. destruct (Hok x y Hxy) as [Hr' Hx' Hy' Hu' Hd'].
    split; try done. simpl. rewrite lookup_delete_None. auto.
  - intros x y Hxy. simpl in Hxy. destruct (Hok x y Hxy) as [Hr' Hx' Hy' Hu' Hd']. split; try done. simpl.
    intros s'. rewrite elem_of_union, elem_of_singleton. intros [[= -> ->]|Hin]; [congruence|]. by apply (Hu' s').
  - intros x y Hxy. simpl in Hxy. destruct (Hok x y Hxy) as [Hr' Hx' Hy' Hu' Hd']. split; try done. simpl.
    intros s'. rewrite elem_of_difference. intros [Hin _]. by apply (Hu' s').
Qed.

(** * The tables *)
Definition active_pairs (d : TicketDb) : list (string * string) :=
  map (fun kv : string * EdgeRow => (eg_child_rfc_id kv.2, eg_parent_rfc_id kv.2)) (rows_where active_edge (rfc_hierarchy_edges d)).
Definition active_links (d : TicketDb) : list (string * string) :=
  map (fun kv : string * SrRfcLinkRow => (lk_service_request_id kv.2, lk_rfc_id kv.2)) (rows_where active_link (sr_rfc_links d)).
Definition forest_of (d : TicketDb) : forest :=
  MkForest (rf_customer_org_id <$> rfcs d) (list_to_map (active_pairs d)) (list_to_set (active_links d)).
(** What the constraints of the tables promise. *)
Record tables_ok (d : TicketDb) : Prop := {
  to_parents : forall id1 e1 id2 e2,
    rfc_hierarchy_edges d !! id1 = Some e1 -> rfc_hierarchy_edges d !! id2 = Some e2 ->
    active_edge e1 = true -> active_edge e2 = true -> eg_child_rfc_id e1 = eg_child_rfc_id e2 -> id1 = id2;
  to_pairs : forall id1 l1 id2 l2,
    sr_rfc_links d !! id1 = Some l1 -> sr_rfc_links d !! id2 = Some l2 -> active_link l1 = true -> active_link l2 = true ->
    lk_service_request_id l1 = lk_service_request_id l2 -> lk_rfc_id l1 = lk_rfc_id l2 -> id1 = id2;
  to_rows : forall id r, rfcs d !! id = Some r -> rfc_row_ok d r = true
}.

Lemma rows_where_elem {A} (p : A -> bool) table id (a : A) :
  (id, a) ∈ rows_where p table <-> table !! id = Some a /\ p a = true.
Proof. unfold rows_where. rewrite list_elem_of_filter, elem_of_map_to_list. simpl. tauto. Qed.
Lemma rows_where_nil {A} (p : A -> bool) table :
  rows_where p table = [] <-> forall id (a : A), table !! id = Some a -> p a = false.
Proof.
  split.
  - intros Hn id a Ha. destruct (p a) eqn:Ep; [|done]. assert ((id, a) ∈ rows_where p table) as Hin by by apply rows_where_elem.
    rewrite Hn in Hin. by apply elem_of_nil in Hin.
  - intros Hn. destruct (rows_where p table) as [|[id a] l] eqn:E; [done|].
    assert ((id, a) ∈ rows_where p table) as [Ha Hp]%rows_where_elem by (rewrite E; left). by rewrite (Hn _ _ Ha) in Hp.
Qed.
Lemma any_row_false {A} (l : list A) : any_row l = false <-> l = [].
Proof. by destruct l. Qed.
Lemma rows_where_NoDup {A} (p : A -> bool) (table : gmap string A) : NoDup (map fst (rows_where p table)).
Proof. apply NoDup_fmap_filter, NoDup_fst_map_to_list. Qed.

Lemma active_pair_elem d c p :
  (c, p) ∈ active_pairs d <-> exists id e, rfc_hierarchy_edges d !! id = Some e /\ active_edge e = true /\
    eg_child_rfc_id e = c /\ eg_parent_rfc_id e = p.
Proof.
  unfold active_pairs. rewrite list_elem_of_fmap. split.
  - intros ([id e] & [= -> ->] & [He Ha]%rows_where_elem). by exists id, e.
  - intros (id & e & He & Ha & <- & <-). exists (id, e). by rewrite rows_where_elem.
Qed.
Lemma active_children_NoDup d : tables_ok d -> NoDup (map fst (active_pairs d)).
Proof.
  intros Hok. unfold active_pairs. rewrite map_map. simpl. eapply (NoDup_fmap_2_strong (fun kv : string * EdgeRow => eg_child_rfc_id kv.2)).
  - intros [i e] [j g] [He Ha]%rows_where_elem [Hg Hb]%rows_where_elem Hc. simpl in Hc.
    pose proof (to_parents d Hok i e j g He Hg Ha Hb Hc) as ->. congruence.
  - by eapply NoDup_fmap_1, (rows_where_NoDup active_edge (rfc_hierarchy_edges d)).
Qed.
Lemma parent_lookup d c p : tables_ok d ->
  fo_parent (forest_of d) !! c = Some p <-> exists id e, rfc_hierarchy_edges d !! id = Some e /\ active_edge e = true /\
    eg_child_rfc_id e = c /\ eg_parent_rfc_id e = p.
Proof.
  intros Hok. simpl. rewrite <-elem_of_list_to_map by by apply active_children_NoDup. apply active_pair_elem.
Qed.
Lemma link_elem d s r :
  (s, r) ∈ fo_links (forest_of d) <-> exists id l, sr_rfc_links d !! id = Some l /\ active_link l = true /\
    lk_service_request_id l = s /\ lk_rfc_id l = r.
Proof.
  simpl. rewrite elem_of_list_to_set. unfold active_links. rewrite list_elem_of_fmap. split.
  - intros ([id l] & [= -> ->] & [He Ha]%rows_where_elem). by exists id, l.
  - intros (id & l & He & Ha & <- & <-). exists (id, l). by rewrite rows_where_elem.
Qed.
Lemma customer_lookup d id : fo_customer (forest_of d) !! id = rf_customer_org_id <$> rfcs d !! id.
Proof. simpl. apply lookup_fmap. Qed.
Lemma customer_row d id r : rfcs d !! id = Some r -> customer_of (forest_of d) id = rf_customer_org_id r.
Proof. intros Hr. unfold customer_of. by rewrite customer_lookup, Hr. Qed.
Lemma known_rfc d id : is_Some (fo_customer (forest_of d) !! id) <-> is_Some (rfcs d !! id).
Proof. by rewrite customer_lookup, fmap_is_Some. Qed.

(** ** Reads *)
Lemma active_parent_some d c id p :
  _active_parent d c = Some (id, p) -> exists e, rfc_hierarchy_edges d !! id = Some e /\ active_edge e = true /\
    eg_child_rfc_id e = c /\ eg_parent_rfc_id e = p.
Proof.
  unfold _active_parent. destruct (parent_edges d c) as [|[i e] l] eqn:E; [done|]. intros [= -> <-].
  assert ((id, e) ∈ parent_edges d c) as [He Ha]%rows_where_elem by (rewrite E; left). bool_hyps. by exists e.
Qed.
Lemma parent_edges_nil d c : tables_ok d -> parent_edges d c = [] <-> fo_parent (forest_of d) !! c = None.
Proof.
  intros Hok. unfold parent_edges. rewrite rows_where_nil. split.
  - intros Hn. destruct (fo_parent (forest_of d) !! c) as [p|] eqn:E; [|done].
    apply parent_lookup in E as (id & e & He & Ha & Hc & _); [|done]. specialize (Hn id e He).
    by rewrite Ha, Hc, String.eqb_refl in Hn.
  - intros Hn id e He. destruct (active_edge e) eqn:Ha; [|done]. simpl. apply String.eqb_neq. intros Hc.
    enough (fo_parent (forest_of d) !! c = Some (eg_parent_rfc_id e)) by congruence. apply parent_lookup; [done|].
    by exists id, e.
Qed.
Lemma active_parent_none d c : tables_ok d -> _active_parent d c = None <-> fo_parent (forest_of d) !! c = None.
Proof.
  intros Hok. rewrite <-parent_edges_nil by done. unfold _active_parent. by destruct (parent_edges d c) as [|[]].
Qed.
Lemma active_parent_parent d c : tables_ok d -> snd <$> _active_parent d c = fo_parent (forest_of d) !! c.
Proof.
  intros Hok. destruct (_active_parent d c) as [[id p]|] eqn:E; simpl.
  - apply active_parent_some in E as (e & He & Ha & Hc & Hp). symmetry. apply parent_lookup; [done|]. by exists id, e.
  - symmetry. by apply active_parent_none.
Qed.
Lemma has_parent_false d c : tables_ok d -> has_parent d c = false <-> fo_parent (forest_of d) !! c = None.
Proof. intros Hok. rewrite <-active_parent_none by done. unfold has_parent. by destruct (_active_parent d c). Qed.
Lemma has_children_false d p : tables_ok d ->
  has_children d p = false <-> forall c, fo_parent (forest_of d) !! c <> Some p.
Proof.
  intros Hok. unfold has_children, child_edges. rewrite any_row_false, rows_where_nil. split.
  - intros Hn c (id & e & He & Ha & Hc & Hp)%parent_lookup; [|done]. specialize (Hn id e He).
    by rewrite Ha, Hp, String.eqb_refl in Hn.
  - intros Hn id e He. destruct (active_edge e) eqn:Ha; [|done]. simpl. apply String.eqb_neq. intros Hp.
    apply (Hn (eg_child_rfc_id e)). apply parent_lookup; [done|]. by exists id, e.
Qed.
Lemma directly_linked_false d r : directly_linked d r = false <-> forall s, (s, r) ∉ fo_links (forest_of d).
Proof.
  unfold directly_linked, links_of_rfc. rewrite any_row_false, rows_where_nil. split.
  - intros Hn s (id & l & Hl & Ha & Hs & Hr)%link_elem. specialize (Hn id l Hl). by rewrite Ha, Hr, String.eqb_refl in Hn.
  - intros Hn id l Hl. destruct (active_link l) eqn:Ha; [|done]. simpl. apply String.eqb_neq. intros Hr.
    apply (Hn (lk_service_request_id l)). apply link_elem. by exists id, l.
Qed.
