(* ===== verification/TicketEffects.v ===== *)
(** What the statements of the RFC commands do to the abstract hierarchy.

    How the tables evolve: the hierarchy by abstract steps, the histories by
    appending and closing only, and every RFC under the guard of its revision.

    What the writes of each RFC command do: every one of them evolves the
    tables. *)
From S2P Require Import Prelude StrictJson Identifiers AuditLedger Tables CommandBoundary TicketTables.
From S2P Require Import RfcIdentity RfcHierarchy TicketLinks TicketForest.

Lemma lookup_updated {A} hit (f : A -> A) table id :
  updated hit f table !! id = (fun r => if hit id r then f r else r) <$> table !! id.
Proof. unfold updated. rewrite map_lookup_imap. by destruct (table !! id). Qed.
Lemma hits_elem {A} hit (table : gmap string A) id r : (id, r) ∈ hits hit table <-> table !! id = Some r /\ hit id r = true.
Proof. unfold hits. rewrite list_elem_of_filter, elem_of_map_to_list. simpl. tauto. Qed.
Lemma forest_eq c p l c' p' l' : c = c' -> p = p' -> l = l' -> MkForest c p l = MkForest c' p' l'.
Proof. by intros -> -> ->. Qed.

(** * RFC rows *)
Lemma update_rfcs_ok hit f d d' k :
  update_rfcs hit f d = (d', Ok k) ->
  d' = set_rfcs (updated hit f (rfcs d)) d /\ k = Z.of_nat (length (hits hit (rfcs d))) /\
  forall id r, rfcs d !! id = Some r -> hit id r = true -> rfc_row_ok d (f r) = true.
Proof.
  unfold update_rfcs. destruct (forallb _ _) eqn:E; [|done]. intros [= <- <-]. split_and!; try done.
  intros id r Hr Hh. rewrite forallb_forall in E. apply (E (id, r)). rewrite <-list_elem_of_In. by apply hits_elem.
Qed.
Lemma tables_ok_rfcs d t :
  tables_ok d -> (forall id r, t !! id = Some r -> rfc_row_ok d r = true) -> tables_ok (set_rfcs t d).
Proof. intros [H1 H2 H3] Ht. by split. Qed.
Lemma update_rfcs_tables hit f d d' k : tables_ok d -> update_rfcs hit f d = (d', Ok k) -> tables_ok d'.
Proof.
  intros Hok (-> & _ & Hr)%update_rfcs_ok. apply tables_ok_rfcs; [done|]. intros id r. rewrite lookup_updated.
  destruct (rfcs d !! id) as [r0|] eqn:E; [|done]. simpl. destruct (hit id r0) eqn:Eh; intros [= <-].
  - by apply (Hr id).
  - by apply (to_rows d Hok id).
Qed.
(** Touching rows leaves the hierarchy alone. *)
Lemma touch_forest hit d d' k n :
  update_rfcs hit (touch_rfc n) d = (d', Ok k) -> forest_of d' = forest_of d.
Proof.
  intros (-> & _ & _)%update_rfcs_ok. unfold forest_of. simpl. apply forest_eq; [|done..]. apply map_eq. intros id.
  rewrite !lookup_fmap, lookup_updated. destruct (rfcs d !! id) as [r|]; [|done]. simpl. by destruct (hit id r).
Qed.
Lemma set_customer_forest n id customer d d' k r :
  rfcs d !! id = Some r -> set_rfc_customer n id customer d = (d', Ok k) ->
  forest_of d' = MkForest (<[id := customer]> (fo_customer (forest_of d))) (fo_parent (forest_of d)) (fo_links (forest_of d)).
Proof.
  intros Hr (-> & _ & _)%update_rfcs_ok. unfold forest_of. simpl. apply forest_eq; [|done..]. apply map_eq. intros id'.
  rewrite lookup_fmap, lookup_updated. destruct (decide (id' = id)) as [->|Hne].
  - rewrite lookup_insert_eq, Hr. simpl. by rewrite String.eqb_refl.
  - rewrite lookup_insert_ne, lookup_fmap by congruence. apply String.eqb_neq in Hne.
    destruct (rfcs d !! id') as [r'|]; [|done]. simpl. by rewrite Hne.
Qed.
Lemma insert_rfc_ok id r d d' u :
  insert_rfc id r d = (d', Ok u) ->
  d' = set_rfcs (<[id := r]> (rfcs d)) d /\ rfcs d !! id = None /\ rfc_row_ok d r = true /\ rfc_no_row d (rf_rfc_no r) = None.
Proof.
  unfold insert_rfc. intros [Hok ->]%statement_ok. rewrite !andb_true_iff in Hok. destruct Hok as [[H1%unknown_spec H2] H3].
  split_and!; try done. by destruct (rfc_no_row d (rf_rfc_no r)).
Qed.
Lemma insert_rfc_forest id r d d' u :
  tables_ok d -> insert_rfc id r d = (d', Ok u) ->
  tables_ok d' /\ fo_customer (forest_of d) !! id = None /\
  forest_of d' = MkForest (<[id := rf_customer_org_id r]> (fo_customer (forest_of d))) (fo_parent (forest_of d))
    (fo_links (forest_of d)).
Proof.
  intros Hok (-> & Hn & Hr & _)%insert_rfc_ok. split; [|split].
  - apply tables_ok_rfcs; [done|]. intros id' r' [[<- <-]|[_ Hr']]%lookup_insert_Some; [done|]. by apply (to_rows d Hok id').
  - by rewrite customer_lookup, Hn.
  - unfold forest_of. simpl. apply forest_eq; [|done..]. by rewrite fmap_insert.
Qed.

(** * Edges *)
Lemma tables_ok_edges d t : tables_ok d ->
  (forall id1 e1 id2 e2, t !! id1 = Some e1 -> t !! id2 = Some e2 -> active_edge e1 = true -> active_edge e2 = true ->
     eg_child_rfc_id e1 = eg_child_rfc_id e2 -> id1 = id2) -> tables_ok (set_edges t d).
Proof. intros [H1 H2 H3] Ht. by split. Qed.
(** The parents the edges of [d'] give, when its tables are in order. *)
Lemma parents_eq d d' m :
  tables_ok d' -> (forall c p, m !! c = Some p <-> exists id e, rfc_hierarchy_edges d' !! id = Some e /\ active_edge e = true /\
    eg_child_rfc_id e = c /\ eg_parent_rfc_id e = p) ->
  rfcs d' = rfcs d -> sr_rfc_links d' = sr_rfc_links d ->
  forest_of d' = MkForest (fo_customer (forest_of d)) m (fo_links (forest_of d)).
Proof.
  intros Hok Hm Er El. unfold forest_of. apply forest_eq; simpl.
  - by rewrite Er.
  - apply map_eq. intros c. apply option_eq. intros p. rewrite Hm. exact (parent_lookup d' c p Hok).
  - unfold active_links. by rewrite El.
Qed.
Record edge_inserted (id : string) (e : EdgeRow) (d d' : TicketDb) : Prop := {
  ei_new : rfc_hierarchy_edges d !! id = None;
  ei_state : d' = set_edges (<[id := e]> (rfc_hierarchy_edges d)) d;
  ei_parent : is_Some (rfcs d !! eg_parent_rfc_id e);
  ei_child : is_Some (rfcs d !! eg_child_rfc_id e);
  ei_distinct : eg_parent_rfc_id e <> eg_child_rfc_id e;
  ei_active : active_edge e = true;
  ei_root : has_parent d (eg_parent_rfc_id e) = false;
  ei_leaf : has_children d (eg_child_rfc_id e) = false;
  ei_unlinked : directly_linked d (eg_child_rfc_id e) = false;
  ei_free : has_parent d (eg_child_rfc_id e) = false
}.
Lemma insert_edge_ok id e d d' u : insert_edge id e d = (d', Ok u) -> edge_inserted id e d d'.
Proof.
  unfold insert_edge. intros [Hok ->]%statement_ok. rewrite !andb_true_iff in Hok.
  destruct Hok as [[[[[[[[[[H1%unknown_spec H2%known_spec] H3%known_spec] _] H4] H5] _] H6] H7] H8] H9]. bool_hyps. by split.
Qed.
Lemma insert_edge_forest id e d d' u :
  tables_ok d -> insert_edge id e d = (d', Ok u) ->
  tables_ok d' /\ forest_of d' = MkForest (fo_customer (forest_of d))
    (<[eg_child_rfc_id e := eg_parent_rfc_id e]> (fo_parent (forest_of d))) (fo_links (forest_of d)).
Proof.
  intros Hok [Hn -> Hp Hc Hne Ha Hr Hl Hu Hf]%insert_edge_ok.
  assert (forall i g, rfc_hierarchy_edges d !! i = Some g -> active_edge g = true ->
    eg_child_rfc_id g <> eg_child_rfc_id e) as Hfree.
  { intros i g Hg Hga Heq. apply has_parent_false in Hf; [|done].
    enough (fo_parent (forest_of d) !! eg_child_rfc_id e = Some (eg_parent_rfc_id g)) by congruence.
    apply parent_lookup; [done|]. by exists i, g. }
  assert (tables_ok (set_edges (<[id := e]> (rfc_hierarchy_edges d)) d)) as Hok'.
  { apply tables_ok_edges; [done|]. intros i1 e1 i2 e2 [[<- <-]|[Hi1 H1]]%lookup_insert_Some [[<- <-]|[Hi2 H2]]%lookup_insert_Some Ha1 Ha2 Heq;
      [done|by destruct (Hfree i2 e2)|by destruct (Hfree i1 e1)|]. by apply (to_parents d Hok i1 e1 i2 e2). }
  split; [done|]. apply parents_eq; [done| |done|done]. intros c p. simpl. split.
  - intros [[<- <-]|[Hi Hcp]]%lookup_insert_Some; [exists id, e; by rewrite lookup_insert_eq|].
    apply (parent_lookup d c p Hok) in Hcp as (i & g & Hg & Hga & Hgc & Hgp). exists i, g. rewrite lookup_insert_ne; [done|].
    intros <-. congruence.
  - intros (i & g & [[<- <-]|[Hi Hg]]%lookup_insert_Some & Hga & Hgc & Hgp).
    + subst. by rewrite lookup_insert_eq.
    + rewrite lookup_insert_ne; [apply (parent_lookup d c p Hok); by exists i, g|]. intros Heq. by apply (Hfree i g); [..|congruence].
Qed.
Lemma supersede_edge_ok n command id parent child d d' k :
  supersede_edge n command id parent child d = (d', Ok k) -> k = 1 ->
  exists e, rfc_hierarchy_edges d !! id = Some e /\ active_edge e = true /\ eg_parent_rfc_id e = parent /\
    eg_child_rfc_id e = child /\ d' = set_edges (<[id := closed_edge n command e]> (rfc_hierarchy_edges d)) d.
Proof.
  unfold supersede_edge. destruct (_ !! id) as [e|]; [|by intros [= <- <-]].
  destruct (_ && active_edge e) eqn:E; [|by intros [= <- <-]]. intros [= <- _] _. bool_hyps. by exists e.
Qed.
Lemma close_edge_forest n command id e d :
  tables_ok d -> rfc_hierarchy_edges d !! id = Some e -> active_edge e = true ->
  let d' := set_edges (<[id := closed_edge n command e]> (rfc_hierarchy_edges d)) d in
  tables_ok d' /\ forest_of d' = MkForest (fo_customer (forest_of d)) (delete (eg_child_rfc_id e) (fo_parent (forest_of d)))
    (fo_links (forest_of d)).
Proof.
  intros Hok He Ha d'. assert (tables_ok d') as Hok'.
  { apply tables_ok_edges; [done|]. intros i1 e1 i2 e2 [[<- <-]|[Hi1 H1]]%lookup_insert_Some [[<- <-]|[Hi2 H2]]%lookup_insert_Some Ha1 Ha2 Heq;
      [done|done|done|]. by apply (to_parents d Hok i1 e1 i2 e2). }
  split; [done|]. apply parents_eq; [done| |done|done]. intros c p. simpl. rewrite lookup_delete_Some. split.
  - intros [Hc (i & g & Hg & Hga & Hgc & Hgp)%(parent_lookup d c p Hok)]. exists i, g. rewrite lookup_insert_ne; [done|].
    intros <-. congruence.
  - intros (i & g & [[<- <-]|[Hi Hg]]%lookup_insert_Some & Hga & Hgc & Hgp); [done|]. split.
    + intros Heq. apply Hi. eapply (to_parents d Hok id e i g); [done..|congruence].
    + apply (parent_lookup d c p Hok). by exists i, g.
Qed.

(** * Direct links *)
Lemma tables_ok_links d t : tables_ok d ->
  (forall id1 l1 id2 l2, t !! id1 = Some l1 -> t !! id2 = Some l2 -> active_link l1 = true -> active_link l2 = true ->
     lk_service_request_id l1 = lk_service_request_id l2 -> lk_rfc_id l1 = lk_rfc_id l2 -> id1 = id2) ->
  tables_ok (set_links t d).
Proof. intros [H1 H2 H3] Ht. by split. Qed.
Lemma links_eq d t m :
  (forall s r, (s, r) ∈ m <-> exists id l, t !! id = Some l /\ active_link l = true /\ lk_service_request_id l = s /\ lk_rfc_id l = r) ->
  forest_of (set_links t d) = MkForest (fo_customer (forest_of d)) (fo_parent (forest_of d)) m.
Proof.
  intros Hm. unfold forest_of. apply forest_eq; [done..|]. apply leibniz_equiv. intros [s r]. rewrite Hm.
  exact (link_elem (set_links t d) s r).
Qed.
Lemma insert_link_forest id l d d' u :
  tables_ok d -> insert_sr_link id l d = (d', Ok u) ->
  tables_ok d' /\ is_Some (rfcs d !! lk_rfc_id l) /\ has_parent d (lk_rfc_id l) = false /\
  forest_of d' = MkForest (fo_customer (forest_of d)) (fo_parent (forest_of d))
    ({[(lk_service_request_id l, lk_rfc_id l)]} ∪ fo_links (forest_of d)).
Proof.
  intros Hok. unfold insert_sr_link. intros [Hs ->]%statement_ok. rewrite !andb_true_iff in Hs.
  destruct Hs as [[[[[[[H1%unknown_spec _] H3%known_spec] _] Ha] _] H6] H7]. apply negb_true_iff in H6, H7.
  apply any_row_false in H7. unfold links_between in H7. rewrite rows_where_nil in H7.
  assert (forall i l', sr_rfc_links d !! i = Some l' -> active_link l' = true -> lk_service_request_id l' = lk_service_request_id l ->
    lk_rfc_id l' <> lk_rfc_id l) as Hfree.
  { intros i l' Hl Hla Hs Hr. specialize (H7 i l' Hl). by rewrite Hla, Hs, Hr, !String.eqb_refl in H7. }
  split; [|split; [done|split; [done|]]].
  - apply tables_ok_links; [done|]. intros i1 e1 i2 e2 [[<- <-]|[Hi1 L1]]%lookup_insert_Some [[<- <-]|[Hi2 L2]]%lookup_insert_Some A1 A2 Es Er;
      [done|by destruct (Hfree i2 e2)|by destruct (Hfree i1 e1)|]. by apply (to_pairs d Hok i1 e1 i2 e2).
  - apply links_eq. intros s r. rewrite elem_of_union, elem_of_singleton, link_elem. split.
    + intros [[= -> ->]|(i & l' & Hl & Hla & Hs & Hr)]; [exists id, l; by rewrite lookup_insert_eq|].
      exists i, l'. rewrite lookup_insert_ne; [done|]. intros <-. congruence.
    + intros (i & l' & [[<- <-]|[Hi Hl]]%lookup_insert_Some & Hla & Hs & Hr); [left; congruence|right; by exists i, l'].
Qed.
Lemma unlink_link_ok n command id d d' k :
  unlink_sr_link n command id d = (d', Ok k) -> k = 1 ->
  exists l, sr_rfc_links d !! id = Some l /\ active_link l = true /\
    d' = set_links (<[id := closed_link n command l]> (sr_rfc_links d)) d.
Proof.
  unfold unlink_sr_link. destruct (_ !! id) as [l|]; [|by intros [= <- <-]].
  destruct (active_link l) eqn:E; [|by intros [= <- <-]]. intros [= <- _] _. by exists l.
Qed.
Lemma close_link_forest n command id l d :
  tables_ok d -> sr_rfc_links d !! id = Some l -> active_link l = true ->
  let d' := set_links (<[id := closed_link n command l]> (sr_rfc_links d)) d in
  tables_ok d' /\ forest_of d' = MkForest (fo_customer (forest_of d)) (fo_parent (forest_of d))
    (fo_links (forest_of d) ∖ {[(lk_service_request_id l, lk_rfc_id l)]}).
Proof.
  intros Hok Hl Ha d'. split.
  - apply tables_ok_links; [done|]. intros i1 e1 i2 e2 [[<- <-]|[Hi1 L1]]%lookup_insert_Some [[<- <-]|[Hi2 L2]]%lookup_insert_Some A1 A2 Es Er;
      [done|done|done|]. by apply (to_pairs d Hok i1 e1 i2 e2).
  - apply links_eq. intros s r. rewrite elem_of_difference, elem_of_singleton, link_elem. split.
    + intros [(i & l' & Hl' & Hla & Hs & Hr) Hne]. exists i, l'. rewrite lookup_insert_ne; [done|]. intros <-. congruence.
    + intros (i & l' & [[<- <-]|[Hi Hl']]%lookup_insert_Some & Hla & Hs & Hr); [done|]. split; [by exists i, l'|].
      intros [= -> ->]. apply Hi. by apply (to_pairs d Hok id l i l').
Qed.

(** * Histories *)
Definition edges_kept (t t' : gmap string EdgeRow) : Prop := forall id e, t !! id = Some e ->
  exists e', t' !! id = Some e' /\ (e' = e \/ active_edge e = true /\ exists n command, e' = closed_edge n command e).
Definition links_kept (t t' : gmap string SrRfcLinkRow) : Prop := forall id l, t !! id = Some l ->
  exists l', t' !! id = Some l' /\ (l' = l \/ active_link l = true /\ exists n command, l' = closed_link n command l).
Lemma edges_kept_refl t : edges_kept t t.
Proof. intros id e He. exists e. auto. Qed.
Lemma links_kept_refl t : links_kept t t.
Proof. intros id l Hl. exists l. auto. Qed.
Lemma edges_kept_trans t1 t2 t3 : edges_kept t1 t2 -> edges_kept t2 t3 -> edges_kept t1 t3.
Proof.
  intros H1 H2 id e He. destruct (H1 id e He) as (e1 & He1 & [->|(Ha & n & c & ->)]); [by apply H2|].
  destruct (H2 id _ He1) as (e2 & He2 & [->|(Hb & _)]); [|done]. exists (closed_edge n c e). split; [done|right]. eauto.
Qed.
Lemma links_kept_trans t1 t2 t3 : links_kept t1 t2 -> links_kept t2 t3 -> links_kept t1 t3.
Proof.
  intros H1 H2 id l Hl. destruct (H1 id l Hl) as (l1 & Hl1 & [->|(Ha & n & c & ->)]); [by apply H2|].
  destruct (H2 id _ Hl1) as (l2 & Hl2 & [->|(Hb & _)]); [|done]. exists (closed_link n c l). split; [done|right]. eauto.
Qed.
Lemma edges_kept_insert t id e : t !! id = None -> edges_kept t (<[id := e]> t).
Proof. intros Hn id' e' He. exists e'. rewrite lookup_insert_ne by congruence. auto. Qed.
Lemma edges_kept_close t id n command e :
  t !! id = Some e -> active_edge e = true -> edges_kept t (<[id := closed_edge n command e]> t).
Proof.
  intros He Ha id' e' He'. destruct (decide (id' = id)) as [->|Hne].
  - exists (closed_edge n command e). rewrite lookup_insert_eq. replace e' with e by congruence. split; [done|right]. eauto.
  - rewrite lookup_insert_ne by congruence. eauto.
Qed.
Lemma links_kept_insert t id l : t !! id = None -> links_kept t (<[id := l]> t).
Proof. intros Hn id' l' Hl. exists l'. rewrite lookup_insert_ne by congruence. auto. Qed.
Lemma links_kept_close t id n command l :
  t !! id = Some l -> active_link l = true -> links_kept t (<[id := closed_link n command l]> t).
Proof.
  intros Hl Ha id' l' Hl'. destruct (decide (id' = id)) as [->|Hne].
  - exists (closed_link n command l). rewrite lookup_insert_eq. replace l' with l by congruence. split; [done|right]. eauto.
  - rewrite lookup_insert_ne by congruence. eauto.
Qed.

(** * The guard *)
(** The parent, the children and the direct links of an RFC are the same. *)
Definition same_place (f f' : forest) (r : string) : Prop :=
  fo_parent f' !! r = fo_parent f !! r /\ (forall c, fo_parent f' !! c = Some r <-> fo_parent f !! c = Some r) /\
  (forall s, (s, r) ∈ fo_links f' <-> (s, r) ∈ fo_links f).
(** No RFC is lost or renumbered, no revision goes back, and at one revision
    nothing of an RFC differs: its row, its place in the hierarchy, its links. *)
Definition guarded (d d' : TicketDb) : Prop := forall id r, rfcs d !! id = Some r ->
  exists r', rfcs d' !! id = Some r' /\ rf_rfc_no r' = rf_rfc_no r /\ rf_revision r <= rf_revision r' /\
    (rf_revision r' = rf_revision r -> r' = r /\ same_place (forest_of d) (forest_of d') id).
Lemma same_place_refl f r : same_place f f r.
Proof. by split_and!. Qed.
Lemma same_place_trans f1 f2 f3 r : same_place f1 f2 r -> same_place f2 f3 r -> same_place f1 f3 r.
Proof. intros (P1 & C1 & L1) (P2 & C2 & L2). split_and!; [congruence| |]; intros x; [by rewrite C2|by rewrite L2]. Qed.
Lemma guarded_refl d : guarded d d.
Proof. intros id r Hr. exists r. split_and!; [done..|lia|]. intros _. split; [done|apply same_place_refl]. Qed.
Lemma guarded_trans d1 d2 d3 : guarded d1 d2 -> guarded d2 d3 -> guarded d1 d3.
Proof.
  intros H1 H2 id r Hr. destruct (H1 id r Hr) as (r1 & Hr1 & N1 & L1 & E1). destruct (H2 id r1 Hr1) as (r2 & Hr2 & N2 & L2 & E2).
  exists r2. split_and!; [done|congruence|lia|]. intros Heq. destruct E1 as [-> S1]; [lia|]. destruct E2 as [-> S2]; [lia|].
  split; [done|]. by eapply same_place_trans.
Qed.
(** A statement that bumps the rows it hits, after one that moved only these. *)
Definition bumps (f : RfcRow -> RfcRow) : Prop := forall r,
  rf_rfc_no (f r) = rf_rfc_no r /\ rf_revision (f r) = rf_revision r + 1.
Lemma touch_bumps n : bumps (touch_rfc n).
Proof. by intros r. Qed.
Lemma bump_guarded d d1 d2 hit f k :
  bumps f -> rfcs d1 = rfcs d -> update_rfcs hit f d1 = (d2, Ok k) ->
  (forall id r, rfcs d !! id = Some r -> hit id r = false -> same_place (forest_of d) (forest_of d1) id) -> guarded d d2.
Proof.
  intros Hf Er (-> & _ & _)%update_rfcs_ok Hp id r Hr. simpl. rewrite lookup_updated, Er, Hr. simpl.
  eexists. split; [reflexivity|]. destruct (Hf r) as [Hn Hrev]. destruct (hit id r) eqn:Eh.
  - rewrite Hn, Hrev. split_and!; [done|lia|lia].
  - split_and!; [done|lia|]. intros _. split; [done|]. exact (Hp id r Hr Eh).
Qed.

(** * Evolution *)
Record evolved (d d' : TicketDb) : Prop := {
  evo_tables : tables_ok d';
  evo_steps : star forest_step (forest_of d) (forest_of d');
  evo_edges : edges_kept (rfc_hierarchy_edges d) (rfc_hierarchy_edges d');
  evo_links : links_kept (sr_rfc_links d) (sr_rfc_links d');
  evo_guard : guarded d d';
  evo_customers : customer_organizations d' = customer_organizations d;
  evo_sources : rfc_current_source_projection d' = rfc_current_source_projection d
}.
Definition evolves (d d' : TicketDb) : Prop := tables_ok d -> evolved d d'.
Lemma evolves_refl d : evolves d d.
Proof.
  intros Hok. split; [done|apply star_refl|apply edges_kept_refl|apply links_kept_refl|apply guarded_refl|done|done].
Qed.
Lemma evolves_trans d1 d2 d3 : evolves d1 d2 -> evolves d2 d3 -> evolves d1 d3.
Proof.
  intros H1 H2 Hok. destruct (H1 Hok) as [T1 S1 E1 L1 G1 C1 P1]. destruct (H2 T1) as [T2 S2 E2 L2 G2 C2 P2].
  split; [done|by eapply star_trans|by eapply edges_kept_trans|by eapply links_kept_trans|by eapply guarded_trans|congruence|congruence].
Qed.
(** Tables the hierarchy does not depend on. *)
Lemma evolves_frame d d' :
  rfcs d' = rfcs d -> rfc_hierarchy_edges d' = rfc_hierarchy_edges d -> sr_rfc_links d' = sr_rfc_links d ->
  customer_organizations d' = customer_organizations d ->
  rfc_current_source_projection d' = rfc_current_source_projection d -> evolves d d'.
Proof.
  intros Er Ee El Ec Ep [H1 H2 H3]. assert (forest_of d' = forest_of d) as Ef.
  { unfold forest_of, active_pairs, active_links. by rewrite Er, Ee, El. }
  split; [|rewrite Ef; apply star_refl|rewrite Ee; apply edges_kept_refl|rewrite El; apply links_kept_refl| |done|done].
  - split; rewrite ?Er, ?Ee, ?El; try done. intros id r Hr. unfold rfc_row_ok. rewrite Ec. by apply (H3 id).
  - intros id r Hr. rewrite Er. exists r. split_and!; [done..|lia|]. intros _. split; [done|]. rewrite Ef. apply same_place_refl.
Qed.

Lemma existsb_in (id : string) ids : existsb (String.eqb id) ids = false <-> id ∉ ids.
Proof.
  induction ids as [|x ids IH]; simpl; [set_solver|]. rewrite orb_false_iff, String.eqb_neq, IH, not_elem_of_cons. tauto.
Qed.
Lemma same_place_alter f m cs c id :
  (forall x, x <> c -> m !! x = fo_parent f !! x) -> id <> c -> m !! c <> Some id -> fo_parent f !! c <> Some id ->
  same_place f (MkForest cs m (fo_links f)) id.
Proof.
  intros Hm Hne Hn Ho. split_and!; simpl; [by apply Hm| |done]. intros x.
  destruct (decide (x = c)) as [->|Hx]; [|by rewrite Hm]. by split; intros ?.
Qed.

(** * Identities and Customers *)
Lemma create_evolves id r d d' u : insert_rfc id r d = (d', Ok u) -> evolves d d'.
Proof.
  intros Hi Hok. destruct (insert_rfc_forest _ _ _ _ _ Hok Hi) as (Hok' & Hn & Ef).
  apply insert_rfc_ok in Hi as (-> & Hnew & _ & _). split; [done| |apply edges_kept_refl|apply links_kept_refl| |done|done].
  - rewrite Ef. apply star_one. by constructor.
  - intros id' r' Hr'. exists r'. simpl. rewrite lookup_insert_ne by congruence. split_and!; [done..|lia|].
    intros _. split; [done|]. rewrite Ef. by split_and!.
Qed.
Lemma branch_rows_elem d root m r :
  (m, r) ∈ branch_rows d root <-> rfcs d !! m = Some r /\
    (m = root \/ exists e, e ∈ child_edges d root /\ eg_child_rfc_id e.2 = m).
Proof.
  unfold branch_rows. rewrite list_elem_of_filter, elem_of_py_sorted, elem_of_map_to_list. simpl.
  rewrite orb_true_iff, String.eqb_eq, existsb_exists. setoid_rewrite String.eqb_eq. setoid_rewrite <-list_elem_of_In. tauto.
Qed.
Lemma branch_row_in d root m r :
  tables_ok d -> rfcs d !! m = Some r -> in_branch (forest_of d) root m -> (m, r) ∈ branch_rows d root.
Proof.
  intros Hok Hr Hb. apply branch_rows_elem. split; [done|]. destruct Hb as [->|Hp]; [by left|right].
  apply parent_lookup in Hp as (id & e & He & Ha & Hc & Hp); [|done]. exists (id, e). split; [|done].
  apply rows_where_elem. by rewrite He, Ha, Hp, String.eqb_refl.
Qed.
Lemma governing_root d id : tables_ok d -> governing d id = root_of (forest_of d) id.
Proof.
  intros Hok. unfold governing, root_of. rewrite <-active_parent_parent by done. by destruct (_active_parent d id) as [[]|].
Qed.
Lemma branch_conflict_ok d id c m :
  tables_ok d -> branch_conflict d id c = false -> in_branch (forest_of d) (root_of (forest_of d) id) m -> m <> id ->
  customer_of (forest_of d) m = None \/ customer_of (forest_of d) m = c.
Proof.
  intros Hok Hc Hb Hne. destruct (rfcs d !! m) as [r|] eqn:Er.
  - rewrite (customer_row d m r Er). destruct (rf_customer_org_id r) as [x|] eqn:Ex; [right|by left].
    unfold branch_conflict in Hc. rewrite governing_root in Hc by done.
    apply not_true_iff_false in Hc. rewrite existsb_exists in Hc.
    destruct (decide (c = Some x)) as [->|Hcx]; [done|]. destruct Hc. exists (m, r). split.
    + rewrite <-list_elem_of_In. by apply branch_row_in.
    + simpl. rewrite Ex. apply String.eqb_neq in Hne. rewrite Hne. simpl. by rewrite bool_decide_eq_false_2.
  - left. unfold customer_of. by rewrite customer_lookup, Er.
Qed.
Lemma customer_evolves n id c r d d' k :
  rfcs d !! id = Some r -> branch_conflict d id c = false -> set_rfc_customer n id c d = (d', Ok k) -> evolves d d'.
Proof.
  intros Hr Hc Hs Hok. pose proof (set_customer_forest _ _ _ _ _ _ _ Hr Hs) as Ef.
  pose proof (update_rfcs_tables _ _ _ _ _ Hok Hs) as Hok'.
  pose proof Hs as (-> & _ & _)%update_rfcs_ok. split; [done| |apply edges_kept_refl|apply links_kept_refl| |done|done].
  - rewrite Ef. apply star_one. constructor; [rewrite customer_lookup, Hr; by eexists|].
    intros m Hb Hne. by apply (branch_conflict_ok d id).
  - eapply (bump_guarded d d); [|done|exact Hs|intros; apply same_place_refl]. by intros r'.
Qed.

(** * Hierarchy *)
Lemma edge_attachable id e d d' rp rc :
  tables_ok d -> edge_inserted id e d d' -> rfcs d !! eg_parent_rfc_id e = Some rp -> rfcs d !! eg_child_rfc_id e = Some rc ->
  customers_differ (rf_customer_org_id rp) (rf_customer_org_id rc) = false ->
  attachable (forest_of d) (eg_parent_rfc_id e) (eg_child_rfc_id e).
Proof.
  intros Hok [] Hp Hc Hd. split; [done|by apply known_rfc|by apply known_rfc|by apply has_parent_false|
    by apply has_children_false|by apply directly_linked_false|]. by rewrite (customer_row _ _ _ Hp), (customer_row _ _ _ Hc).
Qed.
Lemma touched_tables ids n d d' k : tables_ok d -> touch_rfcs n ids d = (d', Ok k) -> tables_ok d'.
Proof. apply update_rfcs_tables. Qed.
Section moves.
Context (fresh : place -> string) (clock : place -> Z).
Lemma add_evolves command parent child rp rc d d' u :
  rfcs d !! parent = Some rp -> rfcs d !! child = Some rc ->
  customers_differ (rf_customer_org_id rp) (rf_customer_org_id rc) = false ->
  add_writes fresh clock command parent child d = (d', Ok u) -> evolves d d'.
Proof.
  intros Hp Hc Hd. unfold add_writes. intros (d1 & v & Hi & (d2 & k & Ht & [= <- _])%stm_bind_ok)%stm_bind_ok Hok.
  destruct (insert_edge_forest _ _ _ _ _ Hok Hi) as [Hok1 Ef]. apply insert_edge_ok in Hi. simpl in *.
  pose proof (edge_attachable _ _ _ _ rp rc Hok Hi Hp Hc Hd) as Ha. destruct Hi as [Hnew -> _ _ _ _ _ _ _ Hfree]. simpl in *.
  apply has_parent_false in Hfree; [|done].
  pose proof (touched_tables _ _ _ _ _ Hok1 Ht) as Hok2. pose proof (touch_forest _ _ _ _ _ Ht) as Ef2.
  pose proof Ht as (-> & _ & _)%update_rfcs_ok. split; [done| |by apply edges_kept_insert|apply links_kept_refl| |done|done].
  - rewrite Ef2, Ef. apply star_one. by constructor.
  - eapply bump_guarded; [apply touch_bumps| |exact Ht|]; [done|]. intros id r _ Hh. apply existsb_in in Hh.
    rewrite Ef. apply same_place_alter with child; [intros; by rewrite lookup_insert_ne|set_solver| |congruence].
    rewrite lookup_insert_eq. set_solver.
Qed.
Lemma close_old_edge_ok command what p d d' u :
  close_old_edge clock command what p d = (d', Ok u) ->
  exists e, rfc_hierarchy_edges d !! hp_old_edge_id p = Some e /\ active_edge e = true /\
    eg_parent_rfc_id e = hp_old_parent_rfc_id p /\ eg_child_rfc_id e = hp_child_rfc_id p /\
    d' = set_edges (<[hp_old_edge_id p := closed_edge (now clock) command e]> (rfc_hierarchy_edges d)) d.
Proof.
  unfold close_old_edge. intros (d1 & k & Hs & [-> Hk%integrity_ok]%lift_ok)%stm_bind_ok. bool_hyps.
  by eapply supersede_edge_ok.
Qed.
Lemma touch_participants_ok what ids d d' u :
  touch_participants clock what ids d = (d', Ok u) -> touch_rfcs (now clock) ids d = (d', Ok (count ids)).
Proof.
  unfold touch_participants. intros (d1 & k & Hs & [-> Hk%integrity_ok]%lift_ok)%stm_bind_ok. bool_hyps. by subst k.
Qed.
Lemma detach_evolves command p d d' u : detach_writes clock command p d = (d', Ok u) -> evolves d d'.
Proof.
  unfold detach_writes. intros (d1 & v & (e & He & Ha & Hep & Hec & ->)%close_old_edge_ok & Ht%touch_participants_ok)%stm_bind_ok Hok.
  destruct (close_edge_forest (now clock) command _ e d Hok He Ha) as [Hok1 Ef].
  pose proof (touched_tables _ _ _ _ _ Hok1 Ht) as Hok2. pose proof (touch_forest _ _ _ _ _ Ht) as Ef2.
  pose proof Ht as (-> & _ & _)%update_rfcs_ok.
  assert (fo_parent (forest_of d) !! eg_child_rfc_id e = Some (eg_parent_rfc_id e)) as Hp by (apply parent_lookup; eauto 6).
  split; [done| |by apply edges_kept_close|apply links_kept_refl| |done|done].
  - rewrite Ef2, Ef. apply star_one. by econstructor.
  - eapply bump_guarded; [apply touch_bumps| |exact Ht|]; [done|]. intros id r _ Hh. apply existsb_in in Hh.
    rewrite Ef. apply same_place_alter with (eg_child_rfc_id e); [intros; by rewrite lookup_delete_ne|set_solver| |].
    + by rewrite lookup_delete_eq.
    + rewrite Hp. set_solver.
Qed.
Lemma reparent_evolves command new p rn rc d d' u :
  rfcs d !! new = Some rn -> rfcs d !! hp_child_rfc_id p = Some rc ->
  customers_differ (rf_customer_org_id rc) (rf_customer_org_id rn) = false ->
  has_parent d new = false -> has_children d (hp_child_rfc_id p) = false ->
  directly_linked d (hp_child_rfc_id p) = false -> new <> hp_old_parent_rfc_id p -> new <> hp_child_rfc_id p ->
  reparent_writes fresh clock command new p d = (d', Ok u) -> evolves d d'.
Proof.
  intros Hn Hc Hd Hr Hl Hu Hno Hnc. unfold reparent_writes.
  intros (d1 & v & (e & He & Ha & Hep & Hec & ->)%close_old_edge_ok & (d2 & w & Hi & Ht%touch_participants_ok)%stm_bind_ok)%stm_bind_ok Hok.
  destruct (close_edge_forest (now clock) command _ e d Hok He Ha) as [Hok1 Ef].
  destruct (insert_edge_forest _ _ _ _ _ Hok1 Hi) as [Hok2 Ef2]. rewrite Ef in Ef2.
  apply insert_edge_ok in Hi as [Hnew -> _ _ _ _ _ _ _ _]. simpl in *.
  pose proof (touched_tables _ _ _ _ _ Hok2 Ht) as Hok3. pose proof (touch_forest _ _ _ _ _ Ht) as Ef3.
  pose proof Ht as (-> & _ & _)%update_rfcs_ok. rewrite Hec, insert_delete_eq in Ef2.
  assert (fo_parent (forest_of d) !! hp_child_rfc_id p = Some (hp_old_parent_rfc_id p)) as Hp.
  { rewrite <-Hec, <-Hep. apply parent_lookup; eauto 6. }
  split; [done| | |apply links_kept_refl| |done|done].
  - rewrite Ef3, Ef2. apply star_one. eapply step_move; [exact Hp|done|]. split; [done|by apply known_rfc|by apply known_rfc|
      by apply has_parent_false|by apply has_children_false|by apply directly_linked_false|].
    rewrite (customer_row _ _ _ Hn), (customer_row _ _ _ Hc). revert Hd. destruct (rf_customer_org_id rc), (rf_customer_org_id rn); simpl; try done.
    by rewrite String.eqb_sym.
  - eapply edges_kept_trans; [by eapply edges_kept_close|]. by apply edges_kept_insert.
  - eapply bump_guarded; [apply touch_bumps| |exact Ht|]; [done|]. intros id r _ Hh. apply existsb_in in Hh.
    rewrite Ef2. apply same_place_alter with (hp_child_rfc_id p); [intros; by rewrite lookup_insert_ne|set_solver| |].
    + rewrite lookup_insert_eq. set_solver.
    + rewrite Hp. set_solver.
Qed.

(** * Direct links *)
Lemma touch_request_ok n id revision d d' k :
  touch_request_at n id revision d = (d', Ok k) ->
  exists t, d' = set_requests t d /\ t = updated (fun id' r => String.eqb id' id && (sr_revision r =? revision))
    (fun r => MkServiceRequest (sr_official_sr_no r) (sr_local_sr_no r) (sr_revision r + 1) (sr_created_at_utc r) n)
    (service_requests d).
Proof. unfold touch_request_at. destruct (forallb _ _); [|done]. intros [= <- _]. by eexists. Qed.
Lemma one_hit {A} (table : gmap string A) (p : A -> bool) id :
  Z.of_nat (length (hits (fun id' r => String.eqb id' id && p r) table)) = 1 -> exists r, table !! id = Some r /\ p r = true.
Proof.
  destruct (hits _ table) as [|[id' r] l] eqn:E; [done|]. intros _.
  assert ((id', r) ∈ hits (fun id' r => String.eqb id' id && p r) table) as [Hr Hh]%hits_elem by (rewrite E; left).
  bool_hyps. subst. by exists r.
Qed.
(** Both tickets were at their base revisions and moved on; [rs] is the row the
    RFC keeps apart from its revision and update time. *)
Lemma touch_both_ok sr rfc sr_base rfc_base closed m d d' u :
  touch_both clock sr rfc sr_base rfc_base closed m d = (d', Ok u) ->
  closed = 1 /\ (exists r, rfcs d !! rfc = Some r /\ rf_revision r = rfc_base) /\
  exists t k, update_rfcs (fun id r => String.eqb id rfc && (rf_revision r =? rfc_base)) (touch_rfc (now clock))
    (set_requests t d) = (d', Ok k).
Proof.
  unfold touch_both. intros (d1 & k1 & (t & -> & _)%touch_request_ok & (d2 & k2 & Ht & [-> Hk%forbid_ok]%lift_ok)%stm_bind_ok)%stm_bind_ok.
  bool_hyps. split; [done|]. split; [|by exists t, k2].
  apply update_rfcs_ok in Ht as (_ & -> & _). simpl in *.
  destruct (one_hit (rfcs d) (fun r => rf_revision r =? rfc_base) rfc) as (r & Hr & Hrev); [done|]. bool_hyps. by exists r.
Qed.
(** A change of the links of [rfc] alone, followed by the touch of it. *)
Lemma touch_both_evolved sr rfc sr_base rfc_base m d d1 d' u :
  rfcs d1 = rfcs d -> customer_organizations d1 = customer_organizations d ->
  rfc_current_source_projection d1 = rfc_current_source_projection d -> rfc_hierarchy_edges d1 = rfc_hierarchy_edges d ->
  tables_ok d1 -> star forest_step (forest_of d) (forest_of d1) -> links_kept (sr_rfc_links d) (sr_rfc_links d1) ->
  (forall id, id <> rfc -> same_place (forest_of d) (forest_of d1) id) ->
  touch_both clock sr rfc sr_base rfc_base 1 m d1 = (d', Ok u) -> evolved d d'.
Proof.
  intros Er Ec Es Ee Hok1 Hs Hl Hp (_ & (r & Hr & Hrev) & t & k & Ht)%touch_both_ok.
  assert (tables_ok (set_requests t d1)) as Hokt by (destruct Hok1; by split).
  pose proof (update_rfcs_tables _ _ _ _ _ Hokt Ht) as Hok'. pose proof (touch_forest _ _ _ _ _ Ht) as Ef.
  change (forest_of (set_requests t d1)) with (forest_of d1) in Ef.
  pose proof Ht as (-> & _ & _)%update_rfcs_ok. split; [done|by rewrite Ef|simpl; rewrite Ee; apply edges_kept_refl|done| |done|simpl; congruence].
  eapply (bump_guarded d (set_requests t d1)); [apply touch_bumps|done|exact Ht|]. intros id r' Hr' Hh.
  change (forest_of (set_requests t d1)) with (forest_of d1). apply Hp. intros ->. rewrite Er in Hr. simplify_eq.
  rewrite String.eqb_refl, Z.eqb_refl in Hh. done.
Qed.
Lemma link_evolves command sr rfc sr_base rfc_base d d' u :
  link_writes fresh clock command sr rfc sr_base rfc_base d = (d', Ok u) -> evolves d d'.
Proof.
  unfold link_writes. intros (d1 & v & Hi & Ht)%stm_bind_ok Hok.
  destruct (insert_link_forest _ _ _ _ _ Hok Hi) as (Hok1 & Hknown & Hroot & Ef). unfold insert_sr_link in Hi.
  apply statement_ok in Hi as [Hi ->]. rewrite !andb_true_iff in Hi. destruct Hi as [[[[[[[Hnew%unknown_spec _] _] _] _] _] _] _].
  simpl in *. refine (touch_both_evolved _ _ _ _ _ d _ _ _ _ _ _ _ Hok1 _ _ _ Ht); try done.
  - rewrite Ef. apply star_one. constructor; [by apply known_rfc|by apply has_parent_false].
  - by apply links_kept_insert.
  - intros id Hne. rewrite Ef. split_and!; simpl; [done..|]. intros s. set_solver.
Qed.
Lemma unlink_evolves command sr rfc id l sr_base rfc_base d d' u :
  sr_rfc_links d !! id = Some l -> lk_rfc_id l = rfc ->
  unlink_writes clock command sr rfc id sr_base rfc_base d = (d', Ok u) -> evolves d d'.
Proof.
  intros Hl Hr. unfold unlink_writes. intros (d1 & k & Hu & Ht)%stm_bind_ok Hok.
  pose proof Ht as (Hk & _)%touch_both_ok. subst k.
  destruct (unlink_link_ok _ _ _ _ _ _ Hu eq_refl) as (l' & Hl' & Ha & ->). replace l' with l in * by congruence. clear l' Hl'.
  destruct (close_link_forest (now clock) command id l d Hok Hl Ha) as [Hok1 Ef].
  simpl in *. refine (touch_both_evolved _ _ _ _ _ d _ _ _ _ _ _ _ Hok1 _ _ _ Ht); try done.
  - rewrite Ef. apply star_one. constructor. apply link_elem. by exists id, l.
  - by apply links_kept_close.
  - intros id' Hne. rewrite Ef. split_and!; simpl; [done..|]. intros s. rewrite Hr. set_solver.
Qed.

(** * Device links *)
Lemma device_link_evolves t id l d d' u : insert_device_link t id l d = (d', Ok u) -> evolves d d'.
Proof. unfold insert_device_link. intros [_ ->]%statement_ok. apply evolves_frame; by destruct t. Qed.
Lemma device_unlink_evolves t n command id d d' k : unlink_device_link t n command id d = (d', Ok k) -> evolves d d'.
Proof.
  unfold unlink_device_link. destruct (_ !! id) as [l|]; [|intros [= <- _]; apply evolves_refl].
  destruct (active_device l); intros [= <- _]; [|apply evolves_refl]. apply evolves_frame; by destruct t.
Qed.
End moves.

(** * What a preview of a correction found *)
Lemma append_if_nil b code_ codes : append_if b code_ codes = [] -> b = false /\ codes = [].
Proof. unfold append_if, _append_code. destruct b, codes as [|x l]; try done. by destruct (set_token (x :: l) code_). Qed.
Lemma load_rfc_ok d id c n : _load_rfc d id = Ok (c, n) ->
  exists r, rfcs d !! id = Some r /\ c = rf_customer_org_id r /\ n = rf_revision r.
Proof. unfold _load_rfc. destruct (rfcs d !! id) as [r|]; [|done]. intros [= <- <-]. by exists r. Qed.
Lemma reparent_target_ok `{Sha256} d child old customer new target blockers warnings :
  reparent_target d child old customer (Some new) = Ok (target, blockers, warnings) ->
  exists r branch, rfcs d !! new = Some r /\ target = Some (new, rf_revision r, branch) /\
    blockers = reparent_blockers d child old new customer (rf_customer_org_id r).
Proof.
  unfold reparent_target. intros ([c n] & (r & Hr & -> & ->)%load_rfc_ok & Hk)%bind_ok.
  apply bind_ok in Hk as (root & _ & Hk). apply bind_ok in Hk as (branch & _ & Hk). injection Hk as <- <- <-. by exists r, branch.
Qed.
(** The RFC is below its old parent at the revisions of the preview. *)
Record preview_of (d : TicketDb) (p : RfcHierarchyMutationPreview) (child : string) (new : option string) : Prop := {
  po_child : hp_child_rfc_id p = child;
  po_new : hp_new_parent_rfc_id p = new;
  po_edge : _active_parent d child = Some (hp_old_edge_id p, hp_old_parent_rfc_id p);
  po_revisions : exists rc ro, rfcs d !! child = Some rc /\ rfcs d !! hp_old_parent_rfc_id p = Some ro /\
    hp_base_revisions p = match new with
      | Some n => dset n (default 0 (rf_revision <$> rfcs d !! n))
          (dset child (rf_revision rc) [(hp_old_parent_rfc_id p, rf_revision ro)])
      | None => dset child (rf_revision rc) [(hp_old_parent_rfc_id p, rf_revision ro)] end;
  po_blockers : forall n, new = Some n -> exists rc rn, rfcs d !! child = Some rc /\ rfcs d !! n = Some rn /\
    hp_blockers p = reparent_blockers d child (hp_old_parent_rfc_id p) n (rf_customer_org_id rc) (rf_customer_org_id rn)
}.
Lemma evaluate_preview `{Sha256} history db action child new p :
  evaluate history db action child new = Ok p -> preview_of (domain_state db) p child new.
Proof.
  unfold evaluate. cbv zeta. intros (? & Hact%forbid_ok & Hr)%bind_ok.
  apply bind_ok in Hr as (c & [-> Hu]%require_uuid4_ok & Hr). apply bind_ok in Hr as (target & Hn & Hr).
  assert (target = new) as ->.
  { destruct (String.eqb action "reparent"); [destruct new as [n|]; [|done]|].
    - by apply bind_ok in Hn as (? & [-> _]%require_uuid4_ok & [= <-]).
    - apply bind_ok in Hn as (? & Hn%forbid_ok & [= <-]). by destruct new. }
  apply bind_ok in Hr as ([cc cn] & (rc & Hrc & -> & ->)%load_rfc_ok & Hr).
  destruct (_active_parent (domain_state db) child) as [[edge old]|] eqn:Ep; [|done].
  apply bind_ok in Hr as ([oc on] & (ro & Hro & -> & ->)%load_rfc_ok & Hr).
  apply bind_ok in Hr as (? & _ & Hr). apply bind_ok in Hr as (ob & _ & Hr).
  apply bind_ok in Hr as ([[tg bl] wa] & Htg & Hr). apply bind_ok in Hr as (hv & _ & Hr).
  apply bind_ok in Hr as (au & _ & Hr). apply bind_ok in Hr as (fp & _ & [= <-]). split; simpl; try done.
  - exists rc, ro. split; [done|]. split; [done|]. destruct new as [n|]; [|by injection Htg as <- <- <-].
    apply reparent_target_ok in Htg as (rn & br & -> & -> & _). done.
  - intros n ->. apply reparent_target_ok in Htg as (rn & br & Hrn & -> & ->). by exists rc, rn.
Qed.
