(* ===== verification/TicketRuns.v ===== *)
(** The RFC commands as steps: every sequence of them refines the abstract
    hierarchy. *)
From S2P Require Import Prelude StrictJson Identifiers AuditLedger Tables CommandBoundary CommandReplay.
From S2P Require Import CommandAudit CommandDomain TicketTables RfcIdentity RfcHierarchy TicketLinks RfcImports.
From S2P Require Import TicketForest TicketEffects.
#[local] Arguments set_token : simpl never.
#[local] Arguments evolves : simpl never.

Definition ledger_evolves (db db' : LedgerDb TicketDb) : Prop := evolves (domain_state db) (domain_state db').
Lemma ledger_evolves_refl db : ledger_evolves db db.
Proof. apply evolves_refl. Qed.
(** Skip a fallible read: when it fails, nothing has changed. *)
Ltac reads Hr :=
  let a := fresh "a" in let E := fresh "E" in
  apply lift_bind_any in Hr as [(a & E & Hr)| ->]; [|by apply ledger_evolves_refl].

(** * What a preparation prepared *)
Lemma emitting_ok writes event db db' em :
  emitting writes event db = (db', Ok em) -> exists d u, writes (domain_state db) = (d, Ok u) /\ db' = with_domain db d.
Proof.
  unfold emitting. intros (db1 & u & (d & Hd & ->)%on_domain_ok & [= <- _])%stm_bind_ok. by exists d, u.
Qed.
(** It only read, and its writes evolve the tables it read. *)
Definition acts (prepare : ticketLM (PreparedMutation TicketDb)) : Prop := forall db db' p,
  prepare db = (db', Ok p) -> db' = db /\ simple_mutation p /\
  (no_change p = false -> exists writes event, apply_ p = Some (emitting writes event) /\
    forall d u, writes (domain_state db) = (d, Ok u) -> evolves (domain_state db) d).
Lemma material_simple kind id apply schema value f :
  simple_mutation (material_prepared kind id apply schema value (reading <$> f)).
Proof. split; [done|]. simpl. destruct f; simpl; [|done]. by intros m [= <-] db. Qed.
Lemma no_change_simple schema value f : simple_mutation (no_change_prepared schema value (reading <$> f)).
Proof. split; [done|]. simpl. destruct f; simpl; [|done]. by intros m [= <-] db. Qed.
Lemma acts_unchanged schema value f db :
  let p := no_change_prepared schema value (reading <$> f) in
  db = db /\ simple_mutation p /\ (no_change p = false -> exists writes event,
    apply_ p = Some (emitting writes event) /\ forall d u, writes (domain_state db) = (d, Ok u) -> evolves (domain_state db) d).
Proof. split; [done|]. split; [apply no_change_simple|done]. Qed.
Lemma acts_material kind id writes event schema value f db :
  (forall d u, writes (domain_state db) = (d, Ok u) -> evolves (domain_state db) d) ->
  let p := material_prepared kind id (emitting writes event) schema value (reading <$> f) in
  db = db /\ simple_mutation p /\ (no_change p = false -> exists writes event,
    apply_ p = Some (emitting writes event) /\ forall d u, writes (domain_state db) = (d, Ok u) -> evolves (domain_state db) d).
Proof. split; [done|]. split; [apply material_simple|]. intros _. by exists writes, event. Qed.

Section runs.
Context `{Sha256, FloatText} (fresh : place -> string) (clock : place -> Z).
Context (audit : AuditRegistry) (audit_clock : string -> Z) (history : RfcHistoryRiskProvider).
Lemma execute_evolves {B} (k : CommandExecutionResult -> ticketLM B) e prepare db db' res :
  acts prepare -> (forall x s, (k x s).1 = s) ->
  (x ← ticket_execute clock audit audit_clock e prepare; k x) db = (db', res) -> ledger_evolves db db'.
Proof.
  intros Ha Hk. apply (execute_relates audit evolves); [apply evolves_refl|by intros ? ? ? (? & ? & _)%Ha| |done].
  intros p db1 db2 (_ & _ & Hp)%Ha Hc E (f & events & Ef & Hrun & _). destruct (Hp Hc) as (w & ev & Ew & Hw).
  rewrite Ew in Ef. injection Ef as <-. apply emitting_ok in Hrun as (d & u & Hd & ->). simpl. rewrite E in *. by eapply Hw.
Qed.
Lemma run_ticket_evolves e prepare db db' res :
  acts prepare -> run_ticket clock audit audit_clock e prepare db = (db', res) -> ledger_evolves db db'.
Proof. intros Ha. by apply execute_evolves. Qed.
Lemma run_hierarchy_evolves unchanged what e prepare db db' res :
  acts prepare -> run_hierarchy clock audit audit_clock unchanged what e prepare db = (db', res) -> ledger_evolves db db'.
Proof.
  intros Ha. apply execute_evolves; [done|]. intros x s. unfold mbind, stM_bind, lift. by destruct (integrity _ _).
Qed.
(** [insert_...; mret tt] and [set_...; mret tt]. *)
Lemma then_unit {A} (m : ticketM A) d d' u : (_ ← m; mret tt) d = (d', Ok u) -> exists a, m d = (d', Ok a).
Proof. intros (d1 & a & Hm & [= <- _])%stm_bind_ok. by exists a. Qed.

(** ** The identity commands *)
Lemma acts_create command no context customer a : acts (prepare_create fresh clock command no context customer a).
Proof.
  intros db db' p. unfold prepare_create. intros (s & d & [= <- <-] & Hr)%stm_bind_ok.
  destruct (rfc_no_row (domain_state db) no) as [[id r]|].
  - injection Hr as <- <-. apply (acts_unchanged _ None (Some _)).
  - apply stm_bind_ok in Hr as (s' & u & [-> _]%lift_ok & [= <- <-]). apply (acts_material _ _ _ _ _ None (Some _)).
    intros d u'. apply create_evolves.
Qed.
Lemma acts_customer command id base customer reason review a :
  acts (prepare_customer fresh clock command id base customer reason review a).
Proof.
  intros db db' p. unfold prepare_customer. cbv zeta. intros (s & d & [= <- <-] & Hr)%stm_bind_ok.
  destruct (rfcs (domain_state db) !! id) as [r|] eqn:Er; [|by apply lift_ok in Hr as [_ Hr]].
  apply stm_bind_ok in Hr as (s1 & u1 & [-> _]%lift_ok & Hr). apply stm_bind_ok in Hr as (s2 & u2 & [-> _]%lift_ok & Hr).
  destruct (bool_decide _); [injection Hr as <- <-; apply (acts_unchanged _ _ None)|].
  apply stm_bind_ok in Hr as (s3 & u3 & [-> Hc%forbid_ok]%lift_ok & [= <- <-]). apply (acts_material _ _ _ _ _ _ None).
  intros d u [k Hk]%then_unit. by eapply customer_evolves.
Qed.

(** ** The hierarchy commands *)
Lemma acts_add command parent child revisions reason review a :
  acts (prepare_add fresh clock command parent child revisions reason review a).
Proof.
  intros db db' p. unfold prepare_add. cbv zeta. intros (s & d & [= <- <-] & Hr)%stm_bind_ok.
  apply stm_bind_ok in Hr as (s1 & [pc pr] & [-> (rp & Hp & -> & ->)%load_rfc_ok]%lift_ok & Hr).
  apply stm_bind_ok in Hr as (s2 & [cc cr] & [-> (rc & Hc & -> & ->)%load_rfc_ok]%lift_ok & Hr).
  apply stm_bind_ok in Hr as (s3 & u3 & [-> _]%lift_ok & Hr).
  destruct (_active_parent (domain_state db) child) as [[edge current]|].
  - destruct (current =? parent)%string; [injection Hr as <- <-; apply (acts_unchanged _ None (Some _))|].
    by apply lift_ok in Hr as [_ Hr].
  - apply stm_bind_ok in Hr as (s4 & u4 & [-> _]%lift_ok & Hr). apply stm_bind_ok in Hr as (s5 & u5 & [-> _]%lift_ok & Hr).
    apply stm_bind_ok in Hr as (s6 & u6 & [-> _]%lift_ok & Hr).
    apply stm_bind_ok in Hr as (s7 & u7 & [-> Hd%forbid_ok]%lift_ok & [= <- <-]).
    apply (acts_material _ _ _ _ _ None (Some _)). intros d u. by eapply add_evolves.
Qed.
Lemma reviewed_preview_ok action child new revisions review db db' p :
  reviewed_preview history action child new revisions review db = (db', Ok p) ->
  db' = db /\ evaluate history db action child new = Ok p /\ same_revisions revisions (hp_base_revisions p) = true /\
  _require_current_review p review = Ok tt /\ hp_blockers p = [].
Proof.
  unfold reviewed_preview. intros (s & d & [= <- <-] & Hr)%stm_bind_ok.
  apply stm_bind_ok in Hr as (s1 & p1 & [-> Hp]%lift_ok & Hr).
  apply stm_bind_ok in Hr as (s2 & u2 & [-> Hrev%forbid_ok]%lift_ok & Hr).
  apply stm_bind_ok in Hr as (s3 & [] & [-> Hreview]%lift_ok & Hr).
  apply stm_bind_ok in Hr as (s4 & u4 & [-> Hb]%lift_ok & [= <- <-]). bool_hyps. split_and!; try done.
  by destruct (hp_blockers p1).
Qed.
Lemma unblocked_ok d child old new a b :
  reparent_blockers d child old new a b = [] ->
  customers_differ a b = false /\ directly_linked d child = false /\ has_children d child = false /\
  has_parent d new = false /\ new <> old /\ new <> child.
Proof.
  unfold reparent_blockers. intros [Hd Hr]%append_if_nil. apply append_if_nil in Hr as [Hu Hr].
  apply append_if_nil in Hr as [Hl Hr]. apply append_if_nil in Hr as [Hp Hr]. apply append_if_nil in Hr as [Ho Hr].
  apply append_if_nil in Hr as [Hc _]. bool_hyps. by split_and!.
Qed.
Lemma acts_reparent command child new revisions reason review a :
  acts (prepare_reparent fresh clock history command child new revisions reason review a).
Proof.
  intros db db' p. unfold prepare_reparent. intros (s & pv & Hp & [= <- <-])%stm_bind_ok.
  apply reviewed_preview_ok in Hp as (-> & [<- _ _ _ Hb]%evaluate_preview & _ & _ & Hnone).
  apply (acts_material _ _ _ _ _ None (Some _)). intros d u Hw.
  destruct (Hb new eq_refl) as (rc & rn & Hrc & Hrn & E). rewrite Hnone in E. symmetry in E.
  apply unblocked_ok in E as (Hd & Hu & Hl & Hr & Hno & Hnc). by eapply reparent_evolves.
Qed.
Lemma acts_detach command child revisions reason review a :
  acts (prepare_detach fresh clock history command child revisions reason review a).
Proof.
  intros db db' p. unfold prepare_detach. intros (s & pv & (-> & _)%reviewed_preview_ok & [= <- <-])%stm_bind_ok.
  apply (acts_material _ _ _ _ _ None (Some _)). intros d u. apply detach_evolves.
Qed.

(** ** The links *)
Lemma acts_device_link command t ticket device base reason a :
  acts (prepare_device_link fresh clock command t ticket device base reason a).
Proof.
  intros db db' p. unfold prepare_device_link. intros (s & d & [= <- <-] & Hr)%stm_bind_ok.
  apply stm_bind_ok in Hr as (s1 & [n [id|]] & [-> _]%lift_ok & [= <- <-]); [apply (acts_unchanged _ _ None)|].
  apply (acts_material _ _ _ _ _ _ None). intros d u. apply device_link_evolves.
Qed.
Lemma acts_device_unlink command t ticket device base reason a :
  acts (prepare_device_unlink fresh clock command t ticket device base reason a).
Proof.
  intros db db' p. unfold prepare_device_unlink. intros (s & d & [= <- <-] & Hr)%stm_bind_ok.
  apply stm_bind_ok in Hr as (s1 & [n [id|]] & [-> _]%lift_ok & [= <- <-]); [|apply (acts_unchanged _ _ None)].
  apply (acts_material _ _ _ _ _ _ None). intros d u [k Hk]%then_unit. by eapply device_unlink_evolves.
Qed.
Lemma acts_link command sr rfc sr_base rfc_base origin review a :
  acts (prepare_link fresh clock command sr rfc sr_base rfc_base origin review a).
Proof.
  intros db db' p. unfold prepare_link. intros (s & d & [= <- <-] & Hr)%stm_bind_ok.
  apply stm_bind_ok in Hr as (s1 & pv & [-> _]%lift_ok & Hr). apply stm_bind_ok in Hr as (s2 & u2 & [-> _]%lift_ok & Hr).
  destruct (lp_duplicate_active pv); [injection Hr as <- <-; apply (acts_unchanged _ _ None)|].
  apply stm_bind_ok in Hr as (s3 & u3 & [-> _]%lift_ok & [= <- <-]). apply (acts_material _ _ _ _ _ _ None).
  intros d u. apply link_evolves.
Qed.
Lemma links_between_head d sr rfc id l :
  head (links_between d sr rfc) = Some (id, l) -> sr_rfc_links d !! id = Some l /\ active_link l = true /\
    lk_service_request_id l = sr /\ lk_rfc_id l = rfc.
Proof.
  intros Hh. assert ((id, l) ∈ links_between d sr rfc) as [Hl Ha]%rows_where_elem.
  { destruct (links_between d sr rfc) as [|x rows]; [done|]. injection Hh as ->. left. }
  by bool_hyps.
Qed.
Lemma acts_unlink command sr rfc sr_base rfc_base reason a :
  acts (prepare_unlink fresh clock command sr rfc sr_base rfc_base reason a).
Proof.
  intros db db' p. unfold prepare_unlink. cbv zeta. intros (s & d & [= <- <-] & Hr)%stm_bind_ok.
  apply stm_bind_ok in Hr as (s1 & n & [-> _]%lift_ok & Hr). apply stm_bind_ok in Hr as (s2 & root & [-> _]%lift_ok & Hr).
  apply stm_bind_ok in Hr as (s3 & u3 & [-> _]%lift_ok & Hr).
  destruct (head (links_between (domain_state db) sr rfc)) as [[id l]|] eqn:E; injection Hr as <- <-;
    [|apply (acts_unchanged _ _ None)].
  apply links_between_head in E as (Hl & _ & _ & Hr). apply (acts_material _ _ _ _ _ _ None).
  intros d u. by eapply unlink_evolves.
Qed.

(** ** The owners of an import *)
Lemma stm_then {S A B} (m : stM S A) (f : A -> stM S B) s s1 a : m s = (s1, Ok a) -> (m ≫= f) s = f a s1.
Proof. intros Hm. unfold mbind, stM_bind. by rewrite Hm. Qed.
Lemma source_identity_evolves rfc_no token command a d d' x :
  create_or_adopt_from_source fresh clock rfc_no token command a d = (d', Ok x) -> evolves d d'.
Proof.
  unfold create_or_adopt_from_source. cbv zeta. intros (s & d0 & [= <- <-] & Hr)%stm_bind_ok.
  apply stm_bind_ok in Hr as (s1 & no & [-> _]%lift_ok & Hr). apply stm_bind_ok in Hr as (s2 & t & [-> _]%lift_ok & Hr).
  apply stm_bind_ok in Hr as (s3 & u3 & [-> _]%lift_ok & Hr). apply stm_bind_ok in Hr as (s4 & u4 & [-> _]%lift_ok & Hr).
  apply stm_bind_ok in Hr as (s5 & u5 & Hi%create_evolves & [= <- _]). done.
Qed.
Lemma filter_local {A} (p q : A -> bool) l :
  Forall (fun x => p x = q x) l -> filter (fun x => p x = true) l = filter (fun x => q x = true) l.
Proof. induction 1 as [|x l Hx _ IH]; [done|]. rewrite !filter_cons, IH, Hx. done. Qed.
Lemma update_rfcs_ext hit hit' f d :
  (forall id r, rfcs d !! id = Some r -> hit id r = hit' id r) -> update_rfcs hit f d = update_rfcs hit' f d.
Proof.
  intros Hh. unfold update_rfcs. cbv zeta.
  assert (hits hit (rfcs d) = hits hit' (rfcs d)) as ->.
  { apply (filter_local (fun kv => hit kv.1 kv.2) (fun kv => hit' kv.1 kv.2)), Forall_forall.
    intros [id r] Hin%elem_of_map_to_list. by apply Hh. }
  assert (updated hit f (rfcs d) = updated hit' f (rfcs d)) as ->; [|done].
  apply map_eq. intros id. rewrite !lookup_updated. destruct (rfcs d !! id) as [r|] eqn:E; [|done]. simpl. by rewrite (Hh id r E).
Qed.
Lemma customer_at_eq d id r customer :
  rfcs d !! id = Some r ->
  set_rfc_customer_at clock id (rf_revision r) customer d = set_rfc_customer (now clock) id (Some customer) d.
Proof.
  intros Hr. apply update_rfcs_ext. intros id' r' Hr'. destruct (String.eqb_spec id' id) as [->|]; [|done].
  simplify_eq. by rewrite Z.eqb_refl.
Qed.
Lemma reconciled_ok id customer rows u :
  foldM (reconcile_member id customer) u rows = Ok tt ->
  Forall (fun kv : string * RfcRow => kv.1 = id \/ rf_customer_org_id kv.2 = None \/ rf_customer_org_id kv.2 = Some customer) rows.
Proof.
  revert u. induction rows as [|[m r] rows IH]; intros u; [by constructor|]. simpl. intros (v & Hv & Hrest)%bind_ok.
  constructor; [|by eapply IH]. unfold reconcile_member in Hv. simpl in Hv. apply bind_ok in Hv as (m' & [-> _]%require_uuid4_ok & Hv).
  simpl in *. destruct (rf_customer_org_id r) as [c|]; [|by right; left].
  destruct (String.eqb_spec m id) as [->|]; [by left|]. apply bind_ok in Hv as (c' & [-> _]%require_uuid4_ok & Hv%forbid_ok).
  bool_hyps. subst. by right; right.
Qed.
Lemma reconciled_branch_free d id customer :
  foldM (reconcile_member id customer) tt (branch_rows d (governing d id)) = Ok tt -> branch_conflict d id (Some customer) = false.
Proof.
  intros Hf%reconciled_ok. unfold branch_conflict. apply not_true_iff_false. rewrite existsb_exists. intros (kv & Hin & Hc).
  rewrite <-list_elem_of_In in Hin. rewrite Forall_forall in Hf. apply andb_true_iff in Hc as [Hne Hc].
  destruct (Hf kv Hin) as [Heq|[Heq|Heq]]; rewrite Heq in *; [by rewrite String.eqb_refl in Hne|done|].
  by rewrite bool_decide_eq_true_2 in Hc.
Qed.
Lemma review_customer_evolves rfc_id target expected token command reason review a d d' x :
  set_customer_from_review fresh clock rfc_id target expected token command reason review a d = (d', Ok x) -> evolves d d'.
Proof.
  unfold set_customer_from_review. cbv zeta. intros (s & d0 & [= <- <-] & Hr)%stm_bind_ok.
  apply stm_bind_ok in Hr as (s1 & id & [-> _]%lift_ok & Hr). apply stm_bind_ok in Hr as (s2 & customer & [-> _]%lift_ok & Hr).
  apply stm_bind_ok in Hr as (s3 & t & [-> _]%lift_ok & Hr). apply stm_bind_ok in Hr as (s4 & u4 & [-> _]%lift_ok & Hr).
  destruct (rfcs d !! id) as [r|] eqn:Er; [|by apply lift_ok in Hr as [_ Hr]].
  apply stm_bind_ok in Hr as (s5 & prior & [-> _]%lift_ok & Hr). apply stm_bind_ok in Hr as (s6 & ex & [-> _]%lift_ok & Hr).
  apply stm_bind_ok in Hr as (s7 & u7 & [-> _]%lift_ok & Hr). apply stm_bind_ok in Hr as (s8 & u8 & [-> _]%lift_ok & Hr).
  apply stm_bind_ok in Hr as (s9 & root & [-> [-> _]%require_uuid4_ok]%lift_ok & Hr).
  apply stm_bind_ok in Hr as (s10 & [] & [-> Hf%reconciled_branch_free]%lift_ok & Hr).
  apply stm_bind_ok in Hr as (s11 & k & Hs & Hr). rewrite (customer_at_eq d id r customer Er) in Hs.
  apply stm_bind_ok in Hr as (s12 & u12 & [-> _]%lift_ok & [= <- _]). by eapply customer_evolves.
Qed.
Lemma review_link_evolves sr rfc token command reason a d d' x :
  link_sr_from_review fresh clock sr rfc token command reason a d = (d', Ok x) -> evolves d d'.
Proof.
  unfold link_sr_from_review. cbv zeta. intros (s & d0 & [= <- <-] & Hr)%stm_bind_ok.
  apply stm_bind_ok in Hr as (s1 & c & [-> _]%lift_ok & Hr). apply stm_bind_ok in Hr as (s2 & u2 & [-> _]%lift_ok & Hr).
  apply stm_bind_ok in Hr as (s3 & u3 & [-> _]%lift_ok & Hr). apply stm_bind_ok in Hr as (s4 & u4 & Hi & Hr).
  apply stm_bind_ok in Hr as (s5 & k5 & Hs & Hr). apply stm_bind_ok in Hr as (s6 & k6 & Ht & Hr).
  apply stm_bind_ok in Hr as (s7 & u7 & [-> Hk%forbid_ok]%lift_ok & [= <- _]).
  refine (link_evolves fresh clock command (lx_service_request_id c) (lx_governing_root_rfc_id c) (lx_sr_revision c)
    (lx_rfc_revision c) d s6 tt _). unfold link_writes, touch_both.
  rewrite (stm_then _ _ _ _ _ Hi), (stm_then _ _ _ _ _ Hs), (stm_then _ _ _ _ _ Ht). unfold lift, forbid. simpl. by rewrite Hk.
Qed.
End runs.

(** * The commands *)
Inductive ticket_command :=
| CreateRfc (rfc_no creation_context : string) (customer : option string)
| SetCustomer (rfc : string) (base : Z) (customer : option string) (reason : string) (review : option string)
| AddSubordinate (parent child : string) (base : list (string * Z)) (reason : string) (review : option string)
| ReparentSubordinate (child new_parent : string) (base : list (string * Z)) (reason : string) (review : option string)
| DetachSubordinate (child : string) (base : list (string * Z)) (reason : string) (review : option string)
| LinkDevice (ticket_type ticket device : string) (base : Z) (reason : option string)
| UnlinkDevice (ticket_type ticket device : string) (base : Z) (reason : option string)
| LinkRequest (sr rfc : string) (sr_base rfc_base : Z) (origin review : option string)
| UnlinkRequest (sr rfc : string) (sr_base rfc_base : Z) (reason : string)
(** inside the unit of work of an accepted import: *)
| ImportRfc (rfc_no token : string)
| ImportCustomer (rfc customer : string) (expected : option string) (token : string) (reason review : option string)
| ImportLink (sr rfc token : string) (reason : option string).
(** The database a command leaves, also when it raises. *)
Definition after {A} (m : ticketLM A) (db : LedgerDb TicketDb) : LedgerDb TicketDb := (m db).1.
Definition owner {A} (m : ticketM A) : ticketLM A := in_uow (on_domain m).
Definition run_command `{Sha256, FloatText} (fresh : place -> string) (clock : place -> Z) (audit : AuditRegistry)
    (audit_clock : string -> Z) (history : RfcHistoryRiskProvider) (command : string) (a : actor) (c : ticket_command)
    : LedgerDb TicketDb -> LedgerDb TicketDb :=
  match c with
  | CreateRfc no context customer =>
      after (create_or_adopt_identity fresh clock audit audit_clock command no context customer a)
  | SetCustomer rfc base customer reason review =>
      after (set_customer fresh clock audit audit_clock command rfc base customer reason review a)
  | AddSubordinate parent child base reason review =>
      after (add_subordinate fresh clock audit audit_clock command parent child base reason review a)
  | ReparentSubordinate child new base reason review =>
      after (reparent_subordinate fresh clock audit audit_clock history command child new base reason review a)
  | DetachSubordinate child base reason review =>
      after (detach_subordinate fresh clock audit audit_clock history command child base reason review a)
  | LinkDevice t ticket device base reason =>
      after (link_device fresh clock audit audit_clock command t ticket device base reason a)
  | UnlinkDevice t ticket device base reason =>
      after (unlink_device fresh clock audit audit_clock command t ticket device base reason a)
  | LinkRequest sr rfc sr_base rfc_base origin review =>
      after (link_service_request fresh clock audit audit_clock command sr rfc sr_base rfc_base origin review a)
  | UnlinkRequest sr rfc sr_base rfc_base reason =>
      after (unlink_service_request fresh clock audit audit_clock command sr rfc sr_base rfc_base reason a)
  | ImportRfc no token => after (owner (create_or_adopt_from_source fresh clock no token command a))
  | ImportCustomer rfc customer expected token reason review =>
      after (owner (set_customer_from_review fresh clock rfc customer expected token command reason review a))
  | ImportLink sr rfc token reason => after (owner (link_sr_from_review fresh clock sr rfc token command reason a))
  end.
Inductive ticket_run `{Sha256, FloatText} : LedgerDb TicketDb -> LedgerDb TicketDb -> Prop :=
| ticket_run_intro fresh clock audit audit_clock history command a c db :
    ticket_run db (run_command fresh clock audit audit_clock history command a c db).
Lemma after_evolves {A} (m : ticketLM A) db :
  (forall db' res, m db = (db', res) -> ledger_evolves db db') -> ledger_evolves db (after m db).
Proof. intros Hm. unfold after. destruct (m db) as [db' res] eqn:E. by eapply Hm. Qed.
Lemma owner_evolves {A} (m : ticketM A) db :
  (forall d d' x, m d = (d', Ok x) -> evolves d d') -> ledger_evolves db (after (owner m) db).
Proof.
  intros Hm. apply after_evolves. intros db' res [(x & _ & (d & Hd%Hm & ->)%on_domain_ok)|(e & _ & ->)]%in_uow_ok; [done|].
  apply ledger_evolves_refl.
Qed.
Lemma ticket_run_evolves `{Sha256, FloatText} db db' : ticket_run db db' -> ledger_evolves db db'.
Proof.
  intros [fresh clock audit audit_clock history command a c db0].
  destruct c; simpl; [apply after_evolves; intros db1 res Hr..|idtac|idtac|idtac].
  - unfold create_or_adopt_identity in Hr. do 2 reads Hr. eapply execute_evolves; [apply acts_create| |exact Hr]. done.
  - unfold set_customer in Hr. do 2 reads Hr. eapply run_ticket_evolves; [apply acts_customer|exact Hr].
  - unfold add_subordinate in Hr. do 4 reads Hr. eapply run_hierarchy_evolves; [apply acts_add|exact Hr].
  - unfold reparent_subordinate in Hr. do 5 reads Hr. eapply run_hierarchy_evolves; [apply acts_reparent|exact Hr].
  - unfold detach_subordinate in Hr. do 4 reads Hr. eapply run_hierarchy_evolves; [apply acts_detach|exact Hr].
  - unfold link_device in Hr. do 2 reads Hr. eapply run_ticket_evolves; [apply acts_device_link|exact Hr].
  - unfold unlink_device in Hr. do 2 reads Hr. eapply run_ticket_evolves; [apply acts_device_unlink|exact Hr].
  - eapply run_ticket_evolves; [apply acts_link|exact Hr].
  - unfold unlink_service_request in Hr. reads Hr. eapply run_ticket_evolves; [apply acts_unlink|exact Hr].
  - apply owner_evolves. intros d d' x. apply source_identity_evolves.
  - apply owner_evolves. intros d d' x. apply review_customer_evolves.
  - apply owner_evolves. intros d d' x. apply review_link_evolves.
Qed.
Lemma ticket_runs_evolve `{Sha256, FloatText} db db' : star ticket_run db db' -> ledger_evolves db db'.
Proof.
  intros Hrun. induction Hrun as [|a b c Hab%ticket_run_evolves _ IH]; [apply ledger_evolves_refl|by eapply evolves_trans].
Qed.
Lemma forest_runs_ok f f' : forest_ok f -> star forest_step f f' -> forest_ok f'.
Proof. intros Hok Hrun. apply (star_inv forest_step forest_ok f f'); [|done|done]. intros g g'. apply forest_step_ok. Qed.

(** C9.  The RFC commands and import owners refine the abstract
    hierarchy: along every sequence of them the hierarchy takes only the steps
    of [forest_step]; it stays a two-level forest whose parents and children
    never have different known Customers, with Service Requests linked to roots
    only; and edges and links are only appended or closed once. *)
Theorem ticket_commands_refine `{Sha256, FloatText} db db' :
  tables_ok (domain_state db) -> forest_ok (forest_of (domain_state db)) -> star ticket_run db db' ->
  tables_ok (domain_state db') /\ forest_ok (forest_of (domain_state db')) /\
  star forest_step (forest_of (domain_state db)) (forest_of (domain_state db')) /\
  edges_kept (rfc_hierarchy_edges (domain_state db)) (rfc_hierarchy_edges (domain_state db')) /\
  links_kept (sr_rfc_links (domain_state db)) (sr_rfc_links (domain_state db')).
Proof.
  intros Hok Hf Hrun. destruct (ticket_runs_evolve _ _ Hrun Hok) as [Hok' Hs He Hl _ _]. split_and!; try done. by eapply forest_runs_ok.
Qed.
(** C11.  The revision of an RFC guards it: along every sequence of
    commands it never goes back, the identity of the RFC stays, and whenever two
    states show the same revision, the RFC's row, its parent, its subordinates
    and its direct links are the same in both. *)
Theorem rfc_revision_guards `{Sha256, FloatText} db db' id r :
  tables_ok (domain_state db) -> star ticket_run db db' -> rfcs (domain_state db) !! id = Some r ->
  exists r', rfcs (domain_state db') !! id = Some r' /\ rf_rfc_no r' = rf_rfc_no r /\ rf_revision r <= rf_revision r' /\
    (rf_revision r' = rf_revision r ->
     r' = r /\ same_place (forest_of (domain_state db)) (forest_of (domain_state db')) id).
Proof. intros Hok Hrun. destruct (ticket_runs_evolve _ _ Hrun Hok) as [_ _ _ _ Hg _]. apply Hg. Qed.
