(* ===== verification/TicketReads.v ===== *)
(** Reading branches of a sound hierarchy: the streamed fingerprint, the page
    and its details. *)
From S2P Require Import Prelude StrictJson Identifiers JsonText JsonSorted AuditLedger Tables TicketTables.
From S2P Require Import RfcIdentity TicketForest TicketEffects.
#[local] Arguments String.append : simpl never.

(** * The streamed fingerprint *)
Lemma object_starts kvs t : json_dumps (JObj kvs) = Some t -> starts_ascii t.
Proof. simpl. destruct (mapM _ kvs); [|done]. by intros [= <-]. Qed.
Definition unprintable {A} : result A := raise (ValidationError "value cannot be canonicalized as JSON").
Lemma canonical_eq v :
  canonical_json_bytes v = match json_dumps v with Some t => if utf8_encodable t then Ok t else unprintable | None => unprintable end.
Proof. done. Qed.
(** Printing objects one after the other. *)
Lemma traverse_canonical (l : list (list (string * json))) :
  traverse (fun kvs => canonical_json_bytes (JObj kvs)) l =
  match mapM (fun kvs => json_dumps (JObj kvs)) l with
  | Some ts => if forallb utf8_encodable ts then Ok ts else unprintable
  | None => unprintable end.
Proof.
  induction l as [|kvs l IH]; [done|]. cbn [traverse mapM]. rewrite canonical_eq, IH.
  destruct (json_dumps (JObj kvs)) as [t|]; [|done]. cbn [mbind option_bind].
  destruct (mapM _ l) as [ts|]; cbn [mbind option_bind mret option_ret forallb]; destruct (utf8_encodable t); try done; simpl;
    by destruct (forallb _ ts).
Qed.
Lemma traverse_map {A B C} (f : B -> result C) (g : A -> B) l : traverse f (map g l) = traverse (fun x => f (g x)) l.
Proof. induction l as [|x l IH]; [done|]. simpl. by rewrite IH. Qed.
Lemma traverse_eq {A B} (f g : A -> result B) l : (forall x, x ∈ l -> f x = g x) -> traverse f l = traverse g l.
Proof.
  induction l as [|x l IH]; intros Hl; [done|]. simpl. rewrite (Hl x) by left. rewrite IH; [done|]. intros y Hy. apply Hl. by right.
Qed.
Lemma mapM_starts l ts : mapM (fun kvs => json_dumps (JObj kvs)) l = Some ts -> Forall starts_ascii ts.
Proof.
  revert ts. induction l as [|kvs l IH]; intros ts; [by intros [= <-]|]. cbn [mapM].
  intros (t & Ht & (ts' & Hts & [= <-])%bind_Some)%bind_Some. constructor; [by eapply object_starts|by apply IH].
Qed.
Lemma mapM_objects (l : list (list (string * json))) : mapM json_dumps (map JObj l) = mapM (fun kvs => json_dumps (JObj kvs)) l.
Proof. induction l as [|x l IH]; [done|]. cbn [mapM map]. by rewrite IH. Qed.
Definition object_fields (v : json) : list (string * json) := match v with JObj kvs => kvs | _ => [] end.
Definition child_json (c : string * (string * RfcRow)) : json := child_object c.1 c.2.1 c.2.2.
(** What the fingerprint is the digest of. *)
Definition branch_document (d : TicketDb) (root : string) (r : RfcRow) : json := JObj [
  ("schema", JStr _BRANCH_SCHEMA); ("root", root_object root r);
  ("subordinates", JArr (map child_json (joined_children d root)))].
Definition streamed (head_ : string) (children_ : list string) : string :=
  "{" +:+ json_string "root" +:+ ":" +:+ head_ +:+ "," +:+ json_string "schema" +:+ ":"
    +:+ json_string _BRANCH_SCHEMA +:+ "," +:+ json_string "subordinates" +:+ ":["
    +:+ String.concat "," children_ +:+ "]}".
Lemma streamed_text h s ts :
  "{" +:+ String.concat "," (map (fun kt : string * string => json_string kt.1 +:+ ":" +:+ kt.2)
      (py_sorted fst [("schema", s); ("root", h); ("subordinates", "[" +:+ String.concat "," ts +:+ "]")])) +:+ "}"
  = "{" +:+ json_string "root" +:+ ":" +:+ h +:+ "," +:+ json_string "schema" +:+ ":"
    +:+ s +:+ "," +:+ json_string "subordinates" +:+ ":[" +:+ String.concat "," ts +:+ "]}".
Proof.
  change (py_sorted fst _) with [("root", h); ("schema", s); ("subordinates", "[" +:+ String.concat "," ts +:+ "]")].
  cbn [map fst snd]. rewrite !concat_cons2. cbn [String.concat]. by rewrite !sapp_assoc.
Qed.
Lemma document_text d root r :
  json_dumps (branch_document d root r) = h ← json_dumps (root_object root r);
    ts ← mapM (fun kvs => json_dumps (JObj kvs)) (map (fun c => object_fields (child_json c)) (joined_children d root));
    Some (streamed h ts).
Proof.
  unfold branch_document. rewrite dumps_object. cbn [mapM fst snd]. rewrite dumps_array.
  replace (map child_json (joined_children d root)) with (map JObj (map (fun c => object_fields (child_json c)) (joined_children d root)))
    by (rewrite map_map; by apply map_ext).
  rewrite mapM_objects. change (json_dumps (JStr _BRANCH_SCHEMA)) with (Some (json_string _BRANCH_SCHEMA)).
  destruct (json_dumps (root_object root r)) as [h|]; [|done].
  destruct (mapM _ _) as [ts|]; [|done]. cbn [mbind option_bind mret option_ret]. f_equal. apply streamed_text.
Qed.
Lemma streamed_encodable h ts :
  starts_ascii h -> Forall starts_ascii ts -> utf8_encodable (streamed h ts) = utf8_encodable h && forallb utf8_encodable ts.
Proof.
  intros Hh Hts. rewrite <-(concat_encodable ts Hts). unfold streamed. generalize (String.concat "," ts) as c. intros c.
  set (mid := "," +:+ json_string "schema" +:+ ":" +:+ json_string _BRANCH_SCHEMA +:+ "," +:+ json_string "subordinates" +:+ ":[").
  replace ("," +:+ json_string "schema" +:+ _) with (mid +:+ (c +:+ "]}")) by (unfold mid; by rewrite !sapp_assoc).
  do 3 rewrite encodable_prefix by (vm_compute; reflexivity).
  rewrite encodable_app by done. f_equal. rewrite encodable_prefix by (vm_compute; reflexivity).
  rewrite encodable_app by (vm_compute; reflexivity). apply andb_true_r.
Qed.
Section reads.
Context `{Sha256}.
(** Every known Customer below the root is its own. *)
Definition branch_agrees (d : TicketDb) (root : string) (r : RfcRow) : Prop :=
  forall c, c ∈ joined_children d root -> customers_differ (rf_customer_org_id r) (rf_customer_org_id c.2.2) = false.
Lemma fingerprint_canonical d root r :
  _root_authority d root = Ok r -> branch_agrees d root r ->
  branch_fingerprint d root = sha256_canonical_json (branch_document d root r).
Proof.
  intros Hr Ha. unfold branch_fingerprint, sha256_canonical_json. rewrite Hr. cbn [mbind result_bind].
  rewrite (traverse_eq _ (fun c => canonical_json_bytes (JObj (object_fields (child_json c))))).
  2: { intros [e [id row]] Hin. apply Ha in Hin. simpl in Hin. unfold child_bytes. by rewrite Hin. }
  rewrite <-(traverse_map (fun kvs => canonical_json_bytes (JObj kvs)) (fun c => object_fields (child_json c))), traverse_canonical.
  rewrite !canonical_eq, document_text. fold (streamed).
  destruct (json_dumps (root_object root r)) as [h|] eqn:Eh; [|done]. cbn [mbind option_bind].
  destruct (mapM _ _) as [ts|] eqn:Ets; cbn [mbind option_bind result_bind].
  - rewrite streamed_encodable by (eapply object_starts, Eh || eapply mapM_starts, Ets).
    destruct (utf8_encodable h); [|done]. by destruct (forallb _ ts).
  - by destruct (utf8_encodable h).
Qed.

(** * The children of a root *)
Record sound (d : TicketDb) : Prop := { so_tables : tables_ok d; so_forest : forest_ok (forest_of d) }.
Lemma child_edge_parent d root e : sound d -> e ∈ child_edges d root -> fo_parent (forest_of d) !! eg_child_rfc_id e.2 = Some root.
Proof.
  intros [Hok _] He. destruct e as [id e]. apply rows_where_elem in He as [He Ha]. bool_hyps. apply parent_lookup; [done|]. by exists id, e.
Qed.
Lemma child_ids_elem d root c : sound d -> c ∈ child_ids d root <-> fo_parent (forest_of d) !! c = Some root.
Proof.
  intros Hs. unfold child_ids. rewrite elem_of_py_sorted, list_elem_of_fmap. split.
  - intros (e & -> & He). by apply child_edge_parent.
  - intros (id & e & He & Ha & Hc & Hp)%parent_lookup; [|apply Hs]. exists (id, e). split; [done|]. apply rows_where_elem.
    by rewrite He, Ha, Hp, String.eqb_refl.
Qed.
Lemma child_ids_NoDup d root : sound d -> NoDup (child_ids d root).
Proof.
  intros [Hok _]. unfold child_ids. apply py_sorted_NoDup. eapply (NoDup_fmap_2_strong (fun e : string * EdgeRow => eg_child_rfc_id e.2)).
  - intros [i e] [j g] [He Ha]%rows_where_elem [Hg Hb]%rows_where_elem Hc. simpl in Hc. bool_hyps.
    pose proof (to_parents d Hok i e j g He Hg ltac:(done) ltac:(done) Hc) as ->. congruence.
  - by eapply NoDup_fmap_1, (rows_where_NoDup _ (rfc_hierarchy_edges d)).
Qed.
Lemma child_ids_sorted d root : StronglySorted (le_key (fun s => s)) (child_ids d root).
Proof. apply py_sorted_sorted. Qed.
Lemma child_ids_count d root : count (child_ids d root) = count (child_edges d root).
Proof. unfold count, child_ids. by rewrite py_sorted_length, length_map. Qed.
Lemma child_row d root c : sound d -> c ∈ child_ids d root -> is_Some (rfcs d !! c).
Proof. intros Hs Hc%child_ids_elem; [|done]. apply known_rfc. apply (be_child _ _ _ (so_forest d Hs c root Hc)). Qed.
Lemma joined_agrees d root r : sound d -> rfcs d !! root = Some r -> branch_agrees d root r.
Proof.
  intros Hs Hr c Hc. unfold joined_children in Hc. rewrite elem_of_py_sorted, list_elem_of_omap in Hc.
  destruct Hc as (e & He & Hc). apply bind_Some in Hc as (row & Hrow & [= <-]). simpl.
  pose proof (be_customers _ _ _ (so_forest d Hs _ _ (child_edge_parent _ _ _ Hs He))) as Hd.
  by rewrite (customer_row _ _ _ Hr), (customer_row _ _ _ Hrow) in Hd.
Qed.

(** * One page of them *)
Lemma sorted_keys {A} (key : A -> string) (P : A -> Prop) `{forall x, Decision (P x)} l :
  StronglySorted (le_key key) l -> StronglySorted (le_key (fun s => s)) (map key (filter P l)).
Proof.
  induction 1 as [|x l _ IH Hx]; [constructor|]. rewrite filter_cons. case_decide; [|done]. simpl. constructor; [done|].
  rewrite Forall_forall in Hx. apply Forall_forall. intros y (z & -> & [_ Hz]%list_elem_of_filter)%list_elem_of_fmap.
  by apply (Hx z).
Qed.
Lemma sorted_sublist {A} (R : A -> A -> Prop) l k : l `sublist_of` k -> StronglySorted R k -> StronglySorted R l.
Proof.
  induction 1 as [|x l k Hlk IH|x l k _ IH]; intros Hk; [done| |].
  - apply StronglySorted_inv in Hk as [Hk Hx]. constructor; [by apply IH|]. rewrite Forall_forall in Hx.
    apply Forall_forall. intros y Hy. apply Hx. by eapply elem_of_sublist.
  - apply StronglySorted_inv in Hk as [Hk _]. by apply IH.
Qed.
Lemma page_rows_elem d ids kv : kv ∈ page_rows d ids <-> rfcs d !! kv.1 = Some kv.2 /\ kv.1 ∈ ids.
Proof.
  unfold page_rows. rewrite list_elem_of_filter, elem_of_py_sorted. destruct kv as [id r]. rewrite elem_of_map_to_list. simpl.
  rewrite existsb_exists. setoid_rewrite String.eqb_eq. setoid_rewrite <-list_elem_of_In. naive_solver.
Qed.
Lemma page_rows_ids d ids :
  StronglySorted (le_key (fun s => s)) ids -> NoDup ids -> (forall x, x ∈ ids -> is_Some (rfcs d !! x)) ->
  map fst (page_rows d ids) = ids.
Proof.
  intros Hs Hn Hr. apply (StronglySorted_unique_strong (le_key (fun s => s))); [|apply sorted_keys, py_sorted_sorted|done|].
  - intros x y _ _. apply leb_antisym.
  - apply NoDup_Permutation; [|done|].
    + unfold page_rows. apply NoDup_fmap_filter.
      rewrite (py_sorted_perm (fun kv : string * RfcRow => kv.1) (map_to_list (rfcs d))). apply NoDup_fst_map_to_list.
    + intros x. rewrite list_elem_of_fmap. split.
      * by intros (kv & -> & [_ Hx]%page_rows_elem).
      * intros Hx. destruct (Hr x Hx) as [r Er]. exists (x, r). split; [done|]. by apply page_rows_elem.
Qed.
Definition row_of (d : TicketDb) (id : string) : option (string * RfcRow) := pair id <$> rfcs d !! id.
Lemma rows_of_ids d l : Forall (fun kv : string * RfcRow => rfcs d !! kv.1 = Some kv.2) l -> omap (row_of d) (map fst l) = l.
Proof. induction 1 as [|[id r] l Hr _ IH]; [done|].
  csimpl in *. unfold row_of at 1. rewrite Hr. csimpl. by rewrite IH.
Qed.
Definition subordinate_of (d : TicketDb) (kv : string * RfcRow) : RfcDetail := detail_of d kv.1 kv.2 "subordinate" 0.
(** The details of these subordinates. *)
Definition details_of (d : TicketDb) (ids : list string) : list RfcDetail := map (subordinate_of d) (omap (row_of d) ids).
Lemma single_parent d c p : sound d -> fo_parent (forest_of d) !! c = Some p -> count (parent_edges d c) = 1.
Proof.
  intros [Hok _] (id & e & He & Ha & Hc & _)%parent_lookup; [|done].
  assert ((id, e) ∈ parent_edges d c) as Hin by (apply rows_where_elem; by rewrite He, Ha, Hc, String.eqb_refl).
  assert (forall x, x ∈ parent_edges d c -> x = (id, e)) as Hall.
  { intros [i g] [Hg Hb]%rows_where_elem. bool_hyps. pose proof (to_parents d Hok i g id e Hg He ltac:(done) Ha ltac:(congruence)) as ->.
    congruence. }
  assert (NoDup (parent_edges d c)) as Hnd by by eapply NoDup_fmap_1, (rows_where_NoDup _ (rfc_hierarchy_edges d)).
  destruct (parent_edges d c) as [|x [|y l]]; [by apply elem_of_nil in Hin|done|].
  apply NoDup_cons in Hnd as [Hx _]. destruct Hx. rewrite (Hall x), (Hall y); set_solver.
Qed.
Lemma no_children d c : tables_ok d -> count (child_edges d c) = 0 <-> forall x, fo_parent (forest_of d) !! x <> Some c.
Proof.
  intros Hok. rewrite <-has_children_false by done. unfold has_children, count. destruct (child_edges d c); simpl; [done|].
  split; [lia|done].
Qed.
Lemma subordinate_row d c p r :
  sound d -> fo_parent (forest_of d) !! c = Some p -> subordinate_detail d (c, r) = Ok (subordinate_of d (c, r)).
Proof.
  intros Hs Hc. unfold subordinate_detail. rewrite (single_parent d c p) by done.
  assert (count (child_edges d c) = 0) as ->; [|done]. apply no_children; [apply Hs|]. intros x Hx.
  pose proof (be_root _ _ _ (so_forest d Hs x c Hx)). congruence.
Qed.
Lemma resolved_customer d id r : tables_ok d -> rfcs d !! id = Some r -> unresolved_customer d (rf_customer_org_id r) = false.
Proof.
  intros Hok Hr. pose proof (to_rows d Hok id r Hr) as Hrow. unfold rfc_row_ok in Hrow. bool_hyps.
  unfold unresolved_customer, customer_state. destruct (rf_customer_org_id r) as [c|]; [|done]. simpl in *.
  match goal with Hk : known _ c = true |- _ => apply known_spec in Hk as [x Hx] end. by rewrite Hx.
Qed.
Lemma subordinates_exact d root ids :
  sound d -> ids `sublist_of` child_ids d root -> count ids <= 500 -> get_subordinates d ids = Ok (details_of d ids).
Proof.
  intros Hs Hsub Hlen.
  assert (NoDup ids) as Hnd by (eapply sublist_NoDup; [by apply child_ids_NoDup|exact Hsub]).
  assert (StronglySorted (le_key (fun s => s)) ids) as Hsort by (eapply sorted_sublist; [exact Hsub|apply child_ids_sorted]).
  assert (forall x, x ∈ ids -> fo_parent (forest_of d) !! x = Some root) as Hin.
  { intros x Hx. apply child_ids_elem; [done|]. by eapply elem_of_sublist. }
  assert (map fst (page_rows d ids) = ids) as Hrows.
  { apply page_rows_ids; [done..|]. intros x Hx. eapply child_row; [done|]. by eapply elem_of_sublist. }
  assert (Forall (fun kv : string * RfcRow => rfcs d !! kv.1 = Some kv.2) (page_rows d ids)) as Hall.
  { apply Forall_forall. by intros kv [? _]%page_rows_elem. }
  assert (existsb (fun kv : string * RfcRow => unresolved_customer d (rf_customer_org_id kv.2)) (page_rows d ids) = false) as Hcust.
  { apply not_true_iff_false. rewrite existsb_exists. intros (kv & Hkv & Hu). rewrite <-list_elem_of_In in Hkv.
    apply page_rows_elem in Hkv as [Hkv _]. by rewrite (resolved_customer d kv.1) in Hu by (done || apply Hs). }
  assert (get_subordinates d ids = traverse (subordinate_detail d) (page_rows d ids)) as ->.
  { destruct ids as [|x ids]; [by destruct (page_rows d [])|]. unfold get_subordinates. cbv zeta.
    replace (500 <? count (x :: ids)) with false by lia.
    rewrite (py_sorted_id (fun s => s)) by done. rewrite Hrows, Hcust, !bool_decide_eq_true_2 by done. done. }
  unfold details_of. rewrite <-Hrows at 2. rewrite rows_of_ids by done. clear Hcust Hsort Hnd Hlen Hsub.
  assert (forall kv, kv ∈ page_rows d ids -> fo_parent (forest_of d) !! kv.1 = Some root) as Hp.
  { intros kv [_ Hkv]%page_rows_elem. by apply Hin. }
  clear Hrows Hall Hin. induction (page_rows d ids) as [|[c r] rows IH]; [done|]. cbn [traverse map].
  rewrite (subordinate_row d c root) by (done || exact (Hp (c, r) ltac:(left))). rewrite IH; [done|].
  intros kv Hkv. apply Hp. by right.
Qed.

(** * A branch *)
Definition root_detail (d : TicketDb) (root : string) (r : RfcRow) : RfcDetail :=
  detail_of d root r (if count (child_ids d root) =? 0 then "standalone" else "root") (count (child_ids d root)).
Lemma root_exact d root r : sound d -> _root_authority d root = Ok r -> get_rfc d (Some root) None = Ok (root_detail d root r).
Proof.
  intros Hs. unfold _root_authority, get_rfc, _lookup. destruct (rfcs d !! root) as [r'|] eqn:Er; [|done].
  intros (? & Hp%forbid_ok & [= ->])%bind_ok. cbn [mbind result_bind fmap option_fmap option_map]. cbv zeta.
  rewrite Hp, (resolved_customer d root r), <-child_ids_count by (done || apply Hs). done.
Qed.
Definition page_after (d : TicketDb) (root : string) (after : option string) : list string :=
  match after with None => child_ids d root | Some c => filter (fun s => ltb c s = true) (child_ids d root) end.
Lemma page_after_sublist d root after : page_after d root after `sublist_of` child_ids d root.
Proof. destruct after; [apply sublist_filter|done]. Qed.
Definition continuation_of (root : string) (limit : Z) (rows : list string) : result (option json) :=
  match limit <? count rows, last (take (Z.to_nat limit) rows) with
  | true, Some c => body ← _cursor_body root c; Ok (Some body)
  | _, _ => Ok None
  end.
Lemma valid_limit limit n : _validate_limit limit = Ok n -> n = limit /\ 1 <= limit <= 500.
Proof. unfold _validate_limit. intros (? & Hl%forbid_ok & [= <-])%bind_ok. unfold _MAX_LIMIT in *. lia. Qed.
Lemma count_take (l : list string) n : 0 <= n -> count (take (Z.to_nat n) l) = Z.min n (count l).
Proof. intros Hn. unfold count. rewrite length_take. lia. Qed.
Lemma branch_exact d root cursor limit :
  sound d ->
  get_branch d root cursor limit =
    (_ ← _validate_limit limit;
     after ← _validate_cursor cursor root;
     r ← _root_authority d root;
     fingerprint ← sha256_canonical_json (branch_document d root r);
     let rows := page_after d root after in
     continuation ← continuation_of root limit rows;
     Ok (MkBranch (root_detail d root r) (details_of d (take (Z.to_nat limit) rows)) continuation fingerprint)).
Proof.
  intros Hs. unfold get_branch. destruct (_validate_limit limit) as [n|] eqn:El; [|done].
  apply valid_limit in El as [-> Hl]. cbn [mbind result_bind].
  destruct (_validate_cursor cursor root) as [after|]; [|done]. cbn [mbind result_bind].
  destruct (_root_authority d root) as [r|] eqn:Er; [|done]. cbn [mbind result_bind]. cbv zeta.
  assert (rfcs d !! root = Some r) as Hr.
  { unfold _root_authority in Er. destruct (rfcs d !! root); [|done]. by apply bind_ok in Er as (? & _ & [= ->]). }
  rewrite (fingerprint_canonical d root r) by (done || by apply joined_agrees).
  destruct (sha256_canonical_json _) as [fp|]; [|done]. cbn [mbind result_bind].
  rewrite (root_exact d root r) by done. cbn [mbind result_bind].
  assert (String.eqb (dt_hierarchy_role (root_detail d root r)) "subordinate" = false) as ->.
  { unfold root_detail. simpl. by destruct (_ =? 0). }
  fold (page_after d root after). set (rows := page_after d root after).
  rewrite take_take, Nat.min_l by lia. cbn [forbid mbind result_bind].
  rewrite (subordinates_exact d root).
  - cbn [mbind result_bind]. unfold continuation_of. rewrite count_take by lia.
    replace (limit <? Z.min (limit + 1) (count rows)) with (limit <? count rows) by lia. done.
  - done.
  - transitivity rows; [apply sublist_take|apply page_after_sublist].
  - rewrite count_take by lia. lia.
Qed.

(** * Pages *)
Lemma fields_exact fields names : map fst fields = names -> exact_fields fields names = true.
Proof. intros <-. unfold exact_fields. by rewrite bool_decide_eq_true_2. Qed.
Lemma cursor_roundtrip root c body :
  _cursor_body root c = Ok body -> c <> EmptyString -> _validate_cursor body root = Ok (Some c).
Proof.
  unfold _cursor_body. intros (f & Hf & [= <-])%bind_ok Hc. unfold _validate_cursor. rewrite fields_exact by done.
  cbn [negb forbid mbind result_bind]. change (equals_one _) with true. change (equals_text _QUERY_ID _) with true.
  change (equals_text _SORT_REGISTRY_ID _) with true. change (equals_text _NULL_ORDER _) with true.
  cbn [negb orb forbid mbind result_bind]. rewrite Hf. cbn [mbind result_bind]. change (dget "filter_fingerprint" _) with (Some (JStr f)).
  cbn [equals_text]. rewrite String.eqb_refl. change (dget "last_key_tuple" _) with (Some (JArr [JStr c])).
  cbn [negb forbid mbind result_bind]. apply String.eqb_neq in Hc as ->. done.
Qed.
(** Following the continuations from a cursor. *)
Fixpoint read_pages (fuel : nat) (d : TicketDb) (root : string) (cursor : json) (limit : Z) : result (list RfcBranch) :=
  match fuel with
  | O => raise (IntegrityFailure "out of fuel")
  | S fuel =>
      b ← get_branch d root cursor limit;
      match br_continuation b with
      | None => Ok [b]
      | Some c => rest ← read_pages fuel d root c limit; Ok (b :: rest)
      end
  end.
Lemma omap_app' d l k : details_of d (l ++ k) = details_of d l ++ details_of d k.
Proof. unfold details_of. by rewrite omap_app, map_app. Qed.
Lemma last_take (l : list string) n c : last (take n l) = Some c -> exists l', l = l' ++ c :: drop n l.
Proof.
  intros Hl. apply last_Some in Hl as [l' Hl]. exists l'. rewrite <-(take_drop n l) at 1. rewrite Hl.
  by rewrite <-app_assoc.
Qed.
Lemma take_last_short (l : list string) n : (n < length l)%nat -> (0 < n)%nat -> is_Some (last (take n l)).
Proof.
  intros Hn H0. destruct (take n l) as [|x k] eqn:E; [|destruct (last (x :: k)) eqn:E2; [by eexists|by apply last_None in E2]].
  apply (f_equal length) in E. rewrite length_take in E. simpl in E. lia.
Qed.
Section pages.
Context (d : TicketDb) (root : string) (r : RfcRow) (limit : Z) (fp f : string).
Hypothesis Hsound : sound d.
Hypothesis Hids : forall c, c ∈ child_ids d root -> c <> EmptyString.
Hypothesis Hroot : _root_authority d root = Ok r.
Hypothesis Hfp : sha256_canonical_json (branch_document d root r) = Ok fp.
Hypothesis Hlimit : 1 <= limit <= 500.
Lemma limit_ok : _validate_limit limit = Ok limit.
Proof.
  unfold _validate_limit, _MAX_LIMIT. replace (limit <? 1) with false by lia. by replace (500 <? limit) with false by lia.
Qed.
Lemma page_at cursor after :
  _validate_cursor cursor root = Ok after ->
  get_branch d root cursor limit =
    (continuation ← continuation_of root limit (page_after d root after);
     Ok (MkBranch (root_detail d root r) (details_of d (take (Z.to_nat limit) (page_after d root after))) continuation fp)).
Proof. intros Hc. rewrite branch_exact by done. rewrite limit_ok, Hc, Hroot. cbn [mbind result_bind]. by rewrite Hfp. Qed.
Lemma pages_from fuel : forall cursor after pre post,
  (limit < count post -> exists f, _filter_fingerprint root = Ok f) ->
  child_ids d root = pre ++ post -> _validate_cursor cursor root = Ok after -> page_after d root after = post ->
  (length post < fuel)%nat ->
  exists pages, read_pages fuel d root cursor limit = Ok pages /\ concat (map br_subordinates pages) = details_of d post /\
    Forall (fun b => br_branch_fingerprint b = fp /\ br_root b = root_detail d root r) pages.
Proof.
  induction fuel as [|fuel IH]; intros cursor after pre post Hfilter Hall Hc Hpost Hfuel; [lia|].
  cbn [read_pages]. rewrite (page_at cursor after Hc), Hpost. unfold continuation_of.
  destruct (limit <? count post) eqn:El.
  - destruct (take_last_short post (Z.to_nat limit)) as [c Hlast]; [unfold count in *; lia|lia|]. rewrite Hlast.
    destruct (Hfilter ltac:(lia)) as [g Hg].
    assert (exists body, _cursor_body root c = Ok body) as [body Hbody] by (unfold _cursor_body; rewrite Hg; by eexists).
    rewrite Hbody. cbn [mbind result_bind br_continuation]. destruct (last_take _ _ _ Hlast) as [l' El'].
    set (rest := drop (Z.to_nat limit) post) in *.
    assert (child_ids d root = (pre ++ l') ++ c :: rest) as Hall2 by (rewrite Hall, El' at 1; by rewrite <-app_assoc).
    assert (c <> EmptyString) as Hne by (apply Hids; rewrite Hall2; set_solver).
    assert (length rest < length post)%nat by (unfold rest; rewrite length_drop; unfold count in *; lia).
    destruct (IH body (Some c) ((pre ++ l') ++ [c]) rest) as (pages & -> & Hsubs & Hfps).
    + intros _. by exists g.
    + by rewrite <-app_assoc.
    + by apply cursor_roundtrip.
    + simpl. rewrite Hall2. apply filter_after.
      * rewrite <-Hall2. apply child_ids_sorted.
      * rewrite <-Hall2. by apply child_ids_NoDup.
    + lia.
    + eexists. split; [reflexivity|]. split; [|by constructor]. cbn [map concat br_subordinates]. rewrite Hsubs, <-omap_app'.
      unfold rest. by rewrite take_drop.
  - cbn [mbind result_bind br_continuation]. eexists. split; [reflexivity|]. split; [|by repeat constructor].
    cbn [map concat br_subordinates]. rewrite app_nil_r. f_equal. apply take_ge. unfold count in *. lia.
Qed.
End pages.
Lemma details_ids d ids : (forall x, x ∈ ids -> is_Some (rfcs d !! x)) -> map dt_rfc_id (details_of d ids) = ids.
Proof.
  induction ids as [|x ids IH]; intros Hr; [done|]. unfold details_of, row_of in *. csimpl. destruct (Hr x ltac:(left)) as [r ->]. csimpl.
  f_equal. apply IH. intros y Hy. apply Hr. by right.
Qed.
(** C21.  Reading a branch of a sound hierarchy never finds it unsound.
    Whatever the cursor and the page size, no integrity check fires: the answer
    is the root with its role and count, the next subordinates in order, the
    cursor of the last one when there are more, and the digest of the canonical
    text of the whole branch, although the text is never built as one value. *)
Theorem branch_read_exact d root cursor limit :
  sound d ->
  get_branch d root cursor limit =
    (_ ← _validate_limit limit;
     after ← _validate_cursor cursor root;
     r ← _root_authority d root;
     fingerprint ← sha256_canonical_json (branch_document d root r);
     let rows := page_after d root after in
     continuation ← continuation_of root limit rows;
     Ok (MkBranch (root_detail d root r) (details_of d (take (Z.to_nat limit) rows)) continuation fingerprint)).
Proof. apply branch_exact. Qed.
(** C20.  Following the continuations from the first page ends, after
    at most as many pages as there are subordinates and one, and returns every
    subordinate of the root exactly once, in order; every page shows the same
    root and the same fingerprint. *)
Theorem branch_pages_cover d root limit b :
  sound d -> (forall c, fo_parent (forest_of d) !! c = Some root -> c <> EmptyString) ->
  get_branch d root JNull limit = Ok b ->
  exists pages, read_pages (S (length (child_ids d root))) d root JNull limit = Ok pages /\
    let ids := map dt_rfc_id (concat (map br_subordinates pages)) in
    ids = py_sorted (fun s => s) ids /\ NoDup ids /\ (forall c, c ∈ ids <-> fo_parent (forest_of d) !! c = Some root) /\
    Forall (fun page => br_branch_fingerprint page = br_branch_fingerprint b /\ br_root page = br_root b) pages.
Proof.
  intros Hs Hids Hb. rewrite branch_exact in Hb by done.
  apply bind_ok in Hb as (n & [-> Hl]%valid_limit & Hb). apply bind_ok in Hb as (after & [= <-] & Hb).
  apply bind_ok in Hb as (r & Hr & Hb). apply bind_ok in Hb as (fp & Hfp & Hb). cbv zeta in Hb.
  apply bind_ok in Hb as (cont & Hcont & [= <-]). cbn [page_after br_branch_fingerprint br_root] in *.
  destruct (pages_from d root r limit fp Hs ltac:(intros c Hc; apply Hids; by apply child_ids_elem in Hc) Hr Hfp Hl
    (S (length (child_ids d root))) JNull None [] (child_ids d root)) as (pages & Hp & Hsubs & Hfps); try done.
  - intros Hlt. unfold continuation_of in Hcont. replace (limit <? count (child_ids d root)) with true in Hcont by lia.
    destruct (take_last_short (child_ids d root) (Z.to_nat limit)) as [c Hc]; [unfold count in *; lia|lia|]. rewrite Hc in Hcont.
    apply bind_ok in Hcont as (body & Hbody & _). unfold _cursor_body in Hbody. apply bind_ok in Hbody as (g & Hg & _). by exists g.
  - lia.
  - exists pages. split; [exact Hp|]. cbv zeta. rewrite Hsubs, details_ids by (intros x; by apply child_row). split_and!.
    + symmetry. apply py_sorted_id, child_ids_sorted.
    + by apply child_ids_NoDup.
    + intros c. by apply child_ids_elem.
    + done.
Qed.
End reads.
