(* ===== verification/TicketReviewed.v ===== *)
(** The branch a hierarchy command answers with: its contract, its size, and
    that a command which raises has committed nothing.

    A reviewed correction of the hierarchy does what was reviewed. *)
From S2P Require Import Prelude StrictJson Identifiers JsonText JsonSorted AuditLedger Tables CommandBoundary.
From S2P Require Import CommandReplay CommandAudit CommandDomain TicketTables RfcIdentity RfcHierarchy.
From S2P Require Import TicketForest TicketEffects TicketRuns TicketReads.
#[local] Arguments set_token : simpl never.
#[local] Arguments exact_fields : simpl never.

(** * Looking up fields *)
Lemma dget_here {V} (k : string) (v : V) d : dget k ((k, v) :: d) = Some v.
Proof. simpl. by rewrite bool_decide_eq_true_2. Qed.
Lemma dget_next {V} (k k' : string) (v : V) d : k' <> k -> dget k ((k', v) :: d) = dget k d.
Proof. intros Hne. simpl. by rewrite bool_decide_eq_false_2. Qed.
Ltac fields := repeat first [rewrite dget_here | rewrite dget_next by discriminate].
Lemma fields_perm fields names : map fst fields ≡ₚ names -> exact_fields fields names = true.
Proof. intros Hp. unfold exact_fields. apply bool_decide_eq_true_2. apply leibniz_equiv. intros x. by rewrite !elem_of_list_to_set, Hp. Qed.

(** * Details *)
Definition sorted_fields (kvs : list (string * json)) : list (string * json) := object_fields (sorted_json (JObj kvs)).
Definition sorted_detail (t : RfcDetail) : RfcDetail :=
  MkDetail (dt_rfc_id t) (dt_rfc_no t) (dt_revision t) (dt_hierarchy_role t) (dt_customer_org_id t) (dt_local_archive_state t)
    (sorted_fields <$> dt_source_projection t) (dt_direct_service_request_count t) (dt_device_reference_count t)
    (dt_subordinate_count t) (dt_warnings t).
Record detail_ok (t : RfcDetail) : Prop := {
  do_revision : 1 <= dt_revision t;
  do_role : set_token ["standalone"; "root"; "subordinate"] (dt_hierarchy_role t) = true;
  do_archive : set_token ["active"; "archived"] (dt_local_archive_state t) = true;
  do_requests : 0 <= dt_direct_service_request_count t;
  do_devices : 0 <= dt_device_reference_count t;
  do_subordinates : 0 <= dt_subordinate_count t;
  do_warnings : count (dt_warnings t) <= 1;
  do_projection : forall p, dt_source_projection t = Some p -> exists row, p = projection_columns row
}.
Lemma sorted_strings l : map sorted_json (map JStr l) = map JStr l.
Proof. rewrite map_map. by apply map_ext. Qed.
Lemma sorted_opt o : sorted_json (jopt JStr o) = jopt JStr o.
Proof. by destruct o. Qed.
Lemma sorted_detail_json t : sorted_json (_detail_to_response t) = JObj [
  ("customer_org_id", jopt JStr (dt_customer_org_id t)); ("device_reference_count", JInt (dt_device_reference_count t));
  ("direct_service_request_count", JInt (dt_direct_service_request_count t)); ("hierarchy_role", JStr (dt_hierarchy_role t));
  ("local_archive_state", JStr (dt_local_archive_state t)); ("revision", JInt (dt_revision t)); ("rfc_id", JStr (dt_rfc_id t));
  ("rfc_no", JStr (dt_rfc_no t)); ("source_projection", jopt JObj (sorted_fields <$> dt_source_projection t));
  ("subordinate_count", JInt (dt_subordinate_count t)); ("warnings", JArr (map JStr (dt_warnings t)))].
Proof.
  rewrite <-(sorted_strings (dt_warnings t)). rewrite <-(sorted_opt (dt_customer_org_id t)).
  replace (jopt JObj (sorted_fields <$> dt_source_projection t)) with (sorted_json (jopt JObj (dt_source_projection t)))
    by by destruct (dt_source_projection t).
  unfold _detail_to_response. cbn [sorted_json map fst snd]. reflexivity.
Qed.
Lemma warnings_read l : traverse warning_text (map JStr l) = Ok l.
Proof. induction l as [|x l IH]; [done|]. cbn [map traverse warning_text mbind result_bind]. by rewrite IH. Qed.
Lemma token_read tokens s e : set_token tokens s = true -> one_of tokens (JStr s) e = Ok s.
Proof. intros Hs. unfold one_of. by rewrite Hs. Qed.
Lemma count_read fields k n : dget k fields = Some (JInt n) -> 0 <= n -> count_field fields k = Ok n.
Proof. unfold count_field. intros -> Hn. by replace (n <? 0) with false by lia. Qed.
Lemma permutes (l k : list string) : py_sorted (fun s => s) l = py_sorted (fun s => s) k -> l ≡ₚ k.
Proof. intros He. by rewrite <-(py_sorted_perm (fun s => s) l), He, py_sorted_perm. Qed.
Lemma detail_read t : detail_ok t -> _detail_from_response (sorted_json (_detail_to_response t)) = Ok (sorted_detail t).
Proof.
  intros [Hrev Hrole Harch Hreq Hdev Hsub _ _]. rewrite sorted_detail_json. unfold _detail_from_response, text_field.
  rewrite fields_perm by (apply permutes; vm_compute; reflexivity). cbn [negb forbid mbind result_bind].
  fields. cbn [mbind result_bind]. replace (dt_revision t <? 1) with false by lia. cbn [forbid mbind result_bind].
  fields. cbn [from_option Datatypes.id]. rewrite (token_read _ _ _ Hrole). cbn [mbind result_bind].
  destruct (dt_customer_org_id t) as [c|] eqn:Ec; cbn [jopt mbind result_bind]; fields; cbn [default];
    rewrite (token_read _ _ _ Harch); cbn [mbind result_bind]; fields;
    destruct (dt_source_projection t) as [p|] eqn:Ep; cbn [fmap option_fmap option_map jopt mbind result_bind];
    do 3 (erewrite count_read by (by fields || done); cbn [mbind result_bind]); fields; rewrite warnings_read;
    cbn [mbind result_bind]; unfold sorted_detail; by rewrite Ec, Ep.
Qed.

(** ** What the query builds *)
Lemma detail_of_ok d id r role n :
  tables_ok d -> rfcs d !! id = Some r -> set_token ["standalone"; "root"; "subordinate"] role = true -> 0 <= n ->
  detail_ok (detail_of d id r role n).
Proof.
  intros Hok Hr Hrole Hn. pose proof (to_rows d Hok id r Hr) as Hrow. unfold rfc_row_ok in Hrow. bool_hyps.
  split; simpl; try done; try (unfold count; lia).
  - unfold customer_warnings. destruct (rf_customer_org_id r); [case_bool_decide|]; unfold count; simpl; lia.
  - unfold _source_projection. destruct (rfc_current_source_projection d !! id) as [row|]; [|done]. intros p [= <-]. by exists row.
Qed.
Lemma details_of_ok d ids : tables_ok d -> Forall detail_ok (details_of d ids).
Proof.
  intros Hok. apply Forall_fmap, Forall_forall. intros [id r] (x & _ & Hx)%list_elem_of_omap.
  unfold row_of in Hx. destruct (rfcs d !! x) as [r'|] eqn:Er; [|done]. injection Hx as <- <-. by apply detail_of_ok.
Qed.
Record branch_ok `{Sha256} (b : RfcBranch) : Prop := {
  bo_root : detail_ok (br_root b);
  bo_subordinates : Forall detail_ok (br_subordinates b);
  bo_count : count (br_subordinates b) <= _MAX_LIMIT;
  bo_order : py_sorted (fun s => s) (map dt_rfc_id (br_subordinates b)) = map dt_rfc_id (br_subordinates b);
  bo_fingerprint : is_sha256 (br_branch_fingerprint b) = true;
  bo_continuation : match br_continuation b with
    | Some body => exists c, _cursor_body (dt_rfc_id (br_root b)) c = Ok body /\ c <> EmptyString /\
        last (map dt_rfc_id (br_subordinates b)) = Some c
    | None => True end
}.
Section responses.
Context `{Sha256}.
Hypothesis sha_hex : forall s, is_sha256 (sha256_hexdigest s) = true.
(** The last of two or more texts in order is not the empty one. *)
Lemma last_nonempty (l : list string) c :
  StronglySorted (le_key (fun s => s)) l -> NoDup l -> 2 <= count l -> last l = Some c -> c <> EmptyString.
Proof.
  intros Hs Hn Hl Hlast ->. apply last_Some in Hlast as [l' ->]. destruct l' as [|x l']; [done|].
  apply StronglySorted_inv in Hs as [_ Hx]. rewrite Forall_forall in Hx.
  assert (le_key (fun s => s) x EmptyString) as Hle by (apply Hx; set_solver).
  assert (x = EmptyString) as -> by (unfold le_key, leb in Hle; by destruct x).
  apply NoDup_cons in Hn as [Hn _]. apply Hn. set_solver.
Qed.
Lemma get_branch_ok d root cursor limit b :
  sound d -> 2 <= limit -> get_branch d root cursor limit = Ok b -> branch_ok b /\ count (br_subordinates b) <= limit /\ dt_rfc_id (br_root b) = root.
Proof.
  intros Hs H2. rewrite branch_exact by done. intros (n & [-> Hl]%valid_limit & Hb)%bind_ok.
  apply bind_ok in Hb as (after & _ & Hb). apply bind_ok in Hb as (r & Hr & Hb). apply bind_ok in Hb as (fp & Hfp & Hb).
  cbv zeta in Hb. set (rows := page_after d root after) in *. apply bind_ok in Hb as (cont & Hcont & [= <-]).
  assert (take (Z.to_nat limit) rows `sublist_of` child_ids d root) as Hsub.
  { transitivity rows; [apply sublist_take|apply page_after_sublist]. }
  assert (map dt_rfc_id (details_of d (take (Z.to_nat limit) rows)) = take (Z.to_nat limit) rows) as Eids.
  { apply details_ids. intros x Hx. eapply child_row; [done|]. by eapply elem_of_sublist. }
  assert (count (details_of d (take (Z.to_nat limit) rows)) <= limit) as Hcount.
  { apply (f_equal length) in Eids. rewrite length_map in Eids. unfold count. rewrite Eids, length_take. lia. }
  assert (rfcs d !! root = Some r) as Er.
  { unfold _root_authority in Hr. destruct (rfcs d !! root); [|done]. by apply bind_ok in Hr as (? & _ & [= ->]). }
  split; [|split; [exact Hcount|done]]. split; cbn [br_root br_subordinates br_continuation br_branch_fingerprint].
  - apply detail_of_ok; [apply Hs|done| |unfold count; lia]. by destruct (_ =? 0).
  - apply details_of_ok, Hs.
  - unfold _MAX_LIMIT. lia.
  - rewrite Eids. apply py_sorted_id. eapply sorted_sublist; [exact Hsub|apply child_ids_sorted].
  - unfold sha256_canonical_json in Hfp. apply bind_ok in Hfp as (t & _ & [= <-]). apply sha_hex.
  - rewrite Eids. unfold continuation_of in Hcont. destruct (limit <? count rows) eqn:Elt; [|by injection Hcont as <-].
    destruct (last (take (Z.to_nat limit) rows)) as [c|] eqn:El; [|by injection Hcont as <-].
    apply bind_ok in Hcont as (body & Hbody & [= <-]). exists c. split; [exact Hbody|]. split; [|done].
    eapply last_nonempty; [eapply sorted_sublist; [exact Hsub|apply child_ids_sorted]| | |exact El].
    + eapply sublist_NoDup; [by apply child_ids_NoDup|exact Hsub].
    + unfold count in *. rewrite length_take. lia.
Qed.

(** * Branches *)
Definition sorted_branch (b : RfcBranch) : RfcBranch :=
  MkBranch (sorted_detail (br_root b)) (map sorted_detail (br_subordinates b)) (sorted_json <$> br_continuation b)
    (br_branch_fingerprint b).
Lemma sorted_branch_json b : sorted_json (to_response b) = JObj [
  ("branch_fingerprint", JStr (br_branch_fingerprint b)); ("continuation", sorted_json (default JNull (br_continuation b)));
  ("root", sorted_json (_detail_to_response (br_root b)));
  ("subordinates", JArr (map sorted_json (map _detail_to_response (br_subordinates b))))].
Proof. unfold to_response. cbn [sorted_json map fst snd]. reflexivity. Qed.
Lemma sorted_cursor root c body :
  _cursor_body root c = Ok body -> c <> EmptyString ->
  sorted_json body <> JNull /\ _validate_cursor (sorted_json body) root = Ok (Some c).
Proof.
  unfold _cursor_body. intros (f & Hf & [= <-])%bind_ok Hc.
  replace (sorted_json _) with (JObj [("filter_fingerprint", JStr f); ("last_key_tuple", JArr [JStr c]); ("null_order", JStr _NULL_ORDER);
    ("query_id", JStr _QUERY_ID); ("sort_registry_id", JStr _SORT_REGISTRY_ID); ("version", JInt 1)]) by reflexivity.
  split; [done|]. unfold _validate_cursor. rewrite fields_perm by (apply permutes; vm_compute; reflexivity).
  fields. unfold equals_text. rewrite !String.eqb_refl. change (equals_one (Some (JInt 1))) with true.
  cbn [negb orb forbid mbind result_bind]. rewrite Hf. cbn [mbind result_bind]. rewrite String.eqb_refl.
  cbn [negb orb forbid mbind result_bind]. apply String.eqb_neq in Hc as ->. done.
Qed.
Lemma details_read l : Forall detail_ok l ->
  traverse _detail_from_response (map sorted_json (map _detail_to_response l)) = Ok (map sorted_detail l).
Proof.
  induction 1 as [|t l Ht _ IH]; [done|]. cbn [map traverse]. rewrite detail_read by done. cbn [mbind result_bind]. by rewrite IH.
Qed.
Lemma branch_read b : branch_ok b -> from_response (sorted_json (to_response b)) = Ok (sorted_branch b).
Proof.
  intros [Hroot Hsubs Hcount Horder Hfp Hcont]. rewrite sorted_branch_json. unfold from_response.
  rewrite fields_perm by (apply permutes; vm_compute; reflexivity). cbn [negb forbid mbind result_bind]. fields. cbn [from_option Datatypes.id].
  rewrite detail_read by done. cbn [mbind result_bind].
  assert (count (map sorted_json (map _detail_to_response (br_subordinates b))) = count (br_subordinates b)) as Ec
    by (unfold count; by rewrite !length_map).
  rewrite Ec. replace (_MAX_LIMIT <? _) with false by lia. cbn [forbid mbind result_bind]. rewrite details_read by done.
  cbn [mbind result_bind]. cbv zeta.
  assert (map dt_rfc_id (map sorted_detail (br_subordinates b)) = map dt_rfc_id (br_subordinates b)) as Eids
    by (rewrite map_map; by apply map_ext).
  rewrite Eids, bool_decide_eq_true_2 by done. cbn [negb forbid mbind result_bind]. rewrite Hfp. cbn [negb forbid mbind result_bind].
  unfold sorted_branch. destruct (br_continuation b) as [body|]; cbn [from_option Datatypes.id fmap option_fmap option_map]; [|done].
  destruct Hcont as (c & Hbody & Hne & Hlast). destruct (sorted_cursor _ _ _ Hbody Hne) as [Hn Hv]. rewrite Hlast. simpl dt_rfc_id.
  destruct (sorted_json body); try done; rewrite Hv; cbn [mbind result_bind present_opt]; by rewrite bool_decide_eq_true_2.
Qed.

(** * Its shape and size *)
Ltac keys_differ := lazymatch goal with
  |- context [@bool_decide ?P ?dec] => replace (@bool_decide P dec) with true by (vm_compute; reflexivity) end.
Lemma plain_object kvs : plain (JObj kvs) = bool_decide (NoDup (map fst kvs)) && forallb (fun kv => plain kv.2) kvs.
Proof. done. Qed.
Lemma plain_array l : plain (JArr l) = forallb plain l.
Proof. done. Qed.
Lemma plain_opt {A} (f : A -> json) o : (forall a, plain (f a) = true) -> plain (jopt f o) = true.
Proof. intros Hf. destruct o; [apply Hf|done]. Qed.
Lemma plain_columns row : plain (JObj (projection_columns row)) = true.
Proof.
  unfold projection_columns, evidenced_columns. cbn [app]. rewrite plain_object. cbn [map fst snd forallb]. rewrite ?plain_array.
  keys_differ.
  rewrite !plain_opt by done. done.
Qed.
Lemma plain_strings l : forallb plain (map JStr l) = true.
Proof. by induction l. Qed.
Lemma plain_detail t : detail_ok t -> plain (_detail_to_response t) = true.
Proof.
  intros Ht. unfold _detail_to_response. rewrite plain_object. cbn [map fst snd forallb]. rewrite ?plain_array.
  keys_differ. rewrite (plain_opt JStr (dt_customer_org_id t)), plain_strings by done.
  assert (plain (jopt JObj (dt_source_projection t)) = true) as ->; [|done].
  destruct (dt_source_projection t) as [p|] eqn:Ep; [|done]. destruct (do_projection t Ht p Ep) as [row ->]. apply plain_columns.
Qed.
Lemma plain_branch b : branch_ok b -> plain (to_response b) = true.
Proof.
  intros [Hroot Hsubs _ _ _ Hcont]. unfold to_response. rewrite plain_object. cbn [map fst snd forallb]. rewrite ?plain_array.
  keys_differ. rewrite plain_detail by done.
  assert (forallb plain (map _detail_to_response (br_subordinates b)) = true) as ->.
  { clear Hcont. induction Hsubs as [|t l Ht _ IH]; [done|]. cbn [map forallb]. by rewrite plain_detail, IH. }
  destruct (br_continuation b) as [body|]; [|done]. destruct Hcont as (c & Hbody & _). unfold _cursor_body in Hbody.
  by apply bind_ok in Hbody as (f & _ & [= <-]).
Qed.
Lemma opt_size {A} (f : A -> json) o : (forall a, json_depth (f a) = 0 /\ json_items (f a) = 0) ->
  json_depth (jopt f o) = 0 /\ json_items (jopt f o) = 0.
Proof. intros Hf. destruct o; [apply Hf|done]. Qed.
Lemma columns_size row : json_depth (JObj (projection_columns row)) = 1 /\ json_items (JObj (projection_columns row)) = 28.
Proof.
  pose proof (fun o => opt_size JStr o (fun a => conj eq_refl eq_refl)) as Hs.
  pose proof (fun o => opt_size JInt o (fun a => conj eq_refl eq_refl)) as Hz.
  unfold projection_columns, evidenced_columns. cbn [app].
  rewrite json_depth_children, json_items_children. cbn [children map snd max_over sum_over foldr length].
  rewrite !(fun o => proj1 (Hs o)), !(fun o => proj1 (Hz o)), !(fun o => proj2 (Hs o)), !(fun o => proj2 (Hz o)).
  split; reflexivity.
Qed.
Lemma strings_size l : json_depth (JArr (map JStr l)) <= 1 /\ json_items (JArr (map JStr l)) = count l.
Proof.
  rewrite json_depth_children, json_items_children. cbn [children]. unfold count. rewrite length_map, max_over_map, sum_over_map. split.
  - induction l as [|x l IH]; simpl in *; lia.
  - induction l as [|x l IH]; simpl in *; lia.
Qed.
Lemma detail_size t : detail_ok t -> json_depth (_detail_to_response t) <= 2 /\ json_items (_detail_to_response t) <= 40.
Proof.
  intros Ht. unfold _detail_to_response. rewrite json_depth_children, json_items_children.
  cbn [children map snd max_over sum_over foldr length].
  destruct (opt_size JStr (dt_customer_org_id t) (fun a => conj eq_refl eq_refl)) as [-> ->].
  destruct (strings_size (dt_warnings t)) as [Hw ->].
  assert (json_depth (jopt JObj (dt_source_projection t)) <= 1 /\ json_items (jopt JObj (dt_source_projection t)) <= 28) as [Hd Hi].
  { destruct (dt_source_projection t) as [p|] eqn:Ep; [|by split]. destruct (do_projection t Ht p Ep) as [row ->].
    cbn [jopt]. destruct (columns_size row) as [-> ->]. split; lia. }
  pose proof (do_warnings t Ht). generalize dependent (JArr (map JStr (dt_warnings t))). intros w Hw.
  generalize dependent (jopt JObj (dt_source_projection t)). intros p Hd Hi. simpl. lia.
Qed.
Lemma sum_over_le {A} (f : A -> Z) b l : Forall (fun x => f x <= b) l -> sum_over f l <= b * count l.
Proof. unfold count. induction 1; simpl in *; lia. Qed.
Lemma max_over_le {A} (f : A -> Z) b l : 0 <= b -> Forall (fun x => f x <= b) l -> max_over f 0 l <= b.
Proof. intros Hb. induction 1; simpl in *; lia. Qed.
Lemma details_size l : Forall detail_ok l ->
  json_depth (JArr (map _detail_to_response l)) <= 3 /\ json_items (JArr (map _detail_to_response l)) <= 41 * count l.
Proof.
  intros Hl. rewrite json_depth_children, json_items_children. cbn [children]. rewrite length_map, max_over_map, sum_over_map. split.
  - apply max_over_le; [done|]. eapply Forall_impl; [exact Hl|]. intros t [Ht _]%detail_size. cbn beta. lia.
  - enough (sum_over (fun t => json_items (_detail_to_response t)) l <= 40 * count l) by (unfold count in *; lia).
    apply sum_over_le. eapply Forall_impl; [exact Hl|]. by intros t [_ Ht]%detail_size.
Qed.
Lemma branch_size b : branch_ok b ->
  json_depth (to_response b) <= 4 /\ json_items (to_response b) <= 51 + 41 * count (br_subordinates b).
Proof.
  intros [Hroot Hsubs _ _ _ Hcont]. unfold to_response. rewrite json_depth_children, json_items_children.
  cbn [children map snd max_over sum_over foldr length].
  destruct (detail_size _ Hroot), (details_size _ Hsubs).
  assert (json_depth (default JNull (br_continuation b)) <= 2 /\ json_items (default JNull (br_continuation b)) <= 7).
  { destruct (br_continuation b) as [body|]; [|by split]. destruct Hcont as (c & Hbody & _). unfold _cursor_body in Hbody.
    by apply bind_ok in Hbody as (f & _ & [= <-]). }
  generalize dependent (default JNull (br_continuation b)). generalize dependent (_detail_to_response (br_root b)).
  generalize dependent (JArr (map _detail_to_response (br_subordinates b))). intros. simpl. lia.
Qed.
(** The text a command stores for a branch. *)
Definition stored_branch (b : RfcBranch) : result string :=
  canonical_json_bytes_bounded (to_response b) _RFC_BRANCH_RESPONSE_JSON_BYTES _MAX_RESPONSE_DEPTH
    _RFC_BRANCH_RESPONSE_COLLECTION_ITEMS.
(** The answer of a hierarchy command has at most 4151 items and
    is at most four levels deep, so of the bounds of its schema only the one on
    bytes can refuse it: the items and the depth of a page of a hundred
    subordinates always fit. *)
Theorem branch_response_fits d root cursor b :
  sound d -> get_branch d root cursor 100 = Ok b ->
  json_items (to_response b) <= 4151 /\ json_depth (to_response b) <= 4 /\
  forall text, canonical_json_bytes (to_response b) = Ok text -> utf8_length text <= _RFC_BRANCH_RESPONSE_JSON_BYTES ->
    stored_branch b = Ok text.
Proof.
  intros Hs Hb. destruct (get_branch_ok d root cursor 100 b Hs ltac:(done) Hb) as (Hok & Hcount & _).
  destruct (branch_size b Hok) as [Hd Hi]. split; [lia|]. split; [done|]. intros text Ht Hbytes. apply bounded_ok.
  unfold _MAX_RESPONSE_DEPTH, _RFC_BRANCH_RESPONSE_COLLECTION_ITEMS. split_and!; [done|done|lia|lia].
Qed.
End responses.

(** * What a hierarchy command that raises has done *)
Section commands.
Context `{Sha256, FloatText} (fresh : place -> string) (clock : place -> Z).
Context (audit : AuditRegistry) (audit_clock : string -> Z) (history : RfcHistoryRiskProvider).
Hypothesis sha_hex : forall s, is_sha256 (sha256_hexdigest s) = true.
(** A preparation that answers with the branch of an RFC. *)
Definition answers_branch (may_be_unchanged : bool) (prepare : ticketLM (PreparedMutation TicketDb)) : Prop :=
  forall db db' p, prepare db = (db', Ok p) -> response_schema p = "RfcBranchV1" /\ response_version p = 1 /\
    (may_be_unchanged = false -> no_change p = false) /\ exists root, response_factory p = Some (_branch_response_factory root).
Lemma material_answers kind id apply root flag :
  let p := material_prepared kind id apply "RfcBranchV1" None (Some (_branch_response_factory root)) in
  response_schema p = "RfcBranchV1" /\ response_version p = 1 /\ (flag = false -> no_change p = false) /\
  exists root, response_factory p = Some (_branch_response_factory root).
Proof. split_and!; [done..|by exists root]. Qed.
Lemma add_answers command parent child revisions reason review a :
  answers_branch true (prepare_add fresh clock command parent child revisions reason review a).
Proof.
  intros db db' p. unfold prepare_add. cbv zeta. intros (s & d & [= <- <-] & Hr)%stm_bind_ok.
  apply stm_bind_ok in Hr as (s1 & [pc pr] & _ & Hr). apply stm_bind_ok in Hr as (s2 & [cc cr] & _ & Hr).
  apply stm_bind_ok in Hr as (s3 & u3 & _ & Hr).
  destruct (_active_parent (domain_state db) child) as [[edge current]|].
  - destruct (current =? parent)%string; [|by apply lift_ok in Hr as [_ Hr]]. injection Hr as <- <-.
    split_and!; [done..|by eexists].
  - apply stm_bind_ok in Hr as (s4 & u4 & _ & Hr). apply stm_bind_ok in Hr as (s5 & u5 & _ & Hr).
    apply stm_bind_ok in Hr as (s6 & u6 & _ & Hr). apply stm_bind_ok in Hr as (s7 & u7 & _ & [= <- <-]). apply material_answers.
Qed.
Lemma reparent_answers command child new revisions reason review a :
  answers_branch false (prepare_reparent fresh clock history command child new revisions reason review a).
Proof. intros db db' p. unfold prepare_reparent. intros (s & pv & _ & [= <- <-])%stm_bind_ok. apply material_answers. Qed.
Lemma detach_answers command child revisions reason review a :
  answers_branch false (prepare_detach fresh clock history command child revisions reason review a).
Proof. intros db db' p. unfold prepare_detach. intros (s & pv & _ & [= <- <-])%stm_bind_ok. apply material_answers. Qed.

Lemma run_hierarchy_raise flag what e prepare db db' er :
  acts prepare -> answers_branch flag prepare -> sound (domain_state db) ->
  run_hierarchy clock audit audit_clock flag what e prepare db = (db', Raise er) -> db' = db.
Proof.
  intros Hacts Hans Hs Hr. assert (simple_prepare prepare) as Hsimple by by intros ? ? ? (? & ? & _)%Hacts.
  unfold run_hierarchy, mbind, stM_bind in Hr.
  destruct (ticket_execute clock audit audit_clock e prepare db) as [db1 [x|er1]] eqn:Ex.
  2: { injection Hr as <- _. by apply execute_raise in Ex. }
  assert (db' = db1) as ->.
  { unfold lift in Hr. destruct (integrity _ _) in Hr; by injection Hr as <- _. }
  destruct (command_receipts db !! command_id e) as [r|] eqn:Erc; [by eapply execute_replayed|].
  destruct (execute_response audit _ _ _ _ _ _ _ Hsimple Erc Ex) as (p & db2 & db3 & value & text & sha & Hp & Hsem & Ed & Hsch & Hver & Hnc & Henc).
  destruct (Hans _ _ _ Hp) as (Es & Ev & Hn & root & Ef).
  assert (sound (domain_state db1)) as Hs1.
  { assert (ledger_evolves db db1) as He.
    { refine (execute_evolves clock audit audit_clock mret e prepare db db1 (Ok x) Hacts _ _); [done|].
      unfold mbind, stM_bind. by rewrite Ex. }
    destruct Hs as [Hok Hf]. destruct (He Hok) as [Hok1 Hsteps _ _ _ _]. split; [done|]. by eapply forest_runs_ok. }
  unfold semantic_response in Hsem. rewrite Ef in Hsem. unfold _branch_response_factory, reading in Hsem.
  injection Hsem as <- Hval. apply bind_ok in Hval as (b & Hb & [= <-]). rewrite Ed in Hb.
  destruct (get_branch_ok sha_hex _ _ _ 100 _ Hs1 ltac:(done) Hb) as (Hok & _ & _).
  rewrite Es, Ev in Henc. unfold _encode_response in Henc. apply bind_ok in Henc as (bounds & _ & Henc).
  apply bind_ok in Henc as (t & Ht & Henc). apply bind_ok in Henc as (normalized & Hnorm & Henc).
  rewrite (loads_bounded _ _ _ _ _ (plain_branch b Hok) Ht) in Hnorm.
  assert (x_response x = sorted_json (to_response b)) as Enorm by congruence. clear Henc Hnorm.
  exfalso. revert Hr. unfold lift. rewrite Hsch, Hver, Hnc, Es, Ev, Enorm, (branch_read b Hok).
  assert (negb flag && no_change p = false) as Hflag by (destruct flag; [done|by rewrite Hn]).
  cbn [String.eqb]. change (String.eqb "RfcBranchV1" "RfcBranchV1") with true. cbn [negb orb Z.eqb]. by rewrite Hflag.
Qed.
(** The hierarchy commands among the ticket commands. *)
Definition run_hierarchy_command (command : string) (a : actor) (c : ticket_command) : option (ticketLM RfcBranch) :=
  match c with
  | AddSubordinate parent child base reason review =>
      Some (add_subordinate fresh clock audit audit_clock command parent child base reason review a)
  | ReparentSubordinate child new base reason review =>
      Some (reparent_subordinate fresh clock audit audit_clock history command child new base reason review a)
  | DetachSubordinate child base reason review =>
      Some (detach_subordinate fresh clock audit audit_clock history command child base reason review a)
  | _ => None
  end.
(** C22.  A hierarchy command that raises has changed nothing: once
    its writes are committed, the branch it read is one its own reader of
    committed responses accepts, in the canonical form the command boundary
    stores it, so no error can follow the commit. *)
Theorem hierarchy_error_commits_nothing db command a c run er db' :
  sound (domain_state db) -> run_hierarchy_command command a c = Some run -> run db = (db', Raise er) -> db' = db.
Proof.
  intros Hs. destruct c; intros [= <-] Hr.
  - unfold add_subordinate in Hr. do 4 (apply lift_bind_any in Hr as [(? & ? & Hr)|Hr]; [|exact Hr]).
    eapply run_hierarchy_raise; [apply acts_add|apply add_answers|exact Hs|exact Hr].
  - unfold reparent_subordinate in Hr. do 5 (apply lift_bind_any in Hr as [(? & ? & Hr)|Hr]; [|exact Hr]).
    eapply run_hierarchy_raise; [apply acts_reparent|apply reparent_answers|exact Hs|exact Hr].
  - unfold detach_subordinate in Hr. do 4 (apply lift_bind_any in Hr as [(? & ? & Hr)|Hr]; [|exact Hr]).
    eapply run_hierarchy_raise; [apply acts_detach|apply detach_answers|exact Hs|exact Hr].
Qed.
End commands.

#[local] Arguments set_token : simpl never.

Section reviewed.
Context `{Sha256, FloatText} (fresh : place -> string) (clock : place -> Z).
Context (audit : AuditRegistry) (audit_clock : string -> Z) (history : RfcHistoryRiskProvider).
Hypothesis sha_hex : forall s, is_sha256 (sha256_hexdigest s) = true.
(** What a hierarchy command not seen before did and answered. *)
Lemma run_hierarchy_ok root flag what e prepare db db' b :
  (forall p, prepare db = (db, Ok p) -> response_factory p = Some (_branch_response_factory root)) -> acts prepare -> answers_branch flag prepare -> sound (domain_state db) -> command_receipts db !! command_id e = None ->
  run_hierarchy clock audit audit_clock flag what e prepare db = (db', Ok b) ->
  exists p, prepare db = (db, Ok p) /\
    (no_change p = true /\ domain_state db' = domain_state db \/
     no_change p = false /\ exists apply db1 db2 events, apply_ p = Some apply /\ domain_state db1 = domain_state db /\
       apply db1 = (db2, Ok events) /\ domain_state db' = domain_state db2) /\
    exists branch, get_branch (domain_state db') root JNull 100 = Ok branch /\ b = sorted_branch branch.
Proof.
  intros Hroot Hacts Hans Hs Hnew Hr. assert (simple_prepare prepare) as Hsimple by by intros ? ? ? (? & ? & _)%Hacts.
  unfold run_hierarchy in Hr. apply stm_bind_ok in Hr as (db1 & x & Ex & Hr).
  apply stm_bind_ok in Hr as (db2 & u & [-> _]%lift_ok & Hr). apply lift_ok in Hr as [-> Hb].
  destruct (execute_response audit _ _ _ _ _ _ _ Hsimple Hnew Ex) as (p & db2 & db3 & value & text & sha & Hp & Hsem & Ed & Hsch & Hver & _ & Henc).
  exists p. split; [done|]. destruct (Hans _ _ _ Hp) as (Es & Ev & _ & _). pose proof (Hroot p Hp) as Ef.
  assert (sound (domain_state db1)) as Hs1.
  { assert (ledger_evolves db db1) as He.
    { refine (execute_evolves clock audit audit_clock mret e prepare db db1 (Ok x) Hacts _ _); [done|].
      unfold mbind, stM_bind. by rewrite Ex. }
    destruct Hs as [Hok Hf]. destruct (He Hok) as [Hok1 Hsteps _ _ _ _]. split; [done|]. by eapply forest_runs_ok. }
  split.
  - destruct (execute_fresh audit _ _ _ _ _ _ _ Hsimple Hnew Ex) as (p' & Hp' & Hcase). rewrite Hp in Hp'. injection Hp' as <-.
    destruct Hcase as [[Hn E]|(Hn & d1 & d2 & E1 & _ & (f & events & Efn & Hrun & _) & E2 & _)]; [by left|right].
    split; [done|]. by exists f, d1, d2, (Some events).
  - unfold semantic_response in Hsem. rewrite Ef in Hsem. unfold _branch_response_factory, reading in Hsem.
    injection Hsem as <- Hval. apply bind_ok in Hval as (branch & Hbr & [= <-]). rewrite Ed in Hbr.
    exists branch. split; [done|].
    destruct (get_branch_ok sha_hex _ _ _ 100 _ Hs1 ltac:(done) Hbr) as (Hok & _ & _).
    unfold _encode_response in Henc. apply bind_ok in Henc as (bounds & _ & Henc).
    apply bind_ok in Henc as (t & Ht & Henc). apply bind_ok in Henc as (normalized & Hnorm & Henc).
    rewrite (loads_bounded _ _ _ _ _ (plain_branch branch Hok) Ht) in Hnorm.
    assert (x_response x = sorted_json (to_response branch)) as Enorm by congruence. rewrite Enorm, branch_read in Hb by done. congruence.
Qed.
Lemma current_review p review : _require_current_review p review = Ok tt ->
  hs_status (hp_history_authority p) = "READY" /\ (forall f, review = Some f -> hp_review_fingerprint p = Some f) /\
  (hp_review_required p = true -> is_Some review).
Proof.
  unfold _require_current_review. intros (? & H1%forbid_ok & Hr)%bind_ok. apply bind_ok in Hr as (? & H2%forbid_ok & H3%forbid_ok).
  bool_hyps. split_and!; [done| |].
  - intros f ->. simpl in H3. bool_hyps. done.
  - intros Hq. rewrite Hq in H2. simpl in H2. destruct review; [by eexists|done].
Qed.
Lemma map_dget (d : list (string * Z)) id : (list_to_map d : gmap string Z) !! id = dget id d.
Proof.
  induction d as [|[k v] d IH]; [done|]. simpl. destruct (bool_decide_reflect (k = id)) as [->|Hne]; [by rewrite lookup_insert_eq|].
  by rewrite lookup_insert_ne.
Qed.
(** The revisions supplied are those of the participants, and of nothing else. *)
Definition revisions_of (d : TicketDb) (ids : list string) (revisions : list (string * Z)) : Prop :=
  forall id, dget id revisions = if bool_decide (id ∈ ids) then rf_revision <$> rfcs d !! id else None.
Lemma preview_revisions d p child new revisions :
  preview_of d p child (Some new) -> is_Some (rfcs d !! new) -> same_revisions revisions (hp_base_revisions p) = true ->
  revisions_of d [hp_old_parent_rfc_id p; child; new] revisions.
Proof.
  intros [_ _ _ (rc & ro & Hrc & Hro & E) _] [rn Hrn] Hsame%bool_decide_eq_true id.
  rewrite <-map_dget, Hsame, map_dget, E, Hrn, !dget_dset. cbn [dget fmap option_fmap option_map from_option Datatypes.id].
  destruct (bool_decide_reflect (id ∈ [hp_old_parent_rfc_id p; child; new])) as [Hin|Hout].
  - destruct (bool_decide_reflect (new = id)) as [<-|Hn]; [by rewrite Hrn|].
    destruct (bool_decide_reflect (child = id)) as [<-|Hc]; [by rewrite Hrc|].
    destruct (bool_decide_reflect (hp_old_parent_rfc_id p = id)) as [<-|Ho]; [by rewrite Hro|].
    rewrite !elem_of_cons, elem_of_nil in Hin. intuition congruence.
  - rewrite !elem_of_cons, elem_of_nil in Hout. rewrite !bool_decide_eq_false_2 by intuition congruence. done.
Qed.
Lemma reparent_writes_ok command new p d d' u :
  reparent_writes fresh clock command new p d = (d', Ok u) ->
  exists e, rfc_hierarchy_edges d !! hp_old_edge_id p = Some e /\ active_edge e = true /\
    d' = set_rfcs (updated (fun id _ => existsb (String.eqb id) [hp_old_parent_rfc_id p; hp_child_rfc_id p; new])
        (touch_rfc (now clock)) (rfcs d))
      (set_edges (<[edge_id fresh := new_edge clock command new (hp_child_rfc_id p)]>
        (<[hp_old_edge_id p := closed_edge (now clock) command e]> (rfc_hierarchy_edges d))) d).
Proof.
  unfold reparent_writes. intros (d1 & v & (e & He & Ha & _ & _ & ->)%close_old_edge_ok & Hr)%stm_bind_ok.
  apply stm_bind_ok in Hr as (d2 & w & Hi & Ht%touch_participants_ok).
  apply insert_edge_ok in Hi as [_ -> _ _ _ _ _ _ _ _]. apply update_rfcs_ok in Ht as (-> & _ & _). by exists e.
Qed.
Lemma validated_revisions base n revisions : _validate_mutation_base_revisions base n = Ok revisions -> revisions = base.
Proof.
  unfold _validate_mutation_base_revisions. intros (? & _ & Hrev%traverse_ok)%bind_ok.
  induction Hrev as [|[k v] kv l k' Hkv _ IH]; [done|]. unfold check_base_revision in Hkv. simpl in Hkv.
  apply bind_ok in Hkv as (k0 & [-> _]%require_uuid4_ok & Hkv). apply bind_ok in Hkv as (? & _ & [= <-]). by rewrite IH.
Qed.
(** C10.  A reparent that succeeds does exactly what was reviewed.
    The revisions supplied were those of the old parent, the child and the new
    parent, the protected history was available, and a fingerprint was given
    wherever one is required and was that of this very preview.  The old edge is
    closed, one edge to the new parent is opened, the three participants move to
    their next revision, and nothing else changes; the answer is the branch of
    the new parent as it then stands. *)
Theorem reparent_exact db command child new base reason review a db' b :
  sound (domain_state db) -> command_receipts db !! command = None ->
  reparent_subordinate fresh clock audit audit_clock history command child new base reason review a db = (db', Ok b) ->
  let d := domain_state db in let d' := domain_state db' in
  exists p e branch, evaluate history db "reparent" child (Some new) = Ok p /\ hp_blockers p = [] /\
    let old := hp_old_parent_rfc_id p in
    revisions_of d [old; child; new] base /\ hs_status (hp_history_authority p) = "READY" /\
    (forall f, review = Some f -> hp_review_fingerprint p = Some f) /\ (hp_review_required p = true -> is_Some review) /\
    fo_parent (forest_of d) !! child = Some old /\ rfc_hierarchy_edges d !! hp_old_edge_id p = Some e /\
    d' = set_rfcs (updated (fun id _ => existsb (String.eqb id) [old; child; new]) (touch_rfc (now clock)) (rfcs d))
      (set_edges (<[edge_id fresh := new_edge clock command new child]>
        (<[hp_old_edge_id p := closed_edge (now clock) command e]> (rfc_hierarchy_edges d))) d) /\
    get_branch d' new JNull 100 = Ok branch /\ b = sorted_branch branch.
Proof.
  intros Hs Hnew. unfold reparent_subordinate. cbv zeta. intros Hr.
  apply stm_bind_ok in Hr as (s1 & c & [-> [-> _]%require_uuid4_ok]%lift_ok & Hr).
  apply stm_bind_ok in Hr as (s2 & n & [-> [-> _]%require_uuid4_ok]%lift_ok & Hr).
  apply stm_bind_ok in Hr as (s3 & revisions & [-> Hrev]%lift_ok & Hr).
  apply stm_bind_ok in Hr as (s4 & why & [-> _]%lift_ok & Hr).
  apply stm_bind_ok in Hr as (s5 & rv & [-> Hreview]%lift_ok & Hr).
  assert (rv = review) as ->.
  { unfold validate_optional_sha256 in Hreview. destruct review; [|by injection Hreview].
    by apply bind_ok in Hreview as (? & _ & [= <-]). }
  apply validated_revisions in Hrev as ->.
  eapply (run_hierarchy_ok new) in Hr; [| |apply acts_reparent|apply reparent_answers|exact Hs|exact Hnew].
  2: { intros p Hp. unfold prepare_reparent in Hp. by apply stm_bind_ok in Hp as (s6 & pv & _ & [= _ <-]). }
  destruct Hr as (m & Hm & Hcase & branch & Hbr & Hb). unfold prepare_reparent in Hm.
  apply stm_bind_ok in Hm as (s6 & p & Hp & [= <- <-]).
  apply reviewed_preview_ok in Hp as (_ & He & Hsame & Hcur & Hnone).
  pose proof (evaluate_preview _ _ _ _ _ _ He) as Hpo. destruct (current_review p review Hcur) as (Hready & Hfp & Hreq).
  destruct Hcase as [[? _]|(_ & apply & db1 & db2 & events & [= <-] & E1 & Hrun & Ed)]; [done|].
  apply emitting_ok in Hrun as (d & u & Hw & ->). rewrite E1 in Hw. simpl in Ed.
  destruct (reparent_writes_ok _ _ _ _ _ _ Hw) as (e & Hedge & _ & ->).
  destruct (po_blockers _ _ _ _ Hpo new eq_refl) as (rc & rn & _ & Hrn & _).
  exists p, e, branch. rewrite (po_child _ _ _ _ Hpo) in Ed. split_and!; try done.
  - eapply preview_revisions; [exact Hpo|by exists rn|done].
  - rewrite <-active_parent_parent by apply Hs. by rewrite (po_edge _ _ _ _ Hpo).
Qed.
End reviewed.
