(* ===== verification/TicketProps.v ===== *)
(** The subordinates of different Customers that a root whose Customer is not
    known can collect, and what they block.

    The properties of the RFC hierarchy at a sample history. *)
From S2P Require Import Prelude StrictJson Identifiers JsonText JsonSorted JobsExample AuditLedger Tables.
From S2P Require Import CommandBoundary CommandReplay CommandAudit CommandDomain TicketTables RfcIdentity.
From S2P Require Import RfcHierarchy TicketLinks RfcImports TicketForest TicketEffects TicketRuns TicketReads.
From S2P Require Import TicketReviewed.

(** * Different Customers below one root *)
(** Two RFCs of different known Customers. *)
Definition customers_apart (d : TicketDb) (x y : string) : Prop := exists cx cy,
  customer_of (forest_of d) x = Some cx /\ customer_of (forest_of d) y = Some cy /\ cx <> cy.

Lemma customer_known d x c : customer_of (forest_of d) x = Some c -> exists r, rfcs d !! x = Some r /\ rf_customer_org_id r = Some c.
Proof.
  unfold customer_of. rewrite customer_lookup. destruct (rfcs d !! x) as [r|]; [|done]. simpl. by exists r.
Qed.
(** Subordinates of different Customers leave their root without one. *)
Lemma mixed_root d r x y :
  sound d -> customers_apart d x y -> fo_parent (forest_of d) !! x = Some r -> fo_parent (forest_of d) !! y = Some r ->
  customer_of (forest_of d) r = None.
Proof.
  intros Hs (cx & cy & Hx & Hy & Hne) Hpx Hpy. destruct (customer_of (forest_of d) r) as [c|] eqn:E; [|done].
  destruct Hne. transitivity c; [symmetry|]; eapply differ_known; [|exact E|exact Hx| |exact E|exact Hy];
    by apply be_customers, (so_forest _ Hs).
Qed.
Lemma mixed_conflict d r x y c :
  sound d -> customers_apart d x y -> fo_parent (forest_of d) !! x = Some r -> fo_parent (forest_of d) !! y = Some r ->
  branch_conflict d r c = true.
Proof.
  intros Hs (cx & cy & Hx & Hy & Hne) Hpx Hpy. apply not_false_is_true. intros Hc.
  pose proof (so_forest _ Hs _ _ Hpx) as Hbx. pose proof (so_forest _ Hs _ _ Hpy) as Hby.
  assert (root_of (forest_of d) r = r) as Hr by (unfold root_of; by rewrite (be_root _ _ _ Hbx)).
  assert (forall z cz, fo_parent (forest_of d) !! z = Some r -> below (forest_of d) z r ->
    customer_of (forest_of d) z = Some cz -> c = Some cz) as Hall.
  { intros z cz Hpz Hbz Hz. destruct (branch_conflict_ok d r c z (so_tables _ Hs) Hc) as [E|E]; [by rewrite Hr; right| |congruence..].
    exact (below_distinct _ _ _ Hpz Hbz). }
  pose proof (Hall x cx Hpx Hbx Hx). pose proof (Hall y cy Hpy Hby Hy). congruence.
Qed.
Lemma mixed_warnings d sr r x y c :
  sound d -> customers_apart d x y -> fo_parent (forest_of d) !! x = Some r -> fo_parent (forest_of d) !! y = Some r ->
  exists e, _customer_warnings d sr r c = Raise e.
Proof.
  intros Hs (cx & cy & Hx & Hy & Hne) Hpx Hpy.
  assert (forall z cz, fo_parent (forest_of d) !! z = Some r -> customer_of (forest_of d) z = Some cz ->
    cz ∈ known_customers d sr r c) as Hin.
  { intros z cz Hpz (rz & Hz & Ez)%customer_known. unfold known_customers. rewrite elem_of_list_to_set.
    apply list_elem_of_omap. exists (Some cz). split; [|done]. do 2 right. rewrite <-Ez.
    apply (list_elem_of_fmap_2 (fun kv : string * RfcRow => rf_customer_org_id kv.2) _ (z, rz)).
    apply branch_row_in; [by apply so_tables|done|by right]. }
  assert (({[cx; cy]} : gset string) ⊆ known_customers d sr r c) as Hsub.
  { pose proof (Hin x cx Hpx Hx). pose proof (Hin y cy Hpy Hy). set_solver. }
  apply subseteq_size in Hsub. rewrite size_union, !size_singleton in Hsub by set_solver.
  unfold _customer_warnings, forbid. rewrite (proj2 (Z.ltb_lt _ _)) by lia. by eexists.
Qed.

Section mixed.
Context `{Sha256, FloatText} (fresh : place -> string) (clock : place -> Z).
Context (audit : AuditRegistry) (audit_clock : string -> Z).
Implicit Types db : LedgerDb TicketDb.

(** A command not seen before whose preparation raises changes nothing. *)
Lemma run_refused e prepare db :
  command_receipts db !! command_id e = None -> (forall db1 p, prepare db <> (db1, Ok p)) ->
  exists er, run_ticket clock audit audit_clock e prepare db = (db, Raise er).
Proof.
  intros Hnew Hp. unfold run_ticket, ticket_execute, mbind, stM_bind.
  destruct (execute audit (clock ["receipt"]) audit_clock e prepare db) as [db1 [x|er]] eqn:E.
  - apply execute_prepared in E as [[[r Hr] _]|(db2 & p & Hprep & _)]; [congruence|by destruct (Hp db2 p)|].
    intros db2 p Hprep. by destruct (Hp db2 p).
  - apply execute_raise in E as ->. by exists er.
Qed.
Lemma mixed_preview db sr r x y origin :
  sound (domain_state db) -> customers_apart (domain_state db) x y -> fo_parent (forest_of (domain_state db)) !! x = Some r ->
  fo_parent (forest_of (domain_state db)) !! y = Some r ->
  exists e, _preview_with_reader (domain_state db) sr r origin = Raise e.
Proof.
  intros Hs Hap Hpx Hpy. unfold _preview_with_reader.
  destruct (_load_sr _ sr) as [n|e]; [simpl|by exists e]. destruct (_load_root _ r) as [rt|e]; [simpl|by exists e].
  destruct (_validate_subordinate_origin _ r origin) as [u|e]; [simpl|by exists e].
  destruct (_sr_lifecycle _ sr) as [[life review]|e]; [simpl|by exists e].
  destruct (_rfc_lifecycle _ r _) as [rlife rreview].
  destruct (mixed_warnings _ sr r x y (rf_customer_org_id rt) Hs Hap Hpx Hpy) as [e ->]. by exists e.
Qed.
Lemma add_accepted command parent child revisions reason review a rp rc db :
  tables_ok (domain_state db) -> attachable (forest_of (domain_state db)) parent child ->
  fo_parent (forest_of (domain_state db)) !! child = None ->
  rfcs (domain_state db) !! parent = Some rp -> rfcs (domain_state db) !! child = Some rc ->
  dget parent revisions = Some (rf_revision rp) -> dget child revisions = Some (rf_revision rc) ->
  exists event factory, prepare_add fresh clock command parent child revisions reason review a db = (db, Ok
    (material_prepared "rfc_hierarchy_edge" (edge_id fresh) (emitting (add_writes fresh clock command parent child) event)
      "RfcBranchV1" None factory)).
Proof.
  intros Hok [Hne _ _ Hr Hl Hu Hd] Hfree Hp Hc Ep Ec.
  unfold prepare_add, _load_rfc, read_st, lift, mbind, stM_bind. cbv zeta. rewrite Hp, Hc, Ep, Ec.
  rewrite !bool_decide_eq_true_2 by done. simpl.
  rewrite (proj2 (active_parent_none _ _ Hok) Hfree), (proj2 (has_parent_false _ _ Hok) Hr),
    (proj2 (has_children_false _ _ Hok) Hl), (proj2 (directly_linked_false _ _) Hu). simpl.
  rewrite (customer_row _ _ _ Hp), (customer_row _ _ _ Hc) in Hd. rewrite Hd. simpl. by eexists _, _.
Qed.
Lemma add_writes_forest command parent child d d' u :
  tables_ok d -> add_writes fresh clock command parent child d = (d', Ok u) ->
  forest_of d' = MkForest (fo_customer (forest_of d)) (<[child := parent]> (fo_parent (forest_of d))) (fo_links (forest_of d)).
Proof.
  intros Hok. unfold add_writes. intros (d1 & v & Hi & (d2 & k & Ht & [= <- _])%stm_bind_ok)%stm_bind_ok.
  destruct (insert_edge_forest _ _ _ _ _ Hok Hi) as [_ Ef]. rewrite (touch_forest _ _ _ _ _ Ht). exact Ef.
Qed.
Lemma mixed_preview_link db sr r x y m :
  sound (domain_state db) -> customers_apart (domain_state db) x y -> fo_parent (forest_of (domain_state db)) !! x = Some r ->
  fo_parent (forest_of (domain_state db)) !! y = Some r -> in_branch (forest_of (domain_state db)) r m ->
  exists e, preview_link (domain_state db) sr m = Raise e.
Proof.
  intros Hs Hap Hx Hy Hm. unfold preview_link. destruct (require_uuid4 sr) as [sr'|e]; [simpl|by exists e].
  destruct (require_uuid4 m) as [m'|e] eqn:Em; [simpl|by exists e]. apply require_uuid4_ok in Em as [-> _].
  pose proof (active_parent_parent _ m (so_tables _ Hs)) as Ep.
  assert (exists o, (match _active_parent (domain_state db) m with
    | None => Ok (m, None)
    | Some (_, root) => _ ← integrity (has_parent (domain_state db) root) "RFC hierarchy exceeds the accepted two-level invariant";
        Ok (root, Some m) end) = Ok (r, o) \/ exists e, (match _active_parent (domain_state db) m with
    | None => Ok (m, None)
    | Some (_, root) => _ ← integrity (has_parent (domain_state db) root) "RFC hierarchy exceeds the accepted two-level invariant";
        Ok (root, Some m) end) = Raise e) as [o [E|[e E]]]; [|rewrite E..].
  - pose proof (be_root _ _ _ (so_forest _ Hs _ _ Hx)) as Hr. destruct (_active_parent (domain_state db) m) as [[id p]|].
    + change (Some p = fo_parent (forest_of (domain_state db)) !! m) in Ep. destruct Hm as [->|Hm]; [congruence|]. assert (p = r) as -> by congruence. exists (Some m). left.
      by rewrite (proj2 (has_parent_false _ _ (so_tables _ Hs)) Hr).
    + change (None = fo_parent (forest_of (domain_state db)) !! m) in Ep. destruct Hm as [->|Hm]; [|congruence]. exists None. by left.
  - simpl. destruct (mixed_preview db sr' r x y o Hs Hap Hx Hy) as [e ->]. by exists e.
  - by exists e.
Qed.
Lemma add_writes_mixed command r x y d d' u :
  sound d -> attachable (forest_of d) r y -> fo_parent (forest_of d) !! y = None -> fo_parent (forest_of d) !! x = Some r ->
  customers_apart d x y -> add_writes fresh clock command r y d = (d', Ok u) ->
  sound d' /\ customers_apart d' x y /\ fo_parent (forest_of d') !! x = Some r /\ fo_parent (forest_of d') !! y = Some r.
Proof.
  intros Hs Hatt Hfree Hx Hap Hw. pose proof (add_writes_forest _ _ _ _ _ _ (so_tables _ Hs) Hw) as Ef.
  split; [split|split; [|split]].
  - unfold add_writes in Hw. apply stm_bind_ok in Hw as (d1 & v & Hi & Hw). apply stm_bind_ok in Hw as (d2 & k & Ht & [= <- _]).
    destruct (insert_edge_forest _ _ _ _ _ (so_tables _ Hs) Hi) as [Hok1 _]. by eapply touched_tables.
  - rewrite Ef. by apply attach_ok; [apply Hs|].
  - destruct Hap as (cx & cy & Ex & Ey & Hne). exists cx, cy. by rewrite Ef.
  - rewrite Ef. simpl. rewrite lookup_insert_ne; [done|congruence].
  - rewrite Ef. simpl. by rewrite lookup_insert_eq.
Qed.
(** With a new edge identity, and a clock that is not behind, the writes go
    through. *)
Lemma add_writes_succeed command r y d :
  tables_ok d -> attachable (forest_of d) r y -> fo_parent (forest_of d) !! y = None ->
  rfc_hierarchy_edges d !! edge_id fresh = None ->
  (forall z row, z = r \/ z = y -> rfcs d !! z = Some row -> rf_created_at_utc row <= now clock) ->
  exists d', add_writes fresh clock command r y d = (d', Ok tt).
Proof.
  intros Hok [Hne Hr Hy Hroot Hleaf Hun _] Hfree Hedge Hclock.
  apply known_rfc in Hr as [rr Hr]. apply known_rfc in Hy as [ry Hy].
  assert (0 <= now clock) as Hnow.
  { pose proof (to_rows _ Hok _ _ Hr) as Hrow. unfold rfc_row_ok in Hrow. bool_hyps.
    pose proof (Hclock r rr (or_introl eq_refl) Hr). lia. }
  unfold add_writes, insert_edge, statement, mbind, stM_bind. simpl. unfold active_edge, known. simpl.
  rewrite Hedge, Hr, Hy, (proj2 (Z.leb_le _ _) Hnow), (proj2 (String.eqb_neq _ _) Hne),
    (proj2 (has_parent_false _ _ Hok) Hroot), (proj2 (has_children_false _ _ Hok) Hleaf), (proj2 (directly_linked_false _ _) Hun),
    (proj2 (has_parent_false _ _ Hok) Hfree). simpl.
  unfold touch_rfcs, update_rfcs.
  match goal with |- context [forallb ?f ?l] => assert (forallb f l = true) as -> end; [|by eexists].
  apply forallb_forall. intros [z row] Hin. apply list_elem_of_In, list_elem_of_filter in Hin as [Hz Hrow]. apply elem_of_map_to_list in Hrow.
  apply existsb_exists in Hz as (w & Hw%list_elem_of_In & Ew%String.eqb_eq). simpl in Ew, Hrow. subst w.
  pose proof (to_rows _ Hok _ _ Hrow) as Hrok. unfold rfc_row_ok in *. simpl. bool_hyps.
  assert (rf_created_at_utc row <= now clock) as Hc.
  { apply (Hclock z row); [set_solver|done]. }
  rewrite !andb_true_iff, !Z.leb_le, !Z.ltb_lt. split_and!; try done; lia.
Qed.

(** C23.  RFCs of different known Customers can come below one root.  In sound
    tables, when [x] is below [r], whose Customer is not known, and [y] has
    another Customer than [x], no parent, no subordinates and no direct Service
    Request, then adding [y] below [r] at the current revisions is prepared as a
    change and not refused, and with a new edge identity and a clock that is not
    behind its writes succeed and leave sound tables with [x] and [y] below [r].
    Once they are, every command not seen before that sets any Customer at [r] or
    links any Service Request to [r] raises and changes nothing, and no link
    preview for [r] or a subordinate of [r] succeeds. *)
Theorem mismatched_siblings db (r x y : string)
    (Hsound : sound (domain_state db)) (Hapart : customers_apart (domain_state db) x y)
    (Hx : fo_parent (forest_of (domain_state db)) !! x = Some r) (Hroot : customer_of (forest_of (domain_state db)) r = None) :
  (fo_parent (forest_of (domain_state db)) !! y = None ->
   (forall z, fo_parent (forest_of (domain_state db)) !! z <> Some y) ->
   (forall sr, (sr, y) ∉ fo_links (forest_of (domain_state db))) ->
   forall command revisions reason review a,
     (forall z row, z = r \/ z = y -> rfcs (domain_state db) !! z = Some row ->
        dget z revisions = Some (rf_revision row) /\ rf_created_at_utc row <= now clock) ->
     rfc_hierarchy_edges (domain_state db) !! edge_id fresh = None ->
     exists event factory, prepare_add fresh clock command r y revisions reason review a db = (db, Ok
       (material_prepared "rfc_hierarchy_edge" (edge_id fresh) (emitting (add_writes fresh clock command r y) event)
         "RfcBranchV1" None factory)) /\
     exists d', add_writes fresh clock command r y (domain_state db) = (d', Ok tt) /\
       sound d' /\ customers_apart d' x y /\ fo_parent (forest_of d') !! x = Some r /\ fo_parent (forest_of d') !! y = Some r) /\
  (fo_parent (forest_of (domain_state db)) !! y = Some r ->
   (forall command base customer reason review a, command_receipts db !! command = None ->
      exists e, set_customer fresh clock audit audit_clock command r base (Some customer) reason review a db = (db, Raise e)) /\
   (forall command sr sr_base rfc_base origin review a, command_receipts db !! command = None ->
      exists e, link_service_request fresh clock audit audit_clock command sr r sr_base rfc_base origin review a db
        = (db, Raise e)) /\
   (forall sr m, in_branch (forest_of (domain_state db)) r m -> exists e, preview_link (domain_state db) sr m = Raise e)).
Proof.
  pose proof (so_forest _ Hsound _ _ Hx) as Hbelow. split.
  - intros Hfree Hleaf Hunlinked command revisions reason review a Hrev Hedge.
    destruct (proj1 (known_rfc _ _) (be_parent _ _ _ Hbelow)) as [rp Hp]. destruct Hapart as (cx & cy & Ex & Ey & Hne).
    destruct (customer_known _ _ _ Ey) as (rc & Hc & Ec).
    assert (attachable (forest_of (domain_state db)) r y) as Hatt.
    { split; [congruence|apply Hbelow|apply known_rfc; by exists rc|apply Hbelow|done|done|]. by rewrite Hroot. }
    destruct (add_accepted command r y revisions reason review a rp rc db (so_tables _ Hsound) Hatt Hfree Hp Hc)
      as (event & factory & E); [by apply (Hrev r); [left|]|by apply (Hrev y); [right|]|]. exists event, factory. split; [exact E|].
    destruct (add_writes_succeed command r y (domain_state db) (so_tables _ Hsound) Hatt Hfree Hedge) as [d' Hw];
      [by intros; eapply Hrev|]. exists d'. split; [exact Hw|]. eapply add_writes_mixed; [done..|by exists cx, cy|exact Hw].
  - intros Hy. split; [|split].
    + intros command base customer reason review a Hnew. unfold set_customer.
      apply lift_fails. intros reason_ _. apply lift_fails. intros review_ _. apply run_refused; [done|].
      intros db1 p Hprep. unfold prepare_customer in Hprep. apply stm_bind_ok in Hprep as (s & d & [= <- <-] & Hprep). cbv zeta in Hprep.
      destruct (rfcs (domain_state db) !! r) as [row|] eqn:Er; [|by apply lift_ok in Hprep as [_ ?]].
      apply stm_bind_ok in Hprep as (s1 & u1 & [-> _]%lift_ok & Hprep). apply stm_bind_ok in Hprep as (s2 & u2 & [-> _]%lift_ok & Hprep).
      rewrite (customer_row _ _ _ Er) in Hroot. rewrite Hroot, bool_decide_eq_false_2 in Hprep by done.
      rewrite (mixed_conflict _ _ _ _ (Some customer) Hsound Hapart Hx Hy) in Hprep. by apply stm_bind_ok in Hprep as (? & ? & [_ ?]%lift_ok & _).
    + intros command sr sr_base rfc_base origin review a Hnew. apply run_refused; [done|]. intros db1 p Hprep.
      unfold prepare_link in Hprep. apply stm_bind_ok in Hprep as (s & d & [= <- <-] & Hprep).
      apply stm_bind_ok in Hprep as (s1 & pv & [_ Hpv]%lift_ok & _).
      destruct (mixed_preview db sr r x y origin Hsound Hapart Hx Hy) as [e E]. congruence.
    + intros sr m Hm. by eapply mixed_preview_link.
Qed.
End mixed.

Module TicketSamples.
Import Sample.
Definition customer_a : string := uid 6 1.
Definition customer_b : string := uid 6 2.
Definition request_1 : string := uid 7 1.
Definition device_1 : string := uid 8 1.
Definition command_uid : Z -> string := uid 5.
Definition me : actor := MkActor "local_user" None.
Definition clock (p : place) : Z := 1000.
Definition no_clock (s : string) : Z := 2000.
Definition registry : AuditRegistry := tickets_audit_registry.
(** The RFC created by a call. *)
Definition rfc (call : Z) : string := fresh call ["rfc"].
Definition nothing : LedgerDb TicketDb :=
  MkLedger ∅ ∅ ∅ [] (MkTicketDb ∅ ∅ {[request_1 := MkServiceRequest (Some "12345678") None 1 0 0]} ∅ ∅ ∅ {[device_1]}
    (list_to_map [(customer_a, MkCustomer "active" 1); (customer_b, MkCustomer "active" 1)]) ∅ ∅ ∅ ∅).

Definition create (call : Z) (no : string) (customer : option string) :=
  create_or_adopt_identity (fresh call) clock registry no_clock (command_uid call) no "manual" customer me.
Definition set_to (call n base : Z) (customer : option string) :=
  set_customer (fresh call) clock registry no_clock (command_uid call) (rfc n) base customer "reviewed" None me.
Definition add (call parent child : Z) (parent_base child_base : Z) :=
  add_subordinate (fresh call) clock registry no_clock (command_uid call) (rfc parent) (rfc child)
    [(rfc parent, parent_base); (rfc child, child_base)] "grouping" None me.
Definition link (call n sr_base rfc_base : Z) :=
  link_service_request (fresh call) clock registry no_clock (command_uid call) request_1 (rfc n) sr_base rfc_base None None me.
(** A provider that knows the history. *)
Definition low_risk : RfcHistoryRiskProvider := fun _ _ =>
  Ok (HistoryRecord (MkHistory "READY" (Some "LOW") (Some 0) (Some (hex_digits 64 0)) None)).
Definition reparent (history : RfcHistoryRiskProvider) (call child new : Z) (base : list (Z * Z)) :=
  reparent_subordinate (fresh call) clock registry no_clock history (command_uid call) (rfc child) (rfc new)
    (map (fun kv => (rfc kv.1, kv.2)) base) "wrong_parent" None me.
Definition detach (history : RfcHistoryRiskProvider) (call child : Z) (base : list (Z * Z)) :=
  detach_subordinate (fresh call) clock registry no_clock history (command_uid call) (rfc child)
    (map (fun kv => (rfc kv.1, kv.2)) base) "wrong_parent" None me.

(** RFC 1 has no known Customer, RFC 2 and RFC 4 have Customer A, RFC 3 has
    Customer B. *)
Definition created : LedgerDb TicketDb :=
  (create 4 "NC20240000000004" (Some customer_a) (create 3 "NC20240000000003" (Some customer_b)
    (create 2 "NC20240000000002" (Some customer_a) (create 1 "NC20240000000001" None nothing).1).1).1).1.
Definition one_child : LedgerDb TicketDb := (add 5 1 2 1 1 created).1.
Definition two_children : LedgerDb TicketDb := (add 6 1 3 2 1 one_child).1.
Definition moved := reparent low_risk 7 2 4 [(1, 3); (2, 2); (4, 1)] two_children.
Definition status {A} (r : LedgerDb TicketDb * result A) : option exn := match r.2 with Ok _ => None | Raise e => Some e end.
Definition parents (db : LedgerDb TicketDb) : list (string * string) :=
  map (fun kv : string * EdgeRow => (eg_child_rfc_id kv.2, eg_parent_rfc_id kv.2))
    (rows_where active_edge (rfc_hierarchy_edges (domain_state db))).
End TicketSamples.

Module TicketExamples.
Import Sample TicketSamples.
Lemma no_row {A} i (x : A) : (∅ : gmap string A) !! i = Some x -> False.
Proof. apply lookup_empty_Some. Qed.
Lemma nothing_sound : sound (domain_state nothing).
Proof.
  split; [split|].
  - intros id1 e1 id2 e2 He. destruct (no_row id1 e1 He).
  - intros id1 l1 id2 l2 Hl. destruct (no_row id1 l1 Hl).
  - intros id r Hr. destruct (no_row id r Hr).
  - intros c p Hp. destruct (no_row c p Hp).
Qed.
Definition run (call : Z) (c : ticket_command) (db : LedgerDb TicketDb) : LedgerDb TicketDb :=
  run_command (fresh call) clock registry no_clock low_risk (command_uid call) me c db.
Lemma one_run call c db : ticket_run db (run call c db).
Proof. exact (ticket_run_intro (fresh call) clock registry no_clock low_risk (command_uid call) me c db). Qed.
Definition base (l : list (Z * Z)) : list (string * Z) := map (fun kv => (rfc kv.1, kv.2)) l.
Lemma created_run : star ticket_run nothing created.
Proof.
  eapply star_step; [exact (one_run 1 (CreateRfc "NC20240000000001" "manual" None) nothing)|].
  eapply star_step; [exact (one_run 2 (CreateRfc "NC20240000000002" "manual" (Some customer_a)) _)|].
  eapply star_step; [exact (one_run 3 (CreateRfc "NC20240000000003" "manual" (Some customer_b)) _)|].
  eapply star_step; [exact (one_run 4 (CreateRfc "NC20240000000004" "manual" (Some customer_a)) _)|]. apply star_refl.
Qed.
Lemma grouped_run : star ticket_run created two_children.
Proof.
  eapply star_step; [exact (one_run 5 (AddSubordinate (rfc 1) (rfc 2) (base [(1, 1); (2, 1)]) "grouping" None) created)|].
  eapply star_step; [exact (one_run 6 (AddSubordinate (rfc 1) (rfc 3) (base [(1, 2); (3, 1)]) "grouping" None) one_child)|].
  apply star_refl.
Qed.
Lemma one_child_run : star ticket_run created one_child.
Proof. apply star_one. exact (one_run 5 (AddSubordinate (rfc 1) (rfc 2) (base [(1, 1); (2, 1)]) "grouping" None) created). Qed.
Lemma moved_run : star ticket_run two_children moved.1.
Proof.
  apply star_one. exact (one_run 7 (ReparentSubordinate (rfc 2) (rfc 4) (base [(1, 3); (2, 2); (4, 1)]) "wrong_parent" None) two_children).
Qed.
Lemma run_sound db db' : sound (domain_state db) -> star ticket_run db db' -> sound (domain_state db').
Proof.
  intros [Hok Hf] Hrun. destruct (ticket_runs_evolve _ _ Hrun Hok) as [Hok' Hs _ _ _ _]. split; [exact Hok'|]. by eapply forest_runs_ok.
Qed.
Lemma two_children_sound : sound (domain_state two_children).
Proof. exact (run_sound _ _ nothing_sound (star_trans _ _ _ _ created_run grouped_run)). Qed.

Lemma one_child_sound : sound (domain_state one_child).
Proof. exact (run_sound _ _ nothing_sound (star_trans _ _ _ _ created_run one_child_run)). Qed.

(** ** The sample history, evaluated once *)
(** The parents of RFC 2 and RFC 3, and the Customers of RFC 1, RFC 2 and RFC 3. *)
Definition siblings_of (db : LedgerDb TicketDb) :=
  let f := forest_of (domain_state db) in
  (fo_parent f !! rfc 2, fo_parent f !! rfc 3, customer_of f (rfc 1), customer_of f (rfc 2), customer_of f (rfc 3)).
Definition rows_of_1_3 (db : LedgerDb TicketDb) : list (option (Z * Z)) :=
  map (fun n => (fun row => (rf_revision row, rf_created_at_utc row)) <$> rfcs (domain_state db) !! rfc n) [1; 3].
Definition page (cursor : json) : result RfcBranch := get_branch (domain_state two_children) (rfc 1) cursor 1.
Definition shown (b : result RfcBranch) : option (string * list string * bool) :=
  match b with
  | Ok b => Some (dt_hierarchy_role (br_root b), map dt_rfc_id (br_subordinates b), present_opt (br_continuation b))
  | Raise _ => None end.
Definition refused := reparent _UnavailableRfcHistoryRiskProvider 7 2 4 [(1, 3); (2, 2); (4, 1)] two_children.
Definition row_3 : RfcRow := MkRfc "NC20240000000003" (Some customer_b) "active" 2 1000 1000.
Record sample_facts : Prop := {
  sm_parents : py_sorted fst (parents two_children) = [(rfc 2, rfc 1); (rfc 3, rfc 1)];
  sm_children : child_ids (domain_state two_children) (rfc 1) = [rfc 2; rfc 3];
  sm_moved : status moved = None;
  sm_moved_parents : py_sorted fst (parents moved.1) = [(rfc 2, rfc 4); (rfc 3, rfc 1)];
  sm_revisions : map (fun n => rf_revision <$> rfcs (domain_state moved.1) !! rfc n) [1; 2; 3; 4] = [Some 4; Some 3; Some 2; Some 2];
  sm_new : command_receipts two_children !! command_uid 7 = None;
  sm_unused : command_receipts two_children !! command_uid 8 = None;
  sm_before : siblings_of one_child = (Some (rfc 1), None, None, Some customer_a, Some customer_b);
  sm_after : siblings_of two_children = (Some (rfc 1), Some (rfc 1), None, Some customer_a, Some customer_b);
  sm_alone : has_children (domain_state one_child) (rfc 3) || directly_linked (domain_state one_child) (rfc 3) = false;
  sm_current : rows_of_1_3 one_child = [Some (2, 1000); Some (1, 1000)];
  sm_new_edge : rfc_hierarchy_edges (domain_state one_child) !! edge_id (fresh 6) = None;
  sm_row : rfcs (domain_state two_children) !! rfc 3 = Some row_3;
  sm_page : shown (page JNull) = Some ("root", [rfc 2], true);
  sm_hundred : shown (get_branch (domain_state two_children) (rfc 1) JNull 100) = Some ("root", [rfc 2; rfc 3], false);
  sm_refused : status refused = Some (Soma (stale "RFC hierarchy history authority is indeterminate; refresh the hierarchy review"))
}.
Lemma ticket_sample_evaluated : sample_facts.
Proof. split; vm_compute; reflexivity. Qed.
Lemma raised {A} (r : LedgerDb TicketDb * result A) e : status r = Some e -> r = (r.1, Raise e).
Proof. destruct r as [db [a|e']]; [done|]. by intros [= ->]. Qed.
Lemma succeeded {A} (r : LedgerDb TicketDb * result A) : status r = None -> exists a, r = (r.1, Ok a).
Proof. destruct r as [db [a|e]]; [|done]. intros _. by exists a. Qed.
Lemma shown_ok b x : shown b = Some x -> exists branch, b = Ok branch.
Proof. destruct b as [branch|]; [|done]. intros _. by exists branch. Qed.

(** ** Witnesses *)
Lemma ticket_commands_refine_witness :
  py_sorted fst (parents moved.1) = [(rfc 2, rfc 4); (rfc 3, rfc 1)] /\
  tables_ok (domain_state moved.1) /\ forest_ok (forest_of (domain_state moved.1)) /\
  star forest_step (forest_of (domain_state two_children)) (forest_of (domain_state moved.1)) /\
  edges_kept (rfc_hierarchy_edges (domain_state two_children)) (rfc_hierarchy_edges (domain_state moved.1)) /\
  links_kept (sr_rfc_links (domain_state two_children)) (sr_rfc_links (domain_state moved.1)).
Proof.
  split; [exact (sm_moved_parents ticket_sample_evaluated)|].
  exact (ticket_commands_refine two_children moved.1 (so_tables _ two_children_sound) (so_forest _ two_children_sound) moved_run).
Defined.
Lemma rfc_revision_guards_witness :
  map (fun n => rf_revision <$> rfcs (domain_state moved.1) !! rfc n) [1; 2; 3; 4] = [Some 4; Some 3; Some 2; Some 2] /\
  exists r', rfcs (domain_state moved.1) !! rfc 3 = Some r' /\ rf_rfc_no r' = rf_rfc_no row_3 /\ rf_revision row_3 <= rf_revision r' /\
    (rf_revision r' = rf_revision row_3 ->
     r' = row_3 /\ same_place (forest_of (domain_state two_children)) (forest_of (domain_state moved.1)) (rfc 3)).
Proof.
  split; [exact (sm_revisions ticket_sample_evaluated)|].
  exact (rfc_revision_guards two_children moved.1 (rfc 3) row_3 (so_tables _ two_children_sound) moved_run (sm_row ticket_sample_evaluated)).
Defined.
Lemma branch_read_exact_witness :
  shown (page JNull) = Some ("root", [rfc 2], true) /\
  page JNull =
    (_ ← _validate_limit 1;
     after ← _validate_cursor JNull (rfc 1);
     r ← _root_authority (domain_state two_children) (rfc 1);
     fingerprint ← sha256_canonical_json (branch_document (domain_state two_children) (rfc 1) r);
     let rows := page_after (domain_state two_children) (rfc 1) after in
     continuation ← continuation_of (rfc 1) 1 rows;
     Ok (MkBranch (root_detail (domain_state two_children) (rfc 1) r)
       (details_of (domain_state two_children) (take (Z.to_nat 1) rows)) continuation fingerprint)).
Proof.
  split; [exact (sm_page ticket_sample_evaluated)|].
  exact (branch_read_exact (domain_state two_children) (rfc 1) JNull 1 two_children_sound).
Defined.
Lemma children_nonempty c : fo_parent (forest_of (domain_state two_children)) !! c = Some (rfc 1) -> c <> EmptyString.
Proof.
  intros Hc ->. apply (child_ids_elem _ _ _ two_children_sound) in Hc.
  rewrite (sm_children ticket_sample_evaluated) in Hc. apply elem_of_cons in Hc as [Hc|Hc]; [discriminate|].
  apply list_elem_of_singleton in Hc. discriminate.
Qed.
Lemma branch_pages_cover_witness :
  exists b, page JNull = Ok b /\ map dt_rfc_id (br_subordinates b) = [rfc 2] /\
  exists pages, read_pages (S (length (child_ids (domain_state two_children) (rfc 1)))) (domain_state two_children) (rfc 1) JNull 1 = Ok pages /\
    let ids := map dt_rfc_id (concat (map br_subordinates pages)) in
    ids = py_sorted (fun s => s) ids /\ NoDup ids /\
    (forall c, c ∈ ids <-> fo_parent (forest_of (domain_state two_children)) !! c = Some (rfc 1)) /\
    Forall (fun page => br_branch_fingerprint page = br_branch_fingerprint b /\ br_root page = br_root b) pages.
Proof.
  pose proof (sm_page ticket_sample_evaluated) as Hs. destruct (page JNull) as [b|e] eqn:E; [|discriminate].
  exists b. split; [exact eq_refl|]. split; [injection Hs as _ Hs _; exact Hs|].
  unfold page in E. exact (branch_pages_cover (domain_state two_children) (rfc 1) 1 b two_children_sound children_nonempty E).
Defined.
Lemma branch_response_fits_witness :
  exists b, get_branch (domain_state two_children) (rfc 1) JNull 100 = Ok b /\
  json_items (to_response b) <= 4151 /\ json_depth (to_response b) <= 4 /\
  forall text, canonical_json_bytes (to_response b) = Ok text -> utf8_length text <= _RFC_BRANCH_RESPONSE_JSON_BYTES ->
    stored_branch b = Ok text.
Proof.
  destruct (shown_ok _ _ (sm_hundred ticket_sample_evaluated)) as [b E]. exists b. split; [exact E|].
  exact (branch_response_fits LedgerSamples.sha_hex (domain_state two_children) (rfc 1) JNull b two_children_sound E).
Defined.
Lemma hierarchy_error_commits_nothing_witness :
  status refused = Some (Soma (stale "RFC hierarchy history authority is indeterminate; refresh the hierarchy review")) /\
  refused.1 = two_children.
Proof.
  split; [exact (sm_refused ticket_sample_evaluated)|].
  pose proof (raised refused _ (sm_refused ticket_sample_evaluated)) as E. unfold refused at 1, reparent in E.
  exact (hierarchy_error_commits_nothing (fresh 7) clock registry no_clock _UnavailableRfcHistoryRiskProvider
    LedgerSamples.sha_hex two_children (command_uid 7) me
    (ReparentSubordinate (rfc 2) (rfc 4) (map (fun kv => (rfc kv.1, kv.2)) [(1, 3); (2, 2); (4, 1)]) "wrong_parent" None) _ _ refused.1
    two_children_sound eq_refl E).
Defined.
Lemma reparent_exact_witness :
  py_sorted fst (parents moved.1) = [(rfc 2, rfc 4); (rfc 3, rfc 1)] /\
  let d := domain_state two_children in let d' := domain_state moved.1 in
  exists b p e branch, evaluate low_risk two_children "reparent" (rfc 2) (Some (rfc 4)) = Ok p /\ hp_blockers p = [] /\
    let old := hp_old_parent_rfc_id p in
    revisions_of d [old; rfc 2; rfc 4] (map (fun kv => (rfc kv.1, kv.2)) [(1, 3); (2, 2); (4, 1)]) /\ hs_status (hp_history_authority p) = "READY" /\
    (forall f, None = Some f -> hp_review_fingerprint p = Some f) /\ (hp_review_required p = true -> @is_Some string None) /\
    fo_parent (forest_of d) !! rfc 2 = Some old /\ rfc_hierarchy_edges d !! hp_old_edge_id p = Some e /\
    d' = set_rfcs (updated (fun id _ => existsb (String.eqb id) [old; rfc 2; rfc 4]) (touch_rfc (now clock)) (rfcs d))
      (set_edges (<[edge_id (fresh 7) := new_edge clock (command_uid 7) (rfc 4) (rfc 2)]>
        (<[hp_old_edge_id p := closed_edge (now clock) (command_uid 7) e]> (rfc_hierarchy_edges d))) d) /\
    get_branch d' (rfc 4) JNull 100 = Ok branch /\ b = sorted_branch branch.
Proof.
  split; [exact (sm_moved_parents ticket_sample_evaluated)|]. cbv zeta. destruct (succeeded moved (sm_moved ticket_sample_evaluated)) as [b E].
  exists b. unfold moved at 1, reparent in E. exact (reparent_exact (fresh 7) clock registry no_clock low_risk LedgerSamples.sha_hex two_children (command_uid 7)
    (rfc 2) (rfc 4) (map (fun kv => (rfc kv.1, kv.2)) [(1, 3); (2, 2); (4, 1)]) "wrong_parent" None me moved.1 b two_children_sound (sm_new ticket_sample_evaluated) E).
Defined.
Lemma siblings_ok db p1 p2 c : siblings_of db = (p1, p2, c, Some customer_a, Some customer_b) ->
  fo_parent (forest_of (domain_state db)) !! rfc 2 = p1 /\ fo_parent (forest_of (domain_state db)) !! rfc 3 = p2 /\
  customer_of (forest_of (domain_state db)) (rfc 1) = c /\ customers_apart (domain_state db) (rfc 2) (rfc 3).
Proof.
  unfold siblings_of. cbv zeta. intros [= E1 E2 E3 E4 E5]. split_and!; [exact E1|exact E2|exact E3|].
  exists customer_a, customer_b. split; [exact E4|]. split; [exact E5|discriminate].
Qed.
Lemma current_revisions (db : LedgerDb TicketDb) n m :
  rows_of_1_3 db = [Some (n, 1000); Some (m, 1000)] ->
  forall z row, z = rfc 1 \/ z = rfc 3 -> rfcs (domain_state db) !! z = Some row ->
  dget z [(rfc 1, n); (rfc 3, m)] = Some (rf_revision row) /\ rf_created_at_utc row <= now clock.
Proof.
  unfold rows_of_1_3. cbn [map]. intros E z row. injection E as E1 E3.
  intros [->| ->] Hr; [rewrite Hr in E1; injection E1 as F1 F2|rewrite Hr in E3; injection E3 as F1 F2];
    rewrite F1, F2; (split; [reflexivity|vm_compute; discriminate]).
Qed.
Lemma mismatched_siblings_witness :
  (exists p, prepare_add (fresh 6) clock (command_uid 6) (rfc 1) (rfc 3) [(rfc 1, 2); (rfc 3, 1)] "grouping" None me one_child
     = (one_child, Ok p)) /\
  exists e, set_to 8 1 3 (Some customer_a) two_children = (two_children, Raise e).
Proof.
  destruct (siblings_ok _ _ _ _ (sm_before ticket_sample_evaluated)) as (Hx & Hy & Hr & Ha).
  destruct (siblings_ok _ _ _ _ (sm_after ticket_sample_evaluated)) as (Hx2 & Hy2 & Hr2 & Ha2).
  destruct (proj1 (orb_false_iff _ _) (sm_alone ticket_sample_evaluated)) as [Hleaf Hlink]. split.
  - destruct (proj1 (mismatched_siblings (fresh 6) clock registry no_clock one_child (rfc 1) (rfc 2) (rfc 3) one_child_sound Ha Hx Hr)
      Hy (proj1 (has_children_false _ _ (so_tables _ one_child_sound)) Hleaf) (proj1 (directly_linked_false _ _) Hlink)
      (command_uid 6) [(rfc 1, 2); (rfc 3, 1)] "grouping" None me
      (current_revisions _ _ _ (sm_current ticket_sample_evaluated)) (sm_new_edge ticket_sample_evaluated)) as (event & factory & E & _).
    eexists. exact E.
  - exact (proj1 (proj2 (mismatched_siblings (fresh 8) clock registry no_clock two_children (rfc 1) (rfc 2) (rfc 3) two_children_sound
      Ha2 Hx2 Hr2) Hy2) (command_uid 8) 3 customer_a "reviewed" None me (sm_unused ticket_sample_evaluated)).
Defined.
End TicketExamples.
