(* ===== verification/CascadeScope.v ===== *)
(** What a terminal cascade covers and how it is captured.

    The tables of the accepted RFC source projection and of the terminal
    cascades ([migrations/0003_tickets_core.sql]), next to the ticket tables: the
    projection row read and written by column name, the proposals with their
    partial unique index and update trigger, the immutable members.  Then
    [RfcTerminalCascadeCaptureService] of [tickets/_rfc_terminal_cascade_state.py],
    reused over any reader by [tickets/rfc_terminal_scope.py].

    The task packet is behind an interface: the participants of a cascade. *)
From S2P Require Import Prelude StrictJson Identifiers AuditLedger Tables TicketTables RfcIdentity RfcHierarchy.

(** * The projection by column *)
Definition as_text (v : json) : option string := match v with JStr s => Some s | _ => None end.
Definition as_int (v : json) : option Z := match v with JInt n => Some n | _ => None end.
Definition empty_projection : RfcProjectionRow :=
  let none := MkEvidenced None None in let never := MkEvidenced None None in
  MkRfcProjection none never none none none none None "unknown" None None None none none none none never 1.
(** [current[column]]. *)
Definition column (p : RfcProjectionRow) (name : string) : json := default JNull (dget name (projection_columns p)).
Definition row_of_columns (f : string -> json) : RfcProjectionRow :=
  let text c e := MkEvidenced (as_text (f c)) (as_text (f e)) in
  let instant c e := MkEvidenced (as_int (f c)) (as_text (f e)) in
  MkRfcProjection
    (text "summary_text" "summary_evidence_id")
    (instant "external_created_at_utc" "external_created_evidence_id")
    (text "creator_text" "creator_evidence_id")
    (text "customer_account_number_text" "customer_account_number_evidence_id")
    (text "customer_account_name_text" "customer_account_name_evidence_id")
    (text "severity_text" "severity_evidence_id")
    (as_text (f "status_text")) (default EmptyString (as_text (f "status_class"))) (as_text (f "status_authority"))
    (as_text (f "status_evidence_id")) (as_text (f "terminal_epoch_id"))
    (text "owner_external_id_text" "owner_external_id_evidence_id")
    (text "owner_name_text" "owner_name_evidence_id")
    (text "l1_handler_name_text" "l1_handler_name_evidence_id")
    (text "l2_handler_name_text" "l2_handler_name_evidence_id")
    (instant "last_update_utc" "last_update_evidence_id")
    (default 0 (as_int (f "revision"))).
(** The columns set by [changes], the others as they were. *)
Definition changed_row (p : RfcProjectionRow) (changes : list (string * json)) : RfcProjectionRow :=
  row_of_columns (fun c => default (column p c) (dget c changes)).

Definition _STATUS_TERMINAL : list string := ["terminal_closed"; "terminal_cancelled"].
Definition terminal_class (status_class : string) : bool := set_token _STATUS_TERMINAL status_class.
Definition paired {A} (v : evidenced A) : bool := Bool.eqb (present_opt (ev_value v)) (present_opt (ev_evidence_id v)).
(** The [CHECK]s of [rfc_current_source_projection]. *)
Definition projection_row_ok (p : RfcProjectionRow) : bool :=
  forallb paired [rp_summary p; rp_creator p; rp_customer_account_number p; rp_customer_account_name p; rp_severity p;
    rp_owner_external_id p; rp_owner_name p; rp_l1_handler_name p; rp_l2_handler_name p]
  && forallb (fun v => paired v && nonneg_opt (ev_value v)) [rp_external_created_at_utc p; rp_last_update_utc p]
  && set_token ["unknown"; "pre_implement"; "implement_eligible"; "terminal_closed"; "terminal_cancelled"] (rp_status_class p)
  && token_opt ["enhanced_rfc"; "wfm_provisional"] (rp_status_authority p)
  && (if String.eqb (rp_status_class p) "unknown"
      then bool_decide (rp_status_text p = None /\ rp_status_evidence_id p = None /\ rp_status_authority p = None
        /\ rp_terminal_epoch_id p = None)
      else present_opt (rp_status_text p) && present_opt (rp_status_evidence_id p) && present_opt (rp_status_authority p))
  && Bool.eqb (terminal_class (rp_status_class p)) (present_opt (rp_terminal_epoch_id p))
  && (0 <? rp_revision p).
Definition set_projection (t : gmap string RfcProjectionRow) (d : TicketDb) : TicketDb :=
  MkTicketDb (rfcs d) (rfc_hierarchy_edges d) (service_requests d) (sr_rfc_links d) (rfc_device_reference_links d)
    (sr_device_reference_links d) (device_references d) (customer_organizations d) (sr_customer_relationships d)
    (sr_current_source_projection d) (sr_source_field_observations d) t.

(** * Cascade proposals and their members *)
Record CascadeProposalRow := MkCascadeProposal {
  cp_trigger_rfc_id : string;
  cp_terminal_epoch_id : string;
  cp_terminal_status_class : string;
  cp_terminal_status_evidence_id : string;
  cp_scope_kind : string;
  cp_scope_fingerprint : string;
  cp_proposal_state : string;
  cp_revision : Z;
  cp_created_at_utc : Z;
  cp_created_command_id : string;
  cp_executed_at_utc : option Z;
  cp_executed_command_id : option string;
  cp_superseded_at_utc : option Z;
  cp_superseded_command_id : option string
}.
Record RfcTerminalCascadeRfcMember := MkRfcMember {
  rm_rfc_id : string; rm_captured_rfc_revision : Z; rm_captured_role : string
}.
Record RfcTerminalCascadeWfmMember := MkWfmMember {
  wm_task_id : string; wm_owning_rfc_id : string; wm_captured_task_revision : Z; wm_captured_task_no : string
}.
(** A member row of a proposal. *)
Record member_row (A : Type) := MkMemberRow { mr_proposal_id : string; mr_member : A; mr_ordinal : Z }.
Arguments MkMemberRow {A}. Arguments mr_proposal_id {A}. Arguments mr_member {A}. Arguments mr_ordinal {A}.
#[export] Instance RfcMember_eq_dec : EqDecision RfcTerminalCascadeRfcMember.
Proof. solve_decision. Defined.
#[export] Instance WfmMember_eq_dec : EqDecision RfcTerminalCascadeWfmMember.
Proof. solve_decision. Defined.

(** [cd_rest] is what the participants of a cascade keep: tasks, objectives,
    communications, proofs. *)
Record CascadeDb (rest : Type) := MkCascadeDb {
  cd_tickets : TicketDb;
  cd_proposals : gmap string CascadeProposalRow;
  cd_rfc_members : list (member_row RfcTerminalCascadeRfcMember);
  cd_wfm_members : list (member_row RfcTerminalCascadeWfmMember);
  cd_rest : rest
}.
Arguments MkCascadeDb {rest}. Arguments cd_tickets {rest}. Arguments cd_proposals {rest}.
Arguments cd_rfc_members {rest}. Arguments cd_wfm_members {rest}. Arguments cd_rest {rest}.

Section tables.
Context {rest : Type}.
Implicit Types d : CascadeDb rest.
Definition cascadeM : Type -> Type := stM (CascadeDb rest).
Definition set_tickets (t : TicketDb) d : CascadeDb rest :=
  MkCascadeDb t (cd_proposals d) (cd_rfc_members d) (cd_wfm_members d) (cd_rest d).
Definition set_proposals (t : gmap string CascadeProposalRow) d : CascadeDb rest :=
  MkCascadeDb (cd_tickets d) t (cd_rfc_members d) (cd_wfm_members d) (cd_rest d).
Definition projections d : gmap string RfcProjectionRow := rfc_current_source_projection (cd_tickets d).
Definition set_projections (t : gmap string RfcProjectionRow) d : CascadeDb rest :=
  set_tickets (set_projection t (cd_tickets d)) d.

(** ** The projection *)
Definition insert_projection (rfc_id : string) (p : RfcProjectionRow) : cascadeM unit :=
  statement (fun d => negb (known (projections d) rfc_id) && known (rfcs (cd_tickets d)) rfc_id && projection_row_ok p)
    (fun d => set_projections (<[rfc_id := p]> (projections d)) d).
(** [UPDATE ... SET ..., revision=revision+1 WHERE rfc_id=? AND revision=?]. *)
Definition update_projection (rfc_id : string) (revision : Z) (changes : list (string * json)) : cascadeM Z := fun d =>
  match projections d !! rfc_id with
  | Some p =>
      if rp_revision p =? revision then
        let p' := changed_row p (dset "revision" (JInt (revision + 1)) changes) in
        if projection_row_ok p' then (set_projections (<[rfc_id := p']> (projections d)) d, Ok 1)
        else (d, Raise sql_violation)
      else (d, Ok 0)
  | None => (d, Ok 0)
  end.

(** ** Proposals *)
Definition pending (p : CascadeProposalRow) : bool := String.eqb (cp_proposal_state p) "pending".
Definition pending_of (d : CascadeDb rest) (rfc epoch : string) : list (string * CascadeProposalRow) :=
  rows_where (fun p => pending p && String.eqb (cp_trigger_rfc_id p) rfc && String.eqb (cp_terminal_epoch_id p) epoch)
    (cd_proposals d).
Definition insert_proposal (id : string) (p : CascadeProposalRow) : cascadeM unit :=
  statement (fun d => negb (known (cd_proposals d) id) && known (rfcs (cd_tickets d)) (cp_trigger_rfc_id p)
      && negb (String.eqb (cp_terminal_epoch_id p) EmptyString) && terminal_class (cp_terminal_status_class p)
      && negb (String.eqb (cp_terminal_status_evidence_id p) EmptyString)
      && set_token ["exact_rfc"; "root_branch"] (cp_scope_kind p) && (utf8_length (cp_scope_fingerprint p) =? 64)
      && pending p && (0 <? cp_revision p) && (0 <=? cp_created_at_utc p)
      && bool_decide (cp_executed_at_utc p = None /\ cp_executed_command_id p = None
           /\ cp_superseded_at_utc p = None /\ cp_superseded_command_id p = None)
      && negb (any_row (pending_of d (cp_trigger_rfc_id p) (cp_terminal_epoch_id p))))
    (fun d => set_proposals (<[id := p]> (cd_proposals d)) d).
Definition superseded_proposal (now : Z) (command : string) (p : CascadeProposalRow) : CascadeProposalRow :=
  MkCascadeProposal (cp_trigger_rfc_id p) (cp_terminal_epoch_id p) (cp_terminal_status_class p)
    (cp_terminal_status_evidence_id p) (cp_scope_kind p) (cp_scope_fingerprint p) "superseded" (cp_revision p + 1)
    (cp_created_at_utc p) (cp_created_command_id p) (cp_executed_at_utc p) (cp_executed_command_id p) (Some now) (Some command).
Definition executed_proposal (now : Z) (command : string) (p : CascadeProposalRow) : CascadeProposalRow :=
  MkCascadeProposal (cp_trigger_rfc_id p) (cp_terminal_epoch_id p) (cp_terminal_status_class p)
    (cp_terminal_status_evidence_id p) (cp_scope_kind p) (cp_scope_fingerprint p) "executed" (cp_revision p + 1)
    (cp_created_at_utc p) (cp_created_command_id p) (Some now) (Some command) (cp_superseded_at_utc p) (cp_superseded_command_id p).
(** [UPDATE ... WHERE ...id=? AND proposal_state='pending' AND revision=?]. *)
Definition decide_proposal (f : CascadeProposalRow -> CascadeProposalRow) (id : string) (revision : Z) : cascadeM Z := fun d =>
  match cd_proposals d !! id with
  | Some p =>
      if pending p && (cp_revision p =? revision)
      then (set_proposals (<[id := f p]> (cd_proposals d)) d, Ok 1) else (d, Ok 0)
  | None => (d, Ok 0)
  end.

(** ** Members *)
Definition members_of {A} (table : list (member_row A)) (proposal : string) : list (member_row A) :=
  filter (fun r => String.eqb (mr_proposal_id r) proposal = true) table.
(** [PRIMARY KEY] and [UNIQUE] of a member table. *)
Definition member_new {A} (key : A -> string) (table : list (member_row A)) (r : member_row A) : bool :=
  negb (existsb (fun r' => String.eqb (key (mr_member r')) (key (mr_member r)) || (mr_ordinal r' =? mr_ordinal r))
    (members_of table (mr_proposal_id r))).
Definition is_task_no (s : string) : bool :=
  (Z.of_nat (String.length s) =? 16) && String.prefix "TK" s && all_chars is_digit (String.substring 2 14 s).
Definition insert_rfc_member (proposal : string) (m : RfcTerminalCascadeRfcMember) (ordinal : Z) : cascadeM unit :=
  let r := MkMemberRow proposal m ordinal in
  statement (fun d => known (cd_proposals d) proposal && known (rfcs (cd_tickets d)) (rm_rfc_id m)
      && (0 <? rm_captured_rfc_revision m) && set_token ["root"; "subordinate"; "standalone"] (rm_captured_role m)
      && (0 <=? ordinal) && member_new rm_rfc_id (cd_rfc_members d) r)
    (fun d => MkCascadeDb (cd_tickets d) (cd_proposals d) (cd_rfc_members d ++ [r]) (cd_wfm_members d) (cd_rest d)).
Definition insert_wfm_member (proposal : string) (m : RfcTerminalCascadeWfmMember) (ordinal : Z) : cascadeM unit :=
  let r := MkMemberRow proposal m ordinal in
  statement (fun d => known (cd_proposals d) proposal && known (rfcs (cd_tickets d)) (wm_owning_rfc_id m)
      && (0 <? wm_captured_task_revision m) && is_task_no (wm_captured_task_no m)
      && (0 <=? ordinal) && member_new wm_task_id (cd_wfm_members d) r)
    (fun d => MkCascadeDb (cd_tickets d) (cd_proposals d) (cd_rfc_members d) (cd_wfm_members d ++ [r]) (cd_rest d)).
(** [for ordinal, member in enumerate(members): INSERT ...]. *)
Definition each_ordinal {A} (f : A -> Z -> cascadeM unit) (l : list A) : cascadeM unit :=
  each (fun nx : Z * A => f nx.2 nx.1) (imap (fun n x => (Z.of_nat n, x)) l).
End tables.
Arguments cascadeM : clear implicits.
Definition cascadeLM (rest : Type) : Type -> Type := ledgerM (domain := CascadeDb rest).

Definition _SCOPE_PROFILE : string := "SOMA_RFC_TERMINAL_CASCADE_SCOPE_V1".
Definition _PROPOSAL_CONTRACT_VERSION : Z := 1.
Definition cascade_stale (m : string) : SomaError := ticket_error "RFC_TERMINAL_CASCADE_STALE" m.
Definition participant_failed (m : string) : SomaError := ticket_error "RFC_TERMINAL_CASCADE_PARTICIPANT_FAILED" m.
Definition not_pending (m : string) : SomaError := ticket_error "RFC_TERMINAL_CASCADE_NOT_PENDING" m.

Record RfcTerminalCascadeScope := MkScope {
  cs_trigger_rfc_id : string;
  cs_terminal_epoch_id : string;
  cs_terminal_status_class : string;
  cs_terminal_status_evidence_id : string;
  cs_scope_kind : string;
  cs_rfc_members : list RfcTerminalCascadeRfcMember;
  cs_wfm_members : list RfcTerminalCascadeWfmMember;
  cs_scope_fingerprint : string
}.
(** ** The fingerprint of a scope *)
Definition rfc_member_payload (m : RfcTerminalCascadeRfcMember) : json :=
  JObj [("rfc_id", JStr (rm_rfc_id m)); ("captured_rfc_revision", JInt (rm_captured_rfc_revision m));
        ("captured_role", JStr (rm_captured_role m))].
Definition wfm_member_payload (m : RfcTerminalCascadeWfmMember) : json :=
  JObj [("task_id", JStr (wm_task_id m)); ("owning_rfc_id", JStr (wm_owning_rfc_id m));
        ("captured_task_revision", JInt (wm_captured_task_revision m)); ("captured_task_no", JStr (wm_captured_task_no m))].
Definition terminal_cascade_scope_payload (trigger epoch status_class evidence kind : string)
    (rfcs_ : list RfcTerminalCascadeRfcMember) (wfms : list RfcTerminalCascadeWfmMember) : json :=
  JObj [("schema", JStr _SCOPE_PROFILE); ("proposal_contract_version", JInt _PROPOSAL_CONTRACT_VERSION);
        ("trigger_rfc_id", JStr trigger); ("terminal_epoch_id", JStr epoch); ("terminal_status_class", JStr status_class);
        ("terminal_status_evidence_id", JStr evidence); ("scope_kind", JStr kind);
        ("rfc_members", JArr (map rfc_member_payload rfcs_)); ("wfm_members", JArr (map wfm_member_payload wfms))].
Definition terminal_cascade_scope_fingerprint `{Sha256} (trigger epoch status_class evidence kind : string)
    (rfcs_ : list RfcTerminalCascadeRfcMember) (wfms : list RfcTerminalCascadeWfmMember) : result string :=
  sha256_canonical_json (terminal_cascade_scope_payload trigger epoch status_class evidence kind rfcs_ wfms).

(** ** Checks of stored and supplied values *)
Definition _stored_uuid (value field : string) : result string :=
  if is_uuid4 value then Ok value else raise (PersistenceFailure ("stored " +:+ field +:+ " is not canonical UUIDv4")).
Definition _request_uuid (value field : string) : result string :=
  if is_uuid4 value then Ok value else raise (ValidationError (field +:+ " must be canonical UUIDv4")).
Definition _positive_revision (value : Z) (field : string) (participant : bool) : result Z :=
  _ ← forbid (value <=? 0) (MkSomaError
    (if participant then "RFC_TERMINAL_CASCADE_PARTICIPANT_FAILED" else "PERSISTENCE_FAILURE")
    (field +:+ " must be a positive integer") false);
  Ok value.

(** ** The RFCs of a scope *)
(** [... JOIN rfcs child ... ORDER BY child.rfc_id]: ids and revisions. *)
Definition active_children (d : TicketDb) (parent : string) : list (string * Z) :=
  py_sorted fst (omap (fun e : string * EdgeRow =>
    r ← rfcs d !! eg_child_rfc_id e.2; Some (eg_child_rfc_id e.2, rf_revision r)) (child_edges d parent)).
Definition child_member (previous : option string) (child : string * Z)
    : result (option string * RfcTerminalCascadeRfcMember) :=
  id ← _stored_uuid child.1 "RFC child identity";
  _ ← forbid (match previous with Some p => leb id p | None => false end)
    (PersistenceFailure "RFC child ordering/identity is not canonical");
  revision ← _positive_revision child.2 "stored child RFC revision" false;
  Ok (Some id, MkRfcMember id revision "subordinate").
Definition child_members (children : list (string * Z)) : result (list RfcTerminalCascadeRfcMember) :=
  '(_, members) ← foldM (fun (acc : option string * list RfcTerminalCascadeRfcMember) child =>
      '(previous, m) ← child_member acc.1 child; Ok (previous, acc.2 ++ [m])) (None, []) children;
  Ok members.
Definition _capture_rfc_scope (d : TicketDb) (trigger_rfc_id : string)
    : result (string * list RfcTerminalCascadeRfcMember) :=
  trigger ← _stored_uuid trigger_rfc_id "trigger RFC identity";
  match rfcs d !! trigger with
  | None => raise (ticket_error "NOT_FOUND" "trigger RFC does not exist")
  | Some r =>
      revision ← _positive_revision (rf_revision r) "stored RFC revision" false;
      let children := active_children d trigger in
      match _active_parent d trigger with
      | Some (_, parent) =>
          _ ← forbid (any_row children) (PersistenceFailure "RFC hierarchy violates the two-level forest invariant");
          _ ← _stored_uuid parent "RFC parent identity";
          Ok ("exact_rfc", [MkRfcMember trigger revision "subordinate"])
      | None =>
          members ← child_members children;
          Ok ("root_branch",
            MkRfcMember trigger revision (if any_row children then "root" else "standalone") :: members)
      end
  end.

(** ** The tasks of a scope *)
(** What a participant may return: a collection of members and other values,
    or something else. *)
Inductive wfm_value := WfmRecord (m : RfcTerminalCascadeWfmMember) | WfmOther.
Definition wfm_collection : Type := option (list wfm_value).
Definition wfm_key (m : RfcTerminalCascadeWfmMember) : string * string := (wm_owning_rfc_id m, wm_task_id m).
Definition participant_to (m : string) (e : exn) : exn :=
  match e with
  | Soma e => if String.eqb (code e) "VALIDATION_FAILED" then Soma (participant_failed m) else Soma e
  | PyExn k => PyExn k
  end.
Record wfm_seen := MkSeen {
  ws_task_ids : list string; ws_task_nos : list string; ws_normalized : list RfcTerminalCascadeWfmMember
}.
Definition normalize_member (rfc_ids : list string) (seen : wfm_seen) (raw : wfm_value) : result wfm_seen :=
  match raw with
  | WfmOther => raise (participant_failed "Task participant returned an invalid WFM capture member")
  | WfmRecord m =>
      let identity := participant_to "Task participant returned a non-canonical identity" in
      task_id ← rethrow identity (require_uuid4 (wm_task_id m));
      owner ← rethrow identity (require_uuid4 (wm_owning_rfc_id m));
      _ ← forbid (negb (set_token rfc_ids owner))
        (participant_failed "Task participant returned a WFM outside the captured RFC scope");
      revision ← _positive_revision (wm_captured_task_revision m) "captured Task revision" true;
      _ ← forbid (negb (is_task_no (wm_captured_task_no m)))
        (participant_failed "Task participant returned an invalid immutable WFM Task No.");
      _ ← forbid (set_token (ws_task_ids seen) task_id || set_token (ws_task_nos seen) (wm_captured_task_no m))
        (participant_failed "Task participant returned duplicate WFM identity");
      Ok (MkSeen (task_id :: ws_task_ids seen) (wm_captured_task_no m :: ws_task_nos seen)
        (ws_normalized seen ++ [MkWfmMember task_id owner revision (wm_captured_task_no m)]))
  end.
Definition _normalize_wfm_members (raw : wfm_collection) (rfc_ids : list string)
    : result (list RfcTerminalCascadeWfmMember) :=
  match raw with
  | None => raise (participant_failed "Task participant returned an invalid WFM capture collection")
  | Some l =>
      seen ← foldM (normalize_member rfc_ids) (MkSeen [] [] []) l;
      Ok (py_sorted wfm_key (ws_normalized seen))
  end.

(** [except Exception as exc: raise SomaError(...) from exc]. *)
Definition any_failure (e : SomaError) (_ : exn) : exn := Soma e.

(** * Capturing a scope *)
(** [RfcTerminalTaskParticipant]: it reads the tasks of the RFCs of a scope. *)
Class RfcTerminalTaskParticipant (rest : Type) :=
  capture_applicable_wfms : LedgerDb (CascadeDb rest) -> list string -> result wfm_collection.

Section capture.
Context `{Sha256} {rest : Type} `{!RfcTerminalTaskParticipant rest} (fresh : place -> string) (clock : place -> Z).
Implicit Types db : LedgerDb (CascadeDb rest).

Definition require_outer_receipt db (command m : string) : result unit :=
  forbid (negb (known (command_receipts db) command)) (PersistenceFailure m).
Definition _validate_terminal_projection db (trigger epoch status_class evidence : string) : result unit :=
  _ ← forbid (negb (terminal_class status_class)) (cascade_stale "terminal cascade capture requires terminal RFC status");
  _ ← forbid (String.eqb evidence EmptyString) (cascade_stale "terminal cascade capture requires exact status evidence");
  forbid (match projections (domain_state db) !! trigger with
      | Some p => negb (String.eqb (rp_status_class p) status_class
          && bool_decide (rp_status_evidence_id p = Some evidence) && bool_decide (rp_terminal_epoch_id p = Some epoch))
      | None => true end)
    (cascade_stale "terminal cascade capture no longer matches current RFC terminal evidence").
(** The scope over the RFCs and the tasks read for them. *)
Definition scope_over (trigger epoch status_class evidence kind : string) (members : list RfcTerminalCascadeRfcMember)
    (raw : result wfm_collection) : result RfcTerminalCascadeScope :=
  raw ← raw;
  wfms ← _normalize_wfm_members raw (map rm_rfc_id members);
  fingerprint ← terminal_cascade_scope_fingerprint trigger epoch status_class evidence kind members wfms;
  Ok (MkScope trigger epoch status_class evidence kind members wfms fingerprint).
Definition capture_scope db (trigger epoch status_class evidence : string) : result RfcTerminalCascadeScope :=
  _ ← _validate_terminal_projection db trigger epoch status_class evidence;
  '(kind, members) ← _capture_rfc_scope (cd_tickets (domain_state db)) trigger;
  scope_over trigger epoch status_class evidence kind members
    (rethrow (any_failure (participant_failed "Task participant failed while capturing applicable WFMs"))
      (capture_applicable_wfms db (map rm_rfc_id members))).

(** ** Writing a pending proposal; capture and refresh write it alike *)
Definition pending_proposal (scope : RfcTerminalCascadeScope) (command : string) (now : Z) : CascadeProposalRow :=
  MkCascadeProposal (cs_trigger_rfc_id scope) (cs_terminal_epoch_id scope) (cs_terminal_status_class scope)
    (cs_terminal_status_evidence_id scope) (cs_scope_kind scope) (cs_scope_fingerprint scope) "pending" 1 now command
    None None None None.
Definition _insert_replacement (id : string) (scope : RfcTerminalCascadeScope) (command : string) (now : Z)
    : cascadeM rest unit :=
  _ ← insert_proposal id (pending_proposal scope command now);
  _ ← each_ordinal (insert_rfc_member id) (cs_rfc_members scope);
  each_ordinal (insert_wfm_member id) (cs_wfm_members scope).
Definition capture_pending (trigger epoch status_class evidence command : string) : cascadeLM rest string :=
  db ← read_st;
  _ ← lift (require_outer_receipt db command
    "terminal cascade capture requires the outer accepted command receipt");
  _ ← lift (forbid (any_row (pending_of (domain_state db) trigger epoch))
    (cascade_stale "a pending terminal cascade already exists for this RFC terminal epoch"));
  scope ← lift (capture_scope db trigger epoch status_class evidence);
  let id := fresh ["proposal"] in
  _ ← on_domain (_insert_replacement id scope command (clock ["capture"]));
  mret id.
End capture.
