(* ===== verification/RfcProjection.v ===== *)
(** The accepted source projection of an RFC:
    [tickets/rfc_source_projection.py], its reader
    [tickets/queries/rfc_lifecycle.py], the provisional eligibility of
    [tickets/rfc_wfm_provisional.py] and the acceptance of an import in
    [tickets/rfc_import_mutations.py] with [tickets/rfc_import_reader.py]. *)
From S2P Require Import Prelude StrictJson Identifiers AuditLedger Tables TicketTables RfcIdentity TicketLinks.
From S2P Require Import RfcImports CascadeScope.

(** * The closed registry of accepted fields *)
Record field_spec := MkFieldSpec { fs_key : string; fs_value : string; fs_evidence : string; fs_kind : string }.
Definition _FIELD_SPECS : list field_spec := [
  MkFieldSpec "summary" "summary_text" "summary_evidence_id" "text";
  MkFieldSpec "external_created_at" "external_created_at_utc" "external_created_evidence_id" "instant";
  MkFieldSpec "creator" "creator_text" "creator_evidence_id" "text";
  MkFieldSpec "customer_account_number" "customer_account_number_text" "customer_account_number_evidence_id" "text";
  MkFieldSpec "customer_account_name" "customer_account_name_text" "customer_account_name_evidence_id" "text";
  MkFieldSpec "severity" "severity_text" "severity_evidence_id" "text";
  MkFieldSpec "status" "status_text" "status_evidence_id" "controlled";
  MkFieldSpec "owner_external_id" "owner_external_id_text" "owner_external_id_evidence_id" "text";
  MkFieldSpec "owner_name" "owner_name_text" "owner_name_evidence_id" "text";
  MkFieldSpec "l1_handler_name" "l1_handler_name_text" "l1_handler_name_evidence_id" "text";
  MkFieldSpec "l2_handler_name" "l2_handler_name_text" "l2_handler_name_evidence_id" "text";
  MkFieldSpec "last_update" "last_update_utc" "last_update_evidence_id" "instant"].
Definition _FIELD_ORDER : list string := map fs_key _FIELD_SPECS.
Definition spec_of (key : string) : option field_spec :=
  head (filter (fun s => String.eqb (fs_key s) key = true) _FIELD_SPECS).
Definition _STATUS_CLASSES : list string :=
  ["pre_implement"; "implement_eligible"; "terminal_closed"; "terminal_cancelled"].
Definition _STATUS_AUTHORITIES : list string := ["enhanced_rfc"; "wfm_provisional"].

(** A value is text or an integer. *)
Record RfcAcceptedFieldDelta := MkDelta {
  dl_field_key : string;
  dl_value_kind : string;
  dl_value : string + Z;
  dl_evidence_id : string;
  dl_status_class : option string;
  dl_status_authority : option string
}.
Definition _invalid (m : string) : SomaError := ticket_error "RFC_SOURCE_PROJECTION_INVALID" m.
Definition value_json (v : string + Z) : json := match v with inl s => JStr s | inr n => JInt n end.
(** [current[column] == delta.value]. *)
Definition same_value (v : json) (x : string + Z) : bool :=
  match v, x with JStr a, inl b => String.eqb a b | JInt a, inr b => a =? b | _, _ => false end.
Definition _validate_delta_shape (x : RfcAcceptedFieldDelta) : result field_spec :=
  match spec_of (dl_field_key x) with
  | None => raise (_invalid "RFC source field is outside the closed accepted field registry")
  | Some spec =>
      _ ← forbid (negb (String.eqb (dl_value_kind x) (fs_kind spec)))
        (_invalid "RFC source field value kind does not match the closed field registry");
      _ ← forbid (String.eqb (dl_evidence_id x) EmptyString) (_invalid "RFC source evidence identity is required");
      _ ← (if String.eqb (fs_kind spec) "instant"
        then forbid (match dl_value x with inr n => n <? 0 | inl _ => true end)
          (_invalid "RFC instant source value must be a non-negative integer")
        else forbid (match dl_value x with inl s => String.eqb s EmptyString | inr _ => true end)
          (_invalid "RFC text/controlled source value must be non-empty text"));
      _ ← (if String.eqb (dl_field_key x) "status"
        then forbid (match dl_status_class x, dl_status_authority x with
            | Some c, Some a => negb (set_token _STATUS_CLASSES c && set_token _STATUS_AUTHORITIES a)
            | _, _ => true end)
          (_invalid "RFC Status requires accepted class and source authority")
        else forbid (present_opt (dl_status_class x) || present_opt (dl_status_authority x))
          (_invalid "status classification/authority may appear only on RFC Status"));
      Ok spec
  end.

(** * The lifecycle of an RFC *)
Definition _RFC_SOURCE_STATE_COLUMNS : list string := [
  "summary_text"; "summary_evidence_id"; "external_created_at_utc"; "external_created_evidence_id"; "creator_text";
  "creator_evidence_id"; "customer_account_number_text"; "customer_account_number_evidence_id";
  "customer_account_name_text"; "customer_account_name_evidence_id"; "severity_text"; "severity_evidence_id";
  "status_text"; "status_class"; "status_authority"; "status_evidence_id"; "owner_external_id_text";
  "owner_external_id_evidence_id"; "owner_name_text"; "owner_name_evidence_id"; "l1_handler_name_text";
  "l1_handler_name_evidence_id"; "l2_handler_name_text"; "l2_handler_name_evidence_id"; "last_update_utc";
  "last_update_evidence_id"; "revision"].
Record RfcLifecycleProjection := MkLifecycle {
  lf_rfc_id : string;
  lf_accepted_source_state : list (string * json);
  lf_local_archive_state : string;
  lf_terminal_epoch_id : option string;
  lf_warnings : list string
}.
Definition _empty_source_state : list (string * json) :=
  map (fun c => (c, if String.eqb c "status_class" then JStr "unknown" else JNull)) _RFC_SOURCE_STATE_COLUMNS.
Definition accepted_source_state (p : RfcProjectionRow) : list (string * json) :=
  map (fun c => (c, column p c)) _RFC_SOURCE_STATE_COLUMNS.
Definition get_lifecycle (d : TicketDb) (rfc_id : string) : result RfcLifecycleProjection :=
  match rfcs d !! rfc_id with
  | None => raise (ticket_error "NOT_FOUND" "RFC does not exist")
  | Some r =>
      let p := rfc_current_source_projection d !! rfc_id in
      _ ← forbid (unresolved_customer d (rf_customer_org_id r))
        (PersistenceFailure "RFC Customer reference does not resolve");
      Ok (MkLifecycle rfc_id match p with Some p => accepted_source_state p | None => _empty_source_state end
        (rf_local_archive_state r) (p ≫= rp_terminal_epoch_id)
        (customer_warnings (rf_customer_org_id r) (customer_state d (rf_customer_org_id r))))
  end.

(** * Which fields change *)
(** [RfcSourceEvidenceProvider]: it resolves a delta to the accepted evidence. *)
Class RfcSourceEvidenceProvider (rest : Type) :=
  validate_accepted_delta : LedgerDb (CascadeDb rest) -> string -> RfcAcceptedFieldDelta -> string -> result string.
Record acceptance := MkAcceptance {
  ap_seen : list string;
  ap_changes : list (string * json);
  ap_changed_fields : list string;
  ap_evidence_ids : list string;
  ap_status : option RfcAcceptedFieldDelta
}.
Definition nothing_accepted : acceptance := MkAcceptance [] [] [] [] None.
Definition superseded_authority (current : option RfcProjectionRow) (x : RfcAcceptedFieldDelta) : bool :=
  bool_decide ((current ≫= rp_status_authority) = Some "enhanced_rfc")
  && bool_decide (dl_status_authority x = Some "wfm_provisional").
Definition same_status (current : option RfcProjectionRow) (x : RfcAcceptedFieldDelta) : bool :=
  match current with
  | Some p => same_value (column p "status_text") (dl_value x)
      && bool_decide (Some (rp_status_class p) = dl_status_class x) && bool_decide (rp_status_authority p = dl_status_authority x)
  | None => false
  end.
(** [changes[value_column] = ...; changes[evidence_column] = ...]. *)
Definition set_field (spec : field_spec) (x : RfcAcceptedFieldDelta) (changes : list (string * json)) : list (string * json) :=
  dset (fs_evidence spec) (JStr (dl_evidence_id x)) (dset (fs_value spec) (value_json (dl_value x)) changes).
Definition accept_field (acc : acceptance) (x : RfcAcceptedFieldDelta) (changes : list (string * json))
    (status : option RfcAcceptedFieldDelta) : acceptance :=
  MkAcceptance (ap_seen acc) changes (ap_changed_fields acc ++ [dl_field_key x]) (ap_evidence_ids acc ++ [dl_evidence_id x]) status.
Definition accept_delta {rest} `{!RfcSourceEvidenceProvider rest} (db : LedgerDb (CascadeDb rest)) (rfc_id : string)
    (current : option RfcProjectionRow) (acc : acceptance) (x : RfcAcceptedFieldDelta) : result acceptance :=
  spec ← _validate_delta_shape x;
  _ ← forbid (set_token (ap_seen acc) (dl_field_key x))
    (_invalid "RFC source delta set contains the same field more than once");
  let acc := MkAcceptance (dl_field_key x :: ap_seen acc) (ap_changes acc) (ap_changed_fields acc) (ap_evidence_ids acc)
    (ap_status acc) in
  state ← validate_accepted_delta db rfc_id x (dl_evidence_id x);
  _ ← forbid (negb (String.eqb state "VALID"))
    (_invalid "RFC source delta no longer resolves to exact accepted LLD-04 evidence");
  if String.eqb (dl_field_key x) "status" then
    if superseded_authority current x || same_status current x then Ok acc
    else Ok (accept_field acc x
      (dset "status_authority" (jopt JStr (dl_status_authority x))
        (dset "status_class" (jopt JStr (dl_status_class x)) (set_field spec x (ap_changes acc)))) (Some x))
  else if match current with Some p => same_value (column p (fs_value spec)) (dl_value x) | None => false end
  then Ok acc
  else Ok (accept_field acc x (set_field spec x (ap_changes acc)) (ap_status acc)).

(** * Applying accepted deltas *)
Record RfcSourceProjectionApplyResult := MkApplied {
  ar_lifecycle_projection : RfcLifecycleProjection;
  ar_changed_field_keys : list string;
  ar_source_evidence_ids : list string;
  ar_pending_cascade_proposal_id : option string;
  ar_no_change : bool;
  ar_result_refs : list AuditResultRef;
  ar_audit_events : list AuditEventInput
}.
(** [RfcTerminalCascadeCaptureParticipant]: [capture_pending] of the trigger, its
    epoch, status class, evidence and command; the provisional service has none. *)
Definition terminal_capture (rest : Type) : Type :=
  option (string -> string -> string -> string -> string -> cascadeLM rest string).
Definition missing_epoch : SomaError := PersistenceFailure "terminal RFC projection is missing terminal epoch identity".

Section projection.
Context `{Sha256} {rest : Type} `{!RfcSourceEvidenceProvider rest} (fresh : place -> string) (clock : place -> Z).
Context (capture : terminal_capture rest).
Implicit Types db : LedgerDb (CascadeDb rest).

Definition _supersede_pending_for_reversal (rfc_id epoch command : string) : cascadeLM rest unit :=
  db ← read_st;
  match pending_of (domain_state db) rfc_id epoch with
  | [] => mret tt
  | (id, p) :: _ =>
      updated ← on_domain (decide_proposal (superseded_proposal (clock ["projection"]) command) id (cp_revision p));
      lift (forbid (negb (updated =? 1)) (cascade_stale "pending terminal cascade changed during reviewed reversal"))
  end.
(** The resulting epoch, and whether a cascade is to be captured. *)
Definition resulting_epoch (rfc_id : string) (prior_class : string) (prior_epoch : option string) (status_class : string)
    (command : string) (review : option string) : cascadeLM rest (option string * bool) :=
  match terminal_class prior_class, terminal_class status_class with
  | false, true =>
      _ ← lift (forbid (negb (present_opt capture))
        (participant_failed "terminal RFC source acceptance requires exact cascade capture participant"));
      mret (Some (fresh ["epoch"]), true)
  | true, true =>
      match prior_epoch with None => lift (raise missing_epoch) | Some e => mret (Some e, false) end
  | true, false =>
      _ ← lift (forbid (negb (present_opt review)) (ticket_error "RFC_STATUS_REVERSAL_REVIEW_REQUIRED"
        "terminal RFC source presentation requires exact reviewed reversal context"));
      match prior_epoch with
      | None => lift (raise missing_epoch)
      | Some e => _ ← _supersede_pending_for_reversal rfc_id e command; mret (None, false)
      end
  | false, false => mret (None, false)
  end.
Definition write_projection (rfc_id : string) (current : option RfcProjectionRow) (changes : list (string * json))
    : cascadeLM rest Z :=
  match current with
  | None =>
      _ ← on_domain (insert_projection rfc_id (changed_row empty_projection (dset "revision" (JInt 1) changes)));
      mret 1
  | Some p =>
      updated ← on_domain (update_projection rfc_id (rp_revision p) changes);
      _ ← lift (forbid (negb (updated =? 1)) (_invalid "RFC source projection changed before accepted deltas were applied"));
      mret (rp_revision p + 1)
  end.
Definition _verify_captured_proposal db (id rfc_id epoch status_class evidence command : string) : result unit :=
  let d := domain_state db in
  _ ← forbid (match cd_proposals d !! id with
      | Some p => negb (String.eqb (cp_trigger_rfc_id p) rfc_id && String.eqb (cp_terminal_epoch_id p) epoch
          && String.eqb (cp_terminal_status_class p) status_class
          && String.eqb (cp_terminal_status_evidence_id p) evidence && pending p
          && String.eqb (cp_created_command_id p) command)
      | None => true end)
    (participant_failed "terminal capture participant did not persist the exact pending proposal");
  forbid (negb (existsb (fun r => String.eqb (rm_rfc_id (mr_member r)) rfc_id) (members_of (cd_rfc_members d) id)))
    (participant_failed "terminal capture participant omitted the triggering RFC from immutable membership").
Definition capture_cascade (rfc_id epoch : string) (status : RfcAcceptedFieldDelta) (command : string) : cascadeLM rest string :=
  let status_class := default EmptyString (dl_status_class status) in
  match capture with
  | None => lift (Raise (PyExn "AssertionError"))
  | Some capture_pending =>
      id ← capture_pending rfc_id epoch status_class (dl_evidence_id status) command;
      _ ← lift (forbid (String.eqb id EmptyString)
        (participant_failed "terminal capture participant returned no pending proposal identity"));
      db ← read_st;
      _ ← lift (_verify_captured_proposal db id rfc_id epoch status_class (dl_evidence_id status) command);
      mret id
  end.
(** The changed fields and their evidence, in the order of the registry. *)
Definition ordered_fields (acc : acceptance) : list string :=
  filter (fun k => set_token (ap_changed_fields acc) k = true) _FIELD_ORDER.
Definition ordered_evidence (acc : acceptance) : list string :=
  omap (fun k => dget k (rev (zip (ap_changed_fields acc) (ap_evidence_ids acc)))) (ordered_fields acc).
Definition projection_event (command rfc_id : string) (prior : option RfcProjectionRow) (resulting_revision : Z)
    (acc : acceptance) (class_after : string) (epoch proposal review : option string) (refs : list AuditResultRef)
    (a : actor) : AuditEventInput :=
  ticket_event (fresh ["audit"]) "ticket.rfc.source_projection_applied" command "RfcSourceProjectionAuditV1" "rfc" rfc_id
    None a
    (JObj [("rfc_id", JStr rfc_id); ("prior_projection_revision", jopt JInt (rp_revision <$> prior));
       ("resulting_projection_revision", JInt resulting_revision);
       ("changed_field_keys", JArr (map JStr (ordered_fields acc)));
       ("source_evidence_ids", JArr (map JStr (ordered_evidence acc)));
       ("status_class_before", JStr (match prior with Some p => rp_status_class p | None => "unknown" end));
       ("status_class_after", JStr class_after); ("terminal_epoch_id", jopt JStr epoch);
       ("pending_cascade_proposal_id", jopt JStr proposal); ("review_fingerprint", jopt JStr review)]) refs.
Definition projection_refs (rfc_id : string) (proposal : option string) : list AuditResultRef :=
  MkResultRef "rfc_source_projection" rfc_id
    :: match proposal with Some id => [MkResultRef "rfc_terminal_cascade_proposal" id] | None => [] end.
(** The changes applied: the epoch decided first, the cascade captured last. *)
Definition apply_changes (rfc_id command : string) (current : option RfcProjectionRow) (acc : acceptance)
    (review : option string) (a : actor) : cascadeLM rest RfcSourceProjectionApplyResult :=
  let prior_class := match current with Some p => rp_status_class p | None => "unknown" end in
  let prior_epoch := current ≫= rp_terminal_epoch_id in
  '(class_after, epoch, capturing, changes) ← match ap_status acc with
    | None => mret (prior_class, prior_epoch, false, ap_changes acc)
    | Some x =>
        let status_class := default EmptyString (dl_status_class x) in
        '(epoch, capturing) ← resulting_epoch rfc_id prior_class prior_epoch status_class command review;
        mret (status_class, epoch, capturing, dset "terminal_epoch_id" (jopt JStr epoch) (ap_changes acc))
    end;
  revision ← write_projection rfc_id current changes;
  proposal ← match capturing, epoch, ap_status acc with
    | true, Some e, Some x => id ← capture_cascade rfc_id e x command; mret (Some id)
    | _, _, _ => mret None
    end;
  db ← read_st;
  lifecycle ← lift (get_lifecycle (cd_tickets (domain_state db)) rfc_id);
  let refs := projection_refs rfc_id proposal in
  mret (MkApplied lifecycle (ordered_fields acc) (ordered_evidence acc) proposal false refs
    [projection_event command rfc_id current revision acc class_after epoch proposal review refs a]).
Definition apply_accepted_field_deltas (rfc_id command : string) (deltas : list RfcAcceptedFieldDelta)
    (review : option string) (a : actor) : cascadeLM rest RfcSourceProjectionApplyResult :=
  db ← read_st;
  _ ← lift (require_outer_receipt db command "accepted RFC source projection requires the outer command receipt");
  _ ← lift (require_rfc (cd_tickets (domain_state db)) rfc_id no_rfc);
  _ ← lift (forbid (match review with Some f => negb (is_sha256 f) | None => false end)
    (_invalid "RFC source review fingerprint must be lowercase SHA-256 hex"));
  _ ← lift (forbid (count _FIELD_SPECS <? count deltas)
    (_invalid "RFC source delta set exceeds the closed field registry"));
  let current := projections (domain_state db) !! rfc_id in
  acc ← lift (foldM (accept_delta db rfc_id current) nothing_accepted deltas);
  match ap_changes acc with
  | [] =>
      lifecycle ← lift (get_lifecycle (cd_tickets (domain_state db)) rfc_id);
      mret (MkApplied lifecycle [] [] None true [] [])
  | _ => apply_changes rfc_id command current acc review a
  end.
End projection.

(** * The acceptance of an import *)
Definition _projection_payload (rfc_id : string) (p : RfcProjectionRow) : result json :=
  _ ← stored_rfc_uuid rfc_id "RFC source projection owner";
  _ ← integrity (rp_revision p <=? 0) "RFC source projection revision is invalid";
  Ok (JObj (projection_columns p)).
Definition source_acceptance_base_token `{Sha256} (d : TicketDb) (rfc_id : string) : result string :=
  id ← require_uuid4 rfc_id;
  match rfcs d !! id with
  | None => raise no_rfc
  | Some r =>
      _ ← integrity (negb (is_rfc_no (rf_rfc_no r))) "stored RFC No. is not canonical";
      projection ← match rfc_current_source_projection d !! id with
        | None => Ok JNull
        | Some p => _projection_payload id p end;
      sha256_canonical_json (JObj [("schema", JStr "SOMA_RFC_SOURCE_ACCEPTANCE_BASE_V1"); ("rfc_id", JStr id);
        ("rfc_no", JStr (rf_rfc_no r)); ("source_projection", projection)])
  end.
(** [RFC_WFM_PROVISIONAL_ELIGIBILITY_BASE_V1]. *)
Definition provisional_status (p : RfcProjectionRow) : json :=
  if String.eqb (rp_status_class p) "unknown" then JNull
  else JObj [("status_text", jopt JStr (rp_status_text p)); ("status_class", JStr (rp_status_class p));
             ("status_authority", jopt JStr (rp_status_authority p));
             ("status_evidence_id", jopt JStr (rp_status_evidence_id p))].
Definition provisional_base_token `{Sha256} (d : TicketDb) (rfc_no : string) : result string :=
  no ← validate_rfc_no rfc_no;
  '(availability, status) ← match rfc_no_row d no with
    | None => Ok ("active_or_missing", JNull)
    | Some (id, r) =>
        let archive := rf_local_archive_state r in
        _ ← forbid (negb (set_token ["archived"; "active"] archive)) (PersistenceFailure "RFC archive authority is invalid");
        Ok (if String.eqb archive "archived" then "archived" else "active_or_missing",
            match rfc_current_source_projection d !! id with None => JNull | Some p => provisional_status p end)
    end;
  sha256_canonical_json (JObj [("schema", JStr "RFC_WFM_PROVISIONAL_ELIGIBILITY_BASE_V1"); ("rfc_no", JStr no);
    ("availability", JStr availability); ("accepted_status", status)]).
Definition provisional_delta (x : RfcAcceptedFieldDelta) : bool :=
  String.eqb (dl_field_key x) "status" && String.eqb (dl_value_kind x) "controlled"
  && same_value (JStr "Implement") (dl_value x) && bool_decide (dl_status_class x = Some "implement_eligible")
  && bool_decide (dl_status_authority x = Some "wfm_provisional").
(** What stands against a provisional eligibility. *)
Definition provisional_blocked (p : RfcProjectionRow) : result unit :=
  let authority := rp_status_authority p in
  _ ← forbid (bool_decide (authority = Some "enhanced_rfc"))
    (proposal_stale "accepted Enhanced RFC status has precedence over WFM provisional eligibility");
  _ ← forbid (terminal_class (rp_status_class p))
    (proposal_stale "terminal RFC lifecycle cannot be reversed by WFM provisional eligibility");
  forbid (String.eqb (rp_status_class p) "implement_eligible" && bool_decide (authority = Some "wfm_provisional"))
    (proposal_stale "RFC is already provisionally Implement eligible").

Section acceptance.
Context `{Sha256} {rest : Type} `{!RfcSourceEvidenceProvider rest, !RfcTerminalTaskParticipant rest}.
Context (fresh : place -> string) (clock : place -> Z).
(** [RfcImportMutationService.apply_accepted_source_projection]. *)
Definition apply_accepted_source_projection (rfc_id token command : string) (deltas : list RfcAcceptedFieldDelta)
    (review : option string) (a : actor) : cascadeLM rest RfcSourceProjectionApplyResult :=
  db ← read_st;
  current ← lift (source_acceptance_base_token (cd_tickets (domain_state db)) rfc_id);
  _ ← lift (require_token current token "RFC source projection base state changed");
  apply_accepted_field_deltas fresh clock (Some (capture_pending fresh clock)) rfc_id command deltas review a.
Definition accept_provisional_implement_eligibility_from_wfm (rfc_no : string) (x : RfcAcceptedFieldDelta)
    (token command review : string) (a : actor) : cascadeLM rest (string * RfcSourceProjectionApplyResult) :=
  db ← read_st;
  let d := cd_tickets (domain_state db) in
  no ← lift (validate_rfc_no rfc_no);
  current ← lift (provisional_base_token d no);
  _ ← lift (require_token current token "WFM provisional RFC eligibility base state changed");
  match rfc_no_row d no with
  | None => lift (raise (proposal_stale "reviewed provisional RFC identity has not been created"))
  | Some (id, r) =>
      _ ← lift (forbid (negb (String.eqb (rf_local_archive_state r) "active"))
        (proposal_stale "reviewed provisional RFC is no longer active"));
      _ ← lift (forbid (negb (provisional_delta x)) (proposal_stale "WFM provisional RFC eligibility evidence is invalid"));
      _ ← lift (match rfc_current_source_projection d !! id with Some p => provisional_blocked p | None => Ok tt end);
      applied ← apply_accepted_field_deltas fresh clock None id command [x] (Some review) a;
      _ ← lift (forbid (ar_no_change applied)
        (proposal_stale "WFM provisional RFC eligibility no longer changes owner state"));
      mret (id, applied)
  end.
End acceptance.
