(* ===== verification/CascadeReview.v ===== *)
(** Reading a cascade: the pending proposal page by page, its persisted
    snapshot checked against the immutable members, and the preview across the
    participants ([tickets/queries/rfc_terminal_cascade.py]); what a review carries
    into the execution ([tickets/rfc_terminal_review.py]). *)
From S2P Require Import Prelude StrictJson Identifiers AuditLedger Tables TicketTables RfcIdentity RfcHierarchy.
From S2P Require Import CascadeScope.

Definition _PENDING_QUERY_ID : string := "GetPendingRfcTerminalCascade".
Definition _PENDING_SORT_REGISTRY_ID : string := "RFC_TERMINAL_CASCADE_MEMBER_ORDER_V1".
Definition _PENDING_FILTER_SCHEMA : string := "SOMA_RFC_TERMINAL_CASCADE_MEMBER_FILTER_V1".
Definition _PREVIEW_QUERY_ID : string := "PreviewRfcTerminalCascade".
Definition _PREVIEW_SORT_REGISTRY_ID : string := "RFC_TERMINAL_CASCADE_IMPACT_ORDER_V1".
Definition _PREVIEW_FILTER_SCHEMA : string := "SOMA_RFC_TERMINAL_CASCADE_PREVIEW_FILTER_V1".
Definition _PREVIEW_PROFILE : string := "SOMA_RFC_TERMINAL_CASCADE_PREVIEW_V1".

(** * The state of a pending proposal *)
Record RfcTerminalCascadeState := MkCascadeState {
  cx_proposal_id : string;
  cx_trigger_rfc_id : string;
  cx_state : string;
  cx_proposal_revision : Z;
  cx_terminal_epoch_id : string;
  cx_terminal_status_class : string;
  cx_terminal_status_evidence_id : string;
  cx_scope_kind : string;
  cx_scope_fingerprint : string;
  cx_captured_rfc_count : Z;
  cx_captured_wfm_count : Z
}.
Definition _state_response (s : RfcTerminalCascadeState) : json := JObj [
  ("proposal_id", JStr (cx_proposal_id s)); ("trigger_rfc_id", JStr (cx_trigger_rfc_id s)); ("state", JStr (cx_state s));
  ("proposal_revision", JInt (cx_proposal_revision s)); ("terminal_epoch_id", JStr (cx_terminal_epoch_id s));
  ("terminal_status_class", JStr (cx_terminal_status_class s));
  ("terminal_status_evidence_id", JStr (cx_terminal_status_evidence_id s)); ("scope_kind", JStr (cx_scope_kind s));
  ("scope_fingerprint", JStr (cx_scope_fingerprint s)); ("captured_rfc_count", JInt (cx_captured_rfc_count s));
  ("captured_wfm_count", JInt (cx_captured_wfm_count s))].
Definition persistence (b : bool) (m : string) : result unit := forbid b (PersistenceFailure m).
Definition _SCOPE_KINDS : list string := ["exact_rfc"; "root_branch"].
Definition _ROLES : list string := ["root"; "subordinate"; "standalone"].

Section states.
Context {rest : Type}.
Implicit Types d : CascadeDb rest.
(** The row of the proposal with the counts of its members. *)
Definition _state_from_row d (id : string) (p : CascadeProposalRow) : result RfcTerminalCascadeState :=
  let rfc_count := count (members_of (cd_rfc_members d) id) in
  proposal ← _stored_uuid id "terminal cascade proposal identity";
  trigger ← _stored_uuid (cp_trigger_rfc_id p) "terminal cascade trigger RFC identity";
  _ ← persistence (negb (pending p)) "pending terminal cascade query resolved non-pending state";
  revision ← _positive_revision (cp_revision p) "stored terminal cascade proposal revision" false;
  _ ← persistence (String.eqb (cp_terminal_epoch_id p) EmptyString) "stored terminal epoch identity must be non-empty text";
  _ ← persistence (negb (terminal_class (cp_terminal_status_class p))) "stored terminal cascade status class is invalid";
  _ ← persistence (String.eqb (cp_terminal_status_evidence_id p) EmptyString)
    "stored terminal cascade evidence identity must be non-empty text";
  _ ← persistence (negb (set_token _SCOPE_KINDS (cp_scope_kind p))) "stored terminal cascade scope kind is invalid";
  _ ← persistence (negb (is_sha256 (cp_scope_fingerprint p))) "stored terminal cascade scope fingerprint is invalid";
  _ ← persistence (rfc_count <? 1) "pending terminal cascade omitted RFC membership";
  Ok (MkCascadeState proposal trigger "pending" revision (cp_terminal_epoch_id p) (cp_terminal_status_class p)
    (cp_terminal_status_evidence_id p) (cp_scope_kind p) (cp_scope_fingerprint p) rfc_count
    (count (members_of (cd_wfm_members d) id))).
Definition _load_pending_state_by_id d (proposal_id : string) : result RfcTerminalCascadeState :=
  id ← _request_uuid proposal_id "proposal_id";
  match cd_proposals d !! id with
  | None => raise (ticket_error "NOT_FOUND" "RFC terminal cascade proposal does not exist")
  | Some p =>
      _ ← forbid (negb (pending p)) (not_pending "RFC terminal cascade proposal is not pending");
      _state_from_row d id p
  end.

(** ** The persisted snapshot *)
Record RfcTerminalCascadeProposalSnapshot := MkSnapshot {
  sn_proposal_id : string;
  sn_proposal_revision : Z;
  sn_trigger_rfc_id : string;
  sn_terminal_epoch_id : string;
  sn_terminal_status_class : string;
  sn_terminal_status_evidence_id : string;
  sn_scope_kind : string;
  sn_scope_fingerprint : string;
  sn_rfc_members : list RfcTerminalCascadeRfcMember;
  sn_wfm_members : list RfcTerminalCascadeWfmMember
}.
(** [ORDER BY ordinal ASC, ...id ASC]. *)
Definition ordered_members {A} (key : A -> string) (table : list (member_row A)) (id : string) : list (member_row A) :=
  py_sorted (fun r => (mr_ordinal r, key (mr_member r))) (members_of table id).
(** [for expected, row in enumerate(rows): ...], each checked at its ordinal. *)
Definition enumerated {A} (check : A -> result A) (what m : string) (rows : list (member_row A)) : result (list A) :=
  traverse (fun nr : Z * member_row A =>
      a ← check (mr_member nr.2);
      _ ← persistence (mr_ordinal nr.2 <? 0) ("stored " +:+ what +:+ " must be a non-negative integer");
      _ ← persistence (negb (mr_ordinal nr.2 =? nr.1)) m;
      Ok a) (imap (fun n r => (Z.of_nat n, r)) rows).
Definition stored_rfc_member (m : RfcTerminalCascadeRfcMember) : result RfcTerminalCascadeRfcMember :=
  id ← _stored_uuid (rm_rfc_id m) "captured RFC identity";
  revision ← _positive_revision (rm_captured_rfc_revision m) "stored captured RFC revision" false;
  _ ← persistence (negb (set_token _ROLES (rm_captured_role m))) "terminal cascade RFC membership order/role is invalid";
  Ok (MkRfcMember id revision (rm_captured_role m)).
Definition stored_wfm_member (m : RfcTerminalCascadeWfmMember) : result RfcTerminalCascadeWfmMember :=
  id ← _stored_uuid (wm_task_id m) "captured WFM Task identity";
  owner ← _stored_uuid (wm_owning_rfc_id m) "captured WFM owning RFC identity";
  revision ← _positive_revision (wm_captured_task_revision m) "stored captured WFM Task revision" false;
  _ ← persistence (negb (is_task_no (wm_captured_task_no m))) "terminal cascade WFM membership order/identity is invalid";
  Ok (MkWfmMember id owner revision (wm_captured_task_no m)).
(** The roles and the order of the RFCs fit the kind of the scope. *)
Definition check_scope_shape (kind trigger : string) (members : list RfcTerminalCascadeRfcMember) : result unit :=
  match members with
  | [] => Raise (PyExn "IndexError")
  | first :: children =>
      if String.eqb kind "exact_rfc" then
        persistence (any_row children || negb (String.eqb (rm_rfc_id first) trigger)
            || negb (String.eqb (rm_captured_role first) "subordinate"))
          "exact terminal cascade RFC scope is invalid"
      else
        _ ← persistence (negb (String.eqb (rm_rfc_id first) trigger)
            || negb (set_token ["root"; "standalone"] (rm_captured_role first)))
          "root-branch terminal cascade trigger membership is invalid";
        _ ← persistence (String.eqb (rm_captured_role first) "standalone" && any_row children)
          "standalone terminal cascade scope contains subordinate members";
        if String.eqb (rm_captured_role first) "root" then
          _ ← persistence (existsb (fun m => negb (String.eqb (rm_captured_role m) "subordinate")) children)
            "root terminal cascade child role is invalid";
          persistence (negb (bool_decide (map rm_rfc_id children = py_sorted (fun s => s) (map rm_rfc_id children))))
            "root terminal cascade child ordering is invalid"
        else Ok tt
  end.
Definition _persisted_snapshot `{Sha256} d (s : RfcTerminalCascadeState) : result RfcTerminalCascadeProposalSnapshot :=
  let rfc_rows := ordered_members rm_rfc_id (cd_rfc_members d) (cx_proposal_id s) in
  _ ← persistence (negb (count rfc_rows =? cx_captured_rfc_count s) || negb (any_row rfc_rows))
    "terminal cascade proposal RFC count disagrees with immutable membership";
  rfc_members ← enumerated stored_rfc_member "captured RFC ordinal"
    "terminal cascade RFC membership order/role is invalid" rfc_rows;
  _ ← check_scope_shape (cx_scope_kind s) (cx_trigger_rfc_id s) rfc_members;
  let wfm_rows := ordered_members wm_task_id (cd_wfm_members d) (cx_proposal_id s) in
  _ ← persistence (negb (count wfm_rows =? cx_captured_wfm_count s))
    "terminal cascade proposal WFM count disagrees with immutable membership";
  raw_wfms ← enumerated stored_wfm_member "captured WFM ordinal"
    "terminal cascade WFM membership order/identity is invalid" wfm_rows;
  wfms ← _normalize_wfm_members (Some (map WfmRecord raw_wfms)) (map rm_rfc_id rfc_members);
  _ ← persistence (negb (bool_decide (raw_wfms = wfms))) "persisted terminal cascade WFM ordering is non-canonical";
  recomputed ← terminal_cascade_scope_fingerprint (cx_trigger_rfc_id s) (cx_terminal_epoch_id s)
    (cx_terminal_status_class s) (cx_terminal_status_evidence_id s) (cx_scope_kind s) rfc_members wfms;
  _ ← persistence (negb (String.eqb recomputed (cx_scope_fingerprint s)))
    "persisted terminal cascade scope fingerprint disagrees with immutable members";
  Ok (MkSnapshot (cx_proposal_id s) (cx_proposal_revision s) (cx_trigger_rfc_id s) (cx_terminal_epoch_id s)
    (cx_terminal_status_class s) (cx_terminal_status_evidence_id s) (cx_scope_kind s) (cx_scope_fingerprint s)
    rfc_members wfms).

(** * The pending proposal of an RFC, page by page *)
Inductive RfcTerminalCascadeCapturedMember :=
| CapturedRfc (m : RfcTerminalCascadeRfcMember) (ordinal : Z)
| CapturedWfm (m : RfcTerminalCascadeWfmMember) (ordinal : Z).
(** [(member_kind_ordinal, ordinal, member_id)]. *)
Definition captured_key (m : RfcTerminalCascadeCapturedMember) : Z * (Z * string) :=
  match m with
  | CapturedRfc m ordinal => (0, (ordinal, rm_rfc_id m))
  | CapturedWfm m ordinal => (1, (ordinal, wm_task_id m))
  end.
Definition captured_members d (id : string) : list RfcTerminalCascadeCapturedMember :=
  py_sorted captured_key
    (map (fun r => CapturedRfc (mr_member r) (mr_ordinal r)) (members_of (cd_rfc_members d) id)
     ++ map (fun r => CapturedWfm (mr_member r) (mr_ordinal r)) (members_of (cd_wfm_members d) id)).
Definition after_key {K} `{Ord K} {A} (key : A -> K) (after : option K) (l : list A) : list A :=
  match after with None => l | Some k => filter (fun x => ltb k (key x) = true) l end.
Definition _member_rows d (id : string) (after : option (Z * (Z * string))) (limit : Z)
    : list RfcTerminalCascadeCapturedMember :=
  take (Z.to_nat (limit + 1)) (after_key captured_key after (captured_members d id)).
Definition _member_from_row (m : RfcTerminalCascadeCapturedMember) : result RfcTerminalCascadeCapturedMember :=
  match m with
  | CapturedRfc r ordinal =>
      _ ← persistence (ordinal <? 0) "stored cascade member ordinal must be a non-negative integer";
      id ← _stored_uuid (rm_rfc_id r) "cascade member identity";
      revision ← _positive_revision (rm_captured_rfc_revision r) "stored captured RFC revision" false;
      _ ← persistence (negb (set_token _ROLES (rm_captured_role r))) "captured RFC role is invalid";
      Ok (CapturedRfc (MkRfcMember id revision (rm_captured_role r)) ordinal)
  | CapturedWfm r ordinal =>
      _ ← persistence (ordinal <? 0) "stored cascade member ordinal must be a non-negative integer";
      id ← _stored_uuid (wm_task_id r) "cascade member identity";
      owner ← _stored_uuid (wm_owning_rfc_id r) "captured WFM owning RFC identity";
      revision ← _positive_revision (wm_captured_task_revision r) "stored captured WFM Task revision" false;
      _ ← persistence (negb (is_task_no (wm_captured_task_no r))) "captured WFM Task No. is invalid";
      Ok (CapturedWfm (MkWfmMember id owner revision (wm_captured_task_no r)) ordinal)
  end.
End states.

(** ** Cursors of the two readers *)
Section cursors.
Context `{Sha256}.
Definition _pending_filter_fingerprint (rfc_id proposal_id : string) (revision : Z) (scope_fingerprint : string)
    : result string :=
  sha256_canonical_json (JObj [("schema", JStr _PENDING_FILTER_SCHEMA); ("rfc_id", JStr rfc_id);
    ("proposal_id", JStr proposal_id); ("proposal_revision", JInt revision); ("scope_fingerprint", JStr scope_fingerprint)]).
Definition _preview_filter_fingerprint (proposal_id : string) (revision : Z) (preview_fingerprint : string) : result string :=
  sha256_canonical_json (JObj [("schema", JStr _PREVIEW_FILTER_SCHEMA); ("proposal_id", JStr proposal_id);
    ("proposal_revision", JInt revision); ("preview_fingerprint", JStr preview_fingerprint)]).
Definition cursor_body (query sort : string) (last_key : list json) (filter_fingerprint : string) : json := JObj [
  ("version", JInt 1); ("query_id", JStr query); ("sort_registry_id", JStr sort); ("last_key_tuple", JArr last_key);
  ("filter_fingerprint", JStr filter_fingerprint); ("null_order", JStr _NULL_ORDER)].
(** The checks both cursors share, up to the key tuple. *)
Definition cursor_key (what query sort expected_filter : string) (cursor : json) : result (list json) :=
  match cursor with
  | JObj fields =>
      _ ← forbid (negb (exact_fields fields
          ["version"; "query_id"; "sort_registry_id"; "last_key_tuple"; "filter_fingerprint"; "null_order"]))
        (ValidationError (what +:+ " cursor fields are invalid"));
      _ ← forbid (negb (equals_one (dget "version" fields)) || negb (equals_text query (dget "query_id" fields)))
        (ValidationError (what +:+ " cursor version/query is invalid"));
      _ ← forbid (negb (equals_text sort (dget "sort_registry_id" fields))
          || negb (equals_text _NULL_ORDER (dget "null_order" fields)))
        (ValidationError (what +:+ " cursor sort contract is invalid"));
      _ ← forbid (negb (equals_text expected_filter (dget "filter_fingerprint" fields)))
        (ValidationError (what +:+ " cursor filter fingerprint is stale"));
      match dget "last_key_tuple" fields with
      | Some (JArr [a; b; c]) => Ok [a; b; c]
      | _ => raise (ValidationError (what +:+ " cursor key tuple is invalid"))
      end
  | _ => raise (ValidationError (what +:+ " cursor must be an object"))
  end.
End cursors.

(** * [GetPendingRfcTerminalCascade] *)
Record RfcTerminalCascadeDetail := MkCascadeDetail {
  cdt_state : RfcTerminalCascadeState;
  cdt_members : list RfcTerminalCascadeCapturedMember;
  cdt_continuation : option json
}.
Section pending.
Context `{Sha256} {rest : Type}.
Implicit Types d : CascadeDb rest.
Definition _validate_page_size (what : string) (limit : Z) : result Z :=
  _ ← forbid ((limit <? 1) || (_MAX_LIMIT <? limit))
    (ValidationError (what +:+ " page size must be an integer from 1 through 500"));
  Ok limit.
Definition _load_pending d (rfc_id : string) : result (string * (string * CascadeProposalRow)) :=
  id ← _request_uuid rfc_id "rfc_id";
  _ ← forbid (negb (known (rfcs (cd_tickets d)) id)) (ticket_error "NOT_FOUND" "RFC does not exist");
  match rows_where (fun p => String.eqb (cp_trigger_rfc_id p) id && pending p) (cd_proposals d) with
  | [] => raise (not_pending "RFC has no current pending terminal cascade proposal")
  | row :: _ => Ok (id, row)
  end.
Definition pending_what : string := "pending RFC terminal cascade".
Definition _validate_pending_cursor (cursor : json) (rfc_id : string) (s : RfcTerminalCascadeState)
    : result (option (Z * (Z * string))) :=
  match cursor with
  | JNull => Ok None
  | _ =>
      expected ← _pending_filter_fingerprint rfc_id (cx_proposal_id s) (cx_proposal_revision s) (cx_scope_fingerprint s);
      key ← cursor_key pending_what _PENDING_QUERY_ID _PENDING_SORT_REGISTRY_ID expected cursor;
      match key with
      | [JInt kind; ordinal; member] =>
          _ ← forbid (negb ((kind =? 0) || (kind =? 1)))
            (ValidationError "pending RFC terminal cascade cursor member kind is invalid");
          match ordinal with
          | JInt n =>
              _ ← forbid (n <? 0) (ValidationError "pending RFC terminal cascade cursor ordinal is invalid");
              match member with
              | JStr s => id ← _request_uuid s "pending RFC terminal cascade cursor member identity";
                  Ok (Some (kind, (n, id)))
              | _ => raise (ValidationError
                  "pending RFC terminal cascade cursor member identity must be canonical UUIDv4")
              end
          | _ => raise (ValidationError "pending RFC terminal cascade cursor ordinal is invalid")
          end
      | _ => raise (ValidationError "pending RFC terminal cascade cursor member kind is invalid")
      end
  end.
Definition _pending_cursor_body (rfc_id : string) (s : RfcTerminalCascadeState) (last_key : Z * (Z * string)) : result json :=
  fingerprint ← _pending_filter_fingerprint rfc_id (cx_proposal_id s) (cx_proposal_revision s) (cx_scope_fingerprint s);
  Ok (cursor_body _PENDING_QUERY_ID _PENDING_SORT_REGISTRY_ID
    [JInt last_key.1; JInt last_key.2.1; JStr last_key.2.2] fingerprint).
Definition get_pending d (rfc_id : string) (cursor : json) (limit : Z) : result RfcTerminalCascadeDetail :=
  limit ← _validate_page_size "terminal cascade" limit;
  '(rfc, (id, p)) ← _load_pending d rfc_id;
  s ← _state_from_row d id p;
  _ ← persistence (negb (String.eqb (cx_trigger_rfc_id s) rfc)) "pending proposal trigger RFC disagrees with lookup RFC";
  after ← _validate_pending_cursor cursor rfc s;
  let rows := _member_rows d (cx_proposal_id s) after limit in
  let page_rows := take (Z.to_nat limit) rows in
  members ← traverse _member_from_row page_rows;
  continuation ← match limit <? count rows, last page_rows with
    | true, Some m => body ← _pending_cursor_body rfc s (captured_key m); Ok (Some body)
    | _, _ => Ok None end;
  Ok (MkCascadeDetail s members continuation).
End pending.

(** * Impacts *)
Record RfcTerminalCascadeImpactItem := MkImpact {
  ii_domain : string;
  ii_impact_kind : string;
  ii_entity_type : string;
  ii_entity_id : string;
  ii_current_state : option string;
  ii_resulting_state : option string;
  ii_current_count : option Z;
  ii_resulting_count : option Z;
  ii_attention_code : option string
}.
Inductive impact_value := ImpactRecord (i : RfcTerminalCascadeImpactItem) | ImpactOther.
(** A page of a provider, its items raw or checked. *)
Record RfcTerminalCascadeImpactProviderPage (item : Type) := MkProviderPage {
  pp_domain : string;
  pp_status : string;
  pp_exact_count : option Z;
  pp_provider_fingerprint : option string;
  pp_items : list item;
  pp_continuation_key : option (string * string);
  pp_warning_code : option string
}.
Arguments MkProviderPage {item}. Arguments pp_domain {item}. Arguments pp_status {item}. Arguments pp_exact_count {item}.
Arguments pp_provider_fingerprint {item}. Arguments pp_items {item}. Arguments pp_continuation_key {item}.
Arguments pp_warning_code {item}.
Inductive page_value := PageRecord (p : RfcTerminalCascadeImpactProviderPage impact_value) | PageOther.
Definition checked_page : Type := RfcTerminalCascadeImpactProviderPage RfcTerminalCascadeImpactItem.
Definition _TICKETS : string := "TICKETS".
Definition _TASK_DOMAIN : string := "TASKS_OBJECTIVES".
Definition _COMMUNICATION_DOMAIN : string := "COMMUNICATIONS".
Definition _DOMAIN_ORDINAL (domain : string) : Z :=
  if String.eqb domain _TICKETS then 0 else if String.eqb domain _TASK_DOMAIN then 1 else 2.
Definition _impact_key (i : RfcTerminalCascadeImpactItem) : string * string := (ii_impact_kind i, ii_entity_id i).
Definition _global_impact_key (i : RfcTerminalCascadeImpactItem) : Z * (string * string) :=
  (_DOMAIN_ORDINAL (ii_domain i), _impact_key i).
(** The closed contract of an impact. *)
Definition impact_shape (i : RfcTerminalCascadeImpactItem) (domain kind entity : string) (current resulting : list string)
    : bool :=
  String.eqb (ii_domain i) domain && String.eqb (ii_impact_kind i) kind && String.eqb (ii_entity_type i) entity
  && match ii_current_state i with Some s => set_token current s | None => false end
  && match ii_resulting_state i with Some s => set_token resulting s | None => false end
  && negb (present_opt (ii_attention_code i)).
Definition uncounted (i : RfcTerminalCascadeImpactItem) : bool :=
  negb (present_opt (ii_current_count i)) && negb (present_opt (ii_resulting_count i)).
Definition counted (i : RfcTerminalCascadeImpactItem) : bool :=
  present_opt (ii_current_count i) && present_opt (ii_resulting_count i).
Definition impact_valid (domain : string) (i : RfcTerminalCascadeImpactItem) : bool :=
  String.eqb (ii_domain i) domain &&
  (impact_shape i _TICKETS "RFC_TERMINAL_SCOPE_MEMBER" "RFC" _ROLES ["included"] && uncounted i
   || impact_shape i _TASK_DOMAIN "WFM_TERMINATION" "WFM_TASK" ["not_started"; "in_progress"] ["terminated"] && uncounted i
   || String.eqb domain _TASK_DOMAIN && String.eqb (ii_impact_kind i) "OBJECTIVE_EXECUTABLE_COUNT"
      && String.eqb (ii_entity_type i) "OBJECTIVE" && negb (present_opt (ii_current_state i))
      && negb (present_opt (ii_resulting_state i)) && counted i && token_opt ["LOST_LAST_EXECUTABLE"] (ii_attention_code i)
      && (negb (present_opt (ii_attention_code i))
          || (0 <? default 0 (ii_current_count i)) && (default 0 (ii_resulting_count i) =? 0))
   || impact_shape i _COMMUNICATION_DOMAIN "RFC_TERMINAL_SUMMARY_FREEZE" "RFC" ["live"] ["frozen"] && uncounted i
   || impact_shape i _COMMUNICATION_DOMAIN "RFC_DIRECT_LINK_CLOSE" "COMMUNICATION_LINK" ["active"] ["closed"] && uncounted i
   || impact_shape i _COMMUNICATION_DOMAIN "ORPHAN_GRACE_EVALUATION" "COMMUNICATION" ["RETAINED"]
        ["RETAINED"; "ORPHAN_PENDING_PURGE"] && counted i).
Definition _validate_nullable_count (value : option Z) (field : string) : result unit :=
  forbid (negb (nonneg_opt value)) (participant_failed (field +:+ " must be a non-negative integer or null")).
Definition _validate_impact_item (domain : string) (raw : impact_value) : result RfcTerminalCascadeImpactItem :=
  match raw with
  | ImpactOther => raise (participant_failed "terminal cascade impact participant returned wrong item type")
  | ImpactRecord i =>
      _ ← forbid (negb (String.eqb (ii_domain i) domain))
        (participant_failed "terminal cascade impact item belongs to the wrong domain");
      _ ← _request_uuid (ii_entity_id i) "terminal cascade impact entity_id";
      _ ← _validate_nullable_count (ii_current_count i) "terminal cascade current_count";
      _ ← _validate_nullable_count (ii_resulting_count i) "terminal cascade resulting_count";
      _ ← forbid (negb (impact_valid domain i))
        (participant_failed "terminal cascade impact item violates its closed contract");
      Ok i
  end.
(** [[A-Z][A-Z0-9_]{0,63}]. *)
Definition is_upper (c : Ascii.ascii) : bool := (65 <=? byte_of c) && (byte_of c <=? 90).
Definition is_warning (s : string) : bool :=
  match s with
  | String c tail => is_upper c && (Z.of_nat (String.length tail) <=? 63)
      && all_chars (fun c => is_upper c || is_digit c || is_char 95 c) tail
  | EmptyString => false
  end.
Definition failed (b : bool) (m : string) : result unit := forbid b (participant_failed m).
Definition _validate_provider_page (domain : string) (after : option (string * string)) (limit : Z) (raw : page_value)
    : result checked_page :=
  match raw with
  | PageOther => raise (participant_failed "terminal cascade preview participant returned wrong page type")
  | PageRecord p =>
      let n := count (pp_items p) in
      _ ← failed (negb (String.eqb (pp_domain p) domain) || negb (set_token ["READY"; "INDETERMINATE"] (pp_status p)))
        "terminal cascade preview participant page identity/state is invalid";
      _ ← failed (limit <? n) "terminal cascade preview participant exceeded requested page bound";
      if String.eqb (pp_status p) "INDETERMINATE" then
        _ ← failed (present_opt (pp_exact_count p) || present_opt (pp_provider_fingerprint p) || any_row (pp_items p)
            || present_opt (pp_continuation_key p)
            || match pp_warning_code p with Some w => negb (is_warning w) | None => true end)
          "indeterminate terminal cascade participant page is malformed";
        Ok (MkProviderPage (pp_domain p) (pp_status p) None None [] None (pp_warning_code p))
      else
        match pp_exact_count p with
        | None => raise (participant_failed "ready terminal cascade participant requires exact_count")
        | Some total =>
            _ ← failed (total <? 0) "ready terminal cascade participant requires exact_count";
            _ ← failed (match pp_provider_fingerprint p with Some f => negb (is_sha256 f) | None => true end)
              "ready terminal cascade participant requires exact fingerprint";
            _ ← failed (present_opt (pp_warning_code p)) "ready terminal cascade participant cannot carry warning_code";
            items ← traverse (_validate_impact_item domain) (pp_items p);
            let keys := map _impact_key items in
            _ ← failed (negb (bool_decide (keys = py_sorted (fun k => k) keys)) || negb (bool_decide (NoDup keys)))
              "terminal cascade participant impact order is invalid";
            _ ← failed (match after with Some k => existsb (fun k' => leb k' k) keys | None => false end)
              "terminal cascade participant page did not advance its keyset";
            _ ← failed (total <? n) "terminal cascade participant page exceeds exact_count";
            _ ← failed ((total =? 0) && (any_row items || present_opt (pp_continuation_key p)))
              "empty terminal cascade participant set returned page evidence";
            _ ← failed ((0 <? total) && negb (present_opt after) && negb (any_row items))
              "non-empty terminal cascade participant set returned an empty first page";
            _ ← failed (negb (present_opt after)
                && negb (Bool.eqb (n <? total) (present_opt (pp_continuation_key p))))
              "terminal cascade participant first-page count/continuation is inconsistent";
            _ ← match pp_continuation_key p with
              | Some k =>
                  _ ← failed (negb (bool_decide (last keys = Some k)))
                    "terminal cascade participant continuation key is invalid";
                  _ ← _request_uuid k.2 "terminal cascade participant continuation entity_id"; Ok tt
              | None => Ok tt end;
            Ok (MkProviderPage (pp_domain p) (pp_status p) (Some total) (pp_provider_fingerprint p) items
              (pp_continuation_key p) None)
        end
  end.

(** * The fingerprint of a preview *)
Definition page_summary (status : string) (total : option Z) (fingerprint : option string) : json :=
  JObj [("status", JStr status); ("exact_count", jopt JInt total); ("provider_fingerprint", jopt JStr fingerprint)].
Definition terminal_cascade_preview_payload (proposal : string) (revision : Z) (persisted : string)
    (current : option string) (persisted_count current_count : Z) (stale_reasons : list string)
    (task communication : checked_page) : json :=
  let summary p := page_summary (pp_status p) (pp_exact_count p) (pp_provider_fingerprint p) in
  JObj [("schema", JStr _PREVIEW_PROFILE); ("proposal_id", JStr proposal); ("proposal_revision", JInt revision);
    ("persisted_scope_fingerprint", JStr persisted); ("current_scope_fingerprint", jopt JStr current);
    ("persisted_member_count", JInt persisted_count); ("current_member_count", JInt current_count);
    ("stale_reasons", JArr (map JStr stale_reasons)); ("task_objective_preview", summary task);
    ("communication_preview", summary communication)].
Definition terminal_cascade_preview_fingerprint `{Sha256} (proposal : string) (revision : Z) (persisted : string)
    (current : option string) (persisted_count current_count : Z) (stale_reasons : list string)
    (task communication : checked_page) : result string :=
  sha256_canonical_json (terminal_cascade_preview_payload proposal revision persisted current persisted_count
    current_count stale_reasons task communication).
(** [RfcTerminalCascadeExecutionReview], with its [__post_init__]. *)
Record RfcTerminalCascadeExecutionReview := MkReview {
  er_preview_fingerprint : string;
  er_task_objective_exact_count : Z;
  er_task_objective_provider_fingerprint : string;
  er_communication_exact_count : Z;
  er_communication_provider_fingerprint : string
}.
Definition _require_sha256 (value field : string) : result unit :=
  forbid (negb (is_sha256 value)) (ValidationError (field +:+ " must be lowercase SHA-256")).
Definition review_what : string := "terminal cascade execution review ".
Definition make_review (preview : string) (tasks : Z) (task_fingerprint : string) (communications : Z)
    (communication_fingerprint : string) : result RfcTerminalCascadeExecutionReview :=
  _ ← _require_sha256 preview (review_what +:+ "preview fingerprint");
  _ ← forbid (tasks <? 0) (ValidationError (review_what +:+ "Task/Objective count must be a non-negative integer"));
  _ ← _require_sha256 task_fingerprint (review_what +:+ "Task/Objective fingerprint");
  _ ← forbid (communications <? 0) (ValidationError (review_what +:+ "Communication count must be a non-negative integer"));
  _ ← _require_sha256 communication_fingerprint (review_what +:+ "Communication fingerprint");
  Ok (MkReview preview tasks task_fingerprint communications communication_fingerprint).
Definition review_response (r : RfcTerminalCascadeExecutionReview) : json := JObj [
  ("preview_fingerprint", JStr (er_preview_fingerprint r));
  ("task_objective_exact_count", JInt (er_task_objective_exact_count r));
  ("task_objective_provider_fingerprint", JStr (er_task_objective_provider_fingerprint r));
  ("communication_exact_count", JInt (er_communication_exact_count r));
  ("communication_provider_fingerprint", JStr (er_communication_provider_fingerprint r))].

(** * [PreviewRfcTerminalCascade] *)
Record RfcTerminalCascadePreview := MkPreview {
  pv_proposal_id : string;
  pv_proposal_revision : Z;
  pv_persisted_scope_fingerprint : string;
  pv_current_scope_fingerprint : option string;
  pv_persisted_member_count : Z;
  pv_current_member_count : Z;
  pv_preview_fingerprint : string;
  pv_stale_reasons : list string;
  pv_impacts : list RfcTerminalCascadeImpactItem;
  pv_continuation : option json;
  pv_warnings : list string;
  pv_execution_ready : bool;
  pv_execution_review : option RfcTerminalCascadeExecutionReview
}.
(** What a preview asks of another packet: a page of impacts after a key. *)
Definition preview_participant (rest : Type) : Type :=
  LedgerDb (CascadeDb rest) -> RfcTerminalCascadeProposalSnapshot -> option (string * string) -> Z -> result page_value.
(** [except SomaError: raise; except BaseException: ...]. *)
Definition foreign_to (e : SomaError) (x : exn) : exn := match x with Soma _ => x | PyExn _ => Soma e end.
Definition terminal_binding {rest} (d : CascadeDb rest) (rfc_id epoch : string) : option RfcProjectionRow :=
  p ← projections d !! rfc_id;
  if bool_decide (rp_terminal_epoch_id p = Some epoch) && terminal_class (rp_status_class p) then Some p else None.

Section preview.
Context `{Sha256} {rest : Type}.
Context (snapshot_applicable_wfms : LedgerDb (CascadeDb rest) -> list string -> result wfm_collection).
Context (task communication : preview_participant rest).
Implicit Types db : LedgerDb (CascadeDb rest).

(** The scope now, in the epoch of the proposal, and whether its evidence changed. *)
Definition _current_scope db (p : RfcTerminalCascadeProposalSnapshot) : result (option RfcTerminalCascadeScope * bool) :=
  match terminal_binding (domain_state db) (sn_trigger_rfc_id p) (sn_terminal_epoch_id p) with
  | None => Ok (None, false)
  | Some row =>
      let status_class := rp_status_class row in
      evidence ← match rp_status_evidence_id row with
        | Some e => _ ← persistence (String.eqb e EmptyString)
            "stored current RFC terminal evidence identity must be non-empty text"; Ok e
        | None => raise (PersistenceFailure "stored current RFC terminal evidence identity must be non-empty text") end;
      let changed := negb (String.eqb status_class (sn_terminal_status_class p))
        || negb (String.eqb evidence (sn_terminal_status_evidence_id p)) in
      '(kind, members) ← _capture_rfc_scope (cd_tickets (domain_state db)) (sn_trigger_rfc_id p);
      scope ← scope_over (sn_trigger_rfc_id p) (sn_terminal_epoch_id p) status_class evidence kind members
        (rethrow (foreign_to (participant_failed "Task participant failed while selecting current terminal WFM scope"))
          (snapshot_applicable_wfms db (map rm_rfc_id members)));
      Ok (Some scope, changed)
  end.
Definition _ticket_impacts (scope : option RfcTerminalCascadeScope) : list RfcTerminalCascadeImpactItem :=
  match scope with
  | None => []
  | Some s => py_sorted _impact_key (map (fun m => MkImpact _TICKETS "RFC_TERMINAL_SCOPE_MEMBER" "RFC" (rm_rfc_id m)
      (Some (rm_captured_role m)) (Some "included") None None None) (cs_rfc_members s))
  end.
Definition _provider_call (participant : preview_participant rest) db (p : RfcTerminalCascadeProposalSnapshot)
    (domain : string) (after : option (string * string)) (limit : Z) : result checked_page :=
  raw ← rethrow (foreign_to (participant_failed (domain +:+ " terminal cascade preview participant failed")))
    (participant db p after limit);
  _validate_provider_page domain after limit raw.
Definition _same_provider_authority (page meta : checked_page) : result unit :=
  failed (negb (String.eqb (pp_status page) (pp_status meta) && bool_decide (pp_exact_count page = pp_exact_count meta)
      && bool_decide (pp_provider_fingerprint page = pp_provider_fingerprint meta)))
    "terminal cascade participant authority changed inside one read snapshot".
(** [bool(count or 0)]. *)
Definition some_count (p : checked_page) : bool := negb (default 0 (pp_exact_count p) =? 0).
(** One provider's part of a page: what it adds, what remains of the limit, and
    whether it has more. *)
Definition provider_part (participant : preview_participant rest) db (p : RfcTerminalCascadeProposalSnapshot)
    (domain : string) (meta : checked_page) (after : option (string * string)) (remaining : Z)
    : result (list RfcTerminalCascadeImpactItem * Z * bool) :=
  page ← _provider_call participant db p domain after remaining;
  _ ← _same_provider_authority page meta;
  Ok (pp_items page, remaining - count (pp_items page), present_opt (pp_continuation_key page)).
Definition local_after (after : option (Z * (string * string))) (domain : Z) : option (string * string) :=
  match after with Some (d, k) => if d =? domain then Some k else None | None => None end.
Definition composed (impacts : list RfcTerminalCascadeImpactItem) : result unit :=
  let keys := map _global_impact_key impacts in
  persistence (negb (bool_decide (keys = py_sorted (fun k => k) keys)) || negb (bool_decide (NoDup keys)))
    "composed terminal cascade impact order is invalid".
(** The part of the Communications, after those before it. *)
Definition communication_part db (p : RfcTerminalCascadeProposalSnapshot) (meta : checked_page)
    (after : option (Z * (string * string))) (before : list RfcTerminalCascadeImpactItem) (remaining : Z)
    : result (list RfcTerminalCascadeImpactItem * bool) :=
  '(items, _, more) ← provider_part communication db p _COMMUNICATION_DOMAIN meta (local_after after 2) remaining;
  if more : bool then Ok (before ++ items, true) else _ ← composed (before ++ items); Ok (before ++ items, false).
Definition task_part db (p : RfcTerminalCascadeProposalSnapshot) (task_meta communication_meta : checked_page)
    (after : option (Z * (string * string))) (before : list RfcTerminalCascadeImpactItem) (remaining : Z)
    : result (list RfcTerminalCascadeImpactItem * bool) :=
  '(items, remaining, more) ← provider_part task db p _TASK_DOMAIN task_meta (local_after after 1) remaining;
  if more : bool then Ok (before ++ items, true)
  else if remaining =? 0 then Ok (before ++ items, some_count communication_meta)
  else communication_part db p communication_meta after (before ++ items) remaining.
Definition _page_impacts db (p : RfcTerminalCascadeProposalSnapshot) (tickets : list RfcTerminalCascadeImpactItem)
    (task_meta communication_meta : checked_page) (after : option (Z * (string * string))) (limit : Z)
    : result (list RfcTerminalCascadeImpactItem * bool) :=
  let domain := match after with Some (d, _) => d | None => -1 end in
  if domain <=? 0 then
    let candidates := after_key _impact_key (local_after after 0) tickets in
    let taken := take (Z.to_nat limit) candidates in
    let remaining := limit - count taken in
    if count taken <? count candidates then Ok (taken, true)
    else if remaining =? 0 then Ok (taken, some_count task_meta || some_count communication_meta)
    else task_part db p task_meta communication_meta after taken remaining
  else if domain =? 1 then task_part db p task_meta communication_meta after [] limit
  else communication_part db p communication_meta after [] limit.

Definition preview_what : string := "terminal cascade preview".
Definition _validate_preview_cursor (cursor : json) (p : RfcTerminalCascadeProposalSnapshot) (fingerprint : string)
    : result (option (Z * (string * string))) :=
  match cursor with
  | JNull => Ok None
  | _ =>
      expected ← _preview_filter_fingerprint (sn_proposal_id p) (sn_proposal_revision p) fingerprint;
      key ← cursor_key preview_what _PREVIEW_QUERY_ID _PREVIEW_SORT_REGISTRY_ID expected cursor;
      match key with
      | [JInt domain; kind; entity] =>
          _ ← forbid (negb ((0 <=? domain) && (domain <=? 2)))
            (ValidationError "terminal cascade preview cursor domain is invalid");
          match kind with
          | JStr kind =>
              _ ← forbid (String.eqb kind EmptyString)
                (ValidationError "terminal cascade preview cursor impact kind is invalid");
              match entity with
              | JStr s => id ← _request_uuid s "terminal cascade preview cursor entity_id"; Ok (Some (domain, (kind, id)))
              | _ => raise (ValidationError "terminal cascade preview cursor entity_id must be canonical UUIDv4")
              end
          | _ => raise (ValidationError "terminal cascade preview cursor impact kind is invalid")
          end
      | _ => raise (ValidationError "terminal cascade preview cursor domain is invalid")
      end
  end.
Definition _preview_cursor_body (p : RfcTerminalCascadeProposalSnapshot) (fingerprint : string)
    (last_key : Z * (string * string)) : result json :=
  f ← _preview_filter_fingerprint (sn_proposal_id p) (sn_proposal_revision p) fingerprint;
  Ok (cursor_body _PREVIEW_QUERY_ID _PREVIEW_SORT_REGISTRY_ID
    [JInt last_key.1; JStr last_key.2.1; JStr last_key.2.2] f).
(** The reasons, in [_STALE_REASON_ORDER]. *)
Definition stale_reasons_of (p : RfcTerminalCascadeProposalSnapshot) (scope : option RfcTerminalCascadeScope)
    (evidence_changed : bool) : list string :=
  match scope with
  | None => ["TERMINAL_EPOCH_CHANGED"]
  | Some s => (if evidence_changed then ["TERMINAL_EVIDENCE_CHANGED"] else [])
      ++ (if String.eqb (cs_scope_fingerprint s) (sn_scope_fingerprint p) then [] else ["RFC_OR_WFM_SCOPE_CHANGED"])
  end.
Definition scope_size (s : RfcTerminalCascadeScope) : Z := count (cs_rfc_members s) + count (cs_wfm_members s).
Definition snapshot_size (p : RfcTerminalCascadeProposalSnapshot) : Z := count (sn_rfc_members p) + count (sn_wfm_members p).
Definition indeterminate (p : checked_page) : bool := String.eqb (pp_status p) "INDETERMINATE".
Definition ready_review (fingerprint : string) (task_meta communication_meta : checked_page)
    : result RfcTerminalCascadeExecutionReview :=
  match pp_exact_count task_meta, pp_provider_fingerprint task_meta, pp_exact_count communication_meta,
        pp_provider_fingerprint communication_meta with
  | Some n, Some f, Some m, Some g => make_review fingerprint n f m g
  | _, _, _, _ => raise (ValidationError (review_what +:+ "Task/Objective count must be a non-negative integer"))
  end.
Definition preview db (proposal_id : string) (cursor : json) (limit : Z) : result RfcTerminalCascadePreview :=
  limit ← _validate_page_size "terminal cascade preview" limit;
  s ← _load_pending_state_by_id (domain_state db) proposal_id;
  p ← _persisted_snapshot (domain_state db) s;
  '(scope, evidence_changed) ← _current_scope db p;
  let reasons := stale_reasons_of p scope evidence_changed in
  let current := cs_scope_fingerprint <$> scope in
  let current_count := match scope with Some c => scope_size c | None => 0 end in
  task_meta ← _provider_call task db p _TASK_DOMAIN None 1;
  communication_meta ← _provider_call communication db p _COMMUNICATION_DOMAIN None 1;
  fingerprint ← terminal_cascade_preview_fingerprint (sn_proposal_id p) (sn_proposal_revision p) (sn_scope_fingerprint p)
    current (snapshot_size p) current_count reasons task_meta communication_meta;
  after ← _validate_preview_cursor cursor p fingerprint;
  let warnings := omap (fun w => w) [pp_warning_code task_meta; pp_warning_code communication_meta] in
  let made := MkPreview (sn_proposal_id p) (sn_proposal_revision p) (sn_scope_fingerprint p) current (snapshot_size p)
    current_count fingerprint reasons in
  if indeterminate task_meta || indeterminate communication_meta then Ok (made [] None warnings false None) else
  '(impacts, more) ← _page_impacts db p (_ticket_impacts scope) task_meta communication_meta after limit;
  continuation ← match more, last impacts with
    | true, Some i => body ← _preview_cursor_body p fingerprint (_global_impact_key i); Ok (Some body)
    | _, _ => Ok None end;
  let ready := negb (any_row reasons) in
  review ← (if ready then r ← ready_review fingerprint task_meta communication_meta; Ok (Some r) else Ok None);
  Ok (made impacts continuation warnings ready review).
End preview.
