(* ===== verification/CascadeCommands.v ===== *)
(** The commands of a cascade: refresh of a pending proposal
    ([tickets/_rfc_terminal_cascade_state.py]) and the reviewed, deliberate
    execution ([tickets/_rfc_terminal_cascade_execution.py]), with their audit
    contracts ([tickets/audit_registry.py]).

    Tasks and communications take part through an interface: each revalidates
    what was reviewed and applies its part.  The proof of a deliberate action is
    validated and consumed by a provider. *)
From S2P Require Import Prelude StrictJson Identifiers AuditLedger Tables CommandBoundary TicketTables.
From S2P Require Import RfcIdentity RfcHierarchy CascadeScope CascadeReview.

(** * Audit contracts *)
Definition audit_invalid (b : bool) (m : string) : result unit := forbid b (audit_error "AUDIT_PAYLOAD_INVALID" m).
Definition uuid_in (v : option json) : bool := match v with Some (JStr s) => is_uuid4 s | _ => false end.
Definition positive_in (v : option json) : bool := match v with Some (JInt n) => 0 <? n | _ => false end.
Definition count_in (v : option json) : bool := match v with Some (JInt n) => 0 <=? n | _ => false end.
Definition text_in (v : option json) : bool := match v with Some (JStr s) => negb (String.eqb s EmptyString) | _ => false end.
Definition sha_in (v : option json) : bool := match v with Some (JStr s) => is_sha256 s | _ => false end.
(** [value not in {...}] of hashable values. *)
Definition class_in (v : option json) : result bool :=
  match v with
  | Some (JStr s) => Ok (terminal_class s)
  | Some (JArr _) | Some (JObj _) => Raise (PyExn "TypeError")
  | _ => Ok false
  end.
Definition audit_class (v : option json) (m : string) : result unit := ok ← class_in v; audit_invalid (negb ok) m.
Definition _validate_rfc_terminal_refresh_audit (p : json) : result unit :=
  let f k := jfield k p in
  _ ← audit_invalid (negb (uuid_in (f "prior_proposal_id") && uuid_in (f "replacement_proposal_id")))
    "RFC terminal refresh audit proposal identity is invalid";
  _ ← audit_invalid (match f "prior_proposal_id", f "replacement_proposal_id" with
      | Some (JStr a), Some (JStr b) => String.eqb a b | _, _ => false end)
    "RFC terminal refresh audit replacement must use a new proposal identity";
  _ ← audit_invalid (negb (positive_in (f "prior_proposal_revision")
      && match f "prior_proposal_revision", f "resulting_prior_proposal_revision" with
         | Some (JInt a), Some (JInt b) => b =? a + 1 | _, _ => false end
      && equals_one (f "replacement_proposal_revision")))
    "RFC terminal refresh audit revisions are invalid";
  _ ← audit_invalid (negb (equals_text "pending_to_superseded_with_replacement_pending" (f "state_transition")))
    "RFC terminal refresh audit transition is invalid";
  _ ← audit_invalid (negb (text_in (f "terminal_epoch_id"))) "RFC terminal refresh audit epoch is invalid";
  _ ← audit_class (f "prior_terminal_status_class") "RFC terminal refresh prior status class is invalid";
  _ ← audit_class (f "replacement_terminal_status_class") "RFC terminal refresh replacement status class is invalid";
  _ ← audit_invalid (negb (text_in (f "prior_terminal_status_evidence_id")
      && text_in (f "replacement_terminal_status_evidence_id")))
    "RFC terminal refresh audit evidence identity is invalid";
  audit_invalid (negb (sha_in (f "prior_scope_fingerprint") && sha_in (f "replacement_scope_fingerprint")))
    "RFC terminal refresh audit scope fingerprint is invalid".
Definition _validate_terminal_apply_result (v : option json) (field expected_domain : string) : result unit :=
  match v with
  | Some (JObj fields) =>
      _ ← audit_invalid (negb (exact_fields fields ["domain"; "result_ref_count"; "audit_event_count"; "result_fingerprint"]))
        (field +:+ " must be a fixed-shape participant apply summary");
      _ ← audit_invalid (negb (equals_text expected_domain (dget "domain" fields)))
        (field +:+ " belongs to the wrong participant domain");
      _ ← audit_invalid (negb (count_in (dget "result_ref_count" fields)))
        (field +:+ ".result_ref_count must be a non-negative integer");
      _ ← audit_invalid (negb (count_in (dget "audit_event_count" fields)))
        (field +:+ ".audit_event_count must be a non-negative integer");
      audit_invalid (negb (sha_in (dget "result_fingerprint" fields)))
        (field +:+ ".result_fingerprint must be lowercase SHA-256")
  | _ => audit_invalid true (field +:+ " must be a fixed-shape participant apply summary")
  end.
Definition _validate_rfc_terminal_execute_audit (p : json) : result unit :=
  let f k := jfield k p in
  _ ← audit_invalid (negb (uuid_in (f "proposal_id"))) "RFC terminal execute audit proposal identity is invalid";
  _ ← audit_invalid (negb (positive_in (f "proposal_revision"))) "RFC terminal execute audit proposal revision is invalid";
  _ ← audit_invalid (negb (text_in (f "terminal_epoch_id"))) "RFC terminal execute audit epoch is invalid";
  _ ← audit_invalid (negb (sha_in (f "scope_fingerprint") && sha_in (f "reviewed_preview_fingerprint")))
    "RFC terminal execute audit fingerprint is invalid";
  _ ← audit_invalid (negb (equals_text "pending_to_executed" (f "state_transition")))
    "RFC terminal execute audit transition is invalid";
  _ ← _validate_terminal_apply_result (f "task_objective_apply_result") "task_objective_apply_result" _TASK_DOMAIN;
  _validate_terminal_apply_result (f "communication_apply_result") "communication_apply_result" _COMMUNICATION_DOMAIN.
Definition cascade_contract (action schema : string) (fields : list string) (validate : json -> result unit)
    : (string * Z) * AuditActionContract :=
  ((action, 1), MkActionContract action 1 schema 1 (_payload schema fields) None (Some validate)).
(** The actions of the commands modelled here, after those of [tickets_audit_registry]. *)
Definition cascade_audit_registry : AuditRegistry := tickets_audit_registry ++ [
  ticket_contract "ticket.rfc.source_projection_applied" "RfcSourceProjectionAuditV1"
    ["rfc_id"; "prior_projection_revision"; "resulting_projection_revision"; "changed_field_keys"; "source_evidence_ids";
     "status_class_before"; "status_class_after"; "terminal_epoch_id"; "pending_cascade_proposal_id"; "review_fingerprint"];
  cascade_contract "ticket.rfc.terminal_cascade_refreshed" "RfcTerminalCascadeRefreshAuditV1"
    ["prior_proposal_id"; "prior_proposal_revision"; "resulting_prior_proposal_revision"; "replacement_proposal_id";
     "replacement_proposal_revision"; "terminal_epoch_id"; "prior_terminal_status_class";
     "replacement_terminal_status_class"; "prior_terminal_status_evidence_id"; "replacement_terminal_status_evidence_id";
     "prior_scope_fingerprint"; "replacement_scope_fingerprint"; "state_transition"; "reason_category"]
    _validate_rfc_terminal_refresh_audit;
  cascade_contract "ticket.rfc.terminal_cascade_executed" "RfcTerminalCascadeAuditV1"
    ["proposal_id"; "proposal_revision"; "terminal_epoch_id"; "scope_fingerprint"; "reviewed_preview_fingerprint";
     "state_transition"; "task_objective_apply_result"; "communication_apply_result"; "reason_category"]
    _validate_rfc_terminal_execute_audit].

(** * Results *)
Record RfcTerminalCascadeStateResult := MkStateResult {
  cr_state : RfcTerminalCascadeState; cr_replayed : bool; cr_no_change : bool
}.
Definition state_fields : list string :=
  ["proposal_id"; "trigger_rfc_id"; "state"; "proposal_revision"; "terminal_epoch_id"; "terminal_status_class";
   "terminal_status_evidence_id"; "scope_kind"; "scope_fingerprint"; "captured_rfc_count"; "captured_wfm_count"].
Definition replay_invalid (m : string) : SomaError := PersistenceFailure ("terminal cascade command replay " +:+ m).
Definition stored_uuid_in (v : json) (field : string) : result string :=
  match v with
  | JStr s => _stored_uuid s field
  | _ => raise (PersistenceFailure ("stored " +:+ field +:+ " is not a UUID string"))
  end.
Definition positive_int_in (v : json) (field : string) : result Z :=
  match v with
  | JInt n => _positive_revision n field false
  | _ => raise (PersistenceFailure (field +:+ " must be a positive integer"))
  end.
Definition _nonnegative_count (v : json) (field : string) : result Z :=
  match v with
  | JInt n => _ ← persistence (n <? 0) (field +:+ " must be a non-negative integer"); Ok n
  | _ => raise (PersistenceFailure (field +:+ " must be a non-negative integer"))
  end.
Definition nonempty_in (v : json) (m : string) : result string :=
  match v with
  | JStr s => _ ← forbid (String.eqb s EmptyString) (replay_invalid m); Ok s
  | _ => raise (replay_invalid m)
  end.
Definition _state_result_from_execution (x : CommandExecutionResult) : result RfcTerminalCascadeStateResult :=
  _ ← forbid (negb (String.eqb (x_response_schema x) "RfcTerminalCascadeStateV1") || negb (x_response_version x =? 1))
    (replay_invalid "response schema is invalid");
  match x_response x with
  | JObj fields =>
      _ ← forbid (negb (exact_fields fields state_fields)) (replay_invalid "response shape is invalid");
      let f k := default JNull (dget k fields) in
      id ← stored_uuid_in (f "proposal_id") "terminal cascade proposal identity";
      trigger ← stored_uuid_in (f "trigger_rfc_id") "terminal cascade trigger RFC identity";
      state ← one_of ["pending"; "executed"; "superseded"] (f "state") (replay_invalid "state is invalid");
      revision ← positive_int_in (f "proposal_revision") "terminal cascade proposal revision";
      epoch ← nonempty_in (f "terminal_epoch_id") "epoch is invalid";
      status_class ← one_of _STATUS_TERMINAL (f "terminal_status_class") (replay_invalid "status class is invalid");
      evidence ← nonempty_in (f "terminal_status_evidence_id") "evidence identity is invalid";
      kind ← one_of _SCOPE_KINDS (f "scope_kind") (replay_invalid "scope kind is invalid");
      fingerprint ← match f "scope_fingerprint" with
        | JStr s => _ ← forbid (negb (is_sha256 s)) (replay_invalid "scope fingerprint is invalid"); Ok s
        | _ => raise (replay_invalid "scope fingerprint is invalid") end;
      rfcs_ ← _nonnegative_count (f "captured_rfc_count") "terminal cascade RFC count";
      wfms ← _nonnegative_count (f "captured_wfm_count") "terminal cascade WFM count";
      _ ← forbid (rfcs_ <? 1) (replay_invalid "omitted RFC membership");
      Ok (MkStateResult (MkCascadeState id trigger state revision epoch status_class evidence kind fingerprint rfcs_ wfms)
        (replayed x) (x_no_change x))
  | _ => raise (replay_invalid "response shape is invalid")
  end.

(** * Refresh *)
Definition state_prepared {rest} (unchanged : bool) (id : string)
    (apply : option (cascadeLM rest (option (list AuditEventInput)))) (s : RfcTerminalCascadeState)
    : PreparedMutation (CascadeDb rest) :=
  if unchanged then MkPrepared true None None None "RfcTerminalCascadeStateV1" 1 (Some (_state_response s)) None None
  else MkPrepared false (Some "rfc_terminal_cascade_proposal") (Some id) apply "RfcTerminalCascadeStateV1" 1
    (Some (_state_response s)) None None.
Definition _TARGET_TYPE : string := "rfc_terminal_cascade_proposal".
Definition cascade_ref (id : string) : AuditResultRef := MkResultRef "rfc_terminal_cascade_proposal" id.

Section refresh.
Context `{Sha256, FloatText} {rest : Type} `{!RfcTerminalTaskParticipant rest}.
Context (fresh : place -> string) (clock : place -> Z) (audit : AuditRegistry) (audit_clock : string -> Z).
Implicit Types d : CascadeDb rest.

Definition load_refreshable d (id : string) : result RfcTerminalCascadeState :=
  match cd_proposals d !! id with
  | None => raise (ticket_error "NOT_FOUND" "RFC terminal cascade proposal does not exist")
  | Some p =>
      _ ← forbid (negb (pending p)) (not_pending "RFC terminal cascade proposal is not pending");
      trigger ← _stored_uuid (cp_trigger_rfc_id p) "terminal cascade trigger RFC identity";
      revision ← _positive_revision (cp_revision p) "terminal cascade proposal revision" false;
      _ ← persistence (String.eqb (cp_terminal_epoch_id p) EmptyString) "stored terminal cascade epoch is invalid";
      _ ← persistence (negb (terminal_class (cp_terminal_status_class p))) "stored terminal cascade status class is invalid";
      _ ← persistence (String.eqb (cp_terminal_status_evidence_id p) EmptyString)
        "stored terminal cascade evidence identity is invalid";
      _ ← persistence (negb (set_token _SCOPE_KINDS (cp_scope_kind p))) "stored terminal cascade scope kind is invalid";
      _ ← persistence (negb (is_sha256 (cp_scope_fingerprint p))) "stored terminal cascade scope fingerprint is invalid";
      let rfc_count := count (members_of (cd_rfc_members d) id) in
      _ ← persistence (rfc_count <? 1) "pending terminal cascade omitted RFC membership";
      Ok (MkCascadeState id trigger "pending" revision (cp_terminal_epoch_id p) (cp_terminal_status_class p)
        (cp_terminal_status_evidence_id p) (cp_scope_kind p) (cp_scope_fingerprint p) rfc_count
        (count (members_of (cd_wfm_members d) id)))
  end.
(** The status class and evidence of the trigger, still in the epoch. *)
Definition _current_terminal_binding d (trigger epoch : string) : result (string * string) :=
  let gone := cascade_stale "RFC terminal cascade proposal no longer belongs to the current terminal epoch" in
  match terminal_binding d trigger epoch with
  | Some p =>
      match rp_status_evidence_id p with
      | Some e => _ ← forbid (String.eqb e EmptyString) gone; Ok (rp_status_class p, e)
      | None => raise gone
      end
  | None => raise gone
  end.
(** Nothing a refresh would change. *)
Definition same_scope (s : RfcTerminalCascadeState) (scope : RfcTerminalCascadeScope) : bool :=
  String.eqb (cs_terminal_status_class scope) (cx_terminal_status_class s)
  && String.eqb (cs_terminal_status_evidence_id scope) (cx_terminal_status_evidence_id s)
  && String.eqb (cs_scope_kind scope) (cx_scope_kind s)
  && String.eqb (cs_scope_fingerprint scope) (cx_scope_fingerprint s).
Definition replacement_id : string := fresh ["replacement"].
Definition replacement_state (scope : RfcTerminalCascadeScope) : RfcTerminalCascadeState :=
  MkCascadeState replacement_id (cs_trigger_rfc_id scope) "pending" 1 (cs_terminal_epoch_id scope)
    (cs_terminal_status_class scope) (cs_terminal_status_evidence_id scope) (cs_scope_kind scope)
    (cs_scope_fingerprint scope) (count (cs_rfc_members scope)) (count (cs_wfm_members scope)).
Definition refresh_event (command id : string) (s : RfcTerminalCascadeState) (scope : RfcTerminalCascadeScope) (a : actor)
    : AuditEventInput :=
  ticket_event (fresh ["audit"]) "ticket.rfc.terminal_cascade_refreshed" command "RfcTerminalCascadeRefreshAuditV1"
    _TARGET_TYPE id None a
    (JObj [("prior_proposal_id", JStr id); ("prior_proposal_revision", JInt (cx_proposal_revision s));
       ("resulting_prior_proposal_revision", JInt (cx_proposal_revision s + 1));
       ("replacement_proposal_id", JStr replacement_id); ("replacement_proposal_revision", JInt 1);
       ("terminal_epoch_id", JStr (cx_terminal_epoch_id s));
       ("prior_terminal_status_class", JStr (cx_terminal_status_class s));
       ("replacement_terminal_status_class", JStr (cs_terminal_status_class scope));
       ("prior_terminal_status_evidence_id", JStr (cx_terminal_status_evidence_id s));
       ("replacement_terminal_status_evidence_id", JStr (cs_terminal_status_evidence_id scope));
       ("prior_scope_fingerprint", JStr (cx_scope_fingerprint s));
       ("replacement_scope_fingerprint", JStr (cs_scope_fingerprint scope));
       ("state_transition", JStr "pending_to_superseded_with_replacement_pending"); ("reason_category", JNull)])
    [cascade_ref replacement_id].
Definition refresh_writes (command id : string) (revision : Z) (scope : RfcTerminalCascadeScope) : cascadeM rest unit :=
  updated ← decide_proposal (superseded_proposal (now clock) command) id revision;
  _ ← lift (forbid (negb (updated =? 1))
    (cascade_stale "RFC terminal cascade proposal changed before refresh publication"));
  _insert_replacement replacement_id scope command (now clock).
Definition prepare_refresh (command id : string) (revision : Z) (a : actor)
    : cascadeLM rest (PreparedMutation (CascadeDb rest)) :=
  db ← read_st;
  s ← lift (load_refreshable (domain_state db) id);
  _ ← lift (forbid (negb (cx_proposal_revision s =? revision))
    (cascade_stale "RFC terminal cascade proposal revision changed before refresh"));
  '(status_class, evidence) ← lift (_current_terminal_binding (domain_state db) (cx_trigger_rfc_id s) (cx_terminal_epoch_id s));
  scope ← lift (capture_scope db (cx_trigger_rfc_id s) (cx_terminal_epoch_id s) status_class evidence);
  if same_scope s scope then mret (state_prepared true id None s) else
  mret (state_prepared false replacement_id (Some (
    _ ← on_domain (refresh_writes command id (cx_proposal_revision s) scope);
    mret (Some [refresh_event command id s scope a]))) (replacement_state scope)).
Definition cascade_execute (e : CommandEnvelope) (prepare : cascadeLM rest (PreparedMutation (CascadeDb rest)))
    : cascadeLM rest RfcTerminalCascadeStateResult :=
  x ← execute audit (clock ["receipt"]) audit_clock e prepare;
  lift (_state_result_from_execution x).
Definition refresh (command proposal_id : string) (revision : Z) (a : actor)
    : cascadeLM rest RfcTerminalCascadeStateResult :=
  id ← lift (_request_uuid proposal_id "proposal_id");
  cascade_execute (MkEnvelope command "RefreshRfcTerminalCascadeProposal" _TARGET_TYPE (Some id)
      [("proposal_id", JStr id)] [(_TARGET_TYPE, revision)] [] None)
    (prepare_refresh command id revision a).
End refresh.

(** * Execution *)
(** [RfcTerminalCascadeExecutionCommandContext], with its [__post_init__]. *)
Record RfcTerminalCascadeExecutionCommandContext := MkContext {
  cc_command_id : string; cc_actor : actor; cc_reviewed_preview_fingerprint : string
}.
Definition context_what : string := "terminal cascade execution command context ".
Definition make_context (command : string) (a : actor) (preview_fingerprint : string)
    : result RfcTerminalCascadeExecutionCommandContext :=
  let to m := validation_to (ValidationError (context_what +:+ m)) in
  _ ← rethrow (to "command_id must be canonical UUIDv4") (require_uuid4 command);
  encoded ← encode_utf8 (act_kind a);
  _ ← forbid (String.eqb (act_kind a) EmptyString || (128 <? utf8_length encoded))
    (ValidationError (context_what +:+ "actor_kind is invalid"));
  _ ← match act_id a with
    | Some id => _ ← rethrow (to "actor_id must be canonical UUIDv4 or null") (require_uuid4 id); Ok tt
    | None => Ok tt end;
  _ ← _require_sha256 preview_fingerprint (context_what +:+ "preview fingerprint");
  Ok (MkContext command a preview_fingerprint).
(** [RfcTerminalCascadeParticipantApplyResult]. *)
Record RfcTerminalCascadeParticipantApplyResult := MkApplyResult {
  pa_domain : string; pa_result_ref_count : Z; pa_audit_event_count : Z; pa_result_fingerprint : string
}.
Definition make_apply_result (domain : string) (refs events : Z) (fingerprint : string)
    : result RfcTerminalCascadeParticipantApplyResult :=
  _ ← forbid (negb (set_token [_TASK_DOMAIN; _COMMUNICATION_DOMAIN] domain))
    (ValidationError "terminal cascade participant apply result domain is invalid");
  _ ← forbid (refs <? 0)
    (ValidationError "terminal cascade participant result_ref_count must be a non-negative integer");
  _ ← forbid (events <? 0)
    (ValidationError "terminal cascade participant audit_event_count must be a non-negative integer");
  _ ← _require_sha256 fingerprint "terminal cascade participant result fingerprint";
  Ok (MkApplyResult domain refs events fingerprint).
Definition apply_payload (r : RfcTerminalCascadeParticipantApplyResult) : json := JObj [
  ("domain", JStr (pa_domain r)); ("result_ref_count", JInt (pa_result_ref_count r));
  ("audit_event_count", JInt (pa_audit_event_count r)); ("result_fingerprint", JStr (pa_result_fingerprint r))].
Inductive apply_value := ApplyRecord (r : RfcTerminalCascadeParticipantApplyResult) | ApplyOther.

(** What takes part in an execution: [revalidate_terminal_cascade] reads,
    [apply_terminal_cascade] writes its own tables and events. *)
Record execution_participant (rest : Type) := MkParticipant {
  ep_revalidate : LedgerDb (CascadeDb rest) -> RfcTerminalCascadeProposalSnapshot -> Z -> string -> result string;
  ep_apply : RfcTerminalCascadeProposalSnapshot -> RfcTerminalCascadeExecutionCommandContext -> cascadeLM rest apply_value
}.
Arguments MkParticipant {rest}. Arguments ep_revalidate {rest}. Arguments ep_apply {rest}.
(** [DeliberateActionProofProvider]: the proof, the action, the target, its
    revision and the preview fingerprint; no value when it did not validate. *)
Definition proof_provider (rest proof : Type) : Type :=
  proof -> string -> string * string -> Z -> option string -> cascadeLM rest (option json).
Definition rethrow_st {S A} (h : exn -> exn) (m : stM S A) : stM S A := fun s => let '(s', r) := m s in (s', rethrow h r).
Definition _EXECUTE_ACTION : string := "tickets.rfc.terminal_cascade.execute".

Section execution.
Context `{Sha256, FloatText} {rest proof : Type} `{!RfcTerminalTaskParticipant rest}.
Context (task communication : execution_participant rest) (provider : proof_provider rest proof).
Context (fresh : place -> string) (clock : place -> Z) (audit : AuditRegistry) (audit_clock : string -> Z).
Implicit Types db : LedgerDb (CascadeDb rest).

Definition _revalidate_participant (participant : execution_participant rest) db
    (p : RfcTerminalCascadeProposalSnapshot) (reviewed_count : Z) (reviewed_fingerprint name : string) : result unit :=
  status ← rethrow (any_failure (participant_failed (name +:+ " terminal cascade revalidation failed")))
    (ep_revalidate participant db p reviewed_count reviewed_fingerprint);
  _ ← forbid (String.eqb status "STALE")
    (cascade_stale (name +:+ " terminal cascade impact authority changed after review"));
  forbid (negb (String.eqb status "READY"))
    (participant_failed (name +:+ " terminal cascade impact authority is indeterminate")).
Definition _normalize_apply_result (raw : apply_value) (expected_domain name : string)
    : result RfcTerminalCascadeParticipantApplyResult :=
  let invalid := participant_failed (name +:+ " terminal cascade apply returned an invalid bounded summary") in
  match raw with
  | ApplyRecord r => _ ← forbid (negb (String.eqb (pa_domain r) expected_domain)) invalid; Ok r
  | ApplyOther => raise invalid
  end.
Definition _apply_participant (participant : execution_participant rest) (p : RfcTerminalCascadeProposalSnapshot)
    (c : RfcTerminalCascadeExecutionCommandContext) (expected_domain name : string)
    : cascadeLM rest RfcTerminalCascadeParticipantApplyResult :=
  db ← read_st;
  _ ← lift (require_outer_receipt db (cc_command_id c)
    "terminal cascade participant apply requires the outer command receipt");
  raw ← rethrow_st (any_failure (participant_failed (name +:+ " terminal cascade apply failed"))) (ep_apply participant p c);
  lift (_normalize_apply_result raw expected_domain name).
Definition reviewed_page (domain : string) (n : Z) (fingerprint : string) : checked_page :=
  MkProviderPage domain "READY" (Some n) (Some fingerprint) [] None None.
(** The current scope is the persisted one, and the preview what was reviewed. *)
Definition require_reviewed db (s : RfcTerminalCascadeState) (p : RfcTerminalCascadeProposalSnapshot)
    (r : RfcTerminalCascadeExecutionReview) : result unit :=
  scope ← capture_scope db (cx_trigger_rfc_id s) (cx_terminal_epoch_id s) (cx_terminal_status_class s)
    (cx_terminal_status_evidence_id s);
  _ ← forbid (negb (String.eqb (cs_scope_kind scope) (cx_scope_kind s))
      || negb (String.eqb (cs_scope_fingerprint scope) (cx_scope_fingerprint s))
      || negb (scope_size scope =? snapshot_size p))
    (cascade_stale "RFC terminal cascade RFC/WFM scope changed after review");
  _ ← _revalidate_participant task db p (er_task_objective_exact_count r) (er_task_objective_provider_fingerprint r)
    "Task/Objective";
  _ ← _revalidate_participant communication db p (er_communication_exact_count r) (er_communication_provider_fingerprint r)
    "Communication";
  fingerprint ← terminal_cascade_preview_fingerprint (sn_proposal_id p) (sn_proposal_revision p) (sn_scope_fingerprint p)
    (Some (cs_scope_fingerprint scope)) (snapshot_size p) (scope_size scope) []
    (reviewed_page _TASK_DOMAIN (er_task_objective_exact_count r) (er_task_objective_provider_fingerprint r))
    (reviewed_page _COMMUNICATION_DOMAIN (er_communication_exact_count r) (er_communication_provider_fingerprint r));
  forbid (negb (String.eqb fingerprint (er_preview_fingerprint r)))
    (cascade_stale "RFC terminal cascade reviewed preview no longer matches current authority").
Definition confirmation (m : string) : SomaError := ticket_error "RFC_TERMINAL_CASCADE_CONFIRMATION_REQUIRED" m.
Definition consume_proof (the_proof : proof) (id : string) (revision : Z) (preview_fingerprint : string)
    : cascadeLM rest unit :=
  validated ← rethrow_st (any_failure (confirmation
      "RFC terminal cascade deliberate-action proof is invalid or unavailable"))
    (provider the_proof _EXECUTE_ACTION (_TARGET_TYPE, id) revision (Some preview_fingerprint));
  lift (forbid (negb (present_opt validated))
    (confirmation "RFC terminal cascade deliberate-action proof did not validate")).
Definition execution_event (command id : string) (s : RfcTerminalCascadeState) (r : RfcTerminalCascadeExecutionReview)
    (tasks communications : RfcTerminalCascadeParticipantApplyResult) (a : actor) : AuditEventInput :=
  MkAuditEvent (fresh ["audit"]) "ticket.rfc.terminal_cascade_executed" 1 (act_kind a) _TARGET_TYPE command
    "RfcTerminalCascadeAuditV1" 1
    (JObj [("proposal_id", JStr id); ("proposal_revision", JInt (cx_proposal_revision s + 1));
       ("terminal_epoch_id", JStr (cx_terminal_epoch_id s)); ("scope_fingerprint", JStr (cx_scope_fingerprint s));
       ("reviewed_preview_fingerprint", JStr (er_preview_fingerprint r)); ("state_transition", JStr "pending_to_executed");
       ("task_objective_apply_result", apply_payload tasks); ("communication_apply_result", apply_payload communications);
       ("reason_category", JNull)])
    (act_id a) (Some id) None None None None (Some id) None [cascade_ref id].
Definition execution_apply (command id : string) (s : RfcTerminalCascadeState) (p : RfcTerminalCascadeProposalSnapshot)
    (r : RfcTerminalCascadeExecutionReview) (c : RfcTerminalCascadeExecutionCommandContext) (a : actor)
    : cascadeLM rest (option (list AuditEventInput)) :=
  tasks ← _apply_participant task p c _TASK_DOMAIN "Task/Objective";
  communications ← _apply_participant communication p c _COMMUNICATION_DOMAIN "Communication";
  updated ← on_domain (decide_proposal (executed_proposal (now clock) command) id (cx_proposal_revision s));
  _ ← lift (forbid (negb (updated =? 1))
    (cascade_stale "RFC terminal cascade proposal changed before execution publication"));
  mret (Some [execution_event command id s r tasks communications a]).
Definition executed_state (s : RfcTerminalCascadeState) : RfcTerminalCascadeState :=
  MkCascadeState (cx_proposal_id s) (cx_trigger_rfc_id s) "executed" (cx_proposal_revision s + 1) (cx_terminal_epoch_id s)
    (cx_terminal_status_class s) (cx_terminal_status_evidence_id s) (cx_scope_kind s) (cx_scope_fingerprint s)
    (cx_captured_rfc_count s) (cx_captured_wfm_count s).
Definition prepare_execution (command id : string) (revision : Z) (r : RfcTerminalCascadeExecutionReview) (the_proof : proof)
    (a : actor) : cascadeLM rest (PreparedMutation (CascadeDb rest)) :=
  c ← lift (make_context command a (er_preview_fingerprint r));
  db ← read_st;
  s ← lift (_load_pending_state_by_id (domain_state db) id);
  _ ← lift (forbid (negb (cx_proposal_revision s =? revision))
    (cascade_stale "RFC terminal cascade proposal revision changed after review"));
  p ← lift (_persisted_snapshot (domain_state db) s);
  _ ← lift (require_reviewed db s p r);
  _ ← consume_proof the_proof id revision (er_preview_fingerprint r);
  mret (state_prepared false id (Some (execution_apply command id s p r c a)) (executed_state s)).
Definition execute_cascade (command proposal_id : string) (revision : Z) (r : RfcTerminalCascadeExecutionReview)
    (the_proof : proof) (a : actor) : cascadeLM rest RfcTerminalCascadeStateResult :=
  id ← lift (_request_uuid proposal_id "proposal_id");
  cascade_execute clock audit audit_clock (MkEnvelope command "ExecuteRfcTerminalCascade" _TARGET_TYPE (Some id)
      [("proposal_id", JStr id); ("execution_review", review_response r)] [(_TARGET_TYPE, revision)]
      [("preview_fingerprint", er_preview_fingerprint r)] None)
    (prepare_execution command id revision r the_proof a).
End execution.
