(* ===== verification/CascadeLife.v ===== *)
(** A captured scope is well formed, is written as it is and reads back: what a
    pending proposal holds and that it can always be read.

    The life of a terminal cascade as a small machine, and that every write of
    the program takes only its steps.

    Abstractly an RFC is live, or ended in an epoch; a cascade belongs to an RFC
    and an epoch and is pending, executed or superseded. *)
From S2P Require Import Prelude StrictJson Identifiers AuditLedger Tables TicketTables RfcIdentity RfcHierarchy.
From S2P Require Import TicketForest CascadeScope RfcProjection CascadeReview CascadeCommands.
#[local] Arguments set_token : simpl never.
#[local] Arguments is_uuid4 : simpl never.
#[local] Arguments _normalize_wfm_members : simpl never.

(** * Numbered rows *)
Fixpoint numbered {A} (n : Z) (l : list A) : list (Z * A) :=
  match l with [] => [] | x :: l => (n, x) :: numbered (n + 1) l end.
Lemma imap_numbered {A} (n : nat) (l : list A) :
  imap (fun k x => (Z.of_nat (n + k), x)) l = numbered (Z.of_nat n) l.
Proof.
  revert n. induction l as [|x l IH]; intros n; [done|]. simpl. rewrite Nat.add_0_r. f_equal.
  replace (Z.of_nat n + 1) with (Z.of_nat (S n)) by lia. rewrite <-IH. apply imap_ext. intros k y _. simpl.
  f_equal. lia.
Qed.
Lemma enumerate_numbered {A} (l : list A) : imap (fun n x => (Z.of_nat n, x)) l = numbered 0 l.
Proof. exact (imap_numbered 0 l). Qed.
Lemma numbered_length {A} n (l : list A) : length (numbered n l) = length l.
Proof. revert n. induction l as [|x l IH]; intros n; simpl; [done|by rewrite IH]. Qed.
Definition rows_of {A} (id : string) (n : Z) (l : list A) : list (member_row A) :=
  map (fun nx : Z * A => MkMemberRow id nx.2 nx.1) (numbered n l).
Lemma rows_of_cons {A} id n (x : A) l : rows_of id n (x :: l) = MkMemberRow id x n :: rows_of id (n + 1) l.
Proof. done. Qed.
Lemma rows_of_ordinals {A} id n (l : list A) r : r ∈ rows_of id n l -> n <= mr_ordinal r /\ mr_proposal_id r = id.
Proof.
  revert n. induction l as [|x l IH]; intros n; [by intros ?%elem_of_nil|].
  rewrite rows_of_cons. intros [->|[Hn Hid]%IH]%elem_of_cons; simpl; split; [lia|done|lia|done].
Qed.
Lemma rows_of_length {A} id n (l : list A) : length (rows_of id n l) = length l.
Proof. unfold rows_of. by rewrite length_map, numbered_length. Qed.
Lemma rows_of_members {A} id n (l : list A) : map mr_member (rows_of id n l) = l.
Proof. revert n. induction l as [|x l IH]; intros n; [done|]. rewrite rows_of_cons. simpl. by rewrite IH. Qed.
(** Rows in the order of their ordinals are in the order they are read in. *)
Lemma rows_of_sorted {A} (key : A -> string) id n (l : list A) :
  StronglySorted (le_key (fun r => (mr_ordinal r, key (mr_member r)))) (rows_of id n l).
Proof.
  revert n. induction l as [|x l IH]; intros n; [constructor|]. rewrite rows_of_cons. constructor; [apply IH|].
  apply Forall_forall. intros r [Hr _]%rows_of_ordinals. unfold le_key, leb. simpl. unfold prod_cmp. simpl.
  destruct (Z.compare_spec n (mr_ordinal r)); [lia|done|lia].
Qed.
Lemma members_of_app {A} (t : list (member_row A)) t' id : members_of (t ++ t') id = members_of t id ++ members_of t' id.
Proof. apply filter_app. Qed.
Lemma members_of_own {A} id n (l : list A) : members_of (rows_of id n l) id = rows_of id n l.
Proof. apply filter_all. intros r [_ ->]%rows_of_ordinals. apply String.eqb_refl. Qed.
Lemma members_of_other {A} id id' n (l : list A) : id <> id' -> members_of (rows_of id n l) id' = [].
Proof. intros Hne. apply filter_none. intros r [_ ->]%rows_of_ordinals. by apply not_true_iff_false, String.eqb_neq. Qed.
Lemma ordered_rows {A} (key : A -> string) (t : list (member_row A)) id l :
  members_of t id = rows_of id 0 l -> ordered_members key t id = rows_of id 0 l.
Proof. intros Ht. unfold ordered_members. rewrite Ht. apply py_sorted_id, rows_of_sorted. Qed.
Lemma enumerated_rows {A} (check : A -> result A) what m id (l : list A) :
  Forall (fun x => check x = Ok x) l -> enumerated check what m (rows_of id 0 l) = Ok l.
Proof.
  intros Hl. unfold enumerated. rewrite enumerate_numbered.
  assert (forall n, 0 <= n -> traverse (fun nr : Z * member_row A =>
      a ← check (mr_member nr.2);
      _ ← persistence (mr_ordinal nr.2 <? 0) ("stored " +:+ what +:+ " must be a non-negative integer");
      _ ← persistence (negb (mr_ordinal nr.2 =? nr.1)) m; Ok a) (numbered n (rows_of id n l)) = Ok l) as Hn; [|by apply Hn].
  induction Hl as [|x l Hx _ IH]; intros n Hn; [done|]. rewrite rows_of_cons. cbn [numbered traverse]. simpl.
  rewrite Hx. simpl. rewrite (proj2 (Z.ltb_ge n 0)), Z.eqb_refl, IH by lia. done.
Qed.

(** * The RFCs of a scope *)
Definition rfc_member_ok (m : RfcTerminalCascadeRfcMember) : Prop := stored_rfc_member m = Ok m.
Record rfc_scope_ok (kind trigger : string) (ms : list RfcTerminalCascadeRfcMember) : Prop := {
  rs_kind : set_token _SCOPE_KINDS kind = true;
  rs_trigger : is_uuid4 trigger = true;
  rs_members : Forall rfc_member_ok ms;
  rs_shape : check_scope_shape kind trigger ms = Ok tt
}.
Lemma cascade_uuid_ok v field v' : _stored_uuid v field = Ok v' <-> v' = v /\ is_uuid4 v = true.
Proof. unfold _stored_uuid. destruct (is_uuid4 v); naive_solver. Qed.
Lemma request_uuid_ok v field v' : _request_uuid v field = Ok v' <-> v' = v /\ is_uuid4 v = true.
Proof. unfold _request_uuid. destruct (is_uuid4 v); naive_solver. Qed.
Lemma positive_ok n field b n' : _positive_revision n field b = Ok n' <-> n' = n /\ 0 < n.
Proof.
  unfold _positive_revision. rewrite bind_ok. setoid_rewrite forbid_ok. setoid_rewrite Z.leb_gt.
  split; [by intros (u & Hn & [= <-])|intros [-> Hn]; by exists tt].
Qed.
Lemma rfc_member_intro id n role :
  is_uuid4 id = true -> 0 < n -> set_token _ROLES role = true -> rfc_member_ok (MkRfcMember id n role).
Proof.
  intros Hid Hn Hr. unfold rfc_member_ok, stored_rfc_member, _stored_uuid, _positive_revision, persistence. simpl.
  rewrite Hid. simpl. rewrite (proj2 (Z.leb_gt n 0)) by done. simpl. by rewrite Hr.
Qed.
Lemma child_member_ok previous c previous' m :
  child_member previous c = Ok (previous', m) ->
  rfc_member_ok m /\ rm_rfc_id m = c.1 /\ rm_captured_role m = "subordinate".
Proof.
  unfold child_member. intros (id & [-> Hid]%cascade_uuid_ok & Hr)%bind_ok. apply bind_ok in Hr as (u & _ & Hr).
  apply bind_ok in Hr as (n & [-> Hn]%positive_ok & [= <- <-]). split; [by apply rfc_member_intro|done].
Qed.
Lemma child_members_ok children ms :
  child_members children = Ok ms ->
  Forall rfc_member_ok ms /\ map rm_rfc_id ms = map fst children /\ Forall (fun m => rm_captured_role m = "subordinate") ms.
Proof.
  unfold child_members. intros ([previous l] & Hf & [= <-])%bind_ok.
  enough (forall p acc, foldM (fun (acc : option string * list RfcTerminalCascadeRfcMember) child =>
      '(previous, m) ← child_member acc.1 child; Ok (previous, acc.2 ++ [m])) (p, acc) children = Ok (previous, l) ->
    exists ms, l = acc ++ ms /\ Forall rfc_member_ok ms /\ map rm_rfc_id ms = map fst children /\
      Forall (fun m => rm_captured_role m = "subordinate") ms) as Hg.
  { apply Hg in Hf as (ms & -> & H1 & H2 & H3). by split_and!. }
  clear Hf. induction children as [|c children IH]; intros p acc Hf; simpl in Hf.
  - injection Hf as <- <-. exists []. rewrite app_nil_r. by split_and!.
  - apply bind_ok in Hf as ([p1 acc1] & Hc & Hf). apply bind_ok in Hc as ([p2 m] & Hm & [= <- <-]).
    apply child_member_ok in Hm as (Hm & Hid & Hrole). destruct (IH _ _ Hf) as (ms & -> & H1 & H2 & H3).
    exists (m :: ms). rewrite <-app_assoc. simpl. rewrite Hid, H2. split_and!; [done|by constructor|done|by constructor].
Qed.
Lemma active_children_sorted d t : py_sorted (fun s => s) (map fst (active_children d t)) = map fst (active_children d t).
Proof.
  apply py_sorted_id. unfold active_children. set (l := omap _ _).
  assert (map fst (py_sorted fst l) = py_sorted (fun s => s) (map fst l)) as ->; [|apply py_sorted_sorted].
  by apply (py_sorted_fmap fst fst (fun s => s)).
Qed.
Lemma capture_rfc_scope_ok d trigger kind ms :
  _capture_rfc_scope d trigger = Ok (kind, ms) -> rfc_scope_ok kind trigger ms /\ known (rfcs d) trigger = true.
Proof.
  unfold _capture_rfc_scope. intros (t & [-> Ht]%cascade_uuid_ok & Hr)%bind_ok.
  destruct (rfcs d !! trigger) as [r|] eqn:Er; [|done].
  assert (known (rfcs d) trigger = true) as Hk by (apply known_spec; by eexists).
  apply bind_ok in Hr as (n & [-> Hn]%positive_ok & Hr). cbv zeta in Hr.
  destruct (_active_parent d trigger) as [[edge parent]|].
  - apply bind_ok in Hr as (u & _ & Hr). apply bind_ok in Hr as (u' & _ & [= <- <-]). split; [|done].
    split; [done|done| |]; [constructor; [by apply rfc_member_intro|constructor]|].
    simpl. unfold persistence. simpl. by rewrite String.eqb_refl.
  - apply bind_ok in Hr as (children & Hc & [= <- <-]). apply child_members_ok in Hc as (H1 & H2 & H3). split; [|done].
    split; [done|done| |].
    + constructor; [|done]. apply rfc_member_intro; [done|done|]. by destruct (any_row _).
    + unfold check_scope_shape. simpl. unfold persistence. rewrite String.eqb_refl. simpl.
      pose proof (active_children_sorted d trigger) as Hs. rewrite <-H2 in Hs.
      destruct (active_children d trigger) as [|c cs] eqn:Ea.
      * destruct children; done.
      * simpl. assert (existsb (fun m => negb (String.eqb (rm_captured_role m) "subordinate")) children = false) as ->.
        { apply not_true_iff_false. rewrite existsb_exists. intros (m & Hin & Hm). rewrite Forall_forall in H3.
          rewrite <-list_elem_of_In in Hin. by rewrite (H3 m Hin) in Hm. }
        simpl. by rewrite bool_decide_eq_true_2.
Qed.

(** * The tasks of a scope *)
Definition wfm_ok (ids : list string) (m : RfcTerminalCascadeWfmMember) : Prop :=
  is_uuid4 (wm_task_id m) = true /\ is_uuid4 (wm_owning_rfc_id m) = true /\ set_token ids (wm_owning_rfc_id m) = true /\
  0 < wm_captured_task_revision m /\ is_task_no (wm_captured_task_no m) = true.
Lemma set_token_in tokens s : set_token tokens s = true <-> s ∈ tokens.
Proof.
  unfold set_token. rewrite existsb_exists. setoid_rewrite String.eqb_eq. setoid_rewrite <-list_elem_of_In. naive_solver.
Qed.
Lemma set_token_out tokens s : set_token tokens s = false <-> s ∉ tokens.
Proof. rewrite <-set_token_in. by destruct (set_token tokens s). Qed.
(** One member, taken when it is valid and new. *)
Lemma normalize_member_ok ids seen raw seen' :
  normalize_member ids seen raw = Ok seen' <-> exists m, raw = WfmRecord m /\ wfm_ok ids m /\
    (wm_task_id m ∉ ws_task_ids seen) /\ (wm_captured_task_no m ∉ ws_task_nos seen) /\
    seen' = MkSeen (wm_task_id m :: ws_task_ids seen) (wm_captured_task_no m :: ws_task_nos seen) (ws_normalized seen ++ [m]).
Proof.
  destruct raw as [m|]; [|by split; [|intros (? & ? & _)]]. unfold normalize_member, wfm_ok. split.
  - intros (t & Ht & Hr)%bind_ok. apply rethrow_ok, require_uuid4_ok in Ht as [-> Ht].
    apply bind_ok in Hr as (o & Ho & Hr). apply rethrow_ok, require_uuid4_ok in Ho as [-> Ho].
    apply bind_ok in Hr as (u1 & Hs%forbid_ok & Hr). apply bind_ok in Hr as (n & [-> Hn]%positive_ok & Hr).
    apply bind_ok in Hr as (u2 & Hno%forbid_ok & Hr). apply bind_ok in Hr as (u3 & Hd%forbid_ok & [= <-]).
    apply orb_false_iff in Hd as [Hd1%set_token_out Hd2%set_token_out]. apply negb_false_iff in Hs, Hno.
    exists m. split_and!; try done. by destruct m.
  - intros (m' & [= <-] & (Ht & Ho & Hs & Hn & Hno) & Hd1%set_token_out & Hd2%set_token_out & ->).
    unfold require_uuid4, _positive_revision. rewrite Ht, Ho. simpl. rewrite Hs. simpl.
    rewrite (proj2 (Z.leb_gt _ _) Hn). simpl. rewrite Hno, Hd1, Hd2. by destruct m.
Qed.
Lemma normalize_fold ids seen l seen' :
  foldM (normalize_member ids) seen l = Ok seen' <-> exists ms, l = map WfmRecord ms /\ Forall (wfm_ok ids) ms /\
    NoDup (map wm_task_id ms) /\ (forall x, x ∈ map wm_task_id ms -> x ∉ ws_task_ids seen) /\
    NoDup (map wm_captured_task_no ms) /\ (forall x, x ∈ map wm_captured_task_no ms -> x ∉ ws_task_nos seen) /\
    seen' = MkSeen (rev (map wm_task_id ms) ++ ws_task_ids seen) (rev (map wm_captured_task_no ms) ++ ws_task_nos seen)
      (ws_normalized seen ++ ms).
Proof.
  revert seen. induction l as [|x l IH]; intros seen; simpl.
  - split.
    + intros [= <-]. exists []. simpl. rewrite app_nil_r. split_and!; try done; [constructor|set_solver|constructor|set_solver|by destruct seen].
    + intros ([|m ms] & Hl & _ & _ & _ & _ & _ & ->); [|done]. simpl. rewrite app_nil_r. by destruct seen.
  - rewrite bind_ok. setoid_rewrite normalize_member_ok. setoid_rewrite IH. split.
    + intros (s1 & (m & -> & Hm & Ht & Hn & ->) & ms & -> & Hms & Hd1 & Hs1 & Hd2 & Hs2 & ->). exists (m :: ms). simpl in *.
      rewrite <-!app_assoc. simpl. split_and!; try done.
      * by constructor.
      * constructor; [|done]. intros Hin. destruct (Hs1 _ Hin). left.
      * intros x [->|Hx]%elem_of_cons Hin; [done|]. destruct (Hs1 x Hx). by right.
      * constructor; [|done]. intros Hin. destruct (Hs2 _ Hin). left.
      * intros x [->|Hx]%elem_of_cons Hin; [done|]. destruct (Hs2 x Hx). by right.
    + intros ([|m ms] & Hl & Hms & Hd1 & Hs1 & Hd2 & Hs2 & ->); [done|]. injection Hl as -> ->. simpl in *.
      apply Forall_cons in Hms as [Hm Hms]. apply NoDup_cons in Hd1 as [Hn1 Hd1], Hd2 as [Hn2 Hd2].
      eexists. split; [exists m; split_and!; [done|done|apply Hs1; left|apply Hs2; left|reflexivity]|].
      exists ms. simpl. rewrite <-!app_assoc. simpl.
      split_and!; try done; intros x Hx [->|Hin]%elem_of_cons; try done; [by apply (Hs1 x); [right|]|by apply (Hs2 x); [right|]].
Qed.
Record wfm_scope_ok (ids : list string) (ms : list RfcTerminalCascadeWfmMember) : Prop := {
  ww_members : Forall (wfm_ok ids) ms;
  ww_tasks : NoDup (map wm_task_id ms);
  ww_numbers : NoDup (map wm_captured_task_no ms)
}.
(** What the participant's answer must be, and what is made of it. *)
Lemma normalize_members_ok raw ids ws :
  _normalize_wfm_members raw ids = Ok ws <->
  exists ms, raw = Some (map WfmRecord ms) /\ wfm_scope_ok ids ms /\ ws = py_sorted wfm_key ms.
Proof.
  unfold _normalize_wfm_members. destruct raw as [l|]; simpl; [|by split; [|intros (? & ? & _)]]. rewrite bind_ok.
  setoid_rewrite normalize_fold. split.
  - intros (seen & (ms & -> & H1 & H2 & _ & H3 & _ & ->) & [= <-]). by exists ms.
  - intros (ms & [= ->] & [H1 H2 H3] & ->). eexists. split; [exists ms; split_and!; try done; set_solver|]. done.
Qed.
Lemma wfm_scope_sorted ids ms : wfm_scope_ok ids ms -> wfm_scope_ok ids (py_sorted wfm_key ms).
Proof.
  intros [H1 H2 H3]. pose proof (py_sorted_perm wfm_key ms) as Hp. split; [by rewrite Hp|..].
  - by rewrite (Permutation_map wm_task_id Hp).
  - by rewrite (Permutation_map wm_captured_task_no Hp).
Qed.
Lemma normalize_again ids ms :
  wfm_scope_ok ids ms -> _normalize_wfm_members (Some (map WfmRecord (py_sorted wfm_key ms))) ids = Ok (py_sorted wfm_key ms).
Proof.
  intros Hms. apply normalize_members_ok. exists (py_sorted wfm_key ms). split_and!; [done|by apply wfm_scope_sorted|].
  symmetry. apply py_sorted_id, py_sorted_sorted.
Qed.

(** * Scopes *)
Section scopes.
Context `{Sha256} {rest : Type}.
Implicit Types d : CascadeDb rest.
(** A well-formed scope. *)
Record scope_ok (s : RfcTerminalCascadeScope) : Prop := {
  so_rfcs : rfc_scope_ok (cs_scope_kind s) (cs_trigger_rfc_id s) (cs_rfc_members s);
  so_wfms : exists ms, cs_wfm_members s = py_sorted wfm_key ms /\ wfm_scope_ok (map rm_rfc_id (cs_rfc_members s)) ms;
  so_class : terminal_class (cs_terminal_status_class s) = true;
  so_evidence : cs_terminal_status_evidence_id s <> EmptyString;
  so_fingerprint : terminal_cascade_scope_fingerprint (cs_trigger_rfc_id s) (cs_terminal_epoch_id s)
    (cs_terminal_status_class s) (cs_terminal_status_evidence_id s) (cs_scope_kind s) (cs_rfc_members s) (cs_wfm_members s)
    = Ok (cs_scope_fingerprint s)
}.
Lemma scope_over_ok trigger epoch status_class evidence kind members raw s :
  scope_over trigger epoch status_class evidence kind members raw = Ok s <->
  exists collection wfms fingerprint, raw = Ok collection /\
    _normalize_wfm_members collection (map rm_rfc_id members) = Ok wfms /\
    terminal_cascade_scope_fingerprint trigger epoch status_class evidence kind members wfms = Ok fingerprint /\
    s = MkScope trigger epoch status_class evidence kind members wfms fingerprint.
Proof.
  unfold scope_over. split.
  - intros (c & -> & Hr)%bind_ok. apply bind_ok in Hr as (w & Hw & Hr). apply bind_ok in Hr as (f & Hf & [= <-]).
    by exists c, w, f.
  - intros (c & w & f & -> & Hw & Hf & ->). simpl. rewrite Hw. simpl. by rewrite Hf.
Qed.
Lemma scope_over_scope_ok trigger epoch status_class evidence kind members raw s :
  rfc_scope_ok kind trigger members -> terminal_class status_class = true -> evidence <> EmptyString ->
  scope_over trigger epoch status_class evidence kind members raw = Ok s -> scope_ok s.
Proof.
  intros Hr Hc He (c & w & f & _ & (ms & -> & Hms & ->)%normalize_members_ok & Hf & ->)%scope_over_ok.
  split; simpl; try done. by exists ms.
Qed.
(** The trigger is terminal, in this epoch and on this evidence. *)
Definition terminal_now d (trigger epoch status_class evidence : string) : Prop :=
  exists p, projections d !! trigger = Some p /\ rp_status_class p = status_class /\
    rp_status_evidence_id p = Some evidence /\ rp_terminal_epoch_id p = Some epoch.
Lemma validate_terminal_ok (db : LedgerDb (CascadeDb rest)) trigger epoch status_class evidence u :
  _validate_terminal_projection db trigger epoch status_class evidence = Ok u <->
  terminal_class status_class = true /\ evidence <> EmptyString /\
  terminal_now (domain_state db) trigger epoch status_class evidence.
Proof.
  unfold _validate_terminal_projection, terminal_now. split.
  - intros (u1 & Hc%forbid_ok & Hr)%bind_ok. apply bind_ok in Hr as (u2 & He%forbid_ok & Hp%forbid_ok). bool_hyps.
    destruct (projections _ !! trigger) as [p|]; [|done]. bool_hyps. split_and!; try done. by exists p.
  - intros (Hc & He%String.eqb_neq & p & Hp & H1 & H2 & H3). rewrite Hc, He, Hp, H1, H2, H3. simpl. destruct u.
    by rewrite String.eqb_refl, !bool_decide_eq_true_2.
Qed.
Lemma capture_scope_ok `{!RfcTerminalTaskParticipant rest} (db : LedgerDb (CascadeDb rest)) trigger epoch status_class evidence s :
  capture_scope db trigger epoch status_class evidence = Ok s ->
  terminal_now (domain_state db) trigger epoch status_class evidence /\ scope_ok s /\
  cs_trigger_rfc_id s = trigger /\ cs_terminal_epoch_id s = epoch /\ cs_terminal_status_class s = status_class /\
  cs_terminal_status_evidence_id s = evidence /\
  _capture_rfc_scope (cd_tickets (domain_state db)) trigger = Ok (cs_scope_kind s, cs_rfc_members s).
Proof.
  unfold capture_scope. intros (u & (Hc & He & Hn)%validate_terminal_ok & Hr)%bind_ok.
  apply bind_ok in Hr as ([kind ms] & Hcap & Hr). pose proof Hcap as [Hs _]%capture_rfc_scope_ok.
  pose proof Hr as Hok%scope_over_scope_ok; [|done..]. apply scope_over_ok in Hr as (c & w & f & _ & _ & _ & ->).
  by split_and!.
Qed.

(** * What a proposal holds *)
Definition scope_of (p : CascadeProposalRow) (rfcs_ : list RfcTerminalCascadeRfcMember)
    (wfms : list RfcTerminalCascadeWfmMember) : RfcTerminalCascadeScope :=
  MkScope (cp_trigger_rfc_id p) (cp_terminal_epoch_id p) (cp_terminal_status_class p) (cp_terminal_status_evidence_id p)
    (cp_scope_kind p) rfcs_ wfms (cp_scope_fingerprint p).
(** The members are exactly those of a well-formed scope, in its order. *)
Record holds d (id : string) (p : CascadeProposalRow) (s : RfcTerminalCascadeScope) : Prop := {
  ho_id : is_uuid4 id = true;
  ho_revision : 0 < cp_revision p;
  ho_epoch : cp_terminal_epoch_id p <> EmptyString;
  ho_scope : s = scope_of p (cs_rfc_members s) (cs_wfm_members s);
  ho_ok : scope_ok s;
  ho_rfcs : members_of (cd_rfc_members d) id = rows_of id 0 (cs_rfc_members s);
  ho_wfms : members_of (cd_wfm_members d) id = rows_of id 0 (cs_wfm_members s)
}.
Lemma shape_not_empty kind trigger ms : check_scope_shape kind trigger ms = Ok tt -> ms <> [].
Proof. by destruct ms. Qed.
Lemma stored_wfm_ok ids m : wfm_ok ids m -> stored_wfm_member m = Ok m.
Proof.
  intros (Ht & Ho & _ & Hn & Hno). unfold stored_wfm_member, _stored_uuid, _positive_revision, persistence.
  rewrite Ht, Ho. simpl. rewrite (proj2 (Z.leb_gt _ _) Hn). simpl. rewrite Hno. by destruct m.
Qed.
Lemma count_rows {A} id (l : list A) : count (rows_of id 0 l) = count l.
Proof. unfold count. by rewrite rows_of_length. Qed.
Lemma count_pos {A} (l : list A) : l <> [] -> (count l <? 1) = false.
Proof. destruct l; [done|]. intros _. apply Z.ltb_ge. unfold count. simpl. lia. Qed.
Definition state_of (id : string) (p : CascadeProposalRow) (s : RfcTerminalCascadeScope) : RfcTerminalCascadeState :=
  MkCascadeState id (cp_trigger_rfc_id p) "pending" (cp_revision p) (cp_terminal_epoch_id p) (cp_terminal_status_class p)
    (cp_terminal_status_evidence_id p) (cp_scope_kind p) (cp_scope_fingerprint p) (count (cs_rfc_members s))
    (count (cs_wfm_members s)).
Definition snapshot_of (id : string) (p : CascadeProposalRow) (s : RfcTerminalCascadeScope)
    : RfcTerminalCascadeProposalSnapshot :=
  MkSnapshot id (cp_revision p) (cp_trigger_rfc_id p) (cp_terminal_epoch_id p) (cp_terminal_status_class p)
    (cp_terminal_status_evidence_id p) (cp_scope_kind p) (cp_scope_fingerprint p) (cs_rfc_members s) (cs_wfm_members s).
Lemma holds_state d id p s :
  (forall t, is_sha256 (sha256_hexdigest t) = true) -> holds d id p s -> pending p = true ->
  _state_from_row d id p = Ok (state_of id p s).
Proof.
  intros Hhex [Hid Hrev Hep Es [[Hk Ht Hm Hsh] _ Hcl Hev Hf] Hr Hw] Hp. unfold _state_from_row, state_of, _stored_uuid, persistence, _positive_revision.
  rewrite Es in Hk, Ht, Hcl, Hev, Hf, Hsh. simpl in Hk, Ht, Hcl, Hev, Hf, Hsh. rewrite Hid. simpl. rewrite Ht. simpl. rewrite Hp. simpl.
  rewrite (proj2 (Z.leb_gt _ _) Hrev). simpl. rewrite (proj2 (String.eqb_neq _ _) Hep). simpl. rewrite Hcl. simpl.
  rewrite (proj2 (String.eqb_neq _ _) Hev). simpl. rewrite Hk. simpl.
  assert (is_sha256 (cp_scope_fingerprint p) = true) as ->.
  { unfold terminal_cascade_scope_fingerprint, sha256_canonical_json in Hf. apply bind_ok in Hf as (t & _ & [= <-]). apply Hhex. }
  rewrite Hr, Hw, !count_rows, count_pos; [done|]. by eapply shape_not_empty.
Qed.
(** The snapshot of a pending proposal is what was captured. *)
Lemma holds_snapshot d id p s :
  holds d id p s -> _persisted_snapshot d (state_of id p s) = Ok (snapshot_of id p s).
Proof.
  intros [Hid Hrev Hep Es [[Hk Ht Hm Hsh] (ms & Ems & Hms) Hcl Hev Hf] Hr Hw].
  pose proof (shape_not_empty _ _ _ Hsh) as Hne. rewrite Es in Hf, Hsh. simpl in Hf, Hsh.
  unfold _persisted_snapshot, state_of, snapshot_of. cbn [cx_proposal_id cx_captured_rfc_count cx_captured_wfm_count cx_scope_kind
    cx_trigger_rfc_id cx_terminal_epoch_id cx_terminal_status_class cx_terminal_status_evidence_id cx_scope_fingerprint cx_proposal_revision].
  rewrite (ordered_rows rm_rfc_id _ _ _ Hr), (ordered_rows wm_task_id _ _ _ Hw), !count_rows, !Z.eqb_refl.
  assert (any_row (rows_of id 0 (cs_rfc_members s)) = true) as -> by (by destruct (cs_rfc_members s)).
  unfold persistence at 1. simpl. rewrite (enumerated_rows stored_rfc_member) by exact Hm. simpl. rewrite Hsh. simpl.
  rewrite enumerated_rows.
  2: { rewrite Ems. eapply Forall_impl; [apply wfm_scope_sorted, Hms|]. intros m. apply stored_wfm_ok. }
  assert (_normalize_wfm_members (Some (map WfmRecord (cs_wfm_members s))) (map rm_rfc_id (cs_rfc_members s))
    = Ok (cs_wfm_members s)) as Hn by (rewrite Ems; by apply normalize_again).
  cbn [mbind result_bind]. rewrite Hn. cbn [mbind result_bind]. unfold persistence.
  rewrite bool_decide_eq_true_2 by done. simpl. rewrite Hf. simpl. by rewrite String.eqb_refl.
Qed.
End scopes.

#[local] Arguments set_token : simpl never.
#[local] Arguments is_uuid4 : simpl never.
#[local] Arguments changed_row : simpl never.

(** * The machine *)
Inductive phase := Pending | Executed | Superseded.
#[export] Instance phase_eq_dec : EqDecision phase.
Proof. solve_decision. Defined.
Record cascades := MkCascades {
  ca_epoch : gmap string string;                        (** of the ended RFCs *)
  ca_cascade : gmap string (string * string * phase)    (** RFC, epoch, phase *)
}.
(** Every pending cascade of the epoch is superseded. *)
Definition reversed (r e : string) (x : string * string * phase) : string * string * phase :=
  if decide (x = (r, e, Pending)) then (r, e, Superseded) else x.
Inductive cascade_step : cascades -> cascades -> Prop :=
| step_end c r e id : ca_epoch c !! r = None -> ca_cascade c !! id = None ->
    (forall id' ph, ca_cascade c !! id' <> Some (r, e, ph)) ->
    cascade_step c (MkCascades (<[r := e]> (ca_epoch c)) (<[id := (r, e, Pending)]> (ca_cascade c)))
| step_reverse c r e : ca_epoch c !! r = Some e ->
    cascade_step c (MkCascades (delete r (ca_epoch c)) (reversed r e <$> ca_cascade c))
| step_refresh c r e id id' : ca_epoch c !! r = Some e -> ca_cascade c !! id = Some (r, e, Pending) ->
    ca_cascade c !! id' = None ->
    cascade_step c (MkCascades (ca_epoch c) (<[id' := (r, e, Pending)]> (<[id := (r, e, Superseded)]> (ca_cascade c))))
| step_execute c r e id : ca_epoch c !! r = Some e -> ca_cascade c !! id = Some (r, e, Pending) ->
    cascade_step c (MkCascades (ca_epoch c) (<[id := (r, e, Executed)]> (ca_cascade c))).
(** A pending cascade is of the current epoch; an epoch has at most one cascade
    that stands, and the current epoch of an ended RFC has one. *)
Definition stands (c : cascades) (r e id : string) : Prop :=
  exists ph, ca_cascade c !! id = Some (r, e, ph) /\ ph <> Superseded.
Record cascades_ok (c : cascades) : Prop := {
  ok_pending : forall id r e, ca_cascade c !! id = Some (r, e, Pending) -> ca_epoch c !! r = Some e;
  ok_one : forall r e id1 id2, stands c r e id1 -> stands c r e id2 -> id1 = id2;
  ok_some : forall r e, ca_epoch c !! r = Some e -> exists id, stands c r e id
}.
Lemma stands_other es m r e id x id' :
  id' <> id -> stands (MkCascades es (<[id := x]> m)) r e id' <-> exists ph, m !! id' = Some (r, e, ph) /\ ph <> Superseded.
Proof. intros Hne. unfold stands. simpl. by rewrite lookup_insert_ne. Qed.
Lemma end_ok c r e id :
  cascades_ok c -> ca_epoch c !! r = None -> ca_cascade c !! id = None ->
  (forall id' ph, ca_cascade c !! id' <> Some (r, e, ph)) ->
  cascades_ok (MkCascades (<[r := e]> (ca_epoch c)) (<[id := (r, e, Pending)]> (ca_cascade c))).
Proof.
  intros [H1 H2 H3] Hr Hid Hnew. split; unfold stands; simpl.
  - intros i r' e' [[<- [= <- <-]]|[Hi Hc]]%lookup_insert_Some; [by rewrite lookup_insert_eq|].
    apply H1 in Hc. rewrite lookup_insert_ne; [done|]. intros <-. congruence.
  - intros r' e' i1 i2 (p1 & [[<- [= <- <- <-]]|[Hi1 Hc1]]%lookup_insert_Some & N1) (p2 & [[<- Heq]|[Hi2 Hc2]]%lookup_insert_Some & N2).
    + done.
    + by destruct (Hnew i2 p2).
    + injection Heq as <- <- _. by destruct (Hnew i1 p1).
    + apply (H2 r' e'); by eexists.
  - intros r' e' [[<- <-]|[Hne Hr']]%lookup_insert_Some.
    + exists id, Pending. simpl. by rewrite lookup_insert_eq.
    + destruct (H3 _ _ Hr') as (i & ph & Hi & Hph). exists i, ph. simpl. split; [|done].
      rewrite lookup_insert_ne; [done|]. intros <-. congruence.
Qed.
Lemma reverse_ok c r e :
  cascades_ok c -> ca_epoch c !! r = Some e -> cascades_ok (MkCascades (delete r (ca_epoch c)) (reversed r e <$> ca_cascade c)).
Proof.
  intros [H1 H2 H3] Hr.
  assert (forall i r' e' ph, (reversed r e <$> ca_cascade c) !! i = Some (r', e', ph) -> ph <> Superseded ->
    ca_cascade c !! i = Some (r', e', ph) /\ (r', e', ph) <> (r, e, Pending)) as Hi.
  { intros i r' e' ph. rewrite lookup_fmap. destruct (ca_cascade c !! i) as [x|]; [|done]. simpl. unfold reversed.
    destruct (decide (x = (r, e, Pending))) as [->|Hx]; [by intros [= <- <- <-]|]. intros [= ->] Hph. by split. }
  split; unfold stands; simpl.
  - intros i r' e' [Hc Hne]%Hi; [|done]. pose proof (H1 _ _ _ Hc) as He. rewrite lookup_delete_ne; [done|].
    intros <-. apply Hne. congruence.
  - intros r' e' i1 i2 (p1 & Hc1 & N1) (p2 & Hc2 & N2). apply Hi in Hc1 as [Hc1 _], Hc2 as [Hc2 _]; [|done..].
    apply (H2 r' e'); [by exists p1|by exists p2].
  - intros r' e' [Hne Hr']%lookup_delete_Some. destruct (H3 _ _ Hr') as (i & ph & Hc & Hph). exists i, ph. split; [|done]. simpl.
    rewrite lookup_fmap, Hc. simpl. unfold reversed. rewrite decide_False; [done|]. intros [= <- _ _]. done.
Qed.
Lemma decided_ok c r e id ph :
  cascades_ok c -> ca_cascade c !! id = Some (r, e, Pending) -> ph = Executed ->
  cascades_ok (MkCascades (ca_epoch c) (<[id := (r, e, ph)]> (ca_cascade c))).
Proof.
  intros [H1 H2 H3] Hid ->.
  assert (forall i r' e', stands (MkCascades (ca_epoch c) (<[id := (r, e, Executed)]> (ca_cascade c))) r' e' i ->
    stands c r' e' i) as Hs.
  { intros i r' e' (p & Hp & N). simpl in Hp.
    apply lookup_insert_Some in Hp as [[<- [= <- <- <-]]|[_ Hc]]; [by exists Pending|by exists p]. }
  split; simpl.
  - intros i r' e' [[<- Heq]|[Hi Hc]]%lookup_insert_Some; [done|by eapply H1].
  - intros r' e' i1 i2 S1%Hs S2%Hs. by apply (H2 r' e').
  - intros r' e' Hr'. destruct (H3 _ _ Hr') as (i & p & Hc & Hp). exists i. unfold stands. simpl. destruct (decide (i = id)) as [->|Hne].
    + exists Executed. rewrite lookup_insert_eq. split; [|done]. congruence.
    + exists p. by rewrite lookup_insert_ne.
Qed.
Lemma refresh_ok c r e id id' :
  cascades_ok c -> ca_epoch c !! r = Some e -> ca_cascade c !! id = Some (r, e, Pending) -> ca_cascade c !! id' = None ->
  cascades_ok (MkCascades (ca_epoch c) (<[id' := (r, e, Pending)]> (<[id := (r, e, Superseded)]> (ca_cascade c)))).
Proof.
  intros [H1 H2 H3] Hr Hid Hnew. assert (id' <> id) as Hne by congruence.
  assert (forall i r' e' p, <[id := (r, e, Superseded)]> (ca_cascade c) !! i = Some (r', e', p) -> p <> Superseded ->
    i <> id /\ ca_cascade c !! i = Some (r', e', p)) as Hi.
  { intros i r' e' p [[<- [= <- <- <-]]|[Hi Hc]]%lookup_insert_Some Hp; [done|]. by split. }
  assert (forall i, i <> id -> ~ stands c r e i) as Hone.
  { intros i Hii Hs. apply Hii. apply (H2 r e); [done|]. by exists Pending. }
  split; unfold stands; simpl.
  - intros i r' e' [[<- [= <- <-]]|[_ [_ Hc]%Hi]]%lookup_insert_Some; [done|by eapply H1|done].
  - intros r' e' i1 i2 (p1 & Hl1 & N1) (p2 & Hl2 & N2). simpl in *.
    apply lookup_insert_Some in Hl1 as [[<- [= <- <- <-]]|[_ [Hn1 Hc1]%Hi]], Hl2 as [[<- Heq]|[_ [Hn2 Hc2]%Hi]]; try done.
    + destruct (Hone i2 Hn2). by exists p2.
    + injection Heq as <- <- _. destruct (Hone i1 Hn1). by exists p1.
    + apply (H2 r' e'); by eexists.
  - intros r' e' Hr'. destruct (decide (r' = r)) as [->|Hrr].
    + exists id', Pending. simpl. rewrite lookup_insert_eq. split; [|done]. congruence.
    + destruct (H3 _ _ Hr') as (i & p & Hc & Hp). exists i, p. split; [|done]. simpl.
      rewrite !lookup_insert_ne; [done|..]; intros <-; congruence.
Qed.
Lemma cascade_step_ok c c' : cascades_ok c -> cascade_step c c' -> cascades_ok c'.
Proof.
  intros Hok Hs. destruct Hs as [c0 r e id Hr Hid Hnew|c0 r e Hr|c0 r e id id' Hr Hid Hnew|c0 r e id Hr Hid].
  - by apply end_ok.
  - by apply reverse_ok.
  - by apply refresh_ok.
  - by apply decided_ok.
Qed.

(** * The tables as a machine *)
Definition phase_of (state : string) : phase :=
  if String.eqb state "pending" then Pending else if String.eqb state "executed" then Executed else Superseded.
Definition cascade_of (p : CascadeProposalRow) : string * string * phase :=
  (cp_trigger_rfc_id p, cp_terminal_epoch_id p, phase_of (cp_proposal_state p)).
Lemma pending_phase p : pending p = true <-> phase_of (cp_proposal_state p) = Pending.
Proof. unfold pending, phase_of. destruct (String.eqb _ "pending"); [done|]. by destruct (String.eqb _ "executed"). Qed.

(** What a decision leaves of a proposal: all but its state, its revision and
    who decided it and when. *)
Definition decided_from (p p' : CascadeProposalRow) : Prop :=
  p' = p \/ pending p = true /\ exists n command, p' = superseded_proposal n command p \/ p' = executed_proposal n command p.
Lemma decided_from_refl p : decided_from p p.
Proof. by left. Qed.
Lemma decided_from_trans p1 p2 p3 : decided_from p1 p2 -> decided_from p2 p3 -> decided_from p1 p3.
Proof. intros [->|(Hp & n & c & [->| ->])] H2; [done|..]; destruct H2 as [->|(Hp' & _)]; try done; right; eauto. Qed.

Section life.
Context `{Sha256} {rest : Type}.
Implicit Types d : CascadeDb rest.
Definition view d : cascades :=
  MkCascades (omap rp_terminal_epoch_id (projections d)) (cascade_of <$> cd_proposals d).

(** The hierarchy is in order; every projection satisfies the
    constraints of its table; every proposal holds a well-formed scope, and its
    members are its own. *)
Record rows_sound d : Prop := {
  cd_hierarchy : tables_ok (cd_tickets d);
  cd_rows : forall r p, projections d !! r = Some p -> projection_row_ok p = true;
  cd_holds : forall id p, cd_proposals d !! id = Some p -> exists s, holds d id p s;
  cd_rfc_known : forall id, cd_proposals d !! id = None -> members_of (cd_rfc_members d) id = [];
  cd_wfm_known : forall id, cd_proposals d !! id = None -> members_of (cd_wfm_members d) id = []
}.
(** No proposal is lost or changed once decided, and its members stay. *)
Definition proposals_kept d d' : Prop := forall id p, cd_proposals d !! id = Some p ->
  (exists p', cd_proposals d' !! id = Some p' /\ decided_from p p') /\
  members_of (cd_rfc_members d') id = members_of (cd_rfc_members d) id /\
  members_of (cd_wfm_members d') id = members_of (cd_wfm_members d) id.
Record cascade_evolved d d' : Prop := {
  ce_sound : rows_sound d';
  ce_steps : star cascade_step (view d) (view d');
  ce_kept : proposals_kept d d'
}.
(** In order, and at rest between two commands. *)
Definition cascade_sound d : Prop := rows_sound d /\ cascades_ok (view d).
Definition cascade_evolves d d' : Prop := cascade_sound d -> cascade_evolved d d'.
Lemma cascades_steps_ok c c' : cascades_ok c -> star cascade_step c c' -> cascades_ok c'.
Proof. intros Hok Hs. apply (star_inv cascade_step cascades_ok c c'); [|done|done]. intros g g'. apply cascade_step_ok. Qed.
Lemma evolved_sound d d' : cascade_sound d -> cascade_evolved d d' -> cascade_sound d'.
Proof. intros [_ Hok] [Hs Ht _]. split; [done|by eapply cascades_steps_ok]. Qed.
Lemma proposals_kept_refl d : proposals_kept d d.
Proof. intros id p Hp. split; [exists p; split; [done|apply decided_from_refl]|done]. Qed.
Lemma cascade_evolves_refl d : cascade_evolves d d.
Proof. intros [Hs _]. split; [done|apply star_refl|apply proposals_kept_refl]. Qed.
Lemma cascade_evolves_trans d1 d2 d3 : cascade_evolves d1 d2 -> cascade_evolves d2 d3 -> cascade_evolves d1 d3.
Proof.
  intros H1 H2 Hs. pose proof (evolved_sound _ _ Hs (H1 Hs)) as Hs1. destruct (H1 Hs) as [S1 T1 K1]. destruct (H2 Hs1) as [S2 T2 K2]. split; [done|by eapply star_trans|].
  intros id p Hp. destruct (K1 id p Hp) as ((p' & Hp' & D1) & M1 & M2). destruct (K2 id p' Hp') as ((p'' & Hp'' & D2) & M3 & M4).
  split; [exists p''; split; [done|by eapply decided_from_trans]|]. by rewrite M3, M4.
Qed.
(** Tables the cascades do not depend on. *)
Definition same_cascades d d' : Prop :=
  projections d' = projections d /\ cd_proposals d' = cd_proposals d /\ cd_rfc_members d' = cd_rfc_members d /\
  cd_wfm_members d' = cd_wfm_members d.
Lemma same_cascades_refl d : same_cascades d d.
Proof. done. Qed.
Lemma same_view d d' : same_cascades d d' -> view d' = view d.
Proof. intros (E1 & E2 & _). unfold view. by rewrite E1, E2. Qed.
Lemma holds_same d d' id p s :
  members_of (cd_rfc_members d') id = members_of (cd_rfc_members d) id ->
  members_of (cd_wfm_members d') id = members_of (cd_wfm_members d) id -> holds d id p s -> holds d' id p s.
Proof. intros E1 E2 []. split; try done; congruence. Qed.
Lemma same_evolves d d' : same_cascades d d' -> (tables_ok (cd_tickets d) -> tables_ok (cd_tickets d')) -> cascade_evolves d d'.
Proof.
  intros Hsame Htab [[R0 R1 R2 R3 R4] _]. pose proof Hsame as (E1 & E2 & E3 & E4). split.
  - split; rewrite ?E1, ?E2, ?E3, ?E4; try done; [by apply Htab|]. intros id p Hp. destruct (R2 id p Hp) as (s & Hs). exists s.
    eapply holds_same; [..|exact Hs]; congruence.
  - rewrite (same_view _ _ Hsame). apply star_refl.
  - intros id p Hp. rewrite E2, E3, E4. split; [exists p; split; [done|apply decided_from_refl]|done].
Qed.

(** ** The projection *)
Definition with_projection (r : string) (p : RfcProjectionRow) d : CascadeDb rest := set_projections (<[r := p]> (projections d)) d.
Lemma projections_with r p d : projections (with_projection r p d) = <[r := p]> (projections d).
Proof. done. Qed.
Lemma epochs_insert (m : gmap string RfcProjectionRow) r p :
  omap rp_terminal_epoch_id (<[r := p]> m) = match rp_terminal_epoch_id p with
    | Some e => <[r := e]> (omap rp_terminal_epoch_id m) | None => delete r (omap rp_terminal_epoch_id m) end.
Proof.
  apply map_eq. intros i. rewrite lookup_omap. destruct (decide (i = r)) as [->|Hne].
  - rewrite lookup_insert_eq. simpl. destruct (rp_terminal_epoch_id p); [by rewrite lookup_insert_eq|by rewrite lookup_delete_eq].
  - rewrite lookup_insert_ne by done. destruct (rp_terminal_epoch_id p);
      [by rewrite lookup_insert_ne, lookup_omap|by rewrite lookup_delete_ne, lookup_omap].
Qed.
(** The epoch an RFC is in, as its current row shows. *)
Definition epoch_of (current : option RfcProjectionRow) : option string := current ≫= rp_terminal_epoch_id.
Lemma view_epoch d r : ca_epoch (view d) !! r = epoch_of (projections d !! r).
Proof. apply lookup_omap. Qed.
Lemma projection_sound r p d : rows_sound d -> projection_row_ok p = true -> rows_sound (with_projection r p d).
Proof.
  intros [R0 R1 R2 R3 R4] Hp. split; try done; simpl.
  - destruct R0. by split.
  - intros i q. rewrite projections_with. intros [[<- <-]|[_ Hq]]%lookup_insert_Some; [done|by eapply R1].
  - intros id q Hq. destruct (R2 id q Hq) as (s & Hs). exists s. eapply holds_same; [..|exact Hs]; done.
Qed.
Lemma same_epoch_evolves r p d :
  projection_row_ok p = true -> rp_terminal_epoch_id p = epoch_of (projections d !! r) -> cascade_evolves d (with_projection r p d).
Proof.
  intros Hp He [Hs _]. split; [by apply projection_sound| |].
  - assert (view (with_projection r p d) = view d) as ->; [|apply star_refl]. unfold view. rewrite projections_with. f_equal.
    rewrite epochs_insert, He. pose proof (view_epoch d r) as Hv. unfold view in Hv. simpl in Hv. destruct (epoch_of _) as [e|]; [by rewrite insert_id|by rewrite delete_id].
  - intros id q Hq. split; [exists q; split; [done|apply decided_from_refl]|done].
Qed.

(** ** Proposals and members *)
Lemma insert_rfc_members_ok id n l d d' u :
  each (fun nx : Z * RfcTerminalCascadeRfcMember => insert_rfc_member id nx.2 nx.1) (numbered n l) d = (d', Ok u) ->
  d' = MkCascadeDb (cd_tickets d) (cd_proposals d) (cd_rfc_members d ++ rows_of id n l) (cd_wfm_members d) (cd_rest d).
Proof.
  revert n d. induction l as [|x l IH]; intros n d; simpl.
  - intros [= <- _]. rewrite app_nil_r. by destruct d.
  - intros (d1 & u1 & Hi & Hr)%stm_bind_ok. unfold insert_rfc_member in Hi. apply statement_ok in Hi as [_ ->]. apply IH in Hr. rewrite Hr. simpl.
    by rewrite <-app_assoc.
Qed.
Lemma insert_wfm_members_ok id n l d d' u :
  each (fun nx : Z * RfcTerminalCascadeWfmMember => insert_wfm_member id nx.2 nx.1) (numbered n l) d = (d', Ok u) ->
  d' = MkCascadeDb (cd_tickets d) (cd_proposals d) (cd_rfc_members d) (cd_wfm_members d ++ rows_of id n l) (cd_rest d).
Proof.
  revert n d. induction l as [|x l IH]; intros n d; simpl.
  - intros [= <- _]. rewrite app_nil_r. by destruct d.
  - intros (d1 & u1 & Hi & Hr)%stm_bind_ok. unfold insert_wfm_member in Hi. apply statement_ok in Hi as [_ ->]. apply IH in Hr. rewrite Hr. simpl.
    by rewrite <-app_assoc.
Qed.
Definition with_proposal (id : string) (p : CascadeProposalRow) (s : RfcTerminalCascadeScope) d : CascadeDb rest :=
  MkCascadeDb (cd_tickets d) (<[id := p]> (cd_proposals d)) (cd_rfc_members d ++ rows_of id 0 (cs_rfc_members s))
    (cd_wfm_members d ++ rows_of id 0 (cs_wfm_members s)) (cd_rest d).
Lemma insert_replacement_ok id s command n d d' u :
  _insert_replacement id s command n d = (d', Ok u) ->
  cd_proposals d !! id = None /\ cs_terminal_epoch_id s <> EmptyString /\
  d' = with_proposal id (pending_proposal s command n) s d.
Proof.
  unfold _insert_replacement, each_ordinal. rewrite !enumerate_numbered.
  intros (d1 & u1 & Hi & Hr)%stm_bind_ok. unfold insert_proposal in Hi. apply statement_ok in Hi as [Hok ->].
  apply stm_bind_ok in Hr as (d2 & u2 & Hm & Hw).
  apply insert_rfc_members_ok in Hm as ->. apply insert_wfm_members_ok in Hw as ->.
  rewrite !andb_true_iff in Hok. destruct Hok as [[[[[[[[[[[H1%unknown_spec _] H2] _] _] _] _] _] _] _] _] _].
  bool_hyps. by split_and!.
Qed.
(** The members of the other proposals are not touched. *)
Lemma with_proposal_members id p s d id' : id' <> id ->
  members_of (cd_rfc_members (with_proposal id p s d)) id' = members_of (cd_rfc_members d) id' /\
  members_of (cd_wfm_members (with_proposal id p s d)) id' = members_of (cd_wfm_members d) id'.
Proof.
  intros Hne. unfold with_proposal. simpl. by rewrite !members_of_app, !members_of_other, !app_nil_r by congruence.
Qed.
Lemma with_proposal_sound id s command n d :
  rows_sound d -> is_uuid4 id = true -> scope_ok s -> cs_terminal_epoch_id s <> EmptyString -> cd_proposals d !! id = None ->
  rows_sound (with_proposal id (pending_proposal s command n) s d).
Proof.
  intros [R0 R1 R2 R3 R4] Hid Hs He Hn. split; simpl.
  - exact R0.
  - exact R1.
  - intros id' p' [[<- <-]|[Hne Hp]]%lookup_insert_Some.
    + exists s. split; simpl; try done; [by destruct s|..]; rewrite members_of_app, members_of_own; [by rewrite R3|by rewrite R4].
    + destruct (R2 id' p' Hp) as (s' & Hs'). exists s'.
      destruct (with_proposal_members id (pending_proposal s command n) s d id') as [E1 E2]; [done|]. by eapply holds_same; [..|exact Hs'].
  - intros id' [Hn' Hne]%lookup_insert_None.
    destruct (with_proposal_members id (pending_proposal s command n) s d id') as [E1 _]; [done|]. simpl in E1. rewrite E1. by apply R3.
  - intros id' [Hn' Hne]%lookup_insert_None.
    destruct (with_proposal_members id (pending_proposal s command n) s d id') as [_ E2]; [done|]. simpl in E2. rewrite E2. by apply R4.
Qed.
Lemma with_proposal_kept id p s d : cd_proposals d !! id = None -> proposals_kept d (with_proposal id p s d).
Proof.
  intros Hn id' p' Hp. assert (id' <> id) as Hne by congruence. destruct (with_proposal_members id p s d id' Hne) as [E1 E2].
  split; [|done]. exists p'. simpl. rewrite lookup_insert_ne by done. split; [done|apply decided_from_refl].
Qed.
(** A decision of a pending proposal. *)
Definition with_decision (id : string) (p : CascadeProposalRow) d : CascadeDb rest := set_proposals (<[id := p]> (cd_proposals d)) d.
Lemma decide_proposal_ok f id n d d' k :
  decide_proposal f id n d = (d', Ok k) -> k = 1 -> exists p, cd_proposals d !! id = Some p /\ pending p = true /\
    cp_revision p = n /\ d' = with_decision id (f p) d.
Proof.
  unfold decide_proposal. destruct (cd_proposals d !! id) as [p|]; [|by intros [= <- <-]].
  destruct (pending p && _) eqn:E; [|by intros [= <- <-]]. intros [= <- _] _. bool_hyps. by exists p.
Qed.
Lemma decision_holds id p p' s d :
  cp_revision p <= cp_revision p' -> scope_of p' (cs_rfc_members s) (cs_wfm_members s) = scope_of p (cs_rfc_members s) (cs_wfm_members s) ->
  holds d id p s -> holds d id p' s.
Proof.
  intros Hr Hs [H1 H2 H3 H4 H5 H6 H7]. split; try done; [lia| |congruence]. injection Hs as _ He _ _ _ _. by rewrite He.
Qed.
Lemma with_decision_sound id p p' d :
  rows_sound d -> cd_proposals d !! id = Some p -> cp_revision p <= cp_revision p' ->
  (forall a b, scope_of p' a b = scope_of p a b) -> rows_sound (with_decision id p' d).
Proof.
  intros [R0 R1 R2 R3 R4] Hp Hr Hs. split; simpl; [exact R0|exact R1| |..].
  - intros id' q [[<- <-]|[Hne Hq]]%lookup_insert_Some.
    + destruct (R2 _ _ Hp) as (s & Hh). exists s. eapply decision_holds; [exact Hr|apply Hs|]. by eapply holds_same; [..|exact Hh].
    + destruct (R2 _ _ Hq) as (s & Hh). exists s. by eapply holds_same; [..|exact Hh].
  - intros id' [Hn _]%lookup_insert_None. by apply R3.
  - intros id' [Hn _]%lookup_insert_None. by apply R4.
Qed.
Lemma with_decision_kept id p p' d : cd_proposals d !! id = Some p -> decided_from p p' -> proposals_kept d (with_decision id p' d).
Proof.
  intros Hp Hd id' q Hq. split; [|done]. simpl. destruct (decide (id' = id)) as [->|Hne].
  - exists p'. rewrite lookup_insert_eq. split; [done|]. congruence.
  - exists q. rewrite lookup_insert_ne by done. split; [done|apply decided_from_refl].
Qed.
Lemma view_proposal d id p : cd_proposals d !! id = Some p -> pending p = true ->
  ca_cascade (view d) !! id = Some (cp_trigger_rfc_id p, cp_terminal_epoch_id p, Pending).
Proof. intros Hp Hpend%pending_phase. simpl. rewrite lookup_fmap, Hp. simpl. unfold cascade_of. by rewrite Hpend. Qed.
End life.
