(* ===== verification/CascadeRuns.v ===== *)
(** What the operations of the source projection and of the cascades do to the
    tables: each takes at most one step of the machine of a cascade. *)
From S2P Require Import Prelude StrictJson Identifiers AuditLedger Tables CommandBoundary CommandDomain.
From S2P Require Import TicketTables RfcIdentity RfcHierarchy RfcImports TicketForest CascadeScope.
From S2P Require Import RfcProjection CascadeReview CascadeCommands CascadeLife.
#[local] Arguments set_token : simpl never.
#[local] Arguments is_uuid4 : simpl never.
#[local] Arguments changed_row : simpl never.
#[local] Arguments projection_row_ok : simpl never.
#[local] Arguments dset : simpl never.

(** * The fields accepted *)
Lemma spec_in key spec : spec_of key = Some spec -> spec ∈ _FIELD_SPECS /\ fs_key spec = key.
Proof.
  unfold spec_of. intros Hh. assert (spec ∈ filter (fun s => String.eqb (fs_key s) key = true) _FIELD_SPECS) as Hin.
  { destruct (filter _ _) as [|x l]; [done|]. injection Hh as ->. left. }
  apply list_elem_of_filter in Hin as [Hk Hin]. by apply String.eqb_eq in Hk.
Qed.
Lemma column_epoch p : column p "terminal_epoch_id" = jopt JStr (rp_terminal_epoch_id p).
Proof. done. Qed.
Lemma as_text_jopt v : as_text (jopt JStr v) = v.
Proof. by destruct v. Qed.
Lemma changed_epoch p ch :
  rp_terminal_epoch_id (changed_row p ch) = match dget "terminal_epoch_id" ch with
    | Some v => as_text v | None => rp_terminal_epoch_id p end.
Proof.
  unfold changed_row, row_of_columns. cbn [rp_terminal_epoch_id]. rewrite column_epoch.
  destruct (dget _ ch); [done|]. apply as_text_jopt.
Qed.
(** No field of the registry is the epoch. *)
Lemma set_field_epoch spec x ch :
  spec ∈ _FIELD_SPECS -> dget "terminal_epoch_id" (set_field spec x ch) = dget "terminal_epoch_id" ch.
Proof.
  intros Hin. unfold set_field. rewrite !dget_dset. unfold _FIELD_SPECS in Hin.
  repeat (apply elem_of_cons in Hin as [->|Hin]; [done|]). by apply elem_of_nil in Hin.
Qed.
Section life.
Context `{Sha256} {rest : Type} `{!RfcSourceEvidenceProvider rest}.
Implicit Types d : CascadeDb rest.
Implicit Types db : LedgerDb (CascadeDb rest).
Lemma delta_shape_ok x spec :
  _validate_delta_shape x = Ok spec -> spec_of (dl_field_key x) = Some spec /\ dl_value_kind x = fs_kind spec /\
    dl_evidence_id x <> EmptyString /\
    (if String.eqb (fs_kind spec) "instant" then exists n, dl_value x = inr n /\ 0 <= n
     else exists s, dl_value x = inl s /\ s <> EmptyString) /\
    (if String.eqb (dl_field_key x) "status" then exists c a, dl_status_class x = Some c /\ dl_status_authority x = Some a /\
        set_token _STATUS_CLASSES c = true /\ set_token _STATUS_AUTHORITIES a = true
     else dl_status_class x = None /\ dl_status_authority x = None).
Proof.
  unfold _validate_delta_shape. destruct (spec_of _) as [s|]; [|done].
  intros (u1 & Hk%forbid_ok & Hr)%bind_ok. apply bind_ok in Hr as (u2 & He%forbid_ok & Hr).
  apply bind_ok in Hr as (u3 & Hv & Hr). apply bind_ok in Hr as (u4 & Hs & [= ->]). bool_hyps.
  split_and!; try done.
  - destruct (String.eqb (fs_kind spec) "instant"); apply forbid_ok in Hv; destruct (dl_value x) as [s|n]; try done.
    + exists n. split; [done|]. by apply Z.ltb_ge.
    + exists s. split; [done|]. by apply String.eqb_neq.
  - destruct (String.eqb (dl_field_key x) "status"); apply forbid_ok in Hs.
    + destruct (dl_status_class x) as [c|], (dl_status_authority x) as [a|]; try done. bool_hyps. by exists c, a.
    + destruct (dl_status_class x), (dl_status_authority x); done.
Qed.
(** What accepting one delta adds. *)
Lemma accept_delta_ok db rfc current acc x acc' :
  accept_delta db rfc current acc x = Ok acc' ->
  exists spec, _validate_delta_shape x = Ok spec /\ (dl_field_key x ∉ ap_seen acc) /\
    validate_accepted_delta db rfc x (dl_evidence_id x) = Ok "VALID" /\
    let acc1 := MkAcceptance (dl_field_key x :: ap_seen acc) (ap_changes acc) (ap_changed_fields acc)
      (ap_evidence_ids acc) (ap_status acc) in
    acc' = if String.eqb (dl_field_key x) "status" then
        if superseded_authority current x || same_status current x then acc1
        else accept_field acc1 x
          (dset "status_authority" (jopt JStr (dl_status_authority x))
            (dset "status_class" (jopt JStr (dl_status_class x)) (set_field spec x (ap_changes acc)))) (Some x)
      else if match current with Some p => same_value (column p (fs_value spec)) (dl_value x) | None => false end
      then acc1 else accept_field acc1 x (set_field spec x (ap_changes acc)) (ap_status acc).
Proof.
  unfold accept_delta. intros (spec & Hs & Hr)%bind_ok. apply bind_ok in Hr as (u & Hn%forbid_ok%set_token_out & Hr). cbv zeta in Hr.
  apply bind_ok in Hr as (st & Hv & Hr). apply bind_ok in Hr as (u2 & Hst%forbid_ok & Hr). bool_hyps.
  subst st. exists spec. split_and!; [done..|]. cbv zeta.
  destruct (String.eqb (dl_field_key x) "status"); [destruct (_ || _)|case_match]; by injection Hr as <-.
Qed.
Lemma accept_epoch db rfc current acc x acc' :
  accept_delta db rfc current acc x = Ok acc' ->
  dget "terminal_epoch_id" (ap_changes acc') = dget "terminal_epoch_id" (ap_changes acc).
Proof.
  intros (spec & (Hspec & _)%delta_shape_ok & _ & _ & ->)%accept_delta_ok. apply spec_in in Hspec as [Hin _].
  destruct (String.eqb _ "status"); [destruct (_ || _)|case_match]; simpl; rewrite ?dget_dset; simpl; try done;
    by apply set_field_epoch.
Qed.
Lemma accepted_epoch db rfc current l acc acc' :
  foldM (accept_delta db rfc current) acc l = Ok acc' ->
  dget "terminal_epoch_id" (ap_changes acc') = dget "terminal_epoch_id" (ap_changes acc).
Proof.
  revert acc. induction l as [|x l IH]; intros acc; [by intros [= ->]|]. simpl. intros (acc1 & Ha & Hl)%bind_ok.
  rewrite (IH _ Hl). by eapply accept_epoch.
Qed.

(** * Writing the projection *)
Lemma update_projection_ok r n ch d d' k :
  update_projection r n ch d = (d', Ok k) -> k = 1 -> exists p, projections d !! r = Some p /\ rp_revision p = n /\
    let p' := changed_row p (dset "revision" (JInt (n + 1)) ch) in
    projection_row_ok p' = true /\ d' = with_projection r p' d.
Proof.
  unfold update_projection. destruct (projections d !! r) as [p|]; [|by intros [= <- <-]].
  destruct (Z.eqb_spec (rp_revision p) n) as [Hn|]; [|by intros [= <- <-]]. cbv zeta. destruct (projection_row_ok _) eqn:E; [|done].
  intros [= <- <-] _. by exists p.
Qed.
Definition base_row (current : option RfcProjectionRow) : RfcProjectionRow := default empty_projection current.
Definition written_row (current : option RfcProjectionRow) (ch : list (string * json)) : RfcProjectionRow :=
  changed_row (base_row current)
    (dset "revision" (JInt match current with Some p => rp_revision p + 1 | None => 1 end) ch).
Lemma write_projection_ok r current ch db db' n :
  write_projection r current ch db = (db', Ok n) -> current = projections (domain_state db) !! r ->
  n = match current with Some p => rp_revision p + 1 | None => 1 end /\
  projection_row_ok (written_row current ch) = true /\
  db' = with_domain db (with_projection r (written_row current ch) (domain_state db)).
Proof.
  unfold write_projection, written_row, base_row. destruct current as [p|]; intros Hr Hc.
  - apply stm_bind_ok in Hr as (db1 & k & (d & Hu & ->)%on_domain_ok & Hr).
    apply stm_bind_ok in Hr as (db2 & u & [-> Hk%forbid_ok]%lift_ok & [= <- <-]). bool_hyps.
    apply update_projection_ok in Hu as (p' & Hp' & _ & Hok & ->); [|lia]. rewrite Hp' in Hc. injection Hc as ->. done.
  - apply stm_bind_ok in Hr as (db1 & k & (d & Hu & ->)%on_domain_ok & [= <- <-]).
    unfold insert_projection in Hu. apply statement_ok in Hu as [Hok ->]. bool_hyps. done.
Qed.
Lemma written_epoch current ch :
  rp_terminal_epoch_id (written_row current ch) =
  match dget "terminal_epoch_id" ch with Some v => as_text v | None => epoch_of current end.
Proof.
  unfold written_row. rewrite changed_epoch, dget_dset. simpl. destruct (dget _ ch); [done|].
  by destruct current.
Qed.

(** * Reversal *)
Lemma pending_of_elem d r e id p :
  (id, p) ∈ pending_of d r e <-> cd_proposals d !! id = Some p /\ cascade_of p = (r, e, Pending).
Proof.
  unfold pending_of, cascade_of. rewrite rows_where_elem, !andb_true_iff, pending_phase, !String.eqb_eq.
  split; [intros (Hp & (-> & ->) & ->)|intros (Hp & [= -> -> ->])]; done.
Qed.
Lemma superseded_view n command p r e :
  cascade_of p = (r, e, Pending) -> cascade_of (superseded_proposal n command p) = (r, e, Superseded).
Proof. unfold cascade_of. simpl. by intros [= -> -> _]. Qed.
Lemma decided_sound id p p' d : rows_sound d -> cd_proposals d !! id = Some p -> pending p = true -> p' <> p ->
  decided_from p p' -> rows_sound (with_decision id p' d) /\ proposals_kept d (with_decision id p' d).
Proof.
  intros Hs Hp Hpend Hne Hd. split; [|by eapply with_decision_kept].
  destruct Hd as [->|(_ & n & command & [->| ->])]; [done|..]; (eapply with_decision_sound; [done..|simpl; lia|done]).
Qed.
Lemma superseded_ne n command p : pending p = true -> superseded_proposal n command p <> p.
Proof. intros Hp Heq. rewrite <-Heq in Hp. done. Qed.
Lemma executed_ne n command p : pending p = true -> executed_proposal n command p <> p.
Proof. intros Hp Heq. rewrite <-Heq in Hp. done. Qed.
Lemma phase_pending d id p r e :
  cd_proposals d !! id = Some p -> cascade_of p = (r, e, Pending) -> ca_cascade (view d) !! id = Some (r, e, Pending).
Proof. intros Hp Hc. simpl. by rewrite lookup_fmap, Hp, <-Hc. Qed.
Lemma reversed_none d r e : pending_of d r e = [] -> reversed r e <$> ca_cascade (view d) = ca_cascade (view d).
Proof.
  intros Hn. apply map_eq. intros id. rewrite lookup_fmap. simpl. rewrite lookup_fmap. destruct (cd_proposals d !! id) as [p|] eqn:Hp; [|done].
  simpl. unfold reversed. rewrite decide_False; [done|]. intros Hc. assert ((id, p) ∈ pending_of d r e) as Hin by by apply pending_of_elem.
  rewrite Hn in Hin. by apply elem_of_nil in Hin.
Qed.
Lemma reversed_one d r e id p n command :
  cascades_ok (view d) -> cd_proposals d !! id = Some p -> cascade_of p = (r, e, Pending) ->
  reversed r e <$> ca_cascade (view d) = ca_cascade (view (with_decision id (superseded_proposal n command p) d)).
Proof.
  intros Hok Hp Hc. apply map_eq. intros i. rewrite lookup_fmap. simpl. rewrite !lookup_fmap. unfold reversed.
  destruct (decide (i = id)) as [->|Hne].
  - rewrite lookup_insert_eq, Hp. simpl. by rewrite Hc, decide_True, (superseded_view n command p r e).
  - rewrite lookup_insert_ne by done. destruct (cd_proposals d !! i) as [q|] eqn:Hq; [|done]. simpl. rewrite decide_False; [done|].
    intros Hcq. apply Hne. apply (ok_one _ Hok r e); exists Pending; split; try done; by eapply phase_pending.
Qed.
Definition superseding d d' (r e : string) : Prop :=
  rows_sound d' /\ projections d' = projections d /\ cd_tickets d' = cd_tickets d /\ proposals_kept d d' /\
  ca_cascade (view d') = reversed r e <$> ca_cascade (view d).
Lemma supersede_ok (clock : place -> Z) r e command db db' u :
  cascade_sound (domain_state db) -> _supersede_pending_for_reversal clock r e command db = (db', Ok u) ->
  superseding (domain_state db) (domain_state db') r e.
Proof.
  intros [Hs Hok]. unfold _supersede_pending_for_reversal. intros (s & d0 & [= <- <-] & Hr)%stm_bind_ok.
  destruct (pending_of (domain_state db) r e) as [|[id p] l] eqn:E.
  - injection Hr as <- _. split_and!; [done..|apply proposals_kept_refl|]. by rewrite reversed_none.
  - apply stm_bind_ok in Hr as (db1 & k & (d & Hd & ->)%on_domain_ok & Hr).
    apply lift_ok in Hr as [-> Hk%forbid_ok]. bool_hyps. simpl.
    assert ((id, p) ∈ pending_of (domain_state db) r e) as [Hp Hc]%pending_of_elem by (rewrite E; left).
    apply decide_proposal_ok in Hd as (q & Hq & Hpend & _ & ->); [|done]. rewrite Hp in Hq. injection Hq as <-.
    destruct (decided_sound id p (superseded_proposal (clock ["projection"]) command p) (domain_state db)) as [Hs' Hk'];
      [done..|by apply superseded_ne|right; eauto|].
    split_and!; [done..|]. by rewrite (reversed_one _ r e id p (clock ["projection"]) command).
Qed.

(** * Capture *)
Lemma capture_pending_ok `{!RfcTerminalTaskParticipant rest} (fresh : place -> string) (clock : place -> Z)
    r e status_class evidence command db db' id :
  capture_pending fresh clock r e status_class evidence command db = (db', Ok id) ->
  exists s, capture_scope db r e status_class evidence = Ok s /\ id = fresh ["proposal"] /\
    cd_proposals (domain_state db) !! id = None /\ cs_terminal_epoch_id s <> EmptyString /\
    db' = with_domain db (with_proposal id (pending_proposal s command (clock ["capture"])) s (domain_state db)).
Proof.
  unfold capture_pending. intros (s0 & db0 & [= <- <-] & Hr)%stm_bind_ok.
  apply stm_bind_ok in Hr as (s1 & u1 & [-> _]%lift_ok & Hr). apply stm_bind_ok in Hr as (s2 & u2 & [-> _]%lift_ok & Hr).
  apply stm_bind_ok in Hr as (s3 & scope & [-> Hs]%lift_ok & Hr). cbv zeta in Hr.
  apply stm_bind_ok in Hr as (s4 & u4 & (d & (Hn & He & ->)%insert_replacement_ok & ->)%on_domain_ok & [= <- <-]).
  by exists scope.
Qed.
Lemma view_with_proposal id p s d :
  view (with_proposal id p s d) = MkCascades (ca_epoch (view d)) (<[id := cascade_of p]> (ca_cascade (view d))).
Proof. unfold view. simpl. by rewrite fmap_insert. Qed.
Lemma view_with_decision id p d :
  view (with_decision id p d) = MkCascades (ca_epoch (view d)) (<[id := cascade_of p]> (ca_cascade (view d))).
Proof. unfold view. simpl. by rewrite fmap_insert. Qed.
Lemma view_with_projection r p d :
  view (with_projection r p d) = MkCascades (match rp_terminal_epoch_id p with
    | Some e => <[r := e]> (ca_epoch (view d)) | None => delete r (ca_epoch (view d)) end) (ca_cascade (view d)).
Proof. unfold view. simpl. by rewrite projections_with, epochs_insert. Qed.
(** An RFC ends: its epoch is written, then its cascade is captured. *)
Definition new_epoch d (r e : string) : Prop := forall id ph, ca_cascade (view d) !! id <> Some (r, e, ph).
Lemma ends_evolved r e p id s command n d :
  cascade_sound d -> epoch_of (projections d !! r) = None -> new_epoch d r e -> projection_row_ok p = true ->
  rp_terminal_epoch_id p = Some e -> is_uuid4 id = true -> scope_ok s -> cs_trigger_rfc_id s = r ->
  cs_terminal_epoch_id s = e -> e <> EmptyString -> cd_proposals d !! id = None ->
  cascade_evolved d (with_proposal id (pending_proposal s command n) s (with_projection r p d)).
Proof.
  intros [Hs Hok] Hnone Hnew Hp Hpe Hid Hsc Hr He Hne Hn.
  pose proof (projection_sound r p d Hs Hp) as Hs1. split.
  - apply with_proposal_sound; try done. congruence.
  - eapply star_step; [|apply star_refl].
    assert (view (with_proposal id (pending_proposal s command n) s (with_projection r p d)) =
      MkCascades (<[r := e]> (ca_epoch (view d))) (<[id := (r, e, Pending)]> (ca_cascade (view d)))) as ->.
    { rewrite view_with_proposal, view_with_projection, Hpe. unfold cascade_of. simpl. by rewrite Hr, He. }
    apply step_end; [by rewrite view_epoch|by simpl; rewrite lookup_fmap, Hn|exact Hnew].
  - apply (with_proposal_kept id (pending_proposal s command n) s (with_projection r p d)), Hn.
Qed.
(** The status of an ended RFC goes back: its pending cascade is superseded first. *)
Lemma reverses_evolved r e p d d' :
  cascade_sound d -> epoch_of (projections d !! r) = Some e -> superseding d d' r e -> projection_row_ok p = true ->
  rp_terminal_epoch_id p = None -> cascade_evolved d (with_projection r p d').
Proof.
  intros [Hs Hok] He (Hs' & Ep & Et & Hk & Hv) Hp Hpe. split.
  - by apply projection_sound.
  - eapply star_step; [|apply star_refl].
    assert (view (with_projection r p d') = MkCascades (delete r (ca_epoch (view d))) (reversed r e <$> ca_cascade (view d))) as ->.
    { rewrite view_with_projection, Hpe, Hv. unfold view. by rewrite Ep. }
    apply step_reverse. by rewrite view_epoch.
  - exact Hk.
Qed.

(** * Acceptance *)
Definition class_of (current : option RfcProjectionRow) : string :=
  match current with Some p => rp_status_class p | None => "unknown" end.
Lemma row_class p : projection_row_ok p = true -> terminal_class (rp_status_class p) = present_opt (rp_terminal_epoch_id p).
Proof. unfold projection_row_ok. intros Hp. apply andb_true_iff in Hp as [Hp _]. apply andb_true_iff in Hp as [_ Hp]. by apply eqb_prop. Qed.
Lemma class_epoch d r : rows_sound d ->
  terminal_class (class_of (projections d !! r)) = present_opt (epoch_of (projections d !! r)).
Proof. intros [_ Hp _ _ _]. destruct (projections d !! r) as [p|] eqn:E; [|done]. by eapply row_class, Hp. Qed.
Lemma written_epoch_set current ch e :
  rp_terminal_epoch_id (written_row current (dset "terminal_epoch_id" (jopt JStr e) ch)) = e.
Proof. rewrite written_epoch, dget_dset. simpl. apply as_text_jopt. Qed.
Lemma written_epoch_kept current ch :
  dget "terminal_epoch_id" ch = None -> rp_terminal_epoch_id (written_row current ch) = epoch_of current.
Proof. intros Hn. by rewrite written_epoch, Hn. Qed.
Section acceptance.
Context `{!RfcTerminalTaskParticipant rest} (fresh : place -> string) (clock : place -> Z) (capture : terminal_capture rest).
Context (Hcapture : capture = None \/ capture = Some (capture_pending fresh clock)).
(** The identity of a captured proposal, when cascades are captured at all. *)
Context (Hid : present_opt capture = true -> is_uuid4 (fresh ["proposal"]) = true).
Definition epoch_fresh d (r : string) : Prop := present_opt capture = true -> new_epoch d r (fresh ["epoch"]).
Lemma capture_cascade_ok r e x command db db' id :
  capture_cascade capture r e x command db = (db', Ok id) ->
  present_opt capture = true /\ exists s, capture_scope db r e (default EmptyString (dl_status_class x)) (dl_evidence_id x) = Ok s /\ id = fresh ["proposal"] /\
    cd_proposals (domain_state db) !! id = None /\ cs_terminal_epoch_id s <> EmptyString /\
    db' = with_domain db (with_proposal id (pending_proposal s command (clock ["capture"])) s (domain_state db)).
Proof.
  clear Hid. unfold capture_cascade. destruct Hcapture as [-> | ->]; [by intros [_ ?]%lift_ok|]. cbv zeta. intros Hr. split; [done|]. revert Hr.
  intros (db1 & id1 & (s & Hs & -> & Hn & He & ->)%capture_pending_ok & Hr)%stm_bind_ok.
  apply stm_bind_ok in Hr as (s2 & u2 & [-> _]%lift_ok & Hr). apply stm_bind_ok in Hr as (s3 & db3 & [= <- <-] & Hr).
  apply stm_bind_ok in Hr as (s4 & u4 & [-> _]%lift_ok & [= <- <-]). by exists s.
Qed.
(** The epoch decided, and what has been done about the cascades by then. *)
Lemma resulting_epoch_ok r command review current status_class db db' epoch capturing :
  cascade_sound (domain_state db) -> current = projections (domain_state db) !! r ->
  resulting_epoch fresh clock capture r (class_of current) (epoch_of current) status_class command review db
    = (db', Ok (epoch, capturing)) ->
  (epoch = epoch_of current /\ capturing = false /\ db' = db) \/
  (epoch_of current = None /\ epoch = Some (fresh ["epoch"]) /\ capturing = true /\ db' = db) \/
  (exists e, epoch_of current = Some e /\ epoch = None /\ capturing = false /\
     superseding (domain_state db) (domain_state db') r e).
Proof.
  intros Hs Hc Hr. pose proof (class_epoch (domain_state db) r (proj1 Hs)) as Hce. rewrite <-Hc in Hce.
  unfold resulting_epoch in Hr. rewrite Hce in Hr. destruct (epoch_of current) as [e|]; simpl in Hr; destruct (terminal_class status_class).
  - injection Hr as <- <- <-. by left.
  - apply stm_bind_ok in Hr as (s1 & u1 & [-> _]%lift_ok & Hr).
    apply stm_bind_ok in Hr as (s2 & u2 & Hu%supersede_ok & Hr); [|done]. injection Hr as <- <- <-. right; right. by exists e.
  - apply stm_bind_ok in Hr as (s1 & u1 & [-> _]%lift_ok & Hr). injection Hr as <- <- <-. by right; left.
  - injection Hr as <- <- <-. by left.
Qed.
Lemma apply_changes_evolved r command current acc review a db db' x :
  cascade_sound (domain_state db) -> epoch_fresh (domain_state db) r ->
  current = projections (domain_state db) !! r -> dget "terminal_epoch_id" (ap_changes acc) = None ->
  apply_changes fresh clock capture r command current acc review a db = (db', Ok x) ->
  cascade_evolved (domain_state db) (domain_state db').
Proof.
  intros Hs Hnew Hc Hclean. unfold apply_changes. cbv zeta.
  intros (db1 & [[[class epoch] capturing] changes] & H1 & Hr)%stm_bind_ok.
  apply stm_bind_ok in Hr as (db2 & n & H2 & Hr). apply stm_bind_ok in Hr as (db3 & proposal & H3 & Hr).
  apply stm_bind_ok in Hr as (s4 & db4 & [= <- <-] & Hr). apply stm_bind_ok in Hr as (s5 & l & [-> _]%lift_ok & [= <- _]).
  destruct (ap_status acc) as [y|].
  - apply stm_bind_ok in H1 as (db0 & [epoch' capturing'] & H1 & [= <- <- <- <- <-]).
    apply resulting_epoch_ok in H1 as [(-> & -> & ->)|[(Hnone & -> & -> & ->)|(e & He & -> & -> & Hsup)]]; [| | |done|done].
    + apply write_projection_ok in H2 as (_ & Hok & ->); [|done]. injection H3 as <- _.
      apply same_epoch_evolves; [done| |done]. by rewrite written_epoch_set, Hc.
    + apply write_projection_ok in H2 as (_ & Hok & ->); [|done].
      apply stm_bind_ok in H3 as (db4 & id & (Hcap & s & Hsc & -> & Hn & He & ->)%capture_cascade_ok & [= <- _]).
      specialize (Hid Hcap). specialize (Hnew Hcap).
      apply capture_scope_ok in Hsc as (_ & Hscope & Etr & Eep & _).
      assert (fresh ["epoch"] <> EmptyString) as Hep by congruence.
      assert (epoch_of (projections (domain_state db) !! r) = None) as Hnone' by by rewrite <-Hc.
      pose proof (written_epoch_set current (ap_changes acc) (Some (fresh ["epoch"]))) as Hw. by apply (ends_evolved r (fresh ["epoch"])).
    + apply write_projection_ok in H2 as (_ & Hok & ->); [|by destruct Hsup as (_ & -> & _)]. injection H3 as <- _.
      eapply reverses_evolved; [done|by rewrite <-Hc|exact Hsup|exact Hok|]. exact (written_epoch_set current (ap_changes acc) None).
  - injection H1 as <- <- <- <- <-. apply write_projection_ok in H2 as (_ & Hok & ->); [|done].
    injection H3 as <- _. apply same_epoch_evolves; [done| |done]. by rewrite written_epoch_kept, Hc.
Qed.
Lemma apply_deltas_evolved r command deltas review a db db' x :
  epoch_fresh (domain_state db) r ->
  apply_accepted_field_deltas fresh clock capture r command deltas review a db = (db', Ok x) ->
  cascade_evolves (domain_state db) (domain_state db').
Proof.
  intros Hnew Hr Hs. unfold apply_accepted_field_deltas in Hr. apply stm_bind_ok in Hr as (s0 & db0 & [= <- <-] & Hr).
  apply stm_bind_ok in Hr as (s1 & u1 & [-> _]%lift_ok & Hr). apply stm_bind_ok in Hr as (s2 & u2 & [-> _]%lift_ok & Hr).
  apply stm_bind_ok in Hr as (s3 & u3 & [-> _]%lift_ok & Hr). apply stm_bind_ok in Hr as (s4 & u4 & [-> _]%lift_ok & Hr).
  cbv zeta in Hr. apply stm_bind_ok in Hr as (s5 & acc & [-> Hacc%accepted_epoch]%lift_ok & Hr).
  destruct (ap_changes acc) as [|ch chs] eqn:E.
  - apply stm_bind_ok in Hr as (s6 & l & [-> _]%lift_ok & [= <- _]). by apply cascade_evolves_refl.
  - eapply apply_changes_evolved; [done|exact Hnew|done| |exact Hr]. by rewrite E, Hacc.
Qed.
End acceptance.

(** * The commands of a cascade *)
Lemma cascade_of_pending p : pending p = true -> cascade_of p = (cp_trigger_rfc_id p, cp_terminal_epoch_id p, Pending).
Proof. intros Hp%pending_phase. unfold cascade_of. by rewrite Hp. Qed.
Lemma executed_evolved d id p n command :
  cascade_sound d -> cd_proposals d !! id = Some p -> pending p = true ->
  cascade_evolved d (with_decision id (executed_proposal n command p) d).
Proof.
  intros [Hs Hok] Hp Hpend. pose proof (view_proposal d id p Hp Hpend) as Hv.
  destruct (decided_sound id p (executed_proposal n command p) d) as [Hs' Hk]; [done..|by apply executed_ne|right; eauto|].
  split; [done| |done]. eapply star_step; [|apply star_refl]. rewrite view_with_decision.
  change (cascade_of (executed_proposal n command p)) with (cp_trigger_rfc_id p, cp_terminal_epoch_id p, Executed).
  apply step_execute; [|done]. by apply (ok_pending _ Hok id).
Qed.
Lemma refreshed_evolved d id p n n' command s id' :
  cascade_sound d -> cd_proposals d !! id = Some p -> pending p = true -> is_uuid4 id' = true -> scope_ok s ->
  cs_terminal_epoch_id s <> EmptyString -> cs_trigger_rfc_id s = cp_trigger_rfc_id p ->
  cs_terminal_epoch_id s = cp_terminal_epoch_id p ->
  cd_proposals (with_decision id (superseded_proposal n command p) d) !! id' = None ->
  cascade_evolved d (with_proposal id' (pending_proposal s command n') s (with_decision id (superseded_proposal n command p) d)).
Proof.
  intros [Hs Hok] Hp Hpend Hid Hsc Hne Htr Hep Hn. pose proof (view_proposal d id p Hp Hpend) as Hv.
  destruct (decided_sound id p (superseded_proposal n command p) d) as [Hs' Hk]; [done..|by apply superseded_ne|right; eauto|].
  assert (id' <> id) as Hii by (intros ->; simpl in Hn; by rewrite lookup_insert_eq in Hn).
  split; [by apply with_proposal_sound| |].
  - eapply star_step; [|apply star_refl]. rewrite view_with_proposal, view_with_decision.
    change (cascade_of (pending_proposal s command n')) with (cs_trigger_rfc_id s, cs_terminal_epoch_id s, Pending).
    change (cascade_of (superseded_proposal n command p)) with (cp_trigger_rfc_id p, cp_terminal_epoch_id p, Superseded).
    rewrite Htr, Hep. cbn [ca_epoch ca_cascade]. apply step_refresh; [by apply (ok_pending _ Hok id)|done|].
    simpl in *. rewrite lookup_insert_ne in Hn by done. by rewrite lookup_fmap, Hn.
  - pose proof (with_proposal_kept id' (pending_proposal s command n') s _ Hn) as Hk'. intros i q Hq.
    destruct (Hk i q Hq) as ((q1 & Hq1 & D1) & M1 & M2). destruct (Hk' i q1 Hq1) as ((q2 & Hq2 & D2) & M3 & M4).
    split; [exists q2; split; [done|by eapply decided_from_trans]|]. by rewrite M3, M4.
Qed.
(** What takes part in a cascade writes tables of its own. *)
Definition rest_only d d' : Prop := exists r,
  d' = MkCascadeDb (cd_tickets d) (cd_proposals d) (cd_rfc_members d) (cd_wfm_members d) r.
Definition aside {A} (m : cascadeLM rest A) : Prop := forall db db' a,
  m db = (db', Ok a) -> rest_only (domain_state db) (domain_state db').
Lemma rest_only_refl d : rest_only d d.
Proof. exists (cd_rest d). by destruct d. Qed.
Lemma rest_only_trans d1 d2 d3 : rest_only d1 d2 -> rest_only d2 d3 -> rest_only d1 d3.
Proof. intros (r1 & ->) (r2 & ->). by exists r2. Qed.
Lemma rest_only_evolves d d' : rest_only d d' -> cascade_evolves d d'.
Proof. intros (r & ->). by apply same_evolves. Qed.
Lemma rest_only_proposals d d' : rest_only d d' -> cd_proposals d' = cd_proposals d.
Proof. by intros (r & ->). Qed.
Lemma load_refreshable_ok d id s :
  load_refreshable d id = Ok s -> exists p, cd_proposals d !! id = Some p /\ pending p = true /\
    cx_trigger_rfc_id s = cp_trigger_rfc_id p /\ cx_terminal_epoch_id s = cp_terminal_epoch_id p /\
    cx_proposal_revision s = cp_revision p.
Proof.
  unfold load_refreshable. destruct (_ !! id) as [p|]; [|done]. cbv zeta. intros (u & Hp%forbid_ok & Hr)%bind_ok. bool_hyps.
  apply bind_ok in Hr as (t & [-> _]%cascade_uuid_ok & Hr). apply bind_ok in Hr as (n & [-> _]%positive_ok & Hr).
  repeat (apply bind_ok in Hr as (? & _ & Hr)). injection Hr as <-. by exists p.
Qed.
Lemma load_pending_ok d id s :
  _load_pending_state_by_id d id = Ok s -> exists p, cd_proposals d !! id = Some p /\ pending p = true /\
    _state_from_row d id p = Ok s.
Proof.
  unfold _load_pending_state_by_id. intros (i & [-> _]%request_uuid_ok & Hr)%bind_ok. destruct (_ !! id) as [p|]; [|done].
  apply bind_ok in Hr as (u & Hp%forbid_ok & Hr). bool_hyps. by exists p.
Qed.
Lemma state_from_row_ok d id p s :
  _state_from_row d id p = Ok s -> is_uuid4 id = true /\ cx_proposal_id s = id /\ cx_trigger_rfc_id s = cp_trigger_rfc_id p /\
    cx_terminal_epoch_id s = cp_terminal_epoch_id p /\ cx_proposal_revision s = cp_revision p.
Proof.
  unfold _state_from_row. cbv zeta. intros (i & [-> Hid]%cascade_uuid_ok & Hr)%bind_ok.
  apply bind_ok in Hr as (t & [-> _]%cascade_uuid_ok & Hr). apply bind_ok in Hr as (u & _ & Hr).
  apply bind_ok in Hr as (n & [-> _]%positive_ok & Hr). repeat (apply bind_ok in Hr as (? & _ & Hr)). by injection Hr as <-.
Qed.

Lemma prepared_simple unchanged id (apply : option (cascadeLM rest (option (list AuditEventInput)))) s :
  simple_mutation (state_prepared unchanged id apply s).
Proof. by destruct unchanged. Qed.
Section commands.
Context `{FloatText} `{!RfcTerminalTaskParticipant rest}.
Context (fresh : place -> string) (clock : place -> Z) (audit : AuditRegistry) (audit_clock : string -> Z).
Lemma cascade_execute_evolves e prepare db db' res :
  (forall db1 p, prepare db = (db1, Ok p) -> simple_mutation p /\
     cascade_evolves (domain_state db) (domain_state db1) /\
     forall db2 db3, no_change p = false -> domain_state db2 = domain_state db1 -> applied audit e p db2 db3 ->
       cascade_evolves (domain_state db2) (domain_state db3)) ->
  cascade_execute (rest := rest) clock audit audit_clock e prepare db = (db', res) ->
  cascade_evolves (domain_state db) (domain_state db').
Proof.
  intros Hp Hr. unfold cascade_execute in Hr. eapply (execute_through audit cascade_evolves); [| |exact Hp| |exact Hr].
  - apply cascade_evolves_refl.
  - apply cascade_evolves_trans.
  - done.
Qed.
Lemma refresh_evolves command proposal_id revision a db db' res :
  is_uuid4 (fresh ["replacement"]) = true ->
  refresh fresh clock audit audit_clock command proposal_id revision a db = (db', res) ->
  cascade_evolves (domain_state db) (domain_state db').
Proof.
  intros Hid. unfold refresh. intros [(id & _ & Hr)| ->]%lift_bind_any; [|apply cascade_evolves_refl].
  eapply cascade_execute_evolves; [|exact Hr]. clear Hr res db'. intros db1 pr. unfold prepare_refresh.
  intros (s0 & db0 & [= <- <-] & Hr)%stm_bind_ok. apply stm_bind_ok in Hr as (s1 & s & [-> Hs%load_refreshable_ok]%lift_ok & Hr).
  destruct Hs as (p & Hp & Hpend & Htr & Hep & Hrev). apply stm_bind_ok in Hr as (s2 & u2 & [-> _]%lift_ok & Hr).
  apply stm_bind_ok in Hr as (s3 & [status_class evidence] & [-> _]%lift_ok & Hr).
  apply stm_bind_ok in Hr as (s4 & scope & [-> Hsc%capture_scope_ok]%lift_ok & Hr).
  destruct Hsc as (_ & Hok & Ht & He & _). destruct (same_scope s scope).
  - injection Hr as <- <-. split; [done|]. split; [apply cascade_evolves_refl|done].
  - injection Hr as <- <-. split; [apply (prepared_simple false)|]. split; [apply cascade_evolves_refl|].
    intros db2 db3 _ Ed (apply & events & [= <-] & Happ & _) Hsound.
    apply stm_bind_ok in Happ as (db4 & u4 & (d & Hw & ->)%on_domain_ok & [= <- _]). unfold refresh_writes in Hw.
    apply stm_bind_ok in Hw as (d1 & k & Hd & Hw). apply stm_bind_ok in Hw as (d2 & u5 & [-> Hk%forbid_ok]%lift_ok & Hw).
    bool_hyps. apply decide_proposal_ok in Hd as (q & Hq & Hqp & _ & ->); [|done]. rewrite Ed, Hp in Hq. injection Hq as <-.
    apply insert_replacement_ok in Hw as (Hn & Hne & ->). simpl. rewrite Ed in *.
    apply refreshed_evolved; try done; congruence.
Qed.
Section execution.
Context {proof : Type} (task communication : execution_participant rest) (provider : proof_provider rest proof).
Context (Htask : forall s c, aside (ep_apply task s c)) (Hcom : forall s c, aside (ep_apply communication s c)).
Context (Hproof : forall the_proof action target revision f, aside (provider the_proof action target revision f)).
Lemma rethrow_st_ok {A} h (m : cascadeLM rest A) db db' a : rethrow_st h m db = (db', Ok a) -> m db = (db', Ok a).
Proof. unfold rethrow_st. destruct (m db) as [db1 r]. intros [= -> Hr%rethrow_ok]. congruence. Qed.
Lemma apply_participant_aside participant p c domain name :
  (forall s c, aside (ep_apply participant s c)) -> aside (_apply_participant participant p c domain name).
Proof.
  intros Hp db db' a. unfold _apply_participant. intros (s0 & db0 & [= <- <-] & Hr)%stm_bind_ok.
  apply stm_bind_ok in Hr as (s1 & u1 & [-> _]%lift_ok & Hr). apply stm_bind_ok in Hr as (db1 & raw & H1%rethrow_st_ok & Hr).
  apply lift_ok in Hr as [-> _]. by eapply Hp.
Qed.
Lemma consume_proof_aside the_proof id revision f : aside (consume_proof provider the_proof id revision f).
Proof.
  intros db db' a. unfold consume_proof. intros (db1 & v & H1%rethrow_st_ok & Hr)%stm_bind_ok.
  apply lift_ok in Hr as [-> _]. by eapply Hproof.
Qed.
Lemma execution_apply_ok command id s p r c a db db' events :
  execution_apply task communication fresh clock command id s p r c a db = (db', Ok events) ->
  exists d row, rest_only (domain_state db) d /\ cd_proposals d !! id = Some row /\ pending row = true /\
    cp_revision row = cx_proposal_revision s /\
    domain_state db' = with_decision id (executed_proposal (now clock) command row) d.
Proof.
  unfold execution_apply. intros (db1 & tasks & H1 & Hr)%stm_bind_ok. apply stm_bind_ok in Hr as (db2 & coms & H2 & Hr).
  apply apply_participant_aside in H1, H2; [|done..].
  apply stm_bind_ok in Hr as (db3 & k & (d & Hd & ->)%on_domain_ok & Hr).
  apply stm_bind_ok in Hr as (s4 & u4 & [-> Hk%forbid_ok]%lift_ok & [= <- _]). bool_hyps.
  apply decide_proposal_ok in Hd as (row & Hrow & Hpend & Hrev & ->); [|done].
  exists (domain_state db2), row. split_and!; try done. by eapply rest_only_trans.
Qed.
Lemma execute_cascade_evolves command proposal_id revision r the_proof a db db' res :
  execute_cascade task communication provider fresh clock audit audit_clock command proposal_id revision r the_proof a db
    = (db', res) -> cascade_evolves (domain_state db) (domain_state db').
Proof.
  unfold execute_cascade. intros [(id & _ & Hr)| ->]%lift_bind_any; [|apply cascade_evolves_refl].
  eapply cascade_execute_evolves; [|exact Hr]. clear Hr res db'. intros db1 pr. unfold prepare_execution.
  intros (s0 & c & [-> _]%lift_ok & Hr)%stm_bind_ok. apply stm_bind_ok in Hr as (s1 & db0 & [= <- <-] & Hr).
  apply stm_bind_ok in Hr as (s2 & s & [-> _]%lift_ok & Hr). apply stm_bind_ok in Hr as (s3 & u3 & [-> _]%lift_ok & Hr).
  apply stm_bind_ok in Hr as (s4 & p & [-> _]%lift_ok & Hr). apply stm_bind_ok in Hr as (s5 & u5 & [-> _]%lift_ok & Hr).
  apply stm_bind_ok in Hr as (db2 & u6 & Hc%consume_proof_aside & Hr). injection Hr as <- <-.
  split; [apply (prepared_simple false)|]. split; [by apply rest_only_evolves|].
  intros db3 db4 _ Ed (apply & events & [= <-] & (d & row & Hro & Hrow & Hpend & _ & ->)%execution_apply_ok & _).
  eapply cascade_evolves_trans; [by apply rest_only_evolves|]. intros Hs. by apply executed_evolved.
Qed.
End execution.
End commands.
End life.
