(* ===== verification/CascadeProps.v ===== *)
(** The operations of the source projection and of the cascades as steps, next
    to the RFC commands and the writes of other packets: every sequence of them
    refines the machine of a cascade.  What a pending proposal shows, and when an
    execution is accepted.

    What a review of a cascade binds: the fingerprint of a scope determines the
    scope, a preview found ready is accepted by the execution, and an execution
    that succeeds executed what was reviewed. *)
From S2P Require Import Prelude StrictJson Identifiers JsonSorted AuditLedger Tables CommandBoundary.
From S2P Require Import CommandReplay CommandAudit CommandDomain TicketTables RfcIdentity RfcHierarchy.
From S2P Require Import RfcImports TicketForest TicketEffects TicketRuns CascadeScope RfcProjection.
From S2P Require Import CascadeReview CascadeCommands CascadeLife CascadeRuns.
#[local] Arguments set_token : simpl never.
#[local] Arguments is_uuid4 : simpl never.

Section runs.
Context `{Sha256, FloatText} {rest proof : Type}.
Context `{!RfcSourceEvidenceProvider rest, !RfcTerminalTaskParticipant rest}.
Implicit Types db : LedgerDb (CascadeDb rest).
(** The ledger over the ticket tables alone, and a ledger put back. *)
Definition ticket_ledger db : LedgerDb TicketDb :=
  MkLedger (command_receipts db) (command_receipt_results db) (audit_events db) (audit_event_results db)
    (cd_tickets (domain_state db)).
Definition put_tickets (t : LedgerDb TicketDb) db : LedgerDb (CascadeDb rest) :=
  MkLedger (command_receipts t) (command_receipt_results t) (audit_events t) (audit_event_results t)
    (set_tickets (domain_state t) (domain_state db)).
Definition left_by {A} (m : cascadeLM rest A) db : LedgerDb (CascadeDb rest) := (m db).1.
(** Identities come from [uuid4], so a new epoch has no cascade yet; what takes
    part in an execution writes tables of its own. *)
Inductive cascade_run : LedgerDb (CascadeDb rest) -> LedgerDb (CascadeDb rest) -> Prop :=
| run_source fresh clock rfc token command deltas review a db :
    is_uuid4 (fresh ["proposal"]) = true -> new_epoch (domain_state db) rfc (fresh ["epoch"]) ->
    cascade_run db (left_by (in_uow (apply_accepted_source_projection fresh clock rfc token command deltas review a)) db)
| run_provisional fresh clock rfc_no x token command review a db :
    cascade_run db (left_by (in_uow
      (accept_provisional_implement_eligibility_from_wfm fresh clock rfc_no x token command review a)) db)
| run_refresh fresh clock audit audit_clock command proposal_id revision a db :
    is_uuid4 (fresh ["replacement"]) = true ->
    cascade_run db (left_by (refresh fresh clock audit audit_clock command proposal_id revision a) db)
| run_execute task communication (provider : proof_provider rest proof) fresh clock audit audit_clock command proposal_id
    revision r the_proof a db :
    (forall s c, aside (ep_apply task s c)) -> (forall s c, aside (ep_apply communication s c)) ->
    (forall the_proof action target revision f, aside (provider the_proof action target revision f)) ->
    cascade_run db (left_by (execute_cascade task communication provider fresh clock audit audit_clock command proposal_id
      revision r the_proof a) db)
| run_tickets db t : ticket_run (ticket_ledger db) t -> cascade_run db (put_tickets t db)
| run_rest db db' : rest_only (domain_state db) (domain_state db') -> cascade_run db db'.
Lemma uow_evolves {A} (m : cascadeLM rest A) db :
  (forall db' x, m db = (db', Ok x) -> cascade_evolves (domain_state db) (domain_state db')) ->
  cascade_evolves (domain_state db) (domain_state (left_by (in_uow m) db)).
Proof.
  intros Hm. unfold left_by. destruct (in_uow m db) as [db' res] eqn:E.
  apply in_uow_ok in E as [(x & _ & Hx)|(e & _ & ->)]; [by eapply Hm|apply cascade_evolves_refl].
Qed.
Lemma source_evolves fresh clock rfc token command deltas review a db db' x :
  is_uuid4 (fresh ["proposal"]) = true -> new_epoch (domain_state db) rfc (fresh ["epoch"]) ->
  apply_accepted_source_projection fresh clock rfc token command deltas review a db = (db', Ok x) ->
  cascade_evolves (domain_state db) (domain_state db').
Proof.
  intros Hid Hnew. unfold apply_accepted_source_projection. intros (s0 & db0 & [= <- <-] & Hr)%stm_bind_ok.
  apply stm_bind_ok in Hr as (s1 & t & [-> _]%lift_ok & Hr). apply stm_bind_ok in Hr as (s2 & u & [-> _]%lift_ok & Hr).
  eapply apply_deltas_evolved; [by right|done| |exact Hr]. by intros _.
Qed.
Lemma provisional_evolves fresh clock rfc_no y token command review a db db' x :
  accept_provisional_implement_eligibility_from_wfm fresh clock rfc_no y token command review a db = (db', Ok x) ->
  cascade_evolves (domain_state db) (domain_state db').
Proof.
  unfold accept_provisional_implement_eligibility_from_wfm. intros (s0 & db0 & [= <- <-] & Hr)%stm_bind_ok. cbv zeta in Hr.
  apply stm_bind_ok in Hr as (s1 & no & [-> _]%lift_ok & Hr). apply stm_bind_ok in Hr as (s2 & t & [-> _]%lift_ok & Hr).
  apply stm_bind_ok in Hr as (s3 & u3 & [-> _]%lift_ok & Hr).
  destruct (rfc_no_row _ no) as [[id row]|]; [|by apply lift_ok in Hr as [_ ?]].
  apply stm_bind_ok in Hr as (s4 & u4 & [-> _]%lift_ok & Hr). apply stm_bind_ok in Hr as (s5 & u5 & [-> _]%lift_ok & Hr).
  apply stm_bind_ok in Hr as (s6 & u6 & [-> _]%lift_ok & Hr). apply stm_bind_ok in Hr as (db1 & applied & H1 & Hr).
  apply stm_bind_ok in Hr as (s8 & u8 & [-> _]%lift_ok & [= <- _]).
  eapply apply_deltas_evolved; [by left|done| |exact H1]. done.
Qed.
Lemma tickets_evolve db t :
  ticket_run (ticket_ledger db) t -> cascade_evolves (domain_state db) (domain_state (put_tickets t db)).
Proof.
  intros Hrun%ticket_run_evolves [Hs Hok]. destruct (Hrun (cd_hierarchy _ Hs)) as [Htab _ _ _ _ _ Hsrc].
  apply same_evolves; [|done|done]. by split_and!.
Qed.
Lemma run_evolves db db' : cascade_run db db' -> cascade_evolves (domain_state db) (domain_state db').
Proof.
  intros [fresh clock rfc token command deltas review a db0 Hid Hnew|fresh clock rfc_no x token command review a db0
    |fresh clock audit audit_clock command proposal_id revision a db0 Hid
    |task communication provider fresh clock audit audit_clock command proposal_id revision r the_proof a db0 Ht Hc Hp
    |db0 t Hrun|db0 db1 Hrest].
  - apply uow_evolves. intros db1 x. by apply source_evolves.
  - apply uow_evolves. intros db1 y. apply provisional_evolves.
  - unfold left_by. destruct (refresh _ _ _ _ _ _ _ _ db0) as [db1 res] eqn:E. by eapply refresh_evolves.
  - unfold left_by. destruct (execute_cascade _ _ _ _ _ _ _ _ _ _ _ _ _ db0) as [db1 res] eqn:E.
    by eapply (execute_cascade_evolves fresh clock audit audit_clock task communication provider).
  - by apply tickets_evolve.
  - by apply rest_only_evolves.
Qed.
Lemma runs_evolve db db' : star cascade_run db db' -> cascade_evolves (domain_state db) (domain_state db').
Proof.
  intros Hrun. induction Hrun as [|a b c Hab%run_evolves _ IH]; [apply cascade_evolves_refl|by eapply cascade_evolves_trans].
Qed.
End runs.
(** What the current status of an RFC and its cascades have to do with each other. *)
Lemma sound_standing `{Sha256} {rest} (d : CascadeDb rest) r p : cascade_sound d -> projections d !! r = Some p ->
  if terminal_class (rp_status_class p)
  then exists e id, rp_terminal_epoch_id p = Some e /\ stands (view d) r e id /\ forall id', stands (view d) r e id' -> id' = id
  else forall e, pending_of d r e = [].
Proof.
  intros [Hs Hok] Hp. pose proof (class_epoch d r Hs) as Hc. rewrite Hp in Hc. unfold class_of, epoch_of in Hc. cbn in Hc.
  assert (ca_epoch (view d) !! r = rp_terminal_epoch_id p) as He by (by rewrite view_epoch, Hp).
  rewrite Hc. destruct (rp_terminal_epoch_id p) as [e|] eqn:Ee.
  - destruct (ok_some _ Hok r e He) as (id & Hid). exists e, id. split_and!; [done|done|]. intros id' Hid'. by eapply ok_one.
  - intros e. destruct (pending_of d r e) as [|[id q] l] eqn:E; [done|].
    assert ((id, q) ∈ pending_of d r e) as [Hq Hcq]%pending_of_elem by (rewrite E; left).
    pose proof (ok_pending _ Hok id r e (phase_pending d id q r e Hq Hcq)) as Hpe. congruence.
Qed.

(** C12.  The operations on the source projection and on the cascades refine
    the machine of a cascade.  Along every sequence of accepted sources,
    provisional eligibilities, refreshes and executions, mixed with RFC commands
    and with writes of other packets: the cascades take only the steps end,
    reverse, refresh and execute; no proposal is lost, a decided one is never
    touched again and no member of one ever changes; an ended RFC has exactly one
    proposal that stands in its epoch, pending or executed, and an RFC that has
    not ended has no pending one. *)
Theorem cascade_commands_refine `{Sha256, FloatText} {rest proof : Type}
    `{!RfcSourceEvidenceProvider rest, !RfcTerminalTaskParticipant rest} (db db' : LedgerDb (CascadeDb rest)) :
  cascade_sound (domain_state db) -> star (cascade_run (proof := proof)) db db' ->
  cascade_sound (domain_state db') /\ star cascade_step (view (domain_state db)) (view (domain_state db')) /\
  proposals_kept (domain_state db) (domain_state db') /\
  forall r p, projections (domain_state db') !! r = Some p ->
    if terminal_class (rp_status_class p)
    then exists e id, rp_terminal_epoch_id p = Some e /\ stands (view (domain_state db')) r e id /\
      forall id', stands (view (domain_state db')) r e id' -> id' = id
    else forall e, pending_of (domain_state db') r e = [].
Proof.
  intros Hs Hrun. pose proof (runs_evolve _ _ Hrun Hs) as He. pose proof (evolved_sound _ _ Hs He) as Hs'.
  destruct He as [_ Hsteps Hkept]. split_and!; try done. intros r p. by apply sound_standing.
Qed.

(** * What a pending proposal shows *)
Lemma sound_reads `{Sha256} {rest} (d : CascadeDb rest) id p :
  (forall t, is_sha256 (sha256_hexdigest t) = true) -> rows_sound d -> cd_proposals d !! id = Some p -> pending p = true ->
  exists s, holds d id p s /\ _load_pending_state_by_id d id = Ok (state_of id p s) /\
    _persisted_snapshot d (state_of id p s) = Ok (snapshot_of id p s).
Proof.
  intros Hhex Hs Hp Hpend. destruct (cd_holds _ Hs id p Hp) as (s & Hh). exists s. split; [done|]. split; [|by apply holds_snapshot].
  unfold _load_pending_state_by_id, _request_uuid. rewrite (ho_id _ _ _ _ Hh). cbn [mbind result_bind]. rewrite Hp, Hpend.
  cbn [negb forbid mbind result_bind]. by apply holds_state.
Qed.
Lemma still_pending p p' : decided_from p p' -> pending p' = true -> p' = p.
Proof. intros [->|(_ & n & c & [-> | ->])]; done. Qed.

(** C15.  A pending proposal always reads: at every state a sequence of
    operations reaches, its state and its snapshot are returned, never a
    PERSISTENCE_FAILURE; the snapshot is a scope whose fingerprint is that of its
    members; and it is the one the proposal showed in every earlier state it was
    in. *)
Theorem pending_proposal_reads `{Sha256, FloatText} {rest proof : Type}
    `{!RfcSourceEvidenceProvider rest, !RfcTerminalTaskParticipant rest} (db db' : LedgerDb (CascadeDb rest)) id p :
  (forall t, is_sha256 (sha256_hexdigest t) = true) -> cascade_sound (domain_state db) ->
  star (cascade_run (proof := proof)) db db' -> cd_proposals (domain_state db') !! id = Some p -> pending p = true ->
  exists s, scope_ok s /\ s = scope_of p (cs_rfc_members s) (cs_wfm_members s) /\
    _load_pending_state_by_id (domain_state db') id = Ok (state_of id p s) /\
    _persisted_snapshot (domain_state db') (state_of id p s) = Ok (snapshot_of id p s) /\
    (is_Some (cd_proposals (domain_state db) !! id) ->
     _load_pending_state_by_id (domain_state db) id = Ok (state_of id p s) /\
     _persisted_snapshot (domain_state db) (state_of id p s) = Ok (snapshot_of id p s)).
Proof.
  intros Hhex Hs Hrun Hp Hpend. pose proof (runs_evolve _ _ Hrun Hs) as [Hs' _ Hk].
  destruct (sound_reads _ _ _ Hhex Hs' Hp Hpend) as (s & Hh & Hload & Hsnap). exists s.
  split_and!; [by destruct Hh|by destruct Hh|done|done|]. intros (p0 & Hp0).
  destruct (Hk id p0 Hp0) as ((p' & Hp' & Hd) & M1 & M2). rewrite Hp in Hp'. injection Hp' as <-.
  apply still_pending in Hd as ->; [|done].
  destruct (sound_reads _ _ _ Hhex (proj1 Hs) Hp0 Hpend) as (s0 & Hh0 & Hload0 & Hsnap0).
  assert (s0 = s) as ->; [|done].
  destruct Hh as [_ _ _ Es _ R1 R2], Hh0 as [_ _ _ Es0 _ R01 R02]. rewrite Es, Es0. f_equal.
  - rewrite <-(rows_of_members id 0 (cs_rfc_members s)), <-(rows_of_members id 0 (cs_rfc_members s0)). congruence.
  - rewrite <-(rows_of_members id 0 (cs_wfm_members s)), <-(rows_of_members id 0 (cs_wfm_members s0)). congruence.
Qed.

#[local] Arguments set_token : simpl never.
#[local] Arguments is_uuid4 : simpl never.

(** * The fingerprint of a scope *)
Lemma sorted_rfc_member m : sorted_json (rfc_member_payload m) =
  JObj [("captured_rfc_revision", JInt (rm_captured_rfc_revision m)); ("captured_role", JStr (rm_captured_role m));
        ("rfc_id", JStr (rm_rfc_id m))].
Proof. reflexivity. Qed.
Lemma sorted_wfm_member m : sorted_json (wfm_member_payload m) =
  JObj [("captured_task_no", JStr (wm_captured_task_no m)); ("captured_task_revision", JInt (wm_captured_task_revision m));
        ("owning_rfc_id", JStr (wm_owning_rfc_id m)); ("task_id", JStr (wm_task_id m))].
Proof. reflexivity. Qed.
Definition scope_payload (s : RfcTerminalCascadeScope) : json :=
  terminal_cascade_scope_payload (cs_trigger_rfc_id s) (cs_terminal_epoch_id s) (cs_terminal_status_class s)
    (cs_terminal_status_evidence_id s) (cs_scope_kind s) (cs_rfc_members s) (cs_wfm_members s).
Lemma sorted_scope s : sorted_json (scope_payload s) =
  JObj [("proposal_contract_version", JInt 1);
    ("rfc_members", JArr (map sorted_json (map rfc_member_payload (cs_rfc_members s)))); ("schema", JStr _SCOPE_PROFILE);
    ("scope_kind", JStr (cs_scope_kind s)); ("terminal_epoch_id", JStr (cs_terminal_epoch_id s));
    ("terminal_status_class", JStr (cs_terminal_status_class s));
    ("terminal_status_evidence_id", JStr (cs_terminal_status_evidence_id s)); ("trigger_rfc_id", JStr (cs_trigger_rfc_id s));
    ("wfm_members", JArr (map sorted_json (map wfm_member_payload (cs_wfm_members s))))].
Proof. reflexivity. Qed.
Lemma members_inj {A} (payload : A -> json) l l' :
  (forall a b, sorted_json (payload a) = sorted_json (payload b) -> a = b) ->
  map sorted_json (map payload l) = map sorted_json (map payload l') -> l = l'.
Proof.
  intros Hinj. revert l'. induction l as [|a l IH]; intros [|b l'] Heq; try done. simpl in Heq. injection Heq as Ha Hl.
  f_equal; [by apply Hinj|by apply IH].
Qed.
Lemma plain_members {A} (payload : A -> json) l : (forall a, plain (payload a) = true) -> forallb plain (map payload l) = true.
Proof. intros Hp. induction l as [|a l IH]; [done|]. simpl. by rewrite Hp. Qed.
Lemma plain_scope s : plain (scope_payload s) = true.
Proof.
  unfold scope_payload, terminal_cascade_scope_payload. cbn [plain map forallb fst snd]. rewrite !plain_members; [|done..]. done.
Qed.
Definition same_scope_but (f : string) (s : RfcTerminalCascadeScope) : RfcTerminalCascadeScope :=
  MkScope (cs_trigger_rfc_id s) (cs_terminal_epoch_id s) (cs_terminal_status_class s) (cs_terminal_status_evidence_id s)
    (cs_scope_kind s) (cs_rfc_members s) (cs_wfm_members s) f.
Lemma scope_text_exact `{FloatText} s s' t :
  canonical_json_bytes (scope_payload s) = Ok t -> canonical_json_bytes (scope_payload s') = Ok t ->
  s' = same_scope_but (cs_scope_fingerprint s') s.
Proof.
  intros Hs Hs'. destruct (reads_sorted _ t None (plain_scope s) Hs I) as (_ & _ & R).
  destruct (reads_sorted _ t None (plain_scope s') Hs' I) as (_ & _ & R'). assert (sorted_json (scope_payload s) = sorted_json (scope_payload s')) as E by congruence. clear R R'.
  rewrite !sorted_scope in E. injection E as Hr Hk He Hc Hv Ht Hw.
  apply members_inj in Hr; [|intros [] []; rewrite !sorted_rfc_member; simpl; congruence].
  apply members_inj in Hw; [|intros [] []; rewrite !sorted_wfm_member; simpl; congruence].
  destruct s, s'; simpl in *. unfold same_scope_but. simpl. congruence.
Qed.
(** The digests of two scopes agree only when their texts do. *)
Definition no_collision `{Sha256} (s s' : RfcTerminalCascadeScope) : Prop := forall t t',
  canonical_json_bytes (scope_payload s) = Ok t -> canonical_json_bytes (scope_payload s') = Ok t' ->
  sha256_hexdigest t = sha256_hexdigest t' -> t = t'.
Definition fingerprinted `{Sha256} (s : RfcTerminalCascadeScope) : Prop :=
  terminal_cascade_scope_fingerprint (cs_trigger_rfc_id s) (cs_terminal_epoch_id s) (cs_terminal_status_class s)
    (cs_terminal_status_evidence_id s) (cs_scope_kind s) (cs_rfc_members s) (cs_wfm_members s) = Ok (cs_scope_fingerprint s).
Lemma scope_same `{Sha256, FloatText} s s' : fingerprinted s -> fingerprinted s' -> no_collision s s' ->
  cs_scope_fingerprint s = cs_scope_fingerprint s' -> s = s'.
Proof.
  intros Hf Hf' Hn Heq. unfold fingerprinted, terminal_cascade_scope_fingerprint, sha256_canonical_json in Hf, Hf'.
  apply bind_ok in Hf as (t & Ht & [= Et]), Hf' as (t' & Ht' & [= Et']).
  assert (t = t') as <- by (apply (Hn t t'); [exact Ht|exact Ht'|congruence]).
  rewrite (scope_text_exact s s' t Ht Ht'), <-Heq. by destruct s.
Qed.

(** * From the preview to the execution *)
Lemma failed_ok b m u : failed b m = Ok u <-> b = false.
Proof. unfold failed. apply forbid_ok. Qed.
Lemma provider_page_ok domain after limit raw page :
  _validate_provider_page domain after limit raw = Ok page ->
  exists p, raw = PageRecord p /\ pp_domain p = domain /\ pp_status page = pp_status p /\
    pp_exact_count page = (if indeterminate page then None else pp_exact_count p) /\
    pp_provider_fingerprint page = (if indeterminate page then None else pp_provider_fingerprint p) /\
    (indeterminate page = false -> pp_status p = "READY").
Proof.
  unfold _validate_provider_page, indeterminate. destruct raw as [p|]; [|done]. cbv zeta.
  intros (u1 & H1%failed_ok & Hr)%bind_ok. apply bind_ok in Hr as (u2 & _ & Hr). apply orb_false_iff in H1 as [Hd Hst].
  apply negb_false_iff, String.eqb_eq in Hd. apply negb_false_iff, set_token_in in Hst.
  exists p. destruct (String.eqb (pp_status p) "INDETERMINATE") eqn:Ei.
  - apply bind_ok in Hr as (u3 & _ & [= <-]). simpl. rewrite Ei. by split_and!.
  - destruct (pp_exact_count p) as [total|]; [|done]. repeat (apply bind_ok in Hr as (? & _ & Hr)).
    injection Hr as <-. simpl. rewrite Ei. split_and!; try done. intros _. apply elem_of_cons in Hst as [->|Hst]; [done|].
    apply elem_of_cons in Hst as [Hst|Hst%elem_of_nil]; [|done]. by rewrite Hst in Ei.
Qed.
Lemma rethrow_any {A} h h' (r : result A) a : rethrow h r = Ok a -> rethrow h' r = Ok a.
Proof. by rewrite !rethrow_ok. Qed.
Lemma make_review_ok f n g m k r :
  make_review f n g m k = Ok r -> r = MkReview f n g m k.
Proof. unfold make_review. intros Hr. repeat (apply bind_ok in Hr as (? & _ & Hr)). by injection Hr as <-. Qed.

Section ready.
Context `{Sha256, FloatText} {rest proof : Type} `{!RfcTerminalTaskParticipant rest}.
Context (applicable : LedgerDb (CascadeDb rest) -> list string -> result wfm_collection).
Context (task communication : preview_participant rest) (task_part communication_part : execution_participant rest).
Context (provider : proof_provider rest proof) (fresh : place -> string) (clock : place -> Z).
Implicit Types db : LedgerDb (CascadeDb rest).
(** A page and the revalidation of what it showed agree on one state. *)
Definition revalidates db (pages : preview_participant rest) (part : execution_participant rest) : Prop :=
  forall p page n f, pages db p None 1 = Ok (PageRecord page) -> pp_status page = "READY" ->
    pp_exact_count page = Some n -> pp_provider_fingerprint page = Some f -> ep_revalidate part db p n f = Ok "READY".
Lemma provider_ready db pages part p domain meta n f :
  revalidates db pages part -> _provider_call pages db p domain None 1 = Ok meta -> indeterminate meta = false ->
  pp_exact_count meta = Some n -> pp_provider_fingerprint meta = Some f ->
  ep_revalidate part db p n f = Ok "READY" /\ pp_status meta = "READY".
Proof.
  intros Hre Hc Hi Hn Hf. unfold _provider_call in Hc. apply bind_ok in Hc as (raw & Hraw%rethrow_ok & Hc).
  apply provider_page_ok in Hc as (page & -> & _ & Est & En & Ef & Hst). rewrite Hi in En, Ef. specialize (Hst Hi).
  split; [|congruence]. apply (Hre p page); congruence.
Qed.
Lemma current_scope_ready db p s :
  (forall ids, applicable db ids = capture_applicable_wfms db ids) -> terminal_class (sn_terminal_status_class p) = true ->
  _current_scope applicable db p = Ok (Some s, false) ->
  capture_scope db (sn_trigger_rfc_id p) (sn_terminal_epoch_id p) (sn_terminal_status_class p) (sn_terminal_status_evidence_id p)
    = Ok s.
Proof.
  intros Hsame Hclass. unfold _current_scope, terminal_binding. destruct (projections (domain_state db) !! _) as [row|] eqn:Erow; [|done].
  cbn [mbind option_bind]. destruct (bool_decide _ && _) eqn:Eb; [|done]. bool_hyps.
  intros (evidence & Hev & Hr)%bind_ok. destruct (rp_status_evidence_id row) as [e|] eqn:Ee; [|done].
  apply bind_ok in Hev as (u & Hne%forbid_ok & [= <-]). apply bind_ok in Hr as ([kind members] & Hcap & Hr).
  apply bind_ok in Hr as (scope & Hs & [= <- Hch]). bool_hyps. unfold capture_scope.
  assert (_validate_terminal_projection db (sn_trigger_rfc_id p) (sn_terminal_epoch_id p) (sn_terminal_status_class p)
    (sn_terminal_status_evidence_id p) = Ok tt) as ->.
  { apply validate_terminal_ok. split_and!; [done|congruence|]. exists row. split_and!; try done; congruence. }
  cbn [mbind result_bind]. rewrite Hcap. cbn [mbind result_bind].
  apply scope_over_ok in Hs as (collection & wfms & f & Hc & Hw & Hf & ->). apply scope_over_ok. exists collection, wfms, f.
  split_and!; try done; [|congruence..]. rewrite Hsame in Hc. by eapply rethrow_any.
Qed.
(** The scope a snapshot shows. *)
Definition snapshot_scope (p : RfcTerminalCascadeProposalSnapshot) : RfcTerminalCascadeScope :=
  MkScope (sn_trigger_rfc_id p) (sn_terminal_epoch_id p) (sn_terminal_status_class p) (sn_terminal_status_evidence_id p)
    (sn_scope_kind p) (sn_rfc_members p) (sn_wfm_members p) (sn_scope_fingerprint p).
Lemma persisted_snapshot_ok (d : CascadeDb rest) s p : _persisted_snapshot d s = Ok p ->
  fingerprinted (snapshot_scope p) /\ sn_proposal_id p = cx_proposal_id s /\ sn_proposal_revision p = cx_proposal_revision s /\
  sn_trigger_rfc_id p = cx_trigger_rfc_id s /\ sn_terminal_epoch_id p = cx_terminal_epoch_id s /\
  sn_terminal_status_class p = cx_terminal_status_class s /\ sn_terminal_status_evidence_id p = cx_terminal_status_evidence_id s /\
  sn_scope_kind p = cx_scope_kind s /\ sn_scope_fingerprint p = cx_scope_fingerprint s.
Proof.
  unfold _persisted_snapshot. cbv zeta. intros (u1 & _ & Hr)%bind_ok. apply bind_ok in Hr as (rs & _ & Hr).
  apply bind_ok in Hr as (u2 & _ & Hr). apply bind_ok in Hr as (u3 & _ & Hr). apply bind_ok in Hr as (raw & _ & Hr).
  apply bind_ok in Hr as (ws & _ & Hr). apply bind_ok in Hr as (u4 & _ & Hr). apply bind_ok in Hr as (f & Hf & Hr).
  apply bind_ok in Hr as (u5 & He%forbid_ok & [= <-]). bool_hyps. split_and!; try done. unfold fingerprinted. simpl. congruence.
Qed.
Lemma load_pending_class (d : CascadeDb rest) id s : _load_pending_state_by_id d id = Ok s ->
  terminal_class (cx_terminal_status_class s) = true /\ cx_proposal_id s = id.
Proof.
  intros (p & _ & _ & Hr)%load_pending_ok. unfold _state_from_row in Hr. cbv zeta in Hr.
  apply bind_ok in Hr as (i & [-> _]%cascade_uuid_ok & Hr). do 4 apply bind_ok in Hr as (? & _ & Hr).
  apply bind_ok in Hr as (u & Hc%forbid_ok & Hr). repeat (apply bind_ok in Hr as (? & _ & Hr)). injection Hr as <-. simpl.
  by apply negb_false_iff in Hc.
Qed.
Lemma capture_fingerprinted db trigger epoch status_class evidence s :
  capture_scope db trigger epoch status_class evidence = Ok s -> fingerprinted s.
Proof. by intros (_ & [_ _ _ _ Hf] & _)%capture_scope_ok. Qed.
(** What a preview that allows an execution has found. *)
Record ready_found db (id : string) (v : RfcTerminalCascadePreview) (r : RfcTerminalCascadeExecutionReview)
    (s : RfcTerminalCascadeState) (p : RfcTerminalCascadeProposalSnapshot) (scope : RfcTerminalCascadeScope)
    (tasks communications : checked_page) : Prop := {
  rf_state : _load_pending_state_by_id (domain_state db) id = Ok s;
  rf_snapshot : _persisted_snapshot (domain_state db) s = Ok p;
  rf_scope : _current_scope applicable db p = Ok (Some scope, false);
  rf_same : cs_scope_fingerprint scope = sn_scope_fingerprint p;
  rf_tasks : _provider_call task db p _TASK_DOMAIN None 1 = Ok tasks;
  rf_communications : _provider_call communication db p _COMMUNICATION_DOMAIN None 1 = Ok communications;
  rf_determined : indeterminate tasks = false /\ indeterminate communications = false;
  rf_fingerprint : terminal_cascade_preview_fingerprint (sn_proposal_id p) (sn_proposal_revision p) (sn_scope_fingerprint p)
    (Some (cs_scope_fingerprint scope)) (snapshot_size p) (scope_size scope) [] tasks communications
    = Ok (pv_preview_fingerprint v);
  rf_review : ready_review (pv_preview_fingerprint v) tasks communications = Ok r;
  rf_revision_shown : pv_proposal_revision v = cx_proposal_revision s
}.
Lemma preview_ready db id cursor limit v r :
  preview applicable task communication db id cursor limit = Ok v -> pv_execution_review v = Some r ->
  exists s p scope tasks communications, ready_found db id v r s p scope tasks communications.
Proof.
  unfold preview. intros (n & _ & Hr)%bind_ok Hv. apply bind_ok in Hr as (s & Hs & Hr). apply bind_ok in Hr as (p & Hp & Hr).
  apply bind_ok in Hr as ([scope changed] & Hsc & Hr). cbv zeta in Hr. apply bind_ok in Hr as (tasks & Ht & Hr).
  apply bind_ok in Hr as (coms & Hc & Hr). apply bind_ok in Hr as (f & Hf & Hr). apply bind_ok in Hr as (after & _ & Hr).
  destruct (indeterminate tasks || indeterminate coms) eqn:Ei; [by injection Hr as <-|]. apply orb_false_iff in Ei.
  apply bind_ok in Hr as ([impacts more] & _ & Hr). apply bind_ok in Hr as (cont & _ & Hr).
  apply bind_ok in Hr as (review & Hrev & [= <-]). simpl in Hv. subst review.
  destruct (negb (any_row (stale_reasons_of p scope changed))) eqn:Er; [|done]. apply negb_true_iff in Er.
  apply bind_ok in Hrev as (r' & Hrev & [= ->]).
  unfold stale_reasons_of in Er, Hf. destruct scope as [scope|]; [|done]. destruct changed; [done|]. simpl in Er, Hf.
  destruct (String.eqb_spec (cs_scope_fingerprint scope) (sn_scope_fingerprint p)) as [Eq|]; [|done].
  exists s, p, scope, tasks, coms. split; simpl; try done.
  by apply persisted_snapshot_ok in Hp as (_ & _ & -> & _).
Qed.
Lemma ready_review_ok f (tasks communications : checked_page) r : ready_review f tasks communications = Ok r ->
  exists n g m k, pp_exact_count tasks = Some n /\ pp_provider_fingerprint tasks = Some g /\
    pp_exact_count communications = Some m /\ pp_provider_fingerprint communications = Some k /\ r = MkReview f n g m k.
Proof.
  unfold ready_review. destruct (pp_exact_count tasks) as [n|], (pp_provider_fingerprint tasks) as [g|],
    (pp_exact_count communications) as [m|], (pp_provider_fingerprint communications) as [k|]; try done.
  intros ->%make_review_ok. by exists n, g, m, k.
Qed.
Lemma revalidated db part p n f name : ep_revalidate part db p n f = Ok "READY" ->
  _revalidate_participant part db p n f name = Ok tt.
Proof. intros Hr. unfold _revalidate_participant. by rewrite Hr. Qed.
Lemma found_reviewed db id v r s p scope tasks communications :
  (forall ids, applicable db ids = capture_applicable_wfms db ids) ->
  revalidates db task task_part -> revalidates db communication communication_part ->
  no_collision (snapshot_scope p) scope -> ready_found db id v r s p scope tasks communications ->
  require_reviewed task_part communication_part db s p r = Ok tt.
Proof.
  intros Hsame Htask Hcom Hcoll [Hs Hp Hsc Hf Ht Hc [Hit Hic] Hfp Hrev _].
  apply ready_review_ok in Hrev as (n & g & m & k & En & Eg & Em & Ek & ->).
  destruct (provider_ready _ _ _ _ _ _ _ _ Htask Ht Hit En Eg) as [Hrt Est].
  destruct (provider_ready _ _ _ _ _ _ _ _ Hcom Hc Hic Em Ek) as [Hrc Esc].
  apply load_pending_class in Hs as [Hclass _].
  apply persisted_snapshot_ok in Hp as (Hfing & Eid & Erev & Etr & Eep & Ecl & Eev & Eki & Efi).
  rewrite <-Ecl in Hclass. apply current_scope_ready in Hsc; [|done|done].
  pose proof (capture_fingerprinted _ _ _ _ _ _ Hsc) as Hfs.
  assert (snapshot_scope p = scope) as Escope by (apply scope_same; done).
  unfold require_reviewed. rewrite <-Etr, <-Eep, <-Ecl, <-Eev, Hsc. cbn [mbind result_bind]. subst scope. simpl in Hfp |- *.
  rewrite Eki, Efi, !String.eqb_refl.
  assert ((scope_size (snapshot_scope p) =? snapshot_size p) = true) as -> by apply Z.eqb_refl.
  simpl. rewrite (revalidated _ _ _ _ _ _ Hrt), (revalidated _ _ _ _ _ _ Hrc). cbn [mbind result_bind].
  unfold terminal_cascade_preview_fingerprint, terminal_cascade_preview_payload in Hfp |- *. simpl.
  rewrite Est, Esc, En, Eg, Em, Ek in Hfp. rewrite Efi in Hfp. simpl in Hfp. rewrite Hfp. simpl. by rewrite String.eqb_refl.
Qed.
End ready.

(** C14.  A preview that says it may be executed is accepted by the
    execution.  When a preview carries an execution review, and the tasks and
    communications it asked revalidate what they showed, then in the same state
    the execution with that review finds nothing changed: once the deliberate
    action is proved, the mutation is prepared.  The scope is recognised by its
    fingerprint, so the two scopes compared must not collide. *)
Theorem ready_preview_executes `{Sha256, FloatText} {rest proof : Type} `{!RfcTerminalTaskParticipant rest}
    applicable (task communication : preview_participant rest) (task_part communication_part : execution_participant rest)
    (provider : proof_provider rest proof) fresh clock (db db1 : LedgerDb (CascadeDb rest)) id cursor limit v r command
    the_proof a c :
  (forall ids, applicable db ids = capture_applicable_wfms db ids) ->
  revalidates db task task_part -> revalidates db communication communication_part ->
  (forall s p scope b, _load_pending_state_by_id (domain_state db) id = Ok s -> _persisted_snapshot (domain_state db) s = Ok p ->
     _current_scope applicable db p = Ok (Some scope, b) -> no_collision (snapshot_scope p) scope) ->
  preview applicable task communication db id cursor limit = Ok v -> pv_execution_review v = Some r ->
  make_context command a (er_preview_fingerprint r) = Ok c ->
  consume_proof provider the_proof id (pv_proposal_revision v) (er_preview_fingerprint r) db = (db1, Ok tt) ->
  exists s p, _load_pending_state_by_id (domain_state db) id = Ok s /\ _persisted_snapshot (domain_state db) s = Ok p /\
    prepare_execution task_part communication_part provider fresh clock command id (pv_proposal_revision v) r the_proof a db
    = (db1, Ok (state_prepared false id
        (Some (execution_apply task_part communication_part fresh clock command id s p r c a)) (executed_state s))).
Proof.
  intros Hsame Htask Hcom Hcoll Hv Hr Hctx Hproof.
  destruct (preview_ready _ _ _ _ _ _ _ _ _ Hv Hr) as (s & p & scope & tasks & coms & Hfound).
  pose proof Hfound as [Hs Hp Hsc _ _ _ _ _ _ Hrev].
  assert (require_reviewed task_part communication_part db s p r = Ok tt) as Hreq.
  { eapply found_reviewed; [exact Hsame|exact Htask|exact Hcom|by eapply Hcoll|exact Hfound]. }
  exists s, p. split_and!; [done..|].
  unfold prepare_execution. rewrite Hctx. unfold lift, read_st, mbind, stM_bind. rewrite Hs, Hrev, Z.eqb_refl. simpl.
  rewrite Hp, Hreq. simpl. rewrite Hrev in Hproof. by rewrite Hproof.
Qed.

(** * What an execution has done *)
(** The scope, the tasks, the communications and the preview are what was
    reviewed; [p] is the snapshot of the proposal. *)
Record as_reviewed `{Sha256} {rest} `{!RfcTerminalTaskParticipant rest} (task communication : execution_participant rest)
    (db : LedgerDb (CascadeDb rest)) (p : RfcTerminalCascadeProposalSnapshot) (r : RfcTerminalCascadeExecutionReview)
    (scope : RfcTerminalCascadeScope) : Prop := {
  ar_scope : capture_scope db (sn_trigger_rfc_id p) (sn_terminal_epoch_id p) (sn_terminal_status_class p)
    (sn_terminal_status_evidence_id p) = Ok scope;
  ar_same : no_collision (snapshot_scope p) scope -> scope = snapshot_scope p;
  ar_tasks : ep_revalidate task db p (er_task_objective_exact_count r) (er_task_objective_provider_fingerprint r) = Ok "READY";
  ar_communications :
    ep_revalidate communication db p (er_communication_exact_count r) (er_communication_provider_fingerprint r) = Ok "READY";
  ar_preview : terminal_cascade_preview_fingerprint (sn_proposal_id p) (sn_proposal_revision p) (sn_scope_fingerprint p)
    (Some (sn_scope_fingerprint p)) (snapshot_size p) (snapshot_size p) []
    (reviewed_page _TASK_DOMAIN (er_task_objective_exact_count r) (er_task_objective_provider_fingerprint r))
    (reviewed_page _COMMUNICATION_DOMAIN (er_communication_exact_count r) (er_communication_provider_fingerprint r))
    = Ok (er_preview_fingerprint r)
}.
Lemma revalidate_ok {rest} (part : execution_participant rest) db p n f name u :
  _revalidate_participant part db p n f name = Ok u -> ep_revalidate part db p n f = Ok "READY".
Proof.
  unfold _revalidate_participant. intros (st & Hst%rethrow_ok & Hr)%bind_ok. apply bind_ok in Hr as (u1 & _ & Hr%forbid_ok).
  bool_hyps. congruence.
Qed.
Lemma reviewed_ok `{Sha256, FloatText} {rest} `{!RfcTerminalTaskParticipant rest} task communication
    (db : LedgerDb (CascadeDb rest)) s p r u :
  _persisted_snapshot (domain_state db) s = Ok p -> require_reviewed task communication db s p r = Ok u ->
  exists scope, as_reviewed task communication db p r scope.
Proof.
  intros (Hfing & Eid & Erev & Etr & Eep & Ecl & Eev & Eki & Efi)%persisted_snapshot_ok.
  unfold require_reviewed. intros (scope & Hsc & Hr)%bind_ok. apply bind_ok in Hr as (u1 & Hs%forbid_ok & Hr).
  apply bind_ok in Hr as (u2 & Ht%revalidate_ok & Hr). apply bind_ok in Hr as (u3 & Hc%revalidate_ok & Hr).
  apply bind_ok in Hr as (f & Hf & Hr%forbid_ok). bool_hyps. exists scope. split; try done.
  - congruence.
  - intros Hcoll. symmetry. apply scope_same; [done|by eapply capture_fingerprinted|done|]. simpl. congruence.
  - rewrite <-Hr, <-Hf. f_equal; congruence.
Qed.

(** C13.  An execution executes exactly what was reviewed, as long as the two
    participants and the proof provider write only tables of their own.  When one
    that was not seen before succeeds, its proposal was pending at the revision
    reviewed; the scope captured now is the one the proposal holds (they have the
    same SHA-256 fingerprint, and are equal unless they collide), the tasks and
    the communications still are what was reviewed and the preview is the one
    reviewed; the deliberate action was proved and consumed; and of the tickets
    and the cascades only this proposal changed: it is executed, one revision
    later. *)
Theorem execute_as_reviewed `{Sha256, FloatText} {rest proof : Type} `{!RfcTerminalTaskParticipant rest}
    (task communication : execution_participant rest) (provider : proof_provider rest proof) fresh clock audit audit_clock
    (db db' : LedgerDb (CascadeDb rest)) command id revision r the_proof a x :
  (forall s c, aside (ep_apply task s c)) -> (forall s c, aside (ep_apply communication s c)) ->
  (forall the_proof action target revision f, aside (provider the_proof action target revision f)) ->
  command_receipts db !! command = None ->
  execute_cascade task communication provider fresh clock audit audit_clock command id revision r the_proof a db
    = (db', Ok x) ->
  exists s p scope db1 d row, _load_pending_state_by_id (domain_state db) id = Ok s /\ cx_proposal_revision s = revision /\
    _persisted_snapshot (domain_state db) s = Ok p /\ as_reviewed task communication db p r scope /\
    consume_proof provider the_proof id revision (er_preview_fingerprint r) db = (db1, Ok tt) /\
    rest_only (domain_state db) d /\ cd_proposals (domain_state db) !! id = Some row /\ pending row = true /\
    cp_revision row = revision /\
    domain_state db' = with_decision id (executed_proposal (now clock) command row) d.
Proof.
  intros Ht Hc Hp Hnew. unfold execute_cascade, cascade_execute.
  intros (s0 & id' & [-> [-> _]%request_uuid_ok]%lift_ok & Hr)%stm_bind_ok.
  apply stm_bind_ok in Hr as (db2 & ex & Hx & Hr). apply lift_ok in Hr as [-> _].
  apply execute_prepared in Hx as [[[rc Hrc] _]|(db1 & pr & Hprep & Hx)]; [by simpl in Hrc; congruence| |].
  - unfold prepare_execution in Hprep. apply stm_bind_ok in Hprep as (s1 & c & [-> _]%lift_ok & Hprep).
    apply stm_bind_ok in Hprep as (s2 & db0 & [= <- <-] & Hprep). apply stm_bind_ok in Hprep as (s3 & s & [-> Hs]%lift_ok & Hprep).
    apply stm_bind_ok in Hprep as (s4 & u4 & [-> Hrev%forbid_ok]%lift_ok & Hprep).
    apply stm_bind_ok in Hprep as (s5 & p & [-> Hsn]%lift_ok & Hprep).
    apply stm_bind_ok in Hprep as (s6 & u6 & [-> Hreq]%lift_ok & Hprep). apply stm_bind_ok in Hprep as (db3 & [] & Hproof & Hprep).
    injection Hprep as <- <-. bool_hyps. destruct Hx as [[Hx _]|(_ & db4 & db5 & E4 & (ap & events & [= <-] & Hap & _) & E5)]; [done|].
    apply execution_apply_ok in Hap as (d & row & Hro & Hrow & Hpend & Hrrev & E); [|done..].
    destruct (reviewed_ok _ _ _ _ _ _ _ Hsn Hreq) as (scope & Hscope).
    pose proof (consume_proof_aside provider Hp _ _ _ _ _ _ _ Hproof) as Hcons. rewrite E4 in Hro.
    exists s, p, scope, db3, d, row. split_and!; try done; try congruence.
    + by eapply rest_only_trans.
    + by rewrite <-(rest_only_proposals _ _ Hcons), <-(rest_only_proposals _ _ Hro).
  - intros db1 pr Hprep. unfold prepare_execution in Hprep. repeat apply stm_bind_ok in Hprep as (? & ? & _ & Hprep).
    injection Hprep as _ <-. apply (prepared_simple false).
Qed.
