(* ===== verification/RfcAccepted.v ===== *)
(** What accepting source fields does to the projection of an RFC: each field of
    the registry, exactly, and nothing when the same fields are accepted again. *)
From S2P Require Import Prelude StrictJson Identifiers AuditLedger Tables CommandBoundary CommandDomain.
From S2P Require Import TicketTables RfcIdentity RfcHierarchy RfcImports TicketForest CascadeScope.
From S2P Require Import RfcProjection CascadeLife CascadeRuns.
#[local] Arguments set_token : simpl never.
#[local] Arguments changed_row : simpl never.
#[local] Arguments projection_row_ok : simpl never.
#[local] Arguments dset : simpl never.

(** * The columns of the registry *)
(** The columns of one field are not those of another, nor of the status class,
    its authority, the epoch or the revision. *)
Definition other_columns : list string := ["status_class"; "status_authority"; "terminal_epoch_id"; "revision"].
Definition registry_columns : list string := map fs_value _FIELD_SPECS ++ map fs_evidence _FIELD_SPECS ++ other_columns.
Lemma registry_columns_differ : NoDup registry_columns.
Proof. apply (bool_decide_unpack _). vm_compute. exact I. Qed.
Lemma map_inj_in {A B} (f : A -> B) l x y : NoDup (map f l) -> x ∈ l -> y ∈ l -> f x = f y -> x = y.
Proof.
  induction l as [|a l IH]; [by intros _ ?%elem_of_nil|]. simpl. intros [Hn Hd]%NoDup_cons Hx Hy Hf.
  apply elem_of_cons in Hx as [->|Hx], Hy as [->|Hy]; [done|..|by apply IH]; destruct Hn.
  - rewrite Hf. by apply list_elem_of_fmap_2.
  - rewrite <-Hf. by apply list_elem_of_fmap_2.
Qed.
Record columns_apart (s s' : field_spec) : Prop := {
  ca_value : fs_value s = fs_value s' -> s = s';
  ca_evidence : fs_evidence s = fs_evidence s' -> s = s';
  ca_both : fs_value s <> fs_evidence s';
  ca_other : (fs_value s ∉ other_columns) /\ (fs_evidence s ∉ other_columns)
}.
Lemma specs_apart s s' : s ∈ _FIELD_SPECS -> s' ∈ _FIELD_SPECS -> columns_apart s s'.
Proof.
  intros Hs Hs'. pose proof registry_columns_differ as Hd. unfold registry_columns in Hd.
  apply NoDup_app in Hd as (Hv & Hve & Hd). apply NoDup_app in Hd as (He & Heo & _).
  pose proof (list_elem_of_fmap_2 fs_value _ _ Hs) as Hsv. pose proof (list_elem_of_fmap_2 fs_evidence _ _ Hs) as Hse.
  pose proof (list_elem_of_fmap_2 fs_evidence _ _ Hs') as Hse'. specialize (Hve _ Hsv). specialize (Heo _ Hse). split.
  - by apply map_inj_in with _FIELD_SPECS.
  - by apply map_inj_in with _FIELD_SPECS.
  - intros Heq. apply Hve. rewrite Heq. apply elem_of_app. by left.
  - split; [|done]. intros Hin. apply Hve, elem_of_app. by right.
Qed.
Lemma spec_keys s s' : s ∈ _FIELD_SPECS -> s' ∈ _FIELD_SPECS -> fs_key s = fs_key s' -> s = s'.
Proof. apply map_inj_in. apply (bool_decide_unpack _). vm_compute. exact I. Qed.
Lemma spec_of_in s : s ∈ _FIELD_SPECS -> spec_of (fs_key s) = Some s.
Proof.
  unfold _FIELD_SPECS. intros Hin. repeat (apply elem_of_cons in Hin as [->|Hin]; [done|]). by apply elem_of_nil in Hin.
Qed.
(** What a row shows in a column after changes. *)
Definition as_kind (kind : string) (v : json) : json :=
  if String.eqb kind "instant" then jopt JInt (as_int v) else jopt JStr (as_text v).
Lemma changed_value p ch s : s ∈ _FIELD_SPECS ->
  column (changed_row p ch) (fs_value s) = as_kind (fs_kind s) (default (column p (fs_value s)) (dget (fs_value s) ch)) /\
  column (changed_row p ch) (fs_evidence s) = jopt JStr (as_text (default (column p (fs_evidence s)) (dget (fs_evidence s) ch))).
Proof.
  unfold _FIELD_SPECS. intros Hin. repeat (apply elem_of_cons in Hin as [->|Hin]; [by split|]). by apply elem_of_nil in Hin.
Qed.
Lemma column_kind p s : s ∈ _FIELD_SPECS ->
  as_kind (fs_kind s) (column p (fs_value s)) = column p (fs_value s) /\
  jopt JStr (as_text (column p (fs_evidence s))) = column p (fs_evidence s).
Proof.
  assert (forall v : option string, jopt JStr (as_text (jopt JStr v)) = jopt JStr v) as Ht by by intros [].
  assert (forall v : option Z, jopt JInt (as_int (jopt JInt v)) = jopt JInt v) as Hi by by intros [].
  unfold _FIELD_SPECS. intros Hin.
  repeat (apply elem_of_cons in Hin as [->|Hin]; [by split; first [apply Ht|apply Hi]|]). by apply elem_of_nil in Hin.
Qed.

(** * The fields accepted of a set of deltas *)
Definition delta_for (l : list RfcAcceptedFieldDelta) (key : string) : option RfcAcceptedFieldDelta :=
  head (filter (fun x => String.eqb (dl_field_key x) key = true) l).
(** A delta changes its field: a status that is not superseded and differs in
    text, class or authority; any other value that differs. *)
Definition changes_field (current : option RfcProjectionRow) (spec : field_spec) (x : RfcAcceptedFieldDelta) : bool :=
  if String.eqb (fs_key spec) "status" then negb (superseded_authority current x || same_status current x)
  else negb match current with Some p => same_value (column p (fs_value spec)) (dl_value x) | None => false end.
Definition accepted_by (current : option RfcProjectionRow) (l : list RfcAcceptedFieldDelta) (spec : field_spec)
    : option RfcAcceptedFieldDelta :=
  x ← delta_for l (fs_key spec); if changes_field current spec x then Some x else None.
Lemma delta_for_app l x key : (dl_field_key x ∉ map dl_field_key l) ->
  delta_for (l ++ [x]) key = if String.eqb (dl_field_key x) key then Some x else delta_for l key.
Proof.
  intros Hn. unfold delta_for. rewrite filter_app, filter_cons, filter_nil.
  destruct (String.eqb_spec (dl_field_key x) key) as [<-|Hk].
  - rewrite decide_True by apply eq_refl. rewrite filter_none; [done|]. intros y Hy. apply not_true_iff_false, String.eqb_neq.
    intros Heq. apply Hn. rewrite <-Heq. by apply list_elem_of_fmap_2.
  - rewrite decide_False by done. by rewrite app_nil_r.
Qed.
Lemma delta_for_elem l key x : delta_for l key = Some x -> x ∈ l /\ dl_field_key x = key.
Proof.
  unfold delta_for. intros Hh. assert (x ∈ filter (fun x => String.eqb (dl_field_key x) key = true) l) as [Hk Hin]%list_elem_of_filter.
  { destruct (filter _ _) as [|y ys]; [done|]. injection Hh as ->. left. }
  by apply String.eqb_eq in Hk.
Qed.
Lemma delta_for_unique l x : NoDup (map dl_field_key l) -> x ∈ l -> delta_for l (dl_field_key x) = Some x.
Proof.
  intros Hd Hin. destruct (delta_for l (dl_field_key x)) as [y|] eqn:E.
  - apply delta_for_elem in E as [Hy Hk]. f_equal. by apply (map_inj_in dl_field_key l).
  - unfold delta_for in E. assert (x ∈ filter (fun y => String.eqb (dl_field_key y) (dl_field_key x) = true) l) as Hf.
    { apply list_elem_of_filter. split; [apply String.eqb_refl|done]. }
    destruct (filter _ _); [by apply elem_of_nil in Hf|done].
Qed.
(** [acc] stands for the deltas [l], given the current row. *)
Record stands_for (current : option RfcProjectionRow) (l : list RfcAcceptedFieldDelta) (acc : acceptance) : Prop := {
  sf_seen : forall k, k ∈ ap_seen acc <-> k ∈ map dl_field_key l;
  sf_keys : NoDup (map dl_field_key l);
  sf_value : forall s, s ∈ _FIELD_SPECS ->
    dget (fs_value s) (ap_changes acc) = value_json ∘ dl_value <$> accepted_by current l s;
  sf_evidence : forall s, s ∈ _FIELD_SPECS ->
    dget (fs_evidence s) (ap_changes acc) = JStr ∘ dl_evidence_id <$> accepted_by current l s;
  sf_changed : forall s, s ∈ _FIELD_SPECS -> fs_key s ∈ ap_changed_fields acc <-> is_Some (accepted_by current l s);
  sf_status : forall s, s ∈ _FIELD_SPECS -> fs_key s = "status" ->
    ap_status acc = accepted_by current l s /\
    dget "status_class" (ap_changes acc) = jopt JStr ∘ dl_status_class <$> accepted_by current l s /\
    dget "status_authority" (ap_changes acc) = jopt JStr ∘ dl_status_authority <$> accepted_by current l s;
  sf_nothing : ap_changes acc = [] <-> ap_changed_fields acc = []
}.
Lemma stands_for_nothing current : stands_for current [] nothing_accepted.
Proof. split; try done; [simpl; constructor|]. intros s _. by split; [intros ?%elem_of_nil|intros [? ?]]. Qed.
Lemma set_field_get spec s x ch : spec ∈ _FIELD_SPECS -> s ∈ _FIELD_SPECS ->
  dget (fs_value s) (set_field spec x ch) = (if String.eqb (fs_key spec) (fs_key s) then Some (value_json (dl_value x))
    else dget (fs_value s) ch) /\
  dget (fs_evidence s) (set_field spec x ch) = (if String.eqb (fs_key spec) (fs_key s) then Some (JStr (dl_evidence_id x))
    else dget (fs_evidence s) ch).
Proof.
  intros Hspec Hs. unfold set_field. rewrite !dget_dset. destruct (specs_apart spec s Hspec Hs) as [Hv He _ _].
  destruct (specs_apart s spec Hs Hspec) as [_ _ Hb _]. destruct (specs_apart spec s Hspec Hs) as [_ _ Hb' _].
  rewrite (bool_decide_eq_false_2 (fs_evidence spec = fs_value s)) by congruence.
  rewrite (bool_decide_eq_false_2 (fs_value spec = fs_evidence s)) by congruence.
  destruct (String.eqb_spec (fs_key spec) (fs_key s)) as [Hk|Hk].
  - assert (spec = s) as <- by by apply spec_keys. by rewrite !bool_decide_eq_true_2.
  - rewrite !bool_decide_eq_false_2; [done|..]; intros Heq; apply Hk; f_equal; auto.
Qed.
Lemma delta_for_none l key : (key ∉ map dl_field_key l) -> delta_for l key = None.
Proof.
  intros Hn. destruct (delta_for l key) as [x|] eqn:E; [|done]. apply delta_for_elem in E as [Hin <-]. destruct Hn.
  by apply list_elem_of_fmap_2.
Qed.
Lemma accepted_by_app current l x s : (dl_field_key x ∉ map dl_field_key l) ->
  accepted_by current (l ++ [x]) s = if String.eqb (dl_field_key x) (fs_key s)
    then if changes_field current s x then Some x else None else accepted_by current l s.
Proof. intros Hn. unfold accepted_by. rewrite delta_for_app by done. by destruct (String.eqb _ _). Qed.
Lemma accepted_by_new current l s : (fs_key s ∉ map dl_field_key l) -> accepted_by current l s = None.
Proof. intros Hn. unfold accepted_by. by rewrite delta_for_none. Qed.

Section accepting.
Context `{Sha256} {rest : Type} `{!RfcSourceEvidenceProvider rest}.
Implicit Types db : LedgerDb (CascadeDb rest).
(** One delta, in the words of [changes_field]. *)
Definition with_delta (current : option RfcProjectionRow) (spec : field_spec) (acc : acceptance) (x : RfcAcceptedFieldDelta)
    : acceptance :=
  let seen := MkAcceptance (dl_field_key x :: ap_seen acc) (ap_changes acc) (ap_changed_fields acc) (ap_evidence_ids acc)
    (ap_status acc) in
  if changes_field current spec x then
    let changes := set_field spec x (ap_changes acc) in
    if String.eqb (fs_key spec) "status" then accept_field seen x
      (dset "status_authority" (jopt JStr (dl_status_authority x)) (dset "status_class" (jopt JStr (dl_status_class x)) changes))
      (Some x)
    else accept_field seen x changes (ap_status acc)
  else seen.
Lemma accept_delta_exact db r current acc x acc' :
  accept_delta db r current acc x = Ok acc' <-> exists spec, _validate_delta_shape x = Ok spec /\
    (dl_field_key x ∉ ap_seen acc) /\ validate_accepted_delta db r x (dl_evidence_id x) = Ok "VALID" /\
    acc' = with_delta current spec acc x.
Proof.
  split.
  - intros (spec & Hs & Hn & Hv & Ha)%accept_delta_ok. cbv zeta in Ha. exists spec. split_and!; try done. rewrite Ha. clear Ha.
    destruct (delta_shape_ok _ _ Hs) as ([_ Hk]%spec_in & _).
    unfold with_delta, changes_field. rewrite Hk. destruct (String.eqb (dl_field_key x) "status").
    + by destruct (_ || _).
    + by destruct (match current with Some _ => _ | None => _ end).
  - intros (spec & Hs & Hn%set_token_out & Hv & ->). unfold accept_delta. rewrite Hs. cbn [mbind result_bind]. rewrite Hn. cbv zeta.
    cbn [forbid mbind result_bind]. rewrite Hv. cbn [mbind result_bind]. cbn [String.eqb Ascii.eqb negb forbid mbind result_bind].
    destruct (delta_shape_ok _ _ Hs) as ([_ Hk]%spec_in & _). unfold with_delta, changes_field. rewrite Hk.
    destruct (String.eqb (dl_field_key x) "status").
    + by destruct (_ || _).
    + by destruct (match current with Some _ => _ | None => _ end).
Qed.
Lemma registry_other s c : s ∈ _FIELD_SPECS -> c ∈ other_columns ->
  bool_decide (c = fs_value s) = false /\ bool_decide (c = fs_evidence s) = false /\
  bool_decide (fs_value s = c) = false /\ bool_decide (fs_evidence s = c) = false.
Proof.
  intros Hs Hc. destruct (specs_apart s s Hs Hs) as [_ _ _ [Hv He]].
  split_and!; apply bool_decide_eq_false_2; congruence.
Qed.
Lemma set_other s c (v : json) ch : s ∈ _FIELD_SPECS -> c ∈ other_columns ->
  dget (fs_value s) (dset c v ch) = dget (fs_value s) ch /\ dget (fs_evidence s) (dset c v ch) = dget (fs_evidence s) ch.
Proof. intros Hs Hc. destruct (registry_other s c Hs Hc) as (E1 & E2 & _). by rewrite !dget_dset, E1, E2. Qed.
Lemma set_field_other s c x ch : s ∈ _FIELD_SPECS -> c ∈ other_columns -> dget c (set_field s x ch) = dget c ch.
Proof. intros Hs Hc. destruct (registry_other s c Hs Hc) as (_ & _ & E1 & E2). unfold set_field. by rewrite !dget_dset, E2, E1. Qed.
(** What the changes of an accepted delta hold. *)
Lemma with_delta_changes current spec acc x :
  spec ∈ _FIELD_SPECS -> changes_field current spec x = true ->
  let acc' := with_delta current spec acc x in
  ap_changed_fields acc' = ap_changed_fields acc ++ [dl_field_key x] /\
  ap_status acc' = (if String.eqb (fs_key spec) "status" then Some x else ap_status acc) /\
  (forall s, s ∈ _FIELD_SPECS ->
    dget (fs_value s) (ap_changes acc') = (if String.eqb (fs_key spec) (fs_key s) then Some (value_json (dl_value x))
      else dget (fs_value s) (ap_changes acc)) /\
    dget (fs_evidence s) (ap_changes acc') = (if String.eqb (fs_key spec) (fs_key s) then Some (JStr (dl_evidence_id x))
      else dget (fs_evidence s) (ap_changes acc))) /\
  dget "status_class" (ap_changes acc') = (if String.eqb (fs_key spec) "status" then Some (jopt JStr (dl_status_class x))
    else dget "status_class" (ap_changes acc)) /\
  dget "status_authority" (ap_changes acc') = (if String.eqb (fs_key spec) "status" then Some (jopt JStr (dl_status_authority x))
    else dget "status_authority" (ap_changes acc)).
Proof.
  intros Hspec Hc. unfold with_delta. cbv zeta. rewrite Hc.
  assert ("status_class" ∈ other_columns /\ "status_authority" ∈ other_columns) as [Oc Oa] by (split; set_solver).
  destruct (String.eqb (fs_key spec) "status"); cbn [accept_field ap_changed_fields ap_status ap_changes]; split_and!; try done.
  - intros s Hs. destruct (set_other s "status_authority" (jopt JStr (dl_status_authority x))
      (dset "status_class" (jopt JStr (dl_status_class x)) (set_field spec x (ap_changes acc))) Hs Oa) as [-> ->].
    destruct (set_other s "status_class" (jopt JStr (dl_status_class x)) (set_field spec x (ap_changes acc)) Hs Oc) as [-> ->].
    by apply set_field_get.
  - by rewrite !dget_dset.
  - by rewrite !dget_dset.
  - intros s Hs. by apply set_field_get.
  - by apply set_field_other.
  - by apply set_field_other.
Qed.
Lemma with_delta_stands current l acc spec x :
  stands_for current l acc -> spec ∈ _FIELD_SPECS -> dl_field_key x = fs_key spec -> (dl_field_key x ∉ map dl_field_key l) ->
  stands_for current (l ++ [x]) (with_delta current spec acc x).
Proof.
  intros [H1 H2 H3 H4 H5 H6 H7] Hspec Hk Hn.
  assert (accepted_by current l spec = None) as Hnew by (apply accepted_by_new; by rewrite <-Hk).
  assert (forall s, s ∈ _FIELD_SPECS -> accepted_by current (l ++ [x]) s = if String.eqb (fs_key spec) (fs_key s)
    then if changes_field current spec x then Some x else None else accepted_by current l s) as Hacc.
  { intros s Hs. rewrite accepted_by_app, Hk by done. destruct (String.eqb_spec (fs_key spec) (fs_key s)) as [Heq|]; [|done].
    by rewrite (spec_keys spec s) by done. }
  assert (forall k, k ∈ dl_field_key x :: ap_seen acc <-> k ∈ map dl_field_key (l ++ [x])) as Hseen.
  { intros k. rewrite map_app, elem_of_app, elem_of_cons, H1. simpl. rewrite list_elem_of_singleton. tauto. }
  assert (NoDup (map dl_field_key (l ++ [x]))) as Hd.
  { rewrite map_app. apply NoDup_app. split_and!; [done|by intros k Hin ->%list_elem_of_singleton|apply NoDup_singleton]. }
  destruct (changes_field current spec x) eqn:Ec.
  - destruct (with_delta_changes current spec acc x Hspec Ec) as (Ef & Es & Eg & Esc & Esa). cbv zeta in Ef, Es, Eg, Esc, Esa. split.
    + intros k. rewrite <-Hseen. unfold with_delta. rewrite Ec. by destruct (String.eqb _ "status").
    + done.
    + intros s Hs. rewrite (proj1 (Eg s Hs)), Hacc, H3 by done. by destruct (String.eqb (fs_key spec) (fs_key s)).
    + intros s Hs. rewrite (proj2 (Eg s Hs)), Hacc, H4 by done. by destruct (String.eqb (fs_key spec) (fs_key s)).
    + intros s Hs. rewrite Ef, elem_of_app, list_elem_of_singleton, Hacc, H5, Hk by done.
      destruct (String.eqb_spec (fs_key spec) (fs_key s)) as [Heq|Hne]; [by split; [|by right]|].
      split; [intros [?|Heq]; [done|by destruct Hne]|by left].
    + intros s Hs Hst. rewrite Es, Esc, Esa, Hacc, Hst by done. destruct (String.eqb (fs_key spec) "status"); [done|by apply H6].
    + destruct (Eg spec Hspec) as [Ev _]. rewrite String.eqb_refl in Ev. rewrite Ef. split; [by intros Hnil; rewrite Hnil in Ev|].
      by intros [_ ?]%app_nil.
  - unfold with_delta. rewrite Ec. assert (forall s, s ∈ _FIELD_SPECS -> accepted_by current (l ++ [x]) s = accepted_by current l s) as Hsame.
    { intros s Hs. rewrite Hacc by done. destruct (String.eqb_spec (fs_key spec) (fs_key s)) as [Heq|]; [|done].
      by rewrite <-(spec_keys spec s). }
    split; simpl; [exact Hseen|exact Hd| | | | |exact H7]; intros s Hs; rewrite Hsame by done; auto.
Qed.
Lemma accepted_stands db r current l acc :
  foldM (accept_delta db r current) nothing_accepted l = Ok acc -> stands_for current l acc.
Proof.
  intros Hf. enough (forall pre acc0 acc1 post, stands_for current pre acc0 ->
    foldM (accept_delta db r current) acc0 post = Ok acc1 -> stands_for current (pre ++ post) acc1) as Hg.
  { by apply (Hg [] nothing_accepted acc l); [apply stands_for_nothing|]. }
  intros pre acc0 acc1 post. revert pre acc0. induction post as [|x post IH]; intros pre acc0 Hs Hr.
  - injection Hr as <-. by rewrite app_nil_r.
  - simpl in Hr. apply bind_ok in Hr as (acc2 & (spec & Hspec & Hn & _ & ->)%accept_delta_exact & Hr).
    destruct (delta_shape_ok _ _ Hspec) as ([Hin Hk]%spec_in & _). rewrite (cons_middle x pre post), app_assoc.
    apply (IH (pre ++ [x]) (with_delta current spec acc0 x)); [|exact Hr]. apply with_delta_stands; [done..|by rewrite <-(sf_seen _ _ _ Hs)].
Qed.

(** * Every field, exactly *)
Lemma accepted_valid db r current l acc0 acc : foldM (accept_delta db r current) acc0 l = Ok acc ->
  Forall (fun y => (exists spec, _validate_delta_shape y = Ok spec) /\
    validate_accepted_delta db r y (dl_evidence_id y) = Ok "VALID") l.
Proof.
  revert acc0. induction l as [|y l IH]; intros acc0 Hr; [constructor|]. simpl in Hr.
  apply bind_ok in Hr as (acc1 & (spec & Hs & _ & Hv & _)%accept_delta_exact & Hr). constructor; [|by eapply IH]. split; [by exists spec|done].
Qed.
Lemma accepted_by_elem current l s y : s ∈ _FIELD_SPECS -> accepted_by current l s = Some y ->
  y ∈ l /\ dl_field_key y = fs_key s /\ changes_field current s y = true.
Proof.
  unfold accepted_by. intros Hs. destruct (delta_for l (fs_key s)) as [x|] eqn:E; [|done]. simpl.
  destruct (changes_field current s x) eqn:Ec; [|done]. intros [= ->]. by apply delta_for_elem in E as [? ?].
Qed.
Lemma valid_value y s : s ∈ _FIELD_SPECS -> dl_field_key y = fs_key s -> (exists spec, _validate_delta_shape y = Ok spec) ->
  as_kind (fs_kind s) (value_json (dl_value y)) = value_json (dl_value y).
Proof.
  intros Hs Hk [spec Hsp]. apply delta_shape_ok in Hsp as (Hspec & _ & _ & Hv & _). rewrite Hk, spec_of_in in Hspec by done.
  injection Hspec as <-. unfold as_kind. destruct (String.eqb (fs_kind s) "instant").
  - by destruct Hv as (n & -> & _).
  - by destruct Hv as (t & -> & _).
Qed.
(** The value and the evidence a field has after the deltas. *)
Definition field_value (current : option RfcProjectionRow) (l : list RfcAcceptedFieldDelta) (s : field_spec) : json :=
  match accepted_by current l s with Some y => value_json (dl_value y) | None => column (base_row current) (fs_value s) end.
Definition field_evidence (current : option RfcProjectionRow) (l : list RfcAcceptedFieldDelta) (s : field_spec) : json :=
  match accepted_by current l s with Some y => JStr (dl_evidence_id y) | None => column (base_row current) (fs_evidence s) end.
Lemma written_column current ch c :
  c <> "revision" -> dget c (dset "revision" (JInt match current with Some p => rp_revision p + 1 | None => 1 end) ch) = dget c ch.
Proof. intros Hc. rewrite dget_dset. by rewrite bool_decide_eq_false_2. Qed.
Lemma written_fields db r current l acc ch s :
  foldM (accept_delta db r current) nothing_accepted l = Ok acc ->
  (forall c, c <> "terminal_epoch_id" -> dget c ch = dget c (ap_changes acc)) -> s ∈ _FIELD_SPECS ->
  column (written_row current ch) (fs_value s) = field_value current l s /\
  column (written_row current ch) (fs_evidence s) = field_evidence current l s.
Proof.
  intros Hf Hch Hs. pose proof (accepted_stands _ _ _ _ _ Hf) as Hst. apply accepted_valid in Hf as Hvalid.
  assert ("terminal_epoch_id" ∈ other_columns /\ "revision" ∈ other_columns) as [Oe Or] by (split; set_solver).
  destruct (registry_other s _ Hs Oe) as (_ & _ & E1%bool_decide_eq_false & E2%bool_decide_eq_false).
  destruct (registry_other s _ Hs Or) as (_ & _ & E3%bool_decide_eq_false & E4%bool_decide_eq_false).
  destruct (changed_value (base_row current)
    (dset "revision" (JInt match current with Some p => rp_revision p + 1 | None => 1 end) ch) s Hs) as [Hv He].
  unfold written_row. rewrite Hv, He, !written_column, !Hch, (sf_value _ _ _ Hst s Hs), (sf_evidence _ _ _ Hst s Hs) by done.
  unfold field_value, field_evidence. destruct (accepted_by current l s) as [y|] eqn:Ey; simpl; [|by apply column_kind].
  apply accepted_by_elem in Ey as (Hin & Hk & _); [|done]. rewrite Forall_forall in Hvalid. destruct (Hvalid y Hin) as [Hsh _].
  split; [by apply valid_value|done].
Qed.
(** The class and the authority follow the status. *)
Definition status_spec : field_spec := MkFieldSpec "status" "status_text" "status_evidence_id" "controlled".
Lemma status_in : status_spec ∈ _FIELD_SPECS.
Proof. unfold _FIELD_SPECS, status_spec. do 6 right. left. Qed.
Lemma written_status db r current l acc ch :
  foldM (accept_delta db r current) nothing_accepted l = Ok acc ->
  (forall c, c <> "terminal_epoch_id" -> dget c ch = dget c (ap_changes acc)) ->
  match accepted_by current l status_spec with
  | Some y => dl_status_class y = Some (rp_status_class (written_row current ch)) /\
      rp_status_authority (written_row current ch) = dl_status_authority y
  | None => rp_status_class (written_row current ch) = rp_status_class (base_row current) /\
      rp_status_authority (written_row current ch) = rp_status_authority (base_row current)
  end.
Proof.
  intros Hf Hch. pose proof (accepted_stands _ _ _ _ _ Hf) as Hst. apply accepted_valid in Hf as Hvalid.
  destruct (sf_status _ _ _ Hst status_spec status_in eq_refl) as (_ & Hc & Ha). unfold written_row, changed_row, row_of_columns.
  cbn [rp_status_class rp_status_authority]. rewrite !written_column, !Hch, Hc, Ha by done.
  destruct (accepted_by current l status_spec) as [y|] eqn:Ey; simpl.
  - apply accepted_by_elem in Ey as (Hin & Hk & _); [|exact status_in]. rewrite Forall_forall in Hvalid.
    destruct (Hvalid y Hin) as [[spec Hsp] _]. apply delta_shape_ok in Hsp as (_ & _ & _ & _ & Hsh). rewrite Hk in Hsh.
    destruct Hsh as (c & au & -> & -> & _). done.
  - split; [by destruct (base_row current)|]. change (column (base_row current) "status_authority") with (jopt JStr (rp_status_authority (base_row current))).
    apply as_text_jopt.
Qed.
Definition changed_keys (current : option RfcProjectionRow) (l : list RfcAcceptedFieldDelta) : list string :=
  map fs_key (filter (fun s => present_opt (accepted_by current l s) = true) _FIELD_SPECS).
Lemma filter_keys (p : field_spec -> bool) (q : string -> bool) l : (forall s, s ∈ l -> q (fs_key s) = p s) ->
  filter (fun k => q k = true) (map fs_key l) = map fs_key (filter (fun s => p s = true) l).
Proof.
  induction l as [|s l IH]; intros Hpq; [done|]. rewrite filter_cons. simpl map at 1. rewrite filter_cons, (Hpq s) by left.
  rewrite IH by (intros s' Hs'; apply Hpq; by right). destruct (p s); [by rewrite !decide_True|by rewrite !decide_False].
Qed.
Lemma ordered_changed current l acc : stands_for current l acc -> ordered_fields acc = changed_keys current l.
Proof.
  intros Hst. unfold ordered_fields, _FIELD_ORDER, changed_keys.
  apply (filter_keys (fun s => present_opt (accepted_by current l s)) (set_token (ap_changed_fields acc))). intros s Hs.
  pose proof (sf_changed _ _ _ Hst s Hs) as Hc. destruct (accepted_by current l s) as [y|]; simpl.
  - apply set_token_in, Hc. by eexists.
  - apply set_token_out. intros Hin. apply Hc in Hin as [? ?]. done.
Qed.
(** One more delta set that changes nothing. *)
Lemma nothing_accepted_again db r current l :
  Forall (fun y => (exists spec, _validate_delta_shape y = Ok spec) /\
    validate_accepted_delta db r y (dl_evidence_id y) = Ok "VALID") l -> NoDup (map dl_field_key l) ->
  (forall s, s ∈ _FIELD_SPECS -> accepted_by current l s = None) ->
  exists acc, foldM (accept_delta db r current) nothing_accepted l = Ok acc /\ ap_changes acc = [].
Proof.
  intros Hv Hd Hnone.
  enough (forall seen, (forall k, k ∈ seen -> k ∉ map dl_field_key l) ->
    exists acc, foldM (accept_delta db r current) (MkAcceptance seen [] [] [] None) l = Ok acc /\ ap_changes acc = []) as Hg.
  { apply Hg. by intros k ?%elem_of_nil. }
  assert (forall y, y ∈ l -> forall spec, _validate_delta_shape y = Ok spec -> changes_field current spec y = false) as Hsame.
  { intros y Hy spec Hsp. apply delta_shape_ok in Hsp as ([Hin Hk]%spec_in & _). specialize (Hnone spec Hin).
    unfold accepted_by in Hnone. rewrite Hk, delta_for_unique in Hnone by done. simpl in Hnone. by destruct (changes_field _ _ _). }
  clear Hnone. induction Hv as [|y l [[spec Hsp] Hvy] _ IH]; intros seen Hseen; [by eexists|].
  simpl in Hd. apply NoDup_cons in Hd as [Hn Hd]. simpl.
  destruct (IH Hd) with (seen := dl_field_key y :: seen) as (acc & Hacc & Hnil).
  - intros z Hz. apply Hsame. by right.
  - intros k [->|Hk]%elem_of_cons; [done|]. specialize (Hseen k Hk). intros Hin. apply Hseen. simpl. by right.
  - exists acc. split; [|done]. apply bind_ok. exists (MkAcceptance (dl_field_key y :: seen) [] [] [] None). split; [|done].
    apply accept_delta_exact. exists spec. split_and!; [done| |done|].
    + simpl. intros Hin. apply (Hseen _ Hin). simpl. by left.
    + unfold with_delta. by rewrite (Hsame y ltac:(left) spec Hsp).
Qed.

(** * The row written *)
Section applying.
Context `{!RfcTerminalTaskParticipant rest} (fresh : place -> string) (clock : place -> Z) (capture : terminal_capture rest).
Context (Hcapture : capture = None \/ capture = Some (capture_pending fresh clock)).
Lemma decide_tickets f id n (d d' : CascadeDb rest) k : decide_proposal f id n d = (d', Ok k) -> cd_tickets d' = cd_tickets d.
Proof. unfold decide_proposal. destruct (_ !! id) as [p|]; [destruct (_ && _)|]; by intros [= <- _]. Qed.
Lemma resulting_epoch_tickets r prior_class prior_epoch status_class command review db db' x :
  resulting_epoch fresh clock capture r prior_class prior_epoch status_class command review db = (db', Ok x) ->
  cd_tickets (domain_state db') = cd_tickets (domain_state db).
Proof.
  unfold resulting_epoch. destruct (terminal_class prior_class), (terminal_class status_class).
  - destruct prior_epoch; [by intros [= <- _]|by intros [_ ?]%lift_ok].
  - intros (s1 & u1 & [-> _]%lift_ok & Hr)%stm_bind_ok. destruct prior_epoch; [|by apply lift_ok in Hr as [_ ?]].
    apply stm_bind_ok in Hr as (db1 & u2 & Hs & [= <- _]). unfold _supersede_pending_for_reversal in Hs.
    apply stm_bind_ok in Hs as (s2 & db0 & [= <- <-] & Hs). destruct (pending_of _ _ _) as [|[id p] l]; [by injection Hs as <-|].
    apply stm_bind_ok in Hs as (db2 & k & (d & Hd%decide_tickets & ->)%on_domain_ok & Hs). by apply lift_ok in Hs as [-> _].
  - intros (s1 & u1 & [-> _]%lift_ok & [= <- _])%stm_bind_ok. done.
  - by intros [= <- _].
Qed.
(** What a change of the projection returned and wrote. *)
Record row_written db db' (r : string) (current : option RfcProjectionRow) (acc : acceptance)
    (x : RfcSourceProjectionApplyResult) (ch : list (string * json)) : Prop := {
  rw_changes : forall c, c <> "terminal_epoch_id" -> dget c ch = dget c (ap_changes acc);
  rw_tickets : cd_tickets (domain_state db') =
    set_projection (<[r := written_row current ch]> (projections (domain_state db))) (cd_tickets (domain_state db));
  rw_fields : ar_changed_field_keys x = ordered_fields acc;
  rw_no_change : ar_no_change x = false;
  rw_lifecycle : get_lifecycle (cd_tickets (domain_state db')) r = Ok (ar_lifecycle_projection x)
}.
Lemma apply_changes_written r command current acc review a db db' x :
  current = projections (domain_state db) !! r ->
  apply_changes fresh clock capture r command current acc review a db = (db', Ok x) ->
  exists ch, row_written db db' r current acc x ch.
Proof.
  intros Hc. unfold apply_changes. cbv zeta. intros (db1 & [[[class epoch] capturing] changes] & H1 & Hr)%stm_bind_ok.
  apply stm_bind_ok in Hr as (db2 & n & H2 & Hr). apply stm_bind_ok in Hr as (db3 & proposal & H3 & Hr).
  apply stm_bind_ok in Hr as (s4 & db4 & [= <- <-] & Hr). apply stm_bind_ok in Hr as (s5 & l & [-> Hl]%lift_ok & [= <- <-]).
  assert (cd_tickets (domain_state db1) = cd_tickets (domain_state db) /\
    forall c, c <> "terminal_epoch_id" -> dget c changes = dget c (ap_changes acc)) as [E1 Ech].
  { destruct (ap_status acc) as [y|]; [|by injection H1 as <- _ _ _ <-].
    apply stm_bind_ok in H1 as (db0 & [epoch' capturing'] & H1%resulting_epoch_tickets & [= <- _ _ _ <-]). split; [done|].
    intros c Hne. rewrite dget_dset. by rewrite bool_decide_eq_false_2. }
  apply write_projection_ok in H2 as (_ & _ & ->); [|unfold projections; by rewrite E1].
  assert (cd_tickets (domain_state db3) = cd_tickets (with_projection r (written_row current changes) (domain_state db1))) as E3.
  { destruct capturing, epoch as [e|], (ap_status acc) as [y|]; try by injection H3 as <- _.
    by apply stm_bind_ok in H3 as (db4 & id & (_ & s & _ & _ & _ & _ & ->)%(capture_cascade_ok fresh clock capture Hcapture) & [= <- _]). }
  exists changes. split; try done. rewrite E3. unfold with_projection, set_projections, projections. simpl. by rewrite E1.
Qed.
Lemma apply_deltas_cases r command deltas review a db db' x :
  apply_accepted_field_deltas fresh clock capture r command deltas review a db = (db', Ok x) ->
  known (rfcs (cd_tickets (domain_state db))) r = true /\
  match review with Some f => is_sha256 f = true | None => True end /\ count deltas <= count _FIELD_SPECS /\
  let current := projections (domain_state db) !! r in
  exists acc, foldM (accept_delta db r current) nothing_accepted deltas = Ok acc /\
    (ap_changes acc = [] /\ db' = db /\ (exists lifecycle, get_lifecycle (cd_tickets (domain_state db)) r = Ok lifecycle /\
       x = MkApplied lifecycle [] [] None true [] []) \/
     ap_changes acc <> [] /\ exists ch, row_written db db' r current acc x ch).
Proof.
  unfold apply_accepted_field_deltas. cbv zeta. intros (s0 & db0 & [= <- <-] & Hr)%stm_bind_ok.
  apply stm_bind_ok in Hr as (s1 & u1 & [-> _]%lift_ok & Hr).
  apply stm_bind_ok in Hr as (s2 & u2 & [-> Hk%forbid_ok]%lift_ok & Hr).
  apply stm_bind_ok in Hr as (s3 & u3 & [-> Hrev%forbid_ok]%lift_ok & Hr).
  apply stm_bind_ok in Hr as (s4 & u4 & [-> Hn%forbid_ok]%lift_ok & Hr).
  apply stm_bind_ok in Hr as (s5 & acc & [-> Hacc]%lift_ok & Hr). bool_hyps. split; [done|]. split; [by destruct review; bool_hyps|].
  split; [done|]. exists acc. split; [done|]. destruct (ap_changes acc) as [|ch chs] eqn:E.
  - left. apply stm_bind_ok in Hr as (s6 & l & [-> Hl]%lift_ok & [= <- <-]). split; [done|]. split; [done|]. by exists l.
  - right. split; [done|]. by apply apply_changes_written in Hr.
Qed.
End applying.
End accepting.

(** C16.  Accepting source fields does exactly what the deltas say.  When
    it succeeds, no field is named twice; each field of the registry whose delta
    differs from the current row, and only these, has the delta's value and
    evidence, the status also its class and its authority; a provisional status
    never replaces one of the enhanced RFC; the keys returned are those of the
    changed fields, in the order of the registry; the revision is one more; no
    other RFC is touched; and when no field differs nothing at all is written. *)
Theorem accepted_fields_exact `{Sha256} {rest : Type} `{!RfcSourceEvidenceProvider rest, !RfcTerminalTaskParticipant rest}
    fresh clock capture (db db' : LedgerDb (CascadeDb rest)) r command deltas review a x :
  capture = None \/ capture = Some (capture_pending fresh clock) ->
  apply_accepted_field_deltas fresh clock capture r command deltas review a db = (db', Ok x) ->
  let current := projections (domain_state db) !! r in
  NoDup (map dl_field_key deltas) /\ ar_changed_field_keys x = changed_keys current deltas /\
  if ar_no_change x then db' = db /\ forall s, s ∈ _FIELD_SPECS -> accepted_by current deltas s = None
  else exists p, projections (domain_state db') = <[r := p]> (projections (domain_state db)) /\
    rp_revision p = match current with Some q => rp_revision q + 1 | None => 1 end /\
    (forall s, s ∈ _FIELD_SPECS -> column p (fs_value s) = field_value current deltas s /\
       column p (fs_evidence s) = field_evidence current deltas s) /\
    match accepted_by current deltas status_spec with
    | Some y => dl_status_class y = Some (rp_status_class p) /\ rp_status_authority p = dl_status_authority y /\
        superseded_authority current y = false
    | None => rp_status_class p = rp_status_class (base_row current) /\
        rp_status_authority p = rp_status_authority (base_row current)
    end.
Proof.
  intros Hcap Hr. cbv zeta. apply (apply_deltas_cases fresh clock capture Hcap) in Hr as (_ & _ & _ & acc & Hf & Hr).
  pose proof (accepted_stands _ _ _ _ _ Hf) as Hst. split; [by apply Hst|].
  destruct Hr as [(Hnil & -> & l & _ & ->)|(Hne & ch & [Hch Ht Hkeys Hnc _])].
  - assert (forall s, s ∈ _FIELD_SPECS -> accepted_by (projections (domain_state db) !! r) deltas s = None) as Hnone.
    { intros s Hs. pose proof (sf_changed _ _ _ Hst s Hs) as Hc. rewrite (proj1 (sf_nothing _ _ _ Hst) Hnil) in Hc.
      destruct (accepted_by _ _ s) as [y|]; [|done]. assert (fs_key s ∈ @nil string) as Hin by (apply Hc; by eexists).
      by apply elem_of_nil in Hin. }
    simpl. split; [|by split]. unfold changed_keys. rewrite filter_none; [done|]. intros s Hs. by rewrite Hnone.
  - rewrite Hnc, Hkeys, (ordered_changed _ _ _ Hst). split; [done|].
    eexists. split_and!.
    + unfold projections at 1. rewrite Ht. reflexivity.
    + unfold written_row, changed_row, row_of_columns. cbn [rp_revision]. by rewrite dget_dset.
    + intros s Hs. by eapply written_fields.
    + pose proof (written_status _ _ _ _ _ ch Hf Hch) as Hw.
      destruct (accepted_by (projections (domain_state db) !! r) deltas status_spec) as [y|] eqn:Ey; [|exact Hw].
      split_and!; [apply Hw..|]. apply accepted_by_elem in Ey as (_ & _ & Hc); [|exact status_in]. unfold changes_field in Hc.
      simpl in Hc. apply negb_true_iff, orb_false_iff in Hc. by destruct Hc.
Qed.
(** Nothing differs from what was written. *)
Lemma written_accepts_none `{Sha256} {rest : Type} `{!RfcSourceEvidenceProvider rest} (db : LedgerDb (CascadeDb rest)) r current
    deltas acc ch s :
  foldM (accept_delta db r current) nothing_accepted deltas = Ok acc ->
  (forall c, c <> "terminal_epoch_id" -> dget c ch = dget c (ap_changes acc)) -> s ∈ _FIELD_SPECS ->
  accepted_by (Some (written_row current ch)) deltas s = None.
Proof.
  intros Hf Hch Hs. destruct (written_fields _ _ _ _ _ ch s Hf Hch Hs) as [Hv _]. pose proof (written_status _ _ _ _ _ ch Hf Hch) as Hst.
  remember (written_row current ch) as w eqn:Ew. clear Ew.
  unfold accepted_by. destruct (delta_for deltas (fs_key s)) as [y|] eqn:Ey; [|done]. simpl.
  assert (forall z, same_value (value_json z) z = true) as Hrefl by (intros [t|n]; [apply String.eqb_refl|apply Z.eqb_refl]).
  assert (changes_field (Some w) s y = false) as ->; [|done].
  unfold field_value, accepted_by in Hv. rewrite Ey in Hv. simpl in Hv.
  unfold changes_field in Hv |- *. destruct (String.eqb_spec (fs_key s) "status") as [Hk|Hk].
  - assert (s = status_spec) as -> by by apply spec_keys; [|apply status_in|].
    unfold accepted_by in Hst. rewrite Ey in Hst. simpl in Hst. unfold changes_field in Hst. simpl in Hst.
    destruct (superseded_authority current y || same_status current y) eqn:Eo; simpl in Hst, Hv.
    + apply negb_false_iff. destruct Hst as [Hcl Hau]. destruct current as [p|].
      * simpl in Hv, Hcl, Hau. rewrite <-Eo. unfold superseded_authority, same_status. simpl. rewrite Hv, Hcl, Hau. done.
      * unfold superseded_authority, same_status in Eo. simpl in Eo. done.
    + apply negb_false_iff, orb_true_iff. right. destruct Hst as [Hcl Hau]. unfold same_status.
      rewrite Hv, Hrefl, Hcl, Hau. by rewrite !bool_decide_eq_true_2.
  - apply negb_false_iff. destruct current as [p|]; simpl in Hv.
    + destruct (same_value (column p (fs_value s)) (dl_value y)) eqn:Esame; simpl in Hv; rewrite Hv; [done|apply Hrefl].
    + rewrite Hv. apply Hrefl.
Qed.

(** The evidence of the deltas is still what the provider accepts. *)
Definition still_valid `{Sha256} {rest : Type} `{!RfcSourceEvidenceProvider rest} (db : LedgerDb (CascadeDb rest)) (r : string)
    (deltas : list RfcAcceptedFieldDelta) : Prop :=
  Forall (fun y => validate_accepted_delta db r y (dl_evidence_id y) = Ok "VALID") deltas.
(** A review that is absent or a SHA-256. *)
Definition review_ok (review : option string) : bool := match review with Some f => is_sha256 f | None => true end.
(** C18.  Accepting again changes nothing.  After a set of deltas was
    accepted, and as long as their evidence is still valid, accepting the same
    set again, by any command whose receipt is recorded, with any review that is
    absent or well formed, and with any participant, succeeds, returns the same
    lifecycle with no change, no reference and no event, and leaves the database
    as it is. *)
Theorem acceptance_idempotent `{Sha256} {rest : Type} `{!RfcSourceEvidenceProvider rest, !RfcTerminalTaskParticipant rest}
    fresh clock capture (db db' : LedgerDb (CascadeDb rest)) r command deltas review a x fresh' clock' capture' command' review' a' :
  capture = None \/ capture = Some (capture_pending fresh clock) ->
  apply_accepted_field_deltas fresh clock capture r command deltas review a db = (db', Ok x) ->
  still_valid db' r deltas ->
  known (command_receipts db') command' = true -> review_ok review' = true ->
  apply_accepted_field_deltas fresh' clock' capture' r command' deltas review' a' db'
    = (db', Ok (MkApplied (ar_lifecycle_projection x) [] [] None true [] [])).
Proof.
  intros Hcap Hr Hvalid Hreceipt Hrev. apply (apply_deltas_cases fresh clock capture Hcap) in Hr as (Hk & _ & Hn & acc & Hf & Hr).
  pose proof (accepted_stands _ _ _ _ _ Hf) as Hst. apply accepted_valid in Hf as Hshape.
  assert (known (rfcs (cd_tickets (domain_state db'))) r = true /\
    get_lifecycle (cd_tickets (domain_state db')) r = Ok (ar_lifecycle_projection x) /\
    forall s, s ∈ _FIELD_SPECS -> accepted_by (projections (domain_state db') !! r) deltas s = None) as (Hk' & Hl & Hnone).
  { destruct Hr as [(Hnil & -> & l & Hl & ->)|(_ & ch & [Hch Ht _ _ Hl])].
    - split_and!; [done|done|]. intros s Hs. pose proof (sf_changed _ _ _ Hst s Hs) as Hc.
      rewrite (proj1 (sf_nothing _ _ _ Hst) Hnil) in Hc. destruct (accepted_by _ _ s) as [y|]; [|done].
      assert (fs_key s ∈ @nil string) as Hin by (apply Hc; by eexists). by apply elem_of_nil in Hin.
    - split_and!; [by rewrite Ht|done|]. intros s Hs. unfold projections at 1. rewrite Ht. simpl. rewrite lookup_insert_eq.
      by eapply written_accepts_none. }
  assert (Forall (fun y => (exists spec, _validate_delta_shape y = Ok spec) /\
    validate_accepted_delta db' r y (dl_evidence_id y) = Ok "VALID") deltas) as Hall.
  { unfold still_valid in Hvalid. rewrite Forall_forall in Hshape, Hvalid |- *. intros y Hy. split; [by apply Hshape|by apply Hvalid]. }
  destruct (nothing_accepted_again db' r _ deltas Hall (sf_keys _ _ _ Hst) Hnone) as (acc' & Hf' & Hnil').
  unfold apply_accepted_field_deltas, require_outer_receipt, require_rfc, lift, read_st, mbind, stM_bind.
  rewrite Hreceipt, Hk', (proj2 (Z.ltb_ge _ _) Hn), Hf', Hnil', Hl.
  destruct review' as [f|]; [unfold review_ok in Hrev; by rewrite Hrev|done].
Qed.

(** * Status rules *)
Definition has_ended {rest : Type} (db : LedgerDb (CascadeDb rest)) (r : string) : bool :=
  terminal_class (class_of (projections (domain_state db) !! r)).
Lemma reversal_needs_review `{Sha256} {rest : Type} (fresh : place -> string) (clock : place -> Z) (capture : terminal_capture rest)
    r command current acc review a (db db' : LedgerDb (CascadeDb rest)) x y :
  apply_changes fresh clock capture r command current acc review a db = (db', Ok x) -> ap_status acc = Some y ->
  terminal_class (class_of current) = true -> terminal_class (default EmptyString (dl_status_class y)) = false ->
  present_opt review = true.
Proof.
  unfold apply_changes. cbv zeta. intros Hr Hy Ht Hn. rewrite Hy in Hr. apply stm_bind_ok in Hr as (db1 & v & H1 & _).
  apply stm_bind_ok in H1 as (db2 & w & H1 & _). unfold resulting_epoch in H1. fold (class_of current) in H1. rewrite Ht, Hn in H1.
  apply stm_bind_ok in H1 as (s1 & u & [-> Hu%forbid_ok]%lift_ok & _). by apply negb_false_iff in Hu.
Qed.
(** C17.  An RFC leaves a terminal status only under a review: when an
    acceptance succeeds on an RFC that has ended and the RFC has not ended
    afterwards, the status was named in the deltas and a well-formed review
    fingerprint came with them. *)
Theorem reversal_is_reviewed `{Sha256} {rest : Type} `{!RfcSourceEvidenceProvider rest, !RfcTerminalTaskParticipant rest}
    fresh clock capture (db db' : LedgerDb (CascadeDb rest)) r command deltas review a x :
  capture = None \/ capture = Some (capture_pending fresh clock) ->
  apply_accepted_field_deltas fresh clock capture r command deltas review a db = (db', Ok x) ->
  has_ended db r = true -> has_ended db' r = false ->
  (exists y, y ∈ deltas /\ dl_field_key y = "status" /\
     dl_status_class y = Some (class_of (projections (domain_state db') !! r))) /\
  exists f, review = Some f /\ is_sha256 f = true.
Proof.
  intros Hcap Hr Hbefore Hafter. unfold has_ended in *. pose proof Hr as Hcases.
  apply (apply_deltas_cases fresh clock capture Hcap) in Hcases as (_ & Hrev & _ & acc & Hf & Hcases).
  destruct Hcases as [(_ & -> & _)|(Hne & ch & [Hch Htab _ _ _])]; [congruence|].
  set (current := projections (domain_state db) !! r) in *. pose proof (accepted_stands _ _ _ _ _ Hf) as Hst.
  assert (projections (domain_state db') !! r = Some (written_row current ch)) as Enew.
  { unfold projections. rewrite Htab. simpl. by rewrite lookup_insert_eq. }
  rewrite Enew in Hafter |- *. change (class_of (Some (written_row current ch))) with (rp_status_class (written_row current ch)) in *.
  pose proof (written_status _ _ _ _ _ ch Hf Hch) as Hw.
  destruct (accepted_by current deltas status_spec) as [y|] eqn:Ey.
  - destruct Hw as [Hcl _]. pose proof Ey as (Hin & Hk & _)%accepted_by_elem; [|exact status_in].
    split; [by exists y|].
    assert (present_opt review = true) as Hp.
    { destruct (sf_status _ _ _ Hst status_spec status_in eq_refl) as (Es & _). rewrite Ey in Es.
      unfold apply_accepted_field_deltas in Hr. apply stm_bind_ok in Hr as (s0 & db0 & [= <- <-] & Hr).
      do 4 (apply stm_bind_ok in Hr as (? & ? & [-> _]%lift_ok & Hr)). cbv zeta in Hr.
      apply stm_bind_ok in Hr as (s5 & acc' & [-> Hf']%lift_ok & Hr). fold current in Hf'. rewrite Hf in Hf'. injection Hf' as <-.
      destruct (ap_changes acc) as [|chg chgs]; [done|].
      eapply reversal_needs_review; [exact Hr|exact Es|exact Hbefore|]. by rewrite Hcl. }
    destruct review as [f|]; [by exists f|done].
  - exfalso. destruct Hw as [Hcl _]. rewrite Hcl in Hafter. clear - Hbefore Hafter. destruct current as [p|]; [simpl in Hbefore, Hafter; congruence|by vm_compute in Hbefore].
Qed.
Lemma provisional_delta_status y : provisional_delta y = true ->
  dl_field_key y = "status" /\ dl_value y = inl "Implement" /\ dl_status_class y = Some "implement_eligible" /\
  dl_status_authority y = Some "wfm_provisional".
Proof.
  unfold provisional_delta. intros Hp. bool_hyps. split_and!; try done. destruct (dl_value y) as [t|n]; [|done].
  cbn [same_value] in *. bool_hyps. by subst.
Qed.
Lemma apply_changes_plain `{Sha256} {rest : Type} (fresh : place -> string) (clock : place -> Z) (capture : terminal_capture rest)
    r command current acc review a (db db' : LedgerDb (CascadeDb rest)) x y :
  current = projections (domain_state db) !! r -> ap_status acc = Some y ->
  terminal_class (class_of current) = false -> terminal_class (default EmptyString (dl_status_class y)) = false ->
  apply_changes fresh clock capture r command current acc review a db = (db', Ok x) ->
  domain_state db' = with_projection r (written_row current (dset "terminal_epoch_id" JNull (ap_changes acc))) (domain_state db).
Proof.
  unfold apply_changes. cbv zeta. intros Hc Hy Ht Hn Hr. rewrite Hy in Hr.
  apply stm_bind_ok in Hr as (db1 & [[[class epoch] capturing] changes] & H1 & Hr).
  apply stm_bind_ok in H1 as (db0 & [epoch' capturing'] & H1 & [= <- <- <- <- <-]). unfold resulting_epoch in H1.
  fold (class_of current) in H1. rewrite Ht, Hn in H1. injection H1 as <- <- <-.
  apply stm_bind_ok in Hr as (db2 & n & (_ & _ & ->)%write_projection_ok & Hr); [|done].
  apply stm_bind_ok in Hr as (db3 & proposal & [= <- _] & Hr). apply stm_bind_ok in Hr as (s4 & db4 & [= <- <-] & Hr).
  by apply stm_bind_ok in Hr as (s5 & l & [-> _]%lift_ok & [= <- _]).
Qed.
Lemma provisional_blocked_ok p u : provisional_blocked p = Ok u ->
  rp_status_authority p <> Some "enhanced_rfc" /\ terminal_class (rp_status_class p) = false.
Proof.
  unfold provisional_blocked. cbv zeta. intros (u1 & H1%forbid_ok & Hr)%bind_ok. apply bind_ok in Hr as (u2 & H2%forbid_ok & _).
  by bool_hyps.
Qed.
Lemma rfc_no_row_ok d no id row : rfc_no_row d no = Some (id, row) -> rfcs d !! id = Some row /\ rf_rfc_no row = no.
Proof.
  unfold rfc_no_row. intros Hh. assert ((id, row) ∈ rows_where (fun r => String.eqb (rf_rfc_no r) no) (rfcs d)) as [Hr Hn]%rows_where_elem.
  { destruct (rows_where _ _) as [|x l]; [done|]. injection Hh as ->. left. }
  by apply String.eqb_eq in Hn.
Qed.
(** The one accepted delta of a status. *)
Lemma status_accepted `{Sha256} {rest : Type} `{!RfcSourceEvidenceProvider rest} (db : LedgerDb (CascadeDb rest)) r current y acc :
  dl_field_key y = "status" -> foldM (accept_delta db r current) nothing_accepted [y] = Ok acc -> ap_changes acc <> [] ->
  accepted_by current [y] status_spec = Some y.
Proof.
  intros Hk Hf Hne. simpl in Hf. apply bind_ok in Hf as (acc1 & (spec & Hsp & _ & _ & ->)%accept_delta_exact & [= <-]).
  apply delta_shape_ok in Hsp as ([Hin Hfk]%spec_in & _). rewrite Hk in Hfk.
  assert (spec = status_spec) as -> by by apply spec_keys; [|apply status_in|].
  unfold accepted_by, delta_for. rewrite filter_cons_True by (by rewrite Hk). simpl.
  unfold with_delta in Hne. by destruct (changes_field current status_spec y).
Qed.
(** What accepting one new status writes on an RFC that has not ended. *)
Lemma plain_status_written `{Sha256} {rest : Type} `{!RfcSourceEvidenceProvider rest, !RfcTerminalTaskParticipant rest} fresh clock
    (db db' : LedgerDb (CascadeDb rest)) r command y review a x :
  let current := projections (domain_state db) !! r in
  apply_accepted_field_deltas fresh clock None r command [y] review a db = (db', Ok x) -> ar_no_change x = false ->
  dl_field_key y = "status" -> terminal_class (class_of current) = false ->
  terminal_class (default EmptyString (dl_status_class y)) = false ->
  exists acc, foldM (accept_delta db r current) nothing_accepted [y] = Ok acc /\ accepted_by current [y] status_spec = Some y /\
    domain_state db' = with_projection r (written_row current (dset "terminal_epoch_id" JNull (ap_changes acc))) (domain_state db).
Proof.
  intros current Hr Hch Hk Ht Hn. pose proof Hr as Hcases.
  apply (apply_deltas_cases fresh clock None (or_introl eq_refl)) in Hcases as (_ & _ & _ & acc & Hf & Hcases).
  fold current in Hf. destruct Hcases as [(_ & _ & l & _ & ->)|(Hne & ch & _)]; [done|].
  pose proof (status_accepted _ _ _ _ _ Hk Hf Hne) as Hacc. pose proof (accepted_stands _ _ _ _ _ Hf) as Hst.
  destruct (sf_status _ _ _ Hst status_spec status_in eq_refl) as (Es & _). rewrite Hacc in Es. exists acc. split_and!; [done..|].
  unfold apply_accepted_field_deltas in Hr. apply stm_bind_ok in Hr as (s0 & db0 & [= <- <-] & Hr).
  do 4 (apply stm_bind_ok in Hr as (? & ? & [-> _]%lift_ok & Hr)). cbv zeta in Hr.
  apply stm_bind_ok in Hr as (s5 & acc' & [-> Hf']%lift_ok & Hr). fold current in Hf'. rewrite Hf in Hf'. injection Hf' as <-.
  destruct (ap_changes acc) as [|chg chgs] eqn:Echs; [done|]. rewrite <-Echs in *.
  by eapply apply_changes_plain; [done|exact Es|exact Ht|exact Hn|exact Hr].
Qed.
(** C19.  A provisional eligibility never overrides.  When one is accepted,
    the RFC of that number was active, had not ended and had no status of the
    enhanced RFC; afterwards its status is the provisional Implement on the given
    evidence, every other field, every other RFC and every cascade is as before. *)
Theorem provisional_never_overrides `{Sha256} {rest : Type}
    `{!RfcSourceEvidenceProvider rest, !RfcTerminalTaskParticipant rest} fresh clock (db db' : LedgerDb (CascadeDb rest))
    rfc_no y token command review a id x :
  accept_provisional_implement_eligibility_from_wfm fresh clock rfc_no y token command review a db = (db', Ok (id, x)) ->
  let current := projections (domain_state db) !! id in
  (exists row, rfcs (cd_tickets (domain_state db)) !! id = Some row /\ rf_rfc_no row = rfc_no /\ rf_local_archive_state row = "active") /\
  has_ended db id = false /\ (current ≫= rp_status_authority) <> Some "enhanced_rfc" /\
  exists p, domain_state db' = with_projection id p (domain_state db) /\
    rp_status_text p = Some "Implement" /\ rp_status_class p = "implement_eligible" /\
    rp_status_authority p = Some "wfm_provisional" /\ rp_status_evidence_id p = Some (dl_evidence_id y) /\
    rp_terminal_epoch_id p = None /\
    forall s, s ∈ _FIELD_SPECS -> fs_key s <> "status" ->
      column p (fs_value s) = column (base_row current) (fs_value s) /\
      column p (fs_evidence s) = column (base_row current) (fs_evidence s).
Proof.
  intros Hr. unfold accept_provisional_implement_eligibility_from_wfm in Hr. cbv zeta.
  apply stm_bind_ok in Hr as (s0 & db0 & [= <- <-] & Hr). cbv zeta in Hr.
  apply stm_bind_ok in Hr as (s1 & no & [-> Hno]%lift_ok & Hr).
  assert (no = rfc_no) as -> by (unfold validate_rfc_no in Hno; by apply bind_ok in Hno as (u & _ & [= <-])).
  apply stm_bind_ok in Hr as (s2 & t & [-> _]%lift_ok & Hr). apply stm_bind_ok in Hr as (s3 & u3 & [-> _]%lift_ok & Hr).
  destruct (rfc_no_row _ rfc_no) as [[id' row]|] eqn:Erow; [|by apply lift_ok in Hr as [_ ?]]. apply rfc_no_row_ok in Erow as [Hrow Hrno].
  apply stm_bind_ok in Hr as (s4 & u4 & [-> Hact%forbid_ok]%lift_ok & Hr).
  apply stm_bind_ok in Hr as (s5 & u5 & [-> Hdelta%forbid_ok]%lift_ok & Hr).
  apply stm_bind_ok in Hr as (s6 & u6 & [-> Hblock]%lift_ok & Hr). apply stm_bind_ok in Hr as (db1 & applied & Happ & Hr).
  apply stm_bind_ok in Hr as (s8 & u8 & [-> Hch%forbid_ok]%lift_ok & [= <- <- <-]). bool_hyps.
  fold (projections (domain_state db)) in Hblock. set (current := projections (domain_state db) !! id') in *.
  assert ((current ≫= rp_status_authority) <> Some "enhanced_rfc" /\ terminal_class (class_of current) = false) as [Hau Hterm].
  { destruct current as [p|]; [by apply provisional_blocked_ok in Hblock|done]. }
  apply provisional_delta_status in Hdelta as (Hk & Hv & Hcl & Hya). split; [by exists row|]. do 2 (split; [done|]).
  destruct (plain_status_written _ _ _ _ _ _ _ _ _ _ Happ Hch Hk Hterm) as (acc & Hf & Hacc & Ed); [by rewrite Hcl|].
  fold current in Hf, Hacc, Ed.
  set (ch' := dset "terminal_epoch_id" JNull (ap_changes acc)) in *.
  assert (forall c, c <> "terminal_epoch_id" -> dget c ch' = dget c (ap_changes acc)) as Hch'.
  { intros c Hc. unfold ch'. rewrite dget_dset. by rewrite bool_decide_eq_false_2. }
  exists (written_row current ch'). split; [exact Ed|].
  pose proof (written_status _ _ _ _ _ ch' Hf Hch') as Hws. rewrite Hacc, Hcl, Hya in Hws. destruct Hws as [[= Hwc] Hwa].
  destruct (written_fields _ _ _ _ _ ch' status_spec Hf Hch' status_in) as [Hwv Hwe].
  unfold field_value, field_evidence in Hwv, Hwe. rewrite Hacc, Hv in Hwv. rewrite Hacc in Hwe.
  change (column (written_row current ch') (fs_value status_spec)) with (jopt JStr (rp_status_text (written_row current ch'))) in Hwv.
  change (column (written_row current ch') (fs_evidence status_spec)) with (jopt JStr (rp_status_evidence_id (written_row current ch'))) in Hwe.
  split_and!.
  - destruct (rp_status_text _); cbn [jopt value_json] in Hwv; congruence.
  - done.
  - done.
  - destruct (rp_status_evidence_id _); cbn [jopt] in Hwe; congruence.
  - exact (written_epoch_set current (ap_changes acc) None).
  - intros s Hin Hsk. destruct (written_fields _ _ _ _ _ ch' s Hf Hch' Hin) as [-> ->]. unfold field_value, field_evidence, accepted_by.
    rewrite delta_for_none; [done|]. simpl. rewrite list_elem_of_singleton. congruence.
Qed.
