(* ===== verification/CascadeSamples.v ===== *)
(** A sample life of cascades: an RFC with two subordinates ends, its cascade is
    refreshed, previewed and executed, or its status goes back.

    The properties of the source projection and of the cascades there. *)
From S2P Require Import Prelude StrictJson Identifiers JsonSorted JobsExample AuditLedger Tables.
From S2P Require Import CommandBoundary CommandReplay CommandAudit CommandDomain TicketTables RfcIdentity.
From S2P Require Import RfcHierarchy TicketLinks RfcImports TicketForest TicketEffects TicketRuns TicketReads.
From S2P Require Import TicketProps CascadeScope RfcProjection CascadeReview CascadeCommands CascadeLife.
From S2P Require Import CascadeRuns CascadeProps RfcAccepted.

Module CascadeSamples.
Import Sample TicketSamples.
(** Every task is of RFC 3; what else takes part counts what it applied. *)
Definition task_1 : string := uid 9 1.
#[export] Instance tasks_of : RfcTerminalTaskParticipant Z := fun _ ids =>
  Ok (Some (if set_token ids (rfc 3) then [WfmRecord (MkWfmMember task_1 (rfc 3) 2 "TK00000000000001")] else [])).
#[export] Instance evidence : RfcSourceEvidenceProvider Z := fun _ _ _ _ => Ok "VALID".
Definition over (t : LedgerDb TicketDb) : LedgerDb (CascadeDb Z) :=
  MkLedger (command_receipts t) (command_receipt_results t) (audit_events t) (audit_event_results t)
    (MkCascadeDb (domain_state t) ∅ [] [] 0).
Definition start : LedgerDb (CascadeDb Z) := over two_children.
Definition status_delta (text class authority proof : string) : RfcAcceptedFieldDelta :=
  MkDelta "status" "controlled" (inl text) proof (Some class) (Some authority).
Definition summary_delta (text proof : string) : RfcAcceptedFieldDelta :=
  MkDelta "summary" "text" (inl text) proof None None.
Definition closed_deltas : list RfcAcceptedFieldDelta :=
  [status_delta "Closed" "terminal_closed" "enhanced_rfc" "evidence-1"; summary_delta "Replace the board" "evidence-2"].
Definition outer : string := command_uid 6.
Definition token_of (db : LedgerDb (CascadeDb Z)) (n : Z) : string :=
  match source_acceptance_base_token (cd_tickets (domain_state db)) (rfc n) with Ok t => t | Raise _ => EmptyString end.
Definition accept (call n : Z) (deltas : list RfcAcceptedFieldDelta) (review : option string) (db : LedgerDb (CascadeDb Z)) :=
  in_uow (apply_accepted_source_projection (fresh call) clock (rfc n) (token_of db n) outer deltas review me) db.
Definition closed := accept 20 1 closed_deltas None start.
Definition proposal_1 : string := fresh 20 ["proposal"].
Definition registry : AuditRegistry := cascade_audit_registry.
(** The status read again, with other evidence: the scope is refreshed. *)
Definition cancelled := accept 21 1 [status_delta "Cancelled" "terminal_cancelled" "enhanced_rfc" "evidence-3"] None closed.1.
Definition refreshed :=
  CascadeCommands.refresh (fresh 22) clock registry no_clock (command_uid 22) proposal_1 1 me cancelled.1.
Definition proposal_2 : string := fresh 22 ["replacement"].
(** Two participants with one impact each. *)
Definition impact_fp (n : Z) : string := hex_digits 64 n.
Definition task_page : preview_participant Z := fun _ _ after _ =>
  Ok (PageRecord (MkProviderPage _TASK_DOMAIN "READY" (Some 1) (Some (impact_fp 1))
    (match after with None => [ImpactRecord (MkImpact _TASK_DOMAIN "WFM_TERMINATION" "WFM_TASK" task_1 (Some "in_progress")
      (Some "terminated") None None None)] | Some _ => [] end) None None)).
Definition communication_page : preview_participant Z := fun _ _ after _ =>
  Ok (PageRecord (MkProviderPage _COMMUNICATION_DOMAIN "READY" (Some 0) (Some (impact_fp 2)) [] None None)).
Definition applies (domain : string) (n m : Z) (fingerprint : string) : execution_participant Z :=
  MkParticipant (fun _ _ n' f => Ok (if (n' =? n) && String.eqb f fingerprint then "READY" else "STALE"))
    (fun _ _ => db ← read_st;
       let d := domain_state db in
       _ ← modify_st (fun db => with_domain db (MkCascadeDb (cd_tickets d) (cd_proposals d) (cd_rfc_members d) (cd_wfm_members d)
         (cd_rest d + m)));
       mret (ApplyRecord (MkApplyResult domain m m fingerprint))).
Definition task_applies := applies _TASK_DOMAIN 1 1 (impact_fp 1).
Definition communication_applies := applies _COMMUNICATION_DOMAIN 0 10 (impact_fp 2).
Definition proves : proof_provider Z unit := fun _ _ _ _ _ => mret (Some JNull).
Definition previewed := preview capture_applicable_wfms task_page communication_page refreshed.1 proposal_2 JNull 100.
Definition review_of (r : result RfcTerminalCascadePreview) : option RfcTerminalCascadeExecutionReview :=
  match r with Ok v => pv_execution_review v | Raise _ => None end.
Definition reviewed : RfcTerminalCascadeExecutionReview :=
  default (MkReview EmptyString 0 EmptyString 0 EmptyString) (review_of previewed).
Definition execute_2 (r : RfcTerminalCascadeExecutionReview) (db : LedgerDb (CascadeDb Z)) :=
  execute_cascade task_applies communication_applies proves (fresh 23) clock registry no_clock (command_uid 23) proposal_2 1
    r tt me db.
Definition executed := execute_2 reviewed refreshed.1.
(** An eligibility seen from the tasks, before any source of the RFC. *)
Definition provisional_y : RfcAcceptedFieldDelta := status_delta "Implement" "implement_eligible" "wfm_provisional" "evidence-5".
Definition provisional_token (db : LedgerDb (CascadeDb Z)) (no : string) : string :=
  match provisional_base_token (cd_tickets (domain_state db)) no with Ok t => t | Raise _ => EmptyString end.
Definition eligible :=
  accept_provisional_implement_eligibility_from_wfm (fresh 25) clock "NC20240000000002" provisional_y
    (provisional_token start "NC20240000000002") outer (impact_fp 4) me start.
(** The status goes back, with a review. *)
Definition reopened := accept 24 1 [status_delta "Implement" "implement_eligible" "enhanced_rfc" "evidence-4"]
  (Some (impact_fp 3)) refreshed.1.
Definition outcome {A} (r : LedgerDb (CascadeDb Z) * result A) : option exn := match r.2 with Ok _ => None | Raise e => Some e end.
End CascadeSamples.

Module CascadeExamples.
Import Sample TicketSamples TicketExamples CascadeSamples.
Definition states (db : LedgerDb (CascadeDb Z)) : list (string * string * Z) :=
  py_sorted (fun x => x.1) (map (fun kv : string * CascadeProposalRow => (kv.1, cp_proposal_state kv.2, cp_revision kv.2))
    (map_to_list (cd_proposals (domain_state db)))).
Definition unused_epoch (db : LedgerDb (CascadeDb Z)) (r e : string) : bool :=
  forallb (fun kv : string * CascadeProposalRow => negb (String.eqb (cp_trigger_rfc_id kv.2) r && String.eqb (cp_terminal_epoch_id kv.2) e))
    (map_to_list (cd_proposals (domain_state db))).
#[local] Instance scope_eq_dec : EqDecision RfcTerminalCascadeScope.
Proof. solve_decision. Defined.
(** The persisted scope is the current one. *)
Definition unchanged_scope (db : LedgerDb (CascadeDb Z)) (id : string) : bool :=
  match (s ← _load_pending_state_by_id (domain_state db) id; p ← _persisted_snapshot (domain_state db) s;
         '(scope, _) ← _current_scope capture_applicable_wfms db p; Ok (p, scope)) with
  | Ok (p, Some scope) => bool_decide (snapshot_scope p = scope)
  | _ => false
  end.
Definition ended (db : LedgerDb (CascadeDb Z)) : option (string * option string * Z) :=
  p ← projections (domain_state db) !! rfc 1; Some (rp_status_class p, rp_terminal_epoch_id p, rp_revision p).
Definition shown_review (r : result RfcTerminalCascadePreview) : option (Z * RfcTerminalCascadeExecutionReview) :=
  match r with Ok v => r ← pv_execution_review v; Some (pv_proposal_revision v, r) | Raise _ => None end.
Record cascade_facts : Prop := {
  cf_closed : outcome closed = None;
  cf_cancelled : outcome cancelled = None;
  cf_refreshed : outcome refreshed = None;
  cf_executed : outcome executed = None;
  cf_reopened : outcome reopened = None;
  cf_eligible : outcome eligible = None;
  cf_eligible_id : match eligible.2 with Ok (id, _) => Some id | Raise _ => None end = Some (rfc 2);
  cf_ended : ended closed.1 = Some ("terminal_closed", Some (fresh 20 ["epoch"]), 1);
  cf_cancelled_in : ended cancelled.1 = Some ("terminal_cancelled", Some (fresh 20 ["epoch"]), 2);
  cf_refreshed_in : ended refreshed.1 = Some ("terminal_cancelled", Some (fresh 20 ["epoch"]), 2);
  cf_reopened_in : ended reopened.1 = Some ("implement_eligible", None, 3);
  cf_states : states refreshed.1 = [(proposal_1, "superseded", 2); (proposal_2, "pending", 1)];
  cf_states_executed : states executed.1 = [(proposal_1, "superseded", 2); (proposal_2, "executed", 2)];
  cf_states_reopened : states reopened.1 = [(proposal_1, "superseded", 2); (proposal_2, "superseded", 2)];
  cf_pending : (pending <$> cd_proposals (domain_state refreshed.1) !! proposal_2) = Some true;
  cf_epochs : unused_epoch closed.1 (rfc 1) (fresh 21 ["epoch"]) && unused_epoch refreshed.1 (rfc 1) (fresh 24 ["epoch"]) = true;
  cf_new : command_receipts refreshed.1 !! command_uid 23 = None;
  cf_receipt : known (command_receipts closed.1) outer = true;
  cf_scope : unchanged_scope refreshed.1 proposal_2 = true;
  cf_review : shown_review previewed = Some (1, reviewed);
  cf_context : make_context (command_uid 23) me (er_preview_fingerprint reviewed)
    = Ok (MkContext (command_uid 23) me (er_preview_fingerprint reviewed))
}.
Lemma cascade_sample_evaluated : cascade_facts.
Proof. split; vm_compute; reflexivity. Qed.
Lemma result_ok {A} (r : LedgerDb (CascadeDb Z) * result A) : outcome r = None -> exists a, r = (r.1, Ok a).
Proof. destruct r as [db [a|e]]; [|done]. intros _. by exists a. Qed.
Lemma unused_new db r e : unused_epoch db r e = true -> new_epoch (domain_state db) r e.
Proof.
  unfold unused_epoch. rewrite forallb_forall. intros Hall id ph. simpl. rewrite lookup_fmap.
  destruct (cd_proposals (domain_state db) !! id) as [p|] eqn:Hp; [|done]. simpl. intros [= <- <- _].
  assert (In (id, p) (map_to_list (cd_proposals (domain_state db)))) as Hin by (by apply list_elem_of_In, elem_of_map_to_list).
  specialize (Hall _ Hin). simpl in Hall. by rewrite !String.eqb_refl in Hall.
Qed.
(** ** The runs *)
Definition step_of := cascade_run (rest := Z) (proof := unit).
Lemma over_sound t :
  tables_ok (domain_state t) -> rfc_current_source_projection (domain_state t) = ∅ -> cascade_sound (domain_state (over t)).
Proof.
  intros Ht Hp. assert (projections (domain_state (over t)) = ∅) as Hq by exact Hp. split.
  - split; [exact Ht| | |reflexivity|reflexivity].
    + intros r p. rewrite Hq. intros Hr. destruct (no_row r p Hr).
    + intros id p Hid. destruct (no_row id p Hid).
  - assert (view (domain_state (over t)) = MkCascades ∅ ∅) as -> by (unfold view; rewrite Hq; reflexivity).
    split.
    + intros id r e Hc. destruct (no_row id _ Hc).
    + intros r e id1 id2 (ph & Hc & _). destruct (no_row id1 _ Hc).
    + intros r e He. destruct (no_row r _ He).
Qed.
Lemma start_sound : cascade_sound (domain_state start).
Proof.
  apply over_sound; [exact (so_tables _ two_children_sound)|].
  rewrite (evo_sources _ _ (ticket_runs_evolve _ _ (star_trans _ _ _ _ created_run grouped_run) (so_tables _ nothing_sound))).
  reflexivity.
Qed.
Lemma accept_step call n deltas review db :
  is_uuid4 (fresh call ["proposal"]) = true -> new_epoch (domain_state db) (rfc n) (fresh call ["epoch"]) ->
  step_of db (accept call n deltas review db).1.
Proof. exact (run_source (fresh call) clock (rfc n) (token_of db n) outer deltas review me db). Qed.
Lemma over_new_epoch t r e : new_epoch (domain_state (over t)) r e.
Proof. intros id ph Hc. destruct (no_row id _ Hc). Qed.
Lemma closed_step : step_of start closed.1.
Proof. apply (accept_step 20 1 closed_deltas None start); [reflexivity|apply over_new_epoch]. Qed.
Lemma epochs_unused : unused_epoch closed.1 (rfc 1) (fresh 21 ["epoch"]) = true /\
  unused_epoch refreshed.1 (rfc 1) (fresh 24 ["epoch"]) = true.
Proof. apply andb_true_iff. exact (cf_epochs cascade_sample_evaluated). Qed.
Lemma cancelled_step : step_of closed.1 cancelled.1.
Proof.
  apply (accept_step 21 1 [status_delta "Cancelled" "terminal_cancelled" "enhanced_rfc" "evidence-3"] None closed.1);
    [reflexivity|]. apply unused_new. exact (proj1 epochs_unused).
Qed.
Lemma refreshed_step : step_of cancelled.1 refreshed.1.
Proof. refine (run_refresh (fresh 22) clock registry no_clock (command_uid 22) proposal_1 1 me cancelled.1 _). reflexivity. Qed.
Lemma applies_aside domain n m f s c : aside (ep_apply (applies domain n m f) s c).
Proof. intros db db' a Hr. cbn in Hr. injection Hr as <- _. by eexists. Qed.
Lemma proves_aside the_proof action target revision f : aside (proves the_proof action target revision f).
Proof. intros db db' a [= <- _]. apply rest_only_refl. Qed.
Lemma execute_2_step r db : step_of db (execute_2 r db).1.
Proof.
  exact (run_execute task_applies communication_applies proves (fresh 23) clock registry no_clock (command_uid 23) proposal_2 1
    r tt me db (applies_aside _ _ _ _) (applies_aside _ _ _ _) proves_aside).
Qed.
Lemma executed_step : step_of refreshed.1 executed.1.
Proof. exact (execute_2_step reviewed refreshed.1). Qed.
Lemma reopened_step : step_of refreshed.1 reopened.1.
Proof.
  apply (accept_step 24 1 [status_delta "Implement" "implement_eligible" "enhanced_rfc" "evidence-4"] (Some (impact_fp 3)) refreshed.1);
    [reflexivity|]. apply unused_new. exact (proj2 epochs_unused).
Qed.
Lemma refreshed_run : star step_of start refreshed.1.
Proof.
  eapply star_step; [exact closed_step|]. eapply star_step; [exact cancelled_step|]. apply star_one. exact refreshed_step.
Qed.
Lemma refreshed_sound : cascade_sound (domain_state refreshed.1).
Proof. exact (evolved_sound _ _ start_sound (runs_evolve _ _ refreshed_run start_sound)). Qed.

(** ** Witnesses *)
Lemma cascade_commands_refine_witness :
  states executed.1 = [(proposal_1, "superseded", 2); (proposal_2, "executed", 2)] /\
  cascade_sound (domain_state executed.1) /\ star cascade_step (view (domain_state start)) (view (domain_state executed.1)) /\
  proposals_kept (domain_state start) (domain_state executed.1) /\
  forall r p, projections (domain_state executed.1) !! r = Some p ->
    if terminal_class (rp_status_class p)
    then exists e id, rp_terminal_epoch_id p = Some e /\ stands (view (domain_state executed.1)) r e id /\
      forall id', stands (view (domain_state executed.1)) r e id' -> id' = id
    else forall e, pending_of (domain_state executed.1) r e = [].
Proof.
  split; [exact (cf_states_executed cascade_sample_evaluated)|].
  exact (cascade_commands_refine start executed.1 start_sound (star_trans _ _ _ _ refreshed_run (star_one _ _ _ executed_step))).
Defined.
Lemma pending_2 : exists p, cd_proposals (domain_state refreshed.1) !! proposal_2 = Some p /\ pending p = true.
Proof.
  pose proof (cf_pending cascade_sample_evaluated) as Hp. destruct (cd_proposals (domain_state refreshed.1) !! proposal_2) as [p|]; [|done].
  exists p. by injection Hp as ->.
Qed.
Lemma pending_proposal_reads_witness : exists p s, cd_proposals (domain_state refreshed.1) !! proposal_2 = Some p /\ scope_ok s /\
  _load_pending_state_by_id (domain_state refreshed.1) proposal_2 = Ok (state_of proposal_2 p s) /\
  _persisted_snapshot (domain_state refreshed.1) (state_of proposal_2 p s) = Ok (snapshot_of proposal_2 p s).
Proof.
  destruct pending_2 as (p & Hp & Hpend).
  destruct (pending_proposal_reads start refreshed.1 proposal_2 p LedgerSamples.sha_hex start_sound refreshed_run Hp Hpend)
    as (s & Hs & _ & Hload & Hsnap & _).
  exists p, s. exact (conj Hp (conj Hs (conj Hload Hsnap))).
Defined.
Lemma same_now db id : unchanged_scope db id = true -> forall s p scope b,
  _load_pending_state_by_id (domain_state db) id = Ok s -> _persisted_snapshot (domain_state db) s = Ok p ->
  _current_scope capture_applicable_wfms db p = Ok (Some scope, b) -> no_collision (snapshot_scope p) scope.
Proof.
  intros He s p scope b Hs Hp Hc. unfold unchanged_scope in He. rewrite Hs in He.
  cbn [mbind result_bind] in He. rewrite Hp in He. cbn [mbind result_bind] in He. rewrite Hc in He. apply bool_decide_eq_true in He as ->.
  intros t t' Ht Ht' _. rewrite Ht in Ht'. by injection Ht'.
Qed.
Lemma task_revalidates : revalidates refreshed.1 task_page task_applies.
Proof. intros p page n f [= <-] _ [= <-] [= <-]. reflexivity. Qed.
Lemma communication_revalidates : revalidates refreshed.1 communication_page communication_applies.
Proof. intros p page n f [= <-] _ [= <-] [= <-]. reflexivity. Qed.
Lemma shown_review_ok r n review : shown_review r = Some (n, review) ->
  exists v, r = Ok v /\ pv_execution_review v = Some review /\ pv_proposal_revision v = n.
Proof. destruct r as [v|]; [|done]. simpl. destruct (pv_execution_review v) as [x|] eqn:E; [|done]. intros [= <- <-]. by exists v. Qed.
Lemma ready_preview_executes_witness : exists v s p, previewed = Ok v /\ pv_execution_review v = Some reviewed /\
  prepare_execution task_applies communication_applies proves (fresh 23) clock (command_uid 23) proposal_2 (pv_proposal_revision v)
    reviewed tt me refreshed.1
  = (refreshed.1, Ok (state_prepared false proposal_2 (Some (execution_apply task_applies communication_applies (fresh 23) clock
      (command_uid 23) proposal_2 s p reviewed (MkContext (command_uid 23) me (er_preview_fingerprint reviewed)) me))
      (executed_state s))).
Proof.
  destruct (shown_review_ok previewed 1 reviewed (cf_review cascade_sample_evaluated)) as (v & Hv & Hr & _).
  destruct (ready_preview_executes capture_applicable_wfms task_page communication_page task_applies communication_applies proves
    (fresh 23) clock refreshed.1 refreshed.1 proposal_2 JNull 100 v reviewed (command_uid 23) tt me _ (fun _ => eq_refl)
    task_revalidates communication_revalidates
    (same_now refreshed.1 proposal_2 (cf_scope cascade_sample_evaluated)) Hv Hr (cf_context cascade_sample_evaluated) eq_refl) as (s & p & _ & _ & Hprep).
  exists v, s, p. exact (conj Hv (conj Hr Hprep)).
Defined.
Lemma execute_as_reviewed_witness : exists p scope d row,
  as_reviewed task_applies communication_applies refreshed.1 p reviewed scope /\ rest_only (domain_state refreshed.1) d /\
  cd_proposals (domain_state refreshed.1) !! proposal_2 = Some row /\
  domain_state executed.1 = with_decision proposal_2 (executed_proposal (now clock) (command_uid 23) row) d.
Proof.
  destruct (result_ok executed (cf_executed cascade_sample_evaluated)) as [x E]. unfold executed at 1, execute_2 in E.
  destruct (execute_as_reviewed task_applies communication_applies proves (fresh 23) clock registry no_clock refreshed.1 executed.1
    (command_uid 23) proposal_2 1 reviewed tt me x (applies_aside _ _ _ _) (applies_aside _ _ _ _) proves_aside
    (cf_new cascade_sample_evaluated) E) as (s & p & scope & db1 & d & row & _ & _ & _ & Hrev & _ & Hd & Hrow & _ & _ & E2).
  exists p, scope, d, row. exact (conj Hrev (conj Hd (conj Hrow E2))).
Defined.
(** What an accepted import did. *)
Lemma accept_ok call n deltas review db db' x : accept call n deltas review db = (db', Ok x) ->
  apply_accepted_field_deltas (fresh call) clock (Some (capture_pending (fresh call) clock)) (rfc n) outer deltas review me db
    = (db', Ok x).
Proof.
  unfold accept. intros [(y & [= <-] & Hr)|(e & ? & _)]%in_uow_ok; [|done]. unfold apply_accepted_source_projection in Hr.
  apply stm_bind_ok in Hr as (s0 & db0 & [= <- <-] & Hr). apply stm_bind_ok in Hr as (s1 & t & [-> _]%lift_ok & Hr).
  by apply stm_bind_ok in Hr as (s2 & u & [-> _]%lift_ok & Hr).
Qed.
Lemma closed_applied : exists x, apply_accepted_field_deltas (fresh 20) clock (Some (capture_pending (fresh 20) clock)) (rfc 1) outer
  closed_deltas None me start = (closed.1, Ok x).
Proof. destruct (result_ok closed (cf_closed cascade_sample_evaluated)) as [x E]. exists x. by apply accept_ok. Qed.
Lemma accepted_fields_exact_witness : exists x,
  apply_accepted_field_deltas (fresh 20) clock (Some (capture_pending (fresh 20) clock)) (rfc 1) outer closed_deltas None me start
    = (closed.1, Ok x) /\
  ar_changed_field_keys x = changed_keys (projections (domain_state start) !! rfc 1) closed_deltas.
Proof.
  destruct closed_applied as [x E]. exists x. split; [exact E|].
  exact (proj1 (proj2 (accepted_fields_exact (fresh 20) clock (Some (capture_pending (fresh 20) clock)) start closed.1 (rfc 1) outer
    closed_deltas None me x (or_intror eq_refl) E))).
Defined.
Lemma acceptance_idempotent_witness : exists x,
  apply_accepted_field_deltas (fresh 26) clock (Some (capture_pending (fresh 26) clock)) (rfc 1) outer closed_deltas (Some (impact_fp 3)) me closed.1
    = (closed.1, Ok (MkApplied (ar_lifecycle_projection x) [] [] None true [] [])).
Proof.
  destruct closed_applied as [x E]. exists x.
  refine (acceptance_idempotent (fresh 20) clock (Some (capture_pending (fresh 20) clock)) start closed.1 (rfc 1) outer closed_deltas
    None me x (fresh 26) clock (Some (capture_pending (fresh 26) clock)) outer (Some (impact_fp 3)) me (or_intror eq_refl) E _
    (cf_receipt cascade_sample_evaluated) eq_refl).
  repeat constructor.
Defined.
Lemma ended_class db n p : ended db = Some p -> n = 1 -> class_of (projections (domain_state db) !! rfc n) = p.1.1.
Proof. intros Hp ->. unfold ended in Hp. destruct (projections (domain_state db) !! rfc 1) as [q|]; [|done]. by injection Hp as <-. Qed.
Lemma reversal_is_reviewed_witness : class_of (projections (domain_state reopened.1) !! rfc 1) = "implement_eligible" /\
  exists f, Some (impact_fp 3) = Some f /\ is_sha256 f = true.
Proof.
  split; [exact (ended_class _ 1 _ (cf_reopened_in cascade_sample_evaluated) eq_refl)|].
  destruct (result_ok reopened (cf_reopened cascade_sample_evaluated)) as [x E].
  refine (proj2 (reversal_is_reviewed (fresh 24) clock (Some (capture_pending (fresh 24) clock)) refreshed.1 reopened.1 (rfc 1) outer _
    (Some (impact_fp 3)) me x (or_intror eq_refl) (accept_ok 24 1 _ _ _ _ _ E) _ _)).
  - unfold has_ended. rewrite (ended_class _ 1 _ (cf_refreshed_in cascade_sample_evaluated) eq_refl). reflexivity.
  - unfold has_ended. rewrite (ended_class _ 1 _ (cf_reopened_in cascade_sample_evaluated) eq_refl). reflexivity.
Defined.
Lemma provisional_never_overrides_witness : exists p,
  domain_state eligible.1 = with_projection (rfc 2) p (domain_state start) /\ rp_status_class p = "implement_eligible" /\
  rp_status_authority p = Some "wfm_provisional".
Proof.
  destruct (result_ok eligible (cf_eligible cascade_sample_evaluated)) as [[id x] E].
  assert (id = rfc 2) as -> by (pose proof (cf_eligible_id cascade_sample_evaluated) as Hi; rewrite E in Hi; by injection Hi).
  unfold eligible in E at 1.
  destruct (provisional_never_overrides (fresh 25) clock start eligible.1 "NC20240000000002" provisional_y
    (provisional_token start "NC20240000000002") outer (impact_fp 4) me (rfc 2) x E) as (_ & _ & _ & p & Hp & _ & Hc & Ha & _).
  exists p. exact (conj Hp (conj Hc Ha)).
Defined.
End CascadeExamples.
