(* ===== verification/ImportLogical.v ===== *)
(** The logical fingerprint of an import file:
    [ticket_import/reconciliation/engine.py], frames, row variants, the stream
    fingerprint and the replay classification.  Text is its UTF-8 bytes. *)
From S2P Require Import Prelude StrictJson Identifiers JsonText.

(** * Values *)
Definition _MAGIC : string := "SOMA_IMPORT_LOGICAL_V1".
Definition _CLASSIFICATION_FINDINGS : list string :=
  ["SOURCE_EQUIVALENT_DUPLICATE"; "SOURCE_IDENTITY_CONFLICT"].
Definition _VALID_CLASSIFICATIONS : list string := ["UNIQUE"; "EQUIVALENT_DUPLICATE"; "CONFLICT_MEMBER"].

Record LogicalFinding := MkFinding {
  finding_code : string;
  fd_severity : string;
  scope_kind : string;
  fd_field_key : option string
}.
Record LogicalField := MkField {
  field_key : string;
  field_class : string;
  value_state : string;
  value_kind : string;
  vocabulary_id : option string;
  source_text : option string;
  normalized_text : option string;
  integer_value : option Z
}.
Record LogicalRow := MkRow {
  identity_state : string;
  entity_kind : string;
  canonical_primary_id : option string;
  canonical_parent_rfc_no : option string;
  fields : list LogicalField;
  findings : list LogicalFinding
}.
Record LogicalRowVariant := MkVariant {
  classification : string;
  duplicate_count : Z;
  conflict_variant_count : Z;
  v_row : LogicalRow;
  row_logical_digest : string
}.
Record LogicalFingerprintResult := MkFingerprint {
  logical_fingerprint : string;
  stream_bytes : Z;
  variants : list LogicalRowVariant
}.

(** * Frames *)
Definition nul : Ascii.ascii := Ascii.zero.
Definition has_nul (s : string) : bool := negb (all_chars (fun c => negb (is_char 0 c)) s).

(** [n.to_bytes(8, "big")]. *)
Fixpoint be_bytes (k : nat) (n : Z) : string :=
  match k with
  | O => EmptyString
  | S k => be_bytes k (n / 256) +:+ String (chr (n mod 256)) EmptyString
  end.
Definition to_bytes8 (n : Z) : result string :=
  if n <? 2 ^ 64 then Ok (be_bytes 8 n) else Raise (PyExn "OverflowError").
Definition frame (tag : Z) (payload : string) : result string :=
  size ← to_bytes8 (utf8_length payload);
  Ok (String (chr tag) (size +:+ payload)).

Definition _frame_null : result string := frame 0 EmptyString.
Definition _frame_text (value : string) : result string :=
  _ ← forbid (has_nul value) (ValidationError "logical fingerprint text must be NUL-free Unicode");
  _ ← forbid (negb (utf8_encodable value))
    (ValidationError "logical fingerprint text must be valid Unicode");
  frame 1 value.
(** [str(value)]. *)
Definition py_str (value : Z) : result string :=
  match int_repr value with Some s => Ok s | None => Raise (PyExn "ValueError") end.
Definition _frame_integer (value : Z) : result string :=
  _ ← forbid (value <? 0)
    (ValidationError "logical fingerprint integers must be nonnegative integers");
  payload ← py_str value;
  frame 2 payload.
Definition _frame_optional_text (value : option string) : result string :=
  match value with None => _frame_null | Some v => _frame_text v end.

(** [b"".join(parts)], each part computed in turn. *)
Fixpoint join_frames (parts : list (result string)) : result string :=
  match parts with
  | [] => Ok EmptyString
  | p :: parts => p ← p; rest ← join_frames parts; Ok (p +:+ rest)
  end.
Definition text_kind (kind : string) : bool := String.eqb kind "text" || String.eqb kind "controlled".
Definition integer_kind (kind : string) : bool :=
  String.eqb kind "instant" || String.eqb kind "duration_seconds".
Definition classification_finding (f : LogicalFinding) : bool :=
  existsb (String.eqb (finding_code f)) _CLASSIFICATION_FINDINGS.

Section logical.
Context `{Sha256}.

Definition _source_text_token (source : option string) : result string :=
  match source with
  | None => Ok "NO_SOURCE_TEXT"
  | Some s =>
      _ ← forbid (has_nul s) (ValidationError "logical source_text token input must be NUL-free");
      _ ← forbid (negb (utf8_encodable s))
        (ValidationError "logical source_text token input must be valid Unicode");
      Ok ("SOURCE_TEXT_SHA256:" +:+ sha256_hexdigest s)
  end.
Definition _field_value_frame (f : LogicalField) : result string :=
  if String.eqb (value_state f) "usable" then
    if text_kind (value_kind f) then
      match normalized_text f, integer_value f with
      | Some t, None => _frame_text t
      | _, _ => raise (ValidationError
          "usable text/controlled logical field requires normalized_text only")
      end
    else if integer_kind (value_kind f) then
      match normalized_text f, integer_value f with
      | None, Some n => _frame_integer n
      | _, _ => raise (ValidationError
          "usable instant/duration logical field requires integer_value only")
      end
    else raise (ValidationError "logical field value_kind is outside SOMA_IMPORT_LOGICAL_V1")
  else
    _ ← forbid (bool_decide (is_Some (normalized_text f)) || bool_decide (is_Some (integer_value f)))
      (ValidationError "non-usable logical field cannot carry normalized authority");
    if String.eqb (value_state f) "blank" then _frame_text "BLANK"
    else if String.eqb (value_state f) "unknown" || String.eqb (value_state f) "malformed" then
      token ← _source_text_token (source_text f); _frame_text token
    else raise (ValidationError "logical field value_state is outside SOMA_IMPORT_LOGICAL_V1").

Definition field_frame (f : LogicalField) : result string :=
  _ ← forbid (String.eqb (value_kind f) "controlled" && bool_decide (vocabulary_id f = None))
    (ValidationError "controlled logical field requires vocabulary_id");
  _ ← forbid (negb (String.eqb (value_kind f) "controlled") && bool_decide (is_Some (vocabulary_id f)))
    (ValidationError "non-controlled logical field cannot carry vocabulary_id");
  join_frames [_frame_text "FIELD_V1"; _frame_text (field_key f); _frame_text (field_class f);
    _frame_text (value_state f); _frame_text (value_kind f); _frame_optional_text (vocabulary_id f);
    _field_value_frame f].
Definition field_logical_sha256 (f : LogicalField) : result string :=
  b ← field_frame f; Ok (sha256_hexdigest b).

(** The order of findings; computing it encodes every text of the key. *)
Definition _finding_sort_key (f : LogicalFinding) : string * string * string * Z * string :=
  (finding_code f, fd_severity f, scope_kind f,
   match fd_field_key f with None => 0 | Some _ => 1 end, default EmptyString (fd_field_key f)).
Definition finding_key_encodes (f : LogicalFinding) : result unit :=
  _ ← encode_utf8 (finding_code f); _ ← encode_utf8 (fd_severity f); _ ← encode_utf8 (scope_kind f);
  _ ← encode_utf8 (default EmptyString (fd_field_key f)); Ok tt.
Definition sorted_findings (l : list LogicalFinding) : result (list LogicalFinding) :=
  let kept := filter (fun f => classification_finding f = false) l in
  _ ← traverse finding_key_encodes kept;
  Ok (py_sorted _finding_sort_key kept).
Definition finding_frame (f : LogicalFinding) : result string :=
  join_frames [_frame_text "FINDING_V1"; _frame_text (finding_code f); _frame_text (fd_severity f);
    _frame_text (scope_kind f); _frame_optional_text (fd_field_key f)].

Definition count_frame {A} (l : list A) : result string := _frame_integer (Z.of_nat (length l)).
Definition row_frame (row : LogicalRow) : result string :=
  _ ← forbid (negb (String.eqb (identity_state row) "valid" || String.eqb (identity_state row) "invalid"))
    (ValidationError "logical row identity_state must be valid or invalid");
  _ ← forbid (String.eqb (identity_state row) "invalid" &&
      (bool_decide (is_Some (canonical_primary_id row))
       || bool_decide (is_Some (canonical_parent_rfc_no row))))
    (ValidationError "invalid logical row cannot carry canonical identity");
  _ ← forbid (negb (bool_decide (NoDup (map field_key (fields row)))))
    (ValidationError "logical row cannot repeat a canonical field_key");
  _ ← traverse (fun f => encode_utf8 (field_key f)) (fields row);
  let fields := py_sorted field_key (fields row) in
  findings ← sorted_findings (findings row);
  join_frames ([_frame_text "ROW_V1"; _frame_text (identity_state row); _frame_text (entity_kind row);
      _frame_optional_text (canonical_primary_id row);
      _frame_optional_text (canonical_parent_rfc_no row); count_frame fields]
    ++ map field_frame fields ++ [count_frame findings] ++ map finding_frame findings).
Definition row_logical_sha256 (row : LogicalRow) : result string :=
  b ← row_frame row; Ok (sha256_hexdigest b).

(** * Row variants *)
Definition _identity_key (row : LogicalRow) : string * option string * option string :=
  (entity_kind row, canonical_primary_id row, canonical_parent_rfc_no row).
Definition _variant_sort_key (v : LogicalRowVariant) : Z * Z * string * Z * string * string :=
  let row := v_row v in
  (if String.eqb (identity_state row) "invalid" then 0 else 1,
   match canonical_primary_id row with None => 0 | Some _ => 1 end,
   default EmptyString (canonical_primary_id row),
   match canonical_parent_rfc_no row with None => 0 | Some _ => 1 end,
   default EmptyString (canonical_parent_rfc_no row),
   row_logical_digest v).

Definition prepared := (LogicalRow * string)%type.
Definition is_valid (p : prepared) : bool := String.eqb (identity_state p.1) "valid".
Definition duplicate_class (count : Z) : string :=
  if 1 <? count then "EQUIVALENT_DUPLICATE" else "UNIQUE".
(** The variants of one identity (or of the invalid rows), by digest. *)
Definition digest_variants (class : Z -> string) (conflicts : Z) (groups : list (string * list prepared))
    : list LogicalRowVariant :=
  omap (fun g : string * list prepared =>
    match g.2 with
    | [] => None
    | first :: _ =>
        let count := Z.of_nat (length g.2) in
        Some (MkVariant (class count) count conflicts first.1 g.1)
    end) groups.
Definition identity_variants (occurrences : list prepared) : list LogicalRowVariant :=
  let by_hash := group_by snd occurrences in
  let conflicts := Z.of_nat (length by_hash) in
  digest_variants (fun count => if 1 <? conflicts then "CONFLICT_MEMBER" else duplicate_class count)
    conflicts by_hash.
Definition all_variants (rows : list prepared) : list LogicalRowVariant :=
  let valid_groups := group_by (fun p => _identity_key p.1) (filter (fun p => is_valid p = true) rows) in
  let invalid_groups := group_by snd (filter (fun p => is_valid p = false) rows) in
  mjoin (map (fun g => identity_variants g.2) valid_groups)
  ++ digest_variants duplicate_class 1 invalid_groups.
Definition prepare (row : LogicalRow) : result prepared :=
  digest ← row_logical_sha256 row; Ok (row, digest).
Definition partition_row_variants (rows : list LogicalRow) : result (list LogicalRowVariant) :=
  prepared ← traverse prepare rows;
  Ok (py_sorted _variant_sort_key (all_variants prepared)).

(** * The fingerprint *)
Definition variant_frame (v : LogicalRowVariant) : result string :=
  _ ← forbid (negb (existsb (String.eqb (classification v)) _VALID_CLASSIFICATIONS))
    (ValidationError "logical row classification is outside SOMA_IMPORT_LOGICAL_V1");
  join_frames [_frame_text (classification v); _frame_integer (duplicate_count v);
    _frame_integer (conflict_variant_count v); row_frame (v_row v)].
Record SourceProfile := MkProfile {
  source_family : string;
  source_profile_id : string;
  header_registry_id : string;
  vocabulary_registry_id : string;
  parser_profile_id : string
}.
Definition logical_stream (p : SourceProfile) (findings : list LogicalFinding)
    (variants : list LogicalRowVariant) : result string :=
  join_frames ([_frame_text _MAGIC; _frame_text (source_family p); _frame_text (source_profile_id p);
      _frame_text (header_registry_id p); _frame_text (vocabulary_registry_id p);
      _frame_text (parser_profile_id p); count_frame findings]
    ++ map finding_frame findings ++ [count_frame variants] ++ map variant_frame variants).
Definition compute_logical_fingerprint (p : SourceProfile) (rows : list LogicalRow)
    (global_findings : list LogicalFinding) : result LogicalFingerprintResult :=
  findings ← sorted_findings global_findings;
  variants ← partition_row_variants rows;
  stream ← logical_stream p findings variants;
  Ok (MkFingerprint (sha256_hexdigest stream) (utf8_length stream) variants).
End logical.

(** ** Replays *)
Definition classify_replay (candidate : Z) (fingerprint : string) (checkpoint : option Z)
    (checkpoint_fingerprint : option string) : result string :=
  _ ← forbid (candidate <? 0) (ValidationError "candidate chronology must be a nonnegative integer");
  match checkpoint with
  | None =>
      _ ← forbid (bool_decide (is_Some checkpoint_fingerprint))
        (ValidationError "checkpoint fingerprint cannot exist without chronology");
      Ok "NEW_SOURCE"
  | Some c =>
      _ ← forbid (c <? 0) (ValidationError "checkpoint chronology must be a nonnegative integer");
      match checkpoint_fingerprint with
      | None => raise (ValidationError "checkpoint chronology requires logical fingerprint")
      | Some f =>
          Ok (if candidate <? c then "OLDER_SOURCE_RECOVERY_REQUIRED"
              else if candidate =? c then
                if String.eqb fingerprint f then "EXACT_REPLAY_NOOP" else "CHRONOLOGY_CONTENT_CONFLICT"
              else if String.eqb fingerprint f then "NEWER_IDENTICAL_NO_DOMAIN_CHANGE" else "NEW_SOURCE")
      end
  end.
