(* ===== verification/ImportFrames.v ===== *)
(** The logical stream determines what it was built from: the frames of
    [ImportLogical.v] are read back without ambiguity. *)
From S2P Require Import Prelude StrictJson Identifiers JsonText ImportLogical.

(** * Tokens *)
(** A frame is a tag and a payload. *)
Definition token := (Z * string)%type.
Definition token_ok (t : token) : Prop := 0 <= t.1 < 256 /\ utf8_length t.2 < 2 ^ 64.
Definition enc (t : token) : string :=
  String (chr t.1) (be_bytes 8 (utf8_length t.2) +:+ t.2).
Definition encs (ts : list token) : string := foldr (fun t s => enc t +:+ s) EmptyString ts.

Lemma sapp_inv (a b c d : string) :
  String.length a = String.length b -> a +:+ c = b +:+ d -> a = b /\ c = d.
Proof.
  revert b. induction a as [|x a IH]; intros [|y b] Hl H; try done.
  rewrite !sapp_cons in H. injection H as -> H. simpl in Hl. injection Hl as Hl.
  by destruct (IH b Hl H) as [-> ->].
Qed.
Lemma be_bytes_length k n : String.length (be_bytes k n) = k.
Proof. revert n. induction k as [|k IH]; intros n; [done|]. simpl. rewrite sapp_length, IH. simpl. lia. Qed.
Lemma chr_inj n m : 0 <= n < 256 -> 0 <= m < 256 -> chr n = chr m -> n = m.
Proof. intros Hn Hm H. by rewrite <-(byte_of_chr n), H, byte_of_chr. Qed.
Lemma be_bytes_inj k n m :
  0 <= n < 256 ^ Z.of_nat k -> 0 <= m < 256 ^ Z.of_nat k -> be_bytes k n = be_bytes k m -> n = m.
Proof.
  revert n m. induction k as [|k IH]; intros n m Hn Hm H; [lia|].
  replace (256 ^ Z.of_nat (S k)) with (256 * 256 ^ Z.of_nat k) in * by (rewrite Nat2Z.inj_succ, Z.pow_succ_r; lia).
  simpl in H. apply sapp_inv in H as [H1 H2]; [|by rewrite !be_bytes_length].
  injection H2 as H2. apply chr_inj in H2; [|apply Z.mod_pos_bound; lia..].
  apply IH in H1; [|Z.div_mod_to_equations; nia..]. Z.div_mod_to_equations; lia.
Qed.
Lemma string_cons_inj c d (a b : string) : String c a = String d b -> c = d /\ a = b.
Proof. by intros [= -> ->]. Qed.
Lemma enc_inj t1 t2 r1 r2 : token_ok t1 -> token_ok t2 -> enc t1 +:+ r1 = enc t2 +:+ r2 -> t1 = t2 /\ r1 = r2.
Proof.
  destruct t1 as [g1 p1], t2 as [g2 p2]. unfold token_ok, enc. cbn [fst snd]. intros [Hg1 Hl1] [Hg2 Hl2] H.
  rewrite !sapp_cons in H. apply string_cons_inj in H as [Hg H]. apply chr_inj in Hg as ->; [|done..].
  rewrite !sapp_assoc in H. apply sapp_inv in H as [Hn H]; [|by rewrite !be_bytes_length].
  apply be_bytes_inj in Hn; [|split; [unfold utf8_length; lia|exact Hl1]|split; [unfold utf8_length; lia|exact Hl2]].
  apply sapp_inv in H as [-> ->]; [done|]. unfold utf8_length in Hn. lia.
Qed.
Lemma enc_nonempty t r : enc t +:+ r <> EmptyString.
Proof. by destruct t. Qed.
Lemma encs_inj ts1 ts2 : Forall token_ok ts1 -> Forall token_ok ts2 -> encs ts1 = encs ts2 -> ts1 = ts2.
Proof.
  intros H1. revert ts2. induction H1 as [|t ts1 Ht _ IH]; intros ts2 H2 H; destruct H2 as [|t2 ts2 Ht2 H2].
  - done.
  - symmetry in H. by apply enc_nonempty in H.
  - by apply enc_nonempty in H.
  - apply enc_inj in H as [-> H]; [|done..]. f_equal. by apply IH.
Qed.
Lemma encs_app ts1 ts2 : encs (ts1 ++ ts2) = encs ts1 +:+ encs ts2.
Proof. induction ts1 as [|t ts1 IH]; [done|]. simpl. by rewrite IH, sapp_assoc. Qed.

(** [r] writes the tokens [ts]. *)
Definition writes (r : result string) (ts : list token) : Prop :=
  forall b, r = Ok b -> b = encs ts /\ Forall token_ok ts.
Lemma writes_forbid bad e r ts : writes r ts -> writes (_ ← forbid bad e; r) ts.
Proof. intros Hr b (? & _ & Hb)%bind_ok. by apply Hr. Qed.
Lemma writes_frame tag p : 0 <= tag < 256 -> writes (frame tag p) [(tag, p)].
Proof.
  intros Htag b. unfold frame, to_bytes8. destruct (Z.ltb_spec (utf8_length p) (2 ^ 64)) as [Hl|]; [|done].
  intros [= <-]. split; [unfold encs, enc; cbn [foldr fst snd]; by rewrite sapp_nil_r|]. by apply Forall_singleton.
Qed.
Definition text_token (s : string) : token := (1, s).
Definition optional_token (o : option string) : token :=
  match o with None => (0, EmptyString) | Some s => (1, s) end.
Definition integer_token (n : Z) : token := (2, int_text n).
Lemma writes_text s : writes (_frame_text s) [text_token s].
Proof. do 2 apply writes_forbid. by apply writes_frame. Qed.
Lemma writes_optional o : writes (_frame_optional_text o) [optional_token o].
Proof. destruct o as [s|]; [apply writes_text|by apply writes_frame]. Qed.
Lemma writes_integer n : writes (_frame_integer n) [integer_token n].
Proof.
  apply writes_forbid. unfold py_str. intros b (p & Hp & Hb)%bind_ok.
  destruct (int_repr n) eqn:E; [|done]. injection Hp as <-. apply int_value_text in E as [-> _].
  by apply (writes_frame 2 _ ltac:(lia)).
Qed.
Lemma integer_token_inj n m b c :
  _frame_integer n = Ok b -> _frame_integer m = Ok c -> integer_token n = integer_token m -> n = m.
Proof.
  unfold _frame_integer, py_str, integer_token. intros Hn Hm [= H].
  apply bind_ok in Hn as (? & _ & (p & Hp & _)%bind_ok). apply bind_ok in Hm as (? & _ & (q & Hq & _)%bind_ok).
  destruct (int_repr n) eqn:E1, (int_repr m) eqn:E2; try done.
  apply int_value_text in E1 as [-> E1]. apply int_value_text in E2 as [-> E2]. congruence.
Qed.
Lemma writes_join parts tss :
  Forall2 writes parts tss -> writes (join_frames parts) (mjoin tss).
Proof.
  induction 1 as [|p ts parts tss Hp _ IH]; intros b Hb; [by injection Hb as <-|].
  simpl in Hb. apply bind_ok in Hb as (b1 & H1 & (b2 & H2 & [= <-])%bind_ok).
  apply Hp in H1 as [-> ?]. apply IH in H2 as [-> ?]. simpl. split; [by rewrite encs_app|]. by apply Forall_app.
Qed.
Lemma join_frames_app parts1 parts2 :
  join_frames (parts1 ++ parts2) = (b1 ← join_frames parts1; b2 ← join_frames parts2; Ok (b1 +:+ b2)).
Proof.
  induction parts1 as [|p parts1 IH]; simpl; [by destruct (join_frames parts2)|].
  destruct p as [b|e]; [|done]. simpl. rewrite IH. destruct (join_frames parts1) as [b1|e]; [|done]. simpl.
  destruct (join_frames parts2) as [b2|e]; [|done]. simpl. by rewrite sapp_assoc.
Qed.
Lemma writes_app parts1 parts2 ts1 ts2 :
  writes (join_frames parts1) ts1 -> writes (join_frames parts2) ts2 ->
  writes (join_frames (parts1 ++ parts2)) (ts1 ++ ts2).
Proof.
  rewrite join_frames_app. intros H1 H2 b (b1 & [-> ?]%H1 & (b2 & [-> ?]%H2 & [= <-])%bind_ok)%bind_ok.
  by rewrite encs_app, Forall_app.
Qed.
(** Parts of a join succeed with it. *)
Lemma join_part parts b r : join_frames parts = Ok b -> r ∈ parts -> exists c, r = Ok c.
Proof.
  revert b. induction parts as [|p parts IH]; intros b Hb Hr; [by apply elem_of_nil in Hr|].
  simpl in Hb. apply bind_ok in Hb as (b1 & H1 & (b2 & H2 & _)%bind_ok).
  apply elem_of_cons in Hr as [->|Hr]; eauto.
Qed.
Lemma writes_map {A} (f : A -> result string) (g : A -> list token) l :
  (forall x, writes (f x) (g x)) -> Forall2 writes (map f l) (g <$> l).
Proof. intros Hf. induction l; constructor; auto. Qed.

Lemma writes_all {A} (f : A -> result string) (g : A -> list token) l :
  (forall x, writes (f x) (g x)) -> writes (join_frames (map f l)) (mjoin (g <$> l)).
Proof. intros Hf. by apply writes_join, writes_map. Qed.
Create HintDb frames discriminated.
#[export] Hint Resolve writes_text writes_optional writes_integer : frames.
Ltac parts :=
  repeat first [apply List.Forall2_nil | apply List.Forall2_cons | apply Forall2_app
    | apply writes_map; intros ?]; auto with frames.

(** * What a row says *)
Section content.
Context `{Sha256}.

Inductive field_value :=
| VText (s : string)
| VInteger (n : Z)
| VBlank
| VSource (token : string).
Definition source_token (source : option string) : string :=
  match source with
  | None => "NO_SOURCE_TEXT"
  | Some s => "SOURCE_TEXT_SHA256:" +:+ sha256_hexdigest s
  end.
Definition value_of (f : LogicalField) : field_value :=
  if String.eqb (value_state f) "usable" then
    if text_kind (value_kind f) then VText (default EmptyString (normalized_text f))
    else VInteger (default 0 (integer_value f))
  else if String.eqb (value_state f) "blank" then VBlank
  else VSource (source_token (source_text f)).
(** The logical content of a field: all of it but the source text of a usable
    or blank one. *)
Definition field_content (f : LogicalField) :=
  (field_key f, field_class f, value_state f, value_kind f, vocabulary_id f, value_of f).
(** The logical content of a row: its fields by key and its findings in order,
    the classification findings apart. *)
Definition kept_findings (l : list LogicalFinding) : list LogicalFinding :=
  py_sorted _finding_sort_key (filter (fun f => classification_finding f = false) l).
Definition row_content (row : LogicalRow) :=
  (identity_state row, entity_kind row, canonical_primary_id row, canonical_parent_rfc_no row,
   field_content <$> py_sorted field_key (fields row), kept_findings (findings row)).

Definition value_token (v : field_value) : token :=
  match v with
  | VText s => text_token s
  | VInteger n => integer_token n
  | VBlank => text_token "BLANK"
  | VSource t => text_token t
  end.
Definition field_tokens (f : LogicalField) : list token :=
  [text_token "FIELD_V1"; text_token (field_key f); text_token (field_class f);
   text_token (value_state f); text_token (value_kind f); optional_token (vocabulary_id f);
   value_token (value_of f)].
Definition finding_tokens (f : LogicalFinding) : list token :=
  [text_token "FINDING_V1"; text_token (finding_code f); text_token (fd_severity f);
   text_token (scope_kind f); optional_token (fd_field_key f)].
Definition count_token {A} (l : list A) : token := integer_token (Z.of_nat (length l)).
Definition row_tokens (row : LogicalRow) : list token :=
  let fields := py_sorted field_key (fields row) in
  let findings := kept_findings (findings row) in
  [text_token "ROW_V1"; text_token (identity_state row); text_token (entity_kind row);
   optional_token (canonical_primary_id row); optional_token (canonical_parent_rfc_no row);
   count_token fields] ++ mjoin (field_tokens <$> fields) ++ [count_token findings]
  ++ mjoin (finding_tokens <$> findings).

Lemma source_text_token_ok s t : _source_text_token s = Ok t -> t = source_token s.
Proof. unfold _source_text_token. destruct s as [s|]; intros Ht; by inv_ok Ht. Qed.
Lemma writes_value f : writes (_field_value_frame f) [value_token (value_of f)].
Proof.
  unfold _field_value_frame, value_of. destruct (String.eqb (value_state f) "usable").
  - destruct (text_kind (value_kind f)).
    + destruct (normalized_text f) as [t|], (integer_value f); try done. apply writes_text.
    + destruct (integer_kind _); [|done]. destruct (normalized_text f), (integer_value f) as [n|]; try done.
      apply writes_integer.
  - apply writes_forbid. destruct (String.eqb (value_state f) "blank"); [apply writes_text|].
    destruct (_ || _); [|done]. intros b (t & ->%source_text_token_ok & Hb)%bind_ok. by apply (writes_text _ b).
Qed.
Lemma writes_field f : writes (field_frame f) (field_tokens f).
Proof.
  do 2 apply writes_forbid. apply (writes_join _ [[_]; [_]; [_]; [_]; [_]; [_]; [_]]). parts.
  apply writes_value.
Qed.
Lemma writes_finding f : writes (finding_frame f) (finding_tokens f).
Proof.
  apply (writes_join _ [[_]; [_]; [_]; [_]; [_]]). parts.
Qed.
Lemma sorted_findings_ok l s : sorted_findings l = Ok s -> s = kept_findings l.
Proof. unfold sorted_findings. by intros (? & _ & [= <-])%bind_ok. Qed.
Lemma row_frame_parts row b :
  row_frame row = Ok b ->
  join_frames ([_frame_text "ROW_V1"; _frame_text (identity_state row); _frame_text (entity_kind row);
      _frame_optional_text (canonical_primary_id row);
      _frame_optional_text (canonical_parent_rfc_no row); count_frame (py_sorted field_key (fields row))]
    ++ map field_frame (py_sorted field_key (fields row))
    ++ [count_frame (kept_findings (findings row))] ++ map finding_frame (kept_findings (findings row))) = Ok b.
Proof.
  unfold row_frame. intros Hb. do 4 (apply bind_ok in Hb as (? & _ & Hb)).
  by apply bind_ok in Hb as (? & ->%sorted_findings_ok & Hb).
Qed.
Lemma writes_row row : writes (row_frame row) (row_tokens row).
Proof.
  intros b Hb%row_frame_parts. revert b Hb. unfold row_tokens. cbv zeta.
  apply (writes_app [_; _; _; _; _; _] _ [_; _; _; _; _; _]).
  { apply (writes_join _ [[_]; [_]; [_]; [_]; [_]; [_]]). parts. apply writes_integer. }
  apply writes_app; [apply writes_all, writes_field|].
  apply (writes_app [_] _ [_]); [|apply writes_all, writes_finding].
  apply (writes_join _ [[_]]). parts. apply writes_integer.
Qed.

(** ** Reading back *)
Lemma blocks_inj {A B} (g : A -> list B) k (l1 l2 : list A) r1 r2 :
  (forall x, length (g x) = k) -> length l1 = length l2 ->
  mjoin (g <$> l1) ++ r1 = mjoin (g <$> l2) ++ r2 -> g <$> l1 = g <$> l2 /\ r1 = r2.
Proof.
  intros Hk. revert l2. induction l1 as [|x l1 IH]; intros [|y l2] Hl He; try done.
  csimpl in He. rewrite <-!app_assoc in He. apply app_inj_1 in He as [Hxy He]; [|by rewrite !Hk].
  injection Hl as Hl. destruct (IH _ Hl He) as [E ->]. split; [|done]. csimpl. by rewrite Hxy, E.
Qed.
Lemma optional_token_inj a b : optional_token a = optional_token b -> a = b.
Proof. destruct a, b; try done. by intros [= ->]. Qed.
Lemma value_token_inj f1 f2 b1 b2 :
  _field_value_frame f1 = Ok b1 -> _field_value_frame f2 = Ok b2 ->
  value_state f1 = value_state f2 -> value_kind f1 = value_kind f2 ->
  value_token (value_of f1) = value_token (value_of f2) -> value_of f1 = value_of f2.
Proof.
  unfold _field_value_frame, value_of. intros H1 H2 Es Ek. rewrite <-Es, <-Ek in *.
  destruct (String.eqb (value_state f1) "usable").
  - destruct (text_kind (value_kind f1)); [by intros [= ->]|].
    destruct (integer_kind _); [|done].
    destruct (normalized_text f1), (integer_value f1), (normalized_text f2), (integer_value f2); try done.
    simpl. intros E. f_equal. by eapply integer_token_inj.
  - destruct (String.eqb (value_state f1) "blank"); [done|by intros [= ->]].
Qed.
Lemma field_frame_value f b : field_frame f = Ok b -> exists c, _field_value_frame f = Ok c.
Proof.
  unfold field_frame. intros (? & _ & (? & _ & Hb)%bind_ok)%bind_ok.
  eapply join_part; [exact Hb|]. set_solver.
Qed.
Lemma field_tokens_inj f1 f2 b1 b2 :
  field_frame f1 = Ok b1 -> field_frame f2 = Ok b2 -> field_tokens f1 = field_tokens f2 ->
  field_content f1 = field_content f2.
Proof.
  intros (c1 & H1)%field_frame_value (c2 & H2)%field_frame_value [= Ek Ec Es Et Ev Evt].
  apply optional_token_inj in Ev. unfold field_content.
  rewrite (value_token_inj _ _ _ _ H1 H2 Es Et Evt). congruence.
Qed.
#[export] Instance finding_tokens_inj : Inj eq eq finding_tokens.
Proof.
  intros [] []. unfold finding_tokens. simpl. intros [= -> -> -> E].
  by apply optional_token_inj in E as ->.
Qed.
Lemma fields_content l1 l2 :
  Forall (fun f => exists b, field_frame f = Ok b) l1 -> Forall (fun f => exists b, field_frame f = Ok b) l2 ->
  field_tokens <$> l1 = field_tokens <$> l2 -> field_content <$> l1 = field_content <$> l2.
Proof.
  revert l2. induction l1 as [|f1 l1 IH]; intros [|f2 l2] H1 H2 He; try done.
  apply Forall_cons in H1 as [[b1 H1] F1]. apply Forall_cons in H2 as [[b2 H2] F2].
  rewrite !fmap_cons in *. injection He as E1 E2 E3 E4 E5 E6 He.
  f_equal; [|by apply IH]. eapply field_tokens_inj; [done..|]. unfold field_tokens. congruence.
Qed.

Lemma row_frame_fields row b :
  row_frame row = Ok b ->
  Forall (fun f => exists b, field_frame f = Ok b) (py_sorted field_key (fields row)) /\
  (exists b, count_frame (py_sorted field_key (fields row)) = Ok b) /\
  (exists b, count_frame (kept_findings (findings row)) = Ok b).
Proof.
  intros Hb%row_frame_parts. split; [|split].
  - apply Forall_forall. intros f Hf. eapply join_part; [exact Hb|].
    apply elem_of_app. right. apply elem_of_app. left. by apply list_elem_of_fmap_2.
  - eapply join_part; [exact Hb|]. set_solver.
  - eapply join_part; [exact Hb|]. set_solver.
Qed.
Lemma count_inj {A} (l1 l2 : list A) b1 b2 :
  count_frame l1 = Ok b1 -> count_frame l2 = Ok b2 -> count_token l1 = count_token l2 ->
  length l1 = length l2.
Proof. intros H1 H2 E. pose proof (integer_token_inj _ _ _ _ H1 H2 E). lia. Qed.

Lemma row_tokens_inj row1 row2 b1 b2 rest1 rest2 :
  row_frame row1 = Ok b1 -> row_frame row2 = Ok b2 ->
  row_tokens row1 ++ rest1 = row_tokens row2 ++ rest2 ->
  row_content row1 = row_content row2 /\ rest1 = rest2.
Proof.
  intros (F1 & (c1 & C1) & (d1 & D1))%row_frame_fields (F2 & (c2 & C2) & (d2 & D2))%row_frame_fields E.
  unfold row_tokens in E. cbv zeta in E. rewrite <-!app_assoc in E.
  pose proof (f_equal (firstn 6) E) as E1. pose proof (f_equal (skipn 6) E) as E2.
  cbn [app firstn skipn] in E1, E2. clear E. injection E1 as Es Ek Ep Er Ec.
  apply optional_token_inj in Ep, Er.
  assert (length (py_sorted field_key (fields row1)) = length (py_sorted field_key (fields row2))) as Hl.
  { eapply count_inj; [exact C1|exact C2|]. unfold count_token, integer_token. congruence. }
  apply (blocks_inj field_tokens 7) in E2 as [Ef E2]; [|done..].
  apply fields_content in Ef; [|done..]. cbn [app] in E2. injection E2 as Ed E2.
  apply (blocks_inj finding_tokens 5) in E2 as [Efd ->];
    [|done|eapply count_inj; [exact D1|exact D2|unfold count_token, integer_token; congruence]].
  apply (inj (fmap finding_tokens)) in Efd. unfold row_content. split; [congruence|done].
Qed.
Lemma value_token_content f : field_tokens f = 
  let '(k, c, s, t, v, value) := field_content f in
  [text_token "FIELD_V1"; text_token k; text_token c; text_token s; text_token t; optional_token v;
   value_token value].
Proof. done. Qed.
Lemma content_tokens row1 row2 : row_content row1 = row_content row2 -> row_tokens row1 = row_tokens row2.
Proof.
  unfold row_content, row_tokens. intros [= -> -> -> -> Ef ->].
  assert (field_tokens <$> py_sorted field_key (fields row1) =
    field_tokens <$> py_sorted field_key (fields row2)) as ->.
  { revert Ef. generalize (py_sorted field_key (fields row1)), (py_sorted field_key (fields row2)).
    induction l as [|f1 l IH]; intros [|f2 l2] Ef; try done. rewrite !fmap_cons in *.
    apply (f_equal (fun x => (hd_error x, tl x))) in Ef. simpl in Ef. injection Ef as E1 E2 E3 E4 E5 E6 Ef.
    rewrite (IH l2 Ef), !value_token_content. f_equal. unfold field_content. by rewrite E1, E2, E3, E4, E5, E6. }
  by apply (f_equal length) in Ef; rewrite !length_fmap in Ef; unfold count_token; rewrite Ef.
Qed.

(** C31.  A row's frame is exactly its logical content: two rows that frame
    have the same bytes if and only if they agree on identity, on every field by key, and on every finding other than the two
    that classify duplicates (SOURCE_EQUIVALENT_DUPLICATE and
    SOURCE_IDENTITY_CONFLICT), whatever the order their fields and findings come
    in.  Of a field the source text does not count when its value is usable or
    blank, and counts only by its SHA-256 otherwise. *)
Theorem row_frame_canonical (row1 row2 : LogicalRow) (b1 b2 : string)
    (H1 : row_frame row1 = Ok b1) (H2 : row_frame row2 = Ok b2) :
  b1 = b2 <-> row_content row1 = row_content row2.
Proof.
  destruct (writes_row row1 b1 H1) as [-> T1], (writes_row row2 b2 H2) as [-> T2]. split.
  - intros E%encs_inj; [|done..].
    eapply (row_tokens_inj row1 row2 _ _ [] []); [exact H1|exact H2|by rewrite E].
  - by intros ->%content_tokens.
Qed.

(** ** The stream *)
Definition variant_content (v : LogicalRowVariant) :=
  (classification v, duplicate_count v, conflict_variant_count v, row_content (v_row v)).
Definition variant_tokens (v : LogicalRowVariant) : list token :=
  [text_token (classification v); integer_token (duplicate_count v);
   integer_token (conflict_variant_count v)] ++ row_tokens (v_row v).
Definition stream_tokens (p : SourceProfile) (fds : list LogicalFinding) (vs : list LogicalRowVariant)
    : list token :=
  [text_token _MAGIC; text_token (source_family p); text_token (source_profile_id p);
   text_token (header_registry_id p); text_token (vocabulary_registry_id p);
   text_token (parser_profile_id p); count_token fds] ++ mjoin (finding_tokens <$> fds)
  ++ [count_token vs] ++ mjoin (variant_tokens <$> vs).

Lemma writes_variant v : writes (variant_frame v) (variant_tokens v).
Proof.
  apply writes_forbid. apply (writes_app [_; _; _] [_] [_; _; _]).
  - apply (writes_join _ [[_]; [_]; [_]]). parts.
  - intros b Hb. simpl in Hb. apply bind_ok in Hb as (c & Hc & [= <-]). rewrite sapp_nil_r.
    by apply writes_row.
Qed.
Lemma writes_stream p fds vs : writes (logical_stream p fds vs) (stream_tokens p fds vs).
Proof.
  unfold logical_stream, stream_tokens. apply (writes_app [_; _; _; _; _; _; _] _ [_; _; _; _; _; _; _]).
  { apply (writes_join _ [[_]; [_]; [_]; [_]; [_]; [_]; [_]]). parts. apply writes_integer. }
  apply writes_app; [apply writes_all, writes_finding|].
  apply (writes_app [_] _ [_]); [|apply writes_all, writes_variant].
  apply (writes_join _ [[_]]). parts. apply writes_integer.
Qed.
Lemma variant_frame_parts v b :
  variant_frame v = Ok b -> (exists c, _frame_integer (duplicate_count v) = Ok c) /\
  (exists c, _frame_integer (conflict_variant_count v) = Ok c) /\ exists c, row_frame (v_row v) = Ok c.
Proof.
  unfold variant_frame. intros (? & _ & Hb)%bind_ok.
  split; [|split]; (eapply join_part; [exact Hb|]); set_solver.
Qed.
Lemma variants_inj vs1 vs2 :
  Forall (fun v => exists b, variant_frame v = Ok b) vs1 -> Forall (fun v => exists b, variant_frame v = Ok b) vs2 ->
  length vs1 = length vs2 ->
  mjoin (variant_tokens <$> vs1) = mjoin (variant_tokens <$> vs2) ->
  variant_content <$> vs1 = variant_content <$> vs2.
Proof.
  revert vs2. induction vs1 as [|v1 vs1 IH]; intros [|v2 vs2] F1 F2 Hl E; try done.
  apply Forall_cons in F1 as [[b1 B1] F1]. apply Forall_cons in F2 as [[b2 B2] F2].
  destruct (variant_frame_parts _ _ B1) as ((d1 & D1) & (c1 & C1) & (r1 & R1)).
  destruct (variant_frame_parts _ _ B2) as ((d2 & D2) & (c2 & C2) & (r2 & R2)).
  injection Hl as Hl. rewrite !fmap_cons in *. cbn [mjoin list_join] in E. unfold variant_tokens at 1 3 in E.
  rewrite <-!app_assoc in E. apply app_inj_1 in E as [E3 E]; [|done]. injection E3 as Ec Ed Ef.
  apply (row_tokens_inj _ _ _ _ _ _ R1 R2) in E as [Er E].
  rewrite (IH vs2 F1 F2 Hl E). f_equal. unfold variant_content. rewrite Ec, Er. do 2 f_equal.
  - f_equal. eapply integer_token_inj; [exact D1|exact D2|]. unfold integer_token. congruence.
  - eapply integer_token_inj; [exact C1|exact C2|]. unfold integer_token. congruence.
Qed.
Lemma content_variants (vs1 vs2 : list LogicalRowVariant) :
  variant_content <$> vs1 = variant_content <$> vs2 -> variant_tokens <$> vs1 = variant_tokens <$> vs2.
Proof.
  revert vs2. induction vs1 as [|v1 vs1 IH]; intros [|v2 vs2] E; try done. rewrite !fmap_cons in *.
  pose proof (f_equal (hd (variant_content v1)) E) as Ev. apply (f_equal tl) in E. simpl in E, Ev.
  rewrite (IH vs2 E). f_equal. pose proof (f_equal snd Ev) as Er. apply content_tokens in Er.
  pose proof (f_equal fst Ev) as Ek. simpl in Ek. injection Ek as E1 E2 E3.
  unfold variant_tokens. by rewrite E1, E2, E3, Er.
Qed.
Lemma stream_parts p fds vs b :
  logical_stream p fds vs = Ok b -> (exists c, count_frame fds = Ok c) /\ (exists c, count_frame vs = Ok c) /\
  Forall (fun v => exists b, variant_frame v = Ok b) vs.
Proof.
  unfold logical_stream. intros Hb. split; [|split].
  - eapply join_part; [exact Hb|]. set_solver.
  - eapply join_part; [exact Hb|]. set_solver.
  - apply Forall_forall. intros v Hv. eapply join_part; [exact Hb|].
    rewrite !elem_of_app. do 3 right. by apply list_elem_of_fmap_2.
Qed.

(** The hash does not collide on the streams of two imports. *)
Definition import_stream (p : SourceProfile) (rows : list LogicalRow) (g : list LogicalFinding) : result string :=
  findings ← sorted_findings g; variants ← partition_row_variants rows; logical_stream p findings variants.
Definition no_stream_collision p1 p2 rows1 rows2 g1 g2 : Prop := forall b1 b2,
  import_stream p1 rows1 g1 = Ok b1 -> import_stream p2 rows2 g2 = Ok b2 ->
  sha256_hexdigest b1 = sha256_hexdigest b2 -> b1 = b2.

(** The fingerprint is exactly the logical content of the file: with
    a hash that does not collide on their streams, two imports have the same fingerprint if and only if
    their five source and profile identifiers agree, their findings agree and
    their row variants agree in order on classification, counts and content. *)
Theorem logical_fingerprint_exact (p1 p2 : SourceProfile) (rows1 rows2 : list LogicalRow)
    (g1 g2 : list LogicalFinding) (r1 r2 : LogicalFingerprintResult)
    (Hsha : no_stream_collision p1 p2 rows1 rows2 g1 g2)
    (H1 : compute_logical_fingerprint p1 rows1 g1 = Ok r1)
    (H2 : compute_logical_fingerprint p2 rows2 g2 = Ok r2) :
  logical_fingerprint r1 = logical_fingerprint r2 <->
  p1 = p2 /\ kept_findings g1 = kept_findings g2 /\
  variant_content <$> variants r1 = variant_content <$> variants r2.
Proof.
  unfold compute_logical_fingerprint in H1, H2.
  apply bind_ok in H1 as (f1 & S1 & (v1 & P1 & (b1 & B1 & [= <-])%bind_ok)%bind_ok).
  apply bind_ok in H2 as (f2 & S2 & (v2 & P2 & (b2 & B2 & [= <-])%bind_ok)%bind_ok).
  assert (sha256_hexdigest b1 = sha256_hexdigest b2 -> b1 = b2) as Hsha'.
  { apply Hsha; unfold import_stream; [by rewrite S1, P1|by rewrite S2, P2]. }
  apply sorted_findings_ok in S1 as ->. apply sorted_findings_ok in S2 as ->.
  simpl. destruct (writes_stream _ _ _ _ B1) as [E1 T1], (writes_stream _ _ _ _ B2) as [E2 T2]. split.
  - intros E%Hsha'. destruct (stream_parts _ _ _ _ B1) as ((c1 & C1) & (d1 & D1) & F1).
    destruct (stream_parts _ _ _ _ B2) as ((c2 & C2) & (d2 & D2) & F2).
    rewrite E1, E2 in E. apply encs_inj in E; [|done..]. unfold stream_tokens in E.
    cbn [app] in E. injection E as Ea Eb Ec Ed Ee Ef E.
    apply (blocks_inj finding_tokens 5) in E as [Efd E];
      [|done|eapply count_inj; [exact C1|exact C2|unfold count_token, integer_token; congruence]].
    apply (inj (fmap finding_tokens)) in Efd. cbn [app] in E. injection E as Ev E.
    split; [destruct p1, p2; simpl in *; congruence|]. split; [done|]. apply variants_inj; [done..| |done].
    eapply count_inj; [exact D1|exact D2|]. unfold count_token, integer_token. congruence.
  - intros (-> & Ef & Ev). f_equal. rewrite E1, E2. unfold stream_tokens. rewrite Ef.
    rewrite (content_variants _ _ Ev). apply (f_equal length) in Ev. rewrite !length_fmap in Ev.
    unfold count_token. by rewrite Ev.
Qed.
End content.

(** * Witnesses *)
Module ImportExamples.
(** A collision-free stand-in for the hash. *)
#[export] Instance identity_hash : Sha256 := fun s => s.
Definition text_field (key value : string) (source : option string) : LogicalField :=
  MkField key "owner" "usable" "text" None source (Some value) None.
Definition when_field (n : Z) : LogicalField := MkField "opened" "time" "usable" "instant" None None None (Some n).
Definition sr (id : string) (fs : list LogicalField) : LogicalRow :=
  MkRow "valid" "service_request" (Some id) None fs [].
(** The same request twice, its fields in another order and its source text
    spelled otherwise, and once with another title. *)
Definition row_a : LogicalRow := sr "SR-1" [text_field "title" "Fibre cut" (Some " Fibre cut"); when_field 5].
Definition row_b : LogicalRow := sr "SR-1" [when_field 5; text_field "title" "Fibre cut" None].
Definition row_c : LogicalRow := sr "SR-1" [text_field "title" "Power loss" None; when_field 5].
Definition profile : SourceProfile := MkProfile "wfm" "profile-1" "headers-1" "words-1" "parser-1".
Definition frame_of (row : LogicalRow) : string :=
  match row_frame row with Ok b => b | Raise _ => EmptyString end.
Definition import (rows : list LogicalRow) : LogicalFingerprintResult :=
  match compute_logical_fingerprint profile rows [] with
  | Ok r => r | Raise _ => MkFingerprint EmptyString 0 [] end.
Lemma import_run rows :
  rows = [row_a; row_b; row_c] \/ rows = [row_c; row_b; row_a] \/ rows = [row_a] ->
  compute_logical_fingerprint profile rows [] = Ok (import rows).
Proof. intros [-> | [-> | ->]]; vm_compute; reflexivity. Qed.
End ImportExamples.
Import ImportExamples.

Lemma row_frame_canonical_witness :
  fields row_a <> fields row_b /\ frame_of row_a = frame_of row_b /\ row_content row_a = row_content row_b.
Proof.
  split; [discriminate|]. split; [vm_compute; reflexivity|].
  apply (proj1 (row_frame_canonical row_a row_b (frame_of row_a) (frame_of row_b)
    ltac:(vm_compute; reflexivity) ltac:(vm_compute; reflexivity))).
  vm_compute. reflexivity.
Defined.
Lemma logical_fingerprint_exact_witness :
  logical_fingerprint (import [row_a; row_b; row_c]) = logical_fingerprint (import [row_c; row_b; row_a]) /\
  variant_content <$> variants (import [row_a; row_b; row_c])
    = variant_content <$> variants (import [row_c; row_b; row_a]).
Proof.
  assert (logical_fingerprint (import [row_a; row_b; row_c])
    = logical_fingerprint (import [row_c; row_b; row_a])) as E by (vm_compute; reflexivity).
  split; [exact E|].
  apply (proj1 (logical_fingerprint_exact profile profile [row_a; row_b; row_c] [row_c; row_b; row_a] [] []
    _ _ (fun x y _ _ e => e) (import_run _ (or_introl eq_refl))
    (import_run _ (or_intror (or_introl eq_refl))))). exact E.
Defined.
