(* ===== verification/ImportVariants.v ===== *)
(** Partitioning import rows into variants: what the partition of
    [ImportLogical.v] is, and that the order of the rows does not matter. *)
From S2P Require Import Prelude StrictJson Identifiers JsonText ImportLogical ImportFrames.

(** * What a variant stands for *)
(** Rows that end in one variant. *)
Definition same_variant (p q : prepared) : bool :=
  Bool.eqb (is_valid p) (is_valid q) && String.eqb p.2 q.2
  && (negb (is_valid p) || bool_decide (_identity_key p.1 = _identity_key q.1)).
Definition twins (l : list prepared) (p : prepared) : list prepared :=
  filter (fun q => same_variant p q = true) l.
(** The valid rows with the identity of [p]. *)
Definition of_identity (l : list prepared) (p : prepared) : list prepared :=
  filter (fun q => _identity_key q.1 = _identity_key p.1) (filter (fun q => is_valid q = true) l).
Definition digests (l : list prepared) : Z := Z.of_nat (length (group_by snd l)).
Definition conflicts_of (l : list prepared) (p : prepared) : Z :=
  if is_valid p then digests (of_identity l p) else 1.
Definition class_of (l : list prepared) (p : prepared) (count : Z) : string :=
  if 1 <? conflicts_of l p then "CONFLICT_MEMBER" else duplicate_class count.
Definition variant_of (l : list prepared) (p : prepared) : LogicalRowVariant :=
  let count := Z.of_nat (length (twins l p)) in
  MkVariant (class_of l p count) count (conflicts_of l p) p.1 p.2.

Lemma same_variant_spec p q :
  same_variant p q = true <-> is_valid p = is_valid q /\ p.2 = q.2 /\
    (is_valid p = true -> _identity_key p.1 = _identity_key q.1).
Proof.
  unfold same_variant. rewrite !andb_true_iff, Bool.eqb_true_iff, String.eqb_eq, orb_true_iff,
    bool_decide_eq_true, negb_true_iff. destruct (is_valid p); naive_solver.
Qed.
Lemma twins_elem l p q : q ∈ twins l p <-> same_variant p q = true /\ q ∈ l.
Proof. unfold twins. by rewrite list_elem_of_filter. Qed.

Lemma digest_variants_elem class conflicts (l : list prepared) v :
  v ∈ digest_variants class conflicts (group_by snd l) <->
  exists h p rest, filter (fun q : prepared => q.2 = h) l = p :: rest /\
    v = MkVariant (class (Z.of_nat (length (p :: rest)))) (Z.of_nat (length (p :: rest))) conflicts p.1 h.
Proof.
  unfold digest_variants. rewrite list_elem_of_omap. split.
  - intros ([h [|p rest]] & Hg & Hv); [done|]. apply elem_of_group_by in Hg as [Hg _].
    injection Hv as <-. by exists h, p, rest.
  - intros (h & p & rest & Hg & ->). exists (h, p :: rest). split; [|done]. by apply elem_of_group_by.
Qed.
Lemma twins_valid l p :
  is_valid p = true -> twins l p = filter (fun q : prepared => q.2 = p.2) (of_identity l p).
Proof.
  intros Hp. unfold twins, of_identity. rewrite !list_filter_filter. apply list_filter_iff. intros q.
  rewrite same_variant_spec, Hp. split.
  - intros (H1 & H2 & H3). by rewrite <-(H3 eq_refl).
  - intros ((H1 & H2) & H3). repeat split; by auto.
Qed.
Lemma twins_invalid l p :
  is_valid p = false ->
  twins l p = filter (fun q : prepared => q.2 = p.2) (filter (fun q => is_valid q = false) l).
Proof.
  intros Hp. unfold twins. rewrite list_filter_filter. apply list_filter_iff. intros q.
  rewrite same_variant_spec, Hp. split.
  - by intros (H1 & H2 & _).
  - intros (H1 & H2). repeat split; by auto.
Qed.
Lemma filter_head {A} (P : A -> Prop) `{forall x, Decision (P x)} l x rest :
  filter P l = x :: rest -> P x /\ x ∈ l.
Proof. intros E. apply (list_elem_of_filter P). rewrite E. by left. Qed.

Lemma filter_nonempty {A} (P : A -> Prop) `{forall x, Decision (P x)} l x :
  P x -> x ∈ l -> filter P l <> [].
Proof.
  intros Hx Hl E. pose proof (proj2 (list_elem_of_filter P l x) (conj Hx Hl)) as Hin.
  rewrite E in Hin. by apply elem_of_nil in Hin.
Qed.
(** The variants are those of the rows that come first among their twins. *)
Lemma all_variants_elem l v :
  v ∈ all_variants l <-> exists p, head (twins l p) = Some p /\ v = variant_of l p.
Proof.
  unfold all_variants. rewrite elem_of_app, list_elem_of_join. split.
  - intros [(vs & Hv & Hvs)|Hv].
    + apply list_elem_of_fmap in Hvs as ([id g] & -> & [Hg Hne]%elem_of_group_by).
      unfold identity_variants in Hv. simpl in Hv. apply digest_variants_elem in Hv as (h & p & rest & Ef & ->).
      destruct (filter_head _ _ _ _ Ef) as [<- Hp]. rewrite Hg in Hp.
      apply list_elem_of_filter in Hp as [<- Hp]. apply list_elem_of_filter in Hp as [Hvalid Hp].
      assert (g = of_identity l p) as E by exact Hg. rewrite E in *. clear E Hg. exists p. rewrite twins_valid by done. rewrite Ef. split; [done|].
      unfold variant_of, class_of, conflicts_of, digests. by rewrite twins_valid, Hvalid, Ef by done.
    + apply digest_variants_elem in Hv as (h & p & rest & Ef & ->).
      destruct (filter_head _ _ _ _ Ef) as [<- Hp]. apply list_elem_of_filter in Hp as [Hvalid Hp].
      exists p. rewrite twins_invalid by done. rewrite Ef. split; [done|].
      unfold variant_of, class_of, conflicts_of. by rewrite twins_invalid, Hvalid, Ef by done.
  - intros (p & Hh & ->). destruct (is_valid p) eqn:Hvalid.
    + left. destruct (twins l p) as [|p' rest] eqn:Et; [done|]. injection Hh as ->.
      assert (p ∈ of_identity l p) as Hp.
      { rewrite twins_valid in Et by done. by apply filter_head in Et as [_ ?]. }
      exists (identity_variants (of_identity l p)). split.
      * unfold identity_variants. apply digest_variants_elem. exists p.2, p, rest.
        rewrite <-twins_valid by done. split; [done|].
        unfold variant_of, class_of, conflicts_of, digests. by rewrite Hvalid, Et.
      * apply list_elem_of_fmap. exists (_identity_key p.1, of_identity l p). split; [done|].
        apply elem_of_group_by. split; [done|]. intros E. rewrite E in Hp. by apply elem_of_nil in Hp.
    + right. destruct (twins l p) as [|p' rest] eqn:Et; [done|]. injection Hh as ->.
      apply digest_variants_elem. exists p.2, p, rest. rewrite <-twins_invalid by done. split; [done|].
      unfold variant_of, class_of, conflicts_of. by rewrite Hvalid, Et.
Qed.

(** ** Conflicts and counts *)
Lemma group_keys l : (group_by (snd : prepared -> string) l).*1 ≡ₚ remove_dups l.*2.
Proof.
  apply NoDup_Permutation; [apply group_by_keys_NoDup|apply NoDup_remove_dups|].
  intros h. rewrite elem_of_remove_dups, !list_elem_of_fmap. split.
  - intros ([h' g] & -> & [Hg Hne]%elem_of_group_by). simpl. destruct g as [|p g]; [done|].
    symmetry in Hg. apply filter_head in Hg as [<- Hp]. by exists p.
  - intros (p & -> & Hp). exists (p.2, filter (fun q => q.2 = p.2) l). split; [done|].
    apply elem_of_group_by. split; [done|].
    by apply (filter_nonempty _ _ p).
Qed.
Lemma digests_spec l : digests l = Z.of_nat (length (remove_dups l.*2)).
Proof. unfold digests. rewrite <-group_keys, length_fmap. done. Qed.
Lemma digests_perm l l' : l ≡ₚ l' -> digests l = digests l'.
Proof.
  intros Hp. rewrite !digests_spec. f_equal. apply Permutation_length.
  apply NoDup_Permutation; [apply NoDup_remove_dups..|]. intros h. rewrite !elem_of_remove_dups. by rewrite Hp.
Qed.
Lemma digests_conflict l p :
  p ∈ l -> 1 < digests l <-> exists q, q ∈ l /\ q.2 <> p.2.
Proof.
  intros Hp. rewrite digests_spec.
  assert (p.2 ∈ remove_dups l.*2) as Hd by (by apply elem_of_remove_dups, list_elem_of_fmap_2).
  split.
  - intros Hlt. destruct (remove_dups l.*2) as [|a [|b rest]] eqn:E; [simpl in Hlt; lia|simpl in Hlt; lia|].
    pose proof (NoDup_remove_dups l.*2) as Hn. rewrite E in Hn. apply NoDup_cons in Hn as [Hab _].
    assert (exists h, h ∈ a :: b :: rest /\ h <> p.2) as (h & Hh & Hne).
    { destruct (decide (a = p.2)) as [Ha|Ha]; [exists b|exists a]; (split; [set_solver|]); [|done].
      intros Hb. apply Hab. rewrite Ha, <-Hb. by left. }
    rewrite <-E in Hh. apply elem_of_remove_dups, list_elem_of_fmap in Hh as (q & -> & Hq). by exists q.
  - intros (q & Hq & Hne).
    assert (q.2 ∈ remove_dups l.*2) as Hq' by (by apply elem_of_remove_dups, list_elem_of_fmap_2).
    destruct (remove_dups l.*2) as [|a [|b rest]] eqn:E; [by apply elem_of_nil in Hd| |simpl; lia].
    apply list_elem_of_singleton in Hd, Hq'. congruence.
Qed.
Lemma conflicts_spec l p :
  p ∈ l -> 1 < conflicts_of l p <-> is_valid p = true /\
    exists q, q ∈ l /\ is_valid q = true /\ _identity_key q.1 = _identity_key p.1 /\ q.2 <> p.2.
Proof.
  intros Hp. unfold conflicts_of. destruct (is_valid p) eqn:Hv; [|split; [lia|by intros [? _]]].
  rewrite (digests_conflict _ p).
  - unfold of_identity. setoid_rewrite list_elem_of_filter. setoid_rewrite list_elem_of_filter. split.
    + intros (q & (Hi & Hq & Hl) & Hd). eauto 10.
    + intros (_ & q & Hl & Hq & Hi & Hd). eauto 10.
  - unfold of_identity. rewrite !list_elem_of_filter. done.
Qed.

(** Each row is counted once. *)
Definition total (vs : list LogicalRowVariant) : Z := foldr (fun v n => duplicate_count v + n) 0 vs.
Lemma total_app vs ws : total (vs ++ ws) = total vs + total ws.
Proof. induction vs as [|v vs IH]; simpl; lia. Qed.
Lemma total_digest_variants class conflicts groups :
  total (digest_variants class conflicts groups) = Z.of_nat (length (mjoin groups.*2)).
Proof.
  induction groups as [|[h [|p rest]] groups IH]; [done|exact IH|].
  change (total (digest_variants class conflicts ((h, p :: rest) :: groups))) with
    (Z.of_nat (length (p :: rest)) + total (digest_variants class conflicts groups)).
  rewrite IH. rewrite fmap_cons. cbn [mjoin list_join snd].
  rewrite (length_app (p :: rest)), Nat2Z.inj_add. done.
Qed.
Lemma total_identity_variants g : total (identity_variants g) = Z.of_nat (length g).
Proof. unfold identity_variants. rewrite total_digest_variants. by rewrite group_by_partition. Qed.
Lemma total_all_variants l : total (all_variants l) = Z.of_nat (length l).
Proof.
  unfold all_variants. rewrite total_app, total_digest_variants, group_by_partition.
  assert (forall gs : list ((string * option string * option string) * list prepared),
    total (mjoin (map (fun g => identity_variants g.2) gs)) = Z.of_nat (length (mjoin gs.*2))) as ->.
  { induction gs as [|[k g] gs IH]; [done|].
    change (mjoin ((k, g) :: gs).*2) with (g ++ mjoin gs.*2). cbn [map mjoin list_join snd].
    rewrite total_app, total_identity_variants, length_app, Nat2Z.inj_add. f_equal. exact IH. }
  rewrite group_by_partition. rewrite <-Nat2Z.inj_add, <-length_app. f_equal. apply Permutation_length.
  rewrite <-(filter_app_complement (fun q => is_valid q = true) l) at 3. apply Permutation_app; [done|].
  apply Permutation_refl'. apply list_filter_iff. intros q. by rewrite not_true_iff_false.
Qed.
Lemma same_twins l p q : same_variant q p = true -> twins l p = twins l q.
Proof.
  intros (E1 & E2 & E3)%same_variant_spec. unfold twins. apply list_filter_iff. intros x.
  rewrite !same_variant_spec, <-E1, <-E2. split; intros (Hv & Hd & Hi); (split; [done|]; split; [done|]);
    intros Hq; specialize (E3 Hq); specialize (Hi Hq); congruence.
Qed.

Section variants.
Context `{Sha256}.

Lemma total_perm vs ws : vs ≡ₚ ws -> total vs = total ws.
Proof. induction 1; simpl; lia. Qed.
Lemma prepare_ok row p : prepare row = Ok p <-> exists b, row_frame row = Ok b /\ p = (row, sha256_hexdigest b).
Proof.
  unfold prepare, row_logical_sha256. split.
  - intros (d & (b & Hb & [= <-])%bind_ok & [= <-])%bind_ok. by exists b.
  - intros (b & -> & ->). done.
Qed.
Lemma partition_ok rows vs :
  partition_row_variants rows = Ok vs <->
  exists l, traverse prepare rows = Ok l /\ vs = py_sorted _variant_sort_key (all_variants l).
Proof.
  unfold partition_row_variants. split.
  - intros (l & Hl & [= <-])%bind_ok. by exists l.
  - by intros (l & -> & ->).
Qed.

(** C30.  Partitioning is exact.  The variants account for every row:
    each variant stands for the rows with its digest (and, for valid rows, its
    identity) and counts them, each row is in a variant, and the counts add up
    to the number of rows; a variant is a conflict member exactly when another
    valid row of its identity says something else, and otherwise an equivalent
    duplicate exactly when it stands for several rows. *)
Theorem partition_exact (rows : list LogicalRow) (vs : list LogicalRowVariant)
    (Hp : partition_row_variants rows = Ok vs) :
  exists l : list prepared, Forall2 (fun row p => prepare row = Ok p) rows l /\
    (forall v, v ∈ vs -> exists p, head (twins l p) = Some p /\ v_row v = p.1 /\
       row_logical_digest v = p.2 /\ duplicate_count v = Z.of_nat (length (twins l p)) /\
       (classification v = "CONFLICT_MEMBER" <-> is_valid p = true /\
          exists q, q ∈ l /\ is_valid q = true /\ _identity_key q.1 = _identity_key p.1 /\ q.2 <> p.2) /\
       (classification v = "EQUIVALENT_DUPLICATE" <->
          classification v <> "CONFLICT_MEMBER" /\ 1 < duplicate_count v)) /\
    (forall q, q ∈ l -> exists v, v ∈ vs /\ same_variant (v_row v, row_logical_digest v) q = true) /\
    total vs = Z.of_nat (length rows).
Proof.
  apply partition_ok in Hp as (l & Hl & ->). exists l. split; [by apply traverse_ok|]. split; [|split].
  - intros v Hv. rewrite elem_of_py_sorted in Hv. apply all_variants_elem in Hv as (p & Hh & ->).
    exists p. do 4 (split; [done|]).
    assert (p ∈ l) as Hin.
    { destruct (twins l p) as [|p' rest] eqn:Et; [done|]. injection Hh as ->.
      by apply filter_head in Et as [_ ?]. }
    rewrite <-(conflicts_spec l p Hin). simpl. unfold class_of, duplicate_class.
    destruct (Z.ltb_spec 1 (conflicts_of l p)); [split; [done|]; split; [done|by intros [? _]]|].
    split; [split; [|lia]; by case_match|]. destruct (Z.ltb_spec 1 (Z.of_nat (length (twins l p)))).
    + done.
    + split; [done|]. intros [_ ?]. lia.
  - intros q Hq. assert (q ∈ twins l q) as Hqq by (apply twins_elem; split; [by apply same_variant_spec|done]).
    destruct (twins l q) as [|p rest] eqn:Et; [by apply elem_of_nil in Hqq|].
    pose proof Et as Ep. apply filter_head in Ep as [Hs Hp']. exists (variant_of l p). split.
    + rewrite elem_of_py_sorted. apply all_variants_elem. exists p. split; [|done].
      by rewrite (same_twins l _ _ Hs), Et.
    + simpl. apply same_variant_spec in Hs as (E1 & E2 & E3). destruct p as [row d]. simpl in *.
      apply same_variant_spec. simpl. rewrite <-E1, <-E2. split; [done|]. split; [done|].
      intros Hv. symmetry. by apply E3.
  - rewrite (total_perm _ _ (py_sorted_perm _ _)), total_all_variants.
    by rewrite (traverse_length _ _ _ Hl).
Qed.

(** ** The order of the rows *)
(** Rows that share a digest have the same frame. *)
Definition collision_free (rows : list LogicalRow) : Prop := forall r1 r2 b1 b2,
  r1 ∈ rows -> r2 ∈ rows -> row_frame r1 = Ok b1 -> row_frame r2 = Ok b2 ->
  sha256_hexdigest b1 = sha256_hexdigest b2 -> b1 = b2.
(** ... so the digest determines what a variant is sorted and framed by. *)
Definition coherent (l : list prepared) : Prop := forall p q, p ∈ l -> q ∈ l -> p.2 = q.2 ->
  row_frame p.1 = row_frame q.1 /\ identity_state p.1 = identity_state q.1 /\
  _identity_key p.1 = _identity_key q.1.
Lemma prepared_coherent rows l :
  collision_free rows -> traverse prepare rows = Ok l -> coherent l.
Proof.
  intros Hc Hl p q Hp Hq Hd.
  destruct (traverse_elem_of _ _ _ _ Hl Hp) as (r1 & Hr1 & (b1 & B1 & ->)%prepare_ok).
  destruct (traverse_elem_of _ _ _ _ Hl Hq) as (r2 & Hr2 & (b2 & B2 & ->)%prepare_ok). simpl in *.
  pose proof (Hc _ _ _ _ Hr1 Hr2 B1 B2 Hd) as ->. split; [congruence|].
  destruct (writes_row r1 b2 B1) as [E1 T1], (writes_row r2 b2 B2) as [E2 T2].
  rewrite E1 in E2. apply encs_inj in E2; [|done..].
  destruct (row_tokens_inj r1 r2 b2 b2 [] [] B1 B2 ltac:(by rewrite E2)) as [Er _].
  unfold row_content in Er. injection Er as Es Ek Ep Ea _ _. unfold _identity_key. split; congruence.
Qed.
Lemma coherent_same l p q : coherent l -> p ∈ l -> q ∈ l -> p.2 = q.2 -> same_variant p q = true.
Proof.
  intros Hc Hp Hq Hd. destruct (Hc p q Hp Hq Hd) as (_ & Hs & Hi). apply same_variant_spec.
  unfold is_valid. by rewrite Hs.
Qed.
Lemma coherent_perm l l' : l ≡ₚ l' -> coherent l -> coherent l'.
Proof. intros Hp Hc p q. rewrite <-!Hp. apply Hc. Qed.

Lemma digest_variants_keys class conflicts groups :
  sublist (row_logical_digest <$> digest_variants class conflicts groups) groups.*1.
Proof.
  induction groups as [|[h [|p g]] gs IH]; [constructor| |].
  - by apply sublist_cons.
  - by apply sublist_skip.
Qed.
Lemma digest_variants_NoDup class conflicts (l : list prepared) :
  NoDup (row_logical_digest <$> digest_variants class conflicts (group_by snd l)).
Proof. eapply sublist_NoDup; [|apply digest_variants_keys]. apply group_by_keys_NoDup. Qed.
Lemma variant_head l v : v ∈ all_variants l -> exists p, p ∈ l /\ v_row v = p.1 /\ row_logical_digest v = p.2 /\ v = variant_of l p.
Proof.
  intros (p & Hh & ->)%all_variants_elem. exists p. split; [|done].
  destruct (twins l p) as [|p' rest] eqn:Et; [done|]. injection Hh as ->. by apply filter_head in Et as [_ ?].
Qed.
Lemma variant_digest class conflicts (l : list prepared) h :
  h ∈ row_logical_digest <$> digest_variants class conflicts (group_by snd l) -> exists p, p ∈ l /\ p.2 = h.
Proof.
  intros (v & -> & (d & p & rest & Ef & ->)%digest_variants_elem)%list_elem_of_fmap.
  apply filter_head in Ef as [? ?]. by exists p.
Qed.
Lemma fmap_join_bind {A B C} (f : A -> list B) (g : B -> C) l :
  g <$> mjoin (map f l) = l ≫= (fun x => g <$> f x).
Proof. induction l as [|x l IH]; [done|]. cbn. rewrite fmap_app. f_equal. exact IH. Qed.
Lemma all_variants_digests_NoDup l : coherent l -> NoDup (row_logical_digest <$> all_variants l).
Proof.
  intros Hc. unfold all_variants. rewrite fmap_app. apply NoDup_app.
  rewrite fmap_join_bind. split; [|split; [|apply digest_variants_NoDup]].
  - apply NoDup_bind.
    + intros [id1 g1] [id2 g2] h [-> N1]%elem_of_group_by [-> N2]%elem_of_group_by H1 H2.
      apply variant_digest in H1 as (p1 & P1 & D1), H2 as (p2 & P2 & D2).
      apply list_elem_of_filter in P1 as [<- [_ P1]%list_elem_of_filter].
      apply list_elem_of_filter in P2 as [<- [_ P2]%list_elem_of_filter].
      destruct (Hc p1 p2 P1 P2 ltac:(congruence)) as (_ & _ & ->). done.
    + intros g _. apply digest_variants_NoDup.
    + eapply NoDup_fmap_1, group_by_keys_NoDup.
  - intros h ([id g] & Hh & [-> Hg]%elem_of_group_by)%list_elem_of_bind H2.
    apply variant_digest in Hh as (p1 & P1 & D1), H2 as (p2 & P2 & D2).
    apply list_elem_of_filter in P1 as [_ [V1 P1]%list_elem_of_filter].
    apply list_elem_of_filter in P2 as [V2 P2].
    destruct (Hc p1 p2 P1 P2 ltac:(congruence)) as (_ & Hs & _). unfold is_valid in *. congruence.
Qed.

Definition summary (v : LogicalRowVariant) :=
  (classification v, duplicate_count v, conflict_variant_count v, _variant_sort_key v).
Lemma summary_digest v w : summary v = summary w -> row_logical_digest v = row_logical_digest w.
Proof. unfold summary, _variant_sort_key. by intros [= _ _ _ _ _ _ _ _ ->]. Qed.
Lemma twins_perm l l' p : l ≡ₚ l' -> twins l p ≡ₚ twins l' p.
Proof. intros Hp. unfold twins. by rewrite Hp. Qed.
Lemma conflicts_perm l l' p : l ≡ₚ l' -> conflicts_of l p = conflicts_of l' p.
Proof.
  intros Hp. unfold conflicts_of. destruct (is_valid p); [|done]. apply digests_perm.
  unfold of_identity. by rewrite Hp.
Qed.
Lemma summary_variant l l' p p' :
  l ≡ₚ l' -> coherent l -> p ∈ l -> p' ∈ l -> p.2 = p'.2 ->
  summary (variant_of l p) = summary (variant_of l' p').
Proof.
  intros Hp Hc Hin Hin' Hd. destruct (Hc p p' Hin Hin' Hd) as (_ & Hs & Hi).
  pose proof (coherent_same l p p' Hc Hin Hin' Hd) as Hsame.
  assert (conflicts_of l p = conflicts_of l' p') as Ec.
  { rewrite (conflicts_perm _ _ _ Hp). unfold conflicts_of, of_identity, is_valid. by rewrite Hs, Hi. }
  assert (length (twins l p) = length (twins l' p')) as Et.
  { rewrite (twins_perm _ _ p Hp). by rewrite (same_twins l' _ _ Hsame). }
  unfold summary, variant_of, class_of, _variant_sort_key. simpl. unfold _identity_key in Hi.
  injection Hi as _ E1 E2. by rewrite Ec, Et, Hs, E1, E2, Hd.
Qed.
Lemma summaries_incl l l' : l ≡ₚ l' -> coherent l -> forall x, x ∈ summary <$> all_variants l -> x ∈ summary <$> all_variants l'.
Proof.
  intros Hp Hc x (v & -> & (p & Hin & _ & _ & ->)%variant_head)%list_elem_of_fmap.
  assert (p ∈ twins l' p) as Ht.
  { apply twins_elem. split; [by apply same_variant_spec|]. by rewrite <-Hp. }
  destruct (twins l' p) as [|p' rest] eqn:Et; [by apply elem_of_nil in Ht|].
  pose proof Et as Ep. apply filter_head in Ep as [Hs Hin']. rewrite <-Hp in Hin'.
  apply list_elem_of_fmap. exists (variant_of l' p'). split.
  - apply summary_variant; [done..|]. by apply same_variant_spec in Hs as (_ & ? & _).
  - apply all_variants_elem. exists p'. split; [|done]. by rewrite (same_twins l' p' p Hs), Et.
Qed.
Lemma summaries_NoDup l : coherent l -> NoDup (summary <$> all_variants l).
Proof.
  intros Hc%all_variants_digests_NoDup. apply (NoDup_fmap_1 (fun x => x.2.2)). rewrite <-list_fmap_compose.
  exact Hc.
Qed.
Lemma sorted_summaries l l' :
  l ≡ₚ l' -> coherent l ->
  summary <$> py_sorted _variant_sort_key (all_variants l)
    = summary <$> py_sorted _variant_sort_key (all_variants l').
Proof.
  intros Hp Hc. pose proof (coherent_perm _ _ Hp Hc) as Hc'.
  rewrite !(py_sorted_fmap summary _variant_sort_key snd) by done.
  apply py_sorted_canonical.
  - intros x y (v & -> & Hv)%list_elem_of_fmap (w & -> & Hw)%list_elem_of_fmap E. simpl in E.
    apply variant_head in Hv as (p & Hin & _ & _ & ->). apply variant_head in Hw as (q & Hin' & _ & _ & ->).
    apply summary_variant; [done..|]. unfold _variant_sort_key in E. simpl in E. by injection E.
  - apply NoDup_Permutation; [by apply summaries_NoDup..|]. intros x.
    split; apply summaries_incl; [done..|by symmetry|done].
Qed.

Lemma finding_key_inj f1 f2 : _finding_sort_key f1 = _finding_sort_key f2 -> f1 = f2.
Proof.
  destruct f1 as [c1 s1 k1 [o1|]], f2 as [c2 s2 k2 [o2|]]; unfold _finding_sort_key; simpl; intros E; by simplify_eq.
Qed.
Lemma sorted_findings_perm g g' k : g ≡ₚ g' -> sorted_findings g = Ok k -> sorted_findings g' = Ok k.
Proof.
  unfold sorted_findings. intros Hp (us & Hu & [= <-])%bind_ok.
  assert (filter (fun f => classification_finding f = false) g ≡ₚ
    filter (fun f => classification_finding f = false) g') as Hf by (by rewrite Hp).
  destruct (traverse_perm _ _ _ _ Hf Hu) as (us' & -> & _). simpl. f_equal.
  symmetry. apply py_sorted_canonical; [|done]. intros x y _ _. apply finding_key_inj.
Qed.
Lemma variant_frames_eq vs vs' :
  Forall2 (fun v w => summary v = summary w /\ row_frame (v_row v) = row_frame (v_row w)) vs vs' ->
  map variant_frame vs = map variant_frame vs'.
Proof.
  induction 1 as [|v w vs vs' [Hs Hr] _ IH]; [done|]. simpl. rewrite IH. f_equal.
  unfold summary in Hs. pose proof (f_equal fst Hs) as E. simpl in E. injection E as E1 E2 E3.
  unfold variant_frame. by rewrite E1, E2, E3, Hr.
Qed.

(** The order of the rows does not matter: rows and findings supplied
    in another order give the same fingerprint, the same stream length and the
    same variants (classification, counts and sort key, in order), when the hash
    has no collision among the rows' frames. *)
Theorem fingerprint_order_independent (p : SourceProfile) (rows rows' : list LogicalRow)
    (g g' : list LogicalFinding) (r : LogicalFingerprintResult)
    (Hrows : rows ≡ₚ rows') (Hg : g ≡ₚ g') (Hc : collision_free rows)
    (Hr : compute_logical_fingerprint p rows g = Ok r) :
  exists r', compute_logical_fingerprint p rows' g' = Ok r' /\
    logical_fingerprint r' = logical_fingerprint r /\ stream_bytes r' = stream_bytes r /\
    summary <$> variants r' = summary <$> variants r.
Proof.
  unfold compute_logical_fingerprint in *.
  apply bind_ok in Hr as (fds & Hf & (vs & Hv & (b & Hb & [= <-])%bind_ok)%bind_ok).
  rewrite (sorted_findings_perm _ _ _ Hg Hf). simpl. apply partition_ok in Hv as (l & Hl & ->).
  destruct (traverse_perm _ _ _ _ Hrows Hl) as (l' & Hl' & Hp).
  pose proof (prepared_coherent _ _ Hc Hl) as Hcoh. pose proof (sorted_summaries _ _ Hp Hcoh) as Hs.
  unfold partition_row_variants. rewrite Hl'. simpl.
  set (vs := py_sorted _variant_sort_key (all_variants l)) in *.
  set (vs' := py_sorted _variant_sort_key (all_variants l')) in *.
  assert (Forall2 (fun v w => summary v = summary w /\ row_frame (v_row v) = row_frame (v_row w)) vs' vs) as Hall.
  { symmetry in Hs. apply list_eq_Forall2, (proj1 (Forall2_fmap summary summary eq vs' vs)) in Hs.
    apply Forall2_same_length_lookup. split; [exact (Forall2_length _ _ _ Hs)|]. intros i v w Hv Hw.
    pose proof (Forall2_lookup_lr _ _ _ _ _ _ Hs Hv Hw) as E. simpl in E. split; [done|].
    apply list_elem_of_lookup_2 in Hv, Hw. unfold vs, vs' in *. rewrite elem_of_py_sorted in Hv, Hw.
    apply variant_head in Hv as (p1 & P1 & E1 & D1 & _). apply variant_head in Hw as (p2 & P2 & E2 & D2 & _).
    apply summary_digest in E. rewrite E1, E2. rewrite <-Hp in P1. apply (Hcoh p1 p2 P1 P2). congruence. }
  assert (logical_stream p fds vs' = logical_stream p fds vs) as ->.
  { unfold logical_stream, count_frame. by rewrite (variant_frames_eq _ _ Hall), (Forall2_length _ _ _ Hall). }
  rewrite Hb. simpl. eexists. split; [done|]. by repeat split.
Qed.
End variants.

(** * Witnesses *)
Import ImportExamples.
Definition sample_variants : list LogicalRowVariant := variants (import [row_a; row_b; row_c]).
Lemma partition_exact_witness :
  map classification sample_variants = ["CONFLICT_MEMBER"; "CONFLICT_MEMBER"] /\
  map duplicate_count sample_variants = [2; 1] /\ total sample_variants = 3.
Proof.
  split; [vm_compute; reflexivity|]. split; [vm_compute; reflexivity|].
  assert (partition_row_variants [row_a; row_b; row_c] = Ok sample_variants) as Hp by (vm_compute; reflexivity).
  destruct (partition_exact [row_a; row_b; row_c] sample_variants Hp) as (l & _ & _ & _ & Ht). exact Ht.
Defined.
Lemma fingerprint_order_independent_witness :
  exists r', compute_logical_fingerprint profile [row_c; row_b; row_a] [] = Ok r' /\
    logical_fingerprint r' = logical_fingerprint (import [row_a; row_b; row_c]).
Proof.
  destruct (fingerprint_order_independent profile [row_a; row_b; row_c] [row_c; row_b; row_a] [] []
    (import [row_a; row_b; row_c])) as (r' & Hr & Hf & _).
  - exact (Permutation_rev [row_a; row_b; row_c]).
  - reflexivity.
  - intros r1 r2 b1 b2 _ _ _ _ e. exact e.
  - apply import_run. left. reflexivity.
  - exists r'. split; [exact Hr|exact Hf].
Defined.
